(* ===== verification/_CoqProject ===== *)
-Q . S2P
Prelude.v
ErrorCodes.v
AccountStateMachine.v
Json.v
AppAccountInfo.v
AppAccountJson.v
DataStorage.v
AppIndex.v
AppAccountStore.v
AccountModel.v
AppAccountControl.v
AppAccountRequests.v
AppAccountOutcomes.v
AppAccountChanges.v
FileStore.v
FileOperator.v
FileTheorems.v
OsAccountInfo.v
OsAccountEnv.v
OsAccountFiles.v
OsAccountDocs.v
OsAccountWorld.v
OsAccountList.v
OsAccountListTheorems.v
OsAccountFileTheorems.v
OsAccountConstraints.v
ConstraintMaps.v
OsAccountConstraintTheorems.v
OsAccountConstraintQueries.v
PrivilegeUtils.v
PrivilegeCache.v
PrivilegeCacheTheorems.v
PrivilegeCacheFile.v
PrivilegeCacheWorld.v
OsAccountServices.v
OsAccountInterface.v
OsAccountManager.v
OsAccountFrame.v
OsAccountCreation.v
OsAccountQueries.v
OsAccountMarks.v
OsAccountForeground.v
OsAccountActivation.v
OsAccountLifecycle.v
OsAccountAnswers.v
OsAccountLifecycleWorld.v
OsAccountSubscribe.v
OsAccountNotices.v
OsAccountConstraintSubscribe.v
OsAccountConstraintNotices.v
AccountPermission.v
OsAccountService.v
OsAccountServiceTheorems.v
OsAccountServiceState.v
OsAccountServiceWorld.v
DistributedSubscribe.v
OhosAccountInfo.v
OhosAccountFiles.v
OhosAccountStorage.v
OhosAccountState.v
OsAccountSubProfiles.v
OhosAccountManager.v
OhosAccountService.v
OhosAccountAnnouncements.v
OhosAccountBindings.v
OhosAccountQueries.v
OhosAccountStreams.v
OhosAccountWorld.v
