(* ===== verification/Prelude.v ===== *)
(** * The account service of OpenHarmony

    The repository implements the account subsystem: a system service
    (src/services/accountmgr) that keeps the accounts of applications, the accounts of
    the operating system's users, distributed accounts, domain accounts and, since
    recently, privileges of processes; client libraries and language bindings around
    it (src/frameworks, src/interfaces); and tools.  The development models the parts of
    the service that decide and keep state.  Calls between processes, bindings, logging
    and tracing are left out.

    ** How the service is put together

    - An account of an application ([AppAccountInfo]) has an owner, a name, the
      applications that may use it, data, credentials and OAuth tokens.  It is stored as
      a JSON text in one of the databases of a user.  The control manager runs every
      request as: find the account by its key, change the object, write it back, and
      keep the index of authorized accounts in step, in a transaction.
    - An account of the operating system is a JSON file per account, and the list of all
      accounts, with the next id and serial number, is one more document; further
      documents hold the constraints on accounts and who asked for them.  Files are
      written by a transaction on a temporary file.  Digests of the files are kept.
    - The manager of operating system accounts runs every request (activate, deactivate,
      remove, create, ...) as a process over the files and over other services: it marks
      the account, asks the ability, bundle and storage managers for their part, keeps
      what is active, verified and in the foreground in memory, and tells subscribers.
    - A distributed account is who is logged in on an account of the operating system: a
      state machine of logins, a JSON file per account with the avatar next to it, and
      events to subscribers and to everybody.  In a build with subspaces an account has
      several, each with a directory and a number of its own, one in the foreground.
    - The privileges of processes are kept in memory and in a signed file.

    ** The files and what they model

    Shared:
    - [Prelude]: machine integers, C strings, ordered containers, the monad [M] of
      computations that may fail and its two logics ([preserves], [wp]).
    - [ErrorCodes]: account_error_no.h and .cpp.
    - [Json]: json_utils.cpp over the class [CJsonLib], the cJSON library; [CJsonLaws]
      is its documented behaviour, [CJsonAlloc] that memory is available.  [TreeLib] is
      an instance.

    Distributed accounts:
    - [AccountStateMachine]: account_state_machine.cpp, the login states of a
      distributed account as a table in both builds.
    - [OhosAccountInfo], [OhosAccountFiles]: account_info.h, the documents, the files and
      the search for numbers (ohos_account_data_deal.cpp,
      os_account_subspace_data_deal.cpp); [StreamStore] is what is used of files besides
      [FileStore], [Platform] the clock and the hashes.
    - [DistributedSubscribe]: distributed_account_subscribe_manager.cpp and
      os_account_sub_profile_subscribe_manager.cpp.
    - [OhosAccountState]: the state around the manager of accounts, and the log of what is
      announced (account_event_provider.cpp); [OsAccountSubProfiles]:
      os_account_subspace_manager.cpp; [OhosAccountManager]: ohos_account_manager.cpp, in
      both builds; [OhosAccountService]: their front end (account_mgr_service.cpp,
      os_account_subspace_manager_service.cpp).
    - [OhosAccountStorage] (documents and the device), [OhosAccountAnnouncements] (what is
      announced by requests that fail, and switches of subspaces), [OhosAccountBindings]
      (what is stored and what subscribers know; the start), [OhosAccountQueries] (what
      applications learn; numbers) hold the theorems; [OhosAccountStreams] discharges
      [StreamStore] by [FileOperator], and [OhosAccountWorld] is a concrete service.

    Accounts of applications, services/accountmgr/src/appaccount:
    - [AppAccountInfo], [AppAccountJson]: the object and its stored text
      (app_account_info.cpp, app_account_info_json_parser.cpp).
    - [DataStorage]: account_data_storage.cpp and app_account_data_storage.cpp over the
      class [DbAdapter], whose calls may fail at any point; transactions.
    - [AppIndex]: which clone of an application is meant (the first functions of
      app_account_control_manager.cpp, bundle_manager_adapter.cpp).
    - [AppAccountStore]: the open stores, the index of authorized accounts and the asset
      store (class [AssetApi]).
    - [AccountModel]: the accounts and the index of a user as maps, the specification.
    - [AppAccountControl]: the requests of app_account_control_manager.cpp.
    - [AppAccountRequests]: adding, deleting and access refine the specification.
    - [AppAccountOutcomes], [AppAccountChanges]: how each request that writes a store ends,
      and what holds after any sequence of them.

    Files:
    - [FileStore]: the class the users of files are proved against.
    - [FileOperator], [FileTheorems]: account_file_operator.cpp over the class [Posix],
      and that it implements [FileStore]; [PosixLaws] says what a call does to the disk,
      [PosixReliable] that no call fails, [Crashing] is a disk whose process dies after
      a number of calls.  [RamDisk] is an instance.

    Accounts of the operating system, services/accountmgr/src/osaccount:
    - [OsAccountInfo]: the object, its checks, its text (os_account_info.cpp,
      os_account_info_json_parser.cpp).
    - [OsAccountEnv], [OsAccountFiles]: os_account_control_file_manager.cpp without
      constraints: list, ids, serial numbers, account files, subspaces, configuration,
      digests (account_file_watcher_manager.cpp), recovery.
    - [OsAccountDocs], [OsAccountWorld]: reasoning about documents, a concrete world.
    - [OsAccountList], [OsAccountListTheorems], [OsAccountFileTheorems]: the abstract list
      of accounts, the refinement, and the outcomes of the operations on files.
    - [OsAccountConstraints], [ConstraintMaps], [OsAccountConstraintTheorems],
      [OsAccountConstraintQueries]: the constraint documents, the maps they hold, the
      refinement, and the queries (os_account_file_operator.cpp).

    The life of these accounts, inner_os_account_manager.cpp and what it is made of:
    - [OsAccountServices]: the state of the manager, the log of its announcements, and the
      services around it as classes; [OsAccountInterface]: os_account_interface.cpp, the
      calls to them with their retries.
    - [OsAccountManager]: marks, active accounts, activation, switching, deactivation,
      removal, garbage, locking; [OsAccountCreation]: creation, types, the start of the
      service; [OsAccountQueries]: questions and changes.
    - [OsAccountFrame]: which properties of the manager its operations leave alone.
    - [OsAccountMarks]: the requests as an inductive type, and the marks; and the theorems,
      [OsAccountForeground] (deactivation), [OsAccountActivation] (activation, removal),
      [OsAccountLifecycle] (all requests in any order), [OsAccountAnswers] (queries), and
      [OsAccountLifecycleWorld], a concrete world.

    The service in front of this manager, and who follows what it announces:
    - [OsAccountSubscribe], [OsAccountNotices]: os_account_subscribe_manager.cpp, the
      records of subscribers, the call-backs of those that shake hands over a state, the
      queues of switches; and that subscribers are told what they asked for, in order.
    - [OsAccountConstraintSubscribe], [OsAccountConstraintNotices]: the same of
      constraints (os_account_constraint_subscribe_manager.cpp).
    - [AccountPermission]: account_permission_manager.cpp and the checks of callers.
    - [OsAccountService]: os_account_manager_service.cpp, every request with its checks in
      the order of the code, over [OsAccountManager] and the two kinds of subscriptions.
    - [OsAccountServiceTheorems]: the requests as an inductive type, and that those a
      caller may not make leave no trace; [OsAccountServiceState]: what all requests keep;
      [OsAccountServiceWorld]: requests through all the layers, and concrete callers.

    Privileges, services/accountmgr/src/authorization_manager:
    - [PrivilegeUtils]: privileges_map.cpp and privilege_utils.cpp; the class [System] is
      what is asked of the kernel, the trusted clock and the key store.
    - [PrivilegeCache]: privilege_cache_manager.cpp.
    - [PrivilegeCacheTheorems], [PrivilegeCacheFile], [PrivilegeCacheWorld]: what the
      cache promises, its file, and a concrete system.

    ** How code is modelled

    A function that may fail is a computation [M S A]: a state goes in, a value or an
    error code and a state come out, also when it fails, so what a failed call has
    already changed stays changed.  [mtry] hands an error on as a value, where the code
    looks at a return code and goes on.  Classes stand for code that is not under src/;
    their laws are what that code documents.  A pointer that is shared is written out as
    the put-back into the container it points into.  The brackets in the comment of a
    definition name the function it translates and its file.

    ** What the theorems show

    - Atomicity: a transaction leaves all or nothing, also when a call in it fails
      ([DataStorage]); a write that is cut off at any system call leaves the old or the
      new text ([FileTheorems]); a privilege that cannot be taken away stays
      ([PrivilegeCacheTheorems]).
    - Refinement: requests on accounts of applications implement operations on maps
      ([AppAccountRequests]), requests on the list of accounts operations on an abstract
      list ([OsAccountListTheorems]), constraint documents maps from constraints to their
      sources ([OsAccountConstraintTheorems]).
    - Invariants: limits of the objects; the index of authorized accounts agrees with the
      accounts after any requests that write a store, and no application has more than 1000
      accounts ([AppAccountChanges]); ids are not given out twice while one is in use; the
      privilege cache is well formed, and in its records and in its answers a privilege of a
      process is authorized only if the kernel has agreed to it for that process.
    - Access: queries answer with accounts the caller may see, an application index is
      one the caller may use, a privilege is granted for a reason; a request on accounts
      of the operating system that its caller may not make, or that a constraint forbids,
      changes and announces nothing, and of the services around it only asks questions
      ([OsAccountServiceTheorems]).
    - Subscriptions: the managers of subscriptions refine maps from listeners to wishes,
      which the requests of the service make up ([OsAccountServiceState]); what is
      announced reaches those that asked for it and nobody else, switches in the order of
      the announcements ([OsAccountNotices], [OsAccountConstraintNotices]).
    - Liveness: waiting for the subscribers that shake hands over a state ends well when
      each reports or is found dead within the five seconds the code waits, and with a
      timeout otherwise ([OsAccountNotices]).
    - Round trips: accounts, subspaces, the privilege cache and texts of files come back
      as they were stored; a changed file of privileges is not loaded.
    - The life of an account, however the other services answer: what is in the
      foreground is active and on one display, after any requests that are admissible (the
      definition [admissible] names the two kinds that are not); every request takes back
      the mark it has set, and a creation that is refused may take one more, that of
      another request; and who follows the announcements of switches knows who is in
      the foreground ([OsAccountLifecycle]).
    - Equivalences: the queries about the foreground agree with each other, and so do
      those about constraints ([OsAccountAnswers]).
    - Distributed accounts: a request that fails has announced nothing, the subspace in the
      foreground is the one last announced ([OhosAccountAnnouncements]); what is stored of
      an account has the status that the events about it tell, and the start copes with any
      file ([OhosAccountBindings]); an application that is not the system's cannot tell two
      accounts apart that begin with the same letters ([OhosAccountQueries]).
    - Errors: what every failing branch of the operations on account files, constraints
      and privileges leaves behind.

    ** Bounds and fuel

    - [next_local_id] counts down what is left of the range of ids, as the code counts
      up to [totalRange]; a theorem shows that it finds the first free id or that there
      is none.
    - [free_serial_number] loops without a bound in the code; a theorem shows that one
      round per account is enough while a number is free.
    - [mretry] repeats a call as often as the code does.
    - [retrying] repeats a call to another service at most as often as the loop in the
      code: 10 times where the service cannot be reached, 100 times while applications
      run on, 50 times for the first account.
    - [first_free] looks at as many numbers as the range has, as the loops in the code do,
      and a theorem shows that it finds one if there is one; [init_rounds] makes the two
      rounds of the start, [sync_retry] the three calls to the bundle manager.
    - JSON documents deeper than 1000 levels are not parsed, as in cJSON; what the
      service writes is at most five levels deep.

    ** What is not modelled

    - Interprocess calls, the stubs and the language bindings: they marshal and dispatch.
      The front ends of accounts of the operating system and of distributed accounts are
      modelled; requests that hand on to the database or to domain accounts, timers, and
      the start of other services by account_mgr_service.cpp are not.
    - Subscriptions to accounts of applications and the sessions of their authenticators.
    - Domain accounts, identity and access management, the trusted environment and the configuration of displays: classes where
      the manager of operating system accounts calls them, and the plan for what follows.
      [CreateOsAccountForDomain] goes on in a call-back of the domain plug-in and is left
      out.
    - The threads the manager starts are entries of its log; what they do is in the
      functions [unlocked_task] and [switched_task].  Timers and reports are left out.
      Memory for call-back objects is available, and publishing succeeds.
    - Locks: operations run as a whole, except where a theorem is about two of them
      overlapping.  [GetSerialNumber] would wait for a lock its own thread holds when
      the numbers are full and an account file is missing in a build with the database;
      the model has the result of the call and not the wait. *)
From Stdlib Require Import ZArith Lia Ascii String.
From stdpp Require Export base list gmap sets strings pretty sorting.
#[export] Set Default Goal Selector "!".
Open Scope Z_scope.

(** ** Build configuration *)

(** The preprocessor switches the modelled sources test.  A theorem that holds of
    every build quantifies over the instance. *)
Class Config := {
  HAS_ASSET_PART : bool;
  ENABLE_MULTIPLE_OS_ACCOUNT_SUBSPACE : bool;
  DISTRIBUTED_FEATURE_ENABLED : bool;
  SQLITE_DLCLOSE_ENABLE : bool;
}.

(** The switches of the sources of OS accounts and of files. *)
Class OsConfig := {
  ENABLE_FILE_WATCHER : bool;
  HAS_KV_STORE_PART : bool;
  HAS_HUKS_PART : bool;
  SUPPORT_AUTHORIZATION : bool;
  ENABLE_U1_ACCOUNT : bool;
}.

(** ** Machine integers *)

(** [static_cast<uint32_t>]: an unsigned 32-bit value is a [Z] in [0, 2^32). *)
Definition u32 (z : Z) : Z := z `mod` 4294967296.

(** [static_cast<int32_t>] of an integer (two's complement). *)
Definition i32 (z : Z) : Z := (z + 2147483648) `mod` 4294967296 - 2147483648.

Definition UINT32_MAX : Z := 4294967295.
Definition INT32_MIN : Z := -2147483648.
Definition INT32_MAX : Z := 2147483647.

Definition is_u32 (z : Z) : Prop := 0 ≤ z < 4294967296.
Definition is_i32 (z : Z) : Prop := -2147483648 ≤ z ≤ 2147483647.

Lemma u32_range z : is_u32 (u32 z).
Proof. unfold is_u32, u32. apply Z.mod_pos_bound. lia. Qed.

Lemma u32_id z : is_u32 z → u32 z = z.
Proof. intros. apply Z.mod_small. done. Qed.

Lemma i32_range z : is_i32 (i32 z).
Proof.
  unfold is_i32, i32. pose proof (Z.mod_pos_bound (z + 2147483648) 4294967296).
  lia.
Qed.

Lemma i32_id z : is_i32 z → i32 z = z.
Proof. intros H. unfold i32, is_i32 in *. rewrite Z.mod_small; lia. Qed.

Lemma u32_i32 z : is_u32 z → u32 (i32 z) = z.
Proof.
  intros H. unfold u32, i32, is_u32 in *.
  destruct (Z_lt_le_dec z 2147483648).
  - rewrite (Z.mod_small (z + _)) by lia. rewrite Z.mod_small; lia.
  - replace (z + 2147483648) with ((z - 2147483648) + 1 * 4294967296) by lia.
    rewrite Z.mod_add by lia. rewrite (Z.mod_small (z - _)) by lia.
    replace (z - 2147483648 - 2147483648) with (z + (-1) * 4294967296) by lia.
    rewrite Z.mod_add by lia. rewrite Z.mod_small; lia.
Qed.

(** ** The C++ [switch] statement and initialiser-list maps *)

(** [switch (e) { case l_1: return r_1; ... default: return d; }], where a case
    carries the list of its labels. *)
Fixpoint switch {A} (e : Z) (cases : list (list Z * A)) (d : A) : A :=
  match cases with
  | [] => d
  | (labels, r) :: rest => if existsb (Z.eqb e) labels then r else switch e rest d
  end.

(** [find] on an (unordered) map built from an initialiser list: the first pair
    with the key is the one inserted, later pairs with the same key are
    ignored. *)
Fixpoint init_list_find {A} (k : Z) (l : list (Z * A)) : option A :=
  match l with
  | [] => None
  | (k', v) :: rest => if k =? k' then Some v else init_list_find k rest
  end.

Lemma switch_cases {A} (e : Z) (cases : list (list Z * A)) (d : A) :
  switch e cases d = d ∨
  ∃ ls r, (ls, r) ∈ cases ∧ e ∈ ls ∧ switch e cases d = r.
Proof.
  induction cases as [|[ls r] rest IH]; simpl; [by left|].
  destruct (existsb (Z.eqb e) ls) eqn:E.
  - right. exists ls, r. split_and!; [set_solver| |done].
    apply existsb_exists in E as (x & Hx & ->%Z.eqb_eq).
    by apply list_elem_of_In.
  - destruct IH as [?|(ls' & r' & ? & ? & ?)]; [by left|right].
    exists ls', r'. set_solver.
Qed.

Lemma switch_Forall {A} (P : A → Prop) e (cases : list (list Z * A)) d :
  Forall (λ c, P c.2) cases → P d → P (switch e cases d).
Proof.
  intros HP Hd. destruct (switch_cases e cases d) as [->|(ls & r & Hin & _ & ->)]; [done|].
  rewrite Forall_forall in HP. by apply (HP (ls, r)).
Qed.

Lemma init_list_find_Some {A} k (l : list (Z * A)) v :
  init_list_find k l = Some v → (k, v) ∈ l.
Proof.
  induction l as [|[k' v'] l IH]; simpl; [done|].
  case (Z.eqb_spec k k') as [->|_]; intros H; simplify_eq; set_solver.
Qed.

Lemma init_list_find_None {A} k (l : list (Z * A)) :
  init_list_find k l = None ↔ k ∉ l.*1.
Proof.
  induction l as [|[k' v'] l IH]; simpl; [set_solver|].
  case (Z.eqb_spec k k') as [->|Hk]; set_solver.
Qed.


Lemma forallb_Forall_true {A} (f : A → bool) l : Forall (λ x, f x = true) l → forallb f l = true.
Proof. induction 1 as [|x l Hx _ IH]; simpl; [done|]. by rewrite Hx, IH. Qed.

Lemma NoDup_filter_fst {A B} (P : A * B → Prop) `{!∀ x, Decision (P x)} (l : list (A * B)) :
  NoDup l.*1 → NoDup (filter P l).*1.
Proof.
  induction l as [|[a b] l IH]; [done|]. rewrite fmap_cons, filter_cons. intros [Ha Hl]%NoDup_cons.
  case_decide; [|by apply IH]. rewrite fmap_cons. apply NoDup_cons. split; [|by apply IH].
  intros (x & Hx & [_ Hin]%list_elem_of_filter)%list_elem_of_fmap. apply Ha. cbn in *. subst.
  apply list_elem_of_fmap. by exists x.
Qed.

(** ** Strings *)

(** [std::string::c_str] handed to C code: the bytes up to the first null. *)
Fixpoint c_str (s : string) : string :=
  match s with
  | EmptyString => EmptyString
  | String a s' => if Ascii.eqb a Ascii.zero then EmptyString else String a (c_str s')
  end.

Definition nul_free (s : string) : Prop := c_str s = s.

#[export] Instance nul_free_dec s : Decision (nul_free s).
Proof. unfold nul_free. apply _. Defined.

(** [std::string::empty]. *)
Definition string_empty (s : string) : bool :=
  match s with EmptyString => true | String _ _ => false end.

(** [std::to_string] of an integer: decimal digits, with a minus sign. *)
Definition to_string (z : Z) : string := pretty z.

(** [std::string::rfind] of a character. *)
Fixpoint rfind (c : ascii) (s : string) : option nat :=
  match s with
  | EmptyString => None
  | String a s' =>
      match rfind c s' with
      | Some n => Some (S n)
      | None => if Ascii.eqb a c then Some 0%nat else None
      end
  end.

(** [std::string::substr] with one and with two arguments. *)
Definition substr_from (pos : nat) (s : string) : string :=
  String.substring pos (String.length s - pos) s.
Definition substr (pos len : nat) (s : string) : string := String.substring pos len s.

(** A character does not occur. *)
Definition char_free (c : ascii) (s : string) : Prop := rfind c s = None.

#[export] Instance char_free_dec c s : Decision (char_free c s).
Proof. unfold char_free. apply _. Defined.

Lemma c_str_nul_free s : nul_free (c_str s).
Proof.
  unfold nul_free. induction s as [|a s IH]; simpl; [done|].
  destruct (Ascii.eqb a Ascii.zero) eqn:E; simpl; [done|]. by rewrite E, IH.
Qed.

Lemma string_empty_true s : string_empty s = true ↔ s = EmptyString.
Proof. by destruct s. Qed.

Lemma string_app_cons a s t : String a s +:+ t = String a (s +:+ t).
Proof. done. Qed.

Lemma string_app_nil_l s : "" +:+ s = s.
Proof. done. Qed.

Lemma string_app_nil_r s : s +:+ "" = s.
Proof. induction s as [|a s IH]; [done|]. by rewrite string_app_cons, IH. Qed.

Lemma char_free_cons c a s : char_free c (String a s) ↔ a ≠ c ∧ char_free c s.
Proof.
  unfold char_free; simpl. destruct (rfind c s) as [n|]; [naive_solver|].
  destruct (Ascii.eqb_spec a c); naive_solver.
Qed.

Lemma char_free_app c s t : char_free c (s +:+ t) ↔ char_free c s ∧ char_free c t.
Proof.
  induction s as [|a s IH].
  - rewrite string_app_nil_l. split; [by intros|by intros []].
  - rewrite string_app_cons, !char_free_cons, IH. naive_solver.
Qed.

(** The last occurrence, seen from the part behind it. *)
Lemma rfind_app c s t : char_free c t → rfind c (s +:+ String c t) = Some (String.length s).
Proof.
  intros Ht. induction s as [|a s IH].
  - rewrite string_app_nil_l. simpl. by rewrite Ht, Ascii.eqb_refl.
  - rewrite string_app_cons. simpl. by rewrite IH.
Qed.

Lemma substring_app_l s t : String.substring 0 (String.length s) (s +:+ t) = s.
Proof.
  induction s as [|a s IH]; [by destruct t|]. rewrite string_app_cons. simpl. by rewrite IH.
Qed.

Lemma substring_app_r s t n :
  (String.length t ≤ n)%nat → String.substring (String.length s) n (s +:+ t) = t.
Proof.
  intros Hn. induction s as [|a s IH].
  - rewrite string_app_nil_l. revert n Hn. induction t as [|a t IHt]; intros [|n] Hn; simpl in *; try done; try lia.
    f_equal. apply IHt. lia.
  - rewrite string_app_cons. done.
Qed.

Lemma length_string_app s t : String.length (s +:+ t) = (String.length s + String.length t)%nat.
Proof. induction s as [|a s IH]; [done|]. rewrite string_app_cons. simpl. by rewrite IH. Qed.

Lemma string_app_assoc (s t u : string) : (s +:+ t) +:+ u = s +:+ (t +:+ u).
Proof. induction s as [|a s IH]; [done|]. by rewrite !string_app_cons, IH. Qed.

Lemma substr_app_l s c t : substr 0 (String.length s) (s +:+ String c t) = s.
Proof. apply substring_app_l. Qed.

Lemma substr_from_app s c t : substr_from (S (String.length s)) (s +:+ String c t) = t.
Proof.
  unfold substr_from. rewrite length_string_app; simpl.
  replace (s +:+ String c t) with ((s +:+ String c "") +:+ t).
  - replace (S (String.length s)) with (String.length (s +:+ String c "")).
    + apply substring_app_r. rewrite length_string_app; simpl. lia.
    + rewrite length_string_app; simpl. lia.
  - by rewrite string_app_assoc.
Qed.


(** Two concatenations around a separator that the left parts avoid. *)
Lemma app_sep_inj c s s' t t' :
  char_free c s → char_free c s' →
  s +:+ String c t = s' +:+ String c t' → s = s' ∧ t = t'.
Proof.
  revert s'. induction s as [|a s IH]; intros [|a' s'] Hs Hs' Heq;
    rewrite ?string_app_nil_l, ?string_app_cons in Heq.
  - by simplify_eq.
  - injection Heq as <- _. by apply char_free_cons in Hs' as [? _].
  - injection Heq as -> _. by apply char_free_cons in Hs as [? _].
  - injection Heq as <- Heq. apply char_free_cons in Hs as [_ Hs], Hs' as [_ Hs'].
    by destruct (IH s' Hs Hs' Heq) as [-> ->].
Qed.

(** ** Decimal numerals *)

(** The digit a character stands for. *)
Definition digit_value (a : ascii) : Z := Z.of_nat (Ascii.nat_of_ascii a) - 48.
Definition is_digit (a : ascii) : bool := (0 <=? digit_value a) && (digit_value a <=? 9).

(** Reads decimal digits from left to right on top of [acc]. *)
Fixpoint dec_value (acc : Z) (s : string) : Z :=
  match s with
  | EmptyString => acc
  | String a s' => dec_value (acc * 10 + digit_value a) s'
  end.

Fixpoint all_digits (s : string) : bool :=
  match s with
  | EmptyString => true
  | String a s' => is_digit a && all_digits s'
  end.

Lemma pretty_N_char_digit x :
  (x < 10)%N → digit_value (pretty_N_char x) = Z.of_N x ∧ is_digit (pretty_N_char x) = true.
Proof.
  intros Hx.
  assert (Hc : x = 0%N ∨ x = 1%N ∨ x = 2%N ∨ x = 3%N ∨ x = 4%N ∨ x = 5%N ∨ x = 6%N ∨ x = 7%N
    ∨ x = 8%N ∨ x = 9%N) by lia.
  destruct_or! Hc; subst; by vm_compute.
Qed.

Lemma pretty_N_go_spec x : ∀ s,
  (∀ acc, dec_value 0 (pretty_N_go x s) = dec_value (Z.of_N x) s ∧
   (all_digits s = true → all_digits (pretty_N_go x s) = true) ∧ acc = acc :> Z).
Proof.
  induction (N.lt_wf_0 x) as [x _ IH]; intros s acc.
  destruct (decide (x = 0)%N) as [->|Hx]; [done|].
  rewrite pretty_N_go_step by lia.
  assert (Hlt : (x `div` 10 < x)%N) by (apply N.div_lt; lia).
  destruct (IH _ Hlt (String (pretty_N_char (x `mod` 10)) s) acc) as (H1 & H2 & _).
  destruct (pretty_N_char_digit (x `mod` 10)) as [Hv Hd]; [by apply N.mod_lt|].
  split_and!; [|intros Hs; apply H2; simpl; by rewrite Hd, Hs|done].
  rewrite H1. simpl. rewrite Hv. f_equal.
  rewrite N2Z.inj_div, N2Z.inj_mod. pose proof (Z.div_mod (Z.of_N x) 10). lia.
Qed.

Lemma to_string_nonneg z : 0 ≤ z → to_string z = pretty (Z.to_N z).
Proof. intros Hz. unfold to_string. destruct z as [|p|p]; [done..|lia]. Qed.

Lemma to_string_value z : 0 ≤ z → dec_value 0 (to_string z) = z.
Proof.
  intros Hz. rewrite to_string_nonneg by done. unfold pretty, pretty_N.
  case_decide as E; [assert (z = 0) by lia; by subst|].
  destruct (pretty_N_go_spec (Z.to_N z) "" 0) as (-> & _). simpl. lia.
Qed.

Lemma to_string_digits z : 0 ≤ z → all_digits (to_string z) = true.
Proof.
  intros Hz. rewrite to_string_nonneg by done. unfold pretty, pretty_N.
  case_decide as E; [done|].
  destruct (pretty_N_go_spec (Z.to_N z) "" 0) as (_ & H & _). by apply H.
Qed.

Lemma to_string_inj z z' : 0 ≤ z → 0 ≤ z' → to_string z = to_string z' → z = z'.
Proof. intros Hz Hz' E. by rewrite <-(to_string_value z Hz), E, to_string_value. Qed.

Lemma to_string_nonempty z : 0 ≤ z → to_string z ≠ "".
Proof.
  intros Hz E. destruct (decide (z = 0)) as [->|]; [done|].
  pose proof (to_string_value z Hz) as Hv. rewrite E in Hv. simpl in Hv. lia.
Qed.

Lemma all_digits_char_free c s : is_digit c = false → all_digits s = true → char_free c s.
Proof.
  intros Hc. induction s as [|a s IH]; simpl; [done|].
  rewrite andb_true_iff. intros [Ha Hs]. apply char_free_cons. split; [|by apply IH].
  intros ->. congruence.
Qed.

Lemma to_string_char_free c z : 0 ≤ z → is_digit c = false → char_free c (to_string z).
Proof. intros Hz Hc. by apply all_digits_char_free, to_string_digits. Qed.

(** ** Ordered containers *)

(** [std::set<std::string>] and [std::map<std::string, T>] iterate in the order
    of the bytes. *)
Definition string_leb (s t : string) : Prop := String.leb s t = true.

#[export] Instance string_leb_dec : RelDecision string_leb.
Proof. intros s t. unfold string_leb. apply _. Defined.

Definition set_list (X : gset string) : list string := merge_sort string_leb (elements X).

(** The pairs of a map in the order of its keys. *)
Definition ordered_list {K A} `{Countable K} (R : relation K) `{!RelDecision R} (m : gmap K A) : list (K * A) :=
  omap (λ k, (pair k) <$> m !! k) (merge_sort R (elements (dom m))).

Definition map_list {A} (m : gmap string A) : list (string * A) := ordered_list string_leb m.

Lemma elem_of_set_list x X : x ∈ set_list X ↔ x ∈ X.
Proof. unfold set_list. by rewrite merge_sort_Permutation, elem_of_elements. Qed.

Lemma set_list_length X : length (set_list X) = size X.
Proof. unfold set_list. by rewrite merge_sort_Permutation. Qed.

Lemma list_to_set_set_list X : list_to_set (set_list X) = X.
Proof. apply set_eq. intros x. by rewrite elem_of_list_to_set, elem_of_set_list. Qed.

Section ordered.
Context {K A : Type} `{Countable K} (R : relation K) `{!RelDecision R}.
Implicit Types m : gmap K A.

Lemma elem_of_ordered_list k v m : (k, v) ∈ ordered_list R m ↔ m !! k = Some v.
Proof.
  unfold ordered_list. rewrite list_elem_of_omap. split.
  - intros (k' & _ & Hk). destruct (m !! k') eqn:E; simplify_eq/=. done.
  - intros Hk. exists k. rewrite merge_sort_Permutation, elem_of_elements, elem_of_dom, Hk.
    split; [by eexists|done].
Qed.

Lemma ordered_list_fst m : (ordered_list R m).*1 = merge_sort R (elements (dom m)).
Proof.
  unfold ordered_list.
  assert (Hall : Forall (λ k, is_Some (m !! k)) (merge_sort R (elements (dom m)))).
  { apply Forall_forall. intros k. by rewrite merge_sort_Permutation, elem_of_elements, elem_of_dom. }
  induction Hall as [|k l [v Hv] _ IH]; [done|]. cbn. rewrite Hv. cbn. f_equal. exact IH.
Qed.

Lemma ordered_list_NoDup m : NoDup (ordered_list R m).*1.
Proof. rewrite ordered_list_fst, merge_sort_Permutation. apply NoDup_elements. Qed.

Lemma ordered_list_length m : length (ordered_list R m) = size m.
Proof.
  rewrite <-(length_fmap fst), ordered_list_fst, merge_sort_Permutation. by rewrite <-size_dom.
Qed.

Lemma list_to_map_ordered_list m : list_to_map (ordered_list R m) = m.
Proof.
  apply map_eq. intros k. destruct (m !! k) as [v|] eqn:E.
  - apply elem_of_list_to_map_1; [apply ordered_list_NoDup|]. by apply elem_of_ordered_list.
  - apply not_elem_of_list_to_map_1. rewrite ordered_list_fst, merge_sort_Permutation, elem_of_elements.
    by apply not_elem_of_dom.
Qed.
End ordered.

Lemma foldl_insert {K A} `{Countable K} (l : list (K * A)) (m : gmap K A) :
  NoDup l.*1 → foldl (λ m kv, <[kv.1 := kv.2]> m) m l = list_to_map l ∪ m.
Proof.
  revert m. induction l as [|[k v] l IH]; intros m; [intros _; by rewrite list_to_map_nil, (left_id_L ∅ (∪))|].
  rewrite fmap_cons. intros [Hk Hl]%NoDup_cons. cbn [foldl]. rewrite IH by done. cbn [fst snd] in *.
  rewrite list_to_map_cons, <-insert_union_l, insert_union_r; [done|]. by apply not_elem_of_list_to_map_1.
Qed.

Lemma elem_of_map_list {A} k (v : A) m : (k, v) ∈ map_list m ↔ m !! k = Some v.
Proof. apply elem_of_ordered_list. Qed.
Lemma map_list_fst {A} (m : gmap string A) : (map_list m).*1 = merge_sort string_leb (elements (dom m)).
Proof. apply ordered_list_fst. Qed.
Lemma map_list_NoDup {A} (m : gmap string A) : NoDup (map_list m).*1.
Proof. apply ordered_list_NoDup. Qed.
Lemma map_list_length {A} (m : gmap string A) : length (map_list m) = size m.
Proof. apply ordered_list_length. Qed.
Lemma list_to_map_map_list {A} (m : gmap string A) : list_to_map (map_list m) = m.
Proof. apply list_to_map_ordered_list. Qed.

(** ** Fallible stateful code *)

(** What a function returning an [ErrCode] and filling out-parameters yields:
    [Ok] for [ERR_OK], [Err] for any other code. *)
Inductive result (A : Type) : Type :=
  | Ok (a : A)
  | Err (e : Z).
Arguments Ok {_} _.
Arguments Err {_} _.

#[export] Instance result_eq_dec `{EqDecision A} : EqDecision (result A).
Proof. solve_decision. Defined.

Definition is_Ok {A} (r : result A) : bool := match r with Ok _ => true | Err _ => false end.

(** Code over a mutable state [S], which a failure leaves as it is at that point. *)
Definition M (S A : Type) : Type := S → result A * S.

#[export] Instance M_ret {S} : MRet (M S) := λ A a s, (Ok a, s).
#[export] Instance M_bind {S} : MBind (M S) := λ A B k m s,
  match m s with
  | (Ok a, s') => k a s'
  | (Err e, s') => (Err e, s')
  end.

Section monad.
Context {S : Type}.

(** [return e;] for an error code. *)
Definition merr {A} (e : Z) : M S A := λ s, (Err e, s).
Definition mget : M S S := λ s, (Ok s, s).
Definition mput (s : S) : M S unit := λ _, (Ok tt, s).
Definition mmodify (f : S → S) : M S unit := λ s, (Ok tt, f s).

(** Runs [m] and hands its result on instead of returning early. *)
Definition mtry {A} (m : M S A) : M S (result A) := λ s, let '(r, s') := m s in (Ok r, s').

(** [for (auto x : l) { ... }] with early return. *)
Fixpoint mfor {A} (l : list A) (f : A → M S unit) : M S unit :=
  match l with
  | [] => mret tt
  | x :: l' => _ ← f x; mfor l' f
  end.

Lemma mbind_unfold {A B} (m : M S A) (k : A → M S B) s :
  (m ≫= k) s = match m s with (Ok a, s') => k a s' | (Err e, s') => (Err e, s') end.
Proof. done. Qed.

Lemma mret_bind {A B} (a : A) (k : A → M S B) s : (mret a ≫= k) s = k a s.
Proof. done. Qed.

Lemma mbind_ret {A} (m : M S A) s : (m ≫= mret) s = m s.
Proof. rewrite mbind_unfold. by destruct (m s) as [[]]. Qed.

Lemma mbind_assoc {A B C} (m : M S A) (k : A → M S B) (h : B → M S C) s :
  ((m ≫= k) ≫= h) s = (m ≫= (λ a, k a ≫= h)) s.
Proof. rewrite !mbind_unfold. by destruct (m s) as [[]]. Qed.

(** ** A logic of preserved properties

    [preserves P m]: however [m] ends, by a result or by an error, it keeps [P]. *)
Definition preserves {A} (P : S → Prop) (m : M S A) : Prop := ∀ s, P s → P (m s).2.

(** [yields P m Q]: from a state with [P], a result of [m] satisfies [Q]. *)
Definition yields {A} (P : S → Prop) (m : M S A) (Q : A → S → Prop) : Prop :=
  ∀ s a s', P s → m s = (Ok a, s') → Q a s'.

Lemma preserves_ret {A} P (a : A) : preserves P (mret a).
Proof. by intros s. Qed.
Lemma preserves_err {A} P e : preserves P (@merr A e).
Proof. by intros s. Qed.
Lemma preserves_get P : preserves P mget.
Proof. by intros s. Qed.
(** A state that is read has the property, so what is written can rely on it. *)
Lemma preserves_get_bind {A} P (k : S → M S A) :
  (∀ s, P s → preserves P (k s)) → preserves P (mget ≫= k).
Proof. intros Hk s Hs. by apply (Hk s). Qed.
Lemma preserves_put (P : S → Prop) s : P s → preserves P (mput s).
Proof. by intros Hs s'. Qed.
Lemma preserves_modify (P : S → Prop) f : (∀ s, P s → P (f s)) → preserves P (mmodify f).
Proof. intros H s. apply H. Qed.
Lemma preserves_bind {A B} P (m : M S A) (k : A → M S B) :
  preserves P m → (∀ a, preserves P (k a)) → preserves P (m ≫= k).
Proof.
  intros Hm Hk s Hs. rewrite mbind_unfold. specialize (Hm s Hs).
  destruct (m s) as [[a|e] s']; simpl in *; [by apply Hk|done].
Qed.
Lemma preserves_try {A} P (m : M S A) : preserves P m → preserves P (mtry m).
Proof. intros Hm s Hs. specialize (Hm s Hs). unfold mtry. by destruct (m s). Qed.
Lemma preserves_for {A} P (l : list A) f :
  (∀ x, preserves P (f x)) → preserves P (mfor l f).
Proof.
  intros Hf. induction l as [|x l IH]; simpl; [apply preserves_ret|].
  by apply preserves_bind.
Qed.
Lemma preserves_if {A} P (b : bool) (m m' : M S A) :
  preserves P m → preserves P m' → preserves P (if b then m else m').
Proof. by destruct b. Qed.
Lemma preserves_match_option {A B} P (o : option B) (m : B → M S A) m' :
  (∀ x, preserves P (m x)) → preserves P m' →
  preserves P (match o with Some x => m x | None => m' end).
Proof. by destruct o. Qed.
Lemma preserves_match_result {A B} P (r : result B) (m : B → M S A) m' :
  (∀ x, preserves P (m x)) → (∀ e, preserves P (m' e)) →
  preserves P (match r with Ok x => m x | Err e => m' e end).
Proof. destruct r; auto. Qed.
Lemma preserves_match_prod {A B C} P (p : B * C) (m : B → C → M S A) :
  (∀ x y, preserves P (m x y)) → preserves P (let '(x, y) := p in m x y).
Proof. destruct p; auto. Qed.

Lemma bind_Ok_inv {A B} (m : M S A) (k : A → M S B) s b s' :
  (m ≫= k) s = (Ok b, s') → ∃ a s1, m s = (Ok a, s1) ∧ k a s1 = (Ok b, s').
Proof. rewrite mbind_unfold. destruct (m s) as [[a|e] s1]; intros; simplify_eq; eauto. Qed.

Lemma bind_Err_inv {A B} (m : M S A) (k : A → M S B) s e s' :
  (m ≫= k) s = (Err e, s') →
  m s = (Err e, s') ∨ ∃ a s1, m s = (Ok a, s1) ∧ k a s1 = (Err e, s').
Proof. rewrite mbind_unfold. destruct (m s) as [[a|e'] s1]; intros; simplify_eq; eauto. Qed.
End monad.

Create HintDb mpres discriminated.
#[export] Hint Constants Opaque : mpres.
#[export] Hint Variables Opaque : mpres.
#[export] Hint Resolve preserves_ret preserves_err preserves_get preserves_modify preserves_bind
  preserves_try preserves_for preserves_if preserves_match_option preserves_match_result
  preserves_match_prod : mpres.

(** Splits monadic code along its structure; what is left are the primitive
    operations. *)
Ltac preserve_step :=
  lazymatch goal with
  | |- preserves _ (mret _) => apply preserves_ret
  | |- preserves _ (merr _) => apply preserves_err
  | |- preserves _ mget => apply preserves_get
  | |- preserves _ (_ ≫= _) => apply preserves_bind
  | |- preserves _ (mtry _) => apply preserves_try
  | |- preserves _ (mfor _ _) => apply preserves_for
  | |- preserves _ (match ?x with _ => _ end) => destruct x
  | |- preserves _ (let x := ?v in _) => cbv zeta
  | |- preserves _ _ => first [assumption | solve [eauto with mpres]]
  | |- ∀ _, _ => intro
  end.
Ltac preserve := repeat preserve_step.

(** The same, remembering that a state read has the property. *)
Ltac preserve_read_step :=
  lazymatch goal with
  | |- preserves _ (mget ≫= _) => apply preserves_get_bind; intros ? ?
  | |- preserves _ (mput _) => apply preserves_put
  | |- preserves _ (mmodify _) => apply preserves_modify; intros ? ?
  | |- preserves _ _ => preserve_step
  | |- ∀ _, _ => intro
  end.
Ltac preserve_read := repeat preserve_read_step.

(** Inverts [m s = (Ok _, _)] for a sequence of binds. *)
Ltac inv_ok H :=
  match type of H with
  | (_ ≫= _) _ = (Ok _, _) =>
      let a := fresh "a" in let s := fresh "s" in let H1 := fresh "Hm" in
      apply bind_Ok_inv in H as (a & s & H1 & H)
  end.

(** ** Running the primitive computations *)

Section run.
Context {S A B : Type}.
Implicit Types (s : S).

Lemma run_ret (a : A) (k : A → M S B) s : (mret a ≫= k) s = k a s.
Proof. done. Qed.
Lemma run_err e (k : A → M S B) s : (merr e ≫= k) s = (Err e, s).
Proof. done. Qed.
Lemma run_get (k : S → M S B) s : (mget ≫= k) s = k s s.
Proof. done. Qed.
Lemma run_put s' (k : unit → M S B) s : (mput s' ≫= k) s = k tt s'.
Proof. done. Qed.
Lemma run_modify f (k : unit → M S B) s : (mmodify f ≫= k) s = k tt (f s).
Proof. done. Qed.
Lemma run_try (m : M S A) (k : result A → M S B) s :
  (mtry m ≫= k) s = let '(r, s') := m s in k r s'.
Proof. rewrite mbind_unfold. unfold mtry. by destruct (m s). Qed.
Lemma ret_run (a : A) s : (mret a : M S A) s = (Ok a, s).
Proof. done. Qed.
Lemma err_run e s : (merr e : M S A) s = (Err e, s).
Proof. done. Qed.
Lemma run_result (m : M S A) s r : (m s).1 = r → m s = (r, (m s).2).
Proof. intros <-. apply surjective_pairing. Qed.
Lemma get_run s : mget s = (Ok s, s).
Proof. done. Qed.
Lemma put_run s s' : mput s' s = (Ok tt, s').
Proof. done. Qed.
Lemma modify_run f s : mmodify f s = (Ok tt, f s).
Proof. done. Qed.
End run.

(** ** Weakest preconditions

    [wp m Q s]: run from [s], [m] ends in a result and a state with [Q]. *)

Section wp.
Context {S : Type}.

Definition wp {A} (m : M S A) (Q : result A → S → Prop) (s : S) : Prop := Q (m s).1 (m s).2.

Lemma wp_conseq {A} (m : M S A) (Q Q' : result A → S → Prop) s :
  wp m Q s → (∀ r s', Q r s' → Q' r s') → wp m Q' s.
Proof. unfold wp. auto. Qed.

Lemma wp_ret {A} (a : A) (Q : result A → S → Prop) s : Q (Ok a) s → wp (mret a) Q s.
Proof. done. Qed.
Lemma wp_err {A} e (Q : result A → S → Prop) s : Q (Err e) s → wp (merr e) Q s.
Proof. done. Qed.
Lemma wp_get (Q : result S → S → Prop) s : Q (Ok s) s → wp mget Q s.
Proof. done. Qed.
Lemma wp_put s' (Q : result unit → S → Prop) s : Q (Ok tt) s' → wp (mput s') Q s.
Proof. done. Qed.
Lemma wp_modify f (Q : result unit → S → Prop) s : Q (Ok tt) (f s) → wp (mmodify f) Q s.
Proof. done. Qed.

Lemma wp_bind {A B} (m : M S A) (k : A → M S B) (Q : result B → S → Prop) s :
  wp m (λ r s', match r with Ok a => wp (k a) Q s' | Err e => Q (Err e) s' end) s → wp (m ≫= k) Q s.
Proof. unfold wp. rewrite mbind_unfold. by destruct (m s) as [[]]. Qed.

Lemma wp_try {A} (m : M S A) (Q : result (result A) → S → Prop) s :
  wp m (λ r s', Q (Ok r) s') s → wp (mtry m) Q s.
Proof. intros H. unfold wp, mtry in *. by destruct (m s). Qed.

Lemma wp_run {A} (m : M S A) (Q : result A → S → Prop) s r s' : wp m Q s → m s = (r, s') → Q r s'.
Proof. intros H E. unfold wp in H. by rewrite E in H. Qed.

(** Running [m] as long as it asks to, at most [n] times. *)
Fixpoint mretry {A} (n : nat) (m : M S (option A)) (last : A) : M S A :=
  match n with
  | O => mret last
  | Datatypes.S n =>
      r ← m;
      match r with Some a => mret a | None => mretry n m last end
  end.

Lemma wp_retry {A} n (m : M S (option A)) last (I : S → Prop) (Q : result A → S → Prop) s :
  I s → (∀ s, I s → wp m (λ r s', match r with
                             | Ok (Some a) => Q (Ok a) s'
                             | Ok None => I s'
                             | Err e => Q (Err e) s'
                             end) s) →
  (∀ s, I s → Q (Ok last) s) → wp (mretry n m last) Q s.
Proof.
  intros Hs Hm Hlast. revert s Hs. induction n as [|n IH]; intros s Hs; cbn [mretry]; [by apply Hlast|].
  apply wp_bind. eapply wp_conseq; [by apply Hm|]. intros [[a|]|e] s' Hr; [done|by apply IH|done].
Qed.
End wp.

(** Turns a goal about the run in [H] into a weakest precondition. *)
Ltac as_wp H :=
  lazymatch type of H with
  | ?m ?s = (?r, ?s') =>
      pattern r, s';
      lazymatch goal with |- ?Q _ _ => apply (wp_run m Q s r s'); [|exact H]; clear H; cbv beta end
  end.

Tactic Notation "msimpl" :=
  repeat first
    [ rewrite run_ret | rewrite run_err | rewrite run_get | rewrite run_put | rewrite run_modify
    | rewrite ret_run | rewrite err_run | rewrite get_run | rewrite put_run | rewrite modify_run ];
  cbn [fst snd].

Tactic Notation "msimpl" "in" hyp(H) :=
  repeat first
    [ rewrite run_ret in H | rewrite run_err in H | rewrite run_get in H | rewrite run_put in H
    | rewrite run_modify in H | rewrite ret_run in H | rewrite err_run in H | rewrite get_run in H
    | rewrite put_run in H | rewrite modify_run in H ];
  cbn [fst snd] in H.
