(* ===== verification/ErrorCodes.v ===== *)
(** * Error codes and their conversion to the codes of the public API

    Models [account_error_no.h] (the enumerations of native and JS error codes,
    with their numeric values) and [account_error_no.cpp] (the tables and the
    conversion functions).  [ErrCodeOffset] belongs to the base library; the
    module offsets are the values the header states beside each offset.

    A native or JS code is an [int32_t], modelled as a [Z]; a table built from
    an initialiser list keeps the first pair of a key, as [init_list_find]. *)
From S2P Require Import Prelude.

Abbreviation ErrCode := Z.

(** [errors.h]'s success code. *)
Definition ERR_OK : ErrCode := 0.

(** [ACCOUNT_COMMON_ERR_OFFSET], account_error_no.h:42-42 *)
Definition ACCOUNT_COMMON_ERR_OFFSET : ErrCode := 4194304.

(** [ERR_ACCOUNT_COMMON_NOT_INIT_ERROR], account_error_no.h:44-44 *)
Definition ERR_ACCOUNT_COMMON_NOT_INIT_ERROR : ErrCode := ACCOUNT_COMMON_ERR_OFFSET + 1.

(** [ERR_ACCOUNT_COMMON_NOT_SYSTEM_APP_ERROR], account_error_no.h:45-45 *)
Definition ERR_ACCOUNT_COMMON_NOT_SYSTEM_APP_ERROR : ErrCode := ERR_ACCOUNT_COMMON_NOT_INIT_ERROR + 1.

(** [ERR_ACCOUNT_COMMON_DUMP_JSON_ERROR], account_error_no.h:46-46 *)
Definition ERR_ACCOUNT_COMMON_DUMP_JSON_ERROR : ErrCode := ERR_ACCOUNT_COMMON_NOT_SYSTEM_APP_ERROR + 1.

(** [ERR_ACCOUNT_COMMON_INSUFFICIENT_MEMORY_ERROR], account_error_no.h:47-47 *)
Definition ERR_ACCOUNT_COMMON_INSUFFICIENT_MEMORY_ERROR : ErrCode := ERR_ACCOUNT_COMMON_DUMP_JSON_ERROR + 1.

(** [ERR_ACCOUNT_COMMON_NULL_PTR_ERROR], account_error_no.h:48-48 *)
Definition ERR_ACCOUNT_COMMON_NULL_PTR_ERROR : ErrCode := ERR_ACCOUNT_COMMON_INSUFFICIENT_MEMORY_ERROR + 1.

(** [ERR_ACCOUNT_COMMON_WRITE_DESCRIPTOR_ERROR], account_error_no.h:49-49 *)
Definition ERR_ACCOUNT_COMMON_WRITE_DESCRIPTOR_ERROR : ErrCode := ERR_ACCOUNT_COMMON_NULL_PTR_ERROR + 1.

(** [ERR_ACCOUNT_COMMON_CHECK_DESCRIPTOR_ERROR], account_error_no.h:50-50 *)
Definition ERR_ACCOUNT_COMMON_CHECK_DESCRIPTOR_ERROR : ErrCode := ERR_ACCOUNT_COMMON_WRITE_DESCRIPTOR_ERROR + 1.

(** [ERR_ACCOUNT_COMMON_PERMISSION_DENIED], account_error_no.h:51-51 *)
Definition ERR_ACCOUNT_COMMON_PERMISSION_DENIED : ErrCode := ERR_ACCOUNT_COMMON_CHECK_DESCRIPTOR_ERROR + 1.

(** [ERR_ACCOUNT_COMMON_CHECK_KVSTORE_ERROR], account_error_no.h:52-52 *)
Definition ERR_ACCOUNT_COMMON_CHECK_KVSTORE_ERROR : ErrCode := ERR_ACCOUNT_COMMON_PERMISSION_DENIED + 1.

(** [ERR_ACCOUNT_COMMON_DELETE_KEY_FROM_KVSTORE_ERROR], account_error_no.h:53-53 *)
Definition ERR_ACCOUNT_COMMON_DELETE_KEY_FROM_KVSTORE_ERROR : ErrCode := ERR_ACCOUNT_COMMON_CHECK_KVSTORE_ERROR + 1.

(** [ERR_ACCOUNT_COMMON_BAD_JSON_FORMAT_ERROR], account_error_no.h:54-54 *)
Definition ERR_ACCOUNT_COMMON_BAD_JSON_FORMAT_ERROR : ErrCode := ERR_ACCOUNT_COMMON_DELETE_KEY_FROM_KVSTORE_ERROR + 1.

(** [ERR_ACCOUNT_COMMON_CONNECT_ABILITY_MANAGER_SERVICE_ERROR], account_error_no.h:55-55 *)
Definition ERR_ACCOUNT_COMMON_CONNECT_ABILITY_MANAGER_SERVICE_ERROR : ErrCode := ERR_ACCOUNT_COMMON_BAD_JSON_FORMAT_ERROR + 1.

(** [ERR_ACCOUNT_COMMON_INTERFACE_NOT_SUPPORT_ERROR], account_error_no.h:56-56 *)
Definition ERR_ACCOUNT_COMMON_INTERFACE_NOT_SUPPORT_ERROR : ErrCode := ERR_ACCOUNT_COMMON_CONNECT_ABILITY_MANAGER_SERVICE_ERROR + 1.

(** [ERR_ACCOUNT_COMMON_CONNECT_BUNDLE_MANAGER_SERVICE_ERROR], account_error_no.h:57-57 *)
Definition ERR_ACCOUNT_COMMON_CONNECT_BUNDLE_MANAGER_SERVICE_ERROR : ErrCode := ERR_ACCOUNT_COMMON_INTERFACE_NOT_SUPPORT_ERROR + 1.

(** [ERR_ACCOUNT_COMMON_CHECK_BUNDLE_INSTALLED_ERROR], account_error_no.h:58-58 *)
Definition ERR_ACCOUNT_COMMON_CHECK_BUNDLE_INSTALLED_ERROR : ErrCode := ERR_ACCOUNT_COMMON_CONNECT_BUNDLE_MANAGER_SERVICE_ERROR + 1.

(** [ERR_ACCOUNT_COMMON_GET_SYSTEM_ABILITY_MANAGER], account_error_no.h:59-59 *)
Definition ERR_ACCOUNT_COMMON_GET_SYSTEM_ABILITY_MANAGER : ErrCode := ERR_ACCOUNT_COMMON_CHECK_BUNDLE_INSTALLED_ERROR + 1.

(** [ERR_ACCOUNT_COMMON_GET_SYSTEM_ABILITY], account_error_no.h:60-60 *)
Definition ERR_ACCOUNT_COMMON_GET_SYSTEM_ABILITY : ErrCode := ERR_ACCOUNT_COMMON_GET_SYSTEM_ABILITY_MANAGER + 1.

(** [ERR_ACCOUNT_COMMON_GET_PROXY], account_error_no.h:61-61 *)
Definition ERR_ACCOUNT_COMMON_GET_PROXY : ErrCode := ERR_ACCOUNT_COMMON_GET_SYSTEM_ABILITY + 1.

(** [ERR_ACCOUNT_COMMON_CREATE_DEATH_RECIPIENT], account_error_no.h:62-62 *)
Definition ERR_ACCOUNT_COMMON_CREATE_DEATH_RECIPIENT : ErrCode := ERR_ACCOUNT_COMMON_GET_PROXY + 1.

(** [ERR_ACCOUNT_COMMON_ADD_DEATH_RECIPIENT], account_error_no.h:63-63 *)
Definition ERR_ACCOUNT_COMMON_ADD_DEATH_RECIPIENT : ErrCode := ERR_ACCOUNT_COMMON_CREATE_DEATH_RECIPIENT + 1.

(** [ERR_ACCOUNT_COMMON_WRITE_PARCEL_ERROR], account_error_no.h:64-64 *)
Definition ERR_ACCOUNT_COMMON_WRITE_PARCEL_ERROR : ErrCode := ERR_ACCOUNT_COMMON_ADD_DEATH_RECIPIENT + 1.

(** [ERR_ACCOUNT_COMMON_READ_PARCEL_ERROR], account_error_no.h:65-65 *)
Definition ERR_ACCOUNT_COMMON_READ_PARCEL_ERROR : ErrCode := ERR_ACCOUNT_COMMON_WRITE_PARCEL_ERROR + 1.

(** [ERR_ACCOUNT_COMMON_INVALID_PARAMETER], account_error_no.h:66-66 *)
Definition ERR_ACCOUNT_COMMON_INVALID_PARAMETER : ErrCode := ERR_ACCOUNT_COMMON_READ_PARCEL_ERROR + 1.

(** [ERR_ACCOUNT_COMMON_POST_TASK], account_error_no.h:67-67 *)
Definition ERR_ACCOUNT_COMMON_POST_TASK : ErrCode := ERR_ACCOUNT_COMMON_INVALID_PARAMETER + 1.

(** [ERR_ACCOUNT_COMMON_FILE_OPEN_FAILED], account_error_no.h:68-68 *)
Definition ERR_ACCOUNT_COMMON_FILE_OPEN_FAILED : ErrCode := ERR_ACCOUNT_COMMON_POST_TASK + 1.

(** [ERR_ACCOUNT_COMMON_FILE_WRITE_FAILED], account_error_no.h:69-69 *)
Definition ERR_ACCOUNT_COMMON_FILE_WRITE_FAILED : ErrCode := ERR_ACCOUNT_COMMON_FILE_OPEN_FAILED + 1.

(** [ERR_ACCOUNT_COMMON_FILE_READ_FAILED], account_error_no.h:70-70 *)
Definition ERR_ACCOUNT_COMMON_FILE_READ_FAILED : ErrCode := ERR_ACCOUNT_COMMON_FILE_WRITE_FAILED + 1.

(** [ERR_ACCOUNT_COMMON_FILE_NOT_EXIST], account_error_no.h:71-71 *)
Definition ERR_ACCOUNT_COMMON_FILE_NOT_EXIST : ErrCode := ERR_ACCOUNT_COMMON_FILE_READ_FAILED + 1.

(** [ERR_ACCOUNT_COMMON_FILE_SWAP_FAILED], account_error_no.h:72-72 *)
Definition ERR_ACCOUNT_COMMON_FILE_SWAP_FAILED : ErrCode := ERR_ACCOUNT_COMMON_FILE_NOT_EXIST + 1.

(** [ERR_ACCOUNT_COMMON_FILE_TRANSACTION_FAILED], account_error_no.h:73-73 *)
Definition ERR_ACCOUNT_COMMON_FILE_TRANSACTION_FAILED : ErrCode := ERR_ACCOUNT_COMMON_FILE_SWAP_FAILED + 1.

(** [ERR_ACCOUNT_COMMON_FILE_OTHER_ERROR], account_error_no.h:74-74 *)
Definition ERR_ACCOUNT_COMMON_FILE_OTHER_ERROR : ErrCode := ERR_ACCOUNT_COMMON_FILE_TRANSACTION_FAILED + 1.

(** [ERR_ACCOUNT_COMMON_ACCOUNT_NOT_EXIST_ERROR], account_error_no.h:75-75 *)
Definition ERR_ACCOUNT_COMMON_ACCOUNT_NOT_EXIST_ERROR : ErrCode := ERR_ACCOUNT_COMMON_FILE_OTHER_ERROR + 1.

(** [ERR_ACCOUNT_COMMON_OPERATION_TIMEOUT], account_error_no.h:76-76 *)
Definition ERR_ACCOUNT_COMMON_OPERATION_TIMEOUT : ErrCode := ERR_ACCOUNT_COMMON_ACCOUNT_NOT_EXIST_ERROR + 1.

(** [ERR_ACCOUNT_COMMON_NOT_AUTHENTICATED], account_error_no.h:77-77 *)
Definition ERR_ACCOUNT_COMMON_NOT_AUTHENTICATED : ErrCode := ERR_ACCOUNT_COMMON_OPERATION_TIMEOUT + 1.

(** [ERR_ACCOUNT_COMMON_NAME_HAD_EXISTED], account_error_no.h:78-78 *)
Definition ERR_ACCOUNT_COMMON_NAME_HAD_EXISTED : ErrCode := ERR_ACCOUNT_COMMON_NOT_AUTHENTICATED + 1.

(** [ERR_ACCOUNT_COMMON_SHORT_NAME_HAD_EXISTED], account_error_no.h:79-79 *)
Definition ERR_ACCOUNT_COMMON_SHORT_NAME_HAD_EXISTED : ErrCode := ERR_ACCOUNT_COMMON_NAME_HAD_EXISTED + 1.

(** [ERR_ACCOUNT_COMMON_DISPLAY_ID_NOT_EXIST_ERROR], account_error_no.h:80-80 *)
Definition ERR_ACCOUNT_COMMON_DISPLAY_ID_NOT_EXIST_ERROR : ErrCode := ERR_ACCOUNT_COMMON_SHORT_NAME_HAD_EXISTED + 1.

(** [ERR_ACCOUNT_COMMON_ACCOUNT_IN_DISPLAY_ID_NOT_FOUND_ERROR], account_error_no.h:81-81 *)
Definition ERR_ACCOUNT_COMMON_ACCOUNT_IN_DISPLAY_ID_NOT_FOUND_ERROR : ErrCode := ERR_ACCOUNT_COMMON_DISPLAY_ID_NOT_EXIST_ERROR + 1.

(** [ERR_ACCOUNT_COMMON_ACCOUNT_SUBSCRIBE_NOT_FOUND_ERROR], account_error_no.h:82-82 *)
Definition ERR_ACCOUNT_COMMON_ACCOUNT_SUBSCRIBE_NOT_FOUND_ERROR : ErrCode := ERR_ACCOUNT_COMMON_ACCOUNT_IN_DISPLAY_ID_NOT_FOUND_ERROR + 1.

(** [ERR_ACCOUNT_COMMON_ACCOUNT_AREADY_SUBSCRIBE_ERROR], account_error_no.h:83-83 *)
Definition ERR_ACCOUNT_COMMON_ACCOUNT_AREADY_SUBSCRIBE_ERROR : ErrCode := ERR_ACCOUNT_COMMON_ACCOUNT_SUBSCRIBE_NOT_FOUND_ERROR + 1.

(** [ERR_ACCOUNT_COMMON_ACCOUNT_IS_RESTRICTED], account_error_no.h:84-84 *)
Definition ERR_ACCOUNT_COMMON_ACCOUNT_IS_RESTRICTED : ErrCode := ERR_ACCOUNT_COMMON_ACCOUNT_AREADY_SUBSCRIBE_ERROR + 1.

(** [ERR_ACCOUNT_COMMON_DATA_NO_SPACE], account_error_no.h:85-85 *)
Definition ERR_ACCOUNT_COMMON_DATA_NO_SPACE : ErrCode := ERR_ACCOUNT_COMMON_ACCOUNT_IS_RESTRICTED + 1.

(** [ERR_ACCOUNT_COMMON_DLOPEN_ERROR], account_error_no.h:86-86 *)
Definition ERR_ACCOUNT_COMMON_DLOPEN_ERROR : ErrCode := ERR_ACCOUNT_COMMON_DATA_NO_SPACE + 1.

(** [ERR_ACCOUNT_COMMON_DLSYM_ERROR], account_error_no.h:87-87 *)
Definition ERR_ACCOUNT_COMMON_DLSYM_ERROR : ErrCode := ERR_ACCOUNT_COMMON_DLOPEN_ERROR + 1.

(** [ERR_ACCOUNT_COMMON_EXCEPTION_ERROR], account_error_no.h:88-88 *)
Definition ERR_ACCOUNT_COMMON_EXCEPTION_ERROR : ErrCode := ERR_ACCOUNT_COMMON_DLSYM_ERROR + 1.

(** [ERR_ACCOUNT_COMMON_SECRET_CHECK], account_error_no.h:89-89 *)
Definition ERR_ACCOUNT_COMMON_SECRET_CHECK : ErrCode := ERR_ACCOUNT_COMMON_EXCEPTION_ERROR + 1.

(** [ERR_ACCOUNT_COMMON_CONNECT_DISPLAY_MANAGER_SERVICE_ERROR], account_error_no.h:90-90 *)
Definition ERR_ACCOUNT_COMMON_CONNECT_DISPLAY_MANAGER_SERVICE_ERROR : ErrCode := ERR_ACCOUNT_COMMON_SECRET_CHECK + 1.

(** [ERR_ACCOUNT_COMMON_CROSS_DISPLAY_ACTIVE_ERROR], account_error_no.h:91-91 *)
Definition ERR_ACCOUNT_COMMON_CROSS_DISPLAY_ACTIVE_ERROR : ErrCode := ERR_ACCOUNT_COMMON_CONNECT_DISPLAY_MANAGER_SERVICE_ERROR + 1.

(** [ERR_ACCOUNT_COMMON_REMOTE_DIED], account_error_no.h:92-92 *)
Definition ERR_ACCOUNT_COMMON_REMOTE_DIED : ErrCode := ERR_ACCOUNT_COMMON_CROSS_DISPLAY_ACTIVE_ERROR + 1.

(** [ERR_ACCOUNT_COMMON_BUSY], account_error_no.h:93-93 *)
Definition ERR_ACCOUNT_COMMON_BUSY : ErrCode := ERR_ACCOUNT_COMMON_REMOTE_DIED + 1.

(** [ERR_ACCOUNT_COMMON_OPERATION_FAIL], account_error_no.h:94-94 *)
Definition ERR_ACCOUNT_COMMON_OPERATION_FAIL : ErrCode := ERR_ACCOUNT_COMMON_BUSY + 1.

(** [ERR_ACCOUNT_COMMON_TEE_PERMISSION_DENIED], account_error_no.h:95-95 *)
Definition ERR_ACCOUNT_COMMON_TEE_PERMISSION_DENIED : ErrCode := ERR_ACCOUNT_COMMON_OPERATION_FAIL + 1.

(** [ERR_ACCOUNT_COMMON_TEE_USER_TOKEN_INVALID], account_error_no.h:96-96 *)
Definition ERR_ACCOUNT_COMMON_TEE_USER_TOKEN_INVALID : ErrCode := ERR_ACCOUNT_COMMON_TEE_PERMISSION_DENIED + 1.

(** [ERR_ACCOUNT_COMMON_TEE_USER_TOKEN_EXPIRED], account_error_no.h:97-97 *)
Definition ERR_ACCOUNT_COMMON_TEE_USER_TOKEN_EXPIRED : ErrCode := ERR_ACCOUNT_COMMON_TEE_USER_TOKEN_INVALID + 1.

(** [ERR_ACCOUNT_COMMON_TEE_REACH_LIMIT], account_error_no.h:98-98 *)
Definition ERR_ACCOUNT_COMMON_TEE_REACH_LIMIT : ErrCode := ERR_ACCOUNT_COMMON_TEE_USER_TOKEN_EXPIRED + 1.

(** [ERR_ACCOUNT_COMMON_TEE_ACCOUNT_NOT_EXIST], account_error_no.h:99-99 *)
Definition ERR_ACCOUNT_COMMON_TEE_ACCOUNT_NOT_EXIST : ErrCode := ERR_ACCOUNT_COMMON_TEE_REACH_LIMIT + 1.

(** [ERR_ACCOUNT_COMMON_TEE_NOT_ALLOW_RECOVERY], account_error_no.h:100-100 *)
Definition ERR_ACCOUNT_COMMON_TEE_NOT_ALLOW_RECOVERY : ErrCode := ERR_ACCOUNT_COMMON_TEE_ACCOUNT_NOT_EXIST + 1.

(** [ERR_ACCOUNT_COMMON_TEE_USER_ROLE_FAIL], account_error_no.h:101-101 *)
Definition ERR_ACCOUNT_COMMON_TEE_USER_ROLE_FAIL : ErrCode := ERR_ACCOUNT_COMMON_TEE_NOT_ALLOW_RECOVERY + 1.

(** [ERR_OS_ACCOUNT_SUBPROFILE_LIMIT], account_error_no.h:102-102 *)
Definition ERR_OS_ACCOUNT_SUBPROFILE_LIMIT : ErrCode := ERR_ACCOUNT_COMMON_TEE_USER_ROLE_FAIL + 1.

(** [ERR_OS_ACCOUNT_SUBPROFILE_NOT_FOUND], account_error_no.h:103-103 *)
Definition ERR_OS_ACCOUNT_SUBPROFILE_NOT_FOUND : ErrCode := ERR_OS_ACCOUNT_SUBPROFILE_LIMIT + 1.

(** [ERR_OS_ACCOUNT_SUBPROFILE_RESTRICTED], account_error_no.h:104-104 *)
Definition ERR_OS_ACCOUNT_SUBPROFILE_RESTRICTED : ErrCode := ERR_OS_ACCOUNT_SUBPROFILE_NOT_FOUND + 1.

(** [ERR_OS_ACCOUNT_SUBPROFILE_IS_FOREGROUND], account_error_no.h:105-105 *)
Definition ERR_OS_ACCOUNT_SUBPROFILE_IS_FOREGROUND : ErrCode := ERR_OS_ACCOUNT_SUBPROFILE_RESTRICTED + 1.

(** [ERR_OS_ACCOUNT_SUBPROFILE_HAS_ACTIVE_SESSION], account_error_no.h:106-106 *)
Definition ERR_OS_ACCOUNT_SUBPROFILE_HAS_ACTIVE_SESSION : ErrCode := ERR_OS_ACCOUNT_SUBPROFILE_IS_FOREGROUND + 1.

(** [ERR_OS_ACCOUNT_SUBPROFILE_DISTRIBUTE_ACC_ALREADY_BOUND], account_error_no.h:107-107 *)
Definition ERR_OS_ACCOUNT_SUBPROFILE_DISTRIBUTE_ACC_ALREADY_BOUND : ErrCode := ERR_OS_ACCOUNT_SUBPROFILE_HAS_ACTIVE_SESSION + 1.

(** [ERR_ACCOUNT_COMMON_SYSTEM_SERVICE_EXCEPTION], account_error_no.h:108-108 *)
Definition ERR_ACCOUNT_COMMON_SYSTEM_SERVICE_EXCEPTION : ErrCode := ERR_OS_ACCOUNT_SUBPROFILE_DISTRIBUTE_ACC_ALREADY_BOUND + 1.

(** [ERR_ACCOUNT_COMMON_FILE_ACCESS_DENIED], account_error_no.h:109-109 *)
Definition ERR_ACCOUNT_COMMON_FILE_ACCESS_DENIED : ErrCode := ERR_ACCOUNT_COMMON_SYSTEM_SERVICE_EXCEPTION + 1.

(** [ERR_ACCOUNT_COMMON_DISPLAY_NOT_PRIMARY_ERROR], account_error_no.h:110-110 *)
Definition ERR_ACCOUNT_COMMON_DISPLAY_NOT_PRIMARY_ERROR : ErrCode := ERR_ACCOUNT_COMMON_FILE_ACCESS_DENIED + 1.

(** [ACCOUNT_ACCOUNTMGR_ERR_OFFSET], account_error_no.h:114-114 *)
Definition ACCOUNT_ACCOUNTMGR_ERR_OFFSET : ErrCode := 4259840.

(** [ERR_ACCOUNT_MGR_DUMP_ERROR], account_error_no.h:116-116 *)
Definition ERR_ACCOUNT_MGR_DUMP_ERROR : ErrCode := ACCOUNT_ACCOUNTMGR_ERR_OFFSET + 1.

(** [ERR_ACCOUNT_MGR_GET_REMOTE_SA_ERROR], account_error_no.h:117-117 *)
Definition ERR_ACCOUNT_MGR_GET_REMOTE_SA_ERROR : ErrCode := ERR_ACCOUNT_MGR_DUMP_ERROR + 1.

(** [ERR_ACCOUNT_MGR_CONNECT_SA_ERROR], account_error_no.h:118-118 *)
Definition ERR_ACCOUNT_MGR_CONNECT_SA_ERROR : ErrCode := ERR_ACCOUNT_MGR_GET_REMOTE_SA_ERROR + 1.

(** [ERR_ACCOUNT_MGR_ADD_TO_SA_ERROR], account_error_no.h:119-119 *)
Definition ERR_ACCOUNT_MGR_ADD_TO_SA_ERROR : ErrCode := ERR_ACCOUNT_MGR_CONNECT_SA_ERROR + 1.

(** [ERR_ACCOUNT_MGR_OHOS_MGR_INIT_ERROR], account_error_no.h:120-120 *)
Definition ERR_ACCOUNT_MGR_OHOS_MGR_INIT_ERROR : ErrCode := ERR_ACCOUNT_MGR_ADD_TO_SA_ERROR + 1.

(** [ACCOUNT_DATADEAL_ERR_OFFSET], account_error_no.h:124-124 *)
Definition ACCOUNT_DATADEAL_ERR_OFFSET : ErrCode := 4325376.

(** [ERR_ACCOUNT_DATADEAL_INPUT_FILE_ERROR], account_error_no.h:126-126 *)
Definition ERR_ACCOUNT_DATADEAL_INPUT_FILE_ERROR : ErrCode := ACCOUNT_DATADEAL_ERR_OFFSET + 1.

(** [ERR_ACCOUNT_DATADEAL_NOT_READY], account_error_no.h:127-127 *)
Definition ERR_ACCOUNT_DATADEAL_NOT_READY : ErrCode := ERR_ACCOUNT_DATADEAL_INPUT_FILE_ERROR + 1.

(** [ERR_ACCOUNT_DATADEAL_JSON_FILE_CORRUPTION], account_error_no.h:128-128 *)
Definition ERR_ACCOUNT_DATADEAL_JSON_FILE_CORRUPTION : ErrCode := ERR_ACCOUNT_DATADEAL_NOT_READY + 1.

(** [ACCOUNT_IACCOUNT_ERR_OFFSET], account_error_no.h:132-132 *)
Definition ACCOUNT_IACCOUNT_ERR_OFFSET : ErrCode := 4390912.

(** [ERR_ACCOUNT_ZIDL_ACCOUNT_STUB_ERROR], account_error_no.h:134-134 *)
Definition ERR_ACCOUNT_ZIDL_ACCOUNT_STUB_ERROR : ErrCode := ACCOUNT_IACCOUNT_ERR_OFFSET + 1.

(** [ERR_ACCOUNT_ZIDL_ACCOUNT_SERVICE_ERROR], account_error_no.h:135-135 *)
Definition ERR_ACCOUNT_ZIDL_ACCOUNT_SERVICE_ERROR : ErrCode := ERR_ACCOUNT_ZIDL_ACCOUNT_STUB_ERROR + 1.

(** [ERR_ACCOUNT_ZIDL_MGR_NOT_READY_ERROR], account_error_no.h:136-136 *)
Definition ERR_ACCOUNT_ZIDL_MGR_NOT_READY_ERROR : ErrCode := ERR_ACCOUNT_ZIDL_ACCOUNT_SERVICE_ERROR + 1.

(** [ERR_ACCOUNT_ZIDL_ACCOUNT_STUB_USERID_ERROR], account_error_no.h:137-137 *)
Definition ERR_ACCOUNT_ZIDL_ACCOUNT_STUB_USERID_ERROR : ErrCode := ERR_ACCOUNT_ZIDL_MGR_NOT_READY_ERROR + 1.

(** [APPACCOUNT_KIT_ERR_OFFSET], account_error_no.h:141-141 *)
Definition APPACCOUNT_KIT_ERR_OFFSET : ErrCode := 4456448.

(** [ERR_APPACCOUNT_KIT_GET_APP_ACCOUNT_SERVICE], account_error_no.h:143-143 *)
Definition ERR_APPACCOUNT_KIT_GET_APP_ACCOUNT_SERVICE : ErrCode := APPACCOUNT_KIT_ERR_OFFSET + 1.

(** [ERR_APPACCOUNT_KIT_CREATE_APP_ACCOUNT_DEATH_RECIPIENT], account_error_no.h:144-144 *)
Definition ERR_APPACCOUNT_KIT_CREATE_APP_ACCOUNT_DEATH_RECIPIENT : ErrCode := ERR_APPACCOUNT_KIT_GET_APP_ACCOUNT_SERVICE + 1.

(** [ERR_APPACCOUNT_KIT_SUBSCRIBER_IS_NULLPTR], account_error_no.h:145-145 *)
Definition ERR_APPACCOUNT_KIT_SUBSCRIBER_IS_NULLPTR : ErrCode := ERR_APPACCOUNT_KIT_CREATE_APP_ACCOUNT_DEATH_RECIPIENT + 1.

(** [ERR_APPACCOUNT_KIT_GET_SUBSCRIBE_INFO], account_error_no.h:146-146 *)
Definition ERR_APPACCOUNT_KIT_GET_SUBSCRIBE_INFO : ErrCode := ERR_APPACCOUNT_KIT_SUBSCRIBER_IS_NULLPTR + 1.

(** [ERR_APPACCOUNT_KIT_GET_OWNERS], account_error_no.h:147-147 *)
Definition ERR_APPACCOUNT_KIT_GET_OWNERS : ErrCode := ERR_APPACCOUNT_KIT_GET_SUBSCRIBE_INFO + 1.

(** [ERR_APPACCOUNT_KIT_SET_OWNERS], account_error_no.h:148-148 *)
Definition ERR_APPACCOUNT_KIT_SET_OWNERS : ErrCode := ERR_APPACCOUNT_KIT_GET_OWNERS + 1.

(** [ERR_APPACCOUNT_KIT_SUBSCRIBE], account_error_no.h:149-149 *)
Definition ERR_APPACCOUNT_KIT_SUBSCRIBE : ErrCode := ERR_APPACCOUNT_KIT_SET_OWNERS + 1.

(** [ERR_APPACCOUNT_KIT_NO_SPECIFIED_SUBSCRIBER_HAS_BEEN_REGISTERED], account_error_no.h:150-150 *)
Definition ERR_APPACCOUNT_KIT_NO_SPECIFIED_SUBSCRIBER_HAS_BEEN_REGISTERED : ErrCode := ERR_APPACCOUNT_KIT_SUBSCRIBE + 1.

(** [ERR_APPACCOUNT_KIT_SEND_REQUEST], account_error_no.h:151-151 *)
Definition ERR_APPACCOUNT_KIT_SEND_REQUEST : ErrCode := ERR_APPACCOUNT_KIT_NO_SPECIFIED_SUBSCRIBER_HAS_BEEN_REGISTERED + 1.

(** [ERR_APPACCOUNT_KIT_READ_PARCELABLE_APP_ACCOUNT_INFO], account_error_no.h:152-152 *)
Definition ERR_APPACCOUNT_KIT_READ_PARCELABLE_APP_ACCOUNT_INFO : ErrCode := ERR_APPACCOUNT_KIT_SEND_REQUEST + 1.

(** [ERR_APPACCOUNT_KIT_READ_PARCELABLE_VECTOR_ACCOUNT_INFO], account_error_no.h:153-153 *)
Definition ERR_APPACCOUNT_KIT_READ_PARCELABLE_VECTOR_ACCOUNT_INFO : ErrCode := ERR_APPACCOUNT_KIT_READ_PARCELABLE_APP_ACCOUNT_INFO + 1.

(** [APPACCOUNT_SERVICE_ERR_OFFSET], account_error_no.h:157-158 *)
Definition APPACCOUNT_SERVICE_ERR_OFFSET : ErrCode := 4521984.

(** [ERR_APPACCOUNT_SERVICE_ACCOUNT_NOT_EXIST], account_error_no.h:160-160 *)
Definition ERR_APPACCOUNT_SERVICE_ACCOUNT_NOT_EXIST : ErrCode := APPACCOUNT_SERVICE_ERR_OFFSET + 1.

(** [ERR_APPACCOUNT_SERVICE_DATA_STORAGE_PTR_IS_NULLPTR], account_error_no.h:161-161 *)
Definition ERR_APPACCOUNT_SERVICE_DATA_STORAGE_PTR_IS_NULLPTR : ErrCode := ERR_APPACCOUNT_SERVICE_ACCOUNT_NOT_EXIST + 1.

(** [ERR_APPACCOUNT_SERVICE_ACCOUNT_MAX_SIZE], account_error_no.h:162-162 *)
Definition ERR_APPACCOUNT_SERVICE_ACCOUNT_MAX_SIZE : ErrCode := ERR_APPACCOUNT_SERVICE_DATA_STORAGE_PTR_IS_NULLPTR + 1.

(** [ERR_APPACCOUNT_SERVICE_GET_ACCOUNT_INFO_BY_ID], account_error_no.h:163-163 *)
Definition ERR_APPACCOUNT_SERVICE_GET_ACCOUNT_INFO_BY_ID : ErrCode := ERR_APPACCOUNT_SERVICE_ACCOUNT_MAX_SIZE + 1.

(** [ERR_APPACCOUNT_SERVICE_GET_ASSOCIATED_DATA], account_error_no.h:164-164 *)
Definition ERR_APPACCOUNT_SERVICE_GET_ASSOCIATED_DATA : ErrCode := ERR_APPACCOUNT_SERVICE_GET_ACCOUNT_INFO_BY_ID + 1.

(** [ERR_APPACCOUNT_SERVICE_SET_ASSOCIATED_DATA], account_error_no.h:165-165 *)
Definition ERR_APPACCOUNT_SERVICE_SET_ASSOCIATED_DATA : ErrCode := ERR_APPACCOUNT_SERVICE_GET_ASSOCIATED_DATA + 1.

(** [ERR_APPACCOUNT_SERVICE_ACCOUNT_CREDENTIAL_NOT_EXIST], account_error_no.h:166-166 *)
Definition ERR_APPACCOUNT_SERVICE_ACCOUNT_CREDENTIAL_NOT_EXIST : ErrCode := ERR_APPACCOUNT_SERVICE_SET_ASSOCIATED_DATA + 1.

(** [ERR_APPACCOUNT_SERVICE_GET_OWNER], account_error_no.h:167-167 *)
Definition ERR_APPACCOUNT_SERVICE_GET_OWNER : ErrCode := ERR_APPACCOUNT_SERVICE_ACCOUNT_CREDENTIAL_NOT_EXIST + 1.

(** [ERR_APPACCOUNT_SERVICE_GET_BUNDLE_NAME], account_error_no.h:168-168 *)
Definition ERR_APPACCOUNT_SERVICE_GET_BUNDLE_NAME : ErrCode := ERR_APPACCOUNT_SERVICE_GET_OWNER + 1.

(** [ERR_APPACCOUNT_SERVICE_GET_APP_INDEX], account_error_no.h:169-169 *)
Definition ERR_APPACCOUNT_SERVICE_GET_APP_INDEX : ErrCode := ERR_APPACCOUNT_SERVICE_GET_BUNDLE_NAME + 1.

(** [ERR_APPACCOUNT_SERVICE_GET_BUNDLE_INFO], account_error_no.h:170-170 *)
Definition ERR_APPACCOUNT_SERVICE_GET_BUNDLE_INFO : ErrCode := ERR_APPACCOUNT_SERVICE_GET_APP_INDEX + 1.

(** [ERR_APPACCOUNT_SERVICE_ADD_EXISTING_ACCOUNT], account_error_no.h:171-171 *)
Definition ERR_APPACCOUNT_SERVICE_ADD_EXISTING_ACCOUNT : ErrCode := ERR_APPACCOUNT_SERVICE_GET_BUNDLE_INFO + 1.

(** [ERR_APPACCOUNT_SERVICE_ENABLE_APP_ACCESS_ALREADY_EXISTS], account_error_no.h:172-172 *)
Definition ERR_APPACCOUNT_SERVICE_ENABLE_APP_ACCESS_ALREADY_EXISTS : ErrCode := ERR_APPACCOUNT_SERVICE_ADD_EXISTING_ACCOUNT + 1.

(** [ERR_APPACCOUNT_SERVICE_DISABLE_APP_ACCESS_NOT_EXISTED], account_error_no.h:173-173 *)
Definition ERR_APPACCOUNT_SERVICE_DISABLE_APP_ACCESS_NOT_EXISTED : ErrCode := ERR_APPACCOUNT_SERVICE_ENABLE_APP_ACCESS_ALREADY_EXISTS + 1.

(** [ERR_APPACCOUNT_SERVICE_ASSOCIATED_DATA_KEY_NOT_EXIST], account_error_no.h:174-174 *)
Definition ERR_APPACCOUNT_SERVICE_ASSOCIATED_DATA_KEY_NOT_EXIST : ErrCode := ERR_APPACCOUNT_SERVICE_DISABLE_APP_ACCESS_NOT_EXISTED + 1.

(** [ERR_APPACCOUNT_SERVICE_ASSOCIATED_DATA_OVER_SIZE], account_error_no.h:175-175 *)
Definition ERR_APPACCOUNT_SERVICE_ASSOCIATED_DATA_OVER_SIZE : ErrCode := ERR_APPACCOUNT_SERVICE_ASSOCIATED_DATA_KEY_NOT_EXIST + 1.

(** [ERR_APPACCOUNT_SERVICE_OAUTH_TOKEN_NOT_EXIST], account_error_no.h:177-177 *)
Definition ERR_APPACCOUNT_SERVICE_OAUTH_TOKEN_NOT_EXIST : ErrCode := ERR_APPACCOUNT_SERVICE_ASSOCIATED_DATA_OVER_SIZE + 1.

(** [ERR_APPACCOUNT_SERVICE_OAUTH_TYPE_NOT_EXIST], account_error_no.h:178-178 *)
Definition ERR_APPACCOUNT_SERVICE_OAUTH_TYPE_NOT_EXIST : ErrCode := ERR_APPACCOUNT_SERVICE_OAUTH_TOKEN_NOT_EXIST + 1.

(** [ERR_APPACCOUNT_SERVICE_OAUTH_TOKEN_MAX_SIZE], account_error_no.h:179-179 *)
Definition ERR_APPACCOUNT_SERVICE_OAUTH_TOKEN_MAX_SIZE : ErrCode := ERR_APPACCOUNT_SERVICE_OAUTH_TYPE_NOT_EXIST + 1.

(** [ERR_APPACCOUNT_SERVICE_OAUTH_LIST_MAX_SIZE], account_error_no.h:180-180 *)
Definition ERR_APPACCOUNT_SERVICE_OAUTH_LIST_MAX_SIZE : ErrCode := ERR_APPACCOUNT_SERVICE_OAUTH_TOKEN_MAX_SIZE + 1.

(** [ERR_APPACCOUNT_SERVICE_OAUTH_AUTHENTICATOR_NOT_EXIST], account_error_no.h:181-181 *)
Definition ERR_APPACCOUNT_SERVICE_OAUTH_AUTHENTICATOR_NOT_EXIST : ErrCode := ERR_APPACCOUNT_SERVICE_OAUTH_LIST_MAX_SIZE + 1.

(** [ERR_APPACCOUNT_SERVICE_OAUTH_AUTHENTICATOR_CALLBACK_NOT_EXIST], account_error_no.h:182-182 *)
Definition ERR_APPACCOUNT_SERVICE_OAUTH_AUTHENTICATOR_CALLBACK_NOT_EXIST : ErrCode := ERR_APPACCOUNT_SERVICE_OAUTH_AUTHENTICATOR_NOT_EXIST + 1.

(** [ERR_APPACCOUNT_SERVICE_OAUTH_SESSION_NOT_EXIST], account_error_no.h:183-183 *)
Definition ERR_APPACCOUNT_SERVICE_OAUTH_SESSION_NOT_EXIST : ErrCode := ERR_APPACCOUNT_SERVICE_OAUTH_AUTHENTICATOR_CALLBACK_NOT_EXIST + 1.

(** [ERR_APPACCOUNT_SERVICE_OAUTH_BUSY], account_error_no.h:184-184 *)
Definition ERR_APPACCOUNT_SERVICE_OAUTH_BUSY : ErrCode := ERR_APPACCOUNT_SERVICE_OAUTH_SESSION_NOT_EXIST + 1.

(** [ERR_APPACCOUNT_SERVICE_OAUTH_INVALID_RESPONSE], account_error_no.h:185-185 *)
Definition ERR_APPACCOUNT_SERVICE_OAUTH_INVALID_RESPONSE : ErrCode := ERR_APPACCOUNT_SERVICE_OAUTH_BUSY + 1.

(** [ERR_APPACCOUNT_SERVICE_OAUTH_SERVICE_EXCEPTION], account_error_no.h:186-186 *)
Definition ERR_APPACCOUNT_SERVICE_OAUTH_SERVICE_EXCEPTION : ErrCode := ERR_APPACCOUNT_SERVICE_OAUTH_INVALID_RESPONSE + 1.

(** [ERR_APPACCOUNT_SERVICE_OWNERS_SIZE_IS_ZERO], account_error_no.h:187-187 *)
Definition ERR_APPACCOUNT_SERVICE_OWNERS_SIZE_IS_ZERO : ErrCode := ERR_APPACCOUNT_SERVICE_OAUTH_SERVICE_EXCEPTION + 1.

(** [ERR_APPACCOUNT_SUBSCRIBER_ALREADY_REGISTERED], account_error_no.h:188-188 *)
Definition ERR_APPACCOUNT_SUBSCRIBER_ALREADY_REGISTERED : ErrCode := ERR_APPACCOUNT_SERVICE_OWNERS_SIZE_IS_ZERO + 1.

(** [ERR_APPACCOUNT_SERVICE_OTHER], account_error_no.h:189-189 *)
Definition ERR_APPACCOUNT_SERVICE_OTHER : ErrCode := ERR_APPACCOUNT_SUBSCRIBER_ALREADY_REGISTERED + 1.

(** [ACCOUNT_OSACCOUNT_KIT_ERR_OFFSET], account_error_no.h:193-194 *)
Definition ACCOUNT_OSACCOUNT_KIT_ERR_OFFSET : ErrCode := 4587520.

(** [ERR_OSACCOUNT_KIT_CREATE_OS_ACCOUNT_FOR_DOMAIN_ERROR], account_error_no.h:196-196 *)
Definition ERR_OSACCOUNT_KIT_CREATE_OS_ACCOUNT_FOR_DOMAIN_ERROR : ErrCode := ACCOUNT_OSACCOUNT_KIT_ERR_OFFSET + 1.

(** [ERR_OSACCOUNT_KIT_READ_LOCALNAME_ERROR], account_error_no.h:197-197 *)
Definition ERR_OSACCOUNT_KIT_READ_LOCALNAME_ERROR : ErrCode := ERR_OSACCOUNT_KIT_CREATE_OS_ACCOUNT_FOR_DOMAIN_ERROR + 1.

(** [ERR_OSACCOUNT_KIT_READ_IN_LOCAL_ID_ERROR], account_error_no.h:198-198 *)
Definition ERR_OSACCOUNT_KIT_READ_IN_LOCAL_ID_ERROR : ErrCode := ERR_OSACCOUNT_KIT_READ_LOCALNAME_ERROR + 1.

(** [ERR_OSACCOUNT_KIT_GET_APP_ACCOUNT_SERVICE_ERROR], account_error_no.h:199-199 *)
Definition ERR_OSACCOUNT_KIT_GET_APP_ACCOUNT_SERVICE_ERROR : ErrCode := ERR_OSACCOUNT_KIT_READ_IN_LOCAL_ID_ERROR + 1.

(** [ERR_OSACCOUNT_KIT_CREATE_APP_ACCOUNT_DEATH_RECIPIENT_ERROR], account_error_no.h:200-200 *)
Definition ERR_OSACCOUNT_KIT_CREATE_APP_ACCOUNT_DEATH_RECIPIENT_ERROR : ErrCode := ERR_OSACCOUNT_KIT_GET_APP_ACCOUNT_SERVICE_ERROR + 1.

(** [ERR_OSACCOUNT_KIT_IS_OS_ACCOUNT_ACTIVED_ERROR], account_error_no.h:201-201 *)
Definition ERR_OSACCOUNT_KIT_IS_OS_ACCOUNT_ACTIVED_ERROR : ErrCode := ERR_OSACCOUNT_KIT_CREATE_APP_ACCOUNT_DEATH_RECIPIENT_ERROR + 1.

(** [ERR_OSACCOUNT_KIT_IS_OS_ACCOUNT_CONSTRAINT_ENABLE_ERROR], account_error_no.h:202-202 *)
Definition ERR_OSACCOUNT_KIT_IS_OS_ACCOUNT_CONSTRAINT_ENABLE_ERROR : ErrCode := ERR_OSACCOUNT_KIT_IS_OS_ACCOUNT_ACTIVED_ERROR + 1.

(** [ERR_OSACCOUNT_KIT_IS_OS_ACCOUNT_VERIFIED_ERROR], account_error_no.h:203-203 *)
Definition ERR_OSACCOUNT_KIT_IS_OS_ACCOUNT_VERIFIED_ERROR : ErrCode := ERR_OSACCOUNT_KIT_IS_OS_ACCOUNT_CONSTRAINT_ENABLE_ERROR + 1.

(** [ERR_OSACCOUNT_KIT_GET_CREATED_OS_ACCOUNT_COUNT_ERROR], account_error_no.h:204-204 *)
Definition ERR_OSACCOUNT_KIT_GET_CREATED_OS_ACCOUNT_COUNT_ERROR : ErrCode := ERR_OSACCOUNT_KIT_IS_OS_ACCOUNT_VERIFIED_ERROR + 1.

(** [ERR_OSACCOUNT_KIT_GET_OS_ACCOUNT_ALL_CONSTRAINTS_ERROR], account_error_no.h:205-205 *)
Definition ERR_OSACCOUNT_KIT_GET_OS_ACCOUNT_ALL_CONSTRAINTS_ERROR : ErrCode := ERR_OSACCOUNT_KIT_GET_CREATED_OS_ACCOUNT_COUNT_ERROR + 1.

(** [ERR_OSACCOUNT_KIT_QUERY_CURRENT_OS_ACCOUNT_ERROR], account_error_no.h:206-206 *)
Definition ERR_OSACCOUNT_KIT_QUERY_CURRENT_OS_ACCOUNT_ERROR : ErrCode := ERR_OSACCOUNT_KIT_GET_OS_ACCOUNT_ALL_CONSTRAINTS_ERROR + 1.

(** [ERR_OSACCOUNT_KIT_GET_DISTRIBUTED_VIRTUAL_DEVICE_ID_ERROR], account_error_no.h:207-207 *)
Definition ERR_OSACCOUNT_KIT_GET_DISTRIBUTED_VIRTUAL_DEVICE_ID_ERROR : ErrCode := ERR_OSACCOUNT_KIT_QUERY_CURRENT_OS_ACCOUNT_ERROR + 1.

(** [ERR_OSACCOUNT_KIT_SUBSCRIBE_ERROR], account_error_no.h:208-208 *)
Definition ERR_OSACCOUNT_KIT_SUBSCRIBE_ERROR : ErrCode := ERR_OSACCOUNT_KIT_GET_DISTRIBUTED_VIRTUAL_DEVICE_ID_ERROR + 1.

(** [ERR_OSACCOUNT_KIT_NO_SPECIFIED_SUBSCRIBER_HAS_BEEN_REGISTERED], account_error_no.h:209-209 *)
Definition ERR_OSACCOUNT_KIT_NO_SPECIFIED_SUBSCRIBER_HAS_BEEN_REGISTERED : ErrCode := ERR_OSACCOUNT_KIT_SUBSCRIBE_ERROR + 1.

(** [ACCOUNT_OSACCOUNT_SERVICE_ERR_OFFSET], account_error_no.h:213-214 *)
Definition ACCOUNT_OSACCOUNT_SERVICE_ERR_OFFSET : ErrCode := 4653056.

(** [ERR_OSACCOUNT_SERVICE_MANAGER_QUERY_DISTRIBUTE_DATA_ERROR], account_error_no.h:216-216 *)
Definition ERR_OSACCOUNT_SERVICE_MANAGER_QUERY_DISTRIBUTE_DATA_ERROR : ErrCode := ACCOUNT_OSACCOUNT_SERVICE_ERR_OFFSET + 1.

(** [ERR_OSACCOUNT_SERVICE_MANAGER_NOT_ENABLE_MULTI_ERROR], account_error_no.h:217-217 *)
Definition ERR_OSACCOUNT_SERVICE_MANAGER_NOT_ENABLE_MULTI_ERROR : ErrCode := ERR_OSACCOUNT_SERVICE_MANAGER_QUERY_DISTRIBUTE_DATA_ERROR + 1.

(** [ERR_OSACCOUNT_SERVICE_MANAGER_ID_ERROR], account_error_no.h:218-218 *)
Definition ERR_OSACCOUNT_SERVICE_MANAGER_ID_ERROR : ErrCode := ERR_OSACCOUNT_SERVICE_MANAGER_NOT_ENABLE_MULTI_ERROR + 1.

(** [ERR_OSACCOUNT_SERVICE_MANAGER_CREATE_OSACCOUNT_TYPE_ERROR], account_error_no.h:219-219 *)
Definition ERR_OSACCOUNT_SERVICE_MANAGER_CREATE_OSACCOUNT_TYPE_ERROR : ErrCode := ERR_OSACCOUNT_SERVICE_MANAGER_ID_ERROR + 1.

(** [ERR_OSACCOUNT_SERVICE_INNER_SELECT_ERROR], account_error_no.h:220-220 *)
Definition ERR_OSACCOUNT_SERVICE_INNER_SELECT_ERROR : ErrCode := ERR_OSACCOUNT_SERVICE_MANAGER_CREATE_OSACCOUNT_TYPE_ERROR + 1.

(** [ERR_OSACCOUNT_SERVICE_INNER_UPDATE_ACCOUNT_ERROR], account_error_no.h:221-221 *)
Definition ERR_OSACCOUNT_SERVICE_INNER_UPDATE_ACCOUNT_ERROR : ErrCode := ERR_OSACCOUNT_SERVICE_INNER_SELECT_ERROR + 1.

(** [ERR_OSACCOUNT_SERVICE_INNER_ACCOUNT_IS_UNVERIFIED_ERROR], account_error_no.h:222-222 *)
Definition ERR_OSACCOUNT_SERVICE_INNER_ACCOUNT_IS_UNVERIFIED_ERROR : ErrCode := ERR_OSACCOUNT_SERVICE_INNER_UPDATE_ACCOUNT_ERROR + 1.

(** [ERR_OSACCOUNT_SERVICE_INNER_ACCOUNT_IS_UNCOMPLETED_ERROR], account_error_no.h:223-223 *)
Definition ERR_OSACCOUNT_SERVICE_INNER_ACCOUNT_IS_UNCOMPLETED_ERROR : ErrCode := ERR_OSACCOUNT_SERVICE_INNER_ACCOUNT_IS_UNVERIFIED_ERROR + 1.

(** [ERR_OSACCOUNT_SERVICE_INNER_ACCOUNT_ALREADY_ACTIVE_ERROR], account_error_no.h:224-224 *)
Definition ERR_OSACCOUNT_SERVICE_INNER_ACCOUNT_ALREADY_ACTIVE_ERROR : ErrCode := ERR_OSACCOUNT_SERVICE_INNER_ACCOUNT_IS_UNCOMPLETED_ERROR + 1.

(** [ERR_OSACCOUNT_SERVICE_INNER_ACCOUNT_ALREADY_EXIST_ERROR], account_error_no.h:225-225 *)
Definition ERR_OSACCOUNT_SERVICE_INNER_ACCOUNT_ALREADY_EXIST_ERROR : ErrCode := ERR_OSACCOUNT_SERVICE_INNER_ACCOUNT_ALREADY_ACTIVE_ERROR + 1.

(** [ERR_OSACCOUNT_SERVICE_INNER_ACCOUNT_STOP_ACTIVE_ERROR], account_error_no.h:226-226 *)
Definition ERR_OSACCOUNT_SERVICE_INNER_ACCOUNT_STOP_ACTIVE_ERROR : ErrCode := ERR_OSACCOUNT_SERVICE_INNER_ACCOUNT_ALREADY_EXIST_ERROR + 1.

(** [ERR_OSACCOUNT_SERVICE_INNER_REMOVE_ACCOUNT_ACTIVED_ERROR], account_error_no.h:227-227 *)
Definition ERR_OSACCOUNT_SERVICE_INNER_REMOVE_ACCOUNT_ACTIVED_ERROR : ErrCode := ERR_OSACCOUNT_SERVICE_INNER_ACCOUNT_STOP_ACTIVE_ERROR + 1.

(** [ERR_OSACCOUNT_SERVICE_INNER_DOMAIN_ALREADY_BIND_ERROR], account_error_no.h:228-228 *)
Definition ERR_OSACCOUNT_SERVICE_INNER_DOMAIN_ALREADY_BIND_ERROR : ErrCode := ERR_OSACCOUNT_SERVICE_INNER_REMOVE_ACCOUNT_ACTIVED_ERROR + 1.

(** [ERR_OSACCOUNT_SERVICE_INNER_ACCOUNT_TO_BE_REMOVED_ERROR], account_error_no.h:229-229 *)
Definition ERR_OSACCOUNT_SERVICE_INNER_ACCOUNT_TO_BE_REMOVED_ERROR : ErrCode := ERR_OSACCOUNT_SERVICE_INNER_DOMAIN_ALREADY_BIND_ERROR + 1.

(** [ERR_OSACCOUNT_SERVICE_INNER_ACCOUNT_PLUGIN_NOT_EXIST_ERROR], account_error_no.h:230-230 *)
Definition ERR_OSACCOUNT_SERVICE_INNER_ACCOUNT_PLUGIN_NOT_EXIST_ERROR : ErrCode := ERR_OSACCOUNT_SERVICE_INNER_ACCOUNT_TO_BE_REMOVED_ERROR + 1.

(** [ERR_OSACCOUNT_SERVICE_INNER_ACCOUNT_PLUGIN_NOT_ALLOWED_CREATION_ERROR], account_error_no.h:231-231 *)
Definition ERR_OSACCOUNT_SERVICE_INNER_ACCOUNT_PLUGIN_NOT_ALLOWED_CREATION_ERROR : ErrCode := ERR_OSACCOUNT_SERVICE_INNER_ACCOUNT_PLUGIN_NOT_EXIST_ERROR + 1.

(** [ERR_OSACCOUNT_SERVICE_INNER_ACCOUNT_LOCK_ERROR], account_error_no.h:232-232 *)
Definition ERR_OSACCOUNT_SERVICE_INNER_ACCOUNT_LOCK_ERROR : ErrCode := ERR_OSACCOUNT_SERVICE_INNER_ACCOUNT_PLUGIN_NOT_ALLOWED_CREATION_ERROR + 1.

(** [ERR_OSACCOUNT_SERVICE_CONTROL_GET_TYPE_ERROR], account_error_no.h:233-233 *)
Definition ERR_OSACCOUNT_SERVICE_CONTROL_GET_TYPE_ERROR : ErrCode := ERR_OSACCOUNT_SERVICE_INNER_ACCOUNT_LOCK_ERROR + 1.

(** [ERR_OSACCOUNT_SERVICE_CONTROL_INSERT_FILE_EXISTS_ERROR], account_error_no.h:234-234 *)
Definition ERR_OSACCOUNT_SERVICE_CONTROL_INSERT_FILE_EXISTS_ERROR : ErrCode := ERR_OSACCOUNT_SERVICE_CONTROL_GET_TYPE_ERROR + 1.

(** [ERR_OSACCOUNT_SERVICE_CONTROL_UPDATE_FILE_NOT_EXISTS_ERROR], account_error_no.h:235-235 *)
Definition ERR_OSACCOUNT_SERVICE_CONTROL_UPDATE_FILE_NOT_EXISTS_ERROR : ErrCode := ERR_OSACCOUNT_SERVICE_CONTROL_INSERT_FILE_EXISTS_ERROR + 1.

(** [ERR_OSACCOUNT_SERVICE_CONTROL_MAX_CAN_CREATE_ERROR], account_error_no.h:236-236 *)
Definition ERR_OSACCOUNT_SERVICE_CONTROL_MAX_CAN_CREATE_ERROR : ErrCode := ERR_OSACCOUNT_SERVICE_CONTROL_UPDATE_FILE_NOT_EXISTS_ERROR + 1.

(** [ERR_OSACCOUNT_SERVICE_LOGGED_IN_ACCOUNTS_OVERSIZE], account_error_no.h:237-237 *)
Definition ERR_OSACCOUNT_SERVICE_LOGGED_IN_ACCOUNTS_OVERSIZE : ErrCode := ERR_OSACCOUNT_SERVICE_CONTROL_MAX_CAN_CREATE_ERROR + 1.

(** [ERR_OSACCOUNT_SERVICE_CONTROL_SELECT_CAN_USE_ID_ERROR], account_error_no.h:238-238 *)
Definition ERR_OSACCOUNT_SERVICE_CONTROL_SELECT_CAN_USE_ID_ERROR : ErrCode := ERR_OSACCOUNT_SERVICE_LOGGED_IN_ACCOUNTS_OVERSIZE + 1.

(** [ERR_OSACCOUNT_SERVICE_CONTROL_ID_CANNOT_CREATE_ERROR], account_error_no.h:239-239 *)
Definition ERR_OSACCOUNT_SERVICE_CONTROL_ID_CANNOT_CREATE_ERROR : ErrCode := ERR_OSACCOUNT_SERVICE_CONTROL_SELECT_CAN_USE_ID_ERROR + 1.

(** [ERR_OSACCOUNT_SERVICE_CONTROL_CANNOT_DELETE_ID_ERROR], account_error_no.h:240-240 *)
Definition ERR_OSACCOUNT_SERVICE_CONTROL_CANNOT_DELETE_ID_ERROR : ErrCode := ERR_OSACCOUNT_SERVICE_CONTROL_ID_CANNOT_CREATE_ERROR + 1.

(** [ERR_OSACCOUNT_SERVICE_FILE_DELE_ERROR], account_error_no.h:241-241 *)
Definition ERR_OSACCOUNT_SERVICE_FILE_DELE_ERROR : ErrCode := ERR_OSACCOUNT_SERVICE_CONTROL_CANNOT_DELETE_ID_ERROR + 1.

(** [ERR_OSACCOUNT_SERVICE_FILE_FIND_FILE_ERROR], account_error_no.h:242-242 *)
Definition ERR_OSACCOUNT_SERVICE_FILE_FIND_FILE_ERROR : ErrCode := ERR_OSACCOUNT_SERVICE_FILE_DELE_ERROR + 1.

(** [ERR_OSACCOUNT_SERVICE_FILE_CREATE_DIR_ERROR], account_error_no.h:243-243 *)
Definition ERR_OSACCOUNT_SERVICE_FILE_CREATE_DIR_ERROR : ErrCode := ERR_OSACCOUNT_SERVICE_FILE_FIND_FILE_ERROR + 1.

(** [ERR_OSACCOUNT_SERVICE_FILE_CHANGE_DIR_MODE_ERROR], account_error_no.h:244-244 *)
Definition ERR_OSACCOUNT_SERVICE_FILE_CHANGE_DIR_MODE_ERROR : ErrCode := ERR_OSACCOUNT_SERVICE_FILE_CREATE_DIR_ERROR + 1.

(** [ERR_OSACCOUNT_SERVICE_DATA_STORAGE_KEY_NOT_EXISTS_ERROR], account_error_no.h:245-245 *)
Definition ERR_OSACCOUNT_SERVICE_DATA_STORAGE_KEY_NOT_EXISTS_ERROR : ErrCode := ERR_OSACCOUNT_SERVICE_FILE_CHANGE_DIR_MODE_ERROR + 1.

(** [ERR_OSACCOUNT_SERVICE_DATA_STORAGE_KEY_EXISTED_ERROR], account_error_no.h:246-246 *)
Definition ERR_OSACCOUNT_SERVICE_DATA_STORAGE_KEY_EXISTED_ERROR : ErrCode := ERR_OSACCOUNT_SERVICE_DATA_STORAGE_KEY_NOT_EXISTS_ERROR + 1.

(** [ERR_OSACCOUNT_SERVICE_ACCOUNT_INFO_EMPTY_ERROR], account_error_no.h:247-247 *)
Definition ERR_OSACCOUNT_SERVICE_ACCOUNT_INFO_EMPTY_ERROR : ErrCode := ERR_OSACCOUNT_SERVICE_DATA_STORAGE_KEY_EXISTED_ERROR + 1.

(** [ERR_OSACCOUNT_SERVICE_INTERFACE_TO_AM_ACCOUNT_START_ERROR], account_error_no.h:248-248 *)
Definition ERR_OSACCOUNT_SERVICE_INTERFACE_TO_AM_ACCOUNT_START_ERROR : ErrCode := ERR_OSACCOUNT_SERVICE_ACCOUNT_INFO_EMPTY_ERROR + 1.

(** [ERR_OSACCOUNT_SERVICE_INTERFACE_TO_BM_ACCOUNT_CREATE_ERROR], account_error_no.h:249-249 *)
Definition ERR_OSACCOUNT_SERVICE_INTERFACE_TO_BM_ACCOUNT_CREATE_ERROR : ErrCode := ERR_OSACCOUNT_SERVICE_INTERFACE_TO_AM_ACCOUNT_START_ERROR + 1.

(** [ERR_OSACCOUNT_SERVICE_INTERFACE_TO_BM_ACCOUNT_DELETE_ERROR], account_error_no.h:250-250 *)
Definition ERR_OSACCOUNT_SERVICE_INTERFACE_TO_BM_ACCOUNT_DELETE_ERROR : ErrCode := ERR_OSACCOUNT_SERVICE_INTERFACE_TO_BM_ACCOUNT_CREATE_ERROR + 1.

(** [ERR_OSACCOUNT_SERVICE_OS_FILE_GET_CONFIG_ERROR], account_error_no.h:251-251 *)
Definition ERR_OSACCOUNT_SERVICE_OS_FILE_GET_CONFIG_ERROR : ErrCode := ERR_OSACCOUNT_SERVICE_INTERFACE_TO_BM_ACCOUNT_DELETE_ERROR + 1.

(** [ERR_OSACCOUNT_SERVICE_OS_FILE_GET_CONSTRAINTS_LITS_ERROR], account_error_no.h:252-252 *)
Definition ERR_OSACCOUNT_SERVICE_OS_FILE_GET_CONSTRAINTS_LITS_ERROR : ErrCode := ERR_OSACCOUNT_SERVICE_OS_FILE_GET_CONFIG_ERROR + 1.

(** [ERR_OSACCOUNT_SERVICE_INNER_ACCOUNT_OPERATING_ERROR], account_error_no.h:253-253 *)
Definition ERR_OSACCOUNT_SERVICE_INNER_ACCOUNT_OPERATING_ERROR : ErrCode := ERR_OSACCOUNT_SERVICE_OS_FILE_GET_CONSTRAINTS_LITS_ERROR + 1.

(** [ERR_OSACCOUNT_SERVICE_GET_DATA_FROM_BASE_CONSTRAINTS_FILE_EMPTY], account_error_no.h:254-254 *)
Definition ERR_OSACCOUNT_SERVICE_GET_DATA_FROM_BASE_CONSTRAINTS_FILE_EMPTY : ErrCode := ERR_OSACCOUNT_SERVICE_INNER_ACCOUNT_OPERATING_ERROR + 1.

(** [ERR_OSACCOUNT_SERVICE_GET_DATA_FROM_GLOBAL_CONSTRAINTS_FILE_EMPTY], account_error_no.h:255-255 *)
Definition ERR_OSACCOUNT_SERVICE_GET_DATA_FROM_GLOBAL_CONSTRAINTS_FILE_EMPTY : ErrCode := ERR_OSACCOUNT_SERVICE_GET_DATA_FROM_BASE_CONSTRAINTS_FILE_EMPTY + 1.

(** [ERR_OSACCOUNT_SERVICE_GET_DATA_FROM_SPECIFIC_CONSTRAINTS_FILE_EMPTY], account_error_no.h:256-256 *)
Definition ERR_OSACCOUNT_SERVICE_GET_DATA_FROM_SPECIFIC_CONSTRAINTS_FILE_EMPTY : ErrCode := ERR_OSACCOUNT_SERVICE_GET_DATA_FROM_GLOBAL_CONSTRAINTS_FILE_EMPTY + 1.

(** [ERR_OSACCOUNT_SERVICE_STORAGE_PREPARE_ADD_USER_FAILED], account_error_no.h:257-257 *)
Definition ERR_OSACCOUNT_SERVICE_STORAGE_PREPARE_ADD_USER_FAILED : ErrCode := ERR_OSACCOUNT_SERVICE_GET_DATA_FROM_SPECIFIC_CONSTRAINTS_FILE_EMPTY + 1.

(** [ERR_OSACCOUNT_SERVICE_IAM_ERASE_USER_FAILED], account_error_no.h:258-258 *)
Definition ERR_OSACCOUNT_SERVICE_IAM_ERASE_USER_FAILED : ErrCode := ERR_OSACCOUNT_SERVICE_STORAGE_PREPARE_ADD_USER_FAILED + 1.

(** [ERR_OSACCOUNT_SERVICE_STORAGE_STOP_USER_FAILED], account_error_no.h:259-259 *)
Definition ERR_OSACCOUNT_SERVICE_STORAGE_STOP_USER_FAILED : ErrCode := ERR_OSACCOUNT_SERVICE_IAM_ERASE_USER_FAILED + 1.

(** [ERR_OSACCOUNT_SERVICE_SAMGR_USER_STATE_FAILED], account_error_no.h:260-260 *)
Definition ERR_OSACCOUNT_SERVICE_SAMGR_USER_STATE_FAILED : ErrCode := ERR_OSACCOUNT_SERVICE_STORAGE_STOP_USER_FAILED + 1.

(** [ERR_OSACCOUNT_SERVICE_INNER_ANIMATION_POLL_ERROR], account_error_no.h:262-262 *)
Definition ERR_OSACCOUNT_SERVICE_INNER_ANIMATION_POLL_ERROR : ErrCode := ERR_OSACCOUNT_SERVICE_SAMGR_USER_STATE_FAILED + 1.

(** [ERR_OSACCOUNT_SERVICE_INNER_ANIMATION_TIMEOUT], account_error_no.h:263-263 *)
Definition ERR_OSACCOUNT_SERVICE_INNER_ANIMATION_TIMEOUT : ErrCode := ERR_OSACCOUNT_SERVICE_INNER_ANIMATION_POLL_ERROR + 1.

(** [ERR_OSACCOUNT_SERVICE_INNER_ANIMATION_UNEXPECTED_EVENT], account_error_no.h:264-264 *)
Definition ERR_OSACCOUNT_SERVICE_INNER_ANIMATION_UNEXPECTED_EVENT : ErrCode := ERR_OSACCOUNT_SERVICE_INNER_ANIMATION_TIMEOUT + 1.

(** [ERR_OSACCOUNT_SERVICE_INNER_ANIMATION_READ_ERROR], account_error_no.h:265-265 *)
Definition ERR_OSACCOUNT_SERVICE_INNER_ANIMATION_READ_ERROR : ErrCode := ERR_OSACCOUNT_SERVICE_INNER_ANIMATION_UNEXPECTED_EVENT + 1.

(** [ERR_OSACCOUNT_SERVICE_INNER_OS_ACCOUNT_ALREADY_BOUND], account_error_no.h:267-267 *)
Definition ERR_OSACCOUNT_SERVICE_INNER_OS_ACCOUNT_ALREADY_BOUND : ErrCode := ERR_OSACCOUNT_SERVICE_INNER_ANIMATION_READ_ERROR + 1.

(** [ERR_OSACCOUNT_SERVICE_INNER_DOMAIN_ACCOUNT_ALREADY_BOUND], account_error_no.h:268-268 *)
Definition ERR_OSACCOUNT_SERVICE_INNER_DOMAIN_ACCOUNT_ALREADY_BOUND : ErrCode := ERR_OSACCOUNT_SERVICE_INNER_OS_ACCOUNT_ALREADY_BOUND + 1.

(** [ERR_OSACCOUNT_SERVICE_CONTROL_MAX_TYPE_CAN_CREATE_ERROR], account_error_no.h:269-269 *)
Definition ERR_OSACCOUNT_SERVICE_CONTROL_MAX_TYPE_CAN_CREATE_ERROR : ErrCode := ERR_OSACCOUNT_SERVICE_INNER_DOMAIN_ACCOUNT_ALREADY_BOUND + 1.

(** [ERR_OSACCOUNT_SERVICE_LOCAL_ID_ALREADY_EXISTS_ERROR], account_error_no.h:270-270 *)
Definition ERR_OSACCOUNT_SERVICE_LOCAL_ID_ALREADY_EXISTS_ERROR : ErrCode := ERR_OSACCOUNT_SERVICE_CONTROL_MAX_TYPE_CAN_CREATE_ERROR + 1.

(** [ERR_OS_ACCOUNT_SERVICE_CODE_END], account_error_no.h:272-272 *)
Definition ERR_OS_ACCOUNT_SERVICE_CODE_END : ErrCode := ERR_OSACCOUNT_SERVICE_LOCAL_ID_ALREADY_EXISTS_ERROR + 1.

(** [ACCOUNT_IAM_KIT_ERR_OFFSET], account_error_no.h:276-277 *)
Definition ACCOUNT_IAM_KIT_ERR_OFFSET : ErrCode := 4718592.

(** [ERR_ACCOUNT_IAM_KIT_INPUTER_ALREADY_REGISTERED], account_error_no.h:279-279 *)
Definition ERR_ACCOUNT_IAM_KIT_INPUTER_ALREADY_REGISTERED : ErrCode := ACCOUNT_IAM_KIT_ERR_OFFSET + 1.

(** [ERR_ACCOUNT_IAM_KIT_INPUTER_NOT_REGISTERED], account_error_no.h:280-280 *)
Definition ERR_ACCOUNT_IAM_KIT_INPUTER_NOT_REGISTERED : ErrCode := ERR_ACCOUNT_IAM_KIT_INPUTER_ALREADY_REGISTERED + 1.

(** [ERR_ACCOUNT_IAM_KIT_GET_USERID_FAIL], account_error_no.h:281-281 *)
Definition ERR_ACCOUNT_IAM_KIT_GET_USERID_FAIL : ErrCode := ERR_ACCOUNT_IAM_KIT_INPUTER_NOT_REGISTERED + 1.

(** [ERR_ACCOUNT_IAM_UNSUPPORTED_AUTH_TYPE], account_error_no.h:282-282 *)
Definition ERR_ACCOUNT_IAM_UNSUPPORTED_AUTH_TYPE : ErrCode := ERR_ACCOUNT_IAM_KIT_GET_USERID_FAIL + 1.

(** [ERR_ACCOUNT_IAM_AUTH_TOKEN_INVALID], account_error_no.h:283-283 *)
Definition ERR_ACCOUNT_IAM_AUTH_TOKEN_INVALID : ErrCode := ERR_ACCOUNT_IAM_UNSUPPORTED_AUTH_TYPE + 1.

(** [ERR_ACCOUNT_IAM_GET_SECUSER_FAILED], account_error_no.h:284-284 *)
Definition ERR_ACCOUNT_IAM_GET_SECUSER_FAILED : ErrCode := ERR_ACCOUNT_IAM_AUTH_TOKEN_INVALID + 1.

(** [ERR_ACCOUNT_IAM_GET_CREDINFO_FAILED], account_error_no.h:285-285 *)
Definition ERR_ACCOUNT_IAM_GET_CREDINFO_FAILED : ErrCode := ERR_ACCOUNT_IAM_GET_SECUSER_FAILED + 1.

(** [ERR_ACCOUNT_IAM_NO_CREDENTIAL], account_error_no.h:286-286 *)
Definition ERR_ACCOUNT_IAM_NO_CREDENTIAL : ErrCode := ERR_ACCOUNT_IAM_GET_CREDINFO_FAILED + 1.

(** [ACCOUNT_OHOSACCOUNT_SERVICE_ERR_OFFSET], account_error_no.h:290-291 *)
Definition ACCOUNT_OHOSACCOUNT_SERVICE_ERR_OFFSET : ErrCode := 4784128.

(** [ERR_OHOSACCOUNT_SERVICE_FILE_CHANGE_DIR_MODE_ERROR], account_error_no.h:293-293 *)
Definition ERR_OHOSACCOUNT_SERVICE_FILE_CHANGE_DIR_MODE_ERROR : ErrCode := ACCOUNT_OHOSACCOUNT_SERVICE_ERR_OFFSET + 1.

(** [DOMAIN_ACCOUNT_ERR_OFFSET], account_error_no.h:297-298 *)
Definition DOMAIN_ACCOUNT_ERR_OFFSET : ErrCode := 4849664.

(** [ERR_DOMAIN_ACCOUNT_SERVICE_PLUGIN_ALREADY_EXIST], account_error_no.h:300-300 *)
Definition ERR_DOMAIN_ACCOUNT_SERVICE_PLUGIN_ALREADY_EXIST : ErrCode := DOMAIN_ACCOUNT_ERR_OFFSET + 1.

(** [ERR_DOMAIN_ACCOUNT_SERVICE_PLUGIN_NOT_EXIST], account_error_no.h:301-301 *)
Definition ERR_DOMAIN_ACCOUNT_SERVICE_PLUGIN_NOT_EXIST : ErrCode := ERR_DOMAIN_ACCOUNT_SERVICE_PLUGIN_ALREADY_EXIST + 1.

(** [ERR_DOMAIN_ACCOUNT_SERVICE_NOT_DOMAIN_ACCOUNT], account_error_no.h:302-302 *)
Definition ERR_DOMAIN_ACCOUNT_SERVICE_NOT_DOMAIN_ACCOUNT : ErrCode := ERR_DOMAIN_ACCOUNT_SERVICE_PLUGIN_NOT_EXIST + 1.

(** [ERR_DOMAIN_ACCOUNT_SERVICE_LISTENER_NOT_EXIT], account_error_no.h:303-303 *)
Definition ERR_DOMAIN_ACCOUNT_SERVICE_LISTENER_NOT_EXIT : ErrCode := ERR_DOMAIN_ACCOUNT_SERVICE_NOT_DOMAIN_ACCOUNT + 1.

(** [ERR_DOMAIN_ACCOUNT_SERVICE_INVALID_CALLING_UID], account_error_no.h:304-304 *)
Definition ERR_DOMAIN_ACCOUNT_SERVICE_INVALID_CALLING_UID : ErrCode := ERR_DOMAIN_ACCOUNT_SERVICE_LISTENER_NOT_EXIT + 1.

(** [ERR_DOMAIN_ACCOUNT_NOT_SUPPORT_BACKGROUND_ACCOUNT_REQUEST], account_error_no.h:305-305 *)
Definition ERR_DOMAIN_ACCOUNT_NOT_SUPPORT_BACKGROUND_ACCOUNT_REQUEST : ErrCode := ERR_DOMAIN_ACCOUNT_SERVICE_INVALID_CALLING_UID + 1.

(** [ERR_DOMAIN_ACCOUNT_NOT_SUPPORT], account_error_no.h:306-306 *)
Definition ERR_DOMAIN_ACCOUNT_NOT_SUPPORT : ErrCode := ERR_DOMAIN_ACCOUNT_NOT_SUPPORT_BACKGROUND_ACCOUNT_REQUEST + 1.

(** [ERR_DOMAIN_ACCOUNT_SERVICE_ERR_CODE_LIMIT], account_error_no.h:307-307 *)
Definition ERR_DOMAIN_ACCOUNT_SERVICE_ERR_CODE_LIMIT : ErrCode := ERR_DOMAIN_ACCOUNT_NOT_SUPPORT + 1.

(** [ACCOUNT_OHOSACCOUNT_KIT_ERR_OFFSET], account_error_no.h:311-312 *)
Definition ACCOUNT_OHOSACCOUNT_KIT_ERR_OFFSET : ErrCode := 4915200.

(** [ERR_OHOSACCOUNT_KIT_NO_SPECIFIED_CALLBACK_HAS_BEEN_REGISTERED], account_error_no.h:314-314 *)
Definition ERR_OHOSACCOUNT_KIT_NO_SPECIFIED_CALLBACK_HAS_BEEN_REGISTERED : ErrCode := ACCOUNT_OHOSACCOUNT_KIT_ERR_OFFSET + 1.

(** [ERR_OHOSACCOUNT_KIT_SUBSCRIBE_ERROR], account_error_no.h:315-315 *)
Definition ERR_OHOSACCOUNT_KIT_SUBSCRIBE_ERROR : ErrCode := ERR_OHOSACCOUNT_KIT_NO_SPECIFIED_CALLBACK_HAS_BEEN_REGISTERED + 1.

(** [ERR_OHOSACCOUNT_KIT_SUBSCRIBE_MAX_SIZE_ERROR], account_error_no.h:316-316 *)
Definition ERR_OHOSACCOUNT_KIT_SUBSCRIBE_MAX_SIZE_ERROR : ErrCode := ERR_OHOSACCOUNT_KIT_SUBSCRIBE_ERROR + 1.

(** [ERR_OHOSACCOUNT_KIT_CALLBACK_ALREADY_REGISTERED_ERROR], account_error_no.h:317-317 *)
Definition ERR_OHOSACCOUNT_KIT_CALLBACK_ALREADY_REGISTERED_ERROR : ErrCode := ERR_OHOSACCOUNT_KIT_SUBSCRIBE_MAX_SIZE_ERROR + 1.

(** [AUTHORIZATION_ERR_OFFSET], account_error_no.h:320-321 *)
Definition AUTHORIZATION_ERR_OFFSET : ErrCode := 4980736.

(** [ERR_AUTHORIZATION_NOT_SUPPORT], account_error_no.h:323-323 *)
Definition ERR_AUTHORIZATION_NOT_SUPPORT : ErrCode := AUTHORIZATION_ERR_OFFSET + 1.

(** [ERR_AUTHORIZATION_PRIVILEGE_DENIED], account_error_no.h:324-324 *)
Definition ERR_AUTHORIZATION_PRIVILEGE_DENIED : ErrCode := ERR_AUTHORIZATION_NOT_SUPPORT + 1.

(** [ERR_AUTHORIZATION_CHECK_TIME_FAILED], account_error_no.h:325-325 *)
Definition ERR_AUTHORIZATION_CHECK_TIME_FAILED : ErrCode := ERR_AUTHORIZATION_PRIVILEGE_DENIED + 1.

(** [ERR_AUTHORIZATION_GET_CONTENT_ERROR], account_error_no.h:326-326 *)
Definition ERR_AUTHORIZATION_GET_CONTENT_ERROR : ErrCode := ERR_AUTHORIZATION_CHECK_TIME_FAILED + 1.

(** [ERR_AUTHORIZATION_CREATE_UI_EXTENSION_ERROR], account_error_no.h:327-327 *)
Definition ERR_AUTHORIZATION_CREATE_UI_EXTENSION_ERROR : ErrCode := ERR_AUTHORIZATION_GET_CONTENT_ERROR + 1.

(** [ERR_AUTHORIZATION_CREATE_SYS_EXTENSION_ERROR], account_error_no.h:328-328 *)
Definition ERR_AUTHORIZATION_CREATE_SYS_EXTENSION_ERROR : ErrCode := ERR_AUTHORIZATION_CREATE_UI_EXTENSION_ERROR + 1.

(** [ERR_AUTHORIZATION_TA_ERROR], account_error_no.h:329-329 *)
Definition ERR_AUTHORIZATION_TA_ERROR : ErrCode := ERR_AUTHORIZATION_CREATE_SYS_EXTENSION_ERROR + 1.

(** [ERR_AUTHORIZATION_CACHE_ERROR], account_error_no.h:330-330 *)
Definition ERR_AUTHORIZATION_CACHE_ERROR : ErrCode := ERR_AUTHORIZATION_TA_ERROR + 1.

(** [ERR_AUTHORIZATION_GET_PROXY_ERROR], account_error_no.h:331-331 *)
Definition ERR_AUTHORIZATION_GET_PROXY_ERROR : ErrCode := ERR_AUTHORIZATION_CACHE_ERROR + 1.

(** [ERR_AUTHORIZATION_GET_STUB_ERROR], account_error_no.h:332-332 *)
Definition ERR_AUTHORIZATION_GET_STUB_ERROR : ErrCode := ERR_AUTHORIZATION_GET_PROXY_ERROR + 1.

(** [ERR_AUTHORIZATION_ALREADY_HAS_ERROR], account_error_no.h:333-333 *)
Definition ERR_AUTHORIZATION_ALREADY_HAS_ERROR : ErrCode := ERR_AUTHORIZATION_GET_STUB_ERROR + 1.

(** [ERR_AUTHORIZATION_UPDATE_INFO_ERROR], account_error_no.h:334-334 *)
Definition ERR_AUTHORIZATION_UPDATE_INFO_ERROR : ErrCode := ERR_AUTHORIZATION_ALREADY_HAS_ERROR + 1.

(** [ERR_AUTHORIZATION_INVALID_ADMIN_ACCOUNT_OR_PASSWORD], account_error_no.h:335-335 *)
Definition ERR_AUTHORIZATION_INVALID_ADMIN_ACCOUNT_OR_PASSWORD : ErrCode := ERR_AUTHORIZATION_UPDATE_INFO_ERROR + 1.

(** [ERR_AUTHORIZATION_NO_CACHE], account_error_no.h:336-336 *)
Definition ERR_AUTHORIZATION_NO_CACHE : ErrCode := ERR_AUTHORIZATION_INVALID_ADMIN_ACCOUNT_OR_PASSWORD + 1.

(** [ERR_AUTHORIZATION_EXTENSION_ILLEGAL], account_error_no.h:337-337 *)
Definition ERR_AUTHORIZATION_EXTENSION_ILLEGAL : ErrCode := ERR_AUTHORIZATION_NO_CACHE + 1.

(** [ERR_AUTHORIZATION_KERNEL_NOTIFY_FAILED], account_error_no.h:338-338 *)
Definition ERR_AUTHORIZATION_KERNEL_NOTIFY_FAILED : ErrCode := ERR_AUTHORIZATION_EXTENSION_ILLEGAL + 1.

(** [ERR_AUTHORIZATION_KERNEL_OPEN_FAILED], account_error_no.h:339-339 *)
Definition ERR_AUTHORIZATION_KERNEL_OPEN_FAILED : ErrCode := ERR_AUTHORIZATION_KERNEL_NOTIFY_FAILED + 1.

(** [ERR_AUTHORIZATION_KERNEL_DEVICE_NOT_FOUND], account_error_no.h:340-340 *)
Definition ERR_AUTHORIZATION_KERNEL_DEVICE_NOT_FOUND : ErrCode := ERR_AUTHORIZATION_KERNEL_OPEN_FAILED + 1.

(** [ERR_AUTHORIZATION_KERNEL_QUERY_FAILED], account_error_no.h:341-341 *)
Definition ERR_AUTHORIZATION_KERNEL_QUERY_FAILED : ErrCode := ERR_AUTHORIZATION_KERNEL_DEVICE_NOT_FOUND + 1.

(** [ERR_AUTHORIZATION_KERNEL_SET_FAILED], account_error_no.h:342-342 *)
Definition ERR_AUTHORIZATION_KERNEL_SET_FAILED : ErrCode := ERR_AUTHORIZATION_KERNEL_QUERY_FAILED + 1.

(** [ERR_AUTHORIZATION_APP_DIED], account_error_no.h:343-343 *)
Definition ERR_AUTHORIZATION_APP_DIED : ErrCode := ERR_AUTHORIZATION_KERNEL_SET_FAILED + 1.

(** [ERR_IAM_SUCCESS], account_error_no.h:347-347 *)
Definition ERR_IAM_SUCCESS : ErrCode := 0.

(** [ERR_IAM_FAIL], account_error_no.h:348-348 *)
Definition ERR_IAM_FAIL : ErrCode := 1.

(** [ERR_IAM_GENERAL_ERROR], account_error_no.h:349-349 *)
Definition ERR_IAM_GENERAL_ERROR : ErrCode := 2.

(** [ERR_IAM_CANCELED], account_error_no.h:350-350 *)
Definition ERR_IAM_CANCELED : ErrCode := 3.

(** [ERR_IAM_TIMEOUT], account_error_no.h:351-351 *)
Definition ERR_IAM_TIMEOUT : ErrCode := 4.

(** [ERR_IAM_TYPE_NOT_SUPPORT], account_error_no.h:352-352 *)
Definition ERR_IAM_TYPE_NOT_SUPPORT : ErrCode := 5.

(** [ERR_IAM_TRUST_LEVEL_NOT_SUPPORT], account_error_no.h:353-353 *)
Definition ERR_IAM_TRUST_LEVEL_NOT_SUPPORT : ErrCode := 6.

(** [ERR_IAM_BUSY], account_error_no.h:354-354 *)
Definition ERR_IAM_BUSY : ErrCode := 7.

(** [ERR_IAM_INVALID_PARAMETERS], account_error_no.h:355-355 *)
Definition ERR_IAM_INVALID_PARAMETERS : ErrCode := 8.

(** [ERR_IAM_LOCKED], account_error_no.h:356-356 *)
Definition ERR_IAM_LOCKED : ErrCode := 9.

(** [ERR_IAM_NOT_ENROLLED], account_error_no.h:357-357 *)
Definition ERR_IAM_NOT_ENROLLED : ErrCode := 10.

(** [ERR_IAM_HARDWARE_NOT_SUPPORTED], account_error_no.h:358-358 *)
Definition ERR_IAM_HARDWARE_NOT_SUPPORTED : ErrCode := 11.

(** [ERR_IAM_PIN_IS_EXPIRED], account_error_no.h:359-359 *)
Definition ERR_IAM_PIN_IS_EXPIRED : ErrCode := 13.

(** [ERR_IAM_COMPLEXITY_CHECK_FAILED], account_error_no.h:360-360 *)
Definition ERR_IAM_COMPLEXITY_CHECK_FAILED : ErrCode := 14.

(** [ERR_IAM_AUTH_TOKEN_CHECK_FAILED], account_error_no.h:361-361 *)
Definition ERR_IAM_AUTH_TOKEN_CHECK_FAILED : ErrCode := 15.

(** [ERR_IAM_AUTH_TOKEN_EXPIRED], account_error_no.h:362-362 *)
Definition ERR_IAM_AUTH_TOKEN_EXPIRED : ErrCode := 16.

(** [ERR_IAM_NO_VALID_CREDENTIAL], account_error_no.h:363-363 *)
Definition ERR_IAM_NO_VALID_CREDENTIAL : ErrCode := 18.

(** [ERR_IAM_HISTORY_PIN_MATCH], account_error_no.h:364-364 *)
Definition ERR_IAM_HISTORY_PIN_MATCH : ErrCode := 20.

(** [ERR_IAM_SYSTEM_ERROR_CODE_BEGIN], account_error_no.h:365-365 *)
Definition ERR_IAM_SYSTEM_ERROR_CODE_BEGIN : ErrCode := 1000.

(** [ERR_IAM_IPC_ERROR], account_error_no.h:366-366 *)
Definition ERR_IAM_IPC_ERROR : ErrCode := 1001.

(** [ERR_IAM_INVALID_CONTEXT_ID], account_error_no.h:367-367 *)
Definition ERR_IAM_INVALID_CONTEXT_ID : ErrCode := 1002.

(** [ERR_IAM_READ_PARCEL_ERROR], account_error_no.h:368-368 *)
Definition ERR_IAM_READ_PARCEL_ERROR : ErrCode := 1003.

(** [ERR_IAM_WRITE_PARCEL_ERROR], account_error_no.h:369-369 *)
Definition ERR_IAM_WRITE_PARCEL_ERROR : ErrCode := 1004.

(** [ERR_IAM_CHECK_PERMISSION_FAILED], account_error_no.h:370-370 *)
Definition ERR_IAM_CHECK_PERMISSION_FAILED : ErrCode := 1005.

(** [ERR_IAM_INVALID_HDI_INTERFACE], account_error_no.h:371-371 *)
Definition ERR_IAM_INVALID_HDI_INTERFACE : ErrCode := 1006.

(** [ERR_IAM_CHECK_SYSTEM_APP_FAILED], account_error_no.h:372-372 *)
Definition ERR_IAM_CHECK_SYSTEM_APP_FAILED : ErrCode := 1007.

(** [ERR_IAM_CROSS_DEVICE_COMMUNICATION_FAILED], account_error_no.h:373-373 *)
Definition ERR_IAM_CROSS_DEVICE_COMMUNICATION_FAILED : ErrCode := 1008.

(** [ERR_IAM_CROSS_DEVICE_CAPABILITY_NOT_SUPPORT], account_error_no.h:374-374 *)
Definition ERR_IAM_CROSS_DEVICE_CAPABILITY_NOT_SUPPORT : ErrCode := 1009.

(** [ERR_IAM_VENDOR_ERROR_CODE_BEGIN], account_error_no.h:375-375 *)
Definition ERR_IAM_VENDOR_ERROR_CODE_BEGIN : ErrCode := 10000.

(** [ERR_IAM_TOKEN_TIMEOUT], account_error_no.h:376-376 *)
Definition ERR_IAM_TOKEN_TIMEOUT : ErrCode := 10016.

(** [ERR_IAM_TOKEN_AUTH_FAILED], account_error_no.h:377-377 *)
Definition ERR_IAM_TOKEN_AUTH_FAILED : ErrCode := 10017.

(** [ERR_IAM_CREDENTIAL_NUMBER_REACH_LIMIT], account_error_no.h:378-378 *)
Definition ERR_IAM_CREDENTIAL_NUMBER_REACH_LIMIT : ErrCode := 10018.

(** [ERR_IAM_SESSION_TIMEOUT], account_error_no.h:379-379 *)
Definition ERR_IAM_SESSION_TIMEOUT : ErrCode := 10019.

(** [ERR_JS_SUCCESS], account_error_no.h:383-383 *)
Definition ERR_JS_SUCCESS : ErrCode := 0.

(** [ERR_JS_PERMISSION_DENIED], account_error_no.h:384-384 *)
Definition ERR_JS_PERMISSION_DENIED : ErrCode := 201.

(** [ERR_JS_IS_NOT_SYSTEM_APP], account_error_no.h:385-385 *)
Definition ERR_JS_IS_NOT_SYSTEM_APP : ErrCode := 202.

(** [ERR_JS_AUTHORIZATION_DENIED], account_error_no.h:386-386 *)
Definition ERR_JS_AUTHORIZATION_DENIED : ErrCode := 204.

(** [ERR_JS_PARAMETER_ERROR], account_error_no.h:387-387 *)
Definition ERR_JS_PARAMETER_ERROR : ErrCode := 401.

(** [ERR_JS_CAPABILITY_NOT_SUPPORTED], account_error_no.h:388-388 *)
Definition ERR_JS_CAPABILITY_NOT_SUPPORTED : ErrCode := 801.

(** [ERR_JS_SYSTEM_SERVICE_EXCEPTION], account_error_no.h:389-389 *)
Definition ERR_JS_SYSTEM_SERVICE_EXCEPTION : ErrCode := 12300001.

(** [ERR_JS_INVALID_PARAMETER], account_error_no.h:390-390 *)
Definition ERR_JS_INVALID_PARAMETER : ErrCode := 12300002.

(** [ERR_JS_ACCOUNT_NOT_FOUND], account_error_no.h:391-391 *)
Definition ERR_JS_ACCOUNT_NOT_FOUND : ErrCode := 12300003.

(** [ERR_JS_ACCOUNT_ALREADY_EXIST], account_error_no.h:392-392 *)
Definition ERR_JS_ACCOUNT_ALREADY_EXIST : ErrCode := 12300004.

(** [ERR_JS_MULTI_USER_NOT_SUPPORT], account_error_no.h:393-393 *)
Definition ERR_JS_MULTI_USER_NOT_SUPPORT : ErrCode := 12300005.

(** [ERR_JS_ACCOUNT_TYPE_NOT_SUPPORT], account_error_no.h:394-394 *)
Definition ERR_JS_ACCOUNT_TYPE_NOT_SUPPORT : ErrCode := 12300006.

(** [ERR_JS_ACCOUNT_NUMBER_REACH_LIMIT], account_error_no.h:395-395 *)
Definition ERR_JS_ACCOUNT_NUMBER_REACH_LIMIT : ErrCode := 12300007.

(** [ERR_JS_ACCOUNT_RESTRICTED], account_error_no.h:396-396 *)
Definition ERR_JS_ACCOUNT_RESTRICTED : ErrCode := 12300008.

(** [ERR_JS_ACCOUNT_ALREADY_ACTIVATED], account_error_no.h:397-397 *)
Definition ERR_JS_ACCOUNT_ALREADY_ACTIVATED : ErrCode := 12300009.

(** [ERR_JS_ACCOUNT_SERVICE_BUSY], account_error_no.h:398-398 *)
Definition ERR_JS_ACCOUNT_SERVICE_BUSY : ErrCode := 12300010.

(** [ERR_JS_LISTENER_ALREADY_REGISTERED], account_error_no.h:399-399 *)
Definition ERR_JS_LISTENER_ALREADY_REGISTERED : ErrCode := 12300011.

(** [ERR_JS_LISTENER_NOT_REGISTERED], account_error_no.h:400-400 *)
Definition ERR_JS_LISTENER_NOT_REGISTERED : ErrCode := 12300012.

(** [ERR_JS_PLUGIN_NETWORK_EXCEPTION], account_error_no.h:401-401 *)
Definition ERR_JS_PLUGIN_NETWORK_EXCEPTION : ErrCode := 12300013.

(** [ERR_JS_ACCOUNT_NOT_AUTHENTICATED], account_error_no.h:402-402 *)
Definition ERR_JS_ACCOUNT_NOT_AUTHENTICATED : ErrCode := 12300014.

(** [ERR_JS_ACCOUNT_SHORT_NAME_ALREADY_EXIST], account_error_no.h:403-403 *)
Definition ERR_JS_ACCOUNT_SHORT_NAME_ALREADY_EXIST : ErrCode := 12300015.

(** [ERR_JS_ACCOUNT_LOGGED_IN_ACCOUNTS_OVERSIZE], account_error_no.h:404-404 *)
Definition ERR_JS_ACCOUNT_LOGGED_IN_ACCOUNTS_OVERSIZE : ErrCode := 12300016.

(** [ERR_JS_FOREGROUND_OS_ACCOUNT_NOT_FOUND], account_error_no.h:405-405 *)
Definition ERR_JS_FOREGROUND_OS_ACCOUNT_NOT_FOUND : ErrCode := 12300017.

(** [ERR_JS_DISPLAY_NOT_FOUND], account_error_no.h:406-406 *)
Definition ERR_JS_DISPLAY_NOT_FOUND : ErrCode := 12300018.

(** [ERR_JS_CROSS_DISPLAY_ACTIVATION_NOT_SUPPORTED], account_error_no.h:407-407 *)
Definition ERR_JS_CROSS_DISPLAY_ACTIVATION_NOT_SUPPORTED : ErrCode := 12300019.

(** [ERR_JS_OS_ACCOUNT_ALREADY_BOUND], account_error_no.h:408-408 *)
Definition ERR_JS_OS_ACCOUNT_ALREADY_BOUND : ErrCode := 12300021.

(** [ERR_JS_DOMAIN_ACCOUNT_ALREADY_BOUND], account_error_no.h:409-409 *)
Definition ERR_JS_DOMAIN_ACCOUNT_ALREADY_BOUND : ErrCode := 12300022.

(** [ERR_JS_ACCOUNT_TYPE_MAX_CAN_CREATED], account_error_no.h:410-410 *)
Definition ERR_JS_ACCOUNT_TYPE_MAX_CAN_CREATED : ErrCode := 12300023.

(** [ERR_JS_ACCOUNT_LOCAL_ID_ALREADY_EXISTS], account_error_no.h:411-411 *)
Definition ERR_JS_ACCOUNT_LOCAL_ID_ALREADY_EXISTS : ErrCode := 12300024.

(** [ERR_JS_OS_ACCOUNT_SUBPROFILE_NOT_FOUND], account_error_no.h:412-412 *)
Definition ERR_JS_OS_ACCOUNT_SUBPROFILE_NOT_FOUND : ErrCode := 12300401.

(** [ERR_JS_OS_ACCOUNT_SUBPROFILE_LIMIT_REACHED], account_error_no.h:413-413 *)
Definition ERR_JS_OS_ACCOUNT_SUBPROFILE_LIMIT_REACHED : ErrCode := 12300402.

(** [ERR_JS_OS_ACCOUNT_SUBPROFILE_RESTRICTED], account_error_no.h:414-414 *)
Definition ERR_JS_OS_ACCOUNT_SUBPROFILE_RESTRICTED : ErrCode := 12300403.

(** [ERR_JS_OS_ACCOUNT_SUBPROFILE_DELETE_FOREGROUND_RESTRICTED], account_error_no.h:415-415 *)
Definition ERR_JS_OS_ACCOUNT_SUBPROFILE_DELETE_FOREGROUND_RESTRICTED : ErrCode := 12300404.

(** [ERR_JS_OS_ACCOUNT_SUBPROFILE_SWITCH_HAS_ACTIVE_SESSION], account_error_no.h:416-416 *)
Definition ERR_JS_OS_ACCOUNT_SUBPROFILE_SWITCH_HAS_ACTIVE_SESSION : ErrCode := 12300405.

(** [ERR_JS_OS_ACCOUNT_SUBPROFILE_DISTRIBUTE_ACC_ALREADY_BOUND], account_error_no.h:417-417 *)
Definition ERR_JS_OS_ACCOUNT_SUBPROFILE_DISTRIBUTE_ACC_ALREADY_BOUND : ErrCode := 12300406.

(** [ERR_JS_ACCOUNT_CROSS_DEVICE_CAPABILITY_NOT_SUPPORT], account_error_no.h:420-420 *)
Definition ERR_JS_ACCOUNT_CROSS_DEVICE_CAPABILITY_NOT_SUPPORT : ErrCode := 12300090.

(** [ERR_JS_ACCOUNT_CROSS_DEVICE_COMMUNICATION_FAILED], account_error_no.h:421-421 *)
Definition ERR_JS_ACCOUNT_CROSS_DEVICE_COMMUNICATION_FAILED : ErrCode := 12300091.

(** [ERR_JS_AUTH_CREDENTIAL_WRONG_ERROR], account_error_no.h:423-423 *)
Definition ERR_JS_AUTH_CREDENTIAL_WRONG_ERROR : ErrCode := 12300101.

(** [ERR_JS_CREDENTIAL_NOT_EXIST], account_error_no.h:424-424 *)
Definition ERR_JS_CREDENTIAL_NOT_EXIST : ErrCode := 12300102.

(** [ERR_JS_CREDENTIAL_INPUTER_ALREADY_EXIST], account_error_no.h:425-425 *)
Definition ERR_JS_CREDENTIAL_INPUTER_ALREADY_EXIST : ErrCode := 12300103.

(** [ERR_JS_CREDENTIAL_INPUTER_NOT_EXIST], account_error_no.h:426-426 *)
Definition ERR_JS_CREDENTIAL_INPUTER_NOT_EXIST : ErrCode := 12300104.

(** [ERR_JS_TRUST_LEVEL_NOT_SUPPORTED], account_error_no.h:427-427 *)
Definition ERR_JS_TRUST_LEVEL_NOT_SUPPORTED : ErrCode := 12300105.

(** [ERR_JS_AUTH_TYPE_NOT_SUPPORTED], account_error_no.h:428-428 *)
Definition ERR_JS_AUTH_TYPE_NOT_SUPPORTED : ErrCode := 12300106.

(** [ERR_JS_AUTH_TYPE_NOT_FOUND], account_error_no.h:429-429 *)
Definition ERR_JS_AUTH_TYPE_NOT_FOUND : ErrCode := 12300107.

(** [ERR_JS_SESSION_NOT_EXIST], account_error_no.h:430-430 *)
Definition ERR_JS_SESSION_NOT_EXIST : ErrCode := 12300108.

(** [ERR_JS_AUTH_CANCELLED], account_error_no.h:431-431 *)
Definition ERR_JS_AUTH_CANCELLED : ErrCode := 12300109.

(** [ERR_JS_AUTH_SERVICE_LOCKED], account_error_no.h:432-432 *)
Definition ERR_JS_AUTH_SERVICE_LOCKED : ErrCode := 12300110.

(** [ERR_JS_AUTH_TIMEOUT], account_error_no.h:433-433 *)
Definition ERR_JS_AUTH_TIMEOUT : ErrCode := 12300111.

(** [ERR_JS_AUTH_SERVICE_BUSY], account_error_no.h:434-434 *)
Definition ERR_JS_AUTH_SERVICE_BUSY : ErrCode := 12300112.

(** [ERR_JS_ACCOUNT_AUTHENTICATOR_NOT_EXIST], account_error_no.h:435-435 *)
Definition ERR_JS_ACCOUNT_AUTHENTICATOR_NOT_EXIST : ErrCode := 12300113.

(** [ERR_JS_ACCOUNT_AUTHENTICATOR_SERVICE_EXCEPTION], account_error_no.h:436-436 *)
Definition ERR_JS_ACCOUNT_AUTHENTICATOR_SERVICE_EXCEPTION : ErrCode := 12300114.

(** [ERR_JS_CREDENTIAL_NUMBER_REACH_LIMIT], account_error_no.h:437-437 *)
Definition ERR_JS_CREDENTIAL_NUMBER_REACH_LIMIT : ErrCode := 12300115.

(** [ERR_JS_COMPLEXITY_CHECK_FAILED], account_error_no.h:438-438 *)
Definition ERR_JS_COMPLEXITY_CHECK_FAILED : ErrCode := 12300116.

(** [ERR_JS_PIN_IS_EXPIRED], account_error_no.h:439-439 *)
Definition ERR_JS_PIN_IS_EXPIRED : ErrCode := 12300117.

(** [ERR_JS_SESSION_TIMEOUT], account_error_no.h:440-440 *)
Definition ERR_JS_SESSION_TIMEOUT : ErrCode := 12300118.

(** [ERR_JS_CREDENTIAL_NO_LONGER_VALID], account_error_no.h:441-441 *)
Definition ERR_JS_CREDENTIAL_NO_LONGER_VALID : ErrCode := 12300120.

(** [ERR_JS_HISTORY_PIN_MATCH_FAILED], account_error_no.h:442-442 *)
Definition ERR_JS_HISTORY_PIN_MATCH_FAILED : ErrCode := 12300121.

(** [ERR_JS_DOMAIN_PLUGIN_ALREADY_REGISTERED], account_error_no.h:444-444 *)
Definition ERR_JS_DOMAIN_PLUGIN_ALREADY_REGISTERED : ErrCode := 12300201.

(** [ERR_JS_SERVER_UNREACHABLE], account_error_no.h:445-445 *)
Definition ERR_JS_SERVER_UNREACHABLE : ErrCode := 12300211.

(** [ERR_JS_SERVER_CONFIG_NOT_FOUND], account_error_no.h:446-446 *)
Definition ERR_JS_SERVER_CONFIG_NOT_FOUND : ErrCode := 12300212.

(** [ERR_JS_SERVER_CONFIG_ALREADY_EXISTS], account_error_no.h:447-447 *)
Definition ERR_JS_SERVER_CONFIG_ALREADY_EXISTS : ErrCode := 12300213.

(** [ERR_JS_SERVER_CONFIG_ASSOCIATED_ACCOUNT], account_error_no.h:448-448 *)
Definition ERR_JS_SERVER_CONFIG_ASSOCIATED_ACCOUNT : ErrCode := 12300214.

(** [ERR_JS_SERVER_CONFIG_UPPER_LIMIT], account_error_no.h:449-449 *)
Definition ERR_JS_SERVER_CONFIG_UPPER_LIMIT : ErrCode := 12300215.

(** [ERR_JS_INVALID_CONTEXT_ID], account_error_no.h:451-451 *)
Definition ERR_JS_INVALID_CONTEXT_ID : ErrCode := 12300002.

(** [ERR_JS_APPLICATION_NOT_EXIST], account_error_no.h:453-453 *)
Definition ERR_JS_APPLICATION_NOT_EXIST : ErrCode := 12400001.

(** [ERR_JS_CUSTOM_DATA_NOT_FOUND], account_error_no.h:454-454 *)
Definition ERR_JS_CUSTOM_DATA_NOT_FOUND : ErrCode := 12400002.

(** [ERR_JS_CUSTOM_DATA_NUMBER_REACH_LIMIT], account_error_no.h:455-455 *)
Definition ERR_JS_CUSTOM_DATA_NUMBER_REACH_LIMIT : ErrCode := 12400003.

(** [ERR_JS_TOKEN_NUMBER_REACH_LIMIT], account_error_no.h:456-456 *)
Definition ERR_JS_TOKEN_NUMBER_REACH_LIMIT : ErrCode := 12400004.

(** [ERR_JS_AUTHORIZATION_LIST_TOO_LARGE], account_error_no.h:457-457 *)
Definition ERR_JS_AUTHORIZATION_LIST_TOO_LARGE : ErrCode := 12400005.

(** [ERR_JS_AUTHORIZATION_INTERACTION_NOT_ALLOWED], account_error_no.h:459-459 *)
Definition ERR_JS_AUTHORIZATION_INTERACTION_NOT_ALLOWED : ErrCode := 12300302.

(** [ERR_JS_AUTHORIZATION_SERVICE_BUSY], account_error_no.h:460-460 *)
Definition ERR_JS_AUTHORIZATION_SERVICE_BUSY : ErrCode := 12300304.


(** [g_errorStringMap], account_error_no.cpp:20-114 *)
Definition g_errorStringMap : list (Z * string) :=
  [
    (ERR_JS_PARAMETER_ERROR, "Parameter invalid, please input the correct parameter");
    (ERR_JS_ACCOUNT_NOT_FOUND, "Account not found, please check whether the account exists");
    (ERR_JS_IS_NOT_SYSTEM_APP, "This api is system api, Please use the system application to call this api");
    (ERR_JS_ACCOUNT_ALREADY_EXIST, "Account already exists, please cancel or try other account");
    (ERR_JS_ACCOUNT_ALREADY_ACTIVATED, "Account already activated, do not activate duplicately");
    (ERR_JS_ACCOUNT_SERVICE_BUSY, "Account service is busy, please wait for a moment and try again");
    (ERR_JS_ACCOUNT_NUMBER_REACH_LIMIT, "Account number limit exceeded, please try again after delete other accounts");
    (ERR_JS_MULTI_USER_NOT_SUPPORT, "Multiple users not supported, please cancel the creation");
    (ERR_JS_ACCOUNT_TYPE_NOT_SUPPORT, "Account type not supported, please create a non administrator account");
    (ERR_JS_ACCOUNT_RESTRICTED, "Account is restricted, the operation account ID is the reserved for system");
    (ERR_JS_AUTHORIZATION_DENIED, "Access denied due to user access control policy. Possible causes: (1)The operation is restricted by the OS-account constraint; (2)The required privilege for the operation has not been granted.");
    (ERR_JS_LISTENER_ALREADY_REGISTERED, "Listener is already registered, please register new listener or delete old listener and try again");
    (ERR_JS_LISTENER_NOT_REGISTERED, "Listener is not registered, please use the registered listener");
    (ERR_JS_CREDENTIAL_INPUTER_ALREADY_EXIST, "PIN inputer is already registered, please do not repeat register");
    (ERR_JS_SYSTEM_SERVICE_EXCEPTION, "System service exception. Possible causes:(1)IPC communication failure;(2)Insufficient memory;(3)Insufficient disk space;(4)Inability to start necessary system services.Please try again or restart your device");
    (ERR_JS_INVALID_PARAMETER, "Parameter invalid, please input the correct parameter");
    (ERR_JS_TRUST_LEVEL_NOT_SUPPORTED, "Trust level not supported, please input the correct trust level");
    (ERR_JS_AUTH_TYPE_NOT_SUPPORTED, "Auth type not supported, please input the correct auth type");
    (ERR_JS_AUTH_TIMEOUT, "Auth timeout, please try again or check your internet connection");
    (ERR_JS_AUTH_SERVICE_BUSY, "Auth service is busy, please try again later");
    (ERR_JS_AUTH_SERVICE_LOCKED, "Auth service is locked, auth fail too many times, please try again after freezingTime");
    (ERR_JS_CREDENTIAL_NOT_EXIST, "Credential not found, please check whether credential exists and try again");
    (ERR_JS_INVALID_CONTEXT_ID, "Context ID is invalid, please check the context ID and try again");
    (ERR_JS_AUTH_CREDENTIAL_WRONG_ERROR, "Auth credential incorrect, please check the password or credential, and try again");
    (ERR_JS_APPLICATION_NOT_EXIST, "Application not found, please check the bundle name and try again");
    (ERR_JS_ACCOUNT_AUTHENTICATOR_NOT_EXIST, "Application account authenticator service is not available, please try again with applications that support authenticator service");
    (ERR_JS_ACCOUNT_AUTHENTICATOR_SERVICE_EXCEPTION, "Application account authenticator service exception, please try again or reboot your device");
    (ERR_JS_SESSION_NOT_EXIST, "Application account session is not exists, please use sessionId that successfully opened");
    (ERR_JS_AUTHORIZATION_LIST_TOO_LARGE, "Application account authorization list is too large, please cancel some existed authentications and try again");
    (ERR_JS_TOKEN_NUMBER_REACH_LIMIT, "Application account token number reach limitations, please delete some existed token and try again");
    (ERR_JS_CUSTOM_DATA_NUMBER_REACH_LIMIT, "Application account customized data number reach limit, please delete some existed custom data and try again");
    (ERR_JS_CUSTOM_DATA_NOT_FOUND, "Application account customized data not found, please use existed customized data and try again");
    (ERR_JS_AUTH_TYPE_NOT_FOUND, "Application account auth type not found, please use existed auth type");
    (ERR_JS_PERMISSION_DENIED, "Permission denied");
    (ERR_JS_PLUGIN_NETWORK_EXCEPTION, "Network exception");
    (ERR_JS_CAPABILITY_NOT_SUPPORTED, "capability not supported");
    (ERR_JS_ACCOUNT_LOGGED_IN_ACCOUNTS_OVERSIZE, "The number of the logged in OS accounts reaches upper limit");
    (ERR_JS_COMPLEXITY_CHECK_FAILED, "The complexity of credential check failed");
    (ERR_JS_PIN_IS_EXPIRED, "The PIN credential is expired");
    (ERR_JS_CREDENTIAL_NO_LONGER_VALID, "The credentials are no longer valid");
    (ERR_JS_HISTORY_PIN_MATCH_FAILED, "The credential has been used recently and cannot be reused. Suggested solutions: Use an unused credential.");
    (ERR_JS_DOMAIN_PLUGIN_ALREADY_REGISTERED, "The domain plugin is already registered");
    (ERR_JS_SERVER_UNREACHABLE, "The server is unreachable");
    (ERR_JS_SERVER_CONFIG_NOT_FOUND, "The server config not found");
    (ERR_JS_SERVER_CONFIG_ALREADY_EXISTS, "Server config already exists");
    (ERR_JS_SERVER_CONFIG_ASSOCIATED_ACCOUNT, "Server config has been associated with an account");
    (ERR_JS_SERVER_CONFIG_UPPER_LIMIT, "The number of server config reaches the upper limit");
    (ERR_JS_OS_ACCOUNT_ALREADY_BOUND, "The OS account is already bound.");
    (ERR_JS_DOMAIN_ACCOUNT_ALREADY_BOUND, "The domain account is already bound.");
    (ERR_JS_ACCOUNT_TYPE_MAX_CAN_CREATED, "The number of accounts of the specified type has reached the upper limit.");
    (ERR_JS_ACCOUNT_LOCAL_ID_ALREADY_EXISTS, "The specified OS account ID already exists.");
    (ERR_JS_AUTH_CANCELLED, "The authentication, enrollment, or update operation is canceled.");
    (ERR_JS_ACCOUNT_CROSS_DEVICE_CAPABILITY_NOT_SUPPORT, "Cross-device capability not supported");
    (ERR_JS_ACCOUNT_CROSS_DEVICE_COMMUNICATION_FAILED, "Cross-device communication failed");
    (ERR_JS_FOREGROUND_OS_ACCOUNT_NOT_FOUND, "The foreground OS account is not found");
    (ERR_JS_DISPLAY_NOT_FOUND, "Display not found or not primary");
    (ERR_JS_CROSS_DISPLAY_ACTIVATION_NOT_SUPPORTED, "Cross-display activation not supported");
    (ERR_JS_OS_ACCOUNT_SUBPROFILE_NOT_FOUND, "OS account sub-profile not found");
    (ERR_JS_OS_ACCOUNT_SUBPROFILE_LIMIT_REACHED, "The number of sub-profiles under the OS account has reached limit");
    (ERR_JS_OS_ACCOUNT_SUBPROFILE_RESTRICTED, "Restricted OS account sub-profile");
    (ERR_JS_OS_ACCOUNT_SUBPROFILE_DELETE_FOREGROUND_RESTRICTED, "The foreground sub-profile of the OS account cannot be deleted");
    (ERR_JS_OS_ACCOUNT_SUBPROFILE_SWITCH_HAS_ACTIVE_SESSION, "The foreground sub-profile bound to a logged-in distributed account cannot be directly switched to the background");
    (ERR_JS_OS_ACCOUNT_SUBPROFILE_DISTRIBUTE_ACC_ALREADY_BOUND, "The distributed account information has already been bound to a sub-profile of the target OS account");
    (ERR_JS_AUTHORIZATION_INTERACTION_NOT_ALLOWED, "User interaction is required but not allowed. Possible causes: 1. The specified UI context is invalid; 2. The application is not in the foreground. Suggested solutions: Ensure the application is in the foreground and pass a valid UIAbilityContext.");
    (ERR_JS_AUTHORIZATION_SERVICE_BUSY, "Authorization service is busy.")
  ]%string.

(** [errorMap], account_error_no.cpp:116-130 *)
Definition errorMap : list (Z * Z) :=
  [
    (ERR_OK, ERR_JS_SUCCESS);
    (ERR_ACCOUNT_COMMON_NOT_SYSTEM_APP_ERROR, ERR_JS_IS_NOT_SYSTEM_APP);
    (ERR_ACCOUNT_COMMON_INVALID_PARAMETER, ERR_JS_INVALID_PARAMETER);
    (ERR_ACCOUNT_COMMON_ACCOUNT_NOT_EXIST_ERROR, ERR_JS_ACCOUNT_NOT_FOUND);
    (ERR_ACCOUNT_COMMON_NOT_AUTHENTICATED, ERR_JS_ACCOUNT_NOT_AUTHENTICATED);
    (ERR_ACCOUNT_COMMON_BUSY, ERR_JS_ACCOUNT_SERVICE_BUSY);
    (ERR_OS_ACCOUNT_SUBPROFILE_LIMIT, ERR_JS_OS_ACCOUNT_SUBPROFILE_LIMIT_REACHED);
    (ERR_OS_ACCOUNT_SUBPROFILE_NOT_FOUND, ERR_JS_OS_ACCOUNT_SUBPROFILE_NOT_FOUND);
    (ERR_OS_ACCOUNT_SUBPROFILE_RESTRICTED, ERR_JS_OS_ACCOUNT_SUBPROFILE_RESTRICTED);
    (ERR_OS_ACCOUNT_SUBPROFILE_IS_FOREGROUND, ERR_JS_OS_ACCOUNT_SUBPROFILE_DELETE_FOREGROUND_RESTRICTED);
    (ERR_OS_ACCOUNT_SUBPROFILE_HAS_ACTIVE_SESSION, ERR_JS_OS_ACCOUNT_SUBPROFILE_SWITCH_HAS_ACTIVE_SESSION);
    (ERR_OS_ACCOUNT_SUBPROFILE_DISTRIBUTE_ACC_ALREADY_BOUND, ERR_JS_OS_ACCOUNT_SUBPROFILE_DISTRIBUTE_ACC_ALREADY_BOUND)
  ].

(** [IAM_ERRCODE_MAP], account_error_no.cpp:132-161 *)
Definition IAM_ERRCODE_MAP : list (Z * Z) :=
  [
    (ERR_IAM_SUCCESS, ERR_JS_SUCCESS);
    (ERR_IAM_FAIL, ERR_JS_AUTH_CREDENTIAL_WRONG_ERROR);
    (ERR_IAM_AUTH_TOKEN_CHECK_FAILED, ERR_JS_AUTH_CREDENTIAL_WRONG_ERROR);
    (ERR_IAM_AUTH_TOKEN_EXPIRED, ERR_JS_AUTH_CREDENTIAL_WRONG_ERROR);
    (ERR_IAM_TOKEN_TIMEOUT, ERR_JS_AUTH_CREDENTIAL_WRONG_ERROR);
    (ERR_IAM_TOKEN_AUTH_FAILED, ERR_JS_AUTH_CREDENTIAL_WRONG_ERROR);
    (ERR_IAM_TRUST_LEVEL_NOT_SUPPORT, ERR_JS_TRUST_LEVEL_NOT_SUPPORTED);
    (ERR_IAM_TYPE_NOT_SUPPORT, ERR_JS_AUTH_TYPE_NOT_SUPPORTED);
    (ERR_IAM_TIMEOUT, ERR_JS_AUTH_TIMEOUT);
    (ERR_IAM_CANCELED, ERR_JS_AUTH_CANCELLED);
    (ERR_IAM_BUSY, ERR_JS_AUTH_SERVICE_BUSY);
    (ERR_IAM_LOCKED, ERR_JS_AUTH_SERVICE_LOCKED);
    (ERR_IAM_NOT_ENROLLED, ERR_JS_CREDENTIAL_NOT_EXIST);
    (ERR_IAM_PIN_IS_EXPIRED, ERR_JS_PIN_IS_EXPIRED);
    (ERR_IAM_COMPLEXITY_CHECK_FAILED, ERR_JS_COMPLEXITY_CHECK_FAILED);
    (ERR_IAM_INVALID_CONTEXT_ID, ERR_JS_INVALID_CONTEXT_ID);
    (ERR_ACCOUNT_COMMON_INVALID_PARAMETER, ERR_JS_INVALID_PARAMETER);
    (ERR_IAM_INVALID_PARAMETERS, ERR_JS_INVALID_PARAMETER);
    (ERR_ACCOUNT_IAM_KIT_INPUTER_ALREADY_REGISTERED, ERR_JS_CREDENTIAL_INPUTER_ALREADY_EXIST);
    (ERR_ACCOUNT_IAM_KIT_INPUTER_NOT_REGISTERED, ERR_JS_CREDENTIAL_INPUTER_NOT_EXIST);
    (ERR_ACCOUNT_IAM_UNSUPPORTED_AUTH_TYPE, ERR_JS_AUTH_TYPE_NOT_SUPPORTED);
    (ERR_DOMAIN_ACCOUNT_SERVICE_NOT_DOMAIN_ACCOUNT, ERR_JS_AUTH_TYPE_NOT_SUPPORTED);
    (ERR_DOMAIN_ACCOUNT_NOT_SUPPORT_BACKGROUND_ACCOUNT_REQUEST, ERR_JS_AUTH_TYPE_NOT_SUPPORTED);
    (ERR_IAM_CREDENTIAL_NUMBER_REACH_LIMIT, ERR_JS_CREDENTIAL_NUMBER_REACH_LIMIT);
    (ERR_IAM_SESSION_TIMEOUT, ERR_JS_SESSION_TIMEOUT);
    (ERR_IAM_NO_VALID_CREDENTIAL, ERR_JS_CREDENTIAL_NO_LONGER_VALID);
    (ERR_IAM_HISTORY_PIN_MATCH, ERR_JS_HISTORY_PIN_MATCH_FAILED);
    (ERR_IAM_CHECK_SYSTEM_APP_FAILED, ERR_JS_IS_NOT_SYSTEM_APP)
  ].

(** [AuthorizationConvertToJsErrCode], account_error_no.cpp:205-219 *)
Definition AuthorizationConvertToJsErrCode (nativeErrCode : Z) : Z :=
  switch nativeErrCode
    [
      ([ERR_OK], ERR_JS_SUCCESS);
      ([ERR_ACCOUNT_COMMON_PERMISSION_DENIED], ERR_JS_PERMISSION_DENIED);
      ([ERR_ACCOUNT_COMMON_NOT_SYSTEM_APP_ERROR], ERR_JS_IS_NOT_SYSTEM_APP);
      ([ERR_ACCOUNT_COMMON_INVALID_PARAMETER], ERR_JS_INVALID_PARAMETER)
    ]
    ERR_JS_SYSTEM_SERVICE_EXCEPTION.

(** [AppAccountConvertOtherJSErrCode], account_error_no.cpp:252-289 *)
Definition AppAccountConvertOtherJSErrCode (errCode : Z) : Z :=
  switch errCode
    [
      ([ERR_APPACCOUNT_SERVICE_ACCOUNT_NOT_EXIST; ERR_APPACCOUNT_SERVICE_GET_ACCOUNT_INFO_BY_ID], ERR_JS_ACCOUNT_NOT_FOUND);
      ([ERR_APPACCOUNT_SERVICE_ADD_EXISTING_ACCOUNT], ERR_JS_ACCOUNT_ALREADY_EXIST);
      ([ERR_APPACCOUNT_SERVICE_ACCOUNT_MAX_SIZE], ERR_JS_ACCOUNT_NUMBER_REACH_LIMIT);
      ([ERR_APPACCOUNT_SUBSCRIBER_ALREADY_REGISTERED], ERR_JS_LISTENER_ALREADY_REGISTERED);
      ([ERR_APPACCOUNT_SERVICE_ASSOCIATED_DATA_OVER_SIZE], ERR_JS_CUSTOM_DATA_NUMBER_REACH_LIMIT);
      ([ERR_APPACCOUNT_SERVICE_ASSOCIATED_DATA_KEY_NOT_EXIST], ERR_JS_CUSTOM_DATA_NOT_FOUND);
      ([ERR_APPACCOUNT_SERVICE_ACCOUNT_CREDENTIAL_NOT_EXIST], ERR_JS_CREDENTIAL_NOT_EXIST);
      ([ERR_APPACCOUNT_KIT_NO_SPECIFIED_SUBSCRIBER_HAS_BEEN_REGISTERED], ERR_JS_LISTENER_NOT_REGISTERED);
      ([ERR_APPACCOUNT_SERVICE_OAUTH_AUTHENTICATOR_NOT_EXIST], ERR_JS_ACCOUNT_AUTHENTICATOR_NOT_EXIST);
      ([ERR_APPACCOUNT_SERVICE_OAUTH_BUSY], ERR_JS_ACCOUNT_SERVICE_BUSY);
      ([ERR_APPACCOUNT_SERVICE_OAUTH_LIST_MAX_SIZE], ERR_JS_AUTHORIZATION_LIST_TOO_LARGE);
      ([ERR_APPACCOUNT_SERVICE_OAUTH_SESSION_NOT_EXIST; ERR_APPACCOUNT_SERVICE_OAUTH_AUTHENTICATOR_CALLBACK_NOT_EXIST], ERR_JS_SESSION_NOT_EXIST);
      ([ERR_APPACCOUNT_SERVICE_OAUTH_TYPE_NOT_EXIST; ERR_APPACCOUNT_SERVICE_OAUTH_TOKEN_NOT_EXIST], ERR_JS_AUTH_TYPE_NOT_FOUND);
      ([ERR_APPACCOUNT_SERVICE_OAUTH_TOKEN_MAX_SIZE], ERR_JS_TOKEN_NUMBER_REACH_LIMIT)
    ]
    ERR_JS_SYSTEM_SERVICE_EXCEPTION.

(** [DomainAccountConvertToJSErrCode], account_error_no.cpp:365-380 *)
Definition DomainAccountConvertToJSErrCode (errCode : Z) : Z :=
  switch errCode
    [
      ([ERR_DOMAIN_ACCOUNT_SERVICE_PLUGIN_ALREADY_EXIST], ERR_JS_DOMAIN_PLUGIN_ALREADY_REGISTERED);
      ([ERR_DOMAIN_ACCOUNT_SERVICE_NOT_DOMAIN_ACCOUNT], ERR_JS_ACCOUNT_NOT_FOUND);
      ([ERR_DOMAIN_ACCOUNT_SERVICE_PLUGIN_NOT_EXIST; ERR_DOMAIN_ACCOUNT_NOT_SUPPORT], ERR_JS_CAPABILITY_NOT_SUPPORTED);
      ([ERR_DOMAIN_ACCOUNT_NOT_SUPPORT_BACKGROUND_ACCOUNT_REQUEST], ERR_JS_CAPABILITY_NOT_SUPPORTED)
    ]
    ERR_JS_SYSTEM_SERVICE_EXCEPTION.

(** [OsAccountConvertToJSErrCode], account_error_no.cpp:306-363 *)
Definition OsAccountConvertToJSErrCode (errCode : Z) : Z :=
  if errCode =? ERR_ACCOUNT_COMMON_INVALID_PARAMETER then ERR_JS_INVALID_PARAMETER else
  switch errCode
    [
      ([ERR_OSACCOUNT_SERVICE_INNER_SELECT_ERROR; ERR_ACCOUNT_COMMON_ACCOUNT_NOT_EXIST_ERROR], ERR_JS_ACCOUNT_NOT_FOUND);
      ([ERR_OSACCOUNT_SERVICE_INNER_DOMAIN_ALREADY_BIND_ERROR; ERR_ACCOUNT_COMMON_NAME_HAD_EXISTED], ERR_JS_ACCOUNT_ALREADY_EXIST);
      ([ERR_ACCOUNT_COMMON_SHORT_NAME_HAD_EXISTED], ERR_JS_ACCOUNT_SHORT_NAME_ALREADY_EXIST);
      ([ERR_OSACCOUNT_SERVICE_INNER_ACCOUNT_ALREADY_ACTIVE_ERROR], ERR_JS_ACCOUNT_ALREADY_ACTIVATED);
      ([ERR_OSACCOUNT_SERVICE_CONTROL_MAX_CAN_CREATE_ERROR], ERR_JS_ACCOUNT_NUMBER_REACH_LIMIT);
      ([ERR_OSACCOUNT_SERVICE_CONTROL_MAX_TYPE_CAN_CREATE_ERROR], ERR_JS_ACCOUNT_TYPE_MAX_CAN_CREATED);
      ([ERR_OSACCOUNT_SERVICE_LOGGED_IN_ACCOUNTS_OVERSIZE], ERR_JS_ACCOUNT_LOGGED_IN_ACCOUNTS_OVERSIZE);
      ([ERR_OSACCOUNT_SERVICE_MANAGER_NOT_ENABLE_MULTI_ERROR], ERR_JS_MULTI_USER_NOT_SUPPORT);
      ([ERR_OSACCOUNT_SERVICE_MANAGER_CREATE_OSACCOUNT_TYPE_ERROR], ERR_JS_ACCOUNT_TYPE_NOT_SUPPORT);
      ([ERR_OSACCOUNT_SERVICE_MANAGER_ID_ERROR; ERR_OSACCOUNT_SERVICE_CONTROL_CANNOT_DELETE_ID_ERROR; ERR_OSACCOUNT_SERVICE_CONTROL_ID_CANNOT_CREATE_ERROR; ERR_OSACCOUNT_SERVICE_INNER_ACCOUNT_STOP_ACTIVE_ERROR; ERR_ACCOUNT_COMMON_ACCOUNT_IS_RESTRICTED], ERR_JS_ACCOUNT_RESTRICTED);
      ([ERR_OSACCOUNT_KIT_NO_SPECIFIED_SUBSCRIBER_HAS_BEEN_REGISTERED], ERR_JS_LISTENER_NOT_REGISTERED);
      ([ERR_AUTHORIZATION_PRIVILEGE_DENIED], ERR_JS_AUTHORIZATION_DENIED);
      ([ERR_ACCOUNT_COMMON_PERMISSION_DENIED], ERR_JS_PERMISSION_DENIED);
      ([ERR_OSACCOUNT_SERVICE_INNER_ACCOUNT_OPERATING_ERROR], ERR_JS_ACCOUNT_SERVICE_BUSY);
      ([ERR_OSACCOUNT_SERVICE_INNER_OS_ACCOUNT_ALREADY_BOUND], ERR_JS_OS_ACCOUNT_ALREADY_BOUND);
      ([ERR_OSACCOUNT_SERVICE_INNER_DOMAIN_ACCOUNT_ALREADY_BOUND], ERR_JS_DOMAIN_ACCOUNT_ALREADY_BOUND);
      ([ERR_OSACCOUNT_SERVICE_LOCAL_ID_ALREADY_EXISTS_ERROR], ERR_JS_ACCOUNT_LOCAL_ID_ALREADY_EXISTS);
      ([ERR_ACCOUNT_COMMON_ACCOUNT_IN_DISPLAY_ID_NOT_FOUND_ERROR], ERR_JS_FOREGROUND_OS_ACCOUNT_NOT_FOUND);
      ([ERR_ACCOUNT_COMMON_DISPLAY_ID_NOT_EXIST_ERROR], ERR_JS_DISPLAY_NOT_FOUND);
      ([ERR_ACCOUNT_COMMON_DISPLAY_NOT_PRIMARY_ERROR], ERR_JS_DISPLAY_NOT_FOUND);
      ([ERR_ACCOUNT_COMMON_CROSS_DISPLAY_ACTIVE_ERROR], ERR_JS_CROSS_DISPLAY_ACTIVATION_NOT_SUPPORTED)
    ]
    ERR_JS_SYSTEM_SERVICE_EXCEPTION.


(** [AccountIAMConvertOtherToJSErrCode], account_error_no.cpp:163-170 *)
Definition AccountIAMConvertOtherToJSErrCode (errCode : Z) : Z :=
  match init_list_find errCode IAM_ERRCODE_MAP with
  | None => ERR_JS_SYSTEM_SERVICE_EXCEPTION
  | Some v => v
  end.

(** The map's key type is [uint32_t]: the argument of [find] is converted.
    [CheckJsErrorCode], account_error_no.cpp *)
Definition CheckJsErrorCode (errCode : Z) : bool :=
  match init_list_find (u32 errCode) g_errorStringMap with
  | None => false
  | Some _ => true
  end.

(** [AccountIAMConvertToJSErrCode], account_error_no.cpp *)
Definition AccountIAMConvertToJSErrCode (errCode : Z) : Z :=
  if CheckJsErrorCode errCode then errCode
  else if errCode =? ERR_ACCOUNT_COMMON_NOT_SYSTEM_APP_ERROR then ERR_JS_IS_NOT_SYSTEM_APP
  else if (errCode =? ERR_ACCOUNT_COMMON_PERMISSION_DENIED)
       || (errCode =? ERR_IAM_CHECK_PERMISSION_FAILED) then ERR_JS_PERMISSION_DENIED
  else if errCode =? ERR_ACCOUNT_COMMON_INVALID_PARAMETER then ERR_JS_INVALID_PARAMETER
  else if errCode =? ERR_ACCOUNT_COMMON_ACCOUNT_NOT_EXIST_ERROR then ERR_JS_ACCOUNT_NOT_FOUND
  else if errCode =? ERR_ACCOUNT_COMMON_ACCOUNT_IS_RESTRICTED then ERR_JS_ACCOUNT_RESTRICTED
  else if errCode =? ERR_IAM_CROSS_DEVICE_COMMUNICATION_FAILED
       then ERR_JS_ACCOUNT_CROSS_DEVICE_COMMUNICATION_FAILED
  else if errCode =? ERR_IAM_CROSS_DEVICE_CAPABILITY_NOT_SUPPORT
       then ERR_JS_ACCOUNT_CROSS_DEVICE_CAPABILITY_NOT_SUPPORT
  else AccountIAMConvertOtherToJSErrCode errCode.

(** [AuthorizationPublicConvertToJsErrCode], account_error_no.cpp *)
Definition AuthorizationPublicConvertToJsErrCode (nativeErrCode : Z) : Z :=
  if CheckJsErrorCode nativeErrCode then nativeErrCode
  else if nativeErrCode =? ERR_ACCOUNT_COMMON_INVALID_PARAMETER
       then ERR_JS_SYSTEM_SERVICE_EXCEPTION
  else AuthorizationConvertToJsErrCode nativeErrCode.

(** [ConvertToJsErrMsg], account_error_no.cpp *)
Definition ConvertToJsErrMsg (jsErrCode : Z) : string :=
  match init_list_find (u32 jsErrCode) g_errorStringMap with
  | Some msg => msg
  | None => "Unknown error, please reboot your device and try again"
  end.

(** [AppAccountConvertToJSErrCode], account_error_no.cpp *)
Definition AppAccountConvertToJSErrCode (errCode : Z) : Z :=
  if errCode =? ERR_ACCOUNT_COMMON_PERMISSION_DENIED then ERR_JS_PERMISSION_DENIED
  else if (errCode =? ERR_APPACCOUNT_SERVICE_GET_BUNDLE_NAME)
       || (errCode =? ERR_APPACCOUNT_SERVICE_GET_BUNDLE_INFO)
       || (errCode =? ERR_APPACCOUNT_SERVICE_DISABLE_APP_ACCESS_NOT_EXISTED)
       then ERR_JS_APPLICATION_NOT_EXIST
  else if errCode =? ERR_APPACCOUNT_SERVICE_OAUTH_SERVICE_EXCEPTION
       then ERR_JS_ACCOUNT_AUTHENTICATOR_SERVICE_EXCEPTION
  else AppAccountConvertOtherJSErrCode errCode.

(** [IsAppAccountKitError], account_error_no.cpp *)
Definition IsAppAccountKitError (errCode : Z) : bool :=
  (ERR_APPACCOUNT_KIT_GET_APP_ACCOUNT_SERVICE <=? errCode)
  && (errCode <=? ERR_APPACCOUNT_KIT_READ_PARCELABLE_VECTOR_ACCOUNT_INFO).

(** [IsAppAccountServiceError], account_error_no.cpp *)
Definition IsAppAccountServiceError (errCode : Z) : bool :=
  (ERR_APPACCOUNT_SERVICE_ACCOUNT_NOT_EXIST <=? errCode)
  && (errCode <=? ERR_APPACCOUNT_SERVICE_OTHER).

(** [IsOsAccountKitError], account_error_no.cpp *)
Definition IsOsAccountKitError (errCode : Z) : bool :=
  (ERR_OSACCOUNT_KIT_CREATE_OS_ACCOUNT_FOR_DOMAIN_ERROR <=? errCode)
  && (errCode <=? ERR_OSACCOUNT_KIT_NO_SPECIFIED_SUBSCRIBER_HAS_BEEN_REGISTERED).

(** [IsOsAccountServiceError], account_error_no.cpp *)
Definition IsOsAccountServiceError (errCode : Z) : bool :=
  ((ERR_OSACCOUNT_SERVICE_MANAGER_QUERY_DISTRIBUTE_DATA_ERROR <=? errCode)
   && (errCode <=? ERR_OS_ACCOUNT_SERVICE_CODE_END))
  || (errCode =? ERR_ACCOUNT_COMMON_NAME_HAD_EXISTED)
  || (errCode =? ERR_ACCOUNT_COMMON_SHORT_NAME_HAD_EXISTED)
  || (errCode =? ERR_ACCOUNT_COMMON_ACCOUNT_IN_DISPLAY_ID_NOT_FOUND_ERROR)
  || (errCode =? ERR_ACCOUNT_COMMON_DISPLAY_ID_NOT_EXIST_ERROR)
  || (errCode =? ERR_ACCOUNT_COMMON_DISPLAY_NOT_PRIMARY_ERROR)
  || (errCode =? ERR_ACCOUNT_COMMON_CROSS_DISPLAY_ACTIVE_ERROR)
  || (errCode =? ERR_ACCOUNT_COMMON_ACCOUNT_IS_RESTRICTED)
  || (errCode =? ERR_ACCOUNT_COMMON_TEE_USER_TOKEN_INVALID)
  || (errCode =? ERR_ACCOUNT_COMMON_TEE_USER_TOKEN_EXPIRED)
  || (errCode =? ERR_AUTHORIZATION_PRIVILEGE_DENIED).

(** [IsDomainAccountServiceError], account_error_no.cpp *)
Definition IsDomainAccountServiceError (errCode : Z) : bool :=
  (ERR_DOMAIN_ACCOUNT_SERVICE_PLUGIN_ALREADY_EXIST <=? errCode)
  && (errCode <=? ERR_DOMAIN_ACCOUNT_SERVICE_ERR_CODE_LIMIT).

(** [ConvertToJSErrCode], account_error_no.cpp *)
Definition ConvertToJSErrCode (nativeErrCode : Z) : Z :=
  match init_list_find nativeErrCode errorMap with
  | Some v => v
  | None =>
      if IsAppAccountKitError nativeErrCode || IsAppAccountServiceError nativeErrCode
      then AppAccountConvertToJSErrCode nativeErrCode
      else if IsOsAccountKitError nativeErrCode || IsOsAccountServiceError nativeErrCode
      then OsAccountConvertToJSErrCode nativeErrCode
      else if IsDomainAccountServiceError nativeErrCode
      then DomainAccountConvertToJSErrCode nativeErrCode
      else if nativeErrCode =? ERR_ACCOUNT_COMMON_PERMISSION_DENIED
      then ERR_JS_PERMISSION_DENIED
      else ERR_JS_SYSTEM_SERVICE_EXCEPTION
  end.

(** [GenerateBusinessErrorCode], account_error_no.cpp *)
Definition GenerateBusinessErrorCode (nativeErrCode : Z) : Z :=
  match init_list_find (u32 nativeErrCode) g_errorStringMap with
  | None => ConvertToJSErrCode nativeErrCode
  | Some _ => nativeErrCode
  end.

(** ** Properties *)

(** A statement about every row of a table is decided by evaluation. *)
Ltac by_table := apply (bool_decide_unpack _); vm_compute; exact I.

(** Splits the guards of a conversion function; what is left are the results of
    its branches. *)
Ltac split_guards :=
  repeat match goal with
  | |- context [if ?b then _ else _] => destruct b eqn:?
  end.

(** The codes the app account, OS account and domain account conversions
    answer with. *)
Definition module_js_results : list Z :=
  [ERR_JS_SYSTEM_SERVICE_EXCEPTION;
   ERR_JS_PERMISSION_DENIED; ERR_JS_APPLICATION_NOT_EXIST;
   ERR_JS_ACCOUNT_AUTHENTICATOR_SERVICE_EXCEPTION; ERR_JS_INVALID_PARAMETER;
   ERR_JS_ACCOUNT_NOT_FOUND; ERR_JS_ACCOUNT_ALREADY_EXIST;
   ERR_JS_ACCOUNT_NUMBER_REACH_LIMIT; ERR_JS_LISTENER_ALREADY_REGISTERED;
   ERR_JS_CUSTOM_DATA_NUMBER_REACH_LIMIT; ERR_JS_CUSTOM_DATA_NOT_FOUND;
   ERR_JS_CREDENTIAL_NOT_EXIST; ERR_JS_LISTENER_NOT_REGISTERED;
   ERR_JS_ACCOUNT_AUTHENTICATOR_NOT_EXIST; ERR_JS_ACCOUNT_SERVICE_BUSY;
   ERR_JS_AUTHORIZATION_LIST_TOO_LARGE; ERR_JS_SESSION_NOT_EXIST;
   ERR_JS_AUTH_TYPE_NOT_FOUND; ERR_JS_TOKEN_NUMBER_REACH_LIMIT;
   ERR_JS_ACCOUNT_SHORT_NAME_ALREADY_EXIST; ERR_JS_ACCOUNT_ALREADY_ACTIVATED;
   ERR_JS_ACCOUNT_TYPE_MAX_CAN_CREATED; ERR_JS_ACCOUNT_LOGGED_IN_ACCOUNTS_OVERSIZE;
   ERR_JS_MULTI_USER_NOT_SUPPORT; ERR_JS_ACCOUNT_TYPE_NOT_SUPPORT;
   ERR_JS_ACCOUNT_RESTRICTED; ERR_JS_AUTHORIZATION_DENIED;
   ERR_JS_OS_ACCOUNT_ALREADY_BOUND; ERR_JS_DOMAIN_ACCOUNT_ALREADY_BOUND;
   ERR_JS_ACCOUNT_LOCAL_ID_ALREADY_EXISTS; ERR_JS_FOREGROUND_OS_ACCOUNT_NOT_FOUND;
   ERR_JS_DISPLAY_NOT_FOUND; ERR_JS_CROSS_DISPLAY_ACTIVATION_NOT_SUPPORTED;
   ERR_JS_DOMAIN_PLUGIN_ALREADY_REGISTERED; ERR_JS_CAPABILITY_NOT_SUPPORTED].

Lemma switch_in (rs : list Z) e cases d :
  Forall (λ c, c.2 ∈ rs) cases → d ∈ rs → switch e cases d ∈ rs.
Proof. apply (switch_Forall (λ r, r ∈ rs)). Qed.

Lemma module_conversions_in e :
  AppAccountConvertToJSErrCode e ∈ module_js_results
  ∧ OsAccountConvertToJSErrCode e ∈ module_js_results
  ∧ DomainAccountConvertToJSErrCode e ∈ module_js_results.
Proof.
  unfold AppAccountConvertToJSErrCode, OsAccountConvertToJSErrCode,
    AppAccountConvertOtherJSErrCode, DomainAccountConvertToJSErrCode.
  split_and!; split_guards; try apply switch_in; by_table.
Qed.

(** Every code [ConvertToJSErrCode] answers with. *)
Definition js_results : list Z := module_js_results ++ errorMap.*2.

Lemma ConvertToJSErrCode_in e : ConvertToJSErrCode e ∈ js_results.
Proof.
  unfold ConvertToJSErrCode, js_results. rewrite elem_of_app.
  destruct (init_list_find e errorMap) as [v|] eqn:E.
  - right. apply init_list_find_Some in E. apply list_elem_of_fmap. by exists (e, v).
  - left. destruct (module_conversions_in e) as (? & ? & ?).
    split_guards; try done; by_table.
Qed.

Lemma AuthorizationConvert_cases e :
  AuthorizationConvertToJsErrCode e
    ∈ [ERR_JS_SYSTEM_SERVICE_EXCEPTION; ERR_JS_PERMISSION_DENIED;
       ERR_JS_IS_NOT_SYSTEM_APP; ERR_JS_INVALID_PARAMETER]
  ∨ e = ERR_OK.
Proof.
  unfold AuthorizationConvertToJsErrCode. simpl. rewrite !orb_false_r.
  case (Z.eqb_spec e ERR_OK) as [->|]; [by right|left].
  split_guards; by_table.
Qed.

(** The message table has no success code and only [uint32_t] keys. *)
Lemma message_key_range k v :
  init_list_find k g_errorStringMap = Some v → 0 < k < 2147483648.
Proof.
  intros H%init_list_find_Some.
  assert (Hall : Forall (λ p, 0 < p.1 ∧ p.1 < 2147483648) g_errorStringMap) by by_table.
  rewrite Forall_forall in Hall. by apply (Hall (k, v)).
Qed.

Lemma CheckJsErrorCode_nonzero e : CheckJsErrorCode e = true → e ≠ 0.
Proof.
  unfold CheckJsErrorCode. intros H ->. vm_compute in H. done.
Qed.

Lemma table_success (tbl : list (Z * Z)) e v :
  Forall (λ p, p.2 = ERR_JS_SUCCESS → p.1 = ERR_OK) tbl →
  init_list_find e tbl = Some v → v = ERR_JS_SUCCESS → e = ERR_OK.
Proof.
  intros Hall H%init_list_find_Some Hv. rewrite Forall_forall in Hall.
  by apply (Hall (e, v)).
Qed.

Lemma ConvertToJSErrCode_success e :
  ConvertToJSErrCode e = ERR_JS_SUCCESS → e = ERR_OK.
Proof.
  unfold ConvertToJSErrCode.
  destruct (init_list_find e errorMap) as [v|] eqn:E.
  - eapply table_success; [|exact E]; by_table.
  - assert (Hno : Forall (λ z, z ≠ ERR_JS_SUCCESS) module_js_results) by by_table.
    rewrite Forall_forall in Hno.
    destruct (module_conversions_in e) as (H1 & H2 & H3).
    apply Hno in H1, H2, H3. split_guards; done.
Qed.

Lemma CheckJsErrorCode_eq e :
  CheckJsErrorCode e = true → GenerateBusinessErrorCode e = e.
Proof.
  unfold CheckJsErrorCode, GenerateBusinessErrorCode.
  by destruct (init_list_find _ _).
Qed.

Lemma CheckJsErrorCode_false e :
  CheckJsErrorCode e = false → GenerateBusinessErrorCode e = ConvertToJSErrCode e.
Proof.
  unfold CheckJsErrorCode, GenerateBusinessErrorCode.
  by destruct (init_list_find _ _).
Qed.

(** ** The claims *)

(** No conversion reports success for a failure: for every [int32_t] code, each
    of the four conversions to the public code space yields [ERR_JS_SUCCESS]
    exactly for [ERR_OK]. *)
Theorem conversions_success_iff_ok (e : Z) :
  (ConvertToJSErrCode e = ERR_JS_SUCCESS ↔ e = ERR_OK)
  ∧ (GenerateBusinessErrorCode e = ERR_JS_SUCCESS ↔ e = ERR_OK)
  ∧ (AccountIAMConvertToJSErrCode e = ERR_JS_SUCCESS ↔ e = ERR_OK)
  ∧ (AuthorizationPublicConvertToJsErrCode e = ERR_JS_SUCCESS ↔ e = ERR_OK).
Proof.
  split_and!; (split; [|by intros ->]).
  - apply ConvertToJSErrCode_success.
  - destruct (CheckJsErrorCode e) eqn:E.
    + rewrite CheckJsErrorCode_eq by done. by intros ->.
    + rewrite CheckJsErrorCode_false by done. apply ConvertToJSErrCode_success.
  - unfold AccountIAMConvertToJSErrCode, AccountIAMConvertOtherToJSErrCode.
    split_guards; try done.
    destruct (init_list_find e IAM_ERRCODE_MAP) as [v|] eqn:E; [|done].
    eapply table_success; [|exact E]; by_table.
  - unfold AuthorizationPublicConvertToJsErrCode. split_guards; try done.
    intros He. destruct (AuthorizationConvert_cases e) as [Hin|]; [|done].
    assert (Hno : Forall (λ z, z ≠ ERR_JS_SUCCESS)
      [ERR_JS_SYSTEM_SERVICE_EXCEPTION; ERR_JS_PERMISSION_DENIED;
       ERR_JS_IS_NOT_SYSTEM_APP; ERR_JS_INVALID_PARAMETER]) by by_table.
    rewrite Forall_forall in Hno. by destruct (Hno _ Hin).
Qed.

(** The code handed to an application has a message of its own in the table,
    except for exactly three codes: success and the two failures
    "not authenticated" and "short name already exists", for which
    [ConvertToJsErrMsg] answers the text for unknown errors. *)
Theorem business_code_message_missing_iff (c : Z) :
  (∃ e, GenerateBusinessErrorCode e = c ∧ CheckJsErrorCode c = false)
  ↔ c ∈ [ERR_JS_SUCCESS; ERR_JS_ACCOUNT_NOT_AUTHENTICATED;
         ERR_JS_ACCOUNT_SHORT_NAME_ALREADY_EXIST].
Proof.
  split.
  - intros (e & <- & Hc). destruct (CheckJsErrorCode e) eqn:E.
    { rewrite CheckJsErrorCode_eq in Hc by done. congruence. }
    rewrite CheckJsErrorCode_false in Hc |- * by done.
    assert (Hall : Forall (λ c, CheckJsErrorCode c = false →
      c ∈ [ERR_JS_SUCCESS; ERR_JS_ACCOUNT_NOT_AUTHENTICATED;
           ERR_JS_ACCOUNT_SHORT_NAME_ALREADY_EXIST]) js_results) by by_table.
    rewrite Forall_forall in Hall. apply Hall; [apply ConvertToJSErrCode_in|done].
  - rewrite !elem_of_cons, elem_of_nil. intros [->|[->|[->|[]]]].
    + by exists ERR_OK.
    + by exists ERR_ACCOUNT_COMMON_NOT_AUTHENTICATED.
    + by exists ERR_ACCOUNT_COMMON_SHORT_NAME_HAD_EXISTED.
Qed.

(** The text about an invalid context ID is never shown: its code has the
    value of [ERR_JS_INVALID_PARAMETER], whose entry comes first in the table, so
    no code at all is given that message. *)
Theorem context_id_message_unreachable (c : Z) :
  ConvertToJsErrMsg c
    ≠ "Context ID is invalid, please check the context ID and try again"%string.
Proof.
  unfold ConvertToJsErrMsg.
  destruct (init_list_find (u32 c) g_errorStringMap) as [msg|] eqn:E; [|done].
  intros ->. pose proof E as Hin%init_list_find_Some.
  assert (Hall : Forall (λ p, p.2 = "Context ID is invalid, please check the context ID and try again"%string →
      p.1 = ERR_JS_INVALID_PARAMETER) g_errorStringMap) by by_table.
  rewrite Forall_forall in Hall. specialize (Hall _ Hin eq_refl). simpl in Hall.
  rewrite Hall in E. vm_compute in E. done.
Qed.
