(* ===== verification/AccountStateMachine.v ===== *)
(** * The login state machine of a distributed account

    Models [account_state_machine.cpp], [account_state_machine.h] and
    [account_state_action.h].  The table maps a state to a map from events to
    actions; a null action is [None].  [OnInitialize] depends on the subspace
    switch.  Allocation with [new (std::nothrow)] is taken to succeed, the log
    and the performance record are left out: neither affects the state. *)
From S2P Require Import Prelude.

(** ** Data *)

Module OHOS_ACCOUNT_STATE.
(** [ACCOUNT_STATE_INVALID], account_info.h:35-35 *)
Definition ACCOUNT_STATE_INVALID : Z := -1.

(** [ACCOUNT_STATE_UNBOUND], account_info.h:37-37 *)
Definition ACCOUNT_STATE_UNBOUND : Z := 0.

(** [ACCOUNT_STATE_LOGIN], account_info.h:39-39 *)
Definition ACCOUNT_STATE_LOGIN : Z := 1.

(** [ACCOUNT_STATE_NOTLOGIN], account_info.h:41-41 *)
Definition ACCOUNT_STATE_NOTLOGIN : Z := 2.

(** [ACCOUNT_STATE_LOGOFF], account_info.h:43-43 *)
Definition ACCOUNT_STATE_LOGOFF : Z := 3.

(** [ACCOUNT_STATE_TOKEN_EXPIRED], account_info.h:45-45 *)
Definition ACCOUNT_STATE_TOKEN_EXPIRED : Z := 4.

End OHOS_ACCOUNT_STATE.
Export OHOS_ACCOUNT_STATE.

Module ACCOUNT_INNER_EVENT_TYPE.
(** [ACCOUNT_INVALID_EVT], account_info.h:63-63 *)
Definition ACCOUNT_INVALID_EVT : Z := -1.

(** [ACCOUNT_BIND_SUCCESS_EVT], account_info.h:64-64 *)
Definition ACCOUNT_BIND_SUCCESS_EVT : Z := 0.

(** [ACCOUNT_BIND_FAILED_EVT], account_info.h:65-65 *)
Definition ACCOUNT_BIND_FAILED_EVT : Z := 1.

(** [ACCOUNT_AUTHENTICATE_SUCCESS_EVT], account_info.h:66-66 *)
Definition ACCOUNT_AUTHENTICATE_SUCCESS_EVT : Z := 2.

(** [ACCOUNT_AUTHENTICATE_FAILED_EVT], account_info.h:67-67 *)
Definition ACCOUNT_AUTHENTICATE_FAILED_EVT : Z := 3.

(** [ACCOUNT_TOKEN_EXPIRED_EVT], account_info.h:68-68 *)
Definition ACCOUNT_TOKEN_EXPIRED_EVT : Z := 4.

(** [ACCOUNT_PASSWORD_CHANGED_EVT], account_info.h:69-69 *)
Definition ACCOUNT_PASSWORD_CHANGED_EVT : Z := 5.

(** [ACCOUNT_MANUAL_LOGOUT_EVT], account_info.h:70-70 *)
Definition ACCOUNT_MANUAL_LOGOUT_EVT : Z := 6.

(** [ACCOUNT_MANUAL_UNBOUND_EVT], account_info.h:71-71 *)
Definition ACCOUNT_MANUAL_UNBOUND_EVT : Z := 7.

(** [ACCOUNT_MANUAL_LOGOFF_EVT], account_info.h:72-72 *)
Definition ACCOUNT_MANUAL_LOGOFF_EVT : Z := 8.

(** [ACCOUNT_DISTRIBUTED_SPACE_CREATE_EVT], account_info.h:73-73 *)
Definition ACCOUNT_DISTRIBUTED_SPACE_CREATE_EVT : Z := 9.

(** [ACCOUNT_DISTRIBUTED_SPACE_DELETED_EVT], account_info.h:74-74 *)
Definition ACCOUNT_DISTRIBUTED_SPACE_DELETED_EVT : Z := 10.

(** [ACCOUNT_DISTRIBUTED_SPACE_SWITCHED_EVT], account_info.h:75-75 *)
Definition ACCOUNT_DISTRIBUTED_SPACE_SWITCHED_EVT : Z := 11.

End ACCOUNT_INNER_EVENT_TYPE.
Export ACCOUNT_INNER_EVENT_TYPE.

(** The action classes derived from [AccountStateAction]; each carries the next
    state only. [AccountStateAction], account_state_machine.h:30-112 *)
Inductive AccountStateAction :=
  | ExceptionAction (status : Z)
  | UnboundAction (status : Z)
  | LoginAction (status : Z)
  | LogoutAction (status : Z)
  | LogoffAction (status : Z).

#[export] Instance AccountStateAction_eq_dec : EqDecision AccountStateAction.
Proof. solve_decision. Defined.

(** [GetNextState], account_state_action.h *)
Definition GetNextState (a : AccountStateAction) : Z :=
  match a with
  | ExceptionAction s | UnboundAction s | LoginAction s | LogoutAction s | LogoffAction s => s
  end.

Abbreviation StateTable := (gmap Z (gmap Z (option AccountStateAction))).

(** The two data members of the class. [AccountStateMachine], account_state_machine.h:165-170 *)
Record AccountStateMachine := mkAccountStateMachine {
  currentState_ : Z;
  stateMachineMap_ : StateTable;
}.

(** ** Operations *)
Section operations.
Context `{Config}.

(** Next state of a manual logout or logoff, which the build decides. *)
Definition subspace_state (plain subspace : Z) : Z :=
  if ENABLE_MULTIPLE_OS_ACCOUNT_SUBSPACE then subspace else plain.

(** [OnInitialize], account_state_machine.cpp:27-69 *)
Definition unbound_row : gmap Z (option AccountStateAction) :=
  list_to_map [
    (ACCOUNT_BIND_SUCCESS_EVT, Some (LoginAction ACCOUNT_STATE_LOGIN));
    (ACCOUNT_BIND_FAILED_EVT, Some (ExceptionAction ACCOUNT_STATE_UNBOUND));
    (ACCOUNT_AUTHENTICATE_SUCCESS_EVT, Some (LoginAction ACCOUNT_STATE_LOGIN));
    (ACCOUNT_AUTHENTICATE_FAILED_EVT, None);
    (ACCOUNT_TOKEN_EXPIRED_EVT, None);
    (ACCOUNT_PASSWORD_CHANGED_EVT, None);
    (ACCOUNT_MANUAL_LOGOUT_EVT, None);
    (ACCOUNT_MANUAL_UNBOUND_EVT, None);
    (ACCOUNT_MANUAL_LOGOFF_EVT, None)].

(** [OnInitialize], account_state_machine.cpp:50-79 *)
Definition login_row : gmap Z (option AccountStateAction) :=
  list_to_map [
    (ACCOUNT_BIND_SUCCESS_EVT, None);
    (ACCOUNT_BIND_FAILED_EVT, Some (ExceptionAction ACCOUNT_STATE_LOGIN));
    (ACCOUNT_AUTHENTICATE_SUCCESS_EVT, None);
    (ACCOUNT_AUTHENTICATE_FAILED_EVT, None);
    (ACCOUNT_TOKEN_EXPIRED_EVT, Some (LogoutAction ACCOUNT_STATE_TOKEN_EXPIRED));
    (ACCOUNT_PASSWORD_CHANGED_EVT, Some (LogoutAction ACCOUNT_STATE_UNBOUND));
    (ACCOUNT_MANUAL_LOGOUT_EVT,
      Some (LogoutAction (subspace_state ACCOUNT_STATE_UNBOUND ACCOUNT_STATE_NOTLOGIN)));
    (ACCOUNT_MANUAL_UNBOUND_EVT, Some (UnboundAction ACCOUNT_STATE_UNBOUND));
    (ACCOUNT_MANUAL_LOGOFF_EVT,
      Some (LogoffAction (subspace_state ACCOUNT_STATE_UNBOUND ACCOUNT_STATE_LOGOFF)))].

(** The row shared by the states outside login and unbound.
    [OnInitialize], account_state_machine.cpp:80-106 *)
Definition expired_row : gmap Z (option AccountStateAction) :=
  list_to_map [
    (ACCOUNT_BIND_SUCCESS_EVT, Some (LoginAction ACCOUNT_STATE_LOGIN));
    (ACCOUNT_MANUAL_LOGOUT_EVT,
      Some (LogoutAction (subspace_state ACCOUNT_STATE_UNBOUND ACCOUNT_STATE_NOTLOGIN)));
    (ACCOUNT_TOKEN_EXPIRED_EVT, Some (LogoutAction ACCOUNT_STATE_TOKEN_EXPIRED));
    (ACCOUNT_MANUAL_LOGOFF_EVT,
      Some (LogoffAction (subspace_state ACCOUNT_STATE_UNBOUND ACCOUNT_STATE_LOGOFF)))].

(** [OnInitialize], account_state_machine.cpp *)
Definition OnInitialize : StateTable :=
  list_to_map (
    [(ACCOUNT_STATE_UNBOUND, unbound_row); (ACCOUNT_STATE_LOGIN, login_row)] ++
    if ENABLE_MULTIPLE_OS_ACCOUNT_SUBSPACE
    then [(ACCOUNT_STATE_NOTLOGIN, expired_row);
          (ACCOUNT_STATE_TOKEN_EXPIRED, expired_row);
          (ACCOUNT_STATE_LOGOFF, expired_row)]
    else [(ACCOUNT_STATE_TOKEN_EXPIRED, expired_row)]).

(** [AccountStateMachine], account_state_machine.h *)
Definition new_AccountStateMachine : AccountStateMachine :=
  mkAccountStateMachine ACCOUNT_STATE_UNBOUND OnInitialize.
(** The states a machine can be in: all but "not logged in" and "logged off" in
    the plain build. *)
Definition live_states : list Z :=
  [ACCOUNT_STATE_UNBOUND; ACCOUNT_STATE_LOGIN; ACCOUNT_STATE_TOKEN_EXPIRED] ++
  if ENABLE_MULTIPLE_OS_ACCOUNT_SUBSPACE
  then [ACCOUNT_STATE_NOTLOGIN; ACCOUNT_STATE_LOGOFF] else [].
End operations.

(** [GetAccountState], account_state_machine.h *)
Definition GetAccountState (sm : AccountStateMachine) : Z := currentState_ sm.

(** [SetAccountState], account_state_machine.h *)
Definition SetAccountState (s : Z) (sm : AccountStateMachine) : AccountStateMachine :=
  mkAccountStateMachine s (stateMachineMap_ sm).

(** The inner loop of [Clean]. [AccountStateMachine::Clean], account_state_machine.cpp:115-122 *)
Definition clear_row (row : gmap Z (option AccountStateAction)) : gmap Z (option AccountStateAction) :=
  (λ _ : option AccountStateAction, None : option AccountStateAction) <$> row.

(** Every action is deleted and its pointer set to null.
    [AccountStateMachine::Clean], account_state_machine.cpp *)
Definition Clean (sm : AccountStateMachine) : AccountStateMachine :=
  mkAccountStateMachine (currentState_ sm) (clear_row <$> stateMachineMap_ sm).

(** [AccountStateMachine::StateChangeProcess], account_state_machine.cpp *)
Definition StateChangeProcess (evt : Z) (sm : AccountStateMachine) : bool * AccountStateMachine :=
  match stateMachineMap_ sm !! currentState_ sm with
  | None => (false, sm)
  | Some row =>
      match row !! evt with
      | None => (false, sm)
      | Some None => (true, sm)
      | Some (Some action) =>
          let nextState := GetNextState action in
          if currentState_ sm =? nextState then (true, sm)
          else (true, mkAccountStateMachine nextState (stateMachineMap_ sm))
      end
  end.

(** One event, whatever it is, and the states it can lead to. *)
Inductive sm_step : relation AccountStateMachine :=
  | SmEvent evt ok sm sm' : StateChangeProcess evt sm = (ok, sm') → sm_step sm sm'.

(** ** Lemmas *)

(** The state after an event, and whether the event is in the table. *)
Definition next_state (t : StateTable) (s evt : Z) : option Z :=
  row ← t !! s; act ← row !! evt; Some (from_option GetNextState s act).

Lemma StateChangeProcess_next evt s t :
  StateChangeProcess evt (mkAccountStateMachine s t) =
  match next_state t s evt with
  | None => (false, mkAccountStateMachine s t)
  | Some s' => (true, mkAccountStateMachine s' t)
  end.
Proof.
  unfold StateChangeProcess, next_state; simpl.
  destruct (t !! s) as [row|]; simpl; [|done].
  destruct (row !! evt) as [[a|]|]; simpl; [|done..].
  by case (Z.eqb_spec s (GetNextState a)) as [<-|].
Qed.

(** A property of all transitions of a table is decided by evaluation. *)
Lemma next_state_Forall (P : Z → Z → Z → Prop) (t : StateTable) :
  Forall (λ r, Forall (λ e, P r.1 e.1 (from_option GetNextState r.1 e.2)) (map_to_list r.2))
    (map_to_list t) →
  ∀ s evt s', next_state t s evt = Some s' → P s evt s'.
Proof.
  rewrite Forall_forall. intros Ht s evt s' Hs. unfold next_state in Hs.
  destruct (t !! s) as [row|] eqn:Hrow; simplify_eq/=.
  destruct (row !! evt) as [act|] eqn:Hact; simplify_eq/=.
  apply elem_of_map_to_list in Hrow, Hact. specialize (Ht _ Hrow). simpl in Ht.
  rewrite Forall_forall in Ht. exact (Ht _ Hact).
Qed.

(** Case analysis over the build, then evaluation of the table. *)
Ltac by_state_table :=
  match goal with c : Config |- _ => destruct c as [? [] ? ?] end;
  apply (bool_decide_unpack _); vm_compute; exact I.

Section claims.
Context `{cfg : Config}.

Lemma sm_step_next sm sm' :
  sm_step sm sm' →
  sm' = sm ∨ ∃ evt s', next_state (stateMachineMap_ sm) (currentState_ sm) evt = Some s'
                       ∧ sm' = mkAccountStateMachine s' (stateMachineMap_ sm).
Proof.
  intros [evt ok [s t] sm2 Hp]. rewrite StateChangeProcess_next in Hp.
  destruct (next_state t s evt) as [s'|] eqn:E; simplify_eq; [right|by left]; eauto.
Qed.

Definition sm_inv (sm : AccountStateMachine) : Prop :=
  stateMachineMap_ sm = OnInitialize ∧ currentState_ sm ∈ live_states.

Lemma sm_inv_init : sm_inv new_AccountStateMachine.
Proof. split; [done|]. unfold live_states; simpl. set_solver. Qed.

Lemma next_state_live s evt s' :
  next_state OnInitialize s evt = Some s' → s' ∈ live_states.
Proof.
  apply (next_state_Forall (λ _ _ s', s' ∈ live_states)). by_state_table.
Qed.

Lemma sm_inv_step sm sm' : sm_inv sm → sm_step sm sm' → sm_inv sm'.
Proof.
  intros [Ht Hs] [->|(evt & s' & Hn & ->)]%sm_step_next; [done|].
  rewrite Ht in Hn |- *. split; [done|]. by eapply next_state_live.
Qed.

Lemma sm_inv_reachable sm : rtc sm_step new_AccountStateMachine sm → sm_inv sm.
Proof.
  apply (rtc_ind_r sm_inv); [apply sm_inv_init|]. eauto using sm_inv_step.
Qed.

(** Whatever events a fresh machine receives, it is in one of the states of
    its table, the invalid state is never entered, and no sequence of events gets
    it stuck: a successful bind is accepted and leads to the login state. *)
Theorem sm_reachable_live (sm : AccountStateMachine) :
  rtc sm_step new_AccountStateMachine sm →
  GetAccountState sm ∈ live_states
  ∧ ∃ sm', StateChangeProcess ACCOUNT_BIND_SUCCESS_EVT sm = (true, sm')
           ∧ GetAccountState sm' = ACCOUNT_STATE_LOGIN.
Proof.
  intros [Ht Hs]%sm_inv_reachable. split; [done|]. destruct sm as [s t]; simplify_eq/=.
  assert (Hb : Forall (λ s, next_state OnInitialize s ACCOUNT_BIND_SUCCESS_EVT
                            = Some ACCOUNT_STATE_LOGIN) live_states) by by_state_table.
  rewrite Forall_forall in Hb. specialize (Hb _ Hs).
  rewrite StateChangeProcess_next, Hb. by eexists.
Qed.

(** Only a successful bind, or a successful authentication of an unbound
    account, brings a machine into the login state; leaving it takes an expired
    token, a changed password, or a manual logout, unbind or logoff. *)
Theorem sm_login_transitions (evt : Z) (ok : bool) (sm sm' : AccountStateMachine) :
  rtc sm_step new_AccountStateMachine sm →
  StateChangeProcess evt sm = (ok, sm') →
  (GetAccountState sm ≠ ACCOUNT_STATE_LOGIN → GetAccountState sm' = ACCOUNT_STATE_LOGIN →
     evt = ACCOUNT_BIND_SUCCESS_EVT
     ∨ evt = ACCOUNT_AUTHENTICATE_SUCCESS_EVT ∧ GetAccountState sm = ACCOUNT_STATE_UNBOUND)
  ∧ (GetAccountState sm = ACCOUNT_STATE_LOGIN → GetAccountState sm' ≠ ACCOUNT_STATE_LOGIN →
     evt ∈ [ACCOUNT_TOKEN_EXPIRED_EVT; ACCOUNT_PASSWORD_CHANGED_EVT; ACCOUNT_MANUAL_LOGOUT_EVT;
            ACCOUNT_MANUAL_UNBOUND_EVT; ACCOUNT_MANUAL_LOGOFF_EVT]).
Proof.
  intros [Ht _]%sm_inv_reachable Hp. destruct sm as [s t]; simplify_eq/=.
  rewrite StateChangeProcess_next in Hp.
  destruct (next_state OnInitialize s evt) as [s'|] eqn:E; simplify_eq/=; [|done].
  revert s evt s' E. apply next_state_Forall. by_state_table.
Qed.

(** An event that is not in the table of the current state is answered with
    failure and changes nothing, and after [Clean] no event changes the state
    any more. *)
Theorem sm_rejected_or_cleaned (evt : Z) (sm : AccountStateMachine) :
  (StateChangeProcess evt sm).1 = false ∨ (∃ sm0, sm = Clean sm0) →
  (StateChangeProcess evt sm).2 = sm.
Proof.
  destruct sm as [s t]. rewrite StateChangeProcess_next. intros [Hf|[[s0 t0] [= -> ->]]].
  - by destruct (next_state t s evt).
  - unfold next_state. rewrite lookup_fmap.
    destruct (t0 !! s0) as [row|]; simpl; [|done].
    unfold clear_row. rewrite lookup_fmap. by destruct (row !! evt).
Qed.
End claims.

(** ** Witnesses *)

Definition plain_build : Config := Build_Config false false false false.

(** A login followed by an expired token, in the plain build. *)
Definition logged_in : AccountStateMachine :=
  (StateChangeProcess ACCOUNT_BIND_SUCCESS_EVT (@new_AccountStateMachine plain_build)).2.

Lemma logged_in_reachable : rtc sm_step (@new_AccountStateMachine plain_build) logged_in.
Proof. apply rtc_once, (SmEvent ACCOUNT_BIND_SUCCESS_EVT true). reflexivity. Qed.

Lemma sm_reachable_live_witness :
  ∃ sm', StateChangeProcess ACCOUNT_BIND_SUCCESS_EVT logged_in = (true, sm').
Proof.
  destruct (@sm_reachable_live plain_build logged_in logged_in_reachable) as (_ & sm' & H & _).
  by exists sm'.
Defined.

Lemma sm_login_transitions_witness :
  GetAccountState (StateChangeProcess ACCOUNT_TOKEN_EXPIRED_EVT logged_in).2
    = ACCOUNT_STATE_TOKEN_EXPIRED
  ∧ ACCOUNT_TOKEN_EXPIRED_EVT
      ∈ [ACCOUNT_TOKEN_EXPIRED_EVT; ACCOUNT_PASSWORD_CHANGED_EVT; ACCOUNT_MANUAL_LOGOUT_EVT;
         ACCOUNT_MANUAL_UNBOUND_EVT; ACCOUNT_MANUAL_LOGOFF_EVT].
Proof.
  split; [by vm_compute|].
  apply (@sm_login_transitions plain_build ACCOUNT_TOKEN_EXPIRED_EVT true logged_in
    (StateChangeProcess ACCOUNT_TOKEN_EXPIRED_EVT logged_in).2 logged_in_reachable);
    by vm_compute.
Defined.

Lemma sm_rejected_or_cleaned_witness :
  StateChangeProcess ACCOUNT_DISTRIBUTED_SPACE_CREATE_EVT logged_in = (false, logged_in).
Proof.
  assert (H : (StateChangeProcess ACCOUNT_DISTRIBUTED_SPACE_CREATE_EVT logged_in).1 = false)
    by (by vm_compute).
  pose proof (sm_rejected_or_cleaned _ _ (or_introl H)) as H2.
  by rewrite (surjective_pairing (StateChangeProcess _ logged_in)), H, H2.
Defined.
