(* ===== verification/Json.v ===== *)
(** JSON documents: the tree of the cJSON library, the library's functions as an
    interface, and the wrappers of frameworks/common/json_utils.

    cJSON itself is third-party code.  Its functions are the fields of the class
    [CJsonLib]; the classes [CJsonLaws] and [CJsonAlloc] hold what its
    documentation promises of them, and [TreeLib] is a concrete instance the
    witnesses run on.  A null pointer is [None]; a function that changes a
    document returns the new document, or [None] when it reports a failure, and
    then the document is as before.  A failed allocation is a failure of the
    call, as a function of its arguments. *)
From Stdlib Require Import ZArith Lia Ascii String SpecFloat.
From stdpp Require Import base list gmap sets strings pretty sorting countable.
From S2P Require Import Prelude.

(** ** Floating-point numbers *)

(** [double]: IEEE 754 binary64. *)
Abbreviation double := spec_float.

#[export] Instance double_eq_dec : EqDecision double.
Proof. solve_decision. Defined.

(** The conversion of an integer to [double], to nearest. *)
Definition double_of_Z (z : Z) : double := binary_normalize 53 1024 z 0 false.

(** The integer part, which a conversion to an integer type keeps. *)
Definition double_trunc (d : double) : option Z :=
  match d with
  | S754_zero _ => Some 0
  | S754_finite s m e =>
      let a := if 0 <=? e then Z.pos m * 2 ^ e else Z.pos m / 2 ^ (- e) in
      Some (if s then - a else a)
  | S754_infinity _ | S754_nan => None
  end.

Definition INT64_MIN : Z := -9223372036854775808.
Definition INT64_MAX : Z := 9223372036854775807.
Definition UINT64_MAX : Z := 18446744073709551615.

(** What the machine gives for a conversion the language leaves undefined. *)
Class Target := {
  undefined_to_int : Z → Z → double → Z;
  undefined_to_int_range : ∀ lo hi d, lo ≤ hi → lo ≤ undefined_to_int lo hi d ≤ hi;
}.

(** [static_cast] of a [double] to the integer type with bounds [lo], [hi]. *)
Definition double_to_int `{Target} (lo hi : Z) (d : double) : Z :=
  match double_trunc d with
  | Some z => if (lo <=? z) && (z <=? hi) then z else undefined_to_int lo hi d
  | None => undefined_to_int lo hi d
  end.

Lemma double_to_int_range `{Target} lo hi d : lo ≤ hi → lo ≤ double_to_int lo hi d ≤ hi.
Proof.
  intros Hl. unfold double_to_int. pose proof (undefined_to_int_range lo hi d Hl).
  destruct (double_trunc d) as [z|]; [|done].
  destruct (Z.leb_spec lo z), (Z.leb_spec z hi); simpl; lia.
Qed.

(** ** Documents *)

(** The [cJSON] struct: the item's type, its payload, and for an array or an
    object the chain of its children, which an object names. *)
Inductive CJson : Type :=
  | JNull
  | JBool (b : bool)
  | JNumber (d : double)
  | JString (s : string)
  | JArray (l : list CJson)
  | JObject (l : list (string * CJson)).

Section CJson_rect.
Context (P : CJson → Prop).
Context (Hnull : P JNull) (Hbool : ∀ b, P (JBool b)) (Hnum : ∀ d, P (JNumber d)).
Context (Hstr : ∀ s, P (JString s)).
Context (Harr : ∀ l, Forall P l → P (JArray l)).
Context (Hobj : ∀ l, Forall (λ kv, P kv.2) l → P (JObject l)).

Fixpoint CJson_ind' (j : CJson) : P j :=
  match j with
  | JNull => Hnull
  | JBool b => Hbool b
  | JNumber d => Hnum d
  | JString s => Hstr s
  | JArray l =>
      Harr l ((fix go (l : list CJson) : Forall P l :=
        match l with
        | [] => Forall_nil_2 P
        | x :: l' => Forall_cons_2 P x l' (CJson_ind' x) (go l')
        end) l)
  | JObject l =>
      Hobj l ((fix go (l : list (string * CJson)) : Forall (λ kv, P kv.2) l :=
        match l with
        | [] => Forall_nil_2 _
        | kv :: l' => Forall_cons_2 (λ kv, P kv.2) kv l' (CJson_ind' kv.2) (go l')
        end) l)
  end.
End CJson_rect.

(** Named children: the first with a name is the one the library finds. *)
Fixpoint obj_find {A} (k : string) (l : list (string * A)) : option A :=
  match l with
  | [] => None
  | (k', v) :: l' => if decide (k = k') then Some v else obj_find k l'
  end.

Fixpoint obj_replace {A} (k : string) (v : A) (l : list (string * A)) : list (string * A) :=
  match l with
  | [] => []
  | (k', v') :: l' => if decide (k = k') then (k, v) :: l' else (k', v') :: obj_replace k v l'
  end.

Fixpoint obj_delete {A} (k : string) (l : list (string * A)) : list (string * A) :=
  match l with
  | [] => []
  | (k', v') :: l' => if decide (k = k') then l' else (k', v') :: obj_delete k l'
  end.

(** Adds a name, or replaces what it names. *)
Definition obj_set {A} (k : string) (v : A) (l : list (string * A)) : list (string * A) :=
  match obj_find k l with
  | Some _ => obj_replace k v l
  | None => l ++ [(k, v)]
  end.

(** [CJSON_NESTING_LIMIT]: the deepest document the parser accepts. *)
Definition CJSON_NESTING_LIMIT : nat := 1000.

Fixpoint json_depth (j : CJson) : nat :=
  match j with
  | JArray l => S (foldr (λ x n, Nat.max (json_depth x) n) 0%nat l)
  | JObject l => S (foldr (λ kv n, Nat.max (json_depth kv.2) n) 0%nat l)
  | _ => 0%nat
  end.

(** An integer every [double] operation of the library keeps exact. *)
Definition double_exact (d : double) : bool :=
  match double_trunc d with
  | Some z => (Z.abs z <? 2 ^ 53) && bool_decide (double_of_Z z = d)
  | None => false
  end.

(** The leaves of a document print and read back as they are. *)
Fixpoint json_plain (j : CJson) : bool :=
  match j with
  | JNull | JBool _ => true
  | JNumber d => double_exact d
  | JString s => bool_decide (nul_free s)
  | JArray l => forallb json_plain l
  | JObject l => forallb (λ kv, bool_decide (nul_free kv.1) && json_plain kv.2) l
  end.

Definition json_ok (j : CJson) : bool :=
  json_plain j && (json_depth j <? CJSON_NESTING_LIMIT)%nat.

(** ** The library *)

Class CJsonLib := {
  cJSON_Parse : string → option CJson;
  cJSON_PrintUnformatted : CJson → option string;
  cJSON_CreateNull : option CJson;
  cJSON_CreateObject : option CJson;
  cJSON_CreateArray : option CJson;
  cJSON_CreateString : string → option CJson;
  cJSON_CreateBool : bool → option CJson;
  cJSON_CreateNumber : double → option CJson;
  cJSON_Duplicate : CJson → option CJson;
  cJSON_GetObjectItemCaseSensitive : CJson → string → option CJson;
  cJSON_GetArraySize : option CJson → Z;
  cJSON_GetArrayItem : option CJson → Z → option CJson;
  cJSON_AddItemToArray : CJson → CJson → option CJson;
  cJSON_AddItemToObject : CJson → string → CJson → option CJson;
  cJSON_ReplaceItemInObjectCaseSensitive : CJson → string → CJson → option CJson;
  cJSON_DeleteItemFromObjectCaseSensitive : CJson → string → CJson;
  cJSON_AddStringToObject : CJson → string → string → option CJson;
  cJSON_AddBoolToObject : CJson → string → bool → option CJson;
  cJSON_AddNumberToObject : CJson → string → double → option CJson;
}.

(** What the calls do when they succeed. *)
Class CJsonLaws `{CJsonLib} : Prop := {
  create_null v : cJSON_CreateNull = Some v → v = JNull;
  create_object v : cJSON_CreateObject = Some v → v = JObject [];
  create_array v : cJSON_CreateArray = Some v → v = JArray [];
  create_string s v : cJSON_CreateString s = Some v → v = JString s;
  create_bool b v : cJSON_CreateBool b = Some v → v = JBool b;
  create_number d v : cJSON_CreateNumber d = Some v → v = JNumber d;
  duplicate j v : cJSON_Duplicate j = Some v → v = j;
  get_object_item l k : cJSON_GetObjectItemCaseSensitive (JObject l) k = obj_find k l;
  get_item_other j k : (∀ l, j ≠ JObject l) → cJSON_GetObjectItemCaseSensitive j k = None;
  array_size_array l : cJSON_GetArraySize (Some (JArray l)) = Z.of_nat (length l);
  array_size_object l : cJSON_GetArraySize (Some (JObject l)) = Z.of_nat (length l);
  array_size_null : cJSON_GetArraySize None = 0;
  array_item l i : 0 ≤ i → cJSON_GetArrayItem (Some (JArray l)) i = l !! Z.to_nat i;
  add_to_array l v j' : cJSON_AddItemToArray (JArray l) v = Some j' → j' = JArray (l ++ [v]);
  add_to_object l k v j' :
    cJSON_AddItemToObject (JObject l) k v = Some j' → j' = JObject (l ++ [(k, v)]);
  replace_in_object l k v j' :
    cJSON_ReplaceItemInObjectCaseSensitive (JObject l) k v = Some j' → j' = JObject (obj_replace k v l);
  delete_from_object l k :
    cJSON_DeleteItemFromObjectCaseSensitive (JObject l) k = JObject (obj_delete k l);
  add_string_to_object l k s j' :
    cJSON_AddStringToObject (JObject l) k s = Some j' → j' = JObject (l ++ [(k, JString s)]);
  add_bool_to_object l k b j' :
    cJSON_AddBoolToObject (JObject l) k b = Some j' → j' = JObject (l ++ [(k, JBool b)]);
  add_number_to_object l k d j' :
    cJSON_AddNumberToObject (JObject l) k d = Some j' → j' = JObject (l ++ [(k, JNumber d)]);
  parse_print j s :
    json_ok j = true → cJSON_PrintUnformatted j = Some s → cJSON_Parse s = Some j;
  print_text j s : cJSON_PrintUnformatted j = Some s → s ≠ "" ∧ nul_free s;
}.

(** The calls succeed when memory is available. *)
Class CJsonAlloc `{CJsonLib} : Prop := {
  alloc_null : is_Some cJSON_CreateNull;
  alloc_object : is_Some cJSON_CreateObject;
  alloc_array : is_Some cJSON_CreateArray;
  alloc_string s : is_Some (cJSON_CreateString s);
  alloc_bool b : is_Some (cJSON_CreateBool b);
  alloc_number d : is_Some (cJSON_CreateNumber d);
  alloc_duplicate j : is_Some (cJSON_Duplicate j);
  alloc_add_array l v : is_Some (cJSON_AddItemToArray (JArray l) v);
  alloc_add_object l k v : is_Some (cJSON_AddItemToObject (JObject l) k v);
  alloc_replace l k v :
    is_Some (obj_find k l) → is_Some (cJSON_ReplaceItemInObjectCaseSensitive (JObject l) k v);
  alloc_add_string l k s : is_Some (cJSON_AddStringToObject (JObject l) k s);
  alloc_add_bool l k b : is_Some (cJSON_AddBoolToObject (JObject l) k b);
  alloc_add_number l k d : is_Some (cJSON_AddNumberToObject (JObject l) k d);
  alloc_print j : is_Some (cJSON_PrintUnformatted j);
}.

(** ** The wrappers of json_utils *)

(** *** C numeric text *)

(** [isspace] in the C locale. *)
Definition is_space (a : ascii) : bool :=
  let n := Ascii.nat_of_ascii a in ((9 <=? n) && (n <=? 13) || (n =? 32))%nat.

Fixpoint skip_space (s : string) : string :=
  match s with
  | EmptyString => EmptyString
  | String a s' => if is_space a then skip_space s' else s
  end.

(** The longest run of decimal digits, read on top of [acc], and what follows. *)
Fixpoint scan_digits (acc : Z) (s : string) : Z * string :=
  match s with
  | EmptyString => (acc, EmptyString)
  | String a s' =>
      if is_digit a then scan_digits (acc * 10 + digit_value a) s' else (acc, s)
  end.

(** The subject sequence of [strtol] and its kin in base 10: a sign and digits.
    [None] when there is none, and then [*endptr] is the start. *)
Definition strto_scan (s : string) : option (bool * Z * string) :=
  let '(neg, s1) :=
    match skip_space s with
    | String a s' =>
        if Ascii.eqb a "-"%char then (true, s')
        else if Ascii.eqb a "+"%char then (false, s') else (false, String a s')
    | EmptyString => (false, EmptyString)
    end in
  match s1 with
  | String a _ =>
      if is_digit a then let '(v, rest) := scan_digits 0 s1 in Some (neg, v, rest) else None
  | EmptyString => None
  end.

(** [strtol] with [errno] and [*endptr] tested as the wrappers do: the whole text
    is a number and it is in the range of the (64-bit) type. *)
Definition strtol_whole (s : string) : option Z :=
  match strto_scan s with
  | Some (neg, v, EmptyString) =>
      let z := if neg : bool then - v else v in
      if (INT64_MIN <=? z) && (z <=? INT64_MAX) then Some z else None
  | _ => None
  end.

(** [strtoull]: the number, and whether [errno] and [*endptr] say that the whole text is
    one.  A minus sign negates in the unsigned type; only a magnitude out of range sets
    [ERANGE]; without digits the number is 0. *)
Definition strtoull (s : string) : Z * bool :=
  match strto_scan s with
  | Some (neg, v, rest) =>
      if v <=? UINT64_MAX
      then (if neg : bool then (- v) `mod` (UINT64_MAX + 1) else v, string_empty rest) else (UINT64_MAX, false)
  | None => (0, false)
  end.

Section Wrappers.
Context {cjson : CJsonLib} {target : Target}.

(** [IsKeyExist], json_utils.cpp *)
Definition IsKeyExist (jsonObj : option CJson) (key : string) : bool :=
  match jsonObj with
  | None => false
  | Some j =>
      if string_empty key then false
      else bool_decide (is_Some (cJSON_GetObjectItemCaseSensitive j (c_str key)))
  end.

(** [IsArray], json_utils.cpp *)
Definition IsArray (item : option CJson) : bool :=
  match item with Some (JArray _) => true | _ => false end.
(** [IsBool], json_utils.cpp *)
Definition IsBool (item : option CJson) : bool :=
  match item with Some (JBool _) => true | _ => false end.
(** [IsNumber], json_utils.cpp *)
Definition IsNumber (item : option CJson) : bool :=
  match item with Some (JNumber _) => true | _ => false end.
(** [IsString], json_utils.cpp *)
Definition IsString (item : option CJson) : bool :=
  match item with Some (JString _) => true | _ => false end.
(** [IsObject], json_utils.cpp *)
Definition IsObject (item : option CJson) : bool :=
  match item with Some (JObject _) => true | _ => false end.
(** [IsStructured], json_utils.cpp *)
Definition IsStructured (jsonObj : option CJson) : bool := IsObject jsonObj.

(** [CreateJsonFromString], json_utils.cpp *)
Definition CreateJsonFromString (jsonStr : string) : option CJson :=
  if string_empty jsonStr then None else cJSON_Parse (c_str jsonStr).
(** [CreateJsonNull], json_utils.cpp *)
Definition CreateJsonNull : option CJson := cJSON_CreateNull.
(** [CreateJson], json_utils.cpp *)
Definition CreateJson : option CJson := cJSON_CreateObject.
(** [CreateJsonArray], json_utils.cpp *)
Definition CreateJsonArray : option CJson := cJSON_CreateArray.
(** [CreateJsonString], json_utils.cpp *)
Definition CreateJsonString (s : string) : option CJson := cJSON_CreateString (c_str s).

(** The number of items deleted, and the document.

    [DeleteItemFromJson], json_utils.cpp *)
Definition DeleteItemFromJson (jsonObj : option CJson) (key : string) : Z * option CJson :=
  if IsKeyExist jsonObj key then
    (1, (λ j, cJSON_DeleteItemFromObjectCaseSensitive j (c_str key)) <$> jsonObj)
  else (0, jsonObj).

(** [PackJsonToString], json_utils.cpp *)
Definition PackJsonToString (jsonObj : option CJson) : string :=
  match jsonObj ≫= cJSON_PrintUnformatted with
  | Some buf => c_str buf
  | None => EmptyString
  end.

(** [GetItemNum], json_utils.cpp *)
Definition GetItemNum (jsonObj : option CJson) : Z := i32 (cJSON_GetArraySize jsonObj).

(** The child with a name, when the wrapper looks for it at all. *)
Definition find_item (jsonObj : option CJson) (key : string) : option CJson :=
  match jsonObj with
  | Some j => if string_empty key then None else cJSON_GetObjectItemCaseSensitive j (c_str key)
  | None => None
  end.

(** The pointer is filled in whatever the type of the child is.

    [GetObjFromJson]#2, json_utils.cpp *)
Definition GetObjFromJson (jsonObj : option CJson) (key : string) : option CJson :=
  find_item jsonObj key.

(** [GetItemFromArray], json_utils.cpp *)
Definition GetItemFromArray (jsonArr : option CJson) (index : Z) : option CJson :=
  cJSON_GetArrayItem jsonArr index.

(** [GetItemFromJson], json_utils.cpp *)
Definition GetItemFromJson (object : option CJson) (key : string) : option CJson :=
  if IsKeyExist object key then find_item object key else None.

(** The value and whether there is one; the out-parameter keeps [None].

    [GetStringFromJson], json_utils.cpp *)
Definition GetStringFromJson (jsonObj : option CJson) (key : string) : option string :=
  match find_item jsonObj key with Some (JString s) => Some s | _ => None end.

(** [GetStringFromJson]#2, json_utils.cpp *)
Definition GetStringFromJson_value (jsonObj : option CJson) (key : string) : string :=
  default EmptyString (GetStringFromJson jsonObj key).

(** An item that cannot be added is left out.

    [CreateJsonFromMap], json_utils.cpp *)
Definition CreateJsonFromMap (mapData : gmap string string) : option CJson :=
  match cJSON_CreateObject with
  | None => None
  | Some jsonObj =>
      Some (foldl (λ j kv, default j (cJSON_AddStringToObject j (c_str kv.1) (c_str kv.2)))
                  jsonObj (map_list mapData))
  end.

(** [PackJsonToMap], json_utils.cpp *)
Definition PackJsonToMap (jsonObj : option CJson) : gmap string string :=
  match jsonObj with
  | Some (JObject l) =>
      foldl (λ m kv, match kv.2 with JString v => <[kv.1 := v]> m | _ => m end) ∅ l
  | _ => ∅
  end.

(** [PackJsonToMapUint64Int32], json_utils.cpp *)
Definition PackJsonToMapUint64Int32 (jsonObj : option CJson) : gmap Z Z :=
  match jsonObj with
  | Some (JObject l) =>
      foldl (λ m kv,
        match kv.2 with
        | JNumber d =>
            match strto_scan kv.1 with
            | Some (neg, v, EmptyString) =>
                let key := if v <=? UINT64_MAX
                           then (if neg : bool then (- v) `mod` (UINT64_MAX + 1) else v)
                           else UINT64_MAX in
                if SFltb d (double_of_Z INT32_MIN) || SFltb (double_of_Z INT32_MAX) d then m
                else <[key := double_to_int INT32_MIN INT32_MAX d]> m
            | _ => m
            end
        | _ => m
        end) ∅ l
  | _ => ∅
  end.

(** [for (i = 0; i < cJSON_GetArraySize(array); i++)] over the items found. *)
Definition array_items (array : option CJson) : list CJson :=
  omap (λ i, cJSON_GetArrayItem array (Z.of_nat i))
       (seq 0 (Z.to_nat (i32 (cJSON_GetArraySize array)))).

(** [GetVectorStringFromJson], json_utils.cpp *)
Definition GetVectorStringFromJson (jsonObj : option CJson) (key : string) (value : list string)
  : option (list string) :=
  if IsKeyExist jsonObj key then
    let array := find_item jsonObj key in
    if IsArray array then
      Some (value ++ omap (λ item, match item with JString s => Some s | _ => None end) (array_items array))
    else None
  else None.

(** [GetVectorUint8FromJson], json_utils.cpp *)
Definition GetVectorUint8FromJson (jsonObj : option CJson) (key : string) : list Z :=
  if IsKeyExist jsonObj key then
    let array := find_item jsonObj key in
    if IsArray array then
      omap (λ item, match item with
                    | JNumber d => Some (double_to_int INT32_MIN INT32_MAX d `mod` 256)
                    | _ => None end) (array_items array)
    else []
  else [].

(** Adds the child under the name or replaces the one there. *)
Definition add_or_replace (j : CJson) (key : string) (item : CJson) : option CJson :=
  match cJSON_GetObjectItemCaseSensitive j (c_str key) with
  | None => cJSON_AddItemToObject j (c_str key) item
  | Some _ => cJSON_ReplaceItemInObjectCaseSensitive j (c_str key) item
  end.

(** [AddSetStringToJson], json_utils.cpp *)
Definition AddSetStringToJson (jsonObj : option CJson) (key : string) (setData : gset string)
  : option CJson :=
  match jsonObj with
  | None => None
  | Some j =>
      if string_empty key then None else
      array ← foldl (λ array item,
                 array ← array; itemJson ← cJSON_CreateString (c_str item);
                 cJSON_AddItemToArray array itemJson)
               cJSON_CreateArray (set_list setData);
      add_or_replace j key array
  end.

(** The strings are inserted into the caller's set.

    [GetSetStringFromJson], json_utils.cpp *)
Definition GetSetStringFromJson (jsonObj : option CJson) (key : string) (setData : gset string)
  : option (gset string) :=
  let arrayItem := find_item jsonObj key in
  if IsArray arrayItem then
    Some (foldl (λ s item, match item with JString v => {[ v ]} ∪ s | _ => s end)
                setData (array_items arrayItem))
  else None.

(** [AddStringToArray], json_utils.cpp *)
Definition AddStringToArray (jsonArr : option CJson) (s : string) : option CJson :=
  match jsonArr with
  | Some (JArray l) => strObj ← cJSON_CreateString s; cJSON_AddItemToArray (JArray l) strObj
  | _ => None
  end.

(** The result of adding one string is not looked at.

    [AddVectorStringToJson], json_utils.cpp *)
Definition AddVectorStringToJson (jsonObj : option CJson) (key : string) (vec : list string)
  : option CJson :=
  match jsonObj with
  | None => None
  | Some j =>
      if string_empty key then None else
      array ← cJSON_CreateArray;
      add_or_replace j key
        (foldl (λ array str, default array (AddStringToArray (Some array) (c_str str))) array vec)
  end.

(** [GetVectorIntFromJson]#2, json_utils.cpp *)
Definition GetVectorIntFromJson (jsonObj : option CJson) (key : string) : option (list Z) :=
  let array := find_item jsonObj key in
  if IsArray array then
    Some (omap (λ item, match item with
                        | JNumber d => Some (double_to_int INT32_MIN INT32_MAX d)
                        | _ => None end) (array_items array))
  else None.

(** [cJSON_AddItemToArray(array, cJSON_CreateNumber(v))], its result not looked
    at: a number that cannot be created is not added. *)
Definition add_number_item (array : CJson) (v : Z) : CJson :=
  default array (item ← cJSON_CreateNumber (double_of_Z v); cJSON_AddItemToArray array item).

(** [AddVectorIntToJson], json_utils.cpp *)
Definition AddVectorIntToJson (jsonObj : option CJson) (key : string) (vec : list Z) : option CJson :=
  match jsonObj with
  | None => None
  | Some j =>
      if string_empty key then None else
      array ← cJSON_CreateArray;
      add_or_replace j key (foldl add_number_item array vec)
  end.

(** [AddVectorUint8ToJson], json_utils.cpp *)
Definition AddVectorUint8ToJson (jsonObj : option CJson) (key : string) (arr : list Z) : option CJson :=
  match jsonObj with
  | None => None
  | Some j =>
      if string_empty key then None else
      array ← cJSON_CreateArray;
      add_or_replace j key (foldl add_number_item array arr)
  end.

(** [GetIntFromJson], json_utils.cpp *)
Definition GetIntFromJson (jsonObj : option CJson) (key : string) : option Z :=
  match find_item jsonObj key with
  | Some (JNumber d) => Some (double_to_int INT32_MIN INT32_MAX d)
  | Some (JString str) =>
      if string_empty str then None else
      longValue ← strtol_whole str;
      if (longValue <? INT32_MIN) || (INT32_MAX <? longValue) then None else Some longValue
  | _ => None
  end.

(** The result and the value, which is also written when the text is not a number.

    [GetUint64FromJson], json_utils.cpp *)
Definition GetUint64FromJson (jsonObj : option CJson) (key : string) (value : Z) : bool * Z :=
  if IsKeyExist jsonObj key then
    match find_item jsonObj key with
    | Some (JString str) =>
        if string_empty str then (false, value)
        else let '(value, whole) := strtoull str in (whole, value)
    | Some (JNumber d) => (true, double_to_int 0 UINT64_MAX d)
    | _ => (false, value)
    end
  else (false, value).

(** [GetInt64FromJson], json_utils.cpp *)
Definition GetInt64FromJson (jsonObj : option CJson) (key : string) : option Z :=
  if IsKeyExist jsonObj key then
    match find_item jsonObj key with
    | Some (JString str) => if string_empty str then None else strtol_whole str
    | Some (JNumber d) => Some (double_to_int INT64_MIN INT64_MAX d)
    | _ => None
    end
  else None.

(** [GetBoolFromJson], json_utils.cpp *)
Definition GetBoolFromJson (jsonObj : option CJson) (key : string) : option bool :=
  match find_item jsonObj key with Some (JBool b) => Some b | _ => None end.

(** [GetBoolFromJson]#3, json_utils.cpp *)
Definition GetBoolFromJson_value (jsonObj : option CJson) (key : string) : bool :=
  default false (GetBoolFromJson jsonObj key).

(** [AddObjToJson], json_utils.cpp *)
Definition AddObjToJson (jsonObj : option CJson) (key : string) (childObj : option CJson)
  : option CJson :=
  match jsonObj, childObj with
  | Some j, Some child =>
      if string_empty key then None else
      tmpObj ← cJSON_Duplicate child; add_or_replace j key tmpObj
  | _, _ => None
  end.

(** [AddObjToArray], json_utils.cpp *)
Definition AddObjToArray (jsonArr item : option CJson) : option CJson :=
  match jsonArr, item with
  | Some (JArray l), Some i => tmpObj ← cJSON_Duplicate i; cJSON_AddItemToArray (JArray l) tmpObj
  | _, _ => None
  end.

(** [AddStringToJson], json_utils.cpp *)
Definition AddStringToJson (jsonObj : option CJson) (key value : string) : option CJson :=
  match jsonObj with
  | None => None
  | Some j =>
      if string_empty key then None else
      match cJSON_GetObjectItemCaseSensitive j (c_str key) with
      | None => cJSON_AddStringToObject j (c_str key) (c_str value)
      | Some _ =>
          tmp ← cJSON_CreateString (c_str value);
          cJSON_ReplaceItemInObjectCaseSensitive j (c_str key) tmp
      end
  end.

(** [AddBoolToJson], json_utils.cpp *)
Definition AddBoolToJson (jsonObj : option CJson) (key : string) (value : bool) : option CJson :=
  match jsonObj with
  | None => None
  | Some j =>
      if string_empty key then None else
      match cJSON_GetObjectItemCaseSensitive j (c_str key) with
      | None => cJSON_AddBoolToObject j (c_str key) value
      | Some _ =>
          tmp ← cJSON_CreateBool value; cJSON_ReplaceItemInObjectCaseSensitive j (c_str key) tmp
      end
  end.

(** [AddDoubleToJson], json_utils.cpp *)
Definition AddDoubleToJson (jsonObj : option CJson) (key : string) (value : double) : option CJson :=
  match jsonObj with
  | None => None
  | Some j =>
      if string_empty key then None else
      match cJSON_GetObjectItemCaseSensitive j (c_str key) with
      | None => cJSON_AddNumberToObject j (c_str key) value
      | Some _ =>
          tmp ← cJSON_CreateNumber value; cJSON_ReplaceItemInObjectCaseSensitive j (c_str key) tmp
      end
  end.

(** The [int] converts to [double] in the calls.

    [AddIntToJson], json_utils.cpp *)
Definition AddIntToJson (jsonObj : option CJson) (key : string) (value : Z) : option CJson :=
  match jsonObj with
  | None => None
  | Some j =>
      if string_empty key then None else
      match cJSON_GetObjectItemCaseSensitive j (c_str key) with
      | None => cJSON_AddNumberToObject j (c_str key) (double_of_Z value)
      | Some _ =>
          tmp ← cJSON_CreateNumber (double_of_Z value);
          cJSON_ReplaceItemInObjectCaseSensitive j (c_str key) tmp
      end
  end.

(** [AddUint64ToJson], json_utils.cpp *)
Definition AddUint64ToJson (jsonObj : option CJson) (key : string) (value : Z) : option CJson :=
  match jsonObj with
  | None => None
  | Some j => if string_empty key then None else AddStringToJson jsonObj key (to_string value)
  end.

(** [AddInt64ToJson], json_utils.cpp *)
Definition AddInt64ToJson (jsonObj : option CJson) (key : string) (value : Z) : option CJson :=
  match jsonObj with
  | None => None
  | Some j => if string_empty key then None else AddStringToJson jsonObj key (to_string value)
  end.

(** [GetJsonNumberValue]#2, json_utils.cpp *)
Definition GetJsonNumberValue (item : option CJson) : double :=
  match item with
  | None => S754_zero false
  | Some (JNumber d) => d
  | Some _ => S754_nan
  end.

(** [GetJsonArrayFromJson], json_utils.cpp *)
Definition GetJsonArrayFromJson (jsonObj : option CJson) (key : string) : option CJson :=
  let item := find_item jsonObj key in if IsArray item then item else None.

(** [GetDataByType] at [uint32_t] and at an enumeration over [int32_t]; the other
    types are the getters above.

    [GetDataByType], json_utils.h:188-194 *)
Definition GetUint32FromJson (jsonObj : option CJson) (key : string) : option Z :=
  u32 <$> GetIntFromJson jsonObj key.
End Wrappers.

(** [success &= f(object)] in sequence: a step that fails leaves the object as it
    is and the following steps are still taken. *)
Definition add_fields (fs : list (option CJson → option CJson)) (s : bool * option CJson)
  : bool * option CJson :=
  foldl (λ s f, match f s.2 with Some j => (s.1, Some j) | None => (false, s.2) end) s fs.

Lemma digits2_pos_iter_xO d m : digits2_pos (Pos.iter xO m d) = (digits2_pos m + d)%positive.
Proof.
  induction d as [|d IH] using Pos.peano_ind; simpl.
  - by rewrite Pos.add_1_r.
  - rewrite Pos.iter_succ; simpl. rewrite IH. by rewrite Pos.add_succ_r.
Qed.

Lemma iter_xO_value d m : Z.pos (Pos.iter xO m d) = Z.pos m * 2 ^ Z.pos d.
Proof.
  induction d as [|d IH] using Pos.peano_ind; [change (2 * Z.pos m = Z.pos m * 2); lia|].
  rewrite Pos.iter_succ, Pos2Z.inj_succ, Z.pow_succ_r by lia.
  rewrite Pos2Z.inj_xO, IH. ring.
Qed.

Lemma digits2_pos_bound m : 2 ^ (Z.pos (digits2_pos m) - 1) ≤ Z.pos m.
Proof.
  induction m as [m IH|m IH|]; simpl; [..|done]; rewrite Pos2Z.inj_succ;
    replace (Z.succ (Z.pos (digits2_pos m)) - 1) with (Z.succ (Z.pos (digits2_pos m) - 1)) by lia;
    rewrite Z.pow_succ_r by lia; lia.
Qed.

Lemma digits2_pos_53 m : Z.pos m < 2 ^ 53 → Z.pos (digits2_pos m) ≤ 53.
Proof.
  intros Hm. pose proof (digits2_pos_bound m) as Hb.
  destruct (Z.le_gt_cases (Z.pos (digits2_pos m)) 53) as [|Hgt]; [done|].
  assert (2 ^ 53 ≤ 2 ^ (Z.pos (digits2_pos m) - 1)) by (apply Z.pow_le_mono_r; lia). lia.
Qed.

Lemma binary_round_aux_exact s m e :
  Z.pos (digits2_pos m) = 53 → -1000 ≤ e ≤ 0 →
  binary_round_aux 53 1024 s (Z.pos m) e loc_Exact = S754_finite s m e.
Proof.
  intros Hd He. pose proof (Pos2Z.is_pos (digits2_pos m)) as Hp.
  assert (Hfe : fexp 53 1024 (Z.pos (digits2_pos m) + e) - e = 0) by (unfold fexp, emin; lia).
  unfold binary_round_aux, shr_fexp. cbn [Zdigits2 shr_record_of_loc].
  rewrite Hfe. cbn. rewrite Hfe. cbn.
  destruct (Z.leb_spec e (1024 - 53)); [done|lia].
Qed.

Lemma binary_round_exact s m :
  Z.pos m < 2 ^ 53 →
  ∃ m' e', binary_round 53 1024 s m 0 = S754_finite s m' e' ∧ e' ≤ 0 ∧
    Z.pos m' = Z.pos m * 2 ^ (- e') ∧ Z.pos (digits2_pos m') = 53.
Proof.
  intros Hm. pose proof (digits2_pos_53 m Hm) as Hd.
  pose proof (Pos2Z.is_pos (digits2_pos m)) as Hp.
  unfold binary_round, shl_align.
  assert (Hex : fexp 53 1024 (Z.pos (digits2_pos m) + 0) = Z.pos (digits2_pos m) - 53)
    by (unfold fexp, emin; lia).
  rewrite Hex. destruct (Z.pos (digits2_pos m) - 53 - 0) as [|p|d] eqn:E; [|lia|].
  - exists m, 0. rewrite binary_round_aux_exact by lia. split_and!; [done|lia|simpl; lia|lia].
  - exists (Pos.iter xO m d), (Z.pos (digits2_pos m) - 53). split_and!; [|lia|..].
    + apply binary_round_aux_exact; [rewrite digits2_pos_iter_xO|]; lia.
    + rewrite iter_xO_value. f_equal. f_equal. lia.
    + rewrite digits2_pos_iter_xO. lia.
Qed.

(** Integers below 2^53 convert to [double] and back unchanged. *)
Lemma double_trunc_of_Z z : Z.abs z < 2 ^ 53 → double_trunc (double_of_Z z) = Some z.
Proof.
  intros Hz. unfold double_of_Z, binary_normalize. destruct z as [|m|m]; [done|..];
    [destruct (binary_round_exact false m) as (m' & e' & -> & He & Hv & _)|
     destruct (binary_round_exact true m) as (m' & e' & -> & He & Hv & _)]; try lia;
    cbn [double_trunc]; f_equal; rewrite Hv; destruct (Z.leb_spec 0 e') as [Hle|Hlt];
    try (replace e' with 0 by lia; simpl; lia); rewrite Z.div_mul by (apply Z.pow_nonzero; lia); lia.
Qed.

Lemma double_exact_of_Z z : Z.abs z < 2 ^ 53 → double_exact (double_of_Z z) = true.
Proof.
  intros Hz. unfold double_exact. rewrite double_trunc_of_Z by done.
  apply andb_true_iff. split; [by apply Z.ltb_lt|by apply bool_decide_eq_true].
Qed.

Lemma digits2_pos_upper m : Z.pos m < 2 ^ Z.pos (digits2_pos m).
Proof.
  induction m as [m IH|m IH|]; cbn [digits2_pos]; [..|done];
    rewrite Pos2Z.inj_succ, Z.pow_succ_r by lia; lia.
Qed.

(** Two numbers with full mantissas compare like the integers they stand for. *)
Lemma compare_finite m1 e1 m2 e2 a b :
  e1 ≤ 0 → e2 ≤ 0 → Z.pos m1 = a * 2 ^ (- e1) → Z.pos m2 = b * 2 ^ (- e2) →
  Z.pos (digits2_pos m1) = 53 → Z.pos (digits2_pos m2) = 53 →
  match Z.compare e1 e2 with Lt => Lt | Gt => Gt | Eq => Pos.compare_cont Eq m1 m2 end = Z.compare a b.
Proof.
  intros He1 He2 H1 H2 Hd1 Hd2.
  pose proof (digits2_pos_bound m1) as Hl1. pose proof (digits2_pos_upper m1) as Hu1.
  pose proof (digits2_pos_bound m2) as Hl2. pose proof (digits2_pos_upper m2) as Hu2.
  rewrite Hd1 in Hl1, Hu1. rewrite Hd2 in Hl2, Hu2.
  assert (Hp : ∀ e e', e < e' → e' ≤ 0 → 2 * 2 ^ (- e') ≤ 2 ^ (- e)).
  { intros e e' Hlt Hle. rewrite <-Z.pow_succ_r by lia. apply Z.pow_le_mono_r; lia. }
  assert (H53 : 2 ^ 53 = 2 * 2 ^ (53 - 1)) by done.
  assert (0 < 2 ^ (- e1)) by (apply Z.pow_pos_nonneg; lia). assert (0 < 2 ^ (- e2)) by (apply Z.pow_pos_nonneg; lia).
  assert (0 < a) by nia. assert (0 < b) by nia.
  destruct (Z.compare_spec e1 e2) as [->|Hlt|Hlt].
  - change (Pos.compare_cont Eq m1 m2) with (Z.compare (Z.pos m1) (Z.pos m2)). rewrite H1, H2.
    symmetry. apply Zmult_compare_compat_r. lia.
  - symmetry. apply Z.compare_lt_iff. specialize (Hp _ _ Hlt He2).
    destruct (Z.lt_ge_cases a b) as [|Hge]; [done|].
    assert (b * (2 * 2 ^ (- e2)) ≤ a * 2 ^ (- e1)) by (apply Z.mul_le_mono_nonneg; lia). lia.
  - symmetry. apply Z.compare_gt_iff. specialize (Hp _ _ Hlt He1).
    destruct (Z.lt_ge_cases b a) as [|Hge]; [done|].
    assert (a * (2 * 2 ^ (- e1)) ≤ b * 2 ^ (- e2)) by (apply Z.mul_le_mono_nonneg; lia). lia.
Qed.

(** Integers below 2^53 compare as [double]s like integers. *)
Lemma double_ltb_of_Z a b :
  Z.abs a < 2 ^ 53 → Z.abs b < 2 ^ 53 → SFltb (double_of_Z a) (double_of_Z b) = (a <? b).
Proof.
  intros Ha Hb. unfold SFltb, double_of_Z, binary_normalize.
  destruct a as [|m|m], b as [|n|n]; try done.
  all: repeat match goal with
    | |- context [binary_round 53 1024 ?s ?m 0] =>
        let m' := fresh "m" in let e' := fresh "e" in let E := fresh "E" in
        destruct (binary_round_exact s m) as (m' & e' & E & ? & ? & ?); [lia|]; rewrite E
    end; try done; cbn [SFcompare].
  - by rewrite (compare_finite m0 e m1 e0 (Z.pos m) (Z.pos n)).
  - assert (Hc : match Z.compare e e0 with
                 | Lt => Gt | Gt => Lt | Eq => CompOpp (Pos.compare_cont Eq m0 m1)
                 end = Z.compare (Z.neg m) (Z.neg n)).
    { change (Z.compare (Z.neg m) (Z.neg n)) with (CompOpp (Z.compare (Z.pos m) (Z.pos n))).
      rewrite <-(compare_finite m0 e m1 e0 (Z.pos m) (Z.pos n)) by done. by destruct (Z.compare e e0). }
    by rewrite Hc.
Qed.

Lemma double_to_int_of_Z `{Target} lo hi z :
  Z.abs z < 2 ^ 53 → lo ≤ z ≤ hi → double_to_int lo hi (double_of_Z z) = z.
Proof.
  intros Hz [??]. unfold double_to_int. rewrite double_trunc_of_Z by done.
  destruct (Z.leb_spec lo z), (Z.leb_spec z hi); simpl; lia.
Qed.

(** *** Named children *)

Lemma obj_find_lookup {A} k (l : list (string * A)) :
  (list_to_map l : gmap string A) !! k = obj_find k l.
Proof.
  induction l as [|[k' v] l IH]; cbn; [done|].
  case_decide as E; [subst; by rewrite lookup_insert_eq|by rewrite lookup_insert_ne].
Qed.

Lemma obj_find_app {A} k (l l' : list (string * A)) :
  obj_find k (l ++ l') = match obj_find k l with Some v => Some v | None => obj_find k l' end.
Proof. induction l as [|[k' v] l IH]; simpl; [done|]. by case_decide. Qed.

Lemma obj_find_In {A} k v (l : list (string * A)) : obj_find k l = Some v → (k, v) ∈ l.
Proof. induction l as [|[k' v'] l IH]; simpl; [done|]. case_decide; simplify_eq; set_solver. Qed.

Lemma obj_find_None {A} k (l : list (string * A)) : obj_find k l = None ↔ k ∉ l.*1.
Proof. induction l as [|[k' v'] l IH]; simpl; [set_solver|]. case_decide; set_solver. Qed.

Lemma obj_replace_keys {A} k (v : A) l : (obj_replace k v l).*1 = l.*1.
Proof. induction l as [|[k' v'] l IH]; simpl; [done|]. case_decide; simplify_eq/=; by f_equal. Qed.

Lemma obj_find_set {A} k k' (v : A) l :
  obj_find k' (obj_set k v l) = if decide (k' = k) then Some v else obj_find k' l.
Proof.
  unfold obj_set. destruct (obj_find k l) as [w|] eqn:E.
  - revert E. induction l as [|[k1 v1] l IH]; simpl; [done|].
    repeat case_decide; simplify_eq/=; repeat case_decide; simplify_eq; auto; try done.
  - rewrite obj_find_app. simpl. case_decide; simplify_eq.
    + by rewrite E.
    + by destruct (obj_find k' l).
Qed.

Lemma obj_set_keys {A} k (v : A) l :
  (obj_set k v l).*1 = match obj_find k l with Some _ => l.*1 | None => l.*1 ++ [k] end.
Proof.
  unfold obj_set. destruct (obj_find k l); [apply obj_replace_keys|by rewrite fmap_app].
Qed.

Lemma obj_set_NoDup {A} k (v : A) l : NoDup l.*1 → NoDup (obj_set k v l).*1.
Proof.
  rewrite obj_set_keys. destruct (obj_find k l) eqn:E; [done|]. intros H.
  apply NoDup_app. apply obj_find_None in E. split_and!; [done|set_solver|apply NoDup_singleton].
Qed.

Lemma obj_delete_find {A} k k' (l : list (string * A)) :
  NoDup l.*1 → obj_find k' (obj_delete k l) = if decide (k' = k) then None else obj_find k' l.
Proof.
  induction l as [|[k1 v1] l IH]; simpl; [by case_decide|].
  intros [Hk1 Hl]%NoDup_cons.
  repeat case_decide; simplify_eq/=; repeat case_decide; simplify_eq; auto.
  by apply obj_find_None.
Qed.

Lemma obj_delete_NoDup {A} k (l : list (string * A)) : NoDup l.*1 → NoDup (obj_delete k l).*1.
Proof.
  induction l as [|[k1 v1] l IH]; simpl; [done|]. intros [Hk1 Hl]%NoDup_cons.
  case_decide; [done|]. simpl. apply NoDup_cons. split; [|by apply IH].
  intros Hin. apply Hk1. clear -Hin. induction l as [|[k2 v2] l IH]; simpl in *; [done|].
  case_decide; set_solver.
Qed.

Lemma obj_set_Forall {A} (P : string * A → Prop) k v l :
  P (k, v) → Forall P l → Forall P (obj_set k v l).
Proof.
  intros Hv Hl. unfold obj_set. destruct (obj_find k l).
  - induction Hl as [|[k' v'] l ? Hl IH]; simpl; [done|]. case_decide; simplify_eq; eauto.
  - apply Forall_app. eauto.
Qed.

Lemma obj_delete_Forall {A} (P : string * A → Prop) k l : Forall P l → Forall P (obj_delete k l).
Proof. induction 1 as [|[k' v'] l ? Hl IH]; simpl; [done|]. case_decide; eauto. Qed.

Lemma obj_set_length {A} k (v : A) l :
  length (obj_set k v l) = match obj_find k l with Some _ => length l | None => S (length l) end.
Proof.
  rewrite <-(length_fmap fst), obj_set_keys. destruct (obj_find k l).
  - by rewrite length_fmap.
  - rewrite length_app, length_fmap; simpl. lia.
Qed.

(** *** Numbers as text *)

Lemma scan_digits_all acc s : all_digits s = true → scan_digits acc s = (dec_value acc s, EmptyString).
Proof.
  revert acc. induction s as [|a s IH]; intros acc; simpl; [done|].
  rewrite andb_true_iff. intros [-> Hs]. by apply IH.
Qed.

Lemma digit_not_special a :
  is_digit a = true → is_space a = false ∧ Ascii.eqb a "-"%char = false ∧ Ascii.eqb a "+"%char = false.
Proof. by destruct a as [[] [] [] [] [] [] [] []]; vm_compute. Qed.

Lemma strto_scan_digits s :
  s ≠ EmptyString → all_digits s = true → strto_scan s = Some (false, dec_value 0 s, EmptyString).
Proof.
  intros Hs Hd. destruct s as [|a s]; [done|]. pose proof Hd as Hd'. simpl in Hd'.
  apply andb_true_iff in Hd' as [Ha _]. destruct (digit_not_special a Ha) as (E1 & E2 & E3).
  unfold strto_scan. simpl skip_space. rewrite E1, E2, E3, Ha. by rewrite scan_digits_all.
Qed.

Lemma strto_scan_minus s :
  s ≠ EmptyString → all_digits s = true →
  strto_scan (String "-" s) = Some (true, dec_value 0 s, EmptyString).
Proof.
  intros Hs Hd. destruct s as [|a s]; [done|]. pose proof Hd as Hd'. simpl in Hd'.
  apply andb_true_iff in Hd' as [Ha _].
  unfold strto_scan. simpl skip_space. cbv iota beta. rewrite Ascii.eqb_refl, Ha.
  by rewrite scan_digits_all.
Qed.

Lemma to_string_neg z : 0 < z → to_string (- z) = String "-" (to_string z).
Proof. by destruct z. Qed.

Lemma strto_scan_to_string z :
  strto_scan (to_string z) = Some (z <? 0, Z.abs z, EmptyString).
Proof.
  destruct (Z.ltb_spec z 0).
  - replace z with (- (- z)) at 1 by lia. rewrite to_string_neg by lia.
    rewrite strto_scan_minus by (apply to_string_nonempty || apply to_string_digits; lia).
    rewrite to_string_value by lia. by rewrite Z.abs_neq by lia.
  - rewrite strto_scan_digits by (apply to_string_nonempty || apply to_string_digits; lia).
    rewrite to_string_value by lia. by rewrite Z.abs_eq by lia.
Qed.

Lemma strtol_to_string z : INT64_MIN ≤ z ≤ INT64_MAX → strtol_whole (to_string z) = Some z.
Proof.
  intros [??]. unfold strtol_whole. rewrite strto_scan_to_string.
  assert ((if z <? 0 then - Z.abs z else Z.abs z) = z) as -> by (destruct (Z.ltb_spec z 0); lia).
  destruct (Z.leb_spec INT64_MIN z), (Z.leb_spec z INT64_MAX); simpl; [done|lia..].
Qed.

Lemma strtoull_to_string z : 0 ≤ z ≤ UINT64_MAX → strtoull (to_string z) = (z, true).
Proof.
  intros [??]. unfold strtoull. rewrite strto_scan_to_string, Z.abs_eq by lia.
  destruct (Z.leb_spec z UINT64_MAX); [|lia]. destruct (Z.ltb_spec z 0); [lia|done].
Qed.

Lemma to_string_not_empty z : string_empty (to_string z) = false.
Proof.
  destruct (string_empty (to_string z)) eqn:E; [|done]. apply string_empty_true in E.
  pose proof (strto_scan_to_string z) as H. by rewrite E in H.
Qed.

Lemma all_digits_nul_free s : all_digits s = true → nul_free s.
Proof.
  induction s as [|a s IH]; simpl; [done|]. rewrite andb_true_iff. intros [Ha Hs].
  unfold nul_free; simpl. destruct (Ascii.eqb_spec a Ascii.zero) as [->|]; [done|]. by rewrite IH.
Qed.

Lemma to_string_nul_free z : nul_free (to_string z).
Proof.
  destruct (Z_lt_le_dec z 0).
  - replace z with (- (- z)) by lia. rewrite to_string_neg by lia.
    unfold nul_free; simpl. rewrite (all_digits_nul_free (to_string (- z))); [done|].
    apply to_string_digits; lia.
  - by apply all_digits_nul_free, to_string_digits.
Qed.

Lemma scan_digits_mono acc s v rest : 0 ≤ acc → scan_digits acc s = (v, rest) → 0 ≤ v.
Proof.
  revert acc. induction s as [|a s IH]; intros acc Ha; simpl; [by intros [= <- _]|].
  destruct (is_digit a) eqn:Ed; [|by intros [= <- _]].
  apply IH. unfold is_digit in Ed. apply andb_true_iff in Ed as [?%Z.leb_le _]. lia.
Qed.

Lemma strto_scan_nonneg s neg v rest : strto_scan s = Some (neg, v, rest) → 0 ≤ v.
Proof.
  unfold strto_scan. destruct (match skip_space s with String _ _ => _ | _ => _ end) as [n s1].
  destruct s1 as [|a s1]; [done|]. destruct (is_digit a); [|done].
  destruct (scan_digits 0 (String a s1)) as [w r] eqn:E. intros [= _ <- _].
  by eapply scan_digits_mono.
Qed.

(** The loops that collect strings. *)
Lemma set_string_fold X Y :
  (∀ x, x ∈ X → nul_free x) →
  foldl (λ s item, match item with JString v => {[ v ]} ∪ s | _ => s end) Y
    (JString ∘ c_str <$> set_list X) = Y ∪ X.
Proof.
  intros HX. rewrite <-(list_to_set_set_list X) at 2.
  assert (Hall : Forall nul_free (set_list X)).
  { apply Forall_forall. intros x. rewrite elem_of_set_list. apply HX. }
  revert Y. induction Hall as [|x l Hx _ IH]; intros Y; cbn; [set_solver|].
  rewrite IH, Hx. set_solver.
Qed.

Lemma map_string_fold {A} (f : A → string * string) (l : list A) :
  NoDup (f <$> l).*1 →
  foldl (λ m kv, match kv.2 with JString v => <[kv.1 := v]> m | _ => m end) (∅ : gmap string string)
    ((λ a, ((f a).1, JString (f a).2)) <$> l) = list_to_map (f <$> l).
Proof.
  intros Hnd. rewrite <-(left_id_L ∅ (∪) (list_to_map (f <$> l))).
  assert (Hdisj : ∀ k, k ∈ (f <$> l).*1 → (∅ : gmap string string) !! k = None) by done.
  revert Hnd Hdisj. generalize (∅ : gmap string string) as m.
  induction l as [|a l IH]; intros m; cbn; [symmetry; apply (right_id_L ∅ (∪))|].
  intros [Hni Hnd]%NoDup_cons Hd. destruct (f a) as [k v] eqn:Ef; simpl in *.
  rewrite IH; [|done|].
  - rewrite <-insert_union_l, insert_union_r; [done|]. apply Hd. set_solver.
  - intros k' Hk'. rewrite lookup_insert_ne; [apply Hd; by right|]. intros ->. by destruct Hni.
Qed.

(** ** What the wrappers do to an object *)

Section WrapperSpecs.
Context {cjson : CJsonLib} {laws : CJsonLaws} {target : Target}.

Lemma find_item_object l key :
  string_empty key = false → find_item (Some (JObject l)) key = obj_find (c_str key) l.
Proof. intros Hk. unfold find_item. by rewrite Hk, get_object_item. Qed.

Lemma find_item_set l key v :
  string_empty key = false →
  find_item (Some (JObject (obj_set (c_str key) v l))) key = Some v.
Proof. intros Hk. rewrite find_item_object, obj_find_set by done. by case_decide. Qed.

Lemma find_item_set_ne l key key' v :
  c_str key' ≠ c_str key →
  find_item (Some (JObject (obj_set (c_str key) v l))) key' = find_item (Some (JObject l)) key'.
Proof.
  intros Hne. unfold find_item. destruct (string_empty key'); [done|].
  rewrite !get_object_item, obj_find_set. by case_decide.
Qed.

Lemma IsKeyExist_object l key :
  string_empty key = false →
  IsKeyExist (Some (JObject l)) key = bool_decide (is_Some (obj_find (c_str key) l)).
Proof. intros Hk. unfold IsKeyExist. by rewrite Hk, get_object_item. Qed.

Lemma find_item_key_exists j key v : find_item j key = Some v → IsKeyExist j key = true.
Proof.
  unfold find_item, IsKeyExist. destruct j as [j|]; [|done]. destruct (string_empty key); [done|].
  intros ->. by apply bool_decide_eq_true.
Qed.

Lemma GetItemNum_object l :
  Z.of_nat (length l) ≤ INT32_MAX → GetItemNum (Some (JObject l)) = Z.of_nat (length l).
Proof.
  intros Hl. unfold GetItemNum. rewrite array_size_object. apply i32_id.
  unfold is_i32, INT32_MAX in *. lia.
Qed.

Lemma array_items_array l :
  Z.of_nat (length l) ≤ INT32_MAX → array_items (Some (JArray l)) = l.
Proof.
  intros Hl. unfold array_items. rewrite array_size_array, i32_id
    by (unfold is_i32, INT32_MAX in *; lia). rewrite Nat2Z.id.
  assert (Hgen : ∀ n k, (k + n = length l)%nat →
    omap (λ i, cJSON_GetArrayItem (Some (JArray l)) (Z.of_nat i)) (seq k n) = drop k l).
  { induction n as [|n IH]; intros k Hk.
    - simpl. by rewrite drop_ge by lia.
    - cbn. rewrite array_item by lia. rewrite Nat2Z.id.
      destruct (lookup_lt_is_Some_2 l k) as [x Hx]; [lia|]. rewrite Hx.
      rewrite (drop_S l x k Hx). f_equal. apply IH. lia. }
  by apply Hgen.
Qed.

Lemma replace_is_set {A} l k (v : A) :
  is_Some (obj_find k l) → obj_replace k v l = obj_set k v l.
Proof. intros [w Hw]. unfold obj_set. by rewrite Hw. Qed.

Lemma append_is_set {A} l k (v : A) : obj_find k l = None → l ++ [(k, v)] = obj_set k v l.
Proof. intros Hn. unfold obj_set. by rewrite Hn. Qed.

Lemma add_or_replace_object l key item j' :
  add_or_replace (JObject l) key item = Some j' → j' = JObject (obj_set (c_str key) item l).
Proof.
  unfold add_or_replace. rewrite get_object_item. destruct (obj_find (c_str key) l) eqn:E; intros Hj.
  - apply replace_in_object in Hj as ->. by rewrite replace_is_set by eauto.
  - apply add_to_object in Hj as ->. by rewrite append_is_set.
Qed.

Lemma AddStringToJson_object l key value j' :
  AddStringToJson (Some (JObject l)) key value = Some j' →
  string_empty key = false ∧ j' = JObject (obj_set (c_str key) (JString (c_str value)) l).
Proof.
  unfold AddStringToJson. destruct (string_empty key); [done|].
  rewrite get_object_item. destruct (obj_find (c_str key) l) eqn:E; intros Hj.
  - apply bind_Some in Hj as (v & ->%create_string & ->%replace_in_object).
    by rewrite replace_is_set by eauto.
  - apply add_string_to_object in Hj as ->. by rewrite append_is_set.
Qed.

Context {alloc : CJsonAlloc}.

Lemma CreateJson_eq : CreateJson = Some (JObject []).
Proof. destruct alloc_object as [v Hv]. unfold CreateJson. by rewrite Hv, (create_object v). Qed.

Lemma CreateJsonArray_eq : CreateJsonArray = Some (JArray []).
Proof. destruct alloc_array as [v Hv]. unfold CreateJsonArray. by rewrite Hv, (create_array v). Qed.

Lemma add_or_replace_eq l key item :
  add_or_replace (JObject l) key item = Some (JObject (obj_set (c_str key) item l)).
Proof.
  destruct (add_or_replace (JObject l) key item) as [j'|] eqn:Hj.
  - by rewrite (add_or_replace_object _ _ _ _ Hj).
  - exfalso. unfold add_or_replace in Hj. rewrite get_object_item in Hj.
    destruct (obj_find (c_str key) l) eqn:E.
    + destruct (alloc_replace l (c_str key) item); [eauto|congruence].
    + destruct (alloc_add_object l (c_str key) item); congruence.
Qed.

(** The three scalar setters share their shape: append a fresh child or replace
    the one there. *)
Lemma scalar_set_eq {B} (f : CJson → string → B → option CJson) (c : B → option CJson)
    (mk : B → CJson) l key (x : B) :
  (∀ l k b, f (JObject l) k b = Some (JObject (l ++ [(k, mk b)]))) →
  (∀ b, c b = Some (mk b)) →
  match cJSON_GetObjectItemCaseSensitive (JObject l) (c_str key) with
  | None => f (JObject l) (c_str key) x
  | Some _ =>
      tmp ← c x; cJSON_ReplaceItemInObjectCaseSensitive (JObject l) (c_str key) tmp
  end = Some (JObject (obj_set (c_str key) (mk x) l)).
Proof.
  intros Hf Hc. rewrite get_object_item. destruct (obj_find (c_str key) l) eqn:E.
  - rewrite Hc. cbn. destruct (alloc_replace l (c_str key) (mk x)) as [j' Hj]; [eauto|].
    rewrite Hj. apply replace_in_object in Hj as ->. by rewrite replace_is_set by eauto.
  - rewrite Hf. by rewrite append_is_set.
Qed.

Lemma add_string_total l k s :
  cJSON_AddStringToObject (JObject l) k s = Some (JObject (l ++ [(k, JString s)])).
Proof. destruct (alloc_add_string l k s) as [j Hj]. by rewrite Hj, (add_string_to_object _ _ _ _ Hj). Qed.
Lemma add_bool_total l k b :
  cJSON_AddBoolToObject (JObject l) k b = Some (JObject (l ++ [(k, JBool b)])).
Proof. destruct (alloc_add_bool l k b) as [j Hj]. by rewrite Hj, (add_bool_to_object _ _ _ _ Hj). Qed.
Lemma add_number_total l k d :
  cJSON_AddNumberToObject (JObject l) k d = Some (JObject (l ++ [(k, JNumber d)])).
Proof. destruct (alloc_add_number l k d) as [j Hj]. by rewrite Hj, (add_number_to_object _ _ _ _ Hj). Qed.
Lemma create_string_total s : cJSON_CreateString s = Some (JString s).
Proof. destruct (alloc_string s) as [j Hj]. by rewrite Hj, (create_string _ _ Hj). Qed.
Lemma create_bool_total b : cJSON_CreateBool b = Some (JBool b).
Proof. destruct (alloc_bool b) as [j Hj]. by rewrite Hj, (create_bool _ _ Hj). Qed.
Lemma create_number_total d : cJSON_CreateNumber d = Some (JNumber d).
Proof. destruct (alloc_number d) as [j Hj]. by rewrite Hj, (create_number _ _ Hj). Qed.
Lemma duplicate_total j : cJSON_Duplicate j = Some j.
Proof. destruct (alloc_duplicate j) as [v Hv]. by rewrite Hv, (duplicate _ _ Hv). Qed.
Lemma add_to_array_total l v : cJSON_AddItemToArray (JArray l) v = Some (JArray (l ++ [v])).
Proof. destruct (alloc_add_array l v) as [j Hj]. by rewrite Hj, (add_to_array _ _ _ Hj). Qed.

Lemma AddStringToJson_eq l key value :
  string_empty key = false →
  AddStringToJson (Some (JObject l)) key value =
    Some (JObject (obj_set (c_str key) (JString (c_str value)) l)).
Proof.
  intros Hk. unfold AddStringToJson. rewrite Hk.
  exact (scalar_set_eq _ (λ s, cJSON_CreateString s) JString l key (c_str value) add_string_total create_string_total).
Qed.

Lemma AddBoolToJson_eq l key value :
  string_empty key = false →
  AddBoolToJson (Some (JObject l)) key value = Some (JObject (obj_set (c_str key) (JBool value) l)).
Proof.
  intros Hk. unfold AddBoolToJson. rewrite Hk.
  exact (scalar_set_eq _ (λ b, cJSON_CreateBool b) JBool l key value add_bool_total create_bool_total).
Qed.

Lemma AddIntToJson_eq l key value :
  string_empty key = false →
  AddIntToJson (Some (JObject l)) key value =
    Some (JObject (obj_set (c_str key) (JNumber (double_of_Z value)) l)).
Proof.
  intros Hk. unfold AddIntToJson. rewrite Hk.
  exact (scalar_set_eq _ (λ d, cJSON_CreateNumber d) JNumber l key (double_of_Z value) add_number_total create_number_total).
Qed.

Lemma AddObjToJson_eq l key child :
  string_empty key = false →
  AddObjToJson (Some (JObject l)) key (Some child) = Some (JObject (obj_set (c_str key) child l)).
Proof.
  intros Hk. unfold AddObjToJson. rewrite Hk, duplicate_total. apply add_or_replace_eq.
Qed.

Lemma AddObjToArray_eq l item : AddObjToArray (Some (JArray l)) (Some item) = Some (JArray (l ++ [item])).
Proof. unfold AddObjToArray. rewrite duplicate_total. apply add_to_array_total. Qed.

Lemma string_array_eq xs l :
  foldl (λ array item, array ← array; itemJson ← cJSON_CreateString (c_str item);
           cJSON_AddItemToArray array itemJson) (Some (JArray l)) xs
  = Some (JArray (l ++ (JString ∘ c_str <$> xs))).
Proof.
  revert l. induction xs as [|x xs IH]; intros l; cbn [foldl fmap list_fmap].
  - by rewrite app_nil_r.
  - cbn. rewrite create_string_total. cbn. rewrite add_to_array_total. rewrite IH.
    by rewrite <-app_assoc.
Qed.

Lemma AddSetStringToJson_eq l key X :
  string_empty key = false →
  AddSetStringToJson (Some (JObject l)) key X =
    Some (JObject (obj_set (c_str key) (JArray (JString ∘ c_str <$> set_list X)) l)).
Proof.
  intros Hk. unfold AddSetStringToJson. rewrite Hk.
  change cJSON_CreateArray with CreateJsonArray. rewrite CreateJsonArray_eq, string_array_eq. cbn.
  apply add_or_replace_eq.
Qed.

Lemma CreateJsonFromMap_eq m :
  CreateJsonFromMap m = Some (JObject ((λ kv, (c_str kv.1, JString (c_str kv.2))) <$> map_list m)).
Proof.
  unfold CreateJsonFromMap. change cJSON_CreateObject with CreateJson. rewrite CreateJson_eq. f_equal.
  set (f := λ kv : string * string, (c_str kv.1, JString (c_str kv.2))).
  change (f <$> map_list m) with ([] ++ (f <$> map_list m)).
  generalize (@nil (string * CJson)) as acc.
  induction (map_list m) as [|kv l IH]; intros acc; cbn [foldl fmap list_fmap].
  - by rewrite app_nil_r.
  - rewrite add_string_total. etransitivity; [apply (IH (acc ++ [f kv]))|by rewrite <-app_assoc].
Qed.

Lemma PackJsonToString_print j s :
  cJSON_PrintUnformatted j = Some s → PackJsonToString (Some j) = s.
Proof. intros Hs. unfold PackJsonToString. cbn. rewrite Hs. by destruct (print_text j s Hs). Qed.

(** Printing a well-formed document and reading it back. *)
Lemma pack_create j :
  json_ok j = true →
  CreateJsonFromString (PackJsonToString (Some j)) = Some j ∧
  string_empty (PackJsonToString (Some j)) = false.
Proof.
  intros Hj. destruct (alloc_print j) as [s Hs]. rewrite (PackJsonToString_print _ _ Hs).
  destruct (print_text j s Hs) as [Hne Hnul].
  assert (He : string_empty s = false) by (by destruct s). split; [|done].
  unfold CreateJsonFromString. rewrite He, Hnul. by apply parse_print.
Qed.
Lemma strings_array_eq xs l :
  foldl (λ array str, default array (AddStringToArray (Some array) (c_str str))) (JArray l) xs =
    JArray (l ++ (JString ∘ c_str <$> xs)).
Proof.
  revert l. induction xs as [|x xs IH]; intros l; cbn [foldl fmap list_fmap].
  - by rewrite app_nil_r.
  - unfold AddStringToArray at 2. rewrite create_string_total. cbn. rewrite add_to_array_total. cbn.
    rewrite IH. by rewrite <-app_assoc.
Qed.

Lemma AddVectorStringToJson_eq l key xs :
  string_empty key = false →
  AddVectorStringToJson (Some (JObject l)) key xs =
    Some (JObject (obj_set (c_str key) (JArray (JString ∘ c_str <$> xs)) l)).
Proof.
  intros Hk. unfold AddVectorStringToJson. rewrite Hk.
  change cJSON_CreateArray with CreateJsonArray. rewrite CreateJsonArray_eq. cbn [mbind option_bind].
  rewrite strings_array_eq. apply add_or_replace_eq.
Qed.

Lemma numbers_array_eq xs l :
  foldl add_number_item (JArray l) xs = JArray (l ++ (JNumber ∘ double_of_Z <$> xs)).
Proof.
  revert l. induction xs as [|x xs IH]; intros l; cbn [foldl fmap list_fmap].
  - by rewrite app_nil_r.
  - unfold add_number_item at 2. rewrite create_number_total. cbn. rewrite add_to_array_total. cbn.
    rewrite IH. by rewrite <-app_assoc.
Qed.

Lemma AddVectorIntToJson_eq l key xs :
  string_empty key = false →
  AddVectorIntToJson (Some (JObject l)) key xs =
    Some (JObject (obj_set (c_str key) (JArray (JNumber ∘ double_of_Z <$> xs)) l)).
Proof.
  intros Hk. unfold AddVectorIntToJson. rewrite Hk.
  change cJSON_CreateArray with CreateJsonArray. rewrite CreateJsonArray_eq. cbn [mbind option_bind].
  rewrite numbers_array_eq. apply add_or_replace_eq.
Qed.

Lemma AddInt64ToJson_eq l key z :
  string_empty key = false →
  AddInt64ToJson (Some (JObject l)) key z = Some (JObject (obj_set (c_str key) (JString (to_string z)) l)).
Proof. intros Hk. unfold AddInt64ToJson. rewrite Hk, AddStringToJson_eq by done. by rewrite to_string_nul_free. Qed.

Lemma AddUint64ToJson_eq l key z :
  string_empty key = false →
  AddUint64ToJson (Some (JObject l)) key z = Some (JObject (obj_set (c_str key) (JString (to_string z)) l)).
Proof. intros Hk. unfold AddUint64ToJson. rewrite Hk, AddStringToJson_eq by done. by rewrite to_string_nul_free. Qed.
(** *** Maps of numbers *)

(** The document of a map from numbers to numbers. *)
Definition number_field (kv : Z * Z) : string * CJson := (to_string kv.1, JNumber (double_of_Z kv.2)).

Lemma number_fields_fold kvs :
  Forall (λ kv, 0 ≤ kv.1 ≤ UINT64_MAX ∧ is_i32 kv.2) kvs →
  NoDup kvs.*1 →
  PackJsonToMapUint64Int32 (Some (JObject (number_field <$> kvs))) = list_to_map kvs.
Proof.
  intros Hkvs Hnd. rewrite <-(right_id_L ∅ (∪) (list_to_map kvs)), <-foldl_insert by done.
  clear Hnd. cbn [PackJsonToMapUint64Int32]. generalize (∅ : gmap Z Z) as m.
  induction Hkvs as [|[k v] kvs [Hk Hv] _ IH]; intros m; [done|]. cbn [fst snd] in *. unfold is_i32 in Hv.
  rewrite fmap_cons. cbn [foldl].
  change (number_field (k, v)) with (to_string k, JNumber (double_of_Z v)). cbn [fst snd].
  rewrite strto_scan_to_string.
  rewrite Z.abs_eq by lia. rewrite (proj2 (Z.leb_le k UINT64_MAX)) by lia.
  rewrite (proj2 (Z.ltb_ge k 0)) by lia. rewrite !double_ltb_of_Z by (unfold INT32_MIN, INT32_MAX; lia).
  rewrite (proj2 (Z.ltb_ge v INT32_MIN)), (proj2 (Z.ltb_ge INT32_MAX v)) by (unfold INT32_MIN, INT32_MAX; lia).
  cbn [orb]. rewrite double_to_int_of_Z by (unfold INT32_MIN, INT32_MAX; lia). apply IH.
Qed.

End WrapperSpecs.

Lemma add_fields_ok f fs b j j' :
  f j = Some j' → add_fields (f :: fs) (b, j) = add_fields fs (b, Some j').
Proof. intros Hf. unfold add_fields. cbn [foldl fst snd]. by rewrite Hf. Qed.

Lemma add_fields_nil b j : add_fields [] (b, j) = (b, j).
Proof. done. Qed.

(** Takes the steps of [add_fields] that succeed on an object. *)
Ltac add_fields_tac :=
  repeat (erewrite add_fields_ok by
    (first [ by apply AddStringToJson_eq | by apply AddInt64ToJson_eq | by apply AddUint64ToJson_eq
           | by apply AddVectorStringToJson_eq | by apply AddVectorIntToJson_eq
           | by apply AddIntToJson_eq | by apply AddBoolToJson_eq
           | by apply AddSetStringToJson_eq | by apply AddObjToJson_eq | by apply AddObjToArray_eq ]));
  rewrite add_fields_nil; cbv iota beta zeta.

Lemma json_depth_array l : json_depth (JArray l) = S (foldr (λ x n, Nat.max (json_depth x) n) 0%nat l).
Proof. done. Qed.
Lemma json_depth_object l :
  json_depth (JObject l) = S (foldr (λ kv n, Nat.max (json_depth kv.2) n) 0%nat l).
Proof. done. Qed.

Lemma string_array_depth l : json_depth (JArray (JString <$> l)) = 1%nat.
Proof. rewrite json_depth_array. f_equal. induction l as [|x l IH]; [done|]. cbn. exact IH. Qed.

(** ** A concrete library *)

(** [TreeLib] allocates without failing and prints a document as the bits of its
    code, so that printing and parsing are inverse.  The witnesses evaluate on
    it. *)
Module TreeLib.
Definition double_code (d : double) : Z * bool * positive * Z :=
  match d with
  | S754_zero s => (0, s, 1%positive, 0)
  | S754_infinity s => (1, s, 1%positive, 0)
  | S754_nan => (2, false, 1%positive, 0)
  | S754_finite s m e => (3, s, m, e)
  end.
Definition double_decode (c : Z * bool * positive * Z) : double :=
  match c with
  | (0, s, _, _) => S754_zero s
  | (1, s, _, _) => S754_infinity s
  | (2, _, _, _) => S754_nan
  | (_, s, m, e) => S754_finite s m e
  end.

Definition leaf : Type := bool + (Z * bool * positive * Z) + string.

Fixpoint to_tree (j : CJson) : gen_tree leaf :=
  match j with
  | JNull => GenNode 0 []
  | JBool b => GenLeaf (inl (inl b))
  | JNumber d => GenLeaf (inl (inr (double_code d)))
  | JString s => GenLeaf (inr s)
  | JArray l => GenNode 1 (to_tree <$> l)
  | JObject l => GenNode 2 ((λ kv, GenNode 3 [GenLeaf (inr kv.1); to_tree kv.2]) <$> l)
  end.

Fixpoint of_tree (t : gen_tree leaf) : CJson :=
  match t with
  | GenLeaf (inl (inl b)) => JBool b
  | GenLeaf (inl (inr c)) => JNumber (double_decode c)
  | GenLeaf (inr s) => JString s
  | GenNode 1 l => JArray (of_tree <$> l)
  | GenNode 2 l =>
      JObject ((λ t, match t with
                     | GenNode _ [GenLeaf (inr k); v] => (k, of_tree v)
                     | _ => (EmptyString, JNull)
                     end) <$> l)
  | GenNode _ _ => JNull
  end.

Lemma of_to_tree j : of_tree (to_tree j) = j.
Proof.
  induction j as [| | | |l IH|l IH] using CJson_ind'; simpl; try done.
  - by destruct d.
  - f_equal. rewrite <-list_fmap_compose. rewrite <-(list_fmap_id l) at 2.
    apply Forall_fmap_ext_1. by apply IH.
  - f_equal. rewrite <-list_fmap_compose. rewrite <-(list_fmap_id l) at 2.
    apply Forall_fmap_ext_1. eapply Forall_impl; [apply IH|]. intros [k v] Hv. simpl in *. by rewrite Hv.
Qed.

Fixpoint bits (p : positive) : string :=
  match p with
  | xH => "1"
  | xO p => String "0" (bits p)
  | xI p => String "1" (bits p)
  end.

Fixpoint of_bits (s : string) : positive :=
  match s with
  | EmptyString => xH
  | String a EmptyString => xH
  | String a s' => if Ascii.eqb a "0" then xO (of_bits s') else xI (of_bits s')
  end.

Lemma bits_nonempty p : bits p ≠ EmptyString.
Proof. by destruct p. Qed.

Lemma of_bits_bits p : of_bits (bits p) = p.
Proof.
  induction p as [p IH|p IH|]; simpl; [..|done];
    destruct (bits p) eqn:E; try (by destruct (bits_nonempty p)); by rewrite IH.
Qed.

Lemma bits_nul_free p : nul_free (bits p).
Proof. induction p as [p IH|p IH|]; unfold nul_free; simpl; [by rewrite IH..|done]. Qed.

Definition print (j : CJson) : string := bits (encode (to_tree j)).
Definition parse (s : string) : option CJson := of_tree <$> decode (of_bits s).

#[export] Instance lib : CJsonLib := {
  cJSON_Parse := parse;
  cJSON_PrintUnformatted j := Some (print j);
  cJSON_CreateNull := Some JNull;
  cJSON_CreateObject := Some (JObject []);
  cJSON_CreateArray := Some (JArray []);
  cJSON_CreateString s := Some (JString s);
  cJSON_CreateBool b := Some (JBool b);
  cJSON_CreateNumber d := Some (JNumber d);
  cJSON_Duplicate j := Some j;
  cJSON_GetObjectItemCaseSensitive j k := match j with JObject l => obj_find k l | _ => None end;
  cJSON_GetArraySize j :=
    match j with
    | Some (JArray l) => Z.of_nat (length l)
    | Some (JObject l) => Z.of_nat (length l)
    | _ => 0
    end;
  cJSON_GetArrayItem j i :=
    match j with
    | Some (JArray l) => if i <? 0 then None else l !! Z.to_nat i
    | _ => None
    end;
  cJSON_AddItemToArray j v := match j with JArray l => Some (JArray (l ++ [v])) | _ => None end;
  cJSON_AddItemToObject j k v :=
    match j with JObject l => Some (JObject (l ++ [(k, v)])) | _ => None end;
  cJSON_ReplaceItemInObjectCaseSensitive j k v :=
    match j with JObject l => Some (JObject (obj_replace k v l)) | _ => None end;
  cJSON_DeleteItemFromObjectCaseSensitive j k :=
    match j with JObject l => JObject (obj_delete k l) | _ => j end;
  cJSON_AddStringToObject j k s :=
    match j with JObject l => Some (JObject (l ++ [(k, JString s)])) | _ => None end;
  cJSON_AddBoolToObject j k b :=
    match j with JObject l => Some (JObject (l ++ [(k, JBool b)])) | _ => None end;
  cJSON_AddNumberToObject j k d :=
    match j with JObject l => Some (JObject (l ++ [(k, JNumber d)])) | _ => None end;
}.

#[export] Instance laws : CJsonLaws.
Proof.
  split; simpl; try (intros; simplify_eq; done).
  - intros [] k Hj; try done. by destruct (Hj l).
  - intros l i Hi. by destruct (Z.ltb_spec i 0); [lia|].
  - intros j s _ [= <-]. unfold parse, print. rewrite of_bits_bits, decode_encode. simpl.
    by rewrite of_to_tree.
  - intros j s [= <-]. split; [apply bits_nonempty|apply bits_nul_free].
Qed.

#[export] Instance alloc : CJsonAlloc.
Proof. split; intros; by eexists. Qed.

#[export] Instance target : Target := {
  undefined_to_int lo hi d := lo;
  undefined_to_int_range lo hi d Hle := conj (Z.le_refl lo) Hle;
}.
End TreeLib.

(** ** Properties *)

Section Properties.
Context {cjson : CJsonLib} {laws : CJsonLaws} {target : Target}.

(** Integers of 64 bits are stored as decimal text and read back exactly: for
    every value of the type, when [AddInt64ToJson] or [AddUint64ToJson] succeeds
    on an object, the getter of that type gives the value under the key, and the
    string getter gives the same as before under every other key. *)
Theorem int64_text_roundtrip l key value j' :
  (INT64_MIN ≤ value ≤ INT64_MAX → AddInt64ToJson (Some (JObject l)) key value = Some j' →
     GetInt64FromJson (Some j') key = Some value ∧
     ∀ key', c_str key' ≠ c_str key →
       GetStringFromJson (Some j') key' = GetStringFromJson (Some (JObject l)) key') ∧
  (0 ≤ value ≤ UINT64_MAX → AddUint64ToJson (Some (JObject l)) key value = Some j' →
     (∀ value0, GetUint64FromJson (Some j') key value0 = (true, value)) ∧
     ∀ key', c_str key' ≠ c_str key →
       GetStringFromJson (Some j') key' = GetStringFromJson (Some (JObject l)) key').
Proof.
  unfold AddInt64ToJson, AddUint64ToJson. destruct (string_empty key) eqn:Hk; [done|].
  split; intros Hv [_ ->]%AddStringToJson_object; rewrite to_string_nul_free;
    (split; [|intros key' Hne; unfold GetStringFromJson; by rewrite find_item_set_ne]).
  - pose proof (find_item_set l key (JString (to_string value)) Hk) as Hf.
    unfold GetInt64FromJson. rewrite (find_item_key_exists _ _ _ Hf), Hf, to_string_not_empty.
    by apply strtol_to_string.
  - pose proof (find_item_set l key (JString (to_string value)) Hk) as Hf.
    intros value0. unfold GetUint64FromJson. rewrite (find_item_key_exists _ _ _ Hf), Hf, to_string_not_empty.
    by rewrite strtoull_to_string.
Qed.

(** The unsigned getter takes negative text: under a key that holds the text
    of a negative 64-bit number, [GetUint64FromJson] does not fail, it gives the
    number modulo 2^64.  The comment in the code says that [errno == ERANGE]
    catches every negative input; [strtoull] sets it only when the magnitude is
    out of range. *)
Theorem uint64_getter_takes_negative_text l key n value0 :
  string_empty key = false → 0 < n ≤ UINT64_MAX →
  obj_find (c_str key) l = Some (JString (to_string (- n))) →
  GetUint64FromJson (Some (JObject l)) key value0 = (true, UINT64_MAX + 1 - n).
Proof.
  intros Hk [Hn Hn'] Hf. rewrite <-find_item_object in Hf by done.
  unfold GetUint64FromJson. rewrite (find_item_key_exists _ _ _ Hf), Hf, to_string_not_empty.
  unfold strtoull. rewrite strto_scan_to_string, Z.abs_neq by lia.
  destruct (Z.ltb_spec (- n) 0); [|lia]. destruct (Z.leb_spec (- - n) UINT64_MAX); [|lia].
  f_equal. replace (- - - n) with (UINT64_MAX + 1 - n + (-1) * (UINT64_MAX + 1)) by lia.
  rewrite Z.mod_add by done. apply Z.mod_small. lia.
Qed.

Lemma strtoull_range s : 0 ≤ (strtoull s).1 ≤ UINT64_MAX.
Proof.
  unfold strtoull. destruct (strto_scan s) as [[[neg v] rest]|] eqn:Es; [|cbn; unfold UINT64_MAX; lia].
  destruct (Z.leb_spec v UINT64_MAX) as [Hv|]; [|cbn; unfold UINT64_MAX; lia]. apply strto_scan_nonneg in Es.
  cbn. destruct neg; [|lia]. pose proof (Z.mod_pos_bound (- v) (UINT64_MAX + 1)). unfold UINT64_MAX in *. lia.
Qed.

(** What a text gives is written into the value also when it is not a number and the
    getter fails: nothing of the value is left. *)
Theorem malformed_text_is_written l key text value :
  string_empty key = false → obj_find (c_str key) l = Some (JString text) → string_empty text = false →
  GetUint64FromJson (Some (JObject l)) key value = ((strtoull text).2, (strtoull text).1).
Proof.
  intros Hk Hf Ht. rewrite <-find_item_object in Hf by done.
  unfold GetUint64FromJson. rewrite (find_item_key_exists _ _ _ Hf), Hf, Ht. by destruct (strtoull text).
Qed.

Lemma GetIntFromJson_range j key z : GetIntFromJson j key = Some z → is_i32 z.
Proof.
  unfold GetIntFromJson. destruct (find_item j key) as [[]|]; intros Hz; simplify_eq.
  - by apply double_to_int_range.
  - destruct (string_empty s); [done|]. apply bind_Some in Hz as (v & _ & Hz).
    destruct (Z.ltb_spec v INT32_MIN), (Z.ltb_spec INT32_MAX v); simplify_eq/=.
    unfold is_i32, INT32_MIN, INT32_MAX in *; lia.
Qed.

(** Whatever the document, a number a getter yields is in the range of the
    type it is stored in: [int32_t] for [GetIntFromJson] and the elements of
    [GetVectorIntFromJson], the 64-bit types for theirs, a byte for the elements
    of [GetVectorUint8FromJson]. *)
Theorem getters_in_range j key z :
  (GetIntFromJson j key = Some z → is_i32 z) ∧
  (GetInt64FromJson j key = Some z → INT64_MIN ≤ z ≤ INT64_MAX) ∧
  (∀ value0, 0 ≤ value0 ≤ UINT64_MAX → (GetUint64FromJson j key value0).2 = z → 0 ≤ z ≤ UINT64_MAX) ∧
  (GetUint32FromJson j key = Some z → is_u32 z) ∧
  (∀ zs, GetVectorIntFromJson j key = Some zs → z ∈ zs → is_i32 z) ∧
  (z ∈ GetVectorUint8FromJson j key → 0 ≤ z < 256).
Proof.
  unfold GetInt64FromJson, GetUint64FromJson, GetVectorIntFromJson, GetVectorUint8FromJson.
  split_and!.
  - apply GetIntFromJson_range.
  - destruct (IsKeyExist j key); [|done]. destruct (find_item j key) as [[]|]; try done.
    + intros [= <-]. by apply double_to_int_range.
    + destruct (string_empty s); [done|]. unfold strtol_whole.
      destruct (strto_scan s) as [[[neg v] []]|]; try done.
      case_match eqn:E; [|done]. intros [= <-]. apply andb_true_iff in E as [?%Z.leb_le ?%Z.leb_le]. done.
  - intros value0 H0. destruct (IsKeyExist j key); [|by intros <-]. destruct (find_item j key) as [[]|]; try by intros <-.
    + intros <-. by apply double_to_int_range.
    + destruct (string_empty s); [by intros <-|]. pose proof (strtoull_range s) as H. destruct (strtoull s) as [v b].
      by intros <-.
  - intros Hz. apply fmap_Some in Hz as (v & _ & ->). apply u32_range.
  - intros zs. destruct (IsArray _); [|done]. intros [= <-].
    rewrite list_elem_of_omap. intros (item & _ & Hz). destruct item; simplify_eq.
    by apply double_to_int_range.
  - destruct (IsKeyExist j key); [|set_solver]. destruct (IsArray _); [|set_solver].
    rewrite list_elem_of_omap. intros (item & _ & Hz). destruct item; simplify_eq.
    by apply Z.mod_pos_bound.
Qed.

Context {alloc : CJsonAlloc}.

(** Sets and maps of strings survive the way into a document and back: with
    memory available, [AddSetStringToJson] then [GetSetStringFromJson] under the
    same key yields the same set added to what the caller had, and
    [CreateJsonFromMap] then [PackJsonToMap] the same map, when the strings hold
    no null character and the set fits the array size type. *)
Theorem string_containers_roundtrip l key X Y m :
  string_empty key = false → (∀ x, x ∈ X → nul_free x) → Z.of_nat (size X) ≤ INT32_MAX →
  map_Forall (λ k v, nul_free k ∧ nul_free v) m →
  (∃ j', AddSetStringToJson (Some (JObject l)) key X = Some j' ∧
     GetSetStringFromJson (Some j') key Y = Some (Y ∪ X)) ∧
  PackJsonToMap (CreateJsonFromMap m) = m.
Proof.
  intros Hk HX Hs Hm. split.
  - eexists. split; [by apply AddSetStringToJson_eq|].
    unfold GetSetStringFromJson. rewrite find_item_set by done. simpl IsArray.
    rewrite array_items_array by (rewrite length_fmap, set_list_length; done).
    f_equal. apply set_string_fold, HX.
  - rewrite CreateJsonFromMap_eq. set (f := λ kv : string * string, (c_str kv.1, c_str kv.2)).
    assert (Hid : f <$> map_list m = map_list m).
    { rewrite <-(list_fmap_id (map_list m)) at 2.
      apply Forall_fmap_ext_1, Forall_forall. intros [k v] Hkv%elem_of_map_list.
      destruct (Hm k v Hkv) as [Hk' Hv']. unfold f, nul_free in *. simpl. by rewrite Hk', Hv'. }
    etransitivity; [apply (map_string_fold f)|]; rewrite Hid;
      [apply map_list_NoDup|apply list_to_map_map_list].
Qed.
End Properties.

Section Witnesses.
Import TreeLib.

Lemma int64_text_roundtrip_witness :
  GetInt64FromJson (AddInt64ToJson (Some (JObject [])) "createTime" (-5)) "createTime" = Some (-5).
Proof.
  destruct (AddInt64ToJson (Some (JObject [])) "createTime" (-5)) as [j'|] eqn:E; [|discriminate E].
  refine (proj1 (proj1 (int64_text_roundtrip [] "createTime" (-5) j') _ E)). by vm_compute.
Defined.

Lemma uint64_getter_takes_negative_text_witness :
  GetUint64FromJson (Some (JObject [("credentialId", JString "-1")])) "credentialId" 0
  = (true, 18446744073709551615).
Proof.
  exact (uint64_getter_takes_negative_text [("credentialId", JString "-1")] "credentialId" 1 0
    eq_refl (conj eq_refl (proj1 (Z.leb_le 1 UINT64_MAX) eq_refl)) eq_refl).
Defined.

Lemma malformed_text_is_written_witness :
  GetUint64FromJson (Some (JObject [("displayId", JString "none")])) "displayId" 3 = (false, 0).
Proof. exact (malformed_text_is_written [("displayId", JString "none")] "displayId" "none" 3 eq_refl eq_refl eq_refl). Defined.

Lemma getters_in_range_witness :
  is_i32 7 ∧ GetIntFromJson (Some (JObject [("id", JString "7")])) "id" = Some 7.
Proof.
  split; [|reflexivity].
  exact (proj1 (getters_in_range (Some (JObject [("id", JString "7")])) "id" 7) eq_refl).
Defined.

Lemma string_containers_roundtrip_witness :
  ∃ j', AddSetStringToJson (Some (JObject [])) "authList" {[ "com.a"; "com.b" ]} = Some j' ∧
    GetSetStringFromJson (Some j') "authList" ∅ = Some {[ "com.a"; "com.b" ]}.
Proof.
  destruct (string_containers_roundtrip [] "authList" {[ "com.a"; "com.b" ]} ∅ ∅) as [H _].
  - done.
  - intros x Hx. apply elem_of_union in Hx as [->%elem_of_singleton| ->%elem_of_singleton]; done.
  - by vm_compute.
  - apply map_Forall_empty.
  - by rewrite (left_id_L ∅ (∪)) in H.
Defined.
End Witnesses.
