(* ===== verification/AppAccountInfo.v ===== *)
(** The app account value object, frameworks/appaccount/native: [AppAccountInfo]
    with its authorized apps, associated data, credentials and OAuth tokens.

    A method that changes the object is a computation over [AppAccountInfo]
    ([M AppAccountInfo]); a const method is a function of it.  Associated data
    and credentials are kept as JSON text and go through the wrappers of
    [Json]. *)
From Stdlib Require Import ZArith Lia Ascii String.
From stdpp Require Import base list gmap sets strings pretty sorting.
From S2P Require Import Prelude ErrorCodes Json.

(** ** Constants (app_account_info_json_parser.h, app_account_constants.h) *)

Definition HYPHEN : ascii := "#".
Definition APP_INDEX : Z := 0.
Definition MAX_TOKEN_NUMBER : Z := 128.
Definition MAX_OAUTH_LIST_SIZE : Z := 512.
Definition MAX_ASSOCIATED_DATA_NUMBER : Z := 1024.
Definition MAX_APP_AUTH_LIST_SIZE : Z := 1024.
Definition HASH_LENGTH : nat := 32.
Definition MAX_MAP_SZIE : Z := 1024.
Definition MAX_CUSTOM_DATA_SIZE : Z := 1024.
Definition API_VERSION7 : Z := 7.
Definition API_VERSION8 : Z := 8.
Definition API_VERSION9 : Z := 9.
Definition DUAL_MODE_APP_INDEX : Z := 10000.

(** ** Data *)

(** [OAuthTokenInfo], app_account_info.h *)
Record OAuthTokenInfo := mkOAuthTokenInfo {
  authType : string;
  token : string;
  authList : gset string;
  status : bool;
}.

(** A fresh [OAuthTokenInfo]: [status] starts as [true]. *)
Definition OAuthTokenInfo_new : OAuthTokenInfo := mkOAuthTokenInfo "" "" ∅ true.

(** [AppAccountInfo], app_account_info.h *)
Record AppAccountInfo := mkAppAccountInfo {
  owner_ : string;
  name_ : string;
  alias_ : string;
  appIndex_ : Z;
  extraInfo_ : string;
  authorizedApps_ : gset string;
  syncEnable_ : bool;
  associatedData_ : string;
  accountCredential_ : string;
  oauthTokens_ : gmap string OAuthTokenInfo;
}.

#[export] Instance OAuthTokenInfo_eq_dec : EqDecision OAuthTokenInfo.
Proof. solve_decision. Defined.
#[export] Instance AppAccountInfo_eq_dec : EqDecision AppAccountInfo.
Proof. solve_decision. Defined.

(** Field updates. *)
Definition set_alias a i := mkAppAccountInfo (owner_ i) (name_ i) a (appIndex_ i) (extraInfo_ i)
  (authorizedApps_ i) (syncEnable_ i) (associatedData_ i) (accountCredential_ i) (oauthTokens_ i).
Definition set_apps a i := mkAppAccountInfo (owner_ i) (name_ i) (alias_ i) (appIndex_ i) (extraInfo_ i)
  a (syncEnable_ i) (associatedData_ i) (accountCredential_ i) (oauthTokens_ i).
Definition set_associated d i := mkAppAccountInfo (owner_ i) (name_ i) (alias_ i) (appIndex_ i)
  (extraInfo_ i) (authorizedApps_ i) (syncEnable_ i) d (accountCredential_ i) (oauthTokens_ i).
Definition set_credential c i := mkAppAccountInfo (owner_ i) (name_ i) (alias_ i) (appIndex_ i)
  (extraInfo_ i) (authorizedApps_ i) (syncEnable_ i) (associatedData_ i) c (oauthTokens_ i).
Definition set_tokens t i := mkAppAccountInfo (owner_ i) (name_ i) (alias_ i) (appIndex_ i)
  (extraInfo_ i) (authorizedApps_ i) (syncEnable_ i) (associatedData_ i) (accountCredential_ i) t.
Definition set_extra e i := mkAppAccountInfo (owner_ i) (name_ i) (alias_ i) (appIndex_ i) e
  (authorizedApps_ i) (syncEnable_ i) (associatedData_ i) (accountCredential_ i) (oauthTokens_ i).
Definition set_sync b i := mkAppAccountInfo (owner_ i) (name_ i) (alias_ i) (appIndex_ i) (extraInfo_ i)
  (authorizedApps_ i) b (associatedData_ i) (accountCredential_ i) (oauthTokens_ i).
Definition set_token_status t b := mkOAuthTokenInfo (authType t) (token t) (authList t) b.
Definition set_token_text t s := mkOAuthTokenInfo (authType t) s (authList t) (status t).
Definition set_token_list t l := mkOAuthTokenInfo (authType t) (token t) l (status t).

(** The digest of the OpenSSL library; [None] when the library is loaded at run
    time and cannot be. *)
Class OpenSSL := SHA256 : string → option (list Z).

(** ** Operations *)

Section Operations.
Context {cfg : Config} {cjson : CJsonLib} {target : Target} {ssl : OpenSSL}.

Definition hex_char (n : Z) : ascii :=
  Ascii.ascii_of_N (Z.to_N (if n <? 10 then 48 + n else 55 + n)).

(** The output parameter is left as it is when the library cannot be loaded.

    [ComputeHash], app_account_info.cpp *)
Definition ComputeHash (input output : string) : string :=
  match SHA256 input with
  | None => output
  | Some hash =>
      foldr (λ b s, String (hex_char (b `div` 16)) (String (hex_char (b `mod` 16)) s))
            EmptyString (take HASH_LENGTH hash)
  end.

(** [AppAccountInfo::AppAccountInfo]#1, app_account_info.cpp *)
Definition AppAccountInfo_default : AppAccountInfo :=
  mkAppAccountInfo "" "" "" APP_INDEX "" ∅ false "" "" ∅.

(** [AppAccountInfo::AppAccountInfo]#2, app_account_info.cpp *)
Definition AppAccountInfo_new (name owner : string) : AppAccountInfo :=
  mkAppAccountInfo owner name "" APP_INDEX "" ∅ false "" "" ∅.

(** [AppAccountInfo::SetOwner], app_account_info.cpp *)
Definition SetOwner (owner : string) (i : AppAccountInfo) : AppAccountInfo :=
  mkAppAccountInfo owner (name_ i) "" (appIndex_ i) (extraInfo_ i) (authorizedApps_ i)
    (syncEnable_ i) (associatedData_ i) (accountCredential_ i) (oauthTokens_ i).

(** [AppAccountInfo::SetName], app_account_info.cpp *)
Definition SetName (name : string) (i : AppAccountInfo) : AppAccountInfo :=
  mkAppAccountInfo (owner_ i) name "" (appIndex_ i) (extraInfo_ i) (authorizedApps_ i)
    (syncEnable_ i) (associatedData_ i) (accountCredential_ i) (oauthTokens_ i).

(** [AppAccountInfo::SetAppIndex], app_account_info.cpp *)
Definition SetAppIndex (appIndex : Z) (i : AppAccountInfo) : AppAccountInfo :=
  mkAppAccountInfo (owner_ i) (name_ i) "" appIndex (extraInfo_ i) (authorizedApps_ i)
    (syncEnable_ i) (associatedData_ i) (accountCredential_ i) (oauthTokens_ i).

(** [AppAccountInfo::GetExtraInfo], app_account_info.cpp *)
Definition GetExtraInfo (i : AppAccountInfo) : string := extraInfo_ i.
(** [AppAccountInfo::SetExtraInfo], app_account_info.cpp *)
Definition SetExtraInfo (extraInfo : string) (i : AppAccountInfo) : AppAccountInfo :=
  set_extra extraInfo i.
(** [AppAccountInfo::GetSyncEnable], app_account_info.cpp *)
Definition GetSyncEnable (i : AppAccountInfo) : bool := syncEnable_ i.
(** [AppAccountInfo::SetSyncEnable], app_account_info.cpp *)
Definition SetSyncEnable (syncEnable : bool) (i : AppAccountInfo) : AppAccountInfo :=
  set_sync syncEnable i.
(** [AppAccountInfo::GetAuthorizedApps], app_account_info.cpp *)
Definition GetAuthorizedApps (i : AppAccountInfo) : gset string := authorizedApps_ i.
(** [AppAccountInfo::SetAuthorizedApps], app_account_info.cpp *)
Definition SetAuthorizedApps (apps : gset string) (i : AppAccountInfo) : AppAccountInfo :=
  set_apps apps i.

(** [AppAccountInfo::EncodeAuthorizedApp], app_account_info.cpp *)
Definition EncodeAuthorizedApp (bundleName : string) (appIndex : Z) : string :=
  if ENABLE_MULTIPLE_OS_ACCOUNT_SUBSPACE then bundleName +:+ String HYPHEN (to_string appIndex)
  else if appIndex =? 0 then bundleName
  else bundleName +:+ String HYPHEN (to_string appIndex).

(** The loop over the characters of the index, in [uint64_t]. *)
Fixpoint parse_index (parsed : Z) (indexStr : string) : option Z :=
  match indexStr with
  | EmptyString => Some (u32 parsed)
  | String c rest =>
      if negb (is_digit c) then None
      else
        let parsed := (parsed * 10 + digit_value c) `mod` 18446744073709551616 in
        if UINT32_MAX <? parsed then None else parse_index parsed rest
  end.

(** [AppAccountInfo::ParseAuthorizedApp], app_account_info.cpp *)
Definition ParseAuthorizedApp (entry : string) : option (string * Z) :=
  match rfind HYPHEN entry with
  | None => Some (entry, 0)
  | Some pos =>
      let bundleName := substr 0 pos entry in
      let indexStr := substr_from (S pos) entry in
      if string_empty indexStr then None
      else (pair bundleName) <$> parse_index 0 indexStr
  end.

(** [AppAccountInfo::IsSelfBundle], app_account_info.cpp *)
Definition IsSelfBundle (bundleName : string) (i : AppAccountInfo) : bool :=
  match ParseAuthorizedApp bundleName with
  | Some (rawBundle, appIdx) =>
      bool_decide (rawBundle = owner_ i) && (appIdx =? appIndex_ i)
  | None => bool_decide (bundleName = owner_ i)
  end.

(** [AppAccountInfo::GetPrimeKey], app_account_info.cpp *)
Definition GetPrimeKey (i : AppAccountInfo) : string :=
  owner_ i +:+ String HYPHEN (to_string (appIndex_ i)
    +:+ String HYPHEN (name_ i +:+ String HYPHEN EmptyString)).

(** The digest of the key, computed once.

    [AppAccountInfo::GetAlias], app_account_info.cpp *)
Definition GetAlias : M AppAccountInfo string :=
  i ← mget;
  if HAS_ASSET_PART then
    if string_empty (alias_ i) then
      let a := ComputeHash (GetPrimeKey i) (alias_ i) in
      _ ← mput (set_alias a i); mret a
    else mret (alias_ i)
  else mret (alias_ i).

(** [AppAccountInfo::EnableAppAccess], app_account_info.cpp *)
Definition EnableAppAccess (authorizedApp : string) (apiVersion : Z) : M AppAccountInfo unit :=
  i ← mget;
  let inserted := bool_decide (authorizedApp ∉ authorizedApps_ i) in
  let apps := {[ authorizedApp ]} ∪ authorizedApps_ i in
  _ ← mput (set_apps apps i);
  if negb inserted && (apiVersion <? API_VERSION9) then
    merr ERR_APPACCOUNT_SERVICE_ENABLE_APP_ACCESS_ALREADY_EXISTS
  else if MAX_APP_AUTH_LIST_SIZE <? Z.of_nat (size apps) then
    _ ← mput (set_apps (apps ∖ {[ authorizedApp ]}) i);
    merr ERR_APPACCOUNT_SERVICE_OAUTH_LIST_MAX_SIZE
  else mret tt.

(** [AppAccountInfo::DisableAppAccess], app_account_info.cpp *)
Definition DisableAppAccess (authorizedApp : string) (apiVersion : Z) : M AppAccountInfo unit :=
  i ← mget;
  let found := bool_decide (authorizedApp ∈ authorizedApps_ i) in
  _ ← mput (set_apps (authorizedApps_ i ∖ {[ authorizedApp ]}) i);
  if negb found && (apiVersion <? API_VERSION9) then
    merr ERR_APPACCOUNT_SERVICE_DISABLE_APP_ACCESS_NOT_EXISTED
  else mret tt.

(** [AppAccountInfo::CheckAppAccess], app_account_info.cpp *)
Definition CheckAppAccess (authorizedApp : string) (i : AppAccountInfo) : bool :=
  bool_decide (authorizedApp ∈ authorizedApps_ i).

(** [AppAccountInfo::InitCustomData], app_account_info.cpp *)
Definition InitCustomData (data : gmap string string) : M AppAccountInfo unit :=
  match CreateJsonFromMap data with
  | None => merr ERR_ACCOUNT_COMMON_DUMP_JSON_ERROR
  | Some jsonObject =>
      let text := PackJsonToString (Some jsonObject) in
      _ ← mmodify (set_associated text);
      if string_empty text then merr ERR_ACCOUNT_COMMON_DUMP_JSON_ERROR else mret tt
  end.

(** [AppAccountInfo::GetAllAssociatedData], app_account_info.cpp *)
Definition GetAllAssociatedData (i : AppAccountInfo) : result (gmap string string) :=
  let jsonObject := CreateJsonFromString (associatedData_ i) in
  if IsObject jsonObject then Ok (PackJsonToMap jsonObject)
  else Err ERR_ACCOUNT_COMMON_DUMP_JSON_ERROR.

(** The stored document, or a fresh object when there is none or it does not
    parse. *)
Definition parse_or_create (text : string) : option CJson :=
  match CreateJsonFromString text with
  | Some j => Some j
  | None => CreateJson
  end.

(** [AppAccountInfo::GetAssociatedData], app_account_info.cpp *)
Definition GetAssociatedData (key : string) (i : AppAccountInfo) : result string :=
  let jsonObject := parse_or_create (associatedData_ i) in
  if IsKeyExist jsonObject key then Ok (GetStringFromJson_value jsonObject key)
  else Err ERR_APPACCOUNT_SERVICE_ASSOCIATED_DATA_KEY_NOT_EXIST.

(** [AppAccountInfo::SetAssociatedData], app_account_info.cpp *)
Definition SetAssociatedData (key value : string) : M AppAccountInfo unit :=
  i ← mget;
  let jsonObject := parse_or_create (associatedData_ i) in
  if negb (IsKeyExist jsonObject key)
     && (MAX_ASSOCIATED_DATA_NUMBER <=? u32 (GetItemNum jsonObject)) then
    merr ERR_APPACCOUNT_SERVICE_ASSOCIATED_DATA_OVER_SIZE
  else
    match AddStringToJson jsonObject key value with
    | None => merr ERR_ACCOUNT_COMMON_DUMP_JSON_ERROR
    | Some jsonObject =>
        let text := PackJsonToString (Some jsonObject) in
        _ ← mput (set_associated text i);
        if string_empty text then merr ERR_ACCOUNT_COMMON_DUMP_JSON_ERROR else mret tt
    end.

(** [AppAccountInfo::GetAccountCredential], app_account_info.cpp *)
Definition GetAccountCredential (credentialType : string) (i : AppAccountInfo) : result string :=
  let jsonObject := parse_or_create (accountCredential_ i) in
  if IsKeyExist jsonObject credentialType then Ok (GetStringFromJson_value jsonObject credentialType)
  else Err ERR_APPACCOUNT_SERVICE_ACCOUNT_CREDENTIAL_NOT_EXIST.

(** Writes the credentials back. *)
Definition pack_credential (jsonObject : CJson) : M AppAccountInfo unit :=
  let text := PackJsonToString (Some jsonObject) in
  _ ← mmodify (set_credential text);
  if string_empty text then merr ERR_ACCOUNT_COMMON_DUMP_JSON_ERROR else mret tt.

(** With the asset store the object keeps only the alias of the credential.

    [AppAccountInfo::SetAccountCredential], app_account_info.cpp *)
Definition SetAccountCredential (credentialType credential : string) : M AppAccountInfo unit :=
  i ← mget;
  jsonObject ←
    (if string_empty (accountCredential_ i) then mret CreateJson
     else
       let j := CreateJsonFromString (accountCredential_ i) in
       if IsObject j then mret j else merr ERR_ACCOUNT_COMMON_BAD_JSON_FORMAT_ERROR);
  if HAS_ASSET_PART then
    if IsKeyExist jsonObject credentialType then mret tt
    else
      let credentialTypeAlias := ComputeHash credentialType "" in
      a ← GetAlias;
      match AddStringToJson jsonObject credentialType (a +:+ credentialTypeAlias) with
      | None => merr ERR_ACCOUNT_COMMON_DUMP_JSON_ERROR
      | Some jsonObject => pack_credential jsonObject
      end
  else
    match AddStringToJson jsonObject credentialType credential with
    | None => merr ERR_ACCOUNT_COMMON_DUMP_JSON_ERROR
    | Some jsonObject => pack_credential jsonObject
    end.

(** [AppAccountInfo::DeleteAccountCredential], app_account_info.cpp *)
Definition DeleteAccountCredential (credentialType : string) : M AppAccountInfo unit :=
  i ← mget;
  let jsonObject := CreateJsonFromString (accountCredential_ i) in
  if IsObject jsonObject then
    let '(n, jsonObject) := DeleteItemFromJson jsonObject credentialType in
    if n =? 0 then merr ERR_APPACCOUNT_SERVICE_ACCOUNT_CREDENTIAL_NOT_EXIST
    else mput (set_credential (PackJsonToString jsonObject) i)
  else merr ERR_APPACCOUNT_SERVICE_ACCOUNT_CREDENTIAL_NOT_EXIST.

(** [AppAccountInfo::GetOAuthToken], app_account_info.cpp *)
Definition GetOAuthToken (type : string) (apiVersion : Z) (i : AppAccountInfo) : result string :=
  match oauthTokens_ i !! type with
  | None => Err ERR_APPACCOUNT_SERVICE_OAUTH_TOKEN_NOT_EXIST
  | Some it =>
      if API_VERSION9 <=? apiVersion then
        if negb (status it) then Err ERR_APPACCOUNT_SERVICE_OAUTH_TOKEN_NOT_EXIST
        else Ok (token it)
      else if string_empty (token it) then Err ERR_APPACCOUNT_SERVICE_OAUTH_TOKEN_NOT_EXIST
      else Ok (token it)
  end.

(** [AppAccountInfo::SetOAuthToken], app_account_info.cpp *)
Definition SetOAuthToken (type text : string) : M AppAccountInfo unit :=
  i ← mget;
  match oauthTokens_ i !! type with
  | Some it =>
      let it := if HAS_ASSET_PART then it else set_token_text it text in
      mput (set_tokens (<[type := set_token_status it true]> (oauthTokens_ i)) i)
  | None =>
      if MAX_TOKEN_NUMBER <=? Z.of_nat (size (oauthTokens_ i)) then
        merr ERR_APPACCOUNT_SERVICE_OAUTH_TOKEN_MAX_SIZE
      else
        let tokenInfo := set_token_status OAuthTokenInfo_new (negb (string_empty text)) in
        stored ← (if HAS_ASSET_PART then
                    let authTypeAlias := ComputeHash type "" in
                    a ← GetAlias; mret (a +:+ authTypeAlias)
                  else mret text);
        mmodify (λ i, set_tokens (<[type := set_token_text tokenInfo stored]> (oauthTokens_ i)) i)
  end.

(** [AppAccountInfo::DeleteOAuthToken], app_account_info.cpp *)
Definition DeleteOAuthToken (type text : string) : M AppAccountInfo unit :=
  i ← mget;
  match oauthTokens_ i !! type with
  | Some it =>
      if bool_decide (token it = text) then
        let it := if HAS_ASSET_PART then it else set_token_text it "" in
        mput (set_tokens (<[type := set_token_status it false]> (oauthTokens_ i)) i)
      else merr ERR_APPACCOUNT_SERVICE_OAUTH_TOKEN_NOT_EXIST
  | None => merr ERR_APPACCOUNT_SERVICE_OAUTH_TOKEN_NOT_EXIST
  end.

(** [AppAccountInfo::DeleteAuthToken], app_account_info.cpp *)
Definition DeleteAuthToken (type text : string) (isOwnerSelf : bool) : M AppAccountInfo unit :=
  i ← mget;
  match oauthTokens_ i !! type with
  | None => merr ERR_APPACCOUNT_SERVICE_OAUTH_TOKEN_NOT_EXIST
  | Some it =>
      if bool_decide (token it ≠ text) then mret tt
      else if isOwnerSelf then mput (set_tokens (delete type (oauthTokens_ i)) i)
      else mput (set_tokens (<[type := set_token_status it false]> (oauthTokens_ i)) i)
  end.

(** [AppAccountInfo::SetOAuthTokenVisibility], app_account_info.cpp *)
Definition SetOAuthTokenVisibility (type bundleName : string) (isVisible : bool) (apiVersion : Z)
  : M AppAccountInfo unit :=
  i ← mget;
  if bool_decide (bundleName = owner_ i) || IsSelfBundle bundleName i then mret tt
  else
  match oauthTokens_ i !! type with
  | None =>
      if API_VERSION9 <=? apiVersion then merr ERR_APPACCOUNT_SERVICE_OAUTH_TYPE_NOT_EXIST
      else if negb isVisible then mret tt
      else if MAX_TOKEN_NUMBER <=? Z.of_nat (size (oauthTokens_ i)) then
        merr ERR_APPACCOUNT_SERVICE_OAUTH_TOKEN_MAX_SIZE
      else
        mput (set_tokens (<[type := set_token_list OAuthTokenInfo_new {[ bundleName ]}]> (oauthTokens_ i)) i)
  | Some it =>
      let put l := mput (set_tokens (<[type := set_token_list it l]> (oauthTokens_ i)) i) in
      if negb isVisible then put (authList it ∖ {[ bundleName ]})
      else
        let l := {[ bundleName ]} ∪ authList it in
        if MAX_OAUTH_LIST_SIZE <? Z.of_nat (size l) then
          _ ← put (l ∖ {[ bundleName ]}); merr ERR_APPACCOUNT_SERVICE_OAUTH_LIST_MAX_SIZE
        else put l
  end.

(** [AppAccountInfo::CheckOAuthTokenVisibility], app_account_info.cpp *)
Definition CheckOAuthTokenVisibility (type bundleName : string) (apiVersion : Z) (i : AppAccountInfo)
  : result bool :=
  if bool_decide (bundleName = owner_ i) || IsSelfBundle bundleName i then Ok true
  else
  match oauthTokens_ i !! type with
  | None =>
      if API_VERSION9 <=? apiVersion then Err ERR_APPACCOUNT_SERVICE_OAUTH_TYPE_NOT_EXIST
      else Ok false
  | Some tokenInfo => Ok (bool_decide (bundleName ∈ authList tokenInfo))
  end.

(** [AppAccountInfo::GetAllOAuthTokens], app_account_info.cpp *)
Definition GetAllOAuthTokens (i : AppAccountInfo) : list OAuthTokenInfo :=
  (map_list (oauthTokens_ i)).*2.

(** [AppAccountInfo::GetOAuthList], app_account_info.cpp *)
Definition GetOAuthList (type : string) (apiVersion : Z) (i : AppAccountInfo) : result (gset string) :=
  match oauthTokens_ i !! type with
  | None =>
      if API_VERSION9 <=? apiVersion then Err ERR_APPACCOUNT_SERVICE_OAUTH_TYPE_NOT_EXIST else Ok ∅
  | Some it => Ok (authList it)
  end.
End Operations.

(** ** The object as a machine *)

(** Every operation of the class that changes the object and does not rename it. *)
Inductive op :=
  | OpEnableAppAccess (authorizedApp : string) (apiVersion : Z)
  | OpDisableAppAccess (authorizedApp : string) (apiVersion : Z)
  | OpSetAuthorizedApps (apps : gset string)
  | OpSetExtraInfo (extraInfo : string)
  | OpSetSyncEnable (syncEnable : bool)
  | OpInitCustomData (data : gmap string string)
  | OpSetAssociatedData (key value : string)
  | OpSetAccountCredential (credentialType credential : string)
  | OpDeleteAccountCredential (credentialType : string)
  | OpSetOAuthToken (type text : string)
  | OpDeleteOAuthToken (type text : string)
  | OpDeleteAuthToken (type text : string) (isOwnerSelf : bool)
  | OpSetOAuthTokenVisibility (type bundleName : string) (isVisible : bool) (apiVersion : Z).

Definition exec {cfg : Config} {cjson : CJsonLib} {target : Target} {ssl : OpenSSL} (o : op)
  : M AppAccountInfo unit :=
  match o with
  | OpEnableAppAccess a v => EnableAppAccess a v
  | OpDisableAppAccess a v => DisableAppAccess a v
  | OpSetAuthorizedApps apps => mmodify (SetAuthorizedApps apps)
  | OpSetExtraInfo e => mmodify (SetExtraInfo e)
  | OpSetSyncEnable b => mmodify (SetSyncEnable b)
  | OpInitCustomData m => InitCustomData m
  | OpSetAssociatedData k v => SetAssociatedData k v
  | OpSetAccountCredential t c => SetAccountCredential t c
  | OpDeleteAccountCredential t => DeleteAccountCredential t
  | OpSetOAuthToken t s => SetOAuthToken t s
  | OpDeleteOAuthToken t s => DeleteOAuthToken t s
  | OpDeleteAuthToken t s b => DeleteAuthToken t s b
  | OpSetOAuthTokenVisibility t b v ver => SetOAuthTokenVisibility t b v ver
  end.

(** The containers are within the limits of the class. *)
Record bounded (i : AppAccountInfo) : Prop := {
  bounded_apps : Z.of_nat (size (authorizedApps_ i)) ≤ MAX_APP_AUTH_LIST_SIZE;
  bounded_tokens : Z.of_nat (size (oauthTokens_ i)) ≤ MAX_TOKEN_NUMBER;
  bounded_lists : map_Forall (λ _ t, Z.of_nat (size (authList t)) ≤ MAX_OAUTH_LIST_SIZE) (oauthTokens_ i);
}.

(** [SetAuthorizedApps] takes the set as it is given. *)
Definition op_bounded (o : op) : Prop :=
  match o with
  | OpSetAuthorizedApps apps => Z.of_nat (size apps) ≤ MAX_APP_AUTH_LIST_SIZE
  | _ => True
  end.

(** What the operations leave alone: who the account is. *)
Definition same_identity (i i' : AppAccountInfo) : Prop :=
  owner_ i' = owner_ i ∧ name_ i' = name_ i ∧ appIndex_ i' = appIndex_ i.

Section Machine.
Context {cfg : Config} {cjson : CJsonLib} {target : Target} {ssl : OpenSSL}.

Lemma size_union_singleton (a : string) (X : gset string) :
  (size ({[ a ]} ∪ X : gset string) ≤ S (size X))%nat.
Proof. rewrite size_union_alt, size_singleton. apply le_n_S, subseteq_size. set_solver. Qed.

Lemma size_difference_le (X Y : gset string) : (size (X ∖ Y) ≤ size X)%nat.
Proof. apply subseteq_size. set_solver. Qed.

Lemma bounded_insert_token i t it :
  bounded i → is_Some (oauthTokens_ i !! t) ∨ Z.of_nat (size (oauthTokens_ i)) < MAX_TOKEN_NUMBER →
  Z.of_nat (size (authList it)) ≤ MAX_OAUTH_LIST_SIZE →
  bounded (set_tokens (<[t := it]> (oauthTokens_ i)) i).
Proof.
  intros [Ha Ht Hl] Hroom Hit. split; simpl; [done| |by apply map_Forall_insert_2].
  destruct Hroom as [[x Hx]|Hlt].
  - by rewrite map_size_insert, Hx.
  - rewrite map_size_insert. destruct (oauthTokens_ i !! t); unfold id; lia.
Qed.

Lemma bounded_set_apps i X :
  bounded i → Z.of_nat (size X) ≤ MAX_APP_AUTH_LIST_SIZE → bounded (set_apps X i).
Proof. intros [Ha Ht Hl] HX. by split. Qed.

Lemma bounded_same i i' :
  bounded i → authorizedApps_ i' = authorizedApps_ i → oauthTokens_ i' = oauthTokens_ i → bounded i'.
Proof. intros [Ha Ht Hl] E1 E2. split; by rewrite ?E1, ?E2. Qed.

Lemma bounded_alias i a : bounded i → bounded (set_alias a i).
Proof. intros H. by apply (bounded_same i). Qed.

Lemma bounded_list i t it :
  bounded i → oauthTokens_ i !! t = Some it → Z.of_nat (size (authList it)) ≤ MAX_OAUTH_LIST_SIZE.
Proof. intros [_ _ Hl] Hit. by apply (Hl t). Qed.

Lemma EnableAppAccess_bounded a v : preserves bounded (EnableAppAccess a v).
Proof.
  intros i Hi. unfold EnableAppAccess; msimpl. pose proof (bounded_apps i Hi).
  pose proof (size_difference_le ({[ a ]} ∪ authorizedApps_ i) {[ a ]}) as Hd.
  destruct (negb _ && _) eqn:E; msimpl.
  - apply bounded_set_apps; [done|]. apply andb_true_iff in E as [Hin%negb_true_iff _].
    apply bool_decide_eq_false, dec_stable in Hin.
    assert ({[ a ]} ∪ authorizedApps_ i = authorizedApps_ i) as -> by set_solver. done.
  - destruct (Z.ltb_spec MAX_APP_AUTH_LIST_SIZE (Z.of_nat (size ({[ a ]} ∪ authorizedApps_ i)))); msimpl.
    + apply bounded_set_apps; [done|].
      assert (({[ a ]} ∪ authorizedApps_ i) ∖ {[ a ]} ⊆ authorizedApps_ i) as Hsub%subseteq_size
        by set_solver. lia.
    + by apply bounded_set_apps.
Qed.

Lemma DisableAppAccess_bounded a v : preserves bounded (DisableAppAccess a v).
Proof.
  intros i Hi. unfold DisableAppAccess; msimpl. pose proof (bounded_apps i Hi).
  pose proof (size_difference_le (authorizedApps_ i) {[ a ]}) as Hd.
  assert (bounded (set_apps (authorizedApps_ i ∖ {[ a ]}) i)) by (apply bounded_set_apps; [done|lia]).
  by destruct (negb _ && _).
Qed.

(** The alias [GetAlias] gives and keeps. *)
Definition alias_of (i : AppAccountInfo) : string :=
  if HAS_ASSET_PART && string_empty (alias_ i) then ComputeHash (GetPrimeKey i) (alias_ i) else alias_ i.

Lemma set_alias_id i : set_alias (alias_ i) i = i.
Proof. by destruct i. Qed.

Lemma run_GetAlias {B} (k : string → M AppAccountInfo B) i :
  (GetAlias ≫= k) i = k (alias_of i) (set_alias (alias_of i) i).
Proof.
  unfold GetAlias, alias_of. rewrite mbind_assoc. msimpl.
  destruct HAS_ASSET_PART; simpl; [destruct (string_empty (alias_ i))|]; rewrite ?mbind_assoc; msimpl;
    by rewrite ?set_alias_id.
Qed.

Lemma SetOAuthToken_bounded t s : preserves bounded (SetOAuthToken t s).
Proof.
  intros i Hi. unfold SetOAuthToken; msimpl. destruct (oauthTokens_ i !! t) as [it|] eqn:Hit; msimpl.
  - apply bounded_insert_token; [done|left; by eexists|].
    pose proof (bounded_list _ _ _ Hi Hit). by destruct HAS_ASSET_PART.
  - destruct (Z.leb_spec MAX_TOKEN_NUMBER (Z.of_nat (size (oauthTokens_ i)))); [done|]. msimpl.
    assert (Hnew : ∀ i' x, bounded i' → oauthTokens_ i' = oauthTokens_ i →
      bounded (set_tokens (<[t := set_token_text (set_token_status OAuthTokenInfo_new (negb (string_empty s))) x]>
        (oauthTokens_ i')) i')).
    { intros i' x Hi' E. apply bounded_insert_token; [done|right; by rewrite E|done]. }
    destruct HAS_ASSET_PART; rewrite ?mbind_assoc, ?run_GetAlias; msimpl; apply Hnew; try done.
    by apply bounded_alias.
Qed.

Lemma DeleteOAuthToken_bounded t s : preserves bounded (DeleteOAuthToken t s).
Proof.
  intros i Hi. unfold DeleteOAuthToken; msimpl. destruct (oauthTokens_ i !! t) as [it|] eqn:Hit; [|done].
  case_bool_decide; [|done]. msimpl. apply bounded_insert_token; [done|left; by eexists|].
  pose proof (bounded_list _ _ _ Hi Hit). by destruct HAS_ASSET_PART.
Qed.

Lemma DeleteAuthToken_bounded t s b : preserves bounded (DeleteAuthToken t s b).
Proof.
  intros i Hi. unfold DeleteAuthToken; msimpl. destruct (oauthTokens_ i !! t) as [it|] eqn:Hit; [|done].
  case_bool_decide; [done|]. destruct b; msimpl.
  - destruct Hi as [Ha Ht Hl]. split; simpl; [done| |by apply map_Forall_delete].
    rewrite map_size_delete, Hit. lia.
  - apply bounded_insert_token; [done|left; by eexists|]. exact (bounded_list _ _ _ Hi Hit).
Qed.

Lemma SetOAuthTokenVisibility_bounded t b v ver : preserves bounded (SetOAuthTokenVisibility t b v ver).
Proof.
  intros i Hi. unfold SetOAuthTokenVisibility; msimpl. destruct (_ || _); [done|].
  destruct (oauthTokens_ i !! t) as [it|] eqn:Hit.
  - pose proof (bounded_list _ _ _ Hi Hit) as Hl.
    assert (Hput : ∀ l, Z.of_nat (size l) ≤ MAX_OAUTH_LIST_SIZE →
      bounded (set_tokens (<[t := set_token_list it l]> (oauthTokens_ i)) i)).
    { intros l Hsz. apply bounded_insert_token; [done|left; by eexists|done]. }
    destruct v; simpl negb; cbv iota.
    + destruct (Z.ltb_spec MAX_OAUTH_LIST_SIZE (Z.of_nat (size ({[ b ]} ∪ authList it)))); msimpl; [|by apply Hput].
      apply Hput. assert (({[ b ]} ∪ authList it) ∖ {[ b ]} ⊆ authList it) as Hsub%subseteq_size
        by set_solver. lia.
    + msimpl. apply Hput. pose proof (size_difference_le (authList it) {[ b ]}). lia.
  - destruct (API_VERSION9 <=? ver); [done|]. destruct v; [|done]. simpl negb; cbv iota.
    destruct (Z.leb_spec MAX_TOKEN_NUMBER (Z.of_nat (size (oauthTokens_ i)))); [done|]. msimpl.
    apply bounded_insert_token; [done|by right|]. cbn [set_token_list authList]. rewrite size_singleton.
    unfold MAX_OAUTH_LIST_SIZE. lia.
Qed.

(** The operations on JSON text touch neither the lists nor the identity. *)
Definition text_only (i i' : AppAccountInfo) : Prop :=
  same_identity i i' ∧ authorizedApps_ i' = authorizedApps_ i ∧ oauthTokens_ i' = oauthTokens_ i ∧
  extraInfo_ i' = extraInfo_ i ∧ syncEnable_ i' = syncEnable_ i.

Lemma text_only_refl i : text_only i i.
Proof. by split_and!. Qed.

Lemma SetAssociatedData_frame k v i : text_only i (SetAssociatedData k v i).2.
Proof.
  unfold SetAssociatedData; msimpl. destruct (negb _ && _); [apply text_only_refl|].
  destruct (AddStringToJson _ _ _); [|apply text_only_refl]. msimpl.
  by destruct (string_empty _).
Qed.

Lemma InitCustomData_frame m i : text_only i (InitCustomData m i).2.
Proof.
  unfold InitCustomData. destruct (CreateJsonFromMap m); [|apply text_only_refl]. msimpl.
  by destruct (string_empty _).
Qed.

Lemma pack_credential_frame j i : text_only i (pack_credential j i).2.
Proof. unfold pack_credential; msimpl. by destruct (string_empty _). Qed.

Lemma SetAccountCredential_frame t c i : text_only i (SetAccountCredential t c i).2.
Proof.
  unfold SetAccountCredential. msimpl.
  assert (Hk : ∀ jsonObject, text_only i
    ((if HAS_ASSET_PART then
        if IsKeyExist jsonObject t then mret tt
        else a ← GetAlias;
          match AddStringToJson jsonObject t (a +:+ ComputeHash t "") with
          | None => merr ERR_ACCOUNT_COMMON_DUMP_JSON_ERROR
          | Some j => pack_credential j
          end
      else match AddStringToJson jsonObject t c with
           | None => merr ERR_ACCOUNT_COMMON_DUMP_JSON_ERROR
           | Some j => pack_credential j
           end) i).2).
  { intros j. destruct HAS_ASSET_PART.
    - destruct (IsKeyExist j t); [apply text_only_refl|]. rewrite run_GetAlias.
      destruct (AddStringToJson _ _ _) as [j'|]; [|done].
      exact (pack_credential_frame j' (set_alias (alias_of i) i)).
    - destruct (AddStringToJson _ _ _); [apply pack_credential_frame|apply text_only_refl]. }
  destruct (string_empty (accountCredential_ i)); [apply Hk|].
  destruct (IsObject _); [apply Hk|apply text_only_refl].
Qed.

Lemma DeleteAccountCredential_frame t i : text_only i (DeleteAccountCredential t i).2.
Proof.
  unfold DeleteAccountCredential; msimpl. destruct (IsObject _); [|apply text_only_refl].
  destruct (DeleteItemFromJson _ _) as [n j]. destruct (n =? 0); [apply text_only_refl|done].
Qed.

Lemma text_only_bounded i i' : bounded i → text_only i i' → bounded i'.
Proof. intros Hi (_ & E1 & E2 & _). by apply (bounded_same i). Qed.

(** No sequence of operations takes the object out of its limits: at most
    1024 authorized apps, 128 OAuth tokens and 512 entries in the visibility list
    of a token, whatever the arguments (a set given to [SetAuthorizedApps] being
    within the limit) and whether each operation succeeds or fails. *)
Theorem operations_keep_limits (ops : list op) (i : AppAccountInfo) :
  bounded i → Forall op_bounded ops → bounded (foldl (λ i o, (exec o i).2) i ops).
Proof.
  intros Hi Hops. revert i Hi. induction Hops as [|o ops Ho _ IH]; intros i Hi; [done|].
  apply IH. destruct o; cbn [exec].
  - by apply EnableAppAccess_bounded.
  - by apply DisableAppAccess_bounded.
  - by apply bounded_set_apps.
  - by apply (bounded_same i).
  - by apply (bounded_same i).
  - by apply (text_only_bounded i), InitCustomData_frame.
  - by apply (text_only_bounded i), SetAssociatedData_frame.
  - by apply (text_only_bounded i), SetAccountCredential_frame.
  - by apply (text_only_bounded i), DeleteAccountCredential_frame.
  - by apply SetOAuthToken_bounded.
  - by apply DeleteOAuthToken_bounded.
  - by apply DeleteAuthToken_bounded.
  - by apply SetOAuthTokenVisibility_bounded.
Qed.

Lemma SetOAuthToken_identity t s i : same_identity i (SetOAuthToken t s i).2.
Proof.
  unfold SetOAuthToken; msimpl. destruct (oauthTokens_ i !! t); [done|].
  destruct (_ <=? _); [done|].
  destruct HAS_ASSET_PART; rewrite ?mbind_assoc, ?run_GetAlias; by msimpl.
Qed.

(** No operation renames the account, so the key it is stored under stays. *)
Lemma exec_identity o i : same_identity i (exec o i).2.
Proof.
  destruct o; cbn [exec].
  - unfold EnableAppAccess; msimpl. destruct (negb _ && _); [done|]. by destruct (_ <? _).
  - unfold DisableAppAccess; msimpl. by destruct (negb _ && _).
  - done.
  - done.
  - done.
  - apply InitCustomData_frame.
  - apply SetAssociatedData_frame.
  - apply SetAccountCredential_frame.
  - apply DeleteAccountCredential_frame.
  - apply SetOAuthToken_identity.
  - unfold DeleteOAuthToken; msimpl. destruct (_ !! _); [|done]. by case_bool_decide.
  - unfold DeleteAuthToken; msimpl. destruct (_ !! _); [|done]. case_bool_decide; [done|].
    by destruct isOwnerSelf.
  - unfold SetOAuthTokenVisibility; msimpl. destruct (_ || _); [done|]. destruct (_ !! _).
    + destruct isVisible; [|done]. simpl negb; cbv iota. by destruct (_ <? _).
    + destruct (_ <=? _); [done|]. destruct isVisible; [|done]. simpl negb; cbv iota. by destruct (_ <=? _).
Qed.
End Machine.

(** ** Names of accounts and applications *)

Section Names.
Context {cfg : Config}.

Lemma string_snoc_inj c s s' : s +:+ String c "" = s' +:+ String c "" → s = s'.
Proof.
  revert s'. induction s as [|a s IH]; intros [|a' s'];
    rewrite ?string_app_nil_l, ?string_app_cons; intros Heq; [done|..]; injection Heq as -> Heq.
  - apply (f_equal String.length) in Heq. rewrite length_string_app in Heq. simpl in Heq. lia.
  - apply (f_equal String.length) in Heq. rewrite length_string_app in Heq. simpl in Heq. lia.
  - f_equal. by apply IH.
Qed.

Lemma HYPHEN_not_digit : is_digit HYPHEN = false.
Proof. done. Qed.

Lemma appIndex_char_free z : is_u32 z → char_free HYPHEN (to_string z).
Proof. intros [??]. by apply to_string_char_free. Qed.

Lemma dec_value_mono acc s : 0 ≤ acc → all_digits s = true → acc ≤ dec_value acc s.
Proof.
  revert acc. induction s as [|a s IH]; intros acc Ha; simpl; [lia|].
  rewrite andb_true_iff. intros [Hd Hs]. unfold is_digit in Hd.
  apply andb_true_iff in Hd as [?%Z.leb_le ?%Z.leb_le].
  specialize (IH (acc * 10 + digit_value a) ltac:(lia) Hs). lia.
Qed.

(** The loop with its early exits computes the decimal value and checks it once. *)
Lemma parse_index_spec acc s :
  is_u32 acc →
  parse_index acc s =
    if all_digits s && (dec_value acc s <=? UINT32_MAX) then Some (dec_value acc s) else None.
Proof.
  revert acc. induction s as [|a s IH]; intros acc Hacc; simpl.
  - rewrite u32_id by done. unfold is_u32, UINT32_MAX in *.
    by destruct (Z.leb_spec acc 4294967295); [|lia].
  - destruct (is_digit a) eqn:Ed; simpl; [|done].
    pose proof Ed as Ed'. unfold is_digit in Ed'. apply andb_true_iff in Ed' as [?%Z.leb_le ?%Z.leb_le].
    unfold is_u32 in Hacc. rewrite (Z.mod_small (_ * _ + _)) by lia.
    destruct (Z.ltb_spec UINT32_MAX (acc * 10 + digit_value a)) as [Hgt|Hle].
    + destruct (all_digits s) eqn:Hs; simpl; [|done].
      pose proof (dec_value_mono (acc * 10 + digit_value a) s ltac:(lia) Hs).
      destruct (Z.leb_spec (dec_value (acc * 10 + digit_value a) s) UINT32_MAX); [lia|done].
    + apply IH. unfold is_u32, UINT32_MAX in *. lia.
Qed.

Lemma ParseAuthorizedApp_sep b d :
  char_free HYPHEN d →
  ParseAuthorizedApp (b +:+ String HYPHEN d) =
    if string_empty d then None
    else if all_digits d && (dec_value 0 d <=? UINT32_MAX) then Some (b, dec_value 0 d) else None.
Proof.
  intros Hd. unfold ParseAuthorizedApp.
  rewrite rfind_app, substr_app_l, substr_from_app by done.
  destruct (string_empty d); [done|]. rewrite parse_index_spec by (unfold is_u32; lia).
  by destruct (all_digits d && _).
Qed.

Lemma rfind_split c s n :
  rfind c s = Some n → ∃ b d, s = b +:+ String c d ∧ char_free c d ∧ n = String.length b.
Proof.
  revert n. induction s as [|a s IH]; intros n; simpl; [done|].
  destruct (rfind c s) as [m|] eqn:E.
  - intros [= <-]. destruct (IH m eq_refl) as (b & d & -> & Hd & ->).
    by exists (String a b), d.
  - destruct (Ascii.eqb_spec a c) as [->|]; [|done]. intros [= <-]. by exists "", s.
Qed.

(** The codec of authorized apps.  Parsing what [EncodeAuthorizedApp] made
    gives the bundle and the index back, for every 32-bit index and every bundle
    name, with one exception: in a build without subspaces the index 0 is not
    written, and then the name must not hold a [#].  Conversely an entry parses
    exactly when it is a name without [#] (the index is then 0) or a name, [#],
    and a non-empty decimal number of at most 32 bits. *)
Theorem authorized_app_codec b i e :
  (is_u32 i → (ENABLE_MULTIPLE_OS_ACCOUNT_SUBSPACE = true ∨ i ≠ 0 ∨ char_free HYPHEN b) →
     ParseAuthorizedApp (EncodeAuthorizedApp b i) = Some (b, i)) ∧
  (ParseAuthorizedApp e = Some (b, i) ↔
     (char_free HYPHEN e ∧ b = e ∧ i = 0) ∨
     ∃ d, e = b +:+ String HYPHEN d ∧ d ≠ "" ∧ all_digits d = true ∧ i = dec_value 0 d ∧ i ≤ UINT32_MAX).
Proof.
  split.
  - intros Hi Hb. assert (Hsep : ParseAuthorizedApp (b +:+ String HYPHEN (to_string i)) = Some (b, i)).
    { rewrite ParseAuthorizedApp_sep by (by apply appIndex_char_free). unfold is_u32 in Hi.
      rewrite to_string_not_empty, to_string_digits, to_string_value by lia. simpl.
      unfold UINT32_MAX. by destruct (Z.leb_spec i 4294967295); [|lia]. }
    unfold EncodeAuthorizedApp. destruct ENABLE_MULTIPLE_OS_ACCOUNT_SUBSPACE; [done|].
    destruct (Z.eqb_spec i 0) as [->|]; [|done]. destruct Hb as [?|[?|Hb]]; [done..|].
    unfold ParseAuthorizedApp. by rewrite Hb.
  - destruct (rfind HYPHEN e) as [n|] eqn:Er.
    + destruct (rfind_split _ _ _ Er) as (b' & d' & -> & Hd' & _).
      rewrite ParseAuthorizedApp_sep by done. split.
      * destruct (string_empty d') eqn:Ed; [done|].
        destruct (all_digits d' && _) eqn:E; [|done]. intros [= <- <-]. right.
        apply andb_true_iff in E as [? ?%Z.leb_le]. exists d'. split_and!; try done. by intros ->.
      * intros [(Hf & _)|(d & Heq & Hne & Hdd & -> & Hle)]; [congruence|].
        assert (Hd : char_free HYPHEN d) by (by apply all_digits_char_free).
        assert (b' = b ∧ d' = d) as [-> ->].
        { pose proof (rfind_app HYPHEN b d Hd) as R1. pose proof (rfind_app HYPHEN b' d' Hd') as R2.
          rewrite Heq, R1 in R2. simplify_eq. 
          pose proof (substr_app_l b HYPHEN d). pose proof (substr_app_l b' HYPHEN d').
          pose proof (substr_from_app b HYPHEN d). pose proof (substr_from_app b' HYPHEN d').
          rewrite Heq, <-R2 in *. split; congruence. }
        assert (string_empty d = false) as -> by (by destruct d). rewrite Hdd, andb_true_l.
        by destruct (Z.leb_spec (dec_value 0 d) UINT32_MAX); [|lia].
    + unfold ParseAuthorizedApp. rewrite Er. split; [intros [= <- <-]; by left|].
      intros [(_ & -> & ->)|(d & -> & _ & Hdd & _)]; [done|].
      assert (Hd : char_free HYPHEN d) by (by apply all_digits_char_free).
      by rewrite rfind_app in Er.
Qed.

(** The storage key of an account identifies it: two accounts whose owners
    hold no [#] and whose indices are 32-bit values have the same key only when
    owner, index and name are the same. *)
Theorem prime_key_injective i i' :
  char_free HYPHEN (owner_ i) → char_free HYPHEN (owner_ i') →
  is_u32 (appIndex_ i) → is_u32 (appIndex_ i') →
  GetPrimeKey i = GetPrimeKey i' → same_identity i i'.
Proof.
  intros Ho Ho' Hx Hx' Heq. unfold GetPrimeKey in Heq.
  apply app_sep_inj in Heq as [Eo Heq]; [|done..].
  apply app_sep_inj in Heq as [Ex Heq]; [|by apply appIndex_char_free..].
  apply string_snoc_inj in Heq as En.
  split_and!; [done|done|]. unfold is_u32 in *. symmetry. by apply to_string_inj; [lia..|].
Qed.
End Names.

(** ** Access control *)

Section Access.
Context {cfg : Config} {cjson : CJsonLib} {target : Target} {ssl : OpenSSL}.

(** Granting and revoking access.  [EnableAppAccess] succeeds by adding the
    app and nothing else; it fails only for an app that has access, below API 9,
    or when the list is full, and then the account is as it was.
    [DisableAppAccess] succeeds by removing the app and nothing else; it fails
    only below API 9 for an app without access, and then the account is as it
    was.  [CheckAppAccess] then answers accordingly for every app. *)
Theorem app_access_control a ver i :
  bounded i →
  (let '(r, i') := EnableAppAccess a ver i in
   match r with
   | Ok _ =>
       i' = set_apps ({[ a ]} ∪ authorizedApps_ i) i ∧ (API_VERSION9 ≤ ver ∨ a ∉ authorizedApps_ i) ∧
       ∀ a', CheckAppAccess a' i' = (bool_decide (a' = a) || CheckAppAccess a' i)
   | Err e =>
       i' = i ∧
       (e = ERR_APPACCOUNT_SERVICE_ENABLE_APP_ACCESS_ALREADY_EXISTS ∧ a ∈ authorizedApps_ i ∧ ver < API_VERSION9 ∨
        e = ERR_APPACCOUNT_SERVICE_OAUTH_LIST_MAX_SIZE ∧ (a ∉ authorizedApps_ i) ∧
          Z.of_nat (size (authorizedApps_ i)) = MAX_APP_AUTH_LIST_SIZE)
   end) ∧
  (let '(r, i') := DisableAppAccess a ver i in
   match r with
   | Ok _ =>
       i' = set_apps (authorizedApps_ i ∖ {[ a ]}) i ∧ (API_VERSION9 ≤ ver ∨ a ∈ authorizedApps_ i) ∧
       ∀ a', CheckAppAccess a' i' = (negb (bool_decide (a' = a)) && CheckAppAccess a' i)
   | Err e =>
       i' = i ∧ e = ERR_APPACCOUNT_SERVICE_DISABLE_APP_ACCESS_NOT_EXISTED ∧
       (a ∉ authorizedApps_ i) ∧ ver < API_VERSION9
   end).
Proof.
  intros Hi. pose proof (bounded_apps i Hi) as Hsz.
  assert (Hid : ∀ X, X = authorizedApps_ i → set_apps X i = i) by (intros X ->; by destruct i).
  split.
  - unfold EnableAppAccess; msimpl. destruct (negb _ && _) eqn:E; msimpl.
    + apply andb_true_iff in E as [Hin%negb_true_iff Hv%Z.ltb_lt].
      apply bool_decide_eq_false, dec_stable in Hin. split; [apply Hid; set_solver|by left].
    + destruct (Z.ltb_spec MAX_APP_AUTH_LIST_SIZE (Z.of_nat (size ({[ a ]} ∪ authorizedApps_ i)))) as [Hgt|Hle];
        msimpl.
      * assert (a ∉ authorizedApps_ i) as Hni.
        { intros Hin. assert ({[ a ]} ∪ authorizedApps_ i = authorizedApps_ i) as Eq by set_solver.
          rewrite Eq in Hgt. lia. }
        split; [apply Hid; set_solver|]. right. split_and!; [done..|].
        pose proof (size_union_singleton a (authorizedApps_ i)). unfold MAX_APP_AUTH_LIST_SIZE in *. lia.
      * split_and!; [done| |].
        -- destruct (decide (a ∈ authorizedApps_ i)); [left|by right].
           rewrite bool_decide_false in E by (intros Hni; by apply Hni). by apply Z.ltb_ge in E.
        -- intros a'. unfold CheckAppAccess. simpl. rewrite <-bool_decide_or.
           apply bool_decide_ext. set_solver.
  - unfold DisableAppAccess; msimpl. destruct (negb _ && _) eqn:E; msimpl.
    + apply andb_true_iff in E as [Hin%negb_true_iff Hv%Z.ltb_lt].
      apply bool_decide_eq_false in Hin. split_and!; [apply Hid; set_solver|done..].
    + split_and!; [done| |].
      * destruct (decide (a ∈ authorizedApps_ i)); [by right|left].
        rewrite bool_decide_false in E by done. by apply Z.ltb_ge in E.
      * intros a'. unfold CheckAppAccess. simpl. rewrite <-bool_decide_not, <-bool_decide_and.
        apply bool_decide_ext. set_solver.
Qed.
End Access.

(** ** OAuth tokens *)

Section Tokens.
Context {cfg : Config} {cjson : CJsonLib} {target : Target} {ssl : OpenSSL}.

(** The text kept for a token: with the asset store only an alias. *)
Definition stored_token (type text : string) (i : AppAccountInfo) : string :=
  if HAS_ASSET_PART then alias_of i +:+ ComputeHash type "" else text.

Lemma SetOAuthToken_run t s i :
  SetOAuthToken t s i =
    match oauthTokens_ i !! t with
    | Some it =>
        (Ok tt, set_tokens (<[t := mkOAuthTokenInfo (authType it) (if HAS_ASSET_PART then token it else s)
                                   (authList it) true]> (oauthTokens_ i)) i)
    | None =>
        if MAX_TOKEN_NUMBER <=? Z.of_nat (size (oauthTokens_ i)) then
          (Err ERR_APPACCOUNT_SERVICE_OAUTH_TOKEN_MAX_SIZE, i)
        else
          (Ok tt, set_tokens (<[t := mkOAuthTokenInfo "" (stored_token t s i) ∅ (negb (string_empty s))]>
                    (oauthTokens_ i)) (if HAS_ASSET_PART then set_alias (alias_of i) i else i))
    end.
Proof.
  unfold SetOAuthToken, stored_token; msimpl. destruct (oauthTokens_ i !! t) as [it|]; msimpl.
  - by destruct HAS_ASSET_PART.
  - destruct (_ <=? _); msimpl; [done|]. destruct HAS_ASSET_PART; rewrite ?mbind_assoc, ?run_GetAlias; by msimpl.
Qed.

(** The life of a token.  Setting a token of an account below the limit of 128
    succeeds; from API 9 the token is then there (for a new type, when the text
    is not empty) and its text is the one set, or with the asset store the one
    kept before or the alias of the account and the type.  Deleting the token
    with its text makes it absent again for API 9 and keeps who may see it.
    Neither touches the tokens of other types.  [DeleteOAuthToken] with another
    text or type fails and changes nothing. *)
Theorem oauth_token_lifecycle type text i :
  Z.of_nat (size (oauthTokens_ i)) < MAX_TOKEN_NUMBER → text ≠ "" →
  (let '(r, i') := SetOAuthToken type text i in
   r = Ok tt ∧
   GetOAuthToken type API_VERSION9 i' =
     Ok (match oauthTokens_ i !! type with
         | Some it => if HAS_ASSET_PART then token it else text
         | None => stored_token type text i
         end) ∧
   ∀ t' v, t' ≠ type → GetOAuthToken t' v i' = GetOAuthToken t' v i) ∧
  (let '(r, i') := DeleteOAuthToken type text i in
   match r with
   | Ok _ =>
       (∃ it, oauthTokens_ i !! type = Some it ∧ token it = text) ∧
       GetOAuthToken type API_VERSION9 i' = Err ERR_APPACCOUNT_SERVICE_OAUTH_TOKEN_NOT_EXIST ∧
       GetOAuthList type API_VERSION9 i' = GetOAuthList type API_VERSION9 i ∧
       ∀ t' v, t' ≠ type → GetOAuthToken t' v i' = GetOAuthToken t' v i
   | Err e =>
       e = ERR_APPACCOUNT_SERVICE_OAUTH_TOKEN_NOT_EXIST ∧ i' = i ∧
       ∀ it, oauthTokens_ i !! type = Some it → token it ≠ text
   end).
Proof.
  intros Hroom Htext. split.
  - rewrite SetOAuthToken_run. unfold GetOAuthToken.
    assert (Hne : negb (string_empty text) = true) by (by destruct text).
    destruct (oauthTokens_ i !! type) as [it|] eqn:Hit.
    + split_and!; [done|simpl; by rewrite lookup_insert_eq|].
      intros t' v Ht'. simpl. by rewrite lookup_insert_ne.
    + destruct (Z.leb_spec MAX_TOKEN_NUMBER (Z.of_nat (size (oauthTokens_ i)))); [lia|].
      split_and!; [done|simpl; by rewrite lookup_insert_eq; simpl; rewrite Hne|].
      intros t' v Ht'. simpl. by rewrite lookup_insert_ne.
  - unfold DeleteOAuthToken, GetOAuthToken, GetOAuthList; msimpl.
    destruct (oauthTokens_ i !! type) as [it|] eqn:Hit; msimpl; [|done].
    case_bool_decide as Htok; msimpl.
    + split_and!; [by exists it|simpl; by rewrite lookup_insert_eq|simpl; rewrite lookup_insert_eq; by destruct HAS_ASSET_PART|].
      intros t' v Ht'. simpl. by rewrite lookup_insert_ne.
    + split_and!; [done..|]. by intros ? [= <-].
Qed.

(** Who sees a token.  The account's own bundle always does, whatever is
    set.  For another bundle [SetOAuthTokenVisibility] on an existing token
    decides: once it succeeds, [CheckOAuthTokenVisibility] gives exactly the
    visibility set, and the answer for every other bundle and type is as before;
    when it fails (the list is full) every answer is as before. *)
Theorem token_visibility_control type b (visible : bool) ver i it :
  bounded i → oauthTokens_ i !! type = Some it →
  let '(r, i') := SetOAuthTokenVisibility type b visible ver i in
  let self := (bool_decide (b = owner_ i) || IsSelfBundle b i)%bool in
  (∀ t' b' v', (t' ≠ type ∨ b' ≠ b) →
     CheckOAuthTokenVisibility t' b' v' i' = CheckOAuthTokenVisibility t' b' v' i) ∧
  match r with
  | Ok _ => CheckOAuthTokenVisibility type b ver i' = Ok (self || visible)
  | Err e =>
      e = ERR_APPACCOUNT_SERVICE_OAUTH_LIST_MAX_SIZE ∧ i' = i ∧ visible = true ∧ self = false ∧
      (b ∉ authList it) ∧ Z.of_nat (size (authList it)) = MAX_OAUTH_LIST_SIZE
  end.
Proof.
  intros Hi Hit. pose proof (bounded_list _ _ _ Hi Hit) as Hsz.
  unfold SetOAuthTokenVisibility; msimpl.
  destruct (bool_decide (b = owner_ i) || IsSelfBundle b i) eqn:Hself; msimpl.
  { split; [done|]. unfold CheckOAuthTokenVisibility. by rewrite Hself. }
  rewrite Hit.
  assert (Hput : ∀ l, (∀ b', b' ≠ b → b' ∈ l ↔ b' ∈ authList it) → b ∈ l ↔ visible = true →
    let i' := set_tokens (<[type := set_token_list it l]> (oauthTokens_ i)) i in
    (∀ t' b' v', t' ≠ type ∨ b' ≠ b →
       CheckOAuthTokenVisibility t' b' v' i' = CheckOAuthTokenVisibility t' b' v' i) ∧
    CheckOAuthTokenVisibility type b ver i' = Ok (false || visible)).
  { intros l Hl Hb i'. unfold i', CheckOAuthTokenVisibility, IsSelfBundle in *. simpl. split.
    - intros t' b' v' Hne. destruct (decide (t' = type)) as [->|].
      + rewrite lookup_insert_eq, Hit. destruct (bool_decide (b' = owner_ i) || _); [done|]. simpl. f_equal.
        apply bool_decide_ext, Hl. by destruct Hne.
      + by rewrite lookup_insert_ne.
    - rewrite Hself, lookup_insert_eq. cbn [set_token_list authList orb]. f_equal.
      destruct (decide (b ∈ l)); [rewrite bool_decide_true by done|rewrite bool_decide_false by done];
        destruct visible; naive_solver. }
  destruct visible; simpl negb; cbv iota.
  - destruct (Z.ltb_spec MAX_OAUTH_LIST_SIZE (Z.of_nat (size ({[ b ]} ∪ authList it)))) as [Hgt|Hle]; msimpl.
    + assert (b ∉ authList it) as Hni.
      { intros Hin. assert ({[ b ]} ∪ authList it = authList it) as Eq by set_solver.
        rewrite Eq in Hgt. lia. }
      assert (Heq : set_tokens (<[type := set_token_list it (({[ b ]} ∪ authList it) ∖ {[ b ]})]> (oauthTokens_ i)) i = i).
      { assert (({[ b ]} ∪ authList it) ∖ {[ b ]} = authList it) as -> by set_solver.
        assert (set_token_list it (authList it) = it) as -> by (by destruct it).
        rewrite insert_id by done. by destruct i. }
      rewrite Heq. split; [done|]. split_and!; try done.
      pose proof (size_union_singleton b (authList it)). unfold MAX_OAUTH_LIST_SIZE in *. lia.
    + apply Hput; set_solver.
  - msimpl. apply Hput; set_solver.
Qed.

(** Below API 9 making an unknown type visible to another bundle creates the
    type with its status set and no text; API 9 then reports that the token
    exists and is the empty text, while below API 9 it does not exist. *)
Theorem visibility_creates_empty_token type b ver i :
  ver < API_VERSION9 → oauthTokens_ i !! type = None →
  (bool_decide (b = owner_ i) || IsSelfBundle b i) = false →
  Z.of_nat (size (oauthTokens_ i)) < MAX_TOKEN_NUMBER →
  let '(r, i') := SetOAuthTokenVisibility type b true ver i in
  r = Ok tt ∧ GetOAuthToken type API_VERSION9 i' = Ok "" ∧
  GetOAuthToken type API_VERSION8 i' = Err ERR_APPACCOUNT_SERVICE_OAUTH_TOKEN_NOT_EXIST.
Proof.
  intros Hv Hn Hself Hroom. unfold SetOAuthTokenVisibility; msimpl. rewrite Hself, Hn.
  destruct (Z.leb_spec API_VERSION9 ver); [lia|]. simpl negb; cbv iota.
  destruct (Z.leb_spec MAX_TOKEN_NUMBER (Z.of_nat (size (oauthTokens_ i)))); [lia|]. msimpl.
  unfold GetOAuthToken. simpl. by rewrite lookup_insert_eq.
Qed.
End Tokens.

(** ** Associated data and credentials *)

Section Texts.
Context {cfg : Config} {cjson : CJsonLib} {laws : CJsonLaws} {alloc : CJsonAlloc}.
Context {target : Target} {ssl : OpenSSL}.

(** An object all of whose values are strings. *)
Definition str_obj (ls : list (string * string)) : CJson :=
  JObject ((λ kv, (kv.1, JString kv.2)) <$> ls).

(** The text represents a map: it is empty, or it was printed from an object of
    strings. *)
Definition text_repr (text : string) (m : gmap string string) : Prop :=
  (text = "" ∧ m = ∅) ∨
  ∃ ls, text = PackJsonToString (Some (str_obj ls)) ∧ m = list_to_map ls ∧ NoDup ls.*1 ∧
    Forall (λ kv, nul_free kv.1 ∧ nul_free kv.2) ls.

Lemma str_obj_ok ls :
  Forall (λ kv, nul_free kv.1 ∧ nul_free kv.2) ls → json_ok (str_obj ls) = true.
Proof.
  intros Hls. unfold json_ok, str_obj. apply andb_true_iff. split.
  - simpl. induction Hls as [|kv ls [Hk Hv] _ IH]; [done|]. cbn.
    by rewrite (bool_decide_eq_true_2 _ Hk), (bool_decide_eq_true_2 _ Hv).
  - apply Nat.ltb_lt. simpl.
    assert (foldr (λ kv n, Nat.max (json_depth kv.2) n) 0%nat
      ((λ kv, (kv.1, JString kv.2)) <$> ls) = 0%nat) as ->.
    { clear. induction ls as [|kv ls IH]; [done|]. cbn. exact IH. }
    unfold CJSON_NESTING_LIMIT. lia.
Qed.

Lemma str_obj_find ls k :
  obj_find k ((λ kv, (kv.1, JString kv.2)) <$> ls) = JString <$> obj_find k ls.
Proof. induction ls as [|[k' v] ls IH]; [done|]. cbn. by case_decide. Qed.

Lemma str_obj_set ls k v :
  JObject (obj_set k (JString v) ((λ kv, (kv.1, JString kv.2)) <$> ls)) = str_obj (obj_set k v ls).
Proof.
  unfold str_obj, obj_set. f_equal. rewrite str_obj_find. destruct (obj_find k ls); simpl.
  - clear. induction ls as [|[k' v'] ls IH]; [done|]. cbn. case_decide; cbn; [done|]. by rewrite <-IH.
  - by rewrite fmap_app.
Qed.

Lemma str_obj_delete ls k :
  JObject (obj_delete k ((λ kv, (kv.1, JString kv.2)) <$> ls)) = str_obj (obj_delete k ls).
Proof.
  unfold str_obj. f_equal. induction ls as [|[k' v'] ls IH]; [done|]. cbn. case_decide; [done|].
  cbn. by rewrite <-IH.
Qed.

(** What the represented text parses to. *)
Lemma text_repr_parse text m :
  text_repr text m →
  ∃ ls, parse_or_create text = Some (str_obj ls) ∧ m = list_to_map ls ∧ NoDup ls.*1 ∧
    Forall (λ kv, nul_free kv.1 ∧ nul_free kv.2) ls ∧
    (string_empty text = false → CreateJsonFromString text = Some (str_obj ls)) ∧
    (string_empty text = true → ls = []).
Proof.
  intros [[-> ->]|(ls & -> & -> & Hnd & Hls)].
  - exists []. unfold parse_or_create. simpl. rewrite CreateJson_eq. split_and!; try done. apply NoDup_nil_2.
  - exists ls. destruct (pack_create (str_obj ls) (str_obj_ok ls Hls)) as [Hc He].
    unfold parse_or_create. rewrite Hc, He. by split_and!.
Qed.

Lemma text_repr_set ls k v :
  NoDup ls.*1 → Forall (λ kv, nul_free kv.1 ∧ nul_free kv.2) ls → nul_free k → nul_free v →
  text_repr (PackJsonToString (Some (str_obj (obj_set k v ls)))) (<[k := v]> (list_to_map ls)).
Proof.
  intros Hnd Hls Hk Hv. right. exists (obj_set k v ls). split_and!; [done| |by apply obj_set_NoDup|by apply obj_set_Forall].
  apply map_eq. intros k'. rewrite obj_find_lookup, obj_find_set. case_decide; subst.
  - by rewrite lookup_insert_eq.
  - by rewrite lookup_insert_ne, obj_find_lookup.
Qed.

Lemma str_obj_exists ls key :
  string_empty key = false →
  IsKeyExist (Some (str_obj ls)) key =
    bool_decide (is_Some ((list_to_map ls : gmap string string) !! c_str key)).
Proof.
  intros Hk. unfold str_obj. rewrite IsKeyExist_object by done. rewrite str_obj_find, obj_find_lookup.
  apply bool_decide_ext. apply fmap_is_Some.
Qed.

Lemma list_to_map_size (ls : list (string * string)) :
  NoDup ls.*1 → size (list_to_map ls : gmap string string) = length ls.
Proof.
  intros Hnd. rewrite <-(length_fmap fst), <-(map_list_length (list_to_map ls)).
  rewrite <-(length_fmap fst (map_list _)). apply Permutation_length.
  rewrite map_list_fst, merge_sort_Permutation. apply NoDup_Permutation; [apply NoDup_elements|done|].
  intros k. rewrite elem_of_elements, elem_of_dom, obj_find_lookup.
  destruct (obj_find k ls) eqn:E.
  - split; [intros _|by eexists]. apply obj_find_In in E. apply list_elem_of_fmap. by exists (k, s).
  - apply obj_find_None in E. split; [by intros []|done].
Qed.

Lemma GetAssociatedData_spec i m key :
  text_repr (associatedData_ i) m → string_empty key = false →
  GetAssociatedData key i =
    match m !! c_str key with
    | Some v => Ok v
    | None => Err ERR_APPACCOUNT_SERVICE_ASSOCIATED_DATA_KEY_NOT_EXIST
    end.
Proof.
  intros Hrepr Hkey. destruct (text_repr_parse _ _ Hrepr) as (ls & Hparse & -> & Hnd & Hls & Hfull & Hempty).
  unfold GetAssociatedData. rewrite Hparse, str_obj_exists by done.
  rewrite obj_find_lookup. unfold GetStringFromJson_value, GetStringFromJson, str_obj.
  rewrite find_item_object, str_obj_find by done.
  destruct (obj_find (c_str key) ls); [by rewrite bool_decide_true by (by eexists)|].
  rewrite bool_decide_false; [done|]. by intros [].
Qed.

Lemma SetAssociatedData_spec i m key value :
  text_repr (associatedData_ i) m → Z.of_nat (size m) ≤ MAX_ASSOCIATED_DATA_NUMBER →
  string_empty key = false →
  let '(r, i') := SetAssociatedData key value i in
  if bool_decide (m !! c_str key = None ∧ Z.of_nat (size m) = MAX_ASSOCIATED_DATA_NUMBER) then
    r = Err ERR_APPACCOUNT_SERVICE_ASSOCIATED_DATA_OVER_SIZE ∧ i' = i
  else r = Ok tt ∧ text_repr (associatedData_ i') (<[c_str key := c_str value]> m).
Proof.
  intros Hrepr Hsize Hkey. destruct (text_repr_parse _ _ Hrepr) as (ls & Hparse & -> & Hnd & Hls & Hfull & Hempty).
  rewrite list_to_map_size in * by done.
  unfold SetAssociatedData; msimpl. rewrite Hparse, str_obj_exists by done.
  unfold MAX_ASSOCIATED_DATA_NUMBER in *.
  unfold str_obj at 1. rewrite GetItemNum_object, length_fmap by
    (rewrite length_fmap; unfold INT32_MAX; lia).
  rewrite u32_id by (unfold is_u32; lia). rewrite <-bool_decide_not.
  case_bool_decide as Hn; destruct (Z.leb_spec 1024 (Z.of_nat (length ls))); simpl andb; cbv iota.
  1: { rewrite bool_decide_true; [done|]. split; [by apply eq_None_not_Some|lia]. }
  all: rewrite bool_decide_false by (intros [Hz ?]; try lia; rewrite Hz in Hn; by destruct Hn).
  all: unfold str_obj; rewrite AddStringToJson_eq by done; rewrite str_obj_set; msimpl.
  all: destruct (pack_create (str_obj (obj_set (c_str key) (c_str value) ls))) as [_ He];
    [apply str_obj_ok, obj_set_Forall; [split; apply c_str_nul_free|done]|].
  all: rewrite He; msimpl; split; [done|]; apply text_repr_set; try done; apply c_str_nul_free.
Qed.

Lemma InitCustomData_spec i d :
  map_Forall (λ k v, nul_free k ∧ nul_free v) d →
  let '(r, i') := InitCustomData d i in r = Ok tt ∧ text_repr (associatedData_ i') d.
Proof.
  intros Hd.
  unfold InitCustomData. rewrite CreateJsonFromMap_eq.
  assert (Hmap : ((λ kv, (c_str kv.1, JString (c_str kv.2))) <$> map_list d)
    = (λ kv, (kv.1, JString kv.2)) <$> map_list d).
  { apply Forall_fmap_ext_1, Forall_forall. intros [k v] Hkv%elem_of_map_list.
    destruct (Hd k v Hkv) as [Ek Ev]. unfold nul_free in *. simpl. by rewrite Ek, Ev. }
  rewrite Hmap. fold (str_obj (map_list d)). msimpl.
  assert (Hok : Forall (λ kv, nul_free kv.1 ∧ nul_free kv.2) (map_list d)).
  { apply Forall_forall. intros [k v] Hkv%elem_of_map_list. by apply (Hd k v). }
  destruct (pack_create _ (str_obj_ok _ Hok)) as [_ He]. rewrite He; msimpl. split; [done|].
  right. exists (map_list d). split_and!; [done|by rewrite list_to_map_map_list|apply map_list_NoDup|done].
Qed.

Lemma GetAllAssociatedData_spec i m :
  text_repr (associatedData_ i) m →
  GetAllAssociatedData i =
    if string_empty (associatedData_ i) then Err ERR_ACCOUNT_COMMON_DUMP_JSON_ERROR else Ok m.
Proof.
  intros Hrepr. destruct (text_repr_parse _ _ Hrepr) as (ls & Hparse & -> & Hnd & Hls & Hfull & Hempty).
  unfold GetAllAssociatedData. destruct (string_empty (associatedData_ i)) eqn:He.
  + unfold CreateJsonFromString. by rewrite He.
  + rewrite Hfull by done. simpl. f_equal.
    etransitivity; [apply (map_string_fold (λ kv : string * string, kv))|]; by rewrite list_fmap_id.
Qed.

(** Associated data behaves as a finite map with at most 1024 keys.  When
    memory is available and the stored text represents the map [m]:
    [GetAssociatedData] looks a key up; [SetAssociatedData] fails and changes
    nothing when the key is new and [m] is full, and otherwise stores a text
    that represents [m] with the key set; [InitCustomData] replaces [m];
    [GetAllAssociatedData] gives [m], except that it fails when nothing was ever
    stored.  Keys and values count up to their first null character. *)
Theorem associated_data_is_a_map i m key value :
  text_repr (associatedData_ i) m → Z.of_nat (size m) ≤ MAX_ASSOCIATED_DATA_NUMBER →
  string_empty key = false →
  GetAssociatedData key i =
    match m !! c_str key with
    | Some v => Ok v
    | None => Err ERR_APPACCOUNT_SERVICE_ASSOCIATED_DATA_KEY_NOT_EXIST
    end ∧
  (let '(r, i') := SetAssociatedData key value i in
   if bool_decide (m !! c_str key = None ∧ Z.of_nat (size m) = MAX_ASSOCIATED_DATA_NUMBER) then
     r = Err ERR_APPACCOUNT_SERVICE_ASSOCIATED_DATA_OVER_SIZE ∧ i' = i
   else r = Ok tt ∧ text_repr (associatedData_ i') (<[c_str key := c_str value]> m)) ∧
  (∀ d, map_Forall (λ k v, nul_free k ∧ nul_free v) d →
     let '(r, i') := InitCustomData d i in r = Ok tt ∧ text_repr (associatedData_ i') d) ∧
  GetAllAssociatedData i =
    if string_empty (associatedData_ i) then Err ERR_ACCOUNT_COMMON_DUMP_JSON_ERROR else Ok m.
Proof.
  intros Hrepr Hsize Hkey. split_and!.
  - by apply GetAssociatedData_spec.
  - by apply SetAssociatedData_spec.
  - intros d Hd. by apply InitCustomData_spec.
  - by apply GetAllAssociatedData_spec.
Qed.

Lemma CreateJsonFromString_repr text m :
  text_repr text m →
  CreateJsonFromString text = None ∧ m = ∅ ∨
  ∃ ls, CreateJsonFromString text = Some (str_obj ls) ∧ m = list_to_map ls ∧ NoDup ls.*1 ∧
    Forall (λ kv, nul_free kv.1 ∧ nul_free kv.2) ls.
Proof.
  intros Hr. destruct (text_repr_parse _ _ Hr) as (ls & _ & -> & Hnd & Hls & Hfull & Hempty).
  destruct (string_empty text) eqn:He.
  - left. rewrite (Hempty eq_refl). split; [|done]. unfold CreateJsonFromString. by rewrite He.
  - right. exists ls. split_and!; auto.
Qed.

Lemma store_credential_spec i ls type text :
  string_empty type = false → NoDup ls.*1 → Forall (λ kv, nul_free kv.1 ∧ nul_free kv.2) ls →
  let '(r, i') :=
    match AddStringToJson (Some (str_obj ls)) type text with
    | None => merr ERR_ACCOUNT_COMMON_DUMP_JSON_ERROR
    | Some j => pack_credential j
    end i in
  r = Ok tt ∧ text_repr (accountCredential_ i') (<[c_str type := c_str text]> (list_to_map ls)).
Proof.
  intros Hk Hnd Hls. unfold str_obj. rewrite AddStringToJson_eq by done. rewrite str_obj_set.
  destruct (pack_create (str_obj (obj_set (c_str type) (c_str text) ls))) as [_ He];
    [apply str_obj_ok, obj_set_Forall; [split; apply c_str_nul_free|done]|].
  unfold pack_credential; msimpl. rewrite He; msimpl. split; [done|].
  apply text_repr_set; try done; apply c_str_nul_free.
Qed.

(** Credentials behave as a finite map.  When memory is available and the
    stored text represents [m], [GetAccountCredential] looks a type up,
    [DeleteAccountCredential] removes one that is there and fails and changes
    nothing otherwise, and [SetAccountCredential] succeeds: without the asset
    store it sets the type to the credential; with it, the text kept is an alias
    made from the account and the type, and a type that is there keeps the alias
    it has. *)
Theorem credentials_are_a_map i m type credential :
  text_repr (accountCredential_ i) m → string_empty type = false →
  GetAccountCredential type i =
    match m !! c_str type with
    | Some v => Ok v
    | None => Err ERR_APPACCOUNT_SERVICE_ACCOUNT_CREDENTIAL_NOT_EXIST
    end ∧
  (let '(r, i') := SetAccountCredential type credential i in
   r = Ok tt ∧
   text_repr (accountCredential_ i')
     (if HAS_ASSET_PART then
        if bool_decide (is_Some (m !! c_str type)) then m
        else <[c_str type := c_str (alias_of i +:+ ComputeHash type "")]> m
      else <[c_str type := c_str credential]> m)) ∧
  (let '(r, i') := DeleteAccountCredential type i in
   if bool_decide (is_Some (m !! c_str type)) then
     r = Ok tt ∧ text_repr (accountCredential_ i') (delete (c_str type) m)
   else r = Err ERR_APPACCOUNT_SERVICE_ACCOUNT_CREDENTIAL_NOT_EXIST ∧ i' = i).
Proof.
  intros Hrepr Hkey.
  destruct (text_repr_parse _ _ Hrepr) as (ls & Hparse & -> & Hnd & Hls & Hfull & Hempty).
  split_and!.
  - unfold GetAccountCredential. rewrite Hparse, str_obj_exists by done.
    rewrite obj_find_lookup. unfold GetStringFromJson_value, GetStringFromJson, str_obj.
    rewrite find_item_object, str_obj_find by done.
    destruct (obj_find (c_str type) ls); [by rewrite bool_decide_true by (by eexists)|].
    rewrite bool_decide_false; [done|]. by intros [].
  - unfold SetAccountCredential; msimpl.
    assert (Hobj : (if string_empty (accountCredential_ i) then mret CreateJson
       else if IsObject (CreateJsonFromString (accountCredential_ i))
         then mret (CreateJsonFromString (accountCredential_ i))
         else merr ERR_ACCOUNT_COMMON_BAD_JSON_FORMAT_ERROR)
      = (mret (Some (str_obj ls)) : M AppAccountInfo _)).
    { destruct (string_empty (accountCredential_ i)) eqn:He.
      - rewrite Hempty by done. by rewrite CreateJson_eq.
      - by rewrite Hfull by done. }
    rewrite Hobj; msimpl. destruct HAS_ASSET_PART eqn:Hasset.
    + rewrite str_obj_exists by done. case_bool_decide; msimpl; [done|]. rewrite run_GetAlias.
      exact (store_credential_spec (set_alias (alias_of i) i) ls type _ Hkey Hnd Hls).
    + exact (store_credential_spec i ls type credential Hkey Hnd Hls).
  - unfold DeleteAccountCredential; msimpl.
    destruct (CreateJsonFromString_repr _ _ Hrepr) as [[-> Hm]|(ls' & -> & Hm & Hnd' & Hls')].
    { simpl IsObject. msimpl. rewrite Hm. by rewrite bool_decide_false by (by intros []). }
    simpl IsObject. cbv iota. unfold DeleteItemFromJson. rewrite str_obj_exists by done. rewrite <-Hm.
    case_bool_decide as Hin; [|done]. simpl. split; [done|]. unfold str_obj. rewrite delete_from_object, str_obj_delete, Hm.
    right. exists (obj_delete (c_str type) ls').
    split_and!; [done| |by apply obj_delete_NoDup|by apply obj_delete_Forall].
    apply map_eq. intros k. rewrite obj_find_lookup, obj_delete_find by done. case_decide; subst.
    + by rewrite lookup_delete_eq.
    + by rewrite lookup_delete_ne, obj_find_lookup.
Qed.
End Texts.

(** ** The properties at concrete accounts *)

Section Witnesses.
Import TreeLib.

#[local] Instance plain : Config := {|
  HAS_ASSET_PART := false; ENABLE_MULTIPLE_OS_ACCOUNT_SUBSPACE := false;
  DISTRIBUTED_FEATURE_ENABLED := false; SQLITE_DLCLOSE_ENABLE := false |}.
#[local] Instance no_ssl : OpenSSL := λ _, None.

Definition an_account : AppAccountInfo :=
  set_tokens {[ "read" := mkOAuthTokenInfo "read" "t0" {[ "com.b" ]} true ]}
    (set_apps {[ "com.b" ]} (AppAccountInfo_new "alice" "com.example")).

Lemma an_account_bounded : bounded an_account.
Proof. split; [by vm_compute..|]. apply map_Forall_singleton. by vm_compute. Qed.

Lemma operations_keep_limits_witness :
  bounded (foldl (λ i o, (exec o i).2) an_account
    [OpEnableAppAccess "com.c" 7; OpSetOAuthToken "write" "t1"; OpSetAssociatedData "k" "v"]).
Proof.
  refine (operations_keep_limits _ an_account an_account_bounded _). by repeat constructor.
Defined.

Lemma authorized_app_codec_witness :
  ParseAuthorizedApp (EncodeAuthorizedApp "com.example" 10000) = Some ("com.example", 10000).
Proof.
  refine (proj1 (authorized_app_codec "com.example" 10000 "") _ _); [by vm_compute|by right; left].
Defined.

Lemma prime_key_injective_witness :
  same_identity an_account (SetExtraInfo "x" an_account).
Proof. by apply (prime_key_injective an_account (SetExtraInfo "x" an_account)). Defined.

Lemma app_access_control_witness :
  (EnableAppAccess "com.c" 7 an_account).1 = Ok tt ∧
  CheckAppAccess "com.c" (EnableAppAccess "com.c" 7 an_account).2 = true.
Proof.
  split; [by vm_compute|].
  pose proof (app_access_control "com.c" 7 an_account an_account_bounded) as [H _].
  destruct (EnableAppAccess "com.c" 7 an_account) as [[[]|e] i'] eqn:E.
  - destruct H as (_ & _ & Hc). exact (Hc "com.c").
  - exfalso. vm_compute in E. discriminate E.
Defined.

Lemma oauth_token_lifecycle_witness :
  GetOAuthToken "read" API_VERSION9 (SetOAuthToken "read" "t1" an_account).2 = Ok "t1".
Proof.
  destruct (oauth_token_lifecycle "read" "t1" an_account) as [H _]; [by vm_compute|done|].
  destruct (SetOAuthToken "read" "t1" an_account) as [r i'] eqn:E. destruct H as (_ & H & _).
  refine (eq_trans H _). by vm_compute.
Defined.

Lemma token_visibility_control_witness :
  CheckOAuthTokenVisibility "read" "com.b" 9
    (SetOAuthTokenVisibility "read" "com.b" false 9 an_account).2 = Ok false.
Proof.
  pose proof (token_visibility_control "read" "com.b" false 9 an_account
    (mkOAuthTokenInfo "read" "t0" {[ "com.b" ]} true) an_account_bounded eq_refl) as H.
  destruct (SetOAuthTokenVisibility "read" "com.b" false 9 an_account) as [[[]|e] i'] eqn:E.
  - destruct H as [_ H]. exact H.
  - exfalso. vm_compute in E. discriminate E.
Defined.

Lemma visibility_creates_empty_token_witness :
  GetOAuthToken "write" API_VERSION9 (SetOAuthTokenVisibility "write" "com.c" true 8 an_account).2 = Ok "".
Proof.
  pose proof (visibility_creates_empty_token "write" "com.c" 8 an_account) as H.
  destruct (SetOAuthTokenVisibility "write" "com.c" true 8 an_account) as [r i'] eqn:E.
  apply H; by vm_compute.
Defined.

Lemma associated_data_is_a_map_witness :
  GetAssociatedData "age" (SetAssociatedData "age" "3" an_account).2 = Ok "3".
Proof.
  assert (Hr : text_repr (associatedData_ an_account) ∅) by (by left).
  destruct (associated_data_is_a_map an_account ∅ "age" "3" Hr) as (_ & H & _); [by vm_compute|done|].
  destruct (SetAssociatedData "age" "3" an_account) as [r i'] eqn:E.
  rewrite bool_decide_false in H by (by intros [_ ?]). destruct H as [_ H].
  cbn [snd]. destruct (associated_data_is_a_map i' _ "age" "" H) as [-> _]; by vm_compute.
Defined.

Lemma credentials_are_a_map_witness :
  GetAccountCredential "pin" (SetAccountCredential "pin" "1234" an_account).2 = Ok "1234".
Proof.
  assert (Hr : text_repr (accountCredential_ an_account) ∅) by (by left).
  destruct (credentials_are_a_map an_account ∅ "pin" "1234" Hr) as (_ & H & _); [done|].
  destruct (SetAccountCredential "pin" "1234" an_account) as [r i'] eqn:E. destruct H as [_ H].
  cbn [snd]. destruct (credentials_are_a_map i' _ "pin" "" H) as [-> _]; by vm_compute.
Defined.
End Witnesses.
