(* ===== verification/AppAccountJson.v ===== *)
(** The stored form of an app account: app_account_info_json_parser.cpp and
    [AppAccountInfo::ToString].

    [ToJson] writes an account into a document and [FromJson] fills an account
    from one.  The round trip through the text the database keeps is exact up to
    [normalize]: tokens that are absent and visible to nobody are not written,
    and a token read back carries its type. *)
From Stdlib Require Import ZArith Lia Ascii String.
From stdpp Require Import base list gmap sets strings pretty sorting.
From S2P Require Import Prelude Json AppAccountInfo.

Definition OWNER : string := "owner".
Definition NAME : string := "name".
Definition ALIAS : string := "alias".
Definition EXTRA_INFO : string := "extraInfo".
Definition SYNC_ENABLE : string := "syncEnable".
Definition AUTHORIZED_APPS : string := "authorizedApps".
Definition ASSOCIATED_DATA : string := "associatedData".
Definition ACCOUNT_CREDENTIAL : string := "accountCredential".
Definition OAUTH_TOKEN : string := "oauthToken".
Definition OAUTH_TOKEN_INFOS : string := "tokenInfos".
Definition OAUTH_TYPE : string := "authType".
Definition OAUTH_TOKEN_STATUS : string := "status".
Definition OAUTH_AUTH_LIST : string := "authList".
Definition APP_INDEX_KEY : string := "appIndex".

Section Operations.
Context {cfg : Config} {cjson : CJsonLib} {target : Target}.

(** The body of the loop over the tokens.  [None]: the function has returned
    null; the last boolean: the loop was left by [break]. *)
Definition token_step (pair : string * OAuthTokenInfo) (s : option (bool * option CJson * bool))
  : option (bool * option CJson * bool) :=
  match s with
  | None => None
  | Some (success, tokenArray, true) => Some (success, tokenArray, true)
  | Some (success, tokenArray, false) =>
      let '(authType, tokenInfo) := pair in
      if negb (status tokenInfo) && bool_decide (authList tokenInfo = ∅) then
        Some (success, tokenArray, false)
      else
        match CreateJson with
        | None => Some (false, tokenArray, true)
        | Some tokenObject =>
            let '(success, tokenObject) :=
              add_fields
                [λ j, AddStringToJson j OAUTH_TYPE authType;
                 λ j, AddStringToJson j OAUTH_TOKEN (token tokenInfo);
                 λ j, AddBoolToJson j OAUTH_TOKEN_STATUS (status tokenInfo);
                 λ j, AddSetStringToJson j OAUTH_AUTH_LIST (authList tokenInfo)]
                (success, Some tokenObject) in
            let '(success, tokenArray) :=
              add_fields [λ a, AddObjToArray a tokenObject] (success, tokenArray) in
            if success : bool then Some (true, tokenArray, false) else None
        end
  end.

(** [ToJson], app_account_info_json_parser.cpp *)
Definition ToJson (accountInfo : AppAccountInfo) : option CJson :=
  match foldl (λ s p, token_step p s) (Some (true, CreateJsonArray, false))
              (map_list (oauthTokens_ accountInfo)) with
  | None => None
  | Some (success, tokenArray, _) =>
      match CreateJson with
      | None => None
      | Some jsonObject =>
          let '(success, jsonObject) :=
            add_fields
              [λ j, AddStringToJson j OWNER (owner_ accountInfo);
               λ j, AddStringToJson j NAME (name_ accountInfo);
               λ j, AddStringToJson j ALIAS (alias_ accountInfo);
               λ j, AddStringToJson j EXTRA_INFO (extraInfo_ accountInfo);
               λ j, AddIntToJson j APP_INDEX_KEY (i32 (appIndex_ accountInfo));
               λ j, AddSetStringToJson j AUTHORIZED_APPS (authorizedApps_ accountInfo);
               λ j, AddBoolToJson j SYNC_ENABLE (syncEnable_ accountInfo);
               λ j, AddStringToJson j ASSOCIATED_DATA (associatedData_ accountInfo);
               λ j, AddStringToJson j ACCOUNT_CREDENTIAL (accountCredential_ accountInfo);
               λ j, AddObjToJson j OAUTH_TOKEN_INFOS tokenArray]
              (success, Some jsonObject) in
          if success : bool then jsonObject else None
      end
  end.

(** One token of the array. *)
Definition parse_token (item : CJson) : OAuthTokenInfo :=
  {| token := GetStringFromJson_value (Some item) OAUTH_TOKEN;
     status := GetBoolFromJson_value (Some item) OAUTH_TOKEN_STATUS;
     authType := GetStringFromJson_value (Some item) OAUTH_TYPE;
     authList := default ∅ (GetSetStringFromJson (Some item) OAUTH_AUTH_LIST ∅) |}.

(** At most [MAX_TOKEN_NUMBER] items are read; [emplace] keeps the first of a
    type.

    [ParseTokenInfosFromJson], app_account_info_json_parser.cpp *)
Definition ParseTokenInfosFromJson (jsonObject : option CJson) (accountInfo : AppAccountInfo)
  : AppAccountInfo :=
  match jsonObject with
  | None => accountInfo
  | Some j =>
      let items := match j with JArray l => l | JObject l => l.*2 | _ => [] end in
      foldl (λ a item,
        let tokenInfo := parse_token item in
        match oauthTokens_ a !! authType tokenInfo with
        | Some _ => a
        | None => set_tokens (<[authType tokenInfo := tokenInfo]> (oauthTokens_ a)) a
        end) accountInfo (take (Z.to_nat MAX_TOKEN_NUMBER) items)
  end.

(** [GetDataByType] leaves a field as it is when the document has no such value.

    [FromJson], app_account_info_json_parser.cpp *)
Definition FromJson (jsonObject : option CJson) (i : AppAccountInfo) : bool * AppAccountInfo :=
  if IsObject jsonObject then
    let i :=
      {| owner_ := default (owner_ i) (GetStringFromJson jsonObject OWNER);
         name_ := default (name_ i) (GetStringFromJson jsonObject NAME);
         alias_ := default (alias_ i) (GetStringFromJson jsonObject ALIAS);
         extraInfo_ := default (extraInfo_ i) (GetStringFromJson jsonObject EXTRA_INFO);
         appIndex_ := default (appIndex_ i) (GetUint32FromJson jsonObject APP_INDEX_KEY);
         syncEnable_ := default (syncEnable_ i) (GetBoolFromJson jsonObject SYNC_ENABLE);
         authorizedApps_ := default (authorizedApps_ i)
           (GetSetStringFromJson jsonObject AUTHORIZED_APPS (authorizedApps_ i));
         associatedData_ := default (associatedData_ i) (GetStringFromJson jsonObject ASSOCIATED_DATA);
         accountCredential_ :=
           default (accountCredential_ i) (GetStringFromJson jsonObject ACCOUNT_CREDENTIAL);
         oauthTokens_ := oauthTokens_ i |} in
    if IsKeyExist jsonObject OAUTH_TOKEN_INFOS then
      (true, ParseTokenInfosFromJson (GetJsonArrayFromJson jsonObject OAUTH_TOKEN_INFOS) i)
    else (true, i)
  else (false, i).

(** [AppAccountInfo::ToString], app_account_info.cpp *)
Definition ToString (i : AppAccountInfo) : string := PackJsonToString (ToJson i).
End Operations.

(** ** What survives storage *)

(** A token worth writing. *)
Definition token_kept (t : OAuthTokenInfo) : bool := status t || bool_decide (authList t ≠ ∅).

(** The tokens as they are read back. *)
Definition stored_tokens (m : gmap string OAuthTokenInfo) : gmap string OAuthTokenInfo :=
  list_to_map ((λ kv, (kv.1, mkOAuthTokenInfo kv.1 (token kv.2) (authList kv.2) (status kv.2))) <$>
    filter (λ kv, token_kept kv.2 = true) (map_list m)).

Definition normalize (i : AppAccountInfo) : AppAccountInfo := set_tokens (stored_tokens (oauthTokens_ i)) i.

(** All text of a token, and of an account, is free of null characters, which the
    C strings of the library cannot hold. *)
Definition token_plain (k : string) (t : OAuthTokenInfo) : Prop :=
  nul_free k ∧ nul_free (token t) ∧ set_Forall nul_free (authList t) ∧
  Z.of_nat (size (authList t)) ≤ MAX_OAUTH_LIST_SIZE.

Record storable (i : AppAccountInfo) : Prop := {
  storable_bounded : bounded i;
  storable_index : is_u32 (appIndex_ i);
  storable_texts : Forall nul_free
    [owner_ i; name_ i; alias_ i; extraInfo_ i; associatedData_ i; accountCredential_ i];
  storable_apps : set_Forall nul_free (authorizedApps_ i);
  storable_tokens : map_Forall token_plain (oauthTokens_ i);
}.

Section RoundTrip.
Context {cfg : Config} {cjson : CJsonLib} {laws : CJsonLaws} {alloc : CJsonAlloc} {target : Target}.

(** The document of a token and of an account. *)
Definition token_doc (kv : string * OAuthTokenInfo) : CJson :=
  JObject [(OAUTH_TYPE, JString kv.1); (OAUTH_TOKEN, JString (token kv.2));
           (OAUTH_TOKEN_STATUS, JBool (status kv.2));
           (OAUTH_AUTH_LIST, JArray (JString <$> set_list (authList kv.2)))].

Definition account_doc (i : AppAccountInfo) : CJson :=
  JObject [(OWNER, JString (owner_ i)); (NAME, JString (name_ i)); (ALIAS, JString (alias_ i));
    (EXTRA_INFO, JString (extraInfo_ i)); (APP_INDEX_KEY, JNumber (double_of_Z (i32 (appIndex_ i))));
    (AUTHORIZED_APPS, JArray (JString <$> set_list (authorizedApps_ i)));
    (SYNC_ENABLE, JBool (syncEnable_ i)); (ASSOCIATED_DATA, JString (associatedData_ i));
    (ACCOUNT_CREDENTIAL, JString (accountCredential_ i));
    (OAUTH_TOKEN_INFOS, JArray (token_doc <$> filter (λ kv, token_kept kv.2 = true) (map_list (oauthTokens_ i))))].

Lemma set_list_c_str X :
  set_Forall nul_free X → JString ∘ c_str <$> set_list X = JString <$> set_list X.
Proof.
  intros HX. apply Forall_fmap_ext_1, Forall_forall. intros x Hx%elem_of_set_list. simpl.
  by rewrite (HX x Hx).
Qed.

Lemma token_step_eq kv l :
  token_plain kv.1 kv.2 →
  token_step kv (Some (true, Some (JArray l), false)) =
    Some (true, Some (JArray (if token_kept kv.2 then l ++ [token_doc kv] else l)), false).
Proof.
  destruct kv as [k t]. intros (Hk & Ht & Hl & _). unfold token_step, token_kept. simpl fst; simpl snd.
  rewrite bool_decide_not. destruct (status t) eqn:Es; simpl negb; simpl andb; simpl orb; cbv iota.
  2: destruct (bool_decide (authList t = ∅)); cbn [negb]; cbv iota; [done|].
  all: rewrite CreateJson_eq; add_fields_tac; add_fields_tac.
  all: rewrite set_list_c_str by done; unfold token_doc, nul_free in *; simpl in *; by rewrite Es, Hk, Ht.
Qed.

Lemma token_loop_eq kvs l :
  Forall (λ kv, token_plain kv.1 kv.2) kvs →
  foldl (λ s p, token_step p s) (Some (true, Some (JArray l), false)) kvs =
    Some (true, Some (JArray (l ++ (token_doc <$> filter (λ kv, token_kept kv.2 = true) kvs))), false).
Proof.
  intros Hkvs. revert l. induction Hkvs as [|kv kvs Hkv _ IH]; intros l; cbn [foldl].
  - by rewrite app_nil_r.
  - rewrite token_step_eq, IH by done. rewrite filter_cons.
    destruct (token_kept kv.2) eqn:E; case_decide; try done.
    by rewrite fmap_cons, <-app_assoc.
Qed.

Lemma storable_token_list i :
  storable i → Forall (λ kv, token_plain kv.1 kv.2) (map_list (oauthTokens_ i)).
Proof.
  intros Hi. apply Forall_forall. intros [k t] Hkv%elem_of_map_list. by apply (storable_tokens i Hi k t).
Qed.

(** The document [ToJson] makes. *)
Lemma ToJson_eq i : storable i → ToJson i = Some (account_doc i).
Proof.
  intros Hi. pose proof (storable_texts i Hi) as Ht. rewrite !Forall_cons in Ht.
  destruct Ht as (Ho & Hn & Ha & He & Hd & Hc & _). unfold ToJson.
  rewrite CreateJsonArray_eq, token_loop_eq by (by apply storable_token_list).
  rewrite CreateJson_eq. cbn [app]. add_fields_tac.
  rewrite set_list_c_str by (by apply storable_apps). unfold account_doc, nul_free in *. simpl.
  by rewrite Ho, Hn, Ha, He, Hd, Hc.
Qed.

Lemma string_array_plain X : set_Forall nul_free X → json_plain (JArray (JString <$> set_list X)) = true.
Proof.
  intros HX. cbn [json_plain]. apply forallb_Forall_true, Forall_fmap, Forall_forall. intros x Hx%elem_of_set_list.
  by apply bool_decide_eq_true, HX.
Qed.

Lemma token_doc_plain kv : token_plain kv.1 kv.2 → json_plain (token_doc kv) = true ∧ json_depth (token_doc kv) = 2%nat.
Proof.
  intros (Hk & Ht & Hl & _). split.
  - unfold token_doc. cbn [json_plain forallb fst snd].
    rewrite (string_array_plain _ Hl : forallb json_plain _ = true), (bool_decide_eq_true_2 _ Hk), (bool_decide_eq_true_2 _ Ht).
    by rewrite !bool_decide_eq_true_2 by done.
  - unfold token_doc. rewrite json_depth_object. cbn [foldr snd].
    by rewrite string_array_depth.
Qed.

Lemma token_docs_depth kvs :
  Forall (λ kv, token_plain kv.1 kv.2) kvs → (json_depth (JArray (token_doc <$> kvs)) ≤ 3)%nat.
Proof.
  intros Hkvs. rewrite json_depth_array. apply le_n_S.
  induction Hkvs as [|kv kvs Hkv _ IH]; [simpl; lia|]. destruct (token_doc_plain kv Hkv) as [_ Hd].
  rewrite fmap_cons. cbn [foldr]. rewrite Hd. lia.
Qed.

Lemma filter_storable_tokens i :
  storable i →
  Forall (λ kv, token_plain kv.1 kv.2) (filter (λ kv, token_kept kv.2 = true) (map_list (oauthTokens_ i))).
Proof.
  intros Hi. pose proof (storable_token_list i Hi) as H. rewrite Forall_forall in H.
  apply Forall_forall. intros kv [_ Hin]%list_elem_of_filter. by apply H.
Qed.

Lemma account_doc_ok i : storable i → json_ok (account_doc i) = true.
Proof.
  intros Hi. pose proof (storable_texts i Hi) as Ht. rewrite !Forall_cons in Ht.
  destruct Ht as (Ho & Hn & Ha & He & Hd & Hc & _).
  pose proof (filter_storable_tokens i Hi) as Htok. unfold json_ok. apply andb_true_iff. split.
  - assert (Hplain : json_plain (JArray (token_doc <$> filter (λ kv, token_kept kv.2 = true)
      (map_list (oauthTokens_ i)))) = true).
    { cbn [json_plain]. apply forallb_Forall_true, Forall_fmap. eapply Forall_impl; [exact Htok|].
      intros kv Hkv. by apply token_doc_plain. }
    assert (Hnum : double_exact (double_of_Z (i32 (appIndex_ i))) = true).
    { apply double_exact_of_Z. pose proof (i32_range (appIndex_ i)). unfold is_i32 in *. lia. }
    unfold account_doc. cbn [forallb fst snd json_plain] in *.
    rewrite Hplain, Hnum. rewrite (string_array_plain _ (storable_apps i Hi) : forallb json_plain _ = true).
    rewrite (bool_decide_eq_true_2 _ Ho), (bool_decide_eq_true_2 _ Hn), (bool_decide_eq_true_2 _ Ha),
      (bool_decide_eq_true_2 _ He), (bool_decide_eq_true_2 _ Hd), (bool_decide_eq_true_2 _ Hc).
    by rewrite !bool_decide_eq_true_2 by done.
  - apply Nat.ltb_lt. pose proof (token_docs_depth _ Htok) as Hdep.
    unfold account_doc. rewrite json_depth_object. cbn [foldr snd]. rewrite string_array_depth.
    cbn [json_depth]. rewrite json_depth_array in Hdep. unfold CJSON_NESTING_LIMIT. lia.
Qed.

Lemma parse_token_doc kv :
  token_plain kv.1 kv.2 →
  parse_token (token_doc kv) = mkOAuthTokenInfo kv.1 (token kv.2) (authList kv.2) (status kv.2).
Proof.
  intros (Hk & Ht & Hl & Hs). unfold parse_token, GetStringFromJson_value, GetBoolFromJson_value,
    GetStringFromJson, GetBoolFromJson, GetSetStringFromJson, token_doc.
  rewrite !find_item_object by done. cbn [obj_find].
  repeat first [rewrite decide_True by done | rewrite decide_False by done].
  simpl IsArray. cbv iota. rewrite array_items_array
    by (rewrite length_fmap, set_list_length; unfold MAX_OAUTH_LIST_SIZE, INT32_MAX in *; lia).
  rewrite <-set_list_c_str, set_string_fold by done. simpl. by rewrite (left_id_L ∅ (∪)).
Qed.

(** Reading back tokens of distinct types adds them all. *)
Lemma parse_tokens_fold (kvs : list (string * OAuthTokenInfo)) a :
  Forall (λ kv, token_plain kv.1 kv.2) kvs → NoDup kvs.*1 →
  (∀ k, k ∈ kvs.*1 → oauthTokens_ a !! k = None) →
  foldl (λ a item,
    let tokenInfo := parse_token item in
    match oauthTokens_ a !! authType tokenInfo with
    | Some _ => a
    | None => set_tokens (<[authType tokenInfo := tokenInfo]> (oauthTokens_ a)) a
    end) a (token_doc <$> kvs) =
  set_tokens (oauthTokens_ a ∪ list_to_map ((λ kv,
    (kv.1, mkOAuthTokenInfo kv.1 (token kv.2) (authList kv.2) (status kv.2))) <$> kvs)) a.
Proof.
  intros Hp. revert a. induction Hp as [|[k t] kvs Hkv _ IH]; intros a Hnd Hfresh.
  - rewrite !fmap_nil, list_to_map_nil, (right_id_L ∅ (∪)). by destruct a.
  - rewrite !fmap_cons in *. apply NoDup_cons in Hnd as [Hni Hnd]. cbn [foldl]. cbv zeta.
    rewrite parse_token_doc by done. cbn [authType fst snd] in *. rewrite Hfresh by set_solver.
    rewrite IH; [|done|].
    + cbn [set_tokens oauthTokens_]. rewrite list_to_map_cons, <-insert_union_l, insert_union_r; [done|].
      apply Hfresh. set_solver.
    + intros k' Hk'. cbn [set_tokens oauthTokens_]. rewrite lookup_insert_ne; [apply Hfresh; set_solver|].
      intros ->. done.
Qed.

Lemma kept_tokens_keys i :
  NoDup (filter (λ kv, token_kept kv.2 = true) (map_list (oauthTokens_ i))).*1 ∧
  (length (filter (λ kv, token_kept kv.2 = true) (map_list (oauthTokens_ i))) ≤ size (oauthTokens_ i))%nat.
Proof.
  split.
  - apply NoDup_filter_fst, map_list_NoDup.
  - rewrite <-map_list_length. apply length_filter.
Qed.

(** Reading back what was written. *)
Lemma account_read_back i i0 :
  storable i → authorizedApps_ i0 = ∅ → oauthTokens_ i0 = ∅ →
  FromJson (CreateJsonFromString (ToString i)) i0 = (true, normalize i).
Proof.
  intros Hi Ha0 Ht0. unfold ToString. rewrite ToJson_eq by done.
  destruct (pack_create _ (account_doc_ok i Hi)) as [-> _].
  pose proof (filter_storable_tokens i Hi) as Htok.
  destruct (kept_tokens_keys i) as [Hnd Hlen].
  pose proof (bounded_apps _ (storable_bounded i Hi)) as Happs.
  pose proof (bounded_tokens _ (storable_bounded i Hi)) as Htoks.
  set (kvs := filter (λ kv, token_kept kv.2 = true) (map_list (oauthTokens_ i))) in *.
  set (l := match account_doc i with JObject l => l | _ => [] end).
  change (account_doc i) with (JObject l). unfold FromJson.
  change (IsObject (Some (JObject l))) with true. cbv iota zeta.
  rewrite IsKeyExist_object by done. rewrite bool_decide_eq_true_2 by (vm_compute; by eexists).
  unfold GetUint32FromJson, GetIntFromJson, GetStringFromJson, GetBoolFromJson, GetSetStringFromJson,
    GetJsonArrayFromJson. rewrite !find_item_object by done. unfold l, account_doc.
  cbn [obj_find]. repeat first [rewrite decide_True by done | rewrite decide_False by done].
  cbn [IsArray fmap option_fmap option_map default from_option].
  rewrite array_items_array by
    (rewrite length_fmap, set_list_length; unfold MAX_APP_AUTH_LIST_SIZE, INT32_MAX in *; lia).
  pose proof (i32_range (appIndex_ i)) as Hrange. unfold is_i32 in Hrange.
  rewrite double_to_int_of_Z, u32_i32 by
    (first [by apply storable_index | unfold INT32_MIN, INT32_MAX; lia]).
  rewrite <-set_list_c_str, set_string_fold by apply (storable_apps i Hi).
  cbn [ParseTokenInfosFromJson]. fold kvs.
  rewrite take_ge by (rewrite length_fmap; unfold MAX_TOKEN_NUMBER in *; lia).
  rewrite parse_tokens_fold by (done || (intros; cbn; rewrite Ht0; apply lookup_empty)).
  unfold normalize, stored_tokens, set_tokens. cbn. fold kvs. rewrite Ha0, Ht0. f_equal. f_equal.
  - by rewrite (left_id_L ∅ (∪)).
  - by rewrite (left_id_L ∅ (∪)).
Qed.
Lemma stored_tokens_lookup m k :
  stored_tokens m !! k =
    t ← m !! k;
    if token_kept t then Some (mkOAuthTokenInfo k (token t) (authList t) (status t)) else None.
Proof.
  unfold stored_tokens. set (f := λ kv : string * OAuthTokenInfo, _).
  set (kvs := filter (λ kv, token_kept kv.2 = true) (map_list m)).
  assert (Hnd : NoDup (f <$> kvs).*1).
  { rewrite <-list_fmap_compose. apply (NoDup_filter_fst (λ kv, token_kept kv.2 = true)), map_list_NoDup. }
  assert (Hin : ∀ t, (k, t) ∈ kvs ↔ m !! k = Some t ∧ token_kept t = true).
  { intros t. unfold kvs. rewrite list_elem_of_filter, elem_of_map_list. simpl. tauto. }
  destruct (m !! k) as [t|] eqn:E; [destruct (token_kept t) eqn:Ek|]; cbn; rewrite ?Ek.
  - apply elem_of_list_to_map_1; [done|]. apply list_elem_of_fmap. exists (k, t). split; [done|by apply Hin].
  - apply not_elem_of_list_to_map_1. rewrite <-list_fmap_compose.
    intros ([k' t'] & -> & Hkt)%list_elem_of_fmap. apply Hin in Hkt as [Hkt ?]. simpl in *. congruence.
  - apply not_elem_of_list_to_map_1. rewrite <-list_fmap_compose.
    intros ([k' t'] & -> & Hkt)%list_elem_of_fmap. apply Hin in Hkt as [Hkt ?]. simpl in *. congruence.
Qed.

Lemma normalize_idem i : normalize (normalize i) = normalize i.
Proof.
  unfold normalize, set_tokens. cbn. f_equal. apply map_eq. intros k. rewrite !stored_tokens_lookup.
  destruct (oauthTokens_ i !! k) as [t|]; [|done]. cbn. destruct (token_kept t) eqn:Ek; [|done].
  cbn. unfold token_kept in *. cbn. by rewrite Ek.
Qed.

Lemma storable_normalize i : storable i → storable (normalize i).
Proof.
  intros Hi.
  assert (Hsub : ∀ k t, stored_tokens (oauthTokens_ i) !! k = Some t →
    ∃ t', oauthTokens_ i !! k = Some t' ∧ token t = token t' ∧ authList t = authList t').
  { intros k t. rewrite stored_tokens_lookup. destruct (oauthTokens_ i !! k) as [t'|]; [|done]. cbn.
    destruct (token_kept t'); intros [= <-]. by exists t'. }
  pose proof (storable_bounded i Hi) as Hb.
  split; [split| | | |]; try apply Hi; unfold normalize; cbn.
  - etransitivity; [|apply (bounded_tokens i Hb)]. apply inj_le. rewrite <-!size_dom. apply subseteq_size.
    intros k. rewrite !elem_of_dom. intros [t Ht]. destruct (Hsub k t Ht) as (t' & -> & _). by eexists.
  - intros k t Ht. destruct (Hsub k t Ht) as (t' & Ht' & _ & ->). apply (bounded_lists i Hb k t' Ht').
  - intros k t Ht. destruct (Hsub k t Ht) as (t' & Ht' & E1 & E2). unfold token_plain. rewrite E1, E2.
    apply (storable_tokens i Hi k t' Ht').
Qed.

(** An account survives storage.  With memory available, the text [ToString]
    makes of an account that can be stored (its texts without null characters,
    its containers within the limits of the class, any 32-bit index) parses, and
    [FromJson] fills an object that has no apps and no tokens yet with exactly
    that account, except that a token that is absent and visible to nobody is
    gone and the tokens carry their type.  A second round changes nothing: what is
    read can be stored again and comes back as it is. *)
Theorem app_account_storage_roundtrip i i0 :
  storable i → authorizedApps_ i0 = ∅ → oauthTokens_ i0 = ∅ →
  FromJson (CreateJsonFromString (ToString i)) i0 = (true, normalize i) ∧
  storable (normalize i) ∧
  FromJson (CreateJsonFromString (ToString (normalize i))) i0 = (true, normalize i).
Proof.
  intros Hi Ha Ht. pose proof (storable_normalize i Hi) as Hn.
  split_and!; [by apply account_read_back|done|]. by rewrite account_read_back, normalize_idem.
Qed.
End RoundTrip.

Section Witnesses.
Import TreeLib.

#[local] Instance plain : Config := {|
  HAS_ASSET_PART := false; ENABLE_MULTIPLE_OS_ACCOUNT_SUBSPACE := false;
  DISTRIBUTED_FEATURE_ENABLED := false; SQLITE_DLCLOSE_ENABLE := false |}.

(** An account with a token for an app and a token that is gone. *)
Definition stored_account : AppAccountInfo :=
  set_tokens (<["old" := mkOAuthTokenInfo "" "" ∅ false]>
      {[ "read" := mkOAuthTokenInfo "" "t0" {[ "com.b" ]} true ]})
    (SetAppIndex 3000000000 (AppAccountInfo_new "alice" "com.example")).

Lemma stored_account_storable : storable stored_account.
Proof.
  split; [split|..]; try by vm_compute.
  - by apply map_Forall_insert_2; [vm_compute|apply map_Forall_singleton; vm_compute].
  - by repeat constructor.
  - apply map_Forall_insert_2.
    + split_and!; [done|done|by intros x Hx%elem_of_empty|by vm_compute].
    + apply map_Forall_singleton. split_and!; [done|done| |by vm_compute].
      cbn [authList]. by intros x ->%elem_of_singleton.
Qed.

Lemma app_account_storage_roundtrip_witness :
  appIndex_ (FromJson (CreateJsonFromString (ToString stored_account)) AppAccountInfo_default).2
    = 3000000000.
Proof.
  destruct (app_account_storage_roundtrip stored_account AppAccountInfo_default stored_account_storable eq_refl eq_refl)
    as [-> _]. done.
Defined.
End Witnesses.
