(* ===== verification/DataStorage.v ===== *)
(** Account data storage: account_data_storage.cpp and
    app_account_data_storage.cpp.

    One [Storage] is an [AccountDataStorage] object: whether its database handle
    is open, how often its transaction mutex is held, and the database behind it.
    The database is reached through the virtual interface
    [IDbAdapterSingleStore]; the class [DbAdapter] holds its functions, any of
    which can fail at any call, and [DbLaws] what an implementation owes: a call
    that fails changes nothing, one that succeeds has its effect, and a
    transaction can be rolled back to where it started. *)
From Stdlib Require Import ZArith Lia Ascii String.
From stdpp Require Import base list gmap sets strings pretty sorting.
From S2P Require Import Prelude ErrorCodes Json AppAccountInfo AppAccountJson.

(** ** The database interface *)

(** [DbAdapterStatus], database_adapter_interface.h *)
Inductive DbAdapterStatus :=
  | SUCCESS | IPC_ERROR | INTERNAL_ERROR | KEY_NOT_EXIST | NOT_SUPPORT.

#[export] Instance DbAdapterStatus_eq_dec : EqDecision DbAdapterStatus.
Proof. solve_decision. Defined.

(** [IDbAdapterSingleStore] and [IDbAdapterDataManager].  A function that fills an
    output parameter gives its value next to the status.

    [IDbAdapterSingleStore], database_adapter_interface.h *)
Class DbAdapter := {
  db : Type;
  kv_open : db → (DbAdapterStatus * bool) * db;
  kv_close : db → DbAdapterStatus * db;
  kv_delete_store : db → DbAdapterStatus * db;
  kv_get : string → db → (DbAdapterStatus * string) * db;
  kv_delete : string → db → DbAdapterStatus * db;
  kv_put : string → string → db → DbAdapterStatus * db;
  kv_entries : string → db → (DbAdapterStatus * list (string * string)) * db;
  kv_put_batch : list (string * string) → db → DbAdapterStatus * db;
  kv_commit : db → DbAdapterStatus * db;
  kv_rollback : db → DbAdapterStatus * db;
  kv_start : db → DbAdapterStatus * db;
  is_kv_store : bool;
}.

(** A store holds [contents]; inside a transaction it also keeps what [saved]
    holds, the contents at its start. *)
Class DbLaws `{DbAdapter} := {
  contents : db → gmap string string;
  saved : db → option (gmap string string);
  open_keeps d r d' : kv_open d = (r, d') → contents d' = contents d ∧ saved d' = saved d;
  get_keeps k d r d' : kv_get k d = (r, d') → contents d' = contents d ∧ saved d' = saved d;
  get_success k d v d' : kv_get k d = ((SUCCESS, v), d') → contents d !! k = Some v;
  get_missing k d v d' : kv_get k d = ((KEY_NOT_EXIST, v), d') → contents d !! k = None;
  get_failure k d s v d' : kv_get k d = ((s, v), d') → s ≠ SUCCESS → v = EmptyString;
  entries_keeps p d r d' : kv_entries p d = (r, d') → contents d' = contents d ∧ saved d' = saved d;
  entries_success p d l d' :
    kv_entries p d = ((SUCCESS, l), d') →
    NoDup l.*1 ∧ ∀ k v, (k, v) ∈ l ↔ contents d !! k = Some v ∧ String.prefix p k = true;
  put_saved k v d s d' : kv_put k v d = (s, d') → saved d' = saved d;
  put_contents k v d s d' :
    kv_put k v d = (s, d') →
    contents d' = match s with SUCCESS => <[k := v]> (contents d) | _ => contents d end;
  delete_saved k d s d' : kv_delete k d = (s, d') → saved d' = saved d;
  delete_contents k d s d' :
    kv_delete k d = (s, d') →
    contents d' = match s with SUCCESS => delete k (contents d) | _ => contents d end;
  batch_saved l d s d' : kv_put_batch l d = (s, d') → saved d' = saved d;
  batch_contents l d s d' :
    kv_put_batch l d = (s, d') →
    contents d' = match s with SUCCESS => list_to_map l ∪ contents d | _ => contents d end;
  start_effect d s d' :
    kv_start d = (s, d') →
    contents d' = contents d ∧
    saved d' = match s with SUCCESS => Some (contents d) | _ => saved d end;
  commit_effect d s d' :
    kv_commit d = (s, d') →
    contents d' = contents d ∧ saved d' = match s with SUCCESS => None | _ => saved d end;
  rollback_effect d s d' m :
    saved d = Some m → kv_rollback d = (s, d') →
    match s with
    | SUCCESS => contents d' = m ∧ saved d' = None
    | _ => contents d' = contents d ∧ saved d' = saved d
    end;
}.

(** A store whose calls succeed when they can. *)
Class DbReliable `{DbLaws} : Prop := {
  open_ok d : ∃ d', kv_open d = ((SUCCESS, true), d');
  get_ok k v d : contents d !! k = Some v → ∃ d', kv_get k d = ((SUCCESS, v), d');
  put_ok k v d : ∃ d', kv_put k v d = (SUCCESS, d');
  delete_ok k d : ∃ d', kv_delete k d = (SUCCESS, d');
  entries_ok p d : ∃ l d', kv_entries p d = ((SUCCESS, l), d');
  batch_ok l d : ∃ d', kv_put_batch l d = (SUCCESS, d');
  start_ok d : saved d = None → ∃ d', kv_start d = (SUCCESS, d');
  commit_ok d : is_Some (saved d) → ∃ d', kv_commit d = (SUCCESS, d');
  rollback_ok d : is_Some (saved d) → ∃ d', kv_rollback d = (SUCCESS, d');
}.

(** What survives a crash: inside a transaction, the contents at its start. *)
Definition durable `{DbLaws} (d : db) : gmap string string := default (contents d) (saved d).

(** ** The storage object *)

Record Storage `{DbAdapter} := mkStorage {
  kvStorePtr_ : bool;
  transactionMutex_ : Z;
  base : db;
}.
Arguments Storage {_}.
Arguments mkStorage {_} _ _ _.
Arguments kvStorePtr_ {_} _.
Arguments transactionMutex_ {_} _.
Arguments base {_} _.

(** A storage inside a larger state. *)
Record StorageIn `{DbAdapter} (W : Type) := {
  view : W → Storage;
  update : Storage → W → W;
  view_update s w : view (update s w) = s;
}.
Arguments view {_ _} _ _.
Arguments update {_ _} _ _ _.
Arguments view_update {_ _} _ _ _.

(** A call on that storage. *)
Definition zoom `{DbAdapter} {W B} (L : StorageIn W) (m : M Storage B) : M W B := λ w,
  let '(r, s) := m (view L w) in (r, update L s w).

(** The two storages of a pair. *)
Definition in_fst `{DbAdapter} : StorageIn (Storage * Storage) :=
  {| view := fst; update s w := (s, w.2); view_update s w := eq_refl |}.
Definition in_snd `{DbAdapter} : StorageIn (Storage * Storage) :=
  {| view := snd; update s w := (w.1, s); view_update s w := eq_refl |}.

Definition MAX_TIMES : nat := 10.
Definition AUTHORIZED_ACCOUNTS : string := "authorizedAccounts".

Section Operations.
Context {cfg : Config} {cjson : CJsonLib} {target : Target} {adapter : DbAdapter}.

(** A call through the database handle. *)
Definition on_db {B} (f : db → B * db) : M Storage B := λ s,
  let '(b, d) := f (base s) in (Ok b, mkStorage (kvStorePtr_ s) (transactionMutex_ s) d).

Definition set_ptr (p : bool) : M Storage unit :=
  mmodify (λ s, mkStorage p (transactionMutex_ s) (base s)).
Definition lock_txn : M Storage unit :=
  mmodify (λ s, mkStorage (kvStorePtr_ s) (transactionMutex_ s + 1) (base s)).
Definition unlock_txn : M Storage unit :=
  mmodify (λ s, mkStorage (kvStorePtr_ s) (transactionMutex_ s - 1) (base s)).

(** The call and its status; it is made once more after an IPC error.

    [AccountDataStorage::TryTwice], account_data_storage.cpp *)
Definition TryTwice {B} (func : M Storage (DbAdapterStatus * B)) : M Storage (DbAdapterStatus * B) :=
  r ← func;
  if bool_decide (r.1 = IPC_ERROR) then func else mret r.

Definition status_only (f : db → DbAdapterStatus * db) : M Storage (DbAdapterStatus * unit) :=
  s ← on_db f; mret (s, tt).

(** [AccountDataStorage::GetKvStore], account_data_storage.cpp *)
Definition GetKvStore : M Storage DbAdapterStatus :=
  r ← on_db kv_open;
  let '(status, ptr) := r in
  _ ← (if ptr : bool then set_ptr true else mret tt);
  mret status.

(** The loop of [CheckKvStore], with the number of tries left. *)
Fixpoint open_loop (tryTimes : nat) : M Storage unit :=
  match tryTimes with
  | O => mret tt
  | S n =>
      status ← GetKvStore;
      s ← mget;
      if bool_decide (status = SUCCESS) && kvStorePtr_ s then mret tt else open_loop n
  end.

(** [AccountDataStorage::CheckKvStore], account_data_storage.cpp *)
Definition CheckKvStore : M Storage bool :=
  s ← mget;
  if kvStorePtr_ s then mret true
  else
    _ ← open_loop MAX_TIMES;
    s ← mget;
    mret (kvStorePtr_ s).

(** [AccountDataStorage::GetEntries], account_data_storage.cpp *)
Definition GetEntries (subId : string) : M Storage (DbAdapterStatus * list (string * string)) :=
  on_db (kv_entries subId).

(** Entries that do not parse are deleted; [emplace] keeps the first of a key.

    [AppAccountDataStorage::SaveEntries], app_account_data_storage.cpp *)
Definition SaveEntries (allEntries : list (string * string)) (infos : gmap string AppAccountInfo)
  : M Storage (gmap string AppAccountInfo) :=
  foldl (λ acc item,
    infos ← acc;
    match CreateJsonFromString item.2 with
    | None => _ ← on_db (kv_delete item.1); mret infos
    | Some jsonObject =>
        let appAccountInfo := (FromJson (Some jsonObject) AppAccountInfo_default).2 in
        mret (match infos !! item.1 with
              | Some _ => infos
              | None => <[item.1 := appAccountInfo]> infos
              end)
    end) (mret infos) allEntries.

(** [AccountDataStorage::LoadDataByLocalFuzzyQuery], account_data_storage.cpp *)
Definition LoadDataByLocalFuzzyQuery (subId : string) : M Storage (gmap string AppAccountInfo) :=
  ok ← CheckKvStore;
  if negb ok then merr ERR_OSACCOUNT_SERVICE_MANAGER_QUERY_DISTRIBUTE_DATA_ERROR
  else
    r ← TryTwice (GetEntries subId);
    if bool_decide (r.1 = SUCCESS) then SaveEntries r.2 ∅
    else merr ERR_OSACCOUNT_SERVICE_MANAGER_QUERY_DISTRIBUTE_DATA_ERROR.

(** [AccountDataStorage::LoadAllData], account_data_storage.cpp *)
Definition LoadAllData : M Storage (gmap string AppAccountInfo) :=
  ok ← CheckKvStore;
  if negb ok then merr ERR_OSACCOUNT_SERVICE_MANAGER_QUERY_DISTRIBUTE_DATA_ERROR
  else
    r ← TryTwice (GetEntries "");
    if bool_decide (r.1 = SUCCESS) then SaveEntries r.2 ∅
    else merr ERR_OSACCOUNT_SERVICE_MANAGER_QUERY_DISTRIBUTE_DATA_ERROR.

(** [AccountDataStorage::PutValueToKvStore], account_data_storage.cpp *)
Definition PutValueToKvStore (keyStr valueStr : string) : M Storage unit :=
  ok ← CheckKvStore;
  if negb ok then merr ERR_ACCOUNT_COMMON_CHECK_KVSTORE_ERROR
  else
    status ← on_db (kv_put keyStr valueStr);
    status ← (if bool_decide (status = IPC_ERROR) then on_db (kv_put keyStr valueStr) else mret status);
    if bool_decide (status = SUCCESS) then mret tt
    else merr ERR_OSACCOUNT_SERVICE_MANAGER_QUERY_DISTRIBUTE_DATA_ERROR.

(** [AccountDataStorage::GetValueFromKvStore], account_data_storage.cpp *)
Definition GetValueFromKvStore (keyStr : string) : M Storage string :=
  ok ← CheckKvStore;
  if negb ok then merr ERR_ACCOUNT_COMMON_CHECK_KVSTORE_ERROR
  else
    r ← on_db (kv_get keyStr);
    r ← (if bool_decide (r.1 = IPC_ERROR) then on_db (kv_get keyStr) else mret r);
    if bool_decide (r.1 = SUCCESS) then mret r.2
    else merr ERR_OSACCOUNT_SERVICE_MANAGER_QUERY_DISTRIBUTE_DATA_ERROR.

(** [AccountDataStorage::IsKeyExists], account_data_storage.cpp *)
Definition IsKeyExists (keyStr : string) : M Storage bool :=
  r ← mtry (GetValueFromKvStore keyStr);
  mret (is_Ok r).

(** [AccountDataStorage::AddAccountInfo], account_data_storage.cpp *)
Definition AddAccountInfo (iAccountInfo : AppAccountInfo) : M Storage unit :=
  exists_ ← IsKeyExists (GetPrimeKey iAccountInfo);
  if exists_ : bool then merr ERR_OSACCOUNT_SERVICE_DATA_STORAGE_KEY_EXISTED_ERROR
  else
    let accountInfoStr := ToString iAccountInfo in
    if string_empty accountInfoStr then merr ERR_OSACCOUNT_SERVICE_ACCOUNT_INFO_EMPTY_ERROR
    else PutValueToKvStore (GetPrimeKey iAccountInfo) accountInfoStr.

(** [AccountDataStorage::SaveAccountInfo], account_data_storage.cpp *)
Definition SaveAccountInfo (iAccountInfo : AppAccountInfo) : M Storage unit :=
  exists_ ← IsKeyExists (GetPrimeKey iAccountInfo);
  if negb exists_ then merr ERR_OSACCOUNT_SERVICE_DATA_STORAGE_KEY_NOT_EXISTS_ERROR
  else
    let accountInfoStr := ToString iAccountInfo in
    if string_empty accountInfoStr then merr ERR_OSACCOUNT_SERVICE_ACCOUNT_INFO_EMPTY_ERROR
    else PutValueToKvStore (GetPrimeKey iAccountInfo) accountInfoStr.

(** [AccountDataStorage::RemoveValueFromKvStore], account_data_storage.cpp *)
Definition RemoveValueFromKvStore (keyStr : string) : M Storage unit :=
  ok ← CheckKvStore;
  if negb ok then merr ERR_ACCOUNT_COMMON_CHECK_KVSTORE_ERROR
  else
    r ← TryTwice (on_db (kv_get keyStr));
    if negb (bool_decide (r.1 = SUCCESS)) then mret tt
    else
      r ← TryTwice (status_only (kv_delete keyStr));
      if bool_decide (r.1 = SUCCESS) then mret tt
      else merr ERR_ACCOUNT_COMMON_DELETE_KEY_FROM_KVSTORE_ERROR.

(** The status is returned as the error code.

    [AccountDataStorage::Close], account_data_storage.cpp *)
Definition Close : M Storage DbAdapterStatus :=
  errCode ← on_db kv_close;
  _ ← set_ptr false;
  mret errCode.

(** [AccountDataStorage::DeleteKvStore], account_data_storage.cpp *)
Definition DeleteKvStore : M Storage unit :=
  ok ← CheckKvStore;
  if negb ok then merr ERR_OSACCOUNT_SERVICE_MANAGER_QUERY_DISTRIBUTE_DATA_ERROR
  else if negb is_kv_store then mret tt
  else
    status ← on_db kv_close;
    if negb (bool_decide (status = SUCCESS)) then
      merr ERR_OSACCOUNT_SERVICE_MANAGER_QUERY_DISTRIBUTE_DATA_ERROR
    else
      _ ← set_ptr false;
      status ← on_db kv_delete_store;
      if bool_decide (status = SUCCESS) then mret tt
      else merr ERR_OSACCOUNT_SERVICE_MANAGER_QUERY_DISTRIBUTE_DATA_ERROR.

(** The account found is read into the object passed.

    [AccountDataStorage::GetAccountInfoById]#1, account_data_storage.cpp *)
Definition GetAccountInfoById (id : string) (accountInfo : AppAccountInfo) : M Storage AppAccountInfo :=
  valueStr ← GetValueFromKvStore id;
  let jsonObject := CreateJsonFromString valueStr in
  if IsStructured jsonObject then mret (FromJson jsonObject accountInfo).2
  else merr ERR_ACCOUNT_COMMON_BAD_JSON_FORMAT_ERROR.

(** [AccountDataStorage::StartTransaction], account_data_storage.cpp *)
Definition StartTransaction : M Storage unit :=
  ok ← CheckKvStore;
  if negb ok then merr ERR_ACCOUNT_COMMON_CHECK_KVSTORE_ERROR
  else
    _ ← lock_txn;
    r ← TryTwice (status_only kv_start);
    if bool_decide (r.1 = SUCCESS) then mret tt
    else
      _ ← unlock_txn;
      merr ERR_OSACCOUNT_SERVICE_MANAGER_QUERY_DISTRIBUTE_DATA_ERROR.

(** [AccountDataStorage::Commit], account_data_storage.cpp *)
Definition Commit : M Storage unit :=
  ok ← CheckKvStore;
  if negb ok then merr ERR_ACCOUNT_COMMON_CHECK_KVSTORE_ERROR
  else
    r ← TryTwice (status_only kv_commit);
    if bool_decide (r.1 = SUCCESS) then unlock_txn
    else merr ERR_OSACCOUNT_SERVICE_MANAGER_QUERY_DISTRIBUTE_DATA_ERROR.

(** [AccountDataStorage::Rollback], account_data_storage.cpp *)
Definition Rollback : M Storage unit :=
  ok ← CheckKvStore;
  if negb ok then
    _ ← unlock_txn; merr ERR_ACCOUNT_COMMON_CHECK_KVSTORE_ERROR
  else
    r ← TryTwice (status_only kv_rollback);
    _ ← unlock_txn;
    if bool_decide (r.1 = SUCCESS) then mret tt
    else merr ERR_OSACCOUNT_SERVICE_MANAGER_QUERY_DISTRIBUTE_DATA_ERROR.

(** The object moved into is the first of the pair, the one moved from the second.

    [AccountDataStorage::MoveData], account_data_storage.cpp *)
Definition MoveData : M (Storage * Storage) unit :=
  ok2 ← zoom in_snd CheckKvStore;
  if negb ok2 then merr ERR_ACCOUNT_COMMON_CHECK_KVSTORE_ERROR
  else
  ok1 ← zoom in_fst CheckKvStore;
  if negb ok1 then merr ERR_ACCOUNT_COMMON_CHECK_KVSTORE_ERROR
  else if negb is_kv_store then mret tt
  else
    r ← zoom in_snd (GetEntries "");
    if negb (bool_decide (r.1 = SUCCESS)) then
      merr ERR_OSACCOUNT_SERVICE_MANAGER_QUERY_DISTRIBUTE_DATA_ERROR
    else
      _ ← zoom in_fst StartTransaction;
      status ← zoom in_fst (on_db (kv_put_batch r.2));
      if negb (bool_decide (status = SUCCESS)) then
        _ ← mtry (zoom in_fst Rollback);
        merr ERR_OSACCOUNT_SERVICE_MANAGER_QUERY_DISTRIBUTE_DATA_ERROR
      else
        c ← mtry (zoom in_fst Commit);
        match c with
        | Ok _ => mret tt
        | Err e => _ ← mtry (zoom in_fst Rollback); merr e
        end.

(** The unit of work between [StartDbTransaction] and [CommitDbTransaction].  The
    [DatabaseTransaction] object rolls back when the scope is left while it still
    owns the transaction, which is whenever the body or the commit fails.

    [StartDbTransaction], account_data_storage.cpp *)
Definition with_transaction {W A} (L : StorageIn W) (body : M W A) : M W A :=
  _ ← zoom L StartTransaction;
  r ← mtry (a ← body; _ ← zoom L Commit; mret a);
  match r with
  | Ok a => mret a
  | Err e => _ ← mtry (zoom L Rollback); merr e
  end.

(** [AppAccountDataStorage::GetAccessibleAccountsFromAuthorizedAccounts], app_account_data_storage.cpp *)
Definition GetAccessibleAccountsFromAuthorizedAccounts (authorizedAccounts authorizedApp : string)
  : option CJson * list string :=
  match CreateJsonFromString authorizedAccounts with
  | None => (CreateJson, [])
  | Some jsonObject =>
      if negb (IsKeyExist (Some jsonObject) authorizedApp) then
        let array := CreateJsonArray in
        (match AddObjToJson (Some jsonObject) authorizedApp array with
         | Some j => Some j
         | None => Some jsonObject
         end, [])
      else (Some jsonObject, default [] (GetVectorStringFromJson (Some jsonObject) authorizedApp []))
  end.

(** A value that cannot be read counts as empty.

    [AppAccountDataStorage::GetAccessibleAccountsFromDataStorage], app_account_data_storage.cpp *)
Definition GetAccessibleAccountsFromDataStorage (authorizedApp : string) : M Storage (list string) :=
  r ← mtry (GetValueFromKvStore AUTHORIZED_ACCOUNTS);
  let authorizedAccounts := match r with Ok v => v | Err _ => EmptyString end in
  mret (GetAccessibleAccountsFromAuthorizedAccounts authorizedAccounts authorizedApp).2.

(** [AppAccountDataStorage::GetAccountInfoFromDataStorage], app_account_data_storage.cpp *)
Definition GetAccountInfoFromDataStorage (appAccountInfo : AppAccountInfo) : M Storage AppAccountInfo :=
  r ← mtry (GetAccountInfoById (GetPrimeKey appAccountInfo) appAccountInfo);
  match r with
  | Ok i => mret i
  | Err _ => merr ERR_APPACCOUNT_SERVICE_GET_ACCOUNT_INFO_BY_ID
  end.

(** [AppAccountDataStorage::AddAccountInfoIntoDataStorage], app_account_data_storage.cpp *)
Definition AddAccountInfoIntoDataStorage (appAccountInfo : AppAccountInfo) : M Storage unit :=
  AddAccountInfo appAccountInfo.

(** [AppAccountDataStorage::SaveAccountInfoIntoDataStorage], app_account_data_storage.cpp *)
Definition SaveAccountInfoIntoDataStorage (appAccountInfo : AppAccountInfo) : M Storage unit :=
  SaveAccountInfo appAccountInfo.

(** [AppAccountDataStorage::DeleteAccountInfoFromDataStorage], app_account_data_storage.cpp *)
Definition DeleteAccountInfoFromDataStorage (appAccountInfo : AppAccountInfo) : M Storage unit :=
  RemoveValueFromKvStore (GetPrimeKey appAccountInfo).
End Operations.

(** ** What calls keep *)

Section Frames.
Context {cfg : Config} {cjson : CJsonLib} {target : Target} {adapter : DbAdapter} {dblaws : DbLaws}.

(** Where the storage is with respect to transactions: the contents saved at the
    start of the current one, and how often the mutex is held. *)
Definition txn_state (x : option (gmap string string)) (n : Z) (s : Storage) : Prop :=
  saved (base s) = x ∧ transactionMutex_ s = n.

(** The same, with the contents. *)
Definition store_state (m : gmap string string) (x : option (gmap string string)) (n : Z) (s : Storage)
  : Prop := contents (base s) = m ∧ txn_state x n s.

Lemma on_db_txn {B} (f : db → B * db) x n :
  (∀ d b d', f d = (b, d') → saved d' = saved d) → preserves (txn_state x n) (on_db f).
Proof.
  intros Hf s [Hs Hn]. unfold on_db. destruct (f (base s)) as [b d] eqn:E.
  split; [|done]. simpl. by rewrite (Hf _ _ _ E).
Qed.

Lemma on_db_store {B} (f : db → B * db) m x n :
  (∀ d b d', f d = (b, d') → contents d' = contents d ∧ saved d' = saved d) →
  preserves (store_state m x n) (on_db f).
Proof.
  intros Hf s (Hm & Hs & Hn). unfold on_db. destruct (f (base s)) as [b d] eqn:E.
  destruct (Hf _ _ _ E) as [E1 E2]. split; simpl; [by rewrite E1|]. split; simpl; [by rewrite E2|done].
Qed.

Lemma set_ptr_txn b x n : preserves (txn_state x n) (set_ptr b).
Proof. by intros s Hs. Qed.
Lemma set_ptr_store b m x n : preserves (store_state m x n) (set_ptr b).
Proof. by intros s Hs. Qed.

Lemma open_txn x n : preserves (txn_state x n) (on_db kv_open).
Proof. apply on_db_txn. intros. by eapply open_keeps. Qed.
Lemma open_store m x n : preserves (store_state m x n) (on_db kv_open).
Proof. apply on_db_store. intros. by eapply open_keeps. Qed.
Lemma get_txn k x n : preserves (txn_state x n) (on_db (kv_get k)).
Proof. apply on_db_txn. intros. by eapply get_keeps. Qed.
Lemma get_store k m x n : preserves (store_state m x n) (on_db (kv_get k)).
Proof. apply on_db_store. intros. by eapply get_keeps. Qed.
Lemma put_txn k v x n : preserves (txn_state x n) (on_db (kv_put k v)).
Proof. apply on_db_txn. intros. by eapply put_saved. Qed.
Lemma delete_txn k x n : preserves (txn_state x n) (on_db (kv_delete k)).
Proof. apply on_db_txn. intros. by eapply delete_saved. Qed.
Lemma batch_txn l x n : preserves (txn_state x n) (on_db (kv_put_batch l)).
Proof. apply on_db_txn. intros. by eapply batch_saved. Qed.
Lemma entries_txn p x n : preserves (txn_state x n) (GetEntries p).
Proof. apply on_db_txn. intros. by eapply entries_keeps. Qed.
Lemma entries_store p m x n : preserves (store_state m x n) (GetEntries p).
Proof. apply on_db_store. intros. by eapply entries_keeps. Qed.

Lemma TryTwice_preserves {B} P (f : M Storage (DbAdapterStatus * B)) :
  preserves P f → preserves P (TryTwice f).
Proof. intros Hf. unfold TryTwice. preserve. Qed.

Lemma open_loop_preserves P tries :
  preserves P (on_db kv_open) → preserves P (set_ptr true) → preserves P (open_loop tries).
Proof.
  intros Ho Hp. induction tries as [|tries IH]; simpl; [preserve|]. unfold GetKvStore. preserve.
Qed.

Lemma CheckKvStore_preserves P :
  preserves P (on_db kv_open) → preserves P (set_ptr true) → preserves P CheckKvStore.
Proof. intros Ho Hp. unfold CheckKvStore. preserve. by apply open_loop_preserves. Qed.

Lemma CheckKvStore_txn x n : preserves (txn_state x n) CheckKvStore.
Proof. apply CheckKvStore_preserves; [apply open_txn|apply set_ptr_txn]. Qed.
Lemma CheckKvStore_store m x n : preserves (store_state m x n) CheckKvStore.
Proof. apply CheckKvStore_preserves; [apply open_store|apply set_ptr_store]. Qed.
End Frames.

#[export] Hint Resolve set_ptr_txn set_ptr_store open_txn open_store get_txn get_store put_txn delete_txn
  batch_txn entries_txn entries_store TryTwice_preserves CheckKvStore_txn CheckKvStore_store : mpres.

Section Operations_frames.
Context {cfg : Config} {cjson : CJsonLib} {target : Target} {adapter : DbAdapter} {dblaws : DbLaws}.

Lemma GetValueFromKvStore_txn k x n : preserves (txn_state x n) (GetValueFromKvStore k).
Proof. unfold GetValueFromKvStore. preserve. Qed.
Lemma GetValueFromKvStore_store k m x n : preserves (store_state m x n) (GetValueFromKvStore k).
Proof. unfold GetValueFromKvStore. preserve. Qed.
Lemma PutValueToKvStore_txn k v x n : preserves (txn_state x n) (PutValueToKvStore k v).
Proof. unfold PutValueToKvStore. preserve. Qed.

#[local] Hint Resolve GetValueFromKvStore_txn GetValueFromKvStore_store PutValueToKvStore_txn : mpres.

Lemma IsKeyExists_txn k x n : preserves (txn_state x n) (IsKeyExists k).
Proof. unfold IsKeyExists. preserve. Qed.
Lemma IsKeyExists_store k m x n : preserves (store_state m x n) (IsKeyExists k).
Proof. unfold IsKeyExists. preserve. Qed.
#[local] Hint Resolve IsKeyExists_txn IsKeyExists_store : mpres.

Lemma AddAccountInfo_txn i x n : preserves (txn_state x n) (AddAccountInfo i).
Proof. unfold AddAccountInfo. preserve. Qed.
Lemma SaveAccountInfo_txn i x n : preserves (txn_state x n) (SaveAccountInfo i).
Proof. unfold SaveAccountInfo. preserve. Qed.

Lemma status_delete_txn k x n : preserves (txn_state x n) (status_only (kv_delete k)).
Proof. unfold status_only. preserve. Qed.
#[local] Hint Resolve status_delete_txn : mpres.

Lemma RemoveValueFromKvStore_txn k x n : preserves (txn_state x n) (RemoveValueFromKvStore k).
Proof. unfold RemoveValueFromKvStore. preserve. Qed.

Lemma GetAccountInfoById_txn k i x n : preserves (txn_state x n) (GetAccountInfoById k i).
Proof. unfold GetAccountInfoById. preserve. Qed.
Lemma GetAccountInfoById_store k i m x n : preserves (store_state m x n) (GetAccountInfoById k i).
Proof. unfold GetAccountInfoById. preserve. Qed.
#[local] Hint Resolve GetAccountInfoById_txn GetAccountInfoById_store : mpres.

Lemma GetAccountInfoFromDataStorage_txn i x n :
  preserves (txn_state x n) (GetAccountInfoFromDataStorage i).
Proof. unfold GetAccountInfoFromDataStorage. preserve. Qed.
Lemma GetAccountInfoFromDataStorage_store i m x n :
  preserves (store_state m x n) (GetAccountInfoFromDataStorage i).
Proof. unfold GetAccountInfoFromDataStorage. preserve. Qed.

Lemma SaveEntries_txn l infos x n : preserves (txn_state x n) (SaveEntries l infos).
Proof.
  unfold SaveEntries.
  assert (H : ∀ acc : M Storage (gmap string AppAccountInfo), preserves (txn_state x n) acc → preserves (txn_state x n)
    (foldl (λ acc item, infos ← acc;
       match CreateJsonFromString item.2 with
       | None => _ ← on_db (kv_delete item.1); mret infos
       | Some jsonObject =>
           let appAccountInfo := (FromJson (Some jsonObject) AppAccountInfo_default).2 in
           mret (match infos !! item.1 with
                 | Some _ => infos
                 | None => <[item.1 := appAccountInfo]> infos
                 end)
       end) acc l)).
  { induction l as [|item l IH]; intros acc Hacc; [done|]. cbn [foldl]. apply IH. preserve. }
  apply H. preserve.
Qed.
#[local] Hint Resolve SaveEntries_txn : mpres.

Lemma LoadDataByLocalFuzzyQuery_txn p x n : preserves (txn_state x n) (LoadDataByLocalFuzzyQuery p).
Proof. unfold LoadDataByLocalFuzzyQuery. preserve. Qed.
Lemma LoadAllData_txn x n : preserves (txn_state x n) LoadAllData.
Proof. unfold LoadAllData. preserve. Qed.
End Operations_frames.

#[export] Hint Resolve GetValueFromKvStore_txn GetValueFromKvStore_store PutValueToKvStore_txn
  IsKeyExists_txn IsKeyExists_store AddAccountInfo_txn SaveAccountInfo_txn RemoveValueFromKvStore_txn
  GetAccountInfoById_txn GetAccountInfoById_store GetAccountInfoFromDataStorage_txn
  GetAccountInfoFromDataStorage_store SaveEntries_txn LoadDataByLocalFuzzyQuery_txn LoadAllData_txn : mpres.

(** ** What calls do *)

Section Effects.
Context {cfg : Config} {cjson : CJsonLib} {target : Target} {adapter : DbAdapter} {dblaws : DbLaws}.

(** The storage as it is, up to the handle. *)
Definition same_store (s s' : Storage) : Prop :=
  store_state (contents (base s)) (saved (base s)) (transactionMutex_ s) s'.

Lemma same_store_refl s : same_store s s.
Proof. by split. Qed.

Lemma same_store_trans s1 s2 s3 : same_store s1 s2 → same_store s2 s3 → same_store s1 s3.
Proof. unfold same_store, store_state, txn_state. intros (-> & -> & ->). done. Qed.

(** A call that keeps the store whatever it is. *)
Lemma preserves_same {A} (m : M Storage A) s r s' :
  (∀ c x n, preserves (store_state c x n) m) → m s = (r, s') → same_store s s'.
Proof. intros Hm E. specialize (Hm _ _ _ s (same_store_refl s)). by rewrite E in Hm. Qed.

Lemma open_loop_ok tries s : ∃ s', open_loop tries s = (Ok tt, s').
Proof.
  revert s. induction tries as [|tries IH]; intros s; simpl; [by eexists|].
  unfold GetKvStore. rewrite mbind_assoc, mbind_unfold. unfold on_db.
  destruct (kv_open (base s)) as [[st p] d]. rewrite mbind_assoc.
  destruct p; unfold set_ptr; msimpl; (destruct (bool_decide (st = SUCCESS) && _); [by eexists|apply IH]).
Qed.

(** Checking the handle never fails and keeps the store. *)
Lemma CheckKvStore_run s :
  ∃ b s1, CheckKvStore s = (Ok b, s1) ∧ same_store s s1 ∧ (kvStorePtr_ s = true → b = true ∧ s1 = s).
Proof.
  assert (Hok : ∃ b s1, CheckKvStore s = (Ok b, s1) ∧ (kvStorePtr_ s = true → b = true ∧ s1 = s)).
  { unfold CheckKvStore. msimpl. destruct (kvStorePtr_ s) eqn:Ep; [by eexists _, _|].
    rewrite mbind_unfold. destruct (open_loop_ok MAX_TIMES s) as [s' ->]. msimpl.
    eexists _, _. split; [done|]. intros. congruence. }
  destruct Hok as (b & s1 & E & Hp). exists b, s1. split_and!; [done| |done].
  eapply preserves_same; [|exact E]. intros. apply CheckKvStore_store.
Qed.

Lemma on_db_run {B} (f : db → B * db) s b d :
  f (base s) = (b, d) → on_db f s = (Ok b, mkStorage (kvStorePtr_ s) (transactionMutex_ s) d).
Proof. intros E. unfold on_db. by rewrite E. Qed.

(** The outcome of storing a value. *)
Lemma PutValueToKvStore_spec k v s r s' :
  PutValueToKvStore k v s = (r, s') →
  txn_state (saved (base s)) (transactionMutex_ s) s' ∧
  contents (base s') = match r with Ok _ => <[k := v]> (contents (base s)) | Err _ => contents (base s) end.
Proof.
  intros E. split.
  { pose proof (PutValueToKvStore_txn k v (saved (base s)) (transactionMutex_ s) s) as H.
    rewrite E in H. by apply H. }
  unfold PutValueToKvStore in E. destruct (CheckKvStore_run s) as (b & s1 & Ec & (Hc & _) & _).
  rewrite mbind_unfold, Ec in E. destruct b; cbn [negb] in E; [|msimpl in E; by injection E as <- <-].
  rewrite mbind_unfold in E. destruct (kv_put k v (base s1)) as [st1 d1] eqn:E1.
  rewrite (on_db_run _ _ _ _ E1) in E. pose proof (put_contents _ _ _ _ _ E1) as P1.
  rewrite mbind_unfold in E. case_bool_decide as Hipc.
  - subst. destruct (kv_put k v d1) as [st2 d2] eqn:E2.
    rewrite (on_db_run _ (mkStorage _ _ d1) _ _ E2) in E. pose proof (put_contents _ _ _ _ _ E2) as P2.
    case_bool_decide; msimpl in E; simplify_eq; simpl in *; rewrite P2, P1, Hc; first [done|by destruct st2].
  - msimpl in E. case_bool_decide; msimpl in E; simplify_eq; simpl in *; rewrite P1, Hc; first [done|by destruct st1].
Qed.

(** The outcome of reading a value. *)
Lemma GetValueFromKvStore_spec k s r s' :
  GetValueFromKvStore k s = (r, s') →
  same_store s s' ∧ match r with Ok v => contents (base s) !! k = Some v | Err _ => True end.
Proof.
  intros E. split.
  { eapply preserves_same; [|exact E]. intros. apply GetValueFromKvStore_store. }
  unfold GetValueFromKvStore in E. destruct (CheckKvStore_run s) as (b & s1 & Ec & (Hc & _) & _).
  rewrite mbind_unfold, Ec in E. destruct b; cbn [negb] in E; [|msimpl in E; by injection E as <- <-].
  rewrite mbind_unfold in E. destruct (kv_get k (base s1)) as [[st1 v1] d1] eqn:E1.
  rewrite (on_db_run _ _ _ _ E1) in E. rewrite mbind_unfold in E. cbn [fst snd] in E.
  case_bool_decide as Hipc.
  - destruct (kv_get k d1) as [[st2 v2] d2] eqn:E2.
    rewrite (on_db_run _ (mkStorage _ _ d1) _ _ E2) in E. destruct (get_keeps _ _ _ _ E1) as [K1 _].
    cbn [fst snd] in E. case_bool_decide; msimpl in E; simplify_eq; [|done].
    rewrite <-Hc, <-K1. by eapply get_success.
  - msimpl in E. case_bool_decide; msimpl in E; simplify_eq; [|done]. rewrite <-Hc. by eapply get_success.
Qed.

Lemma IsKeyExists_spec k s r s' :
  IsKeyExists k s = (r, s') →
  same_store s s' ∧ ∃ b, r = Ok b ∧ (b = true → is_Some (contents (base s) !! k)).
Proof.
  unfold IsKeyExists. rewrite run_try. destruct (GetValueFromKvStore k s) as [r1 s1] eqn:E1.
  msimpl. intros [= <- <-]. destruct (GetValueFromKvStore_spec _ _ _ _ E1) as [Hs Hr].
  split; [done|]. eexists. split; [done|]. destruct r1; [by eexists|done].
Qed.

(** Adding and saving an account: the text goes under the key, or nothing
    changes. *)
Lemma store_account_spec (save : bool) i s r s' :
  (if save then SaveAccountInfo i else AddAccountInfo i) s = (r, s') →
  txn_state (saved (base s)) (transactionMutex_ s) s' ∧
  match r with
  | Ok _ =>
      contents (base s') = <[GetPrimeKey i := ToString i]> (contents (base s)) ∧
      (save = true → is_Some (contents (base s) !! GetPrimeKey i))
  | Err _ => contents (base s') = contents (base s)
  end.
Proof.
  intros E.
  assert (Hput : ∀ s1, same_store s s1 → PutValueToKvStore (GetPrimeKey i) (ToString i) s1 = (r, s') →
    txn_state (saved (base s)) (transactionMutex_ s) s' ∧
    match r with
    | Ok _ => contents (base s') = <[GetPrimeKey i := ToString i]> (contents (base s))
    | Err _ => contents (base s') = contents (base s)
    end).
  { intros s1 (Hc & Hs & Hn) Ep. destruct (PutValueToKvStore_spec _ _ _ _ _ Ep) as [[Hs' Hn'] Hc'].
    split; [split; congruence|]. rewrite Hc in Hc'. by destruct r. }
  assert (Herr : ∀ s1 e, same_store s s1 → (Err e, s1) = (r, s') →
    txn_state (saved (base s)) (transactionMutex_ s) s' ∧
    match r with
    | Ok _ => contents (base s') = <[GetPrimeKey i := ToString i]> (contents (base s))
    | Err _ => contents (base s') = contents (base s)
    end).
  { intros s1 e (Hc & Ht) [= <- <-]. by split. }
  destruct save; unfold SaveAccountInfo, AddAccountInfo in E; rewrite mbind_unfold in E;
    destruct (IsKeyExists (GetPrimeKey i) s) as [r1 s1] eqn:E1;
    destruct (IsKeyExists_spec _ _ _ _ E1) as (Hs1 & b & -> & Hb); destruct b; cbn [negb] in E;
    try (destruct (string_empty (ToString i))); msimpl in E;
    try (edestruct Herr as [? ?]; [exact Hs1|exact E|split; [done|destruct r; [done|done]]]);
    (edestruct Hput as [? ?]; [exact Hs1|exact E|]; split; [done|]; destruct r; naive_solver).
Qed.
(** On a reliable database a handle can always be had. *)
Lemma CheckKvStore_reliable {reliable : DbReliable} s :
  ∃ s', CheckKvStore s = (Ok true, s') ∧ same_store s s' ∧ kvStorePtr_ s' = true.
Proof.
  destruct (CheckKvStore_run s) as (b & s1 & E & Hs & Hp). unfold CheckKvStore in E |- *. msimpl in E. msimpl.
  destruct (kvStorePtr_ s) eqn:Ep; [exists s; split_and!; [done|apply same_store_refl|done]|].
  rewrite mbind_unfold in E |- *. simpl open_loop in E |- *. unfold GetKvStore in E |- *.
  rewrite !mbind_assoc in E |- *. destruct (open_ok (base s)) as [d' Hd].
  rewrite mbind_unfold in E |- *. rewrite (on_db_run _ _ _ _ Hd) in E |- *.
  rewrite !mbind_assoc in E |- *. unfold set_ptr in E |- *. msimpl in E. msimpl. simpl in E |- *.
  injection E as <- <-. by eexists.
Qed.
End Effects.

(** ** Transactions *)

Section Transactions.
Context {cfg : Config} {cjson : CJsonLib} {target : Target} {adapter : DbAdapter} {dblaws : DbLaws}.

Lemma zoom_preserves {W B} (L : StorageIn W) (m : M Storage B) P :
  preserves P m → preserves (λ w, P (view L w)) (zoom L m).
Proof.
  intros Hm w Hw. unfold zoom. specialize (Hm _ Hw). destruct (m (view L w)) as [r s]. simpl in *.
  by rewrite view_update.
Qed.

(** Starting, committing and rolling back, from whatever transaction state. *)
Lemma txn_call_run {f : db → DbAdapterStatus * db} s :
  ∃ st s', TryTwice (status_only f) s = (Ok (st, tt), s') ∧
    kvStorePtr_ s' = kvStorePtr_ s ∧ transactionMutex_ s' = transactionMutex_ s ∧
    (∃ d, f d = (st, base s') ∧ (d = base s ∨ f (base s) = (IPC_ERROR, d))).
Proof.
  unfold TryTwice, status_only. rewrite mbind_unfold.
  destruct (f (base s)) as [st1 d1] eqn:E1.
  assert (Hrun1 : (s0 ← on_db f; mret (s0, tt)) s = (Ok (st1, tt), mkStorage (kvStorePtr_ s) (transactionMutex_ s) d1)).
  { rewrite mbind_unfold. by rewrite (on_db_run _ _ _ _ E1). }
  rewrite Hrun1. cbn [fst]. case_bool_decide as Hipc.
  - subst. destruct (f d1) as [st2 d2] eqn:E2. exists st2, (mkStorage (kvStorePtr_ s) (transactionMutex_ s) d2).
    rewrite mbind_unfold. rewrite (on_db_run _ (mkStorage _ _ d1) _ _ E2). split_and!; try done.
    exists d1. by split; [|right].
  - exists st1, (mkStorage (kvStorePtr_ s) (transactionMutex_ s) d1). split_and!; try done.
    exists (base s). by split; [|left].
Qed.

Lemma StartTransaction_spec s r s' :
  saved (base s) = None → StartTransaction s = (r, s') →
  contents (base s') = contents (base s) ∧
  match r with
  | Ok _ => txn_state (Some (contents (base s))) (transactionMutex_ s + 1) s'
  | Err _ => txn_state None (transactionMutex_ s) s'
  end.
Proof.
  intros Hno E. unfold StartTransaction in E. destruct (CheckKvStore_run s) as (b & s1 & Ec & (Hc & Hs & Hn) & _).
  rewrite mbind_unfold, Ec in E. destruct b; cbn [negb] in E.
  2: { msimpl in E. injection E as <- <-. split; [done|]. split; congruence. }
  unfold lock_txn in E. msimpl in E. rewrite mbind_unfold in E.
  set (s2 := mkStorage (kvStorePtr_ s1) (transactionMutex_ s1 + 1) (base s1)) in *.
  destruct (txn_call_run (f := kv_start) s2) as (st & s3 & Er & _ & Hn3 & d & Hd & Hfrom).
  rewrite Er in E. cbn [fst] in E.
  assert (Hd0 : contents d = contents (base s) ∧ saved d = None).
  { destruct Hfrom as [->|Hf]; simpl in *; [by rewrite Hc, Hs|].
    destruct (start_effect _ _ _ Hf) as [-> ->]. by rewrite Hc, Hs. }
  destruct (start_effect _ _ _ Hd) as [Hc3 Hs3]. destruct Hd0 as [Hdc Hds].
  unfold unlock_txn in E. case_bool_decide; msimpl in E; injection E as <- <-; simpl in *.
  - split; [congruence|]. subst. split; [by rewrite Hs3, Hdc|rewrite Hn3; simpl; lia].
  - split; [congruence|]. split; simpl; [destruct st; congruence|rewrite Hn3; simpl; lia].
Qed.

Lemma Commit_spec s m r s' :
  saved (base s) = Some m → Commit s = (r, s') →
  contents (base s') = contents (base s) ∧
  match r with
  | Ok _ => txn_state None (transactionMutex_ s - 1) s'
  | Err _ => txn_state (Some m) (transactionMutex_ s) s'
  end.
Proof.
  intros Hsv E. unfold Commit in E. destruct (CheckKvStore_run s) as (b & s1 & Ec & (Hc & Hs & Hn) & _).
  rewrite mbind_unfold, Ec in E. destruct b; cbn [negb] in E.
  2: { msimpl in E. injection E as <- <-. split; [done|]. split; congruence. }
  rewrite mbind_unfold in E.
  destruct (txn_call_run (f := kv_commit) s1) as (st & s3 & Er & _ & Hn3 & d & Hd & Hfrom).
  rewrite Er in E. cbn [fst] in E.
  assert (Hd0 : contents d = contents (base s) ∧ saved d = Some m).
  { destruct Hfrom as [->|Hf]; simpl in *; [by rewrite Hc, Hs|].
    destruct (commit_effect _ _ _ Hf) as [-> ->]. by rewrite Hc, Hs. }
  destruct (commit_effect _ _ _ Hd) as [Hc3 Hs3]. destruct Hd0 as [Hdc Hds].
  unfold unlock_txn in E. case_bool_decide; msimpl in E; injection E as <- <-; simpl in *.
  - split; [congruence|]. subst. split; simpl; [done|rewrite Hn3; lia].
  - split; [congruence|]. split; [destruct st; congruence|rewrite Hn3; lia].
Qed.

Lemma Rollback_spec s m r s' :
  saved (base s) = Some m → Rollback s = (r, s') →
  transactionMutex_ s' = transactionMutex_ s - 1 ∧
  match r with
  | Ok _ => contents (base s') = m ∧ saved (base s') = None
  | Err _ => saved (base s') = Some m
  end.
Proof.
  intros Hsv E. unfold Rollback in E. destruct (CheckKvStore_run s) as (b & s1 & Ec & (Hc & Hs & Hn) & _).
  rewrite mbind_unfold, Ec in E. unfold unlock_txn in E. destruct b; cbn [negb] in E.
  2: { msimpl in E. injection E as <- <-. simpl. split; congruence. }
  rewrite mbind_unfold in E.
  destruct (txn_call_run (f := kv_rollback) s1) as (st & s3 & Er & _ & Hn3 & d & Hd & Hfrom).
  rewrite Er in E. cbn [fst] in E.
  assert (Hd0 : saved d = Some m).
  { destruct Hfrom as [->|Hf]; [by rewrite Hs|].
    pose proof (rollback_effect _ _ _ m ltac:(by rewrite Hs) Hf) as [_ ->]. by rewrite Hs. }
  pose proof (rollback_effect _ _ _ m Hd0 Hd) as Heff.
  msimpl in E. case_bool_decide; msimpl in E; injection E as <- <-; simpl in *.
  - subst. split; [rewrite Hn3; lia|done].
  - split; [rewrite Hn3; lia|]. destruct st; [done|..]; destruct Heff as [_ ->]; done.
Qed.

Lemma Rollback_reliable {reliable : DbReliable} s m :
  saved (base s) = Some m → ∃ s', Rollback s = (Ok tt, s').
Proof.
  intros Hsv. destruct (CheckKvStore_reliable s) as (s1 & E1 & (_ & Hs1 & _) & _).
  unfold Rollback. rewrite mbind_unfold, E1. cbn [negb].
  destruct (rollback_ok (base s1)) as [d' Hd]; [rewrite Hs1; by eexists|].
  unfold TryTwice, status_only. rewrite mbind_assoc, mbind_assoc, mbind_unfold, (on_db_run _ _ _ _ Hd). msimpl.
  rewrite bool_decide_false by done. msimpl. unfold unlock_txn. msimpl. by rewrite bool_decide_true by done; eexists.
Qed.

Lemma StartTransaction_reliable {reliable : DbReliable} s :
  saved (base s) = None → ∃ s', StartTransaction s = (Ok tt, s').
Proof.
  intros Hno. destruct (CheckKvStore_reliable s) as (s1 & E1 & (_ & Hs1 & _) & _).
  unfold StartTransaction. rewrite mbind_unfold, E1. cbn [negb]. unfold lock_txn. msimpl.
  destruct (start_ok (base s1)) as [d' Hd]; [congruence|].
  unfold TryTwice, status_only. rewrite mbind_assoc, mbind_assoc, mbind_unfold.
  rewrite (on_db_run _ (mkStorage _ _ (base s1)) _ _ Hd). msimpl.
  rewrite bool_decide_false by done. msimpl. by rewrite bool_decide_true by done; eexists.
Qed.

Lemma Commit_reliable {reliable : DbReliable} s m :
  saved (base s) = Some m → ∃ s', Commit s = (Ok tt, s').
Proof.
  intros Hsv. destruct (CheckKvStore_reliable s) as (s1 & E1 & (_ & Hs1 & _) & _).
  unfold Commit. rewrite mbind_unfold, E1. cbn [negb].
  destruct (commit_ok (base s1)) as [d' Hd]; [rewrite Hs1; by eexists|].
  unfold TryTwice, status_only. rewrite mbind_assoc, mbind_assoc, mbind_unfold, (on_db_run _ _ _ _ Hd). msimpl.
  rewrite bool_decide_false by done. msimpl. rewrite bool_decide_true by done. unfold unlock_txn. msimpl. by eexists.
Qed.

(** The outcome of a unit of work, with the states it goes through. *)
Lemma transaction_outcome {W A} (L : StorageIn W) (body : M W A) w :
  saved (base (view L w)) = None →
  (∀ x n, preserves (λ w, txn_state x n (view L w)) body) →
  let '(r, w') := with_transaction L body w in
  transactionMutex_ (view L w') = transactionMutex_ (view L w) ∧
  match r with
  | Ok a =>
      saved (base (view L w')) = None ∧
      ∃ s1 w2 s3, contents (base s1) = contents (base (view L w)) ∧
        body (update L s1 w) = (Ok a, w2) ∧ w' = update L s3 w2 ∧
        contents (base s3) = contents (base (view L w2))
  | Err _ => durable (base (view L w')) = contents (base (view L w)) ∧
      (DbReliable → saved (base (view L w')) = None)
  end.
Proof.
  intros Hno Hbody. unfold with_transaction. rewrite mbind_unfold. unfold zoom at 1.
  destruct (StartTransaction (view L w)) as [r1 s1] eqn:E1.
  destruct (StartTransaction_spec _ _ _ Hno E1) as [Hc1 Ht1].
  destruct r1 as [[]|e].
  2: { rewrite view_update. destruct Ht1 as [Hs Hn]. unfold durable. by rewrite Hs, Hn, Hc1. }
  set (w1 := update L s1 w). assert (Hv1 : view L w1 = s1) by apply view_update.
  rewrite run_try, mbind_unfold.
  assert (Hb : txn_state (Some (contents (base (view L w)))) (transactionMutex_ (view L w) + 1)
    (view L (body w1).2)).
  { refine (Hbody _ _ w1 _). cbv beta. by rewrite Hv1. }
  destruct (body w1) as [r2 w2] eqn:E2. simpl in Hb. destruct Hb as [Hs2 Hn2].
  assert (Hroll : ∀ w3 e, saved (base (view L w3)) = Some (contents (base (view L w))) →
    transactionMutex_ (view L w3) = transactionMutex_ (view L w) + 1 →
    ∃ w', (_ ← mtry (zoom L Rollback); merr e : M W A) w3 = (Err e, w') ∧
      transactionMutex_ (view L w') = transactionMutex_ (view L w) ∧
      durable (base (view L w')) = contents (base (view L w)) ∧
      (DbReliable → saved (base (view L w')) = None)).
  { intros w3 e Hs3 Hn3. rewrite run_try. unfold zoom.
    destruct (Rollback (view L w3)) as [r4 s4] eqn:E4.
    destruct (Rollback_spec _ _ _ _ Hs3 E4) as [Hn4 Hr4]. msimpl. eexists. split; [done|].
    rewrite view_update. split; [lia|]. unfold durable.
    destruct r4; [by destruct Hr4 as [-> ->]|]. rewrite Hr4. split; [done|]. intros rel.
    destruct (Rollback_reliable _ _ Hs3) as [s5 E5]. congruence. }
  destruct r2 as [a|e]; [|by destruct (Hroll w2 e Hs2 Hn2) as (w' & -> & ?)].
  rewrite mbind_unfold. unfold zoom at 1. destruct (Commit (view L w2)) as [r3 s3] eqn:E3.
  destruct (Commit_spec _ _ _ _ Hs2 E3) as [Hc3 Ht3]. destruct r3 as [[]|e]; destruct Ht3 as [Hs3 Hn3].
  - msimpl. rewrite view_update. split; [lia|]. split; [done|].
    exists s1, w2, s3. by split_and!.
  - destruct (Hroll (update L s3 w2) e) as (w' & -> & ?); [rewrite view_update; congruence..|done].
Qed.

(** On a reliable database a unit of work succeeds when its body does. *)
Lemma transaction_succeeds {reliable : DbReliable} {W A} (L : StorageIn W) (body : M W A) w :
  saved (base (view L w)) = None →
  (∀ x n, preserves (λ w, txn_state x n (view L w)) body) →
  (∀ s, contents (base s) = contents (base (view L w)) → is_Ok (body (update L s w)).1 = true) →
  is_Ok (with_transaction L body w).1 = true.
Proof.
  intros Hno Hbody Hok. unfold with_transaction. rewrite mbind_unfold. unfold zoom at 1.
  destruct (StartTransaction_reliable _ Hno) as [s1 E1]. rewrite E1.
  destruct (StartTransaction_spec _ _ _ Hno E1) as [Hc1 Ht1].
  specialize (Hok s1 Hc1). rewrite run_try, mbind_unfold.
  pose proof (Hbody (Some (contents (base (view L w)))) (transactionMutex_ (view L w) + 1) (update L s1 w)) as Hb.
  cbv beta in Hb. rewrite view_update in Hb. specialize (Hb Ht1).
  destruct (body (update L s1 w)) as [[a|e] w2]; [|done]. destruct Hb as [Hs2 _]. cbn [snd] in Hs2.
  rewrite mbind_unfold. unfold zoom. by destruct (Commit_reliable _ _ Hs2) as [s3 ->].
Qed.

(** C22. A unit of work is atomic, whatever the database does.  Between
    [StartDbTransaction] and [CommitDbTransaction], on a store that is not in a
    transaction, with a body that only reads and writes: when the whole succeeds
    the store holds what the body left there and is out of the transaction; when
    anything fails (starting, a step of the body, the commit, even the rollback)
    what is durable is as it was before.  In every case the transaction mutex is
    held as often afterwards as before. *)
Theorem transaction_atomic {W A} (L : StorageIn W) (body : M W A) w :
  saved (base (view L w)) = None →
  (∀ x n, preserves (λ w, txn_state x n (view L w)) body) →
  let '(r, w') := with_transaction L body w in
  transactionMutex_ (view L w') = transactionMutex_ (view L w) ∧
  match r with
  | Ok a =>
      saved (base (view L w')) = None ∧
      ∃ w1 w2, contents (base (view L w1)) = contents (base (view L w)) ∧
        body w1 = (Ok a, w2) ∧ contents (base (view L w')) = contents (base (view L w2))
  | Err _ => durable (base (view L w')) = contents (base (view L w))
  end.
Proof.
  intros Hno Hbody. pose proof (transaction_outcome L body w Hno Hbody) as H.
  destruct (with_transaction L body w) as [r w']. destruct H as [Hn Hr]. split; [done|].
  destruct r as [a|e]; [|tauto]. destruct Hr as (Hs & s1 & w2 & s3 & Hc1 & Hb & -> & Hc3). split; [done|].
  exists (update L s1 w), w2. by rewrite !view_update.
Qed.
End Transactions.

(** ** Moving a store *)

Section Moving.
Context {cfg : Config} {cjson : CJsonLib} {target : Target} {adapter : DbAdapter} {dblaws : DbLaws}.

Lemma all_entries d l d' : kv_entries "" d = ((SUCCESS, l), d') → list_to_map l = contents d.
Proof.
  intros E. destruct (entries_success _ _ _ _ E) as [Hnd Hl]. apply map_eq. intros k.
  destruct (contents d !! k) as [v|] eqn:Ek.
  - apply elem_of_list_to_map_1; [done|]. apply Hl. by destruct k.
  - apply not_elem_of_list_to_map_1. intros ([k' v] & -> & Hin)%list_elem_of_fmap.
    apply Hl in Hin as [Hin _]. simpl in *. congruence.
Qed.

(** The part of [MoveData] that changes the store is a unit of work. *)
Lemma move_batch_transaction l w :
  (_ ← zoom in_fst StartTransaction;
   status ← zoom in_fst (on_db (kv_put_batch l));
   if negb (bool_decide (status = SUCCESS)) then
     _ ← mtry (zoom in_fst Rollback);
     merr ERR_OSACCOUNT_SERVICE_MANAGER_QUERY_DISTRIBUTE_DATA_ERROR
   else
     c ← mtry (zoom in_fst Commit);
     match c with
     | Ok _ => mret tt
     | Err e => _ ← mtry (zoom in_fst Rollback); merr e
     end) w =
  with_transaction in_fst
    (status ← zoom in_fst (on_db (kv_put_batch l));
     if negb (bool_decide (status = SUCCESS)) then
       merr ERR_OSACCOUNT_SERVICE_MANAGER_QUERY_DISTRIBUTE_DATA_ERROR
     else mret tt) w.
Proof.
  unfold with_transaction. rewrite !mbind_unfold. destruct (zoom in_fst StartTransaction w) as [[[]|e] w1]; [|done].
  rewrite run_try, mbind_assoc, !mbind_unfold.
  destruct (zoom in_fst (on_db (kv_put_batch l)) w1) as [[st|e] w2] eqn:E2.
  - case_bool_decide; cbn [negb]; msimpl; [|done].
    rewrite run_try, mbind_unfold. by destruct (zoom in_fst Commit w2) as [[[]|e] w3].
  - exfalso. unfold zoom, on_db in E2. simpl in E2.
    by destruct (kv_put_batch l (base w1.1)).
Qed.

Lemma in_fst_preserves P {B} (m : M Storage B) :
  preserves P m → preserves (λ w : Storage * Storage, P w.1) (zoom in_fst m).
Proof. apply (zoom_preserves in_fst). Qed.

(** A call on the first storage leaves the second alone. *)
Lemma in_fst_other s2 {B} (m : M Storage B) :
  preserves (λ w : Storage * Storage, w.2 = s2) (zoom in_fst m).
Proof. intros w Hw. unfold zoom. by destruct (m (view in_fst w)). Qed.

Lemma with_transaction_preserves {W A} (L : StorageIn W) (body : M W A) P :
  (∀ B (m : M Storage B), preserves P (zoom L m)) → preserves P body → preserves P (with_transaction L body).
Proof. intros Hz Hb. unfold with_transaction. preserve; apply Hz. Qed.

(** Moving a store copies it, atomically.  [MoveData] into a store that is not
    in a transaction never changes the store moved from; when it succeeds (on
    the database that supports it) the store moved into holds all the other's
    entries, and its own under other keys; when it fails what is durable there is
    as before.  The transaction mutex is held as often afterwards as before. *)
Theorem move_data_copies s1 s2 :
  saved (base s1) = None →
  let '(r, w) := MoveData (s1, s2) in
  contents (base w.2) = contents (base s2) ∧ saved (base w.2) = saved (base s2) ∧
  transactionMutex_ w.1 = transactionMutex_ s1 ∧
  match r with
  | Ok _ => is_kv_store = true →
      saved (base w.1) = None ∧ contents (base w.1) = contents (base s2) ∪ contents (base s1)
  | Err _ => durable (base w.1) = contents (base s1)
  end.
Proof.
  intros Hno. unfold MoveData. rewrite mbind_unfold. unfold zoom at 1. cbn [view in_snd snd].
  destruct (CheckKvStore_run s2) as (b2 & s2' & -> & (Hc2 & Hs2 & Hn2) & _). cbn [update in_snd fst].
  assert (Hdur : ∀ s, same_store s1 s → durable (base s) = contents (base s1)).
  { intros s (Hc & Hs & _). unfold durable. by rewrite Hs, Hno. }
  destruct b2; cbn [negb]; msimpl; [|split_and!; try done; by apply Hdur, same_store_refl].
  rewrite mbind_unfold. unfold zoom at 1. cbn [view in_fst fst].
  destruct (CheckKvStore_run s1) as (b1 & s1' & -> & Hsame1 & _). cbn [update in_fst snd].
  pose proof Hsame1 as (Hc1 & Hs1 & Hn1).
  destruct b1; cbn [negb]; msimpl; [|split_and!; try done; by apply Hdur].
  destruct is_kv_store; cbn [negb]; msimpl; [|split_and!; try done].
  rewrite mbind_unfold. unfold zoom at 1, GetEntries at 1, on_db at 1. cbn [view in_snd snd].
  destruct (kv_entries "" (base s2')) as [[st l] d2] eqn:E2.
  destruct (entries_keeps _ _ _ _ E2) as [Hcd2 Hsd2]. cbn [update in_snd fst snd].
  case_bool_decide as Hst; cbn [negb]; msimpl.
  2: { split_and!; simpl; [congruence|congruence|done|by apply Hdur]. }
  subst. pose proof (all_entries _ _ _ E2) as Hall.
  set (w := (s1', mkStorage (kvStorePtr_ s2') (transactionMutex_ s2') d2)).
  rewrite move_batch_transaction.
  set (body := status ← zoom in_fst (on_db (kv_put_batch l)); _).
  assert (Hother : preserves (λ w : Storage * Storage, w.2 = mkStorage (kvStorePtr_ s2') (transactionMutex_ s2') d2)
    (with_transaction in_fst body)).
  { apply with_transaction_preserves; [intros; apply in_fst_other|].
    unfold body. preserve. apply in_fst_other. }
  specialize (Hother w eq_refl).
  pose proof (transaction_outcome in_fst body w) as Hat. cbn [view in_fst fst w] in Hat.
  specialize (Hat ltac:(congruence)). destruct (with_transaction in_fst body w) as [r w'].
  destruct Hat as [Hmutex Hr].
  { intros x n. unfold body. preserve. apply (zoom_preserves in_fst), batch_txn. }
  cbn [snd] in Hother. rewrite Hother. cbn [base saved]. split_and!; [congruence|congruence|congruence|].
  destruct r as [[]|e]; [|destruct Hr; congruence]. intros _. destruct Hr as (Hsv & s1'' & w2 & s3 & Hcw1 & Hbody & -> & Hcw2).
  split; [done|]. cbn [update in_fst fst]. rewrite Hcw2. clear -Hbody Hcw1 Hall Hc1 Hc2 dblaws.
  unfold body in Hbody. rewrite mbind_unfold in Hbody. unfold zoom, on_db in Hbody. simpl in Hbody.
  destruct (kv_put_batch l (base s1'')) as [st d] eqn:Eb. pose proof (batch_contents _ _ _ _ Eb) as Hb.
  simpl in Hbody. case_bool_decide; simpl in Hbody; [|done]. injection Hbody as <-. subst. simpl.
  by rewrite Hb, Hall, Hc2, Hcw1, Hc1.
Qed.
End Moving.

(** ** Accounts in the store *)

Section Accounts.
Context {cfg : Config} {cjson : CJsonLib} {laws : CJsonLaws} {alloc : CJsonAlloc} {target : Target}.
Context {adapter : DbAdapter} {dblaws : DbLaws}.

Lemma GetPrimeKey_identity i i0 : same_identity i i0 → GetPrimeKey i0 = GetPrimeKey i.
Proof. intros (Eo & En & Ei). unfold GetPrimeKey. by rewrite Eo, En, Ei. Qed.

(** Reading the text of a storable account into an object without apps and
    tokens. *)
Lemma GetAccountInfoFromDataStorage_text i i0 s r s' :
  storable i → GetPrimeKey i0 = GetPrimeKey i → authorizedApps_ i0 = ∅ → oauthTokens_ i0 = ∅ →
  contents (base s) !! GetPrimeKey i = Some (ToString i) →
  GetAccountInfoFromDataStorage i0 s = (r, s') →
  same_store s s' ∧ match r with Ok j => j = normalize i | Err _ => True end.
Proof.
  intros Hi Hid Ha Ht Htext E. split.
  { eapply preserves_same; [|exact E]. intros. apply GetAccountInfoFromDataStorage_store. }
  unfold GetAccountInfoFromDataStorage in E. rewrite run_try in E.
  destruct (GetAccountInfoById (GetPrimeKey i0) i0 s) as [r1 s1] eqn:E1. destruct r1 as [j|e].
  2: { msimpl in E. by injection E as <- <-. }
  msimpl in E. injection E as <- <-. unfold GetAccountInfoById in E1. rewrite mbind_unfold in E1.
  rewrite Hid in E1.
  destruct (GetValueFromKvStore (GetPrimeKey i) s) as [[v|e] s2] eqn:E2; [|done].
  destruct (GetValueFromKvStore_spec _ _ _ _ E2) as [_ Hv]. rewrite Hv in Htext.
  injection Htext as ->. destruct (IsStructured _); msimpl in E1; [|done].
  injection E1 as <- _. by rewrite account_read_back.
Qed.

Section Reliable.
Context {reliable : DbReliable}.

Lemma GetValueFromKvStore_reliable k v s :
  contents (base s) !! k = Some v → ∃ s', GetValueFromKvStore k s = (Ok v, s') ∧ same_store s s'.
Proof.
  intros Hk. destruct (GetValueFromKvStore k s) as [r s'] eqn:E.
  destruct (GetValueFromKvStore_spec _ _ _ _ E) as [Hs _]. exists s'. split; [|done].
  unfold GetValueFromKvStore in E. destruct (CheckKvStore_reliable s) as (s1 & E1 & (Hc & _) & _).
  rewrite mbind_unfold, E1 in E. cbn [negb] in E. rewrite mbind_unfold in E.
  destruct (get_ok k v (base s1)) as [d' Hd]; [by rewrite Hc|].
  rewrite (on_db_run _ _ _ _ Hd) in E. cbn [fst snd] in E.
  rewrite bool_decide_false in E by done. msimpl in E. rewrite bool_decide_true in E by done. msimpl in E. congruence.
Qed.

Lemma GetAccountInfoFromDataStorage_reliable i i0 s :
  storable i → GetPrimeKey i0 = GetPrimeKey i → authorizedApps_ i0 = ∅ → oauthTokens_ i0 = ∅ →
  contents (base s) !! GetPrimeKey i = Some (ToString i) →
  ∃ s', GetAccountInfoFromDataStorage i0 s = (Ok (normalize i), s') ∧ same_store s s'.
Proof.
  intros Hi Hid Ha Ht Hk. destruct (GetAccountInfoFromDataStorage i0 s) as [r s'] eqn:E. exists s'.
  destruct (GetAccountInfoFromDataStorage_text i i0 s _ _ Hi Hid Ha Ht Hk E) as [Hs Hr]. split; [|done].
  destruct r as [j|e]; [by rewrite Hr|]. exfalso.
  unfold GetAccountInfoFromDataStorage, GetAccountInfoById in E. rewrite run_try, mbind_unfold, Hid in E.
  destruct (GetValueFromKvStore_reliable _ _ _ Hk) as (s3 & E3 & _). rewrite E3 in E.
  unfold ToString in E. rewrite ToJson_eq in E by done.
  destruct (pack_create _ (account_doc_ok i Hi)) as [Hp _]. rewrite Hp in E. simpl in E.
  unfold IsStructured in E. simpl in E. msimpl in E. congruence.
Qed.

Lemma PutValueToKvStore_reliable k v s : ∃ s', PutValueToKvStore k v s = (Ok tt, s').
Proof.
  destruct (CheckKvStore_reliable s) as (s1 & E1 & _). unfold PutValueToKvStore.
  rewrite mbind_unfold, E1. cbn [negb]. rewrite mbind_unfold.
  destruct (put_ok k v (base s1)) as [d' Hd]. rewrite (on_db_run _ _ _ _ Hd).
  rewrite bool_decide_false by done. msimpl. rewrite bool_decide_true by done. by eexists.
Qed.

Lemma IsKeyExists_reliable k s :
  ∃ s', IsKeyExists k s = (Ok (bool_decide (is_Some (contents (base s) !! k))), s') ∧ same_store s s'.
Proof.
  unfold IsKeyExists. rewrite run_try. destruct (contents (base s) !! k) as [v|] eqn:Ek.
  - destruct (GetValueFromKvStore_reliable k v s Ek) as (s' & -> & Hs). by exists s'.
  - destruct (GetValueFromKvStore k s) as [r s'] eqn:E.
    destruct (GetValueFromKvStore_spec _ _ _ _ E) as [Hs Hr]. exists s'. split; [|done].
    destruct r; [congruence|done].
Qed.

(** An account is stored by the call that fits its being there or not. *)
Lemma store_account_reliable i s :
  storable i →
  ∃ s', (if bool_decide (is_Some (contents (base s) !! GetPrimeKey i))
         then SaveAccountInfoIntoDataStorage i else AddAccountInfoIntoDataStorage i) s = (Ok tt, s').
Proof.
  intros Hi. assert (Htext : string_empty (ToString i) = false).
  { unfold ToString. rewrite ToJson_eq by done. by apply pack_create, account_doc_ok. }
  destruct (IsKeyExists_reliable (GetPrimeKey i) s) as (s' & Ex & _).
  unfold SaveAccountInfoIntoDataStorage, AddAccountInfoIntoDataStorage, SaveAccountInfo, AddAccountInfo.
  destruct (bool_decide _); rewrite mbind_unfold, Ex; cbn [negb]; rewrite Htext; apply PutValueToKvStore_reliable.
Qed.
End Reliable.

(** What is stored is what is loaded.  After an account has been saved or added
    with success, a successful load of an account of that identity gives exactly
    that account, up to what storage drops ([normalize]).  On a reliable
    database both do succeed: saving when the key is there, adding when it is
    not, and then loading. *)
Theorem stored_account_loads_back i i0 s :
  storable i → same_identity i i0 → authorizedApps_ i0 = ∅ → oauthTokens_ i0 = ∅ →
  (∀ (save : bool) s1 j s2,
     (if save then SaveAccountInfoIntoDataStorage i else AddAccountInfoIntoDataStorage i) s = (Ok tt, s1) →
     GetAccountInfoFromDataStorage i0 s1 = (Ok j, s2) → j = normalize i) ∧
  (DbReliable → ∃ s1 s2,
     (if bool_decide (is_Some (contents (base s) !! GetPrimeKey i))
      then SaveAccountInfoIntoDataStorage i else AddAccountInfoIntoDataStorage i) s = (Ok tt, s1) ∧
     GetAccountInfoFromDataStorage i0 s1 = (Ok (normalize i), s2)).
Proof.
  intros Hi Hid Ha Ht.
  assert (Hload : ∀ (save : bool) s1 j s2,
     (if save then SaveAccountInfoIntoDataStorage i else AddAccountInfoIntoDataStorage i) s = (Ok tt, s1) →
     GetAccountInfoFromDataStorage i0 s1 = (Ok j, s2) → j = normalize i).
  { intros save s1 j s2 E1 E2. destruct (store_account_spec save i s _ _ E1) as [_ [Hc _]].
    eapply GetAccountInfoFromDataStorage_text in E2;
      [by destruct E2|done|by apply GetPrimeKey_identity|done..|]. rewrite Hc. by rewrite lookup_insert_eq. }
  split; [done|]. intros Hrel. set (save := bool_decide _).
  pose proof (store_account_reliable i s Hi) as Hs1. fold save in Hs1.
  destruct Hs1 as [s1 E1]. destruct (store_account_spec save i s _ _ E1) as [_ [Hc _]].
  assert (Hk : contents (base s1) !! GetPrimeKey i = Some (ToString i)) by (rewrite Hc; by rewrite lookup_insert_eq).
  destruct (GetAccountInfoFromDataStorage_reliable i i0 s1 Hi (GetPrimeKey_identity _ _ Hid) Ha Ht Hk) as (s2 & E2 & _).
  by exists s1, s2.
Qed.

(** A read that fails counts as absence.  On an open store where reading a key
    fails with an internal error although the key is there: [AddAccountInfo],
    when the write that follows succeeds, reports success and has overwritten the
    account that was stored; and [RemoveValueFromKvStore] reports success and has
    removed nothing. *)
Theorem failed_read_counts_as_absence i s old v1 d1 d2 :
  kvStorePtr_ s = true → contents (base s) !! GetPrimeKey i = Some old →
  kv_get (GetPrimeKey i) (base s) = ((INTERNAL_ERROR, v1), d1) →
  string_empty (ToString i) = false →
  kv_put (GetPrimeKey i) (ToString i) d1 = (SUCCESS, d2) →
  (let '(r, s') := AddAccountInfo i s in
   r = Ok tt ∧ contents (base s') !! GetPrimeKey i = Some (ToString i)) ∧
  (let '(r, s') := RemoveValueFromKvStore (GetPrimeKey i) s in
   r = Ok tt ∧ contents (base s') !! GetPrimeKey i = Some old).
Proof.
  intros Hp Hold Hget Htext Hput. destruct (get_keeps _ _ _ _ Hget) as [Hc1 _].
  assert (Hopen : ∀ s, kvStorePtr_ s = true → CheckKvStore s = (Ok true, s)).
  { intros s0 Hs0. unfold CheckKvStore. msimpl. by rewrite Hs0. }
  set (sd d := mkStorage (kvStorePtr_ s) (transactionMutex_ s) d).
  assert (Hread : ∃ e, GetValueFromKvStore (GetPrimeKey i) s = (Err e, sd d1)).
  { unfold GetValueFromKvStore. rewrite mbind_unfold, Hopen by done. cbn [negb].
    rewrite mbind_unfold, (on_db_run _ _ _ _ Hget). cbn [fst]. rewrite bool_decide_false by done. msimpl.
    rewrite bool_decide_false by done. by eexists. }
  split.
  - destruct Hread as [e Hread]. unfold AddAccountInfo, IsKeyExists. rewrite mbind_assoc, run_try, Hread.
    msimpl. cbn [is_Ok]. rewrite Htext. unfold PutValueToKvStore.
    rewrite mbind_unfold, Hopen by done. cbn [negb].
    rewrite mbind_unfold, (on_db_run _ (sd d1) _ _ Hput). rewrite bool_decide_false by done. msimpl.
    rewrite bool_decide_true by done. msimpl. split; [done|]. simpl.
    rewrite (put_contents _ _ _ _ _ Hput). by rewrite lookup_insert_eq.
  - unfold RemoveValueFromKvStore. rewrite mbind_unfold, Hopen by done. cbn [negb].
    unfold TryTwice. rewrite mbind_assoc, mbind_unfold, (on_db_run _ _ _ _ Hget). cbn [fst].
    rewrite bool_decide_false by done. msimpl. rewrite bool_decide_false by done. cbn [negb]. msimpl.
    split; [done|]. simpl. by rewrite Hc1.
Qed.
End Accounts.

(** ** A database with faults *)

(** [FaultyDb] is a table with transactions that answers its calls with a given
    list of statuses: [SUCCESS] lets the call through, any other status makes it
    fail.  When the list is used up every call goes through. *)
Module FaultyDb.
Record state := mkState {
  table : gmap string string;
  snapshot : option (gmap string string);
  faults : list DbAdapterStatus;
}.

(** A fault cannot claim that a key is missing. *)
Definition fault (s : DbAdapterStatus) : DbAdapterStatus :=
  match s with KEY_NOT_EXIST => INTERNAL_ERROR | _ => s end.

Definition next (d : state) : DbAdapterStatus * state :=
  match faults d with
  | [] => (SUCCESS, d)
  | f :: fs => (fault f, mkState (table d) (snapshot d) fs)
  end.

Definition read {B} (f : state → DbAdapterStatus * B) (none : B) (d : state)
  : (DbAdapterStatus * B) * state :=
  let '(s, d) := next d in
  match s with SUCCESS => (f d, d) | _ => ((s, none), d) end.

Definition write (f : state → DbAdapterStatus * state) (d : state) : DbAdapterStatus * state :=
  let '(s, d) := next d in
  match s with SUCCESS => f d | _ => (s, d) end.

Definition matching (p : string) (m : gmap string string) : list (string * string) :=
  filter (λ kv, String.prefix p kv.1 = true) (map_list m).

#[export] Instance faulty : DbAdapter := {
  db := state;
  kv_open := read (λ _, (SUCCESS, true)) false;
  kv_close := write (λ d, (SUCCESS, d));
  kv_delete_store := write (λ d, (SUCCESS, mkState ∅ None (faults d)));
  kv_get k := read (λ d, match table d !! k with
                         | Some v => (SUCCESS, v)
                         | None => (KEY_NOT_EXIST, EmptyString)
                         end) EmptyString;
  kv_delete k := write (λ d, (SUCCESS, mkState (delete k (table d)) (snapshot d) (faults d)));
  kv_put k v := write (λ d, (SUCCESS, mkState (<[k := v]> (table d)) (snapshot d) (faults d)));
  kv_entries p := read (λ d, (SUCCESS, matching p (table d))) [];
  kv_put_batch l := write (λ d, (SUCCESS, mkState (list_to_map l ∪ table d) (snapshot d) (faults d)));
  kv_commit := write (λ d, match snapshot d with
                           | Some _ => (SUCCESS, mkState (table d) None (faults d))
                           | None => (INTERNAL_ERROR, d)
                           end);
  kv_rollback := write (λ d, match snapshot d with
                             | Some m => (SUCCESS, mkState m None (faults d))
                             | None => (INTERNAL_ERROR, d)
                             end);
  kv_start := write (λ d, match snapshot d with
                          | Some _ => (INTERNAL_ERROR, d)
                          | None => (SUCCESS, mkState (table d) (Some (table d)) (faults d))
                          end);
  is_kv_store := true;
}.

Ltac run_faulty :=
  intros; repeat match goal with d : db |- _ => destruct d as [? [?|] [|[] ?]] end;
  simpl in *; unfold read, write, next in *; simplify_eq/=; repeat (case_match; simplify_eq/=); try done.

#[export] Instance faulty_laws : DbLaws.
Proof.
  unshelve econstructor; [exact table|exact snapshot|..].
  all: try by run_faulty.
  - intros p d l d' E. simpl in E.
    assert (l = matching p (table d)) as ->.
    { destruct d as [t sn [|[] fs]]; simpl in E; unfold read, next in E; simpl in E; simplify_eq; done. }
    unfold matching. split; [apply NoDup_filter_fst, map_list_NoDup|].
    intros k v. rewrite list_elem_of_filter, elem_of_map_list. simpl. tauto.
Defined.

Definition fresh (m : gmap string string) (fs : list DbAdapterStatus) : Storage :=
  mkStorage true 0 (mkState m None fs).
End FaultyDb.

(** The same table without faults, where every call that can succeed does. *)
Module TableDb.
Import FaultyDb.
Definition clean (d : state) : state := mkState (table d) (snapshot d) [].

#[export] Instance table_db : DbAdapter := {
  db := state;
  kv_open d := @kv_open faulty (clean d);
  kv_close d := @kv_close faulty (clean d);
  kv_delete_store d := @kv_delete_store faulty (clean d);
  kv_get k d := @kv_get faulty k (clean d);
  kv_delete k d := @kv_delete faulty k (clean d);
  kv_put k v d := @kv_put faulty k v (clean d);
  kv_entries p d := @kv_entries faulty p (clean d);
  kv_put_batch l d := @kv_put_batch faulty l (clean d);
  kv_commit d := @kv_commit faulty (clean d);
  kv_rollback d := @kv_rollback faulty (clean d);
  kv_start d := @kv_start faulty (clean d);
  is_kv_store := true;
}.

#[export] Instance table_laws : DbLaws.
Proof.
  unshelve econstructor; [exact table|exact snapshot|..]; intros *.
  - apply (@open_keeps faulty faulty_laws (clean d)).
  - apply (@get_keeps faulty faulty_laws k (clean d)).
  - apply (@get_success faulty faulty_laws k (clean d)).
  - apply (@get_missing faulty faulty_laws k (clean d)).
  - apply (@get_failure faulty faulty_laws k (clean d)).
  - apply (@entries_keeps faulty faulty_laws p (clean d)).
  - apply (@entries_success faulty faulty_laws p (clean d)).
  - apply (@put_saved faulty faulty_laws k v (clean d)).
  - apply (@put_contents faulty faulty_laws k v (clean d)).
  - apply (@delete_saved faulty faulty_laws k (clean d)).
  - apply (@delete_contents faulty faulty_laws k (clean d)).
  - apply (@batch_saved faulty faulty_laws l (clean d)).
  - apply (@batch_contents faulty faulty_laws l (clean d)).
  - apply (@start_effect faulty faulty_laws (clean d)).
  - apply (@commit_effect faulty faulty_laws (clean d)).
  - apply (@rollback_effect faulty faulty_laws (clean d)).
Defined.

#[export] Instance table_reliable : DbReliable.
Proof.
  split; intros; simpl in *; unfold clean, read, write, next in *; simpl.
  all: try by eexists.
  - eexists. by rewrite H.
  - by eexists _, _.
  - rewrite H. by eexists.
  - destruct H as [m Hm]. rewrite Hm. by eexists.
  - destruct H as [m Hm]. rewrite Hm. by eexists.
Qed.

Definition empty_table : @Storage table_db := @mkStorage table_db false 0 (mkState ∅ None []).
End TableDb.

(** ** Witnesses *)

Section Witnesses.
Import TreeLib FaultyDb.

#[local] Existing Instance plain.

(** The object [stored_account] is loaded into. *)
Definition stored_account_key : AppAccountInfo :=
  SetAppIndex (appIndex_ stored_account) (AppAccountInfo_new (name_ stored_account) (owner_ stored_account)).

Definition two_puts : M Storage unit := _ ← PutValueToKvStore "a" "1"; PutValueToKvStore "b" "2".

(** The second put fails: the first is rolled back. *)
Lemma transaction_atomic_witness :
  let '(r, w') := with_transaction {| view := id; update s _ := s; view_update _ _ := eq_refl |} two_puts
    (fresh {["a" := "0"]} [SUCCESS; SUCCESS; INTERNAL_ERROR]) in
  transactionMutex_ w' = 0%Z ∧ is_Ok r = false ∧ durable (base w') = {["a" := "0"]}.
Proof.
  set (L := {| view := id; update s _ := s; view_update _ _ := eq_refl |}).
  set (w0 := fresh _ _).
  pose proof (transaction_atomic L two_puts w0 eq_refl) as H.
  assert (Hbody : ∀ x n, preserves (λ w, txn_state x n (view L w)) two_puts).
  { intros x n. unfold two_puts. change (preserves (txn_state x n) two_puts). unfold two_puts. preserve. }
  specialize (H Hbody). vm_compute in H |- *. exact (conj (proj1 H) (conj eq_refl (proj2 H))).
Defined.

Lemma move_data_copies_witness :
  let '(r, w) := MoveData (fresh {["a" := "0"]} [], fresh {["b" := "1"]} []) in
  r = Ok tt ∧ contents (base w.1) = {["a" := "0"; "b" := "1"]} ∧ contents (base w.2) = {["b" := "1"]}.
Proof.
  pose proof (move_data_copies (fresh {["a" := "0"]} []) (fresh {["b" := "1"]} []) eq_refl) as H.
  vm_compute in H |- *. destruct H as (H2 & _ & _ & H1). exact (conj eq_refl (conj (proj2 (H1 eq_refl)) H2)).
Defined.

Lemma stored_account_loads_back_witness :
  ∃ s1 s2 : @Storage TableDb.table_db,
    AddAccountInfoIntoDataStorage (adapter := TableDb.table_db) stored_account
      TableDb.empty_table = (Ok tt, s1) ∧
    GetAccountInfoFromDataStorage (adapter := TableDb.table_db) stored_account_key s1
      = (Ok (normalize stored_account), s2).
Proof.
  destruct (stored_account_loads_back (adapter := TableDb.table_db) (dblaws := TableDb.table_laws) stored_account stored_account_key
    TableDb.empty_table stored_account_storable (conj eq_refl (conj eq_refl eq_refl))
    eq_refl eq_refl) as [_ H].
  exact (H TableDb.table_reliable).
Defined.

(** The read of the key that is there fails once. *)
Lemma failed_read_counts_as_absence_witness :
  let s := fresh {[GetPrimeKey stored_account := "old"]} [INTERNAL_ERROR] in
  (let '(r, s') := AddAccountInfo stored_account s in
   r = Ok tt ∧ contents (base s') !! GetPrimeKey stored_account = Some (ToString stored_account)) ∧
  (let '(r, s') := RemoveValueFromKvStore (GetPrimeKey stored_account) s in
   r = Ok tt ∧ contents (base s') !! GetPrimeKey stored_account = Some "old").
Proof.
  refine (failed_read_counts_as_absence stored_account (fresh {[GetPrimeKey stored_account := "old"]} [INTERNAL_ERROR])
    "old" EmptyString
    (mkState {[GetPrimeKey stored_account := "old"]} None [])
    (mkState (<[GetPrimeKey stored_account := ToString stored_account]>
      {[GetPrimeKey stored_account := "old"]}) None []) eq_refl _ eq_refl _ eq_refl); by vm_compute.
Defined.
End Witnesses.
