(* ===== verification/AppIndex.v ===== *)
(** App indices: which clone or mode of an app an account belongs to, and which
    of them a caller sees.  The first functions of
    app_account_control_manager.cpp, with the parts of
    bundle_manager_adapter.cpp and account_permission_manager.cpp they call.

    The services the code asks (the bundle manager, access tokens, system
    parameters, the OS account manager) are the class [Services]; their answers
    do not change while one request is served. *)
From Stdlib Require Import ZArith Lia Ascii String.
From stdpp Require Import base list gmap sets strings pretty.
From S2P Require Import Prelude ErrorCodes AppAccountInfo.

(** The fields of [AppExecFwk::BundleInfo] that are read. *)
Record BundleInfo := mkBundleInfo {
  bundle_enabled : bool;
  bundle_appIndex : Z;
}.

(** A call that fails gives its error code. *)
Class Services := {
  GetIntParameter : string → Z → Z;
  GetBoolParameter : string → bool → bool;
  bms_Connect : result unit;
  bms_GetNameForUid : Z → result string;
  bms_GetMainAndCloneBundleInfo : string → Z → result (list BundleInfo);
  bms_GetDualModeBundleInfo : string → Z → result Z;
  permission_denied : string → bool;
  GetHapTokenInfo : result Z;
  GetCallingUid : Z;
  QueryForegroundSubProfileId : Z → result Z;
  ReadSubProfileIndexMap : Z → result (list (Z * Z));
}.

Definition GET_ALL_APP_ACCOUNTS : string := "ohos.permission.GET_ALL_APP_ACCOUNTS".
Definition DUAL_MODE_ISPCMODE_PARAM_KEY : string := "persist.sceneboard.ispcmode".
Definition DUAL_MODE_MAINMODE_PARAM_KEY : string := "const.sceneboard.mainmode".
Definition UID_TRANSFORM_DIVISOR : Z := 200000.
Definition HEADLESS_SUBPROFILE_INDEX : Z := 0.

Section Operations.
Context {cfg : Config} {services : Services}.

(** When the bundle manager cannot be reached it returns [false], which is
    [ERR_OK], and the name stays empty.

    [BundleManagerAdapter::GetNameForUid], bundle_manager_adapter.cpp *)
Definition GetNameForUid (uid : Z) : result string :=
  match bms_Connect with
  | Err _ => Ok EmptyString
  | Ok _ => bms_GetNameForUid uid
  end.

(** [BundleManagerAdapter::GetMainAndCloneBundleInfo], bundle_manager_adapter.cpp *)
Definition GetMainAndCloneBundleInfo (bundleName : string) (userId : Z) : result (list BundleInfo) :=
  match bms_Connect with
  | Err e => Err e
  | Ok _ => bms_GetMainAndCloneBundleInfo bundleName userId
  end.

(** [BundleManagerAdapter::GetMainAppIndex], bundle_manager_adapter.cpp *)
Definition GetMainAppIndex (bundleName : string) (userId : Z) : result Z :=
  match bms_Connect with
  | Err e => Err e
  | Ok _ =>
      match bms_GetDualModeBundleInfo bundleName userId with
      | Ok appIndex => Ok (u32 appIndex)
      | Err e => Err e
      end
  end.

(** [AccountPermissionManager::VerifyPermission], account_permission_manager.cpp *)
Definition VerifyPermission (permissionName : string) : result unit :=
  if permission_denied permissionName then Err ERR_ACCOUNT_COMMON_PERMISSION_DENIED else Ok tt.

(** [IsDualModeMainMode], app_account_control_manager.cpp *)
Definition IsDualModeMainMode : result bool :=
  let mainmode := GetIntParameter DUAL_MODE_MAINMODE_PARAM_KEY (-1) in
  if mainmode =? -1 then Ok true
  else if negb (mainmode =? 0) && negb (mainmode =? 1) then
    Err ERR_ACCOUNT_COMMON_SYSTEM_SERVICE_EXCEPTION
  else
    let isSubMode := GetBoolParameter DUAL_MODE_ISPCMODE_PARAM_KEY false in
    Ok ((if isSubMode then 1 else 0) =? mainmode).

(** [AppAccountControlManager::IsAppIndexVisibleWithFg], app_account_control_manager.cpp *)
Definition IsAppIndexVisibleWithFg (callerAppIndex targetAppIndex foregroundIndex : Z) : bool :=
  if callerAppIndex =? targetAppIndex then true
  else if foregroundIndex <? 0 then false
  else
    (callerAppIndex =? u32 HEADLESS_SUBPROFILE_INDEX) && (targetAppIndex =? u32 foregroundIndex) ||
    (targetAppIndex =? u32 HEADLESS_SUBPROFILE_INDEX) && (callerAppIndex =? u32 foregroundIndex).

(** The first entry, in key order, with the sub-profile in the foreground; [None]
    is [false] with the output index -1.

    [AppAccountControlManager::GetForegroundIndex], app_account_control_manager.cpp *)
Definition GetForegroundIndex (osAccountId : Z) : option Z :=
  match QueryForegroundSubProfileId osAccountId with
  | Err _ => None
  | Ok foregroundSubProfileId =>
      if foregroundSubProfileId <? 0 then None
      else
        match ReadSubProfileIndexMap osAccountId with
        | Err _ => None
        | Ok subProfileIndexMap =>
            fst <$> find (λ entry, entry.2 =? foregroundSubProfileId) subProfileIndexMap
        end
  end.

(** [GetForegroundCandidates], app_account_control_manager.cpp *)
Definition GetForegroundCandidates (callerAppIndex osAccountId : Z) (candidates : list Z) : list Z :=
  if negb (callerAppIndex =? u32 HEADLESS_SUBPROFILE_INDEX) then
    candidates ++ [u32 HEADLESS_SUBPROFILE_INDEX]
  else
    match GetForegroundIndex osAccountId with
    | Some foregroundIndex =>
        if 0 <=? foregroundIndex then candidates ++ [u32 foregroundIndex] else candidates
    | None => candidates
    end.

(** The loop over the bundle's main app and clones. *)
Fixpoint find_enabled (candidates : list Z) (bundleInfos : list BundleInfo) : Z :=
  match bundleInfos with
  | [] => 0
  | info :: rest =>
      if negb (bundle_enabled info) || (bundle_appIndex info <? 0) then find_enabled candidates rest
      else
        let idx := u32 (bundle_appIndex info) in
        if bool_decide (idx ∈ candidates) then idx else find_enabled candidates rest
  end.

(** [AppAccountControlManager::QueryVisibleEnabledAppIndex], app_account_control_manager.cpp *)
Definition QueryVisibleEnabledAppIndex (bundleName : string) (callerAppIndex osAccountId : Z) : result Z :=
  if ENABLE_MULTIPLE_OS_ACCOUNT_SUBSPACE then
    let candidates := GetForegroundCandidates callerAppIndex osAccountId [callerAppIndex] in
    match GetMainAndCloneBundleInfo bundleName osAccountId with
    | Err _ => Err ERR_APPACCOUNT_SERVICE_GET_BUNDLE_INFO
    | Ok bundleInfos => Ok (find_enabled candidates bundleInfos)
    end
  else
    match GetMainAppIndex bundleName osAccountId with
    | Err _ => Err ERR_APPACCOUNT_SERVICE_GET_BUNDLE_INFO
    | Ok appIndex => Ok appIndex
    end.

(** [AppAccountControlManager::GetDefaultAppIndex], app_account_control_manager.cpp *)
Definition GetDefaultAppIndex (callingAppIndex : Z) : result Z :=
  if ENABLE_MULTIPLE_OS_ACCOUNT_SUBSPACE then Ok callingAppIndex
  else
    match IsDualModeMainMode with
    | Err e => Err e
    | Ok isMainMode => Ok (if isMainMode then 0 else DUAL_MODE_APP_INDEX)
    end.

(** The query, and the default when it fails, as every caller composes them. *)
Definition query_or_default (bundleName : string) (callerAppIndex osAccountId : Z) : result Z :=
  match QueryVisibleEnabledAppIndex bundleName callerAppIndex osAccountId with
  | Ok appIndex => Ok appIndex
  | Err _ => GetDefaultAppIndex callerAppIndex
  end.

(** [ResolveAppIndex], app_account_control_manager.cpp *)
Definition ResolveAppIndex (bundleName : string) (callerAppIndex callerUid : Z) : result Z :=
  let osAccountId := Z.quot callerUid UID_TRANSFORM_DIVISOR in
  query_or_default bundleName callerAppIndex osAccountId.

(** [AppAccountControlManager::ResolveAndEncodeAuthorizedApp], app_account_control_manager.cpp *)
Definition ResolveAndEncodeAuthorizedApp (authorizedApp : string) (callerAppIndex callerUid : Z)
  : result string :=
  let osAccountId := Z.quot callerUid UID_TRANSFORM_DIVISOR in
  match query_or_default authorizedApp callerAppIndex osAccountId with
  | Err e => Err e
  | Ok appIndex => Ok (EncodeAuthorizedApp authorizedApp appIndex)
  end.

(** [AppAccountControlManager::EncodeAuthorizedAppPrecise], app_account_control_manager.cpp *)
Definition EncodeAuthorizedAppPrecise (bundleName : string) (appIndex : Z) : string :=
  EncodeAuthorizedApp bundleName appIndex.

(** [AppAccountControlManager::GetBundleKeySuffix], app_account_control_manager.cpp *)
Definition GetBundleKeySuffix (appIndex : Z) : string :=
  if ENABLE_MULTIPLE_OS_ACCOUNT_SUBSPACE then String HYPHEN (to_string appIndex)
  else if appIndex =? 0 then EmptyString else String HYPHEN (to_string appIndex).

(** [IsAppIndexVisibleToCaller], app_account_control_manager.cpp *)
Definition IsAppIndexVisibleToCaller (accountOwner : string) (localId callerAppIndex targetAppIndex : Z)
  (isCloneVisible : bool) : bool :=
  match QueryVisibleEnabledAppIndex accountOwner callerAppIndex localId with
  | Err _ => false
  | Ok ownerVisibleAppIndex =>
      if ownerVisibleAppIndex =? 0 then
        if isCloneVisible then targetAppIndex <? DUAL_MODE_APP_INDEX else targetAppIndex =? 0
      else if ownerVisibleAppIndex =? DUAL_MODE_APP_INDEX then
        if isCloneVisible then DUAL_MODE_APP_INDEX <=? targetAppIndex
        else targetAppIndex =? DUAL_MODE_APP_INDEX
      else false
  end.
End Operations.

(** ** What resolution gives *)

Section Resolution.
Context {cfg : Config} {services : Services}.

Lemma find_enabled_spec cs bs :
  find_enabled cs bs = 0 ∨
  find_enabled cs bs ∈ cs ∧
    ∃ b, b ∈ bs ∧ bundle_enabled b = true ∧ u32 (bundle_appIndex b) = find_enabled cs bs.
Proof.
  induction bs as [|b bs IH]; simpl; [by left|].
  assert (Hrest : find_enabled cs bs = 0 ∨ find_enabled cs bs ∈ cs ∧
    ∃ b', b' ∈ b :: bs ∧ bundle_enabled b' = true ∧ u32 (bundle_appIndex b') = find_enabled cs bs)
    by set_solver.
  destruct (bundle_enabled b) eqn:Eb; simpl; [|done].
  destruct (bundle_appIndex b <? 0); [done|]. case_bool_decide; [|done]. right. split; [done|].
  exists b. set_solver.
Qed.

Lemma GetForegroundIndex_None_or i acc :
  GetForegroundIndex acc = Some i →
  ∃ id l, ReadSubProfileIndexMap acc = Ok l ∧ (i, id) ∈ l ∧ QueryForegroundSubProfileId acc = Ok id.
Proof.
  unfold GetForegroundIndex. destruct (QueryForegroundSubProfileId acc) as [id|]; [|done].
  destruct (id <? 0); [done|]. destruct (ReadSubProfileIndexMap acc) as [l|]; [|done].
  intros E. apply fmap_Some in E as ([j k] & E & ->). apply List.find_some in E as [Hin Hk].
  simpl in *. apply Z.eqb_eq in Hk as ->. exists id, l. by rewrite list_elem_of_In.
Qed.

(** A resolved index is one the caller sees.  With sub-profiles, whatever the
    bundle manager answers, the index found for a bundle is 0, or it is the index
    of an enabled instance of the bundle and visible to the caller given the
    sub-profile in the foreground; and a caller whose bundle cannot be looked up
    resolves to itself. *)
Theorem resolved_index_is_visible bundle caller uid i :
  ENABLE_MULTIPLE_OS_ACCOUNT_SUBSPACE = true → is_u32 caller →
  ResolveAppIndex bundle caller uid = Ok i →
  let acc := Z.quot uid UID_TRANSFORM_DIVISOR in
  match GetMainAndCloneBundleInfo bundle acc with
  | Err _ => i = caller
  | Ok bundles =>
      i = 0 ∨
      IsAppIndexVisibleWithFg caller i (default (-1) (GetForegroundIndex acc)) = true ∧
      ∃ b, b ∈ bundles ∧ bundle_enabled b = true ∧ u32 (bundle_appIndex b) = i
  end.
Proof.
  intros Hs Hc. unfold ResolveAppIndex, query_or_default, QueryVisibleEnabledAppIndex, GetDefaultAppIndex.
  rewrite Hs. cbv zeta. set (acc := Z.quot uid UID_TRANSFORM_DIVISOR).
  destruct (GetMainAndCloneBundleInfo bundle acc) as [bs|]; intros [= <-]; [|done].
  set (cs := GetForegroundCandidates _ _ _). destruct (find_enabled_spec cs bs) as [->|[Hin Hb]]; [by left|].
  destruct (decide (find_enabled cs bs = 0)) as [->|Hnz]; [by left|]. right. split; [|done].
  set (i := find_enabled cs bs) in *. unfold cs, GetForegroundCandidates in Hin.
  unfold IsAppIndexVisibleWithFg. destruct (Z.eqb_spec caller i) as [_|Hne]; [done|].
  change (u32 HEADLESS_SUBPROFILE_INDEX) with 0 in *.
  destruct (Z.eqb_spec caller 0) as [->|Hc0]; cbn [negb] in Hin; [|set_solver].
  destruct (GetForegroundIndex acc) as [fg|]; simpl; [|set_solver].
  destruct (Z.leb_spec 0 fg); [|set_solver]. assert (i = u32 fg) as -> by set_solver.
  destruct (Z.ltb_spec fg 0); [lia|]. by rewrite Z.eqb_refl.
Qed.

(** Modes are kept apart.  On a build without sub-profiles, an account that a
    caller sees, clones included, is on the side of the owner's current mode:
    never both an account of the main mode (index below 10000) and one of the
    secondary mode.  Without clones exactly one index is visible at most.  The
    fallback index is the one of the device's mode, and there is none only when
    the mode parameter is set to something other than 0 and 1. *)
Theorem modes_are_kept_apart owner acc caller clones i j :
  ENABLE_MULTIPLE_OS_ACCOUNT_SUBSPACE = false →
  (IsAppIndexVisibleToCaller owner acc caller i clones = true →
   IsAppIndexVisibleToCaller owner acc caller j clones = true →
   (i < DUAL_MODE_APP_INDEX ↔ j < DUAL_MODE_APP_INDEX) ∧ (clones = false → i = j)) ∧
  (let mode := GetIntParameter DUAL_MODE_MAINMODE_PARAM_KEY (-1) in
   match GetDefaultAppIndex caller with
   | Ok d => d = 0 ∨ d = DUAL_MODE_APP_INDEX ∧
       mode = if GetBoolParameter DUAL_MODE_ISPCMODE_PARAM_KEY false then 0 else 1
   | Err e => e = ERR_ACCOUNT_COMMON_SYSTEM_SERVICE_EXCEPTION ∧ mode ∉ [-1; 0; 1]
   end).
Proof.
  intros Hs. split.
  - unfold IsAppIndexVisibleToCaller, DUAL_MODE_APP_INDEX.
    destruct (QueryVisibleEnabledAppIndex _ _ _) as [o|]; [|done].
    destruct (o =? 0), (o =? 10000), clones; intros; try done; split; intros; try done; lia.
  - unfold GetDefaultAppIndex, IsDualModeMainMode. rewrite Hs. cbv zeta.
    generalize (GetIntParameter DUAL_MODE_MAINMODE_PARAM_KEY (-1)); intros mode.
    destruct (Z.eqb_spec mode (-1)) as [->|]; [by left|].
    destruct (Z.eqb_spec mode 0), (Z.eqb_spec mode 1); subst; simpl; try done;
      [..|split; [done|set_solver]]; destruct (GetBoolParameter _ _); simpl; auto.
Qed.

(** The suffix and the codec of [AppAccountInfo] agree. *)
Lemma bundle_key_encodes b i : b +:+ GetBundleKeySuffix i = EncodeAuthorizedApp b i.
Proof.
  unfold GetBundleKeySuffix, EncodeAuthorizedApp. destruct ENABLE_MULTIPLE_OS_ACCOUNT_SUBSPACE; [done|].
  destruct (i =? 0); [|done]. apply string_app_nil_r.
Qed.
End Resolution.

Section Witnesses.
#[local] Instance subspaces : Config := {|
  HAS_ASSET_PART := false; ENABLE_MULTIPLE_OS_ACCOUNT_SUBSPACE := true;
  DISTRIBUTED_FEATURE_ENABLED := false; SQLITE_DLCLOSE_ENABLE := false |}.

(** A device where the main app is disabled and clone 2 runs in the foreground. *)
#[local] Instance device : Services := {|
  GetIntParameter _ d := d; GetBoolParameter _ d := d;
  bms_Connect := Ok tt; bms_GetNameForUid _ := Ok "com.a";
  bms_GetMainAndCloneBundleInfo _ _ := Ok [mkBundleInfo false 0; mkBundleInfo true 2];
  bms_GetDualModeBundleInfo _ _ := Ok 0;
  permission_denied _ := true; GetHapTokenInfo := Ok 0; GetCallingUid := 20000000;
  QueryForegroundSubProfileId _ := Ok 100002;
  ReadSubProfileIndexMap _ := Ok [(0, 100000); (2, 100002)] |}.

Lemma resolved_index_is_visible_witness :
  ResolveAppIndex "com.a" 0 20000000 = Ok 2 ∧
  (2 = 0 ∨ IsAppIndexVisibleWithFg 0 2 2 = true ∧
   ∃ b, b ∈ [mkBundleInfo false 0; mkBundleInfo true 2] ∧ bundle_enabled b = true ∧ u32 (bundle_appIndex b) = 2).
Proof.
  split; [done|].
  exact (resolved_index_is_visible "com.a" 0 20000000 2 eq_refl ltac:(done) eq_refl).
Defined.

Lemma modes_are_kept_apart_witness :
  let cfg := {| HAS_ASSET_PART := false; ENABLE_MULTIPLE_OS_ACCOUNT_SUBSPACE := false;
    DISTRIBUTED_FEATURE_ENABLED := false; SQLITE_DLCLOSE_ENABLE := false |} in
  (3 < DUAL_MODE_APP_INDEX ↔ 0 < DUAL_MODE_APP_INDEX) ∧ GetDefaultAppIndex (cfg := cfg) 0 = Ok 0.
Proof.
  destruct (modes_are_kept_apart (cfg := {| HAS_ASSET_PART := false; ENABLE_MULTIPLE_OS_ACCOUNT_SUBSPACE := false;
    DISTRIBUTED_FEATURE_ENABLED := false; SQLITE_DLCLOSE_ENABLE := false |}) "com.a" 100 0 true 3 0 eq_refl)
    as [H _].
  split; [apply (H eq_refl eq_refl)|done].
Defined.
End Witnesses.
