(* ===== verification/AppAccountStore.v ===== *)
(** The state of the app account control manager and its access to the stores:
    app_account_control_manager.cpp, the functions between the public operations
    and [AppAccountDataStorage], and the asset store.

    A user has one store, and a second one ("_sync") when data is distributed.
    [World] holds the table of open storage objects, the databases behind them,
    the cache of associated data, the asset store and the sets of OS accounts
    that are migrated or removed.  A storage object is reached through its key in
    the table; [std::make_shared] never gives a null pointer, so the code's
    checks for one never fire and have no counterpart. *)
From Stdlib Require Import ZArith Lia Ascii String.
From stdpp Require Import base list gmap sets strings pretty sorting.
From S2P Require Import Prelude ErrorCodes Json AppAccountInfo AppAccountJson DataStorage AppIndex.

(** ** The asset store *)

(** The attribute tags the code uses (asset_api.h). *)
Inductive AssetTag :=
  | SEC_ASSET_TAG_SECRET | SEC_ASSET_TAG_DATA_LABEL_NORMAL_1 | SEC_ASSET_TAG_DATA_LABEL_NORMAL_2
  | SEC_ASSET_TAG_ACCESSIBILITY | SEC_ASSET_TAG_ALIAS | SEC_ASSET_TAG_USER_ID | SEC_ASSET_TAG_RETURN_TYPE.

Inductive AssetValue :=
  | blob (data : string)
  | u32_value (value : Z).

Definition AssetAttr : Type := AssetTag * AssetValue.

(** The asset service, with its return codes and values; success is 0. *)
Class AssetApi := {
  assets : Type;
  SEC_ASSET_DUPLICATED : Z;
  SEC_ASSET_ACCESSIBILITY_DEVICE_POWERED_ON : Z;
  SEC_ASSET_ACCESSIBILITY_DEVICE_UNLOCKED : Z;
  SEC_ASSET_RETURN_ALL : Z;
  AssetAdd : list AssetAttr → assets → Z * assets;
  AssetUpdate : list AssetAttr → list AssetAttr → assets → Z * assets;
  AssetQuery : list AssetAttr → assets → Z * list AssetAttr;
  AssetRemove : list AssetAttr → assets → Z * assets;
  AssetParseAttr : list AssetAttr → AssetTag → option AssetValue;
}.
Definition SEC_ASSET_SUCCESS : Z := 0.

(** ** The state *)

(** [AssociatedDataCacheItem], app_account_control_manager.h *)
Record AssociatedDataCacheItem := mkCacheItem {
  item_data : gmap string string;
  item_name : string;
  item_freq : Z;
}.

(** A storage object: its handle is open, and how often its mutex is held. *)
Record StorageObject := mkObject {
  object_open : bool;
  object_mutex : Z;
}.

(** [AppAccountControlManager], app_account_control_manager.h:187-195 *)
Record World `{DbAdapter} `{AssetApi} := mkWorld {
  storePtrMap_ : gmap string (option StorageObject);
  databases : string → db;
  associatedDataCache_ : gmap Z AssociatedDataCacheItem;
  asset_store : assets;
  migratedAccounts_ : gset Z;
  removedOsAccounts_ : gset Z;
}.
Arguments World {_ _}.
Arguments mkWorld {_ _} _ _ _ _ _ _.
Arguments storePtrMap_ {_ _} _.
Arguments databases {_ _} _ _.
Arguments associatedDataCache_ {_ _} _.
Arguments asset_store {_ _} _.
Arguments migratedAccounts_ {_ _} _.
Arguments removedOsAccounts_ {_ _} _.

Definition DATA_STORAGE_SUFFIX : string := "_sync".
Definition DATA_STORAGE_PREFIX : string := "encrypt_".
Definition EL2_DATA_STORE_PREFIX : string := "account_".
Definition ACCOUNT_MAX_SIZE : nat := 1000.
Definition ASSOCIATED_DATA_CACHE_MAX_SIZE : nat := 5.

Section Operations.
Context {cfg : Config} {cjson : CJsonLib} {target : Target} {adapter : DbAdapter} {asset : AssetApi}.

Definition set_objects o (w : World) := mkWorld o (databases w) (associatedDataCache_ w) (asset_store w)
  (migratedAccounts_ w) (removedOsAccounts_ w).
Definition set_databases d (w : World) := mkWorld (storePtrMap_ w) d (associatedDataCache_ w) (asset_store w)
  (migratedAccounts_ w) (removedOsAccounts_ w).
Definition set_cache c (w : World) := mkWorld (storePtrMap_ w) (databases w) c (asset_store w)
  (migratedAccounts_ w) (removedOsAccounts_ w).
Definition set_assets a (w : World) := mkWorld (storePtrMap_ w) (databases w) (associatedDataCache_ w) a
  (migratedAccounts_ w) (removedOsAccounts_ w).
Definition set_migrated m (w : World) := mkWorld (storePtrMap_ w) (databases w) (associatedDataCache_ w)
  (asset_store w) m (removedOsAccounts_ w).
Definition set_removed r (w : World) := mkWorld (storePtrMap_ w) (databases w) (associatedDataCache_ w)
  (asset_store w) (migratedAccounts_ w) r.

Definition set_database (name : string) (d : db) (w : World) : World :=
  set_databases (λ n, if bool_decide (n = name) then d else databases w n) w.

(** The storage object under a key of the table, with its database; a key without
    an object has a closed one. *)
Definition object_at (id : string) (w : World) : StorageObject :=
  default (mkObject false 0) (mjoin (storePtrMap_ w !! id)).

Definition view_at (id : string) (w : World) : Storage :=
  mkStorage (object_open (object_at id w)) (object_mutex (object_at id w))
    (databases w (EL2_DATA_STORE_PREFIX +:+ id)).

Definition update_at (id : string) (s : Storage) (w : World) : World :=
  set_database (EL2_DATA_STORE_PREFIX +:+ id) (base s)
    (set_objects (<[id := Some (mkObject (kvStorePtr_ s) (transactionMutex_ s))]> (storePtrMap_ w)) w).

Lemma view_update_at id s w : view_at id (update_at id s w) = s.
Proof.
  unfold view_at, update_at, object_at, set_database. cbn.
  rewrite lookup_insert_eq, bool_decide_true by done. by destruct s.
Qed.

Definition store_at (id : string) : StorageIn World :=
  {| view := view_at id; update := update_at id; view_update := view_update_at id |}.

(** A call on the object under a key. *)
Definition on_store {A} (id : string) (m : M Storage A) : M World A := zoom (store_at id) m.

(** A call on an account object held by the caller. *)
Definition on_info {A} (m : M AppAccountInfo A) (i : AppAccountInfo) : M World (A * AppAccountInfo) := λ w,
  match m i with
  | (Ok a, i') => (Ok (a, i'), w)
  | (Err e, _) => (Err e, w)
  end.

(** The result of a call that does not touch the state. *)
Definition give {A} (r : result A) : M World A := λ w, (r, w).

(** *** Assets *)

Definition user_attr (localId : Z) : list AssetAttr :=
  if localId =? 0 then [] else [(SEC_ASSET_TAG_USER_ID, u32_value (u32 localId))].

(** [SaveDataToAsset], app_account_control_manager.cpp *)
Definition SaveDataToAsset (localId : Z) (hapLabel accountLabel alias value : string) : M World unit :=
  if string_empty value then mret tt
  else
    let accessibility := if localId =? 0 then SEC_ASSET_ACCESSIBILITY_DEVICE_POWERED_ON
                         else SEC_ASSET_ACCESSIBILITY_DEVICE_UNLOCKED in
    let attrs := [ (SEC_ASSET_TAG_SECRET, blob value); (SEC_ASSET_TAG_DATA_LABEL_NORMAL_1, blob hapLabel);
                   (SEC_ASSET_TAG_DATA_LABEL_NORMAL_2, blob accountLabel);
                   (SEC_ASSET_TAG_ACCESSIBILITY, u32_value accessibility);
                   (SEC_ASSET_TAG_ALIAS, blob alias) ] ++ user_attr localId in
    let queryCnt := if localId =? 0 then 1%nat else 2%nat in
    w ← mget;
    let '(ret, a) := AssetAdd attrs (asset_store w) in
    let '(ret, a) := if ret =? SEC_ASSET_DUPLICATED
                     then AssetUpdate (take queryCnt (drop 4 attrs)) (take 1 attrs) a else (ret, a) in
    _ ← mput (set_assets a w);
    if ret =? ERR_OK then mret tt else merr ret.

(** The value found; after a failure the callers go on with the value they had.

    [GetDataFromAsset], app_account_control_manager.cpp *)
Definition GetDataFromAsset (localId : Z) (alias : string) : M World string :=
  let attrs := [ (SEC_ASSET_TAG_ALIAS, blob alias); (SEC_ASSET_TAG_RETURN_TYPE, u32_value SEC_ASSET_RETURN_ALL) ]
               ++ user_attr localId in
  w ← mget;
  let '(ret, results) := AssetQuery attrs (asset_store w) in
  if negb (ret =? SEC_ASSET_SUCCESS) then merr ret
  else
    match AssetParseAttr results SEC_ASSET_TAG_SECRET with
    | Some (blob value) => mret value
    | _ => merr ERR_ACCOUNT_COMMON_NULL_PTR_ERROR
    end.

Definition remove_assets (attrs : list AssetAttr) : M World unit :=
  w ← mget;
  let '(ret, a) := AssetRemove attrs (asset_store w) in
  _ ← mput (set_assets a w);
  if ret =? SEC_ASSET_SUCCESS then mret tt else merr ret.

(** [RemoveDataFromAsset], app_account_control_manager.cpp *)
Definition RemoveDataFromAsset (localId : Z) (alias : string) : M World unit :=
  remove_assets ((SEC_ASSET_TAG_ALIAS, blob alias) :: user_attr localId).

(** [RemoveDataFromAssetByLabel], app_account_control_manager.cpp *)
Definition RemoveDataFromAssetByLabel (localId : Z) (tag : AssetTag) (label : string) : M World unit :=
  remove_assets ((tag, blob label) :: user_attr localId).

(** *** Storage objects *)

(** The key of the object; it is made when the table has none.

    [AppAccountControlManager::GetDataStorageByUserId], app_account_control_manager.cpp *)
Definition GetDataStorageByUserId (userId : Z) (autoSync : bool) : M World string :=
  let storeId := if autoSync then to_string userId +:+ DATA_STORAGE_SUFFIX else to_string userId in
  w ← mget;
  match storePtrMap_ w !! storeId with
  | Some (Some _) => mret storeId
  | _ =>
      _ ← mput (set_objects (<[storeId := Some (mkObject false 0)]> (storePtrMap_ w)) w);
      mret storeId
  end.

(** [uid] is unsigned.

    [AppAccountControlManager::GetDataStorage], app_account_control_manager.cpp *)
Definition GetDataStorage (uid : Z) (autoSync : bool) : M World string :=
  GetDataStorageByUserId (i32 (u32 uid / UID_TRANSFORM_DIVISOR)) autoSync.

(** Every object of the table that no call uses is closed; with the database as a
    loadable library, it is unloaded when none is left, which changes no state.

    [AppAccountControlManager::CloseDataStorage], app_account_control_manager.cpp *)
Definition CloseDataStorage : M World unit :=
  w ← mget;
  mfor (elements (dom (storePtrMap_ w))) (λ id,
    w ← mget;
    match storePtrMap_ w !! id with
    | Some (Some _) =>
        result ← on_store id Close;
        if bool_decide (result = SUCCESS) then
          mmodify (λ w, set_objects (<[id := None]> (storePtrMap_ w)) w)
        else mret tt
    | _ => mret tt
    end).

(** [AppAccountControlManager::OnUserStopping], app_account_control_manager.cpp *)
Definition OnUserStopping (userId : Z) : M World unit :=
  let storeId := to_string userId in
  let syncStoreId := storeId +:+ DATA_STORAGE_SUFFIX in
  mmodify (λ w, set_objects (delete syncStoreId (delete storeId (storePtrMap_ w))) w).

(** [AppAccountControlManager::OnUserRemoved], app_account_control_manager.cpp *)
Definition OnUserRemoved (userId : Z) : M World unit := OnUserStopping userId.

(** [AppAccountControlManager::NeedSyncDataStorage], app_account_control_manager.cpp *)
Definition NeedSyncDataStorage (appAccountInfo : AppAccountInfo) : bool :=
  if negb (GetSyncEnable appAccountInfo) then false else true.

(** The sync store is used when the feature is on and the account asks for it. *)
Definition with_sync (appAccountInfo : AppAccountInfo) (uid : Z) (m : string → M World unit) : M World unit :=
  if DISTRIBUTED_FEATURE_ENABLED && NeedSyncDataStorage appAccountInfo then
    dataStorageSyncPtr ← GetDataStorage uid true;
    m dataStorageSyncPtr
  else mret tt.

(** [AppAccountControlManager::GetAccountInfoFromDataStorage], app_account_control_manager.cpp *)
Definition GetAccountInfoFromDataStorage (appAccountInfo : AppAccountInfo) (dataStoragePtr : string)
  : M World AppAccountInfo :=
  on_store dataStoragePtr (DataStorage.GetAccountInfoFromDataStorage appAccountInfo).

(** [AppAccountControlManager::AddAccountInfoIntoDataStorage], app_account_control_manager.cpp *)
Definition AddAccountInfoIntoDataStorage (appAccountInfo : AppAccountInfo) (dataStoragePtr : string) (uid : Z)
  : M World unit :=
  let key := owner_ appAccountInfo +:+ String HYPHEN (to_string (appIndex_ appAccountInfo)) in
  accounts ← on_store dataStoragePtr (LoadDataByLocalFuzzyQuery key);
  if bool_decide (ACCOUNT_MAX_SIZE ≤ size accounts)%nat then merr ERR_APPACCOUNT_SERVICE_ACCOUNT_MAX_SIZE
  else
    _ ← on_store dataStoragePtr (DataStorage.AddAccountInfoIntoDataStorage appAccountInfo);
    with_sync appAccountInfo uid (λ dataStorageSyncPtr,
      on_store dataStorageSyncPtr (DataStorage.AddAccountInfoIntoDataStorage appAccountInfo)).

(** [AppAccountControlManager::SaveAccountInfoIntoDataStorage], app_account_control_manager.cpp *)
Definition SaveAccountInfoIntoDataStorage (appAccountInfo : AppAccountInfo) (dataStoragePtr : string) (uid : Z)
  : M World unit :=
  _ ← on_store dataStoragePtr (DataStorage.SaveAccountInfoIntoDataStorage appAccountInfo);
  with_sync appAccountInfo uid (λ dataStorageSyncPtr,
    result ← mtry (on_store dataStorageSyncPtr (GetValueFromKvStore (GetPrimeKey appAccountInfo)));
    match result with
    | Err _ => on_store dataStorageSyncPtr (AddAccountInfo appAccountInfo)
    | Ok _ => on_store dataStorageSyncPtr (SaveAccountInfo appAccountInfo)
    end).

(** The account is read first, and that object is handed on; a failure on the sync
    store is only logged.

    [AppAccountControlManager::DeleteAccountInfoFromDataStorage], app_account_control_manager.cpp *)
Definition DeleteAccountInfoFromDataStorage (appAccountInfo : AppAccountInfo) (dataStoragePtr : string) (uid : Z)
  : M World AppAccountInfo :=
  appAccountInfo ← on_store dataStoragePtr (DataStorage.GetAccountInfoFromDataStorage appAccountInfo);
  _ ← on_store dataStoragePtr (DataStorage.DeleteAccountInfoFromDataStorage appAccountInfo);
  _ ← with_sync appAccountInfo uid (λ dataStorageSyncPtr,
    _ ← mtry (on_store dataStorageSyncPtr (DataStorage.DeleteAccountInfoFromDataStorage appAccountInfo));
    mret tt);
  mret appAccountInfo.

(** *** The index of authorized accounts *)

(** Appends the account to the accounts of an app, if it is not there. *)
Definition add_account_id (accountId : string) (accessibleAccounts : list string) : list string :=
  if bool_decide (accountId ∈ accessibleAccounts) then accessibleAccounts
  else accessibleAccounts ++ [accountId].

(** Erases its first occurrence. *)
Fixpoint erase_account_id (accountId : string) (accessibleAccounts : list string) : list string :=
  match accessibleAccounts with
  | [] => []
  | a :: rest => if bool_decide (a = accountId) then rest else a :: erase_account_id accountId rest
  end.

(** Reads the index, changes the accounts of one app and writes it back.  A value
    that cannot be read counts as empty. *)
Definition change_authorized_accounts (bundleKey : string) (f : list string → list string) : M Storage unit :=
  result ← mtry (GetValueFromKvStore AUTHORIZED_ACCOUNTS);
  let authorizedAccounts := match result with Ok v => v | Err _ => EmptyString end in
  let '(jsonObject, accessibleAccounts) :=
    GetAccessibleAccountsFromAuthorizedAccounts authorizedAccounts bundleKey in
  let jsonObject := match AddVectorStringToJson jsonObject bundleKey (f accessibleAccounts) with
                    | Some j => Some j
                    | None => jsonObject
                    end in
  let authorizedAccounts := PackJsonToString jsonObject in
  if string_empty authorizedAccounts then merr ERR_ACCOUNT_COMMON_DUMP_JSON_ERROR
  else PutValueToKvStore AUTHORIZED_ACCOUNTS authorizedAccounts.

(** [AppAccountControlManager::SaveAuthorizedAccountIntoDataStorage], app_account_control_manager.cpp *)
Definition SaveAuthorizedAccountIntoDataStorage (authorizedApp : string) (appAccountInfo : AppAccountInfo)
  (dataStoragePtr : string) : M World unit :=
  on_store dataStoragePtr
    (change_authorized_accounts authorizedApp (add_account_id (GetPrimeKey appAccountInfo))).

(** [AppAccountControlManager::RemoveAuthorizedAccountFromDataStorage], app_account_control_manager.cpp *)
Definition RemoveAuthorizedAccountFromDataStorage (authorizedApp : string) (appAccountInfo : AppAccountInfo)
  (dataStoragePtr : string) : M World unit :=
  on_store dataStoragePtr
    (change_authorized_accounts authorizedApp (erase_account_id (GetPrimeKey appAccountInfo))).

(** [AppAccountControlManager::SaveAuthorizedAccount], app_account_control_manager.cpp *)
Definition SaveAuthorizedAccount (bundleName : string) (appAccountInfo : AppAccountInfo)
  (dataStoragePtr : string) (uid : Z) : M World unit :=
  _ ← SaveAuthorizedAccountIntoDataStorage bundleName appAccountInfo dataStoragePtr;
  with_sync appAccountInfo uid (SaveAuthorizedAccountIntoDataStorage bundleName appAccountInfo).

(** [AppAccountControlManager::RemoveAuthorizedAccount], app_account_control_manager.cpp *)
Definition RemoveAuthorizedAccount (bundleName : string) (appAccountInfo : AppAccountInfo)
  (dataStoragePtr : string) (uid : Z) : M World unit :=
  _ ← RemoveAuthorizedAccountFromDataStorage bundleName appAccountInfo dataStoragePtr;
  with_sync appAccountInfo uid (RemoveAuthorizedAccountFromDataStorage bundleName appAccountInfo).
End Operations.

(** ** What calls keep of a store *)

Section Frames.
Context {cfg : Config} {cjson : CJsonLib} {target : Target} {adapter : DbAdapter} {asset : AssetApi}.

Lemma view_update_other id id' s w : id ≠ id' → view_at id (update_at id' s w) = view_at id w.
Proof.
  intros Hne. unfold view_at, update_at, object_at, set_database. cbn.
  rewrite lookup_insert_ne by done. rewrite bool_decide_false; [done|]. by intros ?%(inj (String.append _)).
Qed.

(** A property of the store under [id] that a call on it preserves. *)
Definition of_store (id : string) (P : Storage → Prop) (w : World) : Prop := P (view_at id w).

Lemma on_store_same {A} id P (m : M Storage A) : preserves P m → preserves (of_store id P) (on_store id m).
Proof. apply (zoom_preserves (store_at id)). Qed.

Lemma on_store_other {A} id id' P (m : M Storage A) :
  id ≠ id' → preserves (of_store id P) (on_store id' m).
Proof.
  intros Hne w Hw. unfold on_store, zoom. simpl. destruct (m (view_at id' w)) as [r s]. simpl.
  unfold of_store. by rewrite view_update_other.
Qed.

Lemma on_store_any {A} id id' P (m : M Storage A) :
  preserves P m → preserves (of_store id P) (on_store id' m).
Proof.
  intros Hm. destruct (decide (id = id')) as [->|Hne]; [by apply on_store_same|by apply on_store_other].
Qed.

Lemma object_at_GetDataStorage id id' w :
  (∀ o, storePtrMap_ w !! id' ≠ Some (Some o)) →
  view_at id (set_objects (<[id' := Some (mkObject false 0)]> (storePtrMap_ w)) w) = view_at id w.
Proof.
  intros Hno. unfold view_at, object_at. cbn. destruct (decide (id = id')) as [->|Hne].
  - rewrite lookup_insert_eq. destruct (storePtrMap_ w !! id') as [[o|]|]; [by destruct (Hno o)|done..].
  - by rewrite lookup_insert_ne.
Qed.

Lemma GetDataStorage_same id P uid sync : preserves (of_store id P) (GetDataStorage uid sync).
Proof.
  intros w Hw. unfold GetDataStorage, GetDataStorageByUserId. cbv zeta. msimpl.
  set (id' := if sync then _ else _).
  destruct (storePtrMap_ w !! id') as [[o|]|] eqn:E; msimpl; [done|..];
    unfold of_store; rewrite object_at_GetDataStorage; naive_solver.
Qed.

(** The parts of the state that are not stores. *)
Lemma of_store_cache id P c w : of_store id P (set_cache c w) ↔ of_store id P w.
Proof. done. Qed.
Lemma of_store_assets id P a w : of_store id P (set_assets a w) ↔ of_store id P w.
Proof. done. Qed.
Lemma of_store_removed id P r w : of_store id P (set_removed r w) ↔ of_store id P w.
Proof. done. Qed.

Lemma give_preserves {A} P (r : result A) : preserves P (give r : M World A).
Proof. by intros w. Qed.
Lemma on_info_preserves {A} P (m : M AppAccountInfo A) i : preserves P (on_info m i : M World _).
Proof. intros w Hw. unfold on_info. by destruct (m i) as [[] ?]. Qed.

Lemma remove_assets_store id P attrs : preserves (of_store id P) (remove_assets attrs).
Proof. unfold remove_assets. preserve_read. all: by rewrite of_store_assets. Qed.

Lemma SaveDataToAsset_store id P l h a al v : preserves (of_store id P) (SaveDataToAsset l h a al v).
Proof.
  unfold SaveDataToAsset. destruct (string_empty v); [preserve_read|]. cbv zeta. preserve_read.
  all: by rewrite of_store_assets.
Qed.

Lemma GetDataFromAsset_any P l al : preserves P (GetDataFromAsset l al).
Proof. unfold GetDataFromAsset. cbv zeta. preserve_read. Qed.
End Frames.

#[export] Hint Resolve GetDataStorage_same give_preserves on_info_preserves remove_assets_store
  SaveDataToAsset_store GetDataFromAsset_any : mpres.
#[export] Hint Resolve on_store_any : mpres.

Section Store_frames.
Context {cfg : Config} {cjson : CJsonLib} {target : Target} {adapter : DbAdapter} {asset : AssetApi}
  {dblaws : DbLaws}.

Lemma change_authorized_accounts_txn k f x n : preserves (txn_state x n) (change_authorized_accounts k f).
Proof. unfold change_authorized_accounts. preserve. Qed.
#[local] Hint Resolve change_authorized_accounts_txn : mpres.

Lemma with_sync_preserves P i uid m :
  preserves P (GetDataStorage uid true) → (∀ id, preserves P (m id)) → preserves P (with_sync i uid m).
Proof. intros HG Hm. unfold with_sync. preserve. Qed.

#[local] Hint Resolve with_sync_preserves : mpres.

Lemma add_txn i x n : preserves (txn_state x n) (DataStorage.AddAccountInfoIntoDataStorage i).
Proof. apply AddAccountInfo_txn. Qed.
Lemma save_txn i x n : preserves (txn_state x n) (DataStorage.SaveAccountInfoIntoDataStorage i).
Proof. apply SaveAccountInfo_txn. Qed.
Lemma delete_account_txn i x n : preserves (txn_state x n) (DataStorage.DeleteAccountInfoFromDataStorage i).
Proof. apply RemoveValueFromKvStore_txn. Qed.
#[local] Hint Resolve add_txn save_txn delete_account_txn : mpres.

Lemma GetAccountInfo_txn id x n i p :
  preserves (of_store id (txn_state x n)) (GetAccountInfoFromDataStorage i p).
Proof. unfold GetAccountInfoFromDataStorage. preserve. Qed.
Lemma AddAccount_txn id x n i p uid :
  preserves (of_store id (txn_state x n)) (AddAccountInfoIntoDataStorage i p uid).
Proof. unfold AddAccountInfoIntoDataStorage. preserve. Qed.
Lemma SaveAccount_txn id x n i p uid :
  preserves (of_store id (txn_state x n)) (SaveAccountInfoIntoDataStorage i p uid).
Proof. unfold SaveAccountInfoIntoDataStorage. preserve. apply with_sync_preserves; preserve. Qed.
Lemma DeleteAccount_txn id x n i p uid :
  preserves (of_store id (txn_state x n)) (DeleteAccountInfoFromDataStorage i p uid).
Proof. unfold DeleteAccountInfoFromDataStorage. preserve. Qed.

Lemma SaveAuthorized_into_txn id x n a i p :
  preserves (of_store id (txn_state x n)) (SaveAuthorizedAccountIntoDataStorage a i p).
Proof. unfold SaveAuthorizedAccountIntoDataStorage. preserve. Qed.
Lemma RemoveAuthorized_from_txn id x n a i p :
  preserves (of_store id (txn_state x n)) (RemoveAuthorizedAccountFromDataStorage a i p).
Proof. unfold RemoveAuthorizedAccountFromDataStorage. preserve. Qed.
#[local] Hint Resolve SaveAuthorized_into_txn RemoveAuthorized_from_txn : mpres.
Lemma SaveAuthorized_txn id x n a i p uid :
  preserves (of_store id (txn_state x n)) (SaveAuthorizedAccount a i p uid).
Proof. unfold SaveAuthorizedAccount. preserve. Qed.
Lemma RemoveAuthorized_txn id x n a i p uid :
  preserves (of_store id (txn_state x n)) (RemoveAuthorizedAccount a i p uid).
Proof. unfold RemoveAuthorizedAccount. preserve. Qed.
End Store_frames.

#[export] Hint Resolve add_txn save_txn delete_account_txn with_sync_preserves GetAccountInfo_txn AddAccount_txn
  SaveAccount_txn DeleteAccount_txn SaveAuthorized_into_txn RemoveAuthorized_from_txn SaveAuthorized_txn
  RemoveAuthorized_txn : mpres.

(** ** Requests on one store *)

Section Requests.
Context {cfg : Config} {cjson : CJsonLib} {target : Target} {adapter : DbAdapter} {asset : AssetApi}
  {dblaws : DbLaws}.

(** The key of a user's store. *)
Definition store_key (uid : Z) (autoSync : bool) : string :=
  let userId := i32 (u32 uid / UID_TRANSFORM_DIVISOR) in
  if autoSync then to_string userId +:+ DATA_STORAGE_SUFFIX else to_string userId.

(** The world up to objects that were made but not used. *)
Definition same_world (w w' : World) : Prop :=
  (∀ id, view_at id w' = view_at id w) ∧ databases w' = databases w ∧
  associatedDataCache_ w' = associatedDataCache_ w ∧ asset_store w' = asset_store w ∧
  migratedAccounts_ w' = migratedAccounts_ w ∧ removedOsAccounts_ w' = removedOsAccounts_ w.

Lemma same_world_refl w : same_world w w.
Proof. by split_and!. Qed.

Lemma GetDataStorage_run uid sync w :
  ∃ w', GetDataStorage uid sync w = (Ok (store_key uid sync), w') ∧ same_world w w'.
Proof.
  unfold GetDataStorage, GetDataStorageByUserId, store_key. cbv zeta. msimpl.
  set (id' := if sync then _ else _).
  destruct (storePtrMap_ w !! id') as [[o|]|] eqn:E; msimpl; eexists; (split; [done|]); [apply same_world_refl|..];
    (split; [|done]); intros id; apply object_at_GetDataStorage; naive_solver.
Qed.

(** A call that leaves the store under [id] as it is. *)
Definition keeps_store {A} (id : string) (m : M World A) : Prop :=
  ∀ c x n, preserves (of_store id (store_state c x n)) m.

(** A call that changes the store under [id] only when it succeeds, and leaves it
    outside a transaction, with its mutex as it was. *)
Definition atomic_on {A} (id : string) (m : M World A) : Prop := ∀ w,
  saved (base (view_at id w)) = None →
  let '(r, w') := m w in
  transactionMutex_ (view_at id w') = transactionMutex_ (view_at id w) ∧
  match r with
  | Ok _ => saved (base (view_at id w')) = None
  | Err _ => durable (base (view_at id w')) = contents (base (view_at id w)) ∧
      (DbReliable → saved (base (view_at id w')) = None)
  end.

Lemma keeps_run {A} id (m : M World A) w r w' :
  keeps_store id m → m w = (r, w') → same_store (view_at id w) (view_at id w').
Proof.
  intros Hm E. specialize (Hm _ _ _ w (same_store_refl _)). by rewrite E in Hm.
Qed.

Lemma keeps_atomic {A} id (m : M World A) : keeps_store id m → atomic_on id m.
Proof.
  intros Hm w Hno. destruct (m w) as [r w'] eqn:E. destruct (keeps_run _ _ _ _ _ Hm E) as (Hc & Hs & Hn).
  split; [done|]. unfold durable. rewrite Hs, Hno. by destruct r.
Qed.

Lemma atomic_bind {A B} id (m : M World A) (k : A → M World B) :
  keeps_store id m → (∀ a, atomic_on id (k a)) → atomic_on id (m ≫= k).
Proof.
  intros Hm Hk w Hno. rewrite mbind_unfold. destruct (m w) as [r w1] eqn:E.
  pose proof (keeps_atomic _ _ Hm w Hno) as Ha. rewrite E in Ha.
  destruct (keeps_run _ _ _ _ _ Hm E) as (Hc & Hs & Hn). destruct r as [a|e]; [|done].
  specialize (Hk a w1 ltac:(congruence)). destruct (k a w1) as [r w2]. destruct Hk as [H1 H2].
  split; [congruence|]. destruct r; [done|]. destruct H2. split; [congruence|done].
Qed.

Lemma atomic_transaction {A} id (body : M World A) :
  (∀ x n, preserves (of_store id (txn_state x n)) body) → atomic_on id (with_transaction (store_at id) body).
Proof.
  intros Hbody w Hno. pose proof (transaction_outcome (store_at id) body w Hno Hbody) as H.
  destruct (with_transaction _ _ w) as [r w']. destruct H as [Hn Hr]. split; [done|]. destruct r; tauto.
Qed.

Lemma GetDataStorage_keeps id uid sync : keeps_store id (GetDataStorage uid sync).
Proof. intros c x n. apply GetDataStorage_same. Qed.

Lemma GetAccountInfo_keeps id i p : keeps_store id (GetAccountInfoFromDataStorage i p).
Proof. intros c x n. apply on_store_any, GetAccountInfoFromDataStorage_store. Qed.

Lemma on_info_keeps {A} id (m : M AppAccountInfo A) i : keeps_store id (on_info m i).
Proof. intros c x n. apply on_info_preserves. Qed.
End Requests.

(** ** The index of authorized accounts is a map *)

Section Index.
Context {cfg : Config} {cjson : CJsonLib} {laws : CJsonLaws} {alloc : CJsonAlloc} {target : Target}.
Context {adapter : DbAdapter} {dblaws : DbLaws} {asset : AssetApi}.

Definition accounts_array (l : list string) : CJson := JArray (JString <$> l).
Definition index_obj (ls : list (string * list string)) : CJson := JObject (prod_map id accounts_array <$> ls).
Definition index_ok (kv : string * list string) : Prop := nul_free kv.1 ∧ Forall nul_free kv.2.

(** What a store's contents say about authorized accounts: for each app, the keys
    of the accounts it may access. *)
Definition index_in (c : gmap string string) (I : gmap string (list string)) : Prop :=
  (c !! AUTHORIZED_ACCOUNTS = None ∧ I = ∅) ∨
  ∃ ls, c !! AUTHORIZED_ACCOUNTS = Some (PackJsonToString (Some (index_obj ls))) ∧
    I = list_to_map ls ∧ NoDup ls.*1 ∧ Forall index_ok ls.

Lemma obj_find_prod_map {A B} (g : A → B) k (ls : list (string * A)) :
  obj_find k (prod_map id g <$> ls) = g <$> obj_find k ls.
Proof. induction ls as [|[k' v] ls IH]; [done|]. cbn. by case_decide. Qed.

Lemma obj_set_prod_map {A B} (g : A → B) k v (ls : list (string * A)) :
  obj_set k (g v) (prod_map id g <$> ls) = prod_map id g <$> obj_set k v ls.
Proof.
  unfold obj_set. rewrite obj_find_prod_map. destruct (obj_find k ls); simpl; [|by rewrite fmap_app].
  induction ls as [|[k' v'] ls IH]; [done|]. cbn. case_decide; cbn; [done|]. by rewrite <-IH.
Qed.

Lemma accounts_array_plain l : Forall nul_free l → json_plain (accounts_array l) = true.
Proof.
  intros Hl. simpl. induction Hl as [|s l Hs _ IH]; [done|]. cbn. by rewrite (bool_decide_eq_true_2 _ Hs).
Qed.

Lemma accounts_array_depth l : json_depth (accounts_array l) = 1%nat.
Proof. unfold accounts_array. simpl. f_equal. induction l as [|s l IH]; [done|]. exact IH. Qed.

Lemma index_obj_ok ls : Forall index_ok ls → json_ok (index_obj ls) = true.
Proof.
  intros Hls. unfold json_ok, index_obj. apply andb_true_iff. split.
  - cbn [json_plain]. induction Hls as [|[k l] ls [Hk Hl] _ IH]; [done|]. cbn [fmap list_fmap forallb prod_map fst snd].
    cbn [fst snd] in Hk, Hl. rewrite (bool_decide_eq_true_2 _ Hk), (accounts_array_plain _ Hl). exact IH.
  - apply Nat.ltb_lt. cbn [json_depth].
    assert (foldr (λ kv n, Nat.max (json_depth kv.2) n) 0%nat (prod_map id accounts_array <$> ls) ≤ 1)%nat.
    { clear. induction ls as [|kv ls IH]; [cbn; lia|]. cbn [fmap list_fmap foldr prod_map snd].
      change (prod_map id accounts_array kv).2 with (accounts_array kv.2). rewrite accounts_array_depth. lia. }
    unfold CJSON_NESTING_LIMIT. lia.
Qed.

Lemma set_accounts_array l key vec :
  string_empty key = false →
  AddVectorStringToJson (Some (JObject l)) key vec =
    Some (JObject (obj_set (c_str key) (accounts_array (c_str <$> vec)) l)).
Proof. intros Hk. rewrite AddVectorStringToJson_eq by done. unfold accounts_array. by rewrite list_fmap_compose. Qed.

Lemma array_strings (l : list string) : omap (λ item, match item with JString s => Some s | _ => None end) (JString <$> l) = l.
Proof. induction l as [|s l IH]; [done|]. cbn. by rewrite IH. Qed.

(** Reading the index: the object to write back to and the accounts of the app. *)
Lemma read_index ls k :
  string_empty k = false → nul_free k → Forall index_ok ls →
  Z.of_nat (length (default [] (obj_find k ls))) ≤ INT32_MAX →
  ∃ ls', GetAccessibleAccountsFromAuthorizedAccounts (PackJsonToString (Some (index_obj ls))) k
      = (Some (index_obj ls'), default [] (obj_find k ls)) ∧
    ls' = match obj_find k ls with Some _ => ls | None => obj_set k [] ls end.
Proof.
  intros Hk Hn Hls Hlen. unfold GetAccessibleAccountsFromAuthorizedAccounts.
  destruct (pack_create _ (index_obj_ok ls Hls)) as [-> _]. unfold index_obj at 1.
  rewrite IsKeyExist_object by done. rewrite Hn, obj_find_prod_map.
  destruct (obj_find k ls) as [l|] eqn:E.
  - rewrite bool_decide_true by (by eexists). cbn [negb]. exists ls. split; [|done]. f_equal.
    unfold GetVectorStringFromJson. unfold index_obj. rewrite IsKeyExist_object by done.
    rewrite Hn, obj_find_prod_map, E, bool_decide_true by (by eexists).
    rewrite find_item_object by done. rewrite Hn, obj_find_prod_map, E. cbn.
    change (accounts_array l) with (JArray (JString <$> l)). rewrite array_items_array by (by rewrite length_fmap).
    cbn. by rewrite array_strings.
  - rewrite bool_decide_false by (by intros []). cbn [negb]. exists (obj_set k [] ls). split; [|done].
    rewrite CreateJsonArray_eq. unfold index_obj at 1. rewrite AddObjToJson_eq by done. rewrite Hn.
    change (JArray []) with (accounts_array []). by rewrite obj_set_prod_map.
Qed.

Lemma obj_set_set {A} k (v v' : A) (ls : list (string * A)) :
  obj_find k ls = None → obj_set k v (obj_set k v' ls) = obj_set k v ls.
Proof.
  intros Hno. unfold obj_set at 2. rewrite Hno. unfold obj_set. rewrite Hno, obj_find_app, Hno. simpl.
  rewrite decide_True by done. induction ls as [|[k' w] ls IH]; cbn in *; [by rewrite decide_True|].
  case_decide; [done|]. f_equal. by apply IH.
Qed.

Lemma list_to_map_set {A} (ls : list (string * A)) k v :
  list_to_map (obj_set k v ls) = <[k := v]> (list_to_map ls : gmap string A).
Proof.
  apply map_eq. intros k'. rewrite obj_find_lookup, obj_find_set. case_decide; subst.
  - by rewrite lookup_insert_eq.
  - by rewrite lookup_insert_ne, obj_find_lookup.
Qed.

(** The value written back. *)
Definition read_text (r : result string) : string := match r with Ok v => v | Err _ => EmptyString end.

Lemma write_index c I k f text :
  (text = EmptyString ∧ I = ∅ ∨ c !! AUTHORIZED_ACCOUNTS = Some text ∧ index_in c I) →
  string_empty k = false → nul_free k → Forall nul_free (f (default [] (I !! k))) →
  Z.of_nat (length (default [] (I !! k))) ≤ INT32_MAX →
  let '(j, l) := GetAccessibleAccountsFromAuthorizedAccounts text k in
  l = default [] (I !! k) ∧
  ∃ text', PackJsonToString (match AddVectorStringToJson j k (f l) with Some j => Some j | None => j end) = text' ∧
    string_empty text' = false ∧
    ∀ c', index_in (<[AUTHORIZED_ACCOUNTS := text']> c') (<[k := f (default [] (I !! k))]> I).
Proof.
  intros Htext Hk Hn Hf Hlen.
  assert (Hcs : c_str <$> f (default [] (I !! k)) = f (default [] (I !! k))).
  { clear -Hf. induction Hf as [|s l Hs _ IH]; [done|]. cbn. by rewrite Hs, IH. }
  assert (Hwrite : ∀ ls, NoDup ls.*1 → Forall index_ok ls → I = list_to_map ls →
    let text' := PackJsonToString (Some (index_obj (obj_set k (f (default [] (I !! k))) ls))) in
    string_empty text' = false ∧
    ∀ c', index_in (<[AUTHORIZED_ACCOUNTS := text']> c') (<[k := f (default [] (I !! k))]> I)).
  { intros ls Hnd Hls HI. cbv zeta.
    assert (Hls' : Forall index_ok (obj_set k (f (default [] (I !! k))) ls))
      by (by apply obj_set_Forall).
    destruct (pack_create _ (index_obj_ok _ Hls')) as [_ He]. split; [done|]. intros c'. right.
    eexists. rewrite lookup_insert_eq. split_and!; [done|by rewrite list_to_map_set, <-HI|by apply obj_set_NoDup|done]. }
  destruct Htext as [[-> ->]|[Hc [[? _]|(ls & Htext & -> & Hnd & Hls)]]]; [| congruence|].
  - unfold GetAccessibleAccountsFromAuthorizedAccounts. cbn [CreateJsonFromString string_empty].
    rewrite lookup_empty in *. cbn [default] in *. split; [done|].
    rewrite CreateJson_eq, set_accounts_array by done. rewrite Hn, Hcs.
    eexists. split; [done|]. exact (Hwrite [] ltac:(constructor) ltac:(constructor) eq_refl).
  - rewrite Hc in Htext. injection Htext as ->. rewrite obj_find_lookup in *.
    destruct (read_index ls k Hk Hn Hls Hlen) as (ls' & -> & Hls').
    split; [done|]. exists (PackJsonToString (Some (index_obj (obj_set k (f (default [] (obj_find k ls))) ls)))).
    split; [|exact (Hwrite ls Hnd Hls eq_refl)].
    unfold index_obj at 1. rewrite set_accounts_array by done. rewrite Hn, Hcs, obj_set_prod_map.
    fold (index_obj (obj_set k (f (default [] (obj_find k ls))) ls')).
    subst ls'. destruct (obj_find k ls) eqn:E; [done|]. by rewrite obj_set_set.
Qed.
End Index.

Section Index_operations.
Context {cfg : Config} {cjson : CJsonLib} {laws : CJsonLaws} {alloc : CJsonAlloc} {target : Target}.
Context {adapter : DbAdapter} {dblaws : DbLaws} {asset : AssetApi}.

(** Every app's list is short enough for the array functions. *)
Definition index_short (I : gmap string (list string)) : Prop :=
  ∀ k, Z.of_nat (length (default [] (I !! k))) ≤ INT32_MAX.

(** What is read of the index: all of it, or nothing when the read fails, which it
    does not on a reliable database. *)
Definition index_read (I I0 : gmap string (list string)) : Prop :=
  (I0 = I ∨ I0 = ∅) ∧ (DbReliable → I0 = I).

Lemma read_index_text s r s' I :
  GetValueFromKvStore AUTHORIZED_ACCOUNTS s = (r, s') → index_in (contents (base s)) I →
  same_store s s' ∧ ∃ I0, index_read I I0 ∧
    (read_text r = EmptyString ∧ I0 = ∅ ∨
     contents (base s) !! AUTHORIZED_ACCOUNTS = Some (read_text r) ∧ index_in (contents (base s)) I0).
Proof.
  intros E HI. destruct (GetValueFromKvStore_spec _ _ _ _ E) as [Hs Hr]. split; [done|].
  destruct r as [v|e]; [exists I; split; [by split; [left|]|by right]|].
  exists ∅. split; [|by left]. split; [by right|]. intros rel.
  destruct HI as [[_ ->]|(ls & Hls & _)]; [done|].
  destruct (GetValueFromKvStore_reliable _ _ _ Hls) as (s2 & E2 & _). congruence.
Qed.

(** Changing the accounts of an app. *)
Lemma change_index_spec k f s r s' I :
  index_in (contents (base s)) I → index_short I → string_empty k = false → nul_free k →
  Forall nul_free (f (default [] (I !! k))) → Forall nul_free (f []) →
  change_authorized_accounts k f s = (r, s') →
  txn_state (saved (base s)) (transactionMutex_ s) s' ∧
  match r with
  | Ok _ =>
      delete AUTHORIZED_ACCOUNTS (contents (base s')) = delete AUTHORIZED_ACCOUNTS (contents (base s)) ∧
      ∃ I0, index_read I I0 ∧ index_in (contents (base s')) (<[k := f (default [] (I0 !! k))]> I0)
  | Err _ => contents (base s') = contents (base s)
  end ∧ (DbReliable → r = Ok tt).
Proof.
  intros HI Hshort Hk Hn Hf Hf0 E.
  destruct (GetValueFromKvStore AUTHORIZED_ACCOUNTS s) as [r1 s1] eqn:E1.
  destruct (read_index_text _ _ _ _ E1 HI) as ((Hc1 & Hs1 & Hn1) & I0 & HI0 & Htext).
  unfold change_authorized_accounts in E. rewrite run_try, E1 in E. fold (read_text r1) in E. cbv zeta in E.
  pose proof (write_index _ I0 k f _ Htext Hk Hn) as Hw.
  specialize (Hw ltac:(by destruct HI0 as [[-> | ->] _]) ltac:(by destruct HI0 as [[-> | ->] _])).
  destruct (GetAccessibleAccountsFromAuthorizedAccounts (read_text r1) k) as [j l].
  destruct Hw as (-> & text & Ht & He & Hin). rewrite Ht, He in E.
  destruct (PutValueToKvStore_spec _ _ _ _ _ E) as [[Hs' Hn'] Hc']. split; [split; congruence|]. split.
  - destruct r; [|congruence]. rewrite Hc', Hc1. split; [apply delete_insert_eq|]. by exists I0.
  - intros rel. destruct (PutValueToKvStore_reliable AUTHORIZED_ACCOUNTS text s1) as [s2 Ep2]. congruence.
Qed.

Lemma read_accounts_spec k s r s' I :
  index_in (contents (base s)) I → index_short I → string_empty k = false → nul_free k →
  GetAccessibleAccountsFromDataStorage k s = (r, s') →
  same_store s s' ∧ ∃ I0, index_read I I0 ∧ r = Ok (default [] (I0 !! k)).
Proof.
  intros HI Hshort Hk Hn E. unfold GetAccessibleAccountsFromDataStorage in E. rewrite run_try in E.
  destruct (GetValueFromKvStore AUTHORIZED_ACCOUNTS s) as [r1 s1] eqn:E1.
  destruct (read_index_text _ _ _ _ E1 HI) as (Hs & I0 & HI0 & Htext). fold (read_text r1) in E.
  pose proof (write_index _ I0 k (λ _, []) _ Htext Hk Hn ltac:(constructor)) as Hw.
  specialize (Hw ltac:(by destruct HI0 as [[-> | ->] _])).
  destruct (GetAccessibleAccountsFromAuthorizedAccounts (read_text r1) k) as [j l].
  destruct Hw as [-> _]. msimpl in E. injection E as <- <-. split; [done|]. by exists I0.
Qed.

Lemma add_account_id_Forall P a l : P a → Forall P l → Forall P (add_account_id a l).
Proof. intros. unfold add_account_id. case_bool_decide; [done|]. apply Forall_app. auto. Qed.
Lemma erase_account_id_Forall P a l : Forall P l → Forall P (erase_account_id a l).
Proof. induction 1; simpl; [done|]. case_bool_decide; [done|]. by constructor. Qed.

(** C24. The index of authorized accounts behaves as a map from apps to account
    keys.  When memory is available and the store holds the index [I], the
    accounts of an app are read from [I0], which is [I], or empty when the read
    fails; [SaveAuthorizedAccountIntoDataStorage] and
    [RemoveAuthorizedAccountFromDataStorage] touch no other entry of the store:
    when they succeed they leave there [I0] with the account appended to the
    app's list, if it was not there, or erased from it, and when they fail
    nothing changes.  On a reliable database they succeed and [I0] is [I];
    otherwise a failed read costs the rest of the index. *)
Theorem authorized_index_is_a_map app i p w I :
  let c := contents (base (view_at p w)) in
  index_in c I → index_short I → string_empty app = false → nul_free app → nul_free (GetPrimeKey i) →
  Forall nul_free (default [] (I !! app)) →
  let outcome f (rw : result unit * World) :=
    match rw.1 with
    | Ok _ =>
        delete AUTHORIZED_ACCOUNTS (contents (base (view_at p rw.2))) = delete AUTHORIZED_ACCOUNTS c ∧
        ∃ I0, index_read I I0 ∧
          index_in (contents (base (view_at p rw.2))) (<[app := f (default [] (I0 !! app))]> I0)
    | Err _ => contents (base (view_at p rw.2)) = c
    end ∧ (DbReliable → rw.1 = Ok tt) in
  (∃ I0, index_read I I0 ∧
     (on_store p (GetAccessibleAccountsFromDataStorage app) w).1 = Ok (default [] (I0 !! app))) ∧
  outcome (add_account_id (GetPrimeKey i)) (SaveAuthorizedAccountIntoDataStorage app i p w) ∧
  outcome (erase_account_id (GetPrimeKey i)) (RemoveAuthorizedAccountFromDataStorage app i p w).
Proof.
  cbv zeta. intros HI Hshort Hk Hn Hi Hl. split.
  { unfold on_store, zoom. cbn [view update store_at].
    destruct (GetAccessibleAccountsFromDataStorage app (view_at p w)) as [r s'] eqn:E.
    by destruct (read_accounts_spec _ _ _ _ _ HI Hshort Hk Hn E) as [_ H]. }
  unfold SaveAuthorizedAccountIntoDataStorage, RemoveAuthorizedAccountFromDataStorage, on_store, zoom.
  cbn [view update store_at].
  split; destruct (change_authorized_accounts _ _ _) as [r s'] eqn:E; cbn [fst snd]; rewrite view_update_at;
    (apply (change_index_spec _ _ _ _ _ _ HI Hshort Hk Hn) in E as [_ E]; [exact E|..]).
  - by apply add_account_id_Forall.
  - by apply add_account_id_Forall.
  - by apply erase_account_id_Forall.
  - by apply erase_account_id_Forall.
Qed.
End Index_operations.
