(* ===== verification/AccountModel.v ===== *)
(** What a user's store means: the accounts in it and the index of authorized
    accounts, as maps.  [AccountSpec] is that meaning, [store_repr] relates it to
    the texts in the database, the [spec_] functions are what the requests of
    [AppAccountControl] are to do to it, and the lemmas say what the calls on a
    store do to it. *)
From Stdlib Require Import ZArith Lia Ascii String.
From stdpp Require Import base list gmap sets strings pretty sorting.
From S2P Require Import Prelude ErrorCodes Json AppAccountInfo AppAccountJson DataStorage AppIndex.
From S2P Require Import AppAccountStore.

(** ** The abstract store *)

Record AccountSpec := mkSpec {
  accounts : gmap string AppAccountInfo;
  index : gmap string (list string);
}.

Definition with_account (k : string) (a : AppAccountInfo) (S : AccountSpec) : AccountSpec :=
  mkSpec (<[k := a]> (accounts S)) (index S).

(** Changes the accounts an app may access. *)
Definition with_index (app : string) (f : list string → list string) (S : AccountSpec) : AccountSpec :=
  mkSpec (accounts S) (<[app := f (default [] (index S !! app))]> (index S)).

(** The accounts an app has, by the prefix of their keys. *)
Definition accounts_of (prefix : string) (S : AccountSpec) : gmap string AppAccountInfo :=
  filter (λ kv, String.prefix prefix kv.1 = true) (accounts S).

(** The requests, on an account key [k]: [None] is a refusal. *)
Definition spec_add (k prefix : string) (a : AppAccountInfo) (S : AccountSpec) : option AccountSpec :=
  match accounts S !! k with
  | Some _ => None
  | None =>
      if bool_decide (ACCOUNT_MAX_SIZE ≤ size (accounts_of prefix S))%nat then None
      else Some (with_account k a S)
  end.

Definition spec_enable (k app : string) (apiVersion : Z) (S : AccountSpec) : option AccountSpec :=
  match accounts S !! k with
  | None => None
  | Some a =>
      let apps := {[ app ]} ∪ authorizedApps_ a in
      if bool_decide (app ∈ authorizedApps_ a) && (apiVersion <? API_VERSION9) then None
      else if MAX_APP_AUTH_LIST_SIZE <? Z.of_nat (size apps) then None
      else Some (with_index app (add_account_id k) (with_account k (set_apps apps a) S))
  end.

Definition spec_disable (k app : string) (apiVersion : Z) (S : AccountSpec) : option AccountSpec :=
  match accounts S !! k with
  | None => None
  | Some a =>
      if negb (bool_decide (app ∈ authorizedApps_ a)) && (apiVersion <? API_VERSION9) then None
      else Some (with_index app (erase_account_id k)
                   (with_account k (set_apps (authorizedApps_ a ∖ {[ app ]}) a) S))
  end.

Definition spec_delete (k : string) (S : AccountSpec) : option AccountSpec :=
  match accounts S !! k with
  | None => None
  | Some a =>
      Some (foldl (λ S app, with_index app (erase_account_id k) S) (mkSpec (delete k (accounts S)) (index S))
              (set_list (authorizedApps_ a)))
  end.

(** An account is listed for exactly the apps it grants access to, once, and
    nothing else is listed. *)
Definition consistent (S : AccountSpec) : Prop :=
  ∀ app, NoDup (default [] (index S !! app)) ∧
    ∀ k, k ∈ default [] (index S !! app) ↔ ∃ a, accounts S !! k = Some a ∧ app ∈ authorizedApps_ a.

(** No app has an empty name; the index cannot list one. *)
Definition named (S : AccountSpec) : Prop :=
  map_Forall (λ _ a, EmptyString ∉ authorizedApps_ a) (accounts S).

(** *** Requests keep the index consistent *)

Lemma with_index_lookup app f S app' :
  default [] (index (with_index app f S) !! app') =
    if decide (app' = app) then f (default [] (index S !! app)) else default [] (index S !! app').
Proof.
  unfold with_index. cbn. case_decide; subst; [by rewrite lookup_insert_eq|by rewrite lookup_insert_ne].
Qed.

Lemma add_account_id_spec a l : NoDup l → NoDup (add_account_id a l) ∧ ∀ x, x ∈ add_account_id a l ↔ x = a ∨ x ∈ l.
Proof.
  intros Hl. unfold add_account_id. case_bool_decide as Hin; [split; [done|]; set_solver|]. split; [|set_solver].
  apply NoDup_app. split_and!; [done|set_solver|by apply NoDup_singleton].
Qed.

Lemma erase_account_id_spec a l : NoDup l → NoDup (erase_account_id a l) ∧ ∀ x, x ∈ erase_account_id a l ↔ x ≠ a ∧ x ∈ l.
Proof.
  induction 1 as [|b l Hb Hl [IH1 IH2]]; simpl; [split; [constructor|set_solver]|].
  case_bool_decide; subst; [split; [done|set_solver]|].
  split; [constructor; [rewrite IH2; set_solver|done]|]. intros x. rewrite !elem_of_cons, IH2. naive_solver.
Qed.

Lemma spec_add_consistent k prefix a S S' :
  consistent S → authorizedApps_ a = ∅ → spec_add k prefix a S = Some S' → consistent S'.
Proof.
  intros HS Ha. unfold spec_add. destruct (accounts S !! k) eqn:Ek; [done|]. case_bool_decide; [done|].
  intros [= <-] app. destruct (HS app) as [Hnd Hin]. split; [done|]. intros k'. cbn. rewrite Hin.
  destruct (decide (k = k')) as [->|Hne]; [|by rewrite lookup_insert_ne]. rewrite lookup_insert_eq.
  split; [naive_solver|]. intros (? & [= <-] & Happ). set_solver.
Qed.

Lemma consistent_change k app f a apps S :
  consistent S → accounts S !! k = Some a →
  (∀ l, NoDup l → NoDup (f l) ∧ ∀ x, x ∈ f l ↔ (if decide (app ∈ apps) then x = k ∨ x ∈ l else x ≠ k ∧ x ∈ l)) →
  (∀ app', app' ≠ app → app' ∈ apps ↔ app' ∈ authorizedApps_ a) →
  consistent (with_index app f (with_account k (set_apps apps a) S)).
Proof.
  intros HS Hk Hf Happs app'. rewrite with_index_lookup. cbn. destruct (HS app') as [Hnd Hin].
  destruct (decide (app' = app)) as [->|Hne].
  - destruct (Hf _ Hnd) as [Hnd' Hin']. split; [done|]. intros k'. rewrite Hin'.
    destruct (decide (k = k')) as [<-|Hk']; [rewrite lookup_insert_eq|rewrite lookup_insert_ne by done];
      destruct (decide (app ∈ apps)); rewrite ?Hin; naive_solver.
  - split; [done|]. intros k'. rewrite Hin. destruct (decide (k = k')) as [<-|Hk'].
    + rewrite lookup_insert_eq, Hk. specialize (Happs app' Hne). naive_solver.
    + by rewrite lookup_insert_ne.
Qed.

Lemma spec_enable_consistent k app v S S' :
  consistent S → spec_enable k app v S = Some S' → consistent S'.
Proof.
  intros HS. unfold spec_enable. destruct (accounts S !! k) as [a|] eqn:Ek; [|done]. cbv zeta.
  destruct (_ && _); [done|]. destruct (_ <? _); [done|]. intros [= <-].
  apply consistent_change; [done|done| |set_solver]. intros l Hl. case_decide; [|set_solver].
  by apply add_account_id_spec.
Qed.

Lemma spec_disable_consistent k app v S S' :
  consistent S → spec_disable k app v S = Some S' → consistent S'.
Proof.
  intros HS. unfold spec_disable. destruct (accounts S !! k) as [a|] eqn:Ek; [|done].
  destruct (_ && _); [done|]. intros [= <-].
  apply consistent_change; [done|done| |set_solver]. intros l Hl. case_decide; [set_solver|].
  by apply erase_account_id_spec.
Qed.

(** Erasing an account from the lists of some apps. *)
Lemma erase_index_lookup k apps S app :
  NoDup (default [] (index S !! app)) →
  let S' := foldl (λ S app, with_index app (erase_account_id k) S) S apps in
  accounts S' = accounts S ∧ NoDup (default [] (index S' !! app)) ∧
  ∀ x, x ∈ default [] (index S' !! app) ↔ x ∈ default [] (index S !! app) ∧ (app ∈ apps → x ≠ k).
Proof.
  revert S. induction apps as [|b apps IH]; intros S Hnd; cbn [foldl]; [split_and!; [done|done|set_solver]|].
  destruct (erase_account_id_spec k _ Hnd) as [H1 H2].
  specialize (IH (with_index b (erase_account_id k) S)). rewrite with_index_lookup in IH. cbv zeta in IH |- *.
  case_decide; subst; [specialize (IH H1)|specialize (IH Hnd)]; destruct IH as (E & IH2 & IH3);
    (split_and!; [done|done|]); intros x; rewrite IH3, ?H2; set_solver.
Qed.

Lemma spec_delete_consistent k S S' : consistent S → spec_delete k S = Some S' → consistent S'.
Proof.
  intros HS. unfold spec_delete. destruct (accounts S !! k) as [a|] eqn:Ek; [|done]. intros [= <-] app.
  destruct (HS app) as [Hnd Hin].
  destruct (erase_index_lookup k (set_list (authorizedApps_ a))
    (mkSpec (delete k (accounts S)) (index S)) app Hnd) as (-> & H1 & H2). split; [done|].
  intros k'. rewrite H2. cbn. rewrite Hin. setoid_rewrite lookup_delete_Some.
  setoid_rewrite elem_of_set_list. naive_solver.
Qed.

Lemma named_account k a S : named S → EmptyString ∉ authorizedApps_ a → named (with_account k a S).
Proof. intros HS Ha. by apply map_Forall_insert_2. Qed.

Lemma named_lookup k a S : named S → accounts S !! k = Some a → EmptyString ∉ authorizedApps_ a.
Proof. intros HS Hk. exact (HS k a Hk). Qed.

Lemma spec_add_named k prefix a S S' :
  named S → authorizedApps_ a = ∅ → spec_add k prefix a S = Some S' → named S'.
Proof.
  intros HS Ha. unfold spec_add. destruct (accounts S !! k); [done|]. case_bool_decide; [done|].
  intros [= <-]. apply named_account; set_solver.
Qed.

Lemma spec_enable_named k app v S S' :
  named S → app ≠ EmptyString → spec_enable k app v S = Some S' → named S'.
Proof.
  intros HS Happ. unfold spec_enable. destruct (accounts S !! k) as [a|] eqn:Ek; [|done]. cbv zeta.
  destruct (_ && _); [done|]. destruct (_ <? _); [done|]. intros [= <-].
  apply (named_account k _ S HS). pose proof (named_lookup k a S HS Ek). cbn. set_solver.
Qed.

Lemma spec_disable_named k app v S S' : named S → spec_disable k app v S = Some S' → named S'.
Proof.
  intros HS. unfold spec_disable. destruct (accounts S !! k) as [a|] eqn:Ek; [|done].
  destruct (_ && _); [done|]. intros [= <-].
  apply (named_account k _ S HS). pose proof (named_lookup k a S HS Ek). cbn. set_solver.
Qed.

Lemma erase_index_accounts k apps S :
  accounts (foldl (λ S app, with_index app (erase_account_id k) S) S apps) = accounts S.
Proof. revert S. induction apps as [|b apps IH]; intros S; [done|]. cbn [foldl]. by rewrite IH. Qed.

Lemma spec_delete_named k S S' : named S → spec_delete k S = Some S' → named S'.
Proof.
  intros HS. unfold spec_delete. destruct (accounts S !! k) as [a|] eqn:Ek; [|done]. intros [= <-].
  unfold named. rewrite erase_index_accounts. by apply map_Forall_delete.
Qed.

(** *** Requests keep to the limit of accounts *)

(** The accounts of one app in one index. *)
Definition own_accounts (owner : string) (appIndex : Z) (S : AccountSpec) : gmap string AppAccountInfo :=
  filter (λ kv, owner_ kv.2 = owner ∧ appIndex_ kv.2 = appIndex) (accounts S).

Definition limited (S : AccountSpec) : Prop :=
  ∀ owner appIndex, (size (own_accounts owner appIndex S) ≤ ACCOUNT_MAX_SIZE)%nat.

(** Accounts are stored under their own keys. *)
Definition keyed (S : AccountSpec) : Prop := map_Forall (λ k a, GetPrimeKey a = k) (accounts S).

Lemma own_dom owner i S k :
  k ∈ dom (own_accounts owner i S) ↔ ∃ a, accounts S !! k = Some a ∧ owner_ a = owner ∧ appIndex_ a = i.
Proof.
  unfold own_accounts. rewrite elem_of_dom. split.
  - intros [a Ha]. apply map_lookup_filter_Some in Ha as [Ha Hp]. by exists a.
  - intros (a & Ha & Hp). exists a. by apply map_lookup_filter_Some.
Qed.

Lemma limited_subset S S' :
  (∀ owner i, dom (own_accounts owner i S') ⊆ dom (own_accounts owner i S)) → limited S → limited S'.
Proof.
  intros Hsub HS owner i. etransitivity; [|apply (HS owner i)]. rewrite <-!size_dom. by apply subseteq_size.
Qed.

Lemma prefix_exists p k : String.prefix p k = true ↔ ∃ t, k = p +:+ t.
Proof.
  revert k. induction p as [|a p IH]; intros k.
  - split; [intros _; by exists k|by destruct k].
  - destruct k as [|b k]; simpl; [split; [done|by intros [t Ht]]|].
    destruct (Ascii.ascii_dec a b) as [<-|Hne].
    + rewrite IH. split; intros [t Ht]; exists t; [by rewrite Ht|]. by injection Ht.
    + split; [done|]. intros [t Ht]. by injection Ht.
Qed.

Lemma spec_add_limited k a S S' :
  limited S → keyed S → spec_add k (owner_ a +:+ String HYPHEN (to_string (appIndex_ a))) a S = Some S' → limited S'.
Proof.
  intros HS Hkey. unfold spec_add. destruct (accounts S !! k) eqn:Ek; [done|]. case_bool_decide as Hmax; [done|].
  intros [= <-] owner i.
  destruct (decide (owner_ a = owner ∧ appIndex_ a = i)) as [[<- <-]|Hne].
  - assert (Hsub : dom (own_accounts (owner_ a) (appIndex_ a) (with_account k a S)) ⊆
      {[ k ]} ∪ dom (accounts_of (owner_ a +:+ String HYPHEN (to_string (appIndex_ a))) S)).
    { intros k' (b & Hb & Ho & Hi)%own_dom. cbn in Hb. destruct (decide (k = k')) as [->|Hk]; [set_solver|].
      rewrite lookup_insert_ne in Hb by done. apply elem_of_union_r, elem_of_dom. exists b.
      apply map_lookup_filter_Some. split; [done|]. cbn. rewrite <-(Hkey k' b Hb). apply prefix_exists.
      unfold GetPrimeKey. rewrite Ho, Hi. eexists. by rewrite string_app_assoc. }
    rewrite <-size_dom. etransitivity; [by apply subseteq_size|].
    rewrite size_union_alt. rewrite size_singleton.
    assert (size (dom (accounts_of (owner_ a +:+ String HYPHEN (to_string (appIndex_ a))) S) ∖ {[ k ]})
      ≤ size (accounts_of (owner_ a +:+ String HYPHEN (to_string (appIndex_ a))) S))%nat.
    { rewrite <-size_dom. apply subseteq_size. set_solver. }
    lia.
  - etransitivity; [|apply (HS owner i)]. rewrite <-!size_dom. apply subseteq_size.
    intros k' (b & Hb & Hp)%own_dom. cbn in Hb. destruct (decide (k = k')) as [->|Hk].
    + rewrite lookup_insert_eq in Hb. injection Hb as <-. by destruct Hne.
    + rewrite lookup_insert_ne in Hb by done. apply own_dom. by exists b.
Qed.

Lemma own_with_account k a a' S owner i :
  accounts S !! k = Some a → owner_ a' = owner_ a → appIndex_ a' = appIndex_ a →
  dom (own_accounts owner i (with_account k a' S)) ⊆ dom (own_accounts owner i S).
Proof.
  intros Hk Ho Hi k' (b & Hb & Hp)%own_dom. cbn in Hb. apply own_dom. destruct (decide (k = k')) as [->|Hne].
  - rewrite lookup_insert_eq in Hb. injection Hb as <-. exists a. by rewrite <-Ho, <-Hi.
  - rewrite lookup_insert_ne in Hb by done. by exists b.
Qed.

Lemma spec_enable_limited k app v S S' : limited S → spec_enable k app v S = Some S' → limited S'.
Proof.
  intros HS. unfold spec_enable. destruct (accounts S !! k) as [a|] eqn:Ek; [|done]. cbv zeta.
  destruct (_ && _); [done|]. destruct (_ <? _); [done|]. intros [= <-]. apply (limited_subset S); [|done].
  intros owner i. by apply (own_with_account k a _ S).
Qed.

Lemma spec_disable_limited k app v S S' : limited S → spec_disable k app v S = Some S' → limited S'.
Proof.
  intros HS. unfold spec_disable. destruct (accounts S !! k) as [a|] eqn:Ek; [|done].
  destruct (_ && _); [done|]. intros [= <-]. apply (limited_subset S); [|done].
  intros owner i. by apply (own_with_account k a _ S).
Qed.

Lemma spec_delete_limited k S S' : limited S → spec_delete k S = Some S' → limited S'.
Proof.
  intros HS. unfold spec_delete. destruct (accounts S !! k) as [a|] eqn:Ek; [|done]. intros [= <-].
  apply (limited_subset S); [|done]. intros owner i k' (b & Hb & Hp)%own_dom.
  rewrite erase_index_accounts in Hb. cbn in Hb. apply lookup_delete_Some in Hb as [_ Hb]. apply own_dom. by exists b.
Qed.

(** ** The store and its meaning *)

Section Representation.
Context {cfg : Config} {cjson : CJsonLib} {laws : CJsonLaws} {alloc : CJsonAlloc} {target : Target}.

(** A text that stands for an account: what is stored of [b] is [a]. *)
Definition account_text (k text : string) (a : AppAccountInfo) : Prop :=
  ∃ b, storable b ∧ GetPrimeKey b = k ∧ text = ToString b ∧ normalize b = a.

(** Apart from the index, every entry of the store is an account under its key. *)
Definition store_repr (c : gmap string string) (S : AccountSpec) : Prop :=
  index_in c (index S) ∧ accounts S !! AUTHORIZED_ACCOUNTS = None ∧
  ∀ k, k ≠ AUTHORIZED_ACCOUNTS →
    match c !! k, accounts S !! k with
    | Some text, Some a => account_text k text a
    | None, None => True
    | _, _ => False
    end.

Lemma GetPrimeKey_not_index i : GetPrimeKey i ≠ AUTHORIZED_ACCOUNTS.
Proof.
  intros E. assert (Hno : ¬ char_free HYPHEN (GetPrimeKey i)).
  { unfold GetPrimeKey. rewrite char_free_app, char_free_cons. tauto. }
  rewrite E in Hno. apply Hno. by vm_compute.
Qed.

Lemma GetPrimeKey_normalize i : GetPrimeKey (normalize i) = GetPrimeKey i.
Proof. done. Qed.

Lemma repr_lookup c S k a :
  store_repr c S → accounts S !! k = Some a →
  k ≠ AUTHORIZED_ACCOUNTS ∧ GetPrimeKey a = k ∧ storable a ∧ normalize a = a ∧
  ∃ b, storable b ∧ GetPrimeKey b = k ∧ c !! k = Some (ToString b) ∧ normalize b = a.
Proof.
  intros (_ & Hauth & Hall) Hk. assert (Hne : k ≠ AUTHORIZED_ACCOUNTS) by congruence.
  specialize (Hall k Hne). rewrite Hk in Hall. destruct (c !! k) as [text|]; [|done].
  destruct Hall as (b & Hb & Hkb & -> & <-). split_and!; [done|done|by apply storable_normalize|apply normalize_idem|].
  by exists b.
Qed.

Lemma repr_absent c S k : store_repr c S → accounts S !! k = None → k ≠ AUTHORIZED_ACCOUNTS → c !! k = None.
Proof. intros (_ & _ & Hall) Hk Hne. specialize (Hall k Hne). rewrite Hk in Hall. by destruct (c !! k). Qed.

Lemma repr_insert c S a :
  store_repr c S → storable a →
  store_repr (<[GetPrimeKey a := ToString a]> c) (with_account (GetPrimeKey a) (normalize a) S).
Proof.
  intros (Hin & Hauth & Hall) Ha. pose proof (GetPrimeKey_not_index a) as Hne. split_and!.
  - unfold index_in in *. by rewrite lookup_insert_ne.
  - cbn. by rewrite lookup_insert_ne.
  - intros k Hk. cbn. destruct (decide (GetPrimeKey a = k)) as [<-|Hka].
    + rewrite !lookup_insert_eq. by exists a.
    + rewrite !lookup_insert_ne by done. by apply Hall.
Qed.

Lemma repr_delete c S k :
  store_repr c S → k ≠ AUTHORIZED_ACCOUNTS →
  store_repr (delete k c) (mkSpec (delete k (accounts S)) (index S)).
Proof.
  intros (Hin & Hauth & Hall) Hne. split_and!.
  - unfold index_in in *. by rewrite lookup_delete_ne.
  - cbn. by rewrite lookup_delete_ne.
  - intros k' Hk'. cbn. destruct (decide (k = k')) as [<-|Hkk].
    + by rewrite !lookup_delete_eq.
    + rewrite !lookup_delete_ne by done. by apply Hall.
Qed.

Lemma repr_index c c' S I :
  store_repr c S → delete AUTHORIZED_ACCOUNTS c' = delete AUTHORIZED_ACCOUNTS c → index_in c' I →
  store_repr c' (mkSpec (accounts S) I).
Proof.
  intros (_ & Hauth & Hall) Hd Hin. split_and!; [done|done|]. intros k Hk. cbn.
  assert (c' !! k = c !! k) as ->.
  { rewrite <-(lookup_delete_ne c' AUTHORIZED_ACCOUNTS k), Hd by done. by rewrite lookup_delete_ne. }
  by apply Hall.
Qed.

Lemma repr_keyed c S : store_repr c S → keyed S.
Proof. intros HS k a Hk. by destruct (repr_lookup _ _ _ _ HS Hk) as (_ & Hka & _). Qed.

(** The lists of the index hold no null characters. *)
Lemma index_nul_free c I app : index_in c I → Forall nul_free (default [] (I !! app)).
Proof.
  intros [[_ ->]|(ls & _ & -> & _ & Hls)]; [rewrite lookup_empty; constructor|].
  rewrite obj_find_lookup. destruct (obj_find app ls) as [l|] eqn:E; [|constructor].
  apply obj_find_In in E. rewrite Forall_forall in Hls. by destruct (Hls _ E).
Qed.

(** In a consistent store the lists are no longer than there are accounts. *)
Lemma consistent_short S :
  consistent S → Z.of_nat (size (accounts S)) ≤ INT32_MAX → index_short (index S).
Proof.
  intros HS Hsize app. destruct (HS app) as [Hnd Hin]. etransitivity; [|exact Hsize]. apply inj_le.
  rewrite <-size_dom, <-(size_list_to_set (C := gset string) _ Hnd). apply subseteq_size.
  intros k. rewrite elem_of_list_to_set, elem_of_dom, Hin. intros (a & -> & _). by eexists.
Qed.
End Representation.

(** ** Calls on a store that means something *)

Section Calls.
Context {cfg : Config} {cjson : CJsonLib} {laws : CJsonLaws} {alloc : CJsonAlloc} {target : Target}.
Context {adapter : DbAdapter} {dblaws : DbLaws}.

(** An account object that names an account and holds nothing yet. *)
Definition fresh_info (i : AppAccountInfo) : Prop := authorizedApps_ i = ∅ ∧ oauthTokens_ i = ∅.

Lemma load_spec S i s r s' :
  store_repr (contents (base s)) S → fresh_info i →
  DataStorage.GetAccountInfoFromDataStorage i s = (r, s') →
  same_store s s' ∧
  match r with
  | Ok j => accounts S !! GetPrimeKey i = Some j
  | Err _ => DbReliable → accounts S !! GetPrimeKey i = None
  end.
Proof.
  intros HS [Ha Ht] E. destruct (accounts S !! GetPrimeKey i) as [a|] eqn:Ek.
  - destruct (repr_lookup _ _ _ _ HS Ek) as (_ & _ & _ & _ & b & Hb & Hkb & Htext & <-).
    rewrite <-Hkb in Htext.
    destruct (GetAccountInfoFromDataStorage_text b i s r s' Hb (eq_sym Hkb) Ha Ht Htext E) as [Hs Hr].
    split; [done|]. destruct r; [by rewrite Hr|]. intros rel.
    destruct (GetAccountInfoFromDataStorage_reliable b i s Hb (eq_sym Hkb) Ha Ht Htext) as (s2 & E2 & _).
    congruence.
  - assert (Hs : same_store s s').
    { eapply preserves_same; [|exact E]. intros. apply GetAccountInfoFromDataStorage_store. }
    split; [done|]. destruct r as [j|]; [|done]. exfalso.
    pose proof (repr_absent _ _ _ HS Ek (GetPrimeKey_not_index i)) as Hno.
    unfold DataStorage.GetAccountInfoFromDataStorage in E. rewrite run_try in E.
    destruct (GetAccountInfoById (GetPrimeKey i) i s) as [[j'|] s1] eqn:E1; [|by msimpl in E].
    unfold GetAccountInfoById in E1. rewrite mbind_unfold in E1.
    destruct (GetValueFromKvStore (GetPrimeKey i) s) as [[v|] s2] eqn:E2; [|done].
    destruct (GetValueFromKvStore_spec _ _ _ _ E2) as [_ Hv]. congruence.
Qed.

Lemma save_spec (save : bool) S a s r s' :
  store_repr (contents (base s)) S → storable a →
  (if save then DataStorage.SaveAccountInfoIntoDataStorage a else DataStorage.AddAccountInfoIntoDataStorage a) s
    = (r, s') →
  txn_state (saved (base s)) (transactionMutex_ s) s' ∧
  match r with
  | Ok _ => store_repr (contents (base s')) (with_account (GetPrimeKey a) (normalize a) S)
  | Err _ => contents (base s') = contents (base s)
  end.
Proof.
  intros HS Ha E. destruct (store_account_spec save a s r s' E) as [Ht Hc]. split; [done|].
  destruct r; [|done]. destruct Hc as [-> _]. by apply repr_insert.
Qed.

Lemma remove_reliable {rel : DbReliable} k v s :
  contents (base s) !! k = Some v →
  ∃ s', RemoveValueFromKvStore k s = (Ok tt, s') ∧ txn_state (saved (base s)) (transactionMutex_ s) s' ∧
    contents (base s') = delete k (contents (base s)).
Proof.
  intros Hk. destruct (RemoveValueFromKvStore k s) as [r s'] eqn:E. exists s'.
  pose proof (RemoveValueFromKvStore_txn k (saved (base s)) (transactionMutex_ s) s) as Htxn.
  rewrite E in Htxn. specialize (Htxn ltac:(by split)).
  destruct (CheckKvStore_reliable s) as (s1 & E1 & (Hc1 & _) & _).
  unfold RemoveValueFromKvStore in E. rewrite mbind_unfold, E1 in E. cbn [negb] in E.
  unfold TryTwice in E. rewrite mbind_assoc, mbind_unfold in E.
  destruct (get_ok k v (base s1)) as [d2 Hg]; [by rewrite Hc1|]. destruct (get_keeps _ _ _ _ Hg) as [Hc2 _].
  rewrite (on_db_run _ _ _ _ Hg) in E. cbn [fst] in E. rewrite bool_decide_false in E by done. msimpl in E.
  rewrite bool_decide_true in E by done. cbn [negb] in E. rewrite mbind_unfold in E.
  set (s2 := mkStorage _ _ d2) in E. unfold status_only in E. rewrite mbind_assoc in E.
  destruct (delete_ok k (base s2)) as [d3 Hd]. rewrite mbind_unfold, (on_db_run _ _ _ _ Hd) in E.
  msimpl in E. rewrite bool_decide_false in E by done. msimpl in E. rewrite bool_decide_true in E by done.
  msimpl in E. injection E as <- <-. split_and!; [done|done|].
  cbn [base]. rewrite (delete_contents _ _ _ _ Hd). simpl. by rewrite Hc2, Hc1.
Qed.

(** Entries that all parse are collected, and nothing is deleted. *)
Lemma SaveEntries_parse l infos s :
  (∀ item, item ∈ l → is_Some (CreateJsonFromString item.2) ∧ infos !! item.1 = None) → NoDup l.*1 →
  SaveEntries l infos s =
    (Ok (list_to_map ((λ item, (item.1, (FromJson (CreateJsonFromString item.2) AppAccountInfo_default).2)) <$> l)
         ∪ infos), s).
Proof.
  unfold SaveEntries. set (step := λ acc item, _). intros Hl Hnd.
  assert (Hgen : ∀ acc : M Storage (gmap string AppAccountInfo), acc s = (Ok infos, s) →
    foldl step acc l s =
    (Ok (list_to_map ((λ item, (item.1, (FromJson (CreateJsonFromString item.2) AppAccountInfo_default).2)) <$> l)
         ∪ infos), s)).
  { revert infos Hl. induction l as [|item l IH]; intros infos Hl acc Hacc; cbn [foldl fmap list_fmap].
    - rewrite Hacc. do 2 f_equal. symmetry. apply (left_id_L ∅ (∪)).
    - cbn in Hnd. apply NoDup_cons in Hnd as [Hni Hnd].
      destruct (Hl item) as [[j Hj] Hnone]; [set_solver|]. cbn [list_to_map foldr uncurry].
      rewrite <-insert_union_l, insert_union_r.
      2: { apply not_elem_of_list_to_map_1. by rewrite <-list_fmap_compose. }
      apply IH; [done| |].
      + intros item' Hin. destruct (Hl item') as [? ?]; [set_solver|]. split; [done|].
        rewrite lookup_insert_ne; [done|]. intros E. apply Hni. cbn [fst] in E. apply list_elem_of_fmap. exists item'. by rewrite E.
      + unfold step. rewrite mbind_unfold, Hacc, Hj. cbv zeta. by rewrite Hnone. }
  apply Hgen. by msimpl.
Qed.

Lemma entries_run p s :
  ∃ st l s', TryTwice (GetEntries p) s = (Ok (st, l), s') ∧ same_store s s' ∧
    (st = SUCCESS → NoDup l.*1 ∧
      ∀ k v, (k, v) ∈ l ↔ contents (base s) !! k = Some v ∧ String.prefix p k = true).
Proof.
  destruct (TryTwice (GetEntries p) s) as [r s'] eqn:E.
  assert (Hs : same_store s s').
  { eapply preserves_same; [|exact E]. intros. apply TryTwice_preserves, entries_store. }
  unfold TryTwice, GetEntries in E. rewrite mbind_unfold in E.
  destruct (kv_entries p (base s)) as [[st1 l1] d1] eqn:E1. rewrite (on_db_run _ _ _ _ E1) in E. cbn [fst] in E.
  case_bool_decide.
  - destruct (kv_entries p d1) as [[st2 l2] d2] eqn:E2. rewrite (on_db_run _ (mkStorage _ _ d1) _ _ E2) in E.
    injection E as <- <-. exists st2, l2. eexists. split_and!; [done|done|]. intros ->.
    destruct (entries_keeps _ _ _ _ E1) as [Hc _]. rewrite <-Hc. by eapply entries_success.
  - msimpl in E. injection E as <- <-. exists st1, l1. eexists. split_and!; [done|done|]. intros ->.
    by eapply entries_success.
Qed.

(** An entry a query by such a prefix finds is an account, and parses. *)
Lemma query_entry c S p k v :
  store_repr c S → ¬ char_free HYPHEN p → c !! k = Some v → String.prefix p k = true →
  is_Some (CreateJsonFromString v) ∧ is_Some (accounts S !! k).
Proof.
  intros (_ & _ & Hall) Hp Hk [t ->]%prefix_exists.
  assert (Hne : p +:+ t ≠ AUTHORIZED_ACCOUNTS).
  { intros Heq. apply Hp. assert (Hfree : char_free HYPHEN (p +:+ t)) by (rewrite Heq; by vm_compute).
    by apply char_free_app in Hfree as [? _]. }
  specialize (Hall _ Hne). rewrite Hk in Hall. destruct (accounts S !! (p +:+ t)) as [a|]; [|done].
  destruct Hall as (b & Hb & _ & -> & _). split; [|by eexists]. unfold ToString. rewrite ToJson_eq by done.
  destruct (pack_create _ (account_doc_ok b Hb)) as [-> _]. by eexists.
Qed.

(** A query by a prefix that no other entry has: the accounts with that prefix. *)
Lemma query_spec S p s r s' :
  store_repr (contents (base s)) S → ¬ char_free HYPHEN p →
  LoadDataByLocalFuzzyQuery p s = (r, s') →
  same_store s s' ∧ match r with Ok infos => infos = accounts_of p S | Err _ => True end.
Proof.
  intros HS Hp E. unfold LoadDataByLocalFuzzyQuery in E.
  destruct (CheckKvStore_run s) as (b & s1 & Ec & Hs1 & _). rewrite mbind_unfold, Ec in E.
  destruct b; cbn [negb] in E; [|msimpl in E; by injection E as <- <-].
  destruct (entries_run p s1) as (st & l & s2 & E2 & Hs2 & Hl). rewrite mbind_unfold, E2 in E. cbn [fst snd] in E.
  pose proof (same_store_trans _ _ _ Hs1 Hs2) as Hs. case_bool_decide; [|msimpl in E; by injection E as <- <-].
  destruct (Hl ltac:(done)) as [Hnd Hin]. destruct Hs1 as [Hc1 _]. rewrite Hc1 in Hin.
  rewrite SaveEntries_parse in E; [|intros [k v] [Hk Hpk]%Hin|done].
  2: { by destruct (query_entry _ _ _ _ _ HS Hp Hk Hpk) as [? _]. }
  injection E as <- <-. split; [done|]. rewrite (right_id_L ∅ (∪)). apply map_eq. intros k.
  unfold accounts_of. destruct (filter _ (accounts S) !! k) as [a|] eqn:Ek.
  - apply map_lookup_filter_Some in Ek as [Hk Hpk]. cbn in Hpk.
    destruct (repr_lookup _ _ _ _ HS Hk) as (_ & _ & _ & _ & b & Hb & Hkb & Htext & <-).
    apply elem_of_list_to_map_1; [by rewrite <-list_fmap_compose|]. apply list_elem_of_fmap.
    exists (k, ToString b). split; [|by apply Hin]. cbn [fst snd]. by rewrite account_read_back.
  - apply not_elem_of_list_to_map_1. rewrite <-list_fmap_compose.
    intros ([k' v] & -> & Hkv)%list_elem_of_fmap. cbn [fst] in *.
    apply Hin in Hkv as [Hk Hpk]. destruct (query_entry _ _ _ _ _ HS Hp Hk Hpk) as [_ [a Ha]].
    apply map_lookup_filter_None in Ek as [Ek|Ek]; simpl in *; [congruence|by apply (Ek _ Ha)].
Qed.

Lemma query_reliable {rel : DbReliable} S p s :
  store_repr (contents (base s)) S → ¬ char_free HYPHEN p →
  ∃ s', LoadDataByLocalFuzzyQuery p s = (Ok (accounts_of p S), s') ∧ same_store s s'.
Proof.
  intros HS Hp. destruct (LoadDataByLocalFuzzyQuery p s) as [r s'] eqn:E.
  destruct (query_spec S p s r s' HS Hp E) as [Hs Hr]. exists s'. destruct r as [infos|e]; [by rewrite Hr|]. exfalso.
  unfold LoadDataByLocalFuzzyQuery in E. destruct (CheckKvStore_reliable s) as (s1 & E1 & Hs1 & _).
  rewrite mbind_unfold, E1 in E. cbn [negb] in E. unfold TryTwice, GetEntries in E.
  rewrite mbind_assoc, mbind_unfold in E. destruct (entries_ok p (base s1)) as (l & d & Hl).
  rewrite (on_db_run _ _ _ _ Hl) in E. cbn [fst] in E. rewrite bool_decide_false in E by done. msimpl in E.
  rewrite bool_decide_true in E by done.
  set (s2 := mkStorage _ _ d) in E.
  assert (Hs2 : same_store s1 s2).
  { destruct (entries_keeps _ _ _ _ Hl) as [Hc Hsv]. by split; [|split]. }
  destruct (entries_run p s1) as (st & l' & s3 & E3 & _ & Hl').
  unfold TryTwice, GetEntries in E3. rewrite mbind_unfold, (on_db_run _ _ _ _ Hl) in E3. cbn [fst] in E3.
  rewrite bool_decide_false in E3 by done. msimpl in E3. injection E3 as <- <- _.
  destruct (Hl' eq_refl) as [Hnd Hin]. destruct Hs1 as [Hc1 _]. rewrite Hc1 in Hin.
  rewrite SaveEntries_parse in E; [done|intros [k v] Hkv|done].
  split; [|done]. apply Hin in Hkv as [Hk Hpk]. by destruct (query_entry _ _ _ _ _ HS Hp Hk Hpk) as [? _].
Qed.

Lemma account_prefix_hyphen owner i t : ¬ char_free HYPHEN (owner +:+ String HYPHEN (to_string i) +:+ t).
Proof. rewrite !char_free_app, char_free_cons. tauto. Qed.
End Calls.
