(* ===== verification/AppAccountControl.v ===== *)
(** The operations of the app account control manager,
    app_account_control_manager.cpp: accounts, access control, the associated
    data cache, credentials, OAuth tokens, queries, removal and migration.

    An operation is a computation over [World]; an account object passed by
    reference is an argument and, where the code fills it in, a result. *)
From Stdlib Require Import ZArith Lia Ascii String.
From stdpp Require Import base list gmap sets strings pretty sorting.
From S2P Require Import Prelude ErrorCodes Json AppAccountInfo AppAccountJson DataStorage AppIndex.
From S2P Require Import AppAccountStore AccountModel.

(** The data manager of the key-value library, which lists the stores of an app. *)
Class DataManager := GetAllKvStoreId : DbAdapterStatus * list string.

(** [AppAccountCallingInfo], app_account_common.h *)
Record AppAccountCallingInfo := mkCallingInfo {
  callingUid : Z;
  calling_bundleName : string;
  calling_appIndex : Z;
}.

(** The fields of the request the control manager reads.

    [AuthenticatorSessionRequest], app_account_common.h *)
Record AuthenticatorSessionRequest := mkRequest {
  request_name : string;
  request_owner : string;
  request_authType : string;
  request_token : string;
  request_bundleName : string;
  request_callerBundleName : string;
  request_appIndex : Z;
  isTokenVisible : bool;
  callerUid : Z;
}.

Section Operations.
Context {cfg : Config} {cjson : CJsonLib} {target : Target} {ssl : OpenSSL}.
Context {adapter : DbAdapter} {asset : AssetApi} {services : Services} {manager : DataManager}.

(** [AppAccountInfo appAccountInfo(name, bundleName)] with its index set. *)
Definition account_key (name bundleName : string) (appIndex : Z) : AppAccountInfo :=
  SetAppIndex appIndex (AppAccountInfo_new name bundleName).

(** The result of a call whose error is replaced by another. *)
Definition or_error {A} (e : Z) (m : M World A) : M World A :=
  r ← mtry m; match r with Ok a => mret a | Err _ => merr e end.

(** [uid / UID_TRANSFORM_DIVISOR] for the signed uids of requests. *)
Definition local_id (uid : Z) : Z := Z.quot uid UID_TRANSFORM_DIVISOR.

(** *** Accounts *)

(** [AppAccountControlManager::AddAccount], app_account_control_manager.cpp *)
Definition AddAccount (name extraInfo : string) (uid : Z) (bundleName : string) (appAccountInfo : AppAccountInfo)
  : M World AppAccountInfo :=
  dataStoragePtr ← GetDataStorage uid false;
  result ← mtry (GetAccountInfoFromDataStorage appAccountInfo dataStoragePtr);
  match result with
  | Ok _ => merr ERR_APPACCOUNT_SERVICE_ADD_EXISTING_ACCOUNT
  | Err _ =>
      let appAccountInfo := SetExtraInfo extraInfo appAccountInfo in
      _ ← AddAccountInfoIntoDataStorage appAccountInfo dataStoragePtr uid;
      mret appAccountInfo
  end.

(** [AppAccountControlManager::CreateAccount], app_account_control_manager.cpp *)
Definition CreateAccount (name : string) (customData : gmap string string) (uid : Z) (bundleName : string)
  (appAccountInfo : AppAccountInfo) : M World AppAccountInfo :=
  dataStoragePtr ← GetDataStorage uid false;
  result ← mtry (GetAccountInfoFromDataStorage appAccountInfo dataStoragePtr);
  match result with
  | Ok _ => merr ERR_APPACCOUNT_SERVICE_ADD_EXISTING_ACCOUNT
  | Err _ =>
      r ← or_error ERR_APPACCOUNT_SERVICE_SET_ASSOCIATED_DATA (on_info (InitCustomData customData) appAccountInfo);
      let appAccountInfo := r.2 in
      _ ← AddAccountInfoIntoDataStorage appAccountInfo dataStoragePtr uid;
      mret appAccountInfo
  end.

(** [AppAccountControlManager::RemoveAssociatedDataCacheByUid], app_account_control_manager.cpp *)
Definition RemoveAssociatedDataCacheByUid (uid : Z) : M World unit :=
  mmodify (λ w, set_cache (delete uid (associatedDataCache_ w)) w).

(** [AppAccountControlManager::RemoveAssociatedDataCacheByAccount], app_account_control_manager.cpp *)
Definition RemoveAssociatedDataCacheByAccount (uid : Z) (name : string) : M World unit :=
  w ← mget;
  match associatedDataCache_ w !! uid with
  | None => mret tt
  | Some item =>
      if negb (bool_decide (item_name item = name)) then mret tt
      else mput (set_cache (delete uid (associatedDataCache_ w)) w)
  end.

(** What [DeleteAccount] does inside its transaction. *)
Definition delete_account_body (name : string) (uid : Z) (appAccountInfo : AppAccountInfo)
  (dataStoragePtr : string) : M World AppAccountInfo :=
  appAccountInfo ← DeleteAccountInfoFromDataStorage appAccountInfo dataStoragePtr uid;
  _ ← RemoveAssociatedDataCacheByAccount uid name;
  _ ← (if HAS_ASSET_PART then
         _ ← mtry (RemoveDataFromAssetByLabel (i32 (u32 uid / UID_TRANSFORM_DIVISOR))
                     SEC_ASSET_TAG_DATA_LABEL_NORMAL_2 (GetPrimeKey appAccountInfo));
         mret tt
       else mret tt);
  _ ← mfor (set_list (GetAuthorizedApps appAccountInfo)) (λ authorizedApp,
        RemoveAuthorizedAccount authorizedApp appAccountInfo dataStoragePtr uid);
  mret appAccountInfo.

(** [AppAccountControlManager::DeleteAccount], app_account_control_manager.cpp *)
Definition DeleteAccount (name : string) (uid : Z) (bundleName : string) (appAccountInfo : AppAccountInfo)
  : M World AppAccountInfo :=
  dataStoragePtr ← GetDataStorage uid false;
  with_transaction (store_at dataStoragePtr) (delete_account_body name uid appAccountInfo dataStoragePtr).

(** [AppAccountControlManager::GetAccountExtraInfo], app_account_control_manager.cpp *)
Definition GetAccountExtraInfo (name : string) (uid : Z) (bundleName : string) (appIndex : Z) : M World string :=
  let appAccountInfo := account_key name bundleName appIndex in
  dataStoragePtr ← GetDataStorage uid false;
  appAccountInfo ← GetAccountInfoFromDataStorage appAccountInfo dataStoragePtr;
  mret (GetExtraInfo appAccountInfo).

(** [AppAccountControlManager::SetAccountExtraInfo], app_account_control_manager.cpp *)
Definition SetAccountExtraInfo (name extraInfo : string) (uid : Z) (bundleName : string)
  (appAccountInfo : AppAccountInfo) : M World AppAccountInfo :=
  dataStoragePtr ← GetDataStorage uid false;
  appAccountInfo ← GetAccountInfoFromDataStorage appAccountInfo dataStoragePtr;
  let appAccountInfo := SetExtraInfo extraInfo appAccountInfo in
  _ ← SaveAccountInfoIntoDataStorage appAccountInfo dataStoragePtr uid;
  mret appAccountInfo.

(** *** Access *)

(** [AppAccountControlManager::EnableAppAccess], app_account_control_manager.cpp *)
Definition EnableAppAccess (name authorizedApp : string) (callingInfo : AppAccountCallingInfo)
  (appAccountInfo : AppAccountInfo) (apiVersion : Z) : M World AppAccountInfo :=
  dataStoragePtr ← GetDataStorage (callingUid callingInfo) false;
  appAccountInfo ← GetAccountInfoFromDataStorage appAccountInfo dataStoragePtr;
  r ← on_info (AppAccountInfo.EnableAppAccess authorizedApp apiVersion) appAccountInfo;
  let appAccountInfo := r.2 in
  with_transaction (store_at dataStoragePtr)
    (_ ← SaveAccountInfoIntoDataStorage appAccountInfo dataStoragePtr (callingUid callingInfo);
     _ ← SaveAuthorizedAccount authorizedApp appAccountInfo dataStoragePtr (callingUid callingInfo);
     mret appAccountInfo).

(** [AppAccountControlManager::DisableAppAccess], app_account_control_manager.cpp *)
Definition DisableAppAccess (name authorizedApp : string) (callingInfo : AppAccountCallingInfo)
  (appAccountInfo : AppAccountInfo) (apiVersion : Z) : M World AppAccountInfo :=
  dataStoragePtr ← GetDataStorage (callingUid callingInfo) false;
  appAccountInfo ← GetAccountInfoFromDataStorage appAccountInfo dataStoragePtr;
  r ← or_error ERR_APPACCOUNT_SERVICE_DISABLE_APP_ACCESS_NOT_EXISTED
        (on_info (AppAccountInfo.DisableAppAccess authorizedApp apiVersion) appAccountInfo);
  let appAccountInfo := r.2 in
  with_transaction (store_at dataStoragePtr)
    (_ ← SaveAccountInfoIntoDataStorage appAccountInfo dataStoragePtr (callingUid callingInfo);
     _ ← RemoveAuthorizedAccount authorizedApp appAccountInfo dataStoragePtr (callingUid callingInfo);
     mret appAccountInfo).

(** [AppAccountControlManager::CheckAppAccess], app_account_control_manager.cpp *)
Definition CheckAppAccess (name authorizedApp : string) (callingInfo : AppAccountCallingInfo) : M World bool :=
  dataStoragePtr ← GetDataStorage (callingUid callingInfo) false;
  let appAccountInfo := account_key name (calling_bundleName callingInfo) (calling_appIndex callingInfo) in
  appAccountInfo ← or_error ERR_APPACCOUNT_SERVICE_ACCOUNT_NOT_EXIST
    (GetAccountInfoFromDataStorage appAccountInfo dataStoragePtr);
  mret (AppAccountInfo.CheckAppAccess authorizedApp appAccountInfo).

(** [AppAccountControlManager::CheckAppAccountSyncEnable], app_account_control_manager.cpp *)
Definition CheckAppAccountSyncEnable (name : string) (uid : Z) (bundleName : string) (appIndex : Z)
  : M World bool :=
  let appAccountInfo := account_key name bundleName appIndex in
  dataStoragePtr ← GetDataStorage uid false;
  appAccountInfo ← GetAccountInfoFromDataStorage appAccountInfo dataStoragePtr;
  mret (GetSyncEnable appAccountInfo).

(** [AppAccountControlManager::SetAppAccountSyncEnable], app_account_control_manager.cpp *)
Definition SetAppAccountSyncEnable (name : string) (syncEnable : bool) (uid : Z) (bundleName : string)
  (appAccountInfo : AppAccountInfo) : M World AppAccountInfo :=
  dataStoragePtr ← GetDataStorage uid false;
  appAccountInfo ← GetAccountInfoFromDataStorage appAccountInfo dataStoragePtr;
  let appAccountInfo := SetSyncEnable syncEnable appAccountInfo in
  _ ← SaveAccountInfoIntoDataStorage appAccountInfo dataStoragePtr uid;
  mret appAccountInfo.

(** *** The cache of associated data *)

(** The entries in the order of the [std::map]. *)
Definition cache_entries (c : gmap Z AssociatedDataCacheItem) : list (Z * AssociatedDataCacheItem) :=
  omap (λ uid, pair uid <$> c !! uid) (merge_sort Z.le (elements (dom c))).

(** The loop of [PopDataFromAssociatedDataCache] from the second entry on: the entry
    to pop, with its count, and the map with the counts reset. *)
Fixpoint pop_loop (toPoped : Z) (freq : Z) (rest : list (Z * AssociatedDataCacheItem))
  (c : gmap Z AssociatedDataCacheItem) : Z * gmap Z AssociatedDataCacheItem :=
  match rest with
  | [] => (toPoped, c)
  | (uid, item) :: rest =>
      let c := <[uid := mkCacheItem (item_data item) (item_name item) 0]> c in
      if item_freq item <? freq then pop_loop uid 0 rest c else pop_loop toPoped freq rest c
  end.

(** [AppAccountControlManager::PopDataFromAssociatedDataCache], app_account_control_manager.cpp *)
Definition PopDataFromAssociatedDataCache (c : gmap Z AssociatedDataCacheItem) : gmap Z AssociatedDataCacheItem :=
  match cache_entries c with
  | [] => c
  | (uid, item) :: rest =>
      let '(toPoped, c) := pop_loop uid (item_freq item) rest c in delete toPoped c
  end.

(** [AppAccountControlManager::GetAssociatedDataFromStorage], app_account_control_manager.cpp *)
Definition GetAssociatedDataFromStorage (name key : string) (uid : Z) (appIndex : Z) : M World string :=
  match GetNameForUid uid with
  | Err _ => merr ERR_APPACCOUNT_SERVICE_GET_BUNDLE_NAME
  | Ok bundleName =>
      let appAccountInfo := account_key name bundleName appIndex in
      storePtr ← GetDataStorage uid false;
      appAccountInfo ← GetAccountInfoFromDataStorage appAccountInfo storePtr;
      let data := match GetAllAssociatedData appAccountInfo with Ok data => data | Err _ => ∅ end in
      let item := mkCacheItem data name 0 in
      w ← mget;
      let c := associatedDataCache_ w in
      let c := if bool_decide (ASSOCIATED_DATA_CACHE_MAX_SIZE ≤ size c)%nat
               then PopDataFromAssociatedDataCache c else c in
      let c := match c !! uid with Some _ => c | None => <[uid := item]> c end in
      _ ← mput (set_cache c w);
      match data !! key with
      | Some value => mret value
      | None => merr ERR_APPACCOUNT_SERVICE_ASSOCIATED_DATA_KEY_NOT_EXIST
      end
  end.

(** [AppAccountControlManager::GetAssociatedData], app_account_control_manager.cpp *)
Definition GetAssociatedData (name key : string) (uid : Z) : M World string :=
  w ← mget;
  let miss :=
    match GetHapTokenInfo with
    | Err _ => merr ERR_APPACCOUNT_SERVICE_GET_APP_INDEX
    | Ok instIndex =>
        if instIndex <? 0 then merr ERR_APPACCOUNT_SERVICE_GET_APP_INDEX
        else
          _ ← mput (set_cache (delete uid (associatedDataCache_ w)) w);
          GetAssociatedDataFromStorage name key uid instIndex
    end in
  match associatedDataCache_ w !! uid with
  | None => miss
  | Some item =>
      if negb (bool_decide (item_name item = name)) then miss
      else
        let item := mkCacheItem (item_data item) (item_name item) (i32 (item_freq item + 1)) in
        _ ← mput (set_cache (<[uid := item]> (associatedDataCache_ w)) w);
        match item_data item !! key with
        | None => merr ERR_APPACCOUNT_SERVICE_ASSOCIATED_DATA_KEY_NOT_EXIST
        | Some value => mret value
        end
  end.

(** [AppAccountControlManager::SetAssociatedData], app_account_control_manager.cpp *)
Definition SetAssociatedData (name key value : string) (callingInfo : AppAccountCallingInfo) : M World unit :=
  let uid := u32 (callingUid callingInfo) in
  storePtr ← GetDataStorage (callingUid callingInfo) false;
  let appAccountInfo := account_key name (calling_bundleName callingInfo) (calling_appIndex callingInfo) in
  appAccountInfo ← GetAccountInfoFromDataStorage appAccountInfo storePtr;
  r ← on_info (AppAccountInfo.SetAssociatedData key value) appAccountInfo;
  let appAccountInfo := r.2 in
  _ ← SaveAccountInfoIntoDataStorage appAccountInfo storePtr (callingUid callingInfo);
  w ← mget;
  match associatedDataCache_ w !! uid with
  | None => mret tt
  | Some item =>
      if bool_decide (item_name item = name) then
        let item := mkCacheItem (<[key := value]> (item_data item)) (item_name item) (item_freq item) in
        mput (set_cache (<[uid := item]> (associatedDataCache_ w)) w)
      else mret tt
  end.

(** *** Credentials *)

(** [AppAccountControlManager::GetAccountCredential], app_account_control_manager.cpp *)
Definition GetAccountCredential (name credentialType : string) (callingInfo : AppAccountCallingInfo)
  : M World string :=
  let appAccountInfo := account_key name (calling_bundleName callingInfo) (calling_appIndex callingInfo) in
  dataStoragePtr ← GetDataStorage (callingUid callingInfo) false;
  appAccountInfo ← GetAccountInfoFromDataStorage appAccountInfo dataStoragePtr;
  credential ← give (AppAccountInfo.GetAccountCredential credentialType appAccountInfo);
  if HAS_ASSET_PART then
    r ← mtry (GetDataFromAsset (local_id (callingUid callingInfo)) credential);
    mret (match r with Ok value => value | Err _ => EmptyString end)
  else mret credential.

(** [AppAccountControlManager::SetAccountCredential], app_account_control_manager.cpp *)
Definition SetAccountCredential (name credentialType credential : string) (callingInfo : AppAccountCallingInfo)
  : M World unit :=
  dataStoragePtr ← GetDataStorage (callingUid callingInfo) false;
  let appAccountInfo := account_key name (calling_bundleName callingInfo) (calling_appIndex callingInfo) in
  appAccountInfo ← or_error ERR_APPACCOUNT_SERVICE_ACCOUNT_NOT_EXIST
    (GetAccountInfoFromDataStorage appAccountInfo dataStoragePtr);
  r ← on_info (AppAccountInfo.SetAccountCredential credentialType credential) appAccountInfo;
  let appAccountInfo := r.2 in
  _ ← SaveAccountInfoIntoDataStorage appAccountInfo dataStoragePtr (callingUid callingInfo);
  if HAS_ASSET_PART then
    let hapLabel := calling_bundleName callingInfo +:+
      String HYPHEN (to_string (calling_appIndex callingInfo)) in
    let credentialAlias := match AppAccountInfo.GetAccountCredential credentialType appAccountInfo with
                           | Ok a => a
                           | Err _ => EmptyString
                           end in
    a ← on_info GetAlias appAccountInfo;
    SaveDataToAsset (local_id (callingUid callingInfo)) hapLabel a.1 credentialAlias credential
  else mret tt.

(** [AppAccountControlManager::DeleteAccountCredential], app_account_control_manager.cpp *)
Definition DeleteAccountCredential (name credentialType : string) (callingInfo : AppAccountCallingInfo)
  : M World unit :=
  let appAccountInfo := account_key name (calling_bundleName callingInfo) (calling_appIndex callingInfo) in
  dataStoragePtr ← GetDataStorage (callingUid callingInfo) false;
  appAccountInfo ← or_error ERR_APPACCOUNT_SERVICE_ACCOUNT_NOT_EXIST
    (GetAccountInfoFromDataStorage appAccountInfo dataStoragePtr);
  _ ← (if HAS_ASSET_PART then
         let alias := match AppAccountInfo.GetAccountCredential credentialType appAccountInfo with
                      | Ok a => a
                      | Err _ => EmptyString
                      end in
         _ ← mtry (RemoveDataFromAsset (local_id (callingUid callingInfo)) alias);
         mret tt
       else mret tt);
  r ← on_info (AppAccountInfo.DeleteAccountCredential credentialType) appAccountInfo;
  SaveAccountInfoIntoDataStorage r.2 dataStoragePtr (callingUid callingInfo).

(** *** OAuth tokens *)

(** The key of the calling bundle in a token's list. *)
Definition caller_key (request : AuthenticatorSessionRequest) : string :=
  request_callerBundleName request +:+ GetBundleKeySuffix (request_appIndex request).

(** The key of the bundle the request names, in its resolved index. *)
Definition target_key (request : AuthenticatorSessionRequest) : result string :=
  match query_or_default (request_bundleName request) (request_appIndex request) (local_id (callerUid request)) with
  | Err e => Err e
  | Ok targetAppIndex => Ok (request_bundleName request +:+ GetBundleKeySuffix targetAppIndex)
  end.

(** [AppAccountControlManager::GetOAuthToken], app_account_control_manager.cpp *)
Definition GetOAuthToken (request : AuthenticatorSessionRequest) (apiVersion : Z) : M World string :=
  resolvedAppIndex ← give (ResolveAppIndex (request_owner request) (request_appIndex request) (callerUid request));
  let appAccountInfo := account_key (request_name request) (request_owner request) resolvedAppIndex in
  dataStoragePtr ← GetDataStorage (callerUid request) false;
  appAccountInfo ← or_error ERR_APPACCOUNT_SERVICE_ACCOUNT_NOT_EXIST
    (GetAccountInfoFromDataStorage appAccountInfo dataStoragePtr);
  isVisible ← or_error ERR_ACCOUNT_COMMON_PERMISSION_DENIED (give
    (AppAccountInfo.CheckOAuthTokenVisibility (request_authType request) (caller_key request) apiVersion
      appAccountInfo));
  if negb isVisible then merr ERR_ACCOUNT_COMMON_PERMISSION_DENIED
  else
    token ← give (AppAccountInfo.GetOAuthToken (request_authType request) apiVersion appAccountInfo);
    if HAS_ASSET_PART then
      r ← mtry (GetDataFromAsset (local_id (callerUid request)) token);
      let token := match r with Ok value => value | Err _ => EmptyString end in
      if string_empty token && (apiVersion <? API_VERSION9) then
        merr ERR_APPACCOUNT_SERVICE_OAUTH_TOKEN_NOT_EXIST
      else mret token
    else mret token.

(** [AppAccountControlManager::SetOAuthToken], app_account_control_manager.cpp *)
Definition SetOAuthToken (request : AuthenticatorSessionRequest) : M World unit :=
  resolvedAppIndex ← give
    (ResolveAppIndex (request_callerBundleName request) (request_appIndex request) (callerUid request));
  let appAccountInfo := account_key (request_name request) (request_callerBundleName request) resolvedAppIndex in
  dataStoragePtr ← GetDataStorage (callerUid request) false;
  appAccountInfo ← or_error ERR_APPACCOUNT_SERVICE_ACCOUNT_NOT_EXIST
    (GetAccountInfoFromDataStorage appAccountInfo dataStoragePtr);
  r ← on_info (AppAccountInfo.SetOAuthToken (request_authType request) (request_token request)) appAccountInfo;
  let appAccountInfo := r.2 in
  _ ← SaveAccountInfoIntoDataStorage appAccountInfo dataStoragePtr (callerUid request);
  if HAS_ASSET_PART then
    let hapLabel := request_callerBundleName request +:+ String HYPHEN (to_string (appIndex_ appAccountInfo)) in
    let authTypeAlias := match AppAccountInfo.GetOAuthToken (request_authType request) API_VERSION8 appAccountInfo with
                         | Ok a => a
                         | Err _ => EmptyString
                         end in
    a ← on_info GetAlias appAccountInfo;
    SaveDataToAsset (local_id (callerUid request)) hapLabel a.1 authTypeAlias (request_token request)
  else mret tt.

(** The end of [DeleteOAuthToken], once the token to delete is known. *)
Definition delete_token (request : AuthenticatorSessionRequest) (apiVersion : Z) (token : string)
  (appAccountInfo : AppAccountInfo) (dataStoragePtr : string) : M World unit :=
  if API_VERSION9 <=? apiVersion then
    let isOwnerSelf := bool_decide (request_owner request = request_callerBundleName request) in
    r ← on_info (DeleteAuthToken (request_authType request) token isOwnerSelf) appAccountInfo;
    SaveAccountInfoIntoDataStorage r.2 dataStoragePtr (callerUid request)
  else
    let '(ret, appAccountInfo) := AppAccountInfo.DeleteOAuthToken (request_authType request) token appAccountInfo in
    if bool_decide (ret = Err ERR_APPACCOUNT_SERVICE_OAUTH_TOKEN_NOT_EXIST) then mret tt
    else SaveAccountInfoIntoDataStorage appAccountInfo dataStoragePtr (callerUid request).

(** With the asset store, the token of the request must be the one kept there; a
    read that fails leaves the request's own token to compare with.

    [AppAccountControlManager::DeleteOAuthToken], app_account_control_manager.cpp *)
Definition DeleteOAuthToken (request : AuthenticatorSessionRequest) (apiVersion : Z) : M World unit :=
  resolvedAppIndex ← give (ResolveAppIndex (request_owner request) (request_appIndex request) (callerUid request));
  let appAccountInfo := account_key (request_name request) (request_owner request) resolvedAppIndex in
  dataStoragePtr ← GetDataStorage (callerUid request) false;
  appAccountInfo ← or_error ERR_APPACCOUNT_SERVICE_ACCOUNT_NOT_EXIST
    (GetAccountInfoFromDataStorage appAccountInfo dataStoragePtr);
  isVisible ← or_error ERR_ACCOUNT_COMMON_PERMISSION_DENIED (give
    (AppAccountInfo.CheckOAuthTokenVisibility (request_authType request) (caller_key request) apiVersion
      appAccountInfo));
  if negb isVisible then merr ERR_ACCOUNT_COMMON_PERMISSION_DENIED
  else if HAS_ASSET_PART then
    match AppAccountInfo.GetOAuthToken (request_authType request) apiVersion appAccountInfo with
    | Err ret => if API_VERSION9 <=? apiVersion then merr ret else mret tt
    | Ok alias =>
        r ← mtry (GetDataFromAsset (local_id (callerUid request)) alias);
        let token := match r with Ok value => value | Err _ => request_token request end in
        if negb (bool_decide (token = request_token request)) then mret tt
        else
          _ ← mtry (RemoveDataFromAsset (local_id (callerUid request)) alias);
          delete_token request apiVersion alias appAccountInfo dataStoragePtr
    end
  else delete_token request apiVersion (request_token request) appAccountInfo dataStoragePtr.

(** [AppAccountControlManager::SetOAuthTokenVisibility], app_account_control_manager.cpp *)
Definition SetOAuthTokenVisibility (request : AuthenticatorSessionRequest) (apiVersion : Z) : M World unit :=
  bundleKey ← give (target_key request);
  let appAccountInfo :=
    account_key (request_name request) (request_callerBundleName request) (request_appIndex request) in
  dataStoragePtr ← GetDataStorage (callerUid request) false;
  appAccountInfo ← or_error ERR_APPACCOUNT_SERVICE_ACCOUNT_NOT_EXIST
    (GetAccountInfoFromDataStorage appAccountInfo dataStoragePtr);
  r ← on_info (AppAccountInfo.SetOAuthTokenVisibility (request_authType request) bundleKey
                 (isTokenVisible request) apiVersion) appAccountInfo;
  SaveAccountInfoIntoDataStorage r.2 dataStoragePtr (callerUid request).

(** [AppAccountControlManager::CheckOAuthTokenVisibility], app_account_control_manager.cpp *)
Definition CheckOAuthTokenVisibility (request : AuthenticatorSessionRequest) (apiVersion : Z) : M World bool :=
  let appAccountInfo := account_key (request_name request) (request_owner request) (request_appIndex request) in
  dataStoragePtr ← GetDataStorage (callerUid request) false;
  appAccountInfo ← or_error ERR_APPACCOUNT_SERVICE_ACCOUNT_NOT_EXIST
    (GetAccountInfoFromDataStorage appAccountInfo dataStoragePtr);
  bundleKey ← give (target_key request);
  give (AppAccountInfo.CheckOAuthTokenVisibility (request_authType request) bundleKey apiVersion appAccountInfo).

(** The loop of [GetAllOAuthTokens]. *)
Fixpoint visible_tokens (isSelf : bool) (bundleKey : string) (localId : Z) (allTokenInfos : list OAuthTokenInfo)
  : M World (list OAuthTokenInfo) :=
  match allTokenInfos with
  | [] => mret []
  | tokenInfo :: rest =>
      if negb isSelf && negb (bool_decide (bundleKey ∈ authList tokenInfo)) then
        visible_tokens isSelf bundleKey localId rest
      else
        text ← (if HAS_ASSET_PART then
                  r ← mtry (GetDataFromAsset localId (token tokenInfo));
                  mret (match r with Ok value => value | Err _ => EmptyString end)
                else mret (token tokenInfo));
        if string_empty text && bool_decide (authList tokenInfo = ∅) then
          visible_tokens isSelf bundleKey localId rest
        else
          tokenInfos ← visible_tokens isSelf bundleKey localId rest;
          mret (set_token_list (set_token_text tokenInfo text) ∅ :: tokenInfos)
  end.

(** [AppAccountControlManager::GetAllOAuthTokens], app_account_control_manager.cpp *)
Definition GetAllOAuthTokens (request : AuthenticatorSessionRequest) : M World (list OAuthTokenInfo) :=
  resolvedAppIndex ← give (ResolveAppIndex (request_owner request) (request_appIndex request) (callerUid request));
  let appAccountInfo := account_key (request_name request) (request_owner request) resolvedAppIndex in
  dataStoragePtr ← GetDataStorage (callerUid request) false;
  appAccountInfo ← or_error ERR_APPACCOUNT_SERVICE_ACCOUNT_NOT_EXIST
    (GetAccountInfoFromDataStorage appAccountInfo dataStoragePtr);
  let isSelf := bool_decide (request_callerBundleName request = request_owner request)
                && (request_appIndex request =? resolvedAppIndex) in
  visible_tokens isSelf (caller_key request) (local_id (callerUid request))
    (AppAccountInfo.GetAllOAuthTokens appAccountInfo).

(** The bundle name of an entry of a token's list. *)
Definition strip_index (entry : string) : string :=
  match ParseAuthorizedApp entry with
  | Some (rawBundle, _) => rawBundle
  | None => entry
  end.

(** [AppAccountControlManager::GetOAuthList], app_account_control_manager.cpp *)
Definition GetOAuthList (request : AuthenticatorSessionRequest) (apiVersion : Z) : M World (gset string) :=
  let appAccountInfo :=
    account_key (request_name request) (request_callerBundleName request) (request_appIndex request) in
  dataStoragePtr ← GetDataStorage (callerUid request) false;
  appAccountInfo ← or_error ERR_APPACCOUNT_SERVICE_ACCOUNT_NOT_EXIST
    (GetAccountInfoFromDataStorage appAccountInfo dataStoragePtr);
  oauthList ← give (AppAccountInfo.GetOAuthList (request_authType request) apiVersion appAccountInfo);
  mret (set_map strip_index oauthList).

(** *** Queries *)

(** [AppAccountControlManager::GetAllAccountsFromDataStorage], app_account_control_manager.cpp *)
Definition GetAllAccountsFromDataStorage (owner dataStoragePtr : string) : M World (list AppAccountInfo) :=
  accounts ← on_store dataStoragePtr (LoadDataByLocalFuzzyQuery owner);
  mret (map_list accounts).*2.

(** On a build without sub-profiles an account is kept when its index is visible to
    the caller of the request. *)
Definition keep_visible (appIndex : Z) (appAccountInfo : AppAccountInfo) : bool :=
  if ENABLE_MULTIPLE_OS_ACCOUNT_SUBSPACE then true
  else
    let localId := i32 (u32 GetCallingUid / UID_TRANSFORM_DIVISOR) in
    IsAppIndexVisibleToCaller (owner_ appAccountInfo) localId appIndex (appIndex_ appAccountInfo) false.

(** [AppAccountControlManager::FilterAccessibleAccountsByOwner], app_account_control_manager.cpp *)
Fixpoint FilterAccessibleAccountsByOwner (accessibleAccounts : list string) (owner : string) (appIndex : Z)
  (dataStoragePtr : string) (appAccounts : list AppAccountInfo) : M World (list AppAccountInfo) :=
  match accessibleAccounts with
  | [] => mret appAccounts
  | account :: rest =>
      appAccountInfo ← or_error ERR_APPACCOUNT_SERVICE_GET_ACCOUNT_INFO_BY_ID
        (on_store dataStoragePtr (GetAccountInfoById account AppAccountInfo_default));
      if negb (bool_decide (owner_ appAccountInfo = owner)) then
        FilterAccessibleAccountsByOwner rest owner appIndex dataStoragePtr appAccounts
      else if negb (keep_visible appIndex appAccountInfo) then
        FilterAccessibleAccountsByOwner rest owner appIndex dataStoragePtr appAccounts
      else
        FilterAccessibleAccountsByOwner rest owner appIndex dataStoragePtr (appAccounts ++ [appAccountInfo])
  end.

(** [AppAccountControlManager::FilterAccessibleAccounts], app_account_control_manager.cpp *)
Fixpoint FilterAccessibleAccounts (accessibleAccounts : list string) (appIndex : Z) (dataStoragePtr : string)
  (appAccounts : list AppAccountInfo) : M World (list AppAccountInfo) :=
  match accessibleAccounts with
  | [] => mret appAccounts
  | account :: rest =>
      appAccountInfo ← or_error ERR_APPACCOUNT_SERVICE_GET_ACCOUNT_INFO_BY_ID
        (on_store dataStoragePtr (GetAccountInfoById account AppAccountInfo_default));
      if negb (keep_visible appIndex appAccountInfo) then
        FilterAccessibleAccounts rest appIndex dataStoragePtr appAccounts
      else
        FilterAccessibleAccounts rest appIndex dataStoragePtr (appAccounts ++ [appAccountInfo])
  end.

(** The prefix of the keys of an app's accounts. *)
Definition account_prefix (owner : string) (appIndex : Z) : string :=
  owner +:+ String HYPHEN (to_string appIndex).

(** [AppAccountControlManager::GetAllAccounts], app_account_control_manager.cpp *)
Definition GetAllAccounts (owner : string) (uid : Z) (bundleName : string) (callerAppIndex : Z)
  : M World (list AppAccountInfo) :=
  let osAccountId := i32 (u32 uid / UID_TRANSFORM_DIVISOR) in
  ownerAppIndex ← give (query_or_default owner callerAppIndex osAccountId);
  dataStoragePtr ← GetDataStorage uid false;
  let bundleKey := bundleName +:+ GetBundleKeySuffix callerAppIndex in
  let isOwner := bool_decide (bundleName = owner) && (callerAppIndex =? ownerAppIndex) in
  if isOwner || is_Ok (VerifyPermission GET_ALL_APP_ACCOUNTS) then
    GetAllAccountsFromDataStorage (account_prefix owner ownerAppIndex) dataStoragePtr
  else
    accessibleAccounts ← on_store dataStoragePtr (GetAccessibleAccountsFromDataStorage bundleKey);
    FilterAccessibleAccountsByOwner accessibleAccounts owner callerAppIndex dataStoragePtr [].

(** [AppAccountControlManager::GetAllAccessibleAccountsByPermission], app_account_control_manager.cpp *)
Definition GetAllAccessibleAccountsByPermission (osAccountId appIndex : Z) (dataStoragePtr : string)
  : M World (list AppAccountInfo) :=
  infos ← on_store dataStoragePtr LoadAllData;
  let foregroundIndex := default (-1) (GetForegroundIndex osAccountId) in
  let visible (it : string * AppAccountInfo) :=
    negb (bool_decide (it.1 = AUTHORIZED_ACCOUNTS)) &&
    (if ENABLE_MULTIPLE_OS_ACCOUNT_SUBSPACE
     then IsAppIndexVisibleWithFg appIndex (appIndex_ it.2) foregroundIndex
     else IsAppIndexVisibleToCaller (owner_ it.2) osAccountId appIndex (appIndex_ it.2) true) in
  mret (List.filter visible (map_list infos)).*2.

(** [AppAccountControlManager::GetAllAccessibleAccountsFromDataStorage], app_account_control_manager.cpp *)
Definition GetAllAccessibleAccountsFromDataStorage (bundleName dataStoragePtr : string) (appIndex : Z)
  : M World (list AppAccountInfo) :=
  let bundleKey := EncodeAuthorizedApp bundleName appIndex in
  accessibleAccounts ← on_store dataStoragePtr (GetAccessibleAccountsFromDataStorage bundleKey);
  appAccounts ← FilterAccessibleAccounts accessibleAccounts appIndex dataStoragePtr [];
  currentAppAccounts ← GetAllAccountsFromDataStorage (account_prefix bundleName appIndex) dataStoragePtr;
  mret (appAccounts ++ currentAppAccounts).

(** [AppAccountControlManager::GetAllAccessibleAccounts], app_account_control_manager.cpp *)
Definition GetAllAccessibleAccounts (uid : Z) (bundleName : string) (appIndex : Z)
  : M World (list AppAccountInfo) :=
  let osAccountId := i32 (u32 uid / UID_TRANSFORM_DIVISOR) in
  dataStoragePtr ← GetDataStorage uid false;
  if is_Ok (VerifyPermission GET_ALL_APP_ACCOUNTS) then
    GetAllAccessibleAccountsByPermission osAccountId appIndex dataStoragePtr
  else GetAllAccessibleAccountsFromDataStorage bundleName dataStoragePtr appIndex.

(** [SelectAccountsOptions], app_account_common.h *)
Record SelectAccountsOptions := mkSelectOptions {
  hasAccounts : bool;
  hasOwners : bool;
  hasLabels : bool;
  allowedAccounts : list (string * string);
  allowedOwners : list string;
  requiredLabels : list string;
}.

(** Whether an account passes the options. *)
Definition is_candidate (options : SelectAccountsOptions) (account : AppAccountInfo) : bool :=
  let allowed := (λ a, a.1 +:+ String "_" a.2) <$> allowedAccounts options in
  let owner := owner_ account in
  negb (hasOwners options && bool_decide (owner ∉ allowedOwners options)) &&
  negb (hasAccounts options && bool_decide (owner +:+ String "_" (name_ account) ∉ allowed)).

(** [inl]: the names and owners reported to the callback; [inr]: the candidates
    handed to an authenticator session that checks their labels.

    [AppAccountControlManager::SelectAccountsByOptions], app_account_control_manager.cpp *)
Definition SelectAccountsByOptions (options : SelectAccountsOptions) (uid : Z) (bundleName : string)
  (appIndex : Z) : M World (list (string * string) + list AppAccountInfo) :=
  if negb (hasAccounts options) && negb (hasOwners options) && negb (hasLabels options) then mret (inl [])
  else
    accessibleAccounts ← GetAllAccessibleAccounts uid bundleName appIndex;
    let candidateAccounts := List.filter (is_candidate options) accessibleAccounts in
    match requiredLabels options with
    | [] => mret (inl ((λ a, (name_ a, owner_ a)) <$> candidateAccounts))
    | _ => mret (inr candidateAccounts)
    end.

(** *** Removal *)

(** [AppAccountControlManager::SetOsAccountRemoved], app_account_control_manager.cpp *)
Definition SetOsAccountRemoved (localId : Z) (isRemoved : bool) : M World unit :=
  mmodify (λ w, set_removed (if isRemoved then {[ localId ]} ∪ removedOsAccounts_ w
                             else removedOsAccounts_ w ∖ {[ localId ]}) w).

(** [AppAccountControlManager::IsOsAccountRemoved], app_account_control_manager.cpp *)
Definition IsOsAccountRemoved (localId : Z) (w : World) : bool :=
  bool_decide (localId ∈ removedOsAccounts_ w).

(** Errors of the single removals are not looked at. *)
Definition ignore {A} (m : M World A) : M World unit := _ ← mtry m; mret tt.

(** One turn of the loop of [RemoveAppAccountDataFromDataStorage]. *)
Definition remove_account_data (dataStoragePtr : string) (appIndex : Z) (dataStorageSyncPtr : string)
  (account : AppAccountInfo) : M World unit :=
  let authorizedApps := GetAuthorizedApps account in
  let appAccountInfo := SetAppIndex appIndex account in
  let sync := DISTRIBUTED_FEATURE_ENABLED && NeedSyncDataStorage appAccountInfo in
  _ ← mfor (set_list authorizedApps) (λ authorizedApp,
        _ ← ignore (RemoveAuthorizedAccountFromDataStorage authorizedApp appAccountInfo dataStoragePtr);
        if sync then
          ignore (RemoveAuthorizedAccountFromDataStorage authorizedApp appAccountInfo dataStorageSyncPtr)
        else mret tt);
  _ ← ignore (on_store dataStoragePtr (DataStorage.DeleteAccountInfoFromDataStorage appAccountInfo));
  if sync then
    ignore (on_store dataStorageSyncPtr (DataStorage.DeleteAccountInfoFromDataStorage appAccountInfo))
  else mret tt.

(** [AppAccountControlManager::RemoveAppAccountDataFromDataStorage], app_account_control_manager.cpp *)
Definition RemoveAppAccountDataFromDataStorage (dataStoragePtr key : string) (appIndex : Z)
  (dataStorageSyncPtr : string) : M World unit :=
  with_transaction (store_at dataStoragePtr)
    (accounts ← on_store dataStoragePtr (LoadDataByLocalFuzzyQuery key);
     mfor (map_list accounts).*2 (remove_account_data dataStoragePtr appIndex dataStorageSyncPtr)).

(** [AppAccountControlManager::RemoveAppAccountData], app_account_control_manager.cpp *)
Definition RemoveAppAccountData (uid : Z) (bundleName : string) (appIndex : Z) : M World unit :=
  dataStoragePtr ← GetDataStorage uid false;
  let key := account_prefix bundleName appIndex in
  _ ← (if DISTRIBUTED_FEATURE_ENABLED then
         dataStorageSyncPtr ← GetDataStorage uid true;
         RemoveAppAccountDataFromDataStorage dataStoragePtr key appIndex dataStorageSyncPtr
       else RemoveAppAccountDataFromDataStorage dataStoragePtr key appIndex EmptyString);
  if HAS_ASSET_PART then
    ignore (RemoveDataFromAssetByLabel (i32 (u32 uid / UID_TRANSFORM_DIVISOR))
              SEC_ASSET_TAG_DATA_LABEL_NORMAL_1 key)
  else mret tt.

(** [AppAccountControlManager::OnPackageRemoved], app_account_control_manager.cpp *)
Definition OnPackageRemoved (uid : Z) (bundleName : string) (appIndex : Z) : M World unit :=
  _ ← RemoveAssociatedDataCacheByUid uid;
  let localId := i32 (u32 uid / UID_TRANSFORM_DIVISOR) in
  w ← mget;
  if IsOsAccountRemoved localId w then mret tt
  else
    errCode ← mtry (RemoveAppAccountData uid bundleName appIndex);
    _ ← CloseDataStorage;
    give errCode.

(** *** Migration *)

Definition contains (pattern text : string) : bool :=
  match String.index 0 pattern text with Some _ => true | None => false end.

(** Whether a store is taken for one of the user's, not yet migrated. *)
Definition old_store (userId storeId : string) : bool :=
  negb (contains EL2_DATA_STORE_PREFIX storeId || negb (contains userId storeId)).

(** Moves one store into the user's, between two storage objects made for it, and
    deletes it when that went well. *)
Definition move_store (userId storeId : string) : M World unit :=
  w ← mget;
  let newName := EL2_DATA_STORE_PREFIX +:+ userId in
  let '(result, (newPtr, oldPtr)) :=
    DataStorage.MoveData (mkStorage false 0 (databases w newName), mkStorage false 0 (databases w storeId)) in
  let oldPtr := match result with
                | Ok _ => (DeleteKvStore oldPtr).2
                | Err _ => oldPtr
                end in
  mput (set_database storeId (base oldPtr) (set_database newName (base newPtr) w)).

(** [AppAccountControlManager::MoveData], app_account_control_manager.cpp *)
Definition MoveData : M World unit :=
  if SQLITE_DLCLOSE_ENABLE then mret tt
  else
    let '(status, storeIdList) := GetAllKvStoreId in
    if negb (bool_decide (status = SUCCESS)) then mret tt
    else
      w ← mget;
      mfor (merge_sort Z.le (elements (migratedAccounts_ w))) (λ localId,
        let userId := to_string localId in
        _ ← mfor storeIdList (λ storeId,
              if negb (old_store userId storeId) then mret tt else move_store userId storeId);
        mmodify (λ w, set_migrated (migratedAccounts_ w ∖ {[ localId ]}) w)).

(** [AppAccountControlManager::AddMigratedAccount], app_account_control_manager.cpp *)
Definition AddMigratedAccount (localId : Z) : M World unit :=
  _ ← mmodify (λ w, set_migrated ({[ localId ]} ∪ migratedAccounts_ w) w);
  MoveData.
End Operations.
