(* ===== verification/AppAccountRequests.v ===== *)
(** What the requests to the app account control manager guarantee: a logic of
    successful calls over [AccountSpec], the refinement of the requests that
    change accounts and access, and the properties that follow from it. *)
From Stdlib Require Import ZArith Lia Ascii String.
From stdpp Require Import base list gmap sets strings pretty sorting.
From S2P Require Import Prelude ErrorCodes Json AppAccountInfo AppAccountJson DataStorage AppIndex.
From S2P Require Import AppAccountStore AccountModel AppAccountControl.

(** ** A logic of successful calls *)

Section Logic.
Context {cfg : Config} {cjson : CJsonLib} {laws : CJsonLaws} {alloc : CJsonAlloc} {target : Target} {ssl : OpenSSL}.
Context {adapter : DbAdapter} {dblaws : DbLaws} {asset : AssetApi}.

(** [does p m S post]: when the store under [p] means [S] and [m] succeeds, the
    store then means an [S'] with [post], in the same transaction. *)
Definition does {A} (p : string) (m : M World A) (S : AccountSpec) (post : A → AccountSpec → Prop) : Prop :=
  ∀ w a w', store_repr (contents (base (view_at p w))) S → m w = (Ok a, w') →
    ∃ S', store_repr (contents (base (view_at p w'))) S' ∧ post a S' ∧
      txn_state (saved (base (view_at p w))) (transactionMutex_ (view_at p w)) (view_at p w').

Lemma does_ret {A} p (a : A) S (post : A → AccountSpec → Prop) : post a S → does p (mret a) S post.
Proof. intros Hp w b w' HS [= <- <-]. by exists S. Qed.

Lemma does_bind {A B} p (m : M World A) (k : A → M World B) S post1 post :
  does p m S post1 → (∀ a S1, post1 a S1 → does p (k a) S1 post) → does p (m ≫= k) S post.
Proof.
  intros Hm Hk w b w' HS (a & w1 & E1 & E2)%bind_Ok_inv.
  destruct (Hm w a w1 HS E1) as (S1 & HS1 & Hp1 & [Hs1 Hn1]).
  destruct (Hk a S1 Hp1 w1 b w' HS1 E2) as (S' & HS' & Hp & Ht). exists S'. split_and!; [done|done|].
  by rewrite <-Hs1, <-Hn1.
Qed.

Lemma does_keeps {A} p (m : M World A) S : keeps_store p m → does p m S (λ _ S', S' = S).
Proof.
  intros Hm w a w' HS E. destruct (keeps_run _ _ _ _ _ Hm E) as (Hc & Ht). exists S. by rewrite Hc.
Qed.

Lemma does_conseq {A} p (m : M World A) S (post post' : A → AccountSpec → Prop) :
  does p m S post → (∀ a S', post a S' → post' a S') → does p m S post'.
Proof. intros Hm Himp w a w' HS E. destruct (Hm w a w' HS E) as (S' & ? & ? & ?). exists S'. auto. Qed.

Lemma does_on_store {A} p (m : M Storage A) S (post : A → AccountSpec → Prop) :
  (∀ s a s', store_repr (contents (base s)) S → m s = (Ok a, s') →
     ∃ S', store_repr (contents (base s')) S' ∧ post a S' ∧
       txn_state (saved (base s)) (transactionMutex_ s) s') →
  does p (on_store p m) S post.
Proof.
  intros Hm w a w' HS E. unfold on_store, zoom in E. cbn [view update store_at] in E.
  destruct (m (view_at p w)) as [r s'] eqn:Em. injection E as -> <-. rewrite view_update_at. by eapply Hm.
Qed.

(** The store for distributed data is another one. *)
Lemma sync_key_other uid : store_key uid true ≠ store_key uid false.
Proof.
  unfold store_key. cbv zeta. set (s := to_string _). intros E. assert (Hl : String.length (s +:+ DATA_STORAGE_SUFFIX) = String.length s) by by rewrite E.
  assert (Happ : ∀ t u, String.length (t +:+ u) = (String.length t + String.length u)%nat).
  { intros t u. induction t as [|c t IH]; [done|]. exact (f_equal S IH). }
  rewrite Happ in Hl. cbn in Hl. lia.
Qed.

Lemma on_store_other_keeps {A} id id' (m : M Storage A) : id ≠ id' → keeps_store id (on_store id' m).
Proof. intros Hne c x n. by apply on_store_other. Qed.

Lemma keeps_bind {A B} id (m : M World A) (k : A → M World B) :
  keeps_store id m → (∀ a, keeps_store id (k a)) → keeps_store id (m ≫= k).
Proof. intros Hm Hk c x n. apply preserves_bind; [apply Hm|intros a; apply Hk]. Qed.

Lemma keeps_try {A} id (m : M World A) : keeps_store id m → keeps_store id (mtry m).
Proof. intros Hm c x n. apply preserves_try, Hm. Qed.

Lemma keeps_ret {A} id (a : A) : keeps_store id (mret a : M World A).
Proof. intros c x n. apply preserves_ret. Qed.

Lemma with_sync_keeps i uid m :
  keeps_store (store_key uid false) (m (store_key uid true)) →
  keeps_store (store_key uid false) (with_sync i uid m).
Proof.
  intros Hm c x n w Hw. unfold with_sync. destruct (_ && _); [|done]. rewrite mbind_unfold.
  destruct (GetDataStorage_run uid true w) as (w1 & -> & Hv & _). apply (Hm c x n w1).
  unfold of_store. by rewrite Hv.
Qed.

Lemma does_get {A} p uid sync (k : string → M World A) S post :
  does p (k (store_key uid sync)) S post → does p (GetDataStorage uid sync ≫= k) S post.
Proof.
  intros Hk w a w' HS E. rewrite mbind_unfold in E. destruct (GetDataStorage_run uid sync w) as (w1 & E1 & Hv & _).
  rewrite E1 in E. rewrite <-(Hv p) in HS |- *. by eapply Hk.
Qed.

(** [succeeds p m S]: [m] succeeds when the store under [p] means [S]. *)
Definition succeeds {A} (p : string) (m : M World A) (S : AccountSpec) : Prop :=
  ∀ w, store_repr (contents (base (view_at p w))) S → is_Ok (m w).1 = true.

Lemma succeeds_bind {A B} p (m : M World A) (k : A → M World B) S post1 :
  does p m S post1 → succeeds p m S → (∀ a S1, post1 a S1 → succeeds p (k a) S1) → succeeds p (m ≫= k) S.
Proof.
  intros Hm Hok Hk w HS. rewrite mbind_unfold. specialize (Hok w HS). destruct (m w) as [[a|e] w1] eqn:E; [|done].
  destruct (Hm w a w1 HS E) as (S1 & HS1 & Hp1 & _). by eapply Hk.
Qed.

Lemma succeeds_on_store {A} p (m : M Storage A) S :
  (∀ s, store_repr (contents (base s)) S → is_Ok (m s).1 = true) → succeeds p (on_store p m) S.
Proof.
  intros Hm w HS. unfold on_store, zoom. cbn [view update store_at]. specialize (Hm _ HS).
  by destruct (m (view_at p w)).
Qed.

Lemma succeeds_ret {A} p (a : A) S : succeeds p (mret a) S.
Proof. by intros w _. Qed.

Lemma succeeds_transaction {A} p (body : M World A) S w :
  DbReliable → store_repr (contents (base (view_at p w))) S → saved (base (view_at p w)) = None →
  (∀ x n, preserves (of_store p (txn_state x n)) body) → succeeds p body S →
  is_Ok (with_transaction (store_at p) body w).1 = true.
Proof.
  intros rel HS Hno Hbody Hok. apply transaction_succeeds; [done|exact Hbody|].
  intros s Hs. apply Hok. cbn [view update store_at] in *. by rewrite view_update_at, Hs.
Qed.
End Logic.

(** ** What the calls behind the requests do *)

Section Calls.
Context {cfg : Config} {cjson : CJsonLib} {laws : CJsonLaws} {alloc : CJsonAlloc} {target : Target} {ssl : OpenSSL}.
Context {adapter : DbAdapter} {dblaws : DbLaws} {asset : AssetApi}.

Lemma does_load p i S :
  fresh_info i →
  does p (GetAccountInfoFromDataStorage i p) S (λ j S', S' = S ∧ accounts S !! GetPrimeKey i = Some j).
Proof.
  intros Hi. apply does_on_store. intros s a s' HS E. destruct (load_spec S i s _ _ HS Hi E) as [(Hc & Ht) Hk].
  exists S. by rewrite Hc.
Qed.

Lemma does_save uid a S :
  storable a →
  let p := store_key uid false in
  does p (SaveAccountInfoIntoDataStorage a p uid) S (λ _ S', S' = with_account (GetPrimeKey a) (normalize a) S).
Proof.
  intros Ha. cbv zeta. unfold SaveAccountInfoIntoDataStorage. eapply does_bind.
  - apply (does_on_store _ _ _ (λ _ S', S' = with_account (GetPrimeKey a) (normalize a) S)).
    intros s [] s' HS E. destruct (save_spec true S a s _ _ HS Ha E) as [Ht HS']. by eexists.
  - intros [] S1 ->. eapply does_keeps, with_sync_keeps.
    pose proof (sync_key_other uid) as Hne. apply keeps_bind; [apply keeps_try, on_store_other_keeps; done|].
    intros [|]; by apply on_store_other_keeps.
Qed.

Lemma does_change p app f S :
  DbReliable → index_short (index S) → string_empty app = false → nul_free app →
  (∀ l, Forall nul_free l → Forall nul_free (f l)) →
  does p (on_store p (change_authorized_accounts app f)) S (λ _ S', S' = with_index app f S).
Proof.
  intros rel Hshort Hk Hn Hf. apply does_on_store. intros s [] s' HS E.
  destruct (change_index_spec app f s (Ok tt) s' (index S) (proj1 HS) Hshort Hk Hn) as (Ht & (Hd & I0 & HI0 & Hin) & _).
  - apply Hf. eapply index_nul_free, HS.
  - apply Hf. constructor.
  - exact E.
  - destruct HI0 as [_ HI0]. rewrite (HI0 rel) in Hin. exists (with_index app f S).
    split_and!; [|done|done]. by eapply repr_index.
Qed.

Lemma does_authorize uid app i S :
  DbReliable → index_short (index S) → string_empty app = false → nul_free app → nul_free (GetPrimeKey i) →
  let p := store_key uid false in
  does p (SaveAuthorizedAccount app i p uid) S (λ _ S', S' = with_index app (add_account_id (GetPrimeKey i)) S).
Proof.
  intros rel Hshort Hk Hn Hi. cbv zeta. unfold SaveAuthorizedAccount. eapply does_bind.
  - apply does_change; try done. intros l Hl. by apply add_account_id_Forall.
  - intros [] S1 ->. eapply does_keeps, with_sync_keeps. apply on_store_other_keeps.
    intros E. by apply (sync_key_other uid).
Qed.

Lemma does_revoke uid app i S :
  DbReliable → index_short (index S) → string_empty app = false → nul_free app →
  let p := store_key uid false in
  does p (RemoveAuthorizedAccount app i p uid) S (λ _ S', S' = with_index app (erase_account_id (GetPrimeKey i)) S).
Proof.
  intros rel Hshort Hk Hn. cbv zeta. unfold RemoveAuthorizedAccount. eapply does_bind.
  - apply does_change; try done. intros l Hl. by apply erase_account_id_Forall.
  - intros [] S1 ->. eapply does_keeps, with_sync_keeps. apply on_store_other_keeps.
    intros E. by apply (sync_key_other uid).
Qed.

Lemma does_remove uid i S :
  DbReliable → fresh_info i →
  let p := store_key uid false in
  does p (DeleteAccountInfoFromDataStorage i p uid) S (λ j S',
    accounts S !! GetPrimeKey i = Some j ∧ S' = mkSpec (delete (GetPrimeKey i) (accounts S)) (index S)).
Proof.
  intros rel Hi. cbv zeta. unfold DeleteAccountInfoFromDataStorage.
  set (p := store_key uid false). eapply does_bind; [by apply does_load|].
  intros j S1 [-> Hj]. eapply (does_bind _ _ _ _
    (λ _ S', S' = mkSpec (delete (GetPrimeKey i) (accounts S)) (index S))).
  - apply does_on_store. intros s [] s' HS E. unfold DataStorage.DeleteAccountInfoFromDataStorage in E.
    destruct (repr_lookup _ _ _ _ HS Hj) as (Hne & Hkj & _ & _ & b & _ & _ & Htext & _). rewrite Hkj in E.
    destruct (remove_reliable _ _ _ Htext) as (s2 & E2 & Ht & Hc). rewrite E in E2. injection E2 as <-.
    eexists. split; [|by split]. rewrite Hc. by apply repr_delete.
  - intros [] S1 ->. eapply does_bind.
    + eapply does_keeps, with_sync_keeps. apply keeps_bind; [|intros; apply keeps_ret].
      apply keeps_try, on_store_other_keeps. intros E. by apply (sync_key_other uid).
    + intros [] S1 ->. by apply does_ret.
Qed.

(** Without the sync store they succeed on a reliable database. *)
Lemma local_with_sync i uid (m : string → M World unit) :
  DISTRIBUTED_FEATURE_ENABLED = false → with_sync i uid m = mret tt.
Proof. unfold with_sync. by intros ->. Qed.

Lemma succeeds_load p i S :
  DbReliable → fresh_info i → is_Some (accounts S !! GetPrimeKey i) →
  succeeds p (GetAccountInfoFromDataStorage i p) S.
Proof.
  intros rel Hi [j Hj]. apply succeeds_on_store. intros s HS.
  destruct (DataStorage.GetAccountInfoFromDataStorage i s) as [r s'] eqn:E.
  destruct (load_spec S i s _ _ HS Hi E) as [_ Hk]. destruct r; [done|]. specialize (Hk rel). congruence.
Qed.

Lemma succeeds_save uid a p S :
  DISTRIBUTED_FEATURE_ENABLED = false → DbReliable → storable a → is_Some (accounts S !! GetPrimeKey a) →
  succeeds p (SaveAccountInfoIntoDataStorage a p uid) S.
Proof.
  intros Hd rel Ha [j Hj] w HS. unfold SaveAccountInfoIntoDataStorage. rewrite mbind_unfold.
  destruct (repr_lookup _ _ _ _ HS Hj) as (_ & _ & _ & _ & b & _ & _ & Htext & _).
  destruct (store_account_reliable a (view_at p w) Ha) as [s' E]. rewrite bool_decide_true in E by (by eexists).
  unfold on_store at 1, zoom. cbn [view update store_at]. rewrite E. by rewrite local_with_sync.
Qed.

Lemma succeeds_change p app f S :
  DbReliable → index_short (index S) → string_empty app = false → nul_free app →
  (∀ l, Forall nul_free l → Forall nul_free (f l)) →
  succeeds p (on_store p (change_authorized_accounts app f)) S.
Proof.
  intros rel Hshort Hk Hn Hf. apply succeeds_on_store. intros s HS.
  destruct (change_authorized_accounts app f s) as [r s'] eqn:E.
  destruct (change_index_spec app f s r s' (index S) (proj1 HS) Hshort Hk Hn) as (_ & _ & Hr); [..|exact E|].
  - apply Hf. eapply index_nul_free, HS.
  - apply Hf. constructor.
  - by rewrite (Hr rel).
Qed.

Lemma succeeds_authorize uid app i p S :
  DISTRIBUTED_FEATURE_ENABLED = false → DbReliable → index_short (index S) → string_empty app = false →
  nul_free app → nul_free (GetPrimeKey i) → succeeds p (SaveAuthorizedAccount app i p uid) S.
Proof.
  intros Hd rel Hshort Hk Hn Hi w HS. unfold SaveAuthorizedAccount. rewrite local_with_sync, mbind_unfold by done.
  pose proof (succeeds_change p app (add_account_id (GetPrimeKey i)) S rel Hshort Hk Hn
    (λ l Hl, add_account_id_Forall _ _ _ Hi Hl) w HS) as H.
  unfold SaveAuthorizedAccountIntoDataStorage. by destruct (on_store _ _ w) as [[]].
Qed.

Lemma succeeds_revoke uid app i p S :
  DISTRIBUTED_FEATURE_ENABLED = false → DbReliable → index_short (index S) → string_empty app = false →
  nul_free app → succeeds p (RemoveAuthorizedAccount app i p uid) S.
Proof.
  intros Hd rel Hshort Hk Hn w HS. unfold RemoveAuthorizedAccount. rewrite local_with_sync, mbind_unfold by done.
  pose proof (succeeds_change p app (erase_account_id (GetPrimeKey i)) S rel Hshort Hk Hn
    (λ l Hl, erase_account_id_Forall _ _ _ Hl) w HS) as H.
  unfold RemoveAuthorizedAccountFromDataStorage. by destruct (on_store _ _ w) as [[]].
Qed.

Lemma succeeds_remove uid i p S :
  DISTRIBUTED_FEATURE_ENABLED = false → DbReliable → fresh_info i → is_Some (accounts S !! GetPrimeKey i) →
  succeeds p (DeleteAccountInfoFromDataStorage i p uid) S.
Proof.
  intros Hd rel Hi Hk. unfold DeleteAccountInfoFromDataStorage.
  eapply succeeds_bind; [by apply does_load|by apply succeeds_load|]. intros j S1 [-> Hj] w HS.
  rewrite local_with_sync, mbind_unfold by done. unfold on_store, zoom. cbn [view update store_at].
  destruct (repr_lookup _ _ _ _ HS Hj) as (_ & Hkj & _ & _ & b & _ & _ & Htext & _).
  unfold DataStorage.DeleteAccountInfoFromDataStorage. rewrite Hkj.
  by destruct (remove_reliable _ _ _ Htext) as (s2 & -> & _).
Qed.
End Calls.

(** ** Requests *)

(** The requests that change accounts and access, by an app of one index and OS
    account. *)
Inductive request :=
  | ReqAdd (name extraInfo : string)
  | ReqDelete (name : string)
  | ReqEnable (name authorizedApp : string) (apiVersion : Z)
  | ReqDisable (name authorizedApp : string) (apiVersion : Z).

Section Requests.
Context {cfg : Config} {cjson : CJsonLib} {laws : CJsonLaws} {alloc : CJsonAlloc} {target : Target} {ssl : OpenSSL}.
Context {adapter : DbAdapter} {dblaws : DbLaws} {asset : AssetApi}.

(** The calling app. *)
Variables (uid : Z) (bundleName : string) (appIndex : Z).

Definition exec_request (q : request) : M World AppAccountInfo :=
  let i name := account_key name bundleName appIndex in
  let ci := mkCallingInfo uid bundleName appIndex in
  match q with
  | ReqAdd name extraInfo => AddAccount name extraInfo uid bundleName (i name)
  | ReqDelete name => DeleteAccount name uid bundleName (i name)
  | ReqEnable name app v => EnableAppAccess name app ci (i name) v
  | ReqDisable name app v => DisableAppAccess name app ci (i name) v
  end.

Definition spec_request (q : request) : AccountSpec → option AccountSpec :=
  let k name := GetPrimeKey (account_key name bundleName appIndex) in
  match q with
  | ReqAdd name extraInfo =>
      spec_add (k name) (account_prefix bundleName appIndex)
        (SetExtraInfo extraInfo (account_key name bundleName appIndex))
  | ReqDelete name => spec_delete (k name)
  | ReqEnable name app v => spec_enable (k name) app v
  | ReqDisable name app v => spec_disable (k name) app v
  end.

(** Texts without null characters, as the text of a request is. *)
Definition request_plain (q : request) : Prop :=
  nul_free bundleName ∧ is_u32 appIndex ∧
  match q with
  | ReqAdd name extraInfo => nul_free name ∧ nul_free extraInfo
  | ReqDelete name => nul_free name
  | ReqEnable name app _ | ReqDisable name app _ => nul_free name ∧ nul_free app ∧ string_empty app = false
  end.

Lemma account_key_fresh name : fresh_info (account_key name bundleName appIndex).
Proof. done. Qed.

Lemma nul_free_app s t : nul_free s → nul_free t → nul_free (s +:+ t).
Proof.
  unfold nul_free. intros Hs Ht. induction s as [|c s IH]; [done|]. rewrite string_app_cons. cbn [c_str] in Hs |- *.
  destruct (Ascii.eqb c Ascii.zero); [done|]. injection Hs as Hs. by rewrite IH.
Qed.

Lemma account_key_nul_free name :
  nul_free name → nul_free bundleName → nul_free (GetPrimeKey (account_key name bundleName appIndex)).
Proof.
  intros Hn Hb. unfold GetPrimeKey, account_key. cbn [owner_ appIndex_ name_ SetAppIndex AppAccountInfo_new].
  assert (Hc : ∀ t, nul_free t → nul_free (String HYPHEN t)) by (intros t Ht; by apply (nul_free_app "#")).
  apply nul_free_app; [done|]. apply Hc, nul_free_app; [apply to_string_nul_free|].
  apply Hc, nul_free_app; [done|]. by apply Hc.
Qed.

Lemma new_account_storable name extraInfo :
  nul_free name → nul_free bundleName → nul_free extraInfo → is_u32 appIndex →
  storable (SetExtraInfo extraInfo (account_key name bundleName appIndex)).
Proof.
  intros. split; [split; by vm_compute|done| | |]; cbn.
  - by repeat constructor.
  - by intros x Hx%elem_of_empty.
  - apply map_Forall_empty.
Qed.

Lemma set_apps_storable X a :
  storable a → Z.of_nat (size X) ≤ MAX_APP_AUTH_LIST_SIZE → set_Forall nul_free X → storable (set_apps X a).
Proof.
  intros Ha Hsize HX. pose proof (storable_bounded a Ha) as Hb. split; [split| | | |]; cbn; try done; try apply Ha; apply Hb.
Qed.

Lemma normalize_set_apps X a : normalize a = a → normalize (set_apps X a) = set_apps X a.
Proof.
  intros Ha. unfold normalize, set_tokens, set_apps in *. destruct a. cbn in *. congruence.
Qed.

(** A unit of work that does something. *)
Lemma run_transaction {A} p (body : M World A) S post w a w' :
  store_repr (contents (base (view_at p w))) S → saved (base (view_at p w)) = None →
  (∀ x n, preserves (of_store p (txn_state x n)) body) → does p body S post →
  with_transaction (store_at p) body w = (Ok a, w') →
  ∃ S', store_repr (contents (base (view_at p w'))) S' ∧ post a S' ∧
    txn_state None (transactionMutex_ (view_at p w)) (view_at p w').
Proof.
  intros HS Hno Hbody Hdoes E. pose proof (transaction_outcome (store_at p) body w Hno Hbody) as H.
  rewrite E in H. destruct H as (Hn & Hs & s1 & w2 & s3 & Hc1 & E2 & -> & Hc3).
  change (view (store_at p)) with (view_at p) in *. change (update (store_at p)) with (update_at p) in *.
  destruct (Hdoes (update_at p s1 w) a w2) as (S' & HS' & Hp & _); [by rewrite view_update_at, Hc1|done|].
  exists S'. rewrite view_update_at in *. rewrite Hc3. by split_and!.
Qed.

(** A successful read in front of a request that changes the store. *)
Lemma load_then {A} p i (k : AppAccountInfo → M World A) S w a w' :
  store_repr (contents (base (view_at p w))) S → saved (base (view_at p w)) = None → fresh_info i →
  (GetAccountInfoFromDataStorage i p ≫= k) w = (Ok a, w') →
  ∃ j w1, accounts S !! GetPrimeKey i = Some j ∧ k j w1 = (Ok a, w') ∧
    store_repr (contents (base (view_at p w1))) S ∧ saved (base (view_at p w1)) = None.
Proof.
  intros HS Hno Hi E. apply bind_Ok_inv in E as (j & w1 & E1 & E2).
  destruct (does_load p i S Hi w j w1 HS E1) as (S1 & HS1 & [-> Hj] & [Hs _]). exists j, w1.
  split_and!; [done|done|done|congruence].
Qed.
End Requests.

Section Request_outcomes.
Context {cfg : Config} {cjson : CJsonLib} {laws : CJsonLaws} {alloc : CJsonAlloc} {target : Target} {ssl : OpenSSL}.
Context {adapter : DbAdapter} {dblaws : DbLaws} {asset : AssetApi}.

Lemma account_prefix_separator owner i : ¬ char_free HYPHEN (account_prefix owner i).
Proof. unfold account_prefix. rewrite char_free_app, char_free_cons. tauto. Qed.

(** What enabling and disabling do to a loaded account. *)
Lemma enable_info app v i u i' :
  AppAccountInfo.EnableAppAccess app v i = (Ok u, i') →
  bool_decide (app ∈ authorizedApps_ i) && (v <? API_VERSION9) = false ∧
  (MAX_APP_AUTH_LIST_SIZE <? Z.of_nat (size ({[ app ]} ∪ authorizedApps_ i))) = false ∧
  i' = set_apps ({[ app ]} ∪ authorizedApps_ i) i.
Proof.
  unfold AppAccountInfo.EnableAppAccess. msimpl. rewrite <-bool_decide_not.
  replace (bool_decide (¬ (app ∉ authorizedApps_ i))) with (bool_decide (app ∈ authorizedApps_ i))
    by (apply bool_decide_ext; destruct (decide (app ∈ authorizedApps_ i)); tauto).
  destruct (_ && _); msimpl; [done|]. destruct (_ <? _); msimpl; [done|]. by intros [= <- <-].
Qed.

Lemma disable_info app v i u i' :
  AppAccountInfo.DisableAppAccess app v i = (Ok u, i') →
  negb (bool_decide (app ∈ authorizedApps_ i)) && (v <? API_VERSION9) = false ∧
  i' = set_apps (authorizedApps_ i ∖ {[ app ]}) i.
Proof.
  unfold AppAccountInfo.DisableAppAccess. msimpl. destruct (negb _ && _); msimpl; [done|]. by intros [= <- <-].
Qed.

Lemma enable_info_succeeds app v i :
  bool_decide (app ∈ authorizedApps_ i) && (v <? API_VERSION9) = false →
  (MAX_APP_AUTH_LIST_SIZE <? Z.of_nat (size ({[ app ]} ∪ authorizedApps_ i))) = false →
  AppAccountInfo.EnableAppAccess app v i = (Ok tt, set_apps ({[ app ]} ∪ authorizedApps_ i) i).
Proof.
  intros H1 H2. unfold AppAccountInfo.EnableAppAccess. msimpl. rewrite <-bool_decide_not.
  replace (bool_decide (¬ (app ∉ authorizedApps_ i))) with (bool_decide (app ∈ authorizedApps_ i))
    by (apply bool_decide_ext; destruct (decide (app ∈ authorizedApps_ i)); tauto).
  rewrite H1. msimpl. rewrite H2. by msimpl.
Qed.

Lemma disable_info_succeeds app v i :
  negb (bool_decide (app ∈ authorizedApps_ i)) && (v <? API_VERSION9) = false →
  AppAccountInfo.DisableAppAccess app v i = (Ok tt, set_apps (authorizedApps_ i ∖ {[ app ]}) i).
Proof. intros H1. unfold AppAccountInfo.DisableAppAccess. msimpl. rewrite H1. by msimpl. Qed.

Lemma on_info_Ok {A} (m : M AppAccountInfo A) i r (w w' : World) :
  on_info m i w = (Ok r, w') → m i = (Ok r.1, r.2) ∧ w' = w.
Proof. unfold on_info. destruct (m i) as [[a|e] i']; [|done]. by intros [= <- <-]. Qed.

Lemma or_error_Ok {A} e (m : M World A) a w w' : or_error e m w = (Ok a, w') → m w = (Ok a, w').
Proof. unfold or_error. rewrite run_try. destruct (m w) as [[]]; [|done]. by intros [= -> ->]. Qed.

(** The units of work keep to their transaction. *)
Lemma enable_body_txn p x n a app uid :
  preserves (of_store p (txn_state x n))
    (_ ← SaveAccountInfoIntoDataStorage a p uid; _ ← SaveAuthorizedAccount app a p uid; mret a).
Proof. preserve. Qed.

Lemma disable_body_txn p x n a app uid :
  preserves (of_store p (txn_state x n))
    (_ ← SaveAccountInfoIntoDataStorage a p uid; _ ← RemoveAuthorizedAccount app a p uid; mret a).
Proof. preserve. Qed.

Lemma RemoveCache_preserves id P uid name :
  preserves (of_store id P) (RemoveAssociatedDataCacheByAccount uid name).
Proof.
  unfold RemoveAssociatedDataCacheByAccount. preserve_read; by rewrite ?of_store_cache.
Qed.
#[local] Hint Resolve RemoveCache_preserves : mpres.

Lemma delete_body_txn p x n name uid i :
  preserves (of_store p (txn_state x n)) (delete_account_body name uid i p).
Proof. unfold delete_account_body, RemoveDataFromAssetByLabel. preserve. Qed.

Lemma atomic_get {A} id uid sync (k : string → M World A) :
  atomic_on id (k (store_key uid sync)) → atomic_on id (GetDataStorage uid sync ≫= k).
Proof.
  intros Hk w Hno. rewrite mbind_unfold. destruct (GetDataStorage_run uid sync w) as (w1 & -> & Hv & _).
  specialize (Hk w1). rewrite !(Hv id) in Hk. by apply Hk.
Qed.

Lemma or_error_keeps {A} id e (m : M World A) : keeps_store id m → keeps_store id (or_error e m).
Proof. intros Hm c x n. unfold or_error. apply preserves_bind; [apply preserves_try, Hm|]. intros []; preserve. Qed.

Section With_caller.
Variables (uid : Z) (bundleName : string) (appIndex : Z).
#[local] Abbreviation p := (store_key uid false).
#[local] Abbreviation info name := (account_key name bundleName appIndex).

Lemma EnableAppAccess_atomic name app ci i v :
  callingUid ci = uid → atomic_on p (EnableAppAccess name app ci i v).
Proof.
  intros <-. apply atomic_get, atomic_bind; [apply GetAccountInfo_keeps|intros j].
  apply atomic_bind; [apply on_info_keeps|intros r]. apply atomic_transaction. intros. apply enable_body_txn.
Qed.

Lemma DisableAppAccess_atomic name app ci i v :
  callingUid ci = uid → atomic_on p (DisableAppAccess name app ci i v).
Proof.
  intros <-. apply atomic_get, atomic_bind; [apply GetAccountInfo_keeps|intros j].
  apply atomic_bind; [apply or_error_keeps, on_info_keeps|intros r].
  apply atomic_transaction. intros. apply disable_body_txn.
Qed.

Lemma DeleteAccount_atomic name i : atomic_on p (DeleteAccount name uid bundleName i).
Proof. apply atomic_get, atomic_transaction. intros. apply delete_body_txn. Qed.

Lemma EnableAppAccess_refines name app v w S a w' :
  DbReliable → request_plain bundleName appIndex (ReqEnable name app v) → index_short (index S) →
  store_repr (contents (base (view_at p w))) S → saved (base (view_at p w)) = None →
  EnableAppAccess name app (mkCallingInfo uid bundleName appIndex) (info name) v w = (Ok a, w') →
  ∃ S', spec_enable (GetPrimeKey (info name)) app v S = Some S' ∧ store_repr (contents (base (view_at p w'))) S' ∧
    accounts S' !! GetPrimeKey (info name) = Some a.
Proof.
  intros rel (Hb & Hx & Hn & Hnapp & Happ) Hshort HS Hno E. unfold EnableAppAccess in E. cbn [callingUid] in E.
  rewrite mbind_unfold in E. destruct (GetDataStorage_run uid false w) as (w1 & E1 & Hv & _). rewrite E1 in E.
  rewrite <-(Hv p) in HS, Hno.
  destruct (load_then _ _ _ S w1 a w' HS Hno (account_key_fresh _ _ _) E) as (j & w2 & Hj & E2 & HS2 & Hno2).
  apply bind_Ok_inv in E2 as ([u j'] & w3 & E3 & E4). apply on_info_Ok in E3 as [E3 ->].
  cbn [fst snd] in *. apply enable_info in E3 as (Hno1 & Hmax & ->).
  destruct (repr_lookup _ _ _ _ HS2 Hj) as (_ & Hkj & Hstor & Hnorm & _).
  unfold spec_enable. rewrite Hj, Hno1, Hmax.
  set (j' := set_apps _ j) in *.
  assert (Hj' : storable j').
  { apply set_apps_storable; [done|lia|]. intros x [->%elem_of_singleton|Hxj]%elem_of_union; [done|].
    by apply (storable_apps j Hstor). }
  assert (Hkj' : GetPrimeKey j' = GetPrimeKey (info name)) by exact Hkj.
  assert (Hnj' : normalize j' = j') by by apply normalize_set_apps.
  eapply (run_transaction p _ S (λ b S', b = j' ∧ S' = with_index app (add_account_id (GetPrimeKey (info name)))
    (with_account (GetPrimeKey (info name)) j' S))) in E4; [|done|done|intros; apply enable_body_txn|].
  - destruct E4 as (S' & HS' & [-> ->] & _). eexists. split_and!; [done|done|]. apply lookup_insert_eq.
  - eapply does_bind; [by apply does_save|]. intros [] S1 ->. rewrite Hkj', Hnj'.
    eapply does_bind; [apply does_authorize; [done|exact Hshort|done|done|]|].
    + rewrite Hkj'. by apply account_key_nul_free.
    + intros [] S1 ->. rewrite Hkj'. by apply does_ret.
Qed.

Lemma DisableAppAccess_refines name app v w S a w' :
  DbReliable → request_plain bundleName appIndex (ReqDisable name app v) → index_short (index S) →
  store_repr (contents (base (view_at p w))) S → saved (base (view_at p w)) = None →
  DisableAppAccess name app (mkCallingInfo uid bundleName appIndex) (info name) v w = (Ok a, w') →
  ∃ S', spec_disable (GetPrimeKey (info name)) app v S = Some S' ∧ store_repr (contents (base (view_at p w'))) S' ∧
    accounts S' !! GetPrimeKey (info name) = Some a.
Proof.
  intros rel (Hb & Hx & Hn & Hnapp & Happ) Hshort HS Hno E. unfold DisableAppAccess in E. cbn [callingUid] in E.
  rewrite mbind_unfold in E. destruct (GetDataStorage_run uid false w) as (w1 & E1 & Hv & _). rewrite E1 in E.
  rewrite <-(Hv p) in HS, Hno.
  destruct (load_then _ _ _ S w1 a w' HS Hno (account_key_fresh _ _ _) E) as (j & w2 & Hj & E2 & HS2 & Hno2).
  apply bind_Ok_inv in E2 as ([u j'] & w3 & E3 & E4). apply or_error_Ok, on_info_Ok in E3 as [E3 ->].
  cbn [fst snd] in *. apply disable_info in E3 as (Hno1 & ->).
  destruct (repr_lookup _ _ _ _ HS2 Hj) as (_ & Hkj & Hstor & Hnorm & _).
  unfold spec_disable. rewrite Hj, Hno1.
  set (j' := set_apps _ j) in *.
  assert (Hj' : storable j').
  { apply set_apps_storable; [done| |].
    - etransitivity; [|apply (bounded_apps j (storable_bounded j Hstor))]. apply inj_le, size_difference_le.
    - intros x [Hxj _]%elem_of_difference. by apply (storable_apps j Hstor). }
  assert (Hkj' : GetPrimeKey j' = GetPrimeKey (info name)) by exact Hkj.
  assert (Hnj' : normalize j' = j') by by apply normalize_set_apps.
  eapply (run_transaction p _ S (λ b S', b = j' ∧ S' = with_index app (erase_account_id (GetPrimeKey (info name)))
    (with_account (GetPrimeKey (info name)) j' S))) in E4; [|done|done|intros; apply disable_body_txn|].
  - destruct E4 as (S' & HS' & [-> ->] & _). eexists. split_and!; [done|done|]. apply lookup_insert_eq.
  - eapply does_bind; [by apply does_save|]. intros [] S1 ->. rewrite Hkj', Hnj'.
    eapply does_bind; [by apply does_revoke|]. intros [] S1 ->. rewrite Hkj'. by apply does_ret.
Qed.

Lemma erase_short app f S :
  (∀ l, length (f l) ≤ length l)%nat → index_short (index S) → index_short (index (with_index app f S)).
Proof.
  intros Hf Hshort app'. rewrite with_index_lookup. case_decide; [|apply Hshort].
  etransitivity; [|apply (Hshort app)]. apply inj_le, Hf.
Qed.

Lemma erase_account_id_length k l : (length (erase_account_id k l) ≤ length l)%nat.
Proof. induction l as [|b l IH]; simpl; [lia|]. case_bool_decide; simpl; lia. Qed.

Lemma does_revoke_all apps i S :
  DbReliable → index_short (index S) → Forall (λ app, string_empty app = false ∧ nul_free app) apps →
  does p (mfor apps (λ app, RemoveAuthorizedAccount app i p uid)) S
    (λ _ S', S' = foldl (λ S app, with_index app (erase_account_id (GetPrimeKey i)) S) S apps).
Proof.
  intros rel Hshort Happs. revert S Hshort.
  induction Happs as [|app apps [He Hn] _ IH]; intros S Hshort; cbn [mfor foldl]; [by apply does_ret|].
  eapply does_bind; [by apply does_revoke|]. intros [] S1 ->. apply IH.
  apply erase_short; [intros; apply erase_account_id_length|done].
Qed.

(** An account with other authorized apps, and what saving it with a change of the
    index does. *)
Lemma changed_account S k j X c w :
  store_repr c S → accounts S !! k = Some j → X ⊆ {[ w ]} ∪ authorizedApps_ j → nul_free w →
  Z.of_nat (size X) ≤ MAX_APP_AUTH_LIST_SIZE →
  storable (set_apps X j) ∧ GetPrimeKey (set_apps X j) = k ∧ normalize (set_apps X j) = set_apps X j.
Proof.
  intros HS Hj HX Hw Hsize. destruct (repr_lookup _ _ _ _ HS Hj) as (_ & Hkj & Hstor & Hnorm & _). split_and!.
  - apply set_apps_storable; [done|done|]. intros x Hx%HX. apply elem_of_union in Hx as [->%elem_of_singleton|Hx];
      [done|by apply (storable_apps j Hstor)].
  - exact Hkj.
  - by apply normalize_set_apps.
Qed.

Lemma load_succeeds {A} i j (k : string → AppAccountInfo → M World A) S w :
  DbReliable → store_repr (contents (base (view_at p w))) S → saved (base (view_at p w)) = None → fresh_info i →
  accounts S !! GetPrimeKey i = Some j →
  (∀ w1, store_repr (contents (base (view_at p w1))) S → saved (base (view_at p w1)) = None → is_Ok (k p j w1).1 = true) →
  is_Ok ((GetDataStorage uid false ≫= λ p, GetAccountInfoFromDataStorage i p ≫= k p) w).1 = true.
Proof.
  intros rel HS Hno Hi Hj Hk. rewrite mbind_unfold. destruct (GetDataStorage_run uid false w) as (w1 & -> & Hv & _).
  rewrite <-(Hv p) in HS, Hno. rewrite mbind_unfold.
  pose proof (succeeds_load p i S rel Hi ltac:(by eexists) w1 HS) as Hok.
  destruct (GetAccountInfoFromDataStorage i p w1) as [[j'|e] w2] eqn:E; [|done].
  destruct (does_load p i S Hi w1 j' w2 HS E) as (S1 & HS1 & [-> Hj'] & [Hs _]).
  assert (j' = j) as -> by congruence. apply Hk; [done|congruence].
Qed.

Lemma EnableAppAccess_succeeds name app v w S :
  DISTRIBUTED_FEATURE_ENABLED = false →
  DbReliable → request_plain bundleName appIndex (ReqEnable name app v) → index_short (index S) →
  store_repr (contents (base (view_at p w))) S → saved (base (view_at p w)) = None →
  is_Some (spec_enable (GetPrimeKey (info name)) app v S) →
  is_Ok (EnableAppAccess name app (mkCallingInfo uid bundleName appIndex) (info name) v w).1 = true.
Proof.
  intros Hd rel (Hb & Hx & Hn & Hnapp & Happ) Hshort HS Hno Hspec. unfold spec_enable in Hspec.
  destruct (accounts S !! GetPrimeKey (info name)) as [j|] eqn:Hj; [|by destruct Hspec]. cbv zeta in Hspec.
  destruct (_ && _) eqn:H1 in Hspec; [by destruct Hspec|]. destruct (_ <? _) eqn:H2 in Hspec; [by destruct Hspec|].
  unfold EnableAppAccess. cbn [callingUid]. eapply load_succeeds; try done. clear w HS Hno. intros w HS Hno.
  rewrite mbind_unfold. unfold on_info. rewrite enable_info_succeeds by done. cbn [snd].
  destruct (changed_account S _ j ({[app]} ∪ authorizedApps_ j) _ app HS Hj) as (Hs' & Hk' & Hn'); [done|done|lia|].
  apply (succeeds_transaction p _ S); [done|done|done|intros; apply enable_body_txn|].
  eapply succeeds_bind; [by apply does_save|apply succeeds_save; rewrite ?Hk'; by eauto|]. intros [] S1 ->.
  eapply succeeds_bind; [apply does_authorize; rewrite ?Hk'; try done; by apply account_key_nul_free
    |apply succeeds_authorize; rewrite ?Hk'; try done; by apply account_key_nul_free|].
  intros [] S1 _. apply succeeds_ret.
Qed.

Lemma DisableAppAccess_succeeds name app v w S :
  DISTRIBUTED_FEATURE_ENABLED = false →
  DbReliable → request_plain bundleName appIndex (ReqDisable name app v) → index_short (index S) →
  store_repr (contents (base (view_at p w))) S → saved (base (view_at p w)) = None →
  is_Some (spec_disable (GetPrimeKey (info name)) app v S) →
  is_Ok (DisableAppAccess name app (mkCallingInfo uid bundleName appIndex) (info name) v w).1 = true.
Proof.
  intros Hd rel (Hb & Hx & Hn & Hnapp & Happ) Hshort HS Hno Hspec. unfold spec_disable in Hspec.
  destruct (accounts S !! GetPrimeKey (info name)) as [j|] eqn:Hj; [|by destruct Hspec].
  destruct (_ && _) eqn:H1 in Hspec; [by destruct Hspec|].
  unfold DisableAppAccess. cbn [callingUid]. eapply load_succeeds; try done. clear w HS Hno. intros w HS Hno.
  rewrite mbind_unfold. unfold or_error. rewrite run_try. unfold on_info. rewrite disable_info_succeeds by done. msimpl. cbn [snd].
  destruct (changed_account S _ j (authorizedApps_ j ∖ {[app]}) _ app HS Hj) as (Hs' & Hk' & Hn'); [set_solver|done| |].
  { destruct (repr_lookup _ _ _ _ HS Hj) as (_ & _ & Hstor & _).
    etransitivity; [|apply (bounded_apps j (storable_bounded j Hstor))]. apply inj_le, size_difference_le. }
  apply (succeeds_transaction p _ S); [done|done|done|intros; apply disable_body_txn|].
  eapply succeeds_bind; [by apply does_save|apply succeeds_save; rewrite ?Hk'; by eauto|]. intros [] S1 ->.
  eapply succeeds_bind; [by apply does_revoke|by apply succeeds_revoke|]. intros [] S1 _. apply succeeds_ret.
Qed.

Lemma succeeds_revoke_all apps i S :
  DISTRIBUTED_FEATURE_ENABLED = false →
  DbReliable → index_short (index S) → Forall (λ app, string_empty app = false ∧ nul_free app) apps →
  succeeds p (mfor apps (λ app, RemoveAuthorizedAccount app i p uid)) S.
Proof.
  intros Hd rel Hshort Happs. revert S Hshort.
  induction Happs as [|app apps [He Hn] _ IH]; intros S Hshort; cbn [mfor]; [apply succeeds_ret|].
  eapply succeeds_bind; [by apply does_revoke|by apply succeeds_revoke|]. intros [] S1 ->. apply IH.
  apply erase_short; [intros; apply erase_account_id_length|done].
Qed.

Lemma delete_apps_named S k j c :
  named S → store_repr c S → accounts S !! k = Some j →
  Forall (λ app, string_empty app = false ∧ nul_free app) (set_list (authorizedApps_ j)).
Proof.
  intros Hnamed HS Hj. destruct (repr_lookup _ _ _ _ HS Hj) as (_ & _ & Hstor & _).
  apply Forall_forall. intros app Happ%elem_of_set_list. split; [|by apply (storable_apps j Hstor)].
  pose proof (named_lookup _ _ _ Hnamed Hj). destruct app; [done|done].
Qed.

Lemma cache_keeps name : keeps_store p (RemoveAssociatedDataCacheByAccount uid name).
Proof. intros c x n. apply RemoveCache_preserves. Qed.

Lemma assets_keep (b : bool) id label :
  keeps_store p (if b then _ ← mtry (RemoveDataFromAssetByLabel id SEC_ASSET_TAG_DATA_LABEL_NORMAL_2 label); mret tt
                 else mret tt).
Proof. intros c x n. unfold RemoveDataFromAssetByLabel. preserve. Qed.

Lemma DeleteAccount_succeeds name w S :
  DISTRIBUTED_FEATURE_ENABLED = false →
  DbReliable → named S → index_short (index S) →
  store_repr (contents (base (view_at p w))) S → saved (base (view_at p w)) = None →
  is_Some (spec_delete (GetPrimeKey (info name)) S) →
  is_Ok (DeleteAccount name uid bundleName (info name) w).1 = true.
Proof.
  intros Hd rel Hnamed Hshort HS Hno Hspec. unfold spec_delete in Hspec.
  destruct (accounts S !! GetPrimeKey (info name)) as [j|] eqn:Hj; [|by destruct Hspec].
  unfold DeleteAccount. rewrite mbind_unfold. destruct (GetDataStorage_run uid false w) as (w1 & -> & Hv & _).
  rewrite <-(Hv p) in HS, Hno.
  apply (succeeds_transaction p _ S); [done|done|done|intros; apply delete_body_txn|].
  unfold delete_account_body. eapply succeeds_bind; [by apply does_remove|apply succeeds_remove; by eauto|].
  intros j' S1 [Hj' ->].
  eapply succeeds_bind; [apply does_keeps, cache_keeps| |intros [] S1 ->].
  { intros w2 _. unfold RemoveAssociatedDataCacheByAccount. msimpl.
    destruct (associatedDataCache_ w2 !! uid) as [item|]; [|done]. by destruct (negb _). }
  eapply succeeds_bind; [apply does_keeps, assets_keep| |intros [] S1 ->].
  { intros w2 _. destruct HAS_ASSET_PART; [|done]. rewrite run_try. by destruct (RemoveDataFromAssetByLabel _ _ _ w2). }
  pose proof (delete_apps_named S _ _ _ Hnamed HS Hj') as Happs.
  eapply succeeds_bind; [by apply does_revoke_all|by apply succeeds_revoke_all|]. intros [] S1 _. apply succeeds_ret.
Qed.

Lemma DeleteAccount_refines name w S a w' :
  DbReliable → named S → index_short (index S) →
  store_repr (contents (base (view_at p w))) S → saved (base (view_at p w)) = None →
  DeleteAccount name uid bundleName (info name) w = (Ok a, w') →
  ∃ S', spec_delete (GetPrimeKey (info name)) S = Some S' ∧ store_repr (contents (base (view_at p w'))) S'.
Proof.
  intros rel Hnamed Hshort HS Hno E. unfold DeleteAccount in E.
  rewrite mbind_unfold in E. destruct (GetDataStorage_run uid false w) as (w1 & E1 & Hv & _). rewrite E1 in E.
  rewrite <-(Hv p) in HS, Hno.
  set (k := GetPrimeKey (info name)). unfold spec_delete.
  eapply (run_transaction p _ S (λ j S', accounts S !! k = Some j ∧
    S' = foldl (λ S app, with_index app (erase_account_id k) S) (mkSpec (delete k (accounts S)) (index S))
           (set_list (authorizedApps_ j)))) in E; [|done|done|intros; apply delete_body_txn|].
  - destruct E as (S' & HS' & [-> ->] & _). by eexists.
  - unfold delete_account_body. eapply does_bind; [by apply does_remove|]. intros j S1 [Hj ->].
    destruct (repr_lookup _ _ _ _ HS Hj) as (_ & Hkj & Hstor & _ & _).
    eapply does_bind; [apply does_keeps, cache_keeps|]. intros [] S1 ->.
    eapply does_bind; [apply does_keeps, assets_keep|]. intros [] S1 ->.
    eapply does_bind; [apply does_revoke_all; [done|exact Hshort|by eapply delete_apps_named]|].
    + intros [] S1 ->. apply does_ret. rewrite Hkj. by split.
Qed.

Lemma new_account_normal name extraInfo :
  normalize (SetExtraInfo extraInfo (info name)) = SetExtraInfo extraInfo (info name).
Proof. done. Qed.

(** Adding an account, whether it succeeds or not. *)
Lemma AddAccount_refines name extraInfo w S r w' :
  DbReliable → request_plain bundleName appIndex (ReqAdd name extraInfo) →
  store_repr (contents (base (view_at p w))) S →
  AddAccount name extraInfo uid bundleName (info name) w = (r, w') →
  txn_state (saved (base (view_at p w))) (transactionMutex_ (view_at p w)) (view_at p w') ∧
  match r with
  | Ok _ => ∃ S', spec_request bundleName appIndex (ReqAdd name extraInfo) S = Some S' ∧
      store_repr (contents (base (view_at p w'))) S'
  | Err _ => contents (base (view_at p w')) = contents (base (view_at p w)) ∧
      spec_request bundleName appIndex (ReqAdd name extraInfo) S = None
  end.
Proof.
  intros rel (Hb & Hx & Hn & Hextra) HS E. unfold AddAccount in E.
  rewrite mbind_unfold in E. destruct (GetDataStorage_run uid false w) as (w1 & E1 & Hv & _). rewrite E1 in E.
  rewrite <-(Hv p) in HS |- *. clear E1 Hv. rewrite run_try in E.
  unfold GetAccountInfoFromDataStorage, on_store, zoom in E. cbn [view update store_at] in E.
  destruct (DataStorage.GetAccountInfoFromDataStorage (info name) (view_at p w1)) as [r1 s1] eqn:E2.
  destruct (load_spec S (info name) _ _ _ HS (account_key_fresh _ _ _) E2) as [(Hc1 & Hs1 & Hn1) Hk].
  unfold spec_request, spec_add.
  destruct r1 as [j|e]; [msimpl in E; injection E as <- <-; by rewrite view_update_at, Hk|].
  specialize (Hk rel). set (i := SetExtraInfo extraInfo (info name)) in *. cbv zeta in E.
  unfold AddAccountInfoIntoDataStorage in E. cbv zeta in E.
  rewrite mbind_assoc, mbind_unfold in E. unfold on_store at 1, zoom in E. cbn [view update store_at] in E.
  rewrite view_update_at in E.
  destruct (LoadDataByLocalFuzzyQuery _ s1) as [r2 s2] eqn:E3. rewrite <-Hc1 in HS.
  destruct (query_reliable S _ s1 HS (account_prefix_separator bundleName appIndex)) as (s2' & E3' & _).
  apply (query_spec S) in E3 as Hquery; [|done|apply (account_prefix_separator bundleName appIndex)].
  destruct Hquery as [(Hc2 & Hs2 & Hn2) Hq]. unfold account_prefix in E3'.
  destruct r2 as [infos|e2]; [clear E3'|cbn in E3, E3'; congruence].
  change (owner_ i +:+ String HYPHEN (to_string (appIndex_ i))) with (account_prefix bundleName appIndex) in Hq.
  rewrite Hk. subst infos.
  case_bool_decide as Hmax; [msimpl in E; injection E as <- <-; rewrite view_update_at; split; [split; congruence|split; [congruence|done]]|].
  rewrite mbind_assoc, mbind_unfold in E. unfold on_store, zoom in E. cbn [view update store_at] in E.
  rewrite view_update_at in E.
  destruct (DataStorage.AddAccountInfoIntoDataStorage i s2) as [r3 s3] eqn:E4. rewrite <-Hc2 in HS.
  assert (Hi : storable i) by by apply new_account_storable.
  destruct (save_spec false S i s2 r3 s3 HS Hi E4) as [[Hs3 Hn3] Hr3].
  destruct r3 as [[]|e3].
  2: { exfalso. destruct (store_account_reliable i s2 Hi) as [s4 E5]. rewrite bool_decide_false in E5; [congruence|].
    change (GetPrimeKey i) with (GetPrimeKey (info name)).
    rewrite (repr_absent _ _ _ HS Hk (GetPrimeKey_not_index _)). by intros [? ?]. }
  unfold with_sync in E. change (NeedSyncDataStorage i) with false in E. rewrite andb_false_r in E. msimpl in E.
  injection E as <- <-. rewrite view_update_at. split; [split; congruence|]. eexists. by split.
Qed.

(** Every request does to the store's meaning what the specification says, or
    nothing. *)
Lemma request_refines q w S r w' :
  DbReliable → request_plain bundleName appIndex q → named S → index_short (index S) →
  store_repr (contents (base (view_at p w))) S → saved (base (view_at p w)) = None →
  exec_request uid bundleName appIndex q w = (r, w') →
  txn_state None (transactionMutex_ (view_at p w)) (view_at p w') ∧
  match r with
  | Ok _ => ∃ S', spec_request bundleName appIndex q S = Some S' ∧ store_repr (contents (base (view_at p w'))) S'
  | Err _ => contents (base (view_at p w')) = contents (base (view_at p w)) ∧
      (DISTRIBUTED_FEATURE_ENABLED = false → spec_request bundleName appIndex q S = None)
  end.
Proof.
  intros rel Hq Hnamed Hshort HS Hno E.
  assert (Hatomic : atomic_on p (exec_request uid bundleName appIndex q) →
    txn_state None (transactionMutex_ (view_at p w)) (view_at p w') ∧
    (∀ e, r = Err e → contents (base (view_at p w')) = contents (base (view_at p w)))).
  { intros Hat. specialize (Hat w Hno). rewrite E in Hat. destruct Hat as [Hn Hr].
    destruct r; [by split|]. destruct Hr as [Hd Hs]. specialize (Hs rel). split; [by split|]. intros e' _.
    unfold durable in Hd. by rewrite Hs in Hd. }
  destruct q as [name extraInfo|name|name app v|name app v]; cbn [exec_request] in E.
  - destruct (AddAccount_refines name extraInfo w S r w' rel Hq HS E) as [Ht Hr]. rewrite Hno in Ht. split; [done|]. destruct r; [done|].
    destruct Hr. by split.
  - destruct Hatomic as [Ht He]; [apply DeleteAccount_atomic|]. split; [done|].
    destruct r as [a|e]; [by eapply DeleteAccount_refines|]. split; [by eapply He|]. intros Hd.
    apply eq_None_not_Some. intros Hspec. pose proof (DeleteAccount_succeeds name w S Hd rel) as Hok. rewrite E in Hok. by discriminate Hok.
  - destruct Hatomic as [Ht He]; [by apply EnableAppAccess_atomic|]. split; [done|].
    destruct r as [a|e]; [destruct (EnableAppAccess_refines name app v w S a w') as (S' & HS' & H & _); eauto|]. split; [by eapply He|]. intros Hd.
    apply eq_None_not_Some. intros Hspec. pose proof (EnableAppAccess_succeeds name app v w S Hd rel) as Hok. rewrite E in Hok. by discriminate Hok.
  - destruct Hatomic as [Ht He]; [by apply DisableAppAccess_atomic|]. split; [done|].
    destruct r as [a|e]; [destruct (DisableAppAccess_refines name app v w S a w') as (S' & HS' & H & _); eauto|]. split; [by eapply He|]. intros Hd.
    apply eq_None_not_Some. intros Hspec. pose proof (DisableAppAccess_succeeds name app v w S Hd rel) as Hok. rewrite E in Hok. by discriminate Hok.
Qed.
End With_caller.
End Request_outcomes.

(** ** What requests guarantee *)

Section Guarantees.
Context {cfg : Config} {cjson : CJsonLib} {laws : CJsonLaws} {alloc : CJsonAlloc} {target : Target} {ssl : OpenSSL}.
Context {adapter : DbAdapter} {dblaws : DbLaws} {asset : AssetApi}.

(** C1. Requests implement the specification.  On a reliable database, with
    memory available, when the caller's store means [S]: a request to add or
    delete an account or to enable or disable an app's access that succeeds is
    one the specification accepts, and afterwards the store means what the
    specification says; one that fails leaves the store as it is, and, without
    the distributed feature, is one the specification refuses, so that requests
    succeed exactly when it accepts them.  Either way the store is out of its
    transaction and its mutex as it was. *)
Theorem requests_implement_specification uid bundleName appIndex q w S :
  DbReliable → request_plain bundleName appIndex q → named S → index_short (index S) →
  let p := store_key uid false in
  store_repr (contents (base (view_at p w))) S → saved (base (view_at p w)) = None →
  let '(r, w') := exec_request uid bundleName appIndex q w in
  saved (base (view_at p w')) = None ∧
  transactionMutex_ (view_at p w') = transactionMutex_ (view_at p w) ∧
  match r with
  | Ok _ => ∃ S', spec_request bundleName appIndex q S = Some S' ∧ store_repr (contents (base (view_at p w'))) S'
  | Err _ => contents (base (view_at p w')) = contents (base (view_at p w)) ∧
      (DISTRIBUTED_FEATURE_ENABLED = false → spec_request bundleName appIndex q S = None)
  end.
Proof.
  intros rel Hq Hnamed Hshort p HS Hno. destruct (exec_request uid bundleName appIndex q w) as [r w'] eqn:E.
  by destruct (request_refines _ _ _ q w S r w' rel Hq Hnamed Hshort HS Hno E) as [[Hs Hn] Hr].
Qed.

Lemma spec_request_keeps bundleName appIndex q S S' :
  request_plain bundleName appIndex q → consistent S → named S →
  spec_request bundleName appIndex q S = Some S' → consistent S' ∧ named S'.
Proof.
  intros (_ & _ & Hq) HS Hn E. destruct q as [name extraInfo|name|name app v|name app v]; cbn in E.
  - split; [eapply spec_add_consistent|eapply spec_add_named]; try exact E; done.
  - split; [by eapply spec_delete_consistent|by eapply spec_delete_named].
  - split; [by eapply spec_enable_consistent|eapply spec_enable_named; [exact Hn| |exact E]].
    intros ->. by destruct Hq as (_ & _ & Hq).
  - split; [by eapply spec_disable_consistent|by eapply spec_disable_named].
Qed.

Lemma spec_request_size bundleName appIndex q S S' :
  spec_request bundleName appIndex q S = Some S' → (size (accounts S') ≤ size (accounts S) + 1)%nat.
Proof.
  assert (Hins : ∀ k (a : AppAccountInfo) m, (size (<[k := a]> m : gmap string _) ≤ size m + 1)%nat).
  { intros k a m. rewrite map_size_insert. destruct (m !! k); simpl; lia. }
  destruct q as [name extraInfo|name|name app v|name app v]; cbn;
    unfold spec_add, spec_delete, spec_enable, spec_disable; destruct (accounts S !! _); try done.
  - case_bool_decide; [done|]. intros [= <-]. apply Hins.
  - intros [= <-]. rewrite erase_index_accounts. cbn. rewrite map_size_delete. destruct (accounts S !! _); simpl; lia.
  - destruct (_ && _); [done|]. destruct (_ <? _); [done|]. intros [= <-]. apply Hins.
  - destruct (_ && _); [done|]. intros [= <-]. apply Hins.
Qed.

(** C21. A request that fails has no effect on what is durable, whatever the
    database does.  Enabling and disabling an app's access and deleting an
    account, on a store outside a transaction: when the request fails, at any
    call and even when rolling back fails, the durable contents of the store are
    as before; when it succeeds no transaction is left open.  The transaction
    mutex is always held as often as before. *)
Theorem failed_requests_have_no_effect uid bundleName appIndex q w :
  let p := store_key uid false in
  saved (base (view_at p w)) = None → (∀ name extraInfo, q ≠ ReqAdd name extraInfo) →
  let '(r, w') := exec_request uid bundleName appIndex q w in
  transactionMutex_ (view_at p w') = transactionMutex_ (view_at p w) ∧
  match r with
  | Ok _ => saved (base (view_at p w')) = None
  | Err _ => durable (base (view_at p w')) = contents (base (view_at p w))
  end.
Proof.
  cbv zeta. intros Hno Hadd.
  assert (Hat : atomic_on (store_key uid false) (exec_request uid bundleName appIndex q)).
  { destruct q as [name e|name|name app v|name app v]; [by destruct (Hadd name e)|..]; cbn [exec_request].
    - apply DeleteAccount_atomic.
    - by apply EnableAppAccess_atomic.
    - by apply DisableAppAccess_atomic. }
  specialize (Hat w Hno). destruct (exec_request _ _ _ _ _) as [r w']. destruct Hat as [Hn Hr].
  split; [done|]. destruct r; [done|]. by destruct Hr.
Qed.
End Guarantees.

Section Queries.
Context {cfg : Config} {cjson : CJsonLib} {laws : CJsonLaws} {alloc : CJsonAlloc} {target : Target} {ssl : OpenSSL}.
Context {adapter : DbAdapter} {dblaws : DbLaws} {asset : AssetApi} {services : Services}.

Lemma spec_request_limited bundleName appIndex q S S' :
  limited S → keyed S → spec_request bundleName appIndex q S = Some S' → limited S'.
Proof.
  intros HS Hkey E. destruct q as [name extraInfo|name|name app v|name app v]; cbn in E.
  - by eapply (spec_add_limited _ (SetExtraInfo extraInfo (account_key name bundleName appIndex))).
  - by eapply spec_delete_limited.
  - by eapply spec_enable_limited.
  - by eapply spec_disable_limited.
Qed.

(** A prefix without the separator ends before it. *)
Lemma prefix_before_separator c p s r :
  char_free c p → String.prefix p (s +:+ String c r) = String.prefix p s.
Proof.
  revert s. induction p as [|a p IH]; intros s Hp; [by destruct s|].
  apply char_free_cons in Hp as [Hac Hp]. destruct s as [|b s].
  - rewrite string_app_nil_l. cbn [String.prefix]. destruct (Ascii.ascii_dec a c); [done|done].
  - rewrite string_app_cons. cbn [String.prefix]. destruct (Ascii.ascii_dec a b); [|done]. by apply IH.
Qed.

Lemma prefix_app_same o s t : String.prefix (o +:+ s) (o +:+ t) = String.prefix s t.
Proof.
  induction o as [|a o IH]; [done|]. rewrite !string_app_cons. cbn [String.prefix].
  destruct (Ascii.ascii_dec a a); [done|done].
Qed.

(** A query for an app's accounts goes by the digits of its index.  Asked for
    the accounts of an owner in index [i], a successful query on a store that
    means [S] returns an account the owner has in index [j] exactly when the
    decimal text of [i] begins that of [j]: those of [i] itself, but also, for
    index 1, those of 10 to 19 and of 10000, the index of the secondary mode. *)
Theorem account_query_by_index_digits owner name i j a p w S l w' :
  is_u32 i → is_u32 j → store_repr (contents (base (view_at p w))) S →
  accounts S !! GetPrimeKey (account_key name owner j) = Some a →
  GetAllAccountsFromDataStorage (account_prefix owner i) p w = (Ok l, w') →
  a ∈ l ↔ String.prefix (to_string i) (to_string j) = true.
Proof.
  intros Hi Hj HS Ha E. unfold GetAllAccountsFromDataStorage, on_store, zoom in E. rewrite mbind_unfold in E.
  cbn [view update store_at] in E.
  destruct (LoadDataByLocalFuzzyQuery _ (view_at p w)) as [[infos|] s1] eqn:E1; [|done].
  apply (query_spec S) in E1 as [_ ->]; [|done|unfold account_prefix; rewrite char_free_app, char_free_cons; tauto].
  msimpl in E. injection E as <- _.
  assert (Hpre : String.prefix (account_prefix owner i) (GetPrimeKey (account_key name owner j))
    = String.prefix (to_string i) (to_string j)).
  { unfold account_prefix, GetPrimeKey, account_key. cbn. rewrite prefix_app_same.
    cbn [String.prefix]. destruct (Ascii.ascii_dec HYPHEN HYPHEN); [|done].
    apply prefix_before_separator, appIndex_char_free, Hi. }
  rewrite list_elem_of_fmap, <-Hpre. split.
  - intros ([k a'] & -> & Hk%elem_of_map_list). apply map_lookup_filter_Some in Hk as [Hk Hp]. cbn in *.
    destruct (repr_lookup _ _ _ _ HS Ha) as (_ & Hka & _). destruct (repr_lookup _ _ _ _ HS Hk) as (_ & Hka' & _).
    congruence.
  - intros Hp. exists (GetPrimeKey (account_key name owner j), a). split; [done|]. apply elem_of_map_list.
    by apply map_lookup_filter_Some.
Qed.
End Queries.

Section Authorization.
Context {cfg : Config} {cjson : CJsonLib} {laws : CJsonLaws} {alloc : CJsonAlloc} {target : Target} {ssl : OpenSSL}.
Context {adapter : DbAdapter} {dblaws : DbLaws} {asset : AssetApi} {services : Services}.

(** An account found by its key. *)
Lemma load_by_id_spec S k s r s' :
  store_repr (contents (base s)) S → k ≠ AUTHORIZED_ACCOUNTS →
  GetAccountInfoById k AppAccountInfo_default s = (r, s') →
  same_store s s' ∧ match r with Ok j => accounts S !! k = Some j | Err _ => True end.
Proof.
  intros HS Hne E. split.
  { eapply preserves_same; [|exact E]. intros. apply GetAccountInfoById_store. }
  unfold GetAccountInfoById in E. rewrite mbind_unfold in E.
  destruct (GetValueFromKvStore k s) as [[v|e] s1] eqn:E1; [|by injection E as <- _].
  destruct (GetValueFromKvStore_spec _ _ _ _ E1) as [_ Hv]. destruct HS as (_ & _ & Hall).
  specialize (Hall k Hne). rewrite Hv in Hall. destruct (accounts S !! k) as [a|]; [|done].
  destruct Hall as (b & Hb & _ & -> & <-). destruct (IsStructured _); msimpl in E; [|by injection E as <- _].
  injection E as <- _. by rewrite account_read_back.
Qed.

Lemma does_by_id p k S :
  k ≠ AUTHORIZED_ACCOUNTS →
  does p (or_error ERR_APPACCOUNT_SERVICE_GET_ACCOUNT_INFO_BY_ID
    (on_store p (GetAccountInfoById k AppAccountInfo_default))) S (λ j S', S' = S ∧ accounts S !! k = Some j).
Proof.
  intros Hne w a w' HS E%or_error_Ok. revert w a w' HS E. apply does_on_store. intros s a s' HS E.
  destruct (load_by_id_spec S k s _ _ HS Hne E) as [(Hc & Ht) Hk]. exists S. by rewrite Hc.
Qed.

(** What the two filters let through. *)
Lemma does_filter_owner p owner idx ks acc S :
  (∀ k, k ∈ ks → k ≠ AUTHORIZED_ACCOUNTS) →
  does p (FilterAccessibleAccountsByOwner ks owner idx p acc) S (λ l S', S' = S ∧
    ∀ a, a ∈ l → a ∈ acc ∨ (∃ k, k ∈ ks ∧ accounts S !! k = Some a) ∧ owner_ a = owner ∧ keep_visible idx a = true).
Proof.
  revert acc. induction ks as [|k ks IH]; intros acc Hks; cbn [FilterAccessibleAccountsByOwner].
  { apply does_ret. split; [done|]. by left. }
  eapply does_bind; [apply does_by_id; set_solver|]. intros a S1 [-> Hk].
  assert (Hrest : ∀ acc', (∀ x, x ∈ acc' → x ∈ acc ∨ x = a ∧ owner_ a = owner ∧ keep_visible idx a = true) →
    does p (FilterAccessibleAccountsByOwner ks owner idx p acc') S (λ l S', S' = S ∧ ∀ a, a ∈ l →
      a ∈ acc ∨ (∃ k', k' ∈ k :: ks ∧ accounts S !! k' = Some a) ∧ owner_ a = owner ∧ keep_visible idx a = true)).
  { intros acc' Hacc'. eapply does_conseq; [apply IH; set_solver|]. intros l S' [-> Hl]. split; [done|].
    intros b [Hb|((k' & Hk' & ?) & ?)]%Hl; [|right; split; [exists k'; set_solver|done]].
    destruct (Hacc' b Hb) as [?|(-> & ?)]; [by left|]. right. split; [exists k; set_solver|done]. }
  case_bool_decide as Ho; cbn [negb]; [|apply Hrest; auto].
  destruct (keep_visible idx a) eqn:Ev; cbn [negb]; apply Hrest; set_solver.
Qed.

Lemma does_filter p idx ks acc S :
  (∀ k, k ∈ ks → k ≠ AUTHORIZED_ACCOUNTS) →
  does p (FilterAccessibleAccounts ks idx p acc) S (λ l S', S' = S ∧
    ∀ a, a ∈ l → a ∈ acc ∨ (∃ k, k ∈ ks ∧ accounts S !! k = Some a) ∧ keep_visible idx a = true).
Proof.
  revert acc. induction ks as [|k ks IH]; intros acc Hks; cbn [FilterAccessibleAccounts].
  { apply does_ret. split; [done|]. by left. }
  eapply does_bind; [apply does_by_id; set_solver|]. intros a S1 [-> Hk].
  destruct (keep_visible idx a) eqn:Ev; cbn [negb]; (eapply does_conseq; [apply IH; set_solver|]);
    intros l S' [-> Hl]; (split; [done|]); intros b Hb; specialize (Hl b Hb); set_solver.
Qed.

(** The accounts listed for an app, or none when the index cannot be read. *)
Lemma does_accessible p key S :
  index_short (index S) → string_empty key = false → nul_free key →
  does p (on_store p (GetAccessibleAccountsFromDataStorage key)) S (λ ks S', S' = S ∧
    ∀ k, k ∈ ks → k ∈ default [] (index S !! key)).
Proof.
  intros Hshort He Hn. apply does_on_store. intros s ks s' HS E.
  destruct (read_accounts_spec key s _ s' (index S) (proj1 HS) Hshort He Hn E) as ((Hc & Ht) & I0 & [HI0 _] & [= ->]).
  exists S. rewrite Hc. split_and!; [done|done| |done]. intros k. destruct HI0 as [-> | ->]; [done|].
  rewrite lookup_empty. by intros ?%elem_of_nil.
Qed.

Lemma listed_not_index c S key k :
  store_repr c S → consistent S → k ∈ default [] (index S !! key) → k ≠ AUTHORIZED_ACCOUNTS.
Proof.
  intros HS HC Hk. apply (HC key) in Hk as (a & Ha & _).
  by destruct (repr_lookup _ _ _ _ HS Ha) as (? & _).
Qed.

Lemma listed_authorized S key k a :
  consistent S → k ∈ default [] (index S !! key) → accounts S !! k = Some a → key ∈ authorizedApps_ a.
Proof. intros HC Hk Ha. apply (HC key) in Hk as (b & Hb & Happ). congruence. Qed.

(** The accounts a query by prefix finds. *)
Lemma does_query p prefix S :
  ¬ char_free HYPHEN prefix →
  does p (GetAllAccountsFromDataStorage prefix p) S (λ l S', S' = S ∧ l = (map_list (accounts_of prefix S)).*2).
Proof.
  intros Hp. unfold GetAllAccountsFromDataStorage.
  eapply (does_bind _ _ _ _ (λ infos S', S' = S ∧ infos = accounts_of prefix S)).
  - apply does_on_store. intros s infos s' HS E. destruct (query_spec S prefix s _ s' HS Hp E) as [(Hc & Ht) ->].
    exists S. by rewrite Hc.
  - intros infos S1 [-> ->]. by apply does_ret.
Qed.

Lemma encoded_key_plain bundle idx :
  nul_free bundle → string_empty bundle = false →
  string_empty (EncodeAuthorizedApp bundle idx) = false ∧ nul_free (EncodeAuthorizedApp bundle idx).
Proof.
  intros Hb Hbe. rewrite <-bundle_key_encodes. split; [by destruct bundle|]. apply nul_free_app; [done|].
  unfold GetBundleKeySuffix. assert (Hs : nul_free (String HYPHEN (to_string idx))).
  { apply (nul_free_app "#"); [done|apply to_string_nul_free]. }
  destruct ENABLE_MULTIPLE_OS_ACCOUNT_SUBSPACE; [done|]. by destruct (idx =? 0).
Qed.

(** The accounts listed for an app without the permission: those it was granted access to,
    and what a query for its own accounts finds. *)
Lemma does_all_accessible c p bundle idx S :
  store_repr c S → consistent S → index_short (index S) → nul_free bundle → string_empty bundle = false →
  does p (GetAllAccessibleAccountsFromDataStorage bundle p idx) S (λ l S', S' = S ∧
    ∀ a, a ∈ l → (∃ k, accounts S !! k = Some a) ∧
      (EncodeAuthorizedApp bundle idx ∈ authorizedApps_ a ∧ keep_visible idx a = true ∨
       String.prefix (account_prefix bundle idx) (GetPrimeKey a) = true)).
Proof.
  intros HS HC Hshort Hb Hbe. destruct (encoded_key_plain bundle idx Hb Hbe) as [Hke Hkn].
  unfold GetAllAccessibleAccountsFromDataStorage. set (key := EncodeAuthorizedApp bundle idx) in *.
  eapply does_bind; [by apply does_accessible|]. intros ks S1 [-> Hks].
  eapply does_bind; [apply does_filter|].
  { intros k Hk%Hks. by eapply listed_not_index. }
  intros l1 S1 [-> Hl1]. eapply does_bind; [apply does_query, account_prefix_separator|].
  intros l2 S1 [-> ->]. apply does_ret. split; [done|]. intros a [Ha|Ha]%elem_of_app.
  + destruct (Hl1 a Ha) as [?%elem_of_nil|((k & Hk%Hks & Hka) & Hv)]; [done|].
    split; [by exists k|]. left. split; [by eapply listed_authorized|done].
  + apply list_elem_of_fmap in Ha as ([k a'] & -> & Hk%elem_of_map_list).
    apply map_lookup_filter_Some in Hk as [Hk Hp]. cbn in *. split; [by exists k|]. right.
    by destruct (repr_lookup _ _ _ _ HS Hk) as (_ & -> & _).
Qed.

(** C23. Without the permission an app sees another app's accounts only where it was
    granted access.  On a store whose index agrees with its accounts, whatever
    the database does, for a caller without GET_ALL_APP_ACCOUNTS:
    [GetAllAccounts] for another owner returns only stored accounts of that owner
    that list the caller, in its index, among their authorized apps and are
    visible in its mode; and what [GetAllAccessibleAccounts] returns is such an
    account of any owner, or one that a query for the caller's own accounts
    finds. *)
Theorem queries_respect_authorization owner uid bundle idx w S l w' :
  let p := store_key uid false in
  store_repr (contents (base (view_at p w))) S → consistent S → index_short (index S) →
  permission_denied GET_ALL_APP_ACCOUNTS = true → nul_free bundle → string_empty bundle = false →
  (bundle ≠ owner → GetAllAccounts owner uid bundle idx w = (Ok l, w') →
   ∀ a, a ∈ l → (∃ k, accounts S !! k = Some a) ∧ owner_ a = owner ∧
     EncodeAuthorizedApp bundle idx ∈ authorizedApps_ a ∧ keep_visible idx a = true) ∧
  (GetAllAccessibleAccounts uid bundle idx w = (Ok l, w') →
   ∀ a, a ∈ l → (∃ k, accounts S !! k = Some a) ∧
     (EncodeAuthorizedApp bundle idx ∈ authorizedApps_ a ∧ keep_visible idx a = true ∨
      String.prefix (account_prefix bundle idx) (GetPrimeKey a) = true)).
Proof.
  cbv zeta. intros HS HC Hshort Hperm Hb Hbe.
  set (key := EncodeAuthorizedApp bundle idx).
  destruct (encoded_key_plain bundle idx Hb Hbe) as [Hke Hkn].
  assert (Hverify : is_Ok (VerifyPermission GET_ALL_APP_ACCOUNTS) = false) by (unfold VerifyPermission; by rewrite Hperm).
  split.
  - intros Hne E. unfold GetAllAccounts in E. cbv zeta in E. rewrite mbind_unfold in E.
    unfold give at 1 in E. destruct (query_or_default owner idx _) as [oi|]; [|done]. cbv beta iota in E.
    rewrite Hverify, bool_decide_false in E by done. cbn [andb orb] in E.
    rewrite bundle_key_encodes in E. fold key in E.
    apply (does_get (store_key uid false) uid false _ S (λ l _, ∀ a, a ∈ l →
      (∃ k, accounts S !! k = Some a) ∧ owner_ a = owner ∧ key ∈ authorizedApps_ a ∧ keep_visible idx a = true))
      in E; [by destruct E as (S' & _ & Hl & _)| |exact HS].
    eapply does_bind; [by apply does_accessible|]. intros ks S1 [-> Hks].
    eapply does_conseq; [apply does_filter_owner|].
    + intros k Hk%Hks. by eapply listed_not_index.
    + intros l' S' [-> Hl'] a [?%elem_of_nil|((k & Hk%Hks & Ha) & Ho & Hv)]%Hl'; [done|].
      split_and!; [by exists k|done|by eapply listed_authorized|done].
  - intros E. unfold GetAllAccessibleAccounts in E. cbv zeta in E.
    rewrite Hverify in E.
    apply (does_get (store_key uid false) uid false _ S (λ l _, ∀ a, a ∈ l → (∃ k, accounts S !! k = Some a) ∧
      (key ∈ authorizedApps_ a ∧ keep_visible idx a = true ∨
       String.prefix (account_prefix bundle idx) (GetPrimeKey a) = true)))
      in E; [by destruct E as (S' & _ & Hl & _)| |exact HS].
    eapply does_conseq; [by eapply does_all_accessible|]. by intros l' S' [_ H].
Qed.
End Authorization.

(** ** Witnesses *)

Section Witnesses.
Import TreeLib FaultyDb.
#[local] Existing Instance plain.
#[local] Existing Instance no_ssl.

(** An asset store that keeps nothing. *)
#[local] Instance no_assets : AssetApi := {|
  assets := unit; SEC_ASSET_DUPLICATED := 24000005; SEC_ASSET_ACCESSIBILITY_DEVICE_POWERED_ON := 0;
  SEC_ASSET_ACCESSIBILITY_DEVICE_UNLOCKED := 2; SEC_ASSET_RETURN_ALL := 0;
  AssetAdd _ a := (0, a); AssetUpdate _ _ a := (0, a); AssetQuery _ _ := (24000002, []);
  AssetRemove _ a := (24000002, a); AssetParseAttr _ _ := None |}.

(** An account of com.example that com.b may access. *)
Definition shared_account : AppAccountInfo := set_apps {[ "com.b" ]} (account_key "alice" "com.example" 0).
Definition shared_index : list (string * list string) := [("com.b", [GetPrimeKey shared_account])].

Definition shared_spec : AccountSpec := mkSpec {[ GetPrimeKey shared_account := shared_account ]} (list_to_map shared_index).

Definition shared_table : gmap string string :=
  {[ GetPrimeKey shared_account := ToString shared_account;
     AUTHORIZED_ACCOUNTS := PackJsonToString (Some (index_obj shared_index)) ]}.

Lemma shared_repr : store_repr shared_table shared_spec.
Proof.
  assert (Hs : storable shared_account).
  { apply set_apps_storable; [by apply (new_account_storable "com.example" 0 "alice" "")|by vm_compute|].
    by intros x ->%elem_of_singleton. }
  assert (Hne : GetPrimeKey shared_account ≠ AUTHORIZED_ACCOUNTS) by apply GetPrimeKey_not_index.
  unfold shared_table, shared_spec. split_and!.
  - right. exists shared_index. split_and!; [|done| |].
    + rewrite lookup_insert_ne by done. by rewrite lookup_singleton_eq.
    + cbn. apply NoDup_singleton.
    + repeat constructor; by vm_compute.
  - by apply lookup_singleton_ne.
  - intros k Hk. cbn [accounts]. destruct (decide (GetPrimeKey shared_account = k)) as [<-|Hka].
    + rewrite lookup_insert_eq, lookup_singleton_eq. by exists shared_account.
    + by rewrite lookup_insert_ne, !lookup_singleton_ne.
Qed.

Lemma shared_consistent : consistent shared_spec.
Proof.
  intros app. unfold shared_spec, shared_index. cbn [accounts index list_to_map foldr uncurry]. destruct (decide ("com.b" = app)) as [<-|Hne].
  - rewrite lookup_insert_eq. split; [apply NoDup_singleton|]. intros k. split.
    + intros ->%list_elem_of_singleton. exists shared_account. by rewrite lookup_singleton_eq.
    + intros (a & Ha & _). apply lookup_singleton_Some in Ha as [<- _]. by apply list_elem_of_singleton.
  - rewrite lookup_insert_ne by done. split; [constructor|]. intros k. split; [by intros ?%elem_of_nil|].
    intros (a & [_ <-]%lookup_singleton_Some & Ha).
    change (app ∈ ({[ "com.b" ]} : gset string)) in Ha. by apply elem_of_singleton in Ha as ->.
Qed.

Lemma shared_named : named shared_spec.
Proof. apply map_Forall_singleton. by vm_compute. Qed.

Lemma shared_limited : limited shared_spec.
Proof.
  intros owner i. etransitivity; [apply map_size_filter|]. apply Nat.leb_le. by vm_compute.
Qed.

(** The OS account 100, whose store is that table. *)
Definition shared_world : @World TableDb.table_db no_assets :=
  @mkWorld TableDb.table_db no_assets ∅ (λ _, mkState shared_table None []) ∅ tt ∅ ∅.

#[local] Existing Instance TableDb.table_db.
#[local] Existing Instance TableDb.table_laws.

Lemma shared_short : index_short (index shared_spec).
Proof. apply consistent_short; [apply shared_consistent|by vm_compute]. Qed.

Lemma share_plain : request_plain "com.example" 0 (ReqEnable "alice" "com.c" 9).
Proof. by vm_compute. Qed.

(** com.example gives com.c access, too. *)
Lemma requests_implement_specification_witness :
  let '(r, w') := exec_request 20000000 "com.example" 0 (ReqEnable "alice" "com.c" 9) shared_world in
  is_Ok r = true ∧ ∃ S', spec_request "com.example" 0 (ReqEnable "alice" "com.c" 9) shared_spec = Some S' ∧
    store_repr (contents (base (view_at "100" w'))) S'.
Proof.
  pose proof (requests_implement_specification 20000000 "com.example" 0 (ReqEnable "alice" "com.c" 9)
    shared_world shared_spec TableDb.table_reliable share_plain shared_named shared_short shared_repr eq_refl) as H.
  change (store_key 20000000 false) with "100" in H.
  destruct (exec_request _ _ _ _ _) as [[a|e] w'].
  - split; [reflexivity|]. exact (proj2 (proj2 H)).
  - exfalso. destruct H as (_ & _ & _ & H). specialize (H eq_refl).
    assert (Hs : bool_decide (spec_request "com.example" 0 (ReqEnable "alice" "com.c" 9) shared_spec = None) = false)
      by (vm_compute; reflexivity).
    rewrite bool_decide_true in Hs by exact H. discriminate Hs.
Defined.

Lemma account_query_by_index_digits_witness :
  ∃ l w', GetAllAccountsFromDataStorage (account_prefix "com.example" 0) "100" shared_world = (Ok l, w') ∧
    shared_account ∈ l.
Proof.
  assert (Hu : is_u32 0) by (by vm_compute).
  destruct (query_reliable (rel := TableDb.table_reliable) shared_spec (account_prefix "com.example" 0) (view_at "100" shared_world) shared_repr
    (account_prefix_separator "com.example" 0)) as (s' & E & _).
  exists (map_list (accounts_of (account_prefix "com.example" 0) shared_spec)).*2, (update_at "100" s' shared_world).
  assert (E' : GetAllAccountsFromDataStorage (account_prefix "com.example" 0) "100" shared_world =
    (Ok (map_list (accounts_of (account_prefix "com.example" 0) shared_spec)).*2, update_at "100" s' shared_world)).
  { unfold GetAllAccountsFromDataStorage, on_store, zoom. rewrite mbind_unfold. cbn [view update store_at].
    rewrite E. reflexivity. }
  split; [exact E'|].
  assert (Hk : accounts shared_spec !! GetPrimeKey (account_key "alice" "com.example" 0) = Some shared_account)
    by exact (lookup_singleton_eq (GetPrimeKey shared_account) shared_account).
  refine (proj2 (account_query_by_index_digits "com.example" "alice" 0 0 shared_account "100" shared_world shared_spec _ _
    Hu Hu shared_repr Hk E') _). vm_compute. reflexivity.
Defined.
#[local] Existing Instance device.
(** com.b has no permission and sees alice because com.example shares her. *)
Lemma queries_respect_authorization_witness :
  ∃ l w', GetAllAccounts "com.example" 20000000 "com.b" 0 shared_world = (Ok l, w') ∧ name_ <$> l = ["alice"] ∧
    ∀ a, a ∈ l → owner_ a = "com.example" ∧ EncodeAuthorizedApp "com.b" 0 ∈ authorizedApps_ a.
Proof.
  assert (Hl : match (GetAllAccounts "com.example" 20000000 "com.b" 0 shared_world).1 with
               | Ok l => name_ <$> l = ["alice"]
               | Err _ => False
               end) by (vm_compute; reflexivity).
  assert (Hb : nul_free "com.b") by reflexivity.
  pose proof (λ l w', proj1 (queries_respect_authorization "com.example" 20000000 "com.b" 0 shared_world shared_spec l w'
    shared_repr shared_consistent shared_short eq_refl Hb eq_refl) ltac:(discriminate)) as H.
  destruct (GetAllAccounts _ _ _ _ _) as [[l|e] w'] in Hl, H |- *; [|destruct Hl].
  exists l, w'. split; [reflexivity|]. split; [exact Hl|]. intros a Ha.
  destruct (H l w' eq_refl a Ha) as (_ & Ho & Hk & _). exact (conj Ho Hk).
Defined.

(** The commit fails, and the roll-back after it succeeds. *)
Definition failing_world : @World faulty no_assets :=
  @mkWorld faulty no_assets ∅
    (λ _, mkState shared_table None (replicate 7 SUCCESS ++ [INTERNAL_ERROR])) ∅ tt ∅ ∅.

Lemma failed_requests_have_no_effect_witness :
  let '(r, w') := exec_request (adapter := faulty) 20000000 "com.example" 0 (ReqEnable "alice" "com.c" 9)
    failing_world in
  is_Ok r = false ∧ transactionMutex_ (view_at "100" w') = 0 ∧
  durable (base (view_at "100" w')) = shared_table.
Proof.
  pose proof (failed_requests_have_no_effect (adapter := faulty) 20000000 "com.example" 0
    (ReqEnable "alice" "com.c" 9) failing_world eq_refl (λ _ _, ltac:(discriminate))) as H.
  assert (Hf : is_Ok (exec_request (adapter := faulty) 20000000 "com.example" 0 (ReqEnable "alice" "com.c" 9)
    failing_world).1 = false) by (vm_compute; reflexivity).
  change (store_key 20000000 false) with "100" in H.
  destruct (exec_request _ _ _ _ _) as [[a|e] w'] in Hf, H |- *; [discriminate Hf|].
  split; [reflexivity|]. exact H.
Defined.

(** com.b gains a second account. *)
Lemma authorized_index_is_a_map_witness :
  let i := account_key "bob" "com.example" 0 in
  let '(r, w') := SaveAuthorizedAccountIntoDataStorage "com.b" i "100" shared_world in
  r = Ok tt ∧ ∃ I0, index_read (index shared_spec) I0 ∧
    index_in (contents (base (view_at "100" w')))
      (<["com.b" := add_account_id (GetPrimeKey i) (default [] (I0 !! "com.b"))]> I0).
Proof.
  pose proof (authorized_index_is_a_map "com.b" (account_key "bob" "com.example" 0) "100" shared_world
    (index shared_spec) (proj1 shared_repr) shared_short eq_refl eq_refl eq_refl
    (index_nul_free _ _ _ (proj1 shared_repr))) as (_ & [H Hok] & _).
  specialize (Hok TableDb.table_reliable).
  cbv zeta. destruct (SaveAuthorizedAccountIntoDataStorage _ _ _ _) as [[u|e] w'] in H, Hok |- *; [|discriminate Hok].
  split; [exact Hok|]. exact (proj2 H).
Defined.
End Witnesses.
