(* ===== verification/AppAccountOutcomes.v ===== *)
(** How the single requests to the app account control manager end, whether they
    succeed or fail: what a request does to the account it loads, a logic of
    outcomes on what a store means, and with it the requests that write an
    account, add one, or remove the accounts of a package. *)
From Stdlib Require Import ZArith Lia Ascii String.
From stdpp Require Import base list gmap sets strings pretty sorting.
From S2P Require Import Prelude ErrorCodes Json AppAccountInfo AppAccountJson DataStorage AppIndex AppAccountStore AccountModel AppAccountControl AppAccountRequests.

(** A digest is a string of bytes. *)
Class SSLBytes `{ssl : OpenSSL} : Prop :=
  sha_bytes s hash : SHA256 s = Some hash → Forall (λ b, 0 ≤ b < 256) hash.

(** Closing a store that is in no transaction keeps what it holds. *)
Class DbCloses `{DbLaws} : Prop :=
  close_keeps d s d' : saved d = None → kv_close d = (s, d') → contents d' = contents d ∧ saved d' = None.

(** ** What a request does to the account it loaded *)

Section Accounts.
Context {cfg : Config} {cjson : CJsonLib} {target : Target} {ssl : OpenSSL} {bytes : SSLBytes}.

(** The account can be stored under its key again and grants access to the same
    apps. *)
Definition rewritten (i i' : AppAccountInfo) : Prop :=
  storable i' ∧ same_identity i i' ∧ authorizedApps_ i' = authorizedApps_ i.

Lemma pack_nul_free j : nul_free (PackJsonToString j).
Proof. unfold PackJsonToString. destruct (j ≫= _); [apply c_str_nul_free|done]. Qed.

Lemma hex_char_nul_free n s : 0 ≤ n < 16 → nul_free s → nul_free (String (hex_char n) s).
Proof.
  intros Hn Hs. apply (nul_free_app (String (hex_char n) "")); [|done].
  assert (Hall : ∀ k : nat, (k < 16)%nat → nul_free (String (hex_char (Z.of_nat k)) "")).
  { intros k Hk. do 16 (destruct k as [|k]; [by vm_compute|]). lia. }
  rewrite <-(Z2Nat.id n) by lia. apply Hall. lia.
Qed.

Lemma ComputeHash_nul_free input output : nul_free output → nul_free (ComputeHash input output).
Proof.
  intros Hout. unfold ComputeHash. destruct (SHA256 input) as [hash|] eqn:E; [|done].
  pose proof (Forall_take _ HASH_LENGTH _ (sha_bytes _ _ E)) as Hb.
  induction Hb as [|b l Hb _ IH]; [done|]. cbn [foldr].
  apply hex_char_nul_free; [split; [apply Z.div_pos; lia|apply Z.div_lt_upper_bound; lia]|].
  apply hex_char_nul_free; [apply Z.mod_pos_bound; lia|done].
Qed.

Lemma storable_alias i : storable i → nul_free (alias_ i).
Proof. intros H. pose proof (storable_texts i H) as Ht. rewrite !Forall_cons in Ht. tauto. Qed.

Lemma alias_of_nul_free i : storable i → nul_free (alias_of i).
Proof.
  intros Hi%storable_alias. unfold alias_of. destruct (_ && _); [by apply ComputeHash_nul_free|done].
Qed.

(** The operations on the texts of an account. *)
Lemma text_rewritten i i' :
  storable i → text_only i i' → nul_free (alias_ i') → nul_free (associatedData_ i') →
  nul_free (accountCredential_ i') → rewritten i i'.
Proof.
  intros Hi Hf Ha Hd Hc. pose proof Hf as ((Ho & Hn & Hx) & Happ & Htok & He & _).
  split; [|by split]. pose proof (storable_texts i Hi) as Ht. rewrite !Forall_cons in Ht.
  destruct Ht as (? & ? & _ & ? & _). split.
  - by apply (text_only_bounded i), Hf; apply storable_bounded.
  - rewrite Hx. by apply storable_index.
  - rewrite Ho, Hn, He. by repeat constructor.
  - rewrite Happ. by apply storable_apps.
  - rewrite Htok. by apply storable_tokens.
Qed.

Lemma rewritten_refl i : storable i → rewritten i i.
Proof. by split; [|split]. Qed.

Lemma SetExtraInfo_rewritten e i : storable i → nul_free e → rewritten i (SetExtraInfo e i).
Proof.
  intros Hi He. split; [|by split]. pose proof (storable_texts i Hi) as Ht. rewrite !Forall_cons in Ht.
  destruct Ht as (? & ? & ? & _ & ? & ? & _).
  split; [by apply (bounded_same i), eq_refl; [apply storable_bounded|]|apply Hi|by repeat constructor|apply Hi..].
Qed.

Lemma SetSyncEnable_rewritten b i : storable i → rewritten i (SetSyncEnable b i).
Proof.
  intros Hi. split; [|by split].
  split; [by apply (bounded_same i), eq_refl; [apply storable_bounded|]|apply Hi..].
Qed.

Lemma InitCustomData_texts m i :
  storable i →
  let i' := (InitCustomData m i).2 in
  nul_free (alias_ i') ∧ nul_free (associatedData_ i') ∧ nul_free (accountCredential_ i').
Proof.
  intros Hi. pose proof (storable_texts i Hi) as Ht. rewrite !Forall_cons in Ht.
  unfold InitCustomData. destruct (CreateJsonFromMap m) as [j|]; [|by msimpl; tauto]. msimpl.
  assert (nul_free (PackJsonToString (Some j))) by apply pack_nul_free.
  destruct (string_empty _); cbn; tauto.
Qed.

Lemma InitCustomData_rewritten m i : storable i → rewritten i (InitCustomData m i).2.
Proof.
  intros Hi. destruct (InitCustomData_texts m i Hi) as (? & ? & ?).
  apply text_rewritten; try done. apply InitCustomData_frame.
Qed.

Lemma SetAssociatedData_rewritten k v i : storable i → rewritten i (AppAccountInfo.SetAssociatedData k v i).2.
Proof.
  intros Hi. pose proof (storable_texts i Hi) as Ht. rewrite !Forall_cons in Ht.
  assert (H : let i' := (AppAccountInfo.SetAssociatedData k v i).2 in
    nul_free (alias_ i') ∧ nul_free (associatedData_ i') ∧ nul_free (accountCredential_ i')).
  { unfold AppAccountInfo.SetAssociatedData. msimpl. destruct (_ && _); [msimpl; cbn; tauto|].
    destruct (AddStringToJson _ _ _) as [j|]; [|msimpl; cbn; tauto]. msimpl.
    pose proof (pack_nul_free (Some j)). destruct (string_empty _); cbn; tauto. }
  destruct H as (? & ? & ?). apply text_rewritten; try done. apply SetAssociatedData_frame.
Qed.

Lemma pack_credential_texts j i :
  nul_free (alias_ i) → nul_free (associatedData_ i) →
  let i' := (pack_credential j i).2 in
  nul_free (alias_ i') ∧ nul_free (associatedData_ i') ∧ nul_free (accountCredential_ i').
Proof.
  intros Ha Hd. unfold pack_credential. msimpl. pose proof (pack_nul_free (Some j)).
  by destruct (string_empty _).
Qed.

Lemma SetAccountCredential_rewritten t c i : storable i → rewritten i (AppAccountInfo.SetAccountCredential t c i).2.
Proof.
  intros Hi. pose proof (storable_texts i Hi) as Ht. rewrite !Forall_cons in Ht.
  destruct Ht as (_ & _ & Ha & _ & Hd & Hc & _). pose proof (alias_of_nul_free i Hi) as Hal.
  set (fine := λ i' : AppAccountInfo,
    nul_free (alias_ i') ∧ nul_free (associatedData_ i') ∧ nul_free (accountCredential_ i')).
  assert (H : fine (AppAccountInfo.SetAccountCredential t c i).2).
  { unfold AppAccountInfo.SetAccountCredential. msimpl.
    destruct (string_empty (accountCredential_ i)); [|destruct (IsObject _); [|by msimpl]]; msimpl;
      (destruct HAS_ASSET_PART; [destruct (IsKeyExist _ t); [by msimpl|]; rewrite run_GetAlias|]);
      (destruct (AddStringToJson _ _ _) as [j|]; [|by msimpl]); by apply pack_credential_texts. }
  destruct H as (? & ? & ?). apply text_rewritten; try done. apply SetAccountCredential_frame.
Qed.

Lemma DeleteAccountCredential_rewritten t i : storable i → rewritten i (AppAccountInfo.DeleteAccountCredential t i).2.
Proof.
  intros Hi. pose proof (storable_texts i Hi) as Ht. rewrite !Forall_cons in Ht.
  assert (H : let i' := (AppAccountInfo.DeleteAccountCredential t i).2 in
    nul_free (alias_ i') ∧ nul_free (associatedData_ i') ∧ nul_free (accountCredential_ i')).
  { unfold AppAccountInfo.DeleteAccountCredential. msimpl. destruct (IsObject _); [|msimpl; cbn; tauto].
    destruct (DeleteItemFromJson _ _) as [n j]. pose proof (pack_nul_free j).
    destruct (n =? 0); msimpl; cbn; tauto. }
  destruct H as (? & ? & ?). apply text_rewritten; try done. apply DeleteAccountCredential_frame.
Qed.

(** The operations on its tokens. *)
Lemma tokens_rewritten i m :
  storable i → bounded (set_tokens m i) → map_Forall token_plain m → rewritten i (set_tokens m i).
Proof. intros Hi Hb Hm. split; [|by split]. by split; [|apply Hi..|]. Qed.

Lemma insert_token_plain i t it :
  storable i → token_plain t it → map_Forall token_plain (<[t := it]> (oauthTokens_ i)).
Proof. intros Hi Hit. apply map_Forall_insert_2; [done|by apply storable_tokens]. Qed.

Lemma SetOAuthToken_rewritten t s i :
  storable i → nul_free t → nul_free s → rewritten i (AppAccountInfo.SetOAuthToken t s i).2.
Proof.
  intros Hi Ht Hs. pose proof (SetOAuthToken_bounded t s i (storable_bounded i Hi)) as Hb.
  pose proof (storable_tokens i Hi) as Htok. unfold AppAccountInfo.SetOAuthToken in *. msimpl. rewrite run_get in Hb.
  destruct (oauthTokens_ i !! t) as [it|] eqn:Hit.
  - destruct (Htok t it Hit) as (_ & H1 & H2 & H3). apply tokens_rewritten; [done|done|].
    apply insert_token_plain; [done|]. by destruct HAS_ASSET_PART.
  - destruct (_ <=? _); [by apply rewritten_refl|]. pose proof (alias_of_nul_free i Hi) as Hal.
    assert (Hnew : ∀ x, nul_free x →
      token_plain t (set_token_text (set_token_status OAuthTokenInfo_new (negb (string_empty s))) x)).
    { intros x Hx. split_and!; [done|done|by intros y Hy%elem_of_empty|by vm_compute]. }
    destruct HAS_ASSET_PART; rewrite ?mbind_assoc, ?run_GetAlias in *; msimpl; cbn in Hb.
    + set (i' := set_alias (alias_of i) i) in *.
      assert (Hi' : rewritten i i').
      { pose proof (storable_texts i Hi) as Hx. rewrite !Forall_cons in Hx. apply text_rewritten; tauto || done. }
      destruct Hi' as (Hst & Hid & Happ).
      edestruct (tokens_rewritten i') as (H1 & H2 & H3); [done|exact Hb| |by split_and!].
      apply (insert_token_plain i'); [done|]. apply Hnew, nul_free_app; [done|by apply ComputeHash_nul_free].
    + apply tokens_rewritten; [done|done|]. by apply insert_token_plain, Hnew.
Qed.

Lemma DeleteOAuthToken_rewritten t s i : storable i → rewritten i (AppAccountInfo.DeleteOAuthToken t s i).2.
Proof.
  intros Hi. pose proof (DeleteOAuthToken_bounded t s i (storable_bounded i Hi)) as Hb.
  unfold AppAccountInfo.DeleteOAuthToken in *. msimpl. rewrite run_get in Hb.
  destruct (oauthTokens_ i !! t) as [it|] eqn:Hit; [|by apply rewritten_refl].
  case_bool_decide; [|by apply rewritten_refl].
  destruct (storable_tokens i Hi t it Hit) as (? & H1 & H2 & H3).
  apply tokens_rewritten; [done|done|]. apply insert_token_plain; [done|]. by destruct HAS_ASSET_PART.
Qed.

Lemma DeleteAuthToken_rewritten t s b i : storable i → rewritten i (DeleteAuthToken t s b i).2.
Proof.
  intros Hi. pose proof (DeleteAuthToken_bounded t s b i (storable_bounded i Hi)) as Hb.
  unfold DeleteAuthToken in *. msimpl. rewrite run_get in Hb.
  destruct (oauthTokens_ i !! t) as [it|] eqn:Hit; [|by apply rewritten_refl].
  case_bool_decide; [by apply rewritten_refl|]. destruct b; (apply tokens_rewritten; [done|done|]).
  - apply map_Forall_delete, storable_tokens, Hi.
  - apply insert_token_plain; [done|]. exact (storable_tokens i Hi t it Hit).
Qed.

Lemma SetOAuthTokenVisibility_rewritten t b v ver i :
  storable i → nul_free t → nul_free b → rewritten i (AppAccountInfo.SetOAuthTokenVisibility t b v ver i).2.
Proof.
  intros Hi Ht Hn. pose proof (SetOAuthTokenVisibility_bounded t b v ver i (storable_bounded i Hi)) as Hb.
  pose proof (storable_tokens i Hi) as Htok. unfold AppAccountInfo.SetOAuthTokenVisibility in *. msimpl. rewrite run_get in Hb.
  destruct (_ || _); [by apply rewritten_refl|]. destruct (oauthTokens_ i !! t) as [it|] eqn:Hit.
  - destruct (Htok t it Hit) as (_ & H1 & H2 & _).
    assert (Hput : ∀ l, bounded (set_tokens (<[t := set_token_list it l]> (oauthTokens_ i)) i) →
      set_Forall nul_free l → rewritten i (set_tokens (<[t := set_token_list it l]> (oauthTokens_ i)) i)).
    { intros l Hl Hf. apply tokens_rewritten; [done|done|]. apply insert_token_plain; [done|].
      split_and!; [done|done|done|]. apply (bounded_list _ t _ Hl). apply lookup_insert_eq. }
    destruct v; cbn [negb] in *; [destruct (_ <? _)|]; rewrite ?mbind_unfold in *; cbn [mput merr snd] in *;
      (apply Hput; [exact Hb|]); set_solver.
  - destruct (_ <=? _); [by apply rewritten_refl|]. destruct v; [|by apply rewritten_refl]. cbn [negb] in *.
    destruct (_ <=? _); [by apply rewritten_refl|].
    apply tokens_rewritten; [done|done|]. apply insert_token_plain; [done|].
    unfold token_plain. cbn [authList set_token_list token]. split_and!; [done|done|by apply set_Forall_singleton|].
    rewrite size_singleton. by vm_compute.
Qed.
End Accounts.

(** ** A logic of outcomes *)

Section Outcomes.
Context {cfg : Config} {cjson : CJsonLib} {laws : CJsonLaws} {alloc : CJsonAlloc} {target : Target} {ssl : OpenSSL}.
Context {adapter : DbAdapter} {dblaws : DbLaws} {asset : AssetApi}.

(** [ends p m S post]: when the store under [p] means [S], then however [m] ends
    the store means an [S'] with [post], in the same transaction. *)
Definition ends {A} (p : string) (m : M World A) (S : AccountSpec) (post : result A → AccountSpec → Prop) : Prop :=
  ∀ w, store_repr (contents (base (view_at p w))) S →
    let '(r, w') := m w in
    saved (base (view_at p w')) = saved (base (view_at p w)) ∧
    ∃ S', store_repr (contents (base (view_at p w'))) S' ∧ post r S'.

Lemma ends_run {A} p (m : M World A) S post w r w' :
  ends p m S post → store_repr (contents (base (view_at p w))) S → m w = (r, w') →
  saved (base (view_at p w')) = saved (base (view_at p w)) ∧
  ∃ S', store_repr (contents (base (view_at p w'))) S' ∧ post r S'.
Proof. intros Hm HS E. specialize (Hm w HS). by rewrite E in Hm. Qed.

Lemma ends_conseq {A} p (m : M World A) S (post post' : result A → AccountSpec → Prop) :
  ends p m S post → (∀ r S', post r S' → post' r S') → ends p m S post'.
Proof.
  intros Hm Himp w HS. specialize (Hm w HS). destruct (m w) as [r w']. destruct Hm as (? & S' & ? & ?).
  split; [done|]. exists S'. auto.
Qed.

Lemma ends_ret {A} p (a : A) S (post : result A → AccountSpec → Prop) : post (Ok a) S → ends p (mret a) S post.
Proof. intros Hp w HS. split; [done|]. by exists S. Qed.

Lemma ends_err {A} p e S (post : result A → AccountSpec → Prop) : post (Err e) S → ends p (merr e) S post.
Proof. intros Hp w HS. split; [done|]. by exists S. Qed.

Lemma ends_bind {A B} p (m : M World A) (k : A → M World B) S post1 post :
  ends p m S post1 → (∀ a S1, post1 (Ok a) S1 → ends p (k a) S1 post) →
  (∀ e S1, post1 (Err e) S1 → post (Err e) S1) → ends p (m ≫= k) S post.
Proof.
  intros Hm Hk He w HS. rewrite mbind_unfold. specialize (Hm w HS). destruct (m w) as [[a|e] w1].
  - destruct Hm as (Hs1 & S1 & HS1 & Hp1). specialize (Hk a S1 Hp1 w1 HS1). destruct (k a w1) as [r w'].
    by rewrite <-Hs1.
  - destruct Hm as (Hs1 & S1 & HS1 & Hp1). split; [done|]. exists S1. auto.
Qed.

Lemma ends_try {A} p (m : M World A) S post :
  ends p m S post → ends p (mtry m) S (λ r S', ∃ r0, r = Ok r0 ∧ post r0 S').
Proof.
  intros Hm w HS. unfold mtry. specialize (Hm w HS). destruct (m w) as [r w']. destruct Hm as (? & S' & ? & ?).
  split; [done|]. exists S'. eauto.
Qed.

Lemma ends_keeps {A} p (m : M World A) S : keeps_store p m → ends p m S (λ _ S', S' = S).
Proof.
  intros Hm w HS. destruct (m w) as [r w'] eqn:E. destruct (keeps_run _ _ _ _ _ Hm E) as (Hc & Hs & _).
  split; [done|]. exists S. by rewrite Hc.
Qed.

Lemma ends_on_store {A} p (m : M Storage A) S (post : result A → AccountSpec → Prop) :
  (∀ s r s', store_repr (contents (base s)) S → m s = (r, s') → saved (base s') = saved (base s) ∧
     ∃ S', store_repr (contents (base s')) S' ∧ post r S') → ends p (on_store p m) S post.
Proof.
  intros Hm w HS. unfold on_store, zoom. cbn [view update store_at].
  destruct (m (view_at p w)) as [r s'] eqn:Em. rewrite view_update_at. by eapply Hm.
Qed.

Lemma ends_get {A} p uid sync (k : string → M World A) S post :
  ends p (k (store_key uid sync)) S post → ends p (GetDataStorage uid sync ≫= k) S post.
Proof.
  intros Hk w HS. rewrite mbind_unfold. destruct (GetDataStorage_run uid sync w) as (w1 & -> & Hv & _).
  specialize (Hk w1). rewrite (Hv p) in Hk. by apply Hk.
Qed.

(** Whatever is read of the account a key names. *)
Lemma ends_load p i S :
  DbReliable → fresh_info i →
  ends p (GetAccountInfoFromDataStorage i p) S (λ r S', S' = S ∧
    accounts S !! GetPrimeKey i = match r with Ok j => Some j | Err _ => None end).
Proof.
  intros rel Hi. apply ends_on_store. intros s r s' HS E.
  destruct (load_spec S i s _ _ HS Hi E) as [(Hc & Hs & _) Hk]. split; [done|]. exists S. rewrite Hc.
  split_and!; [done|done|]. destruct r; auto.
Qed.

Lemma ends_or_error {A} p e (m : M World A) S post :
  ends p m S post → (∀ e' S', post (Err e') S' → post (Err e) S') → ends p (or_error e m) S post.
Proof.
  intros Hm He. unfold or_error. eapply ends_bind; [by apply ends_try| |].
  - intros r S' (r0 & [= ->] & Hp). destruct r0; [by apply ends_ret|]. apply ends_err. eauto.
  - by intros e' S' (r0 & ? & _).
Qed.

(** The index and the accounts, changed on a reliable database whether or not the
    caller looks at the outcome. *)
Lemma ends_change p app f S :
  DbReliable → index_short (index S) → string_empty app = false → nul_free app →
  (∀ l, Forall nul_free l → Forall nul_free (f l)) →
  ends p (on_store p (change_authorized_accounts app f)) S (λ _ S', S' = with_index app f S).
Proof.
  intros rel Hshort Hk Hn Hf. apply ends_on_store. intros s r s' HS E.
  destruct (change_index_spec app f s r s' (index S) (proj1 HS) Hshort Hk Hn) as ([Hs _] & Hc & Hr).
  - apply Hf. eapply index_nul_free, HS.
  - apply Hf. constructor.
  - exact E.
  - rewrite (Hr rel) in Hc. destruct Hc as (Hd & I0 & HI0 & Hin). split; [done|].
    destruct HI0 as [_ HI0]. rewrite (HI0 rel) in Hin. exists (with_index app f S). split; [|done].
    by eapply repr_index.
Qed.

(** A key that is not there is not removed. *)
Lemma remove_missing k s :
  contents (base s) !! k = None →
  let '(r, s') := RemoveValueFromKvStore k s in
  saved (base s') = saved (base s) ∧ contents (base s') = contents (base s).
Proof.
  intros Hk. destruct (RemoveValueFromKvStore k s) as [r s'] eqn:E.
  unfold RemoveValueFromKvStore in E. destruct (CheckKvStore_run s) as (b & s1 & Ec & (Hc & Hs & _) & _).
  rewrite mbind_unfold, Ec in E. destruct b; cbn [negb] in E; [|msimpl in E; by injection E as <- <-].
  unfold TryTwice in E. rewrite mbind_assoc, mbind_unfold in E.
  destruct (kv_get k (base s1)) as [[st1 v1] d1] eqn:E1. rewrite (on_db_run _ _ _ _ E1) in E.
  destruct (get_keeps _ _ _ _ E1) as [K1 S1]. cbn [fst] in E.
  assert (Hgot : ∀ st v d d', kv_get k d = ((st, v), d') → contents d = contents (base s) → st ≠ SUCCESS).
  { intros st v d d' Eg Hd ->. apply get_success in Eg. congruence. }
  case_bool_decide.
  - destruct (kv_get k d1) as [[st2 v2] d2] eqn:E2. rewrite mbind_unfold, (on_db_run _ (mkStorage _ _ d1) _ _ E2) in E.
    destruct (get_keeps _ _ _ _ E2) as [K2 S2]. cbn [fst] in E.
    rewrite bool_decide_false in E by (eapply Hgot; [exact E2|congruence]). msimpl in E. injection E as <- <-.
    cbn. split; congruence.
  - msimpl in E. rewrite bool_decide_false in E by (eapply Hgot; [exact E1|congruence]). msimpl in E.
    injection E as <- <-. cbn. split; congruence.
Qed.

Lemma ends_delete p i S :
  DbReliable →
  ends p (on_store p (DataStorage.DeleteAccountInfoFromDataStorage i)) S
    (λ _ S', S' = mkSpec (delete (GetPrimeKey i) (accounts S)) (index S)).
Proof.
  intros rel. apply ends_on_store. intros s r s' HS E. unfold DataStorage.DeleteAccountInfoFromDataStorage in E.
  pose proof (GetPrimeKey_not_index i) as Hne.
  destruct (accounts S !! GetPrimeKey i) as [j|] eqn:Hj.
  - destruct (repr_lookup _ _ _ _ HS Hj) as (_ & _ & _ & _ & b & _ & _ & Htext & _).
    destruct (remove_reliable _ _ _ Htext) as (s2 & E2 & [Hs _] & Hc). rewrite E in E2. injection E2 as -> ->.
    split; [done|]. eexists. split; [|done]. rewrite Hc. by apply repr_delete.
  - pose proof (remove_missing _ s (repr_absent _ _ _ HS Hj Hne)) as Hr. rewrite E in Hr. destruct Hr as [Hs Hc].
    split; [done|]. eexists. split; [|done]. rewrite Hc, delete_id by done. by destruct S.
Qed.

Lemma ends_query p prefix S :
  DbReliable → ¬ char_free HYPHEN prefix →
  ends p (on_store p (LoadDataByLocalFuzzyQuery prefix)) S (λ r S', r = Ok (accounts_of prefix S) ∧ S' = S).
Proof.
  intros rel Hp. apply ends_on_store. intros s r s' HS E.
  destruct (query_reliable S prefix s HS Hp) as (s2 & E2 & (Hc & Hs & _)).
  rewrite E in E2. injection E2 as -> ->. split; [done|]. exists S. by rewrite Hc.
Qed.

(** Adding an account that is not there yet. *)
Lemma ends_add uid i S :
  let p := store_key uid false in
  let prefix := account_prefix (owner_ i) (appIndex_ i) in
  DbReliable → storable i → normalize i = i → NeedSyncDataStorage i = false → accounts S !! GetPrimeKey i = None →
  ends p (AddAccountInfoIntoDataStorage i p uid) S (λ r S',
    if bool_decide (ACCOUNT_MAX_SIZE ≤ size (accounts_of prefix S))%nat then
      r = Err ERR_APPACCOUNT_SERVICE_ACCOUNT_MAX_SIZE ∧ S' = S
    else r = Ok tt ∧ S' = with_account (GetPrimeKey i) i S).
Proof.
  cbv zeta. intros rel Hi Hnorm Hsync Hfree. unfold AddAccountInfoIntoDataStorage. cbv zeta.
  fold (account_prefix (owner_ i) (appIndex_ i)). set (prefix := account_prefix _ _).
  eapply ends_bind; [by apply ends_query, account_prefix_separator| |by intros e S1 [? _]].
  intros l S1 [[= ->] ->]. case_bool_decide as Hmax; [by apply ends_err|].
  eapply (ends_bind _ _ _ _ (λ r S', r = Ok tt ∧ S' = with_account (GetPrimeKey i) i S)).
  - apply ends_on_store. intros s r s' HS E.
    destruct (save_spec false S i s r s' HS Hi E) as [[Hs3 _] Hr].
    destruct (store_account_reliable i s Hi) as [s4 E5]. rewrite bool_decide_false in E5.
    2: { rewrite (repr_absent _ _ _ HS Hfree (GetPrimeKey_not_index _)). by intros [? ?]. }
    rewrite E in E5. injection E5 as -> ->. split; [done|]. eexists. split; [exact Hr|]. by rewrite Hnorm.
  - intros [] S1 [_ ->]. unfold with_sync. rewrite Hsync, andb_false_r. by apply ends_ret.
  - by intros e S1 [? _].
Qed.
End Outcomes.

(** ** Requests that write the account they loaded *)

Section Writes.
Context {cfg : Config} {cjson : CJsonLib} {laws : CJsonLaws} {alloc : CJsonAlloc} {target : Target} {ssl : OpenSSL}
  {bytes : SSLBytes}.
Context {adapter : DbAdapter} {dblaws : DbLaws} {rel : DbReliable} {asset : AssetApi} {services : Services}.
Variable uid : Z.
#[local] Abbreviation p := (store_key uid false).

(** At most one account is other than before, under its key and with the apps it
    granted access to. *)
Definition written (S S' : AccountSpec) : Prop :=
  S' = S ∨ ∃ k j j', accounts S !! k = Some j ∧ rewritten j j' ∧ S' = with_account k (normalize j') S.

Definition writes {A} (m : M World A) (S : AccountSpec) : Prop := ends p m S (λ _ S', written S S').

Lemma writes_keeps {A} (m : M World A) S : keeps_store p m → writes m S.
Proof. intros Hm. eapply ends_conseq; [by apply ends_keeps|]. intros r S' ->. by left. Qed.

Lemma writes_pre {A B} (m : M World A) (k : A → M World B) S :
  keeps_store p m → (∀ a, writes (k a) S) → writes (m ≫= k) S.
Proof.
  intros Hm Hk. eapply ends_bind; [by apply ends_keeps|intros a S1 ->; apply Hk|]. intros e S1 ->. by left.
Qed.

Lemma writes_try {A} (m : M World A) S : writes m S → writes (mtry m) S.
Proof. intros Hm. eapply ends_conseq; [by apply ends_try|]. by intros r S' (r0 & _ & ?). Qed.

Lemma writes_load {B} i (k : AppAccountInfo → M World B) S :
  fresh_info i → (∀ j, accounts S !! GetPrimeKey i = Some j → writes (k j) S) →
  writes (GetAccountInfoFromDataStorage i p ≫= k) S.
Proof.
  intros Hi Hk. eapply ends_bind; [by apply ends_load|intros j S1 [-> Hj]; apply Hk; exact Hj|].
  intros e S1 [-> _]. by left.
Qed.

Lemma writes_load_or {B} e i (k : AppAccountInfo → M World B) S :
  fresh_info i → (∀ j, accounts S !! GetPrimeKey i = Some j → writes (k j) S) →
  writes (or_error e (GetAccountInfoFromDataStorage i p) ≫= k) S.
Proof.
  intros Hi Hk. eapply ends_bind; [apply ends_or_error; [by apply ends_load|done]|intros j S1 [-> Hj]; apply Hk; exact Hj|].
  intros e' S1 [-> _]. by left.
Qed.

Lemma writes_info {A B} (m : M AppAccountInfo A) j (k : A * AppAccountInfo → M World B) S :
  rewritten j (m j).2 → (∀ a j', rewritten j j' → writes (k (a, j')) S) → writes (on_info m j ≫= k) S.
Proof.
  intros Hj Hk. intros w HS. rewrite mbind_unfold. unfold on_info. destruct (m j) as [[a|e] j'].
  - by apply (Hk a j' Hj).
  - split; [done|]. exists S. split; [done|by left].
Qed.

Lemma rewritten_key j j' : rewritten j j' → GetPrimeKey j' = GetPrimeKey j.
Proof. intros (_ & Hid & _). by apply GetPrimeKey_identity. Qed.

Lemma writes_save {B} i j j' (k : unit → M World B) S :
  accounts S !! GetPrimeKey i = Some j → rewritten j j' → (∀ u, keeps_store p (k u)) →
  writes (SaveAccountInfoIntoDataStorage j' p uid ≫= k) S.
Proof.
  intros Hj Hw Hk w HS.
  destruct (repr_lookup _ _ _ _ HS Hj) as (_ & Hkj & _).
  revert w HS. change (writes (SaveAccountInfoIntoDataStorage j' p uid ≫= k) S).
  unfold SaveAccountInfoIntoDataStorage. set (S2 := with_account (GetPrimeKey i) (normalize j') S).
  assert (HS2 : written S S2) by (right; by exists (GetPrimeKey i), j, j').
  eapply (ends_bind _ _ _ _ (λ _ S', written S S')); [| |intros e S1 H; exact H].
  - eapply (ends_bind _ _ _ _ (λ r S', S' = S ∧ is_Ok r = false ∨ S' = S2)).
    + apply ends_on_store. intros s r s' HS E.
      destruct (save_spec true S j' s r s' HS (proj1 Hw) E) as [[Hs _] Hr]. split; [done|].
      rewrite (rewritten_key _ _ Hw), Hkj in Hr. destruct r; [by exists S2; auto|].
      exists S. rewrite Hr. auto.
    + intros u S1 [[_ H]| ->]; [done|]. eapply ends_conseq with (post := λ _ S', S' = S2).
      * apply ends_keeps, with_sync_keeps. pose proof (sync_key_other uid) as Hne.
        apply keeps_bind; [apply keeps_try, on_store_other_keeps; done|]. intros [|]; by apply on_store_other_keeps.
      * intros r S' ->. exact HS2.
    + intros e S1 [[-> _]| ->]; [by left|done].
  - intros u S1 H1. cbn in H1. eapply ends_conseq; [by apply ends_keeps|]. by intros r S' ->.
Qed.

Lemma writes_save_last i j j' S :
  accounts S !! GetPrimeKey i = Some j → rewritten j j' → writes (SaveAccountInfoIntoDataStorage j' p uid) S.
Proof.
  intros Hj Hw w HS. pose proof (writes_save i j j' mret S Hj Hw (λ u, keeps_ret _ u) w HS) as H.
  by rewrite mbind_ret in H.
Qed.

Lemma loaded_storable i j S w :
  store_repr (contents (base (view_at p w))) S → accounts S !! GetPrimeKey i = Some j → storable j.
Proof. intros HS Hj. by destruct (repr_lookup _ _ _ _ HS Hj) as (_ & _ & ? & _). Qed.

(** A request can rely on the accounts being storable. *)
Definition stored_well (S : AccountSpec) : Prop := map_Forall (λ _ j, storable j) (accounts S).

Lemma repr_stored_well c S : store_repr c S → stored_well S.
Proof. intros HS k j Hj. by destruct (repr_lookup _ _ _ _ HS Hj) as (_ & _ & ? & _). Qed.

#[local] Hint Resolve account_key_fresh : core.

Lemma SetAccountExtraInfo_writes name extraInfo bundleName i S :
  stored_well S → fresh_info i → nul_free extraInfo →
  writes (SetAccountExtraInfo name extraInfo uid bundleName i) S.
Proof.
  intros HW Hi He. apply ends_get, writes_load; [done|intros j Hj]. cbv zeta.
  apply (writes_save i j); [done|apply SetExtraInfo_rewritten; [by eapply HW|done]|]. intros u. apply keeps_ret.
Qed.

Lemma SetAppAccountSyncEnable_writes name b bundleName i S :
  stored_well S → fresh_info i → writes (SetAppAccountSyncEnable name b uid bundleName i) S.
Proof.
  intros HW Hi. apply ends_get, writes_load; [done|intros j Hj]. cbv zeta.
  apply (writes_save i j); [done|apply SetSyncEnable_rewritten; by eapply HW|]. intros u. apply keeps_ret.
Qed.

Lemma cache_write_keeps name key value :
  keeps_store p (w ← mget;
    match associatedDataCache_ w !! u32 uid with
    | None => mret tt
    | Some item =>
        if bool_decide (item_name item = name) then
          let item := mkCacheItem (<[key := value]> (item_data item)) (item_name item) (item_freq item) in
          mput (set_cache (<[u32 uid := item]> (associatedDataCache_ w)) w)
        else mret tt
    end : M World unit).
Proof. intros c x n. cbv zeta. preserve_read; by rewrite ?of_store_cache. Qed.

Lemma SetAssociatedData_writes name key value ci S :
  stored_well S → callingUid ci = uid → writes (SetAssociatedData name key value ci) S.
Proof.
  intros HW Hu. unfold SetAssociatedData. cbv zeta. rewrite Hu. apply ends_get, writes_load; [done|intros j Hj].
  apply writes_info; [apply SetAssociatedData_rewritten; by eapply HW|intros a j' Hj']. cbn [snd].
  eapply writes_save; [exact Hj|exact Hj'|]. intros u. apply cache_write_keeps.
Qed.

Lemma asset_save_keeps l h al v j :
  keeps_store p (a ← on_info GetAlias j; SaveDataToAsset l h a.1 al v).
Proof. intros c x n. preserve. Qed.

Lemma SetAccountCredential_writes name t c ci S :
  stored_well S → callingUid ci = uid → writes (SetAccountCredential name t c ci) S.
Proof.
  intros HW Hu. unfold SetAccountCredential. cbv zeta. rewrite Hu. apply ends_get, writes_load_or; [done|intros j Hj].
  apply writes_info; [apply SetAccountCredential_rewritten; by eapply HW|intros a j' Hj']. cbn [snd].
  eapply writes_save; [exact Hj|exact Hj'|]. intros u. destruct HAS_ASSET_PART; [apply asset_save_keeps|apply keeps_ret].
Qed.

Lemma asset_remove_keeps (b : bool) id al :
  keeps_store p (if b then _ ← mtry (RemoveDataFromAsset id al); mret tt else mret tt).
Proof. intros c x n. unfold RemoveDataFromAsset. preserve. Qed.

Lemma DeleteAccountCredential_writes name t ci S :
  stored_well S → callingUid ci = uid → writes (DeleteAccountCredential name t ci) S.
Proof.
  intros HW Hu. unfold DeleteAccountCredential. cbv zeta. rewrite Hu. apply ends_get, writes_load_or; [done|intros j Hj].
  apply writes_pre; [apply asset_remove_keeps|intros _].
  apply writes_info; [apply DeleteAccountCredential_rewritten; by eapply HW|intros a j' Hj']. cbn [snd].
  by eapply writes_save_last.
Qed.

Lemma give_keeps {A} (r : result A) : keeps_store p (give r : M World A).
Proof. intros c x n. apply give_preserves. Qed.

Lemma SetOAuthToken_writes r S :
  stored_well S → callerUid r = uid → nul_free (request_authType r) → nul_free (request_token r) →
  writes (SetOAuthToken r) S.
Proof.
  intros HW Hu Ht Hs. unfold SetOAuthToken. rewrite Hu. apply writes_pre; [apply give_keeps|intros idx]. cbv zeta.
  apply ends_get, writes_load_or; [done|intros j Hj].
  apply writes_info; [apply SetOAuthToken_rewritten; [by eapply HW|done..]|intros a j' Hj']. cbn [snd].
  eapply writes_save; [exact Hj|exact Hj'|]. intros u. destruct HAS_ASSET_PART; [apply asset_save_keeps|apply keeps_ret].
Qed.

Lemma delete_token_writes r v t i j S :
  stored_well S → callerUid r = uid → accounts S !! GetPrimeKey i = Some j → writes (delete_token r v t j p) S.
Proof.
  intros HW Hu Hj. unfold delete_token. cbv zeta. rewrite Hu. destruct (_ <=? _).
  - apply writes_info; [apply DeleteAuthToken_rewritten; by eapply HW|intros a j' Hj']. cbn [snd].
    by eapply writes_save_last.
  - pose proof (DeleteOAuthToken_rewritten (request_authType r) t j ltac:(by eapply HW)) as Hw.
    destruct (AppAccountInfo.DeleteOAuthToken _ _ j) as [ret j']. cbn [snd] in Hw.
    case_bool_decide; [apply writes_keeps, keeps_ret|by eapply writes_save_last].
Qed.

Lemma DeleteOAuthToken_writes r v S :
  stored_well S → callerUid r = uid → writes (DeleteOAuthToken r v) S.
Proof.
  intros HW Hu. unfold DeleteOAuthToken. apply writes_pre; [apply give_keeps|intros idx]. cbv zeta.
  rewrite Hu. apply ends_get, writes_load_or; [done|intros j Hj].
  apply writes_pre; [apply or_error_keeps, give_keeps|intros vis].
  destruct (negb vis); [apply writes_keeps; intros c x n; preserve|].
  destruct HAS_ASSET_PART; [|by eapply delete_token_writes].
  destruct (AppAccountInfo.GetOAuthToken _ _ _) as [al|e].
  - apply writes_pre; [intros c x n; preserve|intros r'].
    destruct (negb _); [apply writes_keeps, keeps_ret|].
    apply writes_pre; [intros c x n; unfold RemoveDataFromAsset; preserve|intros _]. by eapply delete_token_writes.
  - apply writes_keeps. intros c x n. preserve.
Qed.

Lemma SetOAuthTokenVisibility_writes r v S :
  stored_well S → callerUid r = uid → nul_free (request_authType r) → nul_free (request_bundleName r) →
  writes (SetOAuthTokenVisibility r v) S.
Proof.
  intros HW Hu Ht Hb. unfold SetOAuthTokenVisibility, target_key. rewrite Hu. destruct (query_or_default _ _ _) as [idx|e].
  2: { intros w. rewrite mbind_unfold. cbn [give]. intros HS. split; [done|]. exists S. split; [done|by left]. }
  intros w. rewrite mbind_unfold. cbn [give]. revert w. cbv zeta. apply ends_get, writes_load_or; [done|intros j Hj].
  apply writes_info; [apply SetOAuthTokenVisibility_rewritten; [by eapply HW|done|]|intros a j' Hj'].
  - rewrite bundle_key_encodes. unfold EncodeAuthorizedApp.
    assert (nul_free (request_bundleName r +:+ String HYPHEN (to_string idx))).
    { apply nul_free_app, (nul_free_app "#"), to_string_nul_free; done. }
    destruct ENABLE_MULTIPLE_OS_ACCOUNT_SUBSPACE; [done|]. by destruct (_ =? _).
  - cbn [snd]. by eapply writes_save_last.
Qed.
End Writes.

(** ** Requests that add an account *)

Section Additions.
Context {cfg : Config} {cjson : CJsonLib} {laws : CJsonLaws} {alloc : CJsonAlloc} {target : Target} {ssl : OpenSSL}.
Context {adapter : DbAdapter} {dblaws : DbLaws} {rel : DbReliable} {asset : AssetApi}.
Variables (uid : Z) (bundleName : string) (appIndex : Z).
#[local] Abbreviation p := (store_key uid false).
#[local] Abbreviation info name := (account_key name bundleName appIndex).

(** What adding [i] comes to: refused when its key is taken, refused when the app
    has 1000 accounts, done otherwise. *)
Definition adds (i : AppAccountInfo) (S : AccountSpec) (r : result AppAccountInfo) (S' : AccountSpec) : Prop :=
  match accounts S !! GetPrimeKey i with
  | Some _ => r = Err ERR_APPACCOUNT_SERVICE_ADD_EXISTING_ACCOUNT ∧ S' = S
  | None =>
      if bool_decide (ACCOUNT_MAX_SIZE ≤ size (accounts_of (account_prefix (owner_ i) (appIndex_ i)) S))%nat then
        r = Err ERR_APPACCOUNT_SERVICE_ACCOUNT_MAX_SIZE ∧ S' = S
      else r = Ok i ∧ S' = with_account (GetPrimeKey i) i S
  end.

(** The account [CreateAccount] makes. *)
Definition created (name : string) (customData : gmap string string) : AppAccountInfo :=
  set_associated (PackJsonToString (CreateJsonFromMap customData)) (info name).

Lemma created_storable name customData :
  nul_free name → nul_free bundleName → is_u32 appIndex → storable (created name customData).
Proof.
  intros Hn Hb Hx. unfold created. pose proof (pack_nul_free (CreateJsonFromMap customData)).
  pose proof (new_account_storable bundleName appIndex name "" Hn Hb eq_refl Hx) as Hi.
  split; [split; by vm_compute|done| |apply Hi|apply Hi]. cbn. by repeat constructor.
Qed.

Lemma InitCustomData_run name customData :
  InitCustomData customData (info name) = (Ok tt, created name customData).
Proof.
  unfold InitCustomData, created. rewrite CreateJsonFromMap_eq. cbv zeta. set (j := JObject _).
  destruct (alloc_print j) as [s Hs]. pose proof (print_text j s Hs) as [Hne _].
  assert (string_empty (PackJsonToString (Some j)) = false) as E.
  { rewrite (PackJsonToString_print _ _ Hs). by destruct s. }
  msimpl. by rewrite E.
Qed.

(** The end of both requests: the account is built and handed to the store. *)
Lemma add_ends {i0} i (k : M World AppAccountInfo) S :
  fresh_info i0 → storable i → normalize i = i → NeedSyncDataStorage i = false → GetPrimeKey i = GetPrimeKey i0 →
  (∀ w, k w = (_ ← AddAccountInfoIntoDataStorage i p uid; mret i) w) →
  ends p (r ← mtry (GetAccountInfoFromDataStorage i0 p);
          match r with
          | Ok _ => merr ERR_APPACCOUNT_SERVICE_ADD_EXISTING_ACCOUNT
          | Err _ => k
          end) S (adds i S).
Proof.
  intros Hf Hi Hn Hs Hkey Hk. unfold adds. rewrite Hkey.
  eapply ends_bind; [by apply ends_try, ends_load| |by intros e S1 (r0 & ? & _)].
  intros r S1 (r0 & [= ->] & -> & Hr). rewrite Hr. destruct r0 as [j|e]; [by apply ends_err|].
  intros w. rewrite (Hk w). revert w. fold (ends p (_ ← AddAccountInfoIntoDataStorage i p uid; mret i) S
    (λ r S', if bool_decide (ACCOUNT_MAX_SIZE ≤ size (accounts_of (account_prefix (owner_ i) (appIndex_ i)) S))%nat
      then r = Err ERR_APPACCOUNT_SERVICE_ACCOUNT_MAX_SIZE ∧ S' = S
      else r = Ok i ∧ S' = with_account (GetPrimeKey i0) i S)).
  rewrite <-Hkey in Hr |- *.
  eapply ends_bind; [by apply ends_add| |]; cbv beta; intros a S1; case_bool_decide; intros [[= ?] ->];
    [apply ends_ret; by subst|split; by subst].
Qed.

Lemma AddAccount_ends name extraInfo S :
  nul_free name → nul_free bundleName → nul_free extraInfo → is_u32 appIndex →
  ends p (AddAccount name extraInfo uid bundleName (info name)) S (adds (SetExtraInfo extraInfo (info name)) S).
Proof.
  intros. apply ends_get. apply (add_ends (SetExtraInfo extraInfo (info name))); try done.
  by apply new_account_storable.
Qed.

Lemma CreateAccount_ends name customData S :
  nul_free name → nul_free bundleName → is_u32 appIndex →
  ends p (CreateAccount name customData uid bundleName (info name)) S (adds (created name customData) S).
Proof.
  intros. apply ends_get. apply (add_ends (created name customData)); try done; [by apply created_storable|].
  intros w. unfold or_error. rewrite mbind_assoc, run_try. unfold on_info. rewrite InitCustomData_run. done.
Qed.
End Additions.

(** ** The removal of a package *)

Section Removal.
Context {cfg : Config} {cjson : CJsonLib} {laws : CJsonLaws} {alloc : CJsonAlloc} {target : Target} {ssl : OpenSSL}.
Context {adapter : DbAdapter} {dblaws : DbLaws} {rel : DbReliable} {asset : AssetApi}.

(** [settles p m S post]: as [ends], for a store outside a transaction. *)
Definition settles {A} (p : string) (m : M World A) (S : AccountSpec) (post : AccountSpec → Prop) : Prop :=
  ∀ w, store_repr (contents (base (view_at p w))) S → saved (base (view_at p w)) = None →
    let w' := (m w).2 in
    saved (base (view_at p w')) = None ∧ ∃ S', store_repr (contents (base (view_at p w'))) S' ∧ post S'.

Lemma ends_settles {A} p (m : M World A) S post : ends p m S (λ _ S', post S') → settles p m S post.
Proof. intros Hm w HS Hno. specialize (Hm w HS). destruct (m w) as [r w']. cbn. rewrite <-Hno. done. Qed.

Lemma settles_bind {A B} p (m : M World A) (k : A → M World B) S post :
  settles p m S post → (∀ a S1, post S1 → settles p (k a) S1 post) → settles p (m ≫= k) S post.
Proof.
  intros Hm Hk w HS Hno. rewrite mbind_unfold. specialize (Hm w HS Hno). destruct (m w) as [[a|e] w1]; [|done].
  destruct Hm as (Hs1 & S1 & HS1 & Hp1). by apply (Hk a S1 Hp1 w1).
Qed.

Lemma settles_try {A} p (m : M World A) S post : settles p m S post → settles p (mtry m) S post.
Proof. intros Hm w HS Hno. specialize (Hm w HS Hno). unfold mtry. by destruct (m w). Qed.

Lemma settles_keeps {A} p (m : M World A) S (post : AccountSpec → Prop) : keeps_store p m → post S → settles p m S post.
Proof. intros Hm Hp. apply ends_settles. eapply ends_conseq; [by apply ends_keeps|]. by intros r S' ->. Qed.

Lemma settles_get {A} p uid sync (k : string → M World A) S post :
  settles p (k (store_key uid sync)) S post → settles p (GetDataStorage uid sync ≫= k) S post.
Proof.
  intros Hk w HS Hno. rewrite mbind_unfold. destruct (GetDataStorage_run uid sync w) as (w1 & -> & Hv & _).
  specialize (Hk w1). rewrite (Hv p) in Hk. by apply Hk.
Qed.

Lemma settles_transaction {A} p (body : M World A) S (post : AccountSpec → Prop) :
  (∀ x n, preserves (of_store p (txn_state x n)) body) → ends p body S (λ _ S', post S') → post S →
  settles p (with_transaction (store_at p) body) S post.
Proof.
  intros Hbody Hends HS0 w HS Hno. pose proof (transaction_outcome (store_at p) body w Hno Hbody) as H.
  destruct (with_transaction _ _ w) as [[a|e] w']; cbn [snd].
  - destruct H as (_ & Hs & s1 & w2 & s3 & Hc1 & E2 & -> & Hc3).
    change (view (store_at p)) with (view_at p) in *. change (update (store_at p)) with (update_at p) in *.
    specialize (Hends (update_at p s1 w)). rewrite E2, view_update_at, Hc1 in Hends.
    destruct (Hends HS) as (_ & S' & HS' & Hp).
    split; [done|]. exists S'. rewrite view_update_at in *. by rewrite Hc3.
  - destruct H as (_ & Hd & Hs). specialize (Hs rel). split; [done|]. exists S. split; [|done].
    change (view (store_at p)) with (view_at p) in *. unfold durable in Hd. rewrite Hs in Hd.
    change (contents (base (view_at p w')) = contents (base (view_at p w))) in Hd. by rewrite Hd.
Qed.

(** One account, found by its prefix and removed under a key. *)
Definition drop_account (k : string) (apps : list string) (S : AccountSpec) : AccountSpec :=
  mkSpec (delete k (accounts S)) (index (foldl (λ S app, with_index app (erase_account_id k) S) S apps)).

Definition drop_found (appIndex : Z) (l : list AppAccountInfo) (S : AccountSpec) : AccountSpec :=
  foldl (λ S a, drop_account (GetPrimeKey (SetAppIndex appIndex a)) (set_list (authorizedApps_ a)) S) S l.

Lemma ends_ignore {A} p (m : M World A) S Q :
  ends p m S (λ _ S', Q S') → ends p (ignore m) S (λ r S', r = Ok tt ∧ Q S').
Proof.
  intros Hm. unfold ignore. eapply ends_bind; [by apply ends_try| |by intros e S1 (r0 & ? & _)].
  intros r S1 (r0 & [= ->] & HQ). by apply ends_ret.
Qed.

Lemma ends_other {A} p sp (b : bool) (m : M Storage A) S :
  (b = true → p ≠ sp) →
  ends p (if b then ignore (on_store sp m) else mret tt) S (λ r S', r = Ok tt ∧ S' = S).
Proof.
  intros Hb. destruct b; [|by apply ends_ret]. eapply (ends_ignore _ _ _ (λ S', S' = S)), ends_keeps.
  apply on_store_other_keeps. auto.
Qed.

Lemma ends_revoke_all p sp b i apps S :
  (b = true → p ≠ sp) → index_short (index S) → Forall (λ app, string_empty app = false ∧ nul_free app) apps →
  ends p (mfor apps (λ app,
      _ ← ignore (RemoveAuthorizedAccountFromDataStorage app i p);
      if b then ignore (RemoveAuthorizedAccountFromDataStorage app i sp) else mret tt)) S
    (λ r S', r = Ok tt ∧ S' = foldl (λ S app, with_index app (erase_account_id (GetPrimeKey i)) S) S apps).
Proof.
  intros Hb Hshort Happs. revert S Hshort.
  induction Happs as [|app apps [He Hn] _ IH]; intros S Hshort; cbn [mfor foldl]; [by apply ends_ret|].
  eapply (ends_bind _ _ _ _ (λ r S', r = Ok tt ∧ S' = with_index app (erase_account_id (GetPrimeKey i)) S));
    [| |by intros e S1 [? _]].
  - eapply ends_bind; [eapply (ends_ignore _ _ _ (λ S', S' = _)), ends_change; try done| |by intros e S1 [? _]].
    + intros l Hl. by apply erase_account_id_Forall.
    + intros [] S1 [_ ->]. by apply ends_other.
  - intros [] S1 [_ ->]. apply IH. apply erase_short; [intros; apply erase_account_id_length|done].
Qed.

Definition apps_fine (a : AppAccountInfo) : Prop :=
  Forall (λ app, string_empty app = false ∧ nul_free app) (set_list (authorizedApps_ a)).

Lemma ends_remove_account p sp idx a S :
  (DISTRIBUTED_FEATURE_ENABLED = true → p ≠ sp) → index_short (index S) → apps_fine a →
  ends p (remove_account_data p idx sp a) S (λ r S', r = Ok tt ∧
    S' = drop_account (GetPrimeKey (SetAppIndex idx a)) (set_list (authorizedApps_ a)) S).
Proof.
  intros Hsp Hshort Ha. unfold remove_account_data. cbv zeta. set (i := SetAppIndex idx a).
  assert (Hb : DISTRIBUTED_FEATURE_ENABLED && NeedSyncDataStorage i = true → p ≠ sp)
    by (intros [? _]%andb_true_iff; auto).
  eapply ends_bind; [by apply ends_revoke_all| |by intros e S1 [? _]]. intros [] S1 [_ ->].
  eapply ends_bind; [eapply (ends_ignore _ _ _ (λ S', S' = _)), ends_delete; done| |by intros e S1 [? _]].
  intros [] S1 [_ ->]. rewrite erase_index_accounts. by apply ends_other.
Qed.

Lemma drop_short k apps S : index_short (index S) → index_short (index (drop_account k apps S)).
Proof.
  unfold drop_account. cbn [index]. revert S. induction apps as [|app apps IH]; intros S Hs; cbn [foldl]; [done|].
  apply IH, erase_short; [intros; apply erase_account_id_length|done].
Qed.

Lemma ends_remove_found p sp idx l S :
  (DISTRIBUTED_FEATURE_ENABLED = true → p ≠ sp) → index_short (index S) → Forall apps_fine l →
  ends p (mfor l (remove_account_data p idx sp)) S (λ r S', S' = drop_found idx l S).
Proof.
  intros Hsp Hshort Hl. revert S Hshort.
  induction Hl as [|a l Ha _ IH]; intros S Hshort; cbn [mfor drop_found foldl]; [by apply ends_ret|].
  eapply ends_bind; [by apply ends_remove_account| |by intros e S1 [? _]]. intros [] S1 [_ ->].
  apply IH. by apply drop_short.
Qed.
End Removal.
