(* ===== verification/AppAccountChanges.v ===== *)
(** The requests to the app account control manager together: every one of them
    that writes a user's store, and what holds of the store after any sequence of
    them.  The index of authorized accounts agrees with the accounts, and no app
    has more than 1000 accounts in one index. *)
From Stdlib Require Import ZArith Lia Ascii String.
From stdpp Require Import base list gmap sets strings pretty sorting.
From S2P Require Import Prelude ErrorCodes Json AppAccountInfo AppAccountJson DataStorage AppIndex AppAccountStore AccountModel AppAccountControl AppAccountRequests AppAccountOutcomes.

(** ** What the removal of a package does to the accounts and the index *)

Section Removed_accounts.
Context {cfg : Config}.

(** Owners are bundle names, which hold no separator. *)
Definition owned (S : AccountSpec) : Prop := map_Forall (λ _ a, char_free HYPHEN (owner_ a)) (accounts S).

Lemma first_sep_inj c s s' t t' :
  char_free c s → char_free c s' → s +:+ String c t = s' +:+ String c t' → s = s' ∧ t = t'.
Proof.
  revert s'. induction s as [|a s IH]; intros [|a' s']; rewrite ?char_free_cons, ?string_app_nil_l, ?string_app_cons.
  - by intros _ _ [= ->].
  - intros _ [Hne _] [= -> _]. done.
  - intros [Hne _] _ [= -> _]. done.
  - intros [_ Hs] [_ Hs'] [= -> E]. by destruct (IH s' Hs Hs' E) as [-> ->].
Qed.

(** An account found by the prefix of an app and an index is the app's, and the
    key it would have in that index belongs to an account found, too. *)
Lemma found_owner bundle idx a :
  char_free HYPHEN bundle → char_free HYPHEN (owner_ a) →
  String.prefix (account_prefix bundle idx) (GetPrimeKey a) = true → owner_ a = bundle.
Proof.
  intros Hb Ho [t Ht]%prefix_exists. unfold account_prefix, GetPrimeKey in Ht.
  rewrite string_app_assoc, string_app_cons in Ht. by destruct (first_sep_inj _ _ _ _ _ Ho Hb Ht).
Qed.

Lemma same_key_found bundle idx a a0 :
  char_free HYPHEN bundle → is_u32 idx → char_free HYPHEN (owner_ a0) → is_u32 (appIndex_ a0) →
  owner_ a = bundle → GetPrimeKey a0 = GetPrimeKey (SetAppIndex idx a) →
  String.prefix (account_prefix bundle idx) (GetPrimeKey a0) = true ∧
  GetPrimeKey (SetAppIndex idx a0) = GetPrimeKey a0.
Proof.
  intros Hb Hi Ho0 Hi0 Ho E. split.
  - rewrite E. apply prefix_exists. unfold GetPrimeKey, account_prefix. cbn [owner_ appIndex_ name_ SetAppIndex].
    rewrite Ho. eexists. by rewrite string_app_assoc.
  - unfold GetPrimeKey in *. cbn [owner_ appIndex_ name_ SetAppIndex] in *. rewrite Ho in E.
    destruct (first_sep_inj _ _ _ _ _ Ho0 Hb E) as [_ E2].
    destruct (first_sep_inj _ _ _ _ _ (appIndex_char_free _ Hi0) (appIndex_char_free _ Hi) E2) as [-> _]. done.
Qed.

Lemma drop_account_lookup k apps S app :
  NoDup (default [] (index S !! app)) →
  let S' := drop_account k apps S in
  accounts S' = delete k (accounts S) ∧ NoDup (default [] (index S' !! app)) ∧
  ∀ x, x ∈ default [] (index S' !! app) ↔ x ∈ default [] (index S !! app) ∧ (app ∈ apps → x ≠ k).
Proof.
  intros Hnd. destruct (erase_index_lookup k apps S app Hnd) as (_ & H1 & H2). by split_and!.
Qed.

Lemma drop_found_lookup idx l S app :
  NoDup (default [] (index S !! app)) →
  let S' := drop_found idx l S in
  (∀ k, accounts S' !! k =
    if bool_decide (k ∈ (λ a, GetPrimeKey (SetAppIndex idx a)) <$> l) then None else accounts S !! k) ∧
  NoDup (default [] (index S' !! app)) ∧
  ∀ x, x ∈ default [] (index S' !! app) ↔ x ∈ default [] (index S !! app) ∧
    ∀ a, a ∈ l → app ∈ authorizedApps_ a → x ≠ GetPrimeKey (SetAppIndex idx a).
Proof.
  cbv zeta. revert S. induction l as [|a l IH]; intros S Hnd; cbn [drop_found foldl].
  { split_and!; [done|done|set_solver]. }
  set (ka := GetPrimeKey (SetAppIndex idx a)).
  destruct (drop_account_lookup ka (set_list (authorizedApps_ a)) S app Hnd) as (E & H1 & H2).
  fold (drop_found idx l). destruct (IH _ H1) as (IH1 & IH2 & IH3). split_and!; [|done|].
  - intros k. rewrite IH1, E, fmap_cons. fold ka. destruct (decide (k = ka)) as [->|Hne].
    + rewrite lookup_delete_eq, (bool_decide_true (ka ∈ ka :: _)) by set_solver. by case_bool_decide.
    + rewrite lookup_delete_ne by done. do 2 case_bool_decide; set_solver.
  - intros x. rewrite IH3, H2, elem_of_set_list. fold ka. setoid_rewrite elem_of_cons. naive_solver.
Qed.

Definition found (bundle : string) (idx : Z) (S : AccountSpec) : list AppAccountInfo :=
  (map_list (accounts_of (account_prefix bundle idx) S)).*2.

Lemma elem_of_found bundle idx S a :
  a ∈ found bundle idx S ↔ ∃ k, accounts S !! k = Some a ∧ String.prefix (account_prefix bundle idx) k = true.
Proof.
  unfold found. rewrite list_elem_of_fmap. split.
  - intros ([k b] & -> & Hk%elem_of_map_list). apply map_lookup_filter_Some in Hk as [? ?]. by exists k.
  - intros (k & Hk & Hp). exists (k, a). split; [done|]. apply elem_of_map_list. by apply map_lookup_filter_Some.
Qed.

Lemma drop_found_subset idx l S k a :
  accounts (drop_found idx l S) !! k = Some a → accounts S !! k = Some a.
Proof.
  revert S. induction l as [|b l IH]; intros S; cbn [drop_found foldl]; [done|].
  intros H%IH. by apply (lookup_delete_Some (accounts S)) in H as [_ ?].
Qed.

Lemma drop_found_consistent bundle idx S :
  char_free HYPHEN bundle → is_u32 idx → keyed S → stored_well S → owned S → consistent S →
  consistent (drop_found idx (found bundle idx S) S).
Proof.
  intros Hb Hi Hkey Hst Hown HS app. destruct (HS app) as [Hnd Hin].
  destruct (drop_found_lookup idx (found bundle idx S) S app Hnd) as (H1 & H2 & H3). split; [done|].
  intros k. rewrite H3, Hin, H1.
  assert (Hsame : ∀ a0, accounts S !! k = Some a0 → k ∈ (λ a, GetPrimeKey (SetAppIndex idx a)) <$> found bundle idx S →
    a0 ∈ found bundle idx S ∧ GetPrimeKey (SetAppIndex idx a0) = k).
  { intros a0 Ha0 (a & -> & Ha)%list_elem_of_fmap. apply elem_of_found in Ha as (ka & Hka & Hp).
    rewrite <-(Hkey _ _ Hka) in Hp. pose proof (found_owner _ _ _ Hb (Hown _ _ Hka) Hp) as Ho.
    destruct (same_key_found bundle idx a a0 Hb Hi (Hown _ _ Ha0) (storable_index _ (Hst _ _ Ha0)) Ho (Hkey _ _ Ha0))
      as [Hp0 Hk0]. rewrite (Hkey _ _ Ha0) in Hp0, Hk0. split; [|done]. apply elem_of_found. eauto. }
  split.
  - intros ((a0 & Ha0 & Happ) & Hno). case_bool_decide as Hk; [|by exists a0].
    destruct (Hsame a0 Ha0 Hk) as [Hf Hk0]. by destruct (Hno a0 Hf Happ).
  - case_bool_decide as Hk; [by intros (? & ? & _)|]. intros (a0 & Ha0 & Happ). split; [by exists a0|].
    intros a Ha _ ->. apply Hk, list_elem_of_fmap. by exists a.
Qed.
End Removed_accounts.

(** ** The requests *)

(** Everything the manager serves that writes a user's store, apart from the
    migration of old stores, and the ends of a user, which drop its storage
    object.  A request for a token carries its own caller. *)
Inductive change :=
  | Basic (q : request)
  | Create (name : string) (customData : gmap string string)
  | SetExtra (name extraInfo : string)
  | SetSync (name : string) (syncEnable : bool)
  | SetData (name key value : string)
  | SetCredential (name credentialType credential : string)
  | DeleteCredential (name credentialType : string)
  | SetToken (r : AuthenticatorSessionRequest)
  | DeleteToken (r : AuthenticatorSessionRequest) (apiVersion : Z)
  | SetTokenVisibility (r : AuthenticatorSessionRequest) (apiVersion : Z)
  | PackageRemoved
  | UserStopping (userId : Z)
  | UserRemoved (userId : Z)
  | UserGone (localId : Z) (isRemoved : bool).

(** A request with the app that makes it, or that is removed. *)
Record call := mkCall {
  call_uid : Z;
  call_bundleName : string;
  call_appIndex : Z;
  call_change : change;
}.

Section Calls.
Context {cfg : Config} {cjson : CJsonLib} {laws : CJsonLaws} {alloc : CJsonAlloc} {target : Target} {ssl : OpenSSL}
  {bytes : SSLBytes}.
Context {adapter : DbAdapter} {dblaws : DbLaws} {rel : DbReliable} {closes : DbCloses} {asset : AssetApi}
  {services : Services}.

Definition exec_call (c : call) : M World unit :=
  let uid := call_uid c in
  let bundleName := call_bundleName c in
  let i name := account_key name bundleName (call_appIndex c) in
  let ci := mkCallingInfo uid bundleName (call_appIndex c) in
  match call_change c with
  | Basic q => _ ← exec_request uid bundleName (call_appIndex c) q; mret tt
  | Create name customData => _ ← CreateAccount name customData uid bundleName (i name); mret tt
  | SetExtra name extraInfo => _ ← SetAccountExtraInfo name extraInfo uid bundleName (i name); mret tt
  | SetSync name b => _ ← SetAppAccountSyncEnable name b uid bundleName (i name); mret tt
  | SetData name key value => SetAssociatedData name key value ci
  | SetCredential name t credential => SetAccountCredential name t credential ci
  | DeleteCredential name t => DeleteAccountCredential name t ci
  | SetToken r => SetOAuthToken r
  | DeleteToken r v => DeleteOAuthToken r v
  | SetTokenVisibility r v => SetOAuthTokenVisibility r v
  | PackageRemoved => OnPackageRemoved uid bundleName (call_appIndex c)
  | UserStopping userId => OnUserStopping userId
  | UserRemoved userId => OnUserRemoved userId
  | UserGone localId b => SetOsAccountRemoved localId b
  end.

Definition exec_calls (l : list call) (w : World) : World := foldl (λ w c, (exec_call c w).2) w l.

(** A call of a user: the caller's store is the user's, its texts hold no null
    characters and its bundle name no separator. *)
Definition call_plain (p : string) (c : call) : Prop :=
  store_key (call_uid c) false = p ∧ nul_free (call_bundleName c) ∧ char_free HYPHEN (call_bundleName c) ∧
  is_u32 (call_appIndex c) ∧
  match call_change c with
  | Basic q => request_plain (call_bundleName c) (call_appIndex c) q
  | Create name _ => nul_free name
  | SetExtra _ extraInfo => nul_free extraInfo
  | SetToken r => callerUid r = call_uid c ∧ nul_free (request_authType r) ∧ nul_free (request_token r)
  | DeleteToken r _ => callerUid r = call_uid c
  | SetTokenVisibility r _ =>
      callerUid r = call_uid c ∧ nul_free (request_authType r) ∧ nul_free (request_bundleName r)
  | _ => True
  end.

(** *** What one of them keeps *)

Definition good (S : AccountSpec) : Prop := consistent S ∧ named S ∧ owned S.

Definition sound (S S' : AccountSpec) : Prop :=
  good S' ∧ (size (accounts S') ≤ size (accounts S) + 1)%nat ∧ (limited S → limited S').

Lemma sound_refl S : good S → sound S S.
Proof. intros HG. split; [done|split; [lia|done]]. Qed.

Lemma insert_size k (a : AppAccountInfo) m : (size (<[k := a]> m : gmap string _) ≤ size m + 1)%nat.
Proof. rewrite map_size_insert. destruct (m !! k); simpl; lia. Qed.

Lemma written_sound S S' : good S → written S S' → sound S S'.
Proof.
  intros (HC & HN & HO) [->|(k & j & j' & Hj & (_ & (Ho & _ & Hx) & Happ) & ->)]; [by apply sound_refl|].
  set (a := normalize j'). assert (Ha : authorizedApps_ a = authorizedApps_ j) by done.
  unfold sound, good. split_and!; [| | |apply insert_size|].
  - intros app. destruct (HC app) as [Hnd Hin]. split; [done|]. intros k'. cbn. rewrite Hin.
    destruct (decide (k = k')) as [<-|Hne]; [rewrite lookup_insert_eq, Hj|by rewrite lookup_insert_ne].
    split; intros (b & [= <-] & Hb); eexists; (split; [done|]); congruence.
  - apply named_account; [done|]. rewrite Ha. by eapply named_lookup.
  - apply map_Forall_insert_2; [|done]. change (char_free HYPHEN (owner_ j')). rewrite Ho. by apply (HO k).
  - intros HL. apply (limited_subset S); [|done]. intros owner i. by apply (own_with_account k j).
Qed.

Lemma adds_sound i S r S' :
  good S → keyed S → authorizedApps_ i = ∅ → char_free HYPHEN (owner_ i) → adds i S r S' → sound S S'.
Proof.
  intros (HC & HN & HO) Hkey Happ Hown. unfold adds. destruct (accounts S !! GetPrimeKey i) eqn:Ei.
  { intros [_ ->]. by apply sound_refl. }
  case_bool_decide as Hmax; intros [_ ->]; [by apply sound_refl|].
  set (prefix := account_prefix (owner_ i) (appIndex_ i)) in *.
  assert (E : spec_add (GetPrimeKey i) prefix i S = Some (with_account (GetPrimeKey i) i S)).
  { unfold spec_add. by rewrite Ei, bool_decide_false. }
  unfold sound, good. split_and!; [| | |apply insert_size|].
  - by eapply spec_add_consistent.
  - by eapply spec_add_named.
  - by apply map_Forall_insert_2.
  - intros HL. by eapply spec_add_limited.
Qed.

Lemma removal_sound bundle idx S :
  char_free HYPHEN bundle → is_u32 idx → keyed S → stored_well S → good S →
  sound S (drop_found idx (found bundle idx S) S).
Proof.
  intros Hb Hi Hkey Hst (HC & HN & HO). set (S' := drop_found _ _ S).
  assert (Hsub : ∀ k a, accounts S' !! k = Some a → accounts S !! k = Some a) by (intros k a; apply drop_found_subset).
  unfold sound, good. split_and!.
  - by apply drop_found_consistent.
  - intros k a Ha. by apply (HN k), Hsub.
  - intros k a Ha. by apply (HO k), Hsub.
  - apply Nat.le_trans with (size (accounts S)); [|lia]. rewrite <-!size_dom. apply subseteq_size. intros k.
    rewrite !elem_of_dom. intros [a Ha%Hsub]. by exists a.
  - intros HL. apply (limited_subset S); [|done]. intros owner i k. rewrite !own_dom.
    intros (a & Ha%Hsub & Hp). by exists a.
Qed.

Lemma basic_sound bundleName appIndex q S S' :
  request_plain bundleName appIndex q → char_free HYPHEN bundleName → keyed S → good S →
  spec_request bundleName appIndex q S = Some S' → sound S S'.
Proof.
  intros Hq Hb Hkey (HC & HN & HO) E. destruct (spec_request_keeps _ _ _ _ _ Hq HC HN E) as [HC' HN'].
  unfold sound, good.
  split_and!; [done|done| |by eapply spec_request_size|intros HL; by eapply spec_request_limited].
  destruct q as [name e|name|name app v|name app v]; cbn in E; unfold spec_add, spec_delete, spec_enable, spec_disable in E;
    destruct (accounts S !! _) as [a|] eqn:Ea; try done.
  - case_bool_decide; [done|]. injection E as <-. by apply map_Forall_insert_2.
  - injection E as <-. unfold owned. rewrite erase_index_accounts. by apply map_Forall_delete.
  - destruct (_ && _); [done|]. destruct (_ <? _); [done|]. injection E as <-.
    apply (map_Forall_insert_2 _ (accounts S)); [|done]. by apply (HO _ a Ea).
  - destruct (_ && _); [done|]. injection E as <-.
    apply (map_Forall_insert_2 _ (accounts S)); [|done]. by apply (HO _ a Ea).
Qed.

(** *** The storage objects *)

(** What the requests that drop storage objects leave of a store. *)
Definition at_rest (p : string) (c : gmap string string) (w : World) : Prop :=
  contents (base (view_at p w)) = c ∧ saved (base (view_at p w)) = None.

Lemma settles_rest {A} p (m : M World A) S (post : AccountSpec → Prop) :
  (∀ c, preserves (at_rest p c) m) → post S → settles p m S post.
Proof.
  intros Hm Hp w HS Hno. destruct (Hm _ w (conj eq_refl Hno)) as [Hc Hs]. split; [done|]. exists S. by rewrite Hc.
Qed.

Lemma Close_rest c :
  preserves (λ s, contents (base s) = c ∧ saved (base s) = None) (Close : M Storage _).
Proof.
  intros s [Hc Hs]. unfold Close. rewrite mbind_unfold. destruct (kv_close (base s)) as [st d] eqn:E.
  rewrite (on_db_run _ _ _ _ E). unfold set_ptr. msimpl. destruct (close_keeps _ _ _ Hs E) as [Hc' Hs'].
  cbn. split; congruence.
Qed.

Lemma drop_objects_rest p c f w :
  at_rest p c (set_objects (f (storePtrMap_ w)) w) ↔ at_rest p c w.
Proof. done. Qed.

Lemma CloseDataStorage_rest p c : preserves (at_rest p c) CloseDataStorage.
Proof.
  unfold CloseDataStorage. apply preserves_get_bind. intros w _. apply preserves_for. intros id.
  apply preserves_get_bind. intros w1 _. destruct (storePtrMap_ w1 !! id) as [[o|]|]; [|apply preserves_ret..].
  apply preserves_bind.
  - apply (on_store_any p id (λ s, contents (base s) = c ∧ saved (base s) = None)), Close_rest.
  - intros st. case_bool_decide; [|apply preserves_ret]. by apply preserves_modify.
Qed.

Lemma RemoveAppAccountData_settles uid bundle idx S :
  let p := store_key uid false in
  index_short (index S) → named S → stored_well S →
  settles p (RemoveAppAccountData uid bundle idx) S (λ S', S' = S ∨ S' = drop_found idx (found bundle idx S) S).
Proof.
  cbv zeta. intros Hshort HN Hst. unfold RemoveAppAccountData. apply settles_get. cbv zeta.
  set (p := store_key uid false). set (key := account_prefix bundle idx).
  assert (Happs : Forall apps_fine (map_list (accounts_of key S)).*2).
  { apply Forall_forall. intros a (k & Ha & _)%elem_of_found. apply Forall_forall. intros app Happ%elem_of_set_list.
    split; [|by apply (storable_apps _ (Hst _ _ Ha))]. pose proof (named_lookup _ _ _ HN Ha). by destruct app. }
  assert (Hgo : ∀ sp, (DISTRIBUTED_FEATURE_ENABLED = true → p ≠ sp) →
    settles p (RemoveAppAccountDataFromDataStorage p key idx sp) S
      (λ S', S' = S ∨ S' = drop_found idx (found bundle idx S) S)).
  { intros sp Hsp. apply settles_transaction; [..|by left].
    - intros x n. unfold remove_account_data, ignore. preserve.
    - eapply ends_bind; [by apply ends_query, account_prefix_separator| |by intros e S1 [? _]].
      intros l S1 [[= ->] ->]. eapply ends_conseq; [by apply ends_remove_found|]. intros r S' ->. by right. }
  eapply settles_bind.
  - destruct DISTRIBUTED_FEATURE_ENABLED eqn:Hd; [apply settles_get|]; apply Hgo; intros; [|congruence].
    intros E. by apply (sync_key_other uid).
  - intros _ S1 H1. apply settles_keeps; [|done]. intros c x n. unfold ignore, RemoveDataFromAssetByLabel. preserve.
Qed.

Lemma OnPackageRemoved_settles uid bundle idx S :
  let p := store_key uid false in
  index_short (index S) → named S → stored_well S →
  settles p (OnPackageRemoved uid bundle idx) S (λ S', S' = S ∨ S' = drop_found idx (found bundle idx S) S).
Proof.
  cbv zeta. intros Hshort HN Hst. unfold OnPackageRemoved. cbv zeta.
  intros w HS Hno. rewrite mbind_unfold. unfold RemoveAssociatedDataCacheByUid. msimpl.
  set (w1 := set_cache _ w). destruct (IsOsAccountRemoved _ w1); [by eauto|].
  refine ((_ : settles _ _ S _) w1 HS Hno). eapply settles_bind; [by apply settles_try, RemoveAppAccountData_settles|].
  intros r S1 H1. eapply settles_bind; [apply settles_rest; [intros c; apply CloseDataStorage_rest|exact H1]|].
  intros _ S2 H2. apply settles_keeps; [|done]. intros c x n. apply give_preserves.
Qed.

(** *** All of them *)

Lemma settles_conseq {A} p (m : M World A) S (post post' : AccountSpec → Prop) :
  settles p m S post → (∀ S', post S' → post' S') → settles p m S post'.
Proof. intros Hm Himp w HS Hno. destruct (Hm w HS Hno) as (? & S' & ? & ?). split; [done|]. exists S'. auto. Qed.

Lemma settles_discard {A} p (m : M World A) S post : settles p m S post → settles p (_ ← m; mret tt) S post.
Proof.
  intros Hm. eapply settles_bind; [done|]. intros _ S1 H1. apply settles_keeps; [apply keeps_ret|done].
Qed.

Lemma writes_settle {A} uid (m : M World A) S :
  good S → writes uid m S → settles (store_key uid false) m S (sound S).
Proof.
  intros HG Hm. eapply settles_conseq; [apply ends_settles, Hm|]. intros S' HS'. by apply written_sound.
Qed.

Lemma basic_settles uid bundleName appIndex q S :
  request_plain bundleName appIndex q → char_free HYPHEN bundleName → good S → index_short (index S) →
  settles (store_key uid false) (exec_request uid bundleName appIndex q) S (sound S).
Proof.
  intros Hq Hb HG Hshort w HS Hno. pose proof HG as (HC & HN & _).
  destruct (exec_request uid bundleName appIndex q w) as [r w'] eqn:E. cbn [snd].
  destruct (request_refines uid bundleName appIndex q w S r w' rel Hq HN Hshort HS Hno E) as [[Hs _] Hr].
  split; [done|]. destruct r as [a|e].
  - destruct Hr as (S' & ES' & HS'). exists S'. split; [done|]. eapply basic_sound; try done. by eapply repr_keyed.
  - destruct Hr as [Hr _]. exists S. rewrite Hr. split; [done|by apply sound_refl].
Qed.

(** However a call ends, the store keeps the invariants. *)
Lemma call_settles p c S :
  call_plain p c → good S → stored_well S → keyed S → index_short (index S) → settles p (exec_call c) S (sound S).
Proof.
  intros (<- & Hb & Hsep & Hi & Hc) HG HW HK Hshort. unfold exec_call. cbv zeta.
  destruct (call_change c) as
    [q|name data|name e|name b|name key value|name t cr|name t|r|r v|r v| |userId|userId|localId b].
  - by apply settles_discard, basic_settles.
  - apply settles_discard. eapply settles_conseq.
    + apply (ends_settles _ _ _ (λ S', ∃ r, adds (created (call_bundleName c) (call_appIndex c) name data) S r S')).
      eapply ends_conseq; [by apply CreateAccount_ends|]. by intros r S' H; exists r.
    + intros S' [r H]. exact (adds_sound (created (call_bundleName c) (call_appIndex c) name data) S r S' HG HK eq_refl Hsep H).
  - by apply settles_discard, writes_settle, SetAccountExtraInfo_writes.
  - by apply settles_discard, writes_settle, SetAppAccountSyncEnable_writes.
  - by apply writes_settle, SetAssociatedData_writes.
  - by apply writes_settle, SetAccountCredential_writes.
  - by apply writes_settle, DeleteAccountCredential_writes.
  - destruct Hc as (? & ? & ?). by apply writes_settle, SetOAuthToken_writes.
  - by apply writes_settle, DeleteOAuthToken_writes.
  - destruct Hc as (? & ? & ?). by apply writes_settle, SetOAuthTokenVisibility_writes.
  - eapply settles_conseq; [apply OnPackageRemoved_settles; [done|apply HG|done]|].
    intros S' [->| ->]; [by apply sound_refl|by apply removal_sound].
  - apply settles_rest; [|by apply sound_refl]. intros ct. by apply preserves_modify.
  - apply settles_rest; [|by apply sound_refl]. intros ct. by apply preserves_modify.
  - apply settles_rest; [|by apply sound_refl]. intros ct. apply preserves_modify. by destruct b.
Qed.

Lemma calls_settle p l S w :
  Forall (call_plain p) l → good S → Z.of_nat (size (accounts S) + length l) ≤ INT32_MAX →
  store_repr (contents (base (view_at p w))) S → saved (base (view_at p w)) = None →
  saved (base (view_at p (exec_calls l w))) = None ∧
  ∃ S', store_repr (contents (base (view_at p (exec_calls l w)))) S' ∧ good S' ∧ (limited S → limited S').
Proof.
  intros Hl. revert S w. induction Hl as [|c l Hc _ IH]; intros S w HG Hsize HS Hno; cbn [exec_calls foldl length] in *.
  { split; [done|]. by exists S. }
  assert (Hshort : index_short (index S)) by (apply consistent_short; [apply HG|lia]).
  destruct (call_settles p c S Hc HG (repr_stored_well _ _ HS) (repr_keyed _ _ HS) Hshort w HS Hno)
    as (Hs & S1 & HS1 & HG1 & Hz & HL1).
  destruct (IH S1 (exec_call c w).2 HG1) as (Hs' & S' & HS' & HG' & HL'); [lia|done|done|].
  split; [done|]. exists S'. split_and!; [done|done|auto].
Qed.
End Calls.

(** ** A refused addition *)

Section Refusal.
Context {cfg : Config} {cjson : CJsonLib} {laws : CJsonLaws} {alloc : CJsonAlloc} {target : Target} {ssl : OpenSSL}
  {bytes : SSLBytes}.
Context {adapter : DbAdapter} {dblaws : DbLaws} {rel : DbReliable} {asset : AssetApi}.

(** [calm p m S]: when [m] fails, the store has the texts it had. *)
Definition calm {A} (p : string) (m : M World A) (S : AccountSpec) : Prop :=
  ∀ w e w', store_repr (contents (base (view_at p w))) S → m w = (Err e, w') →
    contents (base (view_at p w')) = contents (base (view_at p w)).

Lemma calm_keeps {A} p (m : M World A) S : keeps_store p m → calm p m S.
Proof. intros Hm w e w' _ E. by destruct (keeps_run _ _ _ _ _ Hm E) as [Hc _]. Qed.

Lemma calm_pre {A B} p (m : M World A) (k : A → M World B) S :
  keeps_store p m → (∀ a, calm p (k a) S) → calm p (m ≫= k) S.
Proof.
  intros Hm Hk w e w' HS E. rewrite mbind_unfold in E. destruct (m w) as [r w1] eqn:E1.
  destruct (keeps_run _ _ _ _ _ Hm E1) as [Hc _]. destruct r as [a|e1]; [|by injection E as _ <-].
  rewrite <-Hc in HS |- *. by apply (Hk a w1 e).
Qed.

Lemma calm_storage {A} p uid sync (k : string → M World A) S :
  calm p (k (store_key uid sync)) S → calm p (GetDataStorage uid sync ≫= k) S.
Proof.
  intros Hk w e w' HS E. rewrite mbind_unfold in E. destruct (GetDataStorage_run uid sync w) as (w1 & E1 & Hv & _).
  rewrite E1 in E. rewrite <-(Hv p) in HS |- *. by apply (Hk w1 e).
Qed.

Lemma add_calm uid i S :
  let p := store_key uid false in
  storable i → NeedSyncDataStorage i = false →
  calm p (_ ← AddAccountInfoIntoDataStorage i p uid; mret i) S.
Proof.
  cbv zeta. intros Hi Hsync w e w' HS E. set (p := store_key uid false) in *.
  unfold AddAccountInfoIntoDataStorage in E. cbv zeta in E. fold (account_prefix (owner_ i) (appIndex_ i)) in E.
  rewrite mbind_assoc, mbind_unfold in E. unfold on_store at 1, zoom in E. cbn [view update store_at] in E.
  destruct (LoadDataByLocalFuzzyQuery _ (view_at p w)) as [r1 s1] eqn:E1.
  destruct (query_spec S _ _ _ _ HS (account_prefix_separator _ _) E1) as [[Hc1 _] _].
  destruct r1 as [l|e1]; [|injection E as _ <-; by rewrite view_update_at].
  case_bool_decide; [msimpl in E; injection E as _ <-; by rewrite view_update_at|].
  rewrite mbind_assoc, mbind_unfold in E. unfold on_store, zoom in E. cbn [view update store_at] in E.
  rewrite view_update_at in E. destruct (DataStorage.AddAccountInfoIntoDataStorage i s1) as [r2 s2] eqn:E2.
  rewrite <-Hc1 in HS. destruct (save_spec false S i s1 r2 s2 HS Hi E2) as [_ Hr].
  destruct r2 as [u|e2]; [|injection E as _ <-; rewrite view_update_at; congruence].
  unfold with_sync in E. rewrite Hsync, andb_false_r in E. by msimpl in E.
Qed.

Lemma AddAccount_calm uid bundleName appIndex name extraInfo S :
  nul_free name → nul_free bundleName → nul_free extraInfo → is_u32 appIndex →
  calm (store_key uid false) (AddAccount name extraInfo uid bundleName (account_key name bundleName appIndex)) S.
Proof.
  intros. apply calm_storage, calm_pre; [apply keeps_try, GetAccountInfo_keeps|]. intros [j|e]; cbv zeta.
  - apply calm_keeps. intros c x n. preserve.
  - by apply add_calm, eq_refl; apply new_account_storable.
Qed.

Lemma CreateAccount_calm uid bundleName appIndex name customData S :
  nul_free name → nul_free bundleName → is_u32 appIndex →
  calm (store_key uid false) (CreateAccount name customData uid bundleName (account_key name bundleName appIndex)) S.
Proof.
  intros. apply calm_storage, calm_pre; [apply keeps_try, GetAccountInfo_keeps|]. intros [j|e]; cbv zeta.
  - apply calm_keeps. intros c x n. preserve.
  - intros w e' w' HS E. unfold or_error in E. rewrite mbind_assoc, run_try in E. unfold on_info in E.
    rewrite InitCustomData_run in E. revert E.
    refine (add_calm uid (created bundleName appIndex name customData) S _ eq_refl w e' w' HS).
    by apply created_storable.
Qed.
End Refusal.

(** ** What requests guarantee *)

Section Guarantees.
Context {cfg : Config} {cjson : CJsonLib} {laws : CJsonLaws} {alloc : CJsonAlloc} {target : Target} {ssl : OpenSSL}
  {bytes : SSLBytes}.
Context {adapter : DbAdapter} {dblaws : DbLaws} {closes : DbCloses} {asset : AssetApi} {services : Services}.

(** C2. The index of authorized accounts agrees with the accounts.  Start from a
    store outside a transaction whose index lists each account for exactly the
    apps it grants access to, where every owner is a bundle name without the
    separator and no app with an empty name has access.  On a reliable database,
    let the apps of the user make any of the requests that write the store,
    whatever each of them answers: adding, creating and deleting accounts,
    enabling and disabling access, setting the extra information, the
    synchronisation, associated data, credentials, tokens and their visibility,
    deleting credentials and tokens, and the removal of packages; and let the
    user be stopped or removed in between.  Then the store still means accounts
    and an index, the index still lists exactly that, without repetition, and no
    transaction is left open.  The texts of the requests hold no null characters,
    and the number of accounts stays in 32 bits.  The migration of old stores,
    which copies texts as they are, is not among the requests. *)
Theorem index_agrees_with_accounts p l w S :
  DbReliable → Forall (call_plain p) l →
  store_repr (contents (base (view_at p w))) S → consistent S → named S → owned S →
  saved (base (view_at p w)) = None →
  Z.of_nat (size (accounts S) + length l) ≤ INT32_MAX →
  let w' := exec_calls l w in
  saved (base (view_at p w')) = None ∧
  ∃ S', store_repr (contents (base (view_at p w'))) S' ∧ consistent S' ∧ named S' ∧ owned S'.
Proof.
  intros rel Hl HS HC HN HO Hno Hsize. destruct (calls_settle p l S w Hl ltac:(by split_and!) Hsize HS Hno)
    as (Hs & S' & HS' & HG' & _). split; [done|]. by exists S'.
Qed.

(** C37. No app has more than 1000 accounts in one index, and the 1001st is refused
    as such.  Whatever requests the apps of a user make on a reliable database,
    of all those that write the store (the ones listed for the index above,
    creating accounts among them), the limit holds afterwards if it held before;
    and adding or creating an account whose key is free fails with the
    maximum-size error exactly when a query by the app's prefix finds 1000
    accounts or more, and then changes nothing in the store. *)
Theorem account_limit p l w S uid bundleName appIndex name extraInfo customData :
  DbReliable → Forall (call_plain p) l →
  store_repr (contents (base (view_at p w))) S → consistent S → named S → owned S → limited S →
  saved (base (view_at p w)) = None →
  Z.of_nat (size (accounts S) + length l) ≤ INT32_MAX →
  (∃ S', store_repr (contents (base (view_at p (exec_calls l w)))) S' ∧ limited S') ∧
  (store_key uid false = p → request_plain bundleName appIndex (ReqAdd name extraInfo) →
   let i := account_key name bundleName appIndex in
   accounts S !! GetPrimeKey i = None →
   ∀ m, m = AddAccount name extraInfo uid bundleName i ∨ m = CreateAccount name customData uid bundleName i →
   let '(r, w') := m w in
   if bool_decide (1000 ≤ size (accounts_of (account_prefix bundleName appIndex) S))%nat then
     r = Err ERR_APPACCOUNT_SERVICE_ACCOUNT_MAX_SIZE ∧
     contents (base (view_at p w')) = contents (base (view_at p w))
   else is_Ok r = true).
Proof.
  intros rel Hl HS HC HN HO HL Hno Hsize. split.
  - destruct (calls_settle p l S w Hl ltac:(by split_and!) Hsize HS Hno) as (_ & S' & HS' & _ & HL'). eauto.
  - intros <- (Hb & Hx & Hn & He) i Hfree m Hm.
    assert (Hm' : calm (store_key uid false) m S ∧ ∃ j, GetPrimeKey j = GetPrimeKey i ∧
      account_prefix (owner_ j) (appIndex_ j) = account_prefix bundleName appIndex ∧
      ends (store_key uid false) m S (adds j S)).
    { destruct Hm as [->| ->]; split.
      - by apply AddAccount_calm.
      - eexists. split_and!; [| |by apply AddAccount_ends]; done.
      - by apply CreateAccount_calm.
      - eexists. split_and!; [| |by apply CreateAccount_ends]; done. }
    destruct Hm' as (Hcalm & j & Hkey & Hpre & Hends). specialize (Hends w HS). destruct (m w) as [r w'] eqn:E.
    destruct Hends as (_ & S' & _ & Hr). unfold adds in Hr. rewrite Hkey, Hfree, Hpre in Hr.
    unfold ACCOUNT_MAX_SIZE in Hr. case_bool_decide; destruct Hr as [-> _]; [|done].
    split; [done|]. by eapply Hcalm.
Qed.
End Guarantees.

(** ** Witnesses *)

Section Witnesses.
Import TreeLib FaultyDb.
#[local] Existing Instance plain.
#[local] Existing Instance no_ssl.
#[local] Existing Instance no_assets.
#[local] Existing Instance TableDb.table_db.
#[local] Existing Instance TableDb.table_laws.
#[local] Existing Instance device.

#[local] Instance no_ssl_bytes : SSLBytes.
Proof. by intros s hash. Qed.

#[local] Instance table_closes : DbCloses.
Proof. intros d s d' Hd E. cbn in E. unfold write, next in E. cbn in E. by injection E as <- <-. Qed.

Lemma shared_owned : owned shared_spec.
Proof. apply map_Forall_singleton. by vm_compute. Qed.

(** com.example shares alice with com.c, creates bob, and synchronises alice; bob
    gets associated data and a token; com.example is removed, and the user
    stops. *)
Definition some_calls : list call :=
  let mk := mkCall 20000000 "com.example" 0 in
  [mk (Basic (ReqEnable "alice" "com.c" 9)); mk (Create "bob" {[ "k" := "v" ]}); mk (SetSync "alice" true);
   mk (SetData "bob" "k" "w");
   mk (SetToken (mkRequest "bob" "com.example" "read" "t0" "com.b" "com.example" 0 true 20000000));
   mk PackageRemoved; mk (UserStopping 100)].

Lemma some_calls_plain : Forall (call_plain "100") some_calls.
Proof. repeat (apply Forall_cons; split; [by vm_compute|]). apply Forall_nil_2. Qed.

Lemma index_agrees_with_accounts_witness :
  let w' := exec_calls some_calls shared_world in
  ∃ S', store_repr (contents (base (view_at "100" w'))) S' ∧ consistent S' ∧ named S' ∧ owned S'.
Proof.
  refine (proj2 (index_agrees_with_accounts "100" some_calls shared_world shared_spec TableDb.table_reliable
    some_calls_plain shared_repr shared_consistent shared_named shared_owned eq_refl _)).
  by vm_compute.
Defined.

(** They do what they say: bob is in the store before the package is removed, and
    nothing is left after it. *)
Lemma some_calls_run :
  size (contents (base (view_at "100" (exec_calls (take 5 some_calls) shared_world)))) = 3%nat ∧
  map_Forall (λ k _, k = AUTHORIZED_ACCOUNTS) (contents (base (view_at "100" (exec_calls some_calls shared_world)))).
Proof. split; [by vm_compute|]. by apply (bool_decide_unpack _); vm_compute. Qed.

Lemma account_limit_witness :
  let i := account_key "bob" "com.example" 0 in
  is_Ok (AddAccount "bob" "" 20000000 "com.example" i shared_world).1 = true ∧
  is_Ok (CreateAccount "bob" {[ "k" := "v" ]} 20000000 "com.example" i shared_world).1 = true.
Proof.
  pose proof (proj2 (account_limit "100" some_calls shared_world shared_spec 20000000 "com.example" 0 "bob" ""
    {[ "k" := "v" ]} TableDb.table_reliable some_calls_plain shared_repr shared_consistent shared_named
    shared_owned shared_limited eq_refl ltac:(by vm_compute)) eq_refl ltac:(by vm_compute) eq_refl) as H.
  pose proof (H _ (or_introl eq_refl)) as H1. pose proof (H _ (or_intror eq_refl)) as H2. cbv zeta. split.
  - destruct (AddAccount _ _ _ _ _ _) as [r w']. exact H1.
  - destruct (CreateAccount _ _ _ _ _ _) as [r w']. exact H2.
Defined.
End Witnesses.
