(* ===== verification/FileStore.v ===== *)
(** What the service relies on when it keeps its documents in files: the class
    [FileStore] has the operations of [AccountFileOperator] over an abstract state
    and what they do to the texts of files.  FileOperator.v has the code of the
    operations and discharges the class. *)
From Stdlib Require Import ZArith Lia Ascii String.
From stdpp Require Import base list gmap sets strings.
From S2P Require Import Prelude Json.

(** A file that is being written is next to the one it is going to replace. *)
Definition temp_suffix : string := ".tmp".
Definition is_temp (path : string) : bool :=
  bool_decide (String.substring (String.length path - 4) 4 path = temp_suffix).

(** [q] is below the directory [d]. *)
Definition below (d q : string) : Prop := ∃ t, q = d +:+ String "/" t.

Class FileStore (S : Type) `{CJsonLib} := {
  IsExistFile : string → M S bool;
  IsExistDir : string → M S bool;
  CheckFileExistence : string → M S unit;
  GetFileContentByPath : string → M S string;
  IsJsonFormat : string → M S bool;
  IsJsonFileReady : string → M S bool;
  InputFileByPathAndContent : string → string → M S unit;
  InputFileByPathAndContentWithTransaction : string → string → M S unit;
  DeleteFile : string → M S unit;
  DeleteDirOrFile : string → M S unit;
  (** the text of every file that is not being written *)
  texts : S → gmap string string;
  (** no file is being written *)
  idle : S → Prop;
  exists_spec p s : idle s → is_temp p = false →
    wp (IsExistFile p) (λ r s', idle s' ∧ texts s' = texts s ∧
      ∃ b, r = Ok b ∧ (b = true → is_Some (texts s !! p))) s;
  exists_dir_spec p s : idle s → wp (IsExistDir p) (λ r s', idle s' ∧ texts s' = texts s ∧ is_Ok r = true) s;
  check_spec p s : idle s → is_temp p = false →
    wp (CheckFileExistence p) (λ r s', idle s' ∧ texts s' = texts s ∧ (r = Ok tt → is_Some (texts s !! p))) s;
  read_spec p s : idle s → is_temp p = false →
    wp (GetFileContentByPath p) (λ r s', idle s' ∧ texts s' = texts s ∧ ∀ t, r = Ok t → texts s !! p = Some t) s;
  json_spec p s : idle s → is_temp p = false →
    wp (IsJsonFormat p) (λ r s', idle s' ∧ texts s' = texts s ∧
      ∃ b, r = Ok b ∧ (b = true → ∃ t, texts s !! p = Some t ∧ IsStructured (CreateJsonFromString t) = true)) s;
  ready_spec p s : idle s → is_temp p = false →
    wp (IsJsonFileReady p) (λ r s', idle s' ∧ texts s' = texts s ∧
      ∃ b, r = Ok b ∧ (b = true → ∃ t, texts s !! p = Some t ∧ IsStructured (CreateJsonFromString t) = true)) s;
  write_spec p c s : idle s → is_temp p = false →
    wp (InputFileByPathAndContent p c) (λ r s', idle s' ∧
      texts s' = match r with Ok _ => <[p := c]> (texts s) | Err _ => texts s end) s;
  transaction_spec p c s : idle s → is_temp p = false →
    wp (InputFileByPathAndContentWithTransaction p c) (λ r s', idle s' ∧
      texts s' = match r with Ok _ => <[p := c]> (texts s) | Err _ => texts s end) s;
  delete_file_spec p s : idle s → is_temp p = false →
    wp (DeleteFile p) (λ r s', idle s' ∧
      texts s' = match r with Ok _ => delete p (texts s) | Err _ => texts s end) s;
  delete_spec p s : idle s → is_temp p = false →
    wp (DeleteDirOrFile p) (λ r s', idle s' ∧ ∀ q, texts s' !! q = texts s !! q ∨
      (q = p ∨ below p q) ∧ texts s' !! q = None) s;
}.

(** A store whose device has room to spare and never fails. *)
Class ReliableStore (S : Type) `{FileStore S} := {
  reliable : S → Prop;
  (** a text that can be written and read back *)
  fits : string → Prop;
  exists_reliable p s : idle s → reliable s → is_temp p = false → string_empty p = false →
    wp (IsExistFile p) (λ r s', reliable s' ∧ r = Ok (bool_decide (is_Some (texts s !! p)))) s;
  read_reliable p s t : idle s → reliable s → is_temp p = false → string_empty p = false →
    texts s !! p = Some t → fits t →
    wp (GetFileContentByPath p) (λ r s', reliable s' ∧ r = Ok t) s;
  write_reliable p c s : idle s → reliable s → is_temp p = false → fits c →
    wp (InputFileByPathAndContent p c) (λ r s', reliable s' ∧ r = Ok tt) s;
}.

(** A computation that is none of the store's business. *)
Definition leaves_texts {S A} `{FileStore S} (m : M S A) : Prop :=
  ∀ s, idle s → idle (m s).2 ∧ texts (m s).2 = texts s.

(** A computation without an error code. *)
Definition is_void {S A} (m : M S A) : Prop := ∀ s, is_Ok (m s).1 = true.

Lemma is_temp_app p : is_temp (p +:+ temp_suffix) = true.
Proof.
  unfold is_temp. apply bool_decide_eq_true. rewrite length_string_app. cbn [String.length temp_suffix].
  replace (String.length p + 4 - 4)%nat with (String.length p) by lia. by apply substring_app_r.
Qed.
