(* ===== verification/FileOperator.v ===== *)
(** Files: account_file_operator.cpp.  A file is replaced by writing a temporary
    file next to it and renaming that, under a lock of the path.

    The calls to the operating system are the class [Posix], where any call may
    fail; [PosixLaws] is what they do to the contents of files.  FileTheorems.v
    has the theorems. *)
From Stdlib Require Import ZArith Lia Ascii String.
From stdpp Require Import base list gmap sets strings pretty.
From S2P Require Import Prelude ErrorCodes Json FileStore.

(** ** The operating system *)

(** The values of [errno] the code tells apart. *)
Inductive Errno := EACCES | ENOENT | EAGAIN | EOTHER.
Inductive FileKind := S_ISREG | S_ISDIR | S_OTHER.

#[export] Instance Errno_eq_dec : EqDecision Errno.
Proof. solve_decision. Defined.
#[export] Instance FileKind_eq_dec : EqDecision FileKind.
Proof. solve_decision. Defined.

(** A stream or a descriptor is named by the path it was opened on, since the code
    has at most one open at a time.  [flock], [fclose], [fseek] and [rewind] have
    their results ignored and do not change contents; they are left out. *)
Class Posix := {
  sys : Type;
  stat : string → sys → (Errno + FileKind) * sys;
  stat_size : string → sys → option Z * sys;
  access : string → sys → (bool * bool) * sys;
  fopen_write : string → sys → (Errno + unit) * sys;
  fwrite : string → string → sys → Z * sys;
  fflush : string → sys → bool * sys;
  fsync : string → sys → bool * sys;
  chown : string → Z → Z → sys → bool * sys;
  ChangeModeFile : string → Z → sys → bool * sys;
  fopen_read : string → sys → (Errno + unit) * sys;
  ftell_end : string → sys → Z * sys;
  fread : string → Z → sys → string * sys;
  renameat2 : string → string → sys → option Errno * sys;
  RemoveFile : string → sys → bool * sys;
  ForceRemoveDirectory : string → sys → bool * sys;
  ForceCreateDirectory : string → sys → bool * sys;
  ChangeModeDirectory : string → Z → sys → bool * sys;
  statvfs : string → sys → option (Z * Z) * sys;
  realpath : string → sys → option string * sys;
  open_directory : string → sys → Z * sys;
  ioctl_get_flags : Z → sys → option Z * sys;
  ioctl_set_flags : Z → Z → sys → bool * sys;
}.

(** ** The state *)

(** A read-write lock in the map, with the number of its owners and of the writers
    that hold it. *)
Record RWLock := mkRWLock {
  use_count : Z;
  writers : Z;
}.

Record FileWorld `{Posix} := mkFileWorld {
  os : sys;
  g_rwLockMap : gmap string RWLock;
  validModifyFileOperationFlag_ : list string;
  validDeleteFileOperationFlag_ : list string;
}.
Arguments FileWorld {_}.
Arguments mkFileWorld {_} _ _ _ _.
Arguments os {_} _.
Arguments g_rwLockMap {_} _.
Arguments validModifyFileOperationFlag_ {_} _.
Arguments validDeleteFileOperationFlag_ {_} _.

(** [FileTransaction], account_file_operator.h *)
Record FileTransaction := mkTransaction {
  path_ : string;
  mode_ : Z;
  isOpenTransaction_ : bool;
  isWriteSuccessOnce_ : bool;
}.

Definition BUFF_FILE_SIZE : Z := 50 * 1024 * 1024.
Definition MAX_FILE_SIZE : Z := 16 * 1024 * 1024.
Definition RETRY_TIMES : nat := 3.
Definition HMFS_MONITOR_FL : Z := 2.
Definition ACCOUNT_UID : Z := 3058.
Definition ACCOUNT_GID : Z := 3058.
Definition RELEASE_COUNT : Z := 2.
Definition ACCOUNT_INFO_DIGEST_FILE_PATH : string := "account_info_digest.json".

(** [S_IRUSR | S_IWUSR] and [S_IRWXU] *)
Definition FILE_MODE : Z := 384.
Definition DIR_MODE : Z := 448.

(** [text.find(pattern) != npos] *)
Definition str_contains (pattern text : string) : bool :=
  match String.index 0 pattern text with Some _ => true | None => false end.

(** [str.erase(str.rfind('/'))] and [str.substr(0, str.rfind('/'))]: the part before
    the last slash; [None] when there is none, where [erase] throws. *)
Definition parent_path (path : string) : option string :=
  match rfind "/"%char path with
  | Some i => Some (String.substring 0 i path)
  | None => None
  end.

Section Operations.
Context {cfg : OsConfig} {cjson : CJsonLib} {posix : Posix}.

Definition set_os s (w : FileWorld) := mkFileWorld s (g_rwLockMap w) (validModifyFileOperationFlag_ w)
  (validDeleteFileOperationFlag_ w).
Definition set_locks l (w : FileWorld) := mkFileWorld (os w) l (validModifyFileOperationFlag_ w)
  (validDeleteFileOperationFlag_ w).
Definition set_modify_flags l (w : FileWorld) := mkFileWorld (os w) (g_rwLockMap w) l
  (validDeleteFileOperationFlag_ w).
Definition set_delete_flags l (w : FileWorld) := mkFileWorld (os w) (g_rwLockMap w)
  (validModifyFileOperationFlag_ w) l.

(** A call to the operating system. *)
Definition on_os {A} (f : sys → A * sys) : M FileWorld A := λ w,
  let '(a, s) := f (os w) in (Ok a, set_os s w).

(** *** Asking for files *)

(** [FileExists], account_file_operator.cpp *)
Definition FileExists (path : string) : M FileWorld bool :=
  mretry RETRY_TIMES
    (r ← on_os (stat path);
     match r with
     | inr kind => mret (Some (bool_decide (kind = S_ISREG)))
     | inl e => if bool_decide (e = ENOENT) then mret (Some false) else mret None
     end) false.

(** [AccountFileOperator::IsExistFile], account_file_operator.cpp *)
Definition IsExistFile (path : string) : M FileWorld bool :=
  if string_empty path then mret false else FileExists path.

(** [AccountFileOperator::IsFileSizeExceedsLimit], account_file_operator.cpp *)
Definition IsFileSizeExceedsLimit (path : string) (maxSize : Z) : M FileWorld bool :=
  if string_empty path then mret false
  else
    r ← on_os (stat_size path);
    mret (match r with Some size => maxSize <? size | None => false end).

(** [AccountFileOperator::IsExistDir], account_file_operator.cpp *)
Definition IsExistDir (path : string) : M FileWorld bool :=
  if string_empty path then mret false
  else
    r ← on_os (stat path);
    mret (match r with inr kind => bool_decide (kind = S_ISDIR) | inl _ => false end).

(** A result that is handed on. *)
Definition to_result {S A} (r : result A) : M S A := λ w, (r, w).

(** [AccountFileOperator::CheckFileExistence], account_file_operator.cpp *)
Definition CheckFileExistence (path : string) : M FileWorld unit :=
  if string_empty path then merr ERR_ACCOUNT_COMMON_INVALID_PARAMETER
  else
    r ← mretry RETRY_TIMES
      (r ← on_os (stat path);
       match r with
       | inr kind =>
           mret (Some (if bool_decide (kind = S_ISREG) then Ok tt else Err ERR_ACCOUNT_COMMON_FILE_OTHER_ERROR))
       | inl EACCES => mret (Some (Err ERR_ACCOUNT_COMMON_FILE_ACCESS_DENIED))
       | inl ENOENT => mret (Some (Err ERR_ACCOUNT_COMMON_FILE_NOT_EXIST))
       | inl _ => mret None
       end) (Err ERR_ACCOUNT_COMMON_FILE_OTHER_ERROR);
    to_result r.

(** *** Directories and deletion *)

(** The flags of files about to be deleted or changed by the service itself, which
    the file watcher asks for.

    [AccountFileOperator::SetValidDeleteFileOperationFlag], account_file_operator.cpp *)
Definition SetValidDeleteFileOperationFlag (fileName : string) (flag : bool) : M FileWorld unit :=
  mmodify (λ w, set_delete_flags
    (if flag then validDeleteFileOperationFlag_ w ++ [fileName]
     else filter (λ f, f ≠ fileName) (validDeleteFileOperationFlag_ w)) w).

(** [AccountFileOperator::GetValidDeleteFileOperationFlag], account_file_operator.cpp *)
Definition GetValidDeleteFileOperationFlag (fileName : string) : M FileWorld bool :=
  w ← mget; mret (existsb (λ iter, str_contains iter fileName) (validDeleteFileOperationFlag_ w)).

(** [AccountFileOperator::SetValidModifyFileOperationFlag], account_file_operator.cpp *)
Definition SetValidModifyFileOperationFlag (fileName : string) (flag : bool) : M FileWorld unit :=
  if str_contains ACCOUNT_INFO_DIGEST_FILE_PATH fileName then mret tt
  else
    mmodify (λ w, set_modify_flags
      (let flags := validModifyFileOperationFlag_ w in
       if flag then if bool_decide (fileName ∈ flags) then flags else flags ++ [fileName]
       else filter (λ f, f ≠ fileName) flags) w).

(** [AccountFileOperator::GetValidModifyFileOperationFlag], account_file_operator.cpp *)
Definition GetValidModifyFileOperationFlag (fileName : string) : M FileWorld bool :=
  w ← mget; mret (bool_decide (fileName ∈ validModifyFileOperationFlag_ w)).

Definition when_watched (m : M FileWorld unit) : M FileWorld unit :=
  if ENABLE_FILE_WATCHER then m else mret tt.

(** [AccountFileOperator::SetDirDelFlags], account_file_operator.cpp *)
Definition SetDirDelFlags (dirpath : string) : M FileWorld bool :=
  r ← on_os (realpath dirpath);
  match r with
  | None => mret false
  | Some realPath =>
      fd ← on_os (open_directory realPath);
      if fd <? 0 then mret false
      else
        r ← on_os (ioctl_get_flags fd);
        match r with
        | None => mret false
        | Some flags =>
            if negb (Z.land flags HMFS_MONITOR_FL =? 0) then mret false
            else on_os (ioctl_set_flags fd (Z.lor flags HMFS_MONITOR_FL))
        end
  end.

(** [AccountFileOperator::CreateDir], account_file_operator.cpp *)
Definition CreateDir (path : string) (mode : Z) : M FileWorld unit :=
  created ← on_os (ForceCreateDirectory path);
  if negb created then merr ERR_OSACCOUNT_SERVICE_FILE_CREATE_DIR_ERROR
  else
    _ ← SetDirDelFlags path;
    createFlag ← on_os (ChangeModeDirectory path mode);
    if negb createFlag then merr ERR_OSACCOUNT_SERVICE_FILE_CHANGE_DIR_MODE_ERROR else mret tt.

(** [AccountFileOperator::DeleteDir], account_file_operator.cpp *)
Definition DeleteDir (path : string) : M FileWorld unit :=
  delFlag ← on_os (ForceRemoveDirectory path);
  if negb delFlag then merr ERR_OSACCOUNT_SERVICE_FILE_DELE_ERROR
  else when_watched (SetValidDeleteFileOperationFlag path true).

(** [AccountFileOperator::DeleteFile], account_file_operator.cpp *)
Definition DeleteFile (path : string) : M FileWorld unit :=
  delFlag ← on_os (RemoveFile path);
  if negb delFlag then merr ERR_OSACCOUNT_SERVICE_FILE_DELE_ERROR
  else when_watched (SetValidDeleteFileOperationFlag path true).

(** [AccountFileOperator::DeleteDirOrFile], account_file_operator.cpp *)
Definition DeleteDirOrFile (path : string) : M FileWorld unit :=
  isDir ← IsExistDir path;
  if isDir : bool then DeleteDir path
  else
    isFile ← IsExistFile path;
    if isFile : bool then DeleteFile path else mret tt.

(** *** Reading and writing *)

(** [WriteFile], account_file_operator.cpp *)
Definition WriteFile (path content : string) (mode : Z) : M FileWorld unit :=
  fp ← on_os (fopen_write path);
  match fp with
  | inl e => merr (if bool_decide (e = EACCES) then ERR_ACCOUNT_COMMON_FILE_ACCESS_DENIED
                   else ERR_ACCOUNT_COMMON_FILE_OPEN_FAILED)
  | inr _ =>
      num ← on_os (fwrite path content);
      if negb (num =? Z.of_nat (String.length content)) then merr ERR_ACCOUNT_COMMON_FILE_WRITE_FAILED
      else
        flushed ← on_os (fflush path);
        if negb flushed then merr ERR_ACCOUNT_COMMON_FILE_WRITE_FAILED
        else
          synced ← on_os (fsync path);
          if negb synced then merr ERR_ACCOUNT_COMMON_FILE_WRITE_FAILED
          else
            owned ← on_os (chown path ACCOUNT_UID ACCOUNT_GID);
            if negb owned then merr ERR_OHOSACCOUNT_SERVICE_FILE_CHANGE_DIR_MODE_ERROR
            else
              changed ← on_os (ChangeModeFile path mode);
              if negb changed then merr ERR_OHOSACCOUNT_SERVICE_FILE_CHANGE_DIR_MODE_ERROR
              else mret tt
  end.

(** [ReadFile], account_file_operator.cpp *)
Definition ReadFile (path : string) : M FileWorld string :=
  exist ← FileExists path;
  if negb exist then merr ERR_OSACCOUNT_SERVICE_FILE_FIND_FILE_ERROR
  else
    fp ← on_os (fopen_read path);
    match fp with
    | inl e => merr (if bool_decide (e = EACCES) then ERR_ACCOUNT_COMMON_FILE_ACCESS_DENIED
                     else ERR_ACCOUNT_COMMON_FILE_OPEN_FAILED)
    | inr _ =>
        fileSize ← on_os (ftell_end path);
        if (fileSize <? 0) || (MAX_FILE_SIZE <? fileSize) then merr ERR_ACCOUNT_COMMON_FILE_READ_FAILED
        else
          content ← on_os (fread path fileSize);
          if negb (Z.of_nat (String.length content) =? fileSize) then merr ERR_ACCOUNT_COMMON_FILE_READ_FAILED
          else mret content
    end.

(** [AccountFileOperator::GetFileContentByPath], account_file_operator.cpp *)
Definition GetFileContentByPath (path : string) : M FileWorld string :=
  exist ← IsExistFile path;
  if negb exist then merr ERR_OSACCOUNT_SERVICE_FILE_FIND_FILE_ERROR else ReadFile path.

(** [AccountFileOperator::IsJsonFormat], account_file_operator.cpp *)
Definition IsJsonFormat (path : string) : M FileWorld bool :=
  r ← mtry (GetFileContentByPath path);
  mret (match r with
        | Err _ => false
        | Ok content => match CreateJsonFromString content with
                        | None => false
                        | Some jsonData => IsStructured (Some jsonData)
                        end
        end).

(** [AccountFileOperator::IsJsonFileReady], account_file_operator.cpp *)
Definition IsJsonFileReady (path : string) : M FileWorld bool :=
  exist ← IsExistFile path;
  if exist : bool then IsJsonFormat path else mret false.

(** [IsDataStorageSufficient], account_file_operator.cpp *)
Definition IsDataStorageSufficient (reqFreeBytes : Z) : M FileWorld bool :=
  r ← on_os (statvfs "/data");
  mret (match r with
        | None => false
        | Some (f_bsize, f_bavail) =>
            let freeBytes := (f_bsize * f_bavail) `mod` 2 ^ 64 in
            (reqFreeBytes + BUFF_FILE_SIZE) `mod` 2 ^ 64 <? freeBytes
        end).

(** *** Transactions *)

(** A transaction object and the world it works in. *)
Definition TransactionWorld : Type := FileTransaction * FileWorld.

Definition in_world {A} (m : M FileWorld A) : M TransactionWorld A := λ w,
  let '(r, w') := m w.2 in (r, (w.1, w')).
Definition this : M TransactionWorld FileTransaction := w ← mget; mret w.1.
Definition set_open (b : bool) : M TransactionWorld unit :=
  mmodify (λ w, (mkTransaction (path_ w.1) (mode_ w.1) b (isWriteSuccessOnce_ w.1), w.2)).
Definition set_written (b : bool) : M TransactionWorld unit :=
  mmodify (λ w, (mkTransaction (path_ w.1) (mode_ w.1) (isOpenTransaction_ w.1) b, w.2)).

(** [LockWrite] and [UnLockWrite] of the lock of a path; the map holds it as long as
    a transaction does. *)
Definition change_lock (f : RWLock → RWLock) : M TransactionWorld unit :=
  t ← this; in_world (mmodify (λ w, set_locks (alter f (path_ t) (g_rwLockMap w)) w)).
Definition LockWrite : M TransactionWorld unit := change_lock (λ l, mkRWLock (use_count l) (writers l + 1)).
Definition UnLockWrite : M TransactionWorld unit := change_lock (λ l, mkRWLock (use_count l) (writers l - 1)).

(** [FileTransaction::GetTempFilePath], account_file_operator.cpp *)
Definition GetTempFilePath (path : string) : string := path +:+ temp_suffix.

(** The temporary file is next to the file, so its path has the same parent.

    [FileTransaction::BeginWriteTransaction], account_file_operator.cpp *)
Definition BeginWriteTransaction : M TransactionWorld unit :=
  t ← this;
  if isOpenTransaction_ t then merr ERR_ACCOUNT_COMMON_FILE_TRANSACTION_FAILED
  else
    _ ← LockWrite;
    _ ← set_open true;
    let tempFilePath := GetTempFilePath (path_ t) in
    let folderPath := default tempFilePath (parent_path tempFilePath) in
    let abandon e := _ ← set_open false; _ ← UnLockWrite; merr e in
    isDir ← in_world (IsExistDir folderPath);
    r ← (if isDir : bool then mret (Ok tt) else mtry (in_world (CreateDir folderPath DIR_MODE)));
    match r with
    | Err errCode => abandon errCode
    | Ok _ =>
        tempFile ← in_world (on_os (fopen_write tempFilePath));
        match tempFile with
        | inl _ => abandon ERR_ACCOUNT_COMMON_FILE_OPEN_FAILED
        | inr _ => mret tt
        end
    end.

(** [FileTransaction::ForceUnlock], account_file_operator.cpp *)
Definition ForceUnlock : M TransactionWorld unit :=
  t ← this;
  if negb (isOpenTransaction_ t) then mret tt
  else _ ← UnLockWrite; set_open false.

(** [FileTransaction::DeleteTempFile], account_file_operator.cpp *)
Definition DeleteTempFile : M TransactionWorld unit :=
  t ← this;
  delFlag ← mretry (S RETRY_TIMES)
    (delFlag ← in_world (on_os (RemoveFile (GetTempFilePath (path_ t))));
     mret (if delFlag : bool then Some true else None)) false;
  if negb delFlag then merr ERR_OSACCOUNT_SERVICE_FILE_DELE_ERROR else mret tt.

(** [FileTransaction::Rollback], account_file_operator.cpp *)
Definition Rollback : M TransactionWorld unit :=
  t ← this;
  if negb (isOpenTransaction_ t) then mret tt
  else
    ret ← mtry DeleteTempFile;
    _ ← ForceUnlock;
    to_result ret.

(** [FileTransaction::SwapFileNames], account_file_operator.cpp *)
Definition SwapFileNames : M TransactionWorld unit :=
  t ← this;
  let tempFileName := GetTempFilePath (path_ t) in
  isTempFileExist ← in_world (FileExists tempFileName);
  if negb isTempFileExist then merr ERR_ACCOUNT_COMMON_FILE_NOT_EXIST
  else
    r ← mretry (S RETRY_TIMES)
      (ret ← in_world (on_os (renameat2 tempFileName (path_ t)));
       match ret with
       | None => mret (Some (Ok tt))
       | Some e => if negb (bool_decide (e = EAGAIN)) then mret (Some (Err ERR_ACCOUNT_COMMON_FILE_SWAP_FAILED))
                   else mret None
       end) (Err ERR_ACCOUNT_COMMON_FILE_SWAP_FAILED);
    to_result r.

(** [FileTransaction::EndTransaction], account_file_operator.cpp *)
Definition EndTransaction : M TransactionWorld unit :=
  t ← this;
  if negb (isOpenTransaction_ t) then mret tt
  else if isWriteSuccessOnce_ t then
    ret ← mtry SwapFileNames;
    _ ← ForceUnlock;
    to_result ret
  else
    _ ← mtry Rollback;
    mret tt.

(** [FileTransaction::WriteFile], account_file_operator.cpp *)
Definition TransactionWriteFile (content : string) : M TransactionWorld unit :=
  t ← this;
  if negb (isOpenTransaction_ t) then merr ERR_ACCOUNT_COMMON_FILE_WRITE_FAILED
  else
    err ← mtry (in_world (WriteFile (GetTempFilePath (path_ t)) content (mode_ t)));
    match err with
    | Err _ => merr ERR_ACCOUNT_COMMON_FILE_WRITE_FAILED
    | Ok _ => set_written true
    end.

(** [FileTransaction::ReadFile], account_file_operator.cpp *)
Definition TransactionReadFile : M TransactionWorld string := t ← this; in_world (ReadFile (path_ t)).

(** [FileTransaction::IsTempFileExist], account_file_operator.cpp *)
Definition IsTempFileExist (path : string) : M FileWorld bool := FileExists (GetTempFilePath path).

(** [TryEraseTransaction], account_file_operator.cpp *)
Definition TryEraseTransaction (path : string) : M FileWorld unit :=
  w ← mget;
  match g_rwLockMap w !! path with
  | None => mret tt
  | Some l => if use_count l =? RELEASE_COUNT then mput (set_locks (delete path (g_rwLockMap w)) w) else mret tt
  end.

(** The destructor of a transaction gives up its lock at the end.

    [FileTransaction::ReleaseAction], account_file_operator.cpp *)
Definition ReleaseAction : M TransactionWorld unit :=
  t ← this;
  _ ← (if isOpenTransaction_ t then _ ← mtry Rollback; mret tt else mret tt);
  _ ← in_world (TryEraseTransaction (path_ t));
  change_lock (λ l, mkRWLock (use_count l - 1) (writers l)).

(** [AccountFileOperator::GetRWLock], account_file_operator.cpp *)
Definition GetRWLock (path : string) : M FileWorld unit :=
  w ← mget;
  match g_rwLockMap w !! path with
  | Some _ => mret tt
  | None => mput (set_locks (<[path := mkRWLock 1 0]> (g_rwLockMap w)) w)
  end.

(** The transaction shares the lock with the map.

    [AccountFileOperator::GetFileTransaction], account_file_operator.cpp *)
Definition GetFileTransaction (path : string) (mode : Z) : M FileWorld FileTransaction :=
  _ ← GetRWLock path;
  _ ← mmodify (λ w, set_locks (alter (λ l, mkRWLock (use_count l + 1) (writers l)) path (g_rwLockMap w)) w);
  mret (mkTransaction path mode false false).

(** The life of a transaction that is local to a function. *)
Definition with_file_transaction {A} (path : string) (mode : Z) (body : M TransactionWorld A) : M FileWorld A :=
  t ← GetFileTransaction path mode;
  w ← mget;
  let '(r, tw) := body (t, w) in
  let '(_, (_, w')) := ReleaseAction tw in
  _ ← mput w';
  to_result r.

(** [AccountFileOperator::WriteFileWithTransaction], account_file_operator.cpp *)
Definition WriteFileWithTransaction (path content : string) (mode : Z) : M FileWorld unit :=
  allowed ← on_os (access path);
  if allowed.1 && negb allowed.2 then merr ERR_ACCOUNT_COMMON_PERMISSION_DENIED
  else
    with_file_transaction path mode
      (_ ← BeginWriteTransaction;
       _ ← TransactionWriteFile content;
       EndTransaction).

(** [AccountFileOperator::InputFileByPathAndContentWithTransaction], account_file_operator.cpp *)
Definition InputFileByPathAndContentWithTransaction (path content : string) (mode : Z) : M FileWorld unit :=
  sufficient ← IsDataStorageSufficient (Z.of_nat (String.length content));
  if negb sufficient then merr ERR_ACCOUNT_COMMON_DATA_NO_SPACE
  else WriteFileWithTransaction path content mode.

(** A path without a slash throws; no caller has one.

    [AccountFileOperator::InputFileByPathAndContent], account_file_operator.cpp *)
Definition InputFileByPathAndContent (path content : string) : M FileWorld unit :=
  let str := default path (parent_path path) in
  isDir ← IsExistDir str;
  _ ← (if isDir : bool then mret tt else CreateDir str DIR_MODE);
  sufficient ← IsDataStorageSufficient (Z.of_nat (String.length content));
  if negb sufficient then merr ERR_ACCOUNT_COMMON_DATA_NO_SPACE
  else
    _ ← when_watched (SetValidModifyFileOperationFlag path true);
    ret ← mtry (WriteFileWithTransaction path content FILE_MODE);
    match ret with
    | Ok _ => mret tt
    | Err e => _ ← when_watched (SetValidModifyFileOperationFlag path false); merr e
    end.
End Operations.

(** ** What the calls do to the contents of files *)

(** [contents] is what the regular files hold, and [stream s p] what has been
    written to the stream open on [p] and may not have reached the file. *)
Class PosixLaws `{Posix} := {
  contents : sys → gmap string string;
  stream : sys → string → string;
  stat_keeps p s : contents (stat p s).2 = contents s;
  stat_regular p s s' : stat p s = (inr S_ISREG, s') → is_Some (contents s !! p);
  stat_other p s k s' : stat p s = (inr k, s') → k ≠ S_ISREG → contents s !! p = None;
  stat_absent p s s' : stat p s = (inl ENOENT, s') → contents s !! p = None;
  stat_size_keeps p s : contents (stat_size p s).2 = contents s;
  access_keeps p s : contents (access p s).2 = contents s;
  open_write_ok p s s' : fopen_write p s = (inr tt, s') →
    contents s' = <[p := EmptyString]> (contents s) ∧ stream s' p = EmptyString;
  open_write_failed p s e s' : fopen_write p s = (inl e, s') → contents s' = contents s;
  write_effect p t s n s' : fwrite p t s = (n, s') →
    delete p (contents s') = delete p (contents s) ∧
    (n = Z.of_nat (String.length t) → stream s' p = stream s p +:+ t);
  flush_effect p s b s' : fflush p s = (b, s') →
    delete p (contents s') = delete p (contents s) ∧ (b = true → contents s' !! p = Some (stream s p));
  fsync_keeps p s : contents (fsync p s).2 = contents s;
  chown_keeps p u g s : contents (chown p u g s).2 = contents s;
  chmod_keeps p m s : contents (ChangeModeFile p m s).2 = contents s;
  open_read_keeps p s : contents (fopen_read p s).2 = contents s;
  open_read_ok p s s' : fopen_read p s = (inr tt, s') → is_Some (contents s !! p);
  size_keeps p s : contents (ftell_end p s).2 = contents s;
  size_value p s n s' t : contents s !! p = Some t → ftell_end p s = (n, s') → 0 ≤ n →
    n = Z.of_nat (String.length t);
  read_keeps p n s : contents (fread p n s).2 = contents s;
  read_value p n s t' s' t : contents s !! p = Some t → fread p n s = (t', s') →
    t' = String.substring 0 (String.length t') t;
  rename_ok p q s s' : renameat2 p q s = (None, s') →
    ∃ t, contents s !! p = Some t ∧ contents s' = <[q := t]> (delete p (contents s));
  rename_failed p q s e s' : renameat2 p q s = (Some e, s') → contents s' = contents s;
  remove_effect p s b s' : RemoveFile p s = (b, s') →
    contents s' = if b then delete p (contents s) else contents s;
  remove_dir_effect d s b s' : ForceRemoveDirectory d s = (b, s') → ∀ q,
    (below d q → b = true → contents s' !! q = None) ∧
    (contents s' !! q = contents s !! q ∨ below d q ∧ contents s' !! q = None);
  mkdir_keeps p s : contents (ForceCreateDirectory p s).2 = contents s;
  chmod_dir_keeps p m s : contents (ChangeModeDirectory p m s).2 = contents s;
  statvfs_keeps p s : contents (statvfs p s).2 = contents s;
  realpath_keeps p s : contents (realpath p s).2 = contents s;
  open_dir_keeps p s : contents (open_directory p s).2 = contents s;
  get_flags_keeps fd s : contents (ioctl_get_flags fd s).2 = contents s;
  set_flags_keeps fd f s : contents (ioctl_set_flags fd f s).2 = contents s;
}.

Section Effects.
Context {cfg : OsConfig} {cjson : CJsonLib} {posix : Posix} {posixlaws : PosixLaws}.

(** The contents of files and the locks. *)
Definition file_state (c : gmap string string) (l : gmap string RWLock) (w : FileWorld) : Prop :=
  contents (os w) = c ∧ g_rwLockMap w = l.

(** A call that changes neither. *)
Definition keeps_files {A} (m : M FileWorld A) : Prop := ∀ c l, preserves (file_state c l) m.

Lemma keeps_use {A} c l (m : M FileWorld A) : keeps_files m → preserves (file_state c l) m.
Proof. intros Hm. apply Hm. Qed.

Lemma on_os_keeps {A} (f : sys → A * sys) : (∀ s, contents (f s).2 = contents s) → keeps_files (on_os f).
Proof.
  intros Hf c l w [Hc Hl]. unfold on_os. specialize (Hf (os w)).
  destruct (f (os w)) as [a s] in Hf |- *. cbn in *.
  unfold file_state, set_os. cbn. split; [congruence|done].
Qed.

Lemma retry_preserves {A} P n (m : M FileWorld (option A)) last : preserves P m → preserves P (mretry n m last).
Proof. intros Hm. induction n as [|n IH]; cbn [mretry]; preserve. Qed.

Lemma to_result_preserves {S A} P (r : result A) : preserves (S := S) P (to_result r).
Proof. by intros s. Qed.
End Effects.

#[export] Hint Resolve keeps_use retry_preserves to_result_preserves : mpres.

(** [preserve] for this file's combinators, too. *)
Ltac fpreserve := repeat first
  [ preserve_step
  | lazymatch goal with
    | |- preserves _ (mretry _ _ _) => apply retry_preserves
    | |- preserves _ (to_result _) => apply to_result_preserves
    end ].

Ltac keeps_os := intros ? ?; fpreserve; apply keeps_use, on_os_keeps; intros;
  first [ apply stat_keeps | apply stat_size_keeps | apply access_keeps | apply fsync_keeps | apply chown_keeps
        | apply chmod_keeps | apply open_read_keeps | apply size_keeps | apply read_keeps | apply mkdir_keeps
        | apply chmod_dir_keeps | apply statvfs_keeps | apply realpath_keeps | apply open_dir_keeps
        | apply get_flags_keeps | apply set_flags_keeps ].

Section Keeping.
Context {cfg : OsConfig} {cjson : CJsonLib} {posix : Posix} {posixlaws : PosixLaws}.

Lemma FileExists_keeps p : keeps_files (FileExists p).
Proof. unfold FileExists. keeps_os. Qed.
#[local] Hint Resolve FileExists_keeps : mpres.
Lemma IsExistFile_keeps p : keeps_files (IsExistFile p).
Proof. unfold IsExistFile. intros c l. preserve. Qed.
#[local] Hint Resolve IsExistFile_keeps : mpres.
Lemma IsExistDir_keeps p : keeps_files (IsExistDir p).
Proof. unfold IsExistDir. keeps_os. Qed.
#[local] Hint Resolve IsExistDir_keeps : mpres.
Lemma CreateDir_keeps p m : keeps_files (CreateDir p m).
Proof. unfold CreateDir, SetDirDelFlags. keeps_os. Qed.
#[local] Hint Resolve CreateDir_keeps : mpres.
Lemma IsDataStorageSufficient_keeps n : keeps_files (IsDataStorageSufficient n).
Proof. unfold IsDataStorageSufficient. keeps_os. Qed.
#[local] Hint Resolve IsDataStorageSufficient_keeps : mpres.
Lemma ReadFile_keeps p : keeps_files (ReadFile p).
Proof.
  unfold ReadFile. keeps_os.
Qed.
#[local] Hint Resolve ReadFile_keeps : mpres.
Lemma GetFileContentByPath_keeps p : keeps_files (GetFileContentByPath p).
Proof. unfold GetFileContentByPath. intros c l. preserve. Qed.
#[local] Hint Resolve GetFileContentByPath_keeps : mpres.
Lemma IsJsonFormat_keeps p : keeps_files (IsJsonFormat p).
Proof. unfold IsJsonFormat. intros c l. preserve. Qed.
#[local] Hint Resolve IsJsonFormat_keeps : mpres.
Lemma IsJsonFileReady_keeps p : keeps_files (IsJsonFileReady p).
Proof. unfold IsJsonFileReady. intros c l. preserve. Qed.
#[local] Hint Resolve IsJsonFileReady_keeps : mpres.
Lemma CheckFileExistence_keeps p : keeps_files (CheckFileExistence p).
Proof. unfold CheckFileExistence. keeps_os. Qed.
#[local] Hint Resolve CheckFileExistence_keeps : mpres.
Lemma modify_flag_keeps p b : keeps_files (when_watched (SetValidModifyFileOperationFlag p b)).
Proof.
  unfold when_watched, SetValidModifyFileOperationFlag. intros c l. preserve.
Qed.
#[local] Hint Resolve modify_flag_keeps : mpres.
Lemma delete_flag_keeps p b : keeps_files (when_watched (SetValidDeleteFileOperationFlag p b)).
Proof.
  unfold when_watched, SetValidDeleteFileOperationFlag. intros c l. preserve.
Qed.
#[local] Hint Resolve delete_flag_keeps : mpres.

(** A question: a call that always gives an answer. *)
Definition total {A} (m : M FileWorld A) : Prop := ∀ w, is_Ok (m w).1 = true.

Lemma on_os_total {A} (f : sys → A * sys) : total (on_os f).
Proof. intros w. unfold on_os. by destruct (f (os w)). Qed.

Lemma bind_total {A B} (m : M FileWorld A) (k : A → M FileWorld B) :
  total m → (∀ a, total (k a)) → total (m ≫= k).
Proof.
  intros Hm Hk w. rewrite mbind_unfold. specialize (Hm w). destruct (m w) as [[a|e] w']; [apply Hk|done].
Qed.

Lemma retry_total {A} n (m : M FileWorld (option A)) last : total m → total (mretry n m last).
Proof.
  intros Hm. induction n as [|n IH]; cbn [mretry]; [by intros w|]. apply bind_total; [done|].
  intros [a|]; [by intros w|done].
Qed.

Lemma FileExists_total p : total (FileExists p).
Proof.
  apply retry_total, bind_total; [apply on_os_total|]. intros [e|kind]; [|by intros w]. by case_bool_decide; intros w.
Qed.

Lemma IsExistFile_total p : total (IsExistFile p).
Proof. unfold IsExistFile. destruct (string_empty p); [by intros w|apply FileExists_total]. Qed.

Lemma IsExistDir_total p : total (IsExistDir p).
Proof.
  unfold IsExistDir. destruct (string_empty p); [by intros w|]. apply bind_total; [apply on_os_total|]. by intros r w.
Qed.
End Keeping.

#[export] Hint Resolve FileExists_keeps IsExistFile_keeps IsExistDir_keeps CreateDir_keeps
  IsDataStorageSufficient_keeps ReadFile_keeps GetFileContentByPath_keeps IsJsonFormat_keeps IsJsonFileReady_keeps
  CheckFileExistence_keeps modify_flag_keeps delete_flag_keeps : mpres.

(** ** Writing a file is atomic *)

Section Transactions.
Context {cfg : OsConfig} {cjson : CJsonLib} {posix : Posix} {posixlaws : PosixLaws}.

Lemma wp_on_os {A} (f : sys → A * sys) (Q : result A → FileWorld → Prop) w :
  (∀ a s, f (os w) = (a, s) → Q (Ok a) (set_os s w)) → wp (on_os f) Q w.
Proof. intros H. unfold wp, on_os. destruct (f (os w)) as [a s] eqn:E. by apply H. Qed.

Lemma wp_in_world {A} (m : M FileWorld A) (Q : result A → TransactionWorld → Prop) tw :
  wp m (λ r w', Q r (tw.1, w')) tw.2 → wp (in_world m) Q tw.
Proof. unfold wp, in_world. by destruct (m tw.2). Qed.

Lemma wp_keeps {A} (m : M FileWorld A) (Q : result A → FileWorld → Prop) w :
  keeps_files m →
  (∀ r w', contents (os w') = contents (os w) → g_rwLockMap w' = g_rwLockMap w → Q r w') → wp m Q w.
Proof. intros Hm HQ. destruct (Hm _ _ w (conj eq_refl eq_refl)) as [Hc Hl]. by apply HQ. Qed.

Lemma wp_asks {A} (m : M FileWorld A) (Q : result A → FileWorld → Prop) w :
  keeps_files m → total m →
  (∀ a w', contents (os w') = contents (os w) → g_rwLockMap w' = g_rwLockMap w → Q (Ok a) w') → wp m Q w.
Proof.
  intros Hm Ht HQ. destruct (Hm _ _ w (conj eq_refl eq_refl)) as [Hc Hl]. specialize (Ht w). unfold wp.
  destruct (m w) as [[a|e] w']; [by apply HQ|done].
Qed.

Lemma wp_this (Q : result FileTransaction → TransactionWorld → Prop) tw : Q (Ok tw.1) tw → wp this Q tw.
Proof. done. Qed.

Variables (p : string) (mode : Z) (c0 : gmap string string) (l0 : gmap string RWLock).
#[local] Abbreviation tmp := (GetTempFilePath p).

(** The transaction object is [t], the lock is [k] and only the temporary file has
    changed. *)
Definition in_transaction (t : FileTransaction) (k : RWLock) (tw : TransactionWorld) : Prop :=
  tw.1 = t ∧ g_rwLockMap tw.2 = <[p := k]> l0 ∧ delete tmp (contents (os tw.2)) = delete tmp c0.

#[local] Abbreviation tx := (mkTransaction p mode).
#[local] Abbreviation locked := (mkRWLock 2 1).
#[local] Abbreviation unlocked := (mkRWLock 2 0).

Lemma wp_change_lock f t k tw (Q : result unit → TransactionWorld → Prop) :
  in_transaction t k tw → path_ t = p → (∀ tw', in_transaction t (f k) tw' → contents (os tw'.2) = contents (os tw.2) → Q (Ok tt) tw') →
  wp (change_lock f) Q tw.
Proof.
  intros (Ht & Hl & Hc) Hp HQ. unfold change_lock. apply wp_bind, wp_this, wp_in_world, wp_modify. apply HQ; [|done].
  unfold in_transaction. cbn. rewrite Hl, Ht, Hp. split_and!; [done| |done].
  by rewrite alter_insert_eq.
Qed.

Lemma wp_set_open b t k tw (Q : result unit → TransactionWorld → Prop) :
  in_transaction t k tw →
  (∀ tw', in_transaction (mkTransaction (path_ t) (mode_ t) b (isWriteSuccessOnce_ t)) k tw' →
     contents (os tw'.2) = contents (os tw.2) → Q (Ok tt) tw') →
  wp (set_open b) Q tw.
Proof. intros (<- & Hl & Hc) HQ. by apply wp_modify, HQ. Qed.

(** A call that keeps files. *)
Lemma wp_world_keeps {A} (m : M FileWorld A) t k tw (Q : result A → TransactionWorld → Prop) :
  keeps_files m → in_transaction t k tw →
  (∀ r tw', in_transaction t k tw' → contents (os tw'.2) = contents (os tw.2) → Q r tw') →
  wp (in_world m) Q tw.
Proof.
  intros Hm (Ht & Hl & Hc) HQ. apply wp_in_world, wp_keeps; [done|]. intros r w' Hc' Hl'. apply HQ; [|done].
  split_and!; [done|..]; cbn; congruence.
Qed.

(** A call that changes the temporary file only. *)
Lemma wp_world_temp {A} (f : sys → A * sys) t k tw (Q : result A → TransactionWorld → Prop) :
  in_transaction t k tw →
  (∀ a s, f (os tw.2) = (a, s) → delete tmp (contents s) = delete tmp (contents (os tw.2)) ∧
     ∀ tw', in_transaction t k tw' → os tw'.2 = s → Q (Ok a) tw') →
  wp (in_world (on_os f)) Q tw.
Proof.
  intros (Ht & Hl & Hc) HQ. apply wp_in_world, wp_on_os. intros a s E. destruct (HQ a s E) as [Hd HQ'].
  apply HQ'; [|done]. split_and!; [done|done|]. cbn. congruence.
Qed.

(** A question in a transaction. *)
Lemma wp_world_asks {A} (m : M FileWorld A) t k tw (Q : result A → TransactionWorld → Prop) :
  keeps_files m → total m → in_transaction t k tw →
  (∀ a tw', in_transaction t k tw' → contents (os tw'.2) = contents (os tw.2) → Q (Ok a) tw') →
  wp (in_world m) Q tw.
Proof.
  intros Hm Htot (Ht & Hl & Hc) HQ. apply wp_in_world, wp_asks; [done|done|]. intros a w' Hc' Hl'. apply HQ; [|done].
  split_and!; [done|..]; cbn; congruence.
Qed.

(** The state after starting to write. *)
Definition begun (r : result unit) (tw : TransactionWorld) : Prop :=
  match r with
  | Ok _ => in_transaction (tx true false) locked tw
  | Err _ => in_transaction (tx false false) unlocked tw
  end.

Lemma BeginWriteTransaction_spec tw :
  in_transaction (tx false false) unlocked tw → wp BeginWriteTransaction begun tw.
Proof.
  intros Htw. unfold BeginWriteTransaction. apply wp_bind, wp_this. rewrite (proj1 Htw).
  cbn [isOpenTransaction_]. apply wp_bind, (wp_change_lock _ _ _ _ _ Htw eq_refl).
  intros tw1 Htw1 _. apply wp_bind, (wp_set_open _ _ _ _ _ Htw1). intros tw2 Htw2 _. cbv zeta. cbn in Htw2.
  assert (Habandon : ∀ e tw, in_transaction (tx true false) locked tw →
    wp (_ ← set_open false; _ ← UnLockWrite; merr e : M TransactionWorld unit) begun tw).
  { clear -posixlaws. intros e tw Htw. apply wp_bind, (wp_set_open _ _ _ _ _ Htw). intros tw' Htw' _.
    apply wp_bind, (wp_change_lock _ _ _ _ _ Htw' eq_refl). intros tw'' Htw'' _. by apply wp_err. }
  apply wp_bind. eapply wp_world_asks; [apply IsExistDir_keeps|apply IsExistDir_total|exact Htw2|].
  intros isDir tw3 Htw3 _.
  apply wp_bind. eapply (wp_conseq _ (λ r tw, ∃ r', r = Ok r' ∧ in_transaction (tx true false) locked tw)).
  { destruct isDir; [by apply wp_ret; eexists|]. apply wp_try.
    eapply wp_world_keeps; [apply CreateDir_keeps|exact Htw3|]. intros r tw' Htw' _. by eexists. }
  intros r tw4 ([[]|e] & -> & Htw4); [|by apply Habandon].
  apply wp_bind. eapply wp_world_temp; [exact Htw4|]. intros [e|[]] s E.
  - rewrite (open_write_failed _ _ _ _ E). split; [done|]. intros tw' Htw' _. by apply Habandon.
  - destruct (open_write_ok _ _ _ E) as [-> _]. rewrite delete_insert_eq. split; [done|]. intros tw' Htw' _.
    by apply wp_ret.
Qed.
Lemma wp_to_result {S A} (r : result A) (Q : result A → S → Prop) s : Q r s → wp (to_result r) Q s.
Proof. done. Qed.

(** Writing a file puts the content there when it succeeds. *)
Lemma WriteFile_spec q content m w :
  wp (WriteFile q content m) (λ r w',
    delete q (contents (os w')) = delete q (contents (os w)) ∧ g_rwLockMap w' = g_rwLockMap w ∧
    (r = Ok tt → contents (os w') !! q = Some content)) w.
Proof.
  unfold WriteFile. apply wp_bind, wp_on_os. intros [e|[]] s1 E1.
  { rewrite <-(open_write_failed _ _ _ _ E1). by apply wp_err. }
  destruct (open_write_ok _ _ _ E1) as [Hc1 Hs1].
  assert (Hd1 : delete q (contents s1) = delete q (contents (os w))) by (rewrite Hc1; apply delete_insert_eq).
  apply wp_bind, wp_on_os. cbn [os set_os]. intros n s2 E2. destruct (write_effect _ _ _ _ _ E2) as [Hd2 Hs2].
  destruct (Z.eqb_spec n (Z.of_nat (String.length content))) as [Hn|]; cbn [negb].
  2: { apply wp_err. cbn. split_and!; [congruence|done|done]. }
  specialize (Hs2 Hn). rewrite Hs1, string_app_nil_l in Hs2.
  apply wp_bind, wp_on_os. cbn [os set_os]. intros b s3 E3. destruct (flush_effect _ _ _ _ E3) as [Hd3 Hs3].
  destruct b; cbn [negb]; [|apply wp_err; cbn; split_and!; [congruence|done|done]].
  specialize (Hs3 eq_refl). rewrite Hs2 in Hs3.
  set (w3 := set_os s3 _).
  assert (Hrest : keeps_files (
    synced ← on_os (fsync q);
    if negb synced then merr ERR_ACCOUNT_COMMON_FILE_WRITE_FAILED
    else
      owned ← on_os (chown q ACCOUNT_UID ACCOUNT_GID);
      if negb owned then merr ERR_OHOSACCOUNT_SERVICE_FILE_CHANGE_DIR_MODE_ERROR
      else
        changed ← on_os (ChangeModeFile q m);
        if negb changed then merr ERR_OHOSACCOUNT_SERVICE_FILE_CHANGE_DIR_MODE_ERROR
        else mret tt)) by keeps_os.
  eapply (wp_keeps _ _ w3 Hrest). cbn. intros r w' -> ->. split_and!; [congruence|done|done].
Qed.

Lemma TransactionWriteFile_spec content tw :
  in_transaction (tx true false) locked tw →
  wp (TransactionWriteFile content) (λ r tw',
    match r with
    | Ok _ => in_transaction (tx true true) locked tw' ∧ contents (os tw'.2) !! tmp = Some content
    | Err _ => in_transaction (tx true false) locked tw'
    end) tw.
Proof.
  intros Htw. unfold TransactionWriteFile. apply wp_bind, wp_this. rewrite (proj1 Htw). cbn [isOpenTransaction_ negb path_ mode_].
  destruct Htw as (Ht & Hl & Hc). apply wp_bind, wp_try, wp_in_world. eapply wp_conseq; [apply WriteFile_spec|].
  intros r w' (Hd & Hl' & Hok). destruct r as [[]|e].
  - apply wp_modify. cbn. split; [|by apply Hok]. split_and!; cbn; [by rewrite Ht|congruence|congruence].
  - apply wp_err. split_and!; cbn; congruence.
Qed.

Lemma ForceUnlock_spec wr tw (Q : result unit → TransactionWorld → Prop) :
  in_transaction (tx true wr) locked tw →
  (∀ tw', in_transaction (tx false wr) unlocked tw' → contents (os tw'.2) = contents (os tw.2) → Q (Ok tt) tw') →
  wp ForceUnlock Q tw.
Proof.
  intros Htw HQ. unfold ForceUnlock. apply wp_bind, wp_this. rewrite (proj1 Htw). cbn [isOpenTransaction_ negb].
  apply wp_bind, (wp_change_lock _ _ _ _ _ Htw eq_refl). intros tw1 Htw1 Hc1.
  apply (wp_set_open _ _ _ _ _ Htw1). intros tw2 Htw2 Hc2. apply HQ; [done|congruence].
Qed.

Lemma Rollback_file_spec wr tw :
  in_transaction (tx true wr) locked tw →
  wp Rollback (λ _ tw', in_transaction (tx false wr) unlocked tw') tw.
Proof.
  intros Htw. unfold Rollback. apply wp_bind, wp_this. rewrite (proj1 Htw). cbn [isOpenTransaction_ negb].
  apply wp_bind, wp_try. eapply (wp_conseq _ (λ _ tw', in_transaction (tx true wr) locked tw')).
  - unfold DeleteTempFile. apply wp_bind, wp_this. apply wp_bind.
    apply (wp_retry _ _ _ (in_transaction (tx true wr) locked)); [done| |].
    + intros tw1 Htw1. apply wp_bind. eapply wp_world_temp; [exact Htw1|]. intros b s E.
      rewrite (remove_effect _ _ _ _ E). rewrite (proj1 Htw). split; [destruct b; [apply delete_delete_eq|done]|].
      intros tw2 Htw2 _. apply wp_ret. destruct b; [by apply wp_ret|done].
    + intros tw1 Htw1. by apply wp_err.
  - intros r tw1 Htw1. apply wp_bind. apply (ForceUnlock_spec _ _ _ Htw1). intros tw2 Htw2 _. by apply wp_to_result.
Qed.
End Transactions.

Lemma temp_path_ne p : GetTempFilePath p ≠ p.
Proof.
  intros E. apply (f_equal String.length) in E. unfold GetTempFilePath in E.
  rewrite length_string_app in E. cbn in E. lia.
Qed.

Section Atomicity.
Context {cfg : OsConfig} {cjson : CJsonLib} {posix : Posix} {posixlaws : PosixLaws}.
Variables (p : string) (mode : Z) (content : string) (l0 : gmap string RWLock).
#[local] Abbreviation tmp := (GetTempFilePath p).
#[local] Abbreviation tx := (mkTransaction p mode).
#[local] Abbreviation locked := (mkRWLock 2 1).
#[local] Abbreviation unlocked := (mkRWLock 2 0).

(** What the files hold after a write that ends in [r]. *)
Definition written (c0 : gmap string string) {A} (r : result A) : gmap string string :=
  match r with Ok _ => <[p := content]> c0 | Err _ => c0 end.

Lemma SwapFileNames_spec c0 tw :
  in_transaction p c0 l0 (tx true true) locked tw → contents (os tw.2) !! tmp = Some content →
  wp SwapFileNames (λ r tw', in_transaction p (written c0 r) l0 (tx true true) locked tw') tw.
Proof.
  intros Htw Htmp. unfold SwapFileNames. apply wp_bind, wp_this. rewrite (proj1 Htw). cbn [path_].
  apply wp_bind. eapply wp_world_asks; [apply FileExists_keeps|apply FileExists_total|exact Htw|].
  intros b tw1 Htw1 Hc1. destruct b; cbn [negb]; [|by apply wp_err]. rewrite <-Hc1 in Htmp. clear tw Htw Hc1.
  apply wp_bind. apply (wp_retry _ _ _ (λ tw, in_transaction p c0 l0 (tx true true) locked tw ∧
    contents (os tw.2) !! tmp = Some content)); [done| |by intros tw [Htw _]].
  clear tw1 Htw1 Htmp. intros tw [(Ht & Hl & Hc) Htmp].
  apply wp_bind, wp_in_world, wp_on_os. intros [e|] s E.
  - pose proof (rename_failed _ _ _ _ _ E) as Hs.
    assert (Htw : in_transaction p c0 l0 (tx true true) locked (tw.1, set_os s tw.2))
      by (split_and!; cbn; congruence).
    case_bool_decide; cbn [negb]; apply wp_ret; [split; [done|cbn; congruence]|done].
  - destruct (rename_ok _ _ _ _ E) as (t & Ht' & Hs). rewrite Htmp in Ht'. injection Ht' as <-.
    apply wp_ret, wp_to_result. split_and!; cbn; [done|done|].
    by rewrite Hs, !delete_insert_ne, delete_delete_eq, Hc by apply temp_path_ne.
Qed.

Lemma EndTransaction_spec c0 tw :
  in_transaction p c0 l0 (tx true true) locked tw → contents (os tw.2) !! tmp = Some content →
  wp EndTransaction (λ r tw', in_transaction p (written c0 r) l0 (tx false true) unlocked tw') tw.
Proof.
  intros Htw Htmp. unfold EndTransaction. apply wp_bind, wp_this. rewrite (proj1 Htw). cbn [isOpenTransaction_ isWriteSuccessOnce_ negb].
  apply wp_bind, wp_try. eapply wp_conseq; [by eapply SwapFileNames_spec|]. intros r tw1 Htw1.
  apply wp_bind. apply (ForceUnlock_spec _ _ _ _ _ _ _ Htw1). intros tw2 Htw2 _. by apply wp_to_result.
Qed.

Lemma ReleaseAction_spec c0 b wr tw :
  l0 !! p = None →
  in_transaction p c0 l0 (tx b wr) (if b then locked else unlocked) tw →
  wp ReleaseAction (λ _ tw', g_rwLockMap tw'.2 = l0 ∧ delete tmp (contents (os tw'.2)) = delete tmp c0) tw.
Proof.
  intros Hl0 Htw. unfold ReleaseAction. apply wp_bind, wp_this. rewrite (proj1 Htw). cbn [isOpenTransaction_ path_].
  apply wp_bind. eapply (wp_conseq _ (λ r tw', r = Ok tt ∧ in_transaction p c0 l0 (tx false wr) unlocked tw')).
  { destruct b; [|by apply wp_ret]. apply wp_bind, wp_try. eapply wp_conseq; [by apply Rollback_file_spec|].
    intros r tw1 Htw1. by apply wp_ret. }
  clear tw Htw. intros r tw [-> (Ht & Hl & Hc)]. apply wp_bind, wp_in_world. unfold TryEraseTransaction.
  apply wp_bind, wp_get. rewrite Hl, lookup_insert_eq. cbn [use_count].
  apply wp_put. unfold change_lock. apply wp_bind, wp_this, wp_in_world, wp_modify. cbn. rewrite Ht. cbn.
  split; [|done]. rewrite delete_insert_id by done. apply alter_id. by rewrite Hl0.
Qed.

(** What a write does: the file has the new content when it succeeds and is as it
    was when it fails; the temporary file aside, nothing else changes. *)
Definition replaced (c0 : gmap string string) {A} (r : result A) (w' : FileWorld) : Prop :=
  g_rwLockMap w' = l0 ∧ delete tmp (contents (os w')) = delete tmp (written c0 r).

Lemma wp_with_transaction c0 (body : M TransactionWorld unit) w :
  l0 !! p = None → g_rwLockMap w = l0 → contents (os w) = c0 →
  (∀ tw, in_transaction p c0 l0 (tx false false) unlocked tw →
     wp body (λ r tw', ∃ b wr, in_transaction p (written c0 r) l0 (tx b wr) (if b then locked else unlocked) tw') tw) →
  wp (with_file_transaction p mode body) (replaced c0) w.
Proof.
  intros Hp Hl Hc Hbody. unfold with_file_transaction, GetFileTransaction, GetRWLock.
  apply wp_bind, wp_bind, wp_bind, wp_get. rewrite Hl, Hp. apply wp_put, wp_bind, wp_modify, wp_ret, wp_bind, wp_get.
  set (w1 := set_locks _ _).
  assert (Hw1 : in_transaction p c0 l0 (tx false false) unlocked (tx false false, w1)).
  { split_and!; cbn; [done| |congruence]. by rewrite alter_insert_eq. }
  specialize (Hbody _ Hw1). unfold wp in Hbody.
  destruct (body (tx false false, w1)) as [r tw] eqn:Erun. destruct Hbody as (b & wr & Htw). cbn in Htw.
  pose proof (ReleaseAction_spec _ b wr tw Hp Htw) as Hrel. unfold wp in Hrel.
  destruct (ReleaseAction tw) as [r' [t' w']] eqn:Erel. cbn in Hrel. by apply wp_bind, wp_put, wp_to_result.
Qed.

Lemma WriteFileWithTransaction_spec w :
  l0 !! p = None → g_rwLockMap w = l0 → wp (WriteFileWithTransaction p content mode) (replaced (contents (os w))) w.
Proof.
  intros Hp Hl. unfold WriteFileWithTransaction. apply wp_bind, wp_on_os. intros [r1 r2] s E. cbn [fst snd].
  pose proof (access_keeps p (os w)) as Hs. rewrite E in Hs. cbn in Hs.
  destruct (r1 && negb r2); [apply wp_err; split; cbn; congruence|].
  apply wp_with_transaction; [done|done|done|]. intros tw Htw.
  apply wp_bind. eapply wp_conseq; [by apply BeginWriteTransaction_spec|]. intros [[]|e] tw1 Htw1; cbn in Htw1.
  2: { by exists false, false. }
  apply wp_bind. eapply wp_conseq; [by apply TransactionWriteFile_spec|]. intros [[]|e] tw2 Htw2.
  2: { by exists true, false. }
  destruct Htw2 as [Htw2 Htmp]. eapply wp_conseq; [by apply EndTransaction_spec|].
  intros r tw3 Htw3. by exists false, true.
Qed.

Lemma InputFileWithTransaction_spec w :
  l0 !! p = None → g_rwLockMap w = l0 →
  wp (InputFileByPathAndContentWithTransaction p content mode) (replaced (contents (os w))) w.
Proof.
  intros Hp Hl. apply wp_bind, wp_keeps; [apply IsDataStorageSufficient_keeps|].
  intros [b|e] w1 Hc1 Hl1; [|by split; [congruence|cbn; rewrite Hc1]].
  destruct b; cbn [negb]; [|apply wp_err; split; [congruence|cbn; by rewrite Hc1]].
  rewrite <-Hc1. apply WriteFileWithTransaction_spec; congruence.
Qed.
End Atomicity.

Lemma InputFileByPathAndContent_spec `{OsConfig} `{PosixLaws} p content l0 w :
  l0 !! p = None → g_rwLockMap w = l0 →
  wp (InputFileByPathAndContent p content) (replaced p content l0 (contents (os w))) w.
Proof.
  intros Hp Hl. set (c0 := contents (os w)). assert (Hw : file_state c0 l0 w) by done.
  assert (Hsame : ∀ A (r : result A) w', is_Ok r = false → file_state c0 l0 w' → replaced p content l0 c0 r w').
  { intros A [a|e] w' Hr [Hc Hl']; [done|]. split; [done|]. cbn. by rewrite Hc. }
  clearbody c0. revert w Hw Hl. intros w Hw _. unfold InputFileByPathAndContent.
  assert (Hkeep : ∀ A (m : M FileWorld A) (Q : result A → FileWorld → Prop) w, keeps_files m → file_state c0 l0 w →
    (∀ r w', file_state c0 l0 w' → Q r w') → wp m Q w).
  { intros A m Q w1 Hm [Hc1 Hl1] HQ. apply wp_keeps; [done|]. intros r w' Hc' Hl'. apply HQ. split; congruence. }
  apply wp_bind. eapply Hkeep; [apply IsExistDir_keeps|exact Hw|]. clear w Hw. intros [b|e] w Hw; [|by apply Hsame].
  apply wp_bind. eapply (wp_conseq _ (λ r w, file_state c0 l0 w)).
  { destruct b; [by apply wp_ret|]. eapply Hkeep; [apply CreateDir_keeps|exact Hw|done]. }
  clear w Hw. intros [[]|e] w Hw; [|by apply Hsame].
  apply wp_bind. eapply Hkeep; [apply IsDataStorageSufficient_keeps|exact Hw|]. clear w Hw b.
  intros [b|e] w Hw; [|by apply Hsame]. destruct b; cbn [negb]; [|by apply wp_err, Hsame].
  apply wp_bind. eapply Hkeep; [apply modify_flag_keeps|exact Hw|]. clear w Hw. intros [[]|e] w Hw; [|by apply Hsame].
  destruct Hw as [Hc Hl]. subst c0. apply wp_bind, wp_try. eapply wp_conseq; [by apply WriteFileWithTransaction_spec|].
  intros [[]|e] w' Hw'; [by apply wp_ret|]. destruct Hw' as [Hl' Hc'].
  apply wp_bind, wp_keeps; [apply modify_flag_keeps|]. intros r w'' Hc'' Hl''. rewrite <-Hc'', <-Hl'' in *.
  by destruct r as [[]|e'].
Qed.
