(* ===== verification/FileTheorems.v ===== *)
(** What the file operations promise: they discharge [FileStore], a write that
    is cut off at any call leaves the old text or the new one, and on a device on
    which no call fails ([PosixReliable]) what is written is read back.  [RamDisk]
    is a device the witnesses run on. *)
From Stdlib Require Import ZArith Lia Ascii String.
From stdpp Require Import base list gmap sets strings pretty.
From S2P Require Import Prelude ErrorCodes Json FileStore FileOperator.

(** ** The operations as a file store *)

Section Store.
Context {cfg : OsConfig} {cjson : CJsonLib} {posix : Posix} {posixlaws : PosixLaws}.

(** The text of every file but the temporary ones. *)
Definition world_texts (w : FileWorld) : gmap string string :=
  filter (λ kv, is_temp kv.1 = false) (contents (os w)).
Definition world_idle (w : FileWorld) : Prop := g_rwLockMap w = ∅.

Lemma world_texts_lookup w p : is_temp p = false → world_texts w !! p = contents (os w) !! p.
Proof.
  intros Hp. unfold world_texts. destruct (contents (os w) !! p) as [t|] eqn:E.
  - by apply map_lookup_filter_Some.
  - apply map_lookup_filter_None. by left.
Qed.

(** A call that keeps files, with what it finds out. *)
Lemma wp_store_keeps {A} (m : M FileWorld A) (P : result A → Prop) w :
  keeps_files m → world_idle w → P (m w).1 →
  wp m (λ r w', world_idle w' ∧ world_texts w' = world_texts w ∧ P r) w.
Proof.
  intros Hm Hw HP. destruct (Hm _ _ w (conj eq_refl eq_refl)) as [Hc Hl]. unfold wp, world_idle, world_texts in *.
  split_and!; [congruence|by rewrite Hc|done].
Qed.

(** What an answer says about the files before the call. *)
Lemma FileExists_sound p w : wp (FileExists p) (λ r _, r = Ok true → is_Some (contents (os w) !! p)) w.
Proof.
  unfold FileExists. apply (wp_retry _ _ _ (λ w', contents (os w') = contents (os w))); [done| |done].
  intros w1 Hw1. apply wp_bind, wp_on_os. intros r s E. pose proof (stat_keeps p (os w1)) as Hk. rewrite E in Hk.
  destruct r as [e|kind].
  - case_bool_decide; apply wp_ret; [done|]. cbn in *. congruence.
  - apply wp_ret. intros [= Hkind%bool_decide_eq_true]. subst kind. rewrite <-Hw1. by eapply stat_regular.
Qed.

Lemma IsExistFile_sound p w : wp (IsExistFile p) (λ r _, r = Ok true → is_Some (contents (os w) !! p)) w.
Proof. unfold IsExistFile. destruct (string_empty p); [by apply wp_ret|apply FileExists_sound]. Qed.

Lemma CheckFileExistence_sound p w : wp (CheckFileExistence p) (λ r _, r = Ok tt → is_Some (contents (os w) !! p)) w.
Proof.
  unfold CheckFileExistence. destruct (string_empty p); [by apply wp_err|]. apply wp_bind.
  apply (wp_retry _ _ _ (λ w', contents (os w') = contents (os w))); [done| |by intros; apply wp_to_result].
  intros w1 Hw1. apply wp_bind, wp_on_os. intros r s E. pose proof (stat_keeps p (os w1)) as Hk. rewrite E in Hk.
  destruct r as [[]|kind]; apply wp_ret; try done; [cbn in *; congruence..|].
  case_bool_decide; [|done]. subst kind. intros _. rewrite <-Hw1. by eapply stat_regular.
Qed.

Lemma ReadFile_sound p w : wp (ReadFile p) (λ r _, ∀ t, r = Ok t →
    contents (os w) !! p = Some t ∧ Z.of_nat (String.length t) ≤ MAX_FILE_SIZE) w.
Proof.
  unfold ReadFile. apply wp_bind, wp_asks; [apply FileExists_keeps|apply FileExists_total|]. intros b w1 Hc1 _.
  destruct b; cbn [negb]; [|by apply wp_err]. rewrite <-Hc1. clear w Hc1.
  apply wp_bind, wp_on_os. intros [e|[]] s1 E1; [by apply wp_err|].
  destruct (open_read_ok _ _ _ E1) as [t Ht]. rewrite Ht.
  pose proof (open_read_keeps p (os w1)) as Hk1. rewrite E1 in Hk1. cbn in Hk1.
  apply wp_bind, wp_on_os. cbn [os set_os]. intros n s2 E2.
  pose proof (size_keeps p s1) as Hk2. rewrite E2 in Hk2. cbn in Hk2. assert (Ht1 : contents s1 !! p = Some t) by congruence.
  pose proof (size_value _ _ _ _ _ Ht1 E2) as Hn.
  destruct (Z.ltb_spec n 0); [by apply wp_err|]. destruct (Z.ltb_spec MAX_FILE_SIZE n); [by apply wp_err|]. cbn [orb].
  apply wp_bind, wp_on_os. cbn [os set_os]. intros t' s3 E3. assert (Ht2 : contents s2 !! p = Some t) by congruence.
  pose proof (read_value _ _ _ _ _ _ Ht2 E3) as Ht'.
  destruct (Z.eqb_spec (Z.of_nat (String.length t')) n) as [Hlen|]; cbn [negb]; [|by apply wp_err].
  apply wp_ret. intros t'' [= <-]. split; [|lia]. f_equal. rewrite Ht'. replace (String.length t') with (String.length t) by lia.
  pose proof (substring_app_l t EmptyString) as Hs. by rewrite string_app_nil_r in Hs.
Qed.

Lemma GetFileContentByPath_sound p w :
  wp (GetFileContentByPath p) (λ r _, ∀ t, r = Ok t →
    contents (os w) !! p = Some t ∧ Z.of_nat (String.length t) ≤ MAX_FILE_SIZE) w.
Proof.
  unfold GetFileContentByPath. apply wp_bind, wp_asks; [apply IsExistFile_keeps|apply IsExistFile_total|].
  intros b w1 Hc1 _. destruct b; cbn [negb]; [|by apply wp_err]. rewrite <-Hc1. apply ReadFile_sound.
Qed.

Lemma IsJsonFormat_sound p w :
  wp (IsJsonFormat p) (λ r _, ∃ b, r = Ok b ∧ (b = true →
    ∃ t, contents (os w) !! p = Some t ∧ IsStructured (CreateJsonFromString t) = true)) w.
Proof.
  unfold IsJsonFormat. apply wp_bind, wp_try. eapply wp_conseq; [apply GetFileContentByPath_sound|].
  intros [t|e] w' Ht; apply wp_ret; eexists; (split; [done|]); [|done]. intros Hb. exists t. split; [by apply Ht|].
  by destruct (CreateJsonFromString t).
Qed.

Lemma IsJsonFileReady_sound p w :
  wp (IsJsonFileReady p) (λ r _, ∃ b, r = Ok b ∧ (b = true →
    ∃ t, contents (os w) !! p = Some t ∧ IsStructured (CreateJsonFromString t) = true)) w.
Proof.
  unfold IsJsonFileReady. apply wp_bind, wp_asks; [apply IsExistFile_keeps|apply IsExistFile_total|].
  intros b w1 Hc1 _. destruct b; [|by apply wp_ret; eexists]. rewrite <-Hc1. apply IsJsonFormat_sound.
Qed.

(** Replacing a file, up to its temporary file, replaces a text. *)
Lemma replaced_texts p c c0 w (r : result unit) w' :
  is_temp p = false → world_texts w = filter (λ kv, is_temp kv.1 = false) c0 →
  replaced p c ∅ c0 r w' →
  world_idle w' ∧ world_texts w' = match r with Ok _ => <[p := c]> (world_texts w) | Err _ => world_texts w end.
Proof.
  intros Hp Hw [Hl Hc]. split; [done|]. unfold world_texts in *.
  assert (Htmp : ∀ x, ¬ is_temp (GetTempFilePath p, x : string).1 = false).
  { intros x. cbn. unfold GetTempFilePath. by rewrite is_temp_app. }
  rewrite <-(map_filter_delete_not _ (contents (os w')) (GetTempFilePath p)) by (intros; apply Htmp).
  rewrite Hc, map_filter_delete_not by (intros; apply Htmp). destruct r as [[]|e]; cbn; [|done].
  rewrite Hw. by apply map_filter_insert_True.
Qed.

Lemma InputFileByPathAndContent_texts p c w :
  world_idle w → is_temp p = false →
  wp (InputFileByPathAndContent p c) (λ r w', world_idle w' ∧
    world_texts w' = match r with Ok _ => <[p := c]> (world_texts w) | Err _ => world_texts w end) w.
Proof.
  intros Hw Hp. eapply wp_conseq; [apply (InputFileByPathAndContent_spec p c ∅); [apply lookup_empty|done]|].
  intros r w' Hr. by eapply replaced_texts.
Qed.

Lemma InputFileWithTransaction_texts p c w :
  world_idle w → is_temp p = false →
  wp (InputFileByPathAndContentWithTransaction p c FILE_MODE) (λ r w', world_idle w' ∧
    world_texts w' = match r with Ok _ => <[p := c]> (world_texts w) | Err _ => world_texts w end) w.
Proof.
  intros Hw Hp. eapply wp_conseq; [apply (InputFileWithTransaction_spec p FILE_MODE c ∅); [apply lookup_empty|done]|].
  intros r w' Hr. by eapply replaced_texts.
Qed.

Lemma wp_delete_flag p b (Q : result unit → FileWorld → Prop) w :
  (∀ w', os w' = os w → g_rwLockMap w' = g_rwLockMap w → Q (Ok tt) w') →
  wp (when_watched (SetValidDeleteFileOperationFlag p b)) Q w.
Proof.
  intros HQ. unfold when_watched. destruct ENABLE_FILE_WATCHER; [by apply wp_modify, HQ|by apply wp_ret, HQ].
Qed.

Lemma DeleteFile_texts p w :
  world_idle w → is_temp p = false →
  wp (DeleteFile p) (λ r w', world_idle w' ∧
    world_texts w' = match r with Ok _ => delete p (world_texts w) | Err _ => world_texts w end) w.
Proof.
  intros Hw Hp. unfold DeleteFile. apply wp_bind, wp_on_os. intros b s E. pose proof (remove_effect _ _ _ _ E) as Hs.
  destruct b; cbn [negb].
  - apply wp_delete_flag. intros w' Ho Hl. cbn in Ho, Hl. split; [unfold world_idle in *; congruence|]. unfold world_texts.
    by rewrite Ho, Hs, map_filter_delete.
  - apply wp_err. split; [done|]. unfold world_texts. cbn. by rewrite Hs.
Qed.

Lemma filter_lookup_same (c c' : gmap string string) q :
  c' !! q = c !! q →
  filter (λ kv, is_temp kv.1 = false) c' !! q = filter (λ kv, is_temp kv.1 = false) c !! q.
Proof.
  intros E. apply option_eq. intros x. by rewrite !map_lookup_filter_Some, E.
Qed.

Lemma DeleteDirOrFile_texts p w :
  world_idle w → is_temp p = false →
  wp (DeleteDirOrFile p) (λ r w', world_idle w' ∧ ∀ q, world_texts w' !! q = world_texts w !! q ∨
    (q = p ∨ below p q) ∧ world_texts w' !! q = None) w.
Proof.
  intros Hw Hp. unfold DeleteDirOrFile. apply wp_bind, wp_asks; [apply IsExistDir_keeps|apply IsExistDir_total|].
  intros isDir w1 Hc1 Hl1. assert (Hw1 : world_idle w1) by (unfold world_idle in *; congruence).
  assert (Ht1 : world_texts w1 = world_texts w) by (unfold world_texts; by rewrite Hc1).
  rewrite <-Ht1. clear w Hc1 Hl1 Hw Ht1. destruct isDir.
  - unfold DeleteDir. apply wp_bind, wp_on_os. intros b s E. pose proof (remove_dir_effect _ _ _ _ E) as Hs.
    assert (Hend : ∀ w', os w' = s → ∀ q, world_texts w' !! q = world_texts w1 !! q ∨
      (q = p ∨ below p q) ∧ world_texts w' !! q = None).
    { intros w' Ho q. unfold world_texts. rewrite Ho. destruct (Hs q) as [_ [Hq|[Hb Hq]]]; [left|right].
      - by apply filter_lookup_same.
      - split; [by right|]. apply map_lookup_filter_None. by left. }
    destruct b; cbn [negb]; [|by apply wp_err; split; [|apply Hend]].
    apply wp_delete_flag. intros w' Ho Hl. cbn in Ho, Hl. split; [unfold world_idle in *; congruence|by apply Hend].
  - apply wp_bind, wp_asks; [apply IsExistFile_keeps|apply IsExistFile_total|]. intros isFile w2 Hc2 Hl2.
    assert (Hw2 : world_idle w2) by (unfold world_idle in *; congruence).
    assert (Ht2 : world_texts w2 = world_texts w1) by (unfold world_texts; by rewrite Hc2). rewrite <-Ht2.
    destruct isFile; [|by apply wp_ret; split; [|by left]].
    eapply wp_conseq; [by apply DeleteFile_texts|]. intros r w' [Hw' Ht']. split; [done|]. rewrite Ht'. intros q.
    destruct r; [|by left]. destruct (decide (q = p)) as [->|Hq].
    + right. split; [by left|apply lookup_delete_eq].
    + left. by apply lookup_delete_ne.
Qed.

#[export] Instance FileWorld_store : FileStore FileWorld.
Proof.
  refine {| FileStore.IsExistFile := IsExistFile; FileStore.IsExistDir := IsExistDir;
    FileStore.CheckFileExistence := CheckFileExistence; FileStore.GetFileContentByPath := GetFileContentByPath;
    FileStore.IsJsonFormat := IsJsonFormat; FileStore.IsJsonFileReady := IsJsonFileReady;
    FileStore.InputFileByPathAndContent := InputFileByPathAndContent;
    FileStore.InputFileByPathAndContentWithTransaction := λ p c, InputFileByPathAndContentWithTransaction p c FILE_MODE; FileStore.DeleteFile := DeleteFile;
    FileStore.DeleteDirOrFile := DeleteDirOrFile; texts := world_texts; idle := world_idle |}.
  - intros p w Hw Hp. apply wp_store_keeps; [apply IsExistFile_keeps|done|].
    pose proof (IsExistFile_total p w) as Ht. destruct ((IsExistFile p w).1) as [b|] eqn:E; [|done]. exists b. split; [done|].
    intros ->. rewrite world_texts_lookup by done. by apply (IsExistFile_sound p w).
  - intros p w Hw. apply wp_store_keeps; [apply IsExistDir_keeps|done|apply IsExistDir_total].
  - intros p w Hw Hp. apply wp_store_keeps; [apply CheckFileExistence_keeps|done|].
    rewrite world_texts_lookup by done. apply (CheckFileExistence_sound p w).
  - intros p w Hw Hp. apply wp_store_keeps; [apply GetFileContentByPath_keeps|done|].
    rewrite world_texts_lookup by done. intros t Ht. by apply (GetFileContentByPath_sound p w).
  - intros p w Hw Hp. apply wp_store_keeps; [apply IsJsonFormat_keeps|done|].
    rewrite world_texts_lookup by done. apply (IsJsonFormat_sound p w).
  - intros p w Hw Hp. apply wp_store_keeps; [apply IsJsonFileReady_keeps|done|].
    rewrite world_texts_lookup by done. apply (IsJsonFileReady_sound p w).
  - intros p c w. apply InputFileByPathAndContent_texts.
  - intros p c w. apply InputFileWithTransaction_texts.
  - intros p w. apply DeleteFile_texts.
  - intros p w. apply DeleteDirOrFile_texts.
Defined.
End Store.

(** ** A process that dies

    The operating system as a process sees it that is killed after a number of
    calls: from then on nothing it does has an effect. *)

Section Crash.
Context {posix : Posix} {posixlaws : PosixLaws}.

Definition while_alive {A} (f : sys → A * sys) (dead : A) (s : nat * sys) : A * (nat * sys) :=
  match s.1 with
  | O => (dead, s)
  | S n => let '(a, s') := f s.2 in (a, (n, s'))
  end.

Definition Crashing : Posix := {|
  sys := nat * sys;
  stat p := while_alive (stat p) (inl EOTHER);
  stat_size p := while_alive (stat_size p) None;
  access p := while_alive (access p) (false, false);
  fopen_write p := while_alive (fopen_write p) (inl EOTHER);
  fwrite p t := while_alive (fwrite p t) (-1);
  fflush p := while_alive (fflush p) false;
  fsync p := while_alive (fsync p) false;
  chown p u g := while_alive (chown p u g) false;
  ChangeModeFile p m := while_alive (ChangeModeFile p m) false;
  fopen_read p := while_alive (fopen_read p) (inl EOTHER);
  ftell_end p := while_alive (ftell_end p) (-1);
  fread p n := while_alive (fread p n) EmptyString;
  renameat2 p q := while_alive (renameat2 p q) (Some EOTHER);
  RemoveFile p := while_alive (RemoveFile p) false;
  ForceRemoveDirectory p := while_alive (ForceRemoveDirectory p) false;
  ForceCreateDirectory p := while_alive (ForceCreateDirectory p) false;
  ChangeModeDirectory p m := while_alive (ChangeModeDirectory p m) false;
  statvfs p := while_alive (statvfs p) None;
  realpath p := while_alive (realpath p) None;
  open_directory p := while_alive (open_directory p) (-1);
  ioctl_get_flags fd := while_alive (ioctl_get_flags fd) None;
  ioctl_set_flags fd f := while_alive (ioctl_set_flags fd f) false;
|}.

Lemma while_alive_keeps {A} (f : sys → A * sys) dead s :
  (∀ s, contents (f s).2 = contents s) → contents (while_alive f dead s).2.2 = contents s.2.
Proof.
  intros Hf. unfold while_alive. destruct s as [[|n] s]; [done|]. cbn. specialize (Hf s). by destruct (f s).
Qed.

(** A call and its answer, alive or dead. *)
Lemma while_alive_inv {A} (f : sys → A * sys) dead s a s' :
  while_alive f dead s = (a, s') → (a = dead ∧ s' = s) ∨ f s.2 = (a, s'.2).
Proof.
  unfold while_alive. destruct s as [[|n] s]; cbn; [intros; simplify_eq; by left|].
  destruct (f s) eqn:E. intros; simplify_eq. by right.
Qed.

Definition CrashingLaws : @PosixLaws Crashing.
Proof.
  refine (@Build_PosixLaws Crashing (λ s : nat * sys, contents s.2) (λ (s : nat * sys) p, stream s.2 p)
    _ _ _ _ _ _ _ _ _ _ _ _ _ _ _ _ _ _ _ _ _ _ _ _ _ _ _ _ _ _); cbn; intros;
    try (apply while_alive_keeps; intros;
      first [ apply stat_keeps | apply stat_size_keeps | apply access_keeps | apply fsync_keeps | apply chown_keeps
            | apply chmod_keeps | apply open_read_keeps | apply size_keeps | apply read_keeps | apply mkdir_keeps
            | apply chmod_dir_keeps | apply statvfs_keeps | apply realpath_keeps | apply open_dir_keeps
            | apply get_flags_keeps | apply set_flags_keeps ]);
    match goal with
    | H : while_alive _ _ _ = _ |- _ => apply while_alive_inv in H as [[? ?]|H]; simplify_eq
    end; try done; try lia; eauto using stat_regular, stat_other, stat_absent, open_write_ok, open_write_failed,
      write_effect, flush_effect, open_read_ok, size_value, read_value, rename_ok, rename_failed, remove_dir_effect.
  all: first [ split; [done|intros; lia] | by eapply remove_effect | by destruct t | split; [done|by left] ].
Defined.

(** The world of a process that dies after [n] calls. *)
Definition dies_after (n : nat) (w : FileWorld) : @FileWorld Crashing :=
  @mkFileWorld Crashing (n, os w) (g_rwLockMap w) (validModifyFileOperationFlag_ w) (validDeleteFileOperationFlag_ w).

(** The files that are left. *)
Definition left_behind (w : @FileWorld Crashing) : gmap string string := contents (os w).2.
End Crash.

(** ** A device on which no call fails *)

Section Reliable.
Context {posix : Posix} {posixlaws : PosixLaws}.

Class PosixReliable := {
  healthy : sys → Prop;
  stat_healthy p s : healthy s → healthy (stat p s).2 ∧ ∀ e, (stat p s).1 = inl e → e = ENOENT;
  access_healthy p s : healthy s → healthy (access p s).2 ∧ (access p s).1 = (true, true);
  open_write_healthy p s : healthy s → healthy (fopen_write p s).2 ∧ (fopen_write p s).1 = inr tt;
  write_healthy p t s : healthy s → healthy (fwrite p t s).2 ∧ (fwrite p t s).1 = Z.of_nat (String.length t);
  flush_healthy p s : healthy s → healthy (fflush p s).2 ∧ (fflush p s).1 = true;
  fsync_healthy p s : healthy s → healthy (fsync p s).2 ∧ (fsync p s).1 = true;
  chown_healthy p u g s : healthy s → healthy (chown p u g s).2 ∧ (chown p u g s).1 = true;
  chmod_healthy p m s : healthy s → healthy (ChangeModeFile p m s).2 ∧ (ChangeModeFile p m s).1 = true;
  open_read_healthy p s : healthy s → is_Some (contents s !! p) →
    healthy (fopen_read p s).2 ∧ (fopen_read p s).1 = inr tt;
  size_healthy p s t : healthy s → contents s !! p = Some t →
    healthy (ftell_end p s).2 ∧ (ftell_end p s).1 = Z.of_nat (String.length t);
  read_healthy p s t : healthy s → contents s !! p = Some t →
    healthy (fread p (Z.of_nat (String.length t)) s).2 ∧ (fread p (Z.of_nat (String.length t)) s).1 = t;
  rename_healthy p q s : healthy s → is_Some (contents s !! p) →
    healthy (renameat2 p q s).2 ∧ (renameat2 p q s).1 = None;
  mkdir_healthy p s : healthy s → healthy (ForceCreateDirectory p s).2 ∧ (ForceCreateDirectory p s).1 = true;
  chmod_dir_healthy p m s : healthy s →
    healthy (ChangeModeDirectory p m s).2 ∧ (ChangeModeDirectory p m s).1 = true;
  statvfs_healthy p s : healthy s → healthy (statvfs p s).2 ∧ ∃ b a, (statvfs p s).1 = Some (b, a) ∧
    MAX_FILE_SIZE + BUFF_FILE_SIZE < (b * a) `mod` 2 ^ 64;
  realpath_healthy p s : healthy s → healthy (realpath p s).2;
  open_dir_healthy p s : healthy s → healthy (open_directory p s).2;
  get_flags_healthy fd s : healthy s → healthy (ioctl_get_flags fd s).2;
  set_flags_healthy fd f s : healthy s → healthy (ioctl_set_flags fd f s).2;
}.
End Reliable.
Arguments PosixReliable {_} _.

Section Succeeding.
Context {cfg : OsConfig} {cjson : CJsonLib} {posix : Posix} {posixlaws : PosixLaws} {posixok : PosixReliable posixlaws}.

Definition world_ok (w : FileWorld) : Prop := healthy (os w).

(** A computation of which the state stays healthy. *)
Definition stays_ok {A} (m : M FileWorld A) : Prop := preserves world_ok m.

Lemma on_os_ok {A} (f : sys → A * sys) : (∀ s, healthy s → healthy (f s).2) → stays_ok (on_os f).
Proof. intros Hf w Hw. unfold on_os. specialize (Hf (os w) Hw). by destruct (f (os w)). Qed.

(** A call and its answer on a healthy device. *)
Lemma wp_on_os_ok {A} (f : sys → A * sys) a (Q : result A → FileWorld → Prop) w :
  healthy (f (os w)).2 ∧ (f (os w)).1 = a →
  (∀ s, f (os w) = (a, s) → healthy s → Q (Ok a) (set_os s w)) → wp (on_os f) Q w.
Proof.
  intros [Hh Ha] HQ. apply wp_on_os. intros a' s E. rewrite E in Hh, Ha. cbn in *. subst a'. by apply HQ.
Qed.

Lemma FileExists_ok p w :
  world_ok w → wp (FileExists p) (λ r w', world_ok w' ∧ contents (os w') = contents (os w) ∧
    g_rwLockMap w' = g_rwLockMap w ∧ r = Ok (bool_decide (is_Some (contents (os w) !! p)))) w.
Proof.
  intros Hw. unfold FileExists. cbn [RETRY_TIMES mretry]. apply wp_bind, wp_bind, wp_on_os. intros r s E.
  pose proof (stat_keeps p (os w)) as Hk. destruct (stat_healthy p (os w) Hw) as [Hh He]. rewrite E in Hk, Hh, He.
  cbn in Hk, Hh, He. destruct r as [e|kind].
  - rewrite (He e eq_refl). cbn. apply wp_ret, wp_ret. split_and!; [done..|]. f_equal.
    rewrite (stat_absent p (os w) s); [done|]. rewrite E. by rewrite (He e eq_refl).
  - apply wp_ret, wp_ret. split_and!; [done..|]. f_equal. apply bool_decide_ext. split.
    + intros ->. by eapply stat_regular.
    + intros [t Ht]. destruct (decide (kind = S_ISREG)) as [|Hne]; [done|].
      by rewrite (stat_other _ _ _ _ E Hne) in Ht.
Qed.

Lemma wp_and {S A} (m : M S A) (Q Q' : result A → S → Prop) s :
  wp m Q s → wp m Q' s → wp m (λ r s', Q r s' ∧ Q' r s') s.
Proof. done. Qed.

Lemma IsExistDir_ok p w : world_ok w → wp (IsExistDir p) (λ r w', world_ok w' ∧ ∃ b, r = Ok b) w.
Proof.
  intros Hw. unfold IsExistDir. destruct (string_empty p); [by apply wp_ret; split; [|eexists]|].
  apply wp_bind, wp_on_os. intros r s E. destruct (stat_healthy p (os w) Hw) as [Hh _]. rewrite E in Hh.
  apply wp_ret. split; [done|by eexists].
Qed.

Lemma CreateDir_ok p m w : world_ok w → wp (CreateDir p m) (λ r w', world_ok w' ∧ r = Ok tt) w.
Proof.
  intros Hw. unfold CreateDir. apply wp_bind. eapply wp_on_os_ok; [by apply mkdir_healthy|]. intros s _ Hs. cbn [negb].
  apply wp_bind. eapply (wp_conseq _ (λ r w', world_ok w' ∧ ∃ b, r = Ok b)).
  - clear Hw. set (w' := set_os s w). assert (Hw' : world_ok w') by done. clearbody w'. clear s w Hs. unfold SetDirDelFlags.
    apply wp_bind, wp_on_os. intros r s E. pose proof (realpath_healthy p (os w') Hw') as Hs. rewrite E in Hs. clear E.
    destruct r as [rp|]; [|by apply wp_ret; split; [|eexists]].
    apply wp_bind, wp_on_os. intros fd s2 E. pose proof (open_dir_healthy rp s Hs) as Hs2. cbn in E. rewrite E in Hs2. clear E.
    destruct (fd <? 0); [by apply wp_ret; split; [|eexists]|].
    apply wp_bind, wp_on_os. intros r s3 E. pose proof (get_flags_healthy fd s2 Hs2) as Hs3. cbn in E. rewrite E in Hs3. clear E.
    destruct r as [flags|]; [|by apply wp_ret; split; [|eexists]].
    destruct (negb _); [by apply wp_ret; split; [|eexists]|].
    apply wp_on_os. intros b s4 E. pose proof (set_flags_healthy fd (Z.lor flags HMFS_MONITOR_FL) s3 Hs3) as Hs4.
    cbn in E. rewrite E in Hs4. split; [done|by eexists].
  - intros r w1 [Hw1 [b ->]]. apply wp_bind. eapply wp_on_os_ok; [by apply chmod_dir_healthy|]. intros s' _ Hs'. by apply wp_ret.
Qed.

Lemma IsDataStorageSufficient_ok n w :
  0 ≤ n ≤ MAX_FILE_SIZE → world_ok w → wp (IsDataStorageSufficient n) (λ r w', world_ok w' ∧ r = Ok true) w.
Proof.
  intros Hn Hw. unfold IsDataStorageSufficient. apply wp_bind, wp_on_os. intros r s E.
  destruct (statvfs_healthy "/data" (os w) Hw) as [Hs (b & a & Hr & Hroom)]. rewrite E in Hs, Hr. cbn in Hs, Hr. subst r.
  apply wp_ret. split; [done|]. f_equal. cbv zeta. apply Z.ltb_lt.
  unfold MAX_FILE_SIZE, BUFF_FILE_SIZE in *. rewrite (Z.mod_small (n + _)) by lia. lia.
Qed.

Lemma WriteFile_ok p c m w : world_ok w → wp (WriteFile p c m) (λ r w', world_ok w' ∧ r = Ok tt) w.
Proof.
  intros Hw. unfold WriteFile. apply wp_bind. eapply wp_on_os_ok; [by apply open_write_healthy|]. intros s1 _ Hs1.
  apply wp_bind. eapply wp_on_os_ok; [by apply write_healthy|]. intros s2 _ Hs2. rewrite Z.eqb_refl. cbn [negb].
  apply wp_bind. eapply wp_on_os_ok; [by apply flush_healthy|]. intros s3 _ Hs3. cbn [negb].
  apply wp_bind. eapply wp_on_os_ok; [by apply fsync_healthy|]. intros s4 _ Hs4. cbn [negb].
  apply wp_bind. eapply wp_on_os_ok; [by apply chown_healthy|]. intros s5 _ Hs5. cbn [negb].
  apply wp_bind. eapply wp_on_os_ok; [by apply chmod_healthy|]. intros s6 _ Hs6. by apply wp_ret.
Qed.

(** The transaction object is [t] and the device is healthy. *)
Definition transaction_ok (t : FileTransaction) (tw : TransactionWorld) : Prop := tw.1 = t ∧ world_ok tw.2.

Lemma wp_change_lock_ok f t tw (Q : result unit → TransactionWorld → Prop) :
  transaction_ok t tw → (∀ tw', transaction_ok t tw' → contents (os tw'.2) = contents (os tw.2) → Q (Ok tt) tw') →
  wp (change_lock f) Q tw.
Proof. intros [Ht Hw] HQ. unfold change_lock. apply wp_bind, wp_this, wp_in_world, wp_modify. by apply HQ. Qed.

Lemma wp_set_open_ok b t tw (Q : result unit → TransactionWorld → Prop) :
  transaction_ok t tw →
  (∀ tw', transaction_ok (mkTransaction (path_ t) (mode_ t) b (isWriteSuccessOnce_ t)) tw' → Q (Ok tt) tw') →
  wp (set_open b) Q tw.
Proof. intros [<- Hw] HQ. by apply wp_modify, HQ. Qed.

Lemma BeginWriteTransaction_ok p m tw :
  transaction_ok (mkTransaction p m false false) tw →
  wp BeginWriteTransaction (λ r tw', transaction_ok (mkTransaction p m true false) tw' ∧ r = Ok tt) tw.
Proof.
  intros Htw. unfold BeginWriteTransaction. apply wp_bind, wp_this. rewrite (proj1 Htw). cbn [isOpenTransaction_ path_].
  apply wp_bind, (wp_change_lock_ok _ _ _ _ Htw). intros tw1 Htw1 _.
  apply wp_bind, (wp_set_open_ok _ _ _ _ Htw1). intros tw2 [Ht Hw]. cbv zeta. cbn in Ht.
  apply wp_bind, wp_in_world. eapply wp_conseq; [by apply IsExistDir_ok|]. intros r w3 [Hw3 [isDir ->]].
  apply wp_bind. eapply (wp_conseq _ (λ r tw, transaction_ok (mkTransaction p m true false) tw ∧ r = Ok (Ok tt))).
  { destruct isDir; [by apply wp_ret|]. apply wp_try, wp_in_world. eapply wp_conseq; [by apply CreateDir_ok|].
    by intros r w4 [Hw4 ->]. }
  intros r tw4 [[Ht4 Hw4] ->]. apply wp_bind, wp_in_world. eapply wp_on_os_ok; [by apply open_write_healthy|].
  intros s _ Hs. by apply wp_ret.
Qed.

Lemma TransactionWriteFile_ok p m c tw :
  transaction_ok (mkTransaction p m true false) tw →
  wp (TransactionWriteFile c) (λ r tw', transaction_ok (mkTransaction p m true true) tw' ∧
    is_Some (contents (os tw'.2) !! GetTempFilePath p) ∧ r = Ok tt) tw.
Proof.
  intros [Ht Hw]. unfold TransactionWriteFile. apply wp_bind, wp_this. rewrite Ht. cbn [isOpenTransaction_ negb path_ mode_].
  apply wp_bind, wp_try, wp_in_world.
  eapply wp_conseq; [apply wp_and; [by apply WriteFile_ok|apply WriteFile_spec]|].
  cbn. intros r w' [[Hw' ->] (_ & _ & Hc)]. apply wp_modify. cbn. rewrite Ht. split_and!; [done| |done].
  eexists. by apply Hc.
Qed.

Lemma EndTransaction_ok p m tw :
  transaction_ok (mkTransaction p m true true) tw → is_Some (contents (os tw.2) !! GetTempFilePath p) →
  wp EndTransaction (λ r tw', transaction_ok (mkTransaction p m false true) tw' ∧ r = Ok tt) tw.
Proof.
  intros [Ht Hw] Htmp. unfold EndTransaction. apply wp_bind, wp_this. rewrite Ht. cbn [isOpenTransaction_ isWriteSuccessOnce_ negb].
  apply wp_bind, wp_try. eapply (wp_conseq _ (λ r tw', transaction_ok (mkTransaction p m true true) tw' ∧ r = Ok tt)).
  - unfold SwapFileNames. apply wp_bind, wp_this. rewrite Ht. cbn [path_].
    apply wp_bind, wp_in_world. eapply wp_conseq; [by apply FileExists_ok|]. intros r w1 (Hw1 & Hc & _ & ->).
    rewrite bool_decide_true by done. cbn [negb RETRY_TIMES mretry]. apply wp_bind, wp_bind, wp_bind, wp_in_world.
    eapply wp_on_os_ok; [apply rename_healthy; [done|]|]; cbn [snd]; [by rewrite Hc|].
    intros s _ Hs. by apply wp_ret.
  - intros r tw1 [[Ht1 Hw1] ->]. apply wp_bind. unfold ForceUnlock. apply wp_bind, wp_this. rewrite Ht1. cbn [isOpenTransaction_ negb].
    apply wp_bind. eapply wp_change_lock_ok; [done|]. intros tw2 Htw2 _.
    eapply wp_set_open_ok; [done|]. intros tw3 Htw3. by apply wp_to_result.
Qed.

Lemma ReleaseAction_ok p m tw :
  transaction_ok (mkTransaction p m false true) tw → wp ReleaseAction (λ _ tw', world_ok tw'.2) tw.
Proof.
  intros [Ht Hw]. unfold ReleaseAction. apply wp_bind, wp_this. rewrite Ht. cbn [isOpenTransaction_ path_].
  apply wp_bind, wp_ret, wp_bind, wp_in_world. unfold TryEraseTransaction. apply wp_bind, wp_get.
  assert (Hend : ∀ w', world_ok w' → wp (change_lock (λ l, mkRWLock (use_count l - 1) (writers l)))
    (λ _ tw', world_ok tw'.2) (tw.1, w')).
  { intros w' Hw'. eapply wp_change_lock_ok; [by split|]. by intros tw' [_ Htw'] _. }
  destruct (g_rwLockMap tw.2 !! p) as [l|]; [|by apply wp_ret, Hend].
  destruct (use_count l =? RELEASE_COUNT); [by apply wp_put, Hend|by apply wp_ret, Hend].
Qed.

Lemma wp_whole_transaction {A} p m (body : M TransactionWorld A) (Q : result A → FileWorld → Prop) w :
  (∀ w', os w' = os w →
     wp body (λ r tw, wp ReleaseAction (λ _ tw', Q r tw'.2) tw) (mkTransaction p m false false, w')) →
  wp (with_file_transaction p m body) Q w.
Proof.
  intros Hbody. unfold with_file_transaction, GetFileTransaction, GetRWLock.
  apply wp_bind, wp_bind. eapply (wp_conseq _ (λ r w', os w' = os w ∧ r = Ok tt)).
  { apply wp_bind, wp_get. destruct (g_rwLockMap _ !! p); [by apply wp_ret|by apply wp_put]. }
  intros r w1 [Ho ->]. apply wp_bind, wp_modify, wp_ret, wp_bind, wp_get. specialize (Hbody (set_locks
    (alter (λ l, mkRWLock (use_count l + 1) (writers l)) p (g_rwLockMap w1)) w1) Ho). unfold wp in Hbody at 1.
  destruct (body _) as [r tw]. unfold wp in Hbody. cbn in Hbody.
  destruct (ReleaseAction tw) as [r' [t w3]]. by apply wp_bind, wp_put, wp_to_result.
Qed.

Lemma WriteFileWithTransaction_ok p c m w :
  world_ok w → wp (WriteFileWithTransaction p c m) (λ r w', world_ok w' ∧ r = Ok tt) w.
Proof.
  intros Hw. unfold WriteFileWithTransaction. apply wp_bind. eapply wp_on_os_ok; [by apply access_healthy|].
  intros s _ Hs. cbn [fst snd andb negb]. apply wp_whole_transaction. intros w1 Ho.
  assert (Htw : transaction_ok (mkTransaction p m false false) (mkTransaction p m false false, w1)).
  { split; [done|]. unfold world_ok. cbn. by rewrite Ho. }
  eapply (wp_conseq _ (λ r tw', transaction_ok (mkTransaction p m false true) tw' ∧ r = Ok tt)).
  - apply wp_bind. eapply wp_conseq; [by apply BeginWriteTransaction_ok|]. intros r tw1 [Htw1 ->].
    apply wp_bind. eapply wp_conseq; [by apply TransactionWriteFile_ok|]. intros r tw2 (Htw2 & Htmp & ->).
    by apply EndTransaction_ok.
  - intros r tw' [Htw' ->]. eapply wp_conseq; [by eapply ReleaseAction_ok|]. by intros r' tw'' Hw''.
Qed.

Lemma InputFileByPathAndContent_ok p c w :
  Z.of_nat (String.length c) ≤ MAX_FILE_SIZE → world_ok w →
  wp (InputFileByPathAndContent p c) (λ r w', world_ok w' ∧ r = Ok tt) w.
Proof.
  intros Hc Hw. unfold InputFileByPathAndContent.
  apply wp_bind. eapply wp_conseq; [by apply IsExistDir_ok|]. intros r w1 [Hw1 [isDir ->]].
  apply wp_bind. eapply (wp_conseq _ (λ r w', world_ok w' ∧ r = Ok tt)).
  { destruct isDir; [by apply wp_ret|by apply CreateDir_ok]. }
  intros r w2 [Hw2 ->]. apply wp_bind. eapply wp_conseq; [apply IsDataStorageSufficient_ok; [lia|done]|].
  intros r w3 [Hw3 ->]. cbn [negb]. apply wp_bind. eapply (wp_conseq _ (λ r w', world_ok w' ∧ r = Ok tt)).
  { unfold when_watched, SetValidModifyFileOperationFlag. destruct ENABLE_FILE_WATCHER; [|by apply wp_ret].
    destruct (str_contains _ _); [by apply wp_ret|by apply wp_modify]. }
  intros r w4 [Hw4 ->]. apply wp_bind, wp_try. eapply wp_conseq; [by apply WriteFileWithTransaction_ok|].
  intros r w5 [Hw5 ->]. by apply wp_ret.
Qed.

Lemma IsExistFile_ok p w :
  string_empty p = false → world_ok w → wp (IsExistFile p) (λ r w', world_ok w' ∧ contents (os w') = contents (os w) ∧
    g_rwLockMap w' = g_rwLockMap w ∧ r = Ok (bool_decide (is_Some (contents (os w) !! p)))) w.
Proof. intros Hp Hw. unfold IsExistFile. rewrite Hp. by apply FileExists_ok. Qed.

Lemma GetFileContentByPath_ok p t w :
  string_empty p = false → world_ok w → contents (os w) !! p = Some t → Z.of_nat (String.length t) ≤ MAX_FILE_SIZE →
  wp (GetFileContentByPath p) (λ r w', world_ok w' ∧ r = Ok t) w.
Proof.
  intros Hp Hw Ht Hlen. unfold GetFileContentByPath. apply wp_bind. eapply wp_conseq; [by apply IsExistFile_ok|].
  intros r w1 (Hw1 & Hc1 & _ & ->). rewrite bool_decide_true by (by eexists). cbn [negb]. rewrite <-Hc1 in Ht.
  unfold ReadFile. apply wp_bind. eapply wp_conseq; [by apply FileExists_ok|].
  intros r w2 (Hw2 & Hc2 & _ & ->). rewrite bool_decide_true by (by eexists). cbn [negb]. rewrite <-Hc2 in Ht.
  apply wp_bind. eapply wp_on_os_ok; [apply open_read_healthy; [done|by eexists]|]. intros s3 E3 Hs3.
  pose proof (open_read_keeps p (os w2)) as Hk3. rewrite E3 in Hk3. cbn in Hk3. rewrite <-Hk3 in Ht.
  apply wp_bind. eapply wp_on_os_ok; [by apply size_healthy|]. intros s4 E4 Hs4.
  pose proof (size_keeps p s3) as Hk4. cbn in E4. rewrite E4 in Hk4. cbn in Hk4. rewrite <-Hk4 in Ht.
  destruct (Z.ltb_spec (Z.of_nat (String.length t)) 0); [lia|].
  destruct (Z.ltb_spec MAX_FILE_SIZE (Z.of_nat (String.length t))); [lia|]. cbn [orb].
  apply wp_bind. eapply wp_on_os_ok; [by apply read_healthy|]. intros s5 _ Hs5. rewrite Z.eqb_refl. cbn [negb]. by apply wp_ret.
Qed.

#[export] Instance FileWorld_reliable : ReliableStore FileWorld.
Proof.
  refine {| reliable := world_ok; fits c := Z.of_nat (String.length c) ≤ MAX_FILE_SIZE |}; cbn.
  - intros p w Hi Hw Hp Hne. rewrite world_texts_lookup by done. eapply wp_conseq; [by apply IsExistFile_ok|].
    by intros r w' (Hw' & _ & _ & ->).
  - intros p w t Hi Hw Hp Hne Ht Hfit. rewrite world_texts_lookup in Ht by done. by apply GetFileContentByPath_ok.
  - intros p c w Hi Hw Hp Hfit. by apply InputFileByPathAndContent_ok.
Defined.
End Succeeding.

(** ** A device in memory *)

Module RamDisk.
(** The files and what is buffered for them. *)
Definition disk : Type := gmap string string * gmap string string.

Definition is_below (d q : string) : bool := String.prefix (d +:+ "/") q.

Lemma substring_whole t : String.substring 0 (String.length t) t = t.
Proof. pose proof (substring_app_l t EmptyString) as Hs. by rewrite string_app_nil_r in Hs. Qed.

Lemma substring_0_length n t :
  String.substring 0 n t = String.substring 0 (String.length (String.substring 0 n t)) t.
Proof.
  revert n. induction t as [|a t IH]; intros [|n]; cbn; [done..|]. f_equal. apply IH.
Qed.

Lemma prefix_cons a s b t :
  String.prefix (String a s) (String b t) = if ascii_dec a b then String.prefix s t else false.
Proof. done. Qed.

Lemma is_below_spec d q : is_below d q = true ↔ below d q.
Proof.
  unfold is_below, below. revert q. induction d as [|a d IH]; intros q.
  - destruct q as [|b q]; [split; [done|by intros [t ?]]|]. rewrite string_app_nil_l, prefix_cons.
    destruct (ascii_dec "/" b) as [<-|Hne].
    + split; [intros _; by exists q|]. intros _. by destruct q.
    + split; [done|]. intros [t Ht]. rewrite string_app_nil_l in Ht. injection Ht. congruence.
  - destruct q as [|b q]; [split; [done|by intros [t ?]]|]. rewrite string_app_cons, prefix_cons.
    destruct (ascii_dec a b) as [<-|Hne].
    + rewrite IH. split; intros [t Ht]; exists t; [by rewrite Ht, string_app_cons|].
      rewrite string_app_cons in Ht. by injection Ht.
    + split; [done|]. intros [t Ht]. rewrite string_app_cons in Ht. injection Ht. congruence.
Qed.

Definition is_dir (p : string) (s : disk) : bool := existsb (is_below p) (elements (dom s.1)).

Definition ram : Posix := {|
  sys := disk;
  stat p s := (match s.1 !! p with
               | Some _ => inr S_ISREG
               | None => if is_dir p s then inr S_ISDIR else inl ENOENT
               end, s);
  stat_size p s := ((λ t, Z.of_nat (String.length t)) <$> s.1 !! p, s);
  access p s := ((true, true), s);
  fopen_write p s := (inr tt, (<[p := EmptyString]> s.1, <[p := EmptyString]> s.2));
  fwrite p t s := (Z.of_nat (String.length t), (s.1, <[p := default EmptyString (s.2 !! p) +:+ t]> s.2));
  fflush p s := (true, (<[p := default EmptyString (s.2 !! p)]> s.1, s.2));
  fsync p s := (true, s);
  chown p u g s := (true, s);
  ChangeModeFile p m s := (true, s);
  fopen_read p s := (match s.1 !! p with Some _ => inr tt | None => inl ENOENT end, s);
  ftell_end p s := (Z.of_nat (String.length (default EmptyString (s.1 !! p))), s);
  fread p n s := (String.substring 0 (Z.to_nat n) (default EmptyString (s.1 !! p)), s);
  renameat2 p q s := match s.1 !! p with
                     | Some t => (None, (<[q := t]> (delete p s.1), s.2))
                     | None => (Some ENOENT, s)
                     end;
  RemoveFile p s := (true, (delete p s.1, s.2));
  ForceRemoveDirectory d s := (true, (filter (λ kv, is_below d kv.1 = false) s.1, s.2));
  ForceCreateDirectory p s := (true, s);
  ChangeModeDirectory p m s := (true, s);
  statvfs p s := (Some (4096, 1048576), s);
  realpath p s := (None, s);
  open_directory p s := (-1, s);
  ioctl_get_flags fd s := (None, s);
  ioctl_set_flags fd f s := (true, s);
|}.

Definition laws : @PosixLaws ram.
Proof.
  refine (@Build_PosixLaws ram (λ s : disk, s.1) (λ (s : disk) p, default EmptyString (s.2 !! p))
    _ _ _ _ _ _ _ _ _ _ _ _ _ _ _ _ _ _ _ _ _ _ _ _ _ _ _ _ _ _); cbn; intros; simplify_eq; try done.
  - destruct (s'.1 !! p) in H |- *; [by eexists|]. by destruct (is_dir p s').
  - destruct (s'.1 !! p) in H |- *; [|done]. naive_solver.
  - by destruct (s'.1 !! p) in H |- *.
  - cbn. by rewrite lookup_insert_eq.
  - cbn. by rewrite lookup_insert_eq.
  - cbn. by rewrite delete_insert_eq, lookup_insert_eq.
  - destruct (s'.1 !! p) in H |- *; [by eexists|done].
  - match goal with H : _ !! _ = Some _ |- _ => by rewrite H end.
  - match goal with H : _ !! _ = Some _ |- _ => rewrite H end. apply substring_0_length.
  - destruct (s.1 !! p) as [t|] eqn:E; simplify_eq. by exists t.
  - by destruct (s.1 !! p); simplify_eq.
  - cbn. destruct (is_below d q) eqn:E.
    + apply is_below_spec in E as Hb. assert (Hnone : filter (λ kv, is_below d kv.1 = false) s.1 !! q = None).
      { apply map_lookup_filter_None. right. intros x Hx Hf. change (is_below d q = false) in Hf. congruence. }
      split; [done|]. by right.
    + split; [intros Hb; apply is_below_spec in Hb; congruence|]. left. apply option_eq. intros x.
      rewrite map_lookup_filter_Some. naive_solver.
Defined.

Definition reliable : @PosixReliable ram laws.
Proof.
  refine (@Build_PosixReliable ram laws (λ _, True) _ _ _ _ _ _ _ _ _ _ _ _ _ _ _ _ _ _ _);
    cbn; intros; split; try done.
  all: try match goal with H : is_Some (_ !! _) |- _ => destruct H as [t H]; by rewrite H end.
  - intros e. destruct (s.1 !! p); [done|]. destruct (is_dir p s); [done|]. by intros [= <-].
  - match goal with H : _ !! _ = Some _ |- _ => by rewrite H end.
  - match goal with H : _ !! _ = Some _ |- _ => rewrite H end. cbn. rewrite Nat2Z.id. apply substring_whole.
  - eexists _, _. split; [done|]. by vm_compute.
Defined.
End RamDisk.

(** ** Theorems *)

(** C27. A process that dies while it writes a file, after any number [n] of calls
    to the operating system, leaves the file with the text it had or with the
    whole new text, and with the new one exactly when the write was going to
    report success; no other file changes but the temporary one next to it. *)
Theorem interrupted_write_is_atomic `{OsConfig} `{PosixLaws} p c n w r w' :
  g_rwLockMap w !! p = None →
  InputFileByPathAndContent (posix := Crashing) p c (dies_after n w) = (r, w') →
  ∀ q, q ≠ GetTempFilePath p →
    left_behind w' !! q = (if is_Ok r then <[p := c]> (contents (os w)) else contents (os w)) !! q.
Proof.
  intros Hp Hrun q Hq.
  pose proof (@InputFileByPathAndContent_spec _ Crashing CrashingLaws p c _ (dies_after n w) Hp eq_refl) as Hspec.
  apply (wp_run _ _ _ _ _ Hspec) in Hrun as [_ Hc].
  apply (f_equal (lookup q)) in Hc. rewrite !lookup_delete_ne in Hc by done. by destruct r.
Qed.

(** On a device on which no call fails a text of at most 16 MiB is written and
    read back as it is, and every other text stays; a text is only ever read
    whole, and one over 16 MiB, which can be written, is not read at all. *)
Theorem written_text_reads_back `{OsConfig} `{CJsonLib} `{PosixLaws} `{!PosixReliable _} p c w :
  world_idle w → world_ok w → is_temp p = false → p ≠ "" →
  Z.of_nat (String.length c) ≤ MAX_FILE_SIZE →
  (∃ w1 w2, InputFileByPathAndContent p c w = (Ok tt, w1) ∧ GetFileContentByPath p w1 = (Ok c, w2) ∧
     world_texts w2 = <[p := c]> (world_texts w) ∧ world_idle w2 ∧ world_ok w2) ∧
  ∀ q t w3, is_temp q = false → GetFileContentByPath q w = (Ok t, w3) →
    world_texts w !! q = Some t ∧ Z.of_nat (String.length t) ≤ MAX_FILE_SIZE.
Proof.
  intros Hi Hok Hp Hne Hc. assert (Hempty : string_empty p = false) by by destruct p. split.
  - pose proof (write_reliable p c w Hi Hok Hp Hc) as Hw. pose proof (write_spec p c w Hi Hp) as Hs.
    cbn in Hw, Hs. unfold wp in Hw, Hs. destruct (InputFileByPathAndContent p c w) as [r w1].
    destruct Hw as [Hok1 Hr]. cbn in Hok1, Hr. subst r. destruct Hs as [Hi1 Ht1]. cbn in Hi1, Ht1.
    assert (Hl : texts w1 !! p = Some c) by (cbn; by rewrite Ht1, lookup_insert_eq).
    pose proof (read_reliable p w1 c Hi1 Hok1 Hp Hempty Hl Hc) as Hr.
    pose proof (read_spec p w1 Hi1 Hp) as Hs. cbn in Hr, Hs. unfold wp in Hr, Hs.
    exists w1. destruct (GetFileContentByPath p w1) as [r w2]. destruct Hr as [Hok2 Hr], Hs as (Hi2 & Ht2 & _).
    cbn in Hr, Hok2, Hi2, Ht2. exists w2. split_and!; [done|by rewrite Hr|congruence|done..].
  - intros q t w3 Hq Hrun. pose proof (wp_run _ _ _ _ _ (GetFileContentByPath_sound q w) Hrun) as Hs.
    rewrite world_texts_lookup by done. by apply Hs.
Qed.

(** ** Witnesses *)

Section Witnesses.
#[local] Existing Instances RamDisk.ram RamDisk.laws RamDisk.reliable TreeLib.lib.
#[local] Instance watched : OsConfig :=
  {| ENABLE_FILE_WATCHER := true; HAS_KV_STORE_PART := true; HAS_HUKS_PART := true;
     SUPPORT_AUTHORIZATION := false; ENABLE_U1_ACCOUNT := false |}.

Definition list_path : string := "/data/account_list.json".
Definition old_files : gmap string string := {[ list_path := "old" ]}.
Definition ram_world : FileWorld := mkFileWorld ((old_files, ∅) : RamDisk.disk) ∅ [] [].

(** Cut off before the file is renamed the write leaves the old text, and with
    enough calls the new one. *)
Lemma interrupted_write_is_atomic_witness :
  left_behind (InputFileByPathAndContent (posix := Crashing) list_path "new" (dies_after 12 ram_world)).2
    !! list_path = Some "old" ∧
  left_behind (InputFileByPathAndContent (posix := Crashing) list_path "new" (dies_after 30 ram_world)).2
    !! list_path = Some "new".
Proof.
  split.
  - rewrite (interrupted_write_is_atomic list_path "new" 12 ram_world _ _ eq_refl (surjective_pairing _))
      by discriminate. by vm_compute.
  - rewrite (interrupted_write_is_atomic list_path "new" 30 ram_world _ _ eq_refl (surjective_pairing _))
      by discriminate. by vm_compute.
Defined.

Lemma written_text_reads_back_witness :
  ∃ w1 w2, InputFileByPathAndContent list_path "new" ram_world = (Ok tt, w1) ∧
    GetFileContentByPath list_path w1 = (Ok "new", w2).
Proof.
  destruct (written_text_reads_back list_path "new" ram_world) as [(w1 & w2 & Hw & Hr & _) _].
  - reflexivity.
  - exact I.
  - reflexivity.
  - discriminate.
  - by vm_compute.
  - exists w1, w2. exact (conj Hw Hr).
Defined.
End Witnesses.
