(* ===== verification/OsAccountInfo.v ===== *)
(** The OS account value object and its stored form: os_account_info.cpp and
    os_account_info_json_parser.cpp, with the domain account it is bound to and
    the context of its subspaces.

    Setters are field updates.  The round trip through the text of an account
    file is exact but for the mark that a domain account is authenticated, which
    is not written. *)
From Stdlib Require Import ZArith Lia Ascii String.
From stdpp Require Import base list gmap sets strings pretty sorting.
From S2P Require Import Prelude ErrorCodes Json.

(** What the system is asked for once: [sysconf(_SC_LOGIN_NAME_MAX)]. *)
Class Sysconf := { LOCAL_NAME_MAX_SIZE : Z }.

Definition START_USER_ID : Z := 100.
Definition DOMAIN_NAME_MAX_SIZE : Z := 128.

(** [OsAccountType] and [DomainAccountStatus] are kept as their numbers, since
    documents may hold any.

    [OsAccountType], os_account_info.h *)
Definition ADMIN : Z := 0.
Definition NORMAL : Z := 1.
Definition GUEST : Z := 2.
Definition MAINTENANCE : Z := 512.
Definition PRIVATE : Z := 1024.
Definition END : Z := 1025.
Definition LOG_END : Z := 3.

(** [DomainAccountInfo], domain_account_common.h *)
Record DomainAccountInfo := mkDomainAccountInfo {
  domain_ : string;
  accountName_ : string;
  accountId_ : string;
  status_ : Z;
  isAuthenticated : bool;
  serverConfigId_ : string;
  additionInfo_ : string;
}.

(** [OsAccountInfo], os_account_info.h *)
Record OsAccountInfo := mkOsAccountInfo {
  localId_ : Z;
  localName_ : string;
  shortName_ : string;
  type_ : Z;
  constraints_ : list string;
  photo_ : string;
  createTime_ : Z;
  lastLoginTime_ : Z;
  serialNumber_ : Z;
  credentialId_ : Z;
  isVerified_ : bool;
  isActivated_ : bool;
  isCreateCompleted_ : bool;
  toBeRemoved_ : bool;
  domainInfo_ : DomainAccountInfo;
  displayId_ : Z;
  isForeground_ : bool;
  isLoggedIn_ : bool;
  isDataRemovable_ : bool;
  creatorType_ : Z;
  version_ : Z;
  foregroundSubProfileId_ : Z;
}.

#[export] Instance DomainAccountInfo_eq_dec : EqDecision DomainAccountInfo.
Proof. solve_decision. Defined.
#[export] Instance OsAccountInfo_eq_dec : EqDecision OsAccountInfo.
Proof. solve_decision. Defined.

Definition set_type (type : Z) (i : OsAccountInfo) : OsAccountInfo :=
  {| localId_ := localId_ i; localName_ := localName_ i; shortName_ := shortName_ i; type_ := type;
     constraints_ := constraints_ i; photo_ := photo_ i; createTime_ := createTime_ i;
     lastLoginTime_ := lastLoginTime_ i; serialNumber_ := serialNumber_ i; credentialId_ := credentialId_ i;
     isVerified_ := isVerified_ i; isActivated_ := isActivated_ i; isCreateCompleted_ := isCreateCompleted_ i;
     toBeRemoved_ := toBeRemoved_ i; domainInfo_ := domainInfo_ i; displayId_ := displayId_ i;
     isForeground_ := isForeground_ i; isLoggedIn_ := isLoggedIn_ i; isDataRemovable_ := isDataRemovable_ i;
     creatorType_ := creatorType_ i; version_ := version_ i;
     foregroundSubProfileId_ := foregroundSubProfileId_ i |}.

Definition DomainAccountInfo_new : DomainAccountInfo := mkDomainAccountInfo "" "" "" LOG_END false "" "".
Definition OsAccountInfo_new : OsAccountInfo :=
  mkOsAccountInfo (-1) "" "" ADMIN [] "" 0 0 0 0 false false false false DomainAccountInfo_new
    18446744073709551615 false false true 0 0 (-1).

(** [SubProfileContext], sub_profile_context.h *)
Record SubProfileContext := mkSubProfileContext {
  nextSubProfileId : Z;
  subProfileIdList : list Z;
  nextSubProfileIndex : Z;
  subProfileIndexMap : gmap Z Z;
}.
Definition SubProfileContext_new : SubProfileContext := mkSubProfileContext 0 [] 0 ∅.

Definition OS_ACCOUNT_SUBSPACE_ID_MULTIPLIER : Z := 1000.
Definition HEADLESS_SUBPROFILE_INDEX : Z := 0.

(** [SubProfileContext::CreateWithHeadlessDefault], sub_profile_context.h:41-50 *)
Definition CreateWithHeadlessDefault (osAccountId : Z) : SubProfileContext :=
  let baseSubProfileId := i32 (osAccountId * OS_ACCOUNT_SUBSPACE_ID_MULTIPLIER) in
  {| nextSubProfileId := i32 (baseSubProfileId + 1);
     subProfileIdList := [baseSubProfileId];
     nextSubProfileIndex := 1;
     subProfileIndexMap := {[ HEADLESS_SUBPROFILE_INDEX := baseSubProfileId ]} |}.

(** The keys of the documents, os_account_info_json_parser.h *)
Definition LOCAL_ID : string := "localId".
Definition LOCAL_NAME : string := "localName".
Definition SHORT_NAME : string := "shortName".
Definition TYPE : string := "type".
Definition CONSTRAINTS : string := "constraints".
Definition IS_OS_ACCOUNT_VERIFIED : string := "isVerified".
Definition PHOTO : string := "photo".
Definition CREATE_TIME : string := "createTime".
Definition LAST_LOGGED_IN_TIME : string := "lastLoginTime".
Definition SERIAL_NUMBER : string := "serialNumber".
Definition IS_ACTIVATED : string := "isActived".
Definition IS_ACCOUNT_COMPLETED : string := "isCreateCompleted".
Definition DOMAIN_INFO : string := "domainInfo".
Definition DOMAIN_NAME : string := "domain".
Definition DOMAIN_ACCOUNT_NAME : string := "accountName".
Definition DOMAIN_ACCOUNT_ID : string := "accountId".
Definition TO_BE_REMOVED : string := "toBeRemoved".
Definition CREDENTIAL_ID : string := "credentialId".
Definition DISPLAY_ID : string := "displayId".
Definition IS_FOREGROUND : string := "isForeground".
Definition IS_LOGGED_IN : string := "isLoggedIn".
Definition IS_DATA_REMOVABLE : string := "isDataRemovable".
Definition CREATOR_TYPE : string := "creatorType".
Definition VERSION : string := "version".
Definition DOMAIN_ACCOUNT_STATUS : string := "domainAccountStatus".
Definition DOMAIN_ACCOUNT_CONFIG : string := "domainServerConfigId".
Definition DOMAIN_ACCOUNT_ADDITION : string := "domainAdditionInfo".
Definition FOREGROUND_SUBPROFILE_ID : string := "foregroundSubProfileId".
Definition NEXT_SUBPROFILE_ID : string := "nextSubProfileId".
Definition SUBPROFILE_ID_LIST : string := "subProfileList".
Definition NEXT_SUBPROFILE_INDEX : string := "nextSubProfileIndex".
Definition SUBPROFILE_INDEX_MAP : string := "subProfileIndexMap".

Section Operations.
Context {cfg : Config} {oscfg : OsConfig} {sysconf : Sysconf} {cjson : CJsonLib} {target : Target}.

(** The fields of a domain account in a document. *)
Definition domain_fields (d : DomainAccountInfo) : list (option CJson → option CJson) :=
  [λ j, AddStringToJson j DOMAIN_NAME (domain_ d);
   λ j, AddStringToJson j DOMAIN_ACCOUNT_NAME (accountName_ d);
   λ j, AddStringToJson j DOMAIN_ACCOUNT_ID (accountId_ d);
   λ j, AddIntToJson j DOMAIN_ACCOUNT_STATUS (status_ d);
   λ j, AddStringToJson j DOMAIN_ACCOUNT_CONFIG (serverConfigId_ d);
   λ j, AddStringToJson j DOMAIN_ACCOUNT_ADDITION (additionInfo_ d)].

(** [ToJson]#1, os_account_info_json_parser.cpp *)
Definition ToJson (accountInfo : OsAccountInfo) : option CJson :=
  match CreateJson with
  | None => None
  | Some jsonObject =>
      let '(success, jsonObject) :=
        add_fields
          [λ j, AddIntToJson j LOCAL_ID (localId_ accountInfo);
           λ j, AddStringToJson j LOCAL_NAME (localName_ accountInfo);
           λ j, AddStringToJson j SHORT_NAME (shortName_ accountInfo);
           λ j, AddIntToJson j TYPE (type_ accountInfo);
           λ j, AddVectorStringToJson j CONSTRAINTS (constraints_ accountInfo);
           λ j, AddBoolToJson j IS_OS_ACCOUNT_VERIFIED (isVerified_ accountInfo);
           λ j, AddStringToJson j PHOTO (photo_ accountInfo);
           λ j, AddInt64ToJson j CREATE_TIME (createTime_ accountInfo);
           λ j, AddInt64ToJson j LAST_LOGGED_IN_TIME (lastLoginTime_ accountInfo);
           λ j, AddInt64ToJson j SERIAL_NUMBER (serialNumber_ accountInfo);
           λ j, AddBoolToJson j IS_ACTIVATED (isActivated_ accountInfo);
           λ j, AddBoolToJson j IS_ACCOUNT_COMPLETED (isCreateCompleted_ accountInfo);
           λ j, AddBoolToJson j TO_BE_REMOVED (toBeRemoved_ accountInfo);
           λ j, AddUint64ToJson j CREDENTIAL_ID (credentialId_ accountInfo);
           λ j, AddUint64ToJson j DISPLAY_ID (displayId_ accountInfo);
           λ j, AddBoolToJson j IS_FOREGROUND (isForeground_ accountInfo);
           λ j, AddBoolToJson j IS_LOGGED_IN (isLoggedIn_ accountInfo);
           λ j, AddBoolToJson j IS_DATA_REMOVABLE (isDataRemovable_ accountInfo);
           λ j, AddIntToJson j CREATOR_TYPE (creatorType_ accountInfo);
           λ j, AddIntToJson j VERSION (version_ accountInfo)]
          (true, Some jsonObject) in
      match CreateJson with
      | None => None
      | Some domainInfoObject =>
          let '(success, domainInfoObject) :=
            add_fields (domain_fields (domainInfo_ accountInfo)) (success, Some domainInfoObject) in
          let '(success, jsonObject) :=
            add_fields
              ([λ j, AddObjToJson j DOMAIN_INFO domainInfoObject] ++
               if ENABLE_MULTIPLE_OS_ACCOUNT_SUBSPACE
               then [λ j, AddIntToJson j FOREGROUND_SUBPROFILE_ID (foregroundSubProfileId_ accountInfo)] else [])
              (success, jsonObject) in
          if success : bool then jsonObject else None
      end
  end.

(** The fields [GetDataByType] fills in, each left as it is when the document has
    no such value; and whether all were there. *)
Definition parse_domain (j : option CJson) (d : DomainAccountInfo) : bool * DomainAccountInfo :=
  let domain := GetStringFromJson j DOMAIN_NAME in
  let accountName := GetStringFromJson j DOMAIN_ACCOUNT_NAME in
  let accountId := GetStringFromJson j DOMAIN_ACCOUNT_ID in
  let status := GetIntFromJson j DOMAIN_ACCOUNT_STATUS in
  let serverConfigId := GetStringFromJson j DOMAIN_ACCOUNT_CONFIG in
  let additionInfo := GetStringFromJson j DOMAIN_ACCOUNT_ADDITION in
  (bool_decide (is_Some domain ∧ is_Some accountName ∧ is_Some accountId ∧ is_Some status ∧
     is_Some serverConfigId ∧ is_Some additionInfo),
   mkDomainAccountInfo (default (domain_ d) domain) (default (accountName_ d) accountName)
     (default (accountId_ d) accountId) (default (status_ d) status) (isAuthenticated d)
     (default (serverConfigId_ d) serverConfigId) (default (additionInfo_ d) additionInfo)).

(** The pointer of [GetDataByType<CJson *>] is filled in whatever the child is.

    [FromJson]#1, os_account_info_json_parser.cpp *)
Definition FromJson (j : option CJson) (i : OsAccountInfo) : bool * OsAccountInfo :=
  match j with
  | None => (false, i)
  | Some _ =>
      let localId := GetIntFromJson j LOCAL_ID in
      let isCreateCompleted :=
        match localId with Some _ => GetBoolFromJson j IS_ACCOUNT_COMPLETED | None => None end in
      (bool_decide (is_Some localId ∧ is_Some isCreateCompleted),
       {| localId_ := default (localId_ i) localId;
          localName_ := default (localName_ i) (GetStringFromJson j LOCAL_NAME);
          shortName_ := default (shortName_ i) (GetStringFromJson j SHORT_NAME);
          type_ := default (type_ i) (GetIntFromJson j TYPE);
          constraints_ := default (constraints_ i) (GetVectorStringFromJson j CONSTRAINTS (constraints_ i));
          photo_ := default (photo_ i) (GetStringFromJson j PHOTO);
          createTime_ := default (createTime_ i) (GetInt64FromJson j CREATE_TIME);
          lastLoginTime_ := default (lastLoginTime_ i) (GetInt64FromJson j LAST_LOGGED_IN_TIME);
          serialNumber_ := default (serialNumber_ i) (GetInt64FromJson j SERIAL_NUMBER);
          credentialId_ := (GetUint64FromJson j CREDENTIAL_ID (credentialId_ i)).2;
          isVerified_ := default (isVerified_ i) (GetBoolFromJson j IS_OS_ACCOUNT_VERIFIED);
          isActivated_ := default (isActivated_ i) (GetBoolFromJson j IS_ACTIVATED);
          isCreateCompleted_ := default (isCreateCompleted_ i) isCreateCompleted;
          toBeRemoved_ := default (toBeRemoved_ i) (GetBoolFromJson j TO_BE_REMOVED);
          domainInfo_ := match GetObjFromJson j DOMAIN_INFO with
                         | Some typeJson => (parse_domain (Some typeJson) (domainInfo_ i)).2
                         | None => domainInfo_ i
                         end;
          displayId_ := (GetUint64FromJson j DISPLAY_ID (displayId_ i)).2;
          isForeground_ := default (isForeground_ i) (GetBoolFromJson j IS_FOREGROUND);
          isLoggedIn_ := default (isLoggedIn_ i) (GetBoolFromJson j IS_LOGGED_IN);
          isDataRemovable_ := default (isDataRemovable_ i) (GetBoolFromJson j IS_DATA_REMOVABLE);
          creatorType_ := default (creatorType_ i) (GetIntFromJson j CREATOR_TYPE);
          version_ := default (version_ i) (GetIntFromJson j VERSION);
          foregroundSubProfileId_ :=
            if ENABLE_MULTIPLE_OS_ACCOUNT_SUBSPACE
            then default (foregroundSubProfileId_ i) (GetIntFromJson j FOREGROUND_SUBPROFILE_ID)
            else foregroundSubProfileId_ i |})
  end.

(** [ToJson]#2, os_account_info_json_parser.cpp *)
Definition DomainToJson (domainInfo : DomainAccountInfo) : option CJson :=
  match CreateJson with
  | None => None
  | Some domainInfoObject =>
      let '(success, domainInfoObject) := add_fields (domain_fields domainInfo) (true, Some domainInfoObject) in
      if success : bool then domainInfoObject else None
  end.

(** [FromJson]#2, os_account_info_json_parser.cpp *)
Definition DomainFromJson (j : option CJson) (domainInfo : DomainAccountInfo) : bool * DomainAccountInfo :=
  match j with None => (false, domainInfo) | Some _ => parse_domain j domainInfo end.

(** *** Subspaces *)

(** [std::map<int32_t, int32_t>] iterates in the order of its keys. *)
Definition index_list (m : gmap Z Z) : list (Z * Z) := ordered_list Z.le m.

(** An index map that cannot be created is a null pointer, which every call
    refuses.

    [SerializeSubProfileToJson], os_account_info_json_parser.cpp *)
Definition SerializeSubProfileToJson (jsonObject : option CJson) (data : SubProfileContext)
  : bool * option CJson :=
  let '(success, jsonObject) :=
    add_fields
      [λ j, AddIntToJson j NEXT_SUBPROFILE_ID (nextSubProfileId data);
       λ j, AddVectorIntToJson j SUBPROFILE_ID_LIST (subProfileIdList data);
       λ j, AddIntToJson j NEXT_SUBPROFILE_INDEX (nextSubProfileIndex data)]
      (true, jsonObject) in
  let '(success, indexMapJson) :=
    add_fields ((λ kv j, AddIntToJson j (to_string kv.1) kv.2) <$> index_list (subProfileIndexMap data))
      (success, CreateJson) in
  add_fields [λ j, AddObjToJson j SUBPROFILE_INDEX_MAP indexMapJson] (success, jsonObject).

(** [ToJsonSubProfile], os_account_info_json_parser.cpp *)
Definition ToJsonSubProfile (data : SubProfileContext) : option CJson :=
  match CreateJson with
  | None => None
  | Some jsonObject =>
      let '(success, jsonObject) := SerializeSubProfileToJson (Some jsonObject) data in
      if success : bool then jsonObject else None
  end.

(** [DeserializeSubProfileFromJson], os_account_info_json_parser.cpp *)
Definition DeserializeSubProfileFromJson (j : option CJson) : SubProfileContext :=
  let data := SubProfileContext_new in
  {| nextSubProfileId := default (nextSubProfileId data) (GetIntFromJson j NEXT_SUBPROFILE_ID);
     subProfileIdList := default (subProfileIdList data) (GetVectorIntFromJson j SUBPROFILE_ID_LIST);
     nextSubProfileIndex := default (nextSubProfileIndex data) (GetIntFromJson j NEXT_SUBPROFILE_INDEX);
     subProfileIndexMap :=
       match GetObjFromJson j SUBPROFILE_INDEX_MAP with
       | Some indexMapJson =>
           filter (λ kv, kv.1 ≤ INT32_MAX) (PackJsonToMapUint64Int32 (Some indexMapJson))
       | None => subProfileIndexMap data
       end |}.

(** [FromJsonSubProfile], os_account_info_json_parser.cpp *)
Definition FromJsonSubProfile (j : option CJson) (data : SubProfileContext) : bool * SubProfileContext :=
  match j with None => (false, data) | Some _ => (true, DeserializeSubProfileFromJson j) end.

(** *** The object *)

(** [OsAccountInfo::ToString], os_account_info.cpp *)
Definition ToString (i : OsAccountInfo) : string := PackJsonToString (ToJson i).

(** [OsAccountInfo::GetPrimeKey], os_account_info.cpp *)
Definition GetPrimeKey (i : OsAccountInfo) : string := to_string (localId_ i).

(** The text of a parcel; text that does not parse leaves the object as it is.

    [OsAccountInfo::ReadFromParcel], os_account_info.cpp *)
Definition ReadFromParcel (jsonString : string) (i : OsAccountInfo) : bool * OsAccountInfo :=
  (true, (FromJson (CreateJsonFromString jsonString) i).2).

(** [OsAccountInfo::SetDomainInfo], os_account_info.cpp *)
Definition SetDomainInfo (domainInfo : DomainAccountInfo) (i : OsAccountInfo) : bool * OsAccountInfo :=
  if LOCAL_NAME_MAX_SIZE <=? Z.of_nat (String.length (accountName_ domainInfo)) then (false, i)
  else if DOMAIN_NAME_MAX_SIZE <? Z.of_nat (String.length (domain_ domainInfo)) then (false, i)
  else (true,
    {| localId_ := localId_ i; localName_ := localName_ i; shortName_ := shortName_ i; type_ := type_ i;
       constraints_ := constraints_ i; photo_ := photo_ i; createTime_ := createTime_ i;
       lastLoginTime_ := lastLoginTime_ i; serialNumber_ := serialNumber_ i; credentialId_ := credentialId_ i;
       isVerified_ := isVerified_ i; isActivated_ := isActivated_ i;
       isCreateCompleted_ := isCreateCompleted_ i; toBeRemoved_ := toBeRemoved_ i; domainInfo_ := domainInfo;
       displayId_ := displayId_ i; isForeground_ := isForeground_ i; isLoggedIn_ := isLoggedIn_ i;
       isDataRemovable_ := isDataRemovable_ i; creatorType_ := creatorType_ i; version_ := version_ i;
       foregroundSubProfileId_ := foregroundSubProfileId_ i |}).

(** The enumeration is unsigned, so no type is below [ADMIN].

    [OsAccountInfo::IsTypeOutOfRange], os_account_info.cpp *)
Definition IsTypeOutOfRange (i : OsAccountInfo) : bool :=
  let type := u32 (type_ i) in
  (type <? ADMIN) || ((GUEST <? type) && (type <? PRIVATE)) || (END <=? type).

(** [OsAccountInfo::ParamCheck], os_account_info.cpp *)
Definition ParamCheck (i : OsAccountInfo) : result unit :=
  if localId_ i <? START_USER_ID then Err ERR_ACCOUNT_COMMON_INVALID_PARAMETER
  else if LOCAL_NAME_MAX_SIZE <=? Z.of_nat (String.length (localName_ i)) then
    Err ERR_ACCOUNT_COMMON_INVALID_PARAMETER
  else if string_empty (localName_ i) && negb (localId_ i =? START_USER_ID) then
    Err ERR_ACCOUNT_COMMON_INVALID_PARAMETER
  else if IsTypeOutOfRange i || (localId_ i =? START_USER_ID) && negb (type_ i =? ADMIN) then
    Err ERR_ACCOUNT_COMMON_INVALID_PARAMETER
  else if (createTime_ i <=? 0) && negb (localId_ i =? START_USER_ID) then
    Err ERR_ACCOUNT_COMMON_INVALID_PARAMETER
  else Ok tt.
End Operations.

(** ** What survives storage *)

Definition is_i64 (z : Z) : Prop := INT64_MIN ≤ z ≤ INT64_MAX.
Definition is_u64 (z : Z) : Prop := 0 ≤ z ≤ UINT64_MAX.

(** The numbers are in the ranges of their types and no text has a null
    character. *)
Record storable (i : OsAccountInfo) : Prop := {
  storable_ints : Forall is_i32
    [localId_ i; type_ i; creatorType_ i; version_ i; foregroundSubProfileId_ i; status_ (domainInfo_ i)];
  storable_longs : Forall is_i64 [createTime_ i; lastLoginTime_ i; serialNumber_ i];
  storable_ulongs : Forall is_u64 [credentialId_ i; displayId_ i];
  storable_texts : Forall nul_free
    [localName_ i; shortName_ i; photo_ i; domain_ (domainInfo_ i); accountName_ (domainInfo_ i);
     accountId_ (domainInfo_ i); serverConfigId_ (domainInfo_ i); additionInfo_ (domainInfo_ i)];
  storable_constraints : Forall nul_free (constraints_ i);
  storable_size : Z.of_nat (length (constraints_ i)) ≤ INT32_MAX;
}.

#[export] Instance is_i32_dec z : Decision (is_i32 z).
Proof. unfold is_i32. apply _. Defined.
#[export] Instance is_i64_dec z : Decision (is_i64 z).
Proof. unfold is_i64. apply _. Defined.
#[export] Instance is_u64_dec z : Decision (is_u64 z).
Proof. unfold is_u64. apply _. Defined.

(** The child of a name among children that are written out. *)
Ltac find_field k l :=
  lazymatch l with
  | (?k', ?v) :: ?l' =>
      let b := eval vm_compute in (String.eqb k k') in
      lazymatch b with true => constr:(Some v) | false => find_field k l' end
  | [] => lazymatch type of l with list (_ * ?A) => constr:(@None A) end
  | _ => constr:(obj_find k l)
  end.

(** Looks the fields of a document up. *)
Ltac find_fields :=
  repeat match goal with
  | |- context [@obj_find ?A (c_str ?k) (?x :: ?l)] =>
      let r := find_field (c_str k) (x :: l) in change (@obj_find A (c_str k) (x :: l)) with r
  end.

Section RoundTrip.
Context {cfg : Config} {cjson : CJsonLib} {laws : CJsonLaws} {alloc : CJsonAlloc} {target : Target}.

Definition num (z : Z) : CJson := JNumber (double_of_Z z).

Definition domain_doc (d : DomainAccountInfo) : CJson :=
  JObject [(DOMAIN_NAME, JString (domain_ d)); (DOMAIN_ACCOUNT_NAME, JString (accountName_ d));
    (DOMAIN_ACCOUNT_ID, JString (accountId_ d)); (DOMAIN_ACCOUNT_STATUS, num (status_ d));
    (DOMAIN_ACCOUNT_CONFIG, JString (serverConfigId_ d));
    (DOMAIN_ACCOUNT_ADDITION, JString (additionInfo_ d))].

Definition account_doc (i : OsAccountInfo) : CJson :=
  JObject ([(LOCAL_ID, num (localId_ i)); (LOCAL_NAME, JString (localName_ i)); (SHORT_NAME, JString (shortName_ i));
    (TYPE, num (type_ i)); (CONSTRAINTS, JArray (JString <$> constraints_ i));
    (IS_OS_ACCOUNT_VERIFIED, JBool (isVerified_ i)); (PHOTO, JString (photo_ i));
    (CREATE_TIME, JString (to_string (createTime_ i)));
    (LAST_LOGGED_IN_TIME, JString (to_string (lastLoginTime_ i)));
    (SERIAL_NUMBER, JString (to_string (serialNumber_ i))); (IS_ACTIVATED, JBool (isActivated_ i));
    (IS_ACCOUNT_COMPLETED, JBool (isCreateCompleted_ i)); (TO_BE_REMOVED, JBool (toBeRemoved_ i));
    (CREDENTIAL_ID, JString (to_string (credentialId_ i))); (DISPLAY_ID, JString (to_string (displayId_ i)));
    (IS_FOREGROUND, JBool (isForeground_ i)); (IS_LOGGED_IN, JBool (isLoggedIn_ i));
    (IS_DATA_REMOVABLE, JBool (isDataRemovable_ i)); (CREATOR_TYPE, num (creatorType_ i));
    (VERSION, num (version_ i)); (DOMAIN_INFO, domain_doc (domainInfo_ i))] ++
    if ENABLE_MULTIPLE_OS_ACCOUNT_SUBSPACE then [(FOREGROUND_SUBPROFILE_ID, num (foregroundSubProfileId_ i))] else []).

(** What is read back into an object. *)
Definition read_back (i i0 : OsAccountInfo) : OsAccountInfo :=
  {| localId_ := localId_ i; localName_ := localName_ i; shortName_ := shortName_ i; type_ := type_ i;
     constraints_ := constraints_ i0 ++ constraints_ i; photo_ := photo_ i; createTime_ := createTime_ i;
     lastLoginTime_ := lastLoginTime_ i; serialNumber_ := serialNumber_ i; credentialId_ := credentialId_ i;
     isVerified_ := isVerified_ i; isActivated_ := isActivated_ i; isCreateCompleted_ := isCreateCompleted_ i;
     toBeRemoved_ := toBeRemoved_ i;
     domainInfo_ := mkDomainAccountInfo (domain_ (domainInfo_ i)) (accountName_ (domainInfo_ i))
       (accountId_ (domainInfo_ i)) (status_ (domainInfo_ i)) (isAuthenticated (domainInfo_ i0))
       (serverConfigId_ (domainInfo_ i)) (additionInfo_ (domainInfo_ i));
     displayId_ := displayId_ i; isForeground_ := isForeground_ i; isLoggedIn_ := isLoggedIn_ i;
     isDataRemovable_ := isDataRemovable_ i; creatorType_ := creatorType_ i; version_ := version_ i;
     foregroundSubProfileId_ :=
       if ENABLE_MULTIPLE_OS_ACCOUNT_SUBSPACE then foregroundSubProfileId_ i else foregroundSubProfileId_ i0 |}.

Lemma c_str_strings xs : Forall nul_free xs → JString ∘ c_str <$> xs = JString <$> xs.
Proof.
  intros Hxs. apply Forall_fmap_ext_1. eapply Forall_impl; [exact Hxs|]. intros x Hx. cbn. by rewrite Hx.
Qed.

Ltac texts H := unfold nul_free in H; rewrite !Forall_cons in H; decompose [and] H; clear H.
Ltac plain_texts := repeat match goal with H : c_str ?x = ?x |- _ => rewrite H; clear H end.

Lemma domain_fields_eq d :
  Forall nul_free [domain_ d; accountName_ d; accountId_ d; serverConfigId_ d; additionInfo_ d] →
  add_fields (domain_fields d) (true, Some (JObject [])) = (true, Some (domain_doc d)).
Proof.
  intros Ht. texts Ht. unfold domain_fields. add_fields_tac. unfold domain_doc, num. cbn -[double_of_Z]. plain_texts. reflexivity.
Qed.

Lemma OsAccount_ToJson_eq i : storable i → ToJson i = Some (account_doc i).
Proof.
  intros Hi. pose proof (storable_texts i Hi) as Ht. texts Ht.
  unfold ToJson. rewrite CreateJson_eq. add_fields_tac.
  rewrite domain_fields_eq by (rewrite !Forall_cons; unfold nul_free; tauto). cbv iota beta zeta.
  rewrite c_str_strings by apply (storable_constraints i Hi).
  unfold account_doc. destruct ENABLE_MULTIPLE_OS_ACCOUNT_SUBSPACE; cbn [app]; add_fields_tac; unfold num; cbn -[double_of_Z];
    plain_texts; rewrite ?to_string_nul_free; reflexivity.
Qed.

Lemma strings_plain xs : Forall nul_free xs → json_plain (JArray (JString <$> xs)) = true.
Proof.
  intros Hxs. cbn [json_plain]. apply forallb_Forall_true, Forall_fmap. eapply Forall_impl; [exact Hxs|].
  intros x Hx. by apply bool_decide_eq_true.
Qed.

Lemma num_plain z : is_i32 z → json_plain (num z) = true.
Proof. intros Hz. apply double_exact_of_Z. unfold is_i32 in Hz. lia. Qed.

Lemma text_plain s : nul_free s → json_plain (JString s) = true.
Proof. intros Hs. by apply bool_decide_eq_true. Qed.

Lemma domain_doc_plain d :
  is_i32 (status_ d) → Forall nul_free [domain_ d; accountName_ d; accountId_ d; serverConfigId_ d; additionInfo_ d] →
  json_plain (domain_doc d) = true.
Proof.
  intros Hs Ht. rewrite !Forall_cons in Ht. destruct Ht as (?&?&?&?&?&_). unfold domain_doc. cbn [json_plain].
  apply forallb_Forall_true. rewrite !Forall_cons. cbn [fst snd].
  split_and!; try apply Forall_nil; try done; (apply andb_true_iff; split; [done|]);
    first [by apply text_plain | by apply num_plain].
Qed.

Lemma os_account_doc_ok i : storable i → json_ok (account_doc i) = true.
Proof.
  intros Hi. pose proof (storable_texts i Hi) as Ht. pose proof (storable_ints i Hi) as Hn.
  rewrite !Forall_cons in Ht. rewrite !Forall_cons in Hn. destruct Ht as (?&?&?&?&?&?&?&?&_), Hn as (?&?&?&?&?&?&_).
  assert (Hd : json_plain (domain_doc (domainInfo_ i)) = true).
  { apply domain_doc_plain; [done|]. rewrite !Forall_cons. done. }
  pose proof (strings_plain _ (storable_constraints i Hi)) as Hc.
  unfold json_ok, account_doc. apply andb_true_iff. split.
  - cbn [json_plain]. apply forallb_Forall_true, Forall_app. split.
    + rewrite !Forall_cons. cbn [fst snd].
      split_and!; try apply Forall_nil; try done; (apply andb_true_iff; split; [done|]);
        first [done | by apply text_plain | by apply num_plain | apply text_plain, to_string_nul_free].
    + destruct ENABLE_MULTIPLE_OS_ACCOUNT_SUBSPACE; [|apply Forall_nil_2]. apply Forall_singleton. cbn [fst snd].
      apply andb_true_iff. split; [done|by apply num_plain].
  - apply Nat.ltb_lt. rewrite json_depth_object.
    destruct ENABLE_MULTIPLE_OS_ACCOUNT_SUBSPACE; cbn [app foldr snd];
      rewrite string_array_depth; unfold CJSON_NESTING_LIMIT; cbn; lia.
Qed.

(** The child a getter finds in a document that is written out. *)
Lemma obj_find_cons {A} k k' (v : A) l :
  obj_find k ((k', v) :: l) = if String.eqb k k' then Some v else obj_find k l.
Proof. cbn. destruct (String.eqb_spec k k'); by case_decide. Qed.

Lemma to_i64 z : is_i64 z → strtol_whole (to_string z) = Some z.
Proof. apply strtol_to_string. Qed.
Lemma to_u64 z : is_u64 z → strtoull (to_string z) = (z, true).
Proof. apply strtoull_to_string. Qed.
Lemma to_i32 z : is_i32 z → double_to_int INT32_MIN INT32_MAX (double_of_Z z) = z.
Proof. intros Hz. unfold is_i32 in Hz. apply double_to_int_of_Z; unfold INT32_MIN, INT32_MAX; lia. Qed.

Lemma obj_find_fields k l : find_item (Some (JObject l)) k = if string_empty k then None else obj_find (c_str k) l.
Proof. unfold find_item. by rewrite get_object_item. Qed.

Lemma key_exists_fields k l :
  IsKeyExist (Some (JObject l)) k = if string_empty k then false else bool_decide (is_Some (obj_find (c_str k) l)).
Proof. unfold IsKeyExist. by rewrite get_object_item. Qed.

Lemma strings_back (xs : list string) :
  omap (λ item, match item with JString s => Some s | _ => None end) (JString <$> xs) = xs.
Proof. induction xs as [|x xs IH]; [done|]. cbn. f_equal. exact IH. Qed.

Lemma GetVectorStringFromJson_read l key xs vs :
  string_empty key = false → obj_find (c_str key) l = Some (JArray (JString <$> xs)) → Z.of_nat (length xs) ≤ INT32_MAX →
  GetVectorStringFromJson (Some (JObject l)) key vs = Some (vs ++ xs).
Proof.
  intros Hk Hf Hlen. unfold GetVectorStringFromJson. rewrite IsKeyExist_object, find_item_object, Hf by done.
  cbn [IsArray]. rewrite bool_decide_eq_true_2 by done.
  rewrite array_items_array by (by rewrite length_fmap). by rewrite strings_back.
Qed.

Lemma domain_read_back d d0 :
  is_i32 (status_ d) →
  parse_domain (Some (domain_doc d)) d0 =
    (true, mkDomainAccountInfo (domain_ d) (accountName_ d) (accountId_ d) (status_ d) (isAuthenticated d0)
             (serverConfigId_ d) (additionInfo_ d)).
Proof.
  intros Hs. unfold parse_domain, domain_doc, GetStringFromJson, GetIntFromJson. rewrite !obj_find_fields. find_fields.
  cbn -[double_to_int num]. unfold num. rewrite to_i32 by done. done.
Qed.

Lemma FromJson_account_doc i i0 : storable i → FromJson (Some (account_doc i)) i0 = (true, read_back i i0).
Proof.
  intros Hi. pose proof (storable_ints i Hi) as Hn. pose proof (storable_longs i Hi) as Hl.
  pose proof (storable_ulongs i Hi) as Hu. rewrite !Forall_cons in Hn. rewrite !Forall_cons in Hl. rewrite !Forall_cons in Hu.
  destruct Hn as (?&?&?&?&?&?&_), Hl as (?&?&?&_), Hu as (?&?&_).
  set (l := match account_doc i with JObject l => l | _ => [] end). change (account_doc i) with (JObject l).
  unfold FromJson. rewrite (GetVectorStringFromJson_read l CONSTRAINTS (constraints_ i));
    [|done|reflexivity|by apply storable_size].
  unfold GetIntFromJson, GetStringFromJson, GetBoolFromJson, GetInt64FromJson, GetUint64FromJson, GetObjFromJson.
  rewrite !key_exists_fields, !obj_find_fields.
  unfold l, account_doc. cbn [app]. find_fields.
  cbn -[double_to_int num to_string strtol_whole strtoull domain_doc parse_domain].
  unfold num. rewrite !to_i32, !to_string_not_empty, !to_i64, !to_u64, domain_read_back by done.
  cbn [default from_option snd]. unfold read_back. destruct ENABLE_MULTIPLE_OS_ACCOUNT_SUBSPACE; [|done].
  cbn -[double_to_int num]. rewrite decide_True by done. unfold num. by rewrite to_i32.
Qed.

(** C39. An OS account survives storage: with memory available the text [ToString]
    makes of an account with numbers in range and no null characters is not
    empty, it parses, and [FromJson] fills an object with exactly the account, but
    for what the code does not write: whether the domain account is authenticated
    and, without subspaces, the foreground subspace, which stay as they are in the
    object; and constraints the object already has are kept in front. *)
Theorem os_account_storage_roundtrip i i0 :
  storable i →
  string_empty (ToString i) = false ∧
  FromJson (CreateJsonFromString (ToString i)) i0 = (true, read_back i i0).
Proof.
  intros Hi. unfold ToString. rewrite OsAccount_ToJson_eq by done.
  destruct (pack_create _ (os_account_doc_ok i Hi)) as [-> ->]. split; [done|by apply FromJson_account_doc].
Qed.

(** *** Subspaces *)

(** The numbers are in the ranges of their types, and no index is negative. *)
Record storable_context (c : SubProfileContext) : Prop := {
  context_ints : Forall is_i32 [nextSubProfileId c; nextSubProfileIndex c];
  context_ids : Forall is_i32 (subProfileIdList c);
  context_size : Z.of_nat (length (subProfileIdList c)) ≤ INT32_MAX;
  context_indices : map_Forall (λ k v, 0 ≤ k ≤ INT32_MAX ∧ is_i32 v) (subProfileIndexMap c);
}.

Definition context_doc (c : SubProfileContext) : CJson :=
  JObject [(NEXT_SUBPROFILE_ID, num (nextSubProfileId c));
    (SUBPROFILE_ID_LIST, JArray (num <$> subProfileIdList c));
    (NEXT_SUBPROFILE_INDEX, num (nextSubProfileIndex c));
    (SUBPROFILE_INDEX_MAP, JObject (number_field <$> index_list (subProfileIndexMap c)))].

Lemma index_fields_eq kvs l :
  Forall (λ kv, 0 ≤ kv.1) kvs → NoDup kvs.*1 → (∀ k, k ∈ kvs.*1 → obj_find (to_string k) l = None) →
  add_fields ((λ kv j, AddIntToJson j (to_string kv.1) kv.2) <$> kvs) (true, Some (JObject l)) =
    (true, Some (JObject (l ++ (number_field <$> kvs)))).
Proof.
  intros Hkvs. revert l. induction Hkvs as [|[k v] kvs Hk Hkvs IH]; intros l Hnd Hl; cbn [fmap list_fmap].
  { by rewrite add_fields_nil, app_nil_r. }
  rewrite fmap_cons in Hnd, Hl. apply NoDup_cons in Hnd as [Hni Hnd]. cbn [fst snd] in *.
  erewrite add_fields_ok by (by apply AddIntToJson_eq, to_string_not_empty).
  rewrite to_string_nul_free, <-append_is_set by (apply Hl; set_solver).
  etransitivity; [apply IH; [done|]|by rewrite <-app_assoc].
  intros k' Hk'. rewrite obj_find_app, Hl by set_solver. cbn. rewrite decide_False; [done|].
  intros E. apply to_string_inj in E; [|try done..]; [by subst|].
  apply list_elem_of_fmap in Hk' as ([k'' v'] & -> & Hin). rewrite Forall_forall in Hkvs. by apply (Hkvs (k'', v')).
Qed.

Lemma storable_indices c :
  storable_context c → Forall (λ kv, 0 ≤ kv.1 ≤ INT32_MAX ∧ is_i32 kv.2) (index_list (subProfileIndexMap c)).
Proof.
  intros Hc. apply Forall_forall. intros [k v] Hkv%elem_of_ordered_list. by apply (context_indices c Hc).
Qed.

Lemma ToJsonSubProfile_eq c : storable_context c → ToJsonSubProfile c = Some (context_doc c).
Proof.
  intros Hc. pose proof (storable_indices c Hc) as Hi.
  unfold ToJsonSubProfile, SerializeSubProfileToJson. rewrite CreateJson_eq. add_fields_tac.
  rewrite index_fields_eq; [..|by intros].
  - add_fields_tac. done.
  - eapply Forall_impl; [exact Hi|]. intros kv [??]. lia.
  - apply ordered_list_NoDup.
Qed.

Lemma context_doc_ok c : storable_context c → json_ok (context_doc c) = true.
Proof.
  intros Hc. pose proof (context_ints c Hc) as Hn. rewrite !Forall_cons in Hn. destruct Hn as (?&?&_).
  unfold json_ok, context_doc. apply andb_true_iff. split.
  - cbn [json_plain]. apply forallb_Forall_true. rewrite !Forall_cons. cbn [fst snd].
    split_and!; try apply Forall_nil; try done; (apply andb_true_iff; split; [done|]);
      first [by apply num_plain | cbn [json_plain]; apply forallb_Forall_true, Forall_fmap].
    + eapply Forall_impl; [apply (context_ids c Hc)|]. intros z Hz. by apply num_plain.
    + eapply Forall_impl; [apply (storable_indices c Hc)|]. intros kv [_ Hv]. cbn [compose fst snd number_field].
      apply andb_true_iff. split; [apply bool_decide_eq_true, to_string_nul_free|by apply num_plain].
  - apply Nat.ltb_lt. rewrite json_depth_object. cbn [foldr snd]. rewrite json_depth_array, json_depth_object.
    assert (H1 : ∀ l, foldr (λ x n, Nat.max (json_depth x) n) 0%nat (num <$> l) = 0%nat)
      by (induction l as [|z l IH]; [done|exact IH]).
    assert (H2 : ∀ l, foldr (λ kv n, Nat.max (json_depth kv.2) n) 0%nat (number_field <$> l) = 0%nat)
      by (induction l as [|z l IH]; [done|exact IH]).
    rewrite H1, H2. unfold CJSON_NESTING_LIMIT. cbn. lia.
Qed.

Lemma GetVectorIntFromJson_read l key zs :
  string_empty key = false → obj_find (c_str key) l = Some (JArray (num <$> zs)) →
  Z.of_nat (length zs) ≤ INT32_MAX → Forall is_i32 zs →
  GetVectorIntFromJson (Some (JObject l)) key = Some zs.
Proof.
  intros Hk Hf Hlen Hzs. unfold GetVectorIntFromJson. rewrite find_item_object, Hf by done. cbn [IsArray].
  rewrite array_items_array by (by rewrite length_fmap). f_equal. clear Hf.
  induction Hzs as [|z zs Hz _ IH]; [done|]. cbn [fmap list_fmap omap list_omap num]. cbn [length] in Hlen.
  rewrite to_i32 by done. f_equal. apply IH. lia.
Qed.

Lemma DeserializeSubProfile_context_doc c :
  storable_context c → DeserializeSubProfileFromJson (Some (context_doc c)) = c.
Proof.
  intros Hc. pose proof (context_ints c Hc) as Hn. rewrite !Forall_cons in Hn. destruct Hn as (?&?&_).
  set (l := match context_doc c with JObject l => l | _ => [] end). change (context_doc c) with (JObject l).
  unfold DeserializeSubProfileFromJson. rewrite (GetVectorIntFromJson_read l _ (subProfileIdList c));
    [|done|reflexivity|by apply context_size|by apply context_ids].
  unfold GetIntFromJson, GetObjFromJson. rewrite !obj_find_fields. unfold l, context_doc. find_fields.
  cbn [string_empty NEXT_SUBPROFILE_ID NEXT_SUBPROFILE_INDEX SUBPROFILE_INDEX_MAP]. unfold num. rewrite !to_i32 by done.
  pose proof (storable_indices c Hc) as Hi.
  rewrite number_fields_fold; [|eapply Forall_impl; [exact Hi|]|apply ordered_list_NoDup].
  2: { intros kv [??]. split; [|done]. unfold INT32_MAX, UINT64_MAX in *. lia. }
  unfold index_list. rewrite list_to_map_ordered_list. cbn [default from_option id].
  rewrite map_filter_id; [by destruct c|]. intros k v Hkv. cbn. by apply (context_indices c Hc) in Hkv as [[??] _].
Qed.

(** The context of the subspaces of an account survives storage, the map from
    indices to subspaces included, when its numbers are in range and no index is
    negative. *)
Theorem subspace_context_roundtrip c c0 :
  storable_context c →
  FromJsonSubProfile (CreateJsonFromString (PackJsonToString (ToJsonSubProfile c))) c0 = (true, c).
Proof.
  intros Hc. rewrite ToJsonSubProfile_eq by done. destruct (pack_create _ (context_doc_ok c Hc)) as [-> _].
  cbn [FromJsonSubProfile]. by rewrite DeserializeSubProfile_context_doc.
Qed.

(** The context of a new account can be stored. *)
Lemma headless_storable id : 0 ≤ id ≤ 2147483 → storable_context (CreateWithHeadlessDefault id).
Proof.
  intros Hid. unfold CreateWithHeadlessDefault. rewrite (i32_id (id * _)) by (unfold is_i32, OS_ACCOUNT_SUBSPACE_ID_MULTIPLIER; lia).
  split; cbn [nextSubProfileId subProfileIdList nextSubProfileIndex subProfileIndexMap].
  - apply Forall_cons. split; [apply i32_range|]. by apply Forall_singleton.
  - apply Forall_singleton. unfold is_i32. unfold OS_ACCOUNT_SUBSPACE_ID_MULTIPLIER. lia.
  - done.
  - apply map_Forall_singleton. unfold is_i32, INT32_MAX, HEADLESS_SUBPROFILE_INDEX, OS_ACCOUNT_SUBSPACE_ID_MULTIPLIER. lia.
Qed.
End RoundTrip.

Section Witnesses.
#[local] Existing Instances TreeLib.lib TreeLib.laws TreeLib.alloc TreeLib.target.
#[local] Instance with_subspaces : Config := {|
  HAS_ASSET_PART := false; ENABLE_MULTIPLE_OS_ACCOUNT_SUBSPACE := true; DISTRIBUTED_FEATURE_ENABLED := false;
  SQLITE_DLCLOSE_ENABLE := false |}.

Definition sample_account : OsAccountInfo :=
  mkOsAccountInfo 101 "guest" "g" GUEST ["constraint.wifi"; "constraint.sms.use"] "photo.txt" 1700000000 0
    2021023100000002 18446744073709551615 true false true false
    (mkDomainAccountInfo "example.org" "alice" "a1" 2 false "cfg" "") 0 false true true 1 1 101001.

Lemma sample_storable : storable sample_account.
Proof.
  split; apply (bool_decide_unpack _); by vm_compute.
Qed.

Lemma os_account_storage_roundtrip_witness :
  FromJson (CreateJsonFromString (ToString sample_account)) OsAccountInfo_new = (true, sample_account).
Proof.
  destruct (os_account_storage_roundtrip sample_account OsAccountInfo_new sample_storable) as [_ Hr].
  rewrite Hr. reflexivity.
Defined.

Lemma subspace_context_roundtrip_witness :
  FromJsonSubProfile (CreateJsonFromString (PackJsonToString (ToJsonSubProfile (CreateWithHeadlessDefault 100))))
    SubProfileContext_new = (true, CreateWithHeadlessDefault 100).
Proof.
  apply (subspace_context_roundtrip (CreateWithHeadlessDefault 100) SubProfileContext_new (headless_storable 100 ltac:(lia))).
Defined.
End Witnesses.
