(* ===== verification/OsAccountEnv.v ===== *)
(** What the manager of OS account files works with: the paths, the digest file of
    account_file_watcher_manager.cpp, and the interfaces of the parts that are
    elsewhere (the distributed database, the file watchers, the directory
    listing), each with the promise that it leaves the texts of files alone.

    [docs] is the texts without the digest file, which only the digest functions
    touch; the theorems about documents are about [docs]. *)
From Stdlib Require Import ZArith Lia Ascii String.
From stdpp Require Import base list gmap sets strings pretty sorting.
From S2P Require Import Prelude ErrorCodes Json FileStore OsAccountInfo.

Definition USER_INFO_BASE : string := "/data/service/el1/public/account".
Definition PATH_SEPARATOR : string := "/".
Definition USER_INFO_FILE_NAME : string := "account_info.json".
Definition ACCOUNT_LIST_FILE_JSON_PATH : string := USER_INFO_BASE +:+ PATH_SEPARATOR +:+ "account_list.json".
Definition ACCOUNT_INFO_DIGEST_FILE_PATH : string :=
  USER_INFO_BASE +:+ PATH_SEPARATOR +:+ "account_info_digest.json".
Definition BASE_OSACCOUNT_CONSTRAINTS_JSON_PATH : string :=
  USER_INFO_BASE +:+ PATH_SEPARATOR +:+ "base_os_account_constraints.json".
Definition GLOBAL_OSACCOUNT_CONSTRAINTS_JSON_PATH : string :=
  USER_INFO_BASE +:+ PATH_SEPARATOR +:+ "global_os_account_constraints.json".
Definition SPECIFIC_OSACCOUNT_CONSTRAINTS_JSON_PATH : string :=
  USER_INFO_BASE +:+ PATH_SEPARATOR +:+ "specific_os_account_constraints.json".
Definition OS_ACCOUNT_STORE_ID : string := "os_account_info".

(** [USER_INFO_BASE + PATH_SEPARATOR + std::to_string(id)], and a file in it. *)
Definition account_dir (id : string) : string := USER_INFO_BASE +:+ PATH_SEPARATOR +:+ id.
Definition account_file (id name : string) : string := account_dir id +:+ PATH_SEPARATOR +:+ name.

(** The c_utils library: [StrToInt] reads a whole text as an [int]. *)
Class CUtils := {
  StrToInt : string → option Z;
  StrToInt_to_string z : is_i32 z → StrToInt (to_string z) = Some z;
  StrToInt_range s z : StrToInt s = Some z → is_i32 z;
}.

(** The HUKS library: the 32 bytes of the buffer after [GenerateAccountInfoDigest],
    or what an uninitialised buffer holds where the library is missing. *)
Class Huks := { GenerateAccountInfoDigest : string → list Z }.

(** The distributed database, os_account_database_operator.cpp; a function without
    a result logs its failures. *)
Class AccountDatabase (S : Type) `{FileStore S} := {
  GetAccountListFromStoreID : string → M S CJson;
  GetOsAccountFromStore : string → Z → OsAccountInfo → M S OsAccountInfo;
  UpdateOsAccountIDListInDatabase : option CJson → M S unit;
  InsertOsAccountIntoDataBase : OsAccountInfo → M S unit;
  DelOsAccountFromDatabase : Z → M S unit;
  UpdateOsAccountInDatabase : OsAccountInfo → M S unit;
  GetAccountList_leaves id : leaves_texts (GetAccountListFromStoreID id);
  GetOsAccount_leaves store id i : leaves_texts (GetOsAccountFromStore store id i);
  UpdateIDList_leaves j : leaves_texts (UpdateOsAccountIDListInDatabase j);
  InsertOsAccount_leaves i : leaves_texts (InsertOsAccountIntoDataBase i);
  DelOsAccount_leaves id : leaves_texts (DelOsAccountFromDatabase id);
  UpdateOsAccount_leaves i : leaves_texts (UpdateOsAccountInDatabase i);
  UpdateIDList_void j : is_void (UpdateOsAccountIDListInDatabase j);
  InsertOsAccount_void i : is_void (InsertOsAccountIntoDataBase i);
  DelOsAccount_void id : is_void (DelOsAccountFromDatabase id);
  UpdateOsAccount_void i : is_void (UpdateOsAccountInDatabase i);
}.

(** The rest of the surroundings: inotify watches on the file of an account or on
    another file, account_file_watcher_manager.cpp; [opendir] and [readdir], each
    entry with whether it is a directory; the configuration policy and the system
    parameters. *)
Class Surroundings (S : Type) `{FileStore S} := {
  AddFileWatcher : Z → string → M S unit;
  RemoveFileWatcher : Z → string → M S unit;
  ListDirectory : string → M S (option (list (string * bool)));
  GetOneCfgFile : string → option string;
  GetBoolParameter : string → bool → bool;
  AddFileWatcher_leaves id path : leaves_texts (AddFileWatcher id path);
  RemoveFileWatcher_leaves id path : leaves_texts (RemoveFileWatcher id path);
  ListDirectory_leaves path : leaves_texts (ListDirectory path);
  AddFileWatcher_void id path : is_void (AddFileWatcher id path);
  RemoveFileWatcher_void id path : is_void (RemoveFileWatcher id path);
  ListDirectory_void path : is_void (ListDirectory path);
}.

(** ** The digest file *)

Section Digest.
Context {S : Type} {cjson : CJsonLib} {fs : FileStore S} {target : Target} {huks : Huks}.

Definition ALG_COMMON_SIZE : nat := 32.

(** [AccountFileWatcherMgr::GetAccountInfoDigestFromFile], account_file_watcher_manager.cpp *)
Definition GetAccountInfoDigestFromFile (path : string) : M S (list Z) :=
  accountInfoDigest ← GetFileContentByPath ACCOUNT_INFO_DIGEST_FILE_PATH;
  match CreateJsonFromString accountInfoDigest with
  | None => merr ERR_ACCOUNT_COMMON_DUMP_JSON_ERROR
  | Some accountInfoDigestJson =>
      let digestTmp := GetVectorUint8FromJson (Some accountInfoDigestJson) path in
      if negb (length digestTmp =? ALG_COMMON_SIZE)%nat then merr ERR_ACCOUNT_COMMON_DUMP_JSON_ERROR
      else mret digestTmp
  end.

(** [AccountFileWatcherMgr::GenerateAccountInfoDigestStr], account_file_watcher_manager.cpp *)
Definition GenerateAccountInfoDigestStr (userInfoPath accountInfoStr : string) : M S string :=
  let digestOutData := GenerateAccountInfoDigest accountInfoStr in
  accountInfoDigest ← GetFileContentByPath ACCOUNT_INFO_DIGEST_FILE_PATH;
  match CreateJsonFromString accountInfoDigest with
  | None => merr ERR_ACCOUNT_COMMON_DUMP_JSON_ERROR
  | Some accountInfoDigestJson =>
      match AddVectorUint8ToJson (Some accountInfoDigestJson) userInfoPath digestOutData with
      | None => merr ERR_ACCOUNT_COMMON_DUMP_JSON_ERROR
      | Some accountInfoDigestJson =>
          let digestStr := PackJsonToString (Some accountInfoDigestJson) in
          if string_empty digestStr then merr ERR_ACCOUNT_COMMON_DUMP_JSON_ERROR else mret digestStr
      end
  end.

(** [AccountFileWatcherMgr::AddAccountInfoDigest], account_file_watcher_manager.cpp *)
Definition AddAccountInfoDigest (accountInfo userInfoPath : string) : M S unit :=
  r ← mtry (GenerateAccountInfoDigestStr userInfoPath accountInfo);
  match r with
  | Ok digestStr => InputFileByPathAndContent ACCOUNT_INFO_DIGEST_FILE_PATH digestStr
  | Err _ => mret tt
  end.

(** [AccountFileWatcherMgr::DeleteAccountInfoDigest], account_file_watcher_manager.cpp *)
Definition DeleteAccountInfoDigest (userInfoPath : string) : M S unit :=
  accountInfoDigest ← GetFileContentByPath ACCOUNT_INFO_DIGEST_FILE_PATH;
  match CreateJsonFromString accountInfoDigest with
  | None => merr ERR_ACCOUNT_COMMON_DUMP_JSON_ERROR
  | Some accountInfoDigestJson =>
      if negb (IsKeyExist (Some accountInfoDigestJson) userInfoPath) then mret tt
      else
        let '(_, accountInfoDigestJson) := DeleteItemFromJson (Some accountInfoDigestJson) userInfoPath in
        InputFileByPathAndContent ACCOUNT_INFO_DIGEST_FILE_PATH (PackJsonToString accountInfoDigestJson)
  end.
End Digest.
