(* ===== verification/OsAccountFiles.v ===== *)
(** The files of OS accounts: os_account_control_file_manager.cpp, less the
    constraints of accounts (OsAccountConstraints.v).

    The account list is one document: the ids of the accounts, the next id and the
    next serial number to give out, and which account is active on a display at
    start.  Every account has a directory with its own documents.  The operations
    work on a file store [S] with the database and the surroundings next to it;
    a mutex is not modelled where one operation runs at a time, and the
    interleaving that two different mutexes leave open is a theorem. *)
From Stdlib Require Import ZArith Lia Ascii String.
From stdpp Require Import base list gmap sets strings pretty sorting.
From S2P Require Import Prelude ErrorCodes Json FileStore OsAccountInfo OsAccountEnv.

(** os_account_constants.h, os_account_json_builder.h *)
Definition ADMIN_LOCAL_ID : Z := 0.
Definition U1_ID : Z := 1.
Definition MAX_USER_ID : Z := 10736.
Definition MAX_CREATABLE_USER_ID : Z := 999.
Definition INVALID_OS_ACCOUNT_ID : Z := -1.
Definition MAX_USER_ID_LENGTH : nat := 4.
Definition SERIAL_NUMBER_NUM_START_FOR_ADMIN : Z := 20210231.
Definition SERIAL_NUMBER_NUM_START : Z := 1.
Definition CARRY_NUM : Z := 100000000.
Definition DEFAULT_DISPLAY_ID : Z := 0.
Definition ACCOUNT_LIST : string := "AccountList".
Definition COUNT_ACCOUNT_NUM : string := "CountAccountNum".
Definition MAX_ALLOW_CREATE_ACCOUNT_ID : string := "MaxAllowCreateAccountID".
Definition SERIAL_NUMBER_NUM : string := "SerialNumber".
Definition DEFAULT_ACTIVATED_ACCOUNT_ID : string := "DefaultActivatedAccountID".
Definition NEXT_LOCAL_ID : string := "NextLocalId".
Definition IS_SERIAL_NUMBER_FULL : string := "isSerialNumberFull".
Definition MAX_OS_ACCOUNT_NUM : string := "maxOsAccountNum".
Definition MAX_LOGGED_IN_OS_ACCOUNT_NUM : string := "maxLoggedInOsAccountNum".
Definition OS_ACCOUNT_CONFIG_FILE : string := "etc/os_account/os_account_config.json".
Definition DEFAULT_OS_ACCOUNT_CONFIG_FILE : string := "/system/etc/account/os_account_config.json".
Definition SYSTEM_ACCOUNTS_CONFIG : string := "systemAccounts".
Definition U1_CONFIG : string := "1".
Definition SYSTEM_ACCOUNT_TYPE : string := "type".
Definition SYSTEM_ACCOUNT_NAME : string := "name".
Definition SYSTEM_ACCOUNT_BLOCK_BOOT : string := "canBlockBoot".
Definition DEVELOPER_MODE_STATE : string := "const.security.developermode.state".
Definition DEVELOPER_MODE : string := "developerMode".
Definition AUTH_APP_BUNDLE_NAME : string := "bundleName".
Definition AUTH_APP_UI_ABILITY_NAME : string := "modalAppAbilityName".
Definition AUTH_APP_SYS_ABILITY_NAME : string := "modalSystemAbilityName".
Definition AUTH_CONFIG_KEY : string := "authorizationWidget".

(** [OsAccountConfig], ios_account_control.h:24-38 *)
Record OsAccountConfig := mkOsAccountConfig {
  maxOsAccountNum : Z;
  maxLoggedInOsAccountNum : Z;
  isU1Enable : bool;
  u1AccountType : Z;
  u1AccountName : string;
  isBlockBoot : bool;
  authAppBundleName : string;
  authAppUIExtensionAbilityName : string;
  authAppServiceExtensionAbilityName : string;
}.
Definition OsAccountConfig_new : OsAccountConfig := mkOsAccountConfig 999 999 false ADMIN "" false "" "" "".

Definition USER_PHOTO_FILE_TXT_NAME : string := "photo.txt".
Definition IS_DOMAIN_BOUND_COMPLETED_FILE_NAME : string := "isDomainAccountBoundCompleted".
Definition SUBPROFILE_INFO_FILE_NAME : string := "subprofile_info.json".
Definition DISTRIBUTED_ACCOUNT_FILE_NAME : string := "/account.json".

(** Only the digits count, so the value is below 10000.

    [GetValidAccountID], os_account_control_file_manager.cpp *)
Definition GetValidAccountID (dirName : string) : option Z :=
  if string_empty dirName || (MAX_USER_ID_LENGTH <? String.length dirName)%nat then None
  else if negb (all_digits dirName) then None
  else
    let accountID := dec_value 0 dirName in
    if (ADMIN_LOCAL_ID <=? accountID) && (accountID <=? MAX_USER_ID) then Some accountID else None.

(** [std::remove] with [erase]. *)
Definition remove_all (x : string) (l : list string) : list string := filter (λ y, y ≠ x) l.

(** The search for an id that is not in the list, from [startId] on and around the
    end of the range; [n] is what is left of it.

    [OsAccountControlFileManager::GetNextLocalId], os_account_control_file_manager.cpp:1407-1421 *)
Fixpoint next_local_id (n : nat) (accountIdList : list string) (startId : Z) : Z :=
  if negb (bool_decide (to_string startId ∈ accountIdList)) then startId
  else
    let startId := startId + 1 in
    let startId := if MAX_CREATABLE_USER_ID <? startId then START_USER_ID + 1 else startId in
    match n with
    | O => MAX_CREATABLE_USER_ID + 1
    | Datatypes.S n => next_local_id n accountIdList startId
    end.

(** [searchCount] reaches [totalRange] with the last id of the range.

    [OsAccountControlFileManager::GetNextLocalId], os_account_control_file_manager.cpp *)
Definition GetNextLocalId (accountIdList : list string) (startId : Z) : Z :=
  let startId := if (startId <=? START_USER_ID) || (MAX_CREATABLE_USER_ID <? startId)
                 then START_USER_ID + 1 else startId in
  let totalRange := MAX_CREATABLE_USER_ID - START_USER_ID in
  next_local_id (Z.to_nat (totalRange - 1)) accountIdList startId.

(** [AccountExistsWithSerialNumber], os_account_control_file_manager.cpp *)
Definition AccountExistsWithSerialNumber (osAccountInfos : list OsAccountInfo) (serialNumber : Z) : bool :=
  let targetSerialNumber := SERIAL_NUMBER_NUM_START_FOR_ADMIN * CARRY_NUM + serialNumber in
  existsb (λ accountInfo, serialNumber_ accountInfo =? targetSerialNumber) osAccountInfos.

(** The loop of [GetSerialNumber] while a number is taken; [None] when [n] rounds
    are not enough.

    [OsAccountControlFileManager::GetSerialNumber], os_account_control_file_manager.cpp:1375-1383 *)
Fixpoint free_serial_number (n : nat) (osAccountInfos : list OsAccountInfo) (serialNumber : Z) : option Z :=
  if negb (serialNumber <? CARRY_NUM) then Some serialNumber
  else if negb (AccountExistsWithSerialNumber osAccountInfos (i32 serialNumber)) then Some serialNumber
  else
    let serialNumber := serialNumber + 1 in
    let serialNumber := if serialNumber =? CARRY_NUM then SERIAL_NUMBER_NUM_START else serialNumber in
    match n with O => None | Datatypes.S n => free_serial_number n osAccountInfos serialNumber end.

Section Operations.
Context {cfg : Config} {oscfg : OsConfig} {sysconf : Sysconf} {cjson : CJsonLib} {target : Target} {cutils : CUtils} {huks : Huks}.
Context {S : Type} {fs : FileStore S} {db : AccountDatabase S} {env : Surroundings S}.

Definition has_database : bool := HAS_KV_STORE_PART && DISTRIBUTED_FEATURE_ENABLED.

(** A part of the service that is there in some builds, and whose result is not
    looked at. *)
Definition when_database (m : M S unit) : M S unit := if has_database then _ ← mtry m; mret tt else mret tt.
Definition when_file_watcher (m : M S unit) : M S unit := if ENABLE_FILE_WATCHER then _ ← mtry m; mret tt else mret tt.

(** *** The account list *)

(** [BuildAccountListJson], os_account_json_builder.cpp *)
Definition BuildAccountListJson (accounts : list string) : option CJson :=
  match CreateJson, CreateJson with
  | Some defaultActivatedIds, Some accountList =>
      let '(success, defaultActivatedIds) :=
        add_fields [λ j, AddIntToJson j (to_string DEFAULT_DISPLAY_ID) START_USER_ID]
          (true, Some defaultActivatedIds) in
      let '(success, accountList) :=
        add_fields
          [λ j, AddVectorStringToJson j ACCOUNT_LIST accounts;
           λ j, AddIntToJson j COUNT_ACCOUNT_NUM (i32 (Z.of_nat (length accounts)));
           λ j, AddObjToJson j DEFAULT_ACTIVATED_ACCOUNT_ID defaultActivatedIds;
           λ j, AddIntToJson j MAX_ALLOW_CREATE_ACCOUNT_ID MAX_USER_ID;
           λ j, AddInt64ToJson j SERIAL_NUMBER_NUM SERIAL_NUMBER_NUM_START;
           λ j, AddBoolToJson j IS_SERIAL_NUMBER_FULL false;
           λ j, AddIntToJson j NEXT_LOCAL_ID (START_USER_ID + 1)]
          (success, Some accountList) in
      if success : bool then accountList else None
  | _, _ => None
  end.

(** [OsAccountControlFileManager::GetAccountListFromFile], os_account_control_file_manager.cpp *)
Definition GetAccountListFromFile : M S CJson :=
  accountList ← GetFileContentByPath ACCOUNT_LIST_FILE_JSON_PATH;
  match CreateJsonFromString accountList with
  | Some accountListJson => mret accountListJson
  | None =>
      if has_database then GetAccountListFromStoreID OS_ACCOUNT_STORE_ID
      else merr ERR_ACCOUNT_COMMON_BAD_JSON_FORMAT_ERROR
  end.

(** [OsAccountControlFileManager::SaveAccountListToFile], os_account_control_file_manager.cpp *)
Definition SaveAccountListToFile (accountListJson : option CJson) : M S unit :=
  let strValue := PackJsonToString accountListJson in
  _ ← InputFileByPathAndContent ACCOUNT_LIST_FILE_JSON_PATH strValue;
  when_file_watcher (AddAccountInfoDigest strValue ACCOUNT_LIST_FILE_JSON_PATH).

(** [OsAccountControlFileManager::SaveAccountListToFileAndDataBase], os_account_control_file_manager.cpp *)
Definition SaveAccountListToFileAndDataBase (accountListJson : option CJson) : M S unit :=
  _ ← when_database (UpdateOsAccountIDListInDatabase accountListJson);
  SaveAccountListToFile accountListJson.

(** [OsAccountControlFileManager::BuildAndSaveAccountListJsonFile], os_account_control_file_manager.cpp *)
Definition BuildAndSaveAccountListJsonFile (accounts : list string) : M S unit :=
  _ ← mtry (SaveAccountListToFile (BuildAccountListJson accounts)); mret tt.

(** The ids of the directories that are accounts, each once.

    [OsAccountControlFileManager::RecoverAccountListJsonFile], os_account_control_file_manager.cpp:595-624 *)
Definition listed_accounts (entries : list (string * bool)) : list string :=
  foldl (λ accounts entry,
    let '(curDirName, is_dir) := entry in
    if bool_decide (curDirName = ".") || bool_decide (curDirName = "..") || negb is_dir then accounts
    else
      match GetValidAccountID curDirName with
      | None => accounts
      | Some accountID =>
          let curAccountIDStr := to_string accountID in
          if negb (bool_decide (curAccountIDStr ∈ accounts)) && (START_USER_ID <=? accountID)
          then accounts ++ [curAccountIDStr] else accounts
      end) [] entries.

(** [OsAccountControlFileManager::RecoverAccountListJsonFile], os_account_control_file_manager.cpp *)
Definition RecoverAccountListJsonFile : M S unit :=
  rootDir ← ListDirectory USER_INFO_BASE;
  match rootDir with
  | None => BuildAndSaveAccountListJsonFile [to_string START_USER_ID]
  | Some entries => BuildAndSaveAccountListJsonFile (listed_accounts entries)
  end.

(** [GetDataByType] for a vector that starts empty. *)
Definition id_list (accountListJson : CJson) : list string :=
  default [] (GetVectorStringFromJson (Some accountListJson) ACCOUNT_LIST []).

(** Text that is no number is skipped.

    [OsAccountControlFileManager::GetOsAccountIdList], os_account_control_file_manager.cpp *)
Definition GetOsAccountIdList : M S (list Z) :=
  accountListJson ← GetAccountListFromFile;
  mret (omap StrToInt (id_list accountListJson)).

(** [OsAccountControlFileManager::UpdateAccountList], os_account_control_file_manager.cpp *)
Definition UpdateAccountList (idStr : string) (isAdd : bool) : M S unit :=
  accountListJson ← GetAccountListFromFile;
  let accountIdList := id_list accountListJson in
  if isAdd && bool_decide (idStr ∈ accountIdList) then mret tt
  else
    let accountIdList := if isAdd then accountIdList ++ [idStr] else remove_all idStr accountIdList in
    match AddVectorStringToJson (Some accountListJson) ACCOUNT_LIST accountIdList with
    | None => merr ERR_ACCOUNT_COMMON_DUMP_JSON_ERROR
    | Some accountListJson =>
        match AddIntToJson (Some accountListJson) COUNT_ACCOUNT_NUM (i32 (Z.of_nat (length accountIdList))) with
        | None => merr ERR_ACCOUNT_COMMON_DUMP_JSON_ERROR
        | Some accountListJson => SaveAccountListToFileAndDataBase (Some accountListJson)
        end
    end.

(** [OsAccountControlFileManager::SetNextLocalId], os_account_control_file_manager.cpp *)
Definition SetNextLocalId (nextLocalId : Z) : M S unit :=
  accountListJson ← GetAccountListFromFile;
  let nextLocalIdJson := default (START_USER_ID + 1) (GetIntFromJson (Some accountListJson) NEXT_LOCAL_ID) in
  match AddIntToJson (Some accountListJson) NEXT_LOCAL_ID (Z.max nextLocalId nextLocalIdJson) with
  | None => merr ERR_ACCOUNT_COMMON_DUMP_JSON_ERROR
  | Some accountListJson => SaveAccountListToFileAndDataBase (Some accountListJson)
  end.

(** What [GetAllowCreateId] does with the list it has read.

    [OsAccountControlFileManager::GetAllowCreateId], os_account_control_file_manager.cpp:1434-1463 *)
Definition allow_create_id (accountListJson : CJson) : M S Z :=
  match GetVectorStringFromJson (Some accountListJson) ACCOUNT_LIST [] with
  | None => merr ERR_ACCOUNT_COMMON_BAD_JSON_FORMAT_ERROR
  | Some accountIdList =>
      let nextLocalId :=
        match GetIntFromJson (Some accountListJson) NEXT_LOCAL_ID with
        | Some nextLocalId => nextLocalId
        | None =>
            match list.last accountIdList ≫= StrToInt with
            | Some lastLocalId => i32 (lastLocalId + 1)
            | None => START_USER_ID + 1
            end
        end in
      let id := GetNextLocalId accountIdList nextLocalId in
      if MAX_CREATABLE_USER_ID <? id then merr ERR_OSACCOUNT_SERVICE_CONTROL_MAX_CAN_CREATE_ERROR
      else
        match AddIntToJson (Some accountListJson) NEXT_LOCAL_ID (id + 1) with
        | None => merr ERR_ACCOUNT_COMMON_DUMP_JSON_ERROR
        | Some accountListJson =>
            _ ← SaveAccountListToFileAndDataBase (Some accountListJson);
            mret id
        end
  end.

(** [OsAccountControlFileManager::GetAllowCreateId], os_account_control_file_manager.cpp *)
Definition GetAllowCreateId : M S Z := accountListJson ← GetAccountListFromFile; allow_create_id accountListJson.

(** *** Accounts that are active at start *)

(** A document of which a child has been changed through a pointer. *)
Definition set_child (key : string) (item j : CJson) : CJson :=
  match j with JObject l => JObject (obj_replace key item l) | _ => j end.

(** [defaultActivatedAccountJson] is a pointer into the list, so what is added to
    it is in the list.

    [OsAccountControlFileManager::SetDefaultActivatedOsAccount]#2, os_account_control_file_manager.cpp *)
Definition SetDefaultActivatedOsAccount (displayId id : Z) : M S unit :=
  accountListJson ← GetAccountListFromFile;
  let item := GetObjFromJson (Some accountListJson) DEFAULT_ACTIVATED_ACCOUNT_ID in
  if IsObject item then
    match AddIntToJson item (to_string displayId) id with
    | None => merr ERR_ACCOUNT_COMMON_DUMP_JSON_ERROR
    | Some item =>
        SaveAccountListToFileAndDataBase (Some (set_child DEFAULT_ACTIVATED_ACCOUNT_ID item accountListJson))
    end
  else
    match GetIntFromJson (Some accountListJson) DEFAULT_ACTIVATED_ACCOUNT_ID with
    | Some tmpId =>
        match CreateJson with
        | None => merr ERR_ACCOUNT_COMMON_DUMP_JSON_ERROR
        | Some tmpJson =>
            match (if negb (displayId =? DEFAULT_DISPLAY_ID)
                   then AddIntToJson (Some tmpJson) (to_string DEFAULT_DISPLAY_ID) tmpId else Some tmpJson) with
            | None => merr ERR_ACCOUNT_COMMON_DUMP_JSON_ERROR
            | Some tmpJson =>
                match AddIntToJson (Some tmpJson) (to_string displayId) id with
                | None => merr ERR_ACCOUNT_COMMON_DUMP_JSON_ERROR
                | Some tmpJson =>
                    match AddObjToJson (Some accountListJson) DEFAULT_ACTIVATED_ACCOUNT_ID (Some tmpJson) with
                    | None => merr ERR_ACCOUNT_COMMON_DUMP_JSON_ERROR
                    | Some accountListJson => SaveAccountListToFileAndDataBase (Some accountListJson)
                    end
                end
            end
        end
    | None => merr ERR_ACCOUNT_COMMON_BAD_JSON_FORMAT_ERROR
    end.

(** The caller's [id] stays as it is when the list has none for the default
    display.

    [OsAccountControlFileManager::GetDefaultActivatedOsAccount]#2, os_account_control_file_manager.cpp *)
Definition GetDefaultActivatedOsAccount (displayId id : Z) : M S Z :=
  accountListJson ← GetAccountListFromFile;
  let item := GetObjFromJson (Some accountListJson) DEFAULT_ACTIVATED_ACCOUNT_ID in
  if negb (IsObject item) then
    if negb (displayId =? DEFAULT_DISPLAY_ID) then merr ERR_ACCOUNT_COMMON_DISPLAY_ID_NOT_EXIST_ERROR
    else mret (default id (GetIntFromJson (Some accountListJson) DEFAULT_ACTIVATED_ACCOUNT_ID))
  else
    match GetIntFromJson item (to_string displayId) with
    | None => merr ERR_ACCOUNT_COMMON_DISPLAY_ID_NOT_EXIST_ERROR
    | Some id => mret id
    end.

(** [OsAccountControlFileManager::GetAllDefaultActivatedOsAccounts], os_account_control_file_manager.cpp *)
Definition GetAllDefaultActivatedOsAccounts : M S (gmap Z Z) :=
  accountListJson ← GetAccountListFromFile;
  let item := GetObjFromJson (Some accountListJson) DEFAULT_ACTIVATED_ACCOUNT_ID in
  if negb (IsObject item) then
    match GetIntFromJson (Some accountListJson) DEFAULT_ACTIVATED_ACCOUNT_ID with
    | None => merr ERR_ACCOUNT_COMMON_BAD_JSON_FORMAT_ERROR
    | Some tmpId => mret {[ DEFAULT_DISPLAY_ID := tmpId ]}
    end
  else mret (PackJsonToMapUint64Int32 item).

(** *** The configuration *)

(** [OsAccountControlFileManager::GetU1Config], os_account_control_file_manager.cpp *)
Definition GetU1Config (configJson : option CJson) (config : OsAccountConfig) : OsAccountConfig :=
  let systemAccountsJson := GetObjFromJson configJson SYSTEM_ACCOUNTS_CONFIG in
  if negb (IsObject systemAccountsJson) then config
  else
    let u1Json := GetObjFromJson systemAccountsJson U1_CONFIG in
    if negb (IsObject u1Json) then config
    else
      let type := default (-1) (GetIntFromJson u1Json SYSTEM_ACCOUNT_TYPE) in
      let known := bool_decide (type ∈ [ADMIN; NORMAL; GUEST; PRIVATE]) in
      let name := default (u1AccountName config) (GetStringFromJson u1Json SYSTEM_ACCOUNT_NAME) in
      {| maxOsAccountNum := maxOsAccountNum config;
         maxLoggedInOsAccountNum := maxLoggedInOsAccountNum config;
         isU1Enable := true;
         u1AccountType := if known then type else ADMIN;
         u1AccountName := if LOCAL_NAME_MAX_SIZE <=? Z.of_nat (String.length name) then EmptyString else name;
         isBlockBoot := default (isBlockBoot config) (GetBoolFromJson u1Json SYSTEM_ACCOUNT_BLOCK_BOOT);
         authAppBundleName := authAppBundleName config;
         authAppUIExtensionAbilityName := authAppUIExtensionAbilityName config;
         authAppServiceExtensionAbilityName := authAppServiceExtensionAbilityName config |}.

(** [OsAccountControlFileManager::GetAuthAppConfig], os_account_control_file_manager.cpp *)
Definition GetAuthAppConfig (configJson : option CJson) (config : OsAccountConfig) : OsAccountConfig :=
  let appJson := GetObjFromJson configJson AUTH_CONFIG_KEY in
  if negb (IsObject appJson) then config
  else
    {| maxOsAccountNum := maxOsAccountNum config;
       maxLoggedInOsAccountNum := maxLoggedInOsAccountNum config;
       isU1Enable := isU1Enable config; u1AccountType := u1AccountType config;
       u1AccountName := u1AccountName config; isBlockBoot := isBlockBoot config;
       authAppBundleName := default (authAppBundleName config) (GetStringFromJson appJson AUTH_APP_BUNDLE_NAME);
       authAppUIExtensionAbilityName :=
         default (authAppUIExtensionAbilityName config) (GetStringFromJson appJson AUTH_APP_UI_ABILITY_NAME);
       authAppServiceExtensionAbilityName :=
         default (authAppServiceExtensionAbilityName config) (GetStringFromJson appJson AUTH_APP_SYS_ABILITY_NAME) |}.

Definition set_limits (max maxLoggedIn : Z) (c : OsAccountConfig) : OsAccountConfig :=
  {| maxOsAccountNum := max; maxLoggedInOsAccountNum := maxLoggedIn; isU1Enable := isU1Enable c;
     u1AccountType := u1AccountType c; u1AccountName := u1AccountName c; isBlockBoot := isBlockBoot c;
     authAppBundleName := authAppBundleName c; authAppUIExtensionAbilityName := authAppUIExtensionAbilityName c;
     authAppServiceExtensionAbilityName := authAppServiceExtensionAbilityName c |}.

(** [OsAccountControlFileManager::GetOsAccountConfig], os_account_control_file_manager.cpp *)
Definition GetOsAccountConfig (config : OsAccountConfig) : M S OsAccountConfig :=
  let cfgPath := match GetOneCfgFile OS_ACCOUNT_CONFIG_FILE with
                 | Some path => if string_empty path then DEFAULT_OS_ACCOUNT_CONFIG_FILE else path
                 | None => DEFAULT_OS_ACCOUNT_CONFIG_FILE
                 end in
  configStr ← GetFileContentByPath cfgPath;
  match CreateJsonFromString configStr with
  | None => merr ERR_ACCOUNT_COMMON_BAD_JSON_FORMAT_ERROR
  | Some json =>
      let configJson := Some json in
      let maxNum := default (-1) (GetIntFromJson configJson MAX_OS_ACCOUNT_NUM) in
      let maxNum := if 0 <? maxNum then u32 maxNum else maxOsAccountNum config in
      let maxLoggedIn :=
        default (maxLoggedInOsAccountNum config) (GetUint32FromJson configJson MAX_LOGGED_IN_OS_ACCOUNT_NUM) in
      let config := set_limits maxNum maxLoggedIn config in
      let config := if ENABLE_U1_ACCOUNT then GetU1Config configJson config else config in
      let maxLoggedIn :=
        if GetBoolParameter DEVELOPER_MODE_STATE false && IsKeyExist configJson DEVELOPER_MODE then
          default maxLoggedIn
            (GetUint32FromJson (GetItemFromJson configJson DEVELOPER_MODE) MAX_LOGGED_IN_OS_ACCOUNT_NUM)
        else maxLoggedIn in
      let maxLoggedIn := if (maxNum <? maxLoggedIn) || (maxLoggedIn <=? 0) then maxNum else maxLoggedIn in
      let config := set_limits maxNum maxLoggedIn config in
      mret (if SUPPORT_AUTHORIZATION then GetAuthAppConfig configJson config else config)
  end.

(** *** Account files *)

(** [OsAccountControlFileManager::InsertOsAccount], os_account_control_file_manager.cpp *)
Definition InsertOsAccount (osAccountInfo : OsAccountInfo) : M S unit :=
  if localId_ osAccountInfo <? ADMIN_LOCAL_ID then merr ERR_OSACCOUNT_SERVICE_CONTROL_ID_CANNOT_CREATE_ERROR
  else
    let path := account_file (GetPrimeKey osAccountInfo) USER_INFO_FILE_NAME in
    isExist ← IsExistFile path;
    isJson ← (if isExist : bool then IsJsonFormat path else mret false);
    if isJson : bool then merr ERR_OSACCOUNT_SERVICE_CONTROL_INSERT_FILE_EXISTS_ERROR
    else
      let accountInfoStr := ToString osAccountInfo in
      if string_empty accountInfoStr then merr ERR_OSACCOUNT_SERVICE_ACCOUNT_INFO_EMPTY_ERROR
      else
        _ ← (if START_USER_ID <=? localId_ osAccountInfo
             then UpdateAccountList (GetPrimeKey osAccountInfo) true else mret tt);
        _ ← InputFileByPathAndContent path accountInfoStr;
        _ ← when_database (InsertOsAccountIntoDataBase osAccountInfo);
        if (START_USER_ID <=? localId_ osAccountInfo) || (localId_ osAccountInfo =? U1_ID) then
          _ ← when_file_watcher (AddAccountInfoDigest accountInfoStr path);
          when_file_watcher (AddFileWatcher (localId_ osAccountInfo) path)
        else mret tt.

(** [OsAccountControlFileManager::DelOsAccount], os_account_control_file_manager.cpp *)
Definition DelOsAccount (id : Z) : M S unit :=
  if (id <=? START_USER_ID) || (MAX_USER_ID <? id) then merr ERR_OSACCOUNT_SERVICE_CONTROL_CANNOT_DELETE_ID_ERROR
  else
    _ ← DeleteDirOrFile (account_dir (to_string id));
    _ ← when_database (DelOsAccountFromDatabase id);
    _ ← when_file_watcher (DeleteAccountInfoDigest (account_file (to_string id) USER_INFO_FILE_NAME));
    _ ← when_file_watcher (DeleteAccountInfoDigest (account_dir (to_string id) +:+ DISTRIBUTED_ACCOUNT_FILE_NAME));
    UpdateAccountList (to_string id) false.

(** [OsAccountControlFileManager::UpdateOsAccount], os_account_control_file_manager.cpp *)
Definition UpdateOsAccount (osAccountInfo : OsAccountInfo) : M S unit :=
  let path := account_file (GetPrimeKey osAccountInfo) USER_INFO_FILE_NAME in
  isExist ← IsExistFile path;
  if negb isExist then merr ERR_OSACCOUNT_SERVICE_CONTROL_UPDATE_FILE_NOT_EXISTS_ERROR
  else
    let accountInfoStr := ToString osAccountInfo in
    if string_empty accountInfoStr then merr ERR_OSACCOUNT_SERVICE_ACCOUNT_INFO_EMPTY_ERROR
    else
      _ ← InputFileByPathAndContent path accountInfoStr;
      _ ← (if (START_USER_ID <=? localId_ osAccountInfo) || (localId_ osAccountInfo =? U1_ID)
           then when_database (UpdateOsAccountInDatabase osAccountInfo) else mret tt);
      when_file_watcher (AddAccountInfoDigest accountInfoStr path).

(** [OsAccountControlFileManager::GetOsAccountFromDatabase], os_account_control_file_manager.cpp *)
Definition GetOsAccountFromDatabase (storeID : string) (id : Z) (osAccountInfo : OsAccountInfo) : M S OsAccountInfo :=
  if has_database then GetOsAccountFromStore storeID id osAccountInfo
  else merr ERR_ACCOUNT_COMMON_INTERFACE_NOT_SUPPORT_ERROR.

(** The text of an account file, into the caller's object; the type [-1] of an
    earlier version is the administrator's.

    [OsAccountControlFileManager::GetOsAccountInfoById], os_account_control_file_manager.cpp *)
Definition GetOsAccountInfoById (id : Z) (osAccountInfo : OsAccountInfo) : M S OsAccountInfo :=
  let path := account_file (to_string id) USER_INFO_FILE_NAME in
  err ← mtry (CheckFileExistence path);
  match err with
  | Err err =>
      r ← mtry (GetOsAccountFromDatabase "" id osAccountInfo);
      match r with
      | Ok osAccountInfo => _ ← mtry (InsertOsAccount osAccountInfo); mret osAccountInfo
      | Err _ =>
          merr (if err =? ERR_ACCOUNT_COMMON_FILE_NOT_EXIST
                then ERR_ACCOUNT_COMMON_ACCOUNT_NOT_EXIST_ERROR else err)
      end
  | Ok _ =>
      r ← mtry (GetFileContentByPath path);
      match r with
      | Err readErr =>
          r ← mtry (GetOsAccountFromDatabase "" id osAccountInfo);
          match r with Ok osAccountInfo => mret osAccountInfo | Err _ => merr readErr end
      | Ok accountInfoStr =>
          let '(parsed, osAccountInfo) := FromJson (CreateJsonFromString accountInfoStr) osAccountInfo in
          osAccountInfo ←
            (if parsed : bool then mret osAccountInfo
             else
               r ← mtry (GetOsAccountFromDatabase "" id osAccountInfo);
               match r with
               | Ok osAccountInfo => mret osAccountInfo
               | Err _ => merr ERR_ACCOUNT_COMMON_ACCOUNT_NOT_EXIST_ERROR
               end);
          mret (if SUPPORT_AUTHORIZATION && (type_ osAccountInfo =? -1)
                then set_type ADMIN osAccountInfo else osAccountInfo)
      end
  end.

(** Without photos.  An account that cannot be read is left out.

    [OsAccountControlFileManager::GetOsAccountList], os_account_control_file_manager.cpp *)
Definition GetOsAccountList : M S (list OsAccountInfo) :=
  result ← mtry GetAccountListFromFile;
  accountListJson ←
    (match result with
     | Ok accountListJson => mret accountListJson
     | Err result =>
         if has_database then
           r ← mtry (GetAccountListFromStoreID "");
           match r with
           | Ok accountListJson => _ ← mtry (SaveAccountListToFile (Some accountListJson)); mret accountListJson
           | Err _ => merr result
           end
         else merr result
     end);
  foldr (λ it rest,
    match StrToInt it with
    | None => rest
    | Some id =>
        r ← mtry (GetOsAccountInfoById id OsAccountInfo_new);
        osAccountList ← rest;
        mret (match r with Ok osAccountInfo => osAccountInfo :: osAccountList | Err _ => osAccountList end)
    end) (mret []) (id_list accountListJson).

(** [serialNumber] comes in with the caller's value.  [None] of the loop stands for
    a loop that does not end.

    [OsAccountControlFileManager::GetSerialNumber], os_account_control_file_manager.cpp *)
Definition GetSerialNumber (serialNumber : Z) : M S Z :=
  accountListJson ← GetAccountListFromFile;
  let serialNumber := default serialNumber (GetInt64FromJson (Some accountListJson) SERIAL_NUMBER_NUM) in
  '(serialNumber, accountListJson) ←
    (if serialNumber =? CARRY_NUM then
       match AddBoolToJson (Some accountListJson) IS_SERIAL_NUMBER_FULL true with
       | None => merr ERR_ACCOUNT_COMMON_DUMP_JSON_ERROR
       | Some accountListJson => mret (SERIAL_NUMBER_NUM_START, accountListJson)
       end
     else mret (serialNumber, accountListJson));
  let isSerialNumberFull := default false (GetBoolFromJson (Some accountListJson) IS_SERIAL_NUMBER_FULL) in
  serialNumber ←
    (if isSerialNumberFull : bool then
       osAccountInfos ← GetOsAccountList;
       match free_serial_number (length osAccountInfos) osAccountInfos serialNumber with
       | Some serialNumber => mret serialNumber
       | None => merr INT32_MIN
       end
     else mret serialNumber);
  match AddInt64ToJson (Some accountListJson) SERIAL_NUMBER_NUM (serialNumber + 1) with
  | None => merr ERR_ACCOUNT_COMMON_DUMP_JSON_ERROR
  | Some accountListJson =>
      _ ← SaveAccountListToFileAndDataBase (Some accountListJson);
      mret (serialNumber + SERIAL_NUMBER_NUM_START_FOR_ADMIN * CARRY_NUM)
  end.

(** [OsAccountControlFileManager::IsOsAccountExists], os_account_control_file_manager.cpp *)
Definition IsOsAccountExists (id : Z) : M S bool := IsExistFile (account_file (to_string id) USER_INFO_FILE_NAME).

(** *** Domain accounts *)

(** [GetDomainBoundFlagPath], os_account_control_file_manager.cpp *)
Definition GetDomainBoundFlagPath (localId : Z) : string :=
  account_file (to_string localId) IS_DOMAIN_BOUND_COMPLETED_FILE_NAME.

(** [OsAccountControlFileManager::SetDomainBoundFlag], os_account_control_file_manager.cpp *)
Definition SetDomainBoundFlag (localId : Z) (isBoundCompleted : bool) (domainInfo : DomainAccountInfo) : M S unit :=
  let flagFilePath := GetDomainBoundFlagPath localId in
  if isBoundCompleted then DeleteFile flagFilePath
  else
    match DomainToJson domainInfo with
    | None => merr ERR_ACCOUNT_COMMON_INSUFFICIENT_MEMORY_ERROR
    | Some jsonObj =>
        ret ← mtry (InputFileByPathAndContent flagFilePath (PackJsonToString (Some jsonObj)));
        match ret with
        | Ok _ => mret tt
        | Err ret => _ ← mtry (DeleteFile flagFilePath); merr ret
        end
    end.

(** [OsAccountControlFileManager::GetDomainBoundFlag], os_account_control_file_manager.cpp *)
Definition GetDomainBoundFlag (localId : Z) : M S (bool * DomainAccountInfo) :=
  ret ← mtry (GetFileContentByPath (GetDomainBoundFlagPath localId));
  match ret with
  | Err ret => if ret =? ERR_OSACCOUNT_SERVICE_FILE_FIND_FILE_ERROR then mret (true, DomainAccountInfo_new) else merr ret
  | Ok jsonStr =>
      match CreateJsonFromString jsonStr with
      | None => merr ERR_ACCOUNT_COMMON_BAD_JSON_FORMAT_ERROR
      | Some jsonObj => mret (false, (DomainFromJson (Some jsonObj) DomainAccountInfo_new).2)
      end
  end.

(** *** Subspaces *)

(** [OsAccountControlFileManager::ReadSubProfileContext], os_account_control_file_manager.cpp *)
Definition ReadSubProfileContext (id : Z) (data : SubProfileContext) : M S SubProfileContext :=
  ret ← mtry (GetFileContentByPath (account_file (to_string id) SUBPROFILE_INFO_FILE_NAME));
  match ret with
  | Err _ => merr ERR_ACCOUNT_COMMON_FILE_NOT_EXIST
  | Ok subProfileStr =>
      match CreateJsonFromString subProfileStr with
      | None => merr ERR_ACCOUNT_COMMON_FILE_OPEN_FAILED
      | Some subProfileJson => mret (FromJsonSubProfile (Some subProfileJson) data).2
      end
  end.

(** [OsAccountControlFileManager::WriteSubProfileContext], os_account_control_file_manager.cpp *)
Definition WriteSubProfileContext (id : Z) (data : SubProfileContext) : M S unit :=
  let subProfileStr := PackJsonToString (ToJsonSubProfile data) in
  if string_empty subProfileStr then merr ERR_ACCOUNT_COMMON_FILE_WRITE_FAILED
  else InputFileByPathAndContent (account_file (to_string id) SUBPROFILE_INFO_FILE_NAME) subProfileStr.

(** [OsAccountControlFileManager::DeleteSubProfileContextFile], os_account_control_file_manager.cpp *)
Definition DeleteSubProfileContextFile (id : Z) : M S unit :=
  let subPath := account_file (to_string id) SUBPROFILE_INFO_FILE_NAME in
  isExist ← IsExistFile subPath;
  if negb isExist then mret tt else DeleteFile subPath.

(** *** The account list at start *)

(** Only the part of [FileInit] and [Init] that is about the account list.

    [OsAccountControlFileManager::FileInit], os_account_control_file_manager.cpp:410-413
    [OsAccountControlFileManager::Init], os_account_control_file_manager.cpp:373-392 *)
Definition InitAccountList : M S unit :=
  ready ← IsJsonFileReady ACCOUNT_LIST_FILE_JSON_PATH;
  _ ← (if negb ready then RecoverAccountListJsonFile else mret tt);
  result ← mtry GetAccountListFromFile;
  match result with
  | Err _ => mret tt
  | Ok accountListJson =>
      if bool_decide (id_list accountListJson = []) then RecoverAccountListJsonFile else mret tt
  end.
End Operations.
