(* ===== verification/OsAccountDocs.v ===== *)
(** Reasoning about the documents of the OS account manager.

    [docs s] are the texts of a file store without the digest file, and
    [at_docs d] the states that have the documents [d] and no write under way.
    The rules below run the operations every component uses (read, write, the
    optional parts of a build) over [at_docs]. *)
From Stdlib Require Import ZArith Lia Ascii String.
From stdpp Require Import base list gmap sets strings pretty sorting.
From S2P Require Import Prelude ErrorCodes Json FileStore OsAccountInfo OsAccountEnv OsAccountFiles.

Section Documents.
Context {S : Type} {cjson : CJsonLib} {fs : FileStore S}.

Definition docs (s : S) : gmap string string := delete ACCOUNT_INFO_DIGEST_FILE_PATH (texts s).
Definition at_docs (d : gmap string string) (s : S) : Prop := idle s ∧ docs s = d.

(** The document is a file of its own: neither a temporary file nor the digest file. *)
Definition is_document (p : string) : Prop := is_temp p = false ∧ p ≠ ACCOUNT_INFO_DIGEST_FILE_PATH.

(** Whatever the documents are, they stay. *)
Definition quiet {A} (m : M S A) : Prop := ∀ d, preserves (at_docs d) m.

Lemma leaves_quiet {A} (m : M S A) : leaves_texts m → quiet m.
Proof. intros Hm d s [Hi Hd]. destruct (Hm s Hi) as [Hi' Ht]. split; [done|]. unfold docs in *. by rewrite Ht. Qed.

Lemma docs_lookup s p : is_document p → docs s !! p = texts s !! p.
Proof. intros [_ Hp]. unfold docs. by rewrite lookup_delete_ne. Qed.

Lemma digest_is_temp : is_temp ACCOUNT_INFO_DIGEST_FILE_PATH = false.
Proof. by vm_compute. Qed.

(** *** Rules *)

Lemma wp_quiet {A} (m : M S A) d (Q : result A → S → Prop) s :
  quiet m → at_docs d s → (∀ r s', at_docs d s' → Q r s') → wp m Q s.
Proof. intros Hm Hs HQ. apply HQ. by apply Hm. Qed.

(** An optional part of the service. *)
Lemma wp_void {A} (m : M S A) d (Q : result A → S → Prop) s :
  quiet m → is_void m → at_docs d s → (∀ a s', at_docs d s' → Q (Ok a) s') → wp m Q s.
Proof.
  intros Hm Hv Hs HQ. unfold wp. pose proof (Hm d s Hs) as H. pose proof (Hv s) as Hok.
  destruct (m s) as [[a|e] s']; [by apply HQ|done].
Qed.

Lemma wp_read_doc p d (Q : result string → S → Prop) s :
  is_document p → at_docs d s →
  (∀ t s', d !! p = Some t → at_docs d s' → Q (Ok t) s') → (∀ e s', at_docs d s' → Q (Err e) s') →
  wp (GetFileContentByPath p) Q s.
Proof.
  intros Hp [Hi Hd] Hok Herr. eapply wp_conseq; [apply read_spec; [done|apply Hp]|].
  intros [t|e] s' (Hi' & Ht & Hr); [|apply Herr; split; [done|]; unfold docs in *; by rewrite Ht].
  apply Hok; [|split; [done|]; unfold docs in *; by rewrite Ht].
  subst d. rewrite docs_lookup by done. by apply Hr.
Qed.

Lemma wp_write_doc p c d (Q : result unit → S → Prop) s :
  is_document p → at_docs d s →
  (∀ s', at_docs (<[p := c]> d) s' → Q (Ok tt) s') → (∀ e s', at_docs d s' → Q (Err e) s') →
  wp (InputFileByPathAndContent p c) Q s.
Proof.
  intros Hp [Hi Hd] Hok Herr. eapply wp_conseq; [apply write_spec; [done|apply Hp]|].
  intros [[]|e] s' (Hi' & Ht); unfold docs in *.
  - apply Hok. split; [done|]. unfold docs. rewrite Ht, delete_insert_ne by (symmetry; apply Hp). by rewrite Hd.
  - apply Herr. split; [done|]. unfold docs. by rewrite Ht.
Qed.

Lemma wp_exists_doc p d (Q : result bool → S → Prop) s :
  is_document p → at_docs d s →
  (∀ b s', (b = true → is_Some (d !! p)) → at_docs d s' → Q (Ok b) s') → wp (IsExistFile p) Q s.
Proof.
  intros Hp [Hi Hd] Hok. eapply wp_conseq; [apply exists_spec; [done|apply Hp]|].
  intros r s' (Hi' & Ht & b & -> & Hb). apply Hok.
  - intros Htrue. subst d. rewrite docs_lookup by done. by apply Hb.
  - split; [done|]. unfold docs in *. by rewrite Ht.
Qed.

Lemma wp_json_doc p d (Q : result bool → S → Prop) s :
  is_document p → at_docs d s →
  (∀ b s', (b = true → ∃ t, d !! p = Some t ∧ IsStructured (CreateJsonFromString t) = true) →
    at_docs d s' → Q (Ok b) s') → wp (IsJsonFormat p) Q s.
Proof.
  intros Hp [Hi Hd] Hok. eapply wp_conseq; [apply json_spec; [done|apply Hp]|].
  intros r s' (Hi' & Ht & b & -> & Hb). apply Hok.
  - intros Htrue. subst d. rewrite docs_lookup by done. by apply Hb.
  - split; [done|]. unfold docs in *. by rewrite Ht.
Qed.

Lemma wp_check_doc p d (Q : result unit → S → Prop) s :
  is_document p → at_docs d s →
  (∀ s', is_Some (d !! p) → at_docs d s' → Q (Ok tt) s') → (∀ e s', at_docs d s' → Q (Err e) s') →
  wp (CheckFileExistence p) Q s.
Proof.
  intros Hp [Hi Hd] Hok Herr. eapply wp_conseq; [apply check_spec; [done|apply Hp]|].
  intros [[]|e] s' (Hi' & Ht & Hr); [|apply Herr; split; [done|]; unfold docs in *; by rewrite Ht].
  apply Hok; [|split; [done|]; unfold docs in *; by rewrite Ht].
  subst d. rewrite docs_lookup by done. by apply Hr.
Qed.

Lemma wp_delete_file_doc p d (Q : result unit → S → Prop) s :
  is_document p → at_docs d s →
  (∀ s', at_docs (delete p d) s' → Q (Ok tt) s') → (∀ e s', at_docs d s' → Q (Err e) s') →
  wp (DeleteFile p) Q s.
Proof.
  intros Hp [Hi Hd] Hok Herr. eapply wp_conseq; [apply delete_file_spec; [done|apply Hp]|].
  intros [[]|e] s' (Hi' & Ht); unfold docs in *.
  - apply Hok. split; [done|]. unfold docs. by rewrite Ht, delete_delete, Hd.
  - apply Herr. split; [done|]. unfold docs. by rewrite Ht.
Qed.

(** *** What touches the digest file only *)

Lemma write_digest_quiet c : quiet (InputFileByPathAndContent ACCOUNT_INFO_DIGEST_FILE_PATH c).
Proof.
  intros d s [Hi Hd]. pose proof (write_spec ACCOUNT_INFO_DIGEST_FILE_PATH c s Hi digest_is_temp) as [Hi' Ht].
  split; [done|]. unfold docs in *. rewrite Ht. destruct (_ s).1 as [[]|e]; [by rewrite delete_insert_eq|done].
Qed.

Lemma read_quiet p : is_temp p = false → quiet (GetFileContentByPath p).
Proof.
  intros Hp d s [Hi Hd]. pose proof (read_spec p s Hi Hp) as (Hi' & Ht & _). split; [done|].
  unfold docs in *. by rewrite Ht.
Qed.

Lemma quiet_bind {A B} (m : M S A) (k : A → M S B) : quiet m → (∀ a, quiet (k a)) → quiet (m ≫= k).
Proof. intros Hm Hk d. apply preserves_bind; [apply Hm|]. intros a. apply Hk. Qed.
Lemma quiet_try {A} (m : M S A) : quiet m → quiet (mtry m).
Proof. intros Hm d. by apply preserves_try. Qed.
Lemma quiet_ret {A} (a : A) : quiet (mret a).
Proof. intros d. apply preserves_ret. Qed.
Lemma quiet_err {A} e : quiet (@merr S A e).
Proof. intros d. apply preserves_err. Qed.
End Documents.

Create HintDb mquiet discriminated.
#[export] Hint Constants Opaque : mquiet.
#[export] Hint Variables Opaque : mquiet.
#[export] Hint Resolve leaves_quiet write_digest_quiet read_quiet quiet_ret quiet_err quiet_try digest_is_temp : mquiet.

(** Goes along the structure of code that is quiet. *)
Ltac quiet_step :=
  lazymatch goal with
  | |- quiet (_ ≫= _) => apply quiet_bind; [|intros ?]
  | |- quiet (mtry _) => apply quiet_try
  | |- quiet (match ?x with _ => _ end) => destruct x
  | |- quiet (let _ := _ in _) => cbv zeta
  | |- quiet _ => solve [eauto with mquiet]
  end.
Ltac quiet_code := repeat quiet_step.

Section Digest.
Context {S : Type} {cjson : CJsonLib} {fs : FileStore S} {target : Target} {huks : Huks}.

Lemma AddAccountInfoDigest_quiet t p : quiet (AddAccountInfoDigest t p).
Proof. unfold AddAccountInfoDigest, GenerateAccountInfoDigestStr. quiet_code. Qed.

Lemma DeleteAccountInfoDigest_quiet p : quiet (DeleteAccountInfoDigest p).
Proof. unfold DeleteAccountInfoDigest. quiet_code. Qed.
End Digest.

#[export] Hint Resolve AddAccountInfoDigest_quiet DeleteAccountInfoDigest_quiet : mquiet.

(** ** Paths *)

Lemma substring_past p q i n : String.substring (String.length p + i) n (p +:+ q) = String.substring i n q.
Proof. induction p as [|a p IH]; [done|]. rewrite string_app_cons. exact IH. Qed.

Lemma is_temp_end p q : (4 ≤ String.length q)%nat → is_temp (p +:+ q) = is_temp q.
Proof.
  intros Hq. unfold is_temp. rewrite length_string_app.
  replace (String.length p + String.length q - 4)%nat with (String.length p + (String.length q - 4))%nat by lia.
  by rewrite substring_past.
Qed.

Lemma string_app_inj_l p q q' : p +:+ q = p +:+ q' → q = q'.
Proof. induction p as [|a p IH]; [done|]. rewrite !string_app_cons. intros [= E]. by apply IH. Qed.

(** A document in a directory of its own is none of those next to the directories. *)
Lemma account_file_ne id name p : char_free "/" p → account_file id name ≠ USER_INFO_BASE +:+ PATH_SEPARATOR +:+ p.
Proof.
  intros Hp E. unfold account_file, account_dir in E. rewrite !string_app_assoc in E.
  do 2 apply string_app_inj_l in E. subst p. apply char_free_app in Hp as [_ Hp].
  by apply char_free_cons in Hp as [? _].
Qed.

Lemma account_file_document id name :
  (4 ≤ String.length name)%nat → is_temp name = false → is_document (account_file id name).
Proof.
  intros Hl Ht. split.
  - unfold account_file. rewrite <-!string_app_assoc. by rewrite is_temp_end.
  - apply account_file_ne. by vm_compute.
Qed.

Lemma account_file_not_list id name : account_file id name ≠ ACCOUNT_LIST_FILE_JSON_PATH.
Proof. apply account_file_ne. by vm_compute. Qed.

Lemma info_file_document id : is_document (account_file id USER_INFO_FILE_NAME).
Proof. apply account_file_document; [cbn; lia|by vm_compute]. Qed.

Lemma list_is_document : is_document ACCOUNT_LIST_FILE_JSON_PATH.
Proof. split; [by vm_compute|]. intros H. apply (f_equal String.length) in H. by vm_compute in H. Qed.

Lemma info_file_not_temp id : is_temp (account_file id USER_INFO_FILE_NAME) = false.
Proof. apply info_file_document. Qed.
Lemma list_not_temp : is_temp ACCOUNT_LIST_FILE_JSON_PATH = false.
Proof. apply list_is_document. Qed.

#[export] Hint Resolve info_file_document list_is_document info_file_not_temp list_not_temp : mquiet.

Section Optional.
Context {cfg : Config} {oscfg : OsConfig} {S : Type} {cjson : CJsonLib} {fs : FileStore S}.

Lemma when_database_void (m : M S unit) : is_void (when_database m).
Proof. intros s. unfold when_database. destruct has_database; [|done]. rewrite run_try. by destruct (m s). Qed.
Lemma when_file_watcher_void (m : M S unit) : is_void (when_file_watcher m).
Proof. intros s. unfold when_file_watcher. destruct ENABLE_FILE_WATCHER; [|done]. rewrite run_try. by destruct (m s). Qed.
Lemma when_database_quiet (m : M S unit) : quiet m → quiet (when_database m).
Proof. intros Hm. unfold when_database. quiet_code. Qed.
Lemma when_file_watcher_quiet (m : M S unit) : quiet m → quiet (when_file_watcher m).
Proof. intros Hm. unfold when_file_watcher. quiet_code. Qed.
End Optional.

#[export] Hint Resolve when_database_void when_file_watcher_void when_database_quiet when_file_watcher_quiet : mquiet.
#[export] Hint Resolve GetAccountList_leaves GetOsAccount_leaves UpdateIDList_leaves InsertOsAccount_leaves
  DelOsAccount_leaves UpdateOsAccount_leaves AddFileWatcher_leaves RemoveFileWatcher_leaves ListDirectory_leaves : mquiet.

(** Without the database a failed look-up in it is the only outcome. *)
Lemma try_err_bind {S A B} e (k : result A → M S B) : mtry (merr e) ≫= k = k (Err e).
Proof. done. Qed.

Section Listing.
Context {cfg : Config} {oscfg : OsConfig} {sysconf : Sysconf} {cjson : CJsonLib} {target : Target} {cutils : CUtils} {huks : Huks}.
Context {S : Type} {fs : FileStore S} {db : AccountDatabase S} {env : Surroundings S}.

Lemma check_quiet p : is_temp p = false → quiet (CheckFileExistence p).
Proof.
  intros Hp d s [Hi Hd]. pose proof (check_spec p s Hi Hp) as (Hi' & Ht & _). split; [done|].
  unfold docs in *. by rewrite Ht.
Qed.

Lemma GetAccountListFromFile_quiet : quiet GetAccountListFromFile.
Proof. unfold GetAccountListFromFile. quiet_code. Qed.

Lemma GetOsAccountInfoById_quiet id i : has_database = false → quiet (GetOsAccountInfoById id i).
Proof.
  intros Hdb. unfold GetOsAccountInfoById, GetOsAccountFromDatabase. rewrite Hdb.
  apply quiet_bind; [apply quiet_try, check_quiet, info_file_not_temp|]. intros [[]|e]; [|rewrite try_err_bind; quiet_code].
  apply quiet_bind; [apply quiet_try, read_quiet, info_file_not_temp|]. intros [t|e]; [|rewrite try_err_bind; quiet_code].
  rewrite try_err_bind. quiet_code.
Qed.

Lemma GetOsAccountList_quiet : has_database = false → quiet GetOsAccountList.
Proof.
  intros Hdb. unfold GetOsAccountList. rewrite Hdb. apply quiet_bind; [apply quiet_try, GetAccountListFromFile_quiet|].
  intros r. apply quiet_bind; [quiet_code|]. intros j.
  induction (id_list j) as [|x l IH]; cbn [foldr]; [quiet_code|].
  destruct (StrToInt x) as [id|]; [|exact IH].
  apply quiet_bind; [by apply quiet_try, GetOsAccountInfoById_quiet|]. intros r'.
  apply quiet_bind; [exact IH|]. intros. quiet_code.
Qed.
End Listing.

#[export] Hint Resolve GetAccountListFromFile_quiet GetOsAccountList_quiet : mquiet.
