(* ===== verification/OsAccountWorld.v ===== *)
(** A concrete world for the theorems about OS account files: a file store in
    memory, with no database, the library of c_utils by its documentation, and a
    directory listing that is given.  The witnesses run on it. *)
From Stdlib Require Import ZArith Lia Ascii String.
From stdpp Require Import base list gmap sets strings pretty sorting.
From S2P Require Import Prelude ErrorCodes Json FileStore FileOperator FileTheorems OsAccountInfo OsAccountEnv.

Module Concrete.
#[export] Existing Instances RamDisk.ram RamDisk.laws RamDisk.reliable.
#[export] Existing Instances TreeLib.lib TreeLib.laws TreeLib.alloc TreeLib.target.

#[export] Instance config : Config := {|
  HAS_ASSET_PART := false; ENABLE_MULTIPLE_OS_ACCOUNT_SUBSPACE := true; DISTRIBUTED_FEATURE_ENABLED := false;
  SQLITE_DLCLOSE_ENABLE := false |}.
#[export] Instance os_config : OsConfig :=
  {| ENABLE_FILE_WATCHER := true; HAS_KV_STORE_PART := false; HAS_HUKS_PART := true;
     SUPPORT_AUTHORIZATION := false; ENABLE_U1_ACCOUNT := false |}.
#[export] Instance sysconf : Sysconf := {| LOCAL_NAME_MAX_SIZE := 256 |}.

Definition str_to_int (s : string) : option Z :=
  z ← strtol_whole s; if decide (is_i32 z) then Some z else None.

#[export] Instance cutils : CUtils.
Proof.
  refine {| StrToInt := str_to_int |}.
  - intros z Hz. unfold str_to_int. rewrite strtol_to_string; cbn.
    + by rewrite decide_True.
    + unfold is_i32, INT64_MIN, INT64_MAX in *. lia.
  - intros s z Hz. unfold str_to_int in Hz. apply bind_Some in Hz as (z' & _ & Hz). case_decide; by simplify_eq.
Defined.

#[export] Instance huks : Huks := {| GenerateAccountInfoDigest := λ _, repeat 0 32 |}.

Lemma leaves_err {A} e : leaves_texts (@merr FileWorld A e).
Proof. by intros s Hs. Qed.
Lemma leaves_ret {A} (a : A) : leaves_texts (mret a : M FileWorld A).
Proof. by intros s Hs. Qed.
Lemma void_ret {A} (a : A) : is_void (mret a : M FileWorld A).
Proof. by intros s. Qed.

(** A database that is not there. *)
#[export] Instance database : AccountDatabase FileWorld.
Proof.
  refine {|
    GetAccountListFromStoreID := λ _, merr ERR_ACCOUNT_COMMON_INTERFACE_NOT_SUPPORT_ERROR;
    GetOsAccountFromStore := λ _ _ _, merr ERR_ACCOUNT_COMMON_INTERFACE_NOT_SUPPORT_ERROR;
    UpdateOsAccountIDListInDatabase := λ _, mret tt; InsertOsAccountIntoDataBase := λ _, mret tt;
    DelOsAccountFromDatabase := λ _, mret tt; UpdateOsAccountInDatabase := λ _, mret tt |};
    intros; first [apply leaves_err | apply leaves_ret | apply void_ret].
Defined.

(** Two accounts, a file, and directories that are no accounts. *)
Definition entries : list (string * bool) :=
  [(".", true); ("..", true); ("100", true); ("0", true); ("account_list.json", false); ("0101", true); ("tmp", true)].

#[export] Instance surroundings : Surroundings FileWorld.
Proof.
  refine {|
    AddFileWatcher := λ _ _, mret tt; RemoveFileWatcher := λ _ _, mret tt;
    ListDirectory := λ _, mret (Some entries);
    GetOneCfgFile := λ _, None; GetBoolParameter := λ _ d, d |};
    intros; first [apply leaves_ret | apply void_ret].
Defined.

Definition world (files : gmap string string) : FileWorld := mkFileWorld ((files, ∅) : RamDisk.disk) ∅ [] [].
End Concrete.
