(* ===== verification/OsAccountList.v ===== *)
(** The account list: an abstract state and the operations on it, against which the
    operations of OsAccountFiles.v on the document account_list.json are proved.

    [AccountList] has what the document keeps; [represents] says how a JSON object
    holds it.  The search for a free id and for a free serial number go around a
    range, [cyc]. *)
From Stdlib Require Import ZArith Lia Ascii String.
From stdpp Require Import base list gmap sets strings pretty sorting.
From S2P Require Import Prelude ErrorCodes Json FileStore OsAccountInfo OsAccountEnv OsAccountFiles OsAccountDocs.

(** ** Searching a range *)

(** The [j]th number after [s] in the range from [lo] to [hi], which starts over at
    its end. *)
Definition cyc (lo hi s j : Z) : Z := lo + (s - lo + j) `mod` (hi - lo + 1).

Lemma cyc_range lo hi s j : lo ≤ hi → lo ≤ cyc lo hi s j ≤ hi.
Proof. intros H. unfold cyc. pose proof (Z.mod_pos_bound (s - lo + j) (hi - lo + 1)). lia. Qed.

Lemma cyc_0 lo hi s : lo ≤ s ≤ hi → cyc lo hi s 0 = s.
Proof. intros H. unfold cyc. rewrite Z.add_0_r, Z.mod_small; lia. Qed.

Lemma cyc_cyc lo hi s i j : lo ≤ hi → cyc lo hi (cyc lo hi s i) j = cyc lo hi s (i + j).
Proof.
  intros H. unfold cyc. f_equal.
  replace (lo + (s - lo + i) `mod` (hi - lo + 1) - lo + j) with ((s - lo + i) `mod` (hi - lo + 1) + j) by lia.
  rewrite Zplus_mod_idemp_l. f_equal. lia.
Qed.

Lemma cyc_succ lo hi s : lo ≤ s ≤ hi → (if hi <? s + 1 then lo else s + 1) = cyc lo hi s 1.
Proof.
  intros H. unfold cyc. destruct (Z.ltb_spec hi (s + 1)).
  - replace (s - lo + 1) with (hi - lo + 1) by lia. rewrite Z.mod_same; lia.
  - rewrite Z.mod_small; lia.
Qed.

(** Going on for as long as the range is comes to every number of it. *)
Lemma cyc_onto lo hi s x : lo ≤ s ≤ hi → lo ≤ x ≤ hi → ∃ j, 0 ≤ j ≤ hi - lo ∧ cyc lo hi s j = x.
Proof.
  intros Hs Hx. unfold cyc. destruct (Z_le_gt_dec s x).
  - exists (x - s). split; [lia|]. replace (s - lo + (x - s)) with (x - lo) by lia. rewrite Z.mod_small; lia.
  - exists (x - s + (hi - lo + 1)). split; [lia|].
    replace (s - lo + (x - s + (hi - lo + 1))) with ((x - lo) + 1 * (hi - lo + 1)) by lia.
    rewrite Z.mod_add, Z.mod_small by lia. lia.
Qed.

Lemma cyc_inj lo hi s i j :
  lo ≤ hi → 0 ≤ i ≤ hi - lo → 0 ≤ j ≤ hi - lo → cyc lo hi s i = cyc lo hi s j → i = j.
Proof.
  intros H Hi Hj E. unfold cyc in E.
  assert (Hm : (s - lo + i) `mod` (hi - lo + 1) = (s - lo + j) `mod` (hi - lo + 1)) by lia.
  pose proof (Z.div_mod (s - lo + i) (hi - lo + 1) ltac:(lia)) as Hq1.
  pose proof (Z.div_mod (s - lo + j) (hi - lo + 1) ltac:(lia)) as Hq2. rewrite Hm in Hq1.
  generalize dependent ((s - lo + i) / (hi - lo + 1)). generalize dependent ((s - lo + j) / (hi - lo + 1)).
  clear E Hm. generalize ((s - lo + j) `mod` (hi - lo + 1)). intros m q2 Hq2 q1 Hq1.
  assert (Hd : i - j = (hi - lo + 1) * (q1 - q2)) by lia.
  assert (q1 - q2 < 1 ∧ -1 < q1 - q2) by (split; nia). replace (q1 - q2) with 0 in Hd by lia. lia.
Qed.

(** A search that goes around the range from [s] on: it stops at the first number
    that is not [used], or has seen [n] more than the first. *)
Section search.
Context (lo hi : Z) (Hrange : lo ≤ hi) (used : Z → Prop).

Definition first_free (s n r : Z) : Prop :=
  ∃ j, 0 ≤ j ≤ n ∧ r = cyc lo hi s j ∧ ¬ used r ∧ ∀ i, 0 ≤ i < j → used (cyc lo hi s i).
Definition all_used (s n : Z) : Prop := ∀ i, 0 ≤ i ≤ n → used (cyc lo hi s i).

Lemma first_free_here s n : lo ≤ s ≤ hi → 0 ≤ n → ¬ used s → first_free s n s.
Proof. intros Hs Hn Hu. exists 0. rewrite cyc_0 by done. split_and!; [lia..|done|done|intros; lia]. Qed.

Lemma first_free_next s n r :
  lo ≤ s ≤ hi → used s → first_free (cyc lo hi s 1) n r → first_free s (n + 1) r.
Proof.
  intros Hs Hu (j & Hj & -> & Hfree & Hbefore). rewrite cyc_cyc in * by lia. exists (1 + j).
  split_and!; [lia..|done|done|]. intros i Hi. destruct (decide (i = 0)) as [->|].
  - by rewrite cyc_0.
  - replace i with (1 + (i - 1)) by lia. rewrite <-cyc_cyc by done. apply Hbefore. lia.
Qed.

Lemma all_used_0 s : lo ≤ s ≤ hi → used s → all_used s 0.
Proof. intros Hs Hu i Hi. replace i with 0 by lia. by rewrite cyc_0. Qed.

Lemma all_used_next s n : lo ≤ s ≤ hi → used s → all_used (cyc lo hi s 1) n → all_used s (n + 1).
Proof.
  intros Hs Hu Hall i Hi. destruct (decide (i = 0)) as [->|]; [by rewrite cyc_0|].
  replace i with (1 + (i - 1)) by lia. rewrite <-cyc_cyc by done. apply Hall. lia.
Qed.

Lemma all_used_range s n x : lo ≤ s ≤ hi → hi - lo ≤ n → all_used s n → lo ≤ x ≤ hi → used x.
Proof. intros Hs Hn Hall Hx. destruct (cyc_onto lo hi s x Hs Hx) as (j & Hj & <-). apply Hall. lia. Qed.

(** What is used when [n] numbers after the first are has more than [n] members. *)
Lemma all_used_length (l : list Z) s (n : nat) :
  (∀ x, used x → x ∈ l) → Z.of_nat n ≤ hi - lo → all_used s (Z.of_nat n) → (n < length l)%nat.
Proof.
  intros Hl Hn Hall.
  assert (Hsub : ((λ i, cyc lo hi s (Z.of_nat i)) <$> seq 0 (Datatypes.S n)) ⊆+ l).
  - apply NoDup_submseteq.
    + apply NoDup_fmap_2_strong; [|apply NoDup_seq]. intros i j Hi%elem_of_seq Hj%elem_of_seq E.
      apply cyc_inj in E; lia.
    + intros x (i & -> & Hi%elem_of_seq)%list_elem_of_fmap. apply Hl, Hall. lia.
  - apply submseteq_length in Hsub. rewrite length_fmap, length_seq in Hsub. lia.
Qed.
End search.

Lemma next_local_id_search n l s :
  START_USER_ID + 1 ≤ s ≤ MAX_CREATABLE_USER_ID →
  let used id := to_string id ∈ l in
  first_free (START_USER_ID + 1) MAX_CREATABLE_USER_ID used s (Z.of_nat n) (next_local_id n l s) ∨
  next_local_id n l s = MAX_CREATABLE_USER_ID + 1 ∧
    all_used (START_USER_ID + 1) MAX_CREATABLE_USER_ID used s (Z.of_nat n).
Proof.
  intros Hs used. revert s Hs. induction n as [|n IH]; intros s Hs; cbn [next_local_id];
    (case_bool_decide as Hu; cbn [negb]; [|left; apply first_free_here; [done|lia|done]]).
  - right. split; [done|]. by apply all_used_0.
  - rewrite cyc_succ by done. rewrite Nat2Z.inj_succ, <-Z.add_1_r.
    destruct (IH (cyc (START_USER_ID + 1) MAX_CREATABLE_USER_ID s 1)) as [Hf|[-> Ha]].
    + by apply cyc_range.
    + left. by apply first_free_next.
    + right. split; [done|]. by apply all_used_next.
Qed.

Lemma GetNextLocalId_search l startId :
  let s := if (startId <=? START_USER_ID) || (MAX_CREATABLE_USER_ID <? startId) then 101 else startId in
  let used id := to_string id ∈ l in
  101 ≤ s ≤ 999 ∧
  (first_free 101 999 used s 898 (GetNextLocalId l startId) ∨
   (GetNextLocalId l startId = 1000 ∧ all_used 101 999 used s 898)).
Proof.
  intros s used.
  assert (Hs : 101 ≤ s ≤ 999).
  { subst s. unfold START_USER_ID, MAX_CREATABLE_USER_ID.
    destruct (Z.leb_spec startId 100), (Z.ltb_spec 999 startId); cbn; lia. }
  split; [done|]. exact (next_local_id_search 898 l s Hs).
Qed.

(** C36. The id that [GetNextLocalId] chooses: from the id to start with (101 where it
    is out of the range) on and around the end of the range from 101 to 999 it is
    the first that is not in the list, and 1000 exactly when all 899 are in it; the
    loop of at most 899 rounds is enough for this. *)
Theorem next_local_id_is_first_free (l : list string) (startId : Z) :
  let r := GetNextLocalId l startId in
  let s := if (startId <=? START_USER_ID) || (MAX_CREATABLE_USER_ID <? startId) then 101 else startId in
  (∃ j, 0 ≤ j < 899 ∧ r = cyc 101 999 s j ∧ ¬ to_string r ∈ l ∧
     (∀ i, 0 ≤ i < j → to_string (cyc 101 999 s i) ∈ l)) ∨
  (r = 1000 ∧ (∀ id, 101 ≤ id ≤ 999 → to_string id ∈ l)).
Proof.
  intros r s. destruct (GetNextLocalId_search l startId) as [Hs [(j & Hj & Hr & Hfree & Hb)|[Hr Hall]]]; fold s in Hs.
  - left. exists j. split; [lia|]. exact (conj Hr (conj Hfree Hb)).
  - right. split; [done|]. intros id Hid. exact (all_used_range 101 999 (λ id, to_string id ∈ l) s 898 id Hs ltac:(lia) Hall Hid).
Qed.

(** ** The abstract list *)

(** [active] is a number in lists of an earlier version. *)
Record AccountList := mkAccountList {
  ids : list Z;
  next : Z;
  serial : Z;
  full : bool;
  active : Z + gmap Z Z;
}.

Definition set_ids (ids : list Z) (a : AccountList) : AccountList :=
  mkAccountList ids (next a) (serial a) (full a) (active a).
Definition set_next (next : Z) (a : AccountList) : AccountList :=
  mkAccountList (ids a) next (serial a) (full a) (active a).
Definition set_serial (serial : Z) (full : bool) (a : AccountList) : AccountList :=
  mkAccountList (ids a) (next a) serial full (active a).
Definition set_active (active : Z + gmap Z Z) (a : AccountList) : AccountList :=
  mkAccountList (ids a) (next a) (serial a) (full a) active.

Definition id_string (id : Z) : string := to_string id.

(** The child for the accounts that are active at start. *)
Definition active_field (v : Z + gmap Z Z) (j : CJson) : Prop :=
  match v with
  | inl id => is_i32 id ∧ j = num id
  | inr m => ∃ kvs, NoDup kvs.*1 ∧ Forall (λ kv, 0 ≤ kv.1 ≤ UINT64_MAX ∧ is_i32 kv.2) kvs ∧
               list_to_map kvs = m ∧ j = JObject (number_field <$> kvs)
  end.

(** How a document holds a list. *)
Record represents (l : list (string * CJson)) (a : AccountList) : Prop := {
  rep_ok : json_ok (JObject l) = true;
  rep_ids : obj_find ACCOUNT_LIST l = Some (JArray (JString <$> (id_string <$> ids a)));
  rep_next : obj_find NEXT_LOCAL_ID l = Some (num (next a));
  rep_serial : obj_find SERIAL_NUMBER_NUM l = Some (JString (to_string (serial a)));
  rep_full : obj_find IS_SERIAL_NUMBER_FULL l = Some (JBool (full a));
  rep_active : ∃ j, obj_find DEFAULT_ACTIVATED_ACCOUNT_ID l = Some j ∧ active_field (active a) j;
  rep_range : Forall (λ id, START_USER_ID ≤ id ≤ MAX_USER_ID) (ids a);
  rep_NoDup : NoDup (ids a);
  rep_next_range : is_i32 (next a);
  rep_serial_range : SERIAL_NUMBER_NUM_START ≤ serial a ≤ CARRY_NUM;
}.

(** ** Changing a field *)

Lemma json_depth_fields l n :
  (json_depth (JObject l) ≤ Datatypes.S n)%nat ↔ Forall (λ kv, (json_depth kv.2 ≤ n)%nat) l.
Proof.
  rewrite json_depth_object. induction l as [|kv l IH]; cbn [foldr].
  - split; [intros; apply Forall_nil_2|lia].
  - rewrite Forall_cons, <-IH. lia.
Qed.

Lemma json_ok_set l k v :
  json_ok (JObject l) = true → nul_free k → json_plain v = true → (json_depth v < 998)%nat →
  json_ok (JObject (obj_set k v l)) = true.
Proof.
  intros [Hp Hd]%andb_true_iff Hk Hv Hdv. apply Nat.ltb_lt in Hd. apply andb_true_iff. split.
  - cbn [json_plain] in *. apply forallb_Forall_true, obj_set_Forall.
    + apply andb_true_iff. split; [by apply bool_decide_eq_true|done].
    + apply Forall_forall. intros kv Hkv. rewrite forallb_forall in Hp. by apply Hp, list_elem_of_In.
  - apply Nat.ltb_lt. change CJSON_NESTING_LIMIT with (Datatypes.S (Datatypes.S 998)) in *.
    apply Nat.lt_succ_r, json_depth_fields, obj_set_Forall; [cbn; lia|].
    apply (proj1 (json_depth_fields l 998)). lia.
Qed.

Lemma ids_length (l : list Z) :
  Forall (λ id, START_USER_ID ≤ id ≤ MAX_USER_ID) l → NoDup l → Z.of_nat (length l) ≤ INT32_MAX.
Proof.
  intros Hr Hn. assert (Hsub : l ⊆+ seqZ 0 (MAX_USER_ID + 1)).
  - apply NoDup_submseteq; [done|]. intros x Hx. rewrite Forall_forall in Hr. apply Hr in Hx.
    apply elem_of_seqZ. unfold START_USER_ID in Hx. lia.
  - apply submseteq_length in Hsub. rewrite length_seqZ in Hsub. unfold MAX_USER_ID, INT32_MAX in *. lia.
Qed.

(** The fields of [obj_set k v l], for names that are written out. *)
Ltac set_fields := rewrite ?obj_find_set; repeat (first [rewrite decide_True by reflexivity | rewrite decide_False by discriminate]).

Section Represents.
Context {cjson : CJsonLib} {laws : CJsonLaws} {target : Target} {alloc : CJsonAlloc}.
Implicit Types (l : list (string * CJson)) (a : AccountList).

Lemma rep_length l a : represents l a → Z.of_nat (length (ids a)) ≤ INT32_MAX.
Proof. intros Hr. apply ids_length; [apply (rep_range _ _ Hr)|apply (rep_NoDup _ _ Hr)]. Qed.

Lemma read_ids l a : represents l a → GetVectorStringFromJson (Some (JObject l)) ACCOUNT_LIST [] = Some (id_string <$> ids a).
Proof.
  intros Hr. rewrite (GetVectorStringFromJson_read l ACCOUNT_LIST (id_string <$> ids a) []); [done|done|by apply rep_ids|].
  rewrite length_fmap. by eapply rep_length.
Qed.

Lemma read_next l a : represents l a → GetIntFromJson (Some (JObject l)) NEXT_LOCAL_ID = Some (next a).
Proof.
  intros Hr. unfold GetIntFromJson. rewrite obj_find_fields. cbn [string_empty NEXT_LOCAL_ID].
  change (c_str _) with NEXT_LOCAL_ID. rewrite (rep_next l a) by done. cbn. rewrite to_i32; [done|]. apply (rep_next_range _ _ Hr).
Qed.

Lemma read_serial l a : represents l a → GetInt64FromJson (Some (JObject l)) SERIAL_NUMBER_NUM = Some (serial a).
Proof.
  intros Hr. unfold GetInt64FromJson. rewrite key_exists_fields, obj_find_fields. cbn [string_empty SERIAL_NUMBER_NUM].
  change (c_str _) with SERIAL_NUMBER_NUM. rewrite (rep_serial l a) by done. cbn [bool_decide]. rewrite bool_decide_eq_true_2 by done.
  rewrite to_string_not_empty, to_i64; [done|]. pose proof (rep_serial_range l a Hr).
  unfold is_i64, SERIAL_NUMBER_NUM_START, CARRY_NUM, INT64_MIN, INT64_MAX in *. lia.
Qed.

Lemma read_full l a : represents l a → GetBoolFromJson (Some (JObject l)) IS_SERIAL_NUMBER_FULL = Some (full a).
Proof.
  intros Hr. unfold GetBoolFromJson. rewrite obj_find_fields. cbn [string_empty IS_SERIAL_NUMBER_FULL].
  change (c_str _) with IS_SERIAL_NUMBER_FULL. by rewrite (rep_full l a).
Qed.

(** *** The setters keep the representation *)

Lemma ids_field_ok (l : list Z) :
  json_plain (JArray (JString <$> (id_string <$> l))) = true ∧ json_depth (JArray (JString <$> (id_string <$> l))) = 1%nat.
Proof.
  split; [|apply string_array_depth]. apply strings_plain, Forall_fmap, Forall_forall. intros id _. apply to_string_nul_free.
Qed.

Lemma set_ids_rep l a xs :
  represents l a → Forall (λ id, START_USER_ID ≤ id ≤ MAX_USER_ID) xs → NoDup xs →
  represents (obj_set COUNT_ACCOUNT_NUM (num (i32 (Z.of_nat (length (id_string <$> xs)))))
    (obj_set ACCOUNT_LIST (JArray (JString <$> (id_string <$> xs))) l)) (set_ids xs a).
Proof.
  intros Hr Hrange Hnd. destruct (ids_field_ok xs) as [Hp Hd]. destruct Hr. constructor; try done; set_fields; try done.
  apply json_ok_set; [|done|apply num_plain, i32_range|cbn; lia]. apply json_ok_set; [done|done|done|lia].
Qed.

Lemma set_next_rep l a z : represents l a → is_i32 z → represents (obj_set NEXT_LOCAL_ID (num z) l) (set_next z a).
Proof.
  intros Hr Hz. destruct Hr. constructor; try done; set_fields; try done.
  apply json_ok_set; [done|done|by apply num_plain|cbn; lia].
Qed.

Lemma set_serial_rep l a z :
  represents l a → SERIAL_NUMBER_NUM_START ≤ z ≤ CARRY_NUM →
  represents (obj_set SERIAL_NUMBER_NUM (JString (to_string z)) l) (set_serial z (full a) a).
Proof.
  intros Hr Hz. destruct Hr. constructor; try done; set_fields; try done.
  apply json_ok_set; [done|done|apply text_plain, to_string_nul_free|cbn; lia].
Qed.

Lemma set_full_rep l a b :
  represents l a → represents (obj_set IS_SERIAL_NUMBER_FULL (JBool b) l) (set_serial (serial a) b a).
Proof.
  intros Hr. destruct Hr. constructor; try done; set_fields; try done.
  apply json_ok_set; [done|done|done|cbn; lia].
Qed.

(** A number stored under the text of a number. *)
Lemma number_fields_find k kvs :
  0 ≤ k → Forall (λ kv, 0 ≤ kv.1) kvs →
  obj_find (to_string k) (number_field <$> kvs) = num <$> (list_to_map kvs : gmap Z Z) !! k.
Proof.
  intros Hk. induction 1 as [|[k' v] kvs Hk' _ IH]; [done|]. cbn [fmap list_fmap number_field obj_find fst snd list_to_map foldr] in *.
  destruct (decide (k = k')) as [->|Hne].
  - rewrite decide_True, lookup_insert_eq by done. done.
  - rewrite decide_False, lookup_insert_ne by (first [done | intros E; by apply to_string_inj in E]). exact IH.
Qed.

Lemma number_fields_replace k v kvs :
  0 ≤ k → Forall (λ kv, 0 ≤ kv.1) kvs → NoDup kvs.*1 →
  obj_replace (to_string k) (num v) (number_field <$> kvs) =
    number_field <$> ((λ kv, if decide (kv.1 = k) then (k, v) else kv) <$> kvs).
Proof.
  intros Hk. induction 1 as [|[k' v'] kvs Hk' Hkvs IH]; [done|].
  rewrite !fmap_cons. intros [Hni Hnd]%NoDup_cons. cbn [number_field obj_replace fst snd] in *.
  destruct (decide (k' = k)) as [->|Hne].
  - rewrite !decide_True by done. f_equal. rewrite <-list_fmap_compose. apply list_fmap_ext.
    intros i kv Hi. cbn. rewrite decide_False; [done|]. intros E. apply Hni. rewrite <-E.
    apply list_elem_of_fmap. exists kv. split; [done|]. by eapply list_elem_of_lookup_2.
  - rewrite decide_False by (intros E; apply to_string_inj in E; [done|done|done]). f_equal. by apply IH.
Qed.

Lemma number_fields_set k v m kvs :
  0 ≤ k ≤ UINT64_MAX → is_i32 v →
  NoDup kvs.*1 → Forall (λ kv, 0 ≤ kv.1 ≤ UINT64_MAX ∧ is_i32 kv.2) kvs → list_to_map kvs = m →
  active_field (inr (<[k := v]> m)) (JObject (obj_set (to_string k) (num v) (number_field <$> kvs))).
Proof.
  intros Hk Hv Hnd Hkvs <-. assert (Hpos : Forall (λ kv, 0 ≤ kv.1) kvs) by (eapply Forall_impl; [exact Hkvs|]; cbn; lia).
  unfold obj_set. rewrite number_fields_find by (try done; lia). destruct (list_to_map kvs !! k) as [w|] eqn:E; cbn [fmap option_fmap option_map].
  - exists ((λ kv, if decide (kv.1 = k) then (k, v) else kv) <$> kvs). rewrite number_fields_replace by (try done; lia).
    assert (Hfst : ((λ kv : Z * Z, if decide (kv.1 = k) then (k, v) else kv) <$> kvs).*1 = kvs.*1).
    { rewrite <-list_fmap_compose. apply list_fmap_ext. intros i kv _. cbn. by case_decide. }
    split_and!; [by rewrite Hfst| | |done].
    + apply Forall_fmap. eapply Forall_impl; [exact Hkvs|]. intros kv Hkv. cbn. by case_decide.
    + apply map_eq. intros x. apply option_eq. intros y. rewrite <-elem_of_list_to_map by (by rewrite Hfst).
      rewrite list_elem_of_fmap. destruct (decide (x = k)) as [->|Hne].
      * rewrite lookup_insert_eq. split; [intros ([k' v'] & Hkv & Hin); case_decide; cbn in *; congruence|].
        intros [= <-]. exists (k, w). rewrite decide_True by done. split; [done|]. by apply elem_of_list_to_map.
      * rewrite lookup_insert_ne by done. rewrite <-elem_of_list_to_map by done. split.
        -- intros ([k' v'] & Hkv & Hin). case_decide; cbn in *; simplify_eq. done.
        -- intros Hin. exists (x, y). by rewrite decide_False.
  - exists (kvs ++ [(k, v)]). split_and!.
    + rewrite fmap_app. apply NoDup_app. split_and!; [done| |apply NoDup_singleton].
      intros x Hx. cbn. rewrite list_elem_of_singleton. intros ->. by apply not_elem_of_list_to_map in E.
    + apply Forall_app. split; [done|by apply Forall_singleton].
    + rewrite list_to_map_app. cbn. rewrite <-insert_union_r by done. by rewrite (right_id_L ∅ (∪)).
    + by rewrite fmap_app.
Qed.

Lemma active_field_ok v j : active_field v j → json_plain j = true ∧ (json_depth j ≤ 1)%nat.
Proof.
  destruct v as [id|m]; cbn [active_field].
  - intros [Hid ->]. split; [by apply num_plain|cbn; lia].
  - intros (kvs & _ & Hkvs & _ & ->). split.
    + cbn [json_plain]. apply forallb_Forall_true, Forall_fmap. eapply Forall_impl; [exact Hkvs|].
      intros kv [_ Hv]. apply andb_true_iff. split; [apply bool_decide_eq_true, to_string_nul_free|by apply num_plain].
    + apply json_depth_fields, Forall_fmap, Forall_forall. intros kv _. cbn. lia.
Qed.

Lemma set_active_rep l a v j :
  represents l a → active_field v j → represents (obj_set DEFAULT_ACTIVATED_ACCOUNT_ID j l) (set_active v a).
Proof.
  intros Hr Hj. destruct (active_field_ok v j Hj) as [Hp Hd]. destruct Hr. constructor; try done; set_fields; try done.
  - apply json_ok_set; [done|done|done|lia].
  - by exists j.
Qed.
End Represents.
