(* ===== verification/OsAccountListTheorems.v ===== *)
(** The operations of os_account_control_file_manager.cpp on the account list
    implement operations on the abstract list of OsAccountList.v, and what follows
    for the ids and serial numbers that are given out. *)
From Stdlib Require Import ZArith Lia Ascii String.
From stdpp Require Import base list gmap sets strings pretty sorting.
From S2P Require Import Prelude ErrorCodes Json FileStore FileOperator FileTheorems OsAccountInfo OsAccountEnv.
From S2P Require Import OsAccountFiles OsAccountDocs OsAccountWorld OsAccountList.

(** ** Specification *)

Inductive ListRequest :=
  | ListAdd (id : Z)
  | ListRemove (id : Z)
  | ListSetNext (nextLocalId : Z)
  | ListAllowCreate
  | ListSerial
  | ListSetActive (displayId id : Z).

(** The arguments are in the ranges the service uses. *)
Definition list_request_ok (req : ListRequest) : Prop :=
  match req with
  | ListAdd id => START_USER_ID ≤ id ≤ MAX_USER_ID
  | ListRemove id => 0 ≤ id
  | ListSetNext z => is_i32 z
  | ListAllowCreate | ListSerial => True
  | ListSetActive displayId id => 0 ≤ displayId ≤ UINT64_MAX ∧ is_i32 id
  end.

#[export] Instance list_request_ok_dec req : Decision (list_request_ok req).
Proof. destruct req; cbn; apply _. Defined.

(** The id that is free next. *)
Definition free_id (a : AccountList) : Z := GetNextLocalId (id_string <$> ids a) (next a).

Definition activate (displayId id : Z) (v : Z + gmap Z Z) : gmap Z Z :=
  match v with
  | inl id0 => <[displayId := id]> {[ DEFAULT_DISPLAY_ID := id0 ]}
  | inr m => <[displayId := id]> m
  end.

(** Where the search for a serial number starts, and whether all have been used once. *)
Definition serial_start (a : AccountList) : Z * bool :=
  if serial a =? CARRY_NUM then (SERIAL_NUMBER_NUM_START, true) else (serial a, full a).

Definition first_serial : Z := SERIAL_NUMBER_NUM_START_FOR_ADMIN * CARRY_NUM.

(** [list_spec a req r a']: the request is answered with [r] and makes [a'] of [a]. *)
Inductive list_spec (a : AccountList) : ListRequest → Z → AccountList → Prop :=
  | spec_add id : list_spec a (ListAdd id) 0 (if bool_decide (id ∈ ids a) then a else set_ids (ids a ++ [id]) a)
  | spec_remove id : list_spec a (ListRemove id) 0 (set_ids (filter (λ x, x ≠ id) (ids a)) a)
  | spec_set_next z : list_spec a (ListSetNext z) 0 (set_next (Z.max z (next a)) a)
  | spec_allow_create :
      free_id a ≤ MAX_CREATABLE_USER_ID → list_spec a ListAllowCreate (free_id a) (set_next (free_id a + 1) a)
  | spec_serial n :
      ((serial_start a).2 = false → n = (serial_start a).1) → SERIAL_NUMBER_NUM_START ≤ n < CARRY_NUM →
      list_spec a ListSerial (n + first_serial) (set_serial (n + 1) (serial_start a).2 a)
  | spec_set_active displayId id :
      list_spec a (ListSetActive displayId id) 0 (set_active (inr (activate displayId id (active a))) a).

Section Operations.
Context {cfg : Config} {oscfg : OsConfig} {sysconf : Sysconf} {cjson : CJsonLib} {target : Target} {cutils : CUtils} {huks : Huks}.
Context {S : Type} {fs : FileStore S} {db : AccountDatabase S} {env : Surroundings S}.
Context {laws : CJsonLaws} {alloc : CJsonAlloc}.
Implicit Types (l : list (string * CJson)) (a : AccountList) (d : gmap string string).

Definition run_list (req : ListRequest) : M S Z :=
  match req with
  | ListAdd id => _ ← UpdateAccountList (to_string id) true; mret 0
  | ListRemove id => _ ← UpdateAccountList (to_string id) false; mret 0
  | ListSetNext z => _ ← SetNextLocalId z; mret 0
  | ListAllowCreate => GetAllowCreateId
  | ListSerial => GetSerialNumber 0
  | ListSetActive displayId id => _ ← SetDefaultActivatedOsAccount displayId id; mret 0
  end.

(** The documents have the list [a]. *)
Definition list_text l : string := PackJsonToString (Some (JObject l)).
Definition has_list d a : Prop := ∃ l, d !! ACCOUNT_LIST_FILE_JSON_PATH = Some (list_text l) ∧ represents l a.

(** ** The document *)

Lemma wp_list_doc l a d (Q : result CJson → S → Prop) s :
  represents l a → d !! ACCOUNT_LIST_FILE_JSON_PATH = Some (list_text l) → at_docs d s →
  (∀ s', at_docs d s' → Q (Ok (JObject l)) s') → (∀ e s', at_docs d s' → Q (Err e) s') →
  wp GetAccountListFromFile Q s.
Proof.
  intros Hr Hl Hs Hok Herr. unfold GetAccountListFromFile. apply wp_bind.
  apply (wp_read_doc _ d); [apply list_is_document|done| |intros e s' Hs'; by apply Herr].
  intros t s' Ht Hs'. rewrite Hl in Ht. injection Ht as <-. unfold list_text.
  destruct (pack_create _ (rep_ok l a Hr)) as [-> _]. apply wp_ret. by apply Hok.
Qed.

Lemma wp_save_list l d (Q : result unit → S → Prop) s :
  at_docs d s →
  (∀ s', at_docs (<[ACCOUNT_LIST_FILE_JSON_PATH := list_text l]> d) s' → Q (Ok tt) s') →
  (∀ e s', at_docs d s' → Q (Err e) s') →
  wp (SaveAccountListToFileAndDataBase (Some (JObject l))) Q s.
Proof.
  intros Hs Hok Herr. unfold SaveAccountListToFileAndDataBase, SaveAccountListToFile. apply wp_bind.
  apply (wp_void _ d); [eauto with mquiet|apply when_database_void|done|]. intros [] s1 Hs1.
  apply wp_bind. apply (wp_write_doc _ _ d); [apply list_is_document|done| |intros e s' Hs'; by apply Herr].
  intros s2 Hs2. eapply wp_void; [eauto with mquiet|apply when_file_watcher_void|exact Hs2|].
  intros [] s3 Hs3. by apply Hok.
Qed.

(** What every request does to the documents: nothing when it fails, and only to
    the list when it does not. *)
Definition list_post d a (R : Z → AccountList → Prop) (r : result Z) (s' : S) : Prop :=
  match r with
  | Err _ => at_docs d s'
  | Ok z => ∃ a' l, R z a' ∧ represents l a' ∧ at_docs (<[ACCOUNT_LIST_FILE_JSON_PATH := list_text l]> d) s'
  end.

Lemma wp_save_ret l d a a' z (R : Z → AccountList → Prop) s :
  at_docs d s → represents l a' → R z a' →
  wp (_ ← SaveAccountListToFileAndDataBase (Some (JObject l)); mret z) (list_post d a R) s.
Proof.
  intros Hs Hl HR. apply wp_bind. eapply wp_save_list; [exact Hs| |by intros].
  intros s' Hs'. apply wp_ret. by exists a', l.
Qed.

Lemma wp_list_keep l d a z (R : Z → AccountList → Prop) s :
  d !! ACCOUNT_LIST_FILE_JSON_PATH = Some (list_text l) → at_docs d s → represents l a → R z a →
  list_post d a R (Ok z) s.
Proof. intros Hl Hs Hr HR. exists a, l. split_and!; [done|done|]. by rewrite insert_id. Qed.
(** ** The requests *)

Lemma id_string_inj x y : 0 ≤ x → 0 ≤ y → id_string x = id_string y → x = y.
Proof. apply to_string_inj. Qed.

Lemma id_string_elem (l : list Z) id :
  0 ≤ id → Forall (λ id, START_USER_ID ≤ id ≤ MAX_USER_ID) l → to_string id ∈ id_string <$> l ↔ id ∈ l.
Proof.
  intros Hid Hl. rewrite Forall_forall in Hl. rewrite list_elem_of_fmap. split.
  - intros (x & Hx & Hin). pose proof (Hl x Hin). apply to_string_inj in Hx; [by subst|done|unfold START_USER_ID in *; lia].
  - intros Hin. by exists id.
Qed.

Lemma remove_id (l : list Z) id :
  0 ≤ id → Forall (λ id, START_USER_ID ≤ id ≤ MAX_USER_ID) l →
  remove_all (to_string id) (id_string <$> l) = id_string <$> filter (λ x, x ≠ id) l.
Proof.
  intros Hid Hl. unfold remove_all. induction Hl as [|x l Hx _ IH]; [done|].
  rewrite fmap_cons, !filter_cons, IH. unfold START_USER_ID in Hx.
  destruct (decide (x = id)) as [->|Hne].
  - by rewrite !decide_False by (intros H; by apply H).
  - rewrite !decide_True; [done|done|]. intros E. apply to_string_inj in E; [done|lia..].
Qed.

Definition list_request_post d a req := list_post d a (list_spec a req).

Lemma wp_list_read {A} l a d req (k : CJson → M S A) (m : A → M S Z) s :
  d !! ACCOUNT_LIST_FILE_JSON_PATH = Some (list_text l) → represents l a → at_docs d s →
  (∀ s', at_docs d s' → wp (k (JObject l) ≫= m) (list_request_post d a req) s') →
  wp ((GetAccountListFromFile ≫= k) ≫= m) (list_request_post d a req) s.
Proof.
  intros Hl Hr Hs Hk. unfold wp. rewrite mbind_assoc. apply wp_bind.
  apply (wp_list_doc l a d); [done..|exact Hk|by intros].
Qed.

Lemma field_ids l xs :
  AddVectorStringToJson (Some (JObject l)) ACCOUNT_LIST (id_string <$> xs) =
    Some (JObject (obj_set ACCOUNT_LIST (JArray (JString <$> (id_string <$> xs))) l)).
Proof.
  rewrite AddVectorStringToJson_eq by done. rewrite c_str_strings; [done|].
  apply Forall_fmap, Forall_forall. intros id _. apply to_string_nul_free.
Qed.

Lemma read_id_list l a : represents l a → id_list (JObject l) = id_string <$> ids a.
Proof. intros Hr. unfold id_list. by rewrite (read_ids l a Hr). Qed.

(** The end of a change to the list of ids. *)
Lemma wp_save_ids l a d req xs s :
  represents l a → at_docs d s → Forall (λ id, START_USER_ID ≤ id ≤ MAX_USER_ID) xs → NoDup xs →
  list_spec a req 0 (set_ids xs a) →
  wp (match AddVectorStringToJson (Some (JObject l)) ACCOUNT_LIST (id_string <$> xs) with
      | None => merr ERR_ACCOUNT_COMMON_DUMP_JSON_ERROR
      | Some accountListJson =>
          match AddIntToJson (Some accountListJson) COUNT_ACCOUNT_NUM (i32 (Z.of_nat (length (id_string <$> xs)))) with
          | None => merr ERR_ACCOUNT_COMMON_DUMP_JSON_ERROR
          | Some accountListJson => SaveAccountListToFileAndDataBase (Some accountListJson)
          end
      end ≫= λ _, mret 0) (list_request_post d a req) s.
Proof.
  intros Hr Hs Hrange Hnd Hspec. rewrite field_ids, AddIntToJson_eq by done.
  apply (wp_save_ret _ d a (set_ids xs a)); [done| |done]. by apply set_ids_rep.
Qed.

Lemma wp_UpdateAccountList_add l a d id s :
  d !! ACCOUNT_LIST_FILE_JSON_PATH = Some (list_text l) → represents l a → at_docs d s →
  START_USER_ID ≤ id ≤ MAX_USER_ID →
  wp (run_list (ListAdd id)) (list_request_post d a (ListAdd id)) s.
Proof.
  intros Hl Hr Hs Hid. unfold run_list, UpdateAccountList. apply (wp_list_read l a); [done..|]. intros s1 Hs1.
  rewrite (read_id_list l a Hr).
  pose proof (rep_range l a Hr) as Hrange. pose proof (rep_NoDup l a Hr) as Hnd. pose proof (spec_add a id) as Hspec.
  rewrite (bool_decide_ext _ (id ∈ ids a)) by (apply id_string_elem; [unfold START_USER_ID in Hid; lia|done]).
  case_bool_decide as Hin; cbn [andb].
  - apply wp_ret. by apply (wp_list_keep l).
  - assert (E : (id_string <$> ids a) ++ [to_string id] = id_string <$> (ids a ++ [id])) by (by rewrite fmap_app).
    cbv zeta. rewrite E. apply wp_save_ids; [done|done| | |done].
    + apply Forall_app. split; [done|by apply Forall_singleton].
    + apply NoDup_app. split_and!; [done|set_solver|apply NoDup_singleton].
Qed.

Lemma wp_UpdateAccountList_remove l a d id s :
  d !! ACCOUNT_LIST_FILE_JSON_PATH = Some (list_text l) → represents l a → at_docs d s → 0 ≤ id →
  wp (run_list (ListRemove id)) (list_request_post d a (ListRemove id)) s.
Proof.
  intros Hl Hr Hs Hid. unfold run_list, UpdateAccountList. apply (wp_list_read l a); [done..|]. intros s1 Hs1.
  rewrite (read_id_list l a Hr). cbn [andb].
  pose proof (rep_range l a Hr) as Hrange. rewrite remove_id by done.
  apply wp_save_ids; [done|done| | |apply spec_remove].
  - apply Forall_forall. intros x [_ Hx]%list_elem_of_filter. rewrite Forall_forall in Hrange. by apply Hrange.
  - by apply NoDup_filter, (rep_NoDup l a).
Qed.

Lemma wp_SetNextLocalId l a d z s :
  d !! ACCOUNT_LIST_FILE_JSON_PATH = Some (list_text l) → represents l a → at_docs d s → is_i32 z →
  wp (run_list (ListSetNext z)) (list_request_post d a (ListSetNext z)) s.
Proof.
  intros Hl Hr Hs Hz. unfold run_list, SetNextLocalId. apply (wp_list_read l a); [done..|]. intros s1 Hs1.
  rewrite (read_next l a Hr). cbn [default from_option]. rewrite AddIntToJson_eq by done.
  apply (wp_save_ret _ d a (set_next (Z.max z (next a)) a)); [done| |constructor].
  apply set_next_rep; [done|]. pose proof (rep_next_range l a Hr). unfold is_i32 in *. lia.
Qed.

Lemma free_id_range a : START_USER_ID + 1 ≤ free_id a ≤ MAX_CREATABLE_USER_ID + 1.
Proof.
  unfold START_USER_ID, MAX_CREATABLE_USER_ID, free_id.
  destruct (GetNextLocalId_search (id_string <$> ids a) (next a)) as [Hs [(j & Hj & -> & _)|[-> _]]]; [|lia].
  match goal with |- context [cyc _ _ ?s _] => pose proof (cyc_range 101 999 s j) end. lia.
Qed.

Lemma wp_allow_create_id l a d s :
  represents l a → at_docs d s → wp (allow_create_id (JObject l)) (list_request_post d a ListAllowCreate) s.
Proof.
  intros Hr Hs. unfold allow_create_id. rewrite (read_ids l a Hr), (read_next l a Hr). fold (free_id a).
  destruct (Z.ltb_spec MAX_CREATABLE_USER_ID (free_id a)) as [Hlt|Hle]; [by apply wp_err|].
  rewrite AddIntToJson_eq by done.
  apply (wp_save_ret _ d a (set_next (free_id a + 1) a)); [done| |by constructor].
  apply set_next_rep; [done|]. pose proof (free_id_range a).
  unfold is_i32, MAX_CREATABLE_USER_ID, START_USER_ID in *. lia.
Qed.

Lemma wp_GetAllowCreateId l a d s :
  d !! ACCOUNT_LIST_FILE_JSON_PATH = Some (list_text l) → represents l a → at_docs d s →
  wp (run_list ListAllowCreate) (list_request_post d a ListAllowCreate) s.
Proof.
  intros Hl Hr Hs. unfold run_list, GetAllowCreateId. apply wp_bind. apply (wp_list_doc l a d); [done..| |by intros].
  intros s1 Hs1. by apply wp_allow_create_id.
Qed.

Lemma wp_save_active l a d j displayId id s :
  represents l a → at_docs d s → active_field (inr (activate displayId id (active a))) j →
  wp (_ ← SaveAccountListToFileAndDataBase (Some (JObject (obj_set DEFAULT_ACTIVATED_ACCOUNT_ID j l))); mret 0)
    (list_request_post d a (ListSetActive displayId id)) s.
Proof.
  intros Hr Hs Hj. eapply wp_save_ret; [exact Hs|by apply set_active_rep|constructor].
Qed.

Lemma no_number_fields : number_field <$> [] = [].
Proof. done. Qed.

Lemma wp_SetDefaultActivatedOsAccount l a d displayId id s :
  d !! ACCOUNT_LIST_FILE_JSON_PATH = Some (list_text l) → represents l a → at_docs d s →
  0 ≤ displayId ≤ UINT64_MAX → is_i32 id →
  wp (run_list (ListSetActive displayId id)) (list_request_post d a (ListSetActive displayId id)) s.
Proof.
  intros Hl Hr Hs Hd Hid. unfold run_list, SetDefaultActivatedOsAccount. apply (wp_list_read l a); [done..|]. intros s1 Hs1.
  destruct (rep_active l a Hr) as (j & Hj & Hact). unfold GetObjFromJson, GetIntFromJson. rewrite obj_find_fields.
  change (string_empty DEFAULT_ACTIVATED_ACCOUNT_ID) with false. cbv iota.
  change (c_str DEFAULT_ACTIVATED_ACCOUNT_ID) with DEFAULT_ACTIVATED_ACCOUNT_ID. rewrite Hj.
  pose proof (wp_save_active l a d) as Hsave.
  pose proof (number_fields_set displayId id) as Hset. pose proof (to_string_not_empty displayId) as Hne.
  destruct (active a) as [id0|m] eqn:Ha; cbn [active_field activate] in *.
  - destruct Hact as [Hid0 ->]. change (IsObject (Some (num id0))) with false. cbv iota. unfold num at 1.
    rewrite to_i32, CreateJson_eq by done.
    assert (Hone : (if negb (displayId =? DEFAULT_DISPLAY_ID)
        then AddIntToJson (Some (JObject [])) (to_string DEFAULT_DISPLAY_ID) id0 else Some (JObject [])) =
        Some (JObject (number_field <$> (if negb (displayId =? DEFAULT_DISPLAY_ID) then [(DEFAULT_DISPLAY_ID, id0)] else [])))).
    { case (_ =? _); cbn [negb]; [done|]. by rewrite AddIntToJson_eq. }
    rewrite Hone, AddIntToJson_eq, AddObjToJson_eq, to_string_nul_free by done. apply Hsave; [done|done|].
    case (Z.eqb_spec displayId DEFAULT_DISPLAY_ID) as [->|Hne0]; cbn [negb].
    + rewrite insert_singleton_eq. change {[ DEFAULT_DISPLAY_ID := id ]} with (<[DEFAULT_DISPLAY_ID := id]> (∅ : gmap Z Z)).
      apply number_fields_set; [done..|constructor|constructor|done].
    + apply number_fields_set; [done..|apply NoDup_singleton|by apply Forall_singleton|done].
  - destruct Hact as (kvs & Hnd & Hkvs & Hm & ->). cbn [IsObject].
    rewrite AddIntToJson_eq, to_string_nul_free by done. cbn [set_child]. rewrite replace_is_set by (by rewrite Hj).
    apply Hsave; [done|done|]. by apply number_fields_set.
Qed.

(** *** Serial numbers *)

Lemma AccountExists_mem infos n :
  AccountExistsWithSerialNumber infos n = true ↔ n + first_serial ∈ serialNumber_ <$> infos.
Proof.
  unfold AccountExistsWithSerialNumber, first_serial. rewrite existsb_exists, list_elem_of_fmap.
  split.
  - intros (x & Hx & E%Z.eqb_eq). exists x. split; [lia|by apply list_elem_of_In].
  - intros (x & E & Hx). exists x. split; [by apply list_elem_of_In|apply Z.eqb_eq; lia].
Qed.

Lemma serial_cyc s : SERIAL_NUMBER_NUM_START ≤ s < CARRY_NUM →
  (if s + 1 =? CARRY_NUM then SERIAL_NUMBER_NUM_START else s + 1) = cyc SERIAL_NUMBER_NUM_START (CARRY_NUM - 1) s 1.
Proof.
  intros Hs. rewrite <-cyc_succ by (unfold SERIAL_NUMBER_NUM_START in *; lia).
  destruct (Z.eqb_spec (s + 1) CARRY_NUM), (Z.ltb_spec (CARRY_NUM - 1) (s + 1)); lia.
Qed.

(** What the loop has found, or that it has seen only numbers in use. *)
Lemma free_serial_search n infos s :
  SERIAL_NUMBER_NUM_START ≤ s < CARRY_NUM →
  let used x := x + first_serial ∈ serialNumber_ <$> infos in
  match free_serial_number n infos s with
  | Some r => first_free SERIAL_NUMBER_NUM_START (CARRY_NUM - 1) used s (Z.of_nat n) r
  | None => all_used SERIAL_NUMBER_NUM_START (CARRY_NUM - 1) used s (Z.of_nat n)
  end.
Proof.
  intros Hs used. revert s Hs. induction n as [|n IH]; intros s Hs; cbn [free_serial_number];
    rewrite (proj2 (Z.ltb_lt s CARRY_NUM)) by lia; cbn [negb];
    rewrite i32_id by (unfold is_i32, SERIAL_NUMBER_NUM_START, CARRY_NUM in *; lia);
    destruct (AccountExistsWithSerialNumber infos s) eqn:E; cbn [negb].
  - apply AccountExists_mem in E. apply all_used_0; [lia|done].
  - apply first_free_here; [lia|lia|]. intros Hu. apply AccountExists_mem in Hu. congruence.
  - apply AccountExists_mem in E. rewrite serial_cyc by done.
    pose proof (cyc_range SERIAL_NUMBER_NUM_START (CARRY_NUM - 1) s 1 ltac:(by vm_compute)) as Hc.
    specialize (IH (cyc SERIAL_NUMBER_NUM_START (CARRY_NUM - 1) s 1) ltac:(lia)).
    rewrite Nat2Z.inj_succ, <-Z.add_1_r.
    destruct (free_serial_number n infos _); [apply first_free_next|apply all_used_next]; (done || lia).
  - apply first_free_here; [lia|lia|]. intros Hu. apply AccountExists_mem in Hu. congruence.
Qed.

(** The search for a serial number ends: with fewer accounts than there are
    numbers (99,999,999) as many rounds as there are accounts are enough, and the
    number is the first from [serialNumber] on, around the end of the range, that
    no account has. *)
Theorem serial_number_search_ends infos serialNumber :
  SERIAL_NUMBER_NUM_START ≤ serialNumber < CARRY_NUM → Z.of_nat (length infos) < CARRY_NUM - 1 →
  ∃ n j, free_serial_number (length infos) infos serialNumber = Some n ∧
    0 ≤ j ≤ Z.of_nat (length infos) ∧ n = cyc SERIAL_NUMBER_NUM_START (CARRY_NUM - 1) serialNumber j ∧
    AccountExistsWithSerialNumber infos n = false ∧
    ∀ i, 0 ≤ i < j → AccountExistsWithSerialNumber infos (cyc SERIAL_NUMBER_NUM_START (CARRY_NUM - 1) serialNumber i) = true.
Proof.
  intros Hs Hlen. pose proof (free_serial_search (length infos) infos serialNumber Hs) as Hf. cbn beta zeta in Hf.
  destruct (free_serial_number (length infos) infos serialNumber) as [n|].
  - destruct Hf as (j & Hj & -> & Hfree & Hb). eexists _, j. split_and!; [done|lia|lia|done| |].
    + apply not_true_iff_false. by rewrite AccountExists_mem.
    + intros i Hi. by apply AccountExists_mem, Hb.
  - exfalso.
    assert (H : (length infos < length ((λ x : Z, (x - first_serial)%Z) <$> (serialNumber_ <$> infos)))%nat).
    + apply (all_used_length SERIAL_NUMBER_NUM_START (CARRY_NUM - 1) ltac:(by vm_compute)
        (λ x, x + first_serial ∈ serialNumber_ <$> infos) _ serialNumber); [|unfold SERIAL_NUMBER_NUM_START; lia|exact Hf].
      intros x Hx. apply list_elem_of_fmap. exists (x + first_serial). split; [lia|done].
    + rewrite !length_fmap in H. lia.
Qed.

Lemma serial_start_range a l : represents l a → SERIAL_NUMBER_NUM_START ≤ (serial_start a).1 < CARRY_NUM.
Proof.
  intros Hr. pose proof (rep_serial_range l a Hr). unfold serial_start.
  destruct (Z.eqb_spec (serial a) CARRY_NUM); unfold SERIAL_NUMBER_NUM_START, CARRY_NUM in *; cbn; lia.
Qed.

(** The list after [isSerialNumberFull] has been set. *)
Lemma wp_serial_start l a (Q : result (Z * CJson) → S → Prop) s :
  represents l a →
  (∀ l', represents l' (set_serial (serial a) (serial_start a).2 a) → Q (Ok ((serial_start a).1, JObject l')) s) →
  wp (if serial a =? CARRY_NUM then
       match AddBoolToJson (Some (JObject l)) IS_SERIAL_NUMBER_FULL true with
       | None => merr ERR_ACCOUNT_COMMON_DUMP_JSON_ERROR
       | Some accountListJson => mret (SERIAL_NUMBER_NUM_START, accountListJson)
       end
     else mret (serial a, JObject l)) Q s.
Proof.
  intros Hr HQ. unfold serial_start in HQ. destruct (serial a =? CARRY_NUM).
  - rewrite AddBoolToJson_eq by done. apply wp_ret, HQ. by apply set_full_rep.
  - apply wp_ret, HQ. by destruct a.
Qed.

Lemma wp_GetSerialNumber l a d s :
  d !! ACCOUNT_LIST_FILE_JSON_PATH = Some (list_text l) → represents l a → at_docs d s →
  ((serial_start a).2 = true → has_database = false) →
  wp (run_list ListSerial) (λ r s', list_request_post d a ListSerial r s' ∧
    ∀ n, r = Ok n → (serial_start a).2 = true →
      ∃ s1 infos, at_docs d s1 ∧ (GetOsAccountList s1).1 = Ok infos ∧ n ∉ serialNumber_ <$> infos) s.
Proof.
  intros Hl Hr Hs Hdb. unfold run_list, GetSerialNumber. apply wp_bind. apply (wp_list_doc l a d); [done..| |by intros].
  intros s1 Hs1. rewrite (read_serial l a Hr). change (default 0 (Some (serial a))) with (serial a).
  apply wp_bind. apply wp_serial_start; [done|]. intros l' Hr'.
  pose proof (serial_start_range a l Hr) as Hrange. destruct (serial_start a) as [n0 f] eqn:E0. cbn [fst snd] in *.
  rewrite (read_full l' _ Hr'). cbn [default full set_serial].
  assert (Hend : ∀ n s2 (P : Z → Prop), at_docs d s2 → SERIAL_NUMBER_NUM_START ≤ n < CARRY_NUM → (f = false → n = n0) →
    P (n + first_serial) →
    wp (match AddInt64ToJson (Some (JObject l')) SERIAL_NUMBER_NUM (n + 1) with
        | None => merr ERR_ACCOUNT_COMMON_DUMP_JSON_ERROR
        | Some accountListJson =>
            _ ← SaveAccountListToFileAndDataBase (Some accountListJson);
            mret (n + SERIAL_NUMBER_NUM_START_FOR_ADMIN * CARRY_NUM)
        end) (λ r s', list_request_post d a ListSerial r s' ∧ ∀ n, r = Ok n → P n) s2).
  { intros n s2 P Hs2 Hn Hf HP. rewrite AddInt64ToJson_eq by done. apply wp_bind.
    eapply wp_save_list; [exact Hs2| |by intros]. intros s3 Hs3. apply wp_ret.
    split; [|by intros ? [= <-]]. exists (set_serial (n + 1) f a). eexists. split_and!; [| |exact Hs3].
    - pose proof (spec_serial a n) as Hspec. rewrite E0 in Hspec. by apply Hspec.
    - pose proof (set_serial_rep l' _ (n + 1) Hr') as Hrep. apply Hrep. lia. }
  apply wp_bind. destruct f.
  - apply wp_bind. eapply (wp_conseq _ (λ r s', (GetOsAccountList s1).1 = r ∧ at_docs d s')).
    { split; [done|]. by apply GetOsAccountList_quiet; [apply Hdb|]. }
    intros [infos|e] s2 [Hinfos Hs2]; [|by split].
    pose proof (free_serial_search (length infos) infos n0 Hrange) as Hf. cbn beta zeta in Hf.
    destruct (free_serial_number (length infos) infos n0) as [n|]; [|by apply wp_err].
    destruct Hf as (j & Hj & Hn & Hfree & _). apply wp_ret. eapply wp_conseq; [apply (Hend n s2 (λ n, n ∉ serialNumber_ <$> infos))|].
    + done.
    + pose proof (cyc_range SERIAL_NUMBER_NUM_START (CARRY_NUM - 1) n0 j ltac:(by vm_compute)). lia.
    + done.
    + done.
    + intros r s' [Hpost HP]. split; [done|]. intros n' Hr'' _. exists s1, infos. split_and!; [done|done|by apply HP].
  - apply wp_ret. eapply wp_conseq; [apply (Hend n0 s1 (λ _, True)); done|]. by intros r s' [Hpost _].
Qed.
(** *** All requests *)

(** A request for a serial number after the numbers have been used up reads every
    account, and with the database that may write. *)
Definition list_request_safe a req : Prop :=
  list_request_ok req ∧ (req = ListSerial → (serial_start a).2 = true → has_database = false).

Lemma wp_run_list l a d req s :
  d !! ACCOUNT_LIST_FILE_JSON_PATH = Some (list_text l) → represents l a → at_docs d s → list_request_safe a req →
  wp (run_list req) (list_request_post d a req) s.
Proof.
  intros Hl Hr Hs [Hok Hdb]. destruct req as [id|id|z| | |displayId id].
  - by apply (wp_UpdateAccountList_add l).
  - by apply (wp_UpdateAccountList_remove l).
  - by apply (wp_SetNextLocalId l).
  - by apply (wp_GetAllowCreateId l).
  - eapply wp_conseq; [apply (wp_GetSerialNumber l a d); [done..|by apply Hdb]|]. by intros r s' [Hp _].
  - destruct Hok. by apply (wp_SetDefaultActivatedOsAccount l).
Qed.

Lemma wp_run_list_ok req a s r s' :
  idle s → has_list (docs s) a → list_request_safe a req → run_list req s = (r, s') →
  idle s' ∧
  match r with
  | Err _ => docs s' = docs s
  | Ok z => ∃ a', list_spec a req z a' ∧ has_list (docs s') a' ∧
              ∀ p, p ≠ ACCOUNT_LIST_FILE_JSON_PATH → docs s' !! p = docs s !! p
  end.
Proof.
  intros Hi (l & Hl & Hr) Hok Hrun. pose proof (wp_run_list l a (docs s) req s Hl Hr (conj Hi eq_refl) Hok) as Hpost.
  apply (wp_run _ _ _ _ _ Hpost) in Hrun. destruct r as [z|e]; cbn in Hrun; [|by destruct Hrun].
  destruct Hrun as (a' & l' & Hspec & Hr' & Hi' & Hd). split; [done|]. rewrite Hd. exists a'. split_and!; [done| |].
  - exists l'. by rewrite lookup_insert_eq.
  - intros p Hp. by rewrite lookup_insert_ne.
Qed.

(** C25. An operation on the account list (an id added or removed, the next id raised, an id
    or a serial number given out, an account made active on a display) implements the
    operation on the abstract list: with memory for JSON available, and for arguments in the
    ranges the service uses (an id that is added is the id of a user account, an id that is
    removed is not negative, other numbers are within their types), an operation that reports success changes the list as specified and answers
    as specified, an operation that fails at any point (a read, the search, a write) leaves
    every document as it was, and no other document is touched.  One operation is left out:
    in a build with the database, giving out a serial number once the numbers have been
    used up and the count starts again; it reads every account, and such a read can repair
    documents of accounts. *)
Theorem list_requests_implement_specification req a s r s' :
  idle s → has_list (docs s) a → list_request_ok req →
  ¬ (has_database = true ∧ req = ListSerial ∧ (serial_start a).2 = true) →
  run_list req s = (r, s') →
  idle s' ∧
  match r with
  | Err _ => docs s' = docs s
  | Ok z => ∃ a', list_spec a req z a' ∧ has_list (docs s') a' ∧
              ∀ p, p ≠ ACCOUNT_LIST_FILE_JSON_PATH → docs s' !! p = docs s !! p
  end.
Proof.
  intros Hi Hl Hok Hdb Hrun. eapply wp_run_list_ok; [done|done| |done]. split; [done|].
  intros Hreq Hfull. apply not_true_is_false. naive_solver.
Qed.

(** Several requests, each whatever became of the ones before. *)
Definition run_lists (reqs : list ListRequest) : M S unit := mfor reqs (λ req, _ ← mtry (run_list req); mret tt).

(** What is not about the next id. *)
Definition keeps_next (req : ListRequest) : Prop :=
  match req with ListSetNext _ | ListAllowCreate => False | _ => True end.

#[export] Instance keeps_next_dec req : Decision (keeps_next req).
Proof. destruct req; cbn; apply _. Defined.

Lemma keeps_next_spec a req z a' : keeps_next req → list_spec a req z a' → next a' = next a.
Proof. intros Hk Hspec. destruct Hspec; try done. by case_bool_decide. Qed.

Lemma run_lists_next reqs a s :
  Forall (λ req, list_request_ok req ∧ keeps_next req) reqs → has_database = false →
  idle s → has_list (docs s) a →
  wp (run_lists reqs) (λ _ s', idle s' ∧ ∃ a', has_list (docs s') a' ∧ next a' = next a) s.
Proof.
  intros Hreqs Hdb. revert a s. induction Hreqs as [|req reqs [Hok Hk] _ IH]; intros a s Hi Ha; cbn [run_lists mfor].
  { apply wp_ret. split; [done|]. by exists a. }
  pose proof (wp_run_list_ok req a s) as Hstep. destruct (run_list req s) as [r s1] eqn:E.
  destruct (Hstep r s1) as [Hi1 Hpost]; [done..|reflexivity|].
  apply wp_bind, wp_bind, wp_try. unfold wp at 1. rewrite E. cbn [fst snd]. apply wp_ret.
  destruct r as [z|e].
  - destruct Hpost as (a1 & Hspec & Ha1 & _). eapply wp_conseq; [by apply (IH a1)|].
    intros r' s' (Hi' & a' & Ha' & Hn). split; [done|]. exists a'. split; [done|]. by rewrite Hn, (keeps_next_spec a req z).
  - apply (IH a); [done|]. by rewrite Hpost.
Qed.

Lemma free_id_after l a id x :
  represents l a → 101 ≤ id ≤ 999 → next a = id + 1 → free_id a = id → 101 ≤ x ≤ 999 → x ≠ id → x ∈ ids a.
Proof.
  intros Hr Hid Hn Hf Hx Hne. unfold free_id in Hf. rewrite Hn in Hf.
  pose proof (GetNextLocalId_search (id_string <$> ids a) (id + 1)) as Hsearch. rewrite Hf in Hsearch. clear Hf Hn.
  cbn beta zeta in Hsearch. destruct Hsearch as [Hs0 Hsearch].
  assert (E : (if (id + 1 <=? START_USER_ID) || (MAX_CREATABLE_USER_ID <? id + 1) then 101 else id + 1) = cyc 101 999 id 1).
  { rewrite <-cyc_succ by lia. unfold START_USER_ID, MAX_CREATABLE_USER_ID.
    destruct (Z.leb_spec (id + 1) 100), (Z.ltb_spec 999 (id + 1)); cbn; lia. }
  rewrite E in Hsearch. clear E Hs0. destruct Hsearch as [(j & Hj & Hrj & _ & Hb)|[Hlast _]]; [|lia].
  rewrite cyc_cyc in Hrj by lia.
  assert (Hj898 : j = 898).
  { destruct (decide (j = 898)) as [|Hj']; [done|]. exfalso.
    assert (0 = 1 + j); [|lia]. apply (cyc_inj 101 999 id); [lia..|]. rewrite cyc_0 by done. done. }
  destruct (cyc_onto 101 999 id x) as (i & Hi & <-); [done..|].
  destruct (decide (i = 0)) as [->|Hi0]; [by rewrite cyc_0 in Hne|].
  specialize (Hb (i - 1) ltac:(lia)). rewrite cyc_cyc in Hb by lia. replace (1 + (i - 1)) with i in Hb by lia.
  apply id_string_elem in Hb; [done|lia|]. by eapply rep_range.
Qed.

(** An id that was given out is not given out again next, whatever else happens
    to the list in between (the account with the id may be removed, others added),
    unless all the other 898 ids are in use: the next request for an id gives a
    different one, in a build without the database. *)
Theorem given_out_id_rests a s id s1 reqs s2 id' s3 :
  idle s → has_list (docs s) a → has_database = false →
  GetAllowCreateId s = (Ok id, s1) →
  Forall (λ req, list_request_ok req ∧ keeps_next req) reqs → (run_lists reqs s1).2 = s2 →
  GetAllowCreateId s2 = (Ok id', s3) →
  101 ≤ id ≤ 999 ∧ ¬ id ∈ ids a ∧
  (id' ≠ id ∨ ∃ a2, has_list (docs s2) a2 ∧ ∀ x, 101 ≤ x ≤ 999 → x ≠ id → x ∈ ids a2).
Proof.
  intros Hi Ha Hdb H1 Hreqs Hs2 H2.
  destruct (wp_run_list_ok ListAllowCreate a s (Ok id) s1) as (Hi1 & a1 & Hspec & Ha1 & _); [done..|].
  inversion Hspec as [| | |Hle| |]; subst; clear Hspec.
  pose proof (free_id_range a) as Hrange. unfold START_USER_ID, MAX_CREATABLE_USER_ID in Hrange, Hle.
  split; [lia|]. split.
  { destruct Ha as (l & _ & Hr). intros Hin. pose proof (GetNextLocalId_search (id_string <$> ids a) (next a)) as Hff.
    cbn beta zeta in Hff. fold (free_id a) in Hff. destruct Hff as [_ [(_ & _ & _ & Hnot & _)|[Hb _]]]; [|lia].
    apply Hnot, id_string_elem; [lia|by eapply rep_range|done]. }
  pose proof (run_lists_next reqs _ s1 Hreqs Hdb Hi1 Ha1) as [Hi2 (a2 & Ha2 & Hn2)]. cbn [next set_next] in Hn2.
  destruct (wp_run_list_ok ListAllowCreate a2 (run_lists reqs s1).2 (Ok id') s3)
    as (_ & a3 & Hspec & _); [done..|].
  inversion Hspec; subst. destruct (decide (free_id a2 = free_id a)) as [E|]; [|by left]. right.
  exists a2. split; [done|]. intros x Hx Hne. destruct Ha2 as (l2 & _ & Hr2).
  apply (free_id_after l2 a2 (free_id a)); [done|lia|done..].
Qed.

(** Two operations on the list that hold different mutexes may overlap, and a
    removal is lost: when the id of an account is removed from the list (under
    [accountInfoFileLock_]) after [GetAllowCreateId] (under [operatingIdMutex_])
    has read the list and before it writes it, the id is in the list again, though
    both operations report success. *)
Theorem overlapping_removal_is_lost a s id j s1 s2 n s3 :
  idle s → has_list (docs s) a → id ∈ ids a →
  GetAccountListFromFile s = (Ok j, s1) →
  UpdateAccountList (to_string id) false s1 = (Ok tt, s2) →
  allow_create_id j s2 = (Ok n, s3) →
  has_list (docs s2) (set_ids (filter (λ x, x ≠ id) (ids a)) a) ∧ has_list (docs s3) (set_next (n + 1) a).
Proof.
  intros Hi (l & Hl & Hr) Hin H1 H2 H3. pose proof (rep_range l a Hr) as Hrange. rewrite Forall_forall in Hrange.
  assert (Hj : j = JObject l ∧ at_docs (docs s) s1).
  { eapply (wp_run _ (λ r s', ∀ j, r = Ok j → j = JObject l ∧ at_docs (docs s) s') s _ _ _ H1 j eq_refl). Unshelve.
    eapply (wp_list_doc l a (docs s)); [done..|by split|by intros s' Hs' ? [= <-]|done]. }
  destruct Hj as [-> [Hi1 Hd1]].
  destruct (wp_run_list_ok (ListRemove id) a s1 (Ok 0) s2) as (Hi2 & a2 & Hspec & Ha2 & _);
    [done|rewrite Hd1; by exists l|split; [|done]; cbn; pose proof (Hrange id Hin); unfold START_USER_ID in *; lia| |].
  { unfold run_list. by rewrite mbind_unfold, H2. }
  inversion Hspec; subst; clear Hspec. split; [done|].
  pose proof (wp_allow_create_id l a (docs s2) s2 Hr (conj Hi2 eq_refl)) as Hpost.
  apply (wp_run _ _ _ _ _ Hpost) in H3. destruct H3 as (a3 & l3 & Hspec & Hr3 & _ & Hd3).
  inversion Hspec; subst. rewrite Hd3. exists l3. by rewrite lookup_insert_eq.
Qed.

(** *** Queries *)

Definition active_on (a : AccountList) (displayId : Z) : option Z :=
  match active a with
  | inl id => if displayId =? DEFAULT_DISPLAY_ID then Some id else None
  | inr m => m !! displayId
  end.

Lemma wp_query {A} l a d (k : CJson → M S A) (P : A → Prop) s :
  d !! ACCOUNT_LIST_FILE_JSON_PATH = Some (list_text l) → represents l a → at_docs d s →
  (∀ s', at_docs d s' → wp (k (JObject l)) (λ r s', at_docs d s' ∧ ∀ x, r = Ok x → P x) s') →
  wp (GetAccountListFromFile ≫= k) (λ r s', at_docs d s' ∧ ∀ x, r = Ok x → P x) s.
Proof.
  intros Hl Hr Hs Hk. apply wp_bind. apply (wp_list_doc l a d); [done..|exact Hk|]. intros e s' Hs'. by split.
Qed.

Lemma omap_id_string (l : list Z) :
  Forall (λ id, START_USER_ID ≤ id ≤ MAX_USER_ID) l → omap StrToInt (id_string <$> l) = l.
Proof.
  induction 1 as [|id l Hid _ IH]; [done|]. cbn [fmap list_fmap omap list_omap].
  change (id_string id) with (to_string id). rewrite StrToInt_to_string; [by rewrite IH|].
  unfold is_i32, START_USER_ID, MAX_USER_ID in *. lia.
Qed.

(** The queries on the account list answer from the abstract list and change no
    document: the ids; the account that is active on a display, where a list of an
    earlier version has one account, for the default display; and the map of all
    of them. *)
Theorem list_queries_answer a d s displayId id0 :
  has_list d a → at_docs d s → 0 ≤ displayId ≤ UINT64_MAX →
  wp GetOsAccountIdList (λ r s', at_docs d s' ∧ ∀ x, r = Ok x → x = ids a) s ∧
  wp (GetDefaultActivatedOsAccount displayId id0) (λ r s', at_docs d s' ∧ ∀ x, r = Ok x → Some x = active_on a displayId) s ∧
  wp GetAllDefaultActivatedOsAccounts (λ r s', at_docs d s' ∧ ∀ m, r = Ok m → ∀ x, 0 ≤ x ≤ UINT64_MAX → m !! x = active_on a x) s.
Proof.
  intros (l & Hl & Hr) Hs Hd. destruct (rep_active l a Hr) as (j & Hj & Hact).
  assert (Hobj : GetObjFromJson (Some (JObject l)) DEFAULT_ACTIVATED_ACCOUNT_ID = Some j).
  { unfold GetObjFromJson. by rewrite obj_find_fields. }
  split_and!; unfold GetOsAccountIdList, GetDefaultActivatedOsAccount, GetAllDefaultActivatedOsAccounts, active_on;
    (apply (wp_query l a); [done..|]; intros s1 Hs1; rewrite ?Hobj).
  - apply wp_ret. split; [done|]. intros x [= <-]. rewrite (read_id_list l a Hr). apply omap_id_string. by eapply rep_range.
  - destruct (active a) as [id1|m]; cbn [active_field] in Hact.
    + destruct Hact as [Hid1 ->]. change (IsObject (Some (num id1))) with false. cbn [negb].
      destruct (displayId =? DEFAULT_DISPLAY_ID); cbn [negb]; [|by apply wp_err]. apply wp_ret. split; [done|].
      unfold GetIntFromJson. rewrite obj_find_fields. change (string_empty DEFAULT_ACTIVATED_ACCOUNT_ID) with false. cbv iota.
      change (c_str DEFAULT_ACTIVATED_ACCOUNT_ID) with DEFAULT_ACTIVATED_ACCOUNT_ID. rewrite Hj. unfold num.
      rewrite to_i32 by done. by intros x [= <-].
    + destruct Hact as (kvs & Hnd & Hkvs & Hm & ->). cbn [IsObject negb]. unfold GetIntFromJson.
      rewrite obj_find_fields, to_string_not_empty, to_string_nul_free, number_fields_find, Hm by
        (first [done | lia | eapply Forall_impl; [exact Hkvs|]; cbn; lia]).
      destruct (m !! displayId) as [x|] eqn:Ex; cbn [fmap option_fmap option_map]; [|by apply wp_err].
      unfold num. rewrite to_i32; [apply wp_ret; split; [done|by intros y [= <-]]|].
      rewrite <-Hm in Ex. apply elem_of_list_to_map_2 in Ex. rewrite Forall_forall in Hkvs. by apply Hkvs in Ex as [_ ?].
  - destruct (active a) as [id1|m]; cbn [active_field] in Hact.
    + destruct Hact as [Hid1 ->]. change (IsObject (Some (num id1))) with false. cbn [negb].
      unfold GetIntFromJson. rewrite obj_find_fields. change (string_empty DEFAULT_ACTIVATED_ACCOUNT_ID) with false. cbv iota.
      change (c_str DEFAULT_ACTIVATED_ACCOUNT_ID) with DEFAULT_ACTIVATED_ACCOUNT_ID. rewrite Hj. unfold num.
      rewrite to_i32 by done. apply wp_ret. split; [done|]. intros m [= <-] x _.
      destruct (Z.eqb_spec x DEFAULT_DISPLAY_ID) as [->|Hne]; [by rewrite lookup_singleton_eq|by rewrite lookup_singleton_ne].
    + destruct Hact as (kvs & Hnd & Hkvs & Hm & ->). cbn [IsObject negb]. rewrite number_fields_fold by done.
      apply wp_ret. split; [done|]. intros m' [= <-] x _. by rewrite Hm.
Qed.
(** ** Recovery *)

(** The ids of the directories that are accounts. *)
Definition directory_ids (entries : list (string * bool)) : list Z :=
  omap (λ entry, if entry.2 : bool then id ← GetValidAccountID entry.1; guard (START_USER_ID ≤ id);; Some id else None) entries.

(** Each once, in the order they come first. *)
Definition see (seen : list Z) (id : Z) : list Z := if decide (id ∈ seen) then seen else seen ++ [id].
Definition first_seen (xs : list Z) : list Z := foldl see [] xs.

Lemma first_seen_fold (xs seen : list Z) :
  NoDup seen →
  let r := foldl see seen xs in
  NoDup r ∧ (∀ id, id ∈ r ↔ id ∈ seen ∨ id ∈ xs).
Proof.
  revert seen. induction xs as [|x xs IH]; intros seen Hnd; cbn [foldl]; [split; [done|set_solver]|].
  destruct (IH (see seen x)) as [Hnd' Hin]; unfold see in *.
  - case_decide; [done|]. apply NoDup_app. split_and!; [done|set_solver|apply NoDup_singleton].
  - split; [done|]. intros id. rewrite Hin. case_decide; set_solver.
Qed.

Lemma valid_id_range name id : GetValidAccountID name = Some id → 0 ≤ id ≤ MAX_USER_ID.
Proof.
  unfold GetValidAccountID. intros H. repeat case_match; simplify_eq. unfold ADMIN_LOCAL_ID in *. lia.
Qed.

Lemma listed_accounts_ids entries : listed_accounts entries = id_string <$> first_seen (directory_ids entries).
Proof.
  unfold listed_accounts, first_seen. match goal with |- foldl ?f _ _ = _ => set (list_step := f) end.
  assert (Hfold : ∀ seen, Forall (λ id, START_USER_ID ≤ id ≤ MAX_USER_ID) seen →
    foldl list_step (id_string <$> seen) entries = id_string <$> foldl see seen (directory_ids entries)); [|by apply (Hfold [])].
  induction entries as [|[name is_dir] entries IH]; intros seen Hseen; [done|]. cbn [foldl].
  unfold directory_ids at 1. cbn [omap list_omap fst snd]. fold (directory_ids entries). unfold list_step at 2.
  destruct is_dir; cbn [negb]; [|rewrite orb_true_r; by apply IH]. rewrite orb_false_r.
  destruct (GetValidAccountID name) as [id|] eqn:E; [|cbn [mbind option_bind]; case (_ || _); by apply IH].
  pose proof (valid_id_range name id E) as Hid.
  assert (Hdot : bool_decide (name = ".") || bool_decide (name = "..") = false).
  { apply orb_false_iff. split; apply bool_decide_eq_false; intros ->; by vm_compute in E. }
  rewrite Hdot. clear Hdot. cbn [mbind option_bind].
  rewrite (bool_decide_ext _ (id ∈ seen)) by (apply id_string_elem; [lia|done]).
  destruct (Z.leb_spec START_USER_ID id).
  - rewrite option_guard_True by done. cbn [foldl]. rewrite andb_true_r. rewrite <-IH; unfold see.
    + case_bool_decide; cbn [negb]; [by rewrite decide_True|]. by rewrite decide_False, fmap_app.
    + case_decide; [done|]. apply Forall_app. split; [done|]. apply Forall_singleton. lia.
  - rewrite option_guard_False, andb_false_r by lia. by apply IH.
Qed.

Definition fresh_list (xs : list Z) : AccountList :=
  mkAccountList xs (START_USER_ID + 1) SERIAL_NUMBER_NUM_START false (inr {[ DEFAULT_DISPLAY_ID := START_USER_ID ]}).

Lemma BuildAccountListJson_rep xs :
  Forall (λ id, START_USER_ID ≤ id ≤ MAX_USER_ID) xs → NoDup xs →
  ∃ l, BuildAccountListJson (id_string <$> xs) = Some (JObject l) ∧ represents l (fresh_list xs).
Proof.
  intros Hr Hnd. unfold BuildAccountListJson. rewrite CreateJson_eq. do 2 add_fields_tac.
  rewrite c_str_strings by (apply Forall_fmap, Forall_forall; intros id _; apply to_string_nul_free).
  eexists. split; [reflexivity|]. destruct (ids_field_ok xs) as [Hp Hdepth].
  constructor; cbn [ids next serial full active fresh_list]; try done; set_fields; try done.
  - apply json_ok_set; [|done|by apply num_plain|cbn; lia]. apply json_ok_set; [|done|done|cbn; lia].
    apply json_ok_set; [|done|apply text_plain, c_str_nul_free|cbn; lia].
    apply json_ok_set; [|done|by apply num_plain|cbn; lia]. apply json_ok_set; [|done|by vm_compute|cbn; lia].
    apply json_ok_set; [|done|apply num_plain, i32_range|cbn; lia]. apply json_ok_set; [by vm_compute|done|done|lia].
  - eexists. split; [reflexivity|].
    apply (number_fields_set DEFAULT_DISPLAY_ID START_USER_ID ∅ []); [done..|constructor|constructor|done].
Qed.

Lemma wp_build_list xs d (Q : result unit → S → Prop) s :
  at_docs d s → Forall (λ id, START_USER_ID ≤ id ≤ MAX_USER_ID) xs → NoDup xs →
  (∀ r s', at_docs d s' ∨ idle s' ∧ has_list (docs s') (fresh_list xs) → Q r s') →
  wp (BuildAndSaveAccountListJsonFile (id_string <$> xs)) Q s.
Proof.
  intros Hs Hr Hnd HQ. destruct (BuildAccountListJson_rep xs Hr Hnd) as (l & Hb & Hl).
  unfold BuildAndSaveAccountListJsonFile, SaveAccountListToFile. rewrite Hb. apply wp_bind, wp_try, wp_bind.
  apply (wp_write_doc _ _ d); [apply list_is_document|done| |intros e s2 Hs2; apply wp_ret, HQ; by left].
  intros s2 Hs2. eapply wp_void; [eauto with mquiet|apply when_file_watcher_void|exact Hs2|].
  intros [] s3 [Hi3 Hs3]. apply wp_ret, HQ. right. split; [done|]. exists l. by rewrite Hs3, lookup_insert_eq.
Qed.

Definition recovered_ids (rootDir : option (list (string * bool))) : list Z :=
  match rootDir with Some entries => first_seen (directory_ids entries) | None => [START_USER_ID] end.

Lemma elem_of_directory_ids entries id :
  id ∈ directory_ids entries ↔ START_USER_ID ≤ id ∧ ∃ name, (name, true) ∈ entries ∧ GetValidAccountID name = Some id.
Proof.
  unfold directory_ids. rewrite list_elem_of_omap. split.
  - intros ([name b] & Hin & Hid). cbn in Hid. destruct b; [|done]. apply bind_Some in Hid as (id' & Hv & Hid).
    case_guard; simplify_eq/=. split; [done|]. by exists name.
  - intros (Hid & name & Hin & Hv). exists (name, true). split; [done|]. cbn. rewrite Hv. cbn.
    by rewrite option_guard_True.
Qed.

Lemma first_seen_spec (xs : list Z) : NoDup (first_seen xs) ∧ (∀ id, id ∈ first_seen xs ↔ id ∈ xs).
Proof.
  destruct (first_seen_fold xs [] (NoDup_nil_2)) as [Hnd Hin]. split; [done|]. intros id.
  rewrite (Hin id). set_solver.
Qed.

Lemma recovered_ids_ok rootDir :
  NoDup (recovered_ids rootDir) ∧ Forall (λ id, START_USER_ID ≤ id ≤ MAX_USER_ID) (recovered_ids rootDir) ∧
  match rootDir with None => [to_string START_USER_ID] | Some entries => listed_accounts entries end =
    id_string <$> recovered_ids rootDir.
Proof.
  destruct rootDir as [entries|]; cbn [recovered_ids].
  - destruct (first_seen_spec (directory_ids entries)) as [Hnd Hin]. split_and!; [done| |apply listed_accounts_ids].
    apply Forall_forall. intros id Hid. apply Hin, elem_of_directory_ids in Hid as (? & name & _ & Hv).
    apply valid_id_range in Hv. lia.
  - split_and!; [apply NoDup_singleton|by apply Forall_singleton|done].
Qed.

(** The documents have a list made of the directories in [rootDir], and the next
    serial number is the first. *)
Definition started_over (rootDir : option (list (string * bool))) (s' : S) : Prop :=
  ∃ xs, has_list (docs s') (fresh_list xs) ∧ NoDup xs ∧
    (match rootDir with
     | Some entries =>
         ∀ id, id ∈ xs ↔ START_USER_ID ≤ id ∧ ∃ name, (name, true) ∈ entries ∧ GetValidAccountID name = Some id
     | None => xs = [START_USER_ID]
     end) ∧
    (∀ n s'', GetSerialNumber 0 s' = (Ok n, s'') → n = first_serial + 1).

Lemma recovered_started_over rootDir s' :
  idle s' → has_list (docs s') (fresh_list (recovered_ids rootDir)) → started_over rootDir s'.
Proof.
  intros Hi Hl. destruct (recovered_ids_ok rootDir) as (Hnd & Hrange & _). exists (recovered_ids rootDir). split_and!; [done..| |].
  - destruct rootDir as [entries|]; [|done]. intros id. cbn [recovered_ids].
    by rewrite (proj2 (first_seen_spec _)), elem_of_directory_ids.
  - intros n s'' Hn.
    destruct (wp_run_list_ok ListSerial (fresh_list (recovered_ids rootDir)) s' (Ok n) s'') as (_ & a' & Hspec & _);
      [done..|by split|done|].
    inversion Hspec as [| | | |n' Hstart Hr|]; subst. cbn in Hstart. rewrite Hstart by done.
    unfold SERIAL_NUMBER_NUM_START. lia.
Qed.

(** The account list that is rebuilt from the directories, when there is none to
    read: it has exactly the ids of the directories whose names are account
    numbers from 100 on, each once, or only 100 when the directory cannot be
    listed.  What the old list kept besides is lost: ids are given out from 101 and
    serial numbers from 1 on again, so the next serial number is the first one
    whatever accounts exist. *)
Theorem recovered_list_starts_over s rootDir s1 s' :
  idle s → ListDirectory USER_INFO_BASE s = (Ok rootDir, s1) → (RecoverAccountListJsonFile s).2 = s' →
  idle s' ∧ (docs s' = docs s ∨ started_over rootDir s').
Proof.
  intros Hi HD Hrun. pose proof (ListDirectory_leaves USER_INFO_BASE s Hi) as [Hi1 Ht1].
  unfold RecoverAccountListJsonFile in Hrun. rewrite mbind_unfold in Hrun. rewrite HD in Hi1, Ht1, Hrun. cbn [snd] in *.
  destruct (recovered_ids_ok rootDir) as (Hnd & Hrange & Heq).
  assert (Hs1 : at_docs (docs s) s1) by (split; [done|]; unfold docs; by rewrite Ht1).
  assert (Hwp : wp (BuildAndSaveAccountListJsonFile (id_string <$> recovered_ids rootDir))
    (λ _ s', idle s' ∧ (docs s' = docs s ∨ started_over rootDir s')) s1).
  { eapply wp_build_list; [exact Hs1|done|done|]. intros r s2 [[Hi2 Hd2]|[Hi2 Hl2]]; (split; [done|]); [by left|].
    right. by apply recovered_started_over. }
  subst s'. rewrite <-Heq in Hwp. by destruct rootDir.
Qed.
End Operations.

(** ** Witnesses *)

Section Witnesses.
Import Concrete.

Definition two_accounts : AccountList := fresh_list [100; 101].
Definition two_fields : list (string * CJson) :=
  match BuildAccountListJson ["100"; "101"] with Some (JObject l) => l | _ => [] end.
Definition two_world : FileWorld := world {[ ACCOUNT_LIST_FILE_JSON_PATH := list_text two_fields ]}.

Lemma two_fields_rep : represents two_fields two_accounts.
Proof.
  destruct (BuildAccountListJson_rep [100; 101]) as (l & Hl & Hr).
  - apply (bool_decide_unpack _). by vm_compute.
  - apply (bool_decide_unpack _). by vm_compute.
  - unfold two_fields. change ["100"; "101"] with (id_string <$> [100; 101]). by rewrite Hl.
Qed.

Lemma two_world_list : has_list (docs two_world) two_accounts.
Proof. exists two_fields. split; [by vm_compute|apply two_fields_rep]. Qed.

Lemma two_world_idle : idle two_world.
Proof. reflexivity. Qed.

Lemma no_database : has_database = false.
Proof. reflexivity. Qed.

Lemma serial_number_search_ends_witness :
  ∃ n, free_serial_number 1 [set_type ADMIN OsAccountInfo_new] 99999999 = Some n.
Proof.
  destruct (serial_number_search_ends [set_type ADMIN OsAccountInfo_new] 99999999) as (n & j & Hn & _).
  - by vm_compute.
  - by vm_compute.
  - by exists n.
Defined.

Lemma list_requests_implement_specification_witness :
  ∃ s', run_list ListAllowCreate two_world = (Ok 102, s') ∧ has_list (docs s') (set_next 103 two_accounts).
Proof.
  exists (run_list ListAllowCreate two_world).2.
  assert (Hrun : run_list ListAllowCreate two_world = (Ok 102, (run_list ListAllowCreate two_world).2)).
  { apply run_result. by vm_compute. }
  split; [exact Hrun|].
  destruct (list_requests_implement_specification ListAllowCreate two_accounts two_world _ _ two_world_idle two_world_list
    I ltac:(by intros (? & ? & _)) Hrun) as (_ & a' & Hspec & Hl & _).
  inversion Hspec; subst. exact Hl.
Defined.

Definition id_102_removed : list ListRequest := [ListAdd 102; ListRemove 102; ListSetActive 1 101].

Lemma given_out_id_rests_witness :
  ∃ s1 s3, GetAllowCreateId two_world = (Ok 102, s1) ∧
    GetAllowCreateId (run_lists id_102_removed s1).2 = (Ok 103, s3) ∧ ¬ 102 ∈ ids two_accounts.
Proof.
  exists (GetAllowCreateId two_world).2, (GetAllowCreateId (run_lists id_102_removed (GetAllowCreateId two_world).2).2).2.
  assert (H1 : GetAllowCreateId two_world = (Ok 102, (GetAllowCreateId two_world).2)) by (apply run_result; by vm_compute).
  set (s2 := (run_lists id_102_removed (GetAllowCreateId two_world).2).2).
  assert (H2 : GetAllowCreateId s2 = (Ok 103, (GetAllowCreateId s2).2)) by (apply run_result; by vm_compute).
  destruct (given_out_id_rests two_accounts two_world 102 _ id_102_removed s2 103
    (GetAllowCreateId s2).2 two_world_idle two_world_list no_database H1)
    as (_ & Hfresh & _).
  - apply (bool_decide_unpack _). by vm_compute.
  - reflexivity.
  - exact H2.
  - exact (conj H1 (conj H2 Hfresh)).
Defined.

Lemma overlapping_removal_is_lost_witness :
  ∃ j s1 s2 s3, GetAccountListFromFile two_world = (Ok j, s1) ∧ UpdateAccountList "101" false s1 = (Ok tt, s2) ∧
    allow_create_id j s2 = (Ok 102, s3) ∧ has_list (docs s3) (set_next 103 two_accounts).
Proof.
  assert (H1 : GetAccountListFromFile two_world = (Ok (JObject two_fields), (GetAccountListFromFile two_world).2))
    by (apply run_result; by vm_compute).
  set (s1 := (GetAccountListFromFile two_world).2) in H1.
  assert (H2 : UpdateAccountList "101" false s1 = (Ok tt, (UpdateAccountList "101" false s1).2))
    by (apply run_result; by vm_compute).
  set (s2 := (UpdateAccountList "101" false s1).2) in H2.
  assert (H3 : allow_create_id (JObject two_fields) s2 = (Ok 102, (allow_create_id (JObject two_fields) s2).2))
    by (apply run_result; by vm_compute).
  exists (JObject two_fields), s1, s2, (allow_create_id (JObject two_fields) s2).2.
  destruct (overlapping_removal_is_lost two_accounts two_world 101 _ s1 s2 102 _ two_world_idle two_world_list
    ltac:(apply (bool_decide_unpack _); by vm_compute) H1 H2 H3) as [_ Hl].
  exact (conj H1 (conj H2 (conj H3 Hl))).
Defined.

Lemma list_queries_answer_witness :
  wp (GetDefaultActivatedOsAccount 0 (-1)) (λ r s', ∀ x, r = Ok x → x = 100) two_world.
Proof.
  destruct (list_queries_answer two_accounts (docs two_world) two_world 0 (-1) two_world_list) as (_ & Hq & _).
  - split; [apply two_world_idle|reflexivity].
  - by vm_compute.
  - eapply wp_conseq; [exact Hq|]. intros r s' [_ Hx] x Hr. specialize (Hx x Hr). by injection Hx.
Defined.

Lemma recovered_list_starts_over_witness :
  started_over (Some entries) (RecoverAccountListJsonFile (world ∅)).2.
Proof.
  assert (Hi : idle (world ∅)) by reflexivity.
  assert (HD : ListDirectory USER_INFO_BASE (world ∅) = (Ok (Some entries), world ∅)) by reflexivity.
  destruct (recovered_list_starts_over (world ∅) (Some entries) (world ∅) _ Hi HD eq_refl) as [_ [Hd|Hd]]; [|exact Hd].
  apply (f_equal (lookup ACCOUNT_LIST_FILE_JSON_PATH)) in Hd. by vm_compute in Hd.
Defined.
End Witnesses.
