(* ===== verification/OsAccountFileTheorems.v ===== *)
(** The files of single accounts: what an operation of
    os_account_control_file_manager.cpp does to the documents on every branch, and
    that an account that is written is read back. *)
From Stdlib Require Import ZArith Lia Ascii String.
From stdpp Require Import base list gmap sets strings pretty sorting.
From S2P Require Import Prelude ErrorCodes Json FileStore FileOperator FileTheorems OsAccountInfo OsAccountEnv.
From S2P Require Import OsAccountFiles OsAccountDocs OsAccountWorld OsAccountList OsAccountListTheorems.

Definition info_file (id : Z) : string := account_file (to_string id) USER_INFO_FILE_NAME.

(** The directory of an account is a document of no other kind. *)
Definition dir_ok (id : Z) : bool :=
  let p := account_dir (to_string id) in
  negb (is_temp p) && negb (String.eqb p ACCOUNT_LIST_FILE_JSON_PATH) && negb (String.eqb p ACCOUNT_INFO_DIGEST_FILE_PATH).

Lemma dirs_ok : forallb dir_ok (seqZ 0 10737) = true.
Proof. by vm_compute. Qed.

Lemma account_dir_ok id :
  0 ≤ id ≤ MAX_USER_ID →
  is_document (account_dir (to_string id)) ∧ account_dir (to_string id) ≠ ACCOUNT_LIST_FILE_JSON_PATH.
Proof.
  intros Hid. pose proof dirs_ok as H. rewrite forallb_forall in H.
  assert (Hin : id ∈ seqZ 0 10737) by (apply elem_of_seqZ; unfold MAX_USER_ID in Hid; lia).
  apply list_elem_of_In, H in Hin. unfold dir_ok in Hin.
  destruct (is_temp _) eqn:Et; [done|]. destruct (String.eqb_spec (account_dir (to_string id)) ACCOUNT_LIST_FILE_JSON_PATH); [done|].
  destruct (String.eqb_spec (account_dir (to_string id)) ACCOUNT_INFO_DIGEST_FILE_PATH); [done|]. done.
Qed.

Section Accounts.
Context {cfg : Config} {oscfg : OsConfig} {sysconf : Sysconf} {cjson : CJsonLib} {target : Target} {cutils : CUtils} {huks : Huks}.
Context {S : Type} {fs : FileStore S} {db : AccountDatabase S} {env : Surroundings S}.
Context {laws : CJsonLaws} {alloc : CJsonAlloc}.
Implicit Types (d : gmap string string) (a : AccountList).

(** *** Writing an account *)

Lemma wp_UpdateAccountList_doc a d id (isAdd : bool) (Q : result unit → S → Prop) s :
  has_list d a → at_docs d s → (if isAdd then START_USER_ID ≤ id ≤ MAX_USER_ID else 0 ≤ id) →
  (∀ l' s', represents l' (set_ids (if isAdd then (if bool_decide (id ∈ ids a) then ids a else ids a ++ [id])
                                    else filter (λ x, x ≠ id) (ids a)) a) →
     at_docs (<[ACCOUNT_LIST_FILE_JSON_PATH := list_text l']> d) s' → Q (Ok tt) s') →
  (∀ e s', at_docs d s' → Q (Err e) s') →
  wp (UpdateAccountList (to_string id) isAdd) Q s.
Proof.
  intros (l & Hl & Hr) Hs Hid Hok Herr.
  assert (Hpost : wp (UpdateAccountList (to_string id) isAdd ≫= λ _, mret 0)
    (list_request_post d a (if isAdd then ListAdd id else ListRemove id)) s).
  { destruct isAdd; [by apply (wp_UpdateAccountList_add l)|by apply (wp_UpdateAccountList_remove l)]. }
  unfold wp in *. rewrite mbind_unfold in Hpost.
  destruct (UpdateAccountList (to_string id) isAdd s) as [[[]|e] s']; cbn in *; [|by apply Herr].
  destruct Hpost as (a' & l' & Hspec & Hr' & Hs'). apply (Hok l'); [|exact Hs'].
  destruct isAdd; inversion Hspec; subst; [|done]. case_bool_decide; [by destruct a|done].
Qed.

Lemma info_written i : storable i → string_empty (ToString i) = false.
Proof. intros Hi. unfold ToString. rewrite OsAccount_ToJson_eq by done. by apply pack_create, os_account_doc_ok. Qed.

Lemma run_InsertOsAccount i a s r s' :
  storable i → START_USER_ID ≤ localId_ i ≤ MAX_USER_ID → idle s → has_list (docs s) a →
  InsertOsAccount i s = (r, s') →
  let id := localId_ i in
  let added := set_ids (if bool_decide (id ∈ ids a) then ids a else ids a ++ [id]) a in
  idle s' ∧
  match r with
  | Ok _ =>
      has_list (docs s') added ∧ docs s' !! info_file id = Some (ToString i) ∧
      (∀ p, p ≠ ACCOUNT_LIST_FILE_JSON_PATH → p ≠ info_file id → docs s' !! p = docs s !! p)
  | Err _ =>
      docs s' = docs s ∨
      (has_list (docs s') added ∧ (∀ p, p ≠ ACCOUNT_LIST_FILE_JSON_PATH → docs s' !! p = docs s !! p))
  end.
Proof.
  intros Hi Hid Hidle Ha Hrun id added.
  assert (Hid' : START_USER_ID ≤ id ≤ MAX_USER_ID) by done. unfold START_USER_ID in Hid'.
  as_wp Hrun.
  unfold InsertOsAccount. rewrite (proj2 (Z.ltb_ge (localId_ i) ADMIN_LOCAL_ID)) by (unfold ADMIN_LOCAL_ID; fold id; lia).
  change (account_file (GetPrimeKey i) USER_INFO_FILE_NAME) with (info_file id). rewrite info_written by done.
  rewrite (proj2 (Z.leb_le START_USER_ID (localId_ i))) by (unfold START_USER_ID; fold id; lia). cbn [orb].
  apply wp_bind. apply (wp_exists_doc _ (docs s)); [apply info_file_document|done|]. intros isExist s1 _ Hs1.
  apply wp_bind. set (Q := λ (r : result bool) s', match r with Ok _ => at_docs (docs s) s' | Err _ => False end).
  eapply (wp_conseq _ Q).
  { destruct isExist; [|by apply wp_ret]. apply (wp_json_doc _ (docs s)); [apply info_file_document|done|]. by intros. }
  intros [isJson|e] s2 Hs2; [|done]. cbn in Hs2. destruct isJson; [apply wp_err; destruct Hs2; auto|].
  apply wp_bind. apply (wp_UpdateAccountList_doc a (docs s) id true); [done..| |].
  2: { intros e s3 [Hi3 Hd3]. auto. }
  intros l' s3 Hr' Hs3. fold added in Hr'.
  assert (Hlist : ∀ (s4 : S), at_docs (<[ACCOUNT_LIST_FILE_JSON_PATH:=list_text l']> (docs s)) s4 →
    has_list (docs s4) added ∧ ∀ p, p ≠ ACCOUNT_LIST_FILE_JSON_PATH → docs s4 !! p = docs s !! p).
  { intros s4 [_ ->]. split; [exists l'; by rewrite lookup_insert_eq|]. intros p Hp. by rewrite lookup_insert_ne. }
  apply wp_bind. eapply wp_write_doc; [apply info_file_document|exact Hs3| |intros e s4 Hs4; split; [apply Hs4|right; by apply Hlist]].
  intros s4 Hs4. apply wp_bind. eapply wp_void; [eauto with mquiet|apply when_database_void|exact Hs4|]. intros [] s5 Hs5.
  apply wp_bind. eapply wp_void; [eauto with mquiet|apply when_file_watcher_void|exact Hs5|]. intros [] s6 Hs6.
  eapply wp_void; [eauto with mquiet|apply when_file_watcher_void|exact Hs6|]. intros [] s7 [Hi7 Hd7].
  split; [done|]. rewrite Hd7. split_and!.
  - exists l'. rewrite lookup_insert_ne by apply account_file_not_list. by rewrite lookup_insert_eq.
  - by rewrite lookup_insert_eq.
  - intros p Hp Hpi. by rewrite !lookup_insert_ne.
Qed.
(** What [InsertOsAccount] does for an account that can be stored with an id from
    100 on: on success the id is in the list, once, and the file of the account has
    the text of the account; on a failure either nothing has changed (the account is
    there already, or the list was not written), or the list was written and the id
    stays in it though the account has no new file; no other document changes. *)
Theorem insert_account_outcomes i a s r s' :
  storable i → START_USER_ID ≤ localId_ i ≤ MAX_USER_ID → idle s → has_list (docs s) a →
  InsertOsAccount i s = (r, s') →
  let id := localId_ i in
  let added := set_ids (if bool_decide (id ∈ ids a) then ids a else ids a ++ [id]) a in
  idle s' ∧
  match r with
  | Ok _ =>
      has_list (docs s') added ∧ docs s' !! info_file id = Some (ToString i) ∧
      (∀ p, p ≠ ACCOUNT_LIST_FILE_JSON_PATH → p ≠ info_file id → docs s' !! p = docs s !! p)
  | Err _ =>
      docs s' = docs s ∨
      (has_list (docs s') added ∧ (∀ p, p ≠ ACCOUNT_LIST_FILE_JSON_PATH → docs s' !! p = docs s !! p))
  end.
Proof. intros Hi Hid Hidle Ha Hrun. exact (run_InsertOsAccount i a s r s' Hi Hid Hidle Ha Hrun). Qed.

Lemma inserted_text i a s s' :
  storable i → START_USER_ID ≤ localId_ i ≤ MAX_USER_ID → idle s → has_list (docs s) a →
  InsertOsAccount i s = (Ok tt, s') → docs s' !! info_file (localId_ i) = Some (ToString i).
Proof. intros Hi Hid Hidle Ha Hrun. by destruct (run_InsertOsAccount i a s _ s' Hi Hid Hidle Ha Hrun) as (_ & _ & ? & _). Qed.

(** [UpdateOsAccount] replaces the whole text of a file that is there, and a failed
    update leaves every document as it was. *)
Theorem update_account_outcomes i s r s' :
  storable i → idle s → UpdateOsAccount i s = (r, s') →
  idle s' ∧
  match r with
  | Ok _ => is_Some (docs s !! info_file (localId_ i)) ∧ docs s' = <[info_file (localId_ i) := ToString i]> (docs s)
  | Err _ => docs s' = docs s
  end.
Proof.
  intros Hi Hidle Hrun. as_wp Hrun. unfold UpdateOsAccount.
  change (account_file (GetPrimeKey i) USER_INFO_FILE_NAME) with (info_file (localId_ i)). rewrite info_written by done.
  apply wp_bind. apply (wp_exists_doc _ (docs s)); [apply info_file_document|done|]. intros isExist s1 Hex Hs1.
  destruct isExist; cbn [negb]; [|apply wp_err; by destruct Hs1].
  apply wp_bind. apply (wp_write_doc _ _ (docs s)); [apply info_file_document|done| |by intros e s2 [Hi2 Hd2]].
  intros s2 Hs2. apply wp_bind. eapply (wp_void _ _ _ s2); [| |exact Hs2|].
  - case (_ || _); [|apply quiet_ret]. eauto with mquiet.
  - intros s3. case (_ || _); [|done]. apply when_database_void.
  - intros [] s3 Hs3. eapply wp_void; [eauto with mquiet|apply when_file_watcher_void|exact Hs3|].
    intros [] s4 [Hi4 Hd4]. split; [done|]. split; [by apply Hex|done].
Qed.

(** The document [q] belongs to the account [id]. *)
Definition in_account (id : Z) (q : string) : Prop :=
  q = account_dir (to_string id) ∨ below (account_dir (to_string id)) q.

Lemma in_account_document id q :
  0 ≤ id ≤ MAX_USER_ID → in_account id q → q ≠ ACCOUNT_LIST_FILE_JSON_PATH ∧ q ≠ ACCOUNT_INFO_DIGEST_FILE_PATH.
Proof.
  intros Hid [->|[t ->]].
  - destruct (account_dir_ok id Hid) as [[_ ?] ?]. done.
  - change (account_dir (to_string id) +:+ String "/" t) with (account_dir (to_string id) +:+ (PATH_SEPARATOR +:+ t)).
    rewrite <-string_app_assoc. change ((account_dir (to_string id) +:+ PATH_SEPARATOR) +:+ t) with
      ((account_dir (to_string id) +:+ PATH_SEPARATOR) +:+ t).
    rewrite string_app_assoc. unfold account_dir. rewrite !string_app_assoc.
    split; intros E; do 2 apply string_app_inj_l in E;
      (assert (Hc : char_free "/" (to_string id +:+ PATH_SEPARATOR +:+ t)) by (rewrite E; by vm_compute));
      apply char_free_app in Hc as [_ Hc]; by apply char_free_cons in Hc as [? _].
Qed.

(** [DelOsAccount] does not delete the account 100 or one out of the range: it
    fails and changes nothing.  Otherwise every document that is not in the directory
    of the account stays, but for the list, and a document in it is as it was or
    gone; the id is in the list until the deletion has gone through, and on success
    it is not in it. *)
Theorem delete_account_outcomes id a s r s' :
  idle s → has_list (docs s) a → DelOsAccount id s = (r, s') →
  idle s' ∧
  (id ≤ START_USER_ID ∨ MAX_USER_ID < id → is_Ok r = false ∧ docs s' = docs s) ∧
  (START_USER_ID < id ≤ MAX_USER_ID →
    (∀ q, q ≠ ACCOUNT_LIST_FILE_JSON_PATH →
       docs s' !! q = docs s !! q ∨ (in_account id q ∧ docs s' !! q = None)) ∧
    has_list (docs s') (if is_Ok r then set_ids (filter (λ x, x ≠ id) (ids a)) a else a)).
Proof.
  intros Hidle Ha Hrun. as_wp Hrun. unfold DelOsAccount.
  destruct (Z.leb_spec id START_USER_ID) as [Hlo|Hlo]; cbn [orb]; [apply wp_err; split_and!; [done|done|lia]|].
  destruct (Z.ltb_spec MAX_USER_ID id) as [Hhi|Hhi]; [apply wp_err; split_and!; [done|done|lia]|].
  assert (Hid : 0 ≤ id ≤ MAX_USER_ID) by (unfold START_USER_ID in Hlo; lia).
  destruct (account_dir_ok id Hid) as [[Htemp Hne] _].
  apply wp_bind. eapply wp_conseq; [by apply delete_spec|]. intros r1 s1 [Hi1 Hd1].
  assert (Hdocs : ∀ q, docs s1 !! q = docs s !! q ∨ (in_account id q ∧ docs s1 !! q = None)).
  { intros q. unfold docs. destruct (decide (q = ACCOUNT_INFO_DIGEST_FILE_PATH)) as [->|Hq];
      [left; by rewrite !lookup_delete_eq|]. rewrite !lookup_delete_ne by done. destruct (Hd1 q) as [?|[Hin Hn]]; auto. }
  assert (Hl1 : has_list (docs s1) a).
  { destruct Ha as (l & Hl & Hr). exists l. split; [|done]. destruct (Hdocs ACCOUNT_LIST_FILE_JSON_PATH) as [->|[Hin _]]; [done|].
    by apply in_account_document in Hin as [? _]. }
  destruct r1 as [[]|e]; [|split_and!; [done|lia|intros _; split; [auto|done]]].
  apply wp_bind. eapply (wp_void _ (docs s1)); [eauto with mquiet|apply when_database_void|done|]. intros [] s2 Hs2.
  apply wp_bind. eapply wp_void; [eauto with mquiet|apply when_file_watcher_void|exact Hs2|]. intros [] s3 Hs3.
  apply wp_bind. eapply wp_void; [eauto with mquiet|apply when_file_watcher_void|exact Hs3|]. intros [] s4 Hs4.
  apply (wp_UpdateAccountList_doc a (docs s1) id false); [done|done|lia| |].
  - intros l' s5 Hr' [Hi5 Hd5]. split_and!; [done|lia|]. intros _. rewrite Hd5. split.
    + intros q Hq. rewrite lookup_insert_ne by done. apply Hdocs.
    + exists l'. by rewrite lookup_insert_eq.
  - intros e s5 [Hi5 Hd5]. split_and!; [done|lia|]. intros _. rewrite Hd5. split; [auto|done].
Qed.

(** *** Reading an account *)

(** What [GetOsAccountInfoById] makes of the type that an earlier version wrote. *)
Definition current_type (i : OsAccountInfo) : OsAccountInfo :=
  if SUPPORT_AUTHORIZATION && (type_ i =? -1) then set_type ADMIN i else i.

Lemma wp_GetOsAccountInfoById id i0 d (Q : result OsAccountInfo → S → Prop) s :
  has_database = false → at_docs d s →
  (∀ t i s', d !! info_file id = Some t → FromJson (CreateJsonFromString t) i0 = (true, i) → at_docs d s' →
     Q (Ok (current_type i)) s') →
  (∀ e s', at_docs d s' → Q (Err e) s') →
  wp (GetOsAccountInfoById id i0) Q s.
Proof.
  intros Hdb Hs Hok Herr. unfold GetOsAccountInfoById, GetOsAccountFromDatabase. rewrite Hdb. fold (info_file id).
  apply wp_bind, wp_try. apply (wp_check_doc _ d); [apply info_file_document|done| |].
  2: { intros e s1 Hs1. rewrite try_err_bind. apply wp_err. by apply Herr. }
  intros s1 _ Hs1. apply wp_bind, wp_try. apply (wp_read_doc _ d); [apply info_file_document|done| |].
  2: { intros e s2 Hs2. rewrite try_err_bind. apply wp_err. by apply Herr. }
  intros t s2 Ht Hs2. destruct (FromJson (CreateJsonFromString t) i0) as [parsed i] eqn:E.
  rewrite try_err_bind. destruct parsed; [|by apply wp_err, Herr].
  apply wp_bind, wp_ret, wp_ret. by apply (Hok t).
Qed.

(** In a build without the database an account that was inserted is read back:
    whatever is done to other documents in between, as long as the file keeps its
    text the account that [GetOsAccountInfoById] reads is the one that was inserted
    (but for what is not stored), and reading changes nothing. *)
Theorem inserted_account_reads_back i s s1 s2 i' s3 :
  storable i → START_USER_ID ≤ localId_ i ≤ MAX_USER_ID → has_database = false → idle s →
  (∃ a, has_list (docs s) a) → InsertOsAccount i s = (Ok tt, s1) →
  idle s2 → docs s2 !! info_file (localId_ i) = docs s1 !! info_file (localId_ i) →
  GetOsAccountInfoById (localId_ i) OsAccountInfo_new s2 = (Ok i', s3) →
  i' = current_type (read_back i OsAccountInfo_new) ∧ idle s3 ∧ docs s3 = docs s2.
Proof.
  intros Hi Hid Hdb Hidle [a Ha] Hins Hi2 Hsame Hget.
  assert (Ht : docs s1 !! info_file (localId_ i) = Some (ToString i)) by (exact (inserted_text i a s s1 Hi Hid Hidle Ha Hins)).
  rewrite Ht in Hsame.
  assert (Hread : wp (GetOsAccountInfoById (localId_ i) OsAccountInfo_new)
    (λ r s', ∀ i', r = Ok i' → i' = current_type (read_back i OsAccountInfo_new) ∧ at_docs (docs s2) s') s2).
  { apply (wp_GetOsAccountInfoById _ _ (docs s2)); [done|done| |done].
    intros t j s' Htext Hfrom Hs'. rewrite Hsame in Htext. injection Htext as <-. intros ? [= <-]. split; [|done].
    unfold ToString in Hfrom. rewrite OsAccount_ToJson_eq in Hfrom by done.
    destruct (pack_create _ (os_account_doc_ok i Hi)) as [E _]. rewrite E, FromJson_account_doc in Hfrom by done.
    by injection Hfrom as <-. }
  by destruct (wp_run _ _ _ _ _ Hread Hget i' eq_refl) as [-> [? ?]].
Qed.
(** *** The configuration *)

Lemma GetU1Config_limits j c :
  maxOsAccountNum (GetU1Config j c) = maxOsAccountNum c ∧
  maxLoggedInOsAccountNum (GetU1Config j c) = maxLoggedInOsAccountNum c.
Proof. unfold GetU1Config. cbv zeta. do 2 (case_match; [done|]). done. Qed.

Lemma GetU1Config_account j c :
  u1AccountType c ∈ [ADMIN; NORMAL; GUEST; PRIVATE] → Z.of_nat (String.length (u1AccountName c)) < LOCAL_NAME_MAX_SIZE →
  u1AccountType (GetU1Config j c) ∈ [ADMIN; NORMAL; GUEST; PRIVATE] ∧
  Z.of_nat (String.length (u1AccountName (GetU1Config j c))) < LOCAL_NAME_MAX_SIZE.
Proof.
  intros Ht Hn. unfold GetU1Config. cbv zeta. do 2 (case_match; [done|]). cbn [u1AccountType u1AccountName]. split.
  - case_bool_decide; [done|apply list_elem_of_here].
  - match goal with |- context [LOCAL_NAME_MAX_SIZE <=? ?n] => destruct (Z.leb_spec LOCAL_NAME_MAX_SIZE n) end; [cbn; lia|done].
Qed.

Lemma GetAuthAppConfig_rest j c :
  let c' := GetAuthAppConfig j c in
  maxOsAccountNum c' = maxOsAccountNum c ∧ maxLoggedInOsAccountNum c' = maxLoggedInOsAccountNum c ∧
  u1AccountType c' = u1AccountType c ∧ u1AccountName c' = u1AccountName c.
Proof. unfold GetAuthAppConfig. cbv zeta. by case_match. Qed.

(** Whatever the configuration file says (a missing, negative or inconsistent
    limit, the limit of developer mode included), the limits that
    [GetOsAccountConfig] takes from it make sense: at least one account, and between
    one and as many accounts may be logged in at a time as there may be; the system
    account has one of the types it may have and a name that is not too long. *)
Theorem account_config_bounds c s c' s' :
  0 < maxOsAccountNum c < 2 ^ 31 → u1AccountType c ∈ [ADMIN; NORMAL; GUEST; PRIVATE] →
  Z.of_nat (String.length (u1AccountName c)) < LOCAL_NAME_MAX_SIZE →
  GetOsAccountConfig c s = (Ok c', s') →
  1 ≤ maxLoggedInOsAccountNum c' ≤ maxOsAccountNum c' ∧ maxOsAccountNum c' < 2 ^ 31 ∧
  u1AccountType c' ∈ [ADMIN; NORMAL; GUEST; PRIVATE] ∧ Z.of_nat (String.length (u1AccountName c')) < LOCAL_NAME_MAX_SIZE.
Proof.
  intros Hmax Htype Hname Hrun. unfold GetOsAccountConfig in Hrun. inv_ok Hrun. clear Hm.
  destruct (CreateJsonFromString a) as [json|]; [|done].
  set (maxNum := if 0 <? _ then _ else _) in Hrun. set (maxLoggedIn := if (maxNum <? _) || _ then maxNum else _) in Hrun.
  assert (Hnum : 0 < maxNum < 2 ^ 31).
  { subst maxNum. destruct (Z.ltb_spec 0 (default (-1) (GetIntFromJson (Some json) MAX_OS_ACCOUNT_NUM))); [|done].
    destruct (GetIntFromJson (Some json) MAX_OS_ACCOUNT_NUM) as [z|] eqn:E; cbn in *; [|lia].
    pose proof (GetIntFromJson_range _ _ _ E). unfold is_i32 in *. rewrite u32_id by (unfold is_u32; lia). lia. }
  assert (Hlogged : 1 ≤ maxLoggedIn ≤ maxNum).
  { subst maxLoggedIn. clearbody maxNum. match goal with |- context [(maxNum <? ?x) || _] => generalize x end.
    intros x. destruct (Z.ltb_spec maxNum x), (Z.leb_spec x 0); cbn [orb]; lia. }
  clearbody maxLoggedIn maxNum. cbv zeta in Hrun.
  set (c1 := set_limits maxNum maxLoggedIn _) in Hrun.
  assert (H1 : maxOsAccountNum c1 = maxNum ∧ maxLoggedInOsAccountNum c1 = maxLoggedIn ∧
    u1AccountType c1 ∈ [ADMIN; NORMAL; GUEST; PRIVATE] ∧ Z.of_nat (String.length (u1AccountName c1)) < LOCAL_NAME_MAX_SIZE).
  { subst c1. unfold set_limits at 1 2 3 5. cbn [maxOsAccountNum maxLoggedInOsAccountNum u1AccountType u1AccountName].
    split_and!; [done|done| |]; (destruct ENABLE_U1_ACCOUNT; [by apply GetU1Config_account|done]). }
  destruct H1 as (Hm1 & Hl1 & Ht1 & Hn1). injection Hrun as Hc' _.
  assert (H2 : maxOsAccountNum c' = maxNum ∧ maxLoggedInOsAccountNum c' = maxLoggedIn ∧
    u1AccountType c' = u1AccountType c1 ∧ u1AccountName c' = u1AccountName c1).
  { subst c'. destruct SUPPORT_AUTHORIZATION; [|done]. pose proof (GetAuthAppConfig_rest (Some json) c1) as Hrest.
    cbn beta zeta in Hrest. by rewrite Hm1, Hl1 in Hrest. }
  destruct H2 as (-> & -> & -> & ->). split_and!; [lia..|done|done].
Qed.
End Accounts.

(** ** Witnesses *)

Section Witnesses.
Import Concrete.

Definition guest : OsAccountInfo := sample_account.
Definition guest_world : FileWorld := (InsertOsAccount guest two_world).2.

Lemma guest_storable : storable guest.
Proof. exact sample_storable. Qed.

Lemma guest_inserted : InsertOsAccount guest two_world = (Ok tt, guest_world).
Proof. unfold guest_world. apply run_result. by vm_compute. Qed.

Lemma guest_range : START_USER_ID ≤ localId_ guest ≤ MAX_USER_ID.
Proof. by vm_compute. Qed.

Lemma insert_account_outcomes_witness :
  docs guest_world !! info_file 101 = Some (ToString guest) ∧ docs guest_world !! info_file 102 = None.
Proof.
  destruct (insert_account_outcomes guest two_accounts two_world (Ok tt) guest_world guest_storable guest_range
    two_world_idle two_world_list guest_inserted) as (_ & _ & Htext & Hrest).
  split; [exact Htext|]. rewrite Hrest; [by vm_compute|..]; intros E; by vm_compute in E.
Defined.

Lemma guest_world_idle : idle guest_world.
Proof. by vm_compute. Qed.

Lemma guest_world_list : has_list (docs guest_world) two_accounts.
Proof.
  destruct (run_InsertOsAccount guest two_accounts two_world (Ok tt) guest_world guest_storable guest_range
    two_world_idle two_world_list guest_inserted) as (_ & Hl & _). exact Hl.
Qed.

Lemma update_account_outcomes_witness :
  docs (UpdateOsAccount (set_type ADMIN guest) guest_world).2 =
    <[info_file 101 := ToString (set_type ADMIN guest)]> (docs guest_world).
Proof.
  assert (Hs : storable (set_type ADMIN guest)) by (split; apply (bool_decide_unpack _); by vm_compute).
  assert (H : UpdateOsAccount (set_type ADMIN guest) guest_world = (Ok tt, (UpdateOsAccount (set_type ADMIN guest) guest_world).2))
    by (apply run_result; by vm_compute).
  destruct (update_account_outcomes (set_type ADMIN guest) guest_world _ _ Hs guest_world_idle H) as (_ & _ & Hd). exact Hd.
Defined.

Lemma delete_account_outcomes_witness :
  has_list (docs (DelOsAccount 101 guest_world).2) (set_ids [100] two_accounts).
Proof.
  assert (Hrange : START_USER_ID < 101 ≤ MAX_USER_ID) by (by vm_compute).
  assert (Hf : filter (λ x, x ≠ 101) (ids two_accounts) = [100]) by reflexivity.
  assert (H : DelOsAccount 101 guest_world = (Ok tt, (DelOsAccount 101 guest_world).2)) by (apply run_result; by vm_compute).
  destruct (delete_account_outcomes 101 two_accounts guest_world _ _ guest_world_idle guest_world_list H) as (_ & _ & Hd).
  destruct (Hd Hrange) as [_ Hl]. cbn [is_Ok] in Hl. rewrite Hf in Hl. exact Hl.
Defined.

Lemma inserted_account_reads_back_witness :
  ∃ s3, GetOsAccountInfoById 101 OsAccountInfo_new guest_world = (Ok guest, s3) ∧ docs s3 = docs guest_world.
Proof.
  assert (H : GetOsAccountInfoById 101 OsAccountInfo_new guest_world =
    (Ok guest, (GetOsAccountInfoById 101 OsAccountInfo_new guest_world).2)) by (apply run_result; by vm_compute).
  exists (GetOsAccountInfoById 101 OsAccountInfo_new guest_world).2. split; [exact H|].
  destruct (inserted_account_reads_back guest two_world guest_world guest_world guest _ guest_storable guest_range no_database
    two_world_idle (ex_intro _ two_accounts two_world_list) guest_inserted guest_world_idle eq_refl H) as (_ & _ & Hd).
  exact Hd.
Defined.

(** Nine logged-in accounts of five, which is not possible. *)
Definition config_world : FileWorld :=
  world {[ DEFAULT_OS_ACCOUNT_CONFIG_FILE :=
    PackJsonToString (Some (JObject [(MAX_OS_ACCOUNT_NUM, num 5); (MAX_LOGGED_IN_OS_ACCOUNT_NUM, num 9)])) ]}.

Lemma account_config_bounds_witness :
  ∃ c, (GetOsAccountConfig OsAccountConfig_new config_world).1 = Ok c ∧ maxLoggedInOsAccountNum c ≤ 5.
Proof.
  assert (Hmax : 0 < maxOsAccountNum OsAccountConfig_new < 2 ^ 31) by (by vm_compute).
  assert (Hname : Z.of_nat (String.length (u1AccountName OsAccountConfig_new)) < LOCAL_NAME_MAX_SIZE) by (by vm_compute).
  assert (H : GetOsAccountConfig OsAccountConfig_new config_world =
    (Ok (set_limits 5 5 OsAccountConfig_new), (GetOsAccountConfig OsAccountConfig_new config_world).2))
    by (apply run_result; by vm_compute).
  exists (set_limits 5 5 OsAccountConfig_new). split; [rewrite H; reflexivity|].
  destruct (account_config_bounds OsAccountConfig_new config_world _ _ Hmax (list_elem_of_here _ _) Hname H) as [[_ Hb] _].
  exact Hb.
Defined.
End Witnesses.
