(* ===== verification/OsAccountConstraints.v ===== *)
(** Constraints on OS accounts: the base, global and specific constraint documents
    of os_account_control_file_manager.cpp and the queries and configuration of
    os_account_file_operator.cpp.

    A base constraint of an account is in a list under its id.  A global or
    specific constraint has the accounts that set it, its sources; the list under
    [ALL_GLOBAL_CONSTRAINTS] or [ALL_SPECIFIC_CONSTRAINTS] names the constraints
    that have one.  A document is [option CJson]: a file that does not parse gives a
    null document and no error. *)
From Stdlib Require Import ZArith Lia Ascii String.
From stdpp Require Import base list gmap sets strings pretty sorting.
From S2P Require Import Prelude ErrorCodes Json FileStore OsAccountInfo OsAccountEnv OsAccountFiles.

Definition OS_ACCOUNT_CONSTRAINT_CONFIG_PATH : string := "/system/etc/account/os_account_constraint_config.json".
Definition OS_ACCOUNT_CONSTRAINT_DEFINITION_PATH : string :=
  "/system/etc/account/os_account_constraint_definition.json".
Definition ALL_GLOBAL_CONSTRAINTS : string := "allGlobalConstraints".
Definition ALL_SPECIFIC_CONSTRAINTS : string := "allSpecificConstraints".
Definition DEVICE_OWNER_ID : string := "deviceOwnerId".
Definition START_USER_STRING_ID : string := "100".
Definition KEY_TYPE_TO_CONSTRAINTS : string := "Type2Constraints".
Definition KEY_CONSTRAINTS_LIST : string := "constraints".
Definition IS_ALLOWED_CREATE_ADMIN : string := "IsAllowedCreateAdmin".
Definition IS_MULTI_OS_ACCOUNT_ENABLE : string := "IsMultiOsAccountEnable".

(** [ConstraintSourceType], os_account_info.h:39-44 *)
Inductive ConstraintSourceType :=
  | CONSTRAINT_NOT_EXIST
  | CONSTRAINT_TYPE_BASE
  | CONSTRAINT_TYPE_DEVICE_OWNER
  | CONSTRAINT_TYPE_PROFILE_OWNER.

#[export] Instance ConstraintSourceType_eq_dec : EqDecision ConstraintSourceType.
Proof. solve_decision. Defined.

(** [ConstraintSourceTypeInfo], os_account_info.h *)
Record ConstraintSourceTypeInfo := mkConstraintSource { sourceLocalId : Z; typeInfo : ConstraintSourceType }.

Section Operations.
Context {cfg : Config} {oscfg : OsConfig} {sysconf : Sysconf} {cjson : CJsonLib} {target : Target} {cutils : CUtils} {huks : Huks}.
Context {S : Type} {fs : FileStore S}.

(** A vector that is empty when there is none to read. *)
Definition strings_of (j : option CJson) (key : string) : list string := default [] (GetVectorStringFromJson j key []).

(** A document is left as it is by a change that fails. *)
Definition changed_or (j' j : option CJson) : option CJson := match j' with Some _ => j' | None => j end.

(** [cJSON_ArrayForEach] over the names of the children. *)
Definition child_names (j : option CJson) : list string := match j with Some (JObject l) => l.*1 | _ => [] end.

(** [for (auto keyStr : waitForErase) DeleteItemFromJson(json, keyStr);] *)
Definition erase_keys (keys : list string) (j : option CJson) : option CJson :=
  foldl (λ j key, (DeleteItemFromJson j key).2) j keys.

(** *** Files *)

(** The common part of reading one of the three files. *)
Definition read_constraints (path : string) : M S (option CJson) :=
  text ← GetFileContentByPath path; mret (CreateJsonFromString text).

(** [OsAccountControlFileManager::GetBaseOAConstraintsFromFile], os_account_control_file_manager.cpp *)
Definition GetBaseOAConstraintsFromFile : M S (option CJson) := read_constraints BASE_OSACCOUNT_CONSTRAINTS_JSON_PATH.
(** [OsAccountControlFileManager::GetGlobalOAConstraintsFromFile], os_account_control_file_manager.cpp *)
Definition GetGlobalOAConstraintsFromFile : M S (option CJson) := read_constraints GLOBAL_OSACCOUNT_CONSTRAINTS_JSON_PATH.
(** [OsAccountControlFileManager::GetSpecificOAConstraintsFromFile], os_account_control_file_manager.cpp *)
Definition GetSpecificOAConstraintsFromFile : M S (option CJson) :=
  read_constraints SPECIFIC_OSACCOUNT_CONSTRAINTS_JSON_PATH.

(** The common part of writing one; an empty text is reported and written. *)
Definition save_constraints (path : string) (j : option CJson) : M S unit :=
  let strValue := PackJsonToString j in
  _ ← InputFileByPathAndContent path strValue;
  when_file_watcher (AddAccountInfoDigest strValue path).

(** [OsAccountControlFileManager::SaveBaseOAConstraintsToFile], os_account_control_file_manager.cpp *)
Definition SaveBaseOAConstraintsToFile (j : option CJson) : M S unit := save_constraints BASE_OSACCOUNT_CONSTRAINTS_JSON_PATH j.
(** [OsAccountControlFileManager::SaveGlobalOAConstraintsToFile], os_account_control_file_manager.cpp *)
Definition SaveGlobalOAConstraintsToFile (j : option CJson) : M S unit :=
  save_constraints GLOBAL_OSACCOUNT_CONSTRAINTS_JSON_PATH j.
(** [OsAccountControlFileManager::SaveSpecificOAConstraintsToFile], os_account_control_file_manager.cpp *)
Definition SaveSpecificOAConstraintsToFile (j : option CJson) : M S unit :=
  save_constraints SPECIFIC_OSACCOUNT_CONSTRAINTS_JSON_PATH j.

(** *** Configuration *)

(** [OsAccountFileOperator::GetConstraintsByType], os_account_file_operator.cpp
    [OsAccountControlFileManager::GetConstraintsByType], os_account_control_file_manager.cpp *)
Definition GetConstraintsByType (type : Z) : M S (list string) :=
  str ← GetFileContentByPath OS_ACCOUNT_CONSTRAINT_CONFIG_PATH;
  let typeJson := GetObjFromJson (CreateJsonFromString str) KEY_TYPE_TO_CONSTRAINTS in
  if negb (IsObject typeJson) then merr ERR_ACCOUNT_COMMON_BAD_JSON_FORMAT_ERROR
  else mret (strings_of typeJson (to_string type)).

(** [OsAccountFileOperator::GetIsMultiOsAccountEnable], os_account_file_operator.cpp *)
Definition GetIsMultiOsAccountEnable : M S bool :=
  str ← GetFileContentByPath OS_ACCOUNT_CONSTRAINT_CONFIG_PATH;
  mret (default true (GetBoolFromJson (CreateJsonFromString str) IS_MULTI_OS_ACCOUNT_ENABLE)).

(** [OsAccountFileOperator::IsAllowedCreateAdmin], os_account_file_operator.cpp *)
Definition IsAllowedCreateAdmin : M S bool :=
  str ← GetFileContentByPath OS_ACCOUNT_CONSTRAINT_CONFIG_PATH;
  mret (default false (GetBoolFromJson (CreateJsonFromString str) IS_ALLOWED_CREATE_ADMIN)).

(** [OsAccountFileOperator::CheckConstraints], os_account_file_operator.cpp *)
Definition CheckConstraints (constraints : list string) : M S bool :=
  r ← mtry (GetFileContentByPath OS_ACCOUNT_CONSTRAINT_DEFINITION_PATH);
  match r with
  | Err _ => mret false
  | Ok str =>
      match GetSetStringFromJson (CreateJsonFromString str) KEY_CONSTRAINTS_LIST ∅ with
      | None => mret false
      | Some constraintSet => mret (forallb (λ c, bool_decide (c ∈ constraintSet)) constraints)
      end
  end.

(** *** The documents of a new device *)

(** [OsAccountControlFileManager::BuildAndSaveBaseOAConstraintsJsonFile], os_account_control_file_manager.cpp *)
Definition BuildAndSaveBaseOAConstraintsJsonFile : M S unit :=
  r ← mtry (GetConstraintsByType ADMIN);
  match r with
  | Err _ => mret tt
  | Ok baseOAConstraints =>
      match AddVectorStringToJson CreateJson START_USER_STRING_ID baseOAConstraints with
      | None => mret tt
      | Some j => _ ← mtry (SaveBaseOAConstraintsToFile (Some j)); mret tt
      end
  end.

(** [OsAccountControlFileManager::BuildAndSaveGlobalOAConstraintsJsonFile], os_account_control_file_manager.cpp *)
Definition BuildAndSaveGlobalOAConstraintsJsonFile : M S unit :=
  match AddIntToJson CreateJson DEVICE_OWNER_ID (-1) with
  | None => mret tt
  | Some j =>
      match AddObjToJson (Some j) ALL_GLOBAL_CONSTRAINTS CreateJsonNull with
      | None => mret tt
      | Some j => _ ← mtry (SaveGlobalOAConstraintsToFile (Some j)); mret tt
      end
  end.

(** [OsAccountControlFileManager::BuildAndSaveSpecificOAConstraintsJsonFile], os_account_control_file_manager.cpp *)
Definition BuildAndSaveSpecificOAConstraintsJsonFile : M S unit :=
  match AddObjToJson CreateJson ALL_SPECIFIC_CONSTRAINTS CreateJsonNull with
  | None => mret tt
  | Some osAccountConstraintsList =>
      match AddObjToJson CreateJson START_USER_STRING_ID (Some osAccountConstraintsList) with
      | None => mret tt
      | Some j => _ ← mtry (SaveSpecificOAConstraintsToFile (Some j)); mret tt
      end
  end.

(** *** Base constraints *)

(** The loop over the constraints for an account that has an entry.

    [OsAccountControlFileManager::UpdateBaseOAConstraints], os_account_control_file_manager.cpp:774-783 *)
Definition base_update (isAdd : bool) (ConstraintStr baseOAConstraints : list string) : list string :=
  foldl (λ base c,
    if negb isAdd then remove_all c base
    else if negb (bool_decide (c ∈ base)) then base ++ [c] else base) baseOAConstraints ConstraintStr.

(** [OsAccountControlFileManager::UpdateBaseOAConstraints], os_account_control_file_manager.cpp *)
Definition UpdateBaseOAConstraints (idStr : string) (ConstraintStr : list string) (isAdd : bool) : M S unit :=
  baseOAConstraintsJson ← GetBaseOAConstraintsFromFile;
  if negb (IsKeyExist baseOAConstraintsJson idStr) then
    if negb isAdd then mret tt
    else
      SaveBaseOAConstraintsToFile
        (changed_or (AddVectorStringToJson baseOAConstraintsJson idStr ConstraintStr) baseOAConstraintsJson)
  else
    let baseOAConstraints := base_update isAdd ConstraintStr (strings_of baseOAConstraintsJson idStr) in
    SaveBaseOAConstraintsToFile
      (changed_or (AddVectorStringToJson baseOAConstraintsJson idStr baseOAConstraints) baseOAConstraintsJson).

(** *** Global and specific constraints *)

(** What the two loops over the constraints carry along: the document, the list of
    the constraints in it, and the names to erase when the loop is done. *)
Record Operation := mkOperation {
  op_json : option CJson;
  op_list : list string;
  waitForErase : list string;
}.

(** The flag says whether nothing failed; the document is changed up to the call
    that did.

    [OsAccountControlFileManager::RemoveConstraintsFromJsonOperate], os_account_control_file_manager.cpp *)
Definition RemoveConstraintsFromJsonOperate (constraintTypeConstants constraint idStr : string) (st : Operation)
  : bool * Operation :=
  let constraintSourceList := remove_all idStr (strings_of (op_json st) constraint) in
  if bool_decide (constraintSourceList = []) then
    let oldConstraintsList := remove_all constraint (op_list st) in
    match AddVectorStringToJson (op_json st) constraintTypeConstants oldConstraintsList with
    | None => (false, mkOperation (op_json st) oldConstraintsList (waitForErase st))
    | Some j => (true, mkOperation (Some j) oldConstraintsList (waitForErase st ++ [constraint]))
    end
  else
    match AddVectorStringToJson (op_json st) constraint constraintSourceList with
    | None => (false, st)
    | Some j => (true, mkOperation (Some j) (op_list st) (waitForErase st))
    end.

(** Adding a source to a constraint, which the two loops do in the same way.

    [OsAccountControlFileManager::GlobalConstraintsDataOperate], os_account_control_file_manager.cpp:855-884
    [OsAccountControlFileManager::SpecificConstraintsDataOperate], os_account_control_file_manager.cpp:964-993 *)
Definition add_source (constraintTypeConstants idStr constraint : string) (st : Operation) : Operation :=
  if bool_decide (constraint ∈ op_list st) then
    let constraintSourceList := strings_of (op_json st) constraint in
    if bool_decide (idStr ∈ constraintSourceList) then st
    else
      mkOperation
        (changed_or (AddVectorStringToJson (op_json st) constraint (constraintSourceList ++ [idStr])) (op_json st))
        (op_list st) (waitForErase st)
  else
    let constraintsList := op_list st ++ [constraint] in
    let j := changed_or (AddVectorStringToJson (op_json st) constraint [idStr]) (op_json st) in
    let j := changed_or (AddVectorStringToJson j constraintTypeConstants constraintsList) j in
    mkOperation j constraintsList (waitForErase st).

(** [OsAccountControlFileManager::GlobalConstraintsDataOperate], os_account_control_file_manager.cpp *)
Definition GlobalConstraintsDataOperate (idStr : string) (ConstraintStr : list string) (isAdd : bool)
    (globalOAConstraintsJson : option CJson) : option CJson :=
  let st := mkOperation globalOAConstraintsJson (strings_of globalOAConstraintsJson ALL_GLOBAL_CONSTRAINTS) [] in
  let st :=
    foldl (λ st c,
      if negb isAdd then
        if negb (bool_decide (c ∈ op_list st)) then st
        else (RemoveConstraintsFromJsonOperate ALL_GLOBAL_CONSTRAINTS c idStr st).2
      else add_source ALL_GLOBAL_CONSTRAINTS idStr c st) st ConstraintStr in
  erase_keys (waitForErase st) (op_json st).

(** [OsAccountControlFileManager::SpecificConstraintsDataOperate], os_account_control_file_manager.cpp *)
Definition SpecificConstraintsDataOperate (idStr : string) (ConstraintStr : list string) (isAdd : bool)
    (userPrivateConstraintsDataJson : option CJson) : option CJson :=
  let st := mkOperation userPrivateConstraintsDataJson
              (strings_of userPrivateConstraintsDataJson ALL_SPECIFIC_CONSTRAINTS) [] in
  let st :=
    foldl (λ st c,
      if negb isAdd then
        if negb (IsKeyExist (op_json st) c) then st
        else (RemoveConstraintsFromJsonOperate ALL_SPECIFIC_CONSTRAINTS c idStr st).2
      else add_source ALL_SPECIFIC_CONSTRAINTS idStr c st) st ConstraintStr in
  erase_keys (waitForErase st) (op_json st).

(** [OsAccountControlFileManager::UpdateGlobalOAConstraints], os_account_control_file_manager.cpp *)
Definition UpdateGlobalOAConstraints (idStr : string) (ConstraintStr : list string) (isAdd : bool) : M S unit :=
  globalOAConstraintsJson ← GetGlobalOAConstraintsFromFile;
  SaveGlobalOAConstraintsToFile (GlobalConstraintsDataOperate idStr ConstraintStr isAdd globalOAConstraintsJson).

(** A child that was changed through a pointer into the document. *)
Definition set_child_opt (key : string) (item : option CJson) (j : option CJson) : option CJson :=
  match item, j with Some item, Some j => Some (set_child key item j) | _, _ => j end.

(** The child of [targetIdStr] is changed in place, and then a copy of it replaces it.

    [OsAccountControlFileManager::UpdateSpecificOAConstraints], os_account_control_file_manager.cpp *)
Definition UpdateSpecificOAConstraints (idStr targetIdStr : string) (ConstraintStr : list string) (isAdd : bool) : M S unit :=
  specificOAConstraintsJson ← GetSpecificOAConstraintsFromFile;
  let there := IsKeyExist specificOAConstraintsJson targetIdStr in
  if negb there && negb isAdd then mret tt
  else
    let specificOAConstraintsJson :=
      if there then specificOAConstraintsJson
      else
        let osAccountConstraintsList := changed_or (AddObjToJson CreateJson ALL_SPECIFIC_CONSTRAINTS CreateJsonNull) CreateJson in
        changed_or (AddObjToJson specificOAConstraintsJson targetIdStr osAccountConstraintsList) specificOAConstraintsJson in
    let userPrivateConstraintsDataJson :=
      SpecificConstraintsDataOperate idStr ConstraintStr isAdd (GetItemFromJson specificOAConstraintsJson targetIdStr) in
    let specificOAConstraintsJson := set_child_opt targetIdStr userPrivateConstraintsDataJson specificOAConstraintsJson in
    SaveSpecificOAConstraintsToFile
      (changed_or (AddObjToJson specificOAConstraintsJson targetIdStr userPrivateConstraintsDataJson) specificOAConstraintsJson).

(** *** Removing an account *)

(** [OsAccountControlFileManager::RemoveOABaseConstraintsInfo], os_account_control_file_manager.cpp *)
Definition RemoveOABaseConstraintsInfo (id : Z) : M S unit :=
  baseOAConstraintsJson ← GetBaseOAConstraintsFromFile;
  SaveBaseOAConstraintsToFile (DeleteItemFromJson baseOAConstraintsJson (to_string id)).2.

(** One name of the global document.

    [OsAccountControlFileManager::RemoveOAGlobalConstraintsInfo], os_account_control_file_manager.cpp:1053-1071 *)
Definition remove_global_source (id : Z) (st : option CJson * list string) (key : string) : option CJson * list string :=
  let '(j, waitForErase) := st in
  if String.eqb key ALL_GLOBAL_CONSTRAINTS || String.eqb key DEVICE_OWNER_ID then st
  else
    let sourceList := remove_all (to_string id) (strings_of j key) in
    if bool_decide (sourceList = []) then
      let allGlobalConstraints := remove_all key (strings_of j ALL_GLOBAL_CONSTRAINTS) in
      (changed_or (AddVectorStringToJson j ALL_GLOBAL_CONSTRAINTS allGlobalConstraints) j, waitForErase ++ [key])
    else (changed_or (AddVectorStringToJson j key sourceList) j, waitForErase).

(** [OsAccountControlFileManager::RemoveOAGlobalConstraintsInfo], os_account_control_file_manager.cpp *)
Definition RemoveOAGlobalConstraintsInfo (id : Z) : M S unit :=
  globalOAConstraintsJson ← GetGlobalOAConstraintsFromFile;
  let '(j, waitForErase) :=
    foldl (remove_global_source id) (globalOAConstraintsJson, []) (child_names globalOAConstraintsJson) in
  SaveGlobalOAConstraintsToFile (erase_keys waitForErase j).

(** One name of the document of an account; [None] where the function returns.

    [RemoveUserConstraintsFromSpecificObj], os_account_control_file_manager.cpp:1113-1136 *)
Definition remove_specific_source (id : Z) (st : bool * Operation) (key : string) : bool * Operation :=
  let '(go_on, st) := st in
  if negb go_on || String.eqb key ALL_SPECIFIC_CONSTRAINTS then (go_on, st)
  else
    let sourceList := remove_all (to_string id) (strings_of (op_json st) key) in
    if bool_decide (sourceList = []) then
      let allSpecificConstraints := remove_all key (op_list st) in
      match AddVectorStringToJson (op_json st) ALL_SPECIFIC_CONSTRAINTS allSpecificConstraints with
      | None => (false, mkOperation (op_json st) allSpecificConstraints (waitForErase st))
      | Some j => (true, mkOperation (Some j) allSpecificConstraints (waitForErase st ++ [key]))
      end
    else
      match AddVectorStringToJson (op_json st) key sourceList with
      | None => (false, st)
      | Some j => (true, mkOperation (Some j) (op_list st) (waitForErase st))
      end.

(** [RemoveUserConstraintsFromSpecificObj], os_account_control_file_manager.cpp *)
Definition RemoveUserConstraintsFromSpecificObj (id : Z) (specificOAConstraintsJson : option CJson) (user : string)
  : option CJson :=
  let userPrivateConstraintsJson := GetObjFromJson specificOAConstraintsJson user in
  let allSpecificConstraints := strings_of userPrivateConstraintsJson ALL_SPECIFIC_CONSTRAINTS in
  if bool_decide (allSpecificConstraints = []) then specificOAConstraintsJson
  else
    let '(go_on, st) :=
      foldl (remove_specific_source id) (true, mkOperation userPrivateConstraintsJson allSpecificConstraints [])
        (child_names userPrivateConstraintsJson) in
    let user_json := if go_on : bool then erase_keys (waitForErase st) (op_json st) else op_json st in
    let specificOAConstraintsJson := set_child_opt user user_json specificOAConstraintsJson in
    if go_on then changed_or (AddObjToJson specificOAConstraintsJson user user_json) specificOAConstraintsJson
    else specificOAConstraintsJson.

(** [OsAccountControlFileManager::RemoveAllUsersConstraintsInfo], os_account_control_file_manager.cpp *)
Definition RemoveAllUsersConstraintsInfo (specificOAConstraintsJson : option CJson) (id : Z) : option CJson :=
  foldl (RemoveUserConstraintsFromSpecificObj id) specificOAConstraintsJson (child_names specificOAConstraintsJson).

(** [OsAccountControlFileManager::RemoveOASpecificConstraintsInfo], os_account_control_file_manager.cpp *)
Definition RemoveOASpecificConstraintsInfo (id : Z) : M S unit :=
  specificOAConstraintsJson ← GetSpecificOAConstraintsFromFile;
  let specificOAConstraintsJson :=
    if IsKeyExist specificOAConstraintsJson (to_string id)
    then (DeleteItemFromJson specificOAConstraintsJson (to_string id)).2 else specificOAConstraintsJson in
  SaveSpecificOAConstraintsToFile (RemoveAllUsersConstraintsInfo specificOAConstraintsJson id).

(** [OsAccountControlFileManager::RemoveOAConstraintsInfo], os_account_control_file_manager.cpp *)
Definition RemoveOAConstraintsInfo (id : Z) : M S unit :=
  _ ← RemoveOABaseConstraintsInfo id;
  _ ← RemoveOAGlobalConstraintsInfo id;
  RemoveOASpecificConstraintsInfo id.

(** *** Queries *)

(** The document a query reads: an empty one where there is no file, and a failed
    read is an empty text. *)
Definition query_document (path : string) (empty : Z) : M S CJson :=
  isExist ← IsExistFile path;
  j ← (if isExist : bool then
         r ← mtry (GetFileContentByPath path);
         mret (CreateJsonFromString (match r with Ok str => str | Err _ => EmptyString end))
       else mret CreateJson);
  match j with
  | None => merr empty
  | Some j => if GetItemNum (Some j) =? 0 then merr empty else mret j
  end.

(** [OsAccountFileOperator::GetBaseOAConstraintsList], os_account_file_operator.cpp *)
Definition GetBaseOAConstraintsList (id : Z) : M S (list string) :=
  j ← query_document BASE_OSACCOUNT_CONSTRAINTS_JSON_PATH ERR_OSACCOUNT_SERVICE_GET_DATA_FROM_BASE_CONSTRAINTS_FILE_EMPTY;
  mret (strings_of (Some j) (to_string id)).

(** [OsAccountFileOperator::GetGlobalOAConstraintsList], os_account_file_operator.cpp *)
Definition GetGlobalOAConstraintsList : M S (list string) :=
  j ← query_document GLOBAL_OSACCOUNT_CONSTRAINTS_JSON_PATH ERR_OSACCOUNT_SERVICE_GET_DATA_FROM_GLOBAL_CONSTRAINTS_FILE_EMPTY;
  mret (strings_of (Some j) ALL_GLOBAL_CONSTRAINTS).

(** [OsAccountFileOperator::GetSpecificOAConstraintsList], os_account_file_operator.cpp *)
Definition GetSpecificOAConstraintsList (id : Z) : M S (list string) :=
  j ← query_document SPECIFIC_OSACCOUNT_CONSTRAINTS_JSON_PATH
        ERR_OSACCOUNT_SERVICE_GET_DATA_FROM_SPECIFIC_CONSTRAINTS_FILE_EMPTY;
  mret (strings_of (GetObjFromJson (Some j) (to_string id)) ALL_SPECIFIC_CONSTRAINTS).

(** [OsAccountControlFileManager::IsFromBaseOAConstraintsList], os_account_control_file_manager.cpp *)
Definition IsFromBaseOAConstraintsList (id : Z) (constraint : string) : M S bool :=
  constraintsList ← GetBaseOAConstraintsList id;
  mret (bool_decide (constraint ∈ constraintsList)).

(** The sources of a constraint, each with what it is.

    [OsAccountControlFileManager::IsFromGlobalOAConstraintsList], os_account_control_file_manager.cpp:1592-1608
    [OsAccountControlFileManager::IsFromSpecificOAConstraintsList], os_account_control_file_manager.cpp:1639-1655 *)
Definition source_infos (deviceOwnerId : Z) (sources : list string) : list ConstraintSourceTypeInfo :=
  omap (λ s, localId ← StrToInt s;
    Some (mkConstraintSource localId
            (if localId =? deviceOwnerId then CONSTRAINT_TYPE_DEVICE_OWNER else CONSTRAINT_TYPE_PROFILE_OWNER))) sources.

(** [OsAccountControlFileManager::IsFromGlobalOAConstraintsList], os_account_control_file_manager.cpp *)
Definition IsFromGlobalOAConstraintsList (deviceOwnerId : Z) (constraint : string) : M S (list ConstraintSourceTypeInfo) :=
  constraintsList ← GetGlobalOAConstraintsList;
  if bool_decide (constraintsList = []) then mret []
  else if bool_decide (constraint ∈ constraintsList) then
    globalOAConstraintsJson ← GetGlobalOAConstraintsFromFile;
    mret (source_infos deviceOwnerId (strings_of globalOAConstraintsJson constraint))
  else mret [].

(** [OsAccountControlFileManager::IsFromSpecificOAConstraintsList], os_account_control_file_manager.cpp *)
Definition IsFromSpecificOAConstraintsList (id deviceOwnerId : Z) (constraint : string) : M S (list ConstraintSourceTypeInfo) :=
  constraintsList ← GetSpecificOAConstraintsList id;
  if bool_decide (constraint ∈ constraintsList) then
    specificOAConstraintsJson ← GetSpecificOAConstraintsFromFile;
    mret (source_infos deviceOwnerId (strings_of (GetObjFromJson specificOAConstraintsJson (to_string id)) constraint))
  else mret [].

(** *** The device owner *)

(** [deviceOwnerId] comes in with the caller's value.

    [OsAccountControlFileManager::GetDeviceOwnerId], os_account_control_file_manager.cpp *)
Definition GetDeviceOwnerId (deviceOwnerId : Z) : M S Z :=
  globalOAConstraintsJson ← GetGlobalOAConstraintsFromFile;
  mret (default deviceOwnerId (GetIntFromJson globalOAConstraintsJson DEVICE_OWNER_ID)).

(** [OsAccountControlFileManager::UpdateDeviceOwnerId], os_account_control_file_manager.cpp *)
Definition UpdateDeviceOwnerId (deviceOwnerId : Z) : M S unit :=
  globalOAConstraintsJson ← GetGlobalOAConstraintsFromFile;
  match AddIntToJson globalOAConstraintsJson DEVICE_OWNER_ID deviceOwnerId with
  | None => merr ERR_ACCOUNT_COMMON_DUMP_JSON_ERROR
  | Some j => SaveGlobalOAConstraintsToFile (Some j)
  end.
End Operations.
