(* ===== verification/ConstraintMaps.v ===== *)
(** The map from constraints to their sources, and how a JSON object holds it.

    [holds known all extra l m]: the object with the fields [l] has the constraints
    of [m] under [all] and the sources of each under its name; [extra] are the names
    that are neither.  [pending] is the same in the middle of an operation that has
    names to erase yet.  The operations of OsAccountConstraints.v on documents are
    shown to be [add_sources] and [remove_sources] on maps. *)
From Stdlib Require Import ZArith Lia Ascii String.
From stdpp Require Import base list gmap sets strings pretty sorting.
From S2P Require Import Prelude ErrorCodes Json FileStore OsAccountInfo OsAccountEnv OsAccountFiles.
From S2P Require Import OsAccountList OsAccountConstraints.

Abbreviation constraint_map := (gmap string (gset Z)).

Implicit Types (m : gmap string (gset Z)) (l : list (string * CJson)).

(** ** The abstract operations *)

(** The accounts that set a constraint. *)
Definition sources (m : constraint_map) (c : string) : gset Z := default ∅ (m !! c).

Definition set_sources (c : string) (X : gset Z) (m : constraint_map) : constraint_map :=
  if decide (X = ∅) then delete c m else <[c := X]> m.

Definition add_sources (id : Z) (cs : list string) (m : constraint_map) : constraint_map :=
  foldl (λ m c, set_sources c ({[id]} ∪ sources m c) m) m cs.
Definition remove_sources (id : Z) (cs : list string) (m : constraint_map) : constraint_map :=
  foldl (λ m c, set_sources c (sources m c ∖ {[id]}) m) m cs.

Lemma sources_Some c X m : m !! c = Some X → sources m c = X.
Proof. intros Hm. unfold sources. by rewrite Hm. Qed.
Lemma sources_None c m : m !! c = None → sources m c = ∅.
Proof. intros Hm. unfold sources. by rewrite Hm. Qed.

Lemma sources_set c c' X m : sources (set_sources c X m) c' = if decide (c' = c) then X else sources m c'.
Proof.
  unfold sources, set_sources. destruct (decide (X = ∅)) as [->|]; destruct (decide (c' = c)) as [->|].
  - by rewrite lookup_delete_eq.
  - by rewrite lookup_delete_ne.
  - by rewrite lookup_insert_eq.
  - by rewrite lookup_insert_ne.
Qed.

Lemma sources_add id cs m c : sources (add_sources id cs m) c = if decide (c ∈ cs) then {[id]} ∪ sources m c else sources m c.
Proof.
  revert m. induction cs as [|c' cs IH]; intros m; cbn [add_sources foldl]; [by rewrite decide_False by set_solver|].
  change (foldl _ ?m' cs) with (add_sources id cs m'). rewrite IH, sources_set.
  repeat case_decide; set_solver.
Qed.

Lemma sources_remove id cs m c : sources (remove_sources id cs m) c = if decide (c ∈ cs) then sources m c ∖ {[id]} else sources m c.
Proof.
  revert m. induction cs as [|c' cs IH]; intros m; cbn [remove_sources foldl]; [by rewrite decide_False by set_solver|].
  change (foldl _ ?m' cs) with (remove_sources id cs m'). rewrite IH, sources_set.
  repeat case_decide; set_solver.
Qed.

(** ** Lists of strings in an object *)

(** The strings under a name; none where there is no array. *)
Definition strings_at (k : string) (l : list (string * CJson)) (xs : list string) : Prop :=
  obj_find k l = Some (JArray (JString <$> xs)) ∨ (xs = [] ∧ ∀ ys, obj_find k l ≠ Some (JArray ys)).

Section Strings.
Context {cjson : CJsonLib} {laws : CJsonLaws}.

Lemma strings_of_at k l xs :
  nul_free k → k ≠ "" → Z.of_nat (length xs) ≤ INT32_MAX → strings_at k l xs → strings_of (Some (JObject l)) k = xs.
Proof.
  intros Hk Hne Hlen Hx. unfold strings_of. assert (He : string_empty k = false) by by destruct k.
  destruct Hx as [Hf|[-> Hf]].
  - rewrite (GetVectorStringFromJson_read l k xs []); [done|done|by rewrite Hk|done].
  - unfold GetVectorStringFromJson. rewrite IsKeyExist_object, find_item_object, Hk by done.
    case_bool_decide; [|done]. destruct (obj_find k l) as [[]|]; try done. by destruct (Hf l0).
Qed.

Lemma strings_at_set k k' l v xs : k ≠ k' → strings_at k l xs → strings_at k (obj_set k' v l) xs.
Proof. intros Hne Hx. unfold strings_at. rewrite obj_find_set, decide_False by done. exact Hx. Qed.

Lemma strings_at_here k l xs : strings_at k (obj_set k (JArray (JString <$> xs)) l) xs.
Proof. left. by rewrite obj_find_set, decide_True. Qed.

Context {target : Target} {alloc : CJsonAlloc}.

Lemma set_strings k l xs :
  nul_free k → k ≠ "" → Forall nul_free xs →
  AddVectorStringToJson (Some (JObject l)) k xs = Some (JObject (obj_set k (JArray (JString <$> xs)) l)).
Proof.
  intros Hk Hne Hxs. rewrite AddVectorStringToJson_eq by (by destruct k). by rewrite Hk, c_str_strings.
Qed.
End Strings.

Lemma remove_all_spec x y (l : list string) : y ∈ remove_all x l ↔ y ≠ x ∧ y ∈ l.
Proof. unfold remove_all. by rewrite list_elem_of_filter. Qed.
Lemma remove_all_NoDup x (l : list string) : NoDup l → NoDup (remove_all x l).
Proof. apply NoDup_filter. Qed.
Lemma remove_all_length x (l : list string) : (length (remove_all x l) ≤ length l)%nat.
Proof. apply length_filter. Qed.

(** What is in a set has no more members. *)
Lemma NoDup_length_set (X : gset string) (xs : list string) :
  NoDup xs → (∀ x, x ∈ xs → x ∈ X) → (length xs ≤ size X)%nat.
Proof.
  intros Hnd Hsub. assert (H : xs ⊆+ elements X).
  - apply NoDup_submseteq; [done|]. intros x Hx. by apply elem_of_elements, Hsub.
  - by apply submseteq_length in H.
Qed.

(** ** Objects that hold a map *)

(** The names of constraints; [all] and [extra] are other names of the object. *)
Record constraint_names (known : gset string) (all : string) (extra : gset string) : Prop := {
  names_nul_free : Forall nul_free (all :: elements (known ∪ extra));
  names_nonempty : all ≠ "" ∧ "" ∉ known ∪ extra;
  names_all : all ∉ known ∪ extra;
  names_extra : known ## extra;
  names_size : Z.of_nat (size known) ≤ INT32_MAX;
}.

Definition account_id (id : Z) : Prop := 0 ≤ id ≤ MAX_USER_ID.

(** The sources of a constraint, as they are written. *)
Definition sources_at (c : string) (l : list (string * CJson)) (X : gset Z) : Prop :=
  ∃ ys, obj_find c l = Some (JArray (JString <$> (id_string <$> ys))) ∧ NoDup ys ∧ Forall account_id ys ∧ list_to_set ys = X.

Section Holds.
Context {cjson : CJsonLib} {laws : CJsonLaws} {target : Target} {alloc : CJsonAlloc}.
Context (known : gset string) (all : string) (extra : gset string) (Hnames : constraint_names known all extra).

(** [xs] is the list under [all] and [w] are the names to erase: constraints that are
    not in [m] any more and have no source but [id]. *)
Record pending (id : Z) (l : list (string * CJson)) (xs w : list string) (m : constraint_map) : Prop := {
  p_plain : json_plain (JObject l) = true;
  p_depth : (json_depth (JObject l) ≤ 2)%nat;
  p_keys : NoDup l.*1;
  p_list : strings_at all l xs;
  p_list_NoDup : NoDup xs;
  p_list_dom : ∀ c, c ∈ xs ↔ is_Some (m !! c);
  p_known : ∀ c, is_Some (m !! c) → c ∈ known;
  p_sources : ∀ c X, m !! c = Some X → X ≠ ∅ ∧ sources_at c l X;
  p_pending : ∀ c, c ∈ w → c ∈ known ∧ m !! c = None ∧
    (obj_find c l = None ∨ ∃ X, sources_at c l X ∧ X ⊆ {[id]});
  p_others : ∀ k, k ∈ l.*1 → k = all ∨ k ∈ extra ∨ is_Some (m !! k) ∨ k ∈ w;
}.

Definition holds (l : list (string * CJson)) (m : constraint_map) : Prop := ∃ id xs, pending id l xs [] m.

Lemma name_ok c : c ∈ known → nul_free c ∧ c ≠ "" ∧ c ≠ all.
Proof.
  intros Hc. destruct Hnames as [Hn [Hne Hne'] Ha _ _]. rewrite Forall_cons in Hn. destruct Hn as [_ Hn].
  rewrite Forall_forall in Hn. split_and!; [apply Hn, elem_of_elements|intros ->|intros ->]; set_solver.
Qed.

Lemma all_ok : nul_free all ∧ all ≠ "".
Proof. destruct Hnames as [Hn [Hne _] _ _ _]. rewrite Forall_cons in Hn. by destruct Hn. Qed.

Lemma known_strings xs : (∀ c, c ∈ xs → c ∈ known) → Forall nul_free xs.
Proof. intros H. apply Forall_forall. intros c Hc. by apply name_ok, H. Qed.

Lemma id_strings ys : Forall nul_free (id_string <$> ys).
Proof. apply Forall_fmap, Forall_forall. intros id _. apply to_string_nul_free. Qed.

Lemma ids_short ys : NoDup ys → Forall account_id ys → Z.of_nat (length (id_string <$> ys)) ≤ INT32_MAX.
Proof.
  intros Hnd Hys. rewrite length_fmap. assert (Hsub : ys ⊆+ seqZ 0 (MAX_USER_ID + 1)).
  - apply NoDup_submseteq; [done|]. intros x Hx. rewrite Forall_forall in Hys. apply Hys in Hx.
    apply elem_of_seqZ. unfold account_id in Hx. lia.
  - apply submseteq_length in Hsub. rewrite length_seqZ in Hsub. unfold MAX_USER_ID, INT32_MAX in *. lia.
Qed.

Lemma list_short id l xs w m : pending id l xs w m → Z.of_nat (length xs) ≤ INT32_MAX.
Proof.
  intros Hp. assert (H : (length xs ≤ size known)%nat).
  - apply NoDup_length_set; [apply (p_list_NoDup _ _ _ _ _ Hp)|]. intros x Hx.
    by apply (p_known _ _ _ _ _ Hp), (p_list_dom _ _ _ _ _ Hp).
  - pose proof (names_size _ _ _ Hnames). lia.
Qed.

Lemma read_list id l xs w m : pending id l xs w m → strings_of (Some (JObject l)) all = xs.
Proof.
  intros Hp. destruct all_ok. apply strings_of_at; [done|done|by eapply list_short|]. apply (p_list _ _ _ _ _ Hp).
Qed.

Lemma read_sources c l X :
  c ∈ known → sources_at c l X →
  ∃ ys, strings_of (Some (JObject l)) c = id_string <$> ys ∧ NoDup ys ∧ Forall account_id ys ∧ list_to_set ys = X.
Proof.
  intros Hc (ys & Hf & Hnd & Hr & HX). exists ys. split_and!; [|done..]. destruct (name_ok c Hc) as (? & ? & _).
  apply strings_of_at; [done|done|by apply ids_short|by left].
Qed.

Lemma sources_at_set c k v l X : c ≠ k → sources_at c l X → sources_at c (obj_set k v l) X.
Proof. intros Hne (ys & Hf & Hrest). exists ys. by rewrite obj_find_set, decide_False. Qed.

Lemma sources_at_here c l ys :
  NoDup ys → Forall account_id ys →
  sources_at c (obj_set c (JArray (JString <$> (id_string <$> ys))) l) (list_to_set ys).
Proof. intros Hnd Hr. exists ys. by rewrite obj_find_set, decide_True. Qed.

(** Writing a list of strings keeps the object small and printable. *)
Lemma array_set_ok k l xs :
  nul_free k → Forall nul_free xs → json_plain (JObject l) = true → (json_depth (JObject l) ≤ 2)%nat → NoDup l.*1 →
  let l' := obj_set k (JArray (JString <$> xs)) l in
  json_plain (JObject l') = true ∧ (json_depth (JObject l') ≤ 2)%nat ∧ NoDup l'.*1 ∧
  (∀ k', k' ∈ l'.*1 → k' = k ∨ k' ∈ l.*1).
Proof.
  intros Hk Hxs Hp Hd Hnd l'. split_and!.
  - cbn [json_plain] in *. apply forallb_Forall_true, obj_set_Forall.
    + apply andb_true_iff. split; [by apply bool_decide_eq_true|by apply strings_plain].
    + apply Forall_forall. intros kv Hkv. rewrite forallb_forall in Hp. by apply Hp, list_elem_of_In.
  - apply json_depth_fields, obj_set_Forall; [cbn [snd]; rewrite string_array_depth; done|by apply json_depth_fields].
  - by apply obj_set_NoDup.
  - intros k'. unfold l'. rewrite obj_set_keys. destruct (obj_find k l); set_solver.
Qed.

(** *** The steps *)

Lemma id_string_mem id ys : account_id id → Forall account_id ys → id_string id ∈ id_string <$> ys ↔ id ∈ ys.
Proof.
  intros Hid Hys. rewrite list_elem_of_fmap. split; [|by intros; exists id].
  intros (x & Hx & Hin). rewrite Forall_forall in Hys. pose proof (Hys x Hin). unfold account_id in *.
  apply to_string_inj in Hx; [by subst|lia..].
Qed.

Lemma remove_id_string id ys :
  account_id id → Forall account_id ys → remove_all (id_string id) (id_string <$> ys) = id_string <$> filter (λ x, x ≠ id) ys.
Proof.
  intros Hid Hys. unfold remove_all. induction Hys as [|x ys Hx _ IH]; [done|]. rewrite fmap_cons, !filter_cons, IH.
  destruct (decide (x = id)) as [->|Hne]; [by rewrite !decide_False by (intros H; by apply H)|].
  rewrite !decide_True; [done|done|]. unfold account_id in *. intros E. apply to_string_inj in E; [done|lia..].
Qed.

Lemma set_snoc (ys : list Z) id : id ∉ ys → NoDup ys → NoDup (ys ++ [id]) ∧ (list_to_set (ys ++ [id]) : gset Z) = {[id]} ∪ list_to_set ys.
Proof. intros Hni Hnd. split; [apply NoDup_app; split_and!; [done|set_solver|apply NoDup_singleton]|set_solver]. Qed.

(** Rewriting the sources of a constraint of the map. *)
Lemma pending_write_sources id l xs w m c ys :
  pending id l xs w m → is_Some (m !! c) → NoDup ys → Forall account_id ys → ys ≠ [] →
  AddVectorStringToJson (Some (JObject l)) c (id_string <$> ys) =
    Some (JObject (obj_set c (JArray (JString <$> (id_string <$> ys))) l)) ∧
  pending id (obj_set c (JArray (JString <$> (id_string <$> ys))) l) xs w (set_sources c (list_to_set ys) m).
Proof.
  intros Hp Hc Hnd Hr Hne. pose proof (p_known _ _ _ _ _ Hp c Hc) as Hk. destruct (name_ok c Hk) as (Hn & He & Ha).
  split; [apply set_strings; [done|done|apply id_strings]|].
  assert (HX : (list_to_set ys : gset Z) ≠ ∅) by (destruct ys; [done|set_solver]).
  unfold set_sources. rewrite decide_False by done.
  destruct (array_set_ok c l (id_string <$> ys) Hn (id_strings ys) (p_plain _ _ _ _ _ Hp) (p_depth _ _ _ _ _ Hp)
    (p_keys _ _ _ _ _ Hp)) as (H1 & H2 & H3 & H4).
  assert (Hdom : ∀ k, is_Some (<[c := list_to_set ys]> m !! k) ↔ is_Some (m !! k)).
  { intros k. destruct (decide (k = c)) as [->|]; [|by rewrite lookup_insert_ne]. by rewrite lookup_insert_eq. }
  constructor; [done|done|done|apply strings_at_set; [done|apply (p_list _ _ _ _ _ Hp)]|apply (p_list_NoDup _ _ _ _ _ Hp)| | | | |].
  - intros k. rewrite Hdom. apply (p_list_dom _ _ _ _ _ Hp).
  - intros k. rewrite Hdom. apply (p_known _ _ _ _ _ Hp).
  - intros k X. destruct (decide (k = c)) as [->|Hkc].
    + rewrite lookup_insert_eq. intros [= <-]. split; [done|]. by apply sources_at_here.
    + rewrite lookup_insert_ne by done. intros HX'. destruct (p_sources _ _ _ _ _ Hp k X HX') as [? ?].
      split; [done|]. by apply sources_at_set.
  - intros k Hkw. destruct (p_pending _ _ _ _ _ Hp k Hkw) as (Hkk & Hn' & Hs). destruct (decide (k = c)) as [->|Hkc].
    { rewrite Hn' in Hc. by destruct Hc. }
    split_and!; [done|by rewrite lookup_insert_ne|]. rewrite obj_find_set, decide_False by done.
    destruct Hs as [?|(X & HXs & ?)]; [by left|right]. exists X. split; [by apply sources_at_set|done].
  - intros k [->|Hk']%H4; [right; right; left; by rewrite lookup_insert_eq|].
    rewrite Hdom. by apply (p_others _ _ _ _ _ Hp).
Qed.
(** A constraint loses its last source: it is not in the list any more, and its name
    is to be erased. *)
Lemma pending_drop id l xs w m c :
  pending id l xs w m → c ∈ known →
  (obj_find c l = None ∨ ∃ X, sources_at c l X ∧ X ⊆ {[id]}) →
  let xs' := remove_all c xs in
  AddVectorStringToJson (Some (JObject l)) all xs' = Some (JObject (obj_set all (JArray (JString <$> xs')) l)) ∧
  pending id (obj_set all (JArray (JString <$> xs')) l) xs' (w ++ [c]) (delete c m).
Proof.
  intros Hp Hk Hsrc xs'. destruct all_ok as [Hna Hnea]. destruct (name_ok c Hk) as (Hn & He & Ha).
  assert (Hxs' : ∀ x, x ∈ xs' → x ∈ known).
  { intros x [_ Hx]%remove_all_spec. by apply (p_known _ _ _ _ _ Hp), (p_list_dom _ _ _ _ _ Hp). }
  split; [apply set_strings; [done|done|by apply known_strings]|].
  destruct (array_set_ok all l xs' Hna (known_strings _ Hxs') (p_plain _ _ _ _ _ Hp) (p_depth _ _ _ _ _ Hp)
    (p_keys _ _ _ _ _ Hp)) as (H1 & H2 & H3 & H4).
  assert (Hdom : ∀ k, is_Some (delete c m !! k) ↔ k ≠ c ∧ is_Some (m !! k)).
  { intros k. destruct (decide (k = c)) as [->|].
    - rewrite lookup_delete_eq. split; [by intros []|tauto].
    - rewrite lookup_delete_ne by done. tauto. }
  assert (Hold : ∀ k, k ∈ known → (obj_find k l = None ∨ ∃ X, sources_at k l X ∧ X ⊆ {[id]}) →
    obj_find k (obj_set all (JArray (JString <$> xs')) l) = None ∨
    ∃ X, sources_at k (obj_set all (JArray (JString <$> xs')) l) X ∧ X ⊆ {[id]}).
  { intros k Hkk Hs. destruct (name_ok k Hkk) as (_ & _ & Hka).
    destruct Hs as [Hs|(X & Hs & ?)]; [left; by rewrite obj_find_set, decide_False|right].
    exists X. split; [by apply sources_at_set|done]. }
  constructor; [done|done|done|apply strings_at_here|by apply remove_all_NoDup, (p_list_NoDup _ _ _ _ _ Hp)| | | | |].
  - intros k. unfold xs'. by rewrite remove_all_spec, Hdom, (p_list_dom _ _ _ _ _ Hp).
  - intros k [_ Hk']%Hdom. by apply (p_known _ _ _ _ _ Hp).
  - intros k X Hkx. destruct (proj1 (Hdom k) ltac:(by eexists)) as [Hkc Hm]. rewrite lookup_delete_ne in Hkx by done.
    destruct (p_sources _ _ _ _ _ Hp k X Hkx) as [? ?]. split; [done|]. apply sources_at_set; [|done].
    by apply name_ok, (p_known _ _ _ _ _ Hp).
  - intros k [Hkw| ->%list_elem_of_singleton]%elem_of_app.
    + destruct (p_pending _ _ _ _ _ Hp k Hkw) as (Hkk & Hn' & Hs). split_and!; [done| |by apply Hold].
      destruct (decide (k = c)) as [->|]; [by rewrite lookup_delete_eq|by rewrite lookup_delete_ne].
    + split_and!; [done|by rewrite lookup_delete_eq|by apply Hold].
  - intros k [->|Hkl]%H4; [by left|]. rewrite Hdom, elem_of_app, list_elem_of_singleton.
    destruct (p_others _ _ _ _ _ Hp k Hkl) as [?|[?|[?|?]]]; [by left|tauto| |tauto].
    destruct (decide (k = c)); tauto.
Qed.

(** A constraint gets its first source. *)
Lemma pending_new id l xs m c :
  pending id l xs [] m → c ∈ known → m !! c = None → account_id id →
  let l1 := obj_set c (JArray (JString <$> (id_string <$> [id]))) l in
  let l2 := obj_set all (JArray (JString <$> (xs ++ [c]))) l1 in
  AddVectorStringToJson (Some (JObject l)) c [id_string id] = Some (JObject l1) ∧
  AddVectorStringToJson (Some (JObject l1)) all (xs ++ [c]) = Some (JObject l2) ∧
  pending id l2 (xs ++ [c]) [] (<[c := {[id]}]> m).
Proof.
  intros Hp Hk Hm Hid l1 l2. destruct all_ok as [Hna Hnea]. destruct (name_ok c Hk) as (Hn & He & Ha).
  assert (Hxs' : ∀ x, x ∈ xs ++ [c] → x ∈ known).
  { intros x [Hx| ->%list_elem_of_singleton]%elem_of_app; [|done]. by apply (p_known _ _ _ _ _ Hp), (p_list_dom _ _ _ _ _ Hp). }
  split; [exact (set_strings c l (id_string <$> [id]) Hn He (id_strings [id]))|].
  split; [apply set_strings; [done|done|by apply known_strings]|].
  destruct (array_set_ok c l (id_string <$> [id]) Hn (id_strings [id]) (p_plain _ _ _ _ _ Hp) (p_depth _ _ _ _ _ Hp)
    (p_keys _ _ _ _ _ Hp)) as (H1 & H2 & H3 & H4). fold l1 in H1, H2, H3, H4.
  destruct (array_set_ok all l1 (xs ++ [c]) Hna (known_strings _ Hxs') H1 H2 H3) as (H5 & H6 & H7 & H8). fold l2 in H5, H6, H7, H8.
  assert (Hdom : ∀ k, is_Some (<[c := {[id]}]> m !! k) ↔ k = c ∨ is_Some (m !! k)).
  { intros k. destruct (decide (k = c)) as [->|]; [rewrite lookup_insert_eq; split; [by left|done]|].
    rewrite lookup_insert_ne by done. tauto. }
  assert (Hni : c ∉ xs) by (intros [x Hx]%(p_list_dom _ _ _ _ _ Hp); congruence).
  constructor; [done|done|done|apply strings_at_here| | | | | |].
  - apply NoDup_app. split_and!; [apply (p_list_NoDup _ _ _ _ _ Hp)|set_solver|apply NoDup_singleton].
  - intros k. rewrite Hdom, elem_of_app, list_elem_of_singleton, (p_list_dom _ _ _ _ _ Hp). tauto.
  - intros k [->|Hk']%Hdom; [done|]. by apply (p_known _ _ _ _ _ Hp).
  - intros k X. destruct (decide (k = c)) as [->|Hkc].
    + rewrite lookup_insert_eq. intros [= <-]. split; [set_solver|]. apply sources_at_set; [done|].
      pose proof (sources_at_here c l [id] (NoDup_singleton id) (proj2 (Forall_singleton _ _) Hid)) as Hs.
      by rewrite list_to_set_singleton_L in Hs.
    + rewrite lookup_insert_ne by done. intros HX. destruct (p_sources _ _ _ _ _ Hp k X HX) as [? ?].
      split; [done|]. apply sources_at_set; [by apply name_ok, (p_known _ _ _ _ _ Hp); eexists|]. by apply sources_at_set.
  - intros k Hkw. by apply not_elem_of_nil in Hkw.
  - intros k [->|[->|Hkl]%H4]%H8; [by left|right; right; left; apply Hdom; by left|]. rewrite Hdom.
    destruct (p_others _ _ _ _ _ Hp k Hkl) as [?|[?|[?|?]]]; tauto.
Qed.

(** One name that is pending is deleted. *)
Lemma pending_delete id l xs c w m : pending id l xs (c :: w) m → pending id (obj_delete c l) xs w m.
Proof.
  intros Hp. destruct (p_pending _ _ _ _ _ Hp c) as (Hk & Hm & _); [left|]. destruct (name_ok c Hk) as (_ & _ & Ha).
  pose proof (p_keys _ _ _ _ _ Hp) as Hnd. pose proof (@obj_delete_find CJson c) as Hfind.
  assert (Hsub : ∀ k, k ∈ (obj_delete c l).*1 → k ∈ l.*1 ∧ k ≠ c).
  { intros k Hkl. destruct (obj_find k (obj_delete c l)) eqn:E; [|by apply obj_find_None in E].
    rewrite Hfind in E by done. case_decide; [done|]. split; [|done].
    apply obj_find_In in E. apply list_elem_of_fmap. by exists (k, c0). }
  constructor.
  - pose proof (p_plain _ _ _ _ _ Hp) as H. cbn [json_plain] in *. apply forallb_Forall_true, obj_delete_Forall, Forall_forall.
    intros kv Hkv. rewrite forallb_forall in H. by apply H, list_elem_of_In.
  - apply json_depth_fields, obj_delete_Forall, json_depth_fields, (p_depth _ _ _ _ _ Hp).
  - by apply obj_delete_NoDup.
  - pose proof (p_list _ _ _ _ _ Hp) as H. unfold strings_at in *. rewrite Hfind, decide_False by done. exact H.
  - apply (p_list_NoDup _ _ _ _ _ Hp).
  - apply (p_list_dom _ _ _ _ _ Hp).
  - apply (p_known _ _ _ _ _ Hp).
  - intros k X HX. destruct (p_sources _ _ _ _ _ Hp k X HX) as [? (ys & Hf & Hrest)]. split; [done|]. exists ys.
    rewrite Hfind, decide_False by (first [done | congruence]). done.
  - intros k Hkw. destruct (p_pending _ _ _ _ _ Hp k) as (? & ? & Hs); [by right|]. split_and!; [done..|].
    rewrite Hfind by done. case_decide; [by left|]. destruct Hs as [?|(X & (ys & Hf & Hrest) & ?)]; [by left|right].
    exists X. split; [|done]. exists ys. by rewrite Hfind, decide_False.
  - intros k [Hkl Hkc]%Hsub. destruct (p_others _ _ _ _ _ Hp k Hkl) as [?|[?|[?|Hkw]]]; [tauto..|].
    apply elem_of_cons in Hkw. tauto.
Qed.

Lemma obj_delete_absent {A} k (l : list (string * A)) : obj_find k l = None → obj_delete k l = l.
Proof. induction l as [|[k' v] l IH]; [done|]. cbn. case_decide; [done|]. intros Hl. by rewrite IH. Qed.

Lemma DeleteItem_object c l :
  c ≠ "" → nul_free c → (DeleteItemFromJson (Some (JObject l)) c).2 = Some (JObject (obj_delete c l)).
Proof.
  intros Hne Hn. unfold DeleteItemFromJson. rewrite IsKeyExist_object, Hn by (by destruct c).
  case_bool_decide as Hs; cbn [snd fmap option_fmap option_map]; [by rewrite delete_from_object|].
  rewrite obj_delete_absent; [done|]. destruct (obj_find c l); [by destruct Hs|done].
Qed.

(** The names that are no constraints are not touched. *)
Definition same_rest (l l' : list (string * CJson)) : Prop := ∀ k, k ∉ known → k ≠ all → obj_find k l' = obj_find k l.

Lemma same_rest_refl l : same_rest l l.
Proof. by intros k _ _. Qed.
Lemma same_rest_trans l l' l'' : same_rest l l' → same_rest l' l'' → same_rest l l''.
Proof. intros H H' k Hk Ha. by rewrite H', H. Qed.
Lemma same_rest_set k v l : k ∈ known ∨ k = all → same_rest l (obj_set k v l).
Proof. intros Hk k' Hk' Ha. rewrite obj_find_set, decide_False; [done|]. intros ->. by destruct Hk. Qed.

(** Erasing the names that are pending. *)
Lemma erase_pending id l xs w m :
  pending id l xs w m →
  ∃ l', erase_keys w (Some (JObject l)) = Some (JObject l') ∧ pending id l' xs [] m ∧ same_rest l l'.
Proof.
  revert l. induction w as [|c w IH]; intros l Hp; [exists l; split_and!; [done|done|apply same_rest_refl]|].
  destruct (p_pending _ _ _ _ _ Hp c) as (Hk & _ & _); [left|]. destruct (name_ok c Hk) as (Hn & He & _).
  destruct (IH _ (pending_delete _ _ _ _ _ _ Hp)) as (l' & Her & Hp' & Hsame). exists l'. split_and!; [|done|].
  - cbn [erase_keys foldl]. rewrite DeleteItem_object by done. exact Her.
  - intros k Hkk Ha. rewrite Hsame, obj_delete_find by (first [done | apply (p_keys _ _ _ _ _ Hp)]).
    rewrite decide_False; [done|]. by intros ->.
Qed.

(** *** The two operations *)

(** A state of a loop that stands for [m], and has not touched anything else. *)
Definition stands_for (id : Z) (l0 : list (string * CJson)) (st : Operation) (m : constraint_map) : Prop :=
  ∃ l, op_json st = Some (JObject l) ∧ pending id l (op_list st) (waitForErase st) m ∧ same_rest l0 l.

Lemma set_sources_same c X m : m !! c = Some X → X ≠ ∅ → set_sources c X m = m.
Proof. intros Hm HX. unfold set_sources. rewrite decide_False by done. by apply insert_id. Qed.

Lemma set_sources_empty c m : m !! c = None → set_sources c ∅ m = m.
Proof. intros Hm. unfold set_sources. rewrite decide_True by done. by apply delete_id. Qed.

Lemma add_source_step id l0 st m c :
  account_id id → stands_for id l0 st m → c ∈ known → waitForErase st = [] →
  let st' := add_source all (id_string id) c st in
  stands_for id l0 st' (set_sources c ({[id]} ∪ sources m c) m) ∧ waitForErase st' = [].
Proof.
  intros Hid (l & Hj & Hp & Hrest) Hk Hw. unfold add_source. rewrite Hj. destruct (m !! c) as [X|] eqn:Hm.
  - assert (Hs : is_Some (m !! c)) by (by eexists). assert (Hin : c ∈ op_list st) by (by apply (p_list_dom _ _ _ _ _ Hp)).
    rewrite bool_decide_eq_true_2 by done. destruct (p_sources _ _ _ _ _ Hp c X Hm) as [HX Hsrc].
    destruct (read_sources c l X Hk Hsrc) as (ys & -> & Hnd & Hr & <-).
    rewrite (bool_decide_ext _ (id ∈ ys)) by (by apply id_string_mem). rewrite (sources_Some c _ m Hm).
    case_bool_decide as Hys; cbn [waitForErase].
    + replace ({[id]} ∪ list_to_set ys) with (list_to_set ys : gset Z) by set_solver. rewrite (set_sources_same c _ m Hm HX).
      split; [by exists l|done].
    + destruct (set_snoc ys id Hys Hnd) as [Hnd' <-].
      change ((id_string <$> ys) ++ [id_string id]) with ((id_string <$> ys) ++ (id_string <$> [id])). rewrite <-fmap_app.
      destruct (pending_write_sources id l (op_list st) (waitForErase st) m c (ys ++ [id])) as [-> Hp'];
        [done|done|done|apply Forall_app; split; [done|by apply Forall_singleton]|by destruct ys|].
      split; [|done]. eexists. split; [reflexivity|]. split; [exact Hp'|].
      eapply same_rest_trans; [exact Hrest|]. apply same_rest_set. by left.
  - assert (Hni : c ∉ op_list st) by (intros [x Hx]%(p_list_dom _ _ _ _ _ Hp); congruence).
    rewrite bool_decide_eq_false_2 by done. rewrite Hw in Hp |- *.
    destruct (pending_new id l (op_list st) m c Hp Hk Hm Hid) as (-> & E2 & Hp'). cbn [changed_or]. rewrite E2. cbn [changed_or waitForErase].
    split; [|done]. eexists. split; [reflexivity|]. rewrite (sources_None c m Hm). unfold set_sources. cbn [op_list].
    rewrite (right_id_L ∅ (∪)), decide_False by set_solver. split; [exact Hp'|].
    do 2 (eapply same_rest_trans; [|apply same_rest_set; auto]). exact Hrest.
Qed.

Lemma remove_operate_step id l0 l st m c X :
  account_id id → op_json st = Some (JObject l) → pending id l (op_list st) (waitForErase st) m → same_rest l0 l →
  c ∈ known → sources_at c l X → sources m c = X ∨ (m !! c = None ∧ X ⊆ {[id]}) →
  stands_for id l0 (RemoveConstraintsFromJsonOperate all c (id_string id) st).2 (set_sources c (sources m c ∖ {[id]}) m).
Proof.
  intros Hid Hj Hp Hrest Hk Hsrc HX. unfold RemoveConstraintsFromJsonOperate. rewrite Hj.
  destruct (read_sources c l X Hk Hsrc) as (ys & -> & Hnd & Hr & Hys). rewrite remove_id_string by done.
  assert (HX' : (list_to_set (filter (λ x, x ≠ id) ys) : gset Z) = X ∖ {[id]}).
  { apply set_eq. intros x. rewrite elem_of_list_to_set, list_elem_of_filter. set_solver. }
  case_bool_decide as He.
  - assert (Hnil : filter (λ x, x ≠ id) ys = []) by (by destruct (filter (λ x, x ≠ id) ys)).
    rewrite Hnil in HX'. change (list_to_set []) with (∅ : gset Z) in HX'.
    assert (Hsub : X ⊆ {[id]}) by (clear -HX'; intros x Hx; destruct (decide (x = id)); set_solver).
    destruct (pending_drop id l (op_list st) (waitForErase st) m c Hp Hk) as [-> Hp']; [right; by exists X|].
    eexists. split; [reflexivity|]. cbn [snd op_list waitForErase]. unfold set_sources.
    rewrite decide_True; [split; [exact Hp'|]|].
    + eapply same_rest_trans; [exact Hrest|]. apply same_rest_set. by right.
    + destruct HX as [->|[Hm _]]; [done|]. rewrite (sources_None c m Hm). set_solver.
  - assert (Hne : filter (λ x, x ≠ id) ys ≠ []) by (intros E; by rewrite E in He).
    assert (Hm : sources m c = X).
    { destruct HX as [?|[_ Hsub]]; [done|]. exfalso. apply Hne.
      destruct (filter (λ x, x ≠ id) ys) as [|x r] eqn:E; [done|]. assert (x ∈ X ∖ {[id]}) by (rewrite <-HX'; set_solver). set_solver. }
    assert (Hs : is_Some (m !! c)).
    { unfold sources in Hm. destruct (m !! c); [done|]. cbn in Hm. exfalso. apply Hne.
      destruct (filter (λ x, x ≠ id) ys) as [|x r] eqn:E; [done|]. assert (x ∈ X ∖ {[id]}) by (rewrite <-HX'; set_solver). set_solver. }
    destruct (pending_write_sources id l (op_list st) (waitForErase st) m c (filter (λ x, x ≠ id) ys)) as [-> Hp'];
      [done|done|by apply NoDup_filter| |done|].
    + apply Forall_forall. intros x [_ Hx]%list_elem_of_filter. rewrite Forall_forall in Hr. by apply Hr.
    + eexists. split; [reflexivity|]. cbn [snd op_list waitForErase]. rewrite HX' in Hp'. rewrite Hm. split; [exact Hp'|].
      eapply same_rest_trans; [exact Hrest|]. apply same_rest_set. by left.
Qed.
(** *** The loops *)

Lemma pending_any id id' l xs m : pending id l xs [] m → pending id' l xs [] m.
Proof.
  intros Hp. constructor; try apply Hp. intros c Hc. by apply not_elem_of_nil in Hc.
Qed.

Lemma holds_stands_for id l m :
  holds l m → stands_for id l (mkOperation (Some (JObject l)) (strings_of (Some (JObject l)) all) []) m.
Proof.
  intros (id0 & xs & Hp). rewrite (read_list _ _ _ _ _ Hp). exists l. split_and!; [done| |apply same_rest_refl].
  by apply (pending_any id0).
Qed.

Lemma stands_for_done id l0 st m :
  stands_for id l0 st m →
  ∃ l', erase_keys (waitForErase st) (op_json st) = Some (JObject l') ∧ holds l' m ∧ same_rest l0 l'.
Proof.
  intros (l & -> & Hp & Hrest). destruct (erase_pending _ _ _ _ _ Hp) as (l' & -> & Hp' & Hrest').
  exists l'. split_and!; [done|by exists id, (op_list st)|by eapply same_rest_trans].
Qed.

Lemma add_loop id l0 cs st m :
  account_id id → Forall (.∈ known) cs → waitForErase st = [] → stands_for id l0 st m →
  stands_for id l0 (foldl (λ st c, add_source all (id_string id) c st) st cs) (add_sources id cs m).
Proof.
  intros Hid Hcs. revert st m. induction Hcs as [|c cs Hc _ IH]; intros st m Hw Hst; [done|].
  cbn [foldl add_sources]. destruct (add_source_step id l0 st m c Hid Hst Hc Hw) as [Hst' Hw']. by apply IH.
Qed.

(** The constraints that a removal passes over have no source. *)
Definition skips (skip : Operation → string → bool) : Prop :=
  ∀ id l xs w m c, pending id l xs w m → c ∈ known →
    (skip (mkOperation (Some (JObject l)) xs w) c = true → m !! c = None) ∧
    (skip (mkOperation (Some (JObject l)) xs w) c = false → is_Some (obj_find c l)).

Lemma key_of_constraint id l xs w m c :
  pending id l xs w m → c ∈ known → is_Some (obj_find c l) →
  ∃ X, sources_at c l X ∧ (sources m c = X ∨ (m !! c = None ∧ X ⊆ {[id]})).
Proof.
  intros Hp Hk [v Hv]. destruct (m !! c) as [X|] eqn:Hm.
  - destruct (p_sources _ _ _ _ _ Hp c X Hm) as [_ Hs]. exists X. split; [done|]. left. by apply sources_Some.
  - apply obj_find_In in Hv as Hin. assert (Hkey : c ∈ l.*1) by (apply list_elem_of_fmap; by exists (c, v)).
    destruct (p_others _ _ _ _ _ Hp c Hkey) as [->|[He|[[? Hs]|Hw]]].
    + by destruct (name_ok all Hk) as (_ & _ & ?).
    + pose proof (names_extra _ _ _ Hnames). set_solver.
    + congruence.
    + destruct (p_pending _ _ _ _ _ Hp c Hw) as (_ & _ & [Hn|(X & Hs & Hsub)]); [congruence|]. exists X. auto.
Qed.

Lemma remove_step skip id l0 st m c :
  skips skip → account_id id → stands_for id l0 st m → c ∈ known →
  stands_for id l0 (if skip st c then st else (RemoveConstraintsFromJsonOperate all c (id_string id) st).2)
    (set_sources c (sources m c ∖ {[id]}) m).
Proof.
  intros Hskip Hid (l & Hj & Hp & Hrest) Hk. destruct st as [j xs w]. cbn in Hj, Hp. subst j.
  destruct (Hskip id l xs w m c Hp Hk) as [Htrue Hfalse]. destruct (skip _ c).
  - specialize (Htrue eq_refl). rewrite (sources_None c m Htrue). replace (∅ ∖ {[id]}) with (∅ : gset Z) by set_solver.
    rewrite set_sources_empty by done. by exists l.
  - destruct (key_of_constraint id l xs w m c Hp Hk (Hfalse eq_refl)) as (X & Hs & HX).
    by apply (remove_operate_step id l0 l _ m c X).
Qed.

Lemma remove_loop skip id l0 cs st m :
  skips skip → account_id id → Forall (.∈ known) cs → stands_for id l0 st m →
  stands_for id l0
    (foldl (λ st c, if skip st c then st else (RemoveConstraintsFromJsonOperate all c (id_string id) st).2) st cs)
    (remove_sources id cs m).
Proof.
  intros Hskip Hid Hcs. revert st m. induction Hcs as [|c cs Hc _ IH]; intros st m Hst; [done|].
  cbn [foldl remove_sources]. apply IH. by apply remove_step.
Qed.

Lemma skip_unlisted : skips (λ st c, negb (bool_decide (c ∈ op_list st))).
Proof.
  intros id l xs w m c Hp Hk. cbn [op_list]. case_bool_decide as Hc; cbn [negb]; (split; [|done]) || (split; [done|]).
  - intros _. apply (p_list_dom _ _ _ _ _ Hp) in Hc as [X HX].
    destruct (p_sources _ _ _ _ _ Hp c X HX) as [_ (ys & -> & _)]. done.
  - intros _. destruct (m !! c) eqn:E; [|done]. destruct Hc. by apply (p_list_dom _ _ _ _ _ Hp).
Qed.

Lemma skip_absent : skips (λ st c, negb (IsKeyExist (op_json st) c)).
Proof.
  intros id l xs w m c Hp Hk. destruct (name_ok c Hk) as (Hn & He & _). cbn [op_json].
  rewrite IsKeyExist_object, Hn by (by destruct c).
  case_bool_decide as Hc; cbn [negb]; (split; [|done]) || (split; [done|]); [by intros|].
  intros _. destruct (m !! c) as [X|] eqn:E; [|done]. destruct (p_sources _ _ _ _ _ Hp c X E) as [_ (ys & Hf & _)].
  rewrite Hf in Hc. by destruct Hc.
Qed.

(** *** All the constraints of an account that is removed *)

Lemma absent_strings k l : k ≠ "" → nul_free k → obj_find k l = None → strings_of (Some (JObject l)) k = [].
Proof. intros Hk Hn Hf. apply strings_of_at; [done|done|cbn; by vm_compute|]. right. split; [done|]. intros ys. congruence. Qed.

(** A removal that passes over nothing. *)
Lemma remove_any_step id l0 st m c :
  account_id id → stands_for id l0 st m → c ∈ known →
  stands_for id l0 (RemoveConstraintsFromJsonOperate all c (id_string id) st).2 (set_sources c (sources m c ∖ {[id]}) m).
Proof.
  intros Hid (l & Hj & Hp & Hrest) Hk. destruct (obj_find c l) as [v|] eqn:Hf.
  - destruct (key_of_constraint id l _ _ m c Hp Hk ltac:(by eexists)) as (X & Hs & HX).
    by apply (remove_operate_step id l0 l st m c X).
  - destruct (name_ok c Hk) as (Hn & He & _).
    assert (Hm : m !! c = None).
    { destruct (m !! c) as [X|] eqn:E; [|done]. destruct (p_sources _ _ _ _ _ Hp c X E) as [_ (ys & Hys & _)]. congruence. }
    unfold RemoveConstraintsFromJsonOperate. rewrite Hj, absent_strings by done. rewrite bool_decide_eq_true_2 by done.
    destruct (pending_drop id l (op_list st) (waitForErase st) m c Hp Hk) as [-> Hp']; [by left|].
    eexists. split; [reflexivity|]. cbn [snd op_list waitForErase]. rewrite (sources_None c m Hm).
    unfold set_sources. rewrite decide_True by set_solver. split; [exact Hp'|].
    eapply same_rest_trans; [exact Hrest|]. apply same_rest_set. by right.
Qed.

(** In memory every step succeeds, and the list of the document is the one the loop
    carries along. *)
Lemma remove_operate_ok id l0 st m c :
  account_id id → stands_for id l0 st m → c ∈ known →
  (RemoveConstraintsFromJsonOperate all c (id_string id) st).1 = true ∧ strings_of (op_json st) all = op_list st.
Proof.
  intros Hid (l & Hj & Hp & Hrest) Hk. split; [|rewrite Hj; by eapply read_list].
  destruct all_ok as [Hna Hnea]. destruct (name_ok c Hk) as (Hn & He & _).
  assert (Hsrc : ∃ ys, strings_of (op_json st) c = id_string <$> ys ∧ Forall account_id ys).
  { rewrite Hj. destruct (obj_find c l) as [v|] eqn:Hf; [|exists []; by rewrite absent_strings].
    destruct (key_of_constraint id l _ _ m c Hp Hk ltac:(by eexists)) as (X & Hs & _).
    destruct (read_sources c l X Hk Hs) as (ys & E & _ & ? & _). by exists ys. }
  destruct Hsrc as (ys & Hys & Hr). unfold RemoveConstraintsFromJsonOperate. rewrite Hys, remove_id_string by done.
  rewrite Hj. case_bool_decide.
  - rewrite set_strings; [done|done|done|]. apply known_strings. intros x [_ Hx]%remove_all_spec.
    by apply (p_known _ _ _ _ _ Hp), (p_list_dom _ _ _ _ _ Hp).
  - rewrite set_strings; [done|done|done|apply id_strings].
Qed.

(** A removal over the names of the object, where the names of constraints are those of [m]. *)
Lemma purge_sources id l m keys :
  holds l m → (∀ k, k ∈ l.*1 → k ∈ keys) → ∀ c, sources (remove_sources id (filter (.∈ known) keys) m) c = sources m c ∖ {[id]}.
Proof.
  intros (id0 & xs & Hp) Hkeys c. rewrite sources_remove. case_decide as Hc; [done|].
  destruct (m !! c) as [X|] eqn:Hm; [|rewrite (sources_None c m Hm); set_solver]. exfalso. apply Hc.
  apply list_elem_of_filter. split; [apply (p_known _ _ _ _ _ Hp); by eexists|]. apply Hkeys.
  destruct (p_sources _ _ _ _ _ Hp c X Hm) as [_ (ys & Hf & _)]. apply obj_find_In in Hf.
  apply list_elem_of_fmap. by exists (c, JArray (JString <$> (id_string <$> ys))).
Qed.

(** A key of the object: a constraint, or one of the other names. *)
Lemma holds_keys l m k : holds l m → k ∈ l.*1 → k ∈ known ∨ k = all ∨ k ∈ extra.
Proof.
  intros (id & xs & Hp) Hk. destruct (p_others _ _ _ _ _ Hp k Hk) as [?|[?|[?|Hw]]]; [tauto..| |by apply not_elem_of_nil in Hw].
  left. by apply (p_known _ _ _ _ _ Hp).
Qed.
End Holds.
