(* ===== verification/OsAccountConstraintTheorems.v ===== *)
(** What the operations on constraints do to the constraint documents: they implement
    operations on maps from constraints to sources (ConstraintMaps.v), the queries
    answer from these maps, and removing an account removes it everywhere. *)
From Stdlib Require Import ZArith Lia Ascii String FunctionalExtensionality.
From stdpp Require Import base list gmap sets strings pretty sorting.
From S2P Require Import Prelude ErrorCodes Json FileStore FileOperator FileTheorems OsAccountInfo OsAccountEnv.
From S2P Require Import OsAccountFiles OsAccountDocs OsAccountWorld OsAccountList OsAccountListTheorems.
From S2P Require Import OsAccountConstraints ConstraintMaps.

(** ** The documents *)

Definition global_names (known : gset string) : Prop := constraint_names known ALL_GLOBAL_CONSTRAINTS {[ DEVICE_OWNER_ID ]}.
Definition specific_names (known : gset string) : Prop := constraint_names known ALL_SPECIFIC_CONSTRAINTS ∅.

Section Documents.
Context {cfg : Config} {oscfg : OsConfig} {sysconf : Sysconf} {cjson : CJsonLib} {target : Target} {cutils : CUtils} {huks : Huks}.
Context {S : Type} {fs : FileStore S} {laws : CJsonLaws} {alloc : CJsonAlloc}.
Context (known : gset string).
Implicit Types (l : list (string * CJson)) (m : constraint_map) (d : gmap string string).

(** The global document: the constraints with their sources, and the device owner. *)
Definition has_global d m (owner : Z) : Prop :=
  ∃ l, d !! GLOBAL_OSACCOUNT_CONSTRAINTS_JSON_PATH = Some (list_text l) ∧
    holds known ALL_GLOBAL_CONSTRAINTS {[ DEVICE_OWNER_ID ]} l m ∧
    obj_find DEVICE_OWNER_ID l = Some (num owner) ∧ is_i32 owner.

(** The fields [l] have a value for every account of [sm] and nothing else. *)
Record keyed {A} (n : nat) (P : CJson → A → Prop) l (sm : gmap Z A) : Prop := {
  u_plain : json_plain (JObject l) = true;
  u_depth : (json_depth (JObject l) ≤ n)%nat;
  u_keys : NoDup l.*1;
  u_ids : ∀ u, is_Some (sm !! u) → account_id u;
  u_fields : ∀ u a, sm !! u = Some a → ∃ v, obj_find (id_string u) l = Some v ∧ P v a;
  u_others : ∀ k, k ∈ l.*1 → ∃ u, k = id_string u ∧ is_Some (sm !! u);
}.

(** An object with the specific constraints of an account. *)
Definition user_value (v : CJson) m : Prop := ∃ lu, v = JObject lu ∧ holds known ALL_SPECIFIC_CONSTRAINTS ∅ lu m.
Definition has_users : list (string * CJson) → gmap Z constraint_map → Prop := keyed 3 user_value.

Definition has_specific d (sm : gmap Z constraint_map) : Prop :=
  ∃ l, d !! SPECIFIC_OSACCOUNT_CONSTRAINTS_JSON_PATH = Some (list_text l) ∧ has_users l sm.

(** The constraints of an account by itself, each once. *)
Definition list_value (v : CJson) (X : gset string) : Prop :=
  X ⊆ known ∧ ∃ xs, v = JArray (JString <$> xs) ∧ NoDup xs ∧ list_to_set xs = X.
Definition has_lists : list (string * CJson) → gmap Z (gset string) → Prop := keyed 2 list_value.

Definition has_base d (bm : gmap Z (gset string)) : Prop :=
  ∃ l, d !! BASE_OSACCOUNT_CONSTRAINTS_JSON_PATH = Some (list_text l) ∧ has_lists l bm.

Lemma constraint_documents :
  is_document BASE_OSACCOUNT_CONSTRAINTS_JSON_PATH ∧ is_document GLOBAL_OSACCOUNT_CONSTRAINTS_JSON_PATH ∧
  is_document SPECIFIC_OSACCOUNT_CONSTRAINTS_JSON_PATH.
Proof.
  split_and!; (split; [by vm_compute|]); intros H; apply (f_equal String.length) in H; by vm_compute in H.
Qed.

Lemma small_ok l n : json_plain (JObject l) = true → (json_depth (JObject l) ≤ n)%nat → (n < 999)%nat → json_ok (JObject l) = true.
Proof.
  intros Hp Hd Hn. apply andb_true_iff. split; [done|]. apply Nat.ltb_lt.
  change CJSON_NESTING_LIMIT with (Datatypes.S 999). lia.
Qed.

Lemma holds_small all extra l m :
  holds known all extra l m → json_plain (JObject l) = true ∧ (json_depth (JObject l) ≤ 2)%nat ∧ NoDup l.*1.
Proof. intros (id & xs & Hp). split_and!; [apply Hp..]. Qed.

(** *** Reading and writing *)

Lemma wp_read_constraints path l d (Q : result (option CJson) → S → Prop) s :
  is_document path → json_ok (JObject l) = true → d !! path = Some (list_text l) → at_docs d s →
  (∀ s', at_docs d s' → Q (Ok (Some (JObject l))) s') → (∀ e s', at_docs d s' → Q (Err e) s') →
  wp (read_constraints path) Q s.
Proof.
  intros Hp Hj Hl Hs Hok Herr. unfold read_constraints. apply wp_bind.
  apply (wp_read_doc _ d); [done|done| |intros e s' Hs'; by apply Herr]. intros t s' Ht Hs'. rewrite Hl in Ht. injection Ht as <-.
  unfold list_text. destruct (pack_create _ Hj) as [-> _]. apply wp_ret. by apply Hok.
Qed.

Lemma wp_save_constraints path l d (Q : result unit → S → Prop) s :
  is_document path → at_docs d s →
  (∀ s', at_docs (<[path := list_text l]> d) s' → Q (Ok tt) s') → (∀ e s', at_docs d s' → Q (Err e) s') →
  wp (save_constraints path (Some (JObject l))) Q s.
Proof.
  intros Hp Hs Hok Herr. unfold save_constraints. apply wp_bind.
  apply (wp_write_doc _ _ d); [done|done| |intros e s' Hs'; by apply Herr]. intros s1 Hs1.
  eapply wp_void; [eauto with mquiet|apply when_file_watcher_void|exact Hs1|]. intros [] s2 Hs2. by apply Hok.
Qed.

(** *** Global constraints *)

Lemma global_operate id cs (isAdd : bool) l m :
  global_names known → account_id id → Forall (.∈ known) cs →
  holds known ALL_GLOBAL_CONSTRAINTS {[ DEVICE_OWNER_ID ]} l m →
  ∃ l', GlobalConstraintsDataOperate (id_string id) cs isAdd (Some (JObject l)) = Some (JObject l') ∧
    holds known ALL_GLOBAL_CONSTRAINTS {[ DEVICE_OWNER_ID ]} l' (if isAdd then add_sources id cs m else remove_sources id cs m) ∧
    same_rest known ALL_GLOBAL_CONSTRAINTS l l'.
Proof.
  intros Hn Hid Hcs Hh. unfold GlobalConstraintsDataOperate. pose proof (holds_stands_for _ _ _ Hn id l m Hh) as Hst.
  destruct isAdd; cbn [negb].
  - apply (add_loop _ _ _ Hn id l cs) in Hst; [|done..]. by apply (stands_for_done _ _ _ Hn id).
  - apply (remove_loop _ _ _ Hn _ id l cs _ m (skip_unlisted _ _ _)) in Hst; [|done..]. by apply (stands_for_done _ _ _ Hn id).
Qed.

Lemma owner_rest l l' owner :
  global_names known → same_rest known ALL_GLOBAL_CONSTRAINTS l l' → obj_find DEVICE_OWNER_ID l = Some (num owner) →
  obj_find DEVICE_OWNER_ID l' = Some (num owner).
Proof.
  intros Hn Hr Ho. rewrite Hr; [done| |done]. pose proof (names_extra _ _ _ Hn). set_solver.
Qed.
(** The loop over the names of the document is a removal of all constraints. *)
Lemma remove_global_source_eq id st key :
  key ≠ ALL_GLOBAL_CONSTRAINTS → key ≠ DEVICE_OWNER_ID → strings_of (op_json st) ALL_GLOBAL_CONSTRAINTS = op_list st →
  (RemoveConstraintsFromJsonOperate ALL_GLOBAL_CONSTRAINTS key (id_string id) st).1 = true →
  remove_global_source id (op_json st, waitForErase st) key =
    let st' := (RemoveConstraintsFromJsonOperate ALL_GLOBAL_CONSTRAINTS key (id_string id) st).2 in (op_json st', waitForErase st').
Proof.
  intros Ha Hd Hl Hok. unfold remove_global_source, RemoveConstraintsFromJsonOperate in *.
  rewrite (proj2 (String.eqb_neq key _)), (proj2 (String.eqb_neq key _)), Hl by done. cbn [orb].
  change (to_string id) with (id_string id). case_bool_decide; cbv zeta in Hok |- *; by destruct (AddVectorStringToJson _ _ _).
Qed.

Lemma remove_global_loop id l0 keys st m :
  global_names known → account_id id → Forall (λ k, k ∈ known ∨ k = ALL_GLOBAL_CONSTRAINTS ∨ k ∈ ({[ DEVICE_OWNER_ID ]} : gset string)) keys →
  stands_for known ALL_GLOBAL_CONSTRAINTS {[ DEVICE_OWNER_ID ]} id l0 st m →
  ∃ st', foldl (remove_global_source id) (op_json st, waitForErase st) keys = (op_json st', waitForErase st') ∧
    stands_for known ALL_GLOBAL_CONSTRAINTS {[ DEVICE_OWNER_ID ]} id l0 st' (remove_sources id (filter (.∈ known) keys) m).
Proof.
  intros Hn Hid Hkeys. revert st m. induction Hkeys as [|key keys Hk _ IH]; intros st m Hst; cbn [foldl]; [by exists st|].
  rewrite filter_cons. destruct (decide (key ∈ known)) as [Hkk|Hkk].
  - destruct (name_ok _ _ _ Hn key Hkk) as (_ & _ & Ha).
    assert (Hd : key ≠ DEVICE_OWNER_ID) by (intros ->; pose proof (names_extra _ _ _ Hn); set_solver).
    destruct (remove_operate_ok _ _ _ Hn id l0 st m key Hid Hst Hkk) as [Hok Hl].
    rewrite remove_global_source_eq by done. apply IH. by apply (remove_any_step _ _ _ Hn).
  - unfold remove_global_source at 2. destruct Hk as [?|[->| ->%elem_of_singleton]]; [done|..].
    + rewrite String.eqb_refl. by apply IH.
    + rewrite String.eqb_refl, orb_true_r. by apply IH.
Qed.

Lemma global_remove_all id l m :
  global_names known → account_id id → holds known ALL_GLOBAL_CONSTRAINTS {[ DEVICE_OWNER_ID ]} l m →
  ∃ l' m', (let '(j, w) := foldl (remove_global_source id) (Some (JObject l), []) (child_names (Some (JObject l))) in
            erase_keys w j) = Some (JObject l') ∧
    holds known ALL_GLOBAL_CONSTRAINTS {[ DEVICE_OWNER_ID ]} l' m' ∧ (∀ c, sources m' c = sources m c ∖ {[id]}) ∧
    same_rest known ALL_GLOBAL_CONSTRAINTS l l'.
Proof.
  intros Hn Hid Hh. pose proof (holds_stands_for _ _ _ Hn id l m Hh) as Hst.
  destruct (remove_global_loop id l l.*1 (mkOperation (Some (JObject l)) (strings_of (Some (JObject l)) ALL_GLOBAL_CONSTRAINTS) []) m Hn Hid) as (st' & Hrun & Hst'); [|exact Hst|].
  - apply Forall_forall. intros k Hk. by eapply holds_keys.
  - cbn [op_json waitForErase child_names] in Hrun |- *. rewrite Hrun.
    destruct (stands_for_done _ _ _ Hn id l st' _ Hst') as (l' & He & Hh' & Hrest). exists l'. eexists.
    split_and!; [exact He|exact Hh'|by eapply (purge_sources _ _ _ Hn id l)|exact Hrest].
Qed.
Lemma wp_global_change (f : option CJson → option CJson) d m owner (R : constraint_map → Prop) s :
  global_names known → has_global d m owner → at_docs d s →
  (∀ l, holds known ALL_GLOBAL_CONSTRAINTS {[ DEVICE_OWNER_ID ]} l m →
    ∃ l' m', f (Some (JObject l)) = Some (JObject l') ∧ holds known ALL_GLOBAL_CONSTRAINTS {[ DEVICE_OWNER_ID ]} l' m' ∧
      R m' ∧ same_rest known ALL_GLOBAL_CONSTRAINTS l l') →
  wp (j ← GetGlobalOAConstraintsFromFile; SaveGlobalOAConstraintsToFile (f j))
    (λ r s', match r with
             | Err _ => at_docs d s'
             | Ok _ => ∃ d' m', at_docs d' s' ∧ has_global d' m' owner ∧ R m' ∧
                         ∀ p, p ≠ GLOBAL_OSACCOUNT_CONSTRAINTS_JSON_PATH → d' !! p = d !! p
             end) s.
Proof.
  intros Hn (l & Hl & Hh & Ho & Hi) Hs Hf. destruct constraint_documents as (_ & Hdoc & _).
  destruct (holds_small _ _ l m Hh) as (Hp & Hd & _). apply wp_bind.
  apply (wp_read_constraints _ l d); [done|by apply (small_ok l 2); [..|lia]|done|done| |done]. intros s1 Hs1.
  destruct (Hf l Hh) as (l' & m' & -> & Hh' & HR & Hrest).
  apply (wp_save_constraints _ l' d); [done|done| |done]. intros s2 Hs2. eexists _, m'. split_and!; [exact Hs2| |exact HR|].
  - exists l'. rewrite lookup_insert_eq. split_and!; [done|done|by eapply owner_rest|done].
  - intros p Hpp. by rewrite lookup_insert_ne.
Qed.

(** C28. Setting and clearing global constraints implements operations on the map from
    constraints to the accounts that set them: setting adds the account to the
    sources of each of the constraints, clearing takes it out, a constraint is there
    as long as it has a source, and the sources of other constraints, the device
    owner and the other documents stay; a failure changes nothing. *)
Theorem global_constraints_refine id cs (isAdd : bool) m owner s r s' :
  global_names known → account_id id → Forall (.∈ known) cs → idle s → has_global (docs s) m owner →
  UpdateGlobalOAConstraints (to_string id) cs isAdd s = (r, s') →
  idle s' ∧
  match r with
  | Err _ => docs s' = docs s
  | Ok _ =>
      (∃ m', has_global (docs s') m' owner ∧
         ∀ c, sources m' c = if decide (c ∈ cs) then (if isAdd then {[id]} ∪ sources m c else sources m c ∖ {[id]})
                             else sources m c) ∧
      (∀ p, p ≠ GLOBAL_OSACCOUNT_CONSTRAINTS_JSON_PATH → docs s' !! p = docs s !! p)
  end.
Proof.
  intros Hn Hid Hcs Hi Hg Hrun. as_wp Hrun. unfold UpdateGlobalOAConstraints.
  eapply wp_conseq; [apply (wp_global_change (GlobalConstraintsDataOperate (to_string id) cs isAdd) (docs s) m owner
    (λ m', m' = if isAdd then add_sources id cs m else remove_sources id cs m)); [done|done|done|]|].
  - intros l Hh. destruct (global_operate id cs isAdd l m Hn Hid Hcs Hh) as (l' & E & Hh' & Hrest). eexists l', _.
    split_and!; [exact E|exact Hh'|done|exact Hrest].
  - intros [[]|e] s1; [|by intros [Hi1 Hd1]]. intros (d' & m' & [Hi1 <-] & Hg' & -> & Hother). split; [done|].
    split; [|done]. eexists. split; [exact Hg'|]. intros c.
    destruct isAdd; [apply sources_add|apply sources_remove].
Qed.

(** *** Specific constraints *)

Lemma specific_operate id cs (isAdd : bool) l m :
  specific_names known → account_id id → Forall (.∈ known) cs → holds known ALL_SPECIFIC_CONSTRAINTS ∅ l m →
  ∃ l', SpecificConstraintsDataOperate (id_string id) cs isAdd (Some (JObject l)) = Some (JObject l') ∧
    holds known ALL_SPECIFIC_CONSTRAINTS ∅ l' (if isAdd then add_sources id cs m else remove_sources id cs m).
Proof.
  intros Hn Hid Hcs Hh. unfold SpecificConstraintsDataOperate. pose proof (holds_stands_for _ _ _ Hn id l m Hh) as Hst.
  destruct isAdd; cbn [negb].
  - apply (add_loop _ _ _ Hn id l cs) in Hst; [|done..].
    destruct (stands_for_done _ _ _ Hn id _ _ _ Hst) as (l' & ? & ? & _). by exists l'.
  - apply (remove_loop _ _ _ Hn _ id l cs _ m (skip_absent _ _ _ Hn)) in Hst; [|done..].
    destruct (stands_for_done _ _ _ Hn id _ _ _ Hst) as (l' & ? & ? & _). by exists l'.
Qed.

(** A new account has no constraints yet. *)
Lemma no_constraints : specific_names known → holds known ALL_SPECIFIC_CONSTRAINTS ∅ [(ALL_SPECIFIC_CONSTRAINTS, JNull)] ∅.
Proof.
  intros Hn. exists 0, []. constructor.
  - done.
  - cbn. lia.
  - apply NoDup_singleton.
  - right. split; [done|]. intros ys. cbn. by rewrite decide_True.
  - constructor.
  - intros c. rewrite lookup_empty. split; [intros []%not_elem_of_nil|by intros []].
  - intros c. rewrite lookup_empty. by intros [].
  - intros c X. by rewrite lookup_empty.
  - intros c []%not_elem_of_nil.
  - intros k Hk. left. by apply list_elem_of_singleton in Hk.
Qed.

Lemma user_string u : nul_free (id_string u) ∧ id_string u ≠ "" ∧ string_empty (id_string u) = false.
Proof.
  pose proof (to_string_not_empty u) as He. split_and!; [apply to_string_nul_free| |done]. intros E. unfold id_string in E.
  by rewrite E in He.
Qed.

(** *** Objects with a value for every account *)

Section Keyed.
Context {A : Type} (n : nat) (P : CJson → A → Prop).
Implicit Types (sm : gmap Z A) (a : A).

(** The value of one account is replaced. *)
Lemma keyed_set l sm u v a :
  keyed n P l sm → account_id u → json_plain v = true → (Datatypes.S (json_depth v) ≤ n)%nat → P v a →
  keyed n P (obj_set (id_string u) v l) (<[u := a]> sm).
Proof.
  intros [Hp Hd Hk Hi Hf Ho] Hu Hpu Hdu Hh. destruct (user_string u) as (Hn & _ & _).
  assert (Hdom : ∀ v, is_Some (<[u := a]> sm !! v) ↔ v = u ∨ is_Some (sm !! v)).
  { intros w. destruct (decide (w = u)) as [->|]; [rewrite lookup_insert_eq; split; [by left|done]|].
    rewrite lookup_insert_ne by done. tauto. }
  constructor.
  - cbn [json_plain] in *. apply forallb_Forall_true, obj_set_Forall.
    + apply andb_true_iff. split; [by apply bool_decide_eq_true|exact Hpu].
    + apply Forall_forall. intros kv Hkv. rewrite forallb_forall in Hp. by apply Hp, list_elem_of_In.
  - destruct n as [|n']; [lia|]. apply json_depth_fields, obj_set_Forall; [cbn [snd]; lia|by apply json_depth_fields].
  - by apply obj_set_NoDup.
  - intros w [->|Hv]%Hdom; [done|by apply Hi].
  - intros w mv. destruct (decide (w = u)) as [->|Hne].
    + rewrite lookup_insert_eq. intros [= <-]. exists v. by rewrite obj_find_set, decide_True.
    + rewrite lookup_insert_ne by done. intros Hv. destruct (Hf w mv Hv) as (lv & Hfv & Hhv). exists lv.
      rewrite obj_find_set, decide_False; [done|]. intros E. apply to_string_inj in E; [done| |apply Hu].
      apply Hi. by eexists.
  - intros k Hkl. rewrite obj_set_keys in Hkl. assert (Hk' : k = id_string u ∨ k ∈ l.*1) by (destruct (obj_find _ l); set_solver).
    destruct Hk' as [->|Hk']; [exists u; split; [done|apply Hdom; by left]|].
    destruct (Ho k Hk') as (w & -> & Hv). exists w. split; [done|]. apply Hdom. by right.
Qed.

Lemma keyed_delete l sm id : keyed n P l sm → account_id id → keyed n P (obj_delete (id_string id) l) (delete id sm).
Proof.
  intros [Hp Hd Hk Hi Hf Ho] Hid.
  assert (Hdom : ∀ v, is_Some (delete id sm !! v) → v ≠ id ∧ is_Some (sm !! v)).
  { intros v Hv. destruct (decide (v = id)) as [->|]; [rewrite lookup_delete_eq in Hv; by destruct Hv|]. by rewrite lookup_delete_ne in Hv. }
  constructor.
  - cbn [json_plain] in *. apply forallb_Forall_true, obj_delete_Forall, Forall_forall.
    intros kv Hkv. rewrite forallb_forall in Hp. by apply Hp, list_elem_of_In.
  - destruct n as [|n']; [by cbn in Hd; lia|]. by apply json_depth_fields, obj_delete_Forall, json_depth_fields.
  - by apply obj_delete_NoDup.
  - intros u [_ Hu]%Hdom. by apply Hi.
  - intros u m Hm. destruct (Hdom u ltac:(by eexists)) as [Hne Hu]. rewrite lookup_delete_ne in Hm by done.
    destruct (Hf u m Hm) as (lu & Hfu & Hh). exists lu. rewrite obj_delete_find, decide_False; [done| |done].
    intros E. apply to_string_inj in E; [done|by apply Hi|apply Hid].
  - intros k Hkl. destruct (obj_find k (obj_delete (id_string id) l)) eqn:E; [|by apply obj_find_None in E].
    rewrite obj_delete_find in E by done. case_decide as Hne; [done|]. apply obj_find_In in E.
    destruct (Ho k) as (u & -> & Hu); [apply list_elem_of_fmap; by exists (k, c)|]. exists u. split; [done|].
    rewrite lookup_delete_ne; [done|]. intros <-. by apply Hne.
Qed.

Lemma keyed_find l sm u :
  keyed n P l sm → account_id u →
  IsKeyExist (Some (JObject l)) (id_string u) = bool_decide (is_Some (sm !! u)) ∧
  ∀ a, sm !! u = Some a → ∃ v, obj_find (id_string u) l = Some v ∧ P v a.
Proof.
  intros Hu Hid. destruct (user_string u) as (Hn & Hne & He). split; [|apply Hu].
  rewrite IsKeyExist_object, Hn by done. apply bool_decide_ext. split.
  - intros [v Hv]. apply obj_find_In in Hv. destruct (u_others _ _ _ _ Hu (id_string u)) as (u' & E & Hs).
    + apply list_elem_of_fmap. by exists (id_string u, v).
    + apply to_string_inj in E; [by subst|apply Hid|by apply (u_ids _ _ _ _ Hu)].
  - intros [m Hm]. destruct (u_fields _ _ _ _ Hu u m Hm) as (lu & -> & _). done.
Qed.

Lemma keyed_keys l sm : keyed n P l sm → ∃ us, l.*1 = id_string <$> us ∧ ∀ u, u ∈ us ↔ is_Some (sm !! u).
Proof.
  intros Hu.
  assert (H : ∃ us, l.*1 = id_string <$> us ∧ Forall (λ u, is_Some (sm !! u)) us).
  { pose proof (u_others _ _ _ _ Hu) as Ho. induction (l.*1) as [|k ks IH]; [by exists []|].
    destruct IH as (us & -> & Hus); [intros k' Hk'; apply Ho; by right|].
    destruct (Ho k) as (u & -> & Hs); [by left|]. exists (u :: us). split; [done|]. by apply Forall_cons. }
  destruct H as (us & E & Hus). exists us. split; [done|]. rewrite Forall_forall in Hus. intros u. split; [apply Hus|].
  intros [m Hm]. destruct (u_fields _ _ _ _ Hu u m Hm) as (lu & Hf & _). apply obj_find_In in Hf.
  assert (Hin : id_string u ∈ l.*1) by (apply list_elem_of_fmap; by exists (id_string u, lu)).
  rewrite E in Hin. apply list_elem_of_fmap in Hin as (v & Ev & Hv). apply to_string_inj in Ev; [by subst| |].
  - apply (u_ids _ _ _ _ Hu). by eexists.
  - by apply (u_ids _ _ _ _ Hu), Hus.
Qed.

Lemma keyed_ok l sm : keyed n P l sm → (n ≤ 3)%nat → json_ok (JObject l) = true.
Proof. intros Hu Hn. apply (small_ok l n); [apply Hu|apply Hu|lia]. Qed.
End Keyed.

Lemma has_users_set l sm u lu m :
  has_users l sm → account_id u → holds known ALL_SPECIFIC_CONSTRAINTS ∅ lu m →
  has_users (obj_set (id_string u) (JObject lu) l) (<[u := m]> sm).
Proof.
  intros Hu Hid Hh. destruct (holds_small _ _ lu m Hh) as (Hpu & Hdu & _). apply keyed_set; [done..|lia|by exists lu].
Qed.

Lemma users_ok l sm : has_users l sm → json_ok (JObject l) = true.
Proof. intros Hu. by eapply keyed_ok. Qed.

Lemma user_object l sm u m :
  has_users l sm → sm !! u = Some m → ∃ lu, obj_find (id_string u) l = Some (JObject lu) ∧ holds known ALL_SPECIFIC_CONSTRAINTS ∅ lu m.
Proof. intros Hu Hm. destruct (u_fields _ _ _ _ Hu u m Hm) as (v & Hf & lu & -> & Hh). by exists lu. Qed.

Lemma find_user l sm u :
  has_users l sm → account_id u →
  IsKeyExist (Some (JObject l)) (id_string u) = bool_decide (is_Some (sm !! u)) ∧
  ∀ m, sm !! u = Some m → ∃ lu, GetItemFromJson (Some (JObject l)) (id_string u) = Some (JObject lu) ∧
    GetObjFromJson (Some (JObject l)) (id_string u) = Some (JObject lu) ∧ holds known ALL_SPECIFIC_CONSTRAINTS ∅ lu m.
Proof.
  intros Hu Hid. destruct (user_string u) as (Hn & Hne & He). destruct (keyed_find _ _ l sm u Hu Hid) as [Hex _]. split; [done|].
  intros m Hm. destruct (user_object l sm u m Hu Hm) as (lu & Hf & Hh). exists lu. unfold GetItemFromJson, GetObjFromJson.
  rewrite IsKeyExist_object, find_item_object, Hn, Hf by done. by rewrite bool_decide_eq_true_2.
Qed.

(** A child that is changed in place and then replaced by its copy. *)
Lemma write_child l sm u lu lu' m m' :
  has_users l sm → account_id u → obj_find (id_string u) l = Some (JObject lu) →
  holds known ALL_SPECIFIC_CONSTRAINTS ∅ lu' m' →
  let j := set_child_opt (id_string u) (Some (JObject lu')) (Some (JObject l)) in
  ∃ l', changed_or (AddObjToJson j (id_string u) (Some (JObject lu'))) j = Some (JObject l') ∧ has_users l' (<[u := m']> sm).
Proof.
  intros Hu Hid Hf Hh j. destruct (user_string u) as (Hn & Hne & He). subst j. cbn [set_child_opt set_child].
  rewrite replace_is_set by (by eexists). rewrite AddObjToJson_eq, Hn by done. cbn [changed_or]. eexists. split; [reflexivity|].
  pose proof (has_users_set _ _ u lu' m' (has_users_set l sm u lu' m' Hu Hid Hh) Hid Hh) as H. by rewrite insert_insert_eq in H.
Qed.

Lemma specific_update id t cs (isAdd : bool) l sm :
  specific_names known → account_id id → account_id t → Forall (.∈ known) cs → has_users l sm →
  (is_Some (sm !! t) ∨ isAdd = true) →
  let there := IsKeyExist (Some (JObject l)) (id_string t) in
  let j := if there then Some (JObject l)
           else changed_or (AddObjToJson (Some (JObject l)) (id_string t)
                  (changed_or (AddObjToJson CreateJson ALL_SPECIFIC_CONSTRAINTS CreateJsonNull) CreateJson)) (Some (JObject l)) in
  let user := SpecificConstraintsDataOperate (id_string id) cs isAdd (GetItemFromJson j (id_string t)) in
  let j := set_child_opt (id_string t) user j in
  ∃ l', changed_or (AddObjToJson j (id_string t) user) j = Some (JObject l') ∧
    has_users l' (<[t := (if isAdd then add_sources else remove_sources) id cs (default ∅ (sm !! t))]> sm).
Proof.
  intros Hn Hid Ht Hcs Hu Hor there j. destruct (user_string t) as (Hnt & Hne & He).
  assert (H : ∃ l1 sm1, j = Some (JObject l1) ∧ has_users l1 sm1 ∧ sm1 !! t = Some (default ∅ (sm !! t)) ∧
    ∀ m, <[t := m]> sm1 = <[t := m]> sm).
  { subst j there. destruct (find_user l sm t Hu Ht) as [-> _]. case_bool_decide as Hs.
    - exists l, sm. split_and!; [done|done| |done]. destruct Hs as [m ->]. done.
    - destruct alloc_null as [v Hv]. pose proof (create_null v Hv) as ->. unfold CreateJsonNull. rewrite Hv, CreateJson_eq.
      rewrite AddObjToJson_eq by done. cbn [changed_or].
      rewrite AddObjToJson_eq, Hnt by done. cbn [changed_or]. exists (obj_set (id_string t) (JObject [(ALL_SPECIFIC_CONSTRAINTS, JNull)]) l), (<[t := ∅]> sm).
      split_and!; [done|by apply has_users_set, no_constraints| |].
      + rewrite lookup_insert_eq. destruct (sm !! t); [by destruct Hs|done].
      + intros m. by rewrite insert_insert_eq. }
  destruct H as (l1 & sm1 & -> & Hu1 & Hm1 & Hins).
  destruct (find_user l1 sm1 t Hu1 Ht) as [_ Hfind]. destruct (Hfind _ Hm1) as (lu & -> & Hobj & Hh).
  destruct (specific_operate id cs isAdd lu _ Hn Hid Hcs Hh) as (lu' & E & Hh'). rewrite E. intros user j'.
  assert (Hf : obj_find (id_string t) l1 = Some (JObject lu)).
  { unfold GetObjFromJson in Hobj. by rewrite find_item_object, Hnt in Hobj by done. }
  destruct (write_child l1 sm1 t lu lu' (default ∅ (sm !! t)) _ Hu1 Ht Hf Hh') as (l' & Hl' & Hu').
  exists l'. split; [exact Hl'|]. rewrite Hins in Hu'. by destruct isAdd.
Qed.

(** Setting and clearing specific constraints on an account implements the same
    operations on the map of that account; the maps of the other accounts and the
    other documents stay.  An account without an entry gets one when a constraint is
    set, and clearing constraints on it changes nothing. *)
Theorem specific_constraints_refine id t cs (isAdd : bool) sm s r s' :
  specific_names known → account_id id → account_id t → Forall (.∈ known) cs → idle s → has_specific (docs s) sm →
  UpdateSpecificOAConstraints (to_string id) (to_string t) cs isAdd s = (r, s') →
  idle s' ∧
  match r with
  | Err _ => docs s' = docs s
  | Ok _ =>
      (∃ m', has_specific (docs s') (if bool_decide (sm !! t = None) && negb isAdd then sm else <[t := m']> sm) ∧
         ∀ c, sources m' c = if decide (c ∈ cs) then (if isAdd then {[id]} ∪ sources (default ∅ (sm !! t)) c
                                                      else sources (default ∅ (sm !! t)) c ∖ {[id]})
                             else sources (default ∅ (sm !! t)) c) ∧
      (∀ p, p ≠ SPECIFIC_OSACCOUNT_CONSTRAINTS_JSON_PATH → docs s' !! p = docs s !! p)
  end.
Proof.
  intros Hn Hid Ht Hcs Hi (l & Hl & Hu) Hrun. as_wp Hrun. destruct constraint_documents as (_ & _ & Hdoc).
  unfold UpdateSpecificOAConstraints. apply wp_bind.
  apply (wp_read_constraints _ l (docs s)); [done|by eapply users_ok|done|done| |by intros e s1 [Hi1 Hd1]].
  intros s1 Hs1. change (to_string t) with (id_string t). change (to_string id) with (id_string id).
  set (m' := (if isAdd then add_sources else remove_sources) id cs (default ∅ (sm !! t))).
  assert (Hspec : ∀ c, sources m' c = if decide (c ∈ cs) then (if isAdd then {[id]} ∪ sources (default ∅ (sm !! t)) c
       else sources (default ∅ (sm !! t)) c ∖ {[id]}) else sources (default ∅ (sm !! t)) c)
    by (intros c; destruct isAdd; [apply sources_add|apply sources_remove]).
  destruct (find_user l sm t Hu Ht) as [Hex _]. rewrite Hex. cbv zeta.
  destruct (bool_decide (is_Some (sm !! t)) || isAdd) eqn:Hcase.
  - assert (Hor : is_Some (sm !! t) ∨ isAdd = true) by (apply orb_true_iff in Hcase as [?%bool_decide_eq_true|?]; auto).
    assert (Hskip : negb (bool_decide (is_Some (sm !! t))) && negb isAdd = false) by (by destruct (bool_decide _), isAdd).
    rewrite Hskip. destruct (specific_update id t cs isAdd l sm Hn Hid Ht Hcs Hu Hor) as (l' & E & Hu').
    cbv zeta in E. rewrite Hex in E. rewrite E. apply (wp_save_constraints _ l' (docs s)); [done|done| |by intros e s2 [Hi2 Hd2]].
    intros s2 [Hi2 Hd2]. split; [done|]. rewrite Hd2. split; [|intros p Hp; by rewrite lookup_insert_ne].
    exists m'. split; [|exact Hspec]. rewrite (bool_decide_ext (sm !! t = None) (¬ is_Some (sm !! t))) by (by rewrite eq_None_not_Some).
    rewrite bool_decide_not, Hskip. exists l'. by rewrite lookup_insert_eq.
  - apply orb_false_iff in Hcase as [Hno ->]. rewrite Hno. cbn [negb andb]. apply wp_ret. destruct Hs1 as [Hi1 Hd1].
    split; [done|]. rewrite Hd1. split; [|done]. exists m'. split; [|exact Hspec].
    apply bool_decide_eq_false, eq_None_not_Some in Hno. rewrite bool_decide_eq_true_2 by done. by exists l.
Qed.
(** *** Base constraints *)

Lemma remove_all_NoDup_set c (xs : list string) :
  NoDup xs → NoDup (remove_all c xs) ∧ (list_to_set (remove_all c xs) : gset string) = list_to_set xs ∖ {[c]}.
Proof.
  intros Hnd. split; [by apply remove_all_NoDup|]. apply set_eq. intros x.
  rewrite elem_of_list_to_set, remove_all_spec, elem_of_difference, elem_of_list_to_set, elem_of_singleton. tauto.
Qed.

(** The loop over the constraints is a union or a difference of sets. *)
Lemma base_update_set (isAdd : bool) cs (xs : list string) :
  NoDup xs → NoDup (base_update isAdd cs xs) ∧
  (list_to_set (base_update isAdd cs xs) : gset string) = if isAdd then list_to_set xs ∪ list_to_set cs else list_to_set xs ∖ list_to_set cs.
Proof.
  unfold base_update. revert xs. induction cs as [|c cs IH]; intros xs Hnd; cbn [foldl].
  - split; [done|]. destruct isAdd; set_solver.
  - destruct isAdd; cbn [negb] in *.
    + case_bool_decide as Hc; cbn [negb].
      * destruct (IH xs Hnd) as [? ->]. split; [done|]. set_solver.
      * assert (Hnd' : NoDup (xs ++ [c])) by (apply NoDup_app; split_and!; [done|set_solver|apply NoDup_singleton]).
        destruct (IH _ Hnd') as [? ->]. split; [done|]. set_solver.
    + destruct (remove_all_NoDup_set c xs Hnd) as [Hnd' E]. destruct (IH _ Hnd') as [? ->]. split; [done|]. rewrite E. set_solver.
Qed.

Definition base_names : Prop := Forall nul_free (elements known) ∧ Z.of_nat (size known) ≤ INT32_MAX.

Lemma base_strings (xs : list string) : base_names → list_to_set xs ⊆ known → Forall nul_free xs.
Proof.
  intros [Hn _] Hxs. rewrite Forall_forall in Hn. apply Forall_forall. intros x Hx. apply Hn, elem_of_elements. set_solver.
Qed.

Lemma set_base l bm u (xs : list string) :
  base_names → has_lists l bm → account_id u → NoDup xs → list_to_set xs ⊆ known →
  ∃ l', changed_or (AddVectorStringToJson (Some (JObject l)) (id_string u) xs) (Some (JObject l)) = Some (JObject l') ∧
    has_lists l' (<[u := list_to_set xs]> bm).
Proof.
  intros Hn Hb Hid Hnd Hk. destruct (user_string u) as (Hnu & Hneu & _). pose proof (base_strings xs Hn Hk) as Hxs.
  rewrite set_strings by done. cbn [changed_or]. eexists. split; [reflexivity|].
  apply keyed_set; [done|done|by apply (strings_plain xs)|by rewrite string_array_depth|]. split; [done|by exists xs].
Qed.

Lemma read_base l bm u X :
  base_names → has_lists l bm → bm !! u = Some X →
  ∃ xs, strings_of (Some (JObject l)) (id_string u) = xs ∧ NoDup xs ∧ list_to_set xs = X ∧ X ⊆ known.
Proof.
  intros [_ Hn] Hb Hu. destruct (u_fields _ _ _ _ Hb u X Hu) as (v & Hf & Hk & xs & -> & Hnd & HX). exists xs.
  split_and!; [|done..]. destruct (user_string u) as (Hnu & Hneu & _). apply strings_of_at; [done|done| |by left].
  assert (length xs ≤ size known)%nat by (apply NoDup_length_set; [done|set_solver]). lia.
Qed.

Lemma wp_base_change (f : option CJson → option CJson) d bm bm' (Q : result unit → S → Prop) s :
  has_base d bm → at_docs d s →
  (∀ l, has_lists l bm → ∃ l', f (Some (JObject l)) = Some (JObject l') ∧ has_lists l' bm') →
  (∀ d' s', at_docs d' s' → has_base d' bm' → (∀ p, p ≠ BASE_OSACCOUNT_CONSTRAINTS_JSON_PATH → d' !! p = d !! p) → Q (Ok tt) s') →
  (∀ e s', at_docs d s' → Q (Err e) s') →
  wp (j ← GetBaseOAConstraintsFromFile; SaveBaseOAConstraintsToFile (f j)) Q s.
Proof.
  intros (l & Hl & Hb) Hs Hf Hok Herr. destruct constraint_documents as (Hdoc & _ & _). apply wp_bind.
  apply (wp_read_constraints _ l d); [done|eapply (keyed_ok 2); [exact Hb|lia]|done|done| |done]. intros s1 Hs1.
  destruct (Hf l Hb) as (l' & -> & Hb'). apply (wp_save_constraints _ l' d); [done|done| |done]. intros s2 Hs2.
  eapply Hok; [exact Hs2|exists l'; by rewrite lookup_insert_eq|]. intros p Hp. by rewrite lookup_insert_ne.
Qed.

(** The constraints of an account by itself are a set: setting constraints adds
    them to it, each once, clearing takes them out, an account without an entry gets
    one when constraints are set, and clearing constraints on it changes nothing;
    the sets of the other accounts and the other documents stay. *)
Theorem base_constraints_refine id cs (isAdd : bool) bm s r s' :
  base_names → account_id id → NoDup cs → list_to_set cs ⊆ known → idle s → has_base (docs s) bm →
  UpdateBaseOAConstraints (to_string id) cs isAdd s = (r, s') →
  idle s' ∧
  match r with
  | Err _ => docs s' = docs s
  | Ok _ =>
      has_base (docs s')
        (match bm !! id, isAdd with
         | None, false => bm
         | None, true => <[id := list_to_set cs]> bm
         | Some X, true => <[id := X ∪ list_to_set cs]> bm
         | Some X, false => <[id := X ∖ list_to_set cs]> bm
         end) ∧
      (∀ p, p ≠ BASE_OSACCOUNT_CONSTRAINTS_JSON_PATH → docs s' !! p = docs s !! p)
  end.
Proof.
  intros Hn Hid Hnd Hcs Hi Hb Hrun. as_wp Hrun. change (to_string id) with (id_string id).
  set (bm' := match bm !! id, isAdd with None, false => bm | None, true => <[id := list_to_set cs]> bm
         | Some X, true => <[id := X ∪ list_to_set cs]> bm | Some X, false => <[id := X ∖ list_to_set cs]> bm end).
  destruct Hb as (l & Hl & Hb). destruct constraint_documents as (Hdoc & _ & _). unfold UpdateBaseOAConstraints.
  apply wp_bind. apply (wp_read_constraints _ l (docs s)); [done|eapply (keyed_ok 2); [exact Hb|lia]|done|done| |by intros e s1 []].
  intros s1 Hs1. destruct (keyed_find _ _ l bm id Hb Hid) as [-> _].
  assert (Hsave : ∀ j, (∃ l', j = Some (JObject l') ∧ has_lists l' bm') →
    wp (SaveBaseOAConstraintsToFile j) (λ r s', idle s' ∧ match r with Err _ => docs s' = docs s | Ok _ => has_base (docs s') bm' ∧
      (∀ p, p ≠ BASE_OSACCOUNT_CONSTRAINTS_JSON_PATH → docs s' !! p = docs s !! p) end) s1).
  { intros j (l' & -> & Hb'). apply (wp_save_constraints _ l' (docs s)); [done|done| |by intros e s2 []].
    intros s2 [Hi2 Hd2]. rewrite Hd2. split; [done|]. split; [exists l'; by rewrite lookup_insert_eq|].
    intros p Hp. by rewrite lookup_insert_ne. }
  destruct (bm !! id) as [X|] eqn:Hu.
  - rewrite bool_decide_eq_true_2 by done. cbn [negb]. apply Hsave.
    destruct (read_base l bm id X Hn Hb Hu) as (xs & -> & Hndx & <- & HX). destruct (base_update_set isAdd cs xs Hndx) as [Hnd' E].
    destruct (set_base l bm id (base_update isAdd cs xs) Hn Hb Hid Hnd') as (l' & Hl' & Hb'); [destruct isAdd; set_solver|].
    exists l'. split; [exact Hl'|]. rewrite E in Hb'. subst bm'. by destruct isAdd.
  - rewrite bool_decide_eq_false_2 by (by intros []). subst bm'. destruct isAdd; cbn [negb].
    + apply Hsave. by apply set_base.
    + apply wp_ret. destruct Hs1 as [Hi1 Hd1]. rewrite Hd1. split; [done|]. split; [by exists l|done].
Qed.

(** *** Removing an account *)

Lemma remove_specific_loop id l0 keys st m :
  specific_names known → account_id id → Forall (λ k, k ∈ known ∨ k = ALL_SPECIFIC_CONSTRAINTS ∨ k ∈ (∅ : gset string)) keys →
  stands_for known ALL_SPECIFIC_CONSTRAINTS ∅ id l0 st m →
  ∃ st', foldl (remove_specific_source id) (true, st) keys = (true, st') ∧
    stands_for known ALL_SPECIFIC_CONSTRAINTS ∅ id l0 st' (remove_sources id (filter (.∈ known) keys) m).
Proof.
  intros Hn Hid Hkeys. revert st m. induction Hkeys as [|key keys Hk _ IH]; intros st m Hst; cbn [foldl]; [by exists st|].
  rewrite filter_cons. destruct (decide (key ∈ known)) as [Hkk|Hkk].
  - destruct (name_ok _ _ _ Hn key Hkk) as (_ & _ & Ha).
    destruct (remove_operate_ok _ _ _ Hn id l0 st m key Hid Hst Hkk) as [Hok _].
    assert (Hstep : remove_specific_source id (true, st) key =
      RemoveConstraintsFromJsonOperate ALL_SPECIFIC_CONSTRAINTS key (id_string id) st).
    { unfold remove_specific_source. rewrite (proj2 (String.eqb_neq key _)) by done. done. }
    rewrite Hstep. rewrite (surjective_pairing (RemoveConstraintsFromJsonOperate _ _ _ _)), Hok.
    apply IH. by apply (remove_any_step _ _ _ Hn).
  - unfold remove_specific_source at 2. destruct Hk as [?|[->|[]%not_elem_of_empty]]; [done|].
    rewrite String.eqb_refl. by apply IH.
Qed.

Lemma remove_user id l sm u m :
  specific_names known → account_id id → has_users l sm → sm !! u = Some m →
  ∃ l' m', RemoveUserConstraintsFromSpecificObj id (Some (JObject l)) (id_string u) = Some (JObject l') ∧
    has_users l' (<[u := m']> sm) ∧ ∀ c, sources m' c = sources m c ∖ {[id]}.
Proof.
  intros Hn Hid Hu Hm. assert (Hidu : account_id u) by (apply (u_ids _ _ _ _ Hu); by eexists).
  destruct (user_object l sm u m Hu Hm) as (lu & Hf & Hh). destruct (user_string u) as (Hnu & Hneu & Heu).
  unfold RemoveUserConstraintsFromSpecificObj.
  assert (Hobj : GetObjFromJson (Some (JObject l)) (id_string u) = Some (JObject lu)).
  { unfold GetObjFromJson. by rewrite find_item_object, Hnu, Hf. }
  rewrite Hobj. case_bool_decide as Hnil.
  - exists l, m. rewrite insert_id by done. split_and!; [done|done|]. intros c. destruct Hh as (id0 & xs & Hp).
    rewrite (read_list _ _ _ Hn _ _ _ _ _ Hp) in Hnil. subst xs. rewrite (sources_None c m); [set_solver|].
    destruct (m !! c) eqn:E; [|done]. exfalso. apply (not_elem_of_nil c), (p_list_dom _ _ _ _ _ _ _ _ Hp). by eexists.
  - pose proof (holds_stands_for _ _ _ Hn id lu m Hh) as Hst. cbn [child_names].
    destruct (remove_specific_loop id lu lu.*1 (mkOperation (Some (JObject lu)) (strings_of (Some (JObject lu)) ALL_SPECIFIC_CONSTRAINTS) []) m
      Hn Hid) as (st' & Hrun & Hst'); [|exact Hst|].
    { apply Forall_forall. intros k Hk. by eapply holds_keys. }
    rewrite Hrun. destruct (stands_for_done _ _ _ Hn id lu st' _ Hst') as (lu' & -> & Hh' & _).
    destruct (write_child l sm u lu lu' m _ Hu Hidu Hf Hh') as (l' & -> & Hu'). exists l'. eexists.
    split_and!; [done|exact Hu'|]. by eapply (purge_sources _ _ _ Hn id lu).
Qed.

(** [sm'] has the accounts of [sm], and the accounts [us] have lost the source [id]. *)
Definition purged (id : Z) (us : list Z) (sm sm' : gmap Z constraint_map) : Prop :=
  ∀ u, (is_Some (sm' !! u) ↔ is_Some (sm !! u)) ∧
    ∀ c, sources (default ∅ (sm' !! u)) c =
      if decide (u ∈ us) then sources (default ∅ (sm !! u)) c ∖ {[id]} else sources (default ∅ (sm !! u)) c.

Lemma purged_cons id u us sm sm' m m' :
  sm !! u = Some m → (∀ c, sources m' c = sources m c ∖ {[id]}) → purged id us (<[u := m']> sm) sm' → purged id (u :: us) sm sm'.
Proof.
  intros Hm Hm' Hp v. destruct (Hp v) as [Hd Hs]. destruct (decide (v = u)) as [->|Hne].
  - rewrite lookup_insert_eq in Hd, Hs. split; [rewrite Hd, Hm; by split|]. intros c. rewrite Hs, Hm.
    change (default ∅ (Some m')) with m'. change (default ∅ (Some m)) with m.
    rewrite Hm', (decide_True (P := u ∈ u :: us)) by set_solver. case_decide; set_solver.
  - rewrite lookup_insert_ne in Hd, Hs by done. split; [done|]. intros c. rewrite Hs.
    by rewrite (decide_ext (v ∈ us) (v ∈ u :: us)) by set_solver.
Qed.

Lemma remove_all_users id us l sm :
  specific_names known → account_id id → has_users l sm → Forall (λ u, is_Some (sm !! u)) us →
  ∃ l' sm', foldl (RemoveUserConstraintsFromSpecificObj id) (Some (JObject l)) (id_string <$> us) = Some (JObject l') ∧
    has_users l' sm' ∧ purged id us sm sm'.
Proof.
  intros Hn Hid Hu Hus. revert l sm Hu Hus. induction us as [|u us IH]; intros l sm Hu Hus.
  - exists l, sm. split_and!; [done|done|]. intros v. split; [done|]. intros c. by rewrite decide_False by set_solver.
  - apply Forall_cons in Hus as [[m Hm] Hus]. cbn [fmap list_fmap foldl].
    destruct (remove_user id l sm u m Hn Hid Hu Hm) as (l1 & m1 & -> & Hu1 & Hs1).
    destruct (IH l1 (<[u := m1]> sm) Hu1) as (l' & sm' & E & Hu' & Hp).
    { eapply Forall_impl; [exact Hus|]. intros v Hv. destruct (decide (v = u)) as [->|]; [by rewrite lookup_insert_eq|by rewrite lookup_insert_ne]. }
    exists l', sm'. split_and!; [exact E|done|]. by eapply purged_cons.
Qed.

Lemma wp_RemoveOASpecific id d sm (Q : result unit → S → Prop) s :
  specific_names known → account_id id → has_specific d sm → at_docs d s →
  (∀ d' sm' s', at_docs d' s' → has_specific d' sm' → purged id (elements (dom (delete id sm))) (delete id sm) sm' →
     (∀ p, p ≠ SPECIFIC_OSACCOUNT_CONSTRAINTS_JSON_PATH → d' !! p = d !! p) → Q (Ok tt) s') →
  (∀ e s', at_docs d s' → Q (Err e) s') →
  wp (RemoveOASpecificConstraintsInfo id) Q s.
Proof.
  intros Hn Hid (l & Hl & Hu) Hs Hok Herr. destruct constraint_documents as (_ & _ & Hdoc).
  unfold RemoveOASpecificConstraintsInfo. apply wp_bind.
  apply (wp_read_constraints _ l d); [done|by eapply users_ok|done|done| |done]. intros s1 Hs1.
  destruct (user_string id) as (Hni & Hnei & Hei). change (to_string id) with (id_string id).
  assert (Hdel : (if IsKeyExist (Some (JObject l)) (id_string id) then (DeleteItemFromJson (Some (JObject l)) (id_string id)).2
     else Some (JObject l)) = Some (JObject (obj_delete (id_string id) l))).
  { rewrite DeleteItem_object by done. rewrite IsKeyExist_object, Hni by done. case_bool_decide as Hs'; [done|].
    rewrite obj_delete_absent; [done|]. destruct (obj_find (id_string id) l); [by destruct Hs'|done]. }
  rewrite Hdel. pose proof (keyed_delete _ _ l sm id Hu Hid) as Hu'. destruct (keyed_keys _ _ _ _ Hu') as (us & Eus & Hus).
  unfold RemoveAllUsersConstraintsInfo. cbn [child_names]. rewrite Eus.
  destruct (remove_all_users id us _ _ Hn Hid Hu') as (l' & sm' & -> & Hu'' & Hp); [apply Forall_forall; by intros u ?%Hus|].
  apply (wp_save_constraints _ l' d); [done|done| |done]. intros s2 Hs2. eapply Hok; [exact Hs2|exists l'; by rewrite lookup_insert_eq| |].
  - intros u. destruct (Hp u) as [Hd Hsrc]. split; [done|]. intros c. rewrite Hsrc. apply decide_ext.
    by rewrite elem_of_elements, elem_of_dom, Hus.
  - intros p Hpp. by rewrite lookup_insert_ne.
Qed.

Lemma wp_RemoveOABase id d bm (Q : result unit → S → Prop) s :
  account_id id → has_base d bm → at_docs d s →
  (∀ d' s', at_docs d' s' → has_base d' (delete id bm) →
     (∀ p, p ≠ BASE_OSACCOUNT_CONSTRAINTS_JSON_PATH → d' !! p = d !! p) → Q (Ok tt) s') →
  (∀ e s', at_docs d s' → Q (Err e) s') →
  wp (RemoveOABaseConstraintsInfo id) Q s.
Proof.
  intros Hid Hb Hs Hok Herr. unfold RemoveOABaseConstraintsInfo.
  apply (wp_base_change (λ j, (DeleteItemFromJson j (to_string id)).2) d bm (delete id bm)); [done|done| |exact Hok|exact Herr].
  intros l Hl. destruct (user_string id) as (Hni & Hnei & _). exists (obj_delete (id_string id) l). split.
  - change (to_string id) with (id_string id). by rewrite DeleteItem_object.
  - by apply keyed_delete.
Qed.

Lemma wp_RemoveOAGlobal id d m owner (Q : result unit → S → Prop) s :
  global_names known → account_id id → has_global d m owner → at_docs d s →
  (∀ d' m' s', at_docs d' s' → has_global d' m' owner → (∀ c, sources m' c = sources m c ∖ {[id]}) →
     (∀ p, p ≠ GLOBAL_OSACCOUNT_CONSTRAINTS_JSON_PATH → d' !! p = d !! p) → Q (Ok tt) s') →
  (∀ e s', at_docs d s' → Q (Err e) s') →
  wp (RemoveOAGlobalConstraintsInfo id) Q s.
Proof.
  intros Hn Hid Hg Hs Hok Herr.
  pose (f := λ j, let '(j, w) := foldl (remove_global_source id) (j, []) (child_names j) in erase_keys w j).
  assert (E : RemoveOAGlobalConstraintsInfo id = (j ← GetGlobalOAConstraintsFromFile; SaveGlobalOAConstraintsToFile (f j))).
  { unfold RemoveOAGlobalConstraintsInfo, f. f_equal. apply functional_extensionality. intros j. by destruct (foldl _ _ _). }
  rewrite E. eapply wp_conseq; [apply (wp_global_change f d m owner (λ m', ∀ c, sources m' c = sources m c ∖ {[id]}));
    [done|done|done|]|].
  - intros l Hh. exact (global_remove_all id l m Hn Hid Hh).
  - intros [[]|e] s1; [|by apply Herr]. intros (d' & m' & Hs1 & Hg' & Hm' & Ho). by eapply Hok.
Qed.

(** The documents hold the constraints [bm], [m] and [sm]. *)
Definition has_constraints d (bm : gmap Z (gset string)) m (owner : Z) (sm : gmap Z constraint_map) : Prop :=
  has_base d bm ∧ has_global d m owner ∧ has_specific d sm.

Definition constraint_paths : list string :=
  [BASE_OSACCOUNT_CONSTRAINTS_JSON_PATH; GLOBAL_OSACCOUNT_CONSTRAINTS_JSON_PATH; SPECIFIC_OSACCOUNT_CONSTRAINTS_JSON_PATH].

Lemma has_base_same d d' bm :
  d' !! BASE_OSACCOUNT_CONSTRAINTS_JSON_PATH = d !! BASE_OSACCOUNT_CONSTRAINTS_JSON_PATH → has_base d bm → has_base d' bm.
Proof. intros E (l & Hl & Hb). exists l. by rewrite E. Qed.
Lemma has_global_same d d' m owner :
  d' !! GLOBAL_OSACCOUNT_CONSTRAINTS_JSON_PATH = d !! GLOBAL_OSACCOUNT_CONSTRAINTS_JSON_PATH → has_global d m owner → has_global d' m owner.
Proof. intros E (l & Hl & Hb). exists l. by rewrite E. Qed.
Lemma has_specific_same d d' sm :
  d' !! SPECIFIC_OSACCOUNT_CONSTRAINTS_JSON_PATH = d !! SPECIFIC_OSACCOUNT_CONSTRAINTS_JSON_PATH → has_specific d sm → has_specific d' sm.
Proof. intros E (l & Hl & Hb). exists l. by rewrite E. Qed.

(** C26. Removing the constraints of an account removes it everywhere: it has no
    constraints by itself any more, it is not a source of any global constraint nor
    of a specific constraint of any account, and its own entry is gone, while every
    other account and source stays.  A failure stops in between, with the documents
    before it changed: the base constraints may be gone and the others not. *)
Theorem removed_account_leaves_no_constraints id bm m owner sm s r s' :
  global_names known → specific_names known → account_id id → idle s →
  has_constraints (docs s) bm m owner sm → RemoveOAConstraintsInfo id s = (r, s') →
  idle s' ∧ (∀ p, p ∉ constraint_paths → docs s' !! p = docs s !! p) ∧
  ∃ bm' m' sm', has_constraints (docs s') bm' m' owner sm' ∧
  match r with
  | Ok _ => bm' = delete id bm ∧ (∀ c, sources m' c = sources m c ∖ {[id]}) ∧ sm' !! id = None ∧
      ∀ u, u ≠ id → (is_Some (sm' !! u) ↔ is_Some (sm !! u)) ∧
        ∀ c, sources (default ∅ (sm' !! u)) c = sources (default ∅ (sm !! u)) c ∖ {[id]}
  | Err _ => (bm' = bm ∧ m' = m ∨ bm' = delete id bm ∧ (m' = m ∨ ∀ c, sources m' c = sources m c ∖ {[id]})) ∧ sm' = sm
  end.
Proof.
  intros Hng Hns Hid Hi (Hb & Hg & Hsp) Hrun. as_wp Hrun. unfold RemoveOAConstraintsInfo.
  apply wp_bind, (wp_RemoveOABase id (docs s) bm); [done|done|done| |].
  2:{ intros e s1 [Hi1 Hd1]. rewrite Hd1. split_and!; [done|done|]. exists bm, m, sm. split_and!; [done|by left|done]. }
  intros d1 s1 Hs1 Hb1 Ho1. apply (has_global_same _ d1) in Hg; [|by apply Ho1]. apply (has_specific_same _ d1) in Hsp; [|by apply Ho1].
  apply wp_bind, (wp_RemoveOAGlobal id d1 m owner); [done|done|done|done| |].
  2:{ intros e s2 [Hi2 Hd2]. rewrite Hd2. split_and!; [done| |].
      - intros p Hp. apply Ho1. set_solver.
      - exists (delete id bm), m, sm. split_and!; [done|by right; split; [|left]|done]. }
  intros d2 m2 s2 Hs2 Hg2 Hm2 Ho2. apply (has_base_same _ d2) in Hb1; [|by apply Ho2].
  apply (has_specific_same _ d2) in Hsp; [|by apply Ho2].
  assert (Ho12 : ∀ p, p ∉ constraint_paths → d2 !! p = docs s !! p) by (intros p Hp; rewrite Ho2, Ho1; [done|set_solver..]).
  apply (wp_RemoveOASpecific id d2 sm); [done|done|done|done| |].
  2:{ intros e s3 [Hi3 Hd3]. rewrite Hd3. split_and!; [done|done|].
      exists (delete id bm), m2, sm. split_and!; [done|by right; split; [|right]|done]. }
  intros d3 sm3 s3 [Hi3 Hd3] Hs3 Hp3 Ho3. rewrite Hd3. split_and!; [done| |].
  - intros p Hp. rewrite Ho3; [by apply Ho12|set_solver].
  - exists (delete id bm), m2, sm3. split.
    + split_and!; [eapply has_base_same; [|exact Hb1]; by apply Ho3|eapply has_global_same; [|exact Hg2]; by apply Ho3|done].
    + split_and!; [done|done| |].
      * apply eq_None_not_Some. intros H%(Hp3 id). rewrite lookup_delete_eq in H. by destruct H.
      * intros u Hu. destruct (Hp3 u) as [Hdom Hsrc]. rewrite lookup_delete_ne in Hdom, Hsrc by done. split; [done|].
        intros c. rewrite Hsrc. case_decide as Hin; [done|]. rewrite elem_of_elements, elem_of_dom, lookup_delete_ne in Hin by done.
        apply eq_None_not_Some in Hin. rewrite Hin. cbn. rewrite sources_None; [set_solver|done].
Qed.
End Documents.

(** ** Witnesses *)

Section Witnesses.
Import Concrete.

Definition wifi : string := "constraint.wifi".
Definition sms : string := "constraint.sms".
Definition known_constraints : gset string := {[ wifi; sms ]}.

Definition base_example : gmap Z (gset string) := {[ 100 := {[ wifi; sms ]} ]}.
Definition global_example : constraint_map := {[ wifi := {[ 100; 101 ]} ]}.
Definition specific_example : gmap Z constraint_map := {[ 100 := {[ sms := {[ 101 ]} ]} ]}.

Definition base_fields : list (string * CJson) := [("100", JArray [JString wifi; JString sms])].
Definition global_fields : list (string * CJson) :=
  [(DEVICE_OWNER_ID, num 100); (ALL_GLOBAL_CONSTRAINTS, JArray [JString wifi]); (wifi, JArray [JString "100"; JString "101"])].
Definition user_fields : list (string * CJson) :=
  [(ALL_SPECIFIC_CONSTRAINTS, JArray [JString sms]); (sms, JArray [JString "101"])].
Definition specific_fields : list (string * CJson) := [("100", JObject user_fields)].

Definition constraint_world : FileWorld :=
  world {[ BASE_OSACCOUNT_CONSTRAINTS_JSON_PATH := list_text base_fields;
           GLOBAL_OSACCOUNT_CONSTRAINTS_JSON_PATH := list_text global_fields;
           SPECIFIC_OSACCOUNT_CONSTRAINTS_JSON_PATH := list_text specific_fields ]}.

Lemma known_base : base_names known_constraints.
Proof. split; [apply (bool_decide_unpack _); by vm_compute|by vm_compute]. Qed.

Lemma known_global : global_names known_constraints.
Proof. constructor; try split; apply (bool_decide_unpack _); by vm_compute. Qed.

Lemma known_specific : specific_names known_constraints.
Proof. constructor; try split; apply (bool_decide_unpack _); by vm_compute. Qed.

(** An object with one constraint. *)
Lemma holds_singleton all extra l c X ys :
  json_plain (JObject l) = true → (json_depth (JObject l) ≤ 2)%nat → NoDup l.*1 → c ∈ known_constraints →
  obj_find all l = Some (JArray [JString c]) → obj_find c l = Some (JArray (JString <$> (id_string <$> ys))) →
  NoDup ys → Forall account_id ys → list_to_set ys = X → X ≠ ∅ → Forall (λ k, k = all ∨ k ∈ extra ∨ k = c) l.*1 →
  holds known_constraints all extra l {[ c := X ]}.
Proof.
  intros Hp Hd Hk Hc Ha Hs Hnd Hr HX Hne Ho. exists 0, [c].
  constructor; [done|done|done|by left|apply NoDup_singleton| | | | |].
  - intros k. rewrite list_elem_of_singleton, lookup_singleton_is_Some. by split.
  - by intros k <-%lookup_singleton_is_Some.
  - intros k Y [<- <-]%lookup_singleton_Some. split; [done|]. by exists ys.
  - by intros k ?%not_elem_of_nil.
  - intros k Hin. rewrite Forall_forall in Ho. rewrite lookup_singleton_is_Some. destruct (Ho k Hin) as [?|[?|?]]; auto using eq_sym.
Qed.

Lemma constraint_world_idle : idle constraint_world.
Proof. reflexivity. Qed.

Lemma world_has_constraints : has_constraints known_constraints (docs constraint_world) base_example global_example 100 specific_example.
Proof.
  unfold base_example, global_example, specific_example. split_and!.
  - exists base_fields. split; [by vm_compute|]. constructor.
    + by vm_compute.
    + by apply Nat.leb_le.
    + apply (bool_decide_unpack _). by vm_compute.
    + intros u <-%lookup_singleton_is_Some. by apply (bool_decide_unpack (0 ≤ 100 ≤ MAX_USER_ID)).
    + intros u X [<- <-]%lookup_singleton_Some. exists (JArray (JString <$> [wifi; sms])).
      split; [by vm_compute|]. split; [reflexivity|]. exists [wifi; sms]. split_and!; [done| |].
      * apply (bool_decide_unpack _). by vm_compute.
      * set_solver.
    + intros k ->%list_elem_of_singleton. exists 100. by rewrite lookup_singleton_is_Some.
  - exists global_fields. split_and!; [by vm_compute| |by vm_compute|by apply (bool_decide_unpack _)].
    apply (holds_singleton _ _ _ wifi _ [100; 101]);
      first [by vm_compute | by apply Nat.leb_le | apply (bool_decide_unpack _); by vm_compute].
  - exists specific_fields. split; [by vm_compute|]. constructor.
    + by vm_compute.
    + by apply Nat.leb_le.
    + apply (bool_decide_unpack _). by vm_compute.
    + intros u <-%lookup_singleton_is_Some. by apply (bool_decide_unpack (0 ≤ 100 ≤ MAX_USER_ID)).
    + intros u X [<- <-]%lookup_singleton_Some. exists (JObject user_fields). split; [by vm_compute|]. exists user_fields.
      split; [done|]. apply (holds_singleton _ _ _ sms _ [101]);
      first [by vm_compute | by apply Nat.leb_le | apply (bool_decide_unpack _); by vm_compute].
    + intros k ->%list_elem_of_singleton. exists 100. by rewrite lookup_singleton_is_Some.
Qed.

Lemma id_ok z : bool_decide (0 ≤ z ≤ MAX_USER_ID) = true → account_id z.
Proof. apply bool_decide_eq_true_1. Qed.

Lemma wifi_known : Forall (.∈ known_constraints) [wifi].
Proof. apply (bool_decide_unpack _). by vm_compute. Qed.

Lemma global_constraints_refine_witness :
  ∃ s' m', UpdateGlobalOAConstraints (to_string 101) [wifi] false constraint_world = (Ok tt, s') ∧
    has_global known_constraints (docs s') m' 100 ∧ sources m' wifi = sources global_example wifi ∖ {[101]}.
Proof.
  destruct world_has_constraints as (_ & Hg & _).
  assert (H : UpdateGlobalOAConstraints (to_string 101) [wifi] false constraint_world =
    (Ok tt, (UpdateGlobalOAConstraints (to_string 101) [wifi] false constraint_world).2)) by (apply run_result; by vm_compute).
  destruct (global_constraints_refine known_constraints 101 [wifi] false global_example 100 constraint_world _ _ known_global
    (id_ok 101 eq_refl) wifi_known constraint_world_idle Hg H) as (_ & (m' & Hg' & Hm') & _).
  exists (UpdateGlobalOAConstraints (to_string 101) [wifi] false constraint_world).2, m'.
  specialize (Hm' wifi). rewrite decide_True in Hm' by (by left). exact (conj H (conj Hg' Hm')).
Defined.

Lemma specific_constraints_refine_witness :
  ∃ s' m', UpdateSpecificOAConstraints (to_string 100) (to_string 101) [wifi] true constraint_world = (Ok tt, s') ∧
    has_specific known_constraints (docs s') (<[101 := m']> specific_example) ∧
    sources m' wifi = {[100]} ∪ sources (default ∅ (specific_example !! 101)) wifi.
Proof.
  destruct world_has_constraints as (_ & _ & Hs).
  assert (H : UpdateSpecificOAConstraints (to_string 100) (to_string 101) [wifi] true constraint_world =
    (Ok tt, (UpdateSpecificOAConstraints (to_string 100) (to_string 101) [wifi] true constraint_world).2))
    by (apply run_result; by vm_compute).
  destruct (specific_constraints_refine known_constraints 100 101 [wifi] true specific_example constraint_world _ _ known_specific
    (id_ok 100 eq_refl) (id_ok 101 eq_refl) wifi_known constraint_world_idle Hs H) as (_ & (m' & Hs' & Hm') & _).
  exists (UpdateSpecificOAConstraints (to_string 100) (to_string 101) [wifi] true constraint_world).2, m'.
  change (negb true) with false in Hs'. rewrite andb_false_r in Hs'. specialize (Hm' wifi). rewrite decide_True in Hm' by (by left).
  exact (conj H (conj Hs' Hm')).
Defined.

Lemma base_constraints_refine_witness :
  ∃ s', UpdateBaseOAConstraints (to_string 101) [wifi] true constraint_world = (Ok tt, s') ∧
    has_base known_constraints (docs s') (<[101 := list_to_set [wifi]]> base_example).
Proof.
  destruct world_has_constraints as (Hb & _ & _).
  assert (Hk : list_to_set [wifi] ⊆ known_constraints) by (unfold known_constraints; set_solver).
  assert (H : UpdateBaseOAConstraints (to_string 101) [wifi] true constraint_world =
    (Ok tt, (UpdateBaseOAConstraints (to_string 101) [wifi] true constraint_world).2)) by (apply run_result; by vm_compute).
  destruct (base_constraints_refine known_constraints 101 [wifi] true base_example constraint_world _ _ known_base
    (id_ok 101 eq_refl) (NoDup_singleton wifi) Hk constraint_world_idle Hb H) as (_ & Hb' & _).
  exists (UpdateBaseOAConstraints (to_string 101) [wifi] true constraint_world).2. exact (conj H Hb').
Defined.

Lemma removed_account_leaves_no_constraints_witness :
  ∃ s' m' sm', RemoveOAConstraintsInfo 100 constraint_world = (Ok tt, s') ∧
    has_constraints known_constraints (docs s') (delete 100 base_example) m' 100 sm' ∧
    sources m' wifi = sources global_example wifi ∖ {[100]}.
Proof.
  assert (H : RemoveOAConstraintsInfo 100 constraint_world = (Ok tt, (RemoveOAConstraintsInfo 100 constraint_world).2))
    by (apply run_result; by vm_compute).
  destruct (removed_account_leaves_no_constraints known_constraints 100 base_example global_example 100 specific_example
    constraint_world _ _ known_global known_specific (id_ok 100 eq_refl) constraint_world_idle world_has_constraints H)
    as (_ & _ & bm' & m' & sm' & Hc & Hbm & Hm & _). rewrite Hbm in Hc.
  exists (RemoveOAConstraintsInfo 100 constraint_world).2, m', sm'. exact (conj H (conj Hc (Hm wifi))).
Defined.
End Witnesses.
