(* ===== verification/OsAccountConstraintQueries.v ===== *)
(** The queries on constraints answer from the maps the constraint documents hold,
    and what the service does with a constraint document that is broken. *)
From Stdlib Require Import ZArith Lia Ascii String.
From stdpp Require Import base list gmap sets strings pretty sorting.
From S2P Require Import Prelude ErrorCodes Json FileStore FileOperator FileTheorems OsAccountInfo OsAccountEnv.
From S2P Require Import OsAccountFiles OsAccountDocs OsAccountWorld OsAccountList OsAccountListTheorems.
From S2P Require Import OsAccountConstraints ConstraintMaps OsAccountConstraintTheorems.

Section Queries.
Context {cfg : Config} {oscfg : OsConfig} {sysconf : Sysconf} {cjson : CJsonLib} {target : Target} {cutils : CUtils} {huks : Huks}.
Context {S : Type} {fs : FileStore S} {laws : CJsonLaws} {alloc : CJsonAlloc}.
Context (known : gset string).
Implicit Types (l : list (string * CJson)) (m : constraint_map) (d : gmap string string).

Abbreviation has_base := (has_base known).
Abbreviation has_global := (has_global known).
Abbreviation has_specific := (has_specific known).

(** A query reads the document, or fails. *)
Lemma wp_query_document path empty l d (Q : result CJson → S → Prop) s :
  is_document path → json_ok (JObject l) = true → d !! path = Some (list_text l) → at_docs d s →
  (∀ s', at_docs d s' → Q (Ok (JObject l)) s') → (∀ e s', at_docs d s' → Q (Err e) s') →
  wp (query_document path empty) Q s.
Proof.
  intros Hp Hj Hl Hs Hok Herr. unfold query_document. apply wp_bind, (wp_exists_doc _ d); [done|done|]. intros b s1 _ Hs1.
  assert (Hend : ∀ l' s', at_docs d s' → l' = l ∨ l' = [] →
    wp (if GetItemNum (Some (JObject l')) =? 0 then merr empty else mret (JObject l')) Q s').
  { intros l' s' Hs' [->| ->].
    - destruct (_ =? 0); [apply wp_err; by apply Herr|apply wp_ret; by apply Hok].
    - rewrite GetItemNum_object by (unfold INT32_MAX; cbn; lia). apply wp_err. by apply Herr. }
  destruct b; apply wp_bind.
  - apply wp_bind, wp_try, (wp_read_doc _ d); [done|done| |].
    + intros t s2 Ht Hs2. rewrite Hl in Ht. injection Ht as <-. unfold list_text. destruct (pack_create _ Hj) as [-> _].
      apply wp_ret. apply Hend; [done|by left].
    + intros e s2 Hs2. apply wp_ret. apply wp_err. by apply Herr.
  - rewrite CreateJson_eq. apply wp_ret. apply Hend; [done|by right].
Qed.

(** The sources as a query gives them. *)
Definition answers (owner : Z) (X : gset Z) (r : list ConstraintSourceTypeInfo) : Prop :=
  NoDup (sourceLocalId <$> r) ∧ list_to_set (sourceLocalId <$> r) = X ∧
  ∀ i, i ∈ r → typeInfo i = if sourceLocalId i =? owner then CONSTRAINT_TYPE_DEVICE_OWNER else CONSTRAINT_TYPE_PROFILE_OWNER.

Lemma source_infos_ids owner ys :
  Forall account_id ys →
  source_infos owner (id_string <$> ys) =
    (λ y, mkConstraintSource y (if y =? owner then CONSTRAINT_TYPE_DEVICE_OWNER else CONSTRAINT_TYPE_PROFILE_OWNER)) <$> ys.
Proof.
  induction 1 as [|y ys Hy _ IH]; [done|]. unfold source_infos in *. cbn [fmap list_fmap omap list_omap].
  unfold id_string at 1. rewrite StrToInt_to_string by (unfold account_id, MAX_USER_ID, is_i32, INT32_MIN, INT32_MAX in *; lia).
  cbn [mbind option_bind]. by f_equal.
Qed.

Lemma source_infos_answer owner ys :
  NoDup ys → Forall account_id ys → answers owner (list_to_set ys) (source_infos owner (id_string <$> ys)).
Proof.
  intros Hnd Hys. rewrite source_infos_ids by done. unfold answers. rewrite <-list_fmap_compose. cbn [compose].
  assert (E : (sourceLocalId ∘ λ y, mkConstraintSource y (if y =? owner then CONSTRAINT_TYPE_DEVICE_OWNER else
    CONSTRAINT_TYPE_PROFILE_OWNER)) <$> ys = ys) by (clear; induction ys as [|y ys IH]; [done|]; cbn; by f_equal).
  rewrite E. split_and!; [done|done|]. intros i (y & -> & _)%list_elem_of_fmap. done.
Qed.

Lemma no_sources owner : answers owner ∅ [].
Proof. split_and!; [constructor|done|]. by intros i ?%not_elem_of_nil. Qed.

(** The list under [all] names the constraints that have sources, and the list under
    a constraint is its sources. *)
Lemma holds_query all extra l m c owner :
  constraint_names known all extra → holds known all extra l m →
  if bool_decide (c ∈ strings_of (Some (JObject l)) all)
  then answers owner (sources m c) (source_infos owner (strings_of (Some (JObject l)) c))
  else sources m c = ∅.
Proof.
  intros Hn (id & xs & Hp). rewrite (read_list _ _ _ Hn _ _ _ _ _ Hp). case_bool_decide as Hc.
  - apply (p_list_dom _ _ _ _ _ _ _ _ Hp) in Hc as [X HX]. rewrite (sources_Some _ _ _ HX).
    destruct (p_sources _ _ _ _ _ _ _ _ Hp c X HX) as [_ Hs].
    destruct (read_sources _ _ _ Hn c l X) as (ys & -> & Hnd & Hr & <-); [|done|by apply source_infos_answer].
    apply (p_known _ _ _ _ _ _ _ _ Hp). by eexists.
  - apply sources_None. destruct (m !! c) eqn:E; [|done]. exfalso. apply Hc, (p_list_dom _ _ _ _ _ _ _ _ Hp). by eexists.
Qed.

Lemma wp_base_query id c bm d s :
  base_names known → account_id id → has_base d bm → at_docs d s →
  wp (IsFromBaseOAConstraintsList id c)
    (λ r s', at_docs d s' ∧ ∀ b, r = Ok b → b = bool_decide (c ∈ default ∅ (bm !! id))) s.
Proof.
  intros Hn Hid (l & Hl & Hb) Hs. destruct constraint_documents as (Hdoc & _ & _). destruct (user_string id) as (Hni & Hnei & _).
  unfold IsFromBaseOAConstraintsList, GetBaseOAConstraintsList. apply wp_bind, wp_bind.
  apply (wp_query_document _ _ l d); [done|eapply (keyed_ok 2); [exact Hb|lia]|done|done| |by intros e s1 Hs1].
  intros s1 Hs1. apply wp_ret, wp_ret. split; [done|]. intros b [= <-]. change (to_string id) with (id_string id).
  apply bool_decide_ext. destruct (bm !! id) as [X|] eqn:E.
  - destruct (read_base known l bm id X Hn Hb E) as (xs & -> & _ & <- & _). cbn [default]. symmetry. apply elem_of_list_to_set.
  - rewrite absent_strings; [by rewrite elem_of_nil; cbn|done|done|].
    destruct (keyed_find _ _ l bm id Hb Hid) as [H _]. rewrite E, IsKeyExist_object, Hni in H by (by destruct (id_string id)).
    destruct (obj_find (id_string id) l) eqn:F; [|done]. exfalso.
    rewrite bool_decide_eq_true_2, bool_decide_eq_false_2 in H; [done| |by eexists]. by intros [].
Qed.

Lemma wp_global_query owner' c m owner d s :
  global_names known → has_global d m owner → at_docs d s →
  wp (IsFromGlobalOAConstraintsList owner' c) (λ r s', at_docs d s' ∧ ∀ x, r = Ok x → answers owner' (sources m c) x) s.
Proof.
  intros Hn (l & Hl & Hh & _) Hs. destruct constraint_documents as (_ & Hdoc & _).
  destruct (holds_small _ _ _ l m Hh) as (Hp & Hd & _). assert (Hj : json_ok (JObject l) = true) by (apply (small_ok l 2); [done|done|lia]).
  pose proof (holds_query _ _ l m c owner' Hn Hh) as Hq. unfold IsFromGlobalOAConstraintsList, GetGlobalOAConstraintsList.
  apply wp_bind, wp_bind, (wp_query_document _ _ l d); [done|done|done|done| |by intros e s1 Hs1]. intros s1 Hs1. apply wp_ret.
  destruct (bool_decide (strings_of (Some (JObject l)) ALL_GLOBAL_CONSTRAINTS = [])) eqn:Hnil; [|destruct (bool_decide (c ∈ _))].
  - apply bool_decide_eq_true in Hnil. rewrite Hnil, bool_decide_eq_false_2 in Hq by (by intros ?%not_elem_of_nil). rewrite Hq. apply wp_ret. split; [done|].
    intros x [= <-]. apply no_sources.
  - apply wp_bind, (wp_read_constraints _ l d); [done|done|done|done| |by intros e s2 Hs2]. intros s2 Hs2. apply wp_ret.
    split; [done|]. by intros x [= <-].
  - rewrite Hq. apply wp_ret. split; [done|]. intros x [= <-]. apply no_sources.
Qed.

Lemma wp_specific_query id owner' c sm d s :
  specific_names known → account_id id → has_specific d sm → at_docs d s →
  wp (IsFromSpecificOAConstraintsList id owner' c)
    (λ r s', at_docs d s' ∧ ∀ x, r = Ok x → answers owner' (sources (default ∅ (sm !! id)) c) x) s.
Proof.
  intros Hn Hid (l & Hl & Hu) Hs. destruct constraint_documents as (_ & _ & Hdoc). pose proof (users_ok known l sm Hu) as Hj.
  unfold IsFromSpecificOAConstraintsList, GetSpecificOAConstraintsList.
  apply wp_bind, wp_bind, (wp_query_document _ _ l d); [done|done|done|done| |by intros e s1 Hs1]. intros s1 Hs1. apply wp_ret.
  change (to_string id) with (id_string id).
  assert (Hq : if bool_decide (c ∈ strings_of (GetObjFromJson (Some (JObject l)) (id_string id)) ALL_SPECIFIC_CONSTRAINTS)
    then answers owner' (sources (default ∅ (sm !! id)) c)
           (source_infos owner' (strings_of (GetObjFromJson (Some (JObject l)) (id_string id)) c))
    else sources (default ∅ (sm !! id)) c = ∅).
  { destruct (find_user known l sm id Hu Hid) as [Hex Hf]. destruct (sm !! id) as [m|] eqn:E.
    - destruct (Hf m eq_refl) as (lu & _ & -> & Hh). by apply (holds_query _ ∅).
    - destruct (user_string id) as (Hni & Hnei & Hei). rewrite IsKeyExist_object, Hni in Hex by done. unfold GetObjFromJson.
      rewrite find_item_object, Hni by done. destruct (obj_find (id_string id) l) eqn:F.
      + exfalso. rewrite bool_decide_eq_true_2, bool_decide_eq_false_2 in Hex; [done| |by eexists]. by intros [].
      + rewrite bool_decide_eq_false_2; [by cbn|]. by intros ?%not_elem_of_nil. }
  destruct (bool_decide _).
  - apply wp_bind, (wp_read_constraints _ l d); [done|done|done|done| |by intros e s2 Hs2]. intros s2 Hs2. apply wp_ret.
    split; [done|]. by intros x [= <-].
  - rewrite Hq. apply wp_ret. split; [done|]. intros x [= <-]. apply no_sources.
Qed.

(** The queries answer from the constraints of the documents: whether an account
    has a constraint by itself, and the accounts a global or specific constraint
    comes from, each once and marked as the device owner or not.  They change no
    document. *)
Theorem constraint_queries_answer id owner' c bm m owner sm d s :
  base_names known → global_names known → specific_names known → account_id id →
  has_constraints known d bm m owner sm → at_docs d s →
  wp (IsFromBaseOAConstraintsList id c) (λ r s', at_docs d s' ∧ ∀ b, r = Ok b → b = bool_decide (c ∈ default ∅ (bm !! id))) s ∧
  wp (IsFromGlobalOAConstraintsList owner' c) (λ r s', at_docs d s' ∧ ∀ x, r = Ok x → answers owner' (sources m c) x) s ∧
  wp (IsFromSpecificOAConstraintsList id owner' c)
    (λ r s', at_docs d s' ∧ ∀ x, r = Ok x → answers owner' (sources (default ∅ (sm !! id)) c) x) s.
Proof.
  intros Hb Hg Hs Hid (Hdb & Hdg & Hds) Hd.
  split_and!; [by apply wp_base_query|by eapply wp_global_query|by apply wp_specific_query].
Qed.

(** *** Broken documents *)

Lemma add_strings_null key xs : AddVectorStringToJson None key xs = None.
Proof. done. Qed.

Lemma erase_keys_null w : erase_keys w None = None.
Proof. unfold erase_keys. by induction w as [|k w IH]. Qed.

Lemma null_remains {A} (f : Operation → A → Operation) cs st :
  (∀ st a, op_json st = None → op_json (f st a) = None) → op_json st = None → op_json (foldl f st cs) = None.
Proof. intros Hf. revert st. induction cs as [|c cs IH]; intros st Hst; [done|]. cbn [foldl]. by apply IH, Hf. Qed.

Lemma add_source_null all id c st : op_json st = None → op_json (add_source all id c st) = None.
Proof. intros Hst. unfold add_source. rewrite Hst. by repeat case_bool_decide. Qed.

Lemma remove_operate_null all id c st : op_json st = None → op_json (RemoveConstraintsFromJsonOperate all c id st).2 = None.
Proof. intros Hst. unfold RemoveConstraintsFromJsonOperate. rewrite Hst. by case_bool_decide. Qed.

Lemma global_operate_null id cs (isAdd : bool) : GlobalConstraintsDataOperate id cs isAdd None = None.
Proof.
  unfold GlobalConstraintsDataOperate. rewrite null_remains; [apply erase_keys_null| |done]. intros st c Hst.
  destruct isAdd; cbn [negb]; [by apply add_source_null|]. destruct (negb _); [done|by apply remove_operate_null].
Qed.

Lemma specific_operate_null id cs (isAdd : bool) : SpecificConstraintsDataOperate id cs isAdd None = None.
Proof.
  unfold SpecificConstraintsDataOperate. rewrite null_remains; [apply erase_keys_null| |done]. intros st c Hst.
  destruct isAdd; cbn [negb]; [by apply add_source_null|]. destruct (negb _); [done|by apply remove_operate_null].
Qed.

(** What a change of a document that does not parse leaves. *)
Definition emptied (path : string) (s : S) (r : result unit) (s' : S) : Prop :=
  idle s' ∧ docs s' = match r with Ok _ => <[path := ""]> (docs s) | Err _ => docs s end.

Lemma wp_read_broken path t s (Q : result (option CJson) → S → Prop) :
  is_document path → docs s !! path = Some t → CreateJsonFromString t = None → idle s →
  (∀ s', at_docs (docs s) s' → Q (Ok None) s') → (∀ e s', at_docs (docs s) s' → Q (Err e) s') → wp (read_constraints path) Q s.
Proof.
  intros Hp Ht Hb Hi Hok Herr. unfold read_constraints. apply wp_bind, (wp_read_doc _ (docs s)); [done|done| |done].
  intros t' s' Ht' Hs'. rewrite Ht in Ht'. injection Ht' as <-. apply wp_ret. rewrite Hb. by apply Hok.
Qed.

Lemma wp_save_null path s s1 :
  is_document path → at_docs (docs s) s1 → wp (save_constraints path None) (emptied path s) s1.
Proof.
  intros Hp Hs1. unfold save_constraints. apply wp_bind. apply (wp_write_doc _ _ (docs s)); [done|done| |by intros e s2 []].
  intros s2 Hs2. eapply wp_void; [eauto with mquiet|apply when_file_watcher_void|exact Hs2|]. by intros [] s3 [].
Qed.

Lemma wp_emptied path t (f : option CJson → option CJson) s :
  is_document path → docs s !! path = Some t → CreateJsonFromString t = None → idle s → f None = None →
  wp (j ← read_constraints path; save_constraints path (f j)) (emptied path s) s.
Proof.
  intros Hp Ht Hb Hi Hf. apply wp_bind, (wp_read_broken _ t); [done..| |by intros e s1 []].
  intros s1 Hs1. rewrite Hf. by apply wp_save_null.
Qed.

(** A constraint document that does not parse is not reported: a change of it
    writes an empty document over it and succeeds, so what the document held is
    lost, and so is the change. *)
Theorem broken_constraint_document_is_emptied idStr targetIdStr cs (isAdd : bool) t s :
  idle s → CreateJsonFromString t = None →
  (docs s !! GLOBAL_OSACCOUNT_CONSTRAINTS_JSON_PATH = Some t →
    wp (UpdateGlobalOAConstraints idStr cs isAdd) (emptied GLOBAL_OSACCOUNT_CONSTRAINTS_JSON_PATH s) s) ∧
  (docs s !! SPECIFIC_OSACCOUNT_CONSTRAINTS_JSON_PATH = Some t →
    wp (UpdateSpecificOAConstraints idStr targetIdStr cs true) (emptied SPECIFIC_OSACCOUNT_CONSTRAINTS_JSON_PATH s) s) ∧
  (docs s !! BASE_OSACCOUNT_CONSTRAINTS_JSON_PATH = Some t →
    wp (UpdateBaseOAConstraints idStr cs true) (emptied BASE_OSACCOUNT_CONSTRAINTS_JSON_PATH s) s).
Proof.
  intros Hi Hb. destruct constraint_documents as (Hd1 & Hd2 & Hd3). split_and!; intros Ht.
  - apply (wp_emptied _ t); [done..|]. apply global_operate_null.
  - unfold UpdateSpecificOAConstraints. apply wp_bind, (wp_read_broken _ t); [done..| |by intros e s1 []].
    intros s1 Hs1. cbn [IsKeyExist negb andb]. unfold AddObjToJson at 1. cbn [changed_or GetItemFromJson IsKeyExist].
    rewrite specific_operate_null. cbn [set_child_opt]. by apply wp_save_null.
  - unfold UpdateBaseOAConstraints. apply wp_bind, (wp_read_broken _ t); [done..| |by intros e s1 []].
    intros s1 Hs1. by apply wp_save_null.
Qed.
End Queries.

(** ** Witnesses *)

Section Witnesses.
Import Concrete.

Lemma constraint_queries_answer_witness :
  wp (IsFromGlobalOAConstraintsList 100 wifi) (λ r s', at_docs (docs constraint_world) s' ∧
    ∀ x, r = Ok x → answers 100 (sources global_example wifi) x) constraint_world.
Proof.
  assert (Hs : at_docs (docs constraint_world) constraint_world) by (split; [apply constraint_world_idle|reflexivity]).
  exact (proj1 (proj2 (constraint_queries_answer known_constraints 100 100 wifi base_example global_example 100 specific_example
    (docs constraint_world) constraint_world known_base known_global known_specific (id_ok 100 eq_refl) world_has_constraints Hs))).
Defined.

(** A document cut off in the middle. *)
Definition broken_world : FileWorld := world {[ GLOBAL_OSACCOUNT_CONSTRAINTS_JSON_PATH := "{" ]}.

Lemma broken_constraint_document_is_emptied_witness :
  ∃ s', UpdateGlobalOAConstraints "100" [wifi] true broken_world = (Ok tt, s') ∧
    docs s' = <[GLOBAL_OSACCOUNT_CONSTRAINTS_JSON_PATH := ""]> (docs broken_world).
Proof.
  assert (Hi : idle broken_world) by reflexivity.
  assert (Ht : docs broken_world !! GLOBAL_OSACCOUNT_CONSTRAINTS_JSON_PATH = Some "{") by (by vm_compute).
  assert (Hb : CreateJsonFromString "{" = None) by (by vm_compute).
  assert (H : (UpdateGlobalOAConstraints "100" [wifi] true broken_world).1 = Ok tt) by (by vm_compute).
  destruct (broken_constraint_document_is_emptied "100" "100" [wifi] true _ broken_world Hi Hb) as [Hg _].
  destruct (Hg Ht) as [_ Hd]. rewrite H in Hd.
  exists (UpdateGlobalOAConstraints "100" [wifi] true broken_world).2. split; [by apply run_result|exact Hd].
Defined.
End Witnesses.
