(* ===== verification/PrivilegeUtils.v ===== *)
(** What privileges are made of, and what the service asks the system about a
    process: privileges_map.cpp and privilege_utils.cpp.

    The table of privileges is generated at build time and is a parameter.  The start
    time of a process is read from the line the kernel shows about it, in which the
    name of the program is in parentheses. *)
From Stdlib Require Import ZArith Lia Ascii String.
From stdpp Require Import base list gmap sets strings pretty sorting.
From S2P Require Import Prelude ErrorCodes Json FileStore.

(** [PrivilegeBriefDef], privileges_map.h; what a local of this type holds before it
    is filled in is a parameter, too. *)
Record PrivilegeBriefDef := mkPrivilegeBriefDef { privilegeName : option string; timeout : Z }.

Class Privileges := { g_privilegeList : list PrivilegeBriefDef; uninitialised : PrivilegeBriefDef }.

Section Table.
Context {privileges : Privileges}.

Definition MAX_PRIVILEGE_SIZE : Z := Z.of_nat (length g_privilegeList).

(** A name that is there twice keeps its last place.

    [InitMap], privileges_map.cpp *)
Definition InitMap : gmap string Z :=
  foldl (λ m '(i, d), match privilegeName d with Some name => <[c_str name := Z.of_nat i]> m | None => m end) ∅
    (imap pair g_privilegeList).

(** [TransferPrivilegeToCode], privileges_map.cpp *)
Definition TransferPrivilegeToCode (name : string) : option Z := InitMap !! c_str name.

(** An entry without a name is not asked for.

    [TransferCodeToPrivilege], privileges_map.cpp *)
Definition TransferCodeToPrivilege (code : Z) : string :=
  if MAX_PRIVILEGE_SIZE <=? code then EmptyString
  else default EmptyString (c_str <$> (g_privilegeList !! Z.to_nat code ≫= privilegeName)).

(** [IsDefinedPrivilege], privileges_map.cpp *)
Definition IsDefinedPrivilege (privilege : string) : bool := bool_decide (is_Some (InitMap !! c_str privilege)).

(** With the definition that is passed in when there is none.

    [GetPrivilegeBriefDef]#2, privileges_map.cpp *)
Definition GetPrivilegeBriefDef (code : Z) (privilegeBriefDef : PrivilegeBriefDef) : PrivilegeBriefDef :=
  if MAX_PRIVILEGE_SIZE <=? code then privilegeBriefDef
  else default privilegeBriefDef (g_privilegeList !! Z.to_nat code).
End Table.

(** ** Times *)

Definition INT64_WIDTH : Z := 18446744073709551616.

(** Two's complement, which is what an addition that overflows gives. *)
Definition i64 (z : Z) : Z := (z + 9223372036854775808) `mod` INT64_WIDTH - 9223372036854775808.

Lemma i64_id z : INT64_MIN ≤ z ≤ INT64_MAX → i64 z = z.
Proof. intros Hz. unfold i64, INT64_WIDTH, INT64_MIN, INT64_MAX in *. rewrite Z.mod_small; lia. Qed.

Definition MILLI_SECONDS_PER_SECOND : Z := 1000.

(** The product is one of [uint32_t].

    [AddTimePeriod], privilege_utils.cpp *)
Definition AddTimePeriod (bootTimeStampMs period : Z) : Z := i64 (bootTimeStampMs + u32 (period * MILLI_SECONDS_PER_SECOND)).
(** [DecTimePeriod], privilege_utils.cpp *)
Definition DecTimePeriod (bootTimeStampMs period : Z) : Z := i64 (bootTimeStampMs - u32 (period * MILLI_SECONDS_PER_SECOND)).

(** ** The line of a process *)

Definition START_TIME_INDEX : nat := 19.
Definition errc_invalid_argument : Z := 22.
Definition errc_result_out_of_range : Z := 34.

(** The pieces between delimiters; [item] is what has been read of the next one.

    [SplitString], privilege_utils.cpp *)
Fixpoint split_from (item : string) (str : string) (delimiter : ascii) : list string :=
  match str with
  | EmptyString => if string_empty item then [] else [item]
  | String a str =>
      if Ascii.eqb a delimiter then
        if string_empty item then split_from EmptyString str delimiter
        else item :: split_from EmptyString str delimiter
      else split_from (item +:+ String a EmptyString) str delimiter
  end.
Definition SplitString (str : string) (delimiter : ascii) : list string := split_from EmptyString str delimiter.

(** What follows the first [a], or the text itself. *)
Fixpoint after_first (a : ascii) (str : string) : option string :=
  match str with
  | EmptyString => None
  | String b str => if Ascii.eqb b a then Some str else after_first a str
  end.

(** The fields behind the name of the program.

    [GetStatInfo], privilege_utils.cpp:82-86 *)
Definition stat_fields (statInfo : string) : list string :=
  SplitString (default statInfo (after_first ")" statInfo)) " ".

(** [std::from_chars] for [uint64_t], which takes the digits at the front. *)
Definition from_chars (s : string) : result Z :=
  match s with
  | String a _ =>
      if is_digit a then
        let v := (scan_digits 0 s).1 in if v <=? UINT64_MAX then Ok v else Err errc_result_out_of_range
      else Err errc_invalid_argument
  | EmptyString => Err errc_invalid_argument
  end.

(** [GetProcessStartTime], privilege_utils.cpp:109-124 *)
Definition start_time_of (statInfo : list string) : result Z :=
  match statInfo !! START_TIME_INDEX with
  | None => Err ERR_ACCOUNT_COMMON_FILE_READ_FAILED
  | Some startTimeStr => match from_chars startTimeStr with Ok timeStamp => Ok (i64 timeStamp) | Err e => Err e end
  end.

(** What the service asks the system: the clock since boot, the line of a process
    ([None] when it cannot be opened), a descriptor of a process, a death recipient on
    the remote object of a process, the trusted clock ([remain] and [isValid]), the
    level of a process in the kernel's access control, and the kernel's own
    authorization.  [confirmed s] are the ids of processes and the permissions the kernel
    has said yes about. *)
Class System (S : Type) `{FileStore S} := {
  GetUptimeMs : M S Z;
  ReadStat : string → M S (option string);
  OpenSmartPidFd : Z → M S unit;
  AddDeathRecipient : Z → M S bool;
  CheckTimestampExpired : Z → Z → M S (Z * bool);
  GetAcl : Z → M S Z;
  SetKernelAuthorization : Z → string → M S unit;
  QueryKernelAuthorization : Z → string → M S bool;
  GenerateDigest : string → M S (list Z);
  digest_of : string → list Z;
  confirmed : S → gset (Z * string);
  uptime_leaves : leaves_texts GetUptimeMs;
  stat_leaves path : leaves_texts (ReadStat path);
  pidfd_leaves pid : leaves_texts (OpenSmartPidFd pid);
  recipient_leaves pid : leaves_texts (AddDeathRecipient pid);
  tee_leaves start timeout : leaves_texts (CheckTimestampExpired start timeout);
  acl_leaves pid : leaves_texts (GetAcl pid);
  set_leaves pid permission : leaves_texts (SetKernelAuthorization pid permission);
  query_leaves pid permission : leaves_texts (QueryKernelAuthorization pid permission);
  digest_leaves input : leaves_texts (GenerateDigest input);
  digest_spec input s d s' : GenerateDigest input s = (Ok d, s') → d = digest_of input ∧ length d = 32%nat ∧ Forall (λ b, 0 ≤ b < 256) d;
  set_confirms pid permission s s' : SetKernelAuthorization pid permission s = (Ok tt, s') → (pid, permission) ∈ confirmed s';
  query_confirms pid permission s s' : QueryKernelAuthorization pid permission s = (Ok true, s') → (pid, permission) ∈ confirmed s';
}.

Section Process.
Context {cjson : CJsonLib} {S : Type} {fs : FileStore S} {system : System S}.

(** [GetStatInfo], privilege_utils.cpp *)
Definition GetStatInfo (path : string) : M S (list string) :=
  file ← ReadStat path;
  match file with
  | None => merr ERR_ACCOUNT_COMMON_FILE_OPEN_FAILED
  | Some statInfo => mret (stat_fields statInfo)
  end.

(** [GetProcessStartTime], privilege_utils.cpp *)
Definition GetProcessStartTime (pid : Z) : M S Z :=
  let path := "/proc/" +:+ to_string pid +:+ "/stat" in
  _ ← CheckFileExistence path;
  statInfo ← GetStatInfo path;
  match start_time_of statInfo with Ok startTime => mret startTime | Err e => merr e end.
End Process.

(** ** The start time of a process *)

Lemma after_first_app a s t : char_free a s → after_first a (s +:+ String a t) = Some t.
Proof.
  induction s as [|b s IH]; intros Hs; [rewrite string_app_nil_l; cbn [after_first]; by rewrite Ascii.eqb_refl|]. apply char_free_cons in Hs as [Hb Hs].
  rewrite string_app_cons. cbn [after_first]. apply Ascii.eqb_neq in Hb. rewrite Hb. by apply IH.
Qed.

(** A field: not empty, and without the delimiter. *)
Definition field (d : ascii) (f : string) : Prop := f ≠ "" ∧ char_free d f.

(** The fields as the kernel writes them, each after a blank. *)
Definition blank_fields (fields : list string) : string := foldr (λ f s, String " " (f +:+ s)) "" fields.

Lemma split_from_field item f rest d :
  char_free d f → split_from item (f +:+ rest) d = split_from (item +:+ f) rest d.
Proof.
  revert item. induction f as [|a f IH]; intros item Hf; [by rewrite string_app_nil_l, string_app_nil_r|].
  apply char_free_cons in Hf as [Ha Hf]. rewrite string_app_cons. cbn [split_from]. apply Ascii.eqb_neq in Ha.
  rewrite Ha, IH by done. f_equal. by rewrite string_app_assoc, string_app_cons, string_app_nil_l.
Qed.

Lemma split_blank_fields item fields :
  Forall (field " ") fields →
  split_from item (blank_fields fields) " " = (if string_empty item then [] else [item]) ++ fields.
Proof.
  intros Hf. revert item. induction Hf as [|f fields [Hne Hf] _ IH]; intros item.
  - cbn. by destruct (string_empty item).
  - cbn [blank_fields foldr split_from]. rewrite Ascii.eqb_refl. change (foldr _ "" fields) with (blank_fields fields).
    rewrite !split_from_field, string_app_nil_l, IH by done. assert (string_empty f = false) as -> by by destruct f.
    by destruct (string_empty item).
Qed.

Lemma from_chars_number z : 0 ≤ z ≤ UINT64_MAX → from_chars (to_string z) = Ok z.
Proof.
  intros Hz. pose proof (to_string_digits z (proj1 Hz)) as Hd. pose proof (to_string_nonempty z (proj1 Hz)) as Hne.
  unfold from_chars. rewrite scan_digits_all, to_string_value by (done || lia). cbn [fst].
  destruct (to_string z) as [|a s]; [done|]. cbn [all_digits] in Hd. apply andb_true_iff in Hd as [-> _].
  by rewrite (proj2 (Z.leb_le z UINT64_MAX)) by lia.
Qed.

(** The line of a process: its id, the name of the program, and the fields from the
    third on. *)
Definition stat_line (pid comm : string) (fields : list string) : string :=
  pid +:+ " (" +:+ comm +:+ String ")" (blank_fields fields).

Lemma stat_fields_line pid comm fields :
  char_free ")" pid → char_free ")" comm → Forall (field " ") fields → stat_fields (stat_line pid comm fields) = fields.
Proof.
  intros Hp Hc Hf. unfold stat_fields, stat_line. rewrite <-!string_app_assoc, after_first_app.
  - cbn [from_option]. unfold id, SplitString. by rewrite split_blank_fields.
  - rewrite !char_free_app. split_and!; [done|by vm_compute|done].
Qed.

(** The start time of a process is read from the field the kernel puts it in, the
    22nd, when the name of the program has no closing parenthesis. *)
Theorem start_time_is_read pid comm fields t :
  char_free ")" pid → char_free ")" comm → Forall (field " ") fields →
  fields !! START_TIME_INDEX = Some (to_string t) → 0 ≤ t ≤ INT64_MAX →
  start_time_of (stat_fields (stat_line pid comm fields)) = Ok t.
Proof.
  intros Hp Hc Hf Ht Hr. rewrite stat_fields_line by done. unfold start_time_of. rewrite Ht, from_chars_number.
  - by rewrite i64_id by (unfold INT64_MIN; lia).
  - unfold INT64_MAX, UINT64_MAX in *. lia.
Qed.

(** A program can name itself so that another field is taken for its start time: the
    part of the name behind its first closing parenthesis is read as a field, and the
    field before the start time (which the kernel always shows as 0) comes in its
    place.  Two processes with such a name and the same id are not told apart. *)
Theorem program_name_moves_start_time pid front back fields :
  char_free ")" pid → char_free ")" front → field " " back → Forall (field " ") fields →
  start_time_of (stat_fields (stat_line pid (front +:+ ") " +:+ back) fields)) =
    start_time_of ((back +:+ ")") :: fields) ∧
  ((back +:+ ")") :: fields) !! START_TIME_INDEX = fields !! 18%nat.
Proof.
  intros Hp Hfr [Hb Hbc] Hf. split; [|done]. f_equal. unfold stat_fields, stat_line.
  replace (pid +:+ " (" +:+ (front +:+ ") " +:+ back) +:+ String ")" (blank_fields fields))
    with ((pid +:+ " (" +:+ front) +:+ String ")" (blank_fields ((back +:+ ")") :: fields))).
  - rewrite after_first_app; [|rewrite !char_free_app; split_and!; [done|by vm_compute|done]].
    cbn [from_option]. unfold id, SplitString. rewrite split_blank_fields; [done|].
    apply Forall_cons. split; [|done]. split; [by destruct back|]. apply char_free_app. split; [done|by vm_compute].
  - cbn [blank_fields foldr]. rewrite !string_app_assoc, !string_app_cons. by rewrite !string_app_nil_l.
Qed.

(** ** Witnesses *)

Definition sample_fields : list string :=
  "S" :: repeat "0" 18 ++ ["5151"; "0"; "0"].

Lemma sample_fields_ok : Forall (field " ") sample_fields.
Proof. repeat constructor; by vm_compute. Qed.

Lemma start_time_is_read_witness :
  start_time_of (stat_fields (stat_line "812" "accountmgr" sample_fields)) = Ok 5151.
Proof.
  apply (start_time_is_read "812" "accountmgr" sample_fields 5151);
    [reflexivity|reflexivity|apply sample_fields_ok|reflexivity|unfold INT64_MAX; lia].
Defined.

Lemma program_name_moves_start_time_witness :
  start_time_of (stat_fields (stat_line "812" "a) b" sample_fields)) = Ok 0.
Proof.
  assert (Hb : field " " "b") by (split; [discriminate|reflexivity]).
  destruct (program_name_moves_start_time "812" "a" "b" sample_fields eq_refl eq_refl Hb sample_fields_ok) as [H _].
  change "a) b" with ("a" +:+ ") " +:+ "b"). rewrite H. reflexivity.
Defined.
