(* ===== verification/PrivilegeCache.v ===== *)
(** The cache of privileges: privilege_cache_manager.cpp.

    A process holds privileges, each until a time or, where the kernel is asked too,
    until it is taken away.  The cache is kept in a file, under a digest of the records
    and the time they were written, and read again when the service starts.

    A record of a process is shared between the map and the function that works on
    it; the model puts it back into the map where the code changes it through a
    pointer.  The mutexes are recursive, so an operation runs as a whole.  The clean
    task is a thread of its own: [clean_tasks] counts those that have not run. *)
From Stdlib Require Import ZArith Lia Ascii String.
From stdpp Require Import base list gmap sets strings pretty sorting.
From S2P Require Import Prelude ErrorCodes Json FileStore OsAccountEnv PrivilegeUtils.

Definition EXPIRED_TIME_OFFSET : Z := 2.
Definition UID_TRANSFORM_DIVISOR : Z := 200000.
Definition MS_TO_SECOND : Z := 1000.
Definition PRIVILEGE_RECORD_NAME : string := "privilegeName".
Definition PRIVILEGE_RECORD_EXPIRED_TIMESTAMP : string := "expiredTimeStamp".
Definition PRIVILEGE_RECORD_SAFE_START_TIME : string := "safeStartTime".
Definition PRIVILEGE_RECORD_AUTH_STATUS : string := "authStatus".
Definition PROCESS_RECORD_PID : string := "pid".
Definition PROCESS_RECORD_UID : string := "uid".
Definition PROCESS_RECORD_START_TIME : string := "processStartTime".
Definition PROCESS_RECORD_PRIVILEGE_RECORDS : string := "privilegeRecords".
Definition CACHE_MANAGER_DIGEST : string := "digest".
Definition CACHE_MANAGER_PROCESS_RECORDS : string := "processRecords".
Definition CACHE_MANAGER_UPDATE_TIME : string := "updateTime".
Definition PRIVILEGE_CACHE_FILE_PATH : string := USER_INFO_BASE +:+ PATH_SEPARATOR +:+ "privilege_cache.json".

(** [PrivilegeAuthStatus], privilege_cache_manager.h *)
Inductive PrivilegeAuthStatus := NOT_REQUIRED | UNCONFIRMED | AUTHORIZED.

#[export] Instance PrivilegeAuthStatus_eq_dec : EqDecision PrivilegeAuthStatus.
Proof. solve_decision. Defined.

(** [PrivilegeRecord], privilege_cache_manager.h *)
Record PrivilegeRecord := mkPrivilegeRecord {
  privilegeIdx_ : Z;
  expiredTime_ : Z;
  safeStartTime_ : Z;
  authStatus_ : PrivilegeAuthStatus;
}.

(** [watched] says whether a death recipient is on the remote object of the process.

    [ProcessPrivilegeRecord], privilege_cache_manager.h *)
Record ProcessPrivilegeRecord := mkProcessRecord {
  privilegeRecordMap_ : gmap Z PrivilegeRecord;
  pid_ : Z;
  uid_ : Z;
  processStartTime_ : Z;
  watched : bool;
}.

#[export] Instance PrivilegeRecord_eq_dec : EqDecision PrivilegeRecord.
Proof. solve_decision. Defined.
#[export] Instance ProcessPrivilegeRecord_eq_dec : EqDecision ProcessPrivilegeRecord.
Proof. solve_decision. Defined.

Definition set_records (f : gmap Z PrivilegeRecord → gmap Z PrivilegeRecord) (p : ProcessPrivilegeRecord) :=
  mkProcessRecord (f (privilegeRecordMap_ p)) (pid_ p) (uid_ p) (processStartTime_ p) (watched p).
Definition SetAuthStatus (authType : PrivilegeAuthStatus) (r : PrivilegeRecord) : PrivilegeRecord :=
  mkPrivilegeRecord (privilegeIdx_ r) (expiredTime_ r) (safeStartTime_ r) authType.

(** [remoteObject] is whether the caller handed one in.

    [AuthenCallerInfo], privilege_cache_manager.h *)
Record AuthenCallerInfo := mkCaller { caller_pid : Z; caller_uid : Z; caller_privilegeIdx : Z; remoteObject : bool }.

(** [PrivilegeCacheManager], privilege_cache_manager.h *)
Record Cache (S : Type) := mkCache {
  world : S;
  processPrivilegeMap_ : gmap Z ProcessPrivilegeRecord;
  clean_tasks : nat;
}.
Arguments mkCache {_} _ _ _.
Arguments world {_} _.
Arguments processPrivilegeMap_ {_} _.
Arguments clean_tasks {_} _.

(** [PrivilegeAuthStatusToString], privilege_cache_manager.cpp *)
Definition PrivilegeAuthStatusToString (authType : PrivilegeAuthStatus) : string :=
  match authType with NOT_REQUIRED => "NOT_REQUIRED" | UNCONFIRMED => "UNCONFIRMED" | AUTHORIZED => "AUTHORIZED" end.

(** [StringToPrivilegeAuthStatus], privilege_cache_manager.cpp *)
Definition StringToPrivilegeAuthStatus (authTypeStr : string) : PrivilegeAuthStatus :=
  if String.eqb authTypeStr "AUTHORIZED" then AUTHORIZED
  else if String.eqb authTypeStr "UNCONFIRMED" then UNCONFIRMED else NOT_REQUIRED.

(** The entries of [std::map] in the order of the keys. *)
Definition in_order {A} (m : gmap Z A) : list (Z * A) := ordered_list Z.le m.

Section Records.
Context {cjson : CJsonLib} {target : Target} {privileges : Privileges}.
Context {S : Type} {fs : FileStore S} {system : System S}.

(** *** One privilege *)

(** [PrivilegeRecord::FromJson], privilege_cache_manager.cpp *)
Definition PrivilegeRecord_FromJson (jsonObjPtr : option CJson) : option PrivilegeRecord :=
  if negb (IsObject jsonObjPtr) then None
  else
    name ← GetStringFromJson jsonObjPtr PRIVILEGE_RECORD_NAME;
    privilegeIdx ← TransferPrivilegeToCode name;
    expiredTime ← GetInt64FromJson jsonObjPtr PRIVILEGE_RECORD_EXPIRED_TIMESTAMP;
    safeStartTime ← GetInt64FromJson jsonObjPtr PRIVILEGE_RECORD_SAFE_START_TIME;
    let authTypeStr := default "NOT_REQUIRED" (GetStringFromJson jsonObjPtr PRIVILEGE_RECORD_AUTH_STATUS) in
    Some (mkPrivilegeRecord privilegeIdx expiredTime (u32 safeStartTime) (StringToPrivilegeAuthStatus authTypeStr)).

(** The array with the record at its end; the error codes are not told apart.

    [PrivilegeRecord::ToJson], privilege_cache_manager.cpp *)
Definition PrivilegeRecord_ToJson (r : PrivilegeRecord) (jsonArrPtr : option CJson) : option CJson :=
  _ ← jsonArrPtr;
  curRecord ← CreateJson;
  curRecord ← AddStringToJson (Some curRecord) PRIVILEGE_RECORD_NAME (TransferCodeToPrivilege (privilegeIdx_ r));
  curRecord ← AddInt64ToJson (Some curRecord) PRIVILEGE_RECORD_EXPIRED_TIMESTAMP (expiredTime_ r);
  curRecord ← AddInt64ToJson (Some curRecord) PRIVILEGE_RECORD_SAFE_START_TIME (safeStartTime_ r);
  curRecord ← AddStringToJson (Some curRecord) PRIVILEGE_RECORD_AUTH_STATUS (PrivilegeAuthStatusToString (authStatus_ r));
  AddObjToArray jsonArrPtr (Some curRecord).

(** Near the time the privilege expires, the trusted clock decides.

    [PrivilegeRecord::GetRemainTimeSec], privilege_cache_manager.cpp *)
Definition GetRemainTimeSec (r : PrivilegeRecord) (currentTimeStamp : Z) : M S Z :=
  if currentTimeStamp <? DecTimePeriod (expiredTime_ r) EXPIRED_TIME_OFFSET then
    mret (i32 (Z.quot (expiredTime_ r - currentTimeStamp) MS_TO_SECOND))
  else if currentTimeStamp <=? AddTimePeriod (expiredTime_ r) EXPIRED_TIME_OFFSET then
    let privilegeBriefDef := GetPrivilegeBriefDef (privilegeIdx_ r) uninitialised in
    '(remainTimeSec, isValid) ← CheckTimestampExpired (safeStartTime_ r) (timeout privilegeBriefDef);
    mret (if isValid : bool then remainTimeSec else 0)
  else mret 0.

(** [PrivilegeRecord::NeedClean], privilege_cache_manager.cpp *)
Definition NeedClean (r : PrivilegeRecord) (currentTimeStamp : Z) : bool :=
  if negb (bool_decide (authStatus_ r = NOT_REQUIRED)) then false
  else negb (currentTimeStamp <=? AddTimePeriod (expiredTime_ r) EXPIRED_TIME_OFFSET).

(** *** The privileges of a process *)

(** [ProcessPrivilegeRecord::CreateEmptyProcessPrivilegeRecord], privilege_cache_manager.cpp *)
Definition CreateEmptyProcessPrivilegeRecord (callerInfo : AuthenCallerInfo) : M S ProcessPrivilegeRecord :=
  if negb (remoteObject callerInfo) then merr ERR_ACCOUNT_COMMON_NULL_PTR_ERROR
  else
    startTime ← GetProcessStartTime (caller_pid callerInfo);
    _ ← OpenSmartPidFd (caller_pid callerInfo);
    added ← AddDeathRecipient (caller_pid callerInfo);
    if negb added then merr ERR_ACCOUNT_COMMON_ADD_DEATH_RECIPIENT
    else mret (mkProcessRecord ∅ (caller_pid callerInfo) (caller_uid callerInfo) startTime true).

(** [ProcessPrivilegeRecord::ParsePrivilegeRecordJsonArray], privilege_cache_manager.cpp *)
Fixpoint ParsePrivilegeRecordJsonArray (currentTime : Z) (items : list CJson) (m : gmap Z PrivilegeRecord)
  : option (gmap Z PrivilegeRecord) :=
  match items with
  | [] => Some m
  | item :: items =>
      record ← PrivilegeRecord_FromJson (Some item);
      if NeedClean record currentTime then ParsePrivilegeRecordJsonArray currentTime items m
      else ParsePrivilegeRecordJsonArray currentTime items (<[privilegeIdx_ record := record]> m)
  end.

(** [ProcessPrivilegeRecord::CheckProcessAlive], privilege_cache_manager.cpp *)
Definition CheckProcessAlive (pid processStartTime : Z) : M S bool :=
  if pid <=? 0 then mret false
  else
    ret ← mtry (GetProcessStartTime pid);
    match ret with
    | Err _ => mret false
    | Ok startTime => mret (startTime =? processStartTime)
    end.

(** [cJSON_ArrayForEach] *)
Definition array_items (j : option CJson) : list CJson := match j with Some (JArray l) => l | _ => [] end.

(** [None] for a record without privileges; no death recipient is added.

    [ProcessPrivilegeRecord::FromJson], privilege_cache_manager.cpp *)
Definition ProcessPrivilegeRecord_FromJson (currTime : Z) (jsonObjPtr : option CJson) : M S (option ProcessPrivilegeRecord) :=
  match GetIntFromJson jsonObjPtr PROCESS_RECORD_PID with
  | None => merr ERR_ACCOUNT_COMMON_BAD_JSON_FORMAT_ERROR
  | Some pid =>
  match GetIntFromJson jsonObjPtr PROCESS_RECORD_UID with
  | None => merr ERR_ACCOUNT_COMMON_BAD_JSON_FORMAT_ERROR
  | Some uid =>
  match GetInt64FromJson jsonObjPtr PROCESS_RECORD_START_TIME with
  | None => merr ERR_ACCOUNT_COMMON_BAD_JSON_FORMAT_ERROR
  | Some processStartTime =>
      alive ← CheckProcessAlive pid processStartTime;
      if negb alive then merr ERR_AUTHORIZATION_CHECK_TIME_FAILED
      else
        _ ← OpenSmartPidFd pid;
        let arrayPtr := GetJsonArrayFromJson jsonObjPtr PROCESS_RECORD_PRIVILEGE_RECORDS in
        if negb (IsArray arrayPtr) then merr ERR_ACCOUNT_COMMON_BAD_JSON_FORMAT_ERROR
        else
          match ParsePrivilegeRecordJsonArray currTime (array_items arrayPtr) ∅ with
          | None => merr ERR_ACCOUNT_COMMON_BAD_JSON_FORMAT_ERROR
          | Some m =>
              if bool_decide (size m = 0%nat) then mret None
              else mret (Some (mkProcessRecord m pid uid processStartTime false))
          end
  end end end.

(** The outer [option] is the error code, the inner one the null object of a record
    without privileges.

    [ProcessPrivilegeRecord::ToJson], privilege_cache_manager.cpp *)
Definition ProcessPrivilegeRecord_ToJson (p : ProcessPrivilegeRecord) : option (option CJson) :=
  if bool_decide (size (privilegeRecordMap_ p) = 0%nat) then Some None
  else
    jsonUnique ← AddIntToJson CreateJson PROCESS_RECORD_PID (pid_ p);
    jsonUnique ← AddIntToJson (Some jsonUnique) PROCESS_RECORD_UID (uid_ p);
    jsonUnique ← AddInt64ToJson (Some jsonUnique) PROCESS_RECORD_START_TIME (processStartTime_ p);
    privilegesArray ←
      foldl (λ array kv, array ← array; PrivilegeRecord_ToJson kv.2 (Some array)) CreateJsonArray
        (in_order (privilegeRecordMap_ p));
    jsonUnique ← AddObjToJson (Some jsonUnique) PROCESS_RECORD_PRIVILEGE_RECORDS (Some privilegesArray);
    Some (Some jsonUnique).

(** [ProcessPrivilegeRecord::CheckPrivilege], privilege_cache_manager.cpp *)
Definition ProcessCheckPrivilege (p : ProcessPrivilegeRecord) (privilegeIdx : Z) : M S Z :=
  currTime ← GetUptimeMs;
  match privilegeRecordMap_ p !! privilegeIdx with
  | None => merr ERR_AUTHORIZATION_PRIVILEGE_DENIED
  | Some r =>
      match authStatus_ r with
      | AUTHORIZED => mret INT32_MAX
      | UNCONFIRMED => merr ERR_AUTHORIZATION_PRIVILEGE_DENIED
      | NOT_REQUIRED =>
          remainTimeTmp ← GetRemainTimeSec r currTime;
          if remainTimeTmp =? 0 then merr ERR_AUTHORIZATION_PRIVILEGE_DENIED else mret remainTimeTmp
      end
  end.

(** [ProcessPrivilegeRecord::AddOrUpdatePrivilege], privilege_cache_manager.cpp *)
Definition AddOrUpdatePrivilege (privilegeIdx safeStartTime : Z) (p : ProcessPrivilegeRecord) : M S ProcessPrivilegeRecord :=
  currTime ← GetUptimeMs;
  let privilegeBriefDef := GetPrivilegeBriefDef privilegeIdx uninitialised in
  let newRecord :=
    mkPrivilegeRecord privilegeIdx (AddTimePeriod currTime (timeout privilegeBriefDef)) safeStartTime NOT_REQUIRED in
  mret (set_records <[privilegeIdx := newRecord]> p).

(** With the record that was there.

    [ProcessPrivilegeRecord::RemovePrivilege], privilege_cache_manager.cpp *)
Definition RemovePrivilege (privilegeIdx : Z) (p : ProcessPrivilegeRecord) : option PrivilegeRecord * ProcessPrivilegeRecord :=
  (privilegeRecordMap_ p !! privilegeIdx, set_records (delete privilegeIdx) p).

(** [ProcessPrivilegeRecord::CleanCurrentExpiredPrivileges], privilege_cache_manager.cpp *)
Definition CleanCurrentExpiredPrivileges (currentTimeStamp : Z) (p : ProcessPrivilegeRecord) : ProcessPrivilegeRecord :=
  set_records (filter (λ kv, NeedClean kv.2 currentTimeStamp = false)) p.

(** [ProcessPrivilegeRecord::GetPrivilegeNum], privilege_cache_manager.cpp *)
Definition GetPrivilegeNum (p : ProcessPrivilegeRecord) : nat := size (privilegeRecordMap_ p).

(** [ProcessPrivilegeRecord::GetProcessLocalId], privilege_cache_manager.cpp *)
Definition GetProcessLocalId (p : ProcessPrivilegeRecord) : Z := Z.quot (uid_ p) UID_TRANSFORM_DIVISOR.

(** [ProcessPrivilegeRecord::RollbackPrivilege], privilege_cache_manager.cpp *)
Definition RollbackPrivilege (removedRecord : option PrivilegeRecord) (p : ProcessPrivilegeRecord) : ProcessPrivilegeRecord :=
  match removedRecord with
  | None => p
  | Some r => set_records <[privilegeIdx_ r := r]> p
  end.
End Records.

(** *** The file *)

Section Manager.
Context {oscfg : OsConfig} {cjson : CJsonLib} {target : Target} {privileges : Privileges}.
Context {S : Type} {fs : FileStore S} {system : System S}.

(** What is outside of the manager. *)
Definition outside {A} (m : M S A) : M (Cache S) A := λ c,
  let '(r, s) := m (world c) in (r, mkCache s (processPrivilegeMap_ c) (clean_tasks c)).
Definition get_processes : M (Cache S) (gmap Z ProcessPrivilegeRecord) := λ c, (Ok (processPrivilegeMap_ c), c).
Definition change_processes (f : gmap Z ProcessPrivilegeRecord → gmap Z ProcessPrivilegeRecord) : M (Cache S) unit :=
  mmodify (λ c, mkCache (world c) (f (processPrivilegeMap_ c)) (clean_tasks c)).

(** [PrivilegeCacheManager::MapToJsonString], privilege_cache_manager.cpp *)
Definition MapToJsonString (m : gmap Z ProcessPrivilegeRecord) : option string :=
  processArray ←
    foldl (λ array kv,
      array ← array;
      obj ← ProcessPrivilegeRecord_ToJson kv.2;
      match obj with None => Some array | Some obj => AddObjToArray (Some array) (Some obj) end)
      CreateJsonArray (in_order m);
  let jsonStr := PackJsonToString (Some processArray) in
  if string_empty jsonStr then None else Some jsonStr.

(** [PrivilegeCacheManager::ToJsonString], privilege_cache_manager.cpp *)
Definition ToJsonString (currTime : Z) (recordStr : string) (digest : list Z) : option string :=
  jsonObj ← AddInt64ToJson CreateJson CACHE_MANAGER_UPDATE_TIME currTime;
  jsonObj ← AddVectorUint8ToJson (Some jsonObj) CACHE_MANAGER_DIGEST digest;
  jsonObj ← AddStringToJson (Some jsonObj) CACHE_MANAGER_PROCESS_RECORDS recordStr;
  let persistStr := PackJsonToString (Some jsonObj) in
  if string_empty persistStr then None else Some persistStr.

Definition digest_input (updateTime : Z) (jsonStr : string) : string := to_string updateTime +:+ String ":" jsonStr.

(** [PrivilegeCacheManager::GenerateDigestFromHuks], privilege_cache_manager.cpp *)
Definition GenerateDigestFromHuks (updateTime : Z) (jsonStr : string) : M S (list Z) :=
  if HAS_HUKS_PART then GenerateDigest (digest_input updateTime jsonStr) else mret [].

(** [PrivilegeCacheManager::ToPersistFile], privilege_cache_manager.cpp *)
Definition ToPersistFile (currTime : Z) : M (Cache S) unit :=
  m ← get_processes;
  if bool_decide (size m = 0%nat) then _ ← mtry (outside (DeleteFile PRIVILEGE_CACHE_FILE_PATH)); mret tt
  else
    match MapToJsonString m with
    | None => merr ERR_ACCOUNT_COMMON_DUMP_JSON_ERROR
    | Some jsonStr =>
        digest ← outside (GenerateDigestFromHuks currTime jsonStr);
        match ToJsonString currTime jsonStr digest with
        | None => merr ERR_ACCOUNT_COMMON_DUMP_JSON_ERROR
        | Some persistStr => outside (InputFileByPathAndContentWithTransaction PRIVILEGE_CACHE_FILE_PATH persistStr)
        end
    end.

(** [PrivilegeCacheManager::CheckUpdateTimeValid], privilege_cache_manager.cpp *)
Definition CheckUpdateTimeValid (jsonObj : option CJson) (currTime : Z) : M S Z :=
  match GetInt64FromJson jsonObj CACHE_MANAGER_UPDATE_TIME with
  | None => _ ← mtry (DeleteFile PRIVILEGE_CACHE_FILE_PATH); merr ERR_ACCOUNT_COMMON_BAD_JSON_FORMAT_ERROR
  | Some updateTime =>
      if currTime <=? updateTime then
        _ ← mtry (DeleteFile PRIVILEGE_CACHE_FILE_PATH); merr ERR_AUTHORIZATION_CHECK_TIME_FAILED
      else mret updateTime
  end.

(** [PrivilegeCacheManager::CheckPersistDigestValid], privilege_cache_manager.cpp *)
Definition CheckPersistDigestValid (updateTime : Z) (processRecordsStr : string) (storedDigest : list Z) : M S bool :=
  ret ← mtry (GenerateDigestFromHuks updateTime processRecordsStr);
  match ret with
  | Err _ => mret false
  | Ok calculatedDigest =>
      if negb (bool_decide (storedDigest = calculatedDigest)) then
        _ ← mtry (DeleteFile PRIVILEGE_CACHE_FILE_PATH); mret false
      else mret true
  end.

(** The records, where loading them is not to be skipped.

    [PrivilegeCacheManager::ReadAndCheckPersistRecordValid], privilege_cache_manager.cpp *)
Definition ReadAndCheckPersistRecordValid (currTime : Z) : M S (option string) :=
  isExist ← IsExistFile PRIVILEGE_CACHE_FILE_PATH;
  if negb isExist then mret None
  else
    ret ← mtry (GetFileContentByPath PRIVILEGE_CACHE_FILE_PATH);
    match ret with
    | Err _ => mret None
    | Ok fileContent =>
        let jsonObj := CreateJsonFromString fileContent in
        if negb (IsObject jsonObj) then mret None
        else
          ret ← mtry (CheckUpdateTimeValid jsonObj currTime);
          match ret with
          | Err _ => mret None
          | Ok updateTime =>
              let storedDigest := GetVectorUint8FromJson jsonObj CACHE_MANAGER_DIGEST in
              match GetStringFromJson jsonObj CACHE_MANAGER_PROCESS_RECORDS with
              | None => mret None
              | Some processRecordsStr =>
                  valid ← CheckPersistDigestValid updateTime processRecordsStr storedDigest;
                  mret (if valid : bool then Some processRecordsStr else None)
              end
          end
    end.

(** The loop over the records of processes: one that cannot be read is left out.

    [PrivilegeCacheManager::FromPersistFile], privilege_cache_manager.cpp:835-853 *)
Fixpoint load_records (currentTime : Z) (items : list CJson) : M (Cache S) unit :=
  match items with
  | [] => mret tt
  | item :: items =>
      ret ← mtry (outside (ProcessPrivilegeRecord_FromJson currentTime (Some item)));
      _ ← (match ret with
           | Ok (Some record) => change_processes <[pid_ record := record]>
           | _ => mret tt
           end);
      load_records currentTime items
  end.

(** [PrivilegeCacheManager::FromPersistFile], privilege_cache_manager.cpp *)
Definition FromPersistFile : M (Cache S) unit :=
  currentTime ← outside GetUptimeMs;
  recordStr ← outside (ReadAndCheckPersistRecordValid currentTime);
  match recordStr with
  | None => mret tt
  | Some recordStr =>
      let processArray := CreateJsonFromString recordStr in
      if negb (IsArray processArray) then merr ERR_ACCOUNT_COMMON_BAD_JSON_FORMAT_ERROR
      else load_records currentTime (array_items processArray)
  end.

(** The loop that cleans the processes.

    [PrivilegeCacheManager::CleanExpiredPrivilegesAndSaveToFile], privilege_cache_manager.cpp:1076-1084 *)
Definition clean_processes (currTime : Z) (m : gmap Z ProcessPrivilegeRecord) : gmap Z ProcessPrivilegeRecord :=
  omap (λ p, let p := CleanCurrentExpiredPrivileges currTime p in
             if bool_decide (GetPrivilegeNum p = 0%nat) then None else Some p) m.

(** [PrivilegeCacheManager::CleanExpiredPrivilegesAndSaveToFile], privilege_cache_manager.cpp *)
Definition CleanExpiredPrivilegesAndSaveToFile : M (Cache S) unit :=
  currTime ← outside GetUptimeMs;
  _ ← change_processes (clean_processes currTime);
  ToPersistFile currTime.

(** [PrivilegeCacheManager::StartCleanTask], privilege_cache_manager.cpp *)
Definition StartCleanTask : M (Cache S) unit :=
  mmodify (λ c, mkCache (world c) (processPrivilegeMap_ c) (Datatypes.S (clean_tasks c))).

(** The thread of a clean task.

    [PrivilegeCacheManager::StartCleanTask], privilege_cache_manager.cpp:1094-1096 *)
Definition run_clean_task : M (Cache S) unit :=
  _ ← mmodify (λ c, mkCache (world c) (processPrivilegeMap_ c) (Nat.pred (clean_tasks c)));
  _ ← mtry CleanExpiredPrivilegesAndSaveToFile;
  mret tt.

(** *** Operations *)

(** The process is in the map, as it was when it was taken out and cleaned, where it
    is not there any more.

    [PrivilegeCacheManager::RollbackDelSingleRecord], privilege_cache_manager.cpp *)
Definition RollbackDelSingleRecord (pid : Z) (processRecord : ProcessPrivilegeRecord) (removedRecord : option PrivilegeRecord)
  : M (Cache S) unit :=
  match removedRecord with
  | None => mret tt
  | Some _ =>
      change_processes (λ m,
        let processRecord := default (set_records (λ _, ∅) processRecord) (m !! pid) in
        <[pid := RollbackPrivilege removedRecord processRecord]> m)
  end.

(** [PrivilegeCacheManager::RemoveSingle], privilege_cache_manager.cpp *)
Definition RemoveSingle (callerInfo : AuthenCallerInfo) : M (Cache S) unit :=
  m ← get_processes;
  match m !! caller_pid callerInfo with
  | None => mret tt
  | Some processRecord =>
      let '(removedRecord, processRecord) := RemovePrivilege (caller_privilegeIdx callerInfo) processRecord in
      _ ← change_processes (if bool_decide (GetPrivilegeNum processRecord = 0%nat)
                            then delete (caller_pid callerInfo) else <[caller_pid callerInfo := processRecord]>);
      ret ← mtry CleanExpiredPrivilegesAndSaveToFile;
      match ret with
      | Ok _ => mret tt
      | Err ret => _ ← RollbackDelSingleRecord (caller_pid callerInfo) processRecord removedRecord; merr ret
      end
  end.

(** [PrivilegeCacheManager::CheckPrivilege], privilege_cache_manager.cpp:517-529 *)
Definition check_acl (pid : Z) : M (Cache S) Z :=
  aclLevel ← outside (GetAcl pid);
  if 1 <=? aclLevel then mret (-1)
  else _ ← StartCleanTask; merr ERR_AUTHORIZATION_PRIVILEGE_DENIED.

(** [PrivilegeCacheManager::CheckPrivilege], privilege_cache_manager.cpp *)
Definition CheckPrivilege (callerInfo : AuthenCallerInfo) : M (Cache S) Z :=
  m ← get_processes;
  match m !! caller_pid callerInfo with
  | None => check_acl (caller_pid callerInfo)
  | Some p =>
      ret ← mtry (outside (ProcessCheckPrivilege p (caller_privilegeIdx callerInfo)));
      match ret with
      | Ok remainTime => mret remainTime
      | Err ret =>
          if negb (ret =? ERR_AUTHORIZATION_PRIVILEGE_DENIED) then merr ret
          else
            match privilegeRecordMap_ p !! caller_privilegeIdx callerInfo with
            | Some record =>
                if negb (bool_decide (authStatus_ record = NOT_REQUIRED)) then merr ERR_AUTHORIZATION_PRIVILEGE_DENIED
                else check_acl (caller_pid callerInfo)
            | None => check_acl (caller_pid callerInfo)
            end
      end
  end.

(** [PrivilegeCacheManager::AddNewProcessCacheInner], privilege_cache_manager.cpp *)
Definition AddNewProcessCacheInner (callerInfo : AuthenCallerInfo) (safeStartTime : Z) : M (Cache S) unit :=
  record ← outside (CreateEmptyProcessPrivilegeRecord callerInfo);
  record ← outside (AddOrUpdatePrivilege (caller_privilegeIdx callerInfo) safeStartTime record);
  _ ← change_processes <[caller_pid callerInfo := record]>;
  _ ← mtry CleanExpiredPrivilegesAndSaveToFile;
  mret tt.

(** [PrivilegeCacheManager::AddCache], privilege_cache_manager.cpp *)
Definition AddCache (callerInfo : AuthenCallerInfo) (safeStartTime : Z) : M (Cache S) unit :=
  m ← get_processes;
  match m !! caller_pid callerInfo with
  | None => AddNewProcessCacheInner callerInfo safeStartTime
  | Some p =>
      p ← outside (AddOrUpdatePrivilege (caller_privilegeIdx callerInfo) safeStartTime p);
      _ ← change_processes <[caller_pid callerInfo := p]>;
      _ ← mtry CleanExpiredPrivilegesAndSaveToFile;
      mret tt
  end.

(** The record is changed through the pointer.

    [PrivilegeCacheManager::SetAuthStatusForRecord], privilege_cache_manager.cpp *)
Definition SetAuthStatusForRecord (pid privilegeIdx : Z) (authType : PrivilegeAuthStatus) : M (Cache S) unit :=
  m ← get_processes;
  match m !! pid with
  | None => merr ERR_AUTHORIZATION_NO_CACHE
  | Some p =>
      match privilegeRecordMap_ p !! privilegeIdx with
      | None => merr ERR_AUTHORIZATION_NO_CACHE
      | Some record => change_processes <[pid := set_records <[privilegeIdx := SetAuthStatus authType record]> p]>
      end
  end.

(** [PrivilegeCacheManager::PrepareKernelAuthCache], privilege_cache_manager.cpp *)
Definition PrepareKernelAuthCache (callerInfo : AuthenCallerInfo) : M (Cache S) Z :=
  m ← get_processes;
  processRecord ←
    (match m !! caller_pid callerInfo with
     | None => outside (CreateEmptyProcessPrivilegeRecord callerInfo)
     | Some p => mret p
     end);
  let newRecord := mkPrivilegeRecord (caller_privilegeIdx callerInfo) INT64_MAX 0 UNCONFIRMED in
  _ ← change_processes <[caller_pid callerInfo := set_records <[caller_privilegeIdx callerInfo := newRecord]> processRecord]>;
  ret ← mtry (outside GetUptimeMs);
  let currTime := match ret with Ok t => t | Err _ => 0 end in
  ret ← mtry (ToPersistFile currTime);
  match ret with
  | Err ret => _ ← mtry (RemoveSingle callerInfo); merr ret
  | Ok _ => mret currTime
  end.

(** [PrivilegeCacheManager::AddCacheAndNotifyKernel], privilege_cache_manager.cpp *)
Definition AddCacheAndNotifyKernel (callerInfo : AuthenCallerInfo) (kernelPermission : string) : M (Cache S) unit :=
  currTime ← PrepareKernelAuthCache callerInfo;
  ret ← mtry (outside (SetKernelAuthorization (caller_pid callerInfo) kernelPermission));
  match ret with
  | Err ret =>
      _ ← mtry (RemoveSingle callerInfo);
      merr (if ret =? ERR_AUTHORIZATION_KERNEL_DEVICE_NOT_FOUND then ERR_AUTHORIZATION_KERNEL_DEVICE_NOT_FOUND
            else ERR_AUTHORIZATION_KERNEL_NOTIFY_FAILED)
  | Ok _ =>
      ret ← mtry (SetAuthStatusForRecord (caller_pid callerInfo) (caller_privilegeIdx callerInfo) AUTHORIZED);
      match ret with
      | Err _ => mret tt
      | Ok _ =>
          ret ← mtry (ToPersistFile currTime);
          match ret with
          | Err _ =>
              _ ← mtry (SetAuthStatusForRecord (caller_pid callerInfo) (caller_privilegeIdx callerInfo) UNCONFIRMED); mret tt
          | Ok _ => mret tt
          end
      end
  end.

(** The record is changed through the pointer.

    [PrivilegeCacheManager::UpdateToAuthorized], privilege_cache_manager.cpp *)
Definition UpdateToAuthorized (pid privilegeIdx : Z) : M (Cache S) unit :=
  ret ← mtry (outside GetUptimeMs);
  match ret with
  | Err _ => mret tt
  | Ok currTime =>
      _ ← mtry (SetAuthStatusForRecord pid privilegeIdx AUTHORIZED);
      ret ← mtry (ToPersistFile currTime);
      match ret with
      | Err _ => _ ← mtry (SetAuthStatusForRecord pid privilegeIdx UNCONFIRMED); mret tt
      | Ok _ => mret tt
      end
  end.

(** [PrivilegeCacheManager::HasKernelAuthorization], privilege_cache_manager.cpp *)
Definition HasKernelAuthorization (pid privilegeIdx : Z) (kernelPermission : string) : M (Cache S) bool :=
  m ← get_processes;
  match m !! pid with
  | None => mret false
  | Some p =>
      match privilegeRecordMap_ p !! privilegeIdx with
      | None => mret false
      | Some record =>
          match authStatus_ record with
          | AUTHORIZED => mret true
          | NOT_REQUIRED => mret false
          | UNCONFIRMED =>
              ret ← mtry (outside (QueryKernelAuthorization pid kernelPermission));
              match ret with
              | Err ret =>
                  merr (if ret =? ERR_AUTHORIZATION_KERNEL_DEVICE_NOT_FOUND then ERR_AUTHORIZATION_KERNEL_DEVICE_NOT_FOUND
                        else ERR_ACCOUNT_COMMON_SYSTEM_SERVICE_EXCEPTION)
              | Ok true => _ ← UpdateToAuthorized pid privilegeIdx; mret true
              | Ok false => _ ← mtry (RemoveSingle (mkCaller pid 0 privilegeIdx false)); mret false
              end
          end
      end
  end.

(** [PrivilegeCacheManager::RemoveUser], privilege_cache_manager.cpp *)
Definition RemoveUser (localId : Z) : M (Cache S) unit :=
  _ ← change_processes (filter (λ kv, GetProcessLocalId kv.2 ≠ localId));
  _ ← mtry CleanExpiredPrivilegesAndSaveToFile;
  mret tt.

(** [PrivilegeCacheManager::RemoveProcess], privilege_cache_manager.cpp *)
Definition RemoveProcess (pid : Z) : M (Cache S) unit :=
  m ← get_processes;
  match m !! pid with
  | None => mret tt
  | Some _ =>
      _ ← change_processes (delete pid);
      _ ← mtry CleanExpiredPrivilegesAndSaveToFile;
      mret tt
  end.

(** [ProcessPrivilegeRecord::PrivilegeDeathRecipient::OnRemoteDied], privilege_cache_manager.cpp *)
Definition OnRemoteDied (pid : Z) : M (Cache S) unit := _ ← mtry (RemoveProcess pid); mret tt.
End Manager.
