(* ===== verification/PrivilegeCacheTheorems.v ===== *)
(** What the cache of privileges promises: it stays well formed, a privilege is granted
    for one of three reasons only, a privilege the kernel decides about is granted only
    after the kernel has said yes, what is removed stays away, and what is read from the
    file is what was written. *)
From Stdlib Require Import ZArith Lia Ascii String.
From stdpp Require Import base list gmap sets strings pretty sorting.
From S2P Require Import Prelude ErrorCodes Json FileStore OsAccountEnv PrivilegeUtils PrivilegeCache.

(** ** Rules *)

Section Rules.
Context {cjson : CJsonLib} {S : Type} {fs : FileStore S} {system : System S}.
Implicit Types (c : Cache S).

Lemma wp_outside {A} (m : M S A) (Q : result A → Cache S → Prop) c :
  wp m (λ r s', Q r (mkCache s' (processPrivilegeMap_ c) (clean_tasks c))) (world c) → wp (outside m) Q c.
Proof. unfold wp, outside. by destruct (m (world c)). Qed.

Lemma wp_outside_any {A} (m : M S A) (Q : result A → Cache S → Prop) c :
  (∀ r s', Q r (mkCache s' (processPrivilegeMap_ c) (clean_tasks c))) → wp (outside m) Q c.
Proof. intros H. apply wp_outside. unfold wp. apply H. Qed.

Lemma wp_preserves {A} (P : Cache S → Prop) (m : M (Cache S) A) (Q : result A → Cache S → Prop) c :
  preserves P m → P c → (∀ r c', P c' → Q r c') → wp m Q c.
Proof. intros Hm Hc HQ. apply HQ. by apply Hm. Qed.

Lemma wp_processes (Q : result (gmap Z ProcessPrivilegeRecord) → Cache S → Prop) c :
  Q (Ok (processPrivilegeMap_ c)) c → wp get_processes Q c.
Proof. done. Qed.

Lemma wp_change f (Q : result unit → Cache S → Prop) c :
  Q (Ok tt) (mkCache (world c) (f (processPrivilegeMap_ c)) (clean_tasks c)) → wp (change_processes f) Q c.
Proof. done. Qed.
End Rules.

(** Takes the next step of a computation of the manager. *)
Ltac cache_step :=
  lazymatch goal with
  | |- wp (_ ≫= _) _ _ => apply wp_bind
  | |- wp (mtry _) _ _ => apply wp_try
  | |- wp get_processes _ _ => apply wp_processes; cbv beta
  | |- wp (change_processes _) _ _ => apply wp_change; cbv beta
  | |- wp (mret _) _ _ => apply wp_ret
  | |- wp (merr _) _ _ => apply wp_err
  | |- wp (mmodify _) _ _ => apply wp_modify
  end.
Ltac cache_steps := repeat (cache_step; cbv beta iota).

Section Theorems.
Implicit Types (p : ProcessPrivilegeRecord) (m : gmap Z ProcessPrivilegeRecord).
Context {oscfg : OsConfig} {cjson : CJsonLib} {target : Target} {privileges : Privileges}.
Context {S : Type} {fs : FileStore S} {system : System S}.
Implicit Types (c : Cache S).

(** The manager's own data only changes where the code says so. *)
Lemma outside_keeps {A} (P : gmap Z ProcessPrivilegeRecord → Prop) (m : M S A) :
  preserves (λ c, P (processPrivilegeMap_ c)) (outside m).
Proof. intros c Hc. unfold outside. by destruct (m (world c)). Qed.

Lemma processes_keep (P : gmap Z ProcessPrivilegeRecord → Prop) :
  preserves (λ c : Cache S, P (processPrivilegeMap_ c)) get_processes.
Proof. by intros c. Qed.

Lemma ToPersistFile_keeps (P : gmap Z ProcessPrivilegeRecord → Prop) t :
  preserves (λ c, P (processPrivilegeMap_ c)) (ToPersistFile t).
Proof.
  unfold ToPersistFile. apply preserves_bind; [apply processes_keep|]. intros m. preserve; apply outside_keeps.
Qed.

(** ** Well-formed caches *)

(** The process of an entry is its key, it has privileges, each under its index. *)
Record wf_process (pid : Z) p : Prop := {
  wf_pid : pid_ p = pid;
  wf_some : privilegeRecordMap_ p ≠ ∅;
  wf_index : ∀ i (r : PrivilegeRecord), privilegeRecordMap_ p !! i = Some r → privilegeIdx_ r = i;
}.
Definition wf_map m : Prop := ∀ pid p, m !! pid = Some p → wf_process pid p.
Definition wf_cache c : Prop := wf_map (processPrivilegeMap_ c).

Lemma wf_insert m pid p : wf_map m → wf_process pid p → wf_map (<[pid := p]> m).
Proof. intros Hm Hp k q. rewrite lookup_insert_Some. intros [[<- <-]|[_ ?]]; [done|by apply Hm]. Qed.

Lemma wf_delete m pid : wf_map m → wf_map (delete pid m).
Proof. intros Hm k q [_ ?]%lookup_delete_Some. by apply Hm. Qed.

Lemma wf_filter (P : Z * ProcessPrivilegeRecord → Prop) `{!∀ x, Decision (P x)} m : wf_map m → wf_map (filter P m).
Proof. intros Hm k q [? _]%map_lookup_filter_Some. by apply Hm. Qed.

(** Records of a process that are not written yet may be empty. *)
Definition wf_records (rs : gmap Z PrivilegeRecord) : Prop := ∀ i r, rs !! i = Some r → privilegeIdx_ r = i.

Lemma wf_set_record pid p i r :
  pid_ p = pid → wf_records (privilegeRecordMap_ p) → privilegeIdx_ r = i → wf_process pid (set_records <[i := r]> p).
Proof.
  intros Hp Hrs Hr. constructor; cbn; [done|apply insert_non_empty|].
  intros j r'. rewrite lookup_insert_Some. intros [[<- <-]|[_ ?]]; [done|by apply Hrs].
Qed.

Lemma clean_lookup t m pid p :
  clean_processes t m !! pid = Some p ↔
  ∃ p0, m !! pid = Some p0 ∧ p = CleanCurrentExpiredPrivileges t p0 ∧ privilegeRecordMap_ p ≠ ∅.
Proof.
  unfold clean_processes. rewrite lookup_omap_Some. unfold GetPrivilegeNum. split.
  - intros (p0 & Hp & Hm). case_bool_decide as Hs; [done|]. injection Hp as <-. exists p0. split_and!; [done..|].
    by apply map_size_non_empty_iff.
  - intros (p0 & Hm & -> & Hne). exists p0. split; [|done]. rewrite bool_decide_eq_false_2; [done|].
    by apply map_size_non_empty_iff.
Qed.

Lemma wf_clean t m : wf_map m → wf_map (clean_processes t m).
Proof.
  intros Hm pid p (p0 & Hp & -> & Hne)%clean_lookup. destruct (Hm _ _ Hp) as [Hpid _ Hi]. constructor; cbn in *; [done|done|].
  intros i r [? _]%map_lookup_filter_Some. by apply Hi.
Qed.

Lemma CleanExpired_wf : preserves wf_cache CleanExpiredPrivilegesAndSaveToFile.
Proof.
  unfold CleanExpiredPrivilegesAndSaveToFile. apply preserves_bind; [apply outside_keeps|]. intros t.
  apply preserves_bind; [|intros; apply ToPersistFile_keeps]. intros c Hc. by apply wf_clean.
Qed.

Lemma wf_rollback pid p i r m :
  wf_map m → pid_ p = pid → privilegeIdx_ r = i →
  wf_map (<[pid := RollbackPrivilege (Some r) (default (set_records (λ _, ∅) p) (m !! pid))]> m).
Proof.
  intros Hm Hp <-. apply wf_insert; [done|]. cbn [RollbackPrivilege]. destruct (m !! pid) as [q|] eqn:E; cbn [default].
  - destruct (Hm _ _ E) as [Hq _ Hi]. by apply wf_set_record.
  - apply wf_set_record; [done| |done]. by intros j r'.
Qed.

Lemma RemoveSingle_wf callerInfo : preserves wf_cache (RemoveSingle callerInfo).
Proof.
  intros c Hc. change (wp (RemoveSingle callerInfo) (λ _ c', wf_cache c') c). unfold RemoveSingle. cache_steps.
  destruct (processPrivilegeMap_ c !! caller_pid callerInfo) as [p|] eqn:Ep; [|by cache_steps].
  destruct (Hc _ _ Ep) as [Hpid _ Hi]. cbn [RemovePrivilege]. cache_steps.
  apply (wp_preserves wf_cache); [apply CleanExpired_wf| |].
  - unfold wf_cache. cbn [processPrivilegeMap_]. case_bool_decide as Hs; [by apply wf_delete|]. apply wf_insert; [done|].
    constructor; cbn in *; [done|by apply map_size_non_empty_iff|]. intros j r [_ ?]%lookup_delete_Some. by apply Hi.
  - intros [[]|e] c' Hc'; cache_steps; [done|].
    destruct (privilegeRecordMap_ p !! caller_privilegeIdx callerInfo) as [r|] eqn:Er; cbn [RollbackDelSingleRecord]; cache_steps; [|done].
    by apply (wf_rollback _ _ (caller_privilegeIdx callerInfo)); [|done|apply Hi].
Qed.

Lemma CreateEmpty_result callerInfo s :
  wp (CreateEmptyProcessPrivilegeRecord callerInfo)
    (λ x s', ∀ p, x = Ok p → pid_ p = caller_pid callerInfo ∧ privilegeRecordMap_ p = ∅ ∧ watched p = true) s.
Proof.
  unfold CreateEmptyProcessPrivilegeRecord. destruct (remoteObject callerInfo); cbn [negb]; [|by apply wp_err].
  unfold wp. rewrite mbind_unfold. destruct (GetProcessStartTime _ s) as [[t|e] s1]; [|done].
  rewrite mbind_unfold. destruct (OpenSmartPidFd _ s1) as [[[]|e] s2]; [|done].
  rewrite mbind_unfold. destruct (AddDeathRecipient _ s2) as [[[]|e] s3]; [|done..]. cbn. by intros p [= <-].
Qed.

Lemma AddOrUpdate_result i start p s :
  wp (AddOrUpdatePrivilege i start p)
    (λ x s', ∀ p', x = Ok p' → ∃ now s1, GetUptimeMs s = (Ok now, s1) ∧ p' = set_records
       <[i := mkPrivilegeRecord i (AddTimePeriod now (timeout (GetPrivilegeBriefDef i uninitialised))) start NOT_REQUIRED]> p) s.
Proof.
  unfold AddOrUpdatePrivilege, wp. rewrite mbind_unfold. destruct (GetUptimeMs s) as [[now|e] s1] eqn:E; [|done].
  cbn. intros p' [= <-]. by exists now, s1.
Qed.

Lemma AddCache_wf callerInfo start : preserves wf_cache (AddCache callerInfo start).
Proof.
  intros c Hc. change (wp (AddCache callerInfo start) (λ _ c', wf_cache c') c). unfold AddCache. cache_steps.
  assert (Hadd : ∀ p c', wf_map (processPrivilegeMap_ c') → pid_ p = caller_pid callerInfo → wf_records (privilegeRecordMap_ p) →
    wp (p ← outside (AddOrUpdatePrivilege (caller_privilegeIdx callerInfo) start p);
        _ ← change_processes <[caller_pid callerInfo := p]>; _ ← mtry CleanExpiredPrivilegesAndSaveToFile; mret tt)
      (λ _ c', wf_cache c') c').
  { intros p c' Hc' Hp Hi. cache_steps. apply wp_outside. eapply wp_conseq; [apply AddOrUpdate_result|].
    intros [p'|e] s' Hr; [|done]. destruct (Hr p' eq_refl) as (now & s1 & _ & ->). cache_steps.
    apply (wp_preserves wf_cache); [apply CleanExpired_wf|by apply wf_insert, wf_set_record|].
    intros x c1 Hc1. destruct x; by cache_steps. }
  destruct (processPrivilegeMap_ c !! caller_pid callerInfo) as [p|] eqn:Ep.
  - destruct (Hc _ _ Ep) as [? _ ?]. by apply Hadd.
  - unfold AddNewProcessCacheInner. apply wp_bind, wp_outside. eapply wp_conseq; [apply CreateEmpty_result|].
    intros [p|e] s' Hr; [|done]. destruct (Hr p eq_refl) as (Hp & He & _). apply Hadd; [done|done|]. by rewrite He.
Qed.

Lemma SetAuthStatus_wf pid i status : preserves wf_cache (SetAuthStatusForRecord pid i status).
Proof.
  intros c Hc. change (wp (SetAuthStatusForRecord pid i status) (λ _ c', wf_cache c') c). unfold SetAuthStatusForRecord. cache_steps.
  destruct (processPrivilegeMap_ c !! pid) as [p|] eqn:Ep; [|by cache_steps].
  destruct (privilegeRecordMap_ p !! i) as [r|] eqn:Er; cache_steps; [|done]. destruct (Hc _ _ Ep) as [? _ Hi].
  apply wf_insert; [done|]. apply wf_set_record; [done|done|]. cbn. by apply Hi.
Qed.

Lemma PrepareKernelAuthCache_wf callerInfo : preserves wf_cache (PrepareKernelAuthCache callerInfo).
Proof.
  intros c Hc. change (wp (PrepareKernelAuthCache callerInfo) (λ _ c', wf_cache c') c). unfold PrepareKernelAuthCache. cache_steps.
  assert (Hrest : ∀ p s', pid_ p = caller_pid callerInfo → wf_records (privilegeRecordMap_ p) →
    wf_map (<[caller_pid callerInfo := set_records <[caller_privilegeIdx callerInfo :=
      mkPrivilegeRecord (caller_privilegeIdx callerInfo) INT64_MAX 0 UNCONFIRMED]> p]> (processPrivilegeMap_ c)) ∧ s' = s' :> S).
  { intros p s' Hp Hi. split; [|done]. by apply wf_insert, wf_set_record. }
  set (Q := λ (x : result ProcessPrivilegeRecord) (c' : Cache S), processPrivilegeMap_ c' = processPrivilegeMap_ c ∧
    ∀ p, x = Ok p → pid_ p = caller_pid callerInfo ∧ wf_records (privilegeRecordMap_ p)).
  eapply (wp_conseq _ Q).
  - destruct (processPrivilegeMap_ c !! caller_pid callerInfo) as [p|] eqn:Ep.
    + apply wp_ret. split; [done|]. intros q [= <-]. destruct (Hc _ _ Ep) as [? _ ?]. done.
    + apply wp_outside. eapply wp_conseq; [apply CreateEmpty_result|]. intros x s' Hx. split; [done|].
      intros p ->. destruct (Hx p eq_refl) as (? & -> & _). done.
  - intros [p|e] c1 [Hm Hp]; [|by unfold wf_cache; rewrite Hm]. destruct (Hp p eq_refl) as [Hpid Hi]. cache_steps.
    apply wp_outside_any. intros x s'. cbn [processPrivilegeMap_]. apply (wp_preserves wf_cache).
    + apply preserves_bind; [apply preserves_try, ToPersistFile_keeps|]. intros [[]|e]; [apply preserves_ret|].
      apply preserves_bind; [apply preserves_try, RemoveSingle_wf|]. intros; apply preserves_err.
    + unfold wf_cache. cbn [processPrivilegeMap_]. rewrite Hm. by apply Hrest.
    + done.
Qed.

Lemma ToPersistFile_wf t : preserves wf_cache (ToPersistFile t).
Proof. apply ToPersistFile_keeps. Qed.
Lemma outside_wf {A} (m : M S A) : preserves wf_cache (outside m).
Proof. apply outside_keeps. Qed.
Lemma processes_wf : preserves wf_cache (@get_processes S).
Proof. apply processes_keep. Qed.
Lemma change_wf f : (∀ m, wf_map m → wf_map (f m)) → preserves wf_cache (@change_processes S f).
Proof. intros Hf c Hc. by apply Hf. Qed.
Lemma tasks_wf f : preserves wf_cache (mmodify (λ c : Cache S, mkCache (world c) (processPrivilegeMap_ c) (f (clean_tasks c)))).
Proof. by intros c. Qed.

Hint Resolve CleanExpired_wf RemoveSingle_wf AddCache_wf SetAuthStatus_wf PrepareKernelAuthCache_wf ToPersistFile_wf
  outside_wf processes_wf tasks_wf change_wf wf_delete wf_filter : mpres.

Lemma CheckPrivilege_wf callerInfo : preserves wf_cache (CheckPrivilege callerInfo).
Proof. unfold CheckPrivilege, check_acl, StartCleanTask. preserve. Qed.

Lemma AddCacheAndNotifyKernel_wf callerInfo permission : preserves wf_cache (AddCacheAndNotifyKernel callerInfo permission).
Proof. unfold AddCacheAndNotifyKernel. preserve. Qed.

Lemma HasKernelAuthorization_wf pid i permission : preserves wf_cache (HasKernelAuthorization pid i permission).
Proof. unfold HasKernelAuthorization, UpdateToAuthorized. preserve. Qed.

Lemma RemoveUser_wf localId : preserves wf_cache (RemoveUser localId).
Proof. unfold RemoveUser. preserve. Qed.

Lemma RemoveProcess_wf pid : preserves wf_cache (RemoveProcess pid).
Proof. unfold RemoveProcess. preserve. Qed.

Lemma run_clean_task_wf : preserves wf_cache run_clean_task.
Proof. unfold run_clean_task. preserve. Qed.

(** *** What is read from the file *)

Lemma parse_records_wf now items rs0 rs :
  wf_records rs0 → ParsePrivilegeRecordJsonArray now items rs0 = Some rs → wf_records rs.
Proof.
  revert rs0. induction items as [|item items IH]; intros rs0 H0; cbn [ParsePrivilegeRecordJsonArray]; [by intros [= <-]|].
  intros (r & Hr & Hrs)%bind_Some. destruct (NeedClean r now); [by eapply IH|]. eapply IH; [|exact Hrs].
  intros i r'. rewrite lookup_insert_Some. intros [[<- <-]|[_ ?]]; [done|by apply H0].
Qed.

Lemma process_from_json now j s :
  wp (ProcessPrivilegeRecord_FromJson now j) (λ x s', ∀ p, x = Ok (Some p) → wf_process (pid_ p) p ∧ watched p = false) s.
Proof.
  unfold ProcessPrivilegeRecord_FromJson.
  destruct (GetIntFromJson j PROCESS_RECORD_PID) as [pid|]; [|by apply wp_err].
  destruct (GetIntFromJson j PROCESS_RECORD_UID) as [uid|]; [|by apply wp_err].
  destruct (GetInt64FromJson j PROCESS_RECORD_START_TIME) as [start|]; [|by apply wp_err].
  unfold wp. rewrite mbind_unfold. destruct (CheckProcessAlive pid start s) as [[[]|e] s1]; cbn [negb]; [|done..].
  rewrite mbind_unfold. destruct (OpenSmartPidFd pid s1) as [[[]|e] s2]; [|done].
  destruct (IsArray _); cbn [negb]; [|done]. destruct (ParsePrivilegeRecordJsonArray _ _ _) as [rs|] eqn:E; [|done].
  case_bool_decide as Hs; [done|]. cbn. intros p [= <-]. split; [|done]. constructor; cbn; [done|by apply map_size_non_empty_iff|].
  eapply parse_records_wf; [|exact E]. by intros i r.
Qed.

Lemma load_records_wf now items : preserves wf_cache (load_records now items).
Proof.
  induction items as [|item items IH]; cbn [load_records]; [apply preserves_ret|]. intros c Hc.
  change (wp (ret ← mtry (outside (ProcessPrivilegeRecord_FromJson now (Some item)));
    _ ← (match ret with Ok (Some record) => change_processes <[pid_ record := record]> | _ => mret tt end);
    load_records now items) (λ _ c', wf_cache c') c).
  cache_steps. apply wp_outside. eapply wp_conseq; [apply process_from_json|]. intros [[p|]|e] s' Hp; cache_steps; [|by apply IH..].
  apply IH. apply wf_insert; [done|]. by apply Hp.
Qed.

Lemma FromPersistFile_wf : preserves wf_cache FromPersistFile.
Proof. pose proof load_records_wf. unfold FromPersistFile. preserve; eauto with mpres. Qed.

(** *** Requests *)

Inductive Request :=
  | ReqCheck (callerInfo : AuthenCallerInfo)
  | ReqAdd (callerInfo : AuthenCallerInfo) (safeStartTime : Z)
  | ReqNotifyKernel (callerInfo : AuthenCallerInfo) (kernelPermission : string)
  | ReqQueryKernel (pid privilegeIdx : Z) (kernelPermission : string)
  | ReqRemove (callerInfo : AuthenCallerInfo)
  | ReqRemoveUser (localId : Z)
  | ReqProcessDied (pid : Z)
  | ReqCleanTask.

Definition serve (req : Request) : M (Cache S) unit :=
  match req with
  | ReqCheck callerInfo => _ ← CheckPrivilege callerInfo; mret tt
  | ReqAdd callerInfo safeStartTime => AddCache callerInfo safeStartTime
  | ReqNotifyKernel callerInfo kernelPermission => AddCacheAndNotifyKernel callerInfo kernelPermission
  | ReqQueryKernel pid privilegeIdx kernelPermission => _ ← HasKernelAuthorization pid privilegeIdx kernelPermission; mret tt
  | ReqRemove callerInfo => RemoveSingle callerInfo
  | ReqRemoveUser localId => RemoveUser localId
  | ReqProcessDied pid => OnRemoteDied pid
  | ReqCleanTask => run_clean_task
  end.

(** Requests one after the other, whatever they return. *)
Definition serve_all (reqs : list Request) : M (Cache S) unit := mfor reqs (λ req, _ ← mtry (serve req); mret tt).

Hint Resolve CheckPrivilege_wf AddCacheAndNotifyKernel_wf HasKernelAuthorization_wf RemoveUser_wf RemoveProcess_wf run_clean_task_wf : mpres.

Lemma serve_wf req : preserves wf_cache (serve req).
Proof. destruct req; cbn [serve]; unfold OnRemoteDied; preserve. Qed.

(** C32. The cache is well formed at all times: the service starts with what it can read
    from its file, whatever that holds, and every request, also one that fails, keeps
    every entry under the id of its process and every privilege under its index, and
    leaves no process without privileges in the map. *)
Theorem cache_stays_well_formed reqs (s : S) :
  let started := (FromPersistFile (mkCache s ∅ 0)).2 in wf_cache (serve_all reqs started).2.
Proof.
  intros started. assert (Hp : preserves wf_cache (serve_all reqs)).
  { apply preserves_for. intros req. preserve. apply serve_wf. }
  apply Hp. apply FromPersistFile_wf. by intros pid p.
Qed.

(** ** Granting *)

(** A time that the offsets of the code do not overflow. *)
Definition time_ok (t : Z) : Prop := - 2 ^ 62 ≤ t ≤ 2 ^ 62.
Definition times_ok m : Prop := ∀ pid p i (r : PrivilegeRecord),
  m !! pid = Some p → privilegeRecordMap_ p !! i = Some r → authStatus_ r = NOT_REQUIRED → time_ok (expiredTime_ r).

Lemma offset_eq t : time_ok t →
  DecTimePeriod t EXPIRED_TIME_OFFSET = t - 2000 ∧ AddTimePeriod t EXPIRED_TIME_OFFSET = t + 2000.
Proof.
  unfold time_ok. intros Ht. unfold DecTimePeriod, AddTimePeriod. change (u32 (EXPIRED_TIME_OFFSET * MILLI_SECONDS_PER_SECOND)) with 2000.
  rewrite !i64_id by (unfold INT64_MIN, INT64_MAX; lia). done.
Qed.

(** Why the record of a process grants [t] seconds at the time [now]: the kernel
    authorized it, it has not expired for long, or it is about to expire and the
    trusted clock says that it is valid. *)
Inductive record_grants (r : PrivilegeRecord) (now : Z) (s : S) (t : Z) : Prop :=
  | grants_kernel : authStatus_ r = AUTHORIZED → t = INT32_MAX → record_grants r now s t
  | grants_time : authStatus_ r = NOT_REQUIRED → now < expiredTime_ r - 2000 →
      t = i32 (Z.quot (expiredTime_ r - now) 1000) → record_grants r now s t
  | grants_tee s' : authStatus_ r = NOT_REQUIRED → expiredTime_ r - 2000 ≤ now ≤ expiredTime_ r + 2000 →
      CheckTimestampExpired (safeStartTime_ r) (timeout (GetPrivilegeBriefDef (privilegeIdx_ r) uninitialised)) s = (Ok (t, true), s') →
      record_grants r now s t.

Lemma remain_time r now s t s' :
  authStatus_ r = NOT_REQUIRED → time_ok (expiredTime_ r) → GetRemainTimeSec r now s = (Ok t, s') → t ≠ 0 → record_grants r now s t.
Proof.
  intros Hr Ht Hrun Hne. destruct (offset_eq _ Ht) as [Hd Ha]. unfold GetRemainTimeSec in Hrun. rewrite Hd, Ha in Hrun.
  destruct (Z.ltb_spec now (expiredTime_ r - 2000)).
  - injection Hrun as <- <-. by apply grants_time.
  - destruct (Z.leb_spec now (expiredTime_ r + 2000)); [|by injection Hrun as <- <-].
    apply bind_Ok_inv in Hrun as ([x b] & s1 & Hrun & Hx). destruct b; injection Hx as <- <-; [|done].
    by eapply grants_tee.
Qed.

(** A privilege is granted for a reason: the cache has a record of the process that
    the kernel authorized or whose time has not come (near the end the trusted clock
    decides), or the kernel's access control lets the process pass and the privilege is
    not one the kernel has to authorize.  The check changes no record. *)
Theorem grant_is_justified callerInfo c t c' :
  times_ok (processPrivilegeMap_ c) →
  CheckPrivilege callerInfo c = (Ok t, c') →
  let entry := processPrivilegeMap_ c !! caller_pid callerInfo in
  let record := p ← entry; privilegeRecordMap_ p !! caller_privilegeIdx callerInfo in
  processPrivilegeMap_ c' = processPrivilegeMap_ c ∧
  ((∃ r now s1, record = Some r ∧ GetUptimeMs (world c) = (Ok now, s1) ∧ record_grants r now s1 t) ∨
   (t = -1 ∧ (∀ r, record = Some r → authStatus_ r = NOT_REQUIRED) ∧
    ∃ s1 level s2, GetAcl (caller_pid callerInfo) s1 = (Ok level, s2) ∧ 1 ≤ level)).
Proof.
  intros Hok Hrun entry record.
  assert (Hacl : ∀ s2, check_acl (caller_pid callerInfo) (mkCache s2 (processPrivilegeMap_ c) (clean_tasks c)) = (Ok t, c') →
    processPrivilegeMap_ c' = processPrivilegeMap_ c ∧ t = -1 ∧
    ∃ s1 level s2, GetAcl (caller_pid callerInfo) s1 = (Ok level, s2) ∧ 1 ≤ level).
  { intros s2. unfold check_acl, outside. rewrite mbind_unfold. cbn [world processPrivilegeMap_ clean_tasks].
    destruct (GetAcl _ s2) as [[level|e] s3] eqn:E; [|done]. destruct (Z.leb_spec 1 level); [|done].
    intros [= <- <-]. split_and!; [done|done|]. by exists s2, level, s3. }
  unfold CheckPrivilege in Hrun. rewrite mbind_unfold in Hrun. cbn in Hrun. fold entry in Hrun.
  destruct entry as [p|] eqn:Ep; cbn [mbind option_bind] in record.
  - rewrite run_try in Hrun. unfold outside, ProcessCheckPrivilege in Hrun. rewrite mbind_unfold in Hrun.
    destruct (GetUptimeMs (world c)) as [[now|e] s1] eqn:Eu.
    2:{ cbn in Hrun. destruct (Z.eqb_spec e ERR_AUTHORIZATION_PRIVILEGE_DENIED); [|done]. cbn [negb] in Hrun. fold record in Hrun.
        destruct record as [r|] eqn:Er; [destruct (bool_decide _) eqn:Hb; cbn [negb] in Hrun; [|done]; apply bool_decide_eq_true in Hb|];
        apply Hacl in Hrun as (? & -> & ?); (split; [done|right]; split_and!; [done| |done]); by intros ? [= <-]. }
    fold record in Hrun. destruct record as [r|] eqn:Er.
    2:{ apply Hacl in Hrun as (? & -> & ?). split; [done|right]. split_and!; [done|by intros ?|done]. }
    destruct (authStatus_ r) eqn:Ea; cbn in Hrun; rewrite ?Ea in Hrun.
    + rewrite mbind_unfold in Hrun. destruct (GetRemainTimeSec r now s1) as [[x|e] s2] eqn:Eg.
      * destruct (Z.eqb_spec x 0).
        { apply Hacl in Hrun as (? & -> & ?). split; [done|right]. split_and!; [done|by intros ? [= <-]|done]. }
        injection Hrun as <- <-. split; [done|left]. exists r, now, s1. split_and!; [done|done|].
        eapply remain_time; [done| |exact Eg|done]. by eapply Hok.
      * cbn in Hrun. destruct (negb _); [done|]. apply Hacl in Hrun as (? & -> & ?). split; [done|right]. split_and!; [done|by intros ? [= <-]|done].
    + done.
    + injection Hrun as <- <-. split; [done|left]. exists r, now, s1. split_and!; [done|done|by apply grants_kernel].
  - assert (c = mkCache (world c) (processPrivilegeMap_ c) (clean_tasks c)) as Ec by by destruct c.
    rewrite Ec in Hrun at 1. apply Hacl in Hrun as (? & -> & ?). split; [done|right]. by split_and!.
Qed.
End Theorems.

(** ** Kernel authorization *)

(** A computation after which the kernel has not forgotten whom it said yes to. *)
Definition remembers {S A} `{System S} (m : M S A) : Prop := ∀ s, confirmed s ⊆ confirmed (m s).2.

Class KernelRemembers (S : Type) `{System S} : Prop := {
  uptime_remembers : remembers GetUptimeMs;
  stat_remembers path : remembers (ReadStat path);
  pidfd_remembers pid : remembers (OpenSmartPidFd pid);
  recipient_remembers pid : remembers (AddDeathRecipient pid);
  tee_remembers start timeout : remembers (CheckTimestampExpired start timeout);
  acl_remembers pid : remembers (GetAcl pid);
  set_remembers pid permission : remembers (SetKernelAuthorization pid permission);
  query_remembers pid permission : remembers (QueryKernelAuthorization pid permission);
  digest_remembers input : remembers (GenerateDigest input);
  check_remembers path : remembers (CheckFileExistence path);
  delete_remembers path : remembers (DeleteFile path);
  write_remembers path text : remembers (InputFileByPathAndContentWithTransaction path text);
}.

Section Kernel.
Implicit Types (p : ProcessPrivilegeRecord) (m : gmap Z ProcessPrivilegeRecord).
Context {oscfg : OsConfig} {cjson : CJsonLib} {target : Target} {privileges : Privileges}.
Context {S : Type} {fs : FileStore S} {system : System S} {kernel : KernelRemembers S}.
Implicit Types (c : Cache S).

(** The kernel permission of a privilege, which the requests for it name. *)
Context (permission_of : Z → string).

(** The cache has a record of the privilege of the process, with this status. *)
Definition status_at m (pid i : Z) (status : PrivilegeAuthStatus) : Prop := ∃ p (r : PrivilegeRecord),
  m !! pid = Some p ∧ privilegeRecordMap_ p !! i = Some r ∧ authStatus_ r = status.
Definition authorized m (pid i : Z) : Prop := status_at m pid i AUTHORIZED.

(** The kernel said yes about every record that is authorized, and about [X]; records are
    kept under their indices. *)
Definition backed (X : gset (Z * string)) c : Prop :=
  (∀ pid p i (r : PrivilegeRecord), processPrivilegeMap_ c !! pid = Some p → privilegeRecordMap_ p !! i = Some r →
     privilegeIdx_ r = i ∧ (authStatus_ r = AUTHORIZED → (pid, permission_of i) ∈ confirmed (world c))) ∧
  X ⊆ confirmed (world c).

(** It stays so when no records come in. *)
Definition no_new (f : gmap Z ProcessPrivilegeRecord → gmap Z ProcessPrivilegeRecord) m : Prop :=
  ∀ pid p i (r : PrivilegeRecord), f m !! pid = Some p → privilegeRecordMap_ p !! i = Some r →
    ∃ p', m !! pid = Some p' ∧ privilegeRecordMap_ p' !! i = Some r.

Lemma remembers_bind {A B} (m : M S A) (k : A → M S B) : remembers m → (∀ a, remembers (k a)) → remembers (m ≫= k).
Proof.
  intros Hm Hk s. specialize (Hm s). rewrite mbind_unfold. destruct (m s) as [[a|e] s1]; [|done]. etransitivity; [exact Hm|apply Hk].
Qed.
Lemma remembers_ret {A} (a : A) : remembers (mret a : M S A).
Proof. by intros s. Qed.
Lemma remembers_err {A} e : remembers (merr e : M S A).
Proof. by intros s. Qed.
Lemma remembers_try {A} (m : M S A) : remembers m → remembers (mtry m).
Proof. intros Hm s. specialize (Hm s). unfold mtry. by destruct (m s). Qed.

Lemma outside_backed {A} X (m : M S A) : remembers m → preserves (backed X) (outside m).
Proof.
  intros Hm c [Hc HX]. specialize (Hm (world c)). unfold backed, outside. destruct (m (world c)) as [x s']. cbn in *. split; [|set_solver].
  intros pid p i r Hp Hr. destruct (Hc pid p i r Hp Hr) as [Hi Ha]. split; [done|]. intros H. by apply Hm, Ha.
Qed.
Lemma processes_backed X : preserves (backed X) (@get_processes S).
Proof. by intros c. Qed.
Lemma change_backed X f : (∀ m, no_new f m) → preserves (backed X) (@change_processes S f).
Proof.
  intros Hf c [Hc HX]. split; [|done]. cbn. intros pid p i r Hp Hr.
  destruct (Hf _ pid p i r Hp Hr) as (p' & Hp' & Hr'). by apply (Hc pid p').
Qed.
Lemma tasks_backed X f : preserves (backed X) (mmodify (λ c : Cache S, mkCache (world c) (processPrivilegeMap_ c) (f (clean_tasks c)))).
Proof. by intros c. Qed.

Lemma no_new_delete pid m : no_new (delete pid) m.
Proof. intros k p i r [_ ?]%lookup_delete_Some ?. by exists p. Qed.
Lemma no_new_filter (P : Z * ProcessPrivilegeRecord → Prop) `{!∀ x, Decision (P x)} m : no_new (filter P) m.
Proof. intros k p i r [? _]%map_lookup_filter_Some ?. by exists p. Qed.
Lemma no_new_clean t m : no_new (clean_processes t) m.
Proof.
  intros k p i r (p0 & Hp & -> & _)%clean_lookup Hr. cbn in Hr. apply map_lookup_filter_Some in Hr as [Hr _]. by exists p0.
Qed.

Hint Resolve remembers_bind remembers_ret remembers_err remembers_try uptime_remembers stat_remembers pidfd_remembers
  recipient_remembers tee_remembers acl_remembers set_remembers query_remembers digest_remembers check_remembers
  delete_remembers write_remembers : mpres.

Ltac remember_step :=
  lazymatch goal with
  | |- remembers (_ ≫= _) => apply remembers_bind; [|intros ?]
  | |- remembers (mtry _) => apply remembers_try
  | |- remembers (match ?x with _ => _ end) => destruct x
  | |- remembers (let _ := _ in _) => cbv zeta
  | |- remembers _ => solve [eauto with mpres]
  end.
Ltac remember_code := repeat remember_step.

Lemma GetProcessStartTime_remembers pid : remembers (GetProcessStartTime pid).
Proof. unfold GetProcessStartTime, GetStatInfo. remember_code. Qed.
Lemma CreateEmpty_remembers callerInfo : remembers (CreateEmptyProcessPrivilegeRecord callerInfo).
Proof. unfold CreateEmptyProcessPrivilegeRecord. pose proof GetProcessStartTime_remembers. remember_code. Qed.
Lemma AddOrUpdate_remembers i start p : remembers (AddOrUpdatePrivilege i start p).
Proof. unfold AddOrUpdatePrivilege. remember_code. Qed.
Lemma ProcessCheck_remembers p i : remembers (ProcessCheckPrivilege p i).
Proof. unfold ProcessCheckPrivilege, GetRemainTimeSec. remember_code. Qed.
Lemma Digest_remembers t text : remembers (GenerateDigestFromHuks t text).
Proof. unfold GenerateDigestFromHuks. remember_code. Qed.
Hint Resolve CreateEmpty_remembers AddOrUpdate_remembers ProcessCheck_remembers Digest_remembers : mpres.
Hint Resolve outside_backed processes_backed tasks_backed change_backed no_new_delete no_new_filter no_new_clean : mpres.

Lemma ToPersistFile_backed X t : preserves (backed X) (ToPersistFile t).
Proof. unfold ToPersistFile. preserve. Qed.
Hint Resolve ToPersistFile_backed : mpres.

Lemma CleanExpired_backed X : preserves (backed X) CleanExpiredPrivilegesAndSaveToFile.
Proof. unfold CleanExpiredPrivilegesAndSaveToFile. preserve. Qed.
Hint Resolve CleanExpired_backed : mpres.

(** What the kernel said so far can be added to what is remembered. *)
Lemma backed_now {A} (m : M (Cache S) A) X : (∀ c, backed (confirmed (world c)) c → wp m (λ _ c', backed (confirmed (world c)) c') c) → preserves (backed X) m.
Proof.
  intros Hm c [Hc HX]. destruct (Hm c) as [H1 H2]; [by split|]. split; [exact H1|set_solver].
Qed.

(** A record comes in: it is not authorized, or the kernel said yes. *)
Lemma backed_record X c pid p i (r : PrivilegeRecord) n :
  backed X c → processPrivilegeMap_ c !! pid = Some p ∨ privilegeRecordMap_ p = ∅ → privilegeIdx_ r = i →
  (authStatus_ r = AUTHORIZED → (pid, permission_of i) ∈ X) →
  backed X (mkCache (world c) (<[pid := set_records <[i := r]> p]> (processPrivilegeMap_ c)) n).
Proof.
  intros [Hc HX] Hp Hi Hr. split; [|done]. cbn. intros k q j r' Hq Hr'.
  apply lookup_insert_Some in Hq as [[<- <-]|[_ ?]]; [|by apply (Hc k q)]. cbn in Hr'.
  apply lookup_insert_Some in Hr' as [[<- <-]|[_ Hr']]; [split; [done|]; intros Ha; by apply HX, Hr|].
  destruct Hp as [Hp|Hp]; [by apply (Hc pid p)|]. by rewrite Hp in Hr'.
Qed.

Lemma RemoveSingle_backed X callerInfo : preserves (backed X) (RemoveSingle callerInfo).
Proof.
  apply backed_now. intros c Hc. unfold RemoveSingle. cache_steps. set (pid := caller_pid callerInfo).
  destruct (processPrivilegeMap_ c !! pid) as [p|] eqn:Ep; [|by cache_steps]. cbn [RemovePrivilege]. cache_steps.
  apply (wp_preserves (backed (confirmed (world c)))); [apply CleanExpired_backed| |].
  - destruct Hc as [Hc _]. split; [|done]. cbn [processPrivilegeMap_ world]. intros k q j r Hq Hr. revert Hq. case_bool_decide.
    + intros [_ ?]%lookup_delete_Some. by apply (Hc k q).
    + intros [[<- <-]|[_ ?]]%lookup_insert_Some; [|by apply (Hc k q)]. cbn in Hr.
      apply lookup_delete_Some in Hr as [_ Hr]. by apply (Hc pid p).
  - intros [[]|e] c' Hc'; cache_steps; [done|].
    destruct (privilegeRecordMap_ p !! caller_privilegeIdx callerInfo) as [r|] eqn:Er; cbn [RollbackDelSingleRecord]; cache_steps; [|done].
    destruct (proj1 Hc pid p _ r Ep Er) as [Hi Ha]. cbn [RollbackPrivilege]. apply backed_record; [done| |done|by rewrite Hi].
    destruct (processPrivilegeMap_ c' !! pid) as [q|]; [by left|by right].
Qed.
Hint Resolve RemoveSingle_backed : mpres.

(** The rule for what happens outside of the manager. *)
Lemma wp_outside_backed {A} X (m : M S A) R (Q : result A → Cache S → Prop) c :
  remembers m → backed X c → wp m R (world c) →
  (∀ x c', backed X c' → processPrivilegeMap_ c' = processPrivilegeMap_ c → R x (world c') → Q x c') → wp (outside m) Q c.
Proof.
  intros Hm Hc HR HQ. pose proof (outside_backed X m Hm c Hc) as Hb. apply wp_outside. unfold wp, outside in *.
  destruct (m (world c)) as [x s']. by apply HQ.
Qed.

Lemma AddCache_backed X callerInfo start : preserves (backed X) (AddCache callerInfo start).
Proof.
  intros c Hc. change (wp (AddCache callerInfo start) (λ _ c', backed X c') c). unfold AddCache. cache_steps.
  assert (Hadd : ∀ p c', backed X c' → processPrivilegeMap_ c' !! caller_pid callerInfo = Some p ∨ privilegeRecordMap_ p = ∅ →
    wp (p ← outside (AddOrUpdatePrivilege (caller_privilegeIdx callerInfo) start p);
        _ ← change_processes <[caller_pid callerInfo := p]>; _ ← mtry CleanExpiredPrivilegesAndSaveToFile; mret tt)
      (λ _ c', backed X c') c').
  { intros p c1 Hc1 Hp. cache_steps. eapply wp_outside_backed; [apply AddOrUpdate_remembers|exact Hc1|apply AddOrUpdate_result|].
    cbv beta. intros [p'|e] c2 Hc2 Hm Hr; [|done]. destruct (Hr p' eq_refl) as (now & s1 & _ & ->). cache_steps.
    apply (wp_preserves (backed X)); [apply CleanExpired_backed|apply backed_record; [done|by rewrite Hm|done|done]|].
    intros x c3 Hc3. destruct x; by cache_steps. }
  destruct (processPrivilegeMap_ c !! caller_pid callerInfo) as [p|] eqn:Ep; [apply Hadd; [done|by left]|].
  unfold AddNewProcessCacheInner. apply wp_bind. eapply wp_outside_backed; [apply CreateEmpty_remembers|exact Hc|apply CreateEmpty_result|].
  cbv beta. intros [p|e] c1 Hc1 _ Hr; [|done]. destruct (Hr p eq_refl) as (_ & He & _). apply Hadd; [done|by right].
Qed.
Hint Resolve AddCache_backed : mpres.

Lemma SetAuthStatus_backed X pid i status :
  (status = AUTHORIZED → (pid, permission_of i) ∈ X) → preserves (backed X) (SetAuthStatusForRecord pid i status).
Proof.
  intros Hs c Hc. change (wp (SetAuthStatusForRecord pid i status) (λ _ c', backed X c') c). unfold SetAuthStatusForRecord. cache_steps.
  destruct (processPrivilegeMap_ c !! pid) as [p|] eqn:Ep; [|by cache_steps].
  destruct (privilegeRecordMap_ p !! i) as [r|] eqn:Er; cache_steps; [|done].
  apply backed_record; [done|by left|by apply (proj1 Hc pid p i r)|done].
Qed.

Lemma Prepare_backed X callerInfo : preserves (backed X) (PrepareKernelAuthCache callerInfo).
Proof.
  intros c Hc. change (wp (PrepareKernelAuthCache callerInfo) (λ _ c', backed X c') c). unfold PrepareKernelAuthCache. cache_steps.
  assert (Hrest : ∀ p c', backed X c' → processPrivilegeMap_ c' !! caller_pid callerInfo = Some p ∨ privilegeRecordMap_ p = ∅ →
    wp (_ ← change_processes <[caller_pid callerInfo := set_records <[caller_privilegeIdx callerInfo :=
          mkPrivilegeRecord (caller_privilegeIdx callerInfo) INT64_MAX 0 UNCONFIRMED]> p]>;
        ret ← mtry (outside GetUptimeMs);
        let currTime := match ret with Ok t => t | Err _ => 0 end in
        ret ← mtry (ToPersistFile currTime);
        match ret with Err ret => _ ← mtry (RemoveSingle callerInfo); merr ret | Ok _ => mret currTime end)
      (λ _ c', backed X c') c').
  { intros p c1 Hc1 Hp. apply wp_bind, wp_change. cbv beta.
    apply (wp_preserves (backed X)); [preserve|by apply backed_record|done]. }
  destruct (processPrivilegeMap_ c !! caller_pid callerInfo) as [p|] eqn:Ep; [apply Hrest; [done|by left]|].
  eapply wp_outside_backed; [apply CreateEmpty_remembers|exact Hc|apply CreateEmpty_result|].
  cbv beta. intros [p|e] c1 Hc1 _ Hr; [|done]. destruct (Hr p eq_refl) as (_ & He & _). apply Hrest; [done|by right].
Qed.
Hint Resolve Prepare_backed : mpres.

(** What follows a word of the kernel, which [X] may now hold. *)
Lemma backed_more {A} X Y (m : M (Cache S) A) c :
  preserves (backed (X ∪ Y)) m → backed X c → Y ⊆ confirmed (world c) → wp m (λ _ c', backed X c') c.
Proof.
  intros Hm [Hc HX] HY. destruct (Hm c) as [H1 H2]; [split; [done|set_solver]|]. split; [exact H1|set_solver].
Qed.

Lemma AddCacheAndNotifyKernel_backed X callerInfo :
  preserves (backed X) (AddCacheAndNotifyKernel callerInfo (permission_of (caller_privilegeIdx callerInfo))).
Proof.
  set (permission := permission_of (caller_privilegeIdx callerInfo)). intros c Hc. change (wp (AddCacheAndNotifyKernel callerInfo permission) (λ _ c', backed X c') c). unfold AddCacheAndNotifyKernel.
  apply wp_bind, (wp_preserves (backed X)); [preserve|done|]. intros [now|e] c1 Hc1; [|done].
  apply wp_bind, wp_try. set (pid := caller_pid callerInfo).
  eapply (wp_outside_backed X _ (λ x s', x = Ok tt → {[(pid, permission)]} ⊆ confirmed s')); [apply set_remembers|exact Hc1| |].
  { unfold wp. intros Hx. apply singleton_subseteq_l, (set_confirms _ permission (world c1)). by rewrite <-Hx, <-surjective_pairing. }
  cbv beta. intros [[]|e] c2 Hc2 _ Hr; [|apply (wp_preserves (backed X)); [preserve|done|done]].
  apply (backed_more _ {[(pid, permission)]}); [|done|by apply Hr].
  pose proof (SetAuthStatus_backed (X ∪ {[(pid, permission)]}) pid). preserve; apply H; set_solver.
Qed.

Lemma HasKernelAuthorization_backed X pid i : preserves (backed X) (HasKernelAuthorization pid i (permission_of i)).
Proof.
  set (permission := permission_of i). intros c Hc. change (wp (HasKernelAuthorization pid i permission) (λ _ c', backed X c') c). unfold HasKernelAuthorization. cache_steps.
  destruct (processPrivilegeMap_ c !! pid) as [p|]; [|by cache_steps].
  destruct (privilegeRecordMap_ p !! i) as [r|]; [|by cache_steps].
  destruct (authStatus_ r); cache_steps; [done| |done].
  eapply (wp_outside_backed X _ (λ x s', x = Ok true → {[(pid, permission)]} ⊆ confirmed s')); [apply query_remembers|exact Hc| |].
  { unfold wp. intros Hx. apply singleton_subseteq_l, (query_confirms _ permission (world c)). by rewrite <-Hx, <-surjective_pairing. }
  cbv beta. intros [[]|e] c2 Hc2 _ Hr; cbv iota; [|apply (wp_preserves (backed X)); [preserve|done|done]..].
  apply (backed_more _ {[(pid, permission)]}); [|done|by apply Hr].
  pose proof (SetAuthStatus_backed (X ∪ {[(pid, permission)]}) pid). unfold UpdateToAuthorized. preserve; apply H; set_solver.
Qed.

Lemma CheckPrivilege_backed X callerInfo : preserves (backed X) (CheckPrivilege callerInfo).
Proof. unfold CheckPrivilege, check_acl, StartCleanTask. preserve. Qed.
Lemma RemoveUser_backed X localId : preserves (backed X) (RemoveUser localId).
Proof. unfold RemoveUser. preserve. Qed.
Lemma RemoveProcess_backed X pid : preserves (backed X) (RemoveProcess pid).
Proof. unfold RemoveProcess. preserve. Qed.
Lemma run_clean_task_backed X : preserves (backed X) run_clean_task.
Proof. unfold run_clean_task. preserve. Qed.
Hint Resolve CheckPrivilege_backed AddCacheAndNotifyKernel_backed HasKernelAuthorization_backed RemoveUser_backed
  RemoveProcess_backed run_clean_task_backed : mpres.

(** A request names the kernel permission of the privilege it is for. *)
Definition names_permission (req : Request) : Prop :=
  match req with
  | ReqNotifyKernel callerInfo kernelPermission => kernelPermission = permission_of (caller_privilegeIdx callerInfo)
  | ReqQueryKernel _ privilegeIdx kernelPermission => kernelPermission = permission_of privilegeIdx
  | _ => True
  end.

Lemma serve_backed X req : names_permission req → preserves (backed X) (serve req).
Proof. destruct req; cbn [serve names_permission]; intros; subst; unfold OnRemoteDied; preserve. Qed.

Lemma serve_all_backed X reqs : Forall names_permission reqs → preserves (backed X) (serve_all reqs).
Proof.
  induction 1 as [|req reqs Hreq _ IH]; unfold serve_all; cbn [mfor]; [apply preserves_ret|].
  pose proof (serve_backed X req Hreq). apply preserves_bind; [preserve|]. intros _. exact IH.
Qed.

Lemma UpdateToAuthorized_total pid i c : wp (UpdateToAuthorized pid i) (λ x _, x = Ok tt) c.
Proof.
  unfold UpdateToAuthorized. apply wp_bind, wp_try, wp_outside_any. intros [now|e] s'; [|by apply wp_ret].
  apply wp_bind, wp_try, (wp_conseq _ (λ _ _, True)); [done|]. intros _ c1 _.
  apply wp_bind, wp_try, (wp_conseq _ (λ _ _, True)); [done|]. intros [[]|e] c2 _; [by apply wp_ret|].
  apply wp_bind, wp_try, (wp_conseq _ (λ _ _, True)); [done|]. intros _ c3 _. by apply wp_ret.
Qed.

(** What the kernel is asked, and what comes of it. *)
Lemma HasKernelAuthorization_answers pid i permission c :
  let answers x := (QueryKernelAuthorization pid permission (world c)).1 = x in
  let m := processPrivilegeMap_ c in
  wp (HasKernelAuthorization pid i permission) (λ x _, match x with
    | Ok true => authorized m pid i ∨ status_at m pid i UNCONFIRMED ∧ answers (Ok true)
    | Ok false => ¬ authorized m pid i ∧ (status_at m pid i UNCONFIRMED → answers (Ok false))
    | Err _ => status_at m pid i UNCONFIRMED ∧ ∃ e, answers (Err e)
    end) c.
Proof.
  intros answers m. unfold HasKernelAuthorization. cache_steps. fold m.
  destruct (m !! pid) as [p|] eqn:Ep.
  2:{ cache_steps. unfold authorized, status_at. split; [|intros (p & r & ? & _)]; [intros (p & r & ? & _)|]; congruence. }
  destruct (privilegeRecordMap_ p !! i) as [r|] eqn:Er.
  2:{ cache_steps. unfold authorized, status_at. split; [intros (q & r & ? & ? & _)|intros (q & r & ? & ? & _)]; congruence. }
  assert (Hs : ∀ status, status_at m pid i status ↔ authStatus_ r = status).
  { intros status. split; [intros (q & r' & ? & ? & ?); congruence|intros ?; by exists p, r]. }
  unfold authorized. pose proof (Hs AUTHORIZED) as Ha. pose proof (Hs UNCONFIRMED) as Hu. clear Hs.
  revert Ha Hu. generalize (status_at m pid i AUTHORIZED), (status_at m pid i UNCONFIRMED). intros PA PU Ha Hu.
  destruct (authStatus_ r) eqn:Ea; cache_steps.
  - naive_solver.
  - apply wp_outside. unfold wp, answers. destruct (QueryKernelAuthorization pid permission (world c)) as [[[]|e] s']; cbn [fst snd].
    + rewrite mbind_unfold. pose proof (UpdateToAuthorized_total pid i (mkCache s' m (clean_tasks c))) as Ht.
      fold m. unfold wp in Ht. destruct (UpdateToAuthorized _ _ _) as [x c1]. cbn in Ht |- *. subst x. cbn. naive_solver.
    + rewrite mbind_unfold. unfold mtry. destruct (RemoveSingle _ _) as [x c1]. cbn. naive_solver.
    + cbn. naive_solver.
  - naive_solver.
Qed.

Lemma UpdateToAuthorized_backed X pid i : (pid, permission_of i) ∈ X → preserves (backed X) (UpdateToAuthorized pid i).
Proof. intros Hx. pose proof (SetAuthStatus_backed X pid i). unfold UpdateToAuthorized. preserve; by apply H. Qed.

Lemma kernel_yes_counts pid i c :
  backed ∅ c →
  wp (HasKernelAuthorization pid i (permission_of i)) (λ x c', x = Ok true → (pid, permission_of i) ∈ confirmed (world c')) c.
Proof.
  intros Hc. unfold HasKernelAuthorization. cache_steps.
  destruct (processPrivilegeMap_ c !! pid) as [p|] eqn:Ep; [|by cache_steps].
  destruct (privilegeRecordMap_ p !! i) as [r|] eqn:Er; [|by cache_steps].
  destruct (authStatus_ r) eqn:Ea; cache_steps; [done| |intros _; by apply (proj1 Hc pid p i r)].
  pose proof (outside_backed ∅ _ (query_remembers pid (permission_of i)) c Hc) as Hb. apply wp_outside. unfold wp, outside in *.
  pose proof (query_confirms pid (permission_of i) (world c)) as Hq.
  destruct (QueryKernelAuthorization pid (permission_of i) (world c)) as [[[]|e] s']; cbn [fst snd] in *; [| |done].
  - specialize (Hq s' eq_refl). rewrite mbind_unfold.
    pose proof (UpdateToAuthorized_backed {[(pid, permission_of i)]} pid i ltac:(set_solver)
      (mkCache s' (processPrivilegeMap_ c) (clean_tasks c))) as [_ H].
    { split; [apply Hb|]. cbn. set_solver. }
    destruct (UpdateToAuthorized _ _ _) as [[[]|?] c1]; cbn in *; set_solver.
  - rewrite mbind_unfold. by destruct (mtry _ _) as [[[]|?] ?].
Qed.

(** C29. What the cache and its answers say the kernel allowed, the kernel did allow.  After
    any requests, whatever fails on the way, the rollbacks of records that were removed
    included: a privilege of a process is in the cache as authorized only if the kernel has
    said yes about that process and the kernel permission of that privilege.  A query is
    answered yes only for such a record, or when the kernel itself says yes now; it is
    answered no only when there is no such record and, where the kernel is to be asked, when
    it says no; and it fails only when the kernel cannot be asked.  (The first is assumed of
    the records the service starts with, and requests name the permission of their
    privilege.  A process is its id, for the kernel as for the cache: a process that gets the
    id of one that has ended is not told apart from it.) *)
Theorem authorized_is_confirmed reqs c :
  wf_cache c → (∀ pid i, authorized (processPrivilegeMap_ c) pid i → (pid, permission_of i) ∈ confirmed (world c)) →
  Forall names_permission reqs →
  let c' := (serve_all reqs c).2 in let m' := processPrivilegeMap_ c' in
  (∀ pid i, authorized m' pid i → (pid, permission_of i) ∈ confirmed (world c')) ∧
  ∀ pid i, let '(answer, c'') := HasKernelAuthorization pid i (permission_of i) c' in
    let kernel_says x := (QueryKernelAuthorization pid (permission_of i) (world c')).1 = x in
    match answer with
    | Ok true => (pid, permission_of i) ∈ confirmed (world c'') ∧
        (authorized m' pid i ∨ status_at m' pid i UNCONFIRMED ∧ kernel_says (Ok true))
    | Ok false => ¬ authorized m' pid i ∧ (status_at m' pid i UNCONFIRMED → kernel_says (Ok false))
    | Err _ => status_at m' pid i UNCONFIRMED ∧ ∃ e, kernel_says (Err e)
    end.
Proof.
  intros Hwf Hc Hreqs c' m'. assert (Hb : backed ∅ c').
  { apply serve_all_backed; [done|]. split; [|set_solver]. intros pid p i r Hp Hr. destruct (Hwf _ _ Hp) as [_ _ Hi].
    split; [by apply Hi|]. intros Ha. apply Hc. by exists p, r. }
  assert (Hall : ∀ pid i c, backed ∅ c → authorized (processPrivilegeMap_ c) pid i → (pid, permission_of i) ∈ confirmed (world c)).
  { intros pid i c0 [H _] (p & r & Hp & Hr & Ha). by apply (H pid p i r). }
  split; [by intros pid i; apply Hall|]. intros pid i.
  pose proof (HasKernelAuthorization_answers pid i (permission_of i) c') as H. unfold wp in H.
  pose proof (kernel_yes_counts pid i c' Hb) as H'. unfold wp in H'. cbv zeta beta in H.
  destruct (HasKernelAuthorization pid i (permission_of i) c') as [[[]|e] c'']; cbv zeta; [|exact H..].
  split; [by apply H'|exact H].
Qed.
End Kernel.

(** ** Removing *)

Section Removing.
Implicit Types (p : ProcessPrivilegeRecord) (m : gmap Z ProcessPrivilegeRecord) (r : PrivilegeRecord).
Context {oscfg : OsConfig} {cjson : CJsonLib} {target : Target} {privileges : Privileges}.
Context {S : Type} {fs : FileStore S} {system : System S}.
Implicit Types (c : Cache S).

(** The record of a privilege of a process. *)
Definition record_at m (pid i : Z) : option PrivilegeRecord := p ← m !! pid; privilegeRecordMap_ p !! i.

Lemma record_at_clean t m pid i r :
  record_at (clean_processes t m) pid i = Some r ↔ record_at m pid i = Some r ∧ NeedClean r t = false.
Proof.
  unfold record_at. rewrite !bind_Some. split.
  - intros (p & (p0 & Hp & -> & _)%clean_lookup & Hr). cbn in Hr. apply map_lookup_filter_Some in Hr as [Hr Hn]. split; [by exists p0|done].
  - intros [(p & Hp & Hr) Hn]. exists (CleanCurrentExpiredPrivileges t p).
    assert (Hf : privilegeRecordMap_ (CleanCurrentExpiredPrivileges t p) !! i = Some r) by by apply map_lookup_filter_Some.
    split; [|done]. apply clean_lookup. exists p. split_and!; [done|done|]. intros He. by rewrite He in Hf.
Qed.

(** The clean-up only takes away what has expired; it needs the clock for it. *)
Lemma CleanExpired_map c :
  wp CleanExpiredPrivilegesAndSaveToFile (λ _ c', ∀ pid i r,
    (record_at (processPrivilegeMap_ c') pid i = Some r → record_at (processPrivilegeMap_ c) pid i = Some r) ∧
    (record_at (processPrivilegeMap_ c) pid i = Some r → authStatus_ r ≠ NOT_REQUIRED → record_at (processPrivilegeMap_ c') pid i = Some r)) c.
Proof.
  unfold CleanExpiredPrivilegesAndSaveToFile. cache_steps. apply wp_outside_any. intros [now|e] s'; [|done]. cache_steps.
  apply (wp_preserves (λ c', processPrivilegeMap_ c' = clean_processes now (processPrivilegeMap_ c))); [|done|].
  { apply (ToPersistFile_keeps (λ m, m = clean_processes now (processPrivilegeMap_ c))). }
  intros _ c' Hc' pid i r. rewrite Hc'. rewrite record_at_clean. split; [by intros []|]. intros Hr Ha. split; [done|].
  unfold NeedClean. by rewrite bool_decide_eq_false_2.
Qed.

Lemma record_at_insert m pid p i : record_at (<[pid := p]> m) pid i = privilegeRecordMap_ p !! i.
Proof. unfold record_at. by rewrite lookup_insert_eq. Qed.

(** The record a removal is about: gone, or back as it was. *)
Lemma RemoveSingle_record callerInfo c :
  wf_cache c →
  wp (RemoveSingle callerInfo) (λ x c',
    record_at (processPrivilegeMap_ c') (caller_pid callerInfo) (caller_privilegeIdx callerInfo) =
    if is_Ok x then None else record_at (processPrivilegeMap_ c) (caller_pid callerInfo) (caller_privilegeIdx callerInfo)) c.
Proof.
  intros Hwf. unfold RemoveSingle. cache_steps. unfold record_at at 2.
  destruct (processPrivilegeMap_ c !! caller_pid callerInfo) as [p|] eqn:Ep; cbn [mbind option_bind].
  2:{ apply wp_ret. cbn. unfold record_at. by rewrite Ep. }
  cbn [RemovePrivilege]. cache_steps. eapply wp_conseq; [apply CleanExpired_map|]. intros x c1 Hc1. cbn [processPrivilegeMap_] in Hc1.
  assert (Hgone : record_at (processPrivilegeMap_ c1) (caller_pid callerInfo) (caller_privilegeIdx callerInfo) = None).
  { apply eq_None_not_Some. intros [r Hr]. apply Hc1 in Hr. revert Hr. case_bool_decide; unfold record_at.
    - by rewrite lookup_delete_eq.
    - rewrite lookup_insert_eq. cbn. by rewrite lookup_delete_eq. }
  destruct x as [[]|e]; cache_steps; [done|].
  destruct (privilegeRecordMap_ p !! caller_privilegeIdx callerInfo) as [r|] eqn:Er; cbn [RollbackDelSingleRecord]; cache_steps; [|done].
  cbn [processPrivilegeMap_]. rewrite record_at_insert. cbn [RollbackPrivilege set_records privilegeRecordMap_].
  destruct (Hwf _ _ Ep) as [_ _ Hi]. rewrite <-(Hi _ _ Er). by rewrite lookup_insert_eq.
Qed.

(** The other records: a process that is put back where it had left the cache has no
    record that stays for good. *)
Lemma RemoveSingle_others callerInfo c q i r :
  (q, i) ≠ (caller_pid callerInfo, caller_privilegeIdx callerInfo) → wf_cache c →
  record_at (processPrivilegeMap_ c) q i = Some r → authStatus_ r ≠ NOT_REQUIRED →
  wp (RemoveSingle callerInfo) (λ _ c', record_at (processPrivilegeMap_ c') q i = Some r) c.
Proof.
  intros Hne Hwf Hr Ha. unfold RemoveSingle. cache_steps. set (pid := caller_pid callerInfo) in *. set (j := caller_privilegeIdx callerInfo) in *.
  destruct (processPrivilegeMap_ c !! pid) as [p|] eqn:Ep; [|by apply wp_ret]. cbn [RemovePrivilege]. cache_steps.
  eapply wp_conseq; [apply CleanExpired_map|]. intros x c1 Hc1. cbn [processPrivilegeMap_] in Hc1.
  assert (Hr1 : record_at (processPrivilegeMap_ c1) q i = Some r).
  { apply Hc1; [|done]. unfold record_at in Hr |- *. destruct (decide (q = pid)) as [->|Hq].
    - rewrite Ep in Hr. cbn in Hr. assert (Hd : delete j (privilegeRecordMap_ p) !! i = Some r) by (rewrite lookup_delete_ne; congruence).
      rewrite bool_decide_eq_false_2; [by rewrite lookup_insert_eq|]. intros Hs. apply map_size_empty_inv in Hs. cbn in Hs. by rewrite Hs in Hd.
    - case_bool_decide; [by rewrite lookup_delete_ne|by rewrite lookup_insert_ne]. }
  destruct x as [[]|e]; cache_steps; [done|].
  destruct (privilegeRecordMap_ p !! j) as [r0|] eqn:Er; cbn [RollbackDelSingleRecord]; cache_steps; [|done]. cbn [processPrivilegeMap_].
  destruct (Hwf _ _ Ep) as [_ _ Hi]. pose proof (Hi _ _ Er) as Hj. unfold record_at in Hr1 |- *. destruct (decide (q = pid)) as [->|Hq].
  - rewrite lookup_insert_eq. apply bind_Some in Hr1 as (p1 & Hp1 & Hr1). rewrite Hp1. cbn. rewrite lookup_insert_ne; [done|]. congruence.
  - by rewrite lookup_insert_ne.
Qed.

(** Taking a privilege away is a transaction: the record is gone when the call
    succeeds, and when it fails, because the new cache could not be written, the
    privilege is still there as it was, also where it was the last one and the process
    had left the cache.  Either way the privileges the kernel decides about stay. *)
Theorem removal_is_a_transaction callerInfo c :
  wf_cache c →
  let pid := caller_pid callerInfo in let privilegeIdx := caller_privilegeIdx callerInfo in
  wp (RemoveSingle callerInfo) (λ x c',
    record_at (processPrivilegeMap_ c') pid privilegeIdx =
      (if is_Ok x then None else record_at (processPrivilegeMap_ c) pid privilegeIdx) ∧
    ∀ q i r, (q, i) ≠ (pid, privilegeIdx) → record_at (processPrivilegeMap_ c) q i = Some r → authStatus_ r ≠ NOT_REQUIRED →
      record_at (processPrivilegeMap_ c') q i = Some r) c.
Proof.
  intros Hwf pid privilegeIdx. split; [by apply RemoveSingle_record|]. intros q i r Hne Hr Ha. by apply RemoveSingle_others.
Qed.

(** After a user is removed no process of theirs has privileges, and no privilege of
    another user is touched but by expiring; the same for a process that died. *)
Theorem removed_owners_have_no_privileges localId pid c :
  wp (RemoveUser localId) (λ x c', x = Ok tt ∧
    ∀ q i r, record_at (processPrivilegeMap_ c') q i = Some r → ∃ p,
      processPrivilegeMap_ c !! q = Some p ∧ GetProcessLocalId p ≠ localId ∧ privilegeRecordMap_ p !! i = Some r) c ∧
  wp (OnRemoteDied pid) (λ x c', x = Ok tt ∧ ∀ q i r,
    (record_at (processPrivilegeMap_ c') q i = Some r → q ≠ pid ∧ record_at (processPrivilegeMap_ c) q i = Some r) ∧
    (record_at (processPrivilegeMap_ c) q i = Some r → q ≠ pid → authStatus_ r ≠ NOT_REQUIRED →
       record_at (processPrivilegeMap_ c') q i = Some r)) c.
Proof.
  split.
  - unfold RemoveUser. cache_steps. eapply wp_conseq; [apply CleanExpired_map|]. intros x c1 Hc1. cbv beta.
    assert (H : ∀ q i r, record_at (processPrivilegeMap_ c1) q i = Some r → ∃ p,
      processPrivilegeMap_ c !! q = Some p ∧ GetProcessLocalId p ≠ localId ∧ privilegeRecordMap_ p !! i = Some r).
    { intros q i r Hr. apply Hc1 in Hr. unfold record_at in Hr. cbn [processPrivilegeMap_] in Hr.
      apply bind_Some in Hr as (p & [Hp Hl]%map_lookup_filter_Some & Hr). by exists p. }
    destruct x; by cache_steps.
  - unfold OnRemoteDied, RemoveProcess. cache_steps. destruct (processPrivilegeMap_ c !! pid) as [p|] eqn:Ep; cache_steps.
    + eapply wp_conseq; [apply CleanExpired_map|]. intros x c1 Hc1. cbv beta.
      assert (H : ∀ q i r, (record_at (processPrivilegeMap_ c1) q i = Some r → q ≠ pid ∧ record_at (processPrivilegeMap_ c) q i = Some r) ∧
        (record_at (processPrivilegeMap_ c) q i = Some r → q ≠ pid → authStatus_ r ≠ NOT_REQUIRED →
           record_at (processPrivilegeMap_ c1) q i = Some r)).
      { intros q i r. destruct (Hc1 q i r) as [H1 H2]. unfold record_at in H1, H2 |- *. cbn [processPrivilegeMap_] in H1, H2. split.
        - intros Hr. apply H1 in Hr as (p' & [Hne Hp]%lookup_delete_Some & Hr)%bind_Some. split; [done|]. apply bind_Some. by exists p'.
        - intros Hr Hne. apply H2. by rewrite lookup_delete_ne. }
      destruct x; by cache_steps.
    + split; [done|]. intros q i r. split; [|done]. intros Hr. split; [|done]. intros ->. unfold record_at in Hr. by rewrite Ep in Hr.
Qed.

End Removing.

(** ** Asking the kernel *)

Section Asking.
Implicit Types (p : ProcessPrivilegeRecord) (m : gmap Z ProcessPrivilegeRecord) (r : PrivilegeRecord).
Context {oscfg : OsConfig} {cjson : CJsonLib} {target : Target} {privileges : Privileges}.
Context {S : Type} {fs : FileStore S} {system : System S} {kernel : KernelRemembers S}.
Implicit Types (c : Cache S).

(** The record of the caller has this status. *)
Definition has_status (status : PrivilegeAuthStatus) callerInfo c : Prop :=
  ∃ r, record_at (processPrivilegeMap_ c) (caller_pid callerInfo) (caller_privilegeIdx callerInfo) = Some r ∧ authStatus_ r = status.
Definition no_record callerInfo c : Prop :=
  record_at (processPrivilegeMap_ c) (caller_pid callerInfo) (caller_privilegeIdx callerInfo) = None.

Lemma status_no_record status callerInfo c : has_status status callerInfo c → no_record callerInfo c → False.
Proof. intros (r & Hr & _) Hn. unfold no_record in Hn. congruence. Qed.

Lemma SetAuthStatus_record callerInfo status c :
  wp (SetAuthStatusForRecord (caller_pid callerInfo) (caller_privilegeIdx callerInfo) status)
    (λ x c', world c' = world c ∧ match x with
       | Ok _ => has_status status callerInfo c'
       | Err _ => c' = c ∧ no_record callerInfo c end) c.
Proof.
  unfold SetAuthStatusForRecord, no_record, record_at. cache_steps.
  destruct (processPrivilegeMap_ c !! caller_pid callerInfo) as [p|] eqn:Ep; [|by apply wp_err].
  cbn [mbind option_bind]. destruct (privilegeRecordMap_ p !! caller_privilegeIdx callerInfo) as [r|] eqn:Er; [|by apply wp_err].
  cache_steps. split; [done|]. exists (SetAuthStatus status r). split; [|done].
  cbn [processPrivilegeMap_]. rewrite record_at_insert. cbn. by rewrite lookup_insert_eq.
Qed.

(** A removal leaves a record that is not confirmed as it is, or takes it away. *)
Lemma RemoveSingle_unconfirmed callerInfo c :
  wf_cache c → has_status UNCONFIRMED callerInfo c →
  wp (RemoveSingle callerInfo) (λ _ c', no_record callerInfo c' ∨ has_status UNCONFIRMED callerInfo c') c.
Proof.
  intros Hwf (r & Hr & Ha). eapply wp_conseq; [by apply RemoveSingle_record|]. intros x c' Hx. unfold no_record, has_status.
  rewrite Hx. destruct (is_Ok x); [by left|right]. by exists r.
Qed.

Lemma ToPersistFile_status status callerInfo t c :
  has_status status callerInfo c → wp (ToPersistFile t) (λ _ c', has_status status callerInfo c') c.
Proof. intros Hc. by apply (ToPersistFile_keeps (λ m, ∃ r, record_at m _ _ = Some r ∧ authStatus_ r = status)). Qed.

Lemma ToPersistFile_confirmed t c (x : Z * string) :
  x ∈ confirmed (world c) → x ∈ confirmed (world (ToPersistFile t c).2).
Proof.
  intros Hpid. assert (H : preserves (λ c, x ∈ confirmed (world c)) (ToPersistFile t)); [|by apply H].
  assert (Hout : ∀ A (n : M S A), remembers n → preserves (λ c, x ∈ confirmed (world c)) (outside n)).
  { intros A n Hn c0 Hc0. unfold outside. specialize (Hn (world c0)). destruct (n (world c0)). cbn. by apply Hn. }
  assert (Hm : preserves (λ c, x ∈ confirmed (world c)) (@get_processes S)) by by intros c0.
  unfold ToPersistFile. preserve; apply Hout; [apply delete_remembers|apply Digest_remembers|apply write_remembers].
Qed.

Lemma Prepare_record callerInfo c :
  wf_cache c →
  wp (PrepareKernelAuthCache callerInfo) (λ x c', wf_cache c' ∧ match x with
    | Ok _ => has_status UNCONFIRMED callerInfo c'
    | Err _ => no_record callerInfo c' ∨ has_status UNCONFIRMED callerInfo c' end) c.
Proof.
  intros Hwf. split; [by apply PrepareKernelAuthCache_wf|].
  change (wp (PrepareKernelAuthCache callerInfo) (λ x c', match x with
    | Ok _ => has_status UNCONFIRMED callerInfo c'
    | Err _ => no_record callerInfo c' ∨ has_status UNCONFIRMED callerInfo c' end) c).
  unfold PrepareKernelAuthCache. cache_steps.
  set (pid := caller_pid callerInfo).
  assert (Hrest : ∀ p c1, wf_cache c1 → pid_ p = pid → wf_records (privilegeRecordMap_ p) →
    wp (_ ← change_processes <[pid := set_records <[caller_privilegeIdx callerInfo :=
          mkPrivilegeRecord (caller_privilegeIdx callerInfo) INT64_MAX 0 UNCONFIRMED]> p]>;
        ret ← mtry (outside GetUptimeMs);
        let currTime := match ret with Ok t => t | Err _ => 0 end in
        ret ← mtry (ToPersistFile currTime);
        match ret with Err ret => _ ← mtry (RemoveSingle callerInfo); merr ret | Ok _ => mret currTime end)
      (λ x c', match x with
        | Ok _ => has_status UNCONFIRMED callerInfo c'
        | Err _ => no_record callerInfo c' ∨ has_status UNCONFIRMED callerInfo c' end) c1).
  { intros p c1 Hc1 Hp Hi. apply wp_bind, wp_change, wp_bind, wp_try, wp_outside_any. intros x s'. cbv beta zeta.
    apply wp_bind, wp_try. set (c2 := mkCache s' _ _).
    assert (Hs2 : wf_cache c2 ∧ has_status UNCONFIRMED callerInfo c2).
    { split; [by apply wf_insert, wf_set_record|]. eexists. split; [unfold c2; cbn [processPrivilegeMap_]; rewrite record_at_insert; cbn;
        by rewrite lookup_insert_eq|done]. }
    destruct Hs2 as [Hw2 Hs2]. apply (wp_preserves (λ c, wf_cache c ∧ has_status UNCONFIRMED callerInfo c)); [|done|].
    { intros c' [Hc' Hs']. split; [by apply ToPersistFile_wf|by apply ToPersistFile_status]. }
    intros y c3 [Hw3 Hs3]. destruct y as [[]|e]; [by apply wp_ret|]. apply wp_bind, wp_try.
    eapply wp_conseq; [by apply RemoveSingle_unconfirmed|]. intros z c4 Hc4. by apply wp_err. }
  destruct (processPrivilegeMap_ c !! pid) as [p|] eqn:Ep.
  - destruct (Hwf _ _ Ep) as [? _ ?]. apply wp_ret. cbv beta iota zeta. by apply Hrest.
  - apply wp_outside. eapply wp_conseq; [apply CreateEmpty_result|]. intros [p|e] s' Hr.
    + destruct (Hr p eq_refl) as (Hp & He & _). apply Hrest; [done|done|]. by rewrite He.
    + left. unfold no_record, record_at. cbn [processPrivilegeMap_]. fold pid. by rewrite Ep.
Qed.

(** C33. The outcome of a request to the kernel.  When it is granted the kernel has said yes,
    and the privilege is in the cache as authorized, and was written so; only when just this
    write failed it is left as one to ask the kernel about again.  When it fails, at whichever
    step, no privilege of the kernel is left in the cache but one to ask about again. *)
Theorem kernel_grant_outcomes callerInfo kernelPermission c :
  wf_cache c →
  wp (AddCacheAndNotifyKernel callerInfo kernelPermission) (λ x c', match x with
    | Ok _ => (caller_pid callerInfo, kernelPermission) ∈ confirmed (world c') ∧
        ∃ t c0, has_status AUTHORIZED callerInfo c0 ∧
          match ToPersistFile t c0 with
          | (Ok _, c1) => c' = c1 ∧ has_status AUTHORIZED callerInfo c'
          | (Err _, c1) => world c' = world c1 ∧ has_status UNCONFIRMED callerInfo c'
          end
    | Err _ => no_record callerInfo c' ∨ has_status UNCONFIRMED callerInfo c' end) c.
Proof.
  intros Hwf. unfold AddCacheAndNotifyKernel. apply wp_bind. eapply wp_conseq; [by apply Prepare_record|].
  intros [now|e] c1 [Hw1 Hs1]; [|done]. apply wp_bind, wp_try, wp_outside. unfold wp at 1.
  pose proof (set_confirms (caller_pid callerInfo) kernelPermission (world c1)) as Hset.
  destruct (SetKernelAuthorization _ _ (world c1)) as [[[]|e] s']; cbn [fst snd].
  2:{ apply wp_bind, wp_try. eapply wp_conseq; [by apply RemoveSingle_unconfirmed|]. intros z c4 Hc4. by apply wp_err. }
  specialize (Hset s' eq_refl). set (c2 := mkCache s' _ _).
  assert (Hs2 : has_status UNCONFIRMED callerInfo c2) by exact Hs1. assert (Hk2 : (caller_pid callerInfo, kernelPermission) ∈ confirmed (world c2)) by done.
  clearbody c2. clear Hs1 Hset. apply wp_bind, wp_try. eapply wp_conseq; [apply SetAuthStatus_record|].
  intros [[]|e] c3 [Hw3 H3]; [|by destruct H3 as [_ H3%(status_no_record _ _ _ Hs2)]].
  rewrite <-Hw3 in Hk2. apply wp_bind, wp_try. pose proof (ToPersistFile_status AUTHORIZED callerInfo now c3 H3) as H4. unfold wp in H4 |- *.
  pose proof (ToPersistFile_confirmed now c3 _ Hk2) as Hk4. destruct (ToPersistFile now c3) as [[[]|e] c4] eqn:E; cbn [fst snd] in *.
  - split; [done|]. exists now, c3. rewrite E. by split.
  - rewrite mbind_unfold. unfold mtry.
    pose proof (SetAuthStatus_record callerInfo UNCONFIRMED c4) as H5. unfold wp in H5.
    destruct (SetAuthStatusForRecord _ _ _ c4) as [[[]|e5] c5]; cbn [fst snd] in *; destruct H5 as [Hw5 H5].
    + rewrite <-Hw5 in Hk4. split; [done|]. exists now, c3. by rewrite E.
    + by destruct H5 as [_ H5%(status_no_record _ _ _ H4)].
Qed.
End Asking.
