(* ===== verification/PrivilegeCacheFile.v ===== *)
(** The file of the privilege cache: what is written into it and what comes back from
    it, and that only what was signed comes back. *)
From Stdlib Require Import ZArith Lia Ascii String.
From stdpp Require Import base list gmap sets strings pretty sorting.
From S2P Require Import Prelude ErrorCodes Json FileStore OsAccountInfo OsAccountEnv PrivilegeUtils PrivilegeCache.
From S2P Require Import PrivilegeCacheTheorems.

(** ** Documents *)

Section Documents.
Context {cjson : CJsonLib} {laws : CJsonLaws} {alloc : CJsonAlloc} {target : Target} {privileges : Privileges}.
Implicit Types (r : PrivilegeRecord) (p : ProcessPrivilegeRecord) (m : gmap Z ProcessPrivilegeRecord).

(** A record that a document can hold: its privilege has a name of its own in the
    table, and the numbers are in the ranges of their types. *)
Record storable_record r : Prop := {
  storable_name : TransferPrivilegeToCode (TransferCodeToPrivilege (privilegeIdx_ r)) = Some (privilegeIdx_ r);
  storable_expired : is_i64 (expiredTime_ r);
  storable_start : is_u32 (safeStartTime_ r);
}.

Record storable_process p : Prop := {
  storable_pid : is_i32 (pid_ p);
  storable_uid : is_i32 (uid_ p);
  storable_process_start : is_i64 (processStartTime_ p);
  storable_records : map_Forall (λ _ r, storable_record r) (privilegeRecordMap_ p);
}.

Definition record_doc r : CJson :=
  JObject [(PRIVILEGE_RECORD_NAME, JString (TransferCodeToPrivilege (privilegeIdx_ r)));
    (PRIVILEGE_RECORD_EXPIRED_TIMESTAMP, JString (to_string (expiredTime_ r)));
    (PRIVILEGE_RECORD_SAFE_START_TIME, JString (to_string (safeStartTime_ r)));
    (PRIVILEGE_RECORD_AUTH_STATUS, JString (PrivilegeAuthStatusToString (authStatus_ r)))].

Definition process_doc p : CJson :=
  JObject [(PROCESS_RECORD_PID, num (pid_ p)); (PROCESS_RECORD_UID, num (uid_ p));
    (PROCESS_RECORD_START_TIME, JString (to_string (processStartTime_ p)));
    (PROCESS_RECORD_PRIVILEGE_RECORDS, JArray ((λ kv, record_doc kv.2) <$> in_order (privilegeRecordMap_ p)))].

Definition processes_doc m : CJson := JArray ((λ kv, process_doc kv.2) <$> in_order m).

Lemma privilege_name_nul_free i : nul_free (TransferCodeToPrivilege i).
Proof.
  unfold TransferCodeToPrivilege. destruct (_ <=? _); [done|].
  destruct (g_privilegeList !! Z.to_nat i) as [d|]; [|done]. cbn. destruct (privilegeName d); [|done]. apply c_str_nul_free.
Qed.

Lemma status_text_nul_free s : nul_free (PrivilegeAuthStatusToString s).
Proof. by destruct s. Qed.

Lemma status_roundtrip s : StringToPrivilegeAuthStatus (PrivilegeAuthStatusToString s) = s.
Proof. by destruct s. Qed.

Lemma PrivilegeRecord_ToJson_eq r l : PrivilegeRecord_ToJson r (Some (JArray l)) = Some (JArray (l ++ [record_doc r])).
Proof.
  unfold PrivilegeRecord_ToJson. rewrite CreateJson_eq. cbn [mbind option_bind].
  repeat (first [rewrite AddStringToJson_eq by done | rewrite AddInt64ToJson_eq by done]; cbn [mbind option_bind]).
  rewrite AddObjToArray_eq. do 3 f_equal. by rewrite (privilege_name_nul_free _ : c_str _ = _), (status_text_nul_free _ : c_str _ = _).
Qed.

Lemma records_array_eq (kvs : list (Z * PrivilegeRecord)) l :
  foldl (λ array kv, array ← array; PrivilegeRecord_ToJson kv.2 (Some array)) (Some (JArray l)) kvs =
    Some (JArray (l ++ ((λ kv, record_doc kv.2) <$> kvs))).
Proof.
  revert l. induction kvs as [|kv kvs IH]; intros l; cbn [foldl fmap list_fmap]; [by rewrite app_nil_r|].
  cbn [mbind option_bind]. rewrite PrivilegeRecord_ToJson_eq. etransitivity; [apply IH|by rewrite <-app_assoc].
Qed.

Lemma ProcessPrivilegeRecord_ToJson_eq p :
  privilegeRecordMap_ p ≠ ∅ → ProcessPrivilegeRecord_ToJson p = Some (Some (process_doc p)).
Proof.
  intros Hne. unfold ProcessPrivilegeRecord_ToJson. rewrite bool_decide_eq_false_2 by (by apply map_size_non_empty_iff).
  rewrite CreateJson_eq, CreateJsonArray_eq, records_array_eq.
  repeat (first [rewrite AddIntToJson_eq by done | rewrite AddInt64ToJson_eq by done | rewrite AddObjToJson_eq by done];
    cbn [mbind option_bind]). done.
Qed.

Lemma MapToJsonString_eq m :
  map_Forall (λ _ p, privilegeRecordMap_ p ≠ ∅) m → string_empty (PackJsonToString (Some (processes_doc m))) = false →
  MapToJsonString m = Some (PackJsonToString (Some (processes_doc m))).
Proof.
  intros Hne Hs. unfold MapToJsonString. rewrite CreateJsonArray_eq.
  assert (Hgen : ∀ kvs l, Forall (λ kv, privilegeRecordMap_ kv.2 ≠ ∅) kvs →
    foldl (λ array (kv : Z * ProcessPrivilegeRecord),
      array ← array; obj ← ProcessPrivilegeRecord_ToJson kv.2;
      match obj with None => Some array | Some obj => AddObjToArray (Some array) (Some obj) end) (Some (JArray l)) kvs =
    Some (JArray (l ++ ((λ kv, process_doc kv.2) <$> kvs)))).
  { induction kvs as [|kv kvs IH]; intros l Hf; cbn [foldl fmap list_fmap]; [by rewrite app_nil_r|].
    apply Forall_cons in Hf as [Hkv Hf]. cbn [mbind option_bind]. rewrite ProcessPrivilegeRecord_ToJson_eq by done.
    cbn [mbind option_bind]. rewrite AddObjToArray_eq, IH by done. by rewrite <-app_assoc. }
  rewrite Hgen.
  - cbn [mbind option_bind app]. fold (processes_doc m). by rewrite Hs.
  - apply Forall_forall. intros [k p] Hk%elem_of_ordered_list. by apply (Hne k).
Qed.

(** *** Reading *)

Lemma GetInt64_text l key z :
  string_empty key = false → obj_find (c_str key) l = Some (JString (to_string z)) → is_i64 z →
  GetInt64FromJson (Some (JObject l)) key = Some z.
Proof.
  intros Hk Hf Hz. unfold GetInt64FromJson. rewrite IsKeyExist_object, find_item_object, Hf by done.
  rewrite bool_decide_eq_true_2 by done. by rewrite to_string_not_empty, to_i64.
Qed.

Lemma GetString_text l key s :
  string_empty key = false → obj_find (c_str key) l = Some (JString s) → GetStringFromJson (Some (JObject l)) key = Some s.
Proof. intros Hk Hf. unfold GetStringFromJson. by rewrite find_item_object, Hf. Qed.

Lemma GetInt_number l key z :
  string_empty key = false → obj_find (c_str key) l = Some (num z) → is_i32 z → GetIntFromJson (Some (JObject l)) key = Some z.
Proof. intros Hk Hf Hz. unfold GetIntFromJson. rewrite find_item_object, Hf by done. unfold num. by rewrite to_i32. Qed.

Lemma GetArray_items l key xs :
  string_empty key = false → obj_find (c_str key) l = Some (JArray xs) →
  GetJsonArrayFromJson (Some (JObject l)) key = Some (JArray xs).
Proof. intros Hk Hf. unfold GetJsonArrayFromJson. by rewrite find_item_object, Hf. Qed.

Lemma record_read_back r : storable_record r → PrivilegeRecord_FromJson (Some (record_doc r)) = Some r.
Proof.
  intros [Hn He Hs]. unfold PrivilegeRecord_FromJson, record_doc. cbn [IsObject negb].
  rewrite (GetString_text _ PRIVILEGE_RECORD_NAME (TransferCodeToPrivilege (privilegeIdx_ r))) by done. cbn [mbind option_bind].
  rewrite Hn. cbn [mbind option_bind].
  rewrite (GetInt64_text _ PRIVILEGE_RECORD_EXPIRED_TIMESTAMP (expiredTime_ r)) by done. cbn [mbind option_bind].
  rewrite (GetInt64_text _ PRIVILEGE_RECORD_SAFE_START_TIME (safeStartTime_ r)).
  - cbn [mbind option_bind]. rewrite (GetString_text _ PRIVILEGE_RECORD_AUTH_STATUS (PrivilegeAuthStatusToString (authStatus_ r))) by done.
    cbn [from_option]. unfold id. rewrite status_roundtrip, u32_id by done. by destruct r.
  - done.
  - done.
  - unfold is_u32, is_i64, INT64_MIN, INT64_MAX in *. lia.
Qed.

(** The records that are not to be cleaned are read back. *)
Lemma records_read_back now (kvs : list (Z * PrivilegeRecord)) (rs : gmap Z PrivilegeRecord) :
  Forall (λ kv, storable_record kv.2 ∧ privilegeIdx_ kv.2 = kv.1) kvs → NoDup kvs.*1 →
  ParsePrivilegeRecordJsonArray now ((λ kv, record_doc kv.2) <$> kvs) rs =
    Some (list_to_map (filter (λ kv, NeedClean kv.2 now = false) kvs) ∪ rs).
Proof.
  intros Hf Hnd. rewrite <-foldl_insert by (by apply NoDup_filter_fst). clear Hnd. revert rs.
  induction Hf as [|[i r] kvs [Hs Hi] _ IH]; intros rs; [done|]. cbn [fst snd] in *.
  cbn [fmap list_fmap ParsePrivilegeRecordJsonArray fst snd]. rewrite record_read_back by done. cbn [mbind option_bind].
  rewrite filter_cons. cbn [snd]. destruct (NeedClean r now); [by rewrite IH|]. cbn [foldl fst snd]. by rewrite IH, Hi.
Qed.

(** ** The documents are plain *)

Lemma record_doc_plain r : storable_record r → json_plain (record_doc r) = true.
Proof.
  intros Hr. unfold record_doc. cbn [json_plain forallb fst snd].
  rewrite !(bool_decide_eq_true_2 (nul_free (to_string _))) by apply to_string_nul_free.
  by rewrite (bool_decide_eq_true_2 _ (privilege_name_nul_free _)), (bool_decide_eq_true_2 _ (status_text_nul_free _)).
Qed.

Lemma docs_depth {A} (f : A → CJson) n l :
  (∀ x, json_depth (f x) = n) → (json_depth (JArray (f <$> l)) ≤ Datatypes.S n)%nat.
Proof.
  intros Hf. rewrite json_depth_array. apply le_n_S. induction l as [|x l IH]; cbn [fmap list_fmap foldr]; [lia|].
  rewrite Hf. lia.
Qed.

Lemma process_doc_plain p : storable_process p → json_plain (process_doc p) = true.
Proof.
  intros [Hp Hu Ht Hr]. unfold process_doc.
  assert (Hrs : json_plain (JArray ((λ kv, record_doc kv.2) <$> in_order (privilegeRecordMap_ p))) = true).
  { cbn [json_plain]. apply forallb_Forall_true, Forall_fmap, Forall_forall. intros [i r] Hi%elem_of_ordered_list.
    apply record_doc_plain. by apply (Hr i). }
  cbn [json_plain] in *. apply forallb_Forall_true. rewrite !Forall_cons. cbn [fst snd]. 
  split_and!; try apply Forall_nil; try done; (apply andb_true_iff; split; [done|]);
    first [by apply num_plain | apply text_plain, to_string_nul_free | exact Hrs].
Qed.

Lemma process_doc_depth p : (json_depth (process_doc p) ≤ 3)%nat.
Proof.
  unfold process_doc. rewrite json_depth_object. cbn [foldr snd].
  pose proof (docs_depth (λ kv : Z * PrivilegeRecord, record_doc kv.2) 1 (in_order (privilegeRecordMap_ p)) (λ _, eq_refl)).
  change (json_depth (num _)) with 0%nat. change (json_depth (JString _)) with 0%nat. lia.
Qed.

Lemma processes_doc_ok m : map_Forall (λ _ p, storable_process p) m → json_ok (processes_doc m) = true.
Proof.
  intros Hm. unfold json_ok. apply andb_true_iff. split.
  - unfold processes_doc. cbn [json_plain]. apply forallb_Forall_true, Forall_fmap, Forall_forall.
    intros [k p] Hk%elem_of_ordered_list. apply process_doc_plain. by apply (Hm k).
  - apply Nat.ltb_lt. unfold processes_doc. rewrite json_depth_array.
    assert (H : (foldr (λ x n, Nat.max (json_depth x) n) 0 ((λ kv, process_doc kv.2) <$> in_order m) ≤ 3)%nat).
    { induction (in_order m) as [|kv l IH]; cbn [fmap list_fmap foldr]; [lia|]. pose proof (process_doc_depth kv.2). lia. }
    unfold CJSON_NESTING_LIMIT. lia.
Qed.
End Documents.

(** ** The file *)

Definition file_doc (t : Z) (recordStr : string) (digest : list Z) : CJson :=
  JObject [(CACHE_MANAGER_UPDATE_TIME, JString (to_string t)); (CACHE_MANAGER_DIGEST, JArray (num <$> digest));
    (CACHE_MANAGER_PROCESS_RECORDS, JString recordStr)].

Definition is_byte (b : Z) : Prop := 0 ≤ b < 256.
Definition digest_ok (d : list Z) : Prop := Forall is_byte d ∧ (length d ≤ 32)%nat.

Section File.
Context {oscfg : OsConfig} {cjson : CJsonLib} {laws : CJsonLaws} {alloc : CJsonAlloc} {target : Target} {privileges : Privileges}.
Context {S : Type} {fs : FileStore S} {system : System S}.
Implicit Types (c : Cache S) (p : ProcessPrivilegeRecord) (m : gmap Z ProcessPrivilegeRecord).

Lemma cache_path_not_temp : is_temp PRIVILEGE_CACHE_FILE_PATH = false.
Proof. by vm_compute. Qed.

(** The digest of what is written. *)
Definition signature (t : Z) (recordStr : string) : list Z :=
  if HAS_HUKS_PART then digest_of (digest_input t recordStr) else [].

Definition records_text m : string := PackJsonToString (Some (processes_doc m)).
Definition file_text (t : Z) m : string :=
  PackJsonToString (Some (file_doc t (records_text m) (signature t (records_text m)))).

Lemma bytes_back (bs : list Z) :
  Forall is_byte bs →
  omap (λ item, match item with JNumber d => Some (double_to_int INT32_MIN INT32_MAX d `mod` 256) | _ => None end) (num <$> bs) = bs.
Proof.
  induction 1 as [|b bs Hb _ IH]; [done|]. cbn [fmap list_fmap omap list_omap num]. unfold is_byte in Hb.
  rewrite to_i32, Z.mod_small by (unfold is_i32; lia). f_equal. exact IH.
Qed.

Lemma ToJsonString_eq t recordStr digest :
  nul_free recordStr → string_empty (PackJsonToString (Some (file_doc t recordStr digest))) = false →
  ToJsonString t recordStr digest = Some (PackJsonToString (Some (file_doc t recordStr digest))).
Proof.
  intros Hr Hs. unfold ToJsonString. rewrite CreateJson_eq.
  assert (Hd : ∀ l, AddVectorUint8ToJson (Some (JObject l)) CACHE_MANAGER_DIGEST digest =
    Some (JObject (obj_set CACHE_MANAGER_DIGEST (JArray (num <$> digest)) l))).
  { intros l. unfold AddVectorUint8ToJson. cbn [string_empty CACHE_MANAGER_DIGEST]. change cJSON_CreateArray with CreateJsonArray.
    rewrite CreateJsonArray_eq. cbn [mbind option_bind]. rewrite numbers_array_eq. apply add_or_replace_eq. }
  rewrite AddInt64ToJson_eq by done. cbn [mbind option_bind]. rewrite Hd. cbn [mbind option_bind].
  rewrite AddStringToJson_eq by done. cbn [mbind option_bind]. rewrite Hr. fold (file_doc t recordStr digest).
  change (JObject (obj_set _ _ _)) with (file_doc t recordStr digest). by rewrite Hs.
Qed.

Lemma file_doc_ok t recordStr digest :
  nul_free recordStr → Forall is_byte digest → json_ok (file_doc t recordStr digest) = true.
Proof.
  intros Hr Hd. unfold json_ok, file_doc. apply andb_true_iff. split.
  - cbn [json_plain]. apply forallb_Forall_true. rewrite !Forall_cons. cbn [fst snd].
    split_and!; [..|apply Forall_nil; done]; (apply andb_true_iff; split; [done|]);
      [apply text_plain, to_string_nul_free| |by apply text_plain].
    cbn [json_plain]. apply forallb_Forall_true, Forall_fmap. eapply Forall_impl; [exact Hd|].
    intros b Hb. apply num_plain. unfold is_byte, is_i32 in *. lia.
  - apply Nat.ltb_lt. rewrite json_depth_object. cbn [foldr snd].
    pose proof (docs_depth num 0 digest (λ _, eq_refl)). change (json_depth (JString _)) with 0%nat. unfold CJSON_NESTING_LIMIT. lia.
Qed.

Lemma records_text_nul_free m : nul_free (records_text m).
Proof.
  unfold records_text. destruct (alloc_print (processes_doc m)) as [s Hs]. rewrite (PackJsonToString_print _ _ Hs).
  by destruct (print_text _ _ Hs).
Qed.

Definition storable_map m : Prop := map_Forall (λ _ p, storable_process p) m.

Lemma GenerateDigest_result t recordStr s :
  idle s → wp (GenerateDigestFromHuks t recordStr) (λ x s', idle s' ∧ texts s' = texts s ∧
    ∀ d, x = Ok d → d = signature t recordStr ∧ digest_ok d) s.
Proof.
  intros Hs. unfold GenerateDigestFromHuks, signature. destruct HAS_HUKS_PART; [|apply wp_ret; split_and!; [done|done|intros ? [= <-]; split; [done|split; [apply Forall_nil_2|cbn; lia]]]].
  unfold wp. destruct (digest_leaves (digest_input t recordStr) s Hs) as [Hi Ht].
  destruct (GenerateDigest _ s) as [[d|e] s'] eqn:E; cbn in *; (split_and!; [done|done|]); [|done].
  intros d' [= <-]. apply digest_spec in E as (-> & Hlen & Hb). split; [done|]. split; [exact Hb|]. by rewrite Hlen.
Qed.

Lemma GenerateDigest_size t recordStr s d s' :
  GenerateDigestFromHuks t recordStr s = (Ok d, s') →
  d = signature t recordStr ∧ (HAS_HUKS_PART = true → length d = 32%nat).
Proof.
  unfold GenerateDigestFromHuks, signature. destruct HAS_HUKS_PART; [|by intros [= <- _]].
  intros (-> & Hlen & _)%digest_spec. by split.
Qed.

(** A cache that is not empty is written as it is. *)
Lemma ToPersistFile_saves t c c' :
  processPrivilegeMap_ c ≠ ∅ → wf_cache c → storable_map (processPrivilegeMap_ c) → idle (world c) →
  ToPersistFile t c = (Ok tt, c') →
  texts (world c') !! PRIVILEGE_CACHE_FILE_PATH = Some (file_text t (processPrivilegeMap_ c)) ∧
  digest_ok (signature t (records_text (processPrivilegeMap_ c))).
Proof.
  intros Hne Hwf Hst Hi Hrun. set (m := processPrivilegeMap_ c) in *.
  destruct (pack_create _ (processes_doc_ok m Hst)) as [_ Hs].
  pose proof (records_text_nul_free m) as Hnul.
  assert (Hmap : MapToJsonString m = Some (records_text m)).
  { apply MapToJsonString_eq; [|done]. intros pid p Hp. by apply (wf_some pid), Hwf. }
  unfold ToPersistFile in Hrun. apply bind_Ok_inv in Hrun as (m' & c1 & [= <- <-] & Hrun). fold m in Hrun.
  rewrite bool_decide_eq_false_2, Hmap in Hrun by (by apply map_size_non_empty_iff).
  apply bind_Ok_inv in Hrun as (d & c1 & Hd & Hrun). pose proof (GenerateDigest_result t (records_text m) (world c) Hi) as Hdig.
  unfold outside in Hd. unfold wp in Hdig. destruct (GenerateDigestFromHuks t (records_text m) (world c)) as [x s1].
  injection Hd as -> <-. destruct Hdig as (Hi1 & Ht1 & Hdig). destruct (Hdig d eq_refl) as [-> Hbytes]. cbn in Hi1, Ht1.
  destruct (pack_create _ (file_doc_ok t _ _ Hnul (proj1 Hbytes))) as [_ He]. rewrite ToJsonString_eq in Hrun by done.
  fold (file_text t m) in Hrun. unfold outside in Hrun. cbn [world] in Hrun.
  pose proof (transaction_spec PRIVILEGE_CACHE_FILE_PATH (file_text t m) s1 Hi1 cache_path_not_temp) as Hw. unfold wp in Hw.
  destruct (InputFileByPathAndContentWithTransaction _ _ s1) as [x s2]. injection Hrun as -> <-.
  destruct Hw as [_ Hw]. cbn in Hw |- *. split; [|done]. by rewrite Hw, lookup_insert_eq.
Qed.

(** *** What the service accepts *)

Lemma digest_input_inj t recs t0 recs0 : digest_input t recs = digest_input t0 recs0 → t = t0 ∧ recs = recs0.
Proof.
  assert (Hfree : ∀ z, char_free ":" (to_string z)).
  { intros z. destruct (decide (0 ≤ z)); [by apply to_string_char_free|]. replace z with (- - z) by lia.
    rewrite to_string_neg by lia. apply char_free_cons. split; [done|]. apply to_string_char_free; [lia|done]. }
  unfold digest_input. intros [Heq ->]%app_sep_inj; [|done..]. split; [|done].
  assert (Hsign : ∀ u v, 0 ≤ u → v < 0 → to_string u ≠ to_string v).
  { intros u v Hu Hv E. pose proof (to_string_digits u Hu) as Hd. replace v with (- - v) in E by lia.
    rewrite to_string_neg in E by lia. by rewrite E in Hd. }
  destruct (Z_lt_le_dec t 0), (Z_lt_le_dec t0 0).
  - replace t with (- - t) in Heq by lia. replace t0 with (- - t0) in Heq by lia. rewrite (to_string_neg (- t)), (to_string_neg (- t0)) in Heq by lia.
    injection Heq as Heq. apply to_string_inj in Heq; lia.
  - by destruct (Hsign t0 t).
  - by destruct (Hsign t t0).
  - by apply to_string_inj in Heq.
Qed.

(** What is loaded has a time in the past and the digest of this time and these records. *)
Lemma loaded_is_signed now s recs s' :
  idle s → ReadAndCheckPersistRecordValid now s = (Ok (Some recs), s') →
  ∃ text j t, texts s !! PRIVILEGE_CACHE_FILE_PATH = Some text ∧ CreateJsonFromString text = Some j ∧
    GetInt64FromJson (Some j) CACHE_MANAGER_UPDATE_TIME = Some t ∧ t < now ∧
    GetStringFromJson (Some j) CACHE_MANAGER_PROCESS_RECORDS = Some recs ∧
    GetVectorUint8FromJson (Some j) CACHE_MANAGER_DIGEST = signature t recs ∧
    (HAS_HUKS_PART = true → length (signature t recs) = 32%nat).
Proof.
  intros Hi Hrun. unfold ReadAndCheckPersistRecordValid in Hrun.
  apply bind_Ok_inv in Hrun as (b & s1 & Hb & Hrun). pose proof (exists_spec PRIVILEGE_CACHE_FILE_PATH s Hi cache_path_not_temp) as He.
  unfold wp in He. rewrite Hb in He. destruct He as (Hi1 & Ht1 & _). cbn in Hi1, Ht1. destruct b; [|done]. cbn [negb] in Hrun.
  rewrite run_try in Hrun. pose proof (read_spec PRIVILEGE_CACHE_FILE_PATH s1 Hi1 cache_path_not_temp) as Hr. unfold wp in Hr.
  destruct (GetFileContentByPath _ s1) as [[text|e] s2]; [|done]. destruct Hr as (Hi2 & Ht2 & Hr).
  specialize (Hr text eq_refl). rewrite Ht1 in Hr.
  destruct (CreateJsonFromString text) as [j|] eqn:Hj; [|done]. destruct (IsObject (Some j)); [|done].
  cbn [negb] in Hrun. rewrite run_try in Hrun. unfold CheckUpdateTimeValid in Hrun.
  destruct (GetInt64FromJson (Some j) CACHE_MANAGER_UPDATE_TIME) as [t|] eqn:Et.
  2:{ rewrite run_try in Hrun. by destruct (DeleteFile _ s2). }
  destruct (Z.leb_spec now t) as [|Hlt]; [rewrite run_try in Hrun; by destruct (DeleteFile _ s2)|].
  cbn [mret M_ret] in Hrun. destruct (GetStringFromJson (Some j) CACHE_MANAGER_PROCESS_RECORDS) as [recs'|] eqn:Er; [|done].
  apply bind_Ok_inv in Hrun as (v & s3 & Hv & Hrun). destruct v; [|done]. injection Hrun as <- <-.
  unfold CheckPersistDigestValid in Hv. rewrite run_try in Hv. pose proof (GenerateDigest_size t recs' s2) as Hdig.
  destruct (GenerateDigestFromHuks t recs' s2) as [[d|e] s4]; [|done]. destruct (Hdig d s4 eq_refl) as [-> Hlen].
  case_bool_decide as Heq; cbn [negb] in Hv; [|rewrite run_try in Hv; by destruct (DeleteFile _ s4)].
  exists text, j, t. by split_and!.
Qed.

(** C31. Whatever is in the file of the cache, what the service loads from it was written
    before now and is covered by the digest in the file: the file is a document with a time before
    now, the records that are loaded, and a digest, and the digest is that of this time and these
    records.  So, in a build with the key store, a file without a digest (of 32 bytes),
    without a time or records, or from the future, is not loaded; and if the digest is the
    one the service made of the records [recs0] at the time [t0], and no second text with
    this digest is known, then exactly these records are loaded, and as of this time: a file
    in which the records or the time were changed is not loaded.  (A build without the key
    store has no digests, and loads what the file holds.) *)
Theorem tampering_is_detected now s recs s' :
  idle s → ReadAndCheckPersistRecordValid now s = (Ok (Some recs), s') →
  ∃ text j t, texts s !! PRIVILEGE_CACHE_FILE_PATH = Some text ∧ CreateJsonFromString text = Some j ∧
    GetInt64FromJson (Some j) CACHE_MANAGER_UPDATE_TIME = Some t ∧ t < now ∧
    GetStringFromJson (Some j) CACHE_MANAGER_PROCESS_RECORDS = Some recs ∧
    let digest := GetVectorUint8FromJson (Some j) CACHE_MANAGER_DIGEST in
    (HAS_HUKS_PART = true → length digest = 32%nat ∧ digest = digest_of (digest_input t recs) ∧
       ∀ t0 recs0, digest = digest_of (S := S) (digest_input t0 recs0) →
         (∀ input, digest_of (S := S) input = digest → input = digest_input t0 recs0) → t = t0 ∧ recs = recs0) ∧
    (HAS_HUKS_PART = false → digest = []).
Proof.
  intros Hi (text & j & t & Htext & Hj & Ht & Hlt & Hr & Hd & Hlen)%loaded_is_signed; [|done].
  exists text, j, t. do 5 (split; [done|]). cbv zeta. rewrite Hd. unfold signature in *. split.
  - intros Hhuks. rewrite Hhuks in *. split_and!; [by apply Hlen|done|]. intros t0 recs0 _ Hinj. by apply digest_input_inj, Hinj.
  - by intros ->.
Qed.
End File.

(** ** A system that works *)

Definition stat_path (pid : Z) : string := "/proc/" +:+ to_string pid +:+ "/stat".

(** A system on which no call fails, with the line of every process that runs and the
    time since boot. *)
Class HealthySystem (S : Type) `{System S} := {
  healthy : S → Prop;
  lines : S → gmap Z string;
  uptime : S → Z;
  steady s s' : Prop := idle s' ∧ healthy s' ∧ texts s' = texts s ∧ lines s' = lines s;
  uptime_healthy s : idle s → healthy s → wp GetUptimeMs (λ x s', steady s s' ∧ x = Ok (uptime s)) s;
  exists_healthy path s : idle s → healthy s → is_temp path = false → path ≠ "" →
    wp (IsExistFile path) (λ x s', steady s s' ∧ x = Ok (bool_decide (is_Some (texts s !! path)))) s;
  read_healthy path text s : idle s → healthy s → is_temp path = false → path ≠ "" → texts s !! path = Some text →
    wp (GetFileContentByPath path) (λ x s', steady s s' ∧ x = Ok text) s;
  digest_healthy input s : idle s → healthy s → wp (GenerateDigest input) (λ x s', steady s s' ∧ x = Ok (digest_of input)) s;
  check_healthy pid s : idle s → healthy s →
    wp (CheckFileExistence (stat_path pid)) (λ x s', steady s s' ∧ is_Ok x = bool_decide (is_Some (lines s !! pid))) s;
  stat_healthy pid line s : idle s → healthy s → lines s !! pid = Some line →
    wp (ReadStat (stat_path pid)) (λ x s', steady s s' ∧ x = Ok (Some line)) s;
  pidfd_healthy pid s : idle s → healthy s → is_Some (lines s !! pid) →
    wp (OpenSmartPidFd pid) (λ x s', steady s s' ∧ x = Ok tt) s;
}.

Section Restart.
Context {oscfg : OsConfig} {cjson : CJsonLib} {laws : CJsonLaws} {alloc : CJsonAlloc} {target : Target} {privileges : Privileges}.
Context {S : Type} {fs : FileStore S} {system : System S} {health : HealthySystem S}.
Implicit Types (c : Cache S) (p : ProcessPrivilegeRecord) (m : gmap Z ProcessPrivilegeRecord) (s : S).

(** The process runs and began at the time. *)
Definition running s (pid startTime : Z) : bool :=
  (0 <? pid) &&
  match lines s !! pid with
  | Some line => bool_decide (start_time_of (stat_fields line) = Ok startTime)
  | None => false
  end.

Definition unwatch p : ProcessPrivilegeRecord :=
  mkProcessRecord (privilegeRecordMap_ p) (pid_ p) (uid_ p) (processStartTime_ p) false.

(** What a restart at the time [now] leaves of a process. *)
Definition recovered s (now : Z) p : option ProcessPrivilegeRecord :=
  if running s (pid_ p) (processStartTime_ p) then
    let p := unwatch (CleanCurrentExpiredPrivileges now p) in
    if bool_decide (GetPrivilegeNum p = 0%nat) then None else Some p
  else None.

Lemma steady_trans s s1 s2 : steady s s1 → steady s1 s2 → steady s s2.
Proof. intros (_&_&H1&H2) (?&?&?&?). unfold steady. split_and!; congruence. Qed.
Lemma steady_refl s : idle s → healthy s → steady s s.
Proof. done. Qed.

Lemma recovered_steady s s' now p : steady s s' → recovered s' now p = recovered s now p.
Proof. intros (_&_&_&Hl). unfold recovered, running. by rewrite Hl. Qed.

Lemma wp_steady {A} (m : M S A) (R : result A → Prop) (Q : result A → S → Prop) s0 s :
  steady s0 s → wp m (λ x s', steady s s' ∧ R x) s → (∀ x s', steady s0 s' → R x → Q x s') → wp m Q s.
Proof. intros Hs Hm HQ. eapply wp_conseq; [exact Hm|]. intros x s' [Hs' HR]. apply HQ; [by eapply steady_trans|done]. Qed.

Lemma CheckProcessAlive_healthy pid startTime s :
  idle s → healthy s → wp (CheckProcessAlive pid startTime) (λ x s', steady s s' ∧ x = Ok (running s pid startTime)) s.
Proof.
  intros Hi Hh. unfold CheckProcessAlive, running. destruct (Z.leb_spec pid 0).
  { rewrite (proj2 (Z.ltb_ge 0 pid)) by lia. by apply wp_ret. }
  rewrite (proj2 (Z.ltb_lt 0 pid)) by lia. cbn [andb]. apply wp_bind, wp_try. unfold GetProcessStartTime. fold (stat_path pid).
  apply wp_bind. eapply wp_steady; [by apply steady_refl|by apply check_healthy|]. cbv beta. intros x s1 Hs1 Hx.
  destruct (lines s !! pid) as [line|] eqn:El; [|destruct x; [done|by apply wp_ret]].
  rewrite bool_decide_eq_true_2 in Hx by done. destruct x as [[]|e]; [|done]. pose proof Hs1 as (Hi1 & Hh1 & _ & Hl1). rewrite <-Hl1 in El.
  apply wp_bind. unfold GetStatInfo. apply wp_bind. eapply wp_steady; [exact Hs1|by eapply stat_healthy|].
  cbv beta. intros x s2 Hs2 ->. apply wp_ret. destruct (start_time_of (stat_fields line)) as [t|e].
  - apply wp_ret, wp_ret. split; [done|]. f_equal. case_bool_decide as Hb; [injection Hb as ->; apply Z.eqb_refl|].
    apply Z.eqb_neq. congruence.
  - apply wp_err, wp_ret. done.
Qed.

Lemma NeedClean_records_back now p :
  storable_process p → wf_process (pid_ p) p →
  ParsePrivilegeRecordJsonArray now ((λ kv, record_doc kv.2) <$> in_order (privilegeRecordMap_ p)) ∅ =
    Some (privilegeRecordMap_ (CleanCurrentExpiredPrivileges now p)).
Proof.
  intros Hst Hwf. rewrite records_read_back.
  - f_equal. rewrite map_union_empty. cbn. rewrite <-(list_to_map_ordered_list Z.le (privilegeRecordMap_ p)) at 2.
    apply map_eq. intros i. apply option_eq. intros r. rewrite map_lookup_filter_Some.
    rewrite <-!elem_of_list_to_map by (try apply NoDup_filter_fst; apply ordered_list_NoDup).
    rewrite list_elem_of_filter. cbn. naive_solver.
  - apply Forall_forall. intros [i r] Hr%elem_of_ordered_list. cbn. split; [by apply (storable_records p Hst i)|].
    by apply (wf_index _ _ Hwf).
  - apply ordered_list_NoDup.
Qed.

Lemma FromJson_healthy now p s :
  idle s → healthy s → storable_process p → wf_process (pid_ p) p →
  wp (ProcessPrivilegeRecord_FromJson now (Some (process_doc p)))
    (λ x s', steady s s' ∧ (match x with Ok (Some p') => Some p' | _ => None end) = recovered s now p) s.
Proof.
  intros Hi Hh Hst Hwf. unfold ProcessPrivilegeRecord_FromJson, process_doc.
  rewrite (GetInt_number _ PROCESS_RECORD_PID (pid_ p)) by first [done|apply Hst].
  rewrite (GetInt_number _ PROCESS_RECORD_UID (uid_ p)) by first [done|apply Hst].
  rewrite (GetInt64_text _ PROCESS_RECORD_START_TIME (processStartTime_ p)) by first [done|apply Hst].
  apply wp_bind. eapply wp_steady; [by apply steady_refl|by apply CheckProcessAlive_healthy|]. cbv beta. intros x s1 Hs1 ->.
  pose proof Hs1 as (Hi1 & Hh1 & _ & Hl1). unfold recovered. destruct (running s (pid_ p) (processStartTime_ p)) eqn:Er; cbn [negb]; [|by apply wp_err].
  apply wp_bind. eapply wp_steady; [exact Hs1|apply pidfd_healthy; [done|done|]|].
  { unfold running in Er. rewrite Hl1. destruct (lines s !! pid_ p); [done|]. by rewrite andb_false_r in Er. }
  cbv beta. intros x s2 Hs2 ->.
  rewrite (GetArray_items _ PROCESS_RECORD_PRIVILEGE_RECORDS ((λ kv, record_doc kv.2) <$> in_order (privilegeRecordMap_ p))) by done.
  cbn [IsArray negb PrivilegeCache.array_items]. rewrite NeedClean_records_back by done.
  unfold GetPrivilegeNum, unwatch. cbn [privilegeRecordMap_]. case_bool_decide; by apply wp_ret.
Qed.

Lemma load_records_healthy now kvs c s0 :
  Forall (λ kv, storable_process kv.2 ∧ wf_process kv.1 kv.2) kvs → NoDup kvs.*1 → steady s0 (world c) →
  wp (load_records now ((λ kv, process_doc kv.2) <$> kvs))
    (λ x c', x = Ok tt ∧ steady s0 (world c') ∧
      processPrivilegeMap_ c' = omap (recovered s0 now) (list_to_map kvs) ∪ processPrivilegeMap_ c) c.
Proof.
  intros Hf. revert c. induction Hf as [|[k p] kvs [Hst Hwf] _ IH]; intros c Hnd Hs.
  { apply wp_ret. cbn [list_to_map foldr]. by rewrite omap_empty, (left_id_L ∅ (∪)). }
  cbn [fst snd] in *. pose proof (wf_pid _ _ Hwf) as <-. rewrite fmap_cons in Hnd. apply NoDup_cons in Hnd as [Hk Hnd]. cbn [fst] in Hk.
  cbn [fmap list_fmap load_records snd]. apply wp_bind, wp_try, wp_outside. pose proof Hs as (Hi & Hh & _).
  eapply wp_steady; [exact Hs|by apply FromJson_healthy|]. cbv beta. intros x s1 Hs1 Hx.
  rewrite (recovered_steady _ _ _ _ Hs) in Hx. rewrite list_to_map_cons. cbn [fst snd].
  apply (not_elem_of_list_to_map_1 (M := gmap Z)) in Hk.
  assert (Homap : omap (recovered s0 now) (list_to_map kvs) !! pid_ p = None) by by rewrite lookup_omap, Hk.
  destruct (recovered s0 now p) as [p'|] eqn:Er.
  - assert (pid_ p' = pid_ p) as Hpid.
    { revert Er. unfold recovered. destruct (running _ _ _); [|done]. case_bool_decide; [done|]. by intros [= <-]. }
    destruct x as [[p''|]|e]; [|done..]. injection Hx as ->. apply wp_bind, wp_change. cbv beta.
    eapply wp_conseq; [by apply IH|]. intros x c' (-> & Hs' & Hm). split_and!; [done|done|]. rewrite Hm. cbn [processPrivilegeMap_].
    rewrite (omap_insert_Some _ _ _ _ p') by done. by rewrite Hpid, <-insert_union_l, insert_union_r.
  - assert (Hgo : wp (load_records now ((λ kv, process_doc kv.2) <$> kvs)) (λ x c', x = Ok tt ∧ steady s0 (world c') ∧
      processPrivilegeMap_ c' = omap (recovered s0 now) (<[pid_ p := p]> (list_to_map kvs)) ∪ processPrivilegeMap_ c)
      (mkCache s1 (processPrivilegeMap_ c) (clean_tasks c))).
    { eapply wp_conseq; [by apply IH|]. intros x' c' (-> & Hs' & Hm). split_and!; [done|done|]. rewrite Hm. cbn [processPrivilegeMap_].
      rewrite (omap_insert_None _ _ _ _) by done. by rewrite delete_id. }
    destruct x as [[p''|]|e]; [done|by apply wp_bind, wp_ret..].
Qed.

Lemma Read_healthy t m s now :
  idle s → healthy s → storable_map m → is_i64 t → t < now → digest_ok (signature t (records_text m)) →
  texts s !! PRIVILEGE_CACHE_FILE_PATH = Some (file_text t m) →
  wp (ReadAndCheckPersistRecordValid now) (λ x s', steady s s' ∧ x = Ok (Some (records_text m))) s.
Proof.
  intros Hi Hh Hst Ht Hnow [Hbytes Hlen] Htext. unfold ReadAndCheckPersistRecordValid.
  apply wp_bind. eapply wp_steady; [by apply steady_refl|by apply exists_healthy; [..|apply cache_path_not_temp|]|].
  cbv beta. intros x s1 Hs1 ->. rewrite Htext, bool_decide_eq_true_2 by done. cbn [negb].
  pose proof Hs1 as (Hi1 & Hh1 & Ht1 & _). rewrite <-Ht1 in Htext.
  apply wp_bind, wp_try. eapply wp_steady; [exact Hs1|by eapply read_healthy; [..|apply cache_path_not_temp| |]|].
  cbv beta. intros x s2 Hs2 ->. unfold file_text.
  destruct (pack_create _ (file_doc_ok t _ _ (records_text_nul_free m) Hbytes)) as [-> _].
  set (l := match file_doc t (records_text m) (signature t (records_text m)) with JObject l => l | _ => [] end).
  change (file_doc t (records_text m) (signature t (records_text m))) with (JObject l). cbn [IsObject negb].
  unfold CheckUpdateTimeValid. rewrite (GetInt64_text l CACHE_MANAGER_UPDATE_TIME t) by done.
  destruct (Z.leb_spec now t); [lia|]. apply wp_bind, wp_try, wp_ret.
  rewrite (GetString_text l CACHE_MANAGER_PROCESS_RECORDS (records_text m)) by done.
  assert (GetVectorUint8FromJson (Some (JObject l)) CACHE_MANAGER_DIGEST = signature t (records_text m)) as ->.
  { unfold GetVectorUint8FromJson. rewrite IsKeyExist_object, find_item_object by done.
    change (obj_find (c_str CACHE_MANAGER_DIGEST) l) with (Some (JArray (num <$> signature t (records_text m)))).
    rewrite bool_decide_eq_true_2 by done. cbn [IsArray]. rewrite array_items_array; [by apply bytes_back|].
    rewrite length_fmap. unfold INT32_MAX. lia. }
  pose proof Hs2 as (Hi2 & Hh2 & _). unfold CheckPersistDigestValid. apply wp_bind, wp_bind, wp_try.
  eapply (wp_steady _ (λ x, x = Ok (signature t (records_text m)))); [exact Hs2| |].
  { unfold GenerateDigestFromHuks, signature. destruct HAS_HUKS_PART; [by apply digest_healthy|by apply wp_ret]. }
  cbv beta. intros x s3 Hs3 ->. rewrite bool_decide_eq_true_2 by done. cbn [negb]. by apply wp_ret, wp_ret.
Qed.

Lemma cache_is_read_back t c c' s :
  processPrivilegeMap_ c ≠ ∅ → wf_cache c → storable_map (processPrivilegeMap_ c) → idle (world c) →
  ToPersistFile t c = (Ok tt, c') → is_i64 t →
  idle s → healthy s → texts s !! PRIVILEGE_CACHE_FILE_PATH = texts (world c') !! PRIVILEGE_CACHE_FILE_PATH → t < uptime s →
  wp FromPersistFile (λ x c1, x = Ok tt ∧
    processPrivilegeMap_ c1 = omap (recovered s (uptime s)) (processPrivilegeMap_ c)) (mkCache s ∅ 0).
Proof.
  intros Hne Hwf Hst Hi Hrun Ht Hi' Hh Htext Hlt. destruct (ToPersistFile_saves _ _ _ Hne Hwf Hst Hi Hrun) as [Hsaved Hbytes].
  rewrite Hsaved in Htext. set (m := processPrivilegeMap_ c) in *. unfold FromPersistFile.
  apply wp_bind, wp_outside. cbn [world processPrivilegeMap_ clean_tasks]. eapply wp_steady; [by apply steady_refl|by apply uptime_healthy|]. cbv beta. intros x s1 Hs1 ->.
  pose proof Hs1 as (Hi1 & Hh1 & Ht1 & _). rewrite <-Ht1 in Htext.
  apply wp_bind, wp_outside. cbn [world processPrivilegeMap_ clean_tasks]. eapply wp_steady; [exact Hs1|by apply (Read_healthy t m)|]. cbv beta. intros x s2 Hs2 ->.
  destruct (pack_create _ (processes_doc_ok m Hst)) as [Hp _]. unfold records_text. rewrite Hp.
  cbn [processes_doc IsArray negb PrivilegeCache.array_items processPrivilegeMap_ clean_tasks].
  eapply wp_conseq; [apply (load_records_healthy _ _ _ s)|].
  - apply Forall_forall. intros [pid p] Hpid%elem_of_ordered_list. cbn. split; [by apply (Hst pid)|by apply Hwf].
  - apply ordered_list_NoDup.
  - exact Hs2.
  - intros x c1 (-> & _ & Hm). split; [done|]. rewrite Hm. cbn [processPrivilegeMap_].
    unfold in_order. by rewrite list_to_map_ordered_list, (right_id_L ∅ (∪)).
Qed.

(** *** The processes of the system *)

(** A process as the system knows it: the name of its program, the fields of its line from the third on, and when it
    began. *)
Record Process := mkProcess { comm : string; fields : list string; start : Z }.

(** Its line: the start time is the field it should be, and the name of the program has no
    closing parenthesis. *)
Definition shows (pid : Z) (q : Process) (line : string) : Prop :=
  0 < pid ∧ line = stat_line (to_string pid) (comm q) (fields q) ∧ char_free ")" (comm q) ∧
  Forall (field " ") (fields q) ∧ fields q !! START_TIME_INDEX = Some (to_string (start q)) ∧ 0 ≤ start q ≤ INT64_MAX.

(** The processes that run are these. *)
Definition runs (procs : gmap Z Process) s : Prop :=
  ∀ pid, option_Forall2 (shows pid) (procs !! pid) (lines s !! pid).

(** What is left of the record of a process: nothing, when the process ended; without what
    has expired, when it runs. *)
Definition survivor (procs : gmap Z Process) (now : Z) p : option ProcessPrivilegeRecord :=
  if bool_decide (start <$> procs !! pid_ p = Some (processStartTime_ p)) then
    let p := unwatch (CleanCurrentExpiredPrivileges now p) in
    if bool_decide (GetPrivilegeNum p = 0%nat) then None else Some p
  else None.

Lemma running_process procs s pid startTime :
  runs procs s → running s pid startTime = bool_decide (start <$> procs !! pid = Some startTime).
Proof.
  intros Hp. specialize (Hp pid). unfold running. destruct Hp as [q line (Hpid & -> & Hc & Hf & Ht & Hr)|].
  - rewrite (proj2 (Z.ltb_lt 0 pid)) by done. rewrite (start_time_is_read _ _ _ (start q)); try done; [|apply to_string_char_free; [lia|done]].
    cbn [andb fmap option_fmap option_map]. apply bool_decide_ext. naive_solver.
  - by rewrite andb_false_r.
Qed.

(** C30. The cache survives a restart.  What the service wrote at the time [t] is what a later start reads
    on a system on which no call fails ([healthy]): each process that still runs has the records it had, but
    those that have expired by now, with no death recipient on the process any more; a
    process that ended in between has none, also where its id is in use again by one that
    began at another time; and nothing else is in the cache.  (The names of the programs
    that run have no closing parenthesis: with one in it the service reads another field for the start time.) *)
Theorem cache_survives_restart procs t c c' s :
  processPrivilegeMap_ c ≠ ∅ → wf_cache c → storable_map (processPrivilegeMap_ c) → idle (world c) →
  ToPersistFile t c = (Ok tt, c') → is_i64 t →
  idle s → healthy s → runs procs s →
  texts s !! PRIVILEGE_CACHE_FILE_PATH = texts (world c') !! PRIVILEGE_CACHE_FILE_PATH → t < uptime s →
  wp FromPersistFile (λ x c1, x = Ok tt ∧
    processPrivilegeMap_ c1 = omap (survivor procs (uptime s)) (processPrivilegeMap_ c)) (mkCache s ∅ 0).
Proof.
  intros ? ? ? ? ? ? ? ? Hp ? ?. eapply wp_conseq; [by eapply cache_is_read_back|]. intros x c1 [-> ->]. split; [done|].
  apply map_eq. intros pid. rewrite !lookup_omap. destruct (processPrivilegeMap_ c !! pid) as [p|]; [|done].
  cbn. unfold recovered, survivor. by rewrite (running_process _ _ _ _ Hp).
Qed.
End Restart.
