(* ===== verification/PrivilegeCacheWorld.v ===== *)
(** A small system in memory on which the theorems about the privilege cache are tried:
    files that are a map, a clock that goes on by a second with every reading, two
    processes, and a kernel that says yes to everybody. *)
From Stdlib Require Import ZArith Lia Ascii String.
From stdpp Require Import base list gmap sets strings pretty sorting.
From S2P Require Import Prelude ErrorCodes Json FileStore OsAccountInfo OsAccountEnv PrivilegeUtils PrivilegeCache.
From S2P Require Import PrivilegeCacheTheorems PrivilegeCacheFile.

Module Sample.
#[export] Existing Instances TreeLib.lib TreeLib.laws TreeLib.alloc TreeLib.target.

#[export] Instance os_config : OsConfig :=
  {| ENABLE_FILE_WATCHER := true; HAS_KV_STORE_PART := false; HAS_HUKS_PART := true;
     SUPPORT_AUTHORIZATION := true; ENABLE_U1_ACCOUNT := false |}.

#[export] Instance privileges : Privileges := {|
  g_privilegeList := [mkPrivilegeBriefDef (Some "ohos.privilege.manage_accounts") 300;
                      mkPrivilegeBriefDef (Some "ohos.privilege.manage_kernel") 60];
  uninitialised := mkPrivilegeBriefDef None 0 |}.

Record State := mkState { files : gmap string string; clock : Z; yes : gset (Z * string); processes : gmap Z string }.

Definition set_files (f : gmap string string → gmap string string) (s : State) : State :=
  mkState (f (files s)) (clock s) (yes s) (processes s).

#[export] Instance store : FileStore State.
Proof.
  refine {|
    IsExistFile p := λ s, (Ok (bool_decide (is_Some (files s !! p))), s);
    IsExistDir p := λ s, (Ok true, s);
    CheckFileExistence p := λ s, ((if bool_decide (is_Some (files s !! p)) then Ok tt else Err ERR_ACCOUNT_COMMON_FILE_NOT_EXIST), s);
    GetFileContentByPath p := λ s, (match files s !! p with Some t => Ok t | None => Err ERR_ACCOUNT_COMMON_FILE_OPEN_FAILED end, s);
    IsJsonFormat p := λ s, (Ok (match files s !! p with Some t => IsStructured (CreateJsonFromString t) | None => false end), s);
    IsJsonFileReady p := λ s, (Ok (match files s !! p with Some t => IsStructured (CreateJsonFromString t) | None => false end), s);
    InputFileByPathAndContent p t := λ s, (Ok tt, set_files <[p := t]> s);
    InputFileByPathAndContentWithTransaction p t := λ s, (Ok tt, set_files <[p := t]> s);
    DeleteFile p := λ s, (Ok tt, set_files (delete p) s);
    DeleteDirOrFile p := λ s, (Ok tt, set_files (delete p) s);
    texts := files; idle _ := True |}; unfold wp; cbn.
  - intros p s _ _. split_and!; [done|done|]. eexists. split; [done|]. apply bool_decide_eq_true.
  - done.
  - intros p s _ _. split_and!; [done|done|]. by case_bool_decide.
  - intros p s _ _. split_and!; [done|done|]. intros t. destruct (files s !! p); [by intros [= ->]|done].
  - intros p s _ _. split_and!; [done|done|]. eexists. split; [done|]. destruct (files s !! p) as [t|]; [|done]. by exists t.
  - intros p s _ _. split_and!; [done|done|]. eexists. split; [done|]. destruct (files s !! p) as [t|]; [|done]. by exists t.
  - done.
  - done.
  - done.
  - intros p s _ _. split; [done|]. intros q. destruct (decide (q = p)) as [->|Hne].
    + right. split; [by left|]. by rewrite lookup_delete_eq.
    + left. by rewrite lookup_delete_ne.
Defined.

(** The text that was signed; all others share a digest. *)
Definition signed_input : string := digest_input 7000 "records".
Definition sample_digest (input : string) : list Z := repeat (if decide (input = signed_input) then 1 else 0) 32.

#[export] Instance system : System State.
Proof.
  refine {|
    GetUptimeMs := λ s, (Ok (clock s), mkState (files s) (clock s + 1000) (yes s) (processes s));
    ReadStat path := λ s, (Ok (files s !! path), s);
    OpenSmartPidFd _ := λ s, (Ok tt, s);
    AddDeathRecipient _ := λ s, (Ok true, s);
    CheckTimestampExpired _ _ := λ s, (Ok (0, false), s);
    GetAcl _ := λ s, (Ok 0, s);
    SetKernelAuthorization pid permission := λ s, (Ok tt, mkState (files s) (clock s) ({[(pid, permission)]} ∪ yes s) (processes s));
    QueryKernelAuthorization pid permission := λ s, (Ok (bool_decide ((pid, permission) ∈ yes s)), s);
    GenerateDigest input := λ s, (Ok (sample_digest input), s);
    digest_of := sample_digest; confirmed := yes |}; try done.
  - intros input s d s' [= <- <-]. split_and!; [done|by unfold sample_digest; rewrite repeat_length|].
    unfold sample_digest. apply Forall_forall. intros b Hb%list_elem_of_In%repeat_spec. subst. case_decide; lia.
  - intros pid permission s s' [= <-]. cbn. set_solver.
  - intros pid permission s s' [= Hb <-]. by apply bool_decide_eq_true in Hb.
Defined.

#[export] Instance kernel : KernelRemembers State.
Proof. split; intros; unfold remembers; intros s; cbn; try done. apply union_subseteq_r. Qed.

#[export] Instance health : HealthySystem State.
Proof.
  refine {| healthy s := ∀ pid, files s !! stat_path pid = processes s !! pid; lines := processes; uptime := clock |};
    unfold wp; cbn.
  - done.
  - done.
  - intros path text s _ Hs _ _ ->. done.
  - done.
  - intros pid s _ Hs. split; [done|]. rewrite Hs. by case_bool_decide.
  - intros pid line s _ Hs Hl. split; [done|]. by rewrite Hs, Hl.
  - done.
Defined.

(** *** Two processes *)

Definition process_line (pid : Z) : string := stat_line (to_string pid) "sample" sample_fields.
Definition start_files : gmap string string := <[stat_path 812 := process_line 812]> (<[stat_path 913 := process_line 913]> ∅).
Definition start_state : State :=
  mkState start_files 5000 ∅ (<[812 := process_line 812]> (<[913 := process_line 913]> ∅)).
Definition empty_cache : Cache State := mkCache start_state ∅ 0.

Definition caller : AuthenCallerInfo := mkCaller 812 20000000 0 true.
Definition kernel_caller : AuthenCallerInfo := mkCaller 913 20000000 1 true.

(** A privilege for some time, and one the kernel decides about. *)
Definition requests : list Request := [ReqAdd caller 17; ReqNotifyKernel kernel_caller "permission"].
Definition two_processes : Cache State := (serve_all requests empty_cache).2.
End Sample.

(** ** Witnesses *)

Section Witnesses.
Import Sample.

(** A check before the clock has reached the end: 300 seconds are left, but for the one
    that has gone by. *)
Lemma two_processes_times : times_ok (processPrivilegeMap_ two_processes).
Proof.
  assert (H : map_Forall (λ _ p, map_Forall (λ _ r, authStatus_ r = NOT_REQUIRED → 0 ≤ expiredTime_ r ≤ 1000000) (privilegeRecordMap_ p))
    (processPrivilegeMap_ two_processes)) by (apply (bool_decide_unpack _); by vm_compute).
  intros pid p i r Hp Hi Ha. pose proof (H pid p Hp i r Hi Ha). unfold time_ok. lia.
Qed.

Lemma grant_is_justified_witness :
  (CheckPrivilege caller two_processes).1 = Ok 297 ∧
  ∃ r now s1, record_at (processPrivilegeMap_ two_processes) 812 0 = Some r ∧
    GetUptimeMs (world two_processes) = (Ok now, s1) ∧ record_grants r now s1 297.
Proof.
  assert (Hr : (CheckPrivilege caller two_processes).1 = Ok 297) by by vm_compute. split; [exact Hr|].
  pose proof (grant_is_justified caller two_processes 297 (CheckPrivilege caller two_processes).2 two_processes_times (run_result _ _ _ Hr)) as H.
  cbv zeta in H. destruct H as [_ [H|[H _]]]; [exact H|discriminate H].
Defined.

Lemma empty_cache_wf : wf_cache empty_cache.
Proof. by intros pid p. Qed.

(** The privileges of the sample ask the kernel for one permission. *)
Definition sample_permission (privilegeIdx : Z) : string := "permission".

Lemma authorized_is_confirmed_witness :
  authorized (processPrivilegeMap_ two_processes) 913 1 ∧ (913, "permission"%string) ∈ confirmed (world two_processes) ∧
  (HasKernelAuthorization 913 1 "permission" two_processes).1 = Ok true ∧
  (HasKernelAuthorization 812 1 "permission" two_processes).1 = Ok false.
Proof.
  assert (Ha : authorized (processPrivilegeMap_ two_processes) 913 1).
  { exists (default (mkProcessRecord ∅ 0 0 0 false) (processPrivilegeMap_ two_processes !! 913)),
      (default (mkPrivilegeRecord 0 0 0 NOT_REQUIRED) (record_at (processPrivilegeMap_ two_processes) 913 1)).
    split_and!; by vm_compute. }
  destruct (authorized_is_confirmed sample_permission requests empty_cache) as [H _].
  - exact empty_cache_wf.
  - intros pid i (p & r & Hp & _). discriminate Hp.
  - repeat constructor.
  - split; [exact Ha|]. split; [by apply (H 913 1)|]. split; by vm_compute.
Defined.

Lemma two_processes_wf : wf_cache two_processes.
Proof.
  assert (H : preserves wf_cache (serve_all requests)) by (apply preserves_for; intros req; preserve; apply serve_wf).
  apply H. by intros pid p.
Qed.

Lemma removal_is_a_transaction_witness :
  record_at (processPrivilegeMap_ (RemoveSingle caller two_processes).2) 812 0 = None.
Proof.
  destruct (removal_is_a_transaction caller two_processes two_processes_wf) as [H _].
  assert (Hok : is_Ok (RemoveSingle caller two_processes).1 = true) by by vm_compute.
  cbv beta in H. rewrite Hok in H. exact H.
Defined.

Lemma kernel_grant_outcomes_witness :
  (913, "permission"%string) ∈ confirmed (world (AddCacheAndNotifyKernel kernel_caller "permission" empty_cache).2) ∧
  ∃ t c0, (AddCacheAndNotifyKernel kernel_caller "permission" empty_cache).2 = (ToPersistFile t c0).2 ∨
    has_status UNCONFIRMED kernel_caller (AddCacheAndNotifyKernel kernel_caller "permission" empty_cache).2.
Proof.
  pose proof (kernel_grant_outcomes kernel_caller "permission" empty_cache empty_cache_wf) as H. unfold wp in H.
  assert (Hr : (AddCacheAndNotifyKernel kernel_caller "permission" empty_cache).1 = Ok tt) by by vm_compute.
  rewrite Hr in H. destruct H as (Hk & t & c0 & _ & H). split; [exact Hk|]. exists t, c0.
  destruct (ToPersistFile t c0) as [[[]|e] c1]; [left|right]; apply H.
Defined.

(** The records were changed, or not. *)
Definition signed_file (recordStr : string) : string := PackJsonToString (Some (file_doc 7000 recordStr (repeat 1 32))).
Definition state_with (recordStr : string) : State := mkState {[ PRIVILEGE_CACHE_FILE_PATH := signed_file recordStr ]} 9000 ∅ ∅.

Lemma tampering_is_detected_witness :
  (ReadAndCheckPersistRecordValid 9000 (state_with "records")).1 = Ok (Some "records") ∧
  (ReadAndCheckPersistRecordValid 9000 (state_with "changed")).1 = Ok None ∧
  ∀ recs, (ReadAndCheckPersistRecordValid 9000 (state_with "changed")).1 = Ok (Some recs) → recs = "records".
Proof.
  split; [by vm_compute|]. split; [by vm_compute|]. intros recs Hr.
  assert (Hi : idle (state_with "changed")) by exact I.
  destruct (tampering_is_detected 9000 (state_with "changed") recs _ Hi (run_result _ _ _ Hr))
    as (text & j & t & Htext & Hj & _ & _ & _ & H & _).
  destruct (H eq_refl) as (_ & _ & H'). apply (H' 7000 "records").
  - change (Some (signed_file "changed") = Some text) in Htext. injection Htext as <-.
    assert (E : CreateJsonFromString (signed_file "changed") = Some (file_doc 7000 "changed" (repeat 1 32))) by by vm_compute.
    rewrite E in Hj. injection Hj as <-. by vm_compute.
  - intros input Hin.
    change (Some (signed_file "changed") = Some text) in Htext. injection Htext as <-.
    assert (E : CreateJsonFromString (signed_file "changed") = Some (file_doc 7000 "changed" (repeat 1 32))) by by vm_compute.
    rewrite E in Hj. injection Hj as <-.
    assert (Hd : sample_digest input = repeat 1 32) by (etransitivity; [exact Hin|by vm_compute]).
    clear Hin. unfold sample_digest in Hd.
    destruct (decide (input = signed_input)) as [->|_]; [done|discriminate Hd].
Defined.

(** The first process has ended before the restart, and its id was given to another. *)
Definition new_line : string := stat_line "812" "sample" ("S" :: repeat "0" 18 ++ ["8080"; "0"; "0"]).
Definition saved : Cache State := (ToPersistFile 6000 two_processes).2.
Definition restarted : State :=
  mkState (<[stat_path 812 := new_line]> (files (world saved))) 60000 (yes (world saved))
    (<[812 := new_line]> (processes (world saved))).

Lemma two_processes_storable : storable_map (processPrivilegeMap_ two_processes).
Proof.
  assert (H : map_Forall (λ _ p, is_i32 (pid_ p) ∧ is_i32 (uid_ p) ∧ is_i64 (processStartTime_ p) ∧
    map_Forall (λ _ r, TransferPrivilegeToCode (TransferCodeToPrivilege (privilegeIdx_ r)) = Some (privilegeIdx_ r) ∧
      is_i64 (expiredTime_ r) ∧ is_u32 (safeStartTime_ r)) (privilegeRecordMap_ p))
    (processPrivilegeMap_ two_processes)) by (apply (bool_decide_unpack _); by vm_compute).
  intros pid p Hp. destruct (H pid p Hp) as (H1 & H2 & H3 & H4). split; [exact H1|exact H2|exact H3|].
  intros i r Hr. destruct (H4 i r Hr) as (H5 & H6 & H7). by split.
Qed.

Lemma stat_path_inj pid pid' : stat_path pid = stat_path pid' → pid = pid'.
Proof.
  unfold stat_path. rewrite !string_app_cons, !string_app_nil_l. intros H. injection H as H. apply (inj (λ z : Z, pretty z)). unfold to_string in H.
  apply (f_equal (λ s, substr 0 (String.length s - 5) s)) in H. cbv beta in H.
  assert (Hs : ∀ s, substr 0 (String.length (s +:+ "/stat") - 5) (s +:+ "/stat") = s).
  { intros s. rewrite length_string_app. replace (String.length s + String.length "/stat" - 5)%nat with (String.length s) by (cbn; lia).
    apply substring_app_l. }
  by rewrite !Hs in H.
Qed.

Lemma restarted_healthy : healthy restarted.
Proof.
  assert (Hf : files (world saved) = <[PRIVILEGE_CACHE_FILE_PATH := default "" (files (world saved) !! PRIVILEGE_CACHE_FILE_PATH)]> start_files)
    by (apply (bool_decide_unpack _); by vm_compute).
  assert (Hp : processes (world saved) = processes start_state) by (apply (bool_decide_unpack _); by vm_compute).
  intros pid. change (files restarted !! stat_path pid = processes restarted !! pid). unfold restarted. cbn [files processes].
  rewrite Hf, Hp. unfold start_state. cbn [processes]. unfold start_files.
  destruct (decide (pid = 812)) as [->|H1]; [by rewrite !lookup_insert_eq|].
  rewrite (lookup_insert_ne _ (stat_path 812)) by (intros E%stat_path_inj; congruence). rewrite (lookup_insert_ne _ 812) by congruence.
  rewrite lookup_insert_ne by (unfold stat_path; discriminate).
  destruct (decide (pid = 913)) as [->|H2].
  - rewrite (lookup_insert_ne _ (stat_path 812)) by (intros E%stat_path_inj; congruence).
    rewrite (lookup_insert_ne _ 812) by congruence. by rewrite !lookup_insert_eq.
  - rewrite !lookup_insert_ne by (try (intros E%stat_path_inj); congruence). by rewrite !lookup_empty.
Qed.

(** The processes of the system after the restart. *)
Definition new_fields : list string := "S" :: repeat "0" 18 ++ ["8080"; "0"; "0"].
Definition running_now : gmap Z Process :=
  <[812 := mkProcess "sample" new_fields 8080]> {[ 913 := mkProcess "sample" sample_fields 5151 ]}.

Lemma running_now_runs : runs running_now restarted.
Proof.
  intros pid. change (lines restarted) with (processes restarted).
  assert (Hp : processes restarted = <[812 := new_line]> {[ 913 := process_line 913 ]}) by (apply (bool_decide_unpack _); by vm_compute).
  rewrite Hp. unfold running_now.
  destruct (decide (pid = 812)) as [->|H1].
  - rewrite !lookup_insert_eq. constructor. unfold shows. cbn [comm fields start].
    split_and!; [lia|by vm_compute|by vm_compute|repeat constructor; by vm_compute|by vm_compute|lia|unfold INT64_MAX; lia].
  - rewrite !(lookup_insert_ne _ 812) by done. destruct (decide (pid = 913)) as [->|H2].
    + rewrite !lookup_singleton_eq. constructor. unfold shows. cbn [comm fields start].
      split_and!; [lia|by vm_compute|by vm_compute|exact sample_fields_ok|by vm_compute|lia|unfold INT64_MAX; lia].
    + rewrite !lookup_singleton_ne by done. constructor.
Qed.

Lemma cache_survives_restart_witness :
  let c := (FromPersistFile (mkCache restarted ∅ 0)).2 in
  processPrivilegeMap_ c !! 812 = None ∧ (watched <$> processPrivilegeMap_ c !! 913) = Some false.
Proof.
  assert (Hne : processPrivilegeMap_ two_processes ≠ ∅).
  { intros E. assert (H : size (processPrivilegeMap_ two_processes) = 2%nat) by by vm_compute. rewrite E in H. discriminate H. }
  assert (Hsave : (ToPersistFile 6000 two_processes).1 = Ok tt) by by vm_compute.
  assert (Ht : is_i64 6000) by (unfold is_i64, INT64_MIN, INT64_MAX; lia).
  assert (Htext : texts restarted !! PRIVILEGE_CACHE_FILE_PATH = texts (world saved) !! PRIVILEGE_CACHE_FILE_PATH)
    by (apply lookup_insert_ne; unfold stat_path; discriminate).
  assert (Hlt : 6000 < uptime restarted) by (change (6000 < 60000); lia).
  pose proof (cache_survives_restart running_now 6000 two_processes saved restarted Hne two_processes_wf two_processes_storable I
    (run_result _ _ _ Hsave) Ht I restarted_healthy running_now_runs Htext Hlt) as [_ Hm].
  intros c. change (FromPersistFile _).2 with c in Hm. rewrite Hm. split; by vm_compute.
Defined.
End Witnesses.
