(* ===== verification/OsAccountServices.v ===== *)
(** What the manager of operating system accounts keeps and whom it calls: the state of
    inner_os_account_manager.cpp as a record, the log of what it announces, and the
    interfaces of the services around it.

    A call that may be refused is a computation on the world that fails with the code of
    the service; a question that always has an answer is a function of the world.  The
    parts of the repository the manager calls and that are not modelled with it (domain
    accounts, distributed accounts, the adapters of the trusted environment and of the
    displays) are interfaces in the same way; they change the world and not the record. *)
From Stdlib Require Import ZArith Lia Ascii String.
From stdpp Require Import base list gmap sets strings pretty sorting.
From S2P Require Import Prelude ErrorCodes OsAccountInfo OsAccountFiles OsAccountConstraints.

(** The preprocessor switches of the manager and of its interface to other services. *)
Class OsSwitches := {
  HAS_STORAGE_PART : bool;
  HAS_USER_IDM_PART : bool;
  HAS_CES_PART : bool;
  SUPPORT_DOMAIN_ACCOUNTS : bool;
  SUPPORT_SAMGR_USER_STATE : bool;
  SUPPORT_STOP_MAIN_OS_ACCOUNT : bool;
  SUPPORT_BACKUP_RESTORE : bool;
  ENABLE_MULTIPLE_OS_ACCOUNTS : bool;
  ENABLE_MULTIPLE_ACTIVE_ACCOUNTS : bool;
  ENABLE_MULTI_FOREGROUND_OS_ACCOUNTS : bool;
  ENABLE_ACCOUNT_NAME_PRIVACY_CONTROL : bool;
  ENABLE_DEFAULT_ADMIN_NAME : bool;
  ACTIVATE_LAST_LOGGED_IN_ACCOUNT : bool;
  IS_EMULATOR : bool;
}.

Definition E_IPC_ERROR : Z := 29189.
Definition E_IPC_SA_DIED : Z := 32.
Definition INVALID_DISPLAY_ID : Z := 18446744073709551615.
Definition ANY_DISPLAY_ID : Z := 18446744073709551615.
Definition MAINTENANCE_MODE_ID : Z := 10736.
Definition OS_ACCOUNT_INFO_DEFAULT_VERSION : Z := 0.
Definition OS_ACCOUNT_INFO_LATEST_VERSION : Z := 1.

(** The states subscribers are told about.

    [OS_ACCOUNT_SUBSCRIBE_TYPE], os_account_subscribe_info.h:26-40 *)
Inductive OS_ACCOUNT_SUBSCRIBE_TYPE :=
  | INVALID_TYPE | ACTIVATED | ACTIVATING | UNLOCKED | CREATED | REMOVED | STOPPING | STOPPED
  | SWITCHING | SWITCHED | CREATING | LOCKING | LOCKED.

#[export] Instance OS_ACCOUNT_SUBSCRIBE_TYPE_eq_dec : EqDecision OS_ACCOUNT_SUBSCRIBE_TYPE.
Proof. solve_decision. Defined.

(** The detached threads the manager starts. *)
Inductive Task := AccountUnlocked | AccountSwitched | CleanGarbage | DecryptionFault.

#[export] Instance Task_eq_dec : EqDecision Task.
Proof. solve_decision. Defined.

(** What the manager announces, in the order it does: a state to subscribers (to static
    subscribers), with the other account and the display of a switch; a common event of
    an account; the common event of a switch; a state of a subspace; and the start of a
    thread for an account. *)
Inductive Event :=
  | Publish (fromId : Z) (state : OS_ACCOUNT_SUBSCRIBE_TYPE) (toId : Z) (displayId : option Z)
  | StaticPublish (fromId : Z) (state : OS_ACCOUNT_SUBSCRIBE_TYPE) (toId : Z)
  | CommonEvent (action : string) (id : Z)
  | CommonSwitched (newId oldId displayId : Z)
  | SubProfileCreated (id subProfileId : Z)
  | Started (task : Task) (id : Z).

#[export] Instance Event_eq_dec : EqDecision Event.
Proof. solve_decision. Defined.

(** The common events the manager publishes. *)
Definition COMMON_EVENT_USER_ADDED : string := "usual.event.USER_ADDED".
Definition COMMON_EVENT_USER_REMOVED : string := "usual.event.USER_REMOVED".
Definition COMMON_EVENT_USER_STARTING : string := "usual.event.USER_STARTING".
Definition COMMON_EVENT_USER_STARTED : string := "usual.event.USER_STARTED".
Definition COMMON_EVENT_USER_STOPPING : string := "usual.event.USER_STOPPING".
Definition COMMON_EVENT_USER_STOPPED : string := "usual.event.USER_STOPPED".
Definition COMMON_EVENT_USER_FOREGROUND : string := "usual.event.USER_FOREGROUND".
Definition COMMON_EVENT_USER_BACKGROUND : string := "usual.event.USER_BACKGROUND".
Definition COMMON_EVENT_USER_UNLOCKED : string := "usual.event.USER_UNLOCKED".
Definition COMMON_EVENT_USER_LOCKING : string := "usual.event.USER_LOCKING".
Definition COMMON_EVENT_USER_LOCKED : string := "usual.event.USER_LOCKED".
Definition COMMON_EVENT_USER_INFO_UPDATED : string := "usual.event.USER_INFO_UPDATED".

(** ** The services *)

(** The ability manager.  [StartUser] accepted a request when it answers with the
    arguments of the call-back [OnUserCmdDone], the user and a result code; [StopUser]
    and [LogoutUser] answer with the result code of theirs. *)
Class AbilityManager (W : Type) := {
  StartUser : Z → Z → bool → M W (Z * Z);
  StopUser : Z → M W Z;
  LogoutUser : Z → M W Z;
  IsAllAppDied : Z → W → bool * W;
}.

(** The bundle manager. *)
Class BundleManager (W : Type) := {
  CreateNewUser : Z → list string → option (list string) → M W unit;
  BMS_RemoveUser : Z → M W unit;
  BMS_IsBundleInstalled : string → Z → M W bool;
  CreateNewBundleDir : Z → M W unit;
}.

(** The storage manager; [storage_check] and [storage_get] say whether it can be
    reached, by [CheckSystemAbility] and by [GetSystemAbility]. *)
Class StorageManager (W : Type) := {
  storage_check : W → bool * W;
  storage_get : W → bool * W;
  PrepareAddUser_call : Z → M W unit;
  Storage_RemoveUser : Z → M W unit;
  ActiveUserKey : Z → M W unit;
  PrepareStartUser : Z → M W unit;
  GetFileEncryptStatus : Z → M W bool;
  Storage_StopUser : Z → M W unit;
  InactiveUserKey : Z → M W unit;
  CompleteAddUser : Z → M W unit;
  NotifyUserChangedEvent : Z → OS_ACCOUNT_SUBSCRIBE_TYPE → M W unit;
}.

(** User authentication: an answer is the code of the call and, when the call-back came
    in time, its arguments. *)
Class UserIdm (W : Type) := {
  iam_service : W → bool * W;
  EraseUser : Z → W → (Z * option Z) * W;
  GetPINCredential : Z → W → (Z * option (Z * bool)) * W;
}.

(** The trusted environment, tee_auth_adapter.cpp. *)
Class TeeAdapter (W : Type) := {
  Tee_GetOsAccountType : Z → M W Z;
  Tee_SetOsAccountType : Z → Z → list Z → M W unit;
  Tee_DelOsAccountType : Z → M W unit;
  MigrateOsAccountTypesToTee : list Z → list Z → M W unit;
}.

(** Displays and their zones: the display manager, display_user_zone_config_manager. *)
Class Displays (W : Type) := {
  GetAllDisplayIds : W → list Z * W;
  IsDisplayPrimary : Z → M W bool;
  GetPrimaryDisplayId : Z → M W Z;
  GetDisplayIdsByLogicalId : Z → M W (list Z);
}.

(** The rest of the account service and of the system. *)
Class AccountParts (W : Type) := {
  (** the registry of services *)
  samgr : W → bool * W;
  OnUserStateChanged : Z → OS_ACCOUNT_SUBSCRIBE_TYPE → M W unit;
  (** inner_domain_account_manager.cpp *)
  OnAccountUnBound : DomainAccountInfo → Z → M W unit;
  RemoveTokenFromMap : Z → W → unit * W;
  NotifyDomainLogout : Z → DomainAccountInfo → W → unit * W;
  GetDomainAccountInfo : DomainAccountInfo → M W DomainAccountInfo;
  GetUnlockDeviceConfig : Z → M W bool;
  CheckAndRecoverBindDomainForUncomplete : OsAccountInfo → M W unit;
  (** ohos_account_manager.cpp and the subspaces *)
  SendLogoutEventOnDelOsAccount : Z → W → unit * W;
  SwitchOsAccountSubspace : Z → Z → M W Z;
  GetOsAccountForegroundSubProfileId : Z → M W Z;
  CreateSubProfile : Z → M W Z;
  (** account_backup_restore_manager.cpp *)
  RollbackFromBackupUnlocked : Z → M W unit;
  (** plug-ins *)
  IsCreationAllowed : W → bool * W;
  IsLockPluginAvailable : W → bool * W;
  LockOsAccountPlugin : Z → M W unit;
  (** the caller of the request, a clock in seconds, the boot parameter, the animation *)
  CheckSaCall : W → bool;
  CheckSystemApp : W → bool;
  system_clock : W → Z * W;
  SetAccountReady : M W unit;
  LaunchDeactivationAnimation : Z → Z → W → unit * W;
}.

(** ** The control interface

    A function with a result parameter fills the caller's object also when it fails, so
    it gives back both. *)
Abbreviation Out W A := (W → (result unit * A) * W) (only parsing).

(** [IOsAccountControl], ios_account_control.h: what the manager asks of the files of
    accounts. *)
Class OsAccountControl (W : Type) := {
  GetOsAccountList : M W (list OsAccountInfo);
  GetOsAccountIdList : M W (list Z);
  GetOsAccountInfoById : Z → OsAccountInfo → Out W OsAccountInfo;
  GetConstraintsByType : Z → M W (list string);
  InsertOsAccount : OsAccountInfo → M W unit;
  DelOsAccount : Z → M W unit;
  UpdateOsAccount : OsAccountInfo → M W unit;
  GetSerialNumber : Z → Out W Z;
  GetAllowCreateId : M W Z;
  SetNextLocalId : Z → M W unit;
  IsOsAccountExists : Z → M W bool;
  GetPhotoById : Z → string → M W string;
  SetPhotoById : Z → string → M W unit;
  GetIsMultiOsAccountEnable : M W bool;
  IsAllowedCreateAdmin : M W bool;
  CheckConstraints : list string → W → bool * W;
  RemoveOAConstraintsInfo : Z → M W unit;
  IsFromBaseOAConstraintsList : Z → string → M W bool;
  IsFromGlobalOAConstraintsList : Z → Z → string → M W (list ConstraintSourceTypeInfo);
  IsFromSpecificOAConstraintsList : Z → Z → string → M W (list ConstraintSourceTypeInfo);
  GetGlobalOAConstraintsList : M W (list string);
  GetSpecificOAConstraintsList : Z → M W (list string);
  UpdateBaseOAConstraints : string → list string → bool → M W unit;
  UpdateGlobalOAConstraints : string → list string → bool → M W unit;
  UpdateSpecificOAConstraints : string → string → list string → bool → M W unit;
  UpdateDeviceOwnerId : Z → M W unit;
  SetDefaultActivatedOsAccount_control : Z → Z → M W unit;
  GetAllDefaultActivatedOsAccounts_control : M W (gmap Z Z);
  WriteSubProfileContext : Z → SubProfileContext → M W unit;
  ReadSubProfileContext : Z → M W SubProfileContext;
  DeleteSubProfileContextFile : Z → M W unit;
}.

(** ** The state of the manager *)

(** [SafeMap] is a map with a lock.

    [IInnerOsAccountManager], iinner_os_account_manager.h *)
Record Manager (W : Type) := mkManager {
  world : W;
  activeAccountId_ : list Z;
  operatingId_ : list Z;
  foregroundAccountMap_ : gmap Z Z;
  loggedInAccounts_ : gmap Z bool;
  verifiedAccounts_ : gmap Z bool;
  deactivatingAccounts_ : gmap Z bool;
  lockingAccounts_ : gmap Z bool;
  defaultActivatedIds_ : gmap Z Z;
  deviceOwnerId_ : Z;
  accountTypeCache_ : gmap Z (Z * bool);
  config_ : OsAccountConfig;
  isNeedRestoreRecover_ : bool;
  events : list Event;
}.
#[global] Arguments mkManager {W}.
#[global] Arguments world {W}.
#[global] Arguments activeAccountId_ {W}.
#[global] Arguments operatingId_ {W}.
#[global] Arguments foregroundAccountMap_ {W}.
#[global] Arguments loggedInAccounts_ {W}.
#[global] Arguments verifiedAccounts_ {W}.
#[global] Arguments deactivatingAccounts_ {W}.
#[global] Arguments lockingAccounts_ {W}.
#[global] Arguments defaultActivatedIds_ {W}.
#[global] Arguments deviceOwnerId_ {W}.
#[global] Arguments accountTypeCache_ {W}.
#[global] Arguments config_ {W}.
#[global] Arguments isNeedRestoreRecover_ {W}.
#[global] Arguments events {W}.

Section Calls.
Context {W : Type}.

Definition set_world (w : W) (m : Manager W) : Manager W := {| m with world := w |}.
Definition add_event (e : Event) (m : Manager W) : Manager W := {| m with events := events m ++ [e] |}.

(** Calls a service that may refuse. *)
Definition call {A} (f : M W A) : M (Manager W) A :=
  λ m, let '(r, w) := f (world m) in (r, set_world w m).

(** Asks a service that always answers. *)
Definition ask {A} (f : W → A * W) : M (Manager W) A :=
  λ m, let '(a, w) := f (world m) in (Ok a, set_world w m).

(** Appends to the log. *)
Definition announce (e : Event) : M (Manager W) unit := mmodify (add_event e).

(** [(void)f();] and a call whose failure is only logged. *)
Definition ignore {A} (m : M (Manager W) A) : M (Manager W) unit := _ ← mtry m; mret tt.

Definition of_result {A} (r : result A) : M (Manager W) A := match r with Ok a => mret a | Err e => merr e end.

(** [while (retryTimes < n + 1)] with a body that says whether to try again. *)
Fixpoint retrying {A} (n : nat) (body : M (Manager W) (bool * A)) : M (Manager W) A :=
  '(again, r) ← body;
  match n with
  | O => mret r
  | S n => if again : bool then retrying n body else mret r
  end.
End Calls.
