(* ===== verification/OsAccountInterface.v ===== *)
(** The calls of the manager into other services, os_account_interface.cpp: how often a
    call is repeated, which failures are passed on, and what a call leaves in the account
    object.  Memory for call-back objects is available; timers, traces and reports are
    left out. *)
From Stdlib Require Import ZArith Lia Ascii String.
From stdpp Require Import base list gmap sets strings pretty sorting.
From S2P Require Import Prelude ErrorCodes Json FileStore OsAccountInfo OsAccountEnv OsAccountServices.

Definition MAX_RETRY_TIMES : nat := 10.
Definition DEAL_TIMES : nat := 100.
Definition EEXIST : Z := 17.
Definition E_ACTIVE_EL2_FAILED : Z := 30.
Definition USER_SECRET_FLAG_FILE_NAME : string := "iam_fault".

Section Interface.
Context {W : Type} {sw : OsSwitches} {cfg : Config} {cjson : CJsonLib} {fs : FileStore W}.
Context {ams : AbilityManager W} {bms : BundleManager W} {storage : StorageManager W} {idm : UserIdm W}.
Context {parts : AccountParts W}.
Local Abbreviation S := (Manager W).

(** *** Repeated calls *)

Definition ipc_failed {A} (r : result A) : bool :=
  match r with Ok _ => false | Err e => (e =? E_IPC_ERROR) || (e =? E_IPC_SA_DIED) end.

(** The loop around a call that is repeated while the service cannot be reached. *)
Definition retry_ipc {A} (f : M S A) : M S A :=
  r ← retrying (MAX_RETRY_TIMES - 1) (r ← mtry f; mret (ipc_failed r, r));
  of_result r.

(** *** The ability manager *)

(** [OsAccountUserCallback::OnUserCmdDone], os_account_user_callback.cpp *)
Definition OnUserCmdDone (startUserCallbackFunc_ : option (Z → M S unit)) (userId errcode : Z) : M S Z :=
  _ ← (if errcode =? ERR_OK then
         match startUserCallbackFunc_ with Some f => f userId | None => mret tt end
       else mret tt);
  mret errcode.

(** [InnerSendToAMSAccountStart], os_account_interface.cpp *)
Definition InnerSendToAMSAccountStart (localId displayId : Z) (isAppRecovery : bool) : M S (Z * Z) :=
  retry_ipc (call (StartUser localId displayId isAppRecovery)).

(** [OsAccountInterface::SendToAMSAccountStart], os_account_interface.cpp *)
Definition SendToAMSAccountStart (osAccountInfo : OsAccountInfo) (displayId : Z) (callbackFunc : Z → M S unit)
    (isAppRecovery : bool) : M S unit :=
  '(userId, errcode) ← InnerSendToAMSAccountStart (localId_ osAccountInfo) displayId isAppRecovery;
  resultCode_ ← OnUserCmdDone (Some callbackFunc) userId errcode;
  if negb (resultCode_ =? ERR_OK) then merr ERR_OSACCOUNT_SERVICE_INTERFACE_TO_AM_ACCOUNT_START_ERROR
  else mret tt.

(** [InnerSendToAMSAccountStop], os_account_interface.cpp *)
Definition InnerSendToAMSAccountStop (localId : Z) : M S Z := retry_ipc (call (StopUser localId)).

(** [OsAccountInterface::SendToAMSAccountStop], os_account_interface.cpp *)
Definition SendToAMSAccountStop (osAccountInfo : OsAccountInfo) : M S unit :=
  errcode ← InnerSendToAMSAccountStop (localId_ osAccountInfo);
  resultCode_ ← OnUserCmdDone None (localId_ osAccountInfo) errcode;
  if negb (resultCode_ =? ERR_OK) then merr ERR_OSACCOUNT_SERVICE_INTERFACE_TO_AM_ACCOUNT_START_ERROR
  else mret tt.

(** [InnerSendToAMSAccountDeactivate], os_account_interface.cpp *)
Definition InnerSendToAMSAccountDeactivate (localId : Z) : M S Z := retry_ipc (call (LogoutUser localId)).

(** [OsAccountInterface::SendToAMSAccountDeactivate], os_account_interface.cpp *)
Definition SendToAMSAccountDeactivate (osAccountInfo : OsAccountInfo) : M S unit :=
  errcode ← InnerSendToAMSAccountDeactivate (localId_ osAccountInfo);
  resultCode_ ← OnUserCmdDone None (localId_ osAccountInfo) errcode;
  if negb (resultCode_ =? ERR_OK) then merr resultCode_ else mret tt.

(** [OsAccountInterface::CheckAllAppDied], os_account_interface.cpp *)
Definition CheckAllAppDied (accountId : Z) : M S unit :=
  isAllDied ← retrying (DEAL_TIMES - 1) (isAllDied ← ask (IsAllAppDied accountId); mret (negb isAllDied, isAllDied));
  if isAllDied : bool then mret tt else merr ERR_ACCOUNT_COMMON_OPERATION_TIMEOUT.

(** *** The bundle manager *)

(** [OsAccountInterface::SendToBMSAccountCreate], os_account_interface.cpp *)
Definition SendToBMSAccountCreate (osAccountInfo : OsAccountInfo) (disallowedHapList : list string)
    (allowedHapList : option (list string)) : M S unit :=
  retry_ipc (call (CreateNewUser (localId_ osAccountInfo) disallowedHapList allowedHapList)).

(** [OsAccountInterface::IsBundleInstalled], os_account_interface.cpp *)
Definition IsBundleInstalled (bundleName : string) (userId : Z) : M S bool :=
  retry_ipc (call (BMS_IsBundleInstalled bundleName userId)).

(** [OsAccountInterface::SendToBMSAccountDelete], os_account_interface.cpp *)
Definition SendToBMSAccountDelete (osAccountInfo : OsAccountInfo) : M S unit :=
  call (BMS_RemoveUser (localId_ osAccountInfo)).

(** What the thread of an unlocked account does at the bundle manager.

    [OsAccountInterface::SendToBMSAccountUnlocked], os_account_interface.cpp *)
Definition SendToBMSAccountUnlocked (osAccountInfo : OsAccountInfo) : M S unit :=
  ignore (call (CreateNewBundleDir (localId_ osAccountInfo))).

(** *** User authentication *)

(** The result codes of the library: [SUCCESS] and [NOT_ENROLLED]. *)
Definition erased (code : Z) : bool := (code =? ERR_OK) || (code =? ERR_IAM_NOT_ENROLLED).

(** [OsAccountInterface::SendToIDMAccountDelete], os_account_interface.cpp *)
Definition SendToIDMAccountDelete (osAccountInfo : OsAccountInfo) : M S unit :=
  '(ret, callback) ← ask (EraseUser (localId_ osAccountInfo));
  if negb (erased ret) then merr ERR_OSACCOUNT_SERVICE_IAM_ERASE_USER_FAILED
  else
    match callback with
    | None => merr ERR_OSACCOUNT_SERVICE_IAM_ERASE_USER_FAILED
    | Some resultCode_ =>
        if negb (erased resultCode_) then merr ERR_OSACCOUNT_SERVICE_IAM_ERASE_USER_FAILED else mret tt
    end.

(** *** Common events *)

(** [OsAccountInterface::PublishCommonEvent], os_account_interface.cpp *)
Definition PublishCommonEvent (osAccountInfo : OsAccountInfo) (commonEvent : string) : M S unit :=
  if HAS_CES_PART then announce (CommonEvent commonEvent (localId_ osAccountInfo)) else mret tt.

(** [OsAccountInterface::SendToCESAccountCreate], os_account_interface.cpp *)
Definition SendToCESAccountCreate (osAccountInfo : OsAccountInfo) : M S unit :=
  PublishCommonEvent osAccountInfo COMMON_EVENT_USER_ADDED.

(** [OsAccountInterface::SendToCESAccountDelete], os_account_interface.cpp *)
Definition SendToCESAccountDelete (osAccountInfo : OsAccountInfo) : M S unit :=
  PublishCommonEvent osAccountInfo COMMON_EVENT_USER_REMOVED.

(** [OsAccountInterface::SendToCESAccountSwitched], os_account_interface.cpp *)
Definition SendToCESAccountSwitched (newId oldId displayId : Z) : M S unit :=
  if HAS_CES_PART then announce (CommonSwitched newId oldId displayId) else mret tt.

(** *** Storage *)

(** [PrepareAddUser], os_account_interface.cpp *)
Definition PrepareAddUser (userId : Z) : M S unit :=
  err ← mtry (call (PrepareAddUser_call userId));
  match err with
  | Ok _ => mret tt
  | Err err => if err =? - EEXIST then mret tt else merr err
  end.

(** [GetStorageProxy], os_account_interface.cpp *)
Definition GetStorageProxy : M S unit :=
  remote ← ask storage_check;
  if negb remote then merr ERR_ACCOUNT_COMMON_GET_SYSTEM_ABILITY_MANAGER else mret tt.

(** [GetSystemAbility] instead of [CheckSystemAbility]. *)
Definition storage_loaded : M S unit :=
  remote ← ask storage_get;
  if negb remote then merr ERR_ACCOUNT_COMMON_GET_SYSTEM_ABILITY_MANAGER else mret tt.

(** When there is no room the manager is asked to clean up, once.

    [OsAccountInterface::InnerSendToStorageAccountCreate], os_account_interface.cpp *)
Definition InnerSendToStorageAccountCreate (CleanGarbageOsAccounts : Z → M S Z) (osAccountInfo : OsAccountInfo) : M S unit :=
  if HAS_STORAGE_PART then
    let localId := localId_ osAccountInfo in
    _ ← GetStorageProxy;
    err ← mtry (PrepareAddUser localId);
    match err with
    | Ok _ => mret tt
    | Err err =>
        removed ← CleanGarbageOsAccounts localId;
        if removed <=? 0 then merr err else PrepareAddUser localId
    end
  else mret tt.

(** [OsAccountInterface::SendToStorageAccountCreate], os_account_interface.cpp *)
Definition SendToStorageAccountCreate (CleanGarbageOsAccounts : Z → M S Z) (osAccountInfo : OsAccountInfo) : M S unit :=
  retry_ipc (InnerSendToStorageAccountCreate CleanGarbageOsAccounts osAccountInfo).

(** [OsAccountInterface::SendToStorageAccountRemove], os_account_interface.cpp *)
Definition SendToStorageAccountRemove (osAccountInfo : OsAccountInfo) : M S unit :=
  if HAS_STORAGE_PART then
    _ ← storage_loaded;
    call (Storage_RemoveUser (localId_ osAccountInfo))
  else mret tt.

(** [OsAccountInterface::InnerSendToStorageAccountCreateComplete], os_account_interface.cpp *)
Definition InnerSendToStorageAccountCreateComplete (localId : Z) : M S unit :=
  if HAS_STORAGE_PART then
    _ ← GetStorageProxy;
    call (CompleteAddUser localId)
  else mret tt.

(** Repeated on every failure.

    [OsAccountInterface::SendToStorageAccountCreateComplete], os_account_interface.cpp *)
Definition SendToStorageAccountCreateComplete (localId : Z) : M S unit :=
  r ← retrying (MAX_RETRY_TIMES - 1)
        (r ← mtry (InnerSendToStorageAccountCreateComplete localId); mret (negb (is_Ok r), r));
  of_result r.

(** *** Unlocking the storage *)

(** The mark that the credentials of an account are in doubt. *)
Definition secret_flag (userId : Z) : string := account_file (to_string userId) USER_SECRET_FLAG_FILE_NAME.

(** [IsSecretFlagExist], os_account_interface.cpp *)
Definition IsSecretFlagExist (userId : Z) : M S bool := call (IsExistFile (secret_flag userId)).

(** [DeleteSecretFlag], os_account_interface.cpp *)
Definition DeleteSecretFlag (userId : Z) : M S unit := ignore (call (DeleteDirOrFile (secret_flag userId))).

(** [None] for the service is waited for before the question, and the question is asked
    whether it came or not.

    [GetPINCredentialInfo], os_account_interface.cpp *)
Definition GetPINCredentialInfo (userId : Z) : M S (result unit * bool) :=
  _ ← retrying (MAX_RETRY_TIMES - 1) (there ← ask iam_service; mret (negb there, tt));
  '(ret, callback) ← ask (GetPINCredential userId);
  if negb (ret =? ERR_OK) then mret (Err ret, false)
  else
    match callback with
    | None => mret (Err ERR_ACCOUNT_COMMON_OPERATION_TIMEOUT, false)
    | Some (result_, hasPIN_) =>
        let isPINExist := if erased result_ then hasPIN_ else false in
        mret (if result_ =? ERR_OK then Ok tt else Err result_, isPINExist)
    end.

(** [IsExistPIN], os_account_interface.cpp *)
Definition IsExistPIN (userId : Z) : M S bool :=
  '(ret, isExist) ← GetPINCredentialInfo userId;
  match ret with
  | Err ret => if ret =? ERR_IAM_NOT_ENROLLED then mret false else merr ret
  | Ok _ => mret isExist
  end.

(** [IsDomainUnlockEnabled], os_account_interface.cpp *)
Definition IsDomainUnlockEnabled (userId : Z) : M S bool :=
  if SUPPORT_DOMAIN_ACCOUNTS then call (GetUnlockDeviceConfig userId) else mret false.

(** Whether to skip, and the code that is then returned.

    [NeedSkipActiveUserKey], os_account_interface.cpp *)
Definition NeedSkipActiveUserKey (localId : Z) : M S (bool * result unit) :=
  flag ← IsSecretFlagExist localId;
  if negb flag then mret (false, Ok tt)
  else
    proxy ← mtry GetStorageProxy;
    match proxy with
    | Err _ => mret (false, Err ERR_ACCOUNT_COMMON_GET_SYSTEM_ABILITY_MANAGER)
    | Ok _ =>
        encrypted ← mtry (call (GetFileEncryptStatus localId));
        match encrypted with
        | Err errCode => mret (false, Err errCode)
        | Ok isFileEncrypt =>
            if negb isFileEncrypt then mret (true, Ok tt)
            else
              pin ← mtry (IsExistPIN localId);
              domain ← mtry (IsDomainUnlockEnabled localId);
              match pin, domain with
              | Err errCode, _ => mret (false, Err errCode)
              | _, Err domainErrCode => mret (false, Err domainErrCode)
              | Ok isExistPIN, Ok isDomainUnlockEnabled =>
                  if negb isExistPIN && negb isDomainUnlockEnabled then
                    _ ← DeleteSecretFlag localId; mret (false, Ok tt)
                  else mret (true, Err ERR_ACCOUNT_COMMON_SECRET_CHECK)
              end
        end
    end.

(** One round of the loop: whether to go round again, and the code.  Of the failures of
    [ActiveUserKey] only [E_ACTIVE_EL2_FAILED] counts. *)
Definition unlock_round (localId : Z) (startUser : bool) : M S (bool * result unit) :=
  proxy ← mtry GetStorageProxy;
  match proxy with
  | Err _ => mret (true, Err ERR_ACCOUNT_COMMON_GET_SYSTEM_ABILITY_MANAGER)
  | Ok _ =>
      '(isNeedSkip, errCode) ← (if HAS_USER_IDM_PART then NeedSkipActiveUserKey localId else mret (false, Ok tt));
      if isNeedSkip : bool then mret (false, errCode)
      else
        errCode ← mtry (call (ActiveUserKey localId));
        errCode ←
          (if negb (bool_decide (errCode = Err E_ACTIVE_EL2_FAILED)) then
             if startUser then mtry (call (PrepareStartUser localId)) else mret (Ok tt)
           else
             _ ← (if HAS_USER_IDM_PART then announce (Started DecryptionFault localId) else mret tt);
             mret errCode);
        mret (ipc_failed errCode, errCode)
  end.

(** [OsAccountInterface::UnlockUser], os_account_interface.cpp *)
Definition UnlockUser (localId : Z) (startUser : bool) : M S unit :=
  r ← retrying (MAX_RETRY_TIMES - 1) (unlock_round localId startUser);
  of_result r.

(** An account without a credential is logged in once its storage is open.

    [OsAccountInterface::SendToStorageAccountStart], os_account_interface.cpp *)
Definition SendToStorageAccountStart (osAccountInfo : OsAccountInfo) : M S OsAccountInfo :=
  isUserUnlocked ←
    (if HAS_STORAGE_PART then
       err ← mtry (UnlockUser (localId_ osAccountInfo) (negb (isVerified_ osAccountInfo)));
       match err with
       | Ok _ => mret true
       | Err err =>
           if err =? ERR_ACCOUNT_COMMON_GET_SYSTEM_ABILITY_MANAGER then merr err else mret false
       end
     else mret true);
  if negb (isVerified_ osAccountInfo) && isUserUnlocked then
    let osAccountInfo := {| osAccountInfo with isVerified_ := true |} in
    let hasCredential := 0 <? credentialId_ osAccountInfo in
    if negb hasCredential then
      now ← ask system_clock;
      mret {| osAccountInfo with isLoggedIn_ := true; lastLoginTime_ := now |}
    else mret osAccountInfo
  else mret osAccountInfo.

(** The object is changed also when the call fails, once the storage can be reached.

    [OsAccountInterface::SendToStorageAccountStop], os_account_interface.cpp *)
Definition SendToStorageAccountStop (osAccountInfo : OsAccountInfo) : M S (result unit * OsAccountInfo) :=
  let stopped := {| osAccountInfo with isVerified_ := false |} in
  if HAS_STORAGE_PART then
    remote ← mtry storage_loaded;
    match remote with
    | Err e => mret (Err e, osAccountInfo)
    | Ok _ =>
        err ← mtry (call (Storage_StopUser (localId_ osAccountInfo)));
        match err with
        | Err _ => mret (Err ERR_OSACCOUNT_SERVICE_STORAGE_STOP_USER_FAILED, stopped)
        | Ok _ =>
            err ← mtry (call (InactiveUserKey (localId_ osAccountInfo)));
            match err with
            | Err _ => mret (Err ERR_OSACCOUNT_SERVICE_STORAGE_STOP_USER_FAILED, stopped)
            | Ok _ => mret (Ok tt, stopped)
            end
        end
    end
  else mret (Ok tt, stopped).

(** The storage manager is told that an account was unlocked or switched to.

    [OsAccountInterface::SendToStorageAccountUnlocked], os_account_interface.cpp *)
Definition SendToStorageAccountUnlocked (osAccountInfo : OsAccountInfo) : M S unit :=
  if HAS_STORAGE_PART then
    remote ← mtry GetStorageProxy;
    match remote with
    | Err _ => mret tt
    | Ok _ => ignore (call (NotifyUserChangedEvent (localId_ osAccountInfo) UNLOCKED))
    end
  else mret tt.

(** [OsAccountInterface::SendToStorageAccountSwitched], os_account_interface.cpp *)
Definition SendToStorageAccountSwitched (osAccountInfo : OsAccountInfo) : M S unit :=
  if HAS_STORAGE_PART then
    remote ← mtry GetStorageProxy;
    match remote with
    | Err _ => mret tt
    | Ok _ => ignore (call (NotifyUserChangedEvent (localId_ osAccountInfo) SWITCHED))
    end
  else mret tt.

(** *** The registry of services *)

(** [InnerSendToSamgrUserState], os_account_interface.cpp *)
Definition InnerSendToSamgrUserState (localId : Z) (userState : OS_ACCOUNT_SUBSCRIBE_TYPE) : M S unit :=
  there ← ask samgr;
  if negb there then merr ERR_ACCOUNT_COMMON_GET_SYSTEM_ABILITY_MANAGER
  else
    r ← mtry (retry_ipc (call (OnUserStateChanged localId userState)));
    match r with Ok _ => mret tt | Err _ => merr ERR_OSACCOUNT_SERVICE_SAMGR_USER_STATE_FAILED end.

(** [OsAccountInterface::SendToSamgrUserState], os_account_interface.cpp *)
Definition SendToSamgrUserState (localId : Z) (state : OS_ACCOUNT_SUBSCRIBE_TYPE) : M S unit :=
  if SUPPORT_SAMGR_USER_STATE then
    match state with
    | ACTIVATING | SWITCHING | STOPPING => InnerSendToSamgrUserState localId state
    | _ => merr ERR_ACCOUNT_COMMON_INVALID_PARAMETER
    end
  else mret tt.
End Interface.
