(* ===== verification/OsAccountManager.v ===== *)
(** The manager of operating system accounts, inner_os_account_manager.cpp: what is
    active, in the foreground, verified and logged in; activation, switching,
    deactivation, removal and the collection of garbage.

    An operation on an account is marked in [operatingId_] while it runs.  Locks and
    waiting are left out.  [mtry] hands an error on as a value where the code looks at a
    return code and goes on; an account object that a callee changes is given back. *)
From Stdlib Require Import ZArith Lia Ascii String.
From stdpp Require Import base list gmap sets strings pretty sorting.
From S2P Require Import Prelude ErrorCodes Json FileStore OsAccountInfo OsAccountEnv OsAccountFiles OsAccountConstraints OsAccountServices OsAccountInterface.

Definition CONSTRAINT_ADMIN_AUTHORIZE : string := "constraint.os.account.admin.authorize".
Definition TOKEN_NATIVE : Z := 1.
Definition LOGOUT : Z := 0.

(** [std::find] and [erase] of the element found. *)
Fixpoint erase_first (x : Z) (l : list Z) : list Z :=
  match l with
  | [] => []
  | y :: l' => if y =? x then l' else y :: erase_first x l'
  end.

(** [erase(std::remove(...))]. *)
Definition erase_all (x : Z) (l : list Z) : list Z := filter (λ y, y ≠ x) l.

(** The display of a map from displays to accounts that an iteration over it leaves: the
    last one that shows the account. *)
Definition display_of (localId : Z) (accounts : gmap Z Z) : Z :=
  foldl (λ displayId '(dispId, userId), if userId =? localId then dispId else displayId)
    INVALID_DISPLAY_ID (ordered_list Z.le accounts).

Section Operations.
Context {W : Type} {sw : OsSwitches} {cfg : Config} {oscfg : OsConfig} {sysconf : Sysconf}.
Context {cjson : CJsonLib} {fs : FileStore W}.
Context {ams : AbilityManager W} {bms : BundleManager W} {storage : StorageManager W} {idm : UserIdm W}.
Context {tee : TeeAdapter W} {displays : Displays W} {parts : AccountParts W} {control : OsAccountControl W}.
Local Abbreviation S := (Manager W).

(** *** The lists of accounts *)

(** [IInnerOsAccountManager::RemoveLocalIdToOperating], inner_os_account_manager.cpp *)
Definition RemoveLocalIdToOperating (localId : Z) : M S unit :=
  mmodify (λ m, {| m with operatingId_ := erase_first localId (operatingId_ m) |}).

(** [IInnerOsAccountManager::CheckAndAddLocalIdOperating], inner_os_account_manager.cpp *)
Definition CheckAndAddLocalIdOperating (localId : Z) : M S bool :=
  m ← mget;
  if bool_decide (localId ∈ operatingId_ m) then mret false
  else _ ← mput {| m with operatingId_ := operatingId_ m ++ [localId] |}; mret true.

(** [IInnerOsAccountManager::PushIdIntoActiveList], inner_os_account_manager.cpp *)
Definition PushIdIntoActiveList (id : Z) : M S unit :=
  mmodify (λ m, {| m with activeAccountId_ :=
    id :: (if ENABLE_MULTIPLE_ACTIVE_ACCOUNTS then erase_all id (activeAccountId_ m) else []) |}).

(** [IInnerOsAccountManager::EraseIdFromActiveList], inner_os_account_manager.cpp *)
Definition EraseIdFromActiveList (id : Z) : M S unit :=
  mmodify (λ m, {| m with activeAccountId_ := erase_all id (activeAccountId_ m) |}).

(** [IInnerOsAccountManager::IsOsAccountIDInActiveList], inner_os_account_manager.cpp *)
Definition IsOsAccountIDInActiveList (id : Z) : M S bool :=
  m ← mget; mret (bool_decide (id ∈ activeAccountId_ m)).

(** [IInnerOsAccountManager::CopyFromActiveList], inner_os_account_manager.cpp *)
Definition CopyFromActiveList : M S (list Z) := m ← mget; mret (activeAccountId_ m).

(** The maps of marks. *)
Definition set_verified (f : gmap Z bool → gmap Z bool) : M S unit :=
  mmodify (λ m, {| m with verifiedAccounts_ := f (verifiedAccounts_ m) |}).
Definition set_loggedIn (f : gmap Z bool → gmap Z bool) : M S unit :=
  mmodify (λ m, {| m with loggedInAccounts_ := f (loggedInAccounts_ m) |}).
Definition set_deactivating (f : gmap Z bool → gmap Z bool) : M S unit :=
  mmodify (λ m, {| m with deactivatingAccounts_ := f (deactivatingAccounts_ m) |}).
Definition set_foreground (f : gmap Z Z → gmap Z Z) : M S unit :=
  mmodify (λ m, {| m with foregroundAccountMap_ := f (foregroundAccountMap_ m) |}).
Definition set_default (displayId id : Z) : M S unit :=
  mmodify (λ m, {| m with defaultActivatedIds_ := <[displayId := id]> (defaultActivatedIds_ m) |}).
Definition set_owner (id : Z) : M S unit := mmodify (λ m, {| m with deviceOwnerId_ := id |}).

(** A state of one account, to its subscribers. *)
Definition publish (id : Z) (state : OS_ACCOUNT_SUBSCRIBE_TYPE) : M S unit := announce (Publish id state (-1) None).
Definition publish_switch (fromId : Z) (state : OS_ACCOUNT_SUBSCRIBE_TYPE) (toId displayId : Z) : M S unit :=
  announce (Publish fromId state toId (Some displayId)).

(** *** Types of accounts, os_account_cache_manager.cpp *)

(** [OsAccountCacheManager::GetAccountTypeFromCache], os_account_cache_manager.cpp *)
Definition GetAccountTypeFromCache (id : Z) : M S (option (Z * bool)) := m ← mget; mret (accountTypeCache_ m !! id).

(** [OsAccountCacheManager::SetAccountTypeInCache], os_account_cache_manager.cpp *)
Definition SetAccountTypeInCache (id : Z) (typeAndRestricted : Z * bool) : M S unit :=
  mmodify (λ m, {| m with accountTypeCache_ := <[id := typeAndRestricted]> (accountTypeCache_ m) |}).

(** [OsAccountCacheManager::SetAccountTypesInCache], os_account_cache_manager.cpp *)
Definition SetAccountTypesInCache (typeMap : gmap Z (Z * bool)) : M S unit :=
  mmodify (λ m, {| m with accountTypeCache_ := typeMap ∪ accountTypeCache_ m |}).

(** [OsAccountCacheManager::ClearAccountCache], os_account_cache_manager.cpp *)
Definition ClearAccountCache (id : Z) : M S unit :=
  mmodify (λ m, {| m with accountTypeCache_ := delete id (accountTypeCache_ m) |}).

(** [IInnerOsAccountManager::RefreshAccountTypeInCache], inner_os_account_manager.cpp *)
Definition RefreshAccountTypeInCache (id localType : Z) : M S (Z * bool) :=
  cachedType ← GetAccountTypeFromCache id;
  match cachedType with
  | Some outType => mret outType
  | None =>
      typeTee ← mtry (call (Tee_GetOsAccountType id));
      match typeTee with
      | Ok typeTee => _ ← SetAccountTypeInCache id (typeTee, false); mret (typeTee, false)
      | Err errCode =>
          if errCode =? ERR_ACCOUNT_COMMON_TEE_ACCOUNT_NOT_EXIST then
            _ ← SetAccountTypeInCache id (localType, true); mret (localType, true)
          else merr errCode
      end
  end.

(** *** The account with what the manager knows of it *)

(** The type the trusted environment or the cache has, and the constraint of an
    administrator it does not know. *)
Definition real_type (id : Z) (osAccountInfo : OsAccountInfo) : M S OsAccountInfo :=
  cachedType ← GetAccountTypeFromCache id;
  refreshedCachedType ←
    (match cachedType with
     | Some cached => mret cached
     | None =>
         r ← mtry (RefreshAccountTypeInCache id (type_ osAccountInfo));
         mret (match r with Ok refreshed => refreshed | Err _ => (type_ osAccountInfo, false) end)
     end);
  let osAccountInfo :=
    if (START_USER_ID <=? id) && (refreshedCachedType.1 =? ADMIN) && refreshedCachedType.2
       && negb (bool_decide (CONSTRAINT_ADMIN_AUTHORIZE ∈ constraints_ osAccountInfo))
    then {| osAccountInfo with constraints_ := constraints_ osAccountInfo ++ [CONSTRAINT_ADMIN_AUTHORIZE] |}
    else osAccountInfo in
  mret {| osAccountInfo with type_ := refreshedCachedType.1 |}.

(** The marks of the manager instead of those in the file. *)
Definition with_marks (id : Z) (m : Manager W) (osAccountInfo : OsAccountInfo) : OsAccountInfo :=
  let isActivated := bool_decide (id ∈ activeAccountId_ m) in
  let displayId := if isActivated then display_of id (foregroundAccountMap_ m) else INVALID_DISPLAY_ID in
  {| osAccountInfo with
     isVerified_ := default false (verifiedAccounts_ m !! id);
     isLoggedIn_ := default false (loggedInAccounts_ m !! id);
     isActivated_ := isActivated;
     displayId_ := displayId;
     isForeground_ := negb (displayId =? INVALID_DISPLAY_ID) |}.

(** [IInnerOsAccountManager::GetRealOsAccountInfoById], inner_os_account_manager.cpp *)
Definition GetRealOsAccountInfoById (id : Z) (osAccountInfo : OsAccountInfo) : M S (result unit * OsAccountInfo) :=
  '(errCode, osAccountInfo) ← ask (GetOsAccountInfoById id osAccountInfo);
  match errCode with
  | Err _ => mret (errCode, osAccountInfo)
  | Ok _ =>
      osAccountInfo ← (if SUPPORT_AUTHORIZATION && negb IS_EMULATOR then real_type id osAccountInfo else mret osAccountInfo);
      m ← mget;
      mret (errCode, with_marks id m osAccountInfo)
  end.

(** The account, or the error [e] for every failure: the common way to use it. *)
Definition real_account (id e : Z) : M S OsAccountInfo :=
  '(errCode, osAccountInfo) ← GetRealOsAccountInfoById id OsAccountInfo_new;
  match errCode with Err _ => merr e | Ok _ => mret osAccountInfo end.

(** [IInnerOsAccountManager::IsValidOsAccount], inner_os_account_manager.cpp *)
Definition IsValidOsAccount (osAccountInfo : OsAccountInfo) : result unit :=
  if negb (isCreateCompleted_ osAccountInfo) then Err ERR_OSACCOUNT_SERVICE_INNER_ACCOUNT_IS_UNCOMPLETED_ERROR
  else if toBeRemoved_ osAccountInfo then Err ERR_OSACCOUNT_SERVICE_INNER_ACCOUNT_TO_BE_REMOVED_ERROR
  else Ok tt.

(** *** Deactivation *)

(** [IInnerOsAccountManager::CleanForegroundAccountMap], inner_os_account_manager.cpp *)
Definition CleanForegroundAccountMap (osAccountInfo : OsAccountInfo) : M S unit :=
  if negb (isForeground_ osAccountInfo) then mret tt
  else
    set_foreground (λ foregroundAccountMap_,
      if bool_decide (foregroundAccountMap_ !! displayId_ osAccountInfo = Some (localId_ osAccountInfo))
      then delete (displayId_ osAccountInfo) foregroundAccountMap_ else foregroundAccountMap_).

(** [IInnerOsAccountManager::DeactivateOsAccountByInfo], inner_os_account_manager.cpp *)
Definition DeactivateOsAccountByInfo (osAccountInfo : OsAccountInfo) : M S OsAccountInfo :=
  let localId := localId_ osAccountInfo in
  _ ← set_loggedIn (delete localId);
  _ ← set_verified (delete localId);
  _ ← CleanForegroundAccountMap osAccountInfo;
  _ ← EraseIdFromActiveList localId;
  let osAccountInfo := (SetDomainInfo {| (domainInfo_ osAccountInfo) with status_ := LOGOUT |} osAccountInfo).2 in
  errCode ← mtry (call (UpdateOsAccount osAccountInfo));
  match errCode with
  | Err errCode =>
      if errCode =? ERR_ACCOUNT_COMMON_DATA_NO_SPACE then mret osAccountInfo
      else merr ERR_OSACCOUNT_SERVICE_INNER_UPDATE_ACCOUNT_ERROR
  | Ok _ => mret osAccountInfo
  end.

(** [IInnerOsAccountManager::DeactivateOsAccountById], inner_os_account_manager.cpp *)
Definition DeactivateOsAccountById (id : Z) : M S unit :=
  osAccountInfo ← real_account id ERR_ACCOUNT_COMMON_ACCOUNT_NOT_EXIST_ERROR;
  _ ← DeactivateOsAccountByInfo osAccountInfo;
  mret tt.

(** [IInnerOsAccountManager::SendMsgForAccountStop], inner_os_account_manager.cpp *)
Definition SendMsgForAccountStop (osAccountInfo : OsAccountInfo) : M S OsAccountInfo :=
  _ ← SendToAMSAccountStop osAccountInfo;
  _ ← CheckAllAppDied (localId_ osAccountInfo);
  '(errCode, osAccountInfo) ← SendToStorageAccountStop osAccountInfo;
  match errCode with
  | Err errCode =>
      if errCode =? ERR_OSACCOUNT_SERVICE_STORAGE_STOP_USER_FAILED then DeactivateOsAccountByInfo osAccountInfo
      else merr ERR_ACCOUNT_COMMON_GET_SYSTEM_ABILITY_MANAGER
  | Ok _ => DeactivateOsAccountByInfo osAccountInfo
  end.

(** [IInnerOsAccountManager::SendMsgForAccountDeactivate], inner_os_account_manager.cpp *)
Definition SendMsgForAccountDeactivate (osAccountInfo : OsAccountInfo) (isStopStorage : bool) : M S OsAccountInfo :=
  let localId := localId_ osAccountInfo in
  _ ← CleanForegroundAccountMap osAccountInfo;
  _ ← ignore (SendToSamgrUserState localId STOPPING);
  _ ← SendToAMSAccountDeactivate osAccountInfo;
  _ ← publish localId STOPPING;
  if isStopStorage then
    '(errCode, osAccountInfo) ← SendToStorageAccountStop osAccountInfo;
    match errCode with
    | Err errCode =>
        _ ← set_loggedIn (delete localId);
        _ ← set_verified (delete localId);
        _ ← EraseIdFromActiveList localId;
        merr errCode
    | Ok _ => DeactivateOsAccountByInfo osAccountInfo
    end
  else DeactivateOsAccountByInfo osAccountInfo.

(** [RemoveLocalIdToOperating(id); return errCode;] *)
Definition unmark_return {A} (id : Z) (r : result A) : M S A :=
  _ ← RemoveLocalIdToOperating id;
  of_result r.

(** [IInnerOsAccountManager::DeactivateOsAccount], inner_os_account_manager.cpp *)
Definition DeactivateOsAccount (id : Z) (isStopStorage : bool) : M S unit :=
  added ← CheckAndAddLocalIdOperating id;
  if negb added then merr ERR_OSACCOUNT_SERVICE_INNER_ACCOUNT_OPERATING_ERROR
  else
    '(errCode, osAccountInfo) ← GetRealOsAccountInfoById id OsAccountInfo_new;
    match errCode with
    | Err _ => unmark_return id (Err ERR_ACCOUNT_COMMON_ACCOUNT_NOT_EXIST_ERROR)
    | Ok _ =>
        if negb (isActivated_ osAccountInfo) && negb (isVerified_ osAccountInfo) then unmark_return id (Ok tt)
        else
          match IsValidOsAccount osAccountInfo with
          | Err errCode => unmark_return id (Err errCode)
          | Ok _ =>
              _ ← set_deactivating <[id := true]>;
              _ ← PublishCommonEvent osAccountInfo COMMON_EVENT_USER_STOPPING;
              _ ← (if isForeground_ osAccountInfo
                   then ask (LaunchDeactivationAnimation (localId_ osAccountInfo) (displayId_ osAccountInfo)) else mret tt);
              errCode ← mtry (SendMsgForAccountDeactivate osAccountInfo isStopStorage);
              _ ← set_deactivating (delete id);
              match errCode with
              | Err errCode => unmark_return id (Err errCode)
              | Ok osAccountInfo =>
                  _ ← PublishCommonEvent osAccountInfo COMMON_EVENT_USER_STOPPED;
                  _ ← publish id STOPPED;
                  unmark_return id (Ok tt)
              end
          end
    end.

(** *** Activation *)

(** The thread of an account whose storage was opened, and what it does.

    [IInnerOsAccountManager::SendMsgForAccountUnlocked], inner_os_account_manager.cpp *)
Definition SendMsgForAccountUnlocked (osAccountInfo : OsAccountInfo) : M S unit :=
  announce (Started AccountUnlocked (localId_ osAccountInfo)).
Definition unlocked_task (osAccountInfo : OsAccountInfo) : M S unit :=
  _ ← SendToBMSAccountUnlocked osAccountInfo;
  SendToStorageAccountUnlocked osAccountInfo.

(** [IInnerOsAccountManager::SendMsgForAccountSwitched], inner_os_account_manager.cpp *)
Definition SendMsgForAccountSwitched (osAccountInfo : OsAccountInfo) : M S unit :=
  announce (Started AccountSwitched (localId_ osAccountInfo)).
Definition switched_task (osAccountInfo : OsAccountInfo) : M S unit := SendToStorageAccountSwitched osAccountInfo.

(** [IInnerOsAccountManager::SendToStorageAccountStart], inner_os_account_manager.cpp *)
Definition SendToStorageAccountStart (osAccountInfo : OsAccountInfo) : M S OsAccountInfo :=
  let preVerified := isVerified_ osAccountInfo in
  let localId := localId_ osAccountInfo in
  err ← mtry (OsAccountInterface.SendToStorageAccountStart osAccountInfo);
  match err with
  | Err _ => merr ERR_ACCOUNT_COMMON_GET_SYSTEM_ABILITY_MANAGER
  | Ok osAccountInfo =>
      _ ← (if isVerified_ osAccountInfo then set_verified <[localId := true]> else mret tt);
      _ ← (if isLoggedIn_ osAccountInfo then set_loggedIn <[localId := true]> else mret tt);
      if negb preVerified && isVerified_ osAccountInfo then
        _ ← SendMsgForAccountUnlocked osAccountInfo;
        _ ← PublishCommonEvent osAccountInfo COMMON_EVENT_USER_UNLOCKED;
        _ ← publish localId UNLOCKED;
        if negb (isCreateCompleted_ osAccountInfo) then mret osAccountInfo
        else _ ← ignore (call (UpdateOsAccount osAccountInfo)); mret osAccountInfo
      else mret osAccountInfo
  end.

(** What the ability manager runs when a user was started on a display. *)
Definition on_started (displayId localId : Z) : M S unit :=
  _ ← (if ENABLE_MULTI_FOREGROUND_OS_ACCOUNTS && negb (displayId =? DEFAULT_DISPLAY_ID)
       then mmodify (λ m, {| m with activeAccountId_ := activeAccountId_ m ++ [localId] |})
       else PushIdIntoActiveList localId);
  if negb (displayId =? INVALID_DISPLAY_ID) then set_foreground <[displayId := localId]> else mret tt.

(** [IInnerOsAccountManager::SendToAMSAndSamgrAccountStart], inner_os_account_manager.cpp *)
Definition SendToAMSAndSamgrAccountStart (osAccountInfo : OsAccountInfo) (displayId : Z) (isAppRecovery : bool) : M S unit :=
  _ ← SendToAMSAccountStart osAccountInfo displayId (on_started displayId) isAppRecovery;
  ignore (SendToSamgrUserState (localId_ osAccountInfo) ACTIVATING).

(** [IInnerOsAccountManager::RollBackToEarlierAccount], inner_os_account_manager.cpp *)
Definition RollBackToEarlierAccount (fromId toId displayId : Z) : M S unit :=
  if fromId =? toId then mret tt
  else
    _ ← publish_switch toId SWITCHED fromId displayId;
    let osAccountInfo := {| OsAccountInfo_new with localId_ := toId |} in
    _ ← publish_switch fromId SWITCHING toId displayId;
    _ ← PublishCommonEvent osAccountInfo COMMON_EVENT_USER_FOREGROUND;
    publish_switch fromId SWITCHED toId displayId.

(** [IInnerOsAccountManager::SendToStorageAndAMSAccountStart], inner_os_account_manager.cpp *)
Definition SendToStorageAndAMSAccountStart (osAccountInfo : OsAccountInfo) (startStorage : bool) (displayId : Z)
    (isAppRecovery : bool) (oldId : Z) : M S OsAccountInfo :=
  let localId := localId_ osAccountInfo in
  errCode ← (if startStorage then mtry (SendToStorageAccountStart osAccountInfo) else mret (Ok osAccountInfo));
  match errCode, isAppRecovery with
  | Err errCode, false => _ ← RollBackToEarlierAccount localId oldId displayId; merr errCode
  | _, _ =>
      let osAccountInfo := match errCode with Ok osAccountInfo => osAccountInfo | Err _ => osAccountInfo end in
      errCode ← mtry (SendToAMSAndSamgrAccountStart osAccountInfo displayId isAppRecovery);
      match errCode with
      | Err errCode => _ ← RollBackToEarlierAccount localId oldId displayId; merr errCode
      | Ok _ => mret osAccountInfo
      end
  end.

(** The account that was in the foreground.

    [IInnerOsAccountManager::UpdateAccountToBackground], inner_os_account_manager.cpp *)
Definition UpdateAccountToBackground (oldId : Z) : M S unit :=
  let oldOsAccountInfo := {| OsAccountInfo_new with localId_ := oldId |} in
  _ ← PublishCommonEvent oldOsAccountInfo COMMON_EVENT_USER_BACKGROUND;
  '(errCode, oldOsAccountInfo) ← ask (GetOsAccountInfoById oldId oldOsAccountInfo);
  match errCode with
  | Err _ => mret tt
  | Ok _ =>
      if ENABLE_MULTIPLE_ACTIVE_ACCOUNTS then
        if negb SUPPORT_STOP_MAIN_OS_ACCOUNT && (oldId =? START_USER_ID) then mret tt
        else
          m ← mget;
          if negb (type_ oldOsAccountInfo =? PRIVATE) && bool_decide (loggedInAccounts_ m !! oldId = None)
          then ignore (DeactivateOsAccount oldId false) else mret tt
      else ignore (DeactivateOsAccountByInfo oldOsAccountInfo)
  end.

(** [IInnerOsAccountManager::SendMsgForAccountActivate], inner_os_account_manager.cpp *)
Definition SendMsgForAccountActivate (osAccountInfo : OsAccountInfo) (startStorage : bool) (displayId : Z)
    (isAppRecovery : bool) : M S OsAccountInfo :=
  let localId := localId_ osAccountInfo in
  m ← mget;
  let oldIdExist := foregroundAccountMap_ m !! displayId in
  let oldId := default (-1) oldIdExist in
  let preActivated := isActivated_ osAccountInfo in
  let switched := negb (oldId =? localId) in
  _ ← (if negb preActivated then PublishCommonEvent osAccountInfo COMMON_EVENT_USER_STARTING else mret tt);
  _ ← (if switched then publish_switch oldId SWITCHING localId displayId else mret tt);
  osAccountInfo ← SendToStorageAndAMSAccountStart osAccountInfo startStorage displayId isAppRecovery oldId;
  _ ← (if switched then
         _ ← ignore (SendToSamgrUserState localId SWITCHING);
         PublishCommonEvent osAccountInfo COMMON_EVENT_USER_FOREGROUND
       else mret tt);
  _ ← (if ACTIVATE_LAST_LOGGED_IN_ACCOUNT && isLoggedIn_ osAccountInfo then
         _ ← ignore (call (SetDefaultActivatedOsAccount_control displayId localId));
         set_default displayId localId
       else mret tt);
  _ ← (if switched then
         _ ← SendMsgForAccountSwitched osAccountInfo;
         _ ← SendToCESAccountSwitched localId oldId displayId;
         _ ← publish localId ACTIVATED;
         publish_switch oldId SWITCHED localId displayId
       else mret tt);
  _ ← (if bool_decide (is_Some oldIdExist) && switched then UpdateAccountToBackground oldId else mret tt);
  _ ← (if negb preActivated then PublishCommonEvent osAccountInfo COMMON_EVENT_USER_STARTED else mret tt);
  mret osAccountInfo.

(** [IInnerOsAccountManager::ActivateSubprofile], inner_os_account_manager.cpp *)
Definition ActivateSubprofile (osAccountInfo : OsAccountInfo) : M S unit :=
  if ENABLE_MULTIPLE_OS_ACCOUNT_SUBSPACE then
    let fgSubProfileId := foregroundSubProfileId_ osAccountInfo in
    if fgSubProfileId <=? 0 then mret tt
    else ignore (call (SwitchOsAccountSubspace (localId_ osAccountInfo) fgSubProfileId))
  else mret tt.

(** [IInnerOsAccountManager::ValidateDisplayId], inner_os_account_manager.cpp *)
Definition ValidateDisplayId (displayId : Z) : M S unit :=
  if negb (displayId =? DEFAULT_DISPLAY_ID) then
    displayIds ← ask GetAllDisplayIds;
    if bool_decide (displayId ∈ displayIds) then mret tt else merr ERR_ACCOUNT_COMMON_DISPLAY_ID_NOT_EXIST_ERROR
  else mret tt.

(** [IInnerOsAccountManager::ValidateDisplayPrimary], inner_os_account_manager.cpp *)
Definition ValidateDisplayPrimary (displayId : Z) : M S unit :=
  if displayId =? DEFAULT_DISPLAY_ID then mret tt
  else
    _ ← ValidateDisplayId displayId;
    isPrimary ← call (IsDisplayPrimary displayId);
    if negb isPrimary then merr ERR_ACCOUNT_COMMON_DISPLAY_NOT_PRIMARY_ERROR else mret tt.

(** The account is in the foreground of another display. *)
Definition on_other_display (id displayId : Z) (accounts : gmap Z Z) : bool :=
  existsb (λ '(currentDisplayId, currentLocalId), (currentLocalId =? id) && negb (currentDisplayId =? displayId))
    (ordered_list Z.le accounts).

(** [IInnerOsAccountManager::ValidateDisplayForActivation], inner_os_account_manager.cpp *)
Definition ValidateDisplayForActivation (id displayId : Z) : M S unit :=
  _ ← (if negb (displayId =? DEFAULT_DISPLAY_ID) then
         errCode ← mtry (ValidateDisplayPrimary displayId);
         match errCode with
         | Err errCode =>
             if (errCode =? ERR_ACCOUNT_COMMON_FILE_READ_FAILED) || (errCode =? ERR_ACCOUNT_COMMON_BAD_JSON_FORMAT_ERROR)
             then mret tt else merr errCode
         | Ok _ => mret tt
         end
       else mret tt);
  m ← mget;
  if on_other_display id displayId (foregroundAccountMap_ m) then merr ERR_ACCOUNT_COMMON_CROSS_DISPLAY_ACTIVE_ERROR
  else mret tt.

(** The size is an unsigned number.

    [IInnerOsAccountManager::IsLoggedInAccountsOversize], inner_os_account_manager.cpp *)
Definition IsLoggedInAccountsOversize : M S bool :=
  m ← mget;
  let logginAccountSize := u32 (Z.of_nat (size (loggedInAccounts_ m))) in
  let logginAccountSize :=
    if ENABLE_U1_ACCOUNT && default false (loggedInAccounts_ m !! U1_ID) then u32 (logginAccountSize - 1)
    else logginAccountSize in
  mret (maxLoggedInOsAccountNum (config_ m) <=? logginAccountSize).

(** The account, and the account in the foreground of the display or [-1].

    [IInnerOsAccountManager::PrepareActivateOsAccount], inner_os_account_manager.cpp *)
Definition PrepareActivateOsAccount (id displayId : Z) : M S (OsAccountInfo * Z) :=
  '(errCode, osAccountInfo) ← GetRealOsAccountInfoById id OsAccountInfo_new;
  m ← mget;
  let hasForeground := foregroundAccountMap_ m !! displayId in
  let foregroundId := default (-1) hasForeground in
  if bool_decide (hasForeground = Some id) && isVerified_ osAccountInfo
  then merr ERR_OSACCOUNT_SERVICE_INNER_ACCOUNT_ALREADY_ACTIVE_ERROR
  else
    '(skipValidityCheck, osAccountInfo) ←
      (match errCode with
       | Ok _ => mret (false, osAccountInfo)
       | Err errCode =>
           if errCode =? ERR_ACCOUNT_COMMON_FILE_ACCESS_DENIED then
             if bool_decide (is_Some hasForeground) then merr ERR_ACCOUNT_COMMON_FILE_ACCESS_DENIED
             else mret (true, {| osAccountInfo with localId_ := id |})
           else merr ERR_ACCOUNT_COMMON_ACCOUNT_NOT_EXIST_ERROR
       end);
    _ ← (if ENABLE_MULTI_FOREGROUND_OS_ACCOUNTS then ValidateDisplayForActivation id displayId
         else if negb (displayId =? DEFAULT_DISPLAY_ID) && negb (displayId =? INVALID_DISPLAY_ID)
              then merr ERR_ACCOUNT_COMMON_DISPLAY_ID_NOT_EXIST_ERROR else mret tt);
    _ ← (if skipValidityCheck : bool then mret tt else of_result (IsValidOsAccount osAccountInfo));
    oversize ← (if negb (isActivated_ osAccountInfo) then IsLoggedInAccountsOversize else mret false);
    if oversize : bool then merr ERR_OSACCOUNT_SERVICE_LOGGED_IN_ACCOUNTS_OVERSIZE
    else mret (osAccountInfo, foregroundId).

(** [SetAppRecovery], inner_os_account_manager.cpp *)
Definition SetAppRecovery (isAppRecovery : bool) (activeAccountId : list Z) : bool :=
  if SUPPORT_STOP_MAIN_OS_ACCOUNT && negb isAppRecovery
     && (length activeAccountId <=? length (if ENABLE_U1_ACCOUNT then [U1_ID] else []))%nat
  then true else isAppRecovery.

(** [IInnerOsAccountManager::ActivateOsAccount], inner_os_account_manager.cpp *)
Definition ActivateOsAccount (id : Z) (startStorage : bool) (displayId : Z) (isAppRecovery : bool) : M S unit :=
  added ← CheckAndAddLocalIdOperating id;
  if negb added then merr ERR_OSACCOUNT_SERVICE_INNER_ACCOUNT_OPERATING_ERROR
  else
    errCode ← mtry (PrepareActivateOsAccount id displayId);
    match errCode with
    | Err errCode =>
        unmark_return id
          (if errCode =? ERR_OSACCOUNT_SERVICE_INNER_ACCOUNT_ALREADY_ACTIVE_ERROR then Ok tt else Err errCode)
    | Ok (osAccountInfo, foregroundId) =>
        let preActivated := isActivated_ osAccountInfo in
        _ ← (if negb (foregroundId =? id) then publish id ACTIVATING else mret tt);
        m ← mget;
        let isAppRecovery :=
          if bool_decide (is_Some (defaultActivatedIds_ m !! displayId))
          then SetAppRecovery isAppRecovery (activeAccountId_ m) else isAppRecovery in
        errCode ← mtry (SendMsgForAccountActivate osAccountInfo startStorage displayId isAppRecovery);
        osAccountInfo ← unmark_return id errCode;
        if negb preActivated then ActivateSubprofile osAccountInfo else mret tt
    end.

(** *** Activation in the background *)

(** [IInnerOsAccountManager::SendMsgForAccountActivateInBackground], inner_os_account_manager.cpp *)
Definition SendMsgForAccountActivateInBackground (osAccountInfo : OsAccountInfo) : M S unit :=
  _ ← publish (localId_ osAccountInfo) ACTIVATING;
  r ← mtry (SendToStorageAccountStart osAccountInfo);
  let osAccountInfo := match r with Ok osAccountInfo => osAccountInfo | Err _ => osAccountInfo end in
  _ ← SendToAMSAndSamgrAccountStart osAccountInfo INVALID_DISPLAY_ID true;
  _ ← publish (localId_ osAccountInfo) ACTIVATED;
  PublishCommonEvent osAccountInfo COMMON_EVENT_USER_BACKGROUND.

(** [IInnerOsAccountManager::ActivateOsAccountInBackground], inner_os_account_manager.cpp *)
Definition ActivateOsAccountInBackground (id : Z) : M S unit :=
  osAccountInfo ← real_account id ERR_ACCOUNT_COMMON_ACCOUNT_NOT_EXIST_ERROR;
  match IsValidOsAccount osAccountInfo with
  | Err _ => merr ERR_ACCOUNT_COMMON_ACCOUNT_NOT_EXIST_ERROR
  | Ok _ => SendMsgForAccountActivateInBackground osAccountInfo
  end.

(** *** Removal *)

(** [ResetForegroundBeforeRemove], inner_os_account_manager.cpp *)
Definition ResetForegroundBeforeRemove (osAccountInfo : OsAccountInfo) (id : Z) : M S unit :=
  if isForeground_ osAccountInfo then
    if negb ENABLE_MULTI_FOREGROUND_OS_ACCOUNTS then
      r ← mtry (ActivateOsAccount START_USER_ID true DEFAULT_DISPLAY_ID false);
      match r with
      | Err _ => merr ERR_OSACCOUNT_SERVICE_INNER_REMOVE_ACCOUNT_ACTIVED_ERROR
      | Ok _ => mret tt
      end
    else
      _ ← ignore (SendToSamgrUserState id STOPPING);
      SendToAMSAccountDeactivate osAccountInfo
  else mret tt.

(** [IInnerOsAccountManager::PrepareRemoveOsAccount], inner_os_account_manager.cpp *)
Definition PrepareRemoveOsAccount (osAccountInfo : OsAccountInfo) (isCleanGarbage : bool) : M S OsAccountInfo :=
  let id := localId_ osAccountInfo in
  _ ← (if HAS_USER_IDM_PART then SendToIDMAccountDelete osAccountInfo else mret tt);
  _ ← (if SUPPORT_DOMAIN_ACCOUNTS && negb (string_empty (accountName_ (domainInfo_ osAccountInfo))) then
         _ ← ignore (call (OnAccountUnBound (domainInfo_ osAccountInfo) id));
         ask (RemoveTokenFromMap id)
       else mret tt);
  if isCleanGarbage then mret osAccountInfo
  else
    _ ← ResetForegroundBeforeRemove osAccountInfo id;
    _ ← set_loggedIn (delete id);
    _ ← set_verified (delete id);
    _ ← PublishCommonEvent osAccountInfo COMMON_EVENT_USER_STOPPING;
    _ ← publish id STOPPING;
    osAccountInfo ← SendMsgForAccountStop osAccountInfo;
    _ ← PublishCommonEvent osAccountInfo COMMON_EVENT_USER_STOPPED;
    _ ← publish id STOPPED;
    mret osAccountInfo.

(** [IInnerOsAccountManager::SendMsgForAccountRemove], inner_os_account_manager.cpp *)
Definition SendMsgForAccountRemove (osAccountInfo : OsAccountInfo) : M S unit :=
  let localId := localId_ osAccountInfo in
  _ ← SendToBMSAccountDelete osAccountInfo;
  r ← mtry (SendToStorageAccountRemove osAccountInfo);
  match r with
  | Err _ => merr ERR_ACCOUNT_COMMON_GET_SYSTEM_ABILITY_MANAGER
  | Ok _ =>
      _ ← call (DelOsAccount localId);
      SendToCESAccountDelete osAccountInfo
  end.

(** The displays on which the account is the one to activate, each with its successor. *)
Definition default_updates (id : Z) (accounts : gmap Z Z) : list (Z * Z) :=
  omap (λ '(displayId, localId),
          if id =? localId
          then Some (displayId, if displayId =? DEFAULT_DISPLAY_ID then START_USER_ID else INVALID_OS_ACCOUNT_ID)
          else None)
    (ordered_list Z.le accounts).

(** [IInnerOsAccountManager::CheckAndRefreshLocalIdRecord], inner_os_account_manager.cpp *)
Definition CheckAndRefreshLocalIdRecord (id : Z) : M S unit :=
  m ← mget;
  _ ← mfor (default_updates id (defaultActivatedIds_ m)) (λ '(displayId, newId),
        _ ← ignore (call (SetDefaultActivatedOsAccount_control displayId newId));
        set_default displayId newId);
  m ← mget;
  if id =? deviceOwnerId_ m then
    errCode ← mtry (call (UpdateDeviceOwnerId (-1)));
    match errCode with Err _ => mret tt | Ok _ => set_owner (-1) end
  else mret tt.

(** [IInnerOsAccountManager::RemoveOsAccountOperate], inner_os_account_manager.cpp *)
Definition RemoveOsAccountOperate (id : Z) (osAccountInfo : OsAccountInfo) (isCleanGarbage : bool) : M S OsAccountInfo :=
  if isCleanGarbage && negb (isCreateCompleted_ osAccountInfo) && negb (isDataRemovable_ osAccountInfo)
  then mret osAccountInfo
  else
    _ ← (if SUPPORT_AUTHORIZATION then
           _ ← call (Tee_DelOsAccountType id);
           ClearAccountCache id
         else mret tt);
    osAccountInfo ← PrepareRemoveOsAccount osAccountInfo isCleanGarbage;
    _ ← (if SUPPORT_DOMAIN_ACCOUNTS && negb (string_empty (accountName_ (domainInfo_ osAccountInfo)))
         then ask (NotifyDomainLogout id (domainInfo_ osAccountInfo)) else mret tt);
    _ ← ask (SendLogoutEventOnDelOsAccount id);
    _ ← SendMsgForAccountRemove osAccountInfo;
    _ ← call (RemoveOAConstraintsInfo id);
    _ ← CheckAndRefreshLocalIdRecord id;
    _ ← publish id REMOVED;
    mret osAccountInfo.

(** [IInnerOsAccountManager::RemoveOsAccount], inner_os_account_manager.cpp *)
Definition RemoveOsAccount (id : Z) : M S unit :=
  added ← CheckAndAddLocalIdOperating id;
  if negb added then merr ERR_OSACCOUNT_SERVICE_INNER_ACCOUNT_OPERATING_ERROR
  else
    '(errCode, osAccountInfo) ← GetRealOsAccountInfoById id OsAccountInfo_new;
    match errCode with
    | Err _ => unmark_return id (Err ERR_ACCOUNT_COMMON_ACCOUNT_NOT_EXIST_ERROR)
    | Ok _ =>
        errCode ← mtry (SendToStorageAccountCreateComplete id);
        match errCode with
        | Err errCode => unmark_return id (Err errCode)
        | Ok _ =>
            let osAccountInfo := {| osAccountInfo with toBeRemoved_ := true |} in
            errCode ← mtry (call (UpdateOsAccount osAccountInfo));
            match errCode with
            | Err errCode => unmark_return id (Err errCode)
            | Ok _ =>
                errCode ← mtry (RemoveOsAccountOperate id osAccountInfo false);
                _ ← unmark_return id errCode;
                mret tt
            end
        end
    end.

(** [IInnerOsAccountManager::ResetDefaultActivatedAccount], inner_os_account_manager.cpp *)
Definition ResetDefaultActivatedAccount (localId : Z) : M S unit :=
  m ← mget;
  if bool_decide (defaultActivatedIds_ m !! DEFAULT_DISPLAY_ID = Some localId) then
    _ ← call (SetDefaultActivatedOsAccount_control DEFAULT_DISPLAY_ID START_USER_ID);
    set_default DEFAULT_DISPLAY_ID START_USER_ID
  else mret tt.

(** [IInnerOsAccountManager::SetOsAccountToBeRemoved], inner_os_account_manager.cpp *)
Definition SetOsAccountToBeRemoved (localId : Z) (toBeRemoved : bool) : M S unit :=
  added ← CheckAndAddLocalIdOperating localId;
  if negb added then merr ERR_OSACCOUNT_SERVICE_INNER_ACCOUNT_OPERATING_ERROR
  else
    '(errCode, osAccountInfo) ← ask (GetOsAccountInfoById localId OsAccountInfo_new);
    match errCode with
    | Err _ => unmark_return localId (Err ERR_ACCOUNT_COMMON_ACCOUNT_NOT_EXIST_ERROR)
    | Ok _ =>
        errCode ← (if toBeRemoved then mtry (ResetDefaultActivatedAccount localId) else mret (Ok tt));
        match errCode with
        | Err errCode => unmark_return localId (Err errCode)
        | Ok _ =>
            errCode ← mtry (call (UpdateOsAccount {| osAccountInfo with toBeRemoved_ := toBeRemoved |}));
            unmark_return localId errCode
        end
    end.

(** *** Garbage: accounts that were not completed or are to be removed *)

(** One account of the list: whether it counts as removed. *)
Definition clean_account (id : Z) : M S bool :=
  added ← CheckAndAddLocalIdOperating id;
  if negb added then mret false
  else
    '(ret, osAccountInfo) ← GetRealOsAccountInfoById id OsAccountInfo_new;
    if match ret with Ok _ => false | Err ret => negb (ret =? ERR_ACCOUNT_COMMON_ACCOUNT_NOT_EXIST_ERROR) end
    then unmark_return id (Ok false)
    else
      let osAccountInfo := {| osAccountInfo with localId_ := id |} in
      if negb (toBeRemoved_ osAccountInfo) && isCreateCompleted_ osAccountInfo then unmark_return id (Ok false)
      else
        errCode ← mtry (RemoveOsAccountOperate id osAccountInfo true);
        _ ← RemoveLocalIdToOperating id;
        mret (is_Ok errCode).

(** The accounts that are never garbage. *)
Definition is_kept (id excludeId : Z) : bool :=
  (id =? START_USER_ID) || (id =? ADMIN_LOCAL_ID) || (id =? U1_ID) || (id =? excludeId).

(** [for (auto id : idList)]; the number removed is carried along. *)
Fixpoint clean_accounts (excludeId : Z) (idList : list Z) (removeNum : Z) : M S Z :=
  match idList with
  | [] => mret removeNum
  | id :: idList =>
      if is_kept id excludeId then clean_accounts excludeId idList removeNum
      else
        removed ← clean_account id;
        clean_accounts excludeId idList (if removed : bool then i32 (removeNum + 1) else removeNum)
  end.

(** [IInnerOsAccountManager::CleanGarbageOsAccounts], inner_os_account_manager.cpp *)
Definition CleanGarbageOsAccounts (excludeId : Z) : M S Z :=
  idList ← mtry (call GetOsAccountIdList);
  match idList with
  | Err _ => mret 0
  | Ok idList => clean_accounts excludeId idList 0
  end.

(** *** Locking the screen of an account *)

Definition set_locking (f : gmap Z bool → gmap Z bool) : M S unit :=
  mmodify (λ m, {| m with lockingAccounts_ := f (lockingAccounts_ m) |}).

(** [IInnerOsAccountManager::PublishOsAccountLockEvent], inner_os_account_manager.cpp *)
Definition PublishOsAccountLockEvent (localId : Z) (isLocking : bool) : M S unit :=
  let osAccountInfo := {| OsAccountInfo_new with localId_ := localId |} in
  _ ← PublishCommonEvent osAccountInfo (if isLocking then COMMON_EVENT_USER_LOCKING else COMMON_EVENT_USER_LOCKED);
  publish localId (if isLocking then LOCKING else LOCKED).

(** [IInnerOsAccountManager::LockOsAccount], inner_os_account_manager.cpp *)
Definition LockOsAccount (localId : Z) : M S unit :=
  available ← ask IsLockPluginAvailable;
  if negb available then merr ERR_OSACCOUNT_SERVICE_INNER_ACCOUNT_PLUGIN_NOT_EXIST_ERROR
  else
    added ← CheckAndAddLocalIdOperating localId;
    if negb added then merr ERR_OSACCOUNT_SERVICE_INNER_ACCOUNT_OPERATING_ERROR
    else
      '(errCode, osAccountInfo) ← GetRealOsAccountInfoById localId OsAccountInfo_new;
      match errCode with
      | Err _ => unmark_return localId (Err ERR_ACCOUNT_COMMON_ACCOUNT_NOT_EXIST_ERROR)
      | Ok _ =>
          match IsValidOsAccount osAccountInfo with
          | Err errCode => unmark_return localId (Err errCode)
          | Ok _ =>
              if negb (isVerified_ osAccountInfo) then unmark_return localId (Ok tt)
              else
                _ ← set_locking <[localId := true]>;
                ret ← mtry (call (LockOsAccountPlugin localId));
                _ ← set_locking (delete localId);
                match ret with
                | Err _ => unmark_return localId (Err ERR_OSACCOUNT_SERVICE_INNER_ACCOUNT_LOCK_ERROR)
                | Ok _ =>
                    _ ← set_verified (delete localId);
                    unmark_return localId (Ok tt)
                end
          end
      end.

(** *** Marks set from outside *)

(** [IInnerOsAccountManager::CleanGarbageOsAccountsAsync], inner_os_account_manager.cpp *)
Definition CleanGarbageOsAccountsAsync : M S unit := announce (Started CleanGarbage (-1)).

(** [IInnerOsAccountManager::SetOsAccountIsVerified], inner_os_account_manager.cpp *)
Definition SetOsAccountIsVerified (id : Z) (isVerified : bool) : M S unit :=
  osAccountInfo ← real_account id ERR_ACCOUNT_COMMON_ACCOUNT_NOT_EXIST_ERROR;
  if toBeRemoved_ osAccountInfo then merr ERR_OSACCOUNT_SERVICE_INNER_ACCOUNT_TO_BE_REMOVED_ERROR
  else
    let preVerified := isVerified_ osAccountInfo in
    _ ← set_verified (if isVerified then <[id := true]> else delete id);
    if isVerified && negb preVerified then
      _ ← SendMsgForAccountUnlocked osAccountInfo;
      _ ← PublishCommonEvent osAccountInfo COMMON_EVENT_USER_UNLOCKED;
      _ ← publish id UNLOCKED;
      CleanGarbageOsAccountsAsync
    else mret tt.

(** [IInnerOsAccountManager::SetOsAccountIsLoggedIn], inner_os_account_manager.cpp *)
Definition SetOsAccountIsLoggedIn (id : Z) (isLoggedIn : bool) : M S unit :=
  osAccountInfo ← real_account id ERR_ACCOUNT_COMMON_ACCOUNT_NOT_EXIST_ERROR;
  if toBeRemoved_ osAccountInfo then merr ERR_OSACCOUNT_SERVICE_INNER_ACCOUNT_TO_BE_REMOVED_ERROR
  else
    _ ← set_loggedIn (if isLoggedIn then <[id := true]> else delete id);
    osAccountInfo ←
      (if negb (isLoggedIn_ osAccountInfo) then
         let displayId := displayId_ osAccountInfo in
         _ ← (if ACTIVATE_LAST_LOGGED_IN_ACCOUNT && negb (displayId =? INVALID_DISPLAY_ID) then
                _ ← ignore (call (SetDefaultActivatedOsAccount_control displayId id));
                set_default displayId id
              else mret tt);
         now ← ask system_clock;
         mret {| osAccountInfo with lastLoginTime_ := now |}
       else mret osAccountInfo);
    errCode ← mtry (call (UpdateOsAccount osAccountInfo));
    match errCode with
    | Err errCode =>
        if errCode =? ERR_ACCOUNT_COMMON_DATA_NO_SPACE then mret tt
        else merr ERR_OSACCOUNT_SERVICE_INNER_UPDATE_ACCOUNT_ERROR
    | Ok _ => mret tt
    end.

(** *** The account a display starts with *)

(** [IInnerOsAccountManager::SetDefaultActivatedOsAccount]#2, inner_os_account_manager.cpp *)
Definition SetDefaultActivatedOsAccount (displayId id : Z) : M S unit :=
  _ ← (if ENABLE_MULTI_FOREGROUND_OS_ACCOUNTS then ValidateDisplayPrimary displayId
       else if negb (displayId =? DEFAULT_DISPLAY_ID) then merr ERR_ACCOUNT_COMMON_DISPLAY_ID_NOT_EXIST_ERROR
       else mret tt);
  m ← mget;
  if bool_decide (defaultActivatedIds_ m !! displayId = Some id) then mret tt
  else
    '(errCode, osAccountInfo) ← ask (GetOsAccountInfoById id OsAccountInfo_new);
    match errCode with
    | Err _ => merr ERR_ACCOUNT_COMMON_ACCOUNT_NOT_EXIST_ERROR
    | Ok _ =>
        _ ← of_result (IsValidOsAccount osAccountInfo);
        _ ← call (SetDefaultActivatedOsAccount_control displayId id);
        set_default displayId id
    end.

(** [IInnerOsAccountManager::IsValidActivateOsAccountId], inner_os_account_manager.cpp *)
Definition IsValidActivateOsAccountId (id : Z) : M S bool :=
  if id <? START_USER_ID then mret false
  else
    '(errCode, accountInfo) ← ask (GetOsAccountInfoById id OsAccountInfo_new);
    if bool_decide (errCode = Err ERR_ACCOUNT_COMMON_ACCOUNT_NOT_EXIST_ERROR) then mret false
    else mret (is_Ok (IsValidOsAccount accountInfo)).

(** The displays but the first, each account being taken once. *)
Fixpoint claim_displays (rawIds : list (Z * Z)) (claimedIds : gset Z) : M S unit :=
  match rawIds with
  | [] => mret tt
  | (displayId, localId) :: rawIds =>
      if (displayId =? DEFAULT_DISPLAY_ID) || bool_decide (localId ∈ claimedIds)
      then claim_displays rawIds claimedIds
      else
        valid ← IsValidActivateOsAccountId localId;
        if negb valid then claim_displays rawIds claimedIds
        else
          _ ← set_default displayId localId;
          claim_displays rawIds ({[ localId ]} ∪ claimedIds)
  end.

(** [IInnerOsAccountManager::ParseAllDefaultActivateIds], inner_os_account_manager.cpp *)
Definition ParseAllDefaultActivateIds : M S unit :=
  r ← mtry (call GetAllDefaultActivatedOsAccounts_control);
  let rawIds := match r with Ok rawIds => rawIds | Err _ => ∅ end in
  defaultDisplayAccount ←
    (match rawIds !! DEFAULT_DISPLAY_ID with
     | Some account =>
         valid ← IsValidActivateOsAccountId account;
         mret (if valid : bool then account else START_USER_ID)
     | None => mret START_USER_ID
     end);
  _ ← set_default DEFAULT_DISPLAY_ID defaultDisplayAccount;
  claim_displays (ordered_list Z.le rawIds) {[ defaultDisplayAccount ]}.
End Operations.
