(* ===== verification/OsAccountFrame.v ===== *)
(** Reasoning about the manager of operating system accounts.

    Calls to services change the world, announcements the log; a property of the rest of
    the record is kept by both ([Local]).  [preserves] says that a computation keeps a
    property, [calm] also that it does not fail, [moves] that it leads from one property
    to another however it ends. *)
From Stdlib Require Import ZArith Lia Ascii String.
From stdpp Require Import base list gmap sets strings pretty sorting.
From S2P Require Import Prelude ErrorCodes Json FileStore OsAccountInfo OsAccountEnv OsAccountFiles OsAccountConstraints OsAccountServices OsAccountInterface OsAccountManager.

(** The announcements of a switch from one account to another. *)
Definition is_switch (e : Event) : bool :=
  match e with Publish _ (SWITCHING | SWITCHED) _ _ => true | _ => false end.

(** A property that neither the world nor announcements but switches matter to. *)
Class Local {W} (P : Manager W → Prop) := {
  local_world m w : P m → P (set_world w m);
  local_event m e : is_switch e = false → P m → P (add_event e m);
}.

(** A property that neither the world nor the log matter to. *)
Class Quiet {W} (P : Manager W → Prop) := {
  quiet_world m w : P m → P (set_world w m);
  quiet_event m e : P m → P (add_event e m);
}.

(** A property of what is active, in the foreground, marked, and of switches. *)
Class Passive {W} (P : Manager W → Prop) := {
  passive_local :: Local P;
  passive_verified m f : P m → P {| m with verifiedAccounts_ := f |};
  passive_loggedIn m f : P m → P {| m with loggedInAccounts_ := f |};
  passive_deactivating m f : P m → P {| m with deactivatingAccounts_ := f |};
  passive_locking m f : P m → P {| m with lockingAccounts_ := f |};
  passive_default m f : P m → P {| m with defaultActivatedIds_ := f |};
  passive_owner m f : P m → P {| m with deviceOwnerId_ := f |};
  passive_type m f : P m → P {| m with accountTypeCache_ := f |};
  passive_restore m f : P m → P {| m with isNeedRestoreRecover_ := f |};
}.

(** A property of the marks and of switches only. *)
Class Blind {W} (P : Manager W → Prop) := {
  blind_passive :: Passive P;
  blind_active m f : P m → P {| m with activeAccountId_ := f |};
  blind_foreground m f : P m → P {| m with foregroundAccountMap_ := f |};
}.

#[export] Instance quiet_local {W} (P : Manager W → Prop) : Quiet P → Local P.
Proof. intros [Hw He]. split; auto. Qed.

Section Logic.
Context {W : Type}.
Local Abbreviation S := (Manager W).

Definition calm {A} (P : S → Prop) (m : M S A) : Prop := ∀ s, P s → is_Ok (m s).1 = true ∧ P (m s).2.
Definition moves {A} (P : S → Prop) (m : M S A) (Q : S → Prop) : Prop := ∀ s, P s → Q (m s).2.

Section Rules.
Context (P Q : S → Prop).

Lemma calm_preserves {A} (m : M S A) : calm P m → preserves P m.
Proof. intros Hm s Hs. by apply Hm. Qed.
Lemma calm_ret {A} (a : A) : calm P (mret a).
Proof. by intros s. Qed.
Lemma calm_get : calm P mget.
Proof. by intros s. Qed.
Lemma calm_modify f : (∀ s, P s → P (f s)) → calm P (mmodify f).
Proof. intros Hf s Hs. split; [done|]. by apply Hf. Qed.
Lemma calm_put s : P s → calm P (mput s).
Proof. by intros Hs s' _. Qed.
Lemma calm_try {A} (m : M S A) : preserves P m → calm P (mtry m).
Proof. intros Hm s Hs. unfold mtry. specialize (Hm s Hs). by destruct (m s) as [[]]. Qed.
Lemma calm_bind {A B} (m : M S A) (k : A → M S B) : calm P m → (∀ a, calm P (k a)) → calm P (m ≫= k).
Proof.
  intros Hm Hk s Hs. rewrite mbind_unfold. destruct (Hm s Hs) as [Hok HP].
  destruct (m s) as [[a|e] s']; [by apply Hk|done].
Qed.

Lemma moves_bind {A B} (m : M S A) (k : A → M S B) : calm P m → (∀ a, moves P (k a) Q) → moves P (m ≫= k) Q.
Proof.
  intros Hm Hk s Hs. rewrite mbind_unfold. destruct (Hm s Hs) as [Hok HP].
  destruct (m s) as [[a|e] s']; [by apply Hk|done].
Qed.
Lemma moves_before {A B} (m : M S A) (k : A → M S B) : moves P m Q → (∀ a, preserves Q (k a)) → moves P (m ≫= k) Q.
Proof.
  intros Hm Hk s Hs. rewrite mbind_unfold. specialize (Hm s Hs).
  destruct (m s) as [[a|e] s']; [by apply Hk|done].
Qed.
End Rules.

Section Frame.
Context (P : S → Prop) {HP : Local P}.

Lemma preserves_call {A} (f : M W A) : preserves P (call f).
Proof. intros s Hs. unfold call. destruct (f (world s)) as [r w]. by apply local_world. Qed.
Lemma calm_ask {A} (f : W → A * W) : calm P (ask f).
Proof. intros s Hs. unfold ask. destruct (f (world s)) as [r w]. split; [done|]. by apply local_world. Qed.
Lemma preserves_ask {A} (f : W → A * W) : preserves P (ask f).
Proof. apply calm_preserves, calm_ask. Qed.
Lemma calm_announce e : is_switch e = false → calm P (announce e).
Proof. intros He. apply calm_modify. intros s Hs. by apply local_event. Qed.
Lemma preserves_announce e : is_switch e = false → preserves P (announce e).
Proof. intros He. by apply calm_preserves, calm_announce. Qed.
End Frame.

Lemma calm_announce_any (P : S → Prop) {HP : Quiet P} e : calm P (announce e).
Proof. apply calm_modify. intros s Hs. by apply quiet_event. Qed.
Lemma preserves_announce_any (P : S → Prop) {HP : Quiet P} e : preserves P (announce e).
Proof. apply calm_preserves, calm_announce_any, HP. Qed.

Lemma calm_ignore {A} P (m : M S A) : preserves P m → calm P (ignore m).
Proof. intros Hm. apply calm_bind; [by apply calm_try|intros; apply calm_ret]. Qed.
Lemma preserves_ignore {A} P (m : M S A) : preserves P m → preserves P (ignore m).
Proof. intros Hm. by apply calm_preserves, calm_ignore. Qed.
Lemma preserves_of_result {A} P (r : result A) : preserves P (of_result r : M S A).
Proof. destruct r; [apply preserves_ret|apply preserves_err]. Qed.
Lemma preserves_retrying {A} P n (body : M S (bool * A)) : preserves P body → preserves P (retrying n body).
Proof.
  intros Hb. induction n as [|n IH]; cbn [retrying]; apply preserves_bind; try done; intros [again r].
  - apply preserves_ret.
  - destruct again; [done|apply preserves_ret].
Qed.
Lemma calm_retrying {A} P n (body : M S (bool * A)) : calm P body → calm P (retrying n body).
Proof.
  intros Hb. induction n as [|n IH]; cbn [retrying]; apply calm_bind; try done; intros [again r].
  - apply calm_ret.
  - destruct again; [done|apply calm_ret].
Qed.
End Logic.

#[export] Hint Resolve preserves_call preserves_ask preserves_ignore preserves_of_result
  preserves_retrying : mpres.

(** An update of a field that a property does not read. *)
Ltac updates :=
  intros ?m ?Hm;
  first
    [ first [apply passive_verified | apply passive_loggedIn | apply passive_deactivating | apply passive_locking
            | apply passive_default | apply passive_owner | apply passive_type | apply passive_restore
            | apply blind_active | apply blind_foreground]; exact Hm
    | destruct m; cbn in *; solve [eauto] ].

(** Splits a computation along its structure. *)
Ltac frame_step :=
  lazymatch goal with
  | |- preserves _ (mmodify _) => apply preserves_modify; updates
  | |- preserves _ (publish _ _) => unfold publish
  | |- preserves _ (set_verified _) => unfold set_verified
  | |- preserves _ (set_loggedIn _) => unfold set_loggedIn
  | |- preserves _ (set_deactivating _) => unfold set_deactivating
  | |- preserves _ (set_locking _) => unfold set_locking
  | |- preserves _ (set_foreground _) => unfold set_foreground
  | |- preserves _ (set_default _ _) => unfold set_default
  | |- preserves _ (set_owner _) => unfold set_owner
  | |- preserves _ (SetAccountTypeInCache _ _) => unfold SetAccountTypeInCache
  | |- preserves _ (ClearAccountCache _) => unfold ClearAccountCache
  | |- preserves _ (GetAccountTypeFromCache _) => unfold GetAccountTypeFromCache
  | |- preserves _ (EraseIdFromActiveList _) => unfold EraseIdFromActiveList
  | |- preserves _ (SendMsgForAccountUnlocked _) => unfold SendMsgForAccountUnlocked
  | |- preserves _ (SendMsgForAccountSwitched _) => unfold SendMsgForAccountSwitched
  | |- preserves _ (call _) => apply preserves_call; exact _
  | |- preserves _ (ask _) => apply preserves_ask; exact _
  | |- preserves _ (announce _) =>
      first [apply preserves_announce; [exact _|reflexivity] | apply preserves_announce_any; exact _]
  | |- preserves _ (ignore _) => apply preserves_ignore
  | |- preserves _ (of_result _) => apply preserves_of_result
  | |- preserves _ (retrying _ _) => apply preserves_retrying
  | |- preserves _ (match ?x with _ => _ end) => destruct x
  | |- preserves _ _ => preserve_step
  | |- ∀ _, _ => intro
  end.
Ltac frame := repeat frame_step.

Ltac calm_step :=
  lazymatch goal with
  | |- calm _ (mret _) => apply calm_ret
  | |- calm _ mget => apply calm_get
  | |- calm _ (mmodify _) => apply calm_modify; updates
  | |- calm _ (publish _ _) => unfold publish
  | |- calm _ (set_verified _) => unfold set_verified
  | |- calm _ (set_loggedIn _) => unfold set_loggedIn
  | |- calm _ (set_deactivating _) => unfold set_deactivating
  | |- calm _ (set_locking _) => unfold set_locking
  | |- calm _ (GetAccountTypeFromCache _) => unfold GetAccountTypeFromCache
  | |- calm _ (EraseIdFromActiveList _) => unfold EraseIdFromActiveList
  | |- calm _ (_ ≫= _) => apply calm_bind
  | |- calm _ (mtry _) => apply calm_try
  | |- calm _ (ask _) => apply calm_ask; exact _
  | |- calm _ (announce _) => first [apply calm_announce; [exact _|reflexivity] | apply calm_announce_any; exact _]
  | |- calm _ (ignore _) => apply calm_ignore
  | |- calm _ (retrying _ _) => apply calm_retrying
  | |- calm _ (match ?x with _ => _ end) => destruct x
  | |- calm _ (let x := ?v in _) => cbv zeta
  | |- calm _ _ => first [assumption | solve [eauto with mpres]]
  | |- preserves _ _ => frame_step
  | |- ∀ _, _ => intro
  end.
Ltac calmly := repeat calm_step.

(** ** The interface to other services keeps local properties *)

Section Interface.
Context {W : Type} {sw : OsSwitches} {cfg : Config} {cjson : CJsonLib} {fs : FileStore W}.
Context {ams : AbilityManager W} {bms : BundleManager W} {storage : StorageManager W} {idm : UserIdm W}.
Context {parts : AccountParts W}.
Context (P : Manager W → Prop) {HP : Local P}.

Lemma local_retry_ipc {A} (f : M (Manager W) A) : preserves P f → preserves P (retry_ipc f).
Proof using Type. intros Hf. unfold retry_ipc. frame. Qed.
Hint Resolve local_retry_ipc : mpres.

Lemma local_OnUserCmdDone userId errcode : preserves P (OnUserCmdDone None userId errcode).
Proof using Type. unfold OnUserCmdDone. frame. Qed.
Hint Resolve local_OnUserCmdDone : mpres.

Lemma local_start info displayId callback recovery :
  (∀ id, preserves P (callback id)) → preserves P (SendToAMSAccountStart info displayId callback recovery).
Proof using HP. intros Hcb. unfold SendToAMSAccountStart, InnerSendToAMSAccountStart, OnUserCmdDone. frame. Qed.
Lemma local_stop info : preserves P (SendToAMSAccountStop info).
Proof using HP. unfold SendToAMSAccountStop, InnerSendToAMSAccountStop. frame. Qed.
Lemma local_deactivate info : preserves P (SendToAMSAccountDeactivate info).
Proof using HP. unfold SendToAMSAccountDeactivate, InnerSendToAMSAccountDeactivate. frame. Qed.
Lemma local_died id : preserves P (CheckAllAppDied id).
Proof using HP. unfold CheckAllAppDied. frame. Qed.
Lemma local_bms_create info l l' : preserves P (SendToBMSAccountCreate info l l').
Proof using HP. unfold SendToBMSAccountCreate. frame. Qed.
Lemma local_installed name id : preserves P (IsBundleInstalled name id).
Proof using HP. unfold IsBundleInstalled. frame. Qed.
Lemma local_bms_delete info : preserves P (SendToBMSAccountDelete info).
Proof using HP. unfold SendToBMSAccountDelete. frame. Qed.
Lemma local_idm info : preserves P (SendToIDMAccountDelete info).
Proof using HP. unfold SendToIDMAccountDelete. frame. Qed.
Lemma calm_event info action : calm P (PublishCommonEvent info action).
Proof using HP. unfold PublishCommonEvent. calmly. Qed.
Lemma calm_switched newId oldId displayId : calm P (SendToCESAccountSwitched newId oldId displayId).
Proof using HP. unfold SendToCESAccountSwitched. calmly. Qed.
Lemma local_event_published info action : preserves P (PublishCommonEvent info action).
Proof using HP. apply calm_preserves, calm_event. Qed.
Lemma local_switched newId oldId displayId : preserves P (SendToCESAccountSwitched newId oldId displayId).
Proof using HP. apply calm_preserves, calm_switched. Qed.
Lemma local_removed_event info : preserves P (SendToCESAccountDelete info).
Proof using HP. apply local_event_published. Qed.
Lemma local_created_event info : preserves P (SendToCESAccountCreate info).
Proof using HP. apply local_event_published. Qed.
Lemma local_proxy : preserves P GetStorageProxy.
Proof using HP. unfold GetStorageProxy. frame. Qed.
Lemma local_loaded : preserves P storage_loaded.
Proof using HP. unfold storage_loaded. frame. Qed.
Hint Resolve local_proxy local_loaded : mpres.
Lemma local_storage_create clean info :
  (∀ id, preserves P (clean id)) → preserves P (SendToStorageAccountCreate clean info).
Proof using HP.
  intros Hc. unfold SendToStorageAccountCreate. apply local_retry_ipc.
  unfold InnerSendToStorageAccountCreate, PrepareAddUser. frame.
Qed.
Lemma local_storage_remove info : preserves P (SendToStorageAccountRemove info).
Proof using HP. unfold SendToStorageAccountRemove. frame. Qed.
Lemma local_complete id : preserves P (SendToStorageAccountCreateComplete id).
Proof using HP. unfold SendToStorageAccountCreateComplete, InnerSendToStorageAccountCreateComplete. frame. Qed.
Lemma local_skip id : preserves P (NeedSkipActiveUserKey id).
Proof using HP.
  unfold NeedSkipActiveUserKey, IsSecretFlagExist, IsExistPIN, GetPINCredentialInfo, IsDomainUnlockEnabled, DeleteSecretFlag.
  frame.
Qed.
Hint Resolve local_skip : mpres.
Lemma local_unlock id start : preserves P (UnlockUser id start).
Proof using HP. unfold UnlockUser, unlock_round. frame. Qed.
Hint Resolve local_unlock : mpres.
Lemma local_storage_start info : preserves P (OsAccountInterface.SendToStorageAccountStart info).
Proof using HP. unfold OsAccountInterface.SendToStorageAccountStart. frame. Qed.
Lemma local_storage_stop info : preserves P (SendToStorageAccountStop info).
Proof using HP. unfold SendToStorageAccountStop. frame. Qed.
Lemma local_samgr id state : preserves P (SendToSamgrUserState id state).
Proof using HP. unfold SendToSamgrUserState, InnerSendToSamgrUserState. frame. Qed.
End Interface.

#[export] Hint Resolve local_start local_stop local_deactivate local_died local_bms_create local_installed
  local_bms_delete local_idm calm_event calm_switched local_event_published local_switched local_removed_event
  local_created_event local_storage_create local_storage_remove local_complete local_storage_start
  local_storage_stop local_samgr : mpres.
#[export] Hint Extern 0 (Local _) => exact _ : mpres.
#[export] Hint Extern 0 (Quiet _) => exact _ : mpres.

(** ** The operations of the manager that keep passive and blind properties *)

Section Operations.
Context {W : Type} {sw : OsSwitches} {cfg : Config} {oscfg : OsConfig} {sysconf : Sysconf}.
Context {cjson : CJsonLib} {fs : FileStore W}.
Context {ams : AbilityManager W} {bms : BundleManager W} {storage : StorageManager W} {idm : UserIdm W}.
Context {tee : TeeAdapter W} {displays : Displays W} {parts : AccountParts W} {control : OsAccountControl W}.

Section Passive.
Context (P : Manager W → Prop) {HP : Passive P}.

Lemma passive_refresh id type : preserves P (RefreshAccountTypeInCache id type).
Proof using HP. unfold RefreshAccountTypeInCache. frame. Qed.
Hint Resolve passive_refresh : mpres.
Lemma calm_real id info : calm P (GetRealOsAccountInfoById id info).
Proof using HP. unfold GetRealOsAccountInfoById, real_type. calmly. Qed.
Lemma passive_real id info : preserves P (GetRealOsAccountInfoById id info).
Proof using HP. apply calm_preserves, calm_real. Qed.
Hint Resolve calm_real passive_real : mpres.
Lemma passive_real_account id e : preserves P (real_account id e).
Proof using HP. unfold real_account. frame. Qed.
Lemma passive_storage_start info : preserves P (SendToStorageAccountStart info).
Proof using HP. unfold SendToStorageAccountStart. frame. Qed.
Lemma passive_subprofile info : preserves P (ActivateSubprofile info).
Proof using HP. unfold ActivateSubprofile. frame. Qed.
Lemma passive_primary d : preserves P (ValidateDisplayPrimary d).
Proof using HP. unfold ValidateDisplayPrimary, ValidateDisplayId. frame. Qed.
Hint Resolve passive_primary : mpres.
Lemma passive_for_activation id d : preserves P (ValidateDisplayForActivation id d).
Proof using HP. unfold ValidateDisplayForActivation. frame. Qed.
Hint Resolve passive_for_activation : mpres.
Lemma passive_prepare id d : preserves P (PrepareActivateOsAccount id d).
Proof using HP. unfold PrepareActivateOsAccount, IsLoggedInAccountsOversize. frame. Qed.
Lemma passive_remove_msg info : preserves P (SendMsgForAccountRemove info).
Proof using HP. unfold SendMsgForAccountRemove. frame. Qed.
Lemma passive_refresh_record id : preserves P (CheckAndRefreshLocalIdRecord id).
Proof using HP. unfold CheckAndRefreshLocalIdRecord. frame. Qed.
Lemma passive_reset_default id : preserves P (ResetDefaultActivatedAccount id).
Proof using HP. unfold ResetDefaultActivatedAccount. frame. Qed.
Lemma passive_prepare_garbage info : preserves P (PrepareRemoveOsAccount info true).
Proof using HP. unfold PrepareRemoveOsAccount. frame. Qed.
Hint Resolve passive_remove_msg passive_refresh_record passive_prepare_garbage : mpres.
Lemma passive_operate_garbage id info : preserves P (RemoveOsAccountOperate id info true).
Proof using HP. unfold RemoveOsAccountOperate. frame. Qed.
End Passive.

Section Blind.
Context (P : Manager W → Prop) {HP : Blind P}.

Lemma blind_clean info : preserves P (CleanForegroundAccountMap info).
Proof using HP. unfold CleanForegroundAccountMap. frame. Qed.
Hint Resolve blind_clean : mpres.
Lemma blind_by_info info : preserves P (DeactivateOsAccountByInfo info).
Proof using HP. unfold DeactivateOsAccountByInfo. frame. Qed.
Hint Resolve blind_by_info : mpres.
Lemma blind_stop info : preserves P (SendMsgForAccountStop info).
Proof using HP. unfold SendMsgForAccountStop. frame. Qed.
Lemma blind_deactivate_msg info stop : preserves P (SendMsgForAccountDeactivate info stop).
Proof using HP. unfold SendMsgForAccountDeactivate. frame. Qed.
Lemma blind_on_started d id : preserves P (on_started d id).
Proof using HP. unfold on_started, PushIdIntoActiveList. frame. Qed.
Hint Resolve blind_on_started : mpres.
Lemma blind_started info d recovery : preserves P (SendToAMSAndSamgrAccountStart info d recovery).
Proof using HP. unfold SendToAMSAndSamgrAccountStart. frame. Qed.
End Blind.
End Operations.

#[export] Hint Resolve passive_refresh calm_real passive_real passive_real_account passive_storage_start
  passive_subprofile passive_primary passive_for_activation passive_prepare passive_remove_msg passive_refresh_record
  passive_reset_default passive_prepare_garbage passive_operate_garbage blind_clean blind_by_info blind_stop
  blind_deactivate_msg blind_on_started blind_started : mpres.
#[export] Hint Extern 0 (Passive _) => exact _ : mpres.
#[export] Hint Extern 0 (Blind _) => exact _ : mpres.
