(* ===== verification/OsAccountCreation.v ===== *)
(** The creation of operating system accounts, their types, and the start of the service,
    inner_os_account_manager.cpp.  A created account is completed when the storage and
    the bundle manager have it; a failure on the way is rolled back. *)
From Stdlib Require Import ZArith Lia Ascii String.
From stdpp Require Import base list gmap sets strings pretty sorting.
From S2P Require Import Prelude ErrorCodes Json FileStore OsAccountInfo OsAccountEnv OsAccountFiles OsAccountConstraints OsAccountServices OsAccountInterface OsAccountManager.

Definition ADMIN_LOCAL_NAME : string := "admin".
Definition STANDARD_LOCAL_NAME : string := "user".
Definition SCENEBOARD : string := "com.ohos.sceneboard".
Definition MAX_INSERT_RETRY_TIMES : nat := 3.
Definition SET_PARAM_MAX_RETRY_TIMES : nat := 3.
(** [MAX_RETRY_TIMES] of inner_os_account_manager.cpp. *)
Definition BOOT_RETRY_TIMES : nat := 50.
Definition MAX_PRIVATE_TYPE_NUMBER : Z := 1.
Definition MAX_MAINTENANCE_TYPE_NUMBER : Z := 1.

(** [CreateOsAccountOptions], os_account_info.h *)
Record CreateOsAccountOptions := mkCreateOptions {
  token : option (list Z);
  isEdmCalling : bool;
  disallowedHapList : list string;
  allowedHapList : option (list string);
  option_shortName : string;
  option_localId : option Z;
}.
Definition CreateOsAccountOptions_new : CreateOsAccountOptions := mkCreateOptions None false [] None "" None.

(** The constructors of an account.

    [OsAccountInfo::OsAccountInfo], os_account_info.cpp:28-39 *)
Definition new_account (localId : Z) (localName shortName : string) (type serialNumber : Z) : OsAccountInfo :=
  {| OsAccountInfo_new with localId_ := localId; localName_ := localName; shortName_ := shortName; type_ := type;
     serialNumber_ := serialNumber |}.

Section Operations.
Context {W : Type} {sw : OsSwitches} {cfg : Config} {oscfg : OsConfig} {sysconf : Sysconf}.
Context {cjson : CJsonLib} {fs : FileStore W}.
Context {ams : AbilityManager W} {bms : BundleManager W} {storage : StorageManager W} {idm : UserIdm W}.
Context {tee : TeeAdapter W} {displays : Displays W} {parts : AccountParts W} {control : OsAccountControl W}.
Local Abbreviation S := (Manager W).

(** *** What is there already *)

(** The accounts of a list of ids that are completed and stay, with their photos. *)
Fixpoint created_accounts (allOsAccountIds : list Z) : M S (list OsAccountInfo) :=
  match allOsAccountIds with
  | [] => mret []
  | id :: allOsAccountIds =>
      '(_, osAccountInfo) ← GetRealOsAccountInfoById id OsAccountInfo_new;
      if isCreateCompleted_ osAccountInfo && negb (toBeRemoved_ osAccountInfo) then
        photo ← mtry (call (GetPhotoById id (photo_ osAccountInfo)));
        let photo := match photo with Ok photo => photo | Err _ => photo_ osAccountInfo end in
        rest ← created_accounts allOsAccountIds;
        mret ({| osAccountInfo with photo_ := photo |} :: rest)
      else created_accounts allOsAccountIds
  end.

(** [IInnerOsAccountManager::QueryAllCreatedOsAccounts], inner_os_account_manager.cpp *)
Definition QueryAllCreatedOsAccounts : M S (list OsAccountInfo) :=
  allOsAccountIds ← call GetOsAccountIdList;
  created_accounts allOsAccountIds.

(** [IInnerOsAccountManager::GetTypeNumber], inner_os_account_manager.cpp *)
Definition GetTypeNumber (type : Z) : M S Z :=
  osAccountList ← QueryAllCreatedOsAccounts;
  mret (i32 (Z.of_nat (length (filter (λ info, type_ info = type) osAccountList)))).

(** [IInnerOsAccountManager::CheckTypeNumber], inner_os_account_manager.cpp *)
Definition CheckTypeNumber (type : Z) : M S unit :=
  if negb (type =? PRIVATE) && negb (type =? MAINTENANCE) then mret tt
  else
    typeNumber ← GetTypeNumber type;
    if (type =? PRIVATE) && (MAX_PRIVATE_TYPE_NUMBER <=? typeNumber)
    then merr ERR_OSACCOUNT_SERVICE_CONTROL_MAX_TYPE_CAN_CREATE_ERROR
    else if (type =? MAINTENANCE) && (MAX_MAINTENANCE_TYPE_NUMBER <=? typeNumber)
    then merr ERR_OSACCOUNT_SERVICE_CONTROL_MAX_TYPE_CAN_CREATE_ERROR
    else mret tt.

(** The names of an account against those of the others. *)
Fixpoint validate_names (osAccountInfo : OsAccountInfo) (osAccountInfos : list OsAccountInfo) : result unit :=
  match osAccountInfos with
  | [] => Ok tt
  | info :: osAccountInfos =>
      if (type_ info =? PRIVATE) || (localId_ info =? localId_ osAccountInfo) || toBeRemoved_ info
      then validate_names osAccountInfo osAccountInfos
      else if bool_decide (localName_ osAccountInfo = localName_ info) then Err ERR_ACCOUNT_COMMON_NAME_HAD_EXISTED
      else if negb (string_empty (shortName_ osAccountInfo)) && bool_decide (shortName_ osAccountInfo = shortName_ info)
      then Err ERR_ACCOUNT_COMMON_SHORT_NAME_HAD_EXISTED
      else validate_names osAccountInfo osAccountInfos
  end.

(** [IInnerOsAccountManager::ValidateOsAccount], inner_os_account_manager.cpp *)
Definition ValidateOsAccount (osAccountInfo : OsAccountInfo) : M S unit :=
  if type_ osAccountInfo =? PRIVATE then mret tt
  else
    osAccountInfos ← call GetOsAccountList;
    of_result (validate_names osAccountInfo osAccountInfos).

(** How many of the accounts a system service made. *)
Fixpoint sa_created (idList : list Z) : M S Z :=
  match idList with
  | [] => mret 0
  | id :: idList =>
      '(r, osAccountInfo) ← ask (GetOsAccountInfoById id OsAccountInfo_new);
      n ← sa_created idList;
      mret (if is_Ok r && (creatorType_ osAccountInfo =? TOKEN_NATIVE) then n + 1 else n)
  end.

(** [IInnerOsAccountManager::GetNonSACreatedOACount], inner_os_account_manager.cpp *)
Definition GetNonSACreatedOACount : M S Z :=
  idList ← call GetOsAccountIdList;
  saCreatedNum ← sa_created idList;
  mret (u32 (Z.of_nat (length idList) - saCreatedNum)).

(** The count stays 0 when it fails.

    [IInnerOsAccountManager::CheckAndCleanOsAccounts], inner_os_account_manager.cpp *)
Definition CheckAndCleanOsAccounts : M S bool :=
  r ← mtry GetNonSACreatedOACount;
  let osAccountNum := match r with Ok n => n | Err _ => 0 end in
  m ← mget;
  if osAccountNum <? maxOsAccountNum (config_ m) then mret true
  else
    removed ← CleanGarbageOsAccounts (-1);
    mret (negb (removed <=? 0)).

(** *** The object of a new account *)

(** [IInnerOsAccountManager::AssignSpecifiedLocalId], inner_os_account_manager.cpp *)
Definition AssignSpecifiedLocalId (specifiedId : Z) : M S Z :=
  if (specifiedId <? START_USER_ID) || (MAX_CREATABLE_USER_ID <? specifiedId)
  then merr ERR_ACCOUNT_COMMON_INVALID_PARAMETER
  else
    '(errCode, osAccountInfo) ← GetRealOsAccountInfoById specifiedId OsAccountInfo_new;
    _ ← (match errCode with
         | Err errCode =>
             if negb (errCode =? ERR_ACCOUNT_COMMON_ACCOUNT_NOT_EXIST_ERROR) then merr errCode
             else ignore (CleanGarbageOsAccounts (-1))
         | Ok _ =>
             if negb (toBeRemoved_ osAccountInfo) && isCreateCompleted_ osAccountInfo
             then merr ERR_OSACCOUNT_SERVICE_LOCAL_ID_ALREADY_EXISTS_ERROR
             else ignore (CleanGarbageOsAccounts (-1))
         end);
    isExists ← call (IsOsAccountExists specifiedId);
    if isExists : bool then merr ERR_OSACCOUNT_SERVICE_LOCAL_ID_ALREADY_EXISTS_ERROR
    else
      _ ← call (SetNextLocalId (i32 (specifiedId + 1)));
      mret specifiedId.

(** The id of a new account. *)
Definition choose_id (type : Z) (options : CreateOsAccountOptions) : M S Z :=
  if type =? MAINTENANCE then mret MAINTENANCE_MODE_ID
  else
    match option_localId options with
    | Some specifiedId => AssignSpecifiedLocalId specifiedId
    | None => call GetAllowCreateId
    end.

(** The caller's object is replaced before the domain account is checked.

    [IInnerOsAccountManager::FillOsAccountInfo], inner_os_account_manager.cpp *)
Definition FillOsAccountInfo (localName : string) (type : Z) (domainInfo : DomainAccountInfo)
    (osAccountInfo : OsAccountInfo) (options : CreateOsAccountOptions) : M S (result unit * OsAccountInfo) :=
  filled ← mtry (
    '(errCode, serialNumber) ← ask (GetSerialNumber 0);
    _ ← of_result errCode;
    id ← choose_id type options;
    constraints ← call (GetConstraintsByType type);
    m ← mget;
    let osAccountInfo := new_account id localName (option_shortName options) type serialNumber in
    let osAccountInfo :=
      if CheckSaCall (world m) then {| osAccountInfo with creatorType_ := TOKEN_NATIVE |} else osAccountInfo in
    time ← ask system_clock;
    mret {| osAccountInfo with constraints_ := constraints; version_ := OS_ACCOUNT_INFO_LATEST_VERSION;
            createTime_ := time |});
  match filled with
  | Err errCode => mret (Err errCode, osAccountInfo)
  | Ok osAccountInfo =>
      let '(set, osAccountInfo) := SetDomainInfo domainInfo osAccountInfo in
      mret (if set : bool then Ok tt else Err ERR_OSACCOUNT_KIT_CREATE_OS_ACCOUNT_FOR_DOMAIN_ERROR, osAccountInfo)
  end.

(** The checks of a filled object, the mark, and the first entries in the files. *)
Definition enter_account (type : Z) (osAccountInfo : OsAccountInfo) : M S unit :=
  _ ← ValidateOsAccount osAccountInfo;
  errCode ← mtry (CheckTypeNumber type);
  match errCode with
  | Err errCode =>
      merr (if errCode =? ERR_OSACCOUNT_SERVICE_CONTROL_MAX_TYPE_CAN_CREATE_ERROR
            then ERR_OSACCOUNT_SERVICE_CONTROL_MAX_CAN_CREATE_ERROR else errCode)
  | Ok _ =>
      added ← CheckAndAddLocalIdOperating (localId_ osAccountInfo);
      if negb added then merr ERR_OSACCOUNT_SERVICE_INNER_ACCOUNT_OPERATING_ERROR
      else
        _ ← call (InsertOsAccount osAccountInfo);
        call (UpdateBaseOAConstraints (to_string (localId_ osAccountInfo)) (constraints_ osAccountInfo) true)
  end.

(** [IInnerOsAccountManager::PrepareOsAccountInfo]#2, inner_os_account_manager.cpp *)
Definition PrepareOsAccountInfo (localName : string) (type : Z) (domainInfo : DomainAccountInfo)
    (osAccountInfo : OsAccountInfo) (options : CreateOsAccountOptions) : M S (result unit * OsAccountInfo) :=
  '(errCode, osAccountInfo) ← FillOsAccountInfo localName type domainInfo osAccountInfo options;
  match errCode with
  | Err errCode => mret (Err errCode, osAccountInfo)
  | Ok _ => errCode ← mtry (enter_account type osAccountInfo); mret (errCode, osAccountInfo)
  end.

(** [std::merge] of the constraints of the type and those given, which are not sorted.

    [IInnerOsAccountManager::PrepareOsAccountInfoWithFullInfo], inner_os_account_manager.cpp *)
Definition PrepareOsAccountInfoWithFullInfo (osAccountInfo : OsAccountInfo) : M S OsAccountInfo :=
  '(errCode, serialNumber) ← ask (GetSerialNumber 0);
  _ ← of_result errCode;
  let osAccountInfo :=
    {| osAccountInfo with serialNumber_ := serialNumber; isCreateCompleted_ := false; isDataRemovable_ := false;
       version_ := OS_ACCOUNT_INFO_LATEST_VERSION |} in
  _ ← call (SetNextLocalId (i32 (localId_ osAccountInfo + 1)));
  errCode ← mtry (call (InsertOsAccount osAccountInfo));
  _ ← (match errCode with
       | Err errCode =>
           if errCode =? ERR_OSACCOUNT_SERVICE_CONTROL_INSERT_FILE_EXISTS_ERROR then mret tt else merr errCode
       | Ok _ => mret tt
       end);
  constraints ← call (GetConstraintsByType (type_ osAccountInfo));
  let constraintsResult := list_merge string_leb constraints (constraints_ osAccountInfo) in
  let osAccountInfo := {| osAccountInfo with constraints_ := constraintsResult |} in
  _ ← call (UpdateBaseOAConstraints (to_string (localId_ osAccountInfo)) constraintsResult true);
  mret osAccountInfo.

(** *** The type in the trusted environment *)

(** [IInnerOsAccountManager::UpdateAccountTypeCache], inner_os_account_manager.cpp *)
Definition UpdateAccountTypeCache (id type : Z) (isRestricted : bool) : M S unit :=
  if SUPPORT_AUTHORIZATION then SetAccountTypeInCache id (type, isRestricted) else mret tt.

(** [IInnerOsAccountManager::InsertOsAccountTypeToTee], inner_os_account_manager.cpp *)
Definition InsertOsAccountTypeToTee (localId type : Z) (token : list Z) : M S unit :=
  errCode ← mtry (call (Tee_SetOsAccountType localId type token));
  match errCode with
  | Ok _ => mret tt
  | Err errCode =>
      if errCode =? ERR_ACCOUNT_COMMON_TEE_REACH_LIMIT then
        removed ← CleanGarbageOsAccounts (-1);
        if 0 <? removed then call (Tee_SetOsAccountType localId type token) else merr errCode
      else merr errCode
  end.

(** [IInnerOsAccountManager::HandleCreateOsAccountToken], inner_os_account_manager.cpp *)
Definition HandleCreateOsAccountToken (osAccountInfo : OsAccountInfo) (options : CreateOsAccountOptions) : M S OsAccountInfo :=
  let id := localId_ osAccountInfo in
  match token options with
  | Some token =>
      errCode ← mtry (InsertOsAccountTypeToTee id (type_ osAccountInfo) token);
      match errCode with
      | Err errCode => unmark_return id (Err errCode)
      | Ok _ => _ ← UpdateAccountTypeCache id (type_ osAccountInfo) false; mret osAccountInfo
      end
  | None =>
      if isEdmCalling options then
        let osAccountInfo :=
          if type_ osAccountInfo =? ADMIN
          then {| osAccountInfo with constraints_ := constraints_ osAccountInfo ++ [CONSTRAINT_ADMIN_AUTHORIZE] |}
          else osAccountInfo in
        _ ← UpdateAccountTypeCache id (type_ osAccountInfo) true;
        mret osAccountInfo
      else unmark_return id (Err ERR_AUTHORIZATION_PRIVILEGE_DENIED)
  end.

(** *** Making the account in the other services *)

(** [IInnerOsAccountManager::RollbackOsAccount], inner_os_account_manager.cpp *)
Definition RollbackOsAccount (osAccountInfo : OsAccountInfo) (needDelStorage needDelBms : bool) : M S unit :=
  ignore (
    _ ← (if SUPPORT_AUTHORIZATION then
           _ ← call (Tee_DelOsAccountType (localId_ osAccountInfo));
           ClearAccountCache (localId_ osAccountInfo)
         else mret tt);
    if negb (isDataRemovable_ osAccountInfo) then call (DelOsAccount (localId_ osAccountInfo))
    else
      _ ← (if needDelBms then SendToBMSAccountDelete osAccountInfo else mret tt);
      _ ← (if needDelStorage then SendToStorageAccountRemove osAccountInfo else mret tt);
      if string_empty (accountName_ (domainInfo_ osAccountInfo)) then call (DelOsAccount (localId_ osAccountInfo))
      else mret tt).

(** [IInnerOsAccountManager::CheckHighestHapInstallForCreate], inner_os_account_manager.cpp *)
Definition CheckHighestHapInstallForCreate (osAccountInfo : OsAccountInfo) : M S unit :=
  if negb (localId_ osAccountInfo =? MAINTENANCE_MODE_ID) then mret tt
  else
    isInstalled ← IsBundleInstalled SCENEBOARD (localId_ osAccountInfo);
    if negb isInstalled then merr ERR_ACCOUNT_COMMON_CHECK_BUNDLE_INSTALLED_ERROR else mret tt.

(** The common event and the subscribers of a new subspace. *)
Definition subprofile_created (localId subProfileId : Z) : M S unit := announce (SubProfileCreated localId subProfileId).

(** [IInnerOsAccountManager::OsAccountCreateOnComplete], inner_os_account_manager.cpp *)
Definition OsAccountCreateOnComplete (osAccountInfo : OsAccountInfo) : M S unit :=
  let localId := localId_ osAccountInfo in
  _ ← SendToCESAccountCreate osAccountInfo;
  _ ← publish localId CREATED;
  foregroundProfileId ←
    (if ENABLE_MULTIPLE_OS_ACCOUNT_SUBSPACE then
       _ ← subprofile_created localId (i32 (localId * OS_ACCOUNT_SUBSPACE_ID_MULTIPLIER));
       mret (foregroundSubProfileId_ osAccountInfo)
     else
       r ← mtry (call (GetOsAccountForegroundSubProfileId localId));
       mret (match r with Ok id => id | Err _ => -1 end));
  subprofile_created localId foregroundProfileId.

(** [IInnerOsAccountManager::SetOsAccountForegroundSubspaceId], inner_os_account_manager.cpp *)
Definition SetOsAccountForegroundSubspaceId (localId subspaceId : Z) : M S unit :=
  '(errCode, osAccountInfo) ← ask (GetOsAccountInfoById localId OsAccountInfo_new);
  match errCode with
  | Err _ => merr ERR_OS_ACCOUNT_SUBPROFILE_NOT_FOUND
  | Ok _ =>
      r ← mtry (call (UpdateOsAccount {| osAccountInfo with foregroundSubProfileId_ := subspaceId |}));
      match r with Err _ => merr ERR_OSACCOUNT_SERVICE_INNER_UPDATE_ACCOUNT_ERROR | Ok _ => mret tt end
  end.

(** [IInnerOsAccountManager::InitOsAccountSubspaceForNewAccount], inner_os_account_manager.cpp *)
Definition InitOsAccountSubspaceForNewAccount (localId : Z) : M S Z :=
  _ ← call (WriteSubProfileContext localId (CreateWithHeadlessDefault localId));
  createRet ← mtry (call (CreateSubProfile localId));
  match createRet with
  | Err createRet => _ ← ignore (call (DeleteSubProfileContextFile localId)); merr createRet
  | Ok subspaceId =>
      switchRet ← mtry (SetOsAccountForegroundSubspaceId localId subspaceId);
      match switchRet with
      | Err switchRet => _ ← ignore (call (DeleteSubProfileContextFile localId)); merr switchRet
      | Ok _ => mret subspaceId
      end
  end.

(** [IInnerOsAccountManager::FinalizeAccountCreate], inner_os_account_manager.cpp *)
Definition FinalizeAccountCreate (osAccountInfo : OsAccountInfo) : M S unit :=
  let localId := localId_ osAccountInfo in
  subspace ← (if ENABLE_MULTIPLE_OS_ACCOUNT_SUBSPACE then
                r ← mtry (InitOsAccountSubspaceForNewAccount localId);
                mret (match r with Ok id => Ok {| osAccountInfo with foregroundSubProfileId_ := id |} | Err e => Err e end)
              else mret (Ok osAccountInfo));
  match subspace with
  | Err _ =>
      _ ← RollbackOsAccount osAccountInfo true true;
      merr ERR_OSACCOUNT_SERVICE_INNER_UPDATE_ACCOUNT_ERROR
  | Ok osAccountInfo =>
      let osAccountInfo := {| osAccountInfo with isCreateCompleted_ := true |} in
      errCode ← mtry (call (UpdateOsAccount osAccountInfo));
      match errCode with
      | Err _ =>
          _ ← RollbackOsAccount osAccountInfo true true;
          merr ERR_OSACCOUNT_SERVICE_INNER_UPDATE_ACCOUNT_ERROR
      | Ok _ =>
          _ ← ignore (SendToStorageAccountCreateComplete localId);
          OsAccountCreateOnComplete osAccountInfo
      end
  end.

(** [IInnerOsAccountManager::SendMsgForAccountCreate], inner_os_account_manager.cpp *)
Definition SendMsgForAccountCreate (osAccountInfo : OsAccountInfo) (options : CreateOsAccountOptions) : M S unit :=
  let localId := localId_ osAccountInfo in
  errCode ← mtry (SendToStorageAccountCreate CleanGarbageOsAccounts osAccountInfo);
  match errCode with
  | Err _ =>
      _ ← RollbackOsAccount osAccountInfo false false;
      merr ERR_ACCOUNT_COMMON_GET_SYSTEM_ABILITY_MANAGER
  | Ok _ =>
      _ ← announce (StaticPublish localId CREATING localId);
      errCode ← mtry (SendToBMSAccountCreate osAccountInfo (disallowedHapList options) (allowedHapList options));
      match errCode with
      | Err errCode => _ ← RollbackOsAccount osAccountInfo true false; merr errCode
      | Ok _ =>
          errCode ← mtry (CheckHighestHapInstallForCreate osAccountInfo);
          match errCode with
          | Err errCode => _ ← RollbackOsAccount osAccountInfo true true; merr errCode
          | Ok _ => FinalizeAccountCreate osAccountInfo
          end
      end
  end.

(** *** The requests *)

(** The checks before an account is made. *)
Definition creation_allowed : M S unit :=
  allowed ← ask IsCreationAllowed;
  if negb allowed then merr ERR_OSACCOUNT_SERVICE_INNER_ACCOUNT_PLUGIN_NOT_ALLOWED_CREATION_ERROR else mret tt.
Definition room_for_account : M S unit :=
  m ← mget;
  if CheckSaCall (world m) then mret tt
  else
    room ← CheckAndCleanOsAccounts;
    if negb room then merr ERR_OSACCOUNT_SERVICE_CONTROL_MAX_CAN_CREATE_ERROR else mret tt.

(** [IInnerOsAccountManager::CreateOsAccount], inner_os_account_manager.cpp *)
Definition CreateOsAccount (name : string) (type : Z) (osAccountInfo : OsAccountInfo) : M S unit :=
  _ ← creation_allowed;
  _ ← room_for_account;
  '(errCode, osAccountInfo) ← PrepareOsAccountInfo name type DomainAccountInfo_new osAccountInfo CreateOsAccountOptions_new;
  match errCode with
  | Err errCode => unmark_return (localId_ osAccountInfo) (Err errCode)
  | Ok _ =>
      errCode ← mtry (SendMsgForAccountCreate osAccountInfo CreateOsAccountOptions_new);
      unmark_return (localId_ osAccountInfo) errCode
  end.

(** [IInnerOsAccountManager::CreateOsAccount]#2, inner_os_account_manager.cpp *)
Definition CreateOsAccountWithOptions (localName shortName : string) (type : Z) (osAccountInfo : OsAccountInfo)
    (options : CreateOsAccountOptions) : M S unit :=
  _ ← creation_allowed;
  let osAccountInfo := {| osAccountInfo with localName_ := localName |} in
  _ ← room_for_account;
  let actualOptions :=
    if string_empty (option_shortName options) && negb (string_empty shortName)
    then {| options with option_shortName := shortName |} else options in
  '(errCode, osAccountInfo) ← PrepareOsAccountInfo localName type DomainAccountInfo_new osAccountInfo actualOptions;
  match errCode with
  | Err errCode => unmark_return (localId_ osAccountInfo) (Err errCode)
  | Ok _ =>
      osAccountInfo ← (if SUPPORT_AUTHORIZATION then HandleCreateOsAccountToken osAccountInfo options else mret osAccountInfo);
      errCode ← mtry (SendMsgForAccountCreate osAccountInfo options);
      unmark_return (localId_ osAccountInfo) errCode
  end.

(** [IInnerOsAccountManager::CreateOsAccountWithFullInfo], inner_os_account_manager.cpp *)
Definition CreateOsAccountWithFullInfo (osAccountInfo : OsAccountInfo) (options : CreateOsAccountOptions) : M S unit :=
  _ ← creation_allowed;
  let id := localId_ osAccountInfo in
  added ← CheckAndAddLocalIdOperating id;
  if negb added then merr ERR_OSACCOUNT_SERVICE_INNER_ACCOUNT_OPERATING_ERROR
  else
    '(errCode, oldInfo) ← ask (GetOsAccountInfoById id OsAccountInfo_new);
    let absent :=
      match errCode with Ok _ => true | Err errCode => errCode =? ERR_ACCOUNT_COMMON_ACCOUNT_NOT_EXIST_ERROR end in
    if negb absent then unmark_return id (match errCode with Err e => Err e | Ok _ => Ok tt end)
    else
      removed ←
        (if is_Ok errCode && isCreateCompleted_ oldInfo then
           if toBeRemoved_ oldInfo then mtry (RemoveOsAccountOperate id osAccountInfo false)
           else mret (Err ERR_OSACCOUNT_SERVICE_INNER_ACCOUNT_ALREADY_EXIST_ERROR)
         else mret (Ok osAccountInfo));
      match removed with
      | Err errCode => unmark_return id (Err errCode)
      | Ok osAccountInfo =>
          errCode ← mtry (PrepareOsAccountInfoWithFullInfo osAccountInfo);
          match errCode with
          | Err errCode => unmark_return id (Err errCode)
          | Ok osAccountInfo =>
              errCode ←
                (if SUPPORT_AUTHORIZATION then
                   match token options with
                   | Some token =>
                       errCode ← mtry (InsertOsAccountTypeToTee id (type_ osAccountInfo) token);
                       match errCode with
                       | Err errCode => mret (Err errCode)
                       | Ok _ => _ ← UpdateAccountTypeCache id (type_ osAccountInfo) false; mret (Ok tt)
                       end
                   | None => _ ← UpdateAccountTypeCache id (type_ osAccountInfo) true; mret (Ok tt)
                   end
                 else mret (Ok tt));
              match errCode with
              | Err errCode => unmark_return id (Err errCode)
              | Ok _ =>
                  errCode ← mtry (SendMsgForAccountCreate osAccountInfo options);
                  unmark_return id errCode
              end
          end
      end.

(** *** Changing the type of an account *)

(** [IInnerOsAccountManager::SetOsAccountTypeInTEE], inner_os_account_manager.cpp *)
Definition SetOsAccountTypeInTEE (id type : Z) (tokenData : list Z) : M S unit :=
  if SUPPORT_AUTHORIZATION then call (Tee_SetOsAccountType id type tokenData) else mret tt.

(** The file is a fall-back: with the trusted environment its failure does not count.

    [IInnerOsAccountManager::SetOsAccountType], inner_os_account_manager.cpp *)
Definition SetOsAccountType (id type : Z) (tokenData : list Z) : M S unit :=
  '(errCode, osAccountInfo) ← ask (GetOsAccountInfoById id OsAccountInfo_new);
  _ ← of_result errCode;
  _ ← CheckTypeNumber type;
  added ← CheckAndAddLocalIdOperating id;
  if negb added then merr ERR_OSACCOUNT_SERVICE_INNER_ACCOUNT_OPERATING_ERROR
  else
    errCode ← mtry (SetOsAccountTypeInTEE id type tokenData);
    match errCode with
    | Err errCode => unmark_return id (Err errCode)
    | Ok _ =>
        _ ← UpdateAccountTypeCache id type false;
        let osAccountInfo :=
          if type =? ADMIN
          then {| osAccountInfo with constraints_ := remove_all CONSTRAINT_ADMIN_AUTHORIZE (constraints_ osAccountInfo) |}
          else osAccountInfo in
        let osAccountInfo := {| osAccountInfo with type_ := type |} in
        errCode ← mtry (call (UpdateOsAccount osAccountInfo));
        match errCode, SUPPORT_AUTHORIZATION with
        | Err errCode, false => unmark_return id (Err errCode)
        | _, _ =>
            _ ← PublishCommonEvent osAccountInfo COMMON_EVENT_USER_INFO_UPDATED;
            unmark_return id (Ok tt)
        end
    end.

(** [IInnerOsAccountManager::GetOsAccountType], inner_os_account_manager.cpp *)
Definition GetOsAccountType (id : Z) : M S Z :=
  '(errCode, osAccountInfo) ← ask (GetOsAccountInfoById id OsAccountInfo_new);
  match errCode with
  | Err _ => merr ERR_ACCOUNT_COMMON_ACCOUNT_NOT_EXIST_ERROR
  | Ok _ =>
      if SUPPORT_AUTHORIZATION && negb IS_EMULATOR then
        cachedType ← GetAccountTypeFromCache id;
        match cachedType with
        | Some cached => mret cached.1
        | None =>
            r ← mtry (RefreshAccountTypeInCache id (type_ osAccountInfo));
            mret (match r with Ok refreshed => refreshed.1 | Err _ => type_ osAccountInfo end)
        end
      else mret (type_ osAccountInfo)
  end.

(** The types the trusted environment has. *)
Fixpoint tee_types (ids : list Z) (typeMap : gmap Z (Z * bool)) : M S (gmap Z (Z * bool)) :=
  match ids with
  | [] => mret typeMap
  | id :: ids =>
      r ← mtry (call (Tee_GetOsAccountType id));
      tee_types ids (match r with Ok typeTee => <[id := (typeTee, false)]> typeMap | Err _ => typeMap end)
  end.

(** [IInnerOsAccountManager::PreloadAccountTypesFromTee], inner_os_account_manager.cpp *)
Definition PreloadAccountTypesFromTee (ids : list Z) : M S unit :=
  if SUPPORT_AUTHORIZATION then
    typeMap ← tee_types ids ∅;
    SetAccountTypesInCache typeMap
  else mret tt.

(** The accounts no operation is running on, marked and unmarked one by one. *)
Fixpoint migratable (osAccountInfos : list OsAccountInfo) : M S (list OsAccountInfo) :=
  match osAccountInfos with
  | [] => mret []
  | osAccountInfo :: osAccountInfos =>
      if negb (isCreateCompleted_ osAccountInfo) || toBeRemoved_ osAccountInfo then migratable osAccountInfos
      else
        added ← CheckAndAddLocalIdOperating (localId_ osAccountInfo);
        if negb added then migratable osAccountInfos
        else
          _ ← RemoveLocalIdToOperating (localId_ osAccountInfo);
          rest ← migratable osAccountInfos;
          mret (osAccountInfo :: rest)
  end.

(** [IInnerOsAccountManager::MigrateOsAccountTypesToTEE], inner_os_account_manager.cpp *)
Definition MigrateOsAccountTypesToTEE : M S unit :=
  if SUPPORT_AUTHORIZATION then
    osAccountInfos ← call GetOsAccountList;
    accounts ← migratable osAccountInfos;
    let ids := localId_ <$> accounts in
    if bool_decide (ids = []) then mret tt
    else
      errCode ← mtry (call (MigrateOsAccountTypesToTee ids (type_ <$> accounts)));
      _ ← PreloadAccountTypesFromTee ids;
      of_result errCode
  else mret tt.

(** *** The start of the service *)

(** [IInnerOsAccountManager::RetryToInsertOsAccount], inner_os_account_manager.cpp *)
Definition RetryToInsertOsAccount (osAccountInfo : OsAccountInfo) : M S unit :=
  r ← retrying (MAX_INSERT_RETRY_TIMES - 1)
        (r ← mtry (call (InsertOsAccount osAccountInfo));
         let r := if bool_decide (r = Err ERR_OSACCOUNT_SERVICE_CONTROL_INSERT_FILE_EXISTS_ERROR) then Ok tt else r in
         mret (negb (is_Ok r), r));
  of_result r.

(** [IInnerOsAccountManager::CreateBaseAdminAccount], inner_os_account_manager.cpp *)
Definition CreateBaseAdminAccount : M S unit :=
  r ← mtry (call (IsOsAccountExists ADMIN_LOCAL_ID));
  if match r with Ok isExistsAccount => isExistsAccount | Err _ => false end then mret tt
  else
    let serialNumber := CARRY_NUM * SERIAL_NUMBER_NUM_START_FOR_ADMIN + ADMIN_LOCAL_ID in
    time ← ask system_clock;
    ignore (call (InsertOsAccount
      {| (new_account ADMIN_LOCAL_ID ADMIN_LOCAL_NAME "" ADMIN serialNumber) with
         createTime_ := time; isCreateCompleted_ := true; isActivated_ := true |})).

(** Whether the account was completed, and the object.

    [IInnerOsAccountManager::CreateBaseStandardAccount], inner_os_account_manager.cpp *)
Definition CreateBaseStandardAccount (osAccountInfo : OsAccountInfo) : M S (bool * OsAccountInfo) :=
  '(_, serialNumber) ← ask (GetSerialNumber 0);
  let osAccountInfo := {| osAccountInfo with serialNumber_ := serialNumber |} in
  errCode ← mtry (call (GetConstraintsByType (type_ osAccountInfo)));
  match errCode with
  | Err _ => mret (false, osAccountInfo)
  | Ok constraints =>
      time ← ask system_clock;
      let osAccountInfo :=
        {| osAccountInfo with constraints_ := constraints; createTime_ := time; isCreateCompleted_ := false;
           isDataRemovable_ := false; version_ := OS_ACCOUNT_INFO_LATEST_VERSION |} in
      _ ← ignore (RetryToInsertOsAccount osAccountInfo);
      errCode ← mtry (SendMsgForAccountCreate osAccountInfo CreateOsAccountOptions_new);
      mret (is_Ok errCode, osAccountInfo)
  end.

(** [do ... while (retryTimes < MAX_RETRY_TIMES)], at most [n + 1] rounds. *)
Fixpoint create_first_account (n : nat) (osAccountInfo : OsAccountInfo) : M S unit :=
  '(created, osAccountInfo) ← CreateBaseStandardAccount osAccountInfo;
  if created : bool then mret tt
  else match n with O => mret tt | Datatypes.S n => create_first_account n osAccountInfo end.

(** [initAccounts] are the accounts without files; false stops the service.

    [IInnerOsAccountManager::Init], inner_os_account_manager.cpp *)
Definition Init (initAccounts : gset Z) : M S bool :=
  _ ← CreateBaseAdminAccount;
  m ← mget;
  let isFirstBoot := bool_decide (START_USER_ID ∈ initAccounts) in
  blocked ←
    (if ENABLE_U1_ACCOUNT && bool_decide (U1_ID ∈ initAccounts) && isU1Enable (config_ m) then
       '(result, _) ← CreateBaseStandardAccount
          (new_account U1_ID (u1AccountName (config_ m)) "" (u1AccountType (config_ m)) 0);
       mret (negb result && isBlockBoot (config_ m) && isFirstBoot)
     else mret false);
  if blocked : bool then mret false
  else if isFirstBoot then
    let osAccountInfo :=
      new_account START_USER_ID (if ENABLE_DEFAULT_ADMIN_NAME then STANDARD_LOCAL_NAME else "") "" ADMIN 0 in
    _ ← ignore (SetDefaultActivatedOsAccount DEFAULT_DISPLAY_ID (localId_ osAccountInfo));
    _ ← create_first_account (BOOT_RETRY_TIMES - 1) osAccountInfo;
    mret true
  else mret true.

(** The first account that can be used, or the given object.

    [IInnerOsAccountManager::RetryToGetAccount], inner_os_account_manager.cpp *)
Definition RetryToGetAccount (osAccountInfo : OsAccountInfo) : M S OsAccountInfo :=
  found ← retrying (BOOT_RETRY_TIMES - 1)
    (r ← mtry QueryAllCreatedOsAccounts;
     let found := match r with
                  | Ok (info :: _) => if is_Ok (IsValidOsAccount info) then Some info else None
                  | _ => None
                  end in
     mret (bool_decide (found = None), found));
  mret (default osAccountInfo found).

(** [IInnerOsAccountManager::ActivateU1Account], inner_os_account_manager.cpp *)
Definition ActivateU1Account : M S unit :=
  m ← mget;
  if negb ENABLE_U1_ACCOUNT || negb (isU1Enable (config_ m)) then mret tt
  else
    errCode ← mtry (ActivateOsAccountInBackground U1_ID);
    match errCode with
    | Ok _ => mret tt
    | Err errCode =>
        if isBlockBoot (config_ m) && negb (errCode =? ERR_ACCOUNT_COMMON_ACCOUNT_NOT_EXIST_ERROR)
        then merr errCode else mret tt
    end.

(** [IInnerOsAccountManager::PrepareForDefaultAccount], inner_os_account_manager.cpp *)
Definition PrepareForDefaultAccount (activatedId : Z) (osAccountInfo : OsAccountInfo) : M S OsAccountInfo :=
  '(errCode, osAccountInfo) ← GetRealOsAccountInfoById activatedId osAccountInfo;
  if is_Ok errCode && is_Ok (IsValidOsAccount osAccountInfo) then mret osAccountInfo
  else
    osAccountInfo ← (if bool_decide (errCode = Err ERR_ACCOUNT_COMMON_FILE_ACCESS_DENIED)
                     then mret osAccountInfo else RetryToGetAccount osAccountInfo);
    _ ← ignore (SetDefaultActivatedOsAccount DEFAULT_DISPLAY_ID (localId_ osAccountInfo));
    mret osAccountInfo.

(** [IInnerOsAccountManager::SetAccountReadyParamWithRetry], inner_os_account_manager.cpp *)
Definition SetAccountReadyParamWithRetry : M S unit :=
  r ← retrying SET_PARAM_MAX_RETRY_TIMES (r ← mtry (call SetAccountReady); mret (negb (is_Ok r), r));
  of_result r.

(** [IInnerOsAccountManager::ActivateDefaultOsAccount], inner_os_account_manager.cpp *)
Definition ActivateDefaultOsAccount : M S unit :=
  m ← mget;
  activatedId ←
    (match defaultActivatedIds_ m !! DEFAULT_DISPLAY_ID with
     | Some activatedId => mret activatedId
     | None => _ ← set_default DEFAULT_DISPLAY_ID START_USER_ID; mret START_USER_ID
     end);
  _ ← ActivateU1Account;
  osAccountInfo ← PrepareForDefaultAccount activatedId {| OsAccountInfo_new with localId_ := START_USER_ID |};
  let preActivated := isActivated_ osAccountInfo in
  osAccountInfo ← SendMsgForAccountActivate osAccountInfo true DEFAULT_DISPLAY_ID true;
  _ ← (if negb preActivated then ActivateSubprofile osAccountInfo else mret tt);
  SetAccountReadyParamWithRetry.

(** The accounts that were active are activated again, up to the first failure.

    [IInnerOsAccountManager::RestartActiveAccount], inner_os_account_manager.cpp *)
Definition RestartActiveAccount : M S unit :=
  osAccountInfos ← mtry QueryAllCreatedOsAccounts;
  match osAccountInfos with
  | Err _ => mret tt
  | Ok osAccountInfos =>
      ignore (mfor osAccountInfos (λ osAccountInfo,
        if isActivated_ osAccountInfo && negb (localId_ osAccountInfo =? START_USER_ID)
           && negb (displayId_ osAccountInfo =? INVALID_DISPLAY_ID)
        then ActivateOsAccount (localId_ osAccountInfo) true (displayId_ osAccountInfo) false
        else mret tt))
  end.

(** [IInnerOsAccountManager::RestoreAllForegroundAccounts], inner_os_account_manager.cpp *)
Definition RestoreAllForegroundAccounts : M S unit :=
  m ← mget;
  let pendingAccounts :=
    filter (λ '(displayId, localId), displayId ≠ DEFAULT_DISPLAY_ID ∧ localId ≠ INVALID_OS_ACCOUNT_ID)
      (ordered_list Z.le (defaultActivatedIds_ m)) in
  mfor pendingAccounts (λ '(displayId, localId), ignore (ActivateOsAccount localId true displayId true)).

(** [IInnerOsAccountManager::ResetAccountStatus], inner_os_account_manager.cpp *)
Definition ResetAccountStatus : M S unit :=
  idList ← mtry (call GetOsAccountIdList);
  mfor (match idList with Ok idList => idList | Err _ => [] end) (λ id, ignore (DeactivateOsAccountById id)).
End Operations.
