(* ===== verification/OsAccountQueries.v ===== *)
(** What the manager of operating system accounts answers and what may be changed of an
    account, inner_os_account_manager.cpp: constraints, names, photos, displays, domain
    accounts. *)
From Stdlib Require Import ZArith Lia Ascii String.
From stdpp Require Import base list gmap sets strings pretty sorting.
From S2P Require Import Prelude ErrorCodes Json FileStore OsAccountInfo OsAccountEnv OsAccountFiles OsAccountConstraints OsAccountServices OsAccountInterface OsAccountManager OsAccountCreation.

Definition CONSTRAINT_CREATE_ACCOUNT_DIRECTLY : string := "constraint.os.account.create.directly".
Definition LOGIN_BACKGROUND : Z := 1.
Definition LOGIN : Z := 2.

(** [ForegroundOsAccount], os_account_info.h *)
Record ForegroundOsAccount := mkForegroundOsAccount { fg_displayId : Z; fg_localId : Z }.

(** The elements of [l] that are not there yet go to the end, one by one. *)
Fixpoint push_new (constraints l : list string) : list string :=
  match l with
  | [] => constraints
  | x :: l => push_new (if bool_decide (x ∈ constraints) then constraints else constraints ++ [x]) l
  end.

Section Operations.
Context {W : Type} {sw : OsSwitches} {cfg : Config} {oscfg : OsConfig} {sysconf : Sysconf}.
Context {cjson : CJsonLib} {fs : FileStore W}.
Context {ams : AbilityManager W} {bms : BundleManager W} {storage : StorageManager W} {idm : UserIdm W}.
Context {tee : TeeAdapter W} {displays : Displays W} {parts : AccountParts W} {control : OsAccountControl W}.
Local Abbreviation S := (Manager W).

(** *** Restoring what a backup left *)

Definition set_restore (needed : bool) : M S unit := mmodify (λ m, {| m with isNeedRestoreRecover_ := needed |}).

(** [IInnerOsAccountManager::GetOsAccountLocalIds], inner_os_account_manager.cpp *)
Definition GetOsAccountLocalIds : M S (list Z) :=
  osAccountInfos ← QueryAllCreatedOsAccounts;
  mret (filter (λ localId, START_USER_ID ≤ localId) (localId_ <$> osAccountInfos)).

(** The loop over the accounts: whether one of them was busy. *)
Fixpoint rollback_accounts (allIds : list Z) (needRetry : bool) : M S bool :=
  match allIds with
  | [] => mret needRetry
  | localId :: allIds =>
      added ← CheckAndAddLocalIdOperating localId;
      if negb added then rollback_accounts allIds true
      else
        ret ← mtry (call (RollbackFromBackupUnlocked localId));
        _ ← RemoveLocalIdToOperating localId;
        match ret with
        | Err ret => _ ← set_restore true; merr ret
        | Ok _ => rollback_accounts allIds needRetry
        end
  end.

(** [IInnerOsAccountManager::CheckAndRecoverRestore], inner_os_account_manager.cpp *)
Definition CheckAndRecoverRestore : M S unit :=
  m ← mget;
  if negb (isNeedRestoreRecover_ m) then mret tt
  else
    _ ← set_restore false;
    allIds ← mtry GetOsAccountLocalIds;
    match allIds with
    | Err errCode => _ ← set_restore true; merr errCode
    | Ok allIds =>
        needRetry ← rollback_accounts allIds false;
        if needRetry : bool then set_restore true else mret tt
    end.

(** What a request does first in a build with backups. *)
Definition recover_first : M S unit :=
  if SUPPORT_BACKUP_RESTORE then
    r ← mtry CheckAndRecoverRestore;
    match r with Err _ => merr ERR_ACCOUNT_COMMON_FILE_WRITE_FAILED | Ok _ => mret tt end
  else mret tt.

(** The account of the files, or the error [e] for every failure. *)
Definition file_account (id e : Z) : M S OsAccountInfo :=
  '(errCode, osAccountInfo) ← ask (GetOsAccountInfoById id OsAccountInfo_new);
  match errCode with Err _ => merr e | Ok _ => mret osAccountInfo end.
Definition existing_account (id : Z) : M S OsAccountInfo := file_account id ERR_ACCOUNT_COMMON_ACCOUNT_NOT_EXIST_ERROR.

(** [existing_account] that is not to be removed. *)
Definition staying_account (id : Z) : M S OsAccountInfo :=
  osAccountInfo ← existing_account id;
  if toBeRemoved_ osAccountInfo then merr ERR_OSACCOUNT_SERVICE_INNER_ACCOUNT_TO_BE_REMOVED_ERROR
  else mret osAccountInfo.

(** [UpdateOsAccount] with the error every failure becomes. *)
Definition store_account (osAccountInfo : OsAccountInfo) : M S unit :=
  r ← mtry (call (UpdateOsAccount osAccountInfo));
  match r with Err _ => merr ERR_OSACCOUNT_SERVICE_INNER_UPDATE_ACCOUNT_ERROR | Ok _ => mret tt end.

(** *** Questions about an account *)

(** [IInnerOsAccountManager::IsOsAccountExists], inner_os_account_manager.cpp *)
Definition IsOsAccountExists (id : Z) : M S bool :=
  r ← mtry (call (OsAccountServices.IsOsAccountExists id));
  mret (match r with Ok isOsAccountExits => isOsAccountExits | Err _ => false end).

(** [IInnerOsAccountManager::IsOsAccountActived], inner_os_account_manager.cpp *)
Definition IsOsAccountActived (id : Z) : M S bool :=
  osAccountInfo ← real_account id ERR_ACCOUNT_COMMON_ACCOUNT_NOT_EXIST_ERROR;
  if id =? ADMIN_LOCAL_ID then mret true else mret (isActivated_ osAccountInfo).

(** [IInnerOsAccountManager::IsOsAccountVerified], inner_os_account_manager.cpp *)
Definition IsOsAccountVerified (id : Z) : M S bool :=
  osAccountInfo ← real_account id ERR_ACCOUNT_COMMON_ACCOUNT_NOT_EXIST_ERROR;
  mret (isVerified_ osAccountInfo).

(** [IInnerOsAccountManager::IsOsAccountDeactivating], inner_os_account_manager.cpp *)
Definition IsOsAccountDeactivating (id : Z) : M S bool := m ← mget; mret (default false (deactivatingAccounts_ m !! id)).

(** [IInnerOsAccountManager::IsOsAccountLocking], inner_os_account_manager.cpp *)
Definition IsOsAccountLocking (id : Z) : M S bool := m ← mget; mret (default false (lockingAccounts_ m !! id)).

(** [IInnerOsAccountManager::GetOsAccountInfoById], inner_os_account_manager.cpp *)
Definition GetOsAccountInfoById (id : Z) : M S OsAccountInfo := real_account id ERR_ACCOUNT_COMMON_ACCOUNT_NOT_EXIST_ERROR.

(** [IInnerOsAccountManager::IsOsAccountCompleted], inner_os_account_manager.cpp *)
Definition IsOsAccountCompleted (id : Z) : M S bool :=
  '(errCode, osAccountInfo) ← ask (OsAccountServices.GetOsAccountInfoById id OsAccountInfo_new);
  _ ← of_result errCode;
  mret (isCreateCompleted_ osAccountInfo).

(** [IInnerOsAccountManager::GetOsAccountShortName], inner_os_account_manager.cpp *)
Definition GetOsAccountShortName (id : Z) : M S string :=
  _ ← recover_first;
  osAccountInfo ← existing_account id;
  mret (shortName_ osAccountInfo).

(** [name] is what the caller passes in.

    [IInnerOsAccountManager::GetOsAccountName], inner_os_account_manager.cpp *)
Definition GetOsAccountName (id : Z) (name : string) : M S string :=
  _ ← recover_first;
  osAccountInfo ← existing_account id;
  m ← mget;
  let isFirstOsAccountV0 := (id =? START_USER_ID) && (version_ osAccountInfo =? OS_ACCOUNT_INFO_DEFAULT_VERSION) in
  if ENABLE_ACCOUNT_NAME_PRIVACY_CONTROL && negb (type_ osAccountInfo =? PRIVATE) && negb (id =? MAINTENANCE_MODE_ID)
     && negb isFirstOsAccountV0 && negb (CheckSystemApp (world m))
  then mret (if ENABLE_DEFAULT_ADMIN_NAME then STANDARD_LOCAL_NAME else name)
  else mret (localName_ osAccountInfo).

(** [IInnerOsAccountManager::GetSerialNumberByOsAccountLocalId], inner_os_account_manager.cpp *)
Definition GetSerialNumberByOsAccountLocalId (id : Z) : M S Z :=
  osAccountInfo ← existing_account id;
  mret (serialNumber_ osAccountInfo).

(** [IInnerOsAccountManager::GetOsAccountLocalIdBySerialNumber], inner_os_account_manager.cpp *)
Definition GetOsAccountLocalIdBySerialNumber (serialNumber : Z) : M S Z :=
  if serialNumber =? CARRY_NUM * SERIAL_NUMBER_NUM_START_FOR_ADMIN + ADMIN_LOCAL_ID then mret ADMIN_LOCAL_ID
  else
    osAccountInfos ← call GetOsAccountList;
    let id := match find (λ info, serialNumber =? serialNumber_ info) osAccountInfos with
              | Some info => localId_ info | None => -1 end in
    if id =? -1 then merr ERR_OSACCOUNT_SERVICE_INNER_SELECT_ERROR else mret id.

(** [IInnerOsAccountManager::GetOsAccountCredentialId], inner_os_account_manager.cpp *)
Definition GetOsAccountCredentialId (id : Z) : M S Z :=
  '(errCode, osAccountInfo) ← ask (OsAccountServices.GetOsAccountInfoById id OsAccountInfo_new);
  _ ← of_result errCode;
  mret (credentialId_ osAccountInfo).

(** [GetDomainAccountStatus], inner_os_account_manager.cpp *)
Definition GetDomainAccountStatus (osAccountInfo : OsAccountInfo) : M S OsAccountInfo :=
  let domainAccountInfo := domainInfo_ osAccountInfo in
  resultInfo ← call (GetDomainAccountInfo domainAccountInfo);
  status ←
    (if negb (isAuthenticated resultInfo) then mret LOGOUT
     else
       r ← mtry (IsOsAccountActived (localId_ osAccountInfo));
       mret (match r with Ok true => LOGIN | _ => LOGIN_BACKGROUND end));
  mret (SetDomainInfo {| domainAccountInfo with additionInfo_ := additionInfo_ resultInfo; status_ := status |}
          osAccountInfo).2.

(** [IInnerOsAccountManager::QueryOsAccountById], inner_os_account_manager.cpp *)
Definition QueryOsAccountById (id : Z) : M S OsAccountInfo :=
  _ ← recover_first;
  osAccountInfo ← real_account id ERR_ACCOUNT_COMMON_ACCOUNT_NOT_EXIST_ERROR;
  osAccountInfo ←
    (if negb (string_empty (photo_ osAccountInfo)) then
       photo ← call (GetPhotoById (localId_ osAccountInfo) (photo_ osAccountInfo));
       mret {| osAccountInfo with photo_ := photo |}
     else mret osAccountInfo);
  if SUPPORT_DOMAIN_ACCOUNTS then
    r ← mtry (GetDomainAccountStatus osAccountInfo);
    mret (match r with Ok osAccountInfo => osAccountInfo | Err _ => osAccountInfo end)
  else mret osAccountInfo.

(** [IInnerOsAccountManager::GetOsAccountProfilePhoto], inner_os_account_manager.cpp *)
Definition GetOsAccountProfilePhoto (id : Z) : M S string :=
  _ ← recover_first;
  r ← mtry (QueryOsAccountById id);
  match r with
  | Err _ => merr ERR_ACCOUNT_COMMON_ACCOUNT_NOT_EXIST_ERROR
  | Ok osAccountInfo => mret (photo_ osAccountInfo)
  end.

(** [IInnerOsAccountManager::CheckLocalIdRestricted], inner_os_account_manager.cpp *)
Definition CheckLocalIdRestricted (localId : Z) : M S unit :=
  if localId =? ADMIN_LOCAL_ID then merr ERR_OSACCOUNT_SERVICE_MANAGER_ID_ERROR
  else if START_USER_ID <=? localId then mret tt
  else
    hasAccount ← IsOsAccountExists localId;
    merr (if hasAccount : bool then ERR_OSACCOUNT_SERVICE_MANAGER_ID_ERROR
          else ERR_ACCOUNT_COMMON_ACCOUNT_NOT_EXIST_ERROR).

(** *** Numbers of accounts *)

(** [IInnerOsAccountManager::GetCreatedOsAccountsCount], inner_os_account_manager.cpp *)
Definition GetCreatedOsAccountsCount : M S Z := idList ← call GetOsAccountIdList; mret (u32 (Z.of_nat (length idList))).

(** [IInnerOsAccountManager::QueryMaxOsAccountNumber], inner_os_account_manager.cpp *)
Definition QueryMaxOsAccountNumber : M S Z :=
  m ← mget; mret (if ENABLE_MULTIPLE_OS_ACCOUNTS then maxOsAccountNum (config_ m) else 1).

(** [IInnerOsAccountManager::QueryMaxLoggedInOsAccountNumber], inner_os_account_manager.cpp *)
Definition QueryMaxLoggedInOsAccountNumber : M S Z :=
  m ← mget; mret (if ENABLE_MULTIPLE_OS_ACCOUNTS then maxLoggedInOsAccountNum (config_ m) else 1).

(** [IInnerOsAccountManager::IsMultiOsAccountEnable], inner_os_account_manager.cpp *)
Definition IsMultiOsAccountEnable : M S bool :=
  if ENABLE_MULTIPLE_OS_ACCOUNTS then call GetIsMultiOsAccountEnable else mret false.

(** *** Constraints *)

(** A list that cannot be read counts as empty.

    [IInnerOsAccountManager::IsOsAccountConstraintEnable], inner_os_account_manager.cpp *)
Definition IsOsAccountConstraintEnable (id : Z) (constraint : string) : M S bool :=
  osAccountInfo ← real_account id ERR_ACCOUNT_COMMON_ACCOUNT_NOT_EXIST_ERROR;
  if bool_decide (constraint ∈ constraints_ osAccountInfo) then mret true
  else
    constraints ← mtry (call GetGlobalOAConstraintsList);
    if match constraints with Ok constraints => bool_decide (constraint ∈ constraints) | Err _ => false end
    then mret true
    else
      constraints ← mtry (call (GetSpecificOAConstraintsList id));
      mret (match constraints with Ok constraints => bool_decide (constraint ∈ constraints) | Err _ => false end).

(** [IInnerOsAccountManager::GetOsAccountAllConstraints], inner_os_account_manager.cpp *)
Definition GetOsAccountAllConstraints (id : Z) : M S (list string) :=
  _ ← recover_first;
  osAccountInfo ← real_account id ERR_ACCOUNT_COMMON_ACCOUNT_NOT_EXIST_ERROR;
  globalConstraints ← call GetGlobalOAConstraintsList;
  specificConstraints ← call (GetSpecificOAConstraintsList id);
  mret (push_new (push_new (constraints_ osAccountInfo) globalConstraints) specificConstraints).

(** [IInnerOsAccountManager::QueryOsAccountConstraintSourceTypes], inner_os_account_manager.cpp *)
Definition QueryOsAccountConstraintSourceTypes (id : Z) (constraint : string) : M S (list ConstraintSourceTypeInfo) :=
  isOsAccountConstraintEnable ← IsOsAccountConstraintEnable id constraint;
  if negb isOsAccountConstraintEnable then mret [mkConstraintSource (-1) CONSTRAINT_NOT_EXIST]
  else
    isExits ← mtry (call (IsFromBaseOAConstraintsList id constraint));
    m ← mget;
    globalSourceList ← mtry (call (IsFromGlobalOAConstraintsList id (deviceOwnerId_ m) constraint));
    specificSourceList ← mtry (call (IsFromSpecificOAConstraintsList id (deviceOwnerId_ m) constraint));
    mret ((match isExits with Ok true => [mkConstraintSource (-1) CONSTRAINT_TYPE_BASE] | _ => [] end)
          ++ (match globalSourceList with Ok l => l | Err _ => [] end)
          ++ (match specificSourceList with Ok l => l | Err _ => [] end)).

(** [IInnerOsAccountManager::SetOsAccountConstraints], inner_os_account_manager.cpp *)
Definition SetOsAccountConstraints (id : Z) (constraints : list string) (enable : bool) : M S unit :=
  osAccountInfo ← staying_account id;
  valid ← ask (CheckConstraints constraints);
  if negb valid then merr ERR_ACCOUNT_COMMON_INVALID_PARAMETER
  else
    let oldConstraints :=
      if enable then push_new (constraints_ osAccountInfo) constraints
      else foldl (λ l x, remove_all x l) (constraints_ osAccountInfo) constraints in
    let osAccountInfo := {| osAccountInfo with constraints_ := oldConstraints |} in
    _ ← store_account osAccountInfo;
    PublishCommonEvent osAccountInfo COMMON_EVENT_USER_INFO_UPDATED.

(** [IInnerOsAccountManager::SetBaseOsAccountConstraints], inner_os_account_manager.cpp *)
Definition SetBaseOsAccountConstraints (id : Z) (constraints : list string) (enable : bool) : M S unit :=
  _ ← recover_first;
  _ ← SetOsAccountConstraints id constraints enable;
  call (UpdateBaseOAConstraints (to_string id) constraints enable).

(** [IInnerOsAccountManager::DealWithDeviceOwnerId], inner_os_account_manager.cpp *)
Definition DealWithDeviceOwnerId (isDeviceOwner : bool) (localId : Z) : M S unit :=
  m ← mget;
  if isDeviceOwner && negb (localId =? deviceOwnerId_ m) then
    _ ← call (UpdateDeviceOwnerId localId);
    set_owner localId
  else if negb isDeviceOwner && (localId =? deviceOwnerId_ m) then
    _ ← call (UpdateDeviceOwnerId (-1));
    set_owner (-1)
  else mret tt.

(** A failure of the update is only reported.

    [IInnerOsAccountManager::SetGlobalOsAccountConstraints], inner_os_account_manager.cpp *)
Definition SetGlobalOsAccountConstraints (constraints : list string) (enable : bool) (enforcerId : Z)
    (isDeviceOwner : bool) : M S unit :=
  _ ← staying_account enforcerId;
  valid ← ask (CheckConstraints constraints);
  if negb valid then merr ERR_ACCOUNT_COMMON_INVALID_PARAMETER
  else
    _ ← ignore (call (UpdateGlobalOAConstraints (to_string enforcerId) constraints enable));
    DealWithDeviceOwnerId isDeviceOwner enforcerId.

(** [IInnerOsAccountManager::SetSpecificOsAccountConstraints], inner_os_account_manager.cpp *)
Definition SetSpecificOsAccountConstraints (constraints : list string) (enable : bool) (targetId enforcerId : Z)
    (isDeviceOwner : bool) : M S unit :=
  enforcerOsAccountInfo ← existing_account enforcerId;
  targetOsAccountInfo ← existing_account targetId;
  if toBeRemoved_ targetOsAccountInfo || toBeRemoved_ enforcerOsAccountInfo
  then merr ERR_OSACCOUNT_SERVICE_INNER_ACCOUNT_TO_BE_REMOVED_ERROR
  else
    valid ← ask (CheckConstraints constraints);
    if negb valid then merr ERR_ACCOUNT_COMMON_INVALID_PARAMETER
    else
      _ ← ignore (call (UpdateSpecificOAConstraints (to_string enforcerId) (to_string targetId) constraints enable));
      DealWithDeviceOwnerId isDeviceOwner enforcerId.

(** *** Changes of an account *)

(** [IInnerOsAccountManager::SetOsAccountName], inner_os_account_manager.cpp *)
Definition SetOsAccountName (id : Z) (name : string) : M S unit :=
  _ ← recover_first;
  osAccountInfo ← staying_account id;
  if bool_decide (localName_ osAccountInfo = name) then mret tt
  else
    let osAccountInfo := {| osAccountInfo with localName_ := name |} in
    _ ← ValidateOsAccount osAccountInfo;
    _ ← store_account osAccountInfo;
    PublishCommonEvent osAccountInfo COMMON_EVENT_USER_INFO_UPDATED.

(** [IInnerOsAccountManager::SetOsAccountProfilePhoto], inner_os_account_manager.cpp *)
Definition SetOsAccountProfilePhoto (id : Z) (photo : string) : M S unit :=
  _ ← recover_first;
  osAccountInfo ← staying_account id;
  if bool_decide (photo_ osAccountInfo = photo) then mret tt
  else
    _ ← call (SetPhotoById id photo);
    let osAccountInfo := {| osAccountInfo with photo_ := USER_PHOTO_FILE_TXT_NAME |} in
    _ ← store_account osAccountInfo;
    PublishCommonEvent osAccountInfo COMMON_EVENT_USER_INFO_UPDATED.

(** [IInnerOsAccountManager::SetOsAccountCredentialId], inner_os_account_manager.cpp *)
Definition SetOsAccountCredentialId (id credentialId : Z) : M S unit :=
  osAccountInfo ← existing_account id;
  store_account {| osAccountInfo with credentialId_ := credentialId |}.

(** [IInnerOsAccountManager::UpdateOsAccountWithFullInfo], inner_os_account_manager.cpp *)
Definition UpdateOsAccountWithFullInfo (newInfo : OsAccountInfo) : M S unit :=
  let localId := localId_ newInfo in
  added ← CheckAndAddLocalIdOperating localId;
  if negb added then merr ERR_OSACCOUNT_SERVICE_INNER_ACCOUNT_OPERATING_ERROR
  else
    '(errCode, oldInfo) ← ask (OsAccountServices.GetOsAccountInfoById localId OsAccountInfo_new);
    match errCode with
    | Err errCode => unmark_return localId (Err errCode)
    | Ok _ =>
        let oldInfo :=
          {| oldInfo with localName_ := localName_ newInfo; type_ := type_ newInfo; photo_ := photo_ newInfo;
             constraints_ := constraints_ newInfo |} in
        errCode ← mtry (call (UpdateOsAccount oldInfo));
        _ ← (if is_Ok errCode then PublishCommonEvent oldInfo COMMON_EVENT_USER_INFO_UPDATED else mret tt);
        unmark_return localId errCode
    end.

(** *** Displays *)

(** The primary display of the zone of a display; a zone that is not configured is the
    display itself. *)
Definition primary_display (displayId : Z) : M S Z :=
  if ENABLE_MULTI_FOREGROUND_OS_ACCOUNTS then
    errCode ← mtry (call (GetPrimaryDisplayId displayId));
    match errCode with
    | Ok primaryDisplayId => mret primaryDisplayId
    | Err errCode =>
        if errCode =? ERR_ACCOUNT_COMMON_DISPLAY_ID_NOT_EXIST_ERROR
        then merr ERR_ACCOUNT_COMMON_DISPLAY_ID_NOT_EXIST_ERROR else mret displayId
    end
  else mret displayId.

(** [IInnerOsAccountManager::IsOsAccountForeground], inner_os_account_manager.cpp *)
Definition IsOsAccountForeground (localId displayId : Z) : M S bool :=
  if displayId =? ANY_DISPLAY_ID then
    m ← mget;
    mret (existsb (λ '(_, userId), userId =? localId) (ordered_list Z.le (foregroundAccountMap_ m)))
  else
    _ ← (if ENABLE_MULTI_FOREGROUND_OS_ACCOUNTS then ValidateDisplayId displayId
         else if negb (displayId =? DEFAULT_DISPLAY_ID) then merr ERR_ACCOUNT_COMMON_DISPLAY_ID_NOT_EXIST_ERROR
         else mret tt);
    primaryDisplayId ← primary_display displayId;
    m ← mget;
    match foregroundAccountMap_ m !! primaryDisplayId with
    | None => merr ERR_ACCOUNT_COMMON_ACCOUNT_IN_DISPLAY_ID_NOT_FOUND_ERROR
    | Some id => mret (id =? localId)
    end.

(** [IInnerOsAccountManager::GetForegroundOsAccountLocalId], inner_os_account_manager.cpp *)
Definition GetForegroundOsAccountLocalId (displayId : Z) : M S Z :=
  primaryDisplayId ← primary_display displayId;
  m ← mget;
  match foregroundAccountMap_ m !! primaryDisplayId with
  | None => merr ERR_ACCOUNT_COMMON_ACCOUNT_IN_DISPLAY_ID_NOT_FOUND_ERROR
  | Some localId => mret localId
  end.

(** [IInnerOsAccountManager::GetForegroundOsAccountDisplayId], inner_os_account_manager.cpp *)
Definition GetForegroundOsAccountDisplayId (localId : Z) : M S Z :=
  m ← mget;
  let displayId := display_of localId (foregroundAccountMap_ m) in
  if displayId =? INVALID_DISPLAY_ID then merr ERR_ACCOUNT_COMMON_ACCOUNT_IN_DISPLAY_ID_NOT_FOUND_ERROR
  else mret displayId.

(** [IInnerOsAccountManager::GetForegroundOsAccountDisplayIds], inner_os_account_manager.cpp *)
Definition GetForegroundOsAccountDisplayIds (localId : Z) : M S (list Z) :=
  displayId ← GetForegroundOsAccountDisplayId localId;
  if ENABLE_MULTI_FOREGROUND_OS_ACCOUNTS then
    ret ← mtry (call (GetDisplayIdsByLogicalId displayId));
    mret (match ret with Ok displayIds => displayIds | Err _ => [displayId] end)
  else mret [displayId].

(** [IInnerOsAccountManager::GetForegroundOsAccounts], inner_os_account_manager.cpp *)
Definition GetForegroundOsAccounts : M S (list ForegroundOsAccount) :=
  m ← mget;
  mret ((λ '(displayId, localId), mkForegroundOsAccount displayId localId)
          <$> ordered_list Z.le (foregroundAccountMap_ m)).

(** [IInnerOsAccountManager::GetBackgroundOsAccountLocalIds], inner_os_account_manager.cpp *)
Definition GetBackgroundOsAccountLocalIds : M S (list Z) :=
  activatedIds ← CopyFromActiveList;
  m ← mget;
  let foregroundSet : gset Z := list_to_set (ordered_list Z.le (foregroundAccountMap_ m)).*2 in
  mret (filter (λ id, id ∉ foregroundSet) activatedIds).

(** [IInnerOsAccountManager::GetDefaultActivatedOsAccount]#2, inner_os_account_manager.cpp *)
Definition GetDefaultActivatedOsAccount (displayId : Z) : M S Z :=
  primaryDisplayId ← primary_display displayId;
  m ← mget;
  match defaultActivatedIds_ m !! primaryDisplayId with
  | None => merr ERR_ACCOUNT_COMMON_DISPLAY_ID_NOT_EXIST_ERROR
  | Some id => mret id
  end.

(** [IInnerOsAccountManager::GetAllDefaultActivatedOsAccounts], inner_os_account_manager.cpp *)
Definition GetAllDefaultActivatedOsAccounts : M S (gmap Z Z) := m ← mget; mret (defaultActivatedIds_ m).

(** [IInnerOsAccountManager::QueryActiveOsAccountIds], inner_os_account_manager.cpp *)
Definition QueryActiveOsAccountIds : M S (list Z) :=
  ids ← CopyFromActiveList;
  mret (if ENABLE_U1_ACCOUNT && bool_decide (ids = [U1_ID]) then [] else ids).

(** [IInnerOsAccountManager::GetVerifiedAccountIds], inner_os_account_manager.cpp *)
Definition GetVerifiedAccountIds (verifiedAccounts : gmap Z bool) : list Z :=
  omap (λ '(key, value), if value : bool then Some key else None) (ordered_list Z.le verifiedAccounts).

(** [IInnerOsAccountManager::GetUnlockedOsAccountLocalIds], inner_os_account_manager.cpp *)
Definition GetUnlockedOsAccountLocalIds : M S (list Z) := m ← mget; mret (GetVerifiedAccountIds (verifiedAccounts_ m)).

(** *** Domain accounts *)

(** [IInnerOsAccountManager::IsSameAccount], inner_os_account_manager.cpp *)
Definition IsSameAccount (domainInfoSrc domainInfoTar : DomainAccountInfo) : bool :=
  negb (string_empty (accountId_ domainInfoSrc)) && bool_decide (accountId_ domainInfoSrc = accountId_ domainInfoTar)
  || negb (string_empty (accountName_ domainInfoSrc))
     && bool_decide (accountName_ domainInfoSrc = accountName_ domainInfoTar)
     && negb (string_empty (domain_ domainInfoSrc)) && bool_decide (domain_ domainInfoSrc = domain_ domainInfoTar).

(** [IInnerOsAccountManager::GetOsAccountLocalIdFromDomain], inner_os_account_manager.cpp *)
Definition GetOsAccountLocalIdFromDomain (domainInfo : DomainAccountInfo) : M S Z :=
  if negb SUPPORT_DOMAIN_ACCOUNTS then merr ERR_DOMAIN_ACCOUNT_SERVICE_NOT_DOMAIN_ACCOUNT
  else if DOMAIN_NAME_MAX_SIZE <? Z.of_nat (String.length (domain_ domainInfo))
  then merr ERR_ACCOUNT_COMMON_INVALID_PARAMETER
  else if LOCAL_NAME_MAX_SIZE <=? Z.of_nat (String.length (accountName_ domainInfo))
  then merr ERR_ACCOUNT_COMMON_INVALID_PARAMETER
  else
    osAccountInfos ← call GetOsAccountList;
    match find (λ info, IsSameAccount (domainInfo_ info) domainInfo) osAccountInfos with
    | Some info => mret (localId_ info)
    | None => merr ERR_DOMAIN_ACCOUNT_SERVICE_NOT_DOMAIN_ACCOUNT
    end.

(** [IInnerOsAccountManager::UpdateAccountStatusForDomain], inner_os_account_manager.cpp *)
Definition UpdateAccountStatusForDomain (id status : Z) : M S unit :=
  accountInfo ← GetOsAccountInfoById id;
  call (UpdateOsAccount (SetDomainInfo {| (domainInfo_ accountInfo) with status_ := status |} accountInfo).2).

(** The account is bound to the domain account. *)
Definition bound_to (info curInfo : DomainAccountInfo) : bool :=
  negb (string_empty (accountId_ info)) && bool_decide (accountId_ curInfo = accountId_ info)
  || bool_decide (accountName_ curInfo = accountName_ info) && bool_decide (domain_ curInfo = domain_ info).

(** The object is read before a binding is recovered. *)
Fixpoint accounts_by_domain (info : DomainAccountInfo) (allOsAccountIds : list Z) : M S (list OsAccountInfo) :=
  match allOsAccountIds with
  | [] => mret []
  | id :: allOsAccountIds =>
      '(_, osAccountInfo) ← GetRealOsAccountInfoById id OsAccountInfo_new;
      _ ← call (CheckAndRecoverBindDomainForUncomplete osAccountInfo);
      rest ← accounts_by_domain info allOsAccountIds;
      mret (if bound_to info (domainInfo_ osAccountInfo) then osAccountInfo :: rest else rest)
  end.

(** [IInnerOsAccountManager::GetOsAccountsByDomainInfo], inner_os_account_manager.cpp *)
Definition GetOsAccountsByDomainInfo (info : DomainAccountInfo) : M S (list OsAccountInfo) :=
  allOsAccountIds ← call GetOsAccountIdList;
  accounts_by_domain info allOsAccountIds.

(** What stays of the accounts when garbage is removed. *)
Fixpoint remove_bound_garbage (osAccountInfos : list OsAccountInfo) : M S (list OsAccountInfo) :=
  match osAccountInfos with
  | [] => mret []
  | osAccountInfo :: osAccountInfos =>
      let id := localId_ osAccountInfo in
      removed ←
        (if isCreateCompleted_ osAccountInfo && negb (toBeRemoved_ osAccountInfo) then mret false
         else
           added ← CheckAndAddLocalIdOperating id;
           if negb added then mret false
           else
             errCode ← mtry (RemoveOsAccountOperate id osAccountInfo true);
             _ ← RemoveLocalIdToOperating id;
             mret (is_Ok errCode));
      rest ← remove_bound_garbage osAccountInfos;
      mret (if removed : bool then rest else osAccountInfo :: rest)
  end.

(** [IInnerOsAccountManager::CheckDomainAccountBound], inner_os_account_manager.cpp *)
Definition CheckDomainAccountBound (info : DomainAccountInfo) : M S bool :=
  osAccountInfos ← GetOsAccountsByDomainInfo info;
  osAccountInfos ← remove_bound_garbage osAccountInfos;
  mret (negb (length osAccountInfos =? 0)%nat).

(** The first account, when it is alone and not bound, is bound instead of a new one.

    [IInnerOsAccountManager::BindDomainAccount], inner_os_account_manager.cpp *)
Definition BindDomainAccount (type : Z) (domainAccountInfo : DomainAccountInfo) (osAccountInfo : OsAccountInfo)
    (options : CreateOsAccountOptions) : M S unit :=
  isBound ← CheckDomainAccountBound domainAccountInfo;
  if isBound : bool then merr ERR_OSACCOUNT_SERVICE_INNER_DOMAIN_ALREADY_BIND_ERROR
  else
    isEnabled ←
      (if ENABLE_MULTIPLE_OS_ACCOUNTS then
         r ← mtry (IsOsAccountConstraintEnable START_USER_ID CONSTRAINT_CREATE_ACCOUNT_DIRECTLY);
         match r with
         | Err _ => merr ERR_OSACCOUNT_KIT_IS_OS_ACCOUNT_CONSTRAINT_ENABLE_ERROR
         | Ok isEnabled => mret isEnabled
         end
       else mret true);
    osAccountInfos ← QueryAllCreatedOsAccounts;
    let osAccountInfo :=
      match osAccountInfos with
      | [first] =>
          if isEnabled && (localId_ first =? START_USER_ID) && string_empty (domain_ (domainInfo_ first))
          then (SetDomainInfo domainAccountInfo
                  {| first with localName_ := accountName_ domainAccountInfo;
                     shortName_ := option_shortName options |}).2
          else osAccountInfo
      | _ => osAccountInfo
      end in
    osAccountInfo ←
      (if negb (localId_ osAccountInfo =? START_USER_ID) then
         if ENABLE_MULTIPLE_OS_ACCOUNTS then
           '(errCode, osAccountInfo) ← PrepareOsAccountInfo (accountName_ domainAccountInfo) type domainAccountInfo
              osAccountInfo
              {| CreateOsAccountOptions_new with option_shortName := option_shortName options;
                 option_localId := option_localId options |};
           _ ← unmark_return (localId_ osAccountInfo) errCode;
           mret osAccountInfo
         else merr ERR_OSACCOUNT_SERVICE_MANAGER_NOT_ENABLE_MULTI_ERROR
       else mret osAccountInfo);
    call (UpdateOsAccount osAccountInfo).

(** A field that is given replaces the old one. *)
Definition given_or (new old : string) : string := if string_empty new then old else new.

(** [IInnerOsAccountManager::UpdateAccountInfoByDomainAccountInfo], inner_os_account_manager.cpp *)
Definition UpdateAccountInfoByDomainAccountInfo (userId : Z) (newDomainAccountInfo : DomainAccountInfo) : M S unit :=
  added ← CheckAndAddLocalIdOperating userId;
  if negb added then merr ERR_OSACCOUNT_SERVICE_INNER_ACCOUNT_OPERATING_ERROR
  else
    '(result, accountInfo) ← ask (OsAccountServices.GetOsAccountInfoById userId OsAccountInfo_new);
    match result with
    | Err result => unmark_return userId (Err result)
    | Ok _ =>
        let old := domainInfo_ accountInfo in
        let domainInfo :=
          {| old with accountName_ := given_or (accountName_ newDomainAccountInfo) (accountName_ old);
             accountId_ := given_or (accountId_ newDomainAccountInfo) (accountId_ old);
             serverConfigId_ := given_or (serverConfigId_ newDomainAccountInfo) (serverConfigId_ old);
             domain_ := given_or (domain_ newDomainAccountInfo) (domain_ old) |} in
        result ← mtry (call (UpdateOsAccount (SetDomainInfo domainInfo accountInfo).2));
        match result with
        | Err result => unmark_return userId (Err result)
        | Ok _ =>
            _ ← RemoveLocalIdToOperating userId;
            PublishCommonEvent {| OsAccountInfo_new with localId_ := userId |} COMMON_EVENT_USER_INFO_UPDATED
        end
    end.

(** [IInnerOsAccountManager::GetOsAccountDomainInfo], inner_os_account_manager.cpp *)
Definition GetOsAccountDomainInfo (localId : Z) : M S DomainAccountInfo :=
  accountInfo ← real_account localId ERR_ACCOUNT_COMMON_ACCOUNT_NOT_EXIST_ERROR;
  let domainInfo := domainInfo_ accountInfo in
  if string_empty (accountName_ domainInfo) then merr ERR_DOMAIN_ACCOUNT_SERVICE_NOT_DOMAIN_ACCOUNT
  else if SUPPORT_DOMAIN_ACCOUNTS then
    r ← mtry (call (GetDomainAccountInfo domainInfo));
    mret (match r with Ok domainInfo => domainInfo | Err _ => domainInfo end)
  else mret domainInfo.

(** Every account of the configuration; the last error is reported.

    [IInnerOsAccountManager::UpdateServerConfig], inner_os_account_manager.cpp *)
Definition UpdateServerConfig (configId id domain : string) : M S unit :=
  if negb SUPPORT_DOMAIN_ACCOUNTS then mret tt
  else
    osAccountInfos ← call GetOsAccountList;
    errCode ← foldl (λ errCode info,
        errCode ← errCode;
        if bool_decide (serverConfigId_ (domainInfo_ info) = configId) then
          let curDomainInfo := {| (domainInfo_ info) with serverConfigId_ := id; domain_ := domain |} in
          err ← mtry (call (UpdateOsAccount (SetDomainInfo curDomainInfo info).2));
          mret (match err with Err _ => err | Ok _ => errCode end)
        else mret errCode) (mret (Ok tt)) osAccountInfos;
    of_result errCode.
End Operations.
