(* ===== verification/OsAccountMarks.v ===== *)
(** The requests to the manager of operating system accounts, and the marks of those that
    are under way.  Every request takes its mark back on every way out, however the
    services it calls answer; while an account has a mark, other requests on it are
    refused.  The creation of an account is the exception: when it is refused because the
    account is marked, it takes the mark of the other request. *)
From Stdlib Require Import ZArith Lia Ascii String.
From stdpp Require Import base list gmap sets strings pretty sorting.
From S2P Require Import Prelude ErrorCodes Json FileStore OsAccountInfo OsAccountEnv OsAccountFiles OsAccountConstraints OsAccountServices OsAccountInterface OsAccountManager OsAccountFrame OsAccountCreation OsAccountQueries.

(** The requests that change what is active, marked, or stored of an account. *)
Inductive Request :=
  | Activate (id : Z) (startStorage : bool) (displayId : Z) (isAppRecovery : bool)
  | Background (id : Z)
  | Deactivate (id : Z) (isStopStorage : bool)
  | Remove (id : Z)
  | ToBeRemoved (id : Z) (toBeRemoved : bool)
  | CleanUp (excludeId : Z)
  | Lock (id : Z)
  | Verified (id : Z) (isVerified : bool)
  | LoggedIn (id : Z) (isLoggedIn : bool)
  | StartWith (displayId id : Z)
  | ChangeType (id type : Z) (tokenData : list Z)
  | UpdateInfo (info : OsAccountInfo)
  | UpdateDomain (id : Z) (info : DomainAccountInfo)
  | Create (name : string) (type : Z) (info : OsAccountInfo)
  | CreateWith (localName shortName : string) (type : Z) (info : OsAccountInfo) (options : CreateOsAccountOptions)
  | CreateFull (info : OsAccountInfo) (options : CreateOsAccountOptions)
  | SetName (id : Z) (name : string)
  | SetPhoto (id : Z) (photo : string)
  | SetCredentialId (id credentialId : Z)
  | SetBase (id : Z) (constraints : list string) (enable : bool)
  | SetGlobal (constraints : list string) (enable : bool) (enforcerId : Z) (isDeviceOwner : bool)
  | SetSpecific (constraints : list string) (enable : bool) (targetId enforcerId : Z) (isDeviceOwner : bool)
  | MigrateTypes
  | Recover
  | ResetStatus.

(** The requests that choose the id of a new account themselves. *)
Definition is_creation (r : Request) : bool :=
  match r with Create _ _ _ | CreateWith _ _ _ _ _ => true | _ => false end.

Lemma erase_first_app id l : id ∉ l → erase_first id (l ++ [id]) = l.
Proof.
  induction l as [|x l IH]; intros Hl; cbn [erase_first app].
  - by rewrite Z.eqb_refl.
  - apply not_elem_of_cons in Hl as [Hx Hl]. destruct (Z.eqb_spec x id); [done|]. by rewrite IH.
Qed.

Section Marks.
Context {W : Type} {sw : OsSwitches} {cfg : Config} {oscfg : OsConfig} {sysconf : Sysconf}.
Context {cjson : CJsonLib} {fs : FileStore W}.
Context {ams : AbilityManager W} {bms : BundleManager W} {storage : StorageManager W} {idm : UserIdm W}.
Context {tee : TeeAdapter W} {displays : Displays W} {parts : AccountParts W} {control : OsAccountControl W}.
Local Abbreviation S := (Manager W).

Definition run (r : Request) : M S unit :=
  match r with
  | Activate id startStorage displayId isAppRecovery => ActivateOsAccount id startStorage displayId isAppRecovery
  | Background id => ActivateOsAccountInBackground id
  | Deactivate id isStopStorage => DeactivateOsAccount id isStopStorage
  | Remove id => RemoveOsAccount id
  | ToBeRemoved id toBeRemoved => SetOsAccountToBeRemoved id toBeRemoved
  | CleanUp excludeId => _ ← CleanGarbageOsAccounts excludeId; mret tt
  | Lock id => LockOsAccount id
  | Verified id isVerified => SetOsAccountIsVerified id isVerified
  | LoggedIn id isLoggedIn => SetOsAccountIsLoggedIn id isLoggedIn
  | StartWith displayId id => SetDefaultActivatedOsAccount displayId id
  | ChangeType id type tokenData => SetOsAccountType id type tokenData
  | UpdateInfo info => UpdateOsAccountWithFullInfo info
  | UpdateDomain id info => UpdateAccountInfoByDomainAccountInfo id info
  | Create name type info => CreateOsAccount name type info
  | CreateWith localName shortName type info options => CreateOsAccountWithOptions localName shortName type info options
  | CreateFull info options => CreateOsAccountWithFullInfo info options
  | SetName id name => SetOsAccountName id name
  | SetPhoto id photo => SetOsAccountProfilePhoto id photo
  | SetCredentialId id credentialId => SetOsAccountCredentialId id credentialId
  | SetBase id constraints enable => SetBaseOsAccountConstraints id constraints enable
  | SetGlobal constraints enable enforcerId isDeviceOwner =>
      SetGlobalOsAccountConstraints constraints enable enforcerId isDeviceOwner
  | SetSpecific constraints enable targetId enforcerId isDeviceOwner =>
      SetSpecificOsAccountConstraints constraints enable targetId enforcerId isDeviceOwner
  | MigrateTypes => MigrateOsAccountTypesToTEE
  | Recover => CheckAndRecoverRestore
  | ResetStatus => ResetAccountStatus
  end.

(** The marks are [l]. *)
Definition marks (l : list Z) (m : S) : Prop := operatingId_ m = l.

#[export] Instance marks_quiet l : Quiet (marks l).
Proof. split; by intros []. Qed.
#[export] Instance marks_blind l : Blind (marks l).
Proof. split; [split; [exact _|..]; by intros []|..]; by intros []. Qed.

(** *** An operation between its marks *)

(** Run with the mark of [id], [m] ends without it. *)
Definition finishes {A} (l : list Z) (id : Z) (m : M S A) : Prop := moves (marks (l ++ [id])) m (marks l).

Section Finishes.
Context (l : list Z) (id : Z) (Hid : id ∉ l).

Lemma finishes_remove : finishes l id (RemoveLocalIdToOperating id).
Proof using Hid. intros m Hm. cbn. unfold marks in Hm. rewrite Hm. by apply erase_first_app. Qed.
Lemma finishes_unmark {A} (r : result A) : finishes l id (unmark_return id r).
Proof using Hid. apply moves_before; [apply finishes_remove|]. intros _. apply preserves_of_result. Qed.
End Finishes.

(** What an operation starts with. *)
Lemma run_mark {A} id (busy body : M S A) m :
  (added ← CheckAndAddLocalIdOperating id; if negb added then busy else body) m =
  if bool_decide (id ∈ operatingId_ m) then busy m
  else body {| m with operatingId_ := operatingId_ m ++ [id] |}.
Proof using Type. unfold CheckAndAddLocalIdOperating. rewrite mbind_unfold, run_get. by case_bool_decide. Qed.

Lemma marked_keeps {A} l id (busy body : M S A) :
  preserves (marks l) busy → (id ∉ l → finishes l id body) →
  preserves (marks l) (added ← CheckAndAddLocalIdOperating id; if negb added then busy else body).
Proof using Type.
  intros Hbusy Hbody m Hm. rewrite run_mark. unfold marks in Hm. subst l.
  case_bool_decide as Hin; [by apply Hbusy|]. by apply Hbody.
Qed.

(** Follows an operation to its end. *)
Local Ltac finish_step :=
  lazymatch goal with
  | |- moves _ (unmark_return _ _) _ => apply finishes_unmark; assumption
  | |- moves _ (unmark_return _ _ ≫= _) _ => apply moves_before; [apply finishes_unmark; assumption|]
  | |- moves _ (RemoveLocalIdToOperating _ ≫= _) _ => apply moves_before; [apply finishes_remove; assumption|]
  | |- moves _ (match ?x with _ => _ end) _ => destruct x
  | |- moves _ (let x := ?v in _) _ => cbv zeta
  | |- moves _ (_ ≫= _) _ => apply moves_bind
  | |- calm _ _ => calm_step
  | |- preserves _ _ => frame_step
  | |- ∀ _, _ => intro
  end.
Local Ltac finish := apply marked_keeps; [frame|]; intros ?; unfold finishes; repeat finish_step.

Lemma marks_switch l from state to d : preserves (marks l) (publish_switch from state to d).
Proof using Type. unfold publish_switch. frame. Qed.
Hint Resolve marks_switch : mpres.

Lemma marks_Deactivate l id stop : preserves (marks l) (DeactivateOsAccount id stop).
Proof using Type. unfold DeactivateOsAccount. finish. Qed.
Hint Resolve marks_Deactivate : mpres.
Lemma marks_background l id : preserves (marks l) (UpdateAccountToBackground id).
Proof using Type. unfold UpdateAccountToBackground. frame. Qed.
Lemma marks_rollback l from to d : preserves (marks l) (RollBackToEarlierAccount from to d).
Proof using Type. unfold RollBackToEarlierAccount. frame. Qed.
Hint Resolve marks_background marks_rollback : mpres.
Lemma marks_both l info start d recovery old : preserves (marks l) (SendToStorageAndAMSAccountStart info start d recovery old).
Proof using Type. unfold SendToStorageAndAMSAccountStart. frame. Qed.
Hint Resolve marks_both : mpres.
Lemma marks_activate_msg l info start d recovery : preserves (marks l) (SendMsgForAccountActivate info start d recovery).
Proof using Type. unfold SendMsgForAccountActivate. frame. Qed.
Hint Resolve marks_activate_msg : mpres.
Lemma marks_Activate l id start d recovery : preserves (marks l) (ActivateOsAccount id start d recovery).
Proof using Type. unfold ActivateOsAccount. finish. Qed.
Hint Resolve marks_Activate : mpres.

Lemma marks_reset l info id : preserves (marks l) (ResetForegroundBeforeRemove info id).
Proof using Type. unfold ResetForegroundBeforeRemove. frame. Qed.
Hint Resolve marks_reset : mpres.
Lemma marks_prepare_remove l info garbage : preserves (marks l) (PrepareRemoveOsAccount info garbage).
Proof using Type. unfold PrepareRemoveOsAccount. frame. Qed.
Hint Resolve marks_prepare_remove : mpres.
Lemma marks_operate l id info garbage : preserves (marks l) (RemoveOsAccountOperate id info garbage).
Proof using Type. unfold RemoveOsAccountOperate. frame. Qed.
Hint Resolve marks_operate : mpres.
Lemma marks_Remove l id : preserves (marks l) (RemoveOsAccount id).
Proof using Type. unfold RemoveOsAccount. finish. Qed.
Lemma marks_SetToBeRemoved l id b : preserves (marks l) (SetOsAccountToBeRemoved id b).
Proof using Type. unfold SetOsAccountToBeRemoved. finish. Qed.
Lemma marks_Lock l id : preserves (marks l) (LockOsAccount id).
Proof using Type. unfold LockOsAccount. apply preserves_bind; [frame|]. intros [|]; cbn [negb]; [|frame]. finish. Qed.

Lemma marks_clean_account l id : preserves (marks l) (clean_account id).
Proof using Type. unfold clean_account. finish. Qed.
Hint Resolve marks_clean_account : mpres.
Lemma marks_clean_accounts l excl ids n : preserves (marks l) (clean_accounts excl ids n).
Proof using Type. revert n. induction ids as [|x ids IH]; intros n; cbn [clean_accounts]; frame. Qed.
Hint Resolve marks_clean_accounts : mpres.
Lemma marks_CleanGarbage l id : preserves (marks l) (CleanGarbageOsAccounts id).
Proof using Type. unfold CleanGarbageOsAccounts. frame. Qed.
Hint Resolve marks_CleanGarbage : mpres.

(** *** Creation *)

(** What creation keeps, once the collection of garbage does. *)
Section Creation.
Context (P : S → Prop) {HP : Passive P} (Hclean : ∀ id, preserves P (CleanGarbageOsAccounts id)).
Hint Resolve Hclean : mpres.

Lemma kept_created ids : preserves P (created_accounts ids).
Proof using All. induction ids as [|id ids IH]; cbn [created_accounts]; frame. Qed.
Hint Resolve kept_created : mpres.
Lemma kept_query : preserves P QueryAllCreatedOsAccounts.
Proof using All. unfold QueryAllCreatedOsAccounts. frame. Qed.
Hint Resolve kept_query : mpres.
Lemma kept_number type : preserves P (CheckTypeNumber type).
Proof using All. unfold CheckTypeNumber, GetTypeNumber. frame. Qed.
Lemma kept_validate info : preserves P (ValidateOsAccount info).
Proof using All. unfold ValidateOsAccount. frame. Qed.
Hint Resolve kept_number kept_validate : mpres.
Lemma kept_sa ids : preserves P (sa_created ids).
Proof using All. induction ids as [|id ids IH]; cbn [sa_created]; frame. Qed.
Hint Resolve kept_sa : mpres.
Lemma kept_room : preserves P room_for_account.
Proof using All. unfold room_for_account, CheckAndCleanOsAccounts, GetNonSACreatedOACount. frame. Qed.
Lemma kept_allowed : preserves P creation_allowed.
Proof using All. unfold creation_allowed. frame. Qed.
Lemma kept_fill name type domain info options : preserves P (FillOsAccountInfo name type domain info options).
Proof using All. unfold FillOsAccountInfo, choose_id, AssignSpecifiedLocalId. frame. Qed.
Lemma kept_update_type id type b : preserves P (UpdateAccountTypeCache id type b).
Proof using All. unfold UpdateAccountTypeCache. frame. Qed.
Lemma calm_kept_type id type b : calm P (UpdateAccountTypeCache id type b).
Proof using All. unfold UpdateAccountTypeCache, SetAccountTypeInCache. calmly. Qed.
Lemma kept_insert_type id type token : preserves P (InsertOsAccountTypeToTee id type token).
Proof using All. unfold InsertOsAccountTypeToTee. frame. Qed.
Lemma kept_rollback_account info b b' : preserves P (RollbackOsAccount info b b').
Proof using All. unfold RollbackOsAccount. frame. Qed.
Hint Resolve kept_room kept_allowed kept_fill kept_update_type calm_kept_type kept_insert_type kept_rollback_account : mpres.
Lemma kept_subspace id : preserves P (InitOsAccountSubspaceForNewAccount id).
Proof using All. unfold InitOsAccountSubspaceForNewAccount, SetOsAccountForegroundSubspaceId. frame. Qed.
Hint Resolve kept_subspace : mpres.
Lemma kept_finalize info : preserves P (FinalizeAccountCreate info).
Proof using All. unfold FinalizeAccountCreate, OsAccountCreateOnComplete, subprofile_created. frame. Qed.
Hint Resolve kept_finalize : mpres.
Lemma kept_create_msg info options : preserves P (SendMsgForAccountCreate info options).
Proof using All. unfold SendMsgForAccountCreate, CheckHighestHapInstallForCreate. frame. Qed.
Hint Resolve kept_create_msg : mpres.
Lemma kept_full_info info : preserves P (PrepareOsAccountInfoWithFullInfo info).
Proof using All. unfold PrepareOsAccountInfoWithFullInfo. frame. Qed.
Hint Resolve kept_full_info : mpres.
End Creation.
Hint Resolve kept_created kept_query kept_number kept_validate kept_sa kept_room kept_allowed
  kept_fill kept_update_type calm_kept_type kept_insert_type kept_rollback_account kept_subspace kept_finalize
  kept_create_msg kept_full_info : mpres.

Lemma marks_CreateFull l info options : preserves (marks l) (CreateOsAccountWithFullInfo info options).
Proof.
  unfold CreateOsAccountWithFullInfo. apply preserves_bind; [frame|]. intros _. cbv zeta. finish.
Qed.

(** *** The other requests *)

Lemma marks_Verified l id b : preserves (marks l) (SetOsAccountIsVerified id b).
Proof. unfold SetOsAccountIsVerified, CleanGarbageOsAccountsAsync. frame. Qed.
Lemma marks_LoggedIn l id b : preserves (marks l) (SetOsAccountIsLoggedIn id b).
Proof. unfold SetOsAccountIsLoggedIn. frame. Qed.
Lemma marks_StartWith l d id : preserves (marks l) (SetDefaultActivatedOsAccount d id).
Proof. unfold SetDefaultActivatedOsAccount. frame. Qed.
Lemma marks_ChangeType l id type token : preserves (marks l) (SetOsAccountType id type token).
Proof.
  unfold SetOsAccountType, SetOsAccountTypeInTEE. apply preserves_bind; [frame|]. intros [errCode info].
  apply preserves_bind; [frame|]. intros _. apply preserves_bind; [frame|]. intros _. finish.
Qed.
Lemma marks_UpdateInfo l info : preserves (marks l) (UpdateOsAccountWithFullInfo info).
Proof. unfold UpdateOsAccountWithFullInfo. cbv zeta. finish. Qed.
Lemma marks_UpdateDomain l id info : preserves (marks l) (UpdateAccountInfoByDomainAccountInfo id info).
Proof. unfold UpdateAccountInfoByDomainAccountInfo. finish. Qed.
Lemma marks_migratable l infos : preserves (marks l) (migratable infos).
Proof.
  induction infos as [|info infos IH]; cbn [migratable]; [frame|].
  destruct (negb (isCreateCompleted_ info) || toBeRemoved_ info); [done|]. finish.
Qed.
Lemma marks_tee_types l ids types : preserves (marks l) (tee_types ids types).
Proof. revert types. induction ids as [|id ids IH]; intros types; cbn [tee_types]; frame. Qed.
Hint Resolve marks_migratable marks_tee_types : mpres.
Lemma marks_Migrate l : preserves (marks l) MigrateOsAccountTypesToTEE.
Proof. unfold MigrateOsAccountTypesToTEE, PreloadAccountTypesFromTee, SetAccountTypesInCache. frame. Qed.
Lemma marks_rollback_accounts l ids b : preserves (marks l) (rollback_accounts ids b).
Proof.
  revert b. induction ids as [|id ids IH]; intros b; cbn [rollback_accounts]; [frame|].
  unfold set_restore. finish.
Qed.
Hint Resolve marks_rollback_accounts : mpres.
Lemma marks_Recover l : preserves (marks l) CheckAndRecoverRestore.
Proof. unfold CheckAndRecoverRestore, GetOsAccountLocalIds, set_restore. frame. Qed.

Lemma marks_background_start l id : preserves (marks l) (ActivateOsAccountInBackground id).
Proof. unfold ActivateOsAccountInBackground, SendMsgForAccountActivateInBackground. frame. Qed.
Lemma marks_reset_status l : preserves (marks l) ResetAccountStatus.
Proof. unfold ResetAccountStatus, DeactivateOsAccountById. frame. Qed.

Hint Resolve marks_Recover : mpres.
Lemma marks_recover_first l : preserves (marks l) recover_first.
Proof. unfold recover_first. frame. Qed.
Lemma marks_staying l id : preserves (marks l) (staying_account id).
Proof. unfold staying_account, existing_account, file_account. frame. Qed.
Lemma marks_owner l b id : preserves (marks l) (DealWithDeviceOwnerId b id).
Proof. unfold DealWithDeviceOwnerId. frame. Qed.
Lemma marks_store l info : preserves (marks l) (store_account info).
Proof. unfold store_account. frame. Qed.
Hint Resolve marks_recover_first marks_staying marks_owner marks_store : mpres.
Lemma marks_name l id name : preserves (marks l) (SetOsAccountName id name).
Proof. pose proof (marks_CleanGarbage l). unfold SetOsAccountName. frame. Qed.
Lemma marks_photo l id photo : preserves (marks l) (SetOsAccountProfilePhoto id photo).
Proof. unfold SetOsAccountProfilePhoto. frame. Qed.
Lemma marks_credential l id credentialId : preserves (marks l) (SetOsAccountCredentialId id credentialId).
Proof. unfold SetOsAccountCredentialId, existing_account, file_account. frame. Qed.
Lemma marks_base l id cs b : preserves (marks l) (SetBaseOsAccountConstraints id cs b).
Proof. unfold SetBaseOsAccountConstraints, SetOsAccountConstraints. frame. Qed.
Lemma marks_global l cs b id o : preserves (marks l) (SetGlobalOsAccountConstraints cs b id o).
Proof. unfold SetGlobalOsAccountConstraints. frame. Qed.
Lemma marks_specific l cs b t id o : preserves (marks l) (SetSpecificOsAccountConstraints cs b t id o).
Proof. unfold SetSpecificOsAccountConstraints, existing_account, file_account. frame. Qed.

Lemma marks_run l r : is_creation r = false → preserves (marks l) (run r).
Proof.
  destruct r; intros Hr; try discriminate Hr; cbn [run];
    auto using marks_Activate, marks_Deactivate, marks_Remove, marks_SetToBeRemoved, marks_Lock,
    marks_Verified, marks_LoggedIn, marks_StartWith, marks_ChangeType, marks_UpdateInfo, marks_UpdateDomain,
    marks_CreateFull, marks_Migrate, marks_Recover, marks_background_start, marks_reset_status, marks_name, marks_photo,
    marks_credential, marks_base, marks_global, marks_specific.
  apply preserves_bind; [apply marks_CleanGarbage|]. intros; apply preserves_ret.
Qed.
End Marks.

#[export] Hint Resolve kept_created kept_query kept_number kept_validate kept_sa kept_room kept_allowed
  kept_fill kept_update_type calm_kept_type kept_insert_type kept_rollback_account kept_subspace kept_finalize
  kept_create_msg kept_full_info : mpres.
