(* ===== verification/OsAccountForeground.v ===== *)
(** What is active and in the foreground.  An account in the foreground is active and is
    shown on one display; activation and deactivation do what they promise to the two. *)
From Stdlib Require Import ZArith Lia Ascii String.
From stdpp Require Import base list gmap sets strings pretty sorting.
From S2P Require Import Prelude ErrorCodes Json FileStore OsAccountInfo OsAccountEnv OsAccountFiles OsAccountConstraints OsAccountServices OsAccountInterface OsAccountManager OsAccountFrame OsAccountCreation OsAccountQueries OsAccountMarks.

(** The ability manager calls back with the user it was asked to start. *)
Class AbilityManagerLaws (W : Type) {ams : AbilityManager W} := {
  started_user id displayId recovery w userId w' :
    StartUser id displayId recovery w = (Ok (userId, ERR_OK), w') → userId = id;
}.

(** The file of an account has that account. *)
Class OsAccountControlLaws (W : Type) {control : OsAccountControl W} := {
  own_account id info w info' w' : OsAccountServices.GetOsAccountInfoById id info w = ((Ok tt, info'), w') → localId_ info' = id;
}.

Lemma elem_of_erase_all x y l : x ∈ erase_all y l ↔ x ≠ y ∧ x ∈ l.
Proof. unfold erase_all. by rewrite list_elem_of_filter. Qed.

Section Display.
Implicit Types (f : gmap Z Z).

Lemma display_of_spec id f :
  (∃ d, d = display_of id f ∧ f !! d = Some id) ∨ display_of id f = INVALID_DISPLAY_ID ∧ ∀ d, f !! d ≠ Some id.
Proof.
  unfold display_of.
  assert (Hgen : ∀ (l : list (Z * Z)) d0, let d := foldl (λ displayId '(dispId, userId), if userId =? id then dispId else displayId) d0 l in
    (d, id) ∈ l ∨ d = d0 ∧ ∀ d', (d', id) ∉ l).
  { induction l as [|[d1 u] l IH]; intros d0; cbn [foldl].
    - right. split; [done|]. intros d' H. by apply not_elem_of_nil in H.
    - destruct (Z.eqb_spec u id) as [->|Hu].
      + destruct (IH d1) as [H|[H Hn]]; left; [by right|]. rewrite H. left.
      + destruct (IH d0) as [H|[H Hn]]; [left; by right|right]. split; [done|].
        intros d' [[= -> ->]|Hd']%elem_of_cons; [done|]. by apply (Hn d'). }
  destruct (Hgen (ordered_list Z.le f) INVALID_DISPLAY_ID) as [H|[H Hn]].
  - left. eexists. split; [done|]. by apply elem_of_ordered_list in H.
  - right. split; [done|]. intros d Hd. apply (Hn d). by apply elem_of_ordered_list.
Qed.

Lemma on_other_display_false id d f :
  on_other_display id d f = false ↔ ∀ d', f !! d' = Some id → d' = d.
Proof.
  unfold on_other_display. split.
  - intros H d' Hd'. destruct (Z.eqb_spec d' d) as [|Hne]; [done|].
    rewrite <-not_true_iff_false, existsb_exists in H. destruct H. exists (d', id). split.
    + apply list_elem_of_In. by apply elem_of_ordered_list.
    + rewrite Z.eqb_refl. apply Z.eqb_neq in Hne. by rewrite Hne.
  - intros H. rewrite <-not_true_iff_false, existsb_exists. intros ([d' u] & Hin & Hb).
    apply list_elem_of_In, elem_of_ordered_list in Hin. apply andb_true_iff in Hb as [Hu%Z.eqb_eq Hd].
    subst u. apply H in Hin as ->. by rewrite Z.eqb_refl in Hd.
Qed.
End Display.

Section Foreground.
Context {W : Type} {sw : OsSwitches} {cfg : Config} {oscfg : OsConfig} {sysconf : Sysconf}.
Context {cjson : CJsonLib} {fs : FileStore W}.
Context {ams : AbilityManager W} {bms : BundleManager W} {storage : StorageManager W} {idm : UserIdm W}.
Context {tee : TeeAdapter W} {displays : Displays W} {parts : AccountParts W} {control : OsAccountControl W}.
Local Abbreviation S := (Manager W).
Implicit Types (a : list Z) (f : gmap Z Z) (m : Manager W).

(** The announcements of switches, in their order. *)
Definition switches (m : S) : list Event := filter (λ e, is_switch e = true) (events m).

(** A property of the active accounts, the displays and the switches announced. *)
Definition sees (Q : list Z → gmap Z Z → list Event → Prop) (m : S) : Prop :=
  Q (activeAccountId_ m) (foregroundAccountMap_ m) (switches m).

Lemma switches_event e m : is_switch e = false → switches (add_event e m) = switches m.
Proof using Type.
  intros He. unfold switches. destruct m; cbn. rewrite filter_app, filter_cons_False by (by rewrite He). apply app_nil_r.
Qed.

#[export] Instance sees_local Q : Local (sees Q).
Proof using Type.
  split; [by intros []|]. intros m e He. unfold sees. rewrite switches_event by done. by destruct m.
Qed.
#[export] Instance sees_passive Q : Passive (sees Q).
Proof using Type. split; [exact _|..]; by intros []. Qed.

(** Who is shown is active, on one display that is valid; without several foregrounds
    the display is the default one. *)
Record in_step (a : list Z) (f : gmap Z Z) : Prop := mkInStep {
  shown_active d id : f !! d = Some id → id ∈ a;
  shown_once d d' id : f !! d = Some id → f !! d' = Some id → d = d';
  shown_valid : f !! INVALID_DISPLAY_ID = None;
  shown_default d id : ENABLE_MULTI_FOREGROUND_OS_ACCOUNTS = false → f !! d = Some id → d = DEFAULT_DISPLAY_ID;
}.

(** [id] was taken from the displays it was on, or some of them, and from the active
    accounts if it is on none. *)
Definition drops (id : Z) a f a' f' : Prop :=
  (∀ d, f' !! d = f !! d ∨ f !! d = Some id ∧ f' !! d = None) ∧
  (a' = a ∨ a' = erase_all id a ∧ ∀ d, f' !! d ≠ Some id).

Lemma drops_refl id a f : drops id a f a f.
Proof. split; [by left|by left]. Qed.

Lemma drops_in_step id a f a' f' : in_step a f → drops id a f a' f' → in_step a' f'.
Proof.
  intros Hs [Hf Ha]. assert (Hsub : ∀ d u, f' !! d = Some u → f !! d = Some u).
  { intros d u Hd. destruct (Hf d) as [He|[_ He]]; congruence. }
  split.
  - intros d u Hd. destruct Ha as [->|[-> Hn]]; [by apply (shown_active a f Hs d), Hsub|].
    apply elem_of_erase_all. split; [|by apply (shown_active a f Hs d), Hsub]. intros ->. by apply (Hn d).
  - intros d d' u Hd Hd'. apply (shown_once a f Hs d d' u); auto.
  - destruct (f' !! INVALID_DISPLAY_ID) eqn:E; [|done]. apply Hsub in E. by rewrite (shown_valid a f Hs) in E.
  - intros d u Hm Hd. apply (shown_default a f Hs d u); auto.
Qed.

(** The object knows the display its account is on. *)
Definition covers (info : OsAccountInfo) f : Prop :=
  ∀ d, f !! d = Some (localId_ info) → isForeground_ info = true ∧ displayId_ info = d.

(** What [CleanForegroundAccountMap] leaves. *)
Definition cleaned (info : OsAccountInfo) f : gmap Z Z :=
  if isForeground_ info && bool_decide (f !! displayId_ info = Some (localId_ info)) then delete (displayId_ info) f else f.

Lemma cleaned_drops info a f a' :
  covers info f → a' = a ∨ a' = erase_all (localId_ info) a → drops (localId_ info) a f a' (cleaned info f).
Proof.
  intros Hc Ha. assert (Hn : ∀ d, cleaned info f !! d ≠ Some (localId_ info)).
  { intros d Hd. unfold cleaned in Hd. destruct (isForeground_ info) eqn:Ef; cbn in Hd.
    - case_bool_decide as Hb.
      + apply lookup_delete_Some in Hd as [Hne Hd]. apply Hc in Hd as [_ Hd]. done.
      + destruct (Hc d Hd) as [_ He]. by rewrite He in Hb.
    - destruct (Hc d Hd) as [H _]. congruence. }
  split; [|naive_solver]. intros d. unfold cleaned. destruct (isForeground_ info); cbn; [|by left].
  case_bool_decide as Hb; [|by left]. destruct (decide (displayId_ info = d)) as [<-|Hne].
  - right. split; [done|]. apply lookup_delete_eq.
  - left. by apply lookup_delete_ne.
Qed.

Lemma cleaned_idemp info f : cleaned info (cleaned info f) = cleaned info f.
Proof.
  unfold cleaned at 2 3. destruct (isForeground_ info && _) eqn:E; [|unfold cleaned; by rewrite E].
  unfold cleaned. rewrite lookup_delete_eq. by rewrite andb_false_r.
Qed.

(** Two objects of the same account at the same place. *)
Definition same_place (info info' : OsAccountInfo) : Prop :=
  localId_ info' = localId_ info ∧ isForeground_ info' = isForeground_ info ∧ displayId_ info' = displayId_ info.

Lemma same_place_cleaned info info' f : same_place info info' → cleaned info' f = cleaned info f.
Proof. intros (Hl & Hf & Hd). unfold cleaned. by rewrite Hl, Hf, Hd. Qed.

Lemma wp_keep {A} (P : S → Prop) (m : M S A) (Q : result A → S → Prop) s :
  preserves P m → P s → (∀ r s', P s' → Q r s') → wp m Q s.
Proof. intros Hm Hs HQ. apply HQ. by apply Hm. Qed.

Lemma wp_calm {A B} (P : S → Prop) (c : M S A) (k : A → M S B) (Q : result B → S → Prop) s :
  calm P c → P s → (∀ x s', P s' → wp (k x) Q s') → wp (c ≫= k) Q s.
Proof.
  intros Hc Hs Hk. apply wp_bind. unfold wp. destruct (Hc s Hs) as [Hok Hs'].
  destruct (c s) as [[x|e] s']; [by apply Hk|done].
Qed.

(** *** The steps of a deactivation *)

Lemma run_clean {A} info (k : unit → M S A) m :
  (CleanForegroundAccountMap info ≫= k) m =
  k tt {| m with foregroundAccountMap_ := cleaned info (foregroundAccountMap_ m) |}.
Proof.
  unfold CleanForegroundAccountMap, cleaned. destruct (isForeground_ info); cbn [negb andb].
  - unfold set_foreground. by rewrite run_modify.
  - by destruct m.
Qed.

(** The switches announced so far. *)
Context (l : list Event).

(** The active accounts are [a], the displays [f]. *)
Definition view a f : S → Prop := sees (λ a' f' l', a' = a ∧ f' = f ∧ l' = l).

(** The same, and the account is neither verified nor logged in. *)
Definition gone (id : Z) a f m : Prop :=
  view a f m ∧ verifiedAccounts_ m !! id = None ∧ loggedInAccounts_ m !! id = None.

#[export] Instance gone_local id a f : Local (gone id a f).
Proof using Type.
  split.
  - intros m w H. by destruct m.
  - intros m e He [Hv H]. split; [by apply (local_event (P := view a f))|by destruct m].
Qed.

Lemma by_info_gone info a f :
  moves (view a f) (DeactivateOsAccountByInfo info) (gone (localId_ info) (erase_all (localId_ info) a) (cleaned info f)).
Proof.
  intros m (Ha & Hf & Hl). unfold DeactivateOsAccountByInfo, set_loggedIn, set_verified, EraseIdFromActiveList. cbv zeta.
  rewrite !run_modify, run_clean, run_modify.
  match goal with |- gone ?id ?a ?f (snd (?k ?s)) => enough (Hk : preserves (gone id a f) k); [apply Hk|] end.
  - unfold gone, view, sees, switches in *; cbn. rewrite Ha, Hf, Hl, !lookup_delete_eq. done.
  - frame.
Qed.

Lemma storage_stop_place info :
  yields (λ _, True) (SendToStorageAccountStop info) (λ p _, same_place info p.2).
Proof.
  intros m [r info'] m' _ H. unfold SendToStorageAccountStop in H. cbn [snd].
  assert (Hret : ∀ r0 info0 s0, same_place info info0 → (mret (r0, info0) : M S _) s0 = (Ok (r, info'), m') → same_place info info').
  { intros r0 info0 s0 Hp Hr. rewrite ret_run in Hr. by injection Hr as _ <- _. }
  destruct HAS_STORAGE_PART; [|by eapply Hret; [|exact H]].
  apply bind_Ok_inv in H as (remote & m1 & _ & H). destruct remote; [|by eapply Hret; [|exact H]].
  apply bind_Ok_inv in H as (err & m2 & _ & H). destruct err; [|by eapply Hret; [|exact H]].
  apply bind_Ok_inv in H as (err & m3 & _ & H). destruct err; by eapply Hret; [|exact H].
Qed.

(** The ways a deactivation ends: the displays are cleaned in any case. *)
Lemma deactivate_msg_ends info stop a f m :
  view a f m →
  wp (SendMsgForAccountDeactivate info stop) (λ r m',
    let id := localId_ info in let f' := cleaned info f in
    view a f' m' ∧ is_Ok r = false ∨ gone id (erase_all id a) f' m') m.
Proof.
  intros Hv. unfold SendMsgForAccountDeactivate. cbv zeta. unfold wp. rewrite run_clean.
  set (m1 := {| m with foregroundAccountMap_ := _ |}).
  assert (Hv1 : view a (cleaned info f) m1). { destruct Hv as (Ha & Hf & Hl). unfold view, sees, switches in *; cbn. by rewrite Ha, Hf, Hl. }
  clearbody m1. clear Hv.
  match goal with |- view _ _ (snd (?k m1)) ∧ _ ∨ _ =>
    enough (Hk : wp k (λ r m', view a (cleaned info f) m' ∧ is_Ok r = false
      ∨ gone (localId_ info) (erase_all (localId_ info) a) (cleaned info f) m') m1) by exact Hk end.
  apply wp_bind. eapply (wp_keep (view a (cleaned info f))); [unfold view; frame|done|].
  intros [_|e] m2 Hv2; [|by left]. cbv beta.
  apply wp_bind. eapply (wp_keep (view a (cleaned info f))); [unfold view; frame|done|].
  intros [_|e] m3 Hv3; [|by left].
  apply wp_bind. eapply (wp_keep (view a (cleaned info f))); [unfold view; frame|done|].
  intros [_|e] m4 Hv4; [|by left].
  assert (Hend : ∀ info' m5, same_place info info' → view a (cleaned info f) m5 →
    wp (DeactivateOsAccountByInfo info') (λ r m', view a (cleaned info f) m' ∧ is_Ok r = false
      ∨ gone (localId_ info) (erase_all (localId_ info) a) (cleaned info f) m') m5).
  { intros info' m5 Hp Hv5. right. pose proof (by_info_gone info' a (cleaned info f) m5 Hv5) as Hg.
    rewrite (same_place_cleaned info info' _ Hp), cleaned_idemp in Hg. by rewrite (proj1 Hp) in Hg. }
  destruct stop; [|by apply Hend].
  apply wp_bind. pose proof (storage_stop_place info m4) as Hplace.
  assert (Hv5 : view a (cleaned info f) (SendToStorageAccountStop info m4).2).
  { assert (Hk : preserves (view a (cleaned info f)) (SendToStorageAccountStop info)) by (unfold view; frame). by apply Hk. }
  unfold wp. destruct (SendToStorageAccountStop info m4) as [[[r info']|e] m5]; cbn [fst snd] in *; [|by left].
  specialize (Hplace _ _ I eq_refl). cbn [snd] in Hplace. destruct r as [_|e]; [by apply Hend|].
  right. unfold set_loggedIn, set_verified, EraseIdFromActiveList. rewrite !run_modify. cbn.
  destruct Hv5 as (Ha & Hf & Hl). unfold gone, view, sees, switches in *; cbn. by rewrite Ha, Hf, Hl, !lookup_delete_eq.
Qed.

(** *** Deactivation *)

Lemma real_type_id id info : yields (λ _, True) (real_type id info) (λ info' _, localId_ info' = localId_ info).
Proof.
  intros m info' m' _ H. unfold real_type in H.
  apply bind_Ok_inv in H as (cached & m1 & _ & H). apply bind_Ok_inv in H as (refreshed & m2 & _ & H).
  cbv zeta in H. rewrite ret_run in H. injection H as <- _. cbn. by destruct (_ && _).
Qed.

(** What the manager says of the account of a file. *)
Definition placed (id : Z) a f (info : OsAccountInfo) : Prop :=
  localId_ info = id ∧ isActivated_ info = bool_decide (id ∈ a) ∧
  displayId_ info = (if bool_decide (id ∈ a) then display_of id f else INVALID_DISPLAY_ID) ∧
  isForeground_ info = negb (displayId_ info =? INVALID_DISPLAY_ID).

Lemma placed_covers id a f info : in_step a f → placed id a f info → covers info f.
Proof.
  intros Hs (Hid & _ & Hd & Hfg) d Hf. rewrite Hid in Hf.
  rewrite bool_decide_true in Hd by (by apply (shown_active a f Hs d)).
  destruct (display_of_spec id f) as [(d' & Hd' & Hf')|[_ Hn]]; [|by destruct (Hn d)].
  assert (d' = d) as -> by (by apply (shown_once a f Hs d' d id)).
  rewrite <-Hd' in Hd. rewrite Hfg, Hd. split; [|done]. apply negb_true_iff, Z.eqb_neq. intros ->.
  by rewrite (shown_valid a f Hs) in Hf.
Qed.

Context {laws : OsAccountControlLaws W}.

Lemma real_spec id info a f m :
  view a f m →
  wp (GetRealOsAccountInfoById id info) (λ r m', view a f m' ∧ ∃ res info', r = Ok (res, info') ∧
    (res = Ok tt → placed id a f info' ∧ isVerified_ info' = default false (verifiedAccounts_ m' !! id))) m.
Proof using laws.
  intros Hv. unfold GetRealOsAccountInfoById. apply wp_bind. unfold wp at 1, ask.
  destruct (OsAccountServices.GetOsAccountInfoById id info (world m)) as [[res info1] w] eqn:E. cbn [fst snd].
  assert (Hv1 : view a f (set_world w m)) by (by destruct m). revert Hv1. generalize (set_world w m). intros m1 Hv1.
  destruct res as [[]|e].
  2:{ apply wp_ret. split; [done|]. eexists _, _. split; [done|]. intros [=]. }
  apply own_account in E. apply wp_bind.
  match goal with |- wp ?k _ _ => assert (Hk : yields (λ _, True) k (λ i _, localId_ i = id)) end.
  { destruct (_ && _).
    - intros s i s' Hs Hi. rewrite <-E. by eapply real_type_id.
    - intros s i s' _ Hi. rewrite ret_run in Hi. by injection Hi as <- _. }
  match goal with |- wp ?k _ _ => assert (Hp : preserves (view a f) k) by (unfold view, real_type; frame) end.
  specialize (Hp m1 Hv1). specialize (Hk m1). unfold wp.
  match goal with |- context [?k m1] => destruct (k m1) as [[info2|e] m2] eqn:E2 end; cbn [fst snd] in *.
  - rewrite run_get, ret_run. cbn. specialize (Hk _ _ I eq_refl). split; [done|]. destruct Hp as (Ha & Hf & _).
    eexists _, _. split; [done|]. intros _. unfold placed, with_marks; cbn. by rewrite Ha, Hf.
  - exfalso. clear Hk. destruct (_ && _); [|done]. unfold real_type in E2.
    apply bind_Err_inv in E2 as [E2|(cached & s1 & _ & E2)]; [done|].
    apply bind_Err_inv in E2 as [E2|(cached' & s2 & _ & E2)]; [|done].
    destruct cached; [done|]. apply bind_Err_inv in E2 as [E2|(r & s2 & _ & E2)]; [|done].
    unfold mtry in E2. by destruct (RefreshAccountTypeInCache _ _ _).
Qed.

Definition unmarked (id : Z) (m : S) : S := {| m with operatingId_ := erase_first id (operatingId_ m) |}.

Lemma run_unmark {A} id (r : result A) m : unmark_return id r m = (r, unmarked id m).
Proof using Type. unfold unmark_return, RemoveLocalIdToOperating. rewrite run_modify. by destruct r. Qed.

Lemma wp_unmark {A} id (r : result A) (Q : result A → S → Prop) m : Q r (unmarked id m) → wp (unmark_return id r) Q m.
Proof using Type. intros H. unfold wp. by rewrite run_unmark. Qed.

(** An operation that is let in, or refused and without effect. *)
Lemma wp_mark {A} id (busy body : M S A) (Q : result A → S → Prop) m :
  wp busy Q m → wp body Q {| m with operatingId_ := operatingId_ m ++ [id] |} →
  wp (added ← CheckAndAddLocalIdOperating id; if negb added then busy else body) Q m.
Proof using Type. intros Hbusy Hbody. unfold wp. rewrite run_mark. by case_bool_decide. Qed.

(** Not active, on no display, not verified. *)
Definition inactive (id : Z) m : Prop :=
  (id ∉ activeAccountId_ m) ∧ (∀ d, foregroundAccountMap_ m !! d ≠ Some id) ∧
  (verifiedAccounts_ m !! id) ≠ Some true.

Definition dropped (id : Z) a f : S → Prop := sees (λ a' f' l', drops id a f a' f' ∧ l' = l).

Lemma view_dropped id a f m : view a f m → dropped id a f m.
Proof using Type. intros (Ha & Hf & Hl). unfold dropped, sees. rewrite Ha, Hf. split; [apply drops_refl|done]. Qed.

Lemma gone_dropped info a f m :
  covers info f → gone (localId_ info) (erase_all (localId_ info) a) (cleaned info f) m → dropped (localId_ info) a f m.
Proof using Type. intros Hc [(Ha & Hf & Hl) _]. unfold dropped, sees. rewrite Ha, Hf. split; [apply cleaned_drops; auto|done]. Qed.

Lemma gone_inactive info a f m :
  covers info f → gone (localId_ info) (erase_all (localId_ info) a) (cleaned info f) m → inactive (localId_ info) m.
Proof using Type.
  intros Hc [(Ha & Hf & _) [Hv _]]. unfold inactive. split_and!.
  - rewrite Ha. intros [H _]%elem_of_erase_all. done.
  - rewrite Hf. intros d Hd. destruct (cleaned_drops info (erase_all (localId_ info) a) f
      (erase_all (localId_ info) (erase_all (localId_ info) a)) Hc) as [_ [H|[_ H]]]; auto.
    + unfold cleaned in Hd. destruct (isForeground_ info) eqn:E; cbn in Hd.
      * case_bool_decide as Hb; [|by destruct (Hc d Hd) as [_ He]; rewrite He in Hb].
        apply lookup_delete_Some in Hd as [Hne Hd]. by destruct (Hc d Hd).
      * destruct (Hc d Hd); congruence.
    + by apply (H d).
  - by rewrite Hv.
Qed.

Lemma Deactivate_ends id stop a f m :
  in_step a f → view a f m →
  wp (DeactivateOsAccount id stop) (λ r m', dropped id a f m' ∧ (r = Ok tt → inactive id m')) m.
Proof using laws.
  intros Hs Hv. unfold DeactivateOsAccount. apply wp_mark.
  { apply wp_err. split; [|done]. by apply view_dropped. }
  assert (Hkeep : ∀ m', view a f m' → dropped id a f m') by (intros m'; apply view_dropped).
  apply wp_bind. eapply wp_conseq; [apply (real_spec id OsAccountInfo_new a f); by destruct m|].
  intros r m1 (Hv1 & res & info & -> & Hinfo). destruct res as [[]|e]; [|apply wp_unmark; split; [by apply Hkeep|done]].
  destruct (Hinfo eq_refl) as [Hp Hver]. clear Hinfo. pose proof (placed_covers id a f info Hs Hp) as Hc.
  destruct Hp as (Hid & Hact & _ & _).
  destruct (negb (isActivated_ info) && negb (isVerified_ info)) eqn:Eearly.
  { apply wp_unmark. split; [by apply Hkeep|]. intros _. apply andb_true_iff in Eearly as [E1 E2].
    rewrite Hact in E1. apply negb_true_iff, bool_decide_eq_false in E1. destruct Hv1 as (Ha & Hf & _).
    unfold inactive, unmarked; cbn. rewrite Ha, Hf. split_and!; [done| |].
    - intros d Hd. by apply E1, (shown_active a f Hs d).
    - rewrite Hver in E2. intros H. by rewrite H in E2. }
  destruct (IsValidOsAccount info) as [_|e]; [|apply wp_unmark; split; [by apply Hkeep|done]].
  unfold set_deactivating. unfold wp. rewrite run_modify.
  match goal with |- dropped _ _ _ (snd (?k ?s)) ∧ _ =>
    enough (Hk : wp k (λ r m', dropped id a f m' ∧ (r = Ok tt → inactive id m')) s) by exact Hk end.
  eapply (wp_calm (view a f)); [unfold view; calmly|by destruct m1|]. intros _ m2 Hv2.
  eapply (wp_calm (view a f)); [unfold view; calmly|done|]. intros _ m3 Hv3.
  apply wp_bind, wp_try. eapply wp_conseq; [by apply deactivate_msg_ends|]. cbv zeta. intros r m4 Hend.
  unfold wp. rewrite run_modify.
  match goal with |- dropped _ _ _ (snd (?k ?s)) ∧ _ =>
    enough (Hk : wp k (λ r m', dropped id a f m' ∧ (r = Ok tt → inactive id m')) s) by exact Hk end.
  destruct r as [info'|e].
  - destruct Hend as [[_ H]|Hg]; [done|].
    assert (Hg' : gone (localId_ info) (erase_all (localId_ info) a) (cleaned info f)
      {| m4 with deactivatingAccounts_ := delete id (deactivatingAccounts_ m4) |}) by (by destruct m4).
    revert Hg'. generalize {| m4 with deactivatingAccounts_ := delete id (deactivatingAccounts_ m4) |}. intros m5 Hg5.
    apply wp_bind. eapply (wp_keep (gone _ _ _)); [|exact Hg5|]; [frame|]. intros [_|e] m6 Hg6.
    2:{ split; [|done]. rewrite <-Hid. by eapply gone_dropped. }
    apply wp_bind. eapply (wp_keep (gone _ _ _)); [|exact Hg6|]; [frame|]. intros [_|e] m7 Hg7.
    2:{ split; [|done]. rewrite <-Hid. by eapply gone_dropped. }
    apply wp_unmark. rewrite <-Hid. split; [|intros _]; [eapply gone_dropped|eapply gone_inactive]; try done; by destruct m7.
  - apply wp_unmark. split; [|done]. rewrite <-Hid in *. destruct Hend as [[Hv4 _]|Hg4].
    + destruct Hv4 as (Ha & Hf & Hl). unfold dropped, sees, switches, unmarked in *; cbn. rewrite Ha, Hf.
      split; [apply cleaned_drops; auto|done].
    + eapply gone_dropped; [done|]. by destruct m4.
Qed.
End Foreground.
