(* ===== verification/OsAccountActivation.v ===== *)
(** Activation and removal of operating system accounts: what they leave of the active
    accounts, of the displays and of the announcements of switches. *)
From Stdlib Require Import ZArith Lia Ascii String.
From stdpp Require Import base list gmap sets strings pretty sorting.
From S2P Require Import Prelude ErrorCodes Json FileStore OsAccountInfo OsAccountEnv OsAccountFiles OsAccountConstraints OsAccountServices OsAccountInterface OsAccountManager OsAccountFrame OsAccountCreation OsAccountQueries OsAccountMarks OsAccountForeground.

(** The configuration of the displays answers, or cannot be read or parsed. *)
Class DisplaysLaws (W : Type) {displays : Displays W} := {
  primary_error displayId w e w' : IsDisplayPrimary displayId w = (Err e, w') →
    e = ERR_ACCOUNT_COMMON_FILE_READ_FAILED ∨ e = ERR_ACCOUNT_COMMON_BAD_JSON_FORMAT_ERROR;
}.

(** Several accounts in the foreground need several active ones. *)
Class SwitchesLaws {sw : OsSwitches} := {
  several_active : ENABLE_MULTI_FOREGROUND_OS_ACCOUNTS = true → ENABLE_MULTIPLE_ACTIVE_ACCOUNTS = true;
}.

Section Activation.
Context {W : Type} {sw : OsSwitches} {cfg : Config} {oscfg : OsConfig} {sysconf : Sysconf}.
Context {cjson : CJsonLib} {fs : FileStore W}.
Context {ams : AbilityManager W} {bms : BundleManager W} {storage : StorageManager W} {idm : UserIdm W}.
Context {tee : TeeAdapter W} {displays : Displays W} {parts : AccountParts W} {control : OsAccountControl W}.
Context {switch_laws : SwitchesLaws} {ams_laws : AbilityManagerLaws W} {display_laws : DisplaysLaws W}.
Context {control_laws : OsAccountControlLaws W}.
Local Abbreviation S := (Manager W).
Implicit Types (a : list Z) (f : gmap Z Z) (l : list Event) (m : Manager W).

(** *** What the ability manager changes when a user was started *)

Definition start_active (displayId id : Z) a : list Z :=
  if ENABLE_MULTI_FOREGROUND_OS_ACCOUNTS && negb (displayId =? DEFAULT_DISPLAY_ID) then a ++ [id]
  else id :: (if ENABLE_MULTIPLE_ACTIVE_ACCOUNTS then erase_all id a else []).
Definition start_shown (displayId id : Z) f : gmap Z Z :=
  if displayId =? INVALID_DISPLAY_ID then f else <[displayId := id]> f.

Lemma run_on_started d id m :
  on_started d id m =
  (Ok tt, {| m with activeAccountId_ := start_active d id (activeAccountId_ m);
                    foregroundAccountMap_ := start_shown d id (foregroundAccountMap_ m) |}).
Proof using Type.
  unfold on_started, start_active, start_shown, PushIdIntoActiveList, set_foreground.
  destruct (ENABLE_MULTI_FOREGROUND_OS_ACCOUNTS && _); rewrite run_modify; destruct (d =? INVALID_DISPLAY_ID); by destruct m.
Qed.

(** The account may be started on the display. *)
Definition may_start (displayId id : Z) f : Prop :=
  if ENABLE_MULTI_FOREGROUND_OS_ACCOUNTS then ∀ d, f !! d = Some id → d = displayId
  else displayId = DEFAULT_DISPLAY_ID ∨ displayId = INVALID_DISPLAY_ID.

(** Nothing else that is shown stops being active. *)
Definition keeps_others (displayId : Z) : Prop := displayId ≠ INVALID_DISPLAY_ID ∨ ENABLE_MULTIPLE_ACTIVE_ACCOUNTS = true.

Lemma start_active_self d id a : id ∈ start_active d id a.
Proof using Type. unfold start_active. destruct (_ && _); [apply elem_of_app; right|]; left. Qed.

Lemma start_active_other d id a u :
  u ≠ id → u ∈ a → (ENABLE_MULTIPLE_ACTIVE_ACCOUNTS = true) → u ∈ start_active d id a.
Proof using Type.
  intros Hne Hu Hmulti. unfold start_active. rewrite Hmulti. destruct (_ && _); [by apply elem_of_app; left|].
  right. by apply elem_of_erase_all.
Qed.

Lemma started_in_step d id a f :
  in_step a f → (d ≠ INVALID_DISPLAY_ID → may_start d id f) → keeps_others d →
  in_step (start_active d id a) (start_shown d id f).
Proof using switch_laws.
  intros Hs Hmay Hothers. unfold may_start, keeps_others in *. split.
  - intros d' u Hu. destruct (decide (u = id)) as [->|Hne]; [apply start_active_self|].
    unfold start_shown in Hu. destruct (Z.eqb_spec d INVALID_DISPLAY_ID) as [He|Hd].
    + destruct Hothers as [|Hmulti]; [done|]. apply start_active_other; [done| |done]. by apply (shown_active a f Hs d').
    + apply lookup_insert_Some in Hu as [[_ ->]|[Hd' Hu]]; [done|]. apply start_active_other; [done|by apply (shown_active a f Hs d')|].
      specialize (Hmay Hd). destruct ENABLE_MULTI_FOREGROUND_OS_ACCOUNTS eqn:Em; [by apply several_active|].
      apply (shown_default a f Hs) in Hu; [|done]. naive_solver.
  - intros d1 d2 u H1 H2. unfold start_shown in *. destruct (Z.eqb_spec d INVALID_DISPLAY_ID) as [He|Hd].
    + by apply (shown_once a f Hs d1 d2 u).
    + specialize (Hmay Hd). apply lookup_insert_Some in H1, H2.
      destruct H1 as [[<- <-]|[N1 H1]], H2 as [[<- E2]|[N2 H2]]; subst; try done.
      * destruct ENABLE_MULTI_FOREGROUND_OS_ACCOUNTS eqn:Em; [by apply Hmay in H2 as ->|].
        apply (shown_default a f Hs) in H2; [|done]. naive_solver.
      * destruct ENABLE_MULTI_FOREGROUND_OS_ACCOUNTS eqn:Em; [by apply Hmay in H1 as ->|].
        apply (shown_default a f Hs) in H1; [|done]. naive_solver.
      * by apply (shown_once a f Hs d1 d2 u).
  - unfold start_shown. destruct (Z.eqb_spec d INVALID_DISPLAY_ID) as [He|Hd]; [apply (shown_valid a f Hs)|].
    rewrite lookup_insert_ne by done. apply (shown_valid a f Hs).
  - intros d' u Hm Hu. unfold start_shown in Hu. rewrite Hm in Hmay.
    destruct (Z.eqb_spec d INVALID_DISPLAY_ID) as [He|Hd]; [by apply (shown_default a f Hs d' u)|].
    apply lookup_insert_Some in Hu as [[<- _]|[_ Hu]]; [by destruct (Hmay Hd)|by apply (shown_default a f Hs d' u)].
Qed.

(** *** The start in the ability manager *)

Lemma wp_retrying {A} n (body : M S (bool * A)) (I : S → Prop) (Q : A → Prop) m :
  I m → (∀ m, I m → wp body (λ r m', I m' ∧ ∀ b x, r = Ok (b, x) → Q x) m) →
  wp (retrying n body) (λ r m', I m' ∧ ∀ x, r = Ok x → Q x) m.
Proof using Type.
  intros Hm Hb. revert m Hm. induction n as [|n IH]; intros m Hm; cbn [retrying]; apply wp_bind.
  - eapply wp_conseq; [by apply Hb|]. intros [[b x]|e] m' [Hi HQ]; [|done]. apply wp_ret. split; [done|].
    intros ? [= <-]. by eapply HQ.
  - eapply wp_conseq; [by apply Hb|]. intros [[[] x]|e] m' [Hi HQ]; [by apply IH| |done].
    apply wp_ret. split; [done|]. intros ? [= <-]. by eapply HQ.
Qed.

Lemma wp_retry_ipc {A} (g : M S A) (I : S → Prop) (Q : A → Prop) m :
  I m → (∀ m, I m → wp g (λ r m', I m' ∧ ∀ x, r = Ok x → Q x) m) →
  wp (retry_ipc g) (λ r m', I m' ∧ ∀ x, r = Ok x → Q x) m.
Proof using Type.
  intros Hm Hg. unfold retry_ipc. apply wp_bind.
  eapply wp_conseq; [apply (wp_retrying _ _ I (λ r, ∀ x, r = Ok x → Q x)); [done|]|].
  - intros m1 H1. apply wp_bind, wp_try. eapply wp_conseq; [by apply Hg|]. intros r m2 [H2 HQ].
    apply wp_ret. split; [done|]. intros b x [= _ <-]. exact HQ.
  - intros [[x|e]|e] m1 [H1 HQ]; [apply wp_ret|apply wp_err|]; (split; [done|]); intros ? [= <-]. by apply (HQ (Ok x)).
Qed.

(** The state of an account started on a display. *)
Definition started_view l d id a f : S → Prop := view l (start_active d id a) (start_shown d id f).

Lemma wp_ams_start l info d recovery a f m :
  view l a f m →
  wp (SendToAMSAndSamgrAccountStart info d recovery) (λ r m',
    match r with Ok _ => started_view l d (localId_ info) a f m' | Err _ => view l a f m' end) m.
Proof using ams_laws.
  intros Hv. unfold SendToAMSAndSamgrAccountStart, SendToAMSAccountStart, InnerSendToAMSAccountStart.
  apply wp_bind, wp_bind.
  eapply wp_conseq; [apply (wp_retry_ipc _ (view l a f) (λ p, p.2 = ERR_OK → p.1 = localId_ info)); [done|]|].
  - intros m1 H1. unfold wp, call. destruct (StartUser _ _ _ (world m1)) as [r w] eqn:E. cbn [fst snd].
    split; [by destruct m1|]. intros [u c] ->. cbn. intros ->. by eapply started_user.
  - intros [[u c]|e] m1 [H1 Hu]; [|done]. specialize (Hu _ eq_refl). cbn in Hu. unfold OnUserCmdDone.
    destruct (Z.eqb_spec c ERR_OK) as [Hc|Hc].
    + rewrite (Hu Hc). subst c. apply wp_bind, wp_bind. unfold wp at 1. rewrite run_on_started. cbn [fst snd].
      apply wp_ret. cbn.
      match goal with |- wp ?k _ ?s =>
        assert (Hk : calm (started_view l d (localId_ info) a f) k) by (unfold started_view, view; calmly);
        assert (H2 : started_view l d (localId_ info) a f s) end.
      { destruct H1 as (Ha & Hf & Hl). unfold started_view, view, sees, switches in *; cbn. by rewrite Ha, Hf. }
      destruct (Hk _ H2) as [Hok H3]. unfold wp. by destruct (ignore _ _) as [[] m2].
    + apply wp_bind, wp_bind, wp_ret, wp_ret. apply Z.eqb_neq in Hc. rewrite Hc. by apply wp_err.
Qed.

(** *** The switch from one account to another *)

(** What is announced when a switch begins, and when it is done. *)
Definition opening (d from to : Z) : list Event := if from =? to then [] else [Publish from SWITCHING to (Some d)].
Definition closing (d from to : Z) : list Event := if from =? to then [] else [Publish from SWITCHED to (Some d)].
Definition switched_events (d from to : Z) : list Event := opening d from to ++ closing d from to.

Lemma wp_switch l from state to d (Q : result unit → S → Prop) a f m :
  is_switch (Publish from state to (Some d)) = true → view l a f m →
  (∀ m', view (l ++ [Publish from state to (Some d)]) a f m' → Q (Ok tt) m') →
  wp (publish_switch from state to d) Q m.
Proof using Type.
  intros He (Ha & Hf & Hl) Hk. unfold publish_switch, announce. apply wp_modify. apply Hk.
  unfold view, sees, switches in *. cbn [events add_event activeAccountId_ foregroundAccountMap_].
  by rewrite filter_app, Hl, filter_cons_True.
Qed.

Lemma wp_ignore {A} (c : M S A) (Q : result unit → S → Prop) m : wp c (λ _ m', Q (Ok tt) m') m → wp (ignore c) Q m.
Proof using Type. intros H. unfold ignore. apply wp_bind, wp_try. eapply wp_conseq; [exact H|]. by intros. Qed.

Lemma wp_rollback l id old d a f m :
  view (l ++ opening d old id) a f m →
  wp (RollBackToEarlierAccount id old d) (λ r m',
    r = Ok tt ∧ view (l ++ switched_events d old id ++ switched_events d id old) a f m') m.
Proof using Type.
  intros Hv. unfold RollBackToEarlierAccount, switched_events, opening, closing in *.
  rewrite (Z.eqb_sym id old). destruct (old =? id); [by apply wp_ret|].
  apply wp_bind. eapply wp_switch; [done|exact Hv|]. intros m1 H1. cbv zeta.
  apply wp_bind. eapply wp_switch; [done|exact H1|]. intros m2 H2.
  eapply wp_calm; [|exact H2|]; [unfold view; calmly|]. intros _ m3 H3.
  eapply wp_switch; [done|exact H3|]. intros m4 H4. split; [done|].
  by rewrite <-!app_assoc in H4.
Qed.

(** The storage gives the object of the account back. *)
Lemma interface_start_id info :
  yields (λ _, True) (OsAccountInterface.SendToStorageAccountStart info) (λ info' _, localId_ info' = localId_ info).
Proof using Type.
  intros m info' m' _ H. unfold OsAccountInterface.SendToStorageAccountStart in H.
  apply bind_Ok_inv in H as (unlocked & m1 & _ & H). destruct (_ && _); [|rewrite ret_run in H; by injection H as <- _].
  cbv zeta in H. destruct (negb _); [|rewrite ret_run in H; by injection H as <- _].
  apply bind_Ok_inv in H as (now & m2 & _ & H). rewrite ret_run in H. by injection H as <- _.
Qed.

Lemma manager_start_id info : yields (λ _, True) (SendToStorageAccountStart info) (λ info' _, localId_ info' = localId_ info).
Proof using Type.
  intros m info' m' _ H. unfold SendToStorageAccountStart in H. cbv zeta in H.
  apply bind_Ok_inv in H as (err & m1 & Herr & H). unfold mtry in Herr.
  destruct (OsAccountInterface.SendToStorageAccountStart info m) as [r m0] eqn:E. injection Herr as <- <-.
  destruct r as [info1|e]; [|rewrite err_run in H; discriminate]. apply interface_start_id in E; [|done].
  apply bind_Ok_inv in H as ([] & m2 & _ & H). apply bind_Ok_inv in H as ([] & m3 & _ & H).
  destruct (_ && _); [|rewrite ret_run in H; by injection H as <- _].
  do 3 apply bind_Ok_inv in H as ([] & ? & _ & H). destruct (negb _); [rewrite ret_run in H; by injection H as <- _|].
  apply bind_Ok_inv in H as ([] & m5 & _ & H). rewrite ret_run in H. by injection H as <- _.
Qed.

(** How the start of an account ends. *)
Definition start_ends l d id old a f (r : result OsAccountInfo) : S → Prop :=
  match r with
  | Ok _ => started_view (l ++ opening d old id) d id a f
  | Err _ => view (l ++ switched_events d old id ++ switched_events d id old) a f
  end.

Lemma wp_roll_back l id old d e a f m :
  view (l ++ opening d old id) a f m →
  wp (_ ← RollBackToEarlierAccount id old d; merr e) (start_ends l d id old a f) m.
Proof using Type. intros H. apply wp_bind. eapply wp_conseq; [by apply wp_rollback|]. by intros r m' [-> H']. Qed.

Lemma wp_both l info start d recovery old a f m :
  view (l ++ opening d old (localId_ info)) a f m →
  wp (SendToStorageAndAMSAccountStart info start d recovery old) (start_ends l d (localId_ info) old a f) m.
Proof using ams_laws.
  intros Hv. unfold SendToStorageAndAMSAccountStart. cbv zeta. apply wp_bind.
  set (start_storage := if start then _ else _).
  assert (Hk : calm (view (l ++ opening d old (localId_ info)) a f) start_storage)
    by (unfold start_storage, view; calmly).
  assert (Hid : ∀ info' m', start_storage m = (Ok (Ok info'), m') → localId_ info' = localId_ info).
  { intros info' m' H. unfold start_storage in H. destruct start; [|rewrite ret_run in H; by injection H as <- _].
    unfold mtry in H. destruct (SendToStorageAccountStart info m) as [r m0] eqn:E. injection H as -> _.
    by eapply manager_start_id. }
  destruct (Hk m Hv) as [Hok H1]. unfold wp at 1. clearbody start_storage.
  destruct (start_storage m) as [[errCode|e] m1]; [|done]. clear Hok. cbn [fst snd] in *.
  assert (Hams : ∀ info', localId_ info' = localId_ info → wp (errCode ← mtry (SendToAMSAndSamgrAccountStart info' d recovery);
    match errCode with
    | Err errCode => _ ← RollBackToEarlierAccount (localId_ info) old d; merr errCode
    | Ok _ => mret info' end) (start_ends l d (localId_ info) old a f) m1).
  { intros info' He. apply wp_bind, wp_try. eapply wp_conseq; [by eapply wp_ams_start|]. rewrite He.
    intros [u|e] m2 H2; [by apply wp_ret|by apply wp_roll_back]. }
  destruct errCode as [info'|e]; [|destruct recovery; [by apply Hams|by apply wp_roll_back]].
  apply Hams. by apply (Hid info' m1).
Qed.

(** *** The account that was in the foreground *)

Lemma covers_hidden info f : (∀ d, f !! d ≠ Some (localId_ info)) → covers info f.
Proof using Type. intros H d Hd. by destruct (H d). Qed.

Lemma wp_background l old a f m :
  in_step a f → (∀ d, f !! d ≠ Some old) → view l a f m →
  wp (UpdateAccountToBackground old) (λ r m', r = Ok tt ∧ dropped l old a f m') m.
Proof using control_laws.
  intros Hs Hn Hv. unfold UpdateAccountToBackground. cbv zeta.
  assert (Hend : ∀ m', view l a f m' → Ok tt = Ok tt ∧ dropped l old a f m') by (intros m' H; split; [done|by apply view_dropped]).
  eapply wp_calm; [|exact Hv|]; [unfold view; calmly|]. intros _ m1 H1.
  apply wp_bind. unfold wp at 1, ask.
  destruct (OsAccountServices.GetOsAccountInfoById old _ (world m1)) as [[r info] w] eqn:E. cbn [fst snd].
  assert (H2 : view l a f (set_world w m1)) by (by destruct m1). revert H2. generalize (set_world w m1). intros m2 H2.
  destruct r as [[]|e]; [|by apply wp_ret, Hend]. apply own_account in E.
  destruct ENABLE_MULTIPLE_ACTIVE_ACCOUNTS.
  - destruct (negb _ && _); [by apply wp_ret, Hend|]. apply wp_bind, wp_get.
    destruct (negb _ && _); [|by apply wp_ret, Hend].
    apply wp_ignore. eapply wp_conseq; [by eapply Deactivate_ends|]. intros r m3 [H3 _]. by split.
  - apply wp_ignore. eapply (wp_conseq _ (λ _ m', dropped l old a f m')).
    + rewrite <-E. eapply gone_dropped; [apply covers_hidden; by rewrite E|]. by apply by_info_gone.
    + intros r m3 H3. by split.
Qed.

(** *** The request to activate *)

(** An activation that came through, the account that was shown before having been sent
    to the background. *)
Definition came_through l d id old a f (m : S) : Prop :=
  ∃ u, u ≠ id ∧ dropped (l ++ switched_events d old id) u (start_active d id a) (start_shown d id f) m.

#[export] Instance came_through_passive l d id old a f : Passive (came_through l d id old a f).
Proof using Type.
  split.
  - split; [intros m w (u & Hu & H)|intros m e He (u & Hu & H)]; exists u; (split; [done|]).
    + by destruct m.
    + unfold dropped in *. by apply (local_event (P := sees _)).
  - by intros [].
  - by intros [].
  - by intros [].
  - by intros [].
  - by intros [].
  - by intros [].
  - by intros [].
  - by intros [].
Qed.

Lemma wp_open {A} l old id d a f (k : unit → M S A) (Q : result A → S → Prop) m :
  view l a f m → (∀ m', view (l ++ opening d old id) a f m' → wp (k tt) Q m') →
  wp ((if negb (old =? id) then publish_switch old SWITCHING id d else mret tt) ≫= k) Q m.
Proof using Type.
  intros Hv Hk. unfold opening in Hk. destruct (old =? id); apply wp_bind.
  - apply wp_ret, Hk. by rewrite app_nil_r.
  - by eapply wp_switch.
Qed.

Lemma wp_close {A} l info old id d a f (k : unit → M S A) (Q : result A → S → Prop) m :
  view l a f m → (∀ m', view (l ++ closing d old id) a f m' → wp (k tt) Q m') →
  wp ((if negb (old =? id)
       then _ ← SendMsgForAccountSwitched info; _ ← SendToCESAccountSwitched id old d; _ ← publish id ACTIVATED;
            publish_switch old SWITCHED id d
       else mret tt) ≫= k) Q m.
Proof using Type.
  intros Hv Hk. unfold closing in Hk. apply wp_bind. destruct (old =? id).
  - apply wp_ret, Hk. by rewrite app_nil_r.
  - do 3 (eapply (wp_calm (view l a f)); [unfold SendMsgForAccountSwitched; calmly|eassumption|]; intros _ ? ?).
    by eapply wp_switch.
Qed.

(** Who was shown on the display is shown nowhere any more. *)
Lemma replaced_is_hidden d id old a f :
  in_step a f → f !! d = Some old → old ≠ id → ∀ d', start_shown d id f !! d' ≠ Some old.
Proof using Type.
  intros Hs Hd Hne d' Hd'. unfold start_shown in Hd'.
  destruct (Z.eqb_spec d INVALID_DISPLAY_ID) as [->|_]; [by rewrite (shown_valid a f Hs) in Hd|].
  apply lookup_insert_Some in Hd' as [[_ ->]|[Hd'' Hd']]; [done|]. by apply Hd'', (shown_once a f Hs d d' old).
Qed.

(** How a request to activate leaves the manager. *)
Definition activation_ends l d id a f {A} (r : result A) (m : S) : Prop :=
  let old := default (-1) (f !! d) in
  match r with
  | Ok _ => came_through l d id old a f m
  | Err _ => view (l ++ switched_events d old id ++ switched_events d id old) a f m
  end.

Lemma wp_activate_msg l info start d recovery a f m :
  in_step a f → may_start d (localId_ info) f → keeps_others d → view l a f m →
  wp (SendMsgForAccountActivate info start d recovery) (activation_ends l d (localId_ info) a f) m.
Proof using switch_laws ams_laws control_laws.
  intros Hs Hmay Hothers Hv. unfold SendMsgForAccountActivate, activation_ends. cbv zeta. apply wp_bind, wp_get.
  rewrite (proj1 (proj2 Hv)). set (id := localId_ info) in *. set (old := default (-1) (f !! d)).
  eapply wp_calm; [|exact Hv|]; [unfold view; calmly|]. intros _ m1 H1.
  eapply wp_open; [done|]. intros m2 H2. apply wp_bind. eapply wp_conseq; [by apply wp_both|].
  intros [info'|e] m3 H3; [|done]. cbn [start_ends] in H3. fold id in H3.
  set (sv := started_view (l ++ opening d old id) d id a f) in H3.
  assert (Hsv : Passive sv) by (unfold sv, started_view, view; exact _).
  eapply (wp_calm sv); [calmly|done|]. intros _ m4 H4.
  eapply (wp_calm sv); [|done|].
  { destruct (_ && _); [|calmly]. apply calm_bind; [calmly|]. intros _. unfold set_default. calmly. }
  intros _ m5 H5. eapply wp_close; [exact H5|]. intros m6 H6. rewrite <-app_assoc in H6. apply wp_bind.
  match goal with |- wp _ ?Q _ => assert (Hlast : ∀ m7, came_through l d id old a f m7 → Q (Ok tt) m7) end.
  { intros m7 H7. eapply (wp_calm (came_through l d id old a f)); [calmly|done|]. intros _ m8 H8. by apply wp_ret. }
  destruct (bool_decide _ && _) eqn:Eback.
  - apply andb_true_iff in Eback as [Ex%bool_decide_eq_true Hne%negb_true_iff%Z.eqb_neq].
    eapply wp_conseq; [eapply wp_background; [by apply started_in_step| |exact H6]|].
    + apply (replaced_is_hidden d id old a); [done| |done]. unfold old. by destruct Ex as [? ->].
    + intros r m7 [-> H7]. apply Hlast. by exists old.
  - apply wp_ret, Hlast. exists (id + 1). split; [lia|]. by apply view_dropped.
Qed.

(** *** Whether an account may be activated *)

Abbreviation ALREADY := ERR_OSACCOUNT_SERVICE_INNER_ACCOUNT_ALREADY_ACTIVE_ERROR.

Lemma wp_primary l d a f m :
  view l a f m → wp (ValidateDisplayPrimary d) (λ r m', view l a f m' ∧ r ≠ Err ALREADY) m.
Proof using display_laws.
  intros Hv. unfold ValidateDisplayPrimary, ValidateDisplayId. destruct (d =? DEFAULT_DISPLAY_ID) eqn:Ed; [by apply wp_ret|].
  cbn [negb]. apply wp_bind. eapply wp_calm; [|exact Hv|]; [unfold view; calmly|]. intros ids m1 H1.
  case_bool_decide; [apply wp_ret|by apply wp_err]. apply wp_bind. unfold wp at 1, call.
  destruct (IsDisplayPrimary d (world m1)) as [[b|e] w] eqn:E; cbn [fst snd].
  - assert (H2 : view l a f (set_world w m1)) by (by destruct m1). destruct b; [by apply wp_ret|by apply wp_err].
  - split; [by destruct m1|]. apply primary_error in E. intros [= ->]. by destruct E.
Qed.

Lemma wp_for_activation l id d a f m :
  view l a f m →
  wp (ValidateDisplayForActivation id d) (λ r m', view l a f m' ∧ match r with
    | Ok _ => ∀ d', f !! d' = Some id → d' = d
    | Err e => e ≠ ALREADY
    end) m.
Proof using display_laws.
  intros Hv. unfold ValidateDisplayForActivation. apply wp_bind.
  eapply (wp_conseq _ (λ r m', view l a f m' ∧ r ≠ Err ALREADY)).
  - destruct (negb _); [|by apply wp_ret]. apply wp_bind, wp_try. eapply wp_conseq; [by apply wp_primary|].
    intros [[]|e] m1 [H1 Hr]; [by apply wp_ret|]. destruct (_ || _); [by apply wp_ret|by apply wp_err].
  - intros [[]|e] m1 [H1 Hr]; [|split; [done|congruence]]. apply wp_bind, wp_get.
    rewrite (proj1 (proj2 H1)). destruct (on_other_display id d f) eqn:E; [by apply wp_err|].
    apply wp_ret. split; [done|]. by apply on_other_display_false.
Qed.

Lemma valid_error info : IsValidOsAccount info ≠ Err ALREADY.
Proof using Type. unfold IsValidOsAccount. by destruct (negb _), (toBeRemoved_ info). Qed.

Lemma wp_prepare l id d a f m :
  view l a f m →
  wp (PrepareActivateOsAccount id d) (λ r m', view l a f m' ∧ match r with
    | Ok (info, foregroundId) => localId_ info = id ∧ may_start d id f
    | Err e => e = ALREADY → f !! d = Some id
    end) m.
Proof using display_laws control_laws.
  intros Hv. unfold PrepareActivateOsAccount. apply wp_bind. eapply wp_conseq; [by apply real_spec|].
  intros r m1 (H1 & res & info & -> & Hinfo). apply wp_bind, wp_get. rewrite (proj1 (proj2 H1)).
  destruct (bool_decide _ && _) eqn:Eactive.
  { apply wp_err. split; [done|]. intros _. by apply andb_true_iff in Eactive as [H%bool_decide_eq_true _]. }
  clear Eactive. apply wp_bind. eapply (wp_conseq _ (λ r m', view l a f m' ∧ match r with
    | Ok (_, info') => localId_ info' = id | Err e => e ≠ ALREADY end)).
  { destruct res as [[]|e].
    - apply wp_ret. split; [done|]. by destruct (Hinfo eq_refl) as [(H & _) _].
    - destruct (e =? _); [case_bool_decide|]; [by apply wp_err|by apply wp_ret|by apply wp_err]. }
  intros [[skip info']|e] m2 [H2 Hid]; [|by split]. clear Hinfo.
  apply wp_bind. eapply (wp_conseq _ (λ r m', view l a f m' ∧ match r with
    | Ok _ => may_start d id f | Err e => e ≠ ALREADY end)).
  { unfold may_start. destruct ENABLE_MULTI_FOREGROUND_OS_ACCOUNTS; [by apply wp_for_activation|].
    destruct (Z.eqb_spec d DEFAULT_DISPLAY_ID); [apply wp_ret; auto|].
    destruct (Z.eqb_spec d INVALID_DISPLAY_ID); [apply wp_ret; auto|by apply wp_err]. }
  intros [[]|e] m3 [H3 Hmay]; [|by split].
  apply wp_bind. eapply (wp_conseq _ (λ r m', view l a f m' ∧ r ≠ Err ALREADY)).
  { destruct skip; [by apply wp_ret|]. pose proof (valid_error info') as He.
    destruct (IsValidOsAccount info'); [by apply wp_ret|by apply wp_err]. }
  intros [[]|e] m4 [H4 He]; [|split; [done|congruence]].
  eapply (wp_calm (view l a f)); [unfold view, IsLoggedInAccountsOversize; calmly|done|].
  intros [] m5 H5; [by apply wp_err|by apply wp_ret].
Qed.

(** *** The request *)

(** Where a request to activate leads: it came through, it was given up, or there was
    nothing to do. *)
Definition activated l d id a f (r : result unit) (m : S) : Prop :=
  let old := default (-1) (f !! d) in
  (may_start d id f ∧ came_through l d id old a f m) ∨
  (view l a f m ∧ (r = Ok tt → f !! d = Some id)) ∨
  (view (l ++ switched_events d old id ++ switched_events d id old) a f m ∧ is_Ok r = false).

Lemma view_fields l a f m m' :
  activeAccountId_ m' = activeAccountId_ m → foregroundAccountMap_ m' = foregroundAccountMap_ m → events m' = events m →
  view l a f m → view l a f m'.
Proof using Type. intros Ha Hf He. unfold view, sees, switches. by rewrite Ha, Hf, He. Qed.

Lemma Activate_ends l id start d recovery a f m :
  in_step a f → keeps_others d → view l a f m →
  wp (ActivateOsAccount id start d recovery) (activated l d id a f) m.
Proof using switch_laws ams_laws display_laws control_laws.
  intros Hs Hothers Hv. unfold ActivateOsAccount.
  assert (Hsame : ∀ r m', (r = Ok tt → f !! d = Some id) → view l a f m' → activated l d id a f r m') by (intros; right; by left).
  apply wp_mark; [apply wp_err, Hsame; [discriminate|done]|]. apply wp_bind, wp_try.
  eapply wp_conseq; [eapply wp_prepare, view_fields, Hv; done|]. intros r m1 [H1 Hr]. destruct r as [[info fg]|e].
  2:{ apply wp_unmark, Hsame; [|by eapply view_fields, H1]. destruct (Z.eqb_spec e ALREADY) as [He|]; [|done]. auto. }
  destruct Hr as [Hid Hmay]. cbv zeta.
  eapply (wp_calm (view l a f)); [unfold view; calmly|done|]. intros _ m2 H2. apply wp_bind, wp_get.
  apply wp_bind, wp_try. rewrite <-Hid in *. eapply wp_conseq; [by apply wp_activate_msg|].
  intros [info'|e] m3 H3; unfold activation_ends in H3; cbv zeta in H3.
  - apply wp_bind, wp_unmark.
    assert (H4 : came_through l d (localId_ info) (default (-1) (f !! d)) a f (unmarked (localId_ info) m3)).
    { destruct H3 as (u & Hu & H3). exists u. split; [done|]. by destruct m3. }
    eapply (wp_keep (came_through l d (localId_ info) (default (-1) (f !! d)) a f)); [frame|exact H4|].
    intros r m5 H5. left. by split.
  - apply wp_bind, wp_unmark. right; right. split; [|done]. by eapply view_fields, H3.
Qed.

(** *** What a successful activation promises *)

Lemma came_through_in_step l d id old a f m :
  in_step a f → may_start d id f → keeps_others d → came_through l d id old a f m →
  in_step (activeAccountId_ m) (foregroundAccountMap_ m).
Proof using switch_laws.
  intros Hs Hmay Hothers (u & _ & H & _). eapply drops_in_step; [by apply started_in_step|exact H].
Qed.

Lemma came_through_shown l d id old a f m :
  came_through l d id old a f m →
  id ∈ activeAccountId_ m ∧ (d ≠ INVALID_DISPLAY_ID → foregroundAccountMap_ m !! d = Some id).
Proof using Type.
  intros (u & Hu & [Hf Ha] & _). split.
  - pose proof (start_active_self d id a) as Hself. destruct Ha as [->|[-> _]]; [done|]. by apply elem_of_erase_all.
  - intros Hd. assert (H : start_shown d id f !! d = Some id).
    { unfold start_shown. apply Z.eqb_neq in Hd. rewrite Hd. apply lookup_insert_eq. }
    destruct (Hf d) as [He|[He _]]; [by rewrite He|]. congruence.
Qed.

Lemma activated_in_step l d id a f r m :
  in_step a f → keeps_others d → activated l d id a f r m → in_step (activeAccountId_ m) (foregroundAccountMap_ m).
Proof using switch_laws.
  intros Hs Hothers [[Hmay H]|[[(Ha & Hf & _) _]|[(Ha & Hf & _) _]]]; [by eapply came_through_in_step| |];
    by rewrite Ha, Hf.
Qed.

(** *** Removal *)

(** The manager is in step, and the object knows where its account is shown. *)
Definition steady (info : OsAccountInfo) (m : S) : Prop :=
  in_step (activeAccountId_ m) (foregroundAccountMap_ m) ∧ covers info (foregroundAccountMap_ m).

#[export] Instance steady_passive info : Passive (steady info).
Proof using Type. exact (sees_passive (λ a f _, in_step a f ∧ covers info f)). Qed.
#[export] Instance steady_quiet info : Quiet (steady info).
Proof using Type. split; by intros []. Qed.

(** The same for an account that is gone. *)
Definition settled (id : Z) (m : S) : Prop :=
  in_step (activeAccountId_ m) (foregroundAccountMap_ m) ∧ id ∉ activeAccountId_ m.

#[export] Instance settled_passive id : Passive (settled id).
Proof using Type. exact (sees_passive (λ a f _, in_step a f ∧ id ∉ a)). Qed.
#[export] Instance settled_quiet id : Quiet (settled id).
Proof using Type. split; by intros []. Qed.

Lemma covers_place info info' f : same_place info info' → covers info f → covers info' f.
Proof using Type. intros (Hl & Hf & Hd) Hc d H. rewrite Hl in H. rewrite Hf, Hd. by apply Hc. Qed.

Lemma by_info_settled info m : steady info m → settled (localId_ info) (DeactivateOsAccountByInfo info m).2.
Proof using Type.
  intros [Hs Hc]. pose proof (by_info_gone (switches m) info (activeAccountId_ m) (foregroundAccountMap_ m) m) as H.
  specialize (H ltac:(done)). pose proof H as [(Ha & Hf & _) _].
  apply (gone_dropped _ info) in H as [H _]; [|done].
  split; [by eapply drops_in_step|]. rewrite Ha. by intros [? _]%elem_of_erase_all.
Qed.

Lemma wp_stop_settled info m :
  steady info m →
  wp (SendMsgForAccountStop info) (λ r m', steady info m' ∧ is_Ok r = false ∨ settled (localId_ info) m') m.
Proof using Type.
  intros Hst. unfold SendMsgForAccountStop.
  apply wp_bind. eapply (wp_keep (steady info)); [frame|done|]. intros [_|e] m1 H1; [|by left].
  apply wp_bind. eapply (wp_keep (steady info)); [frame|done|]. intros [_|e] m2 H2; [|by left].
  apply wp_bind. pose proof (storage_stop_place info m2) as Hplace.
  assert (H3 : steady info (SendToStorageAccountStop info m2).2).
  { assert (Hk : preserves (steady info) (SendToStorageAccountStop info)) by frame. by apply Hk. }
  unfold wp at 1. destruct (SendToStorageAccountStop info m2) as [[[r info']|e] m3]; cbn [fst snd] in *; [|by left].
  specialize (Hplace _ _ I eq_refl). cbn [snd] in Hplace.
  assert (Hend : wp (DeactivateOsAccountByInfo info') (λ r m', steady info m' ∧ is_Ok r = false ∨ settled (localId_ info) m') m3).
  { right. rewrite <-(proj1 Hplace). apply by_info_settled. destruct H3 as [Hs Hc]. split; [done|]. by eapply covers_place. }
  destruct r as [u|e]; [done|]. destruct (_ =? _); [done|]. apply wp_err. by left.
Qed.

(** The displays agree with the active accounts. *)
Definition agrees (m : S) : Prop := in_step (activeAccountId_ m) (foregroundAccountMap_ m).

#[export] Instance agrees_passive : Passive agrees.
Proof using Type. exact (sees_passive (λ a f _, in_step a f)). Qed.
#[export] Instance agrees_quiet : Quiet agrees.
Proof using Type. split; by intros []. Qed.

Lemma view_self m : view (switches m) (activeAccountId_ m) (foregroundAccountMap_ m) m.
Proof using Type. done. Qed.

(** An object that is in the foreground without displays of its own is on the first. *)
Definition on_default (info : OsAccountInfo) : Prop :=
  isForeground_ info = true → ENABLE_MULTI_FOREGROUND_OS_ACCOUNTS = false → displayId_ info = DEFAULT_DISPLAY_ID.

Lemma default_is_kept : keeps_others DEFAULT_DISPLAY_ID.
Proof using Type. by left. Qed.

(** A computation that leaves the displays in agreement, and [P] when it succeeds. *)
Definition leaves {A} (P : S → Prop) (r : result A) (m : S) : Prop := agrees m ∧ (is_Ok r = true → P m).

Lemma fails_agreed {A} P e m : agrees m → leaves P (Err e : result A) m.
Proof using Type. by split. Qed.

Lemma wp_leaves {A B} (P : S → Prop) (c : M S A) (k : A → M S B) (Q : result B → S → Prop) m :
  (∀ m, P m → agrees m) → preserves P c → P m → (∀ x m', P m' → wp (k x) Q m') →
  (∀ e m', agrees m' → Q (Err e) m') → wp (c ≫= k) Q m.
Proof using Type.
  intros HP Hc Hm Hk He. apply wp_bind. eapply wp_keep; [exact Hc|done|]. intros [x|e] m' H'; [by apply Hk|]. by apply He, HP.
Qed.

Lemma wp_reset info id m :
  steady info m → on_default info → wp (ResetForegroundBeforeRemove info id) (leaves (steady info)) m.
Proof using switch_laws ams_laws display_laws control_laws.
  intros Hst Hdef. unfold ResetForegroundBeforeRemove.
  destruct (isForeground_ info) eqn:Efg; [|apply wp_ret; split; [apply Hst|done]].
  destruct ENABLE_MULTI_FOREGROUND_OS_ACCOUNTS eqn:Em; cbn [negb].
  { eapply (wp_keep (steady info)); [frame|done|]. intros r m' H'. split; [apply H'|done]. }
  apply wp_bind, wp_try. eapply wp_conseq; [eapply Activate_ends; [apply Hst|apply default_is_kept|apply view_self]|].
  intros r m1 H1. apply activated_in_step in H1; [|apply Hst|apply default_is_kept].
  destruct r as [[]|e]; [apply wp_ret; split; [done|]|by apply wp_err, fails_agreed].
  intros _. split; [done|]. intros d Hd. split; [done|].
  rewrite (Hdef Efg Em). symmetry. by apply (shown_default _ _ H1 d (localId_ info)).
Qed.

Lemma wp_prepare_remove info m :
  steady info m → on_default info → wp (PrepareRemoveOsAccount info false) (leaves (settled (localId_ info))) m.
Proof using switch_laws ams_laws display_laws control_laws.
  intros Hst Hdef. unfold PrepareRemoveOsAccount. cbv zeta.
  assert (Hag : ∀ m, steady info m → agrees m) by (by intros ? []).
  eapply (wp_leaves (steady info)); [done|frame|done| |intros; by apply fails_agreed]. intros _ m1 H1.
  eapply (wp_leaves (steady info)); [done|frame|done| |intros; by apply fails_agreed]. intros _ m2 H2.
  apply wp_bind. eapply wp_conseq; [by apply wp_reset|]. intros [u|e] m3 [Ha H3]; [|by apply fails_agreed].
  specialize (H3 eq_refl).
  do 4 (eapply (wp_calm (steady info)); [calmly|eassumption|]; intros _ ? ?).
  apply wp_bind. eapply wp_conseq; [by apply wp_stop_settled|]. intros [info'|e] m8 H8.
  - destruct H8 as [[_ [=]]|H8].
    do 2 (eapply (wp_calm (settled (localId_ info))); [calmly|eassumption|]; intros _ ? ?).
    apply wp_ret. split; [|done]. match goal with H : settled _ _ |- agrees _ => apply H end.
  - apply fails_agreed. destruct H8 as [[H8 _]|H8]; apply H8.
Qed.

Lemma wp_remove_operate id info m :
  localId_ info = id → steady info m → on_default info →
  wp (RemoveOsAccountOperate id info false) (leaves (settled id)) m.
Proof using switch_laws ams_laws display_laws control_laws.
  intros Hid Hst Hdef. unfold RemoveOsAccountOperate. cbn [andb].
  eapply (wp_leaves (steady info)); [by intros ? []|frame|done| |intros; by apply fails_agreed]. intros _ m1 H1.
  apply wp_bind. eapply wp_conseq; [by apply wp_prepare_remove|]. rewrite Hid. intros [info'|e] m2 [Ha H2]; [|by apply fails_agreed].
  eapply (wp_keep (settled id)); [frame|by apply H2|]. intros r m3 H3. split; [apply H3|done].
Qed.

Lemma placed_default id a f info : in_step a f → placed id a f info → on_default info.
Proof using Type.
  intros Hs (_ & _ & Hd & Hfg) Ht Hm. rewrite Ht in Hfg. symmetry in Hfg. apply negb_true_iff, Z.eqb_neq in Hfg.
  case_bool_decide; [|done]. destruct (display_of_spec id f) as [(d & He & Hf)|[He _]]; [|congruence].
  rewrite Hd, <-He. by apply (shown_default a f Hs d id).
Qed.

Lemma Remove_ends id m :
  agrees m → wp (RemoveOsAccount id) (leaves (settled id)) m.
Proof using switch_laws ams_laws display_laws control_laws.
  intros Hag. unfold RemoveOsAccount. apply wp_mark; [by apply wp_err, fails_agreed|].
  assert (Hout : ∀ e m', agrees m' → wp (unmark_return id (Err e)) (leaves (A := unit) (settled id)) m').
  { intros e m' H. apply wp_unmark. by apply fails_agreed. }
  apply wp_bind. eapply wp_conseq; [by eapply real_spec|]. intros r m1 ((Ha & Hf & _) & res & info & -> & Hinfo).
  assert (H1 : agrees m1) by (unfold agrees; by rewrite Ha, Hf). cbn in Ha, Hf.
  destruct res as [[]|e]; [|by apply Hout]. destruct (Hinfo eq_refl) as [Hp _].
  assert (Hst : steady info m1). { split; [done|]. rewrite Hf. by eapply placed_covers. }
  apply wp_bind, wp_try. eapply (wp_keep (steady info)); [frame|done|]. intros [_|e] m2 H2; [|by apply Hout, H2].
  cbv zeta. apply wp_bind, wp_try. eapply (wp_keep (steady info)); [frame|done|]. intros [_|e] m3 H3; [|by apply Hout, H3].
  apply wp_bind, wp_try. eapply wp_conseq; [apply wp_remove_operate; [exact (proj1 Hp)|exact H3|]|].
  { exact (placed_default _ _ _ _ Hag Hp). }
  intros r m4 [H4 H4']. apply wp_bind, wp_unmark.
  destruct r as [info'|e]; [apply wp_ret|by apply fails_agreed]. split; [done|]. intros _. by apply H4'.
Qed.
End Activation.
