(* ===== verification/OsAccountLifecycle.v ===== *)
(** The life of operating system accounts: what the requests to the manager promise, one
    by one and in any order.  What is shown is active; activation, deactivation and
    removal do what they say; who follows the announcements of switches knows who is
    shown. *)
From Stdlib Require Import ZArith Lia Ascii String.
From stdpp Require Import base list gmap sets strings pretty sorting relations.
From S2P Require Import Prelude ErrorCodes Json FileStore OsAccountInfo OsAccountEnv OsAccountFiles OsAccountConstraints OsAccountServices OsAccountInterface OsAccountManager OsAccountFrame OsAccountCreation OsAccountQueries OsAccountMarks OsAccountForeground OsAccountActivation.

Section Lifecycle.
Context {W : Type} {sw : OsSwitches} {cfg : Config} {oscfg : OsConfig} {sysconf : Sysconf}.
Context {cjson : CJsonLib} {fs : FileStore W}.
Context {ams : AbilityManager W} {bms : BundleManager W} {storage : StorageManager W} {idm : UserIdm W}.
Context {tee : TeeAdapter W} {displays : Displays W} {parts : AccountParts W} {control : OsAccountControl W}.
Context {switch_laws : SwitchesLaws} {ams_laws : AbilityManagerLaws W} {display_laws : DisplaysLaws W}.
Context {control_laws : OsAccountControlLaws W}.
Local Abbreviation S := (Manager W).
Local Abbreviation agrees := (OsAccountActivation.agrees (W := W)).
Implicit Types (m : Manager W).

(** *** Every request leaves the displays in agreement *)

Lemma agrees_mark id : preserves agrees (CheckAndAddLocalIdOperating id).
Proof. intros m Hm. unfold CheckAndAddLocalIdOperating. rewrite run_get. case_bool_decide; [done|]. by destruct m. Qed.
Lemma agrees_remove_mark id : preserves agrees (RemoveLocalIdToOperating id).
Proof. unfold RemoveLocalIdToOperating. frame. Qed.
Hint Resolve agrees_mark agrees_remove_mark : mpres.
Lemma agrees_unmark {A} id (r : result A) : preserves agrees (unmark_return id r).
Proof. unfold unmark_return. frame. Qed.
Hint Resolve agrees_unmark : mpres.

Lemma agrees_clean_account id : preserves agrees (clean_account id).
Proof. unfold clean_account. frame. Qed.
Hint Resolve agrees_clean_account : mpres.
Lemma agrees_clean_accounts excl ids n : preserves agrees (clean_accounts excl ids n).
Proof. revert n. induction ids as [|x ids IH]; intros n; cbn [clean_accounts]; frame. Qed.
Hint Resolve agrees_clean_accounts : mpres.
Lemma agrees_CleanGarbage id : preserves agrees (CleanGarbageOsAccounts id).
Proof. unfold CleanGarbageOsAccounts. frame. Qed.
Hint Resolve agrees_CleanGarbage : mpres.

Lemma agrees_migratable infos : preserves agrees (migratable infos).
Proof. induction infos as [|info infos IH]; cbn [migratable]; frame. Qed.
Lemma agrees_tee_types ids types : preserves agrees (tee_types ids types).
Proof. revert types. induction ids as [|id ids IH]; intros types; cbn [tee_types]; frame. Qed.
Lemma agrees_rollback_accounts ids b : preserves agrees (rollback_accounts ids b).
Proof. revert b. induction ids as [|id ids IH]; intros b; cbn [rollback_accounts]; unfold set_restore; frame. Qed.
Hint Resolve agrees_migratable agrees_tee_types agrees_rollback_accounts : mpres.

Lemma agrees_Deactivate id stop : preserves agrees (DeactivateOsAccount id stop).
Proof.
  intros m Hm. pose proof (Deactivate_ends (switches m) id stop _ _ m Hm (view_self m)) as [[H _] _].
  by eapply drops_in_step.
Qed.

Lemma agrees_by_id id : preserves agrees (DeactivateOsAccountById id).
Proof.
  intros m Hm. change (wp (DeactivateOsAccountById id) (λ _, agrees) m).
  unfold DeactivateOsAccountById, real_account. apply wp_bind, wp_bind.
  eapply wp_conseq; [by eapply (real_spec _ id _ _ _ m), view_self|]. intros r m1 ((Ha & Hf & _) & res & info & -> & Hinfo).
  assert (H1 : agrees m1) by (unfold agrees; by rewrite Ha, Hf).
  destruct res as [[]|e]; [|by apply wp_err]. apply wp_ret. destruct (Hinfo eq_refl) as [Hp _]. apply wp_bind.
  assert (H2 : settled (localId_ info) (DeactivateOsAccountByInfo info m1).2).
  { apply by_info_settled. split; [done|]. rewrite Hf. by eapply placed_covers. }
  unfold wp. destruct (DeactivateOsAccountByInfo info m1) as [[info'|e] m2]; apply H2.
Qed.
Hint Resolve agrees_by_id : mpres.

Lemma agrees_Background id :
  ENABLE_MULTIPLE_ACTIVE_ACCOUNTS = true → preserves agrees (ActivateOsAccountInBackground id).
Proof.
  intros Hmulti. unfold ActivateOsAccountInBackground, SendMsgForAccountActivateInBackground.
  apply preserves_bind; [frame|]. intros info. destruct (IsValidOsAccount info); [|frame].
  apply preserves_bind; [frame|]. intros _. apply preserves_bind; [frame|]. intros r. cbv zeta.
  apply preserves_bind; [|frame]. intros m Hm.
  match goal with |- agrees (snd (?c _)) => change (wp c (λ _, agrees) m) end.
  eapply wp_conseq; [by eapply wp_ams_start, view_self|]. intros [u|e] m' (Ha & Hf & _); unfold agrees; rewrite Ha, Hf; [|done].
  apply started_in_step; [done|done|by right].
Qed.

Lemma agrees_CreateFull info options m :
  isForeground_ info = false → (∀ d, foregroundAccountMap_ m !! d ≠ Some (localId_ info)) → agrees m →
  agrees (CreateOsAccountWithFullInfo info options m).2.
Proof.
  intros Hfg Hn Hm. change (wp (CreateOsAccountWithFullInfo info options) (λ _, agrees) m).
  assert (Hst : steady info m) by (split; [done|by apply covers_hidden]).
  unfold CreateOsAccountWithFullInfo. apply wp_bind.
  eapply (wp_keep (steady info)); [unfold creation_allowed; frame|done|]. intros [_|e] m1 H1; [|apply H1].
  cbv zeta. apply wp_mark; [apply wp_err, H1|].
  match goal with |- wp _ _ ?s => assert (H2 : steady info s) by (by destruct m1); revert H2; generalize s end. clear m1 H1.
  intros m1 H1. eapply (wp_calm (steady info)); [calmly|done|]. intros [res old] m2 H2.
  destruct (negb _); [apply (agrees_unmark _ _ m2), H2|]. apply wp_bind.
  assert (Hrest : ∀ m3 r, agrees m3 → preserves agrees r → wp (r : M S unit) (λ _, agrees) m3) by (intros m3 r H3 Hr; by apply Hr).
  eapply (wp_conseq _ (λ _, agrees)).
  - destruct (_ && _); [|apply wp_ret, H2]. destruct (toBeRemoved_ old); [|apply wp_ret, H2].
    apply wp_try. eapply wp_conseq; [apply wp_remove_operate; [done|done|]|].
    + intros Ht. congruence.
    + intros r m3 [H3 _]. exact H3.
  - intros [removed|e] m3 H3; [|done]. apply Hrest; [done|].
    pose proof (agrees_CleanGarbage). frame.
Qed.

Lemma agrees_Activate id start d recovery m :
  keeps_others d → agrees m → agrees (ActivateOsAccount id start d recovery m).2.
Proof.
  intros Hd Hm. eapply (activated_in_step (switches m) d id); [exact Hm|exact Hd|].
  by apply Activate_ends.
Qed.

Lemma agrees_Lock id : preserves agrees (LockOsAccount id).
Proof. unfold LockOsAccount. frame. Qed.
Lemma agrees_SetToBeRemoved id b : preserves agrees (SetOsAccountToBeRemoved id b).
Proof. unfold SetOsAccountToBeRemoved. frame. Qed.
Lemma agrees_Verified id b : preserves agrees (SetOsAccountIsVerified id b).
Proof. unfold SetOsAccountIsVerified, CleanGarbageOsAccountsAsync. frame. Qed.
Lemma agrees_LoggedIn id b : preserves agrees (SetOsAccountIsLoggedIn id b).
Proof. unfold SetOsAccountIsLoggedIn. frame. Qed.
Lemma agrees_StartWith d id : preserves agrees (SetDefaultActivatedOsAccount d id).
Proof. unfold SetDefaultActivatedOsAccount. frame. Qed.
Lemma agrees_ChangeType id type token : preserves agrees (SetOsAccountType id type token).
Proof. pose proof agrees_CleanGarbage. unfold SetOsAccountType, SetOsAccountTypeInTEE. frame. Qed.
Lemma agrees_UpdateInfo info : preserves agrees (UpdateOsAccountWithFullInfo info).
Proof. unfold UpdateOsAccountWithFullInfo. frame. Qed.
Lemma agrees_UpdateDomain id info : preserves agrees (UpdateAccountInfoByDomainAccountInfo id info).
Proof. unfold UpdateAccountInfoByDomainAccountInfo. frame. Qed.
Lemma agrees_Migrate : preserves agrees MigrateOsAccountTypesToTEE.
Proof. unfold MigrateOsAccountTypesToTEE, PreloadAccountTypesFromTee, SetAccountTypesInCache. frame. Qed.
Lemma agrees_Recover : preserves agrees CheckAndRecoverRestore.
Proof. pose proof agrees_CleanGarbage. unfold CheckAndRecoverRestore, GetOsAccountLocalIds, set_restore. frame. Qed.
Lemma agrees_reset_status : preserves agrees ResetAccountStatus.
Proof. unfold ResetAccountStatus. frame. Qed.

(** *** Creation, and the changes of an account *)

Hint Resolve agrees_mark agrees_remove_mark agrees_unmark agrees_CleanGarbage agrees_Recover agrees_Deactivate
  agrees_SetToBeRemoved agrees_Lock agrees_Verified agrees_StartWith agrees_ChangeType agrees_UpdateInfo : mpres.

Lemma agrees_Remove id : preserves agrees (RemoveOsAccount id).
Proof. intros m Hm. exact (proj1 (Remove_ends id m Hm)). Qed.
Lemma agrees_recover_first : preserves agrees recover_first.
Proof. unfold recover_first. frame. Qed.
Hint Resolve agrees_Remove agrees_recover_first : mpres.
Lemma agrees_prepare name type domain info options : preserves agrees (PrepareOsAccountInfo name type domain info options).
Proof. pose proof agrees_CleanGarbage. unfold PrepareOsAccountInfo, enter_account. frame. Qed.
Hint Resolve agrees_prepare : mpres.
Lemma agrees_create name type info : preserves agrees (CreateOsAccount name type info).
Proof. pose proof agrees_CleanGarbage. unfold CreateOsAccount. frame. Qed.
Lemma agrees_create_token info options : preserves agrees (HandleCreateOsAccountToken info options).
Proof. unfold HandleCreateOsAccountToken. frame. Qed.
Hint Resolve agrees_create_token : mpres.
Lemma agrees_create_options name short type info options :
  preserves agrees (CreateOsAccountWithOptions name short type info options).
Proof. pose proof agrees_CleanGarbage. unfold CreateOsAccountWithOptions. frame. Qed.
Lemma agrees_name id name : preserves agrees (SetOsAccountName id name).
Proof. unfold SetOsAccountName, staying_account, existing_account, file_account, store_account. frame. Qed.
Lemma agrees_photo id photo : preserves agrees (SetOsAccountProfilePhoto id photo).
Proof. unfold SetOsAccountProfilePhoto, staying_account, existing_account, file_account, store_account. frame. Qed.
Lemma agrees_credential id credentialId : preserves agrees (SetOsAccountCredentialId id credentialId).
Proof. unfold SetOsAccountCredentialId, existing_account, file_account, store_account. frame. Qed.
Lemma agrees_all_constraints id : preserves agrees (GetOsAccountAllConstraints id).
Proof. unfold GetOsAccountAllConstraints, real_account. frame. Qed.
Lemma agrees_base id cs b : preserves agrees (SetBaseOsAccountConstraints id cs b).
Proof.
  unfold SetBaseOsAccountConstraints, SetOsAccountConstraints, staying_account, existing_account,
    file_account, store_account. frame.
Qed.
Lemma agrees_owner b id : preserves agrees (DealWithDeviceOwnerId b id).
Proof. unfold DealWithDeviceOwnerId. frame. Qed.
Hint Resolve agrees_owner : mpres.
Lemma agrees_global cs b id o : preserves agrees (SetGlobalOsAccountConstraints cs b id o).
Proof. unfold SetGlobalOsAccountConstraints, staying_account, existing_account, file_account. frame. Qed.
Lemma agrees_specific cs b t id o : preserves agrees (SetSpecificOsAccountConstraints cs b t id o).
Proof. unfold SetSpecificOsAccountConstraints, existing_account, file_account. frame. Qed.
Lemma agrees_event id b : preserves agrees (OsAccountManager.PublishOsAccountLockEvent id b).
Proof. unfold OsAccountManager.PublishOsAccountLockEvent. frame. Qed.
Lemma agrees_query : preserves agrees OsAccountCreation.QueryAllCreatedOsAccounts.
Proof. unfold OsAccountCreation.QueryAllCreatedOsAccounts. pose proof agrees_CleanGarbage. frame. Qed.
Hint Resolve agrees_create agrees_create_options agrees_name agrees_photo agrees_all_constraints agrees_base agrees_global
  agrees_specific agrees_event agrees_query : mpres.

(** *** One request after the other *)

(** A request that may come in a state: where several accounts cannot be active, no account
    is started without a display or in the background; and [CreateOsAccountWithFullInfo] is
    not asked for an account that is shown, nor with an object that says it is in the
    foreground. *)
Definition admissible (r : Request) (m : S) : Prop :=
  match r with
  | Activate _ _ displayId _ => displayId ≠ INVALID_DISPLAY_ID ∨ ENABLE_MULTIPLE_ACTIVE_ACCOUNTS = true
  | Background _ => ENABLE_MULTIPLE_ACTIVE_ACCOUNTS = true
  | CreateFull info _ => isForeground_ info = false ∧ ∀ d, foregroundAccountMap_ m !! d ≠ Some (localId_ info)
  | _ => True
  end.

Lemma agrees_run r m : admissible r m → agrees m → agrees (run r m).2.
Proof.
  intros Hr Hm. destruct r; cbn [run admissible] in *.
  - by apply agrees_Activate.
  - by apply agrees_Background.
  - by apply agrees_Deactivate.
  - by apply agrees_Remove.
  - by apply agrees_SetToBeRemoved.
  - by apply (preserves_bind agrees _ _ (agrees_CleanGarbage excludeId) (λ _, preserves_ret agrees tt)).
  - by apply agrees_Lock.
  - by apply agrees_Verified.
  - by apply agrees_LoggedIn.
  - by apply agrees_StartWith.
  - by apply agrees_ChangeType.
  - by apply agrees_UpdateInfo.
  - by apply agrees_UpdateDomain.
  - by apply agrees_create.
  - by apply agrees_create_options.
  - destruct Hr. by apply agrees_CreateFull.
  - by apply agrees_name.
  - by apply agrees_photo.
  - by apply agrees_credential.
  - by apply agrees_base.
  - by apply agrees_global.
  - by apply agrees_specific.
  - by apply agrees_Migrate.
  - by apply agrees_Recover.
  - by apply agrees_reset_status.
Qed.

(** The requests [rs], one after the other, however each of them ends. *)
Fixpoint run_all (rs : list Request) (m : S) : S :=
  match rs with [] => m | r :: rs => run_all rs (run r m).2 end.

(** Each of them may come when it does. *)
Fixpoint admissible_run (rs : list Request) (m : S) : Prop :=
  match rs with [] => True | r :: rs => admissible r m ∧ admissible_run rs (run r m).2 end.

Lemma agrees_run_all rs m : admissible_run rs m → agrees m → agrees (run_all rs m).
Proof.
  revert m. induction rs as [|r rs IH]; intros m; cbn [run_all admissible_run]; [done|].
  intros [Hr Hrs] Hm. by apply IH, agrees_run.
Qed.

Lemma agrees_start m : activeAccountId_ m = [] → foregroundAccountMap_ m = ∅ → agrees m.
Proof.
  intros Ha Hf. unfold OsAccountActivation.agrees. rewrite Ha, Hf.
  split; intros; by repeat match goal with H : ∅ !! _ = Some _ |- _ => by rewrite lookup_empty in H end.
Qed.

Lemma agrees_shown m :
  agrees m → ∀ displayId id, foregroundAccountMap_ m !! displayId = Some id →
    id ∈ activeAccountId_ m ∧ displayId ≠ INVALID_DISPLAY_ID ∧
    (∀ displayId', foregroundAccountMap_ m !! displayId' = Some id → displayId' = displayId).
Proof.
  intros Hm d id Hd. split_and!.
  - by apply (shown_active _ _ Hm d).
  - intros ->. by rewrite (shown_valid _ _ Hm) in Hd.
  - intros d' Hd'. by apply (shown_once _ _ Hm d' d id).
Qed.
End Lifecycle.

(** ** What the requests promise *)

Section Promises.
Context {W : Type} {sw : OsSwitches} {cfg : Config} {oscfg : OsConfig} {sysconf : Sysconf}.
Context {cjson : CJsonLib} {fs : FileStore W}.
Context {ams : AbilityManager W} {bms : BundleManager W} {storage : StorageManager W} {idm : UserIdm W}.
Context {tee : TeeAdapter W} {displays : Displays W} {parts : AccountParts W} {control : OsAccountControl W}.

(** The account a request is on. *)
Definition on_account (r : Request) : option Z :=
  match r with
  | Activate id _ _ _ | Deactivate id _ | Remove id | ToBeRemoved id _ | UpdateDomain id _ => Some id
  | UpdateInfo info => Some (localId_ info)
  | _ => None
  end.

(** C34. While an operation runs on an account, a request to activate, to deactivate or to
    remove it, to mark it for removal, or to update it with full or with domain information
    is refused at once and without any effect.  (The requests that set its name, its photo,
    its credential or its constraints do not look at the mark.) *)
Theorem marked_account_is_left_alone (r : Request) id (m : Manager W) :
  on_account r = Some id → id ∈ operatingId_ m →
  run r m = (Err ERR_OSACCOUNT_SERVICE_INNER_ACCOUNT_OPERATING_ERROR, m).
Proof.
  intros Hr Hid. destruct r; cbn [on_account] in Hr; try discriminate; injection Hr as <-; cbn [run];
    [unfold ActivateOsAccount|unfold DeactivateOsAccount|unfold RemoveOsAccount|unfold SetOsAccountToBeRemoved
    |unfold UpdateOsAccountWithFullInfo; cbv zeta|unfold UpdateAccountInfoByDomainAccountInfo];
    rewrite run_mark; by rewrite bool_decide_true.
Qed.

(** *** The marks of a creation *)

Section Creation.
Context (l : list Z).

(** Checked and entered, or not, with the mark or without. *)
Definition prepared (r : result (result unit * OsAccountInfo)) (m : Manager W) : Prop :=
  match r with
  | Ok (Ok _, info) => (localId_ info ∉ l) ∧ marks (l ++ [localId_ info]) m
  | Ok (Err _, info) => marks l m ∨ (localId_ info ∉ l) ∧ marks (l ++ [localId_ info]) m
  | Err _ => marks l m
  end.

Lemma wp_enter_account type info m :
  marks l m → wp (enter_account type info) (λ r m', match r with
    | Ok _ => (localId_ info ∉ l) ∧ marks (l ++ [localId_ info]) m'
    | Err _ => marks l m' ∨ (localId_ info ∉ l) ∧ marks (l ++ [localId_ info]) m'
    end) m.
Proof.
  intros Hm. pose proof (marks_CleanGarbage l) as Hclean. unfold enter_account.
  apply wp_bind. eapply (wp_keep (marks l)); [frame|done|]. intros [_|e] m1 H1; [|by left].
  apply wp_bind, wp_try. eapply (wp_keep (marks l)); [frame|done|]. intros [_|e] m2 H2; [|apply wp_err; by left].
  unfold wp. rewrite run_mark. case_bool_decide as Hin; [by left|]. rewrite H2 in Hin.
  match goal with |- match fst (?k ?s) with _ => _ end =>
    assert (Hk : preserves (marks (l ++ [localId_ info])) k) by frame;
    assert (H3 : marks (l ++ [localId_ info]) s) by (unfold marks in *; cbn; by rewrite H2);
    specialize (Hk _ H3); destruct (k s) as [[[]|e] m3] end; cbn [fst snd] in *; auto.
Qed.

Lemma wp_prepare_info name type domain info options m :
  marks l m → wp (PrepareOsAccountInfo name type domain info options) prepared m.
Proof.
  intros Hm. pose proof (marks_CleanGarbage l) as Hclean. unfold PrepareOsAccountInfo.
  apply wp_bind. eapply (wp_keep (marks l)); [frame|done|]. intros [[res info']|e] m1 H1; [|done].
  destruct res as [_|e]; [|apply wp_ret; by left].
  apply wp_bind, wp_try. eapply wp_conseq; [by apply wp_enter_account|]. intros [u|e] m2 H2; by apply wp_ret.
Qed.

(** The marks are those of before, or the request was refused and took one of them. *)
Definition took_at_most_one {A} (r : result A) (m : Manager W) : Prop :=
  marks l m ∨ is_Ok r = false ∧ ∃ id, id ∈ l ∧ marks (erase_first id l) m.

Lemma erase_first_absent id l' : id ∉ l' → erase_first id l' = l'.
Proof.
  induction l' as [|x l' IH]; intros Hl; [done|]. apply not_elem_of_cons in Hl as [Hx Hl]. cbn [erase_first].
  destruct (Z.eqb_spec x id); [done|]. by rewrite IH.
Qed.

Lemma wp_unmark_error {A} id e m : marks l m → wp (unmark_return id (Err e)) (took_at_most_one (A := A)) m.
Proof.
  intros Hm. apply wp_unmark. unfold took_at_most_one, marks, unmarked in *; cbn. rewrite Hm.
  destruct (decide (id ∈ l)); [right; split; [done|by exists id]|]. left. by apply erase_first_absent.
Qed.

Lemma wp_unmark_own {A} id (r : result A) m : id ∉ l → marks (l ++ [id]) m → wp (unmark_return id r) took_at_most_one m.
Proof.
  intros Hid Hm. apply wp_unmark. left. unfold marks, unmarked in *; cbn. rewrite Hm. by apply erase_first_app.
Qed.

Lemma wp_unmark_prepared {A} e info m : prepared (Ok (Err e, info)) m → wp (unmark_return (localId_ info) (Err e)) (took_at_most_one (A := A)) m.
Proof. intros [H|[Hid H]]; [by apply wp_unmark_error|by apply wp_unmark_own]. Qed.
End Creation.

(** The type of a new account is written with its mark held; the mark is taken back when
    that fails. *)
Lemma wp_create_token l info options m :
  (localId_ info ∉ l) → marks (l ++ [localId_ info]) m →
  wp (HandleCreateOsAccountToken info options) (λ r m', match r with
    | Ok info' => localId_ info' = localId_ info ∧ marks (l ++ [localId_ info]) m'
    | Err _ => marks l m'
    end) m.
Proof.
  intros Hid Hm. set (Q := λ (r : result OsAccountInfo) _, _).
  assert (Hun : ∀ e m1, marks (l ++ [localId_ info]) m1 → wp (unmark_return (localId_ info) (Err e)) Q m1).
  { intros e m1 H1. apply wp_unmark. unfold marks, unmarked, Q in *; cbn. rewrite H1. by apply erase_first_app. }
  unfold HandleCreateOsAccountToken. cbv zeta. pose proof (marks_CleanGarbage (l ++ [localId_ info])) as Hclean.
  destruct (token options) as [t|].
  - apply wp_bind, wp_try. eapply (wp_keep (marks (l ++ [localId_ info]))); [frame|done|].
    intros [_|e] m1 H1; [|by apply Hun].
    eapply (wp_calm (marks (l ++ [localId_ info]))); [calmly|done|]. intros _ m2 H2. by apply wp_ret.
  - destruct (isEdmCalling options); [|by apply Hun].
    eapply (wp_calm (marks (l ++ [localId_ info]))); [calmly|done|]. intros _ m2 H2. apply wp_ret. by case_match.
Qed.

(** Creation once the account is prepared. *)
Lemma wp_prepared l name type domain info options (k : OsAccountInfo → M (Manager W) unit) m :
  marks l m →
  (∀ info m, (localId_ info ∉ l) → marks (l ++ [localId_ info]) m → wp (k info) (took_at_most_one l) m) →
  wp ('(errCode, info) ← PrepareOsAccountInfo name type domain info options;
      match errCode with Err errCode => unmark_return (localId_ info) (Err errCode) | Ok _ => k info end)
     (took_at_most_one l) m.
Proof.
  intros Hm Hk. apply wp_bind. eapply wp_conseq; [by apply (wp_prepare_info l)|].
  intros [[[u|e] info']|e] m1 H1; [by apply Hk; apply H1|by apply wp_unmark_prepared|by left].
Qed.

(** Creation once the account has its type. *)
Lemma wp_completed l info options m :
  (localId_ info ∉ l) → marks (l ++ [localId_ info]) m →
  wp (errCode ← mtry (SendMsgForAccountCreate info options); unmark_return (localId_ info) errCode)
     (took_at_most_one l) m.
Proof.
  intros Hid Hm. apply wp_bind, wp_try. pose proof (marks_CleanGarbage (l ++ [localId_ info])).
  eapply (wp_keep (marks (l ++ [localId_ info]))); [frame|done|]. intros r m1 H1. by apply wp_unmark_own.
Qed.

Lemma wp_create l name type info m :
  marks l m → wp (CreateOsAccount name type info) (took_at_most_one l) m.
Proof.
  intros Hm. pose proof (marks_CleanGarbage l) as Hclean. unfold CreateOsAccount.
  apply wp_bind. eapply (wp_keep (marks l)); [frame|done|]. intros [_|e] m1 H1; [|by left].
  apply wp_bind. eapply (wp_keep (marks l)); [frame|done|]. intros [_|e] m2 H2; [|by left].
  apply wp_prepared; [done|]. intros. by apply wp_completed.
Qed.

Lemma wp_create_options l localName shortName type info options m :
  marks l m → wp (CreateOsAccountWithOptions localName shortName type info options) (took_at_most_one l) m.
Proof.
  intros Hm. pose proof (marks_CleanGarbage l) as Hclean. unfold CreateOsAccountWithOptions.
  apply wp_bind. eapply (wp_keep (marks l)); [frame|done|]. intros [_|e] m1 H1; [|by left]. cbv zeta.
  apply wp_bind. eapply (wp_keep (marks l)); [frame|done|]. intros [_|e] m2 H2; [|by left].
  apply wp_prepared; [done|]. intros info' m3 Hid H3. apply wp_bind.
  destruct SUPPORT_AUTHORIZATION; [|by apply wp_ret, wp_completed].
  eapply wp_conseq; [by apply wp_create_token|]. intros [info''|e] m4 H4; [|by left].
  destruct H4 as [E H4]. rewrite <-E in Hid, H4. by apply wp_completed.
Qed.

(** C5. Requests take back the marks they set on the accounts they operate on, on every way
    out, whatever the other services answer: after any request to the manager of accounts
    the marks are those of before, with one exception: a request to create an account under
    an id of the manager's choice that is refused may take the mark of one other request.
    (The requests are all those modelled that set marks: activation, deactivation, locking,
    removal, the clean-up, the changes of type, of information and of constraints, the
    three ways to create an account, migration and recovery.  The creation of an account for
    a domain is not among them.) *)
Theorem requests_take_back_marks (q : Request) (m : Manager W) :
  let '(r, m') := run q m in
  operatingId_ m' = operatingId_ m ∨
  is_creation q = true ∧ is_Ok r = false ∧
    ∃ id, id ∈ operatingId_ m ∧ operatingId_ m' = erase_first id (operatingId_ m).
Proof.
  destruct (is_creation q) eqn:Hq.
  - assert (H : wp (run q) (took_at_most_one (operatingId_ m)) m)
      by (destruct q; try discriminate Hq; [by apply wp_create|by apply wp_create_options]).
    unfold wp in H. destruct (run q m) as [r m']. destruct H as [H|[Hr H]]; [by left|by right].
  - pose proof (marks_run (operatingId_ m) q Hq m eq_refl) as H. destruct (run q m) as [r m']. by left.
Qed.

Context {switch_laws : SwitchesLaws} {ams_laws : AbilityManagerLaws W} {display_laws : DisplaysLaws W}.
Context {control_laws : OsAccountControlLaws W}.

(** C4. An account in the foreground is active, on one display only, and on one that is a
    display: this holds after any requests to the manager of accounts, one after the other,
    from its start on and however each of them ends, if each of them is [admissible] when it
    comes.  That leaves out two things.  In a build where only one account can be active,
    none is activated without a display or in the background; and
    [CreateOsAccountWithFullInfo] is not asked for an account that is in the foreground, nor
    with an object that says so (it would remove the account that is shown with the
    object of the caller, and leave it on its display). *)
Theorem foreground_accounts_are_active (rs : list Request) (m : Manager W) :
  activeAccountId_ m = [] → foregroundAccountMap_ m = ∅ → admissible_run rs m →
  ∀ displayId id, foregroundAccountMap_ (run_all rs m) !! displayId = Some id →
    id ∈ activeAccountId_ (run_all rs m) ∧ displayId ≠ INVALID_DISPLAY_ID ∧
    (∀ displayId', foregroundAccountMap_ (run_all rs m) !! displayId' = Some id → displayId' = displayId).
Proof. intros Ha Hf Hrs. by apply agrees_shown, agrees_run_all, agrees_start. Qed.

(** An activation that reports success leaves the account active, and in the
    foreground of the display when one was asked for. *)
Theorem activated_account_is_shown id startStorage displayId isAppRecovery (m m' : Manager W) :
  agrees m → keeps_others displayId →
  ActivateOsAccount id startStorage displayId isAppRecovery m = (Ok tt, m') →
  id ∈ activeAccountId_ m' ∧ (displayId ≠ INVALID_DISPLAY_ID → foregroundAccountMap_ m' !! displayId = Some id).
Proof.
  intros Hm Hd E.
  pose proof (Activate_ends (switches m) id startStorage displayId isAppRecovery _ _ m Hm Hd (view_self m)) as H.
  unfold wp in H. rewrite E in H. cbn [fst snd] in H. destruct H as [[_ H]|[[(Ha & Hf & _) H]|[_ [=]]]].
  - by eapply came_through_shown.
  - specialize (H eq_refl). rewrite Ha, Hf. split; [|done]. by apply (shown_active _ _ Hm displayId).
Qed.

(** C19. A deactivation that reports success leaves the account neither active nor verified
    and on no display; one that fails takes at most this account from the displays and
    nothing but it from the active accounts. *)
Theorem deactivation_outcomes id isStopStorage (m : Manager W) :
  agrees m →
  let '(r, m') := DeactivateOsAccount id isStopStorage m in
  (r = Ok tt → (id ∉ activeAccountId_ m') ∧ (∀ d, foregroundAccountMap_ m' !! d ≠ Some id) ∧
     (verifiedAccounts_ m' !! id) ≠ Some true) ∧
  (∀ u, u ≠ id → u ∈ activeAccountId_ m' ↔ u ∈ activeAccountId_ m) ∧
  (∀ d u, u ≠ id → foregroundAccountMap_ m' !! d = Some u ↔ foregroundAccountMap_ m !! d = Some u) ∧
  switches m' = switches m.
Proof.
  intros Hm. pose proof (Deactivate_ends (switches m) id isStopStorage _ _ m Hm (view_self m)) as H.
  unfold wp in H. destruct (DeactivateOsAccount id isStopStorage m) as [r m']. cbn [fst snd] in H.
  destruct H as [[[Hf Ha] Hl] Hr]. split_and!; [by intros ->; apply Hr| | |done].
  - intros u Hu. destruct Ha as [->|[-> _]]; [done|]. rewrite elem_of_erase_all. naive_solver.
  - intros d u Hu. destruct (Hf d) as [->|[He ->]]; [done|]. rewrite He. naive_solver.
Qed.

(** A removal that reports success leaves the account neither active nor in the
    foreground. *)
Theorem removed_account_is_inactive id (m m' : Manager W) :
  agrees m → RemoveOsAccount id m = (Ok tt, m') →
  (id ∉ activeAccountId_ m') ∧ ∀ d, foregroundAccountMap_ m' !! d ≠ Some id.
Proof.
  intros Hm E. pose proof (Remove_ends id m Hm) as H. unfold wp in H. rewrite E in H. cbn [fst snd] in H.
  destruct H as [Hag H]. destruct (H eq_refl) as [_ Hid]. split; [done|].
  intros d Hd. by apply Hid, (shown_active _ _ Hag d).
Qed.

(** Who a subscriber takes to be in the foreground of the display after the announcements,
    when it was [current] before; nothing when they are not the beginnings and ends of
    switches from the account in the foreground, one after the other. *)
Fixpoint hears (displayId current : Z) (l : list Event) : option Z :=
  match l with
  | [] => Some current
  | Publish from SWITCHING to (Some d) :: Publish from' SWITCHED to' (Some d') :: l =>
      if (from =? current) && (from' =? current) && (to =? to') && (d =? displayId) && (d' =? displayId)
      then hears displayId to l else None
  | _ => None
  end.

Lemma hears_switched d from to l :
  hears d from (switched_events d from to ++ l) = hears d to l.
Proof.
  unfold switched_events, opening, closing. destruct (Z.eqb_spec from to) as [->|Hne]; [done|].
  cbn [app hears]. by rewrite !Z.eqb_refl.
Qed.

(** C6. A request to activate, however it ends, announces switches on its display that
    begin with the account in the foreground, end one before the next begins, and leave a
    subscriber with the account that is in the foreground at the end. *)
Theorem subscribers_hear_who_is_shown id startStorage displayId isAppRecovery (m : Manager W) :
  agrees m → displayId ≠ INVALID_DISPLAY_ID →
  let m' := (ActivateOsAccount id startStorage displayId isAppRecovery m).2 in
  let shown m := default (-1) (foregroundAccountMap_ m !! displayId) in
  ∃ announced, switches m' = switches m ++ announced ∧
    hears displayId (shown m) announced = Some (shown m').
Proof.
  intros Hm Hd. cbv zeta.
  pose proof (Activate_ends (switches m) id startStorage displayId isAppRecovery _ _ m Hm (or_introl Hd) (view_self m)) as H.
  unfold wp in H. destruct (ActivateOsAccount id startStorage displayId isAppRecovery m) as [r m']. cbn [fst snd] in *.
  destruct H as [[_ H]|[[(Ha & Hf & Hl) _]|[(Ha & Hf & Hl) _]]].
  - apply came_through_shown in H as Hshown. destruct Hshown as [_ Hshown]. rewrite (Hshown Hd).
    destruct H as (u & _ & _ & Hl). eexists. split; [exact Hl|].
    by rewrite <-(app_nil_r (switched_events _ _ _)), hears_switched.
  - exists []. rewrite app_nil_r, Hf. by split.
  - eexists. split; [exact Hl|]. rewrite Hf, <-(app_nil_r (switched_events _ id _)). by rewrite !hears_switched.
Qed.
End Promises.
