(* ===== verification/OsAccountAnswers.v ===== *)
(** The answers of the manager of operating system accounts agree with each other: the
    queries about the foreground, the queries about constraints, and the accounts the
    displays start with. *)
From Stdlib Require Import ZArith Lia Ascii String.
From stdpp Require Import base list gmap sets strings pretty sorting.
From S2P Require Import Prelude ErrorCodes Json FileStore OsAccountInfo OsAccountEnv OsAccountFiles OsAccountConstraints OsAccountServices OsAccountInterface OsAccountManager OsAccountFrame OsAccountCreation OsAccountQueries OsAccountForeground OsAccountActivation.

Lemma elem_of_push_new x l l' : x ∈ push_new l l' ↔ x ∈ l ∨ x ∈ l'.
Proof.
  revert l. induction l' as [|y l' IH]; intros l; cbn [push_new].
  - rewrite elem_of_nil. tauto.
  - rewrite IH, elem_of_cons. case_bool_decide as Hy; [|rewrite elem_of_app, list_elem_of_singleton]; naive_solver.
Qed.

Section Answers.
Context {W : Type} {sw : OsSwitches} {cfg : Config} {oscfg : OsConfig} {sysconf : Sysconf}.
Context {cjson : CJsonLib} {fs : FileStore W}.
Context {ams : AbilityManager W} {bms : BundleManager W} {storage : StorageManager W} {idm : UserIdm W}.
Context {tee : TeeAdapter W} {displays : Displays W} {parts : AccountParts W} {control : OsAccountControl W}.
Local Abbreviation S := (Manager W).
Implicit Types (m : Manager W).

(** *** The foreground *)

Lemma elem_of_displays (f : gmap Z Z) id : id ∈ (ordered_list Z.le f).*2 ↔ ∃ d, f !! d = Some id.
Proof using Type.
  rewrite list_elem_of_fmap. split.
  - intros ([d u] & -> & H%elem_of_ordered_list). by exists d.
  - intros [d H]. exists (d, id). split; [done|]. by apply elem_of_ordered_list.
Qed.

(** The queries about the foreground agree: an account is in the foreground of some
    display exactly when the list of the foreground has it and when a display is found for
    it; and an active account is either listed in the foreground or in the background. *)
Theorem foreground_queries_agree (m : Manager W) id :
  agrees m →
  ∃ foreground background,
    GetForegroundOsAccounts m = (Ok foreground, m) ∧ GetBackgroundOsAccountLocalIds m = (Ok background, m) ∧
    IsOsAccountForeground id ANY_DISPLAY_ID m = (Ok (bool_decide (id ∈ fg_localId <$> foreground)), m) ∧
    (is_Ok (GetForegroundOsAccountDisplayId id m).1 = true ↔ id ∈ fg_localId <$> foreground) ∧
    (id ∈ activeAccountId_ m ↔ id ∈ fg_localId <$> foreground ∨ id ∈ background) ∧
    ¬ (id ∈ fg_localId <$> foreground ∧ id ∈ background).
Proof using Type.
  intros Hm. unfold GetForegroundOsAccounts, GetBackgroundOsAccountLocalIds, CopyFromActiveList.
  rewrite mbind_assoc, !run_get, run_ret, run_get. eexists _, _. split; [done|]. split; [done|].
  rewrite <-list_fmap_compose.
  assert (Hlist : ∀ u, u ∈ fg_localId ∘ (λ '(displayId, localId), mkForegroundOsAccount displayId localId)
      <$> ordered_list Z.le (foregroundAccountMap_ m) ↔ ∃ d, foregroundAccountMap_ m !! d = Some u).
  { intros u. rewrite <-elem_of_displays. rewrite !list_elem_of_fmap.
    split; intros ([d v] & -> & H); by exists (d, v). }
  split_and!.
  - unfold IsOsAccountForeground. rewrite Z.eqb_refl, run_get, ret_run. do 2 f_equal.
    apply eq_true_iff_eq. rewrite existsb_exists, bool_decide_eq_true, Hlist. split.
    + intros ([d u] & Hin%list_elem_of_In%elem_of_ordered_list & ->%Z.eqb_eq). by exists d.
    + intros [d Hd]. exists (d, id). split; [|apply Z.eqb_refl]. by apply list_elem_of_In, elem_of_ordered_list.
  - rewrite Hlist. unfold GetForegroundOsAccountDisplayId. rewrite run_get. cbv zeta.
    destruct (display_of_spec id (foregroundAccountMap_ m)) as [(d & <- & Hd)|[-> Hn]].
    + destruct (Z.eqb_spec d INVALID_DISPLAY_ID) as [->|_]; [by rewrite (shown_valid _ _ Hm) in Hd|].
      rewrite ret_run. split; [by exists d|done].
    + rewrite Z.eqb_refl, err_run. split; [done|]. intros [d Hd]. by destruct (Hn d).
  - rewrite Hlist, list_elem_of_filter, elem_of_list_to_set, <-elem_of_displays. split; [|intros [H|[_ H]]; [|done]].
    + intros Ha. destruct (decide (id ∈ (ordered_list Z.le (foregroundAccountMap_ m)).*2)); auto.
    + apply elem_of_displays in H as [d Hd]. by apply (shown_active _ _ Hm d).
  - rewrite Hlist, list_elem_of_filter, elem_of_list_to_set, elem_of_displays. tauto.
Qed.

(** *** Constraints *)

(** What the list of constraints is read from. *)
Lemma all_constraints_inv id m constraints m' :
  (SUPPORT_BACKUP_RESTORE = true → isNeedRestoreRecover_ m = false) →
  GetOsAccountAllConstraints id m = (Ok constraints, m') →
  ∃ info m1 global m2 specific, real_account id ERR_ACCOUNT_COMMON_ACCOUNT_NOT_EXIST_ERROR m = (Ok info, m1) ∧
    call GetGlobalOAConstraintsList m1 = (Ok global, m2) ∧ call (GetSpecificOAConstraintsList id) m2 = (Ok specific, m') ∧
    ∀ x, x ∈ constraints ↔ x ∈ constraints_ info ∨ x ∈ global ∨ x ∈ specific.
Proof using Type.
  intros Hrestore H. unfold GetOsAccountAllConstraints in H. apply bind_Ok_inv in H as ([] & m0 & H0 & H).
  assert (m0 = m) as ->.
  { unfold recover_first, CheckAndRecoverRestore in H0. destruct SUPPORT_BACKUP_RESTORE; [|rewrite ret_run in H0; by injection H0].
    rewrite run_try, run_get, (Hrestore eq_refl) in H0. cbn [negb] in H0. rewrite ret_run in H0. cbn [fst snd] in H0.
    rewrite ret_run in H0. by injection H0. }
  apply bind_Ok_inv in H as (info & m1 & H1 & H). apply bind_Ok_inv in H as (global & m2 & H2 & H).
  apply bind_Ok_inv in H as (specific & m3 & H3 & H). rewrite ret_run in H. injection H as <- <-.
  exists info, m1, global, m2, specific. split_and!; [done..|]. intros x. rewrite !elem_of_push_new. tauto.
Qed.

(** C35. Whether a constraint is enabled for an account is whether the list of all its
    constraints has it, when the list can be read and nothing is left to restore. *)
Theorem constraint_is_enabled_when_listed id constraint (m : Manager W) constraints :
  (SUPPORT_BACKUP_RESTORE = true → isNeedRestoreRecover_ m = false) →
  (GetOsAccountAllConstraints id m).1 = Ok constraints →
  (IsOsAccountConstraintEnable id constraint m).1 = Ok (bool_decide (constraint ∈ constraints)).
Proof using Type.
  intros Hrestore H. apply run_result in H.
  apply all_constraints_inv in H as (info & m1 & global & m2 & specific & H1 & H2 & H3 & Hin); [|done].
  unfold IsOsAccountConstraintEnable. rewrite mbind_unfold, H1, (bool_decide_ext _ _ (Hin constraint)).
  case_bool_decide as Hbase; [rewrite bool_decide_true by auto; done|].
  rewrite run_try, H2. cbn [fst snd]. case_bool_decide as Hglobal; [rewrite bool_decide_true by auto; done|].
  rewrite run_try, H3. cbn [fst snd]. rewrite ret_run. cbn [fst]. f_equal. apply bool_decide_ext. tauto.
Qed.

(** *** The accounts the displays start with *)

(** The first display starts with [first]; each account that can be one starts on at most
    one display, and has been claimed. *)
Definition claimed (first : Z) (ids : gset Z) (m : S) : Prop :=
  defaultActivatedIds_ m !! DEFAULT_DISPLAY_ID = Some first ∧
  (∀ d id, defaultActivatedIds_ m !! d = Some id → id ∈ ids ∧ START_USER_ID ≤ id) ∧
  (∀ d d' id, defaultActivatedIds_ m !! d = Some id → defaultActivatedIds_ m !! d' = Some id → d = d').

Lemma claimed_insert first ids m d id :
  claimed first ids m → d ≠ DEFAULT_DISPLAY_ID → id ∉ ids → START_USER_ID ≤ id →
  claimed first ({[ id ]} ∪ ids) {| m with defaultActivatedIds_ := <[d := id]> (defaultActivatedIds_ m) |}.
Proof using Type.
  intros (Hfirst & Hin & Hinj) Hd Hid Hstart. split_and!; cbn.
  - by rewrite lookup_insert_ne.
  - intros d' u [[_ <-]|[_ Hu]]%lookup_insert_Some; [set_solver|]. apply Hin in Hu. set_solver.
  - intros d1 d2 u [[<- <-]|[N1 H1]]%lookup_insert_Some [[<- E]|[N2 H2]]%lookup_insert_Some; try done.
    + by apply Hin in H2 as [H2 _].
    + subst. by apply Hin in H1 as [H1 _].
    + by apply (Hinj d1 d2 u).
Qed.

#[export] Instance claimed_quiet first ids : Quiet (claimed first ids).
Proof using Type. split; by intros []. Qed.

(** The answer is about an account that can be one. *)
Lemma wp_valid (P : S → Prop) `{!Quiet P} id m :
  P m → wp (IsValidActivateOsAccountId id) (λ r m', P m' ∧ ∃ b, r = Ok b ∧ (b = true → START_USER_ID ≤ id)) m.
Proof using Type.
  intros Hm. unfold IsValidActivateOsAccountId. destruct (Z.ltb_spec id START_USER_ID).
  - apply wp_ret. split; [done|]. by exists false.
  - eapply (wp_calm P); [calmly|done|]. intros [res info] m1 H1. case_bool_decide; apply wp_ret; (split; [done|]); by eexists.
Qed.

Lemma wp_claim_displays first rawIds ids m :
  claimed first ids m → wp (claim_displays rawIds ids) (λ r m', r = Ok tt ∧ ∃ ids', claimed first ids' m') m.
Proof using Type.
  revert ids m. induction rawIds as [|[d id] rawIds IH]; intros ids m Hm; cbn [claim_displays].
  { apply wp_ret. split; [done|]. by exists ids. }
  destruct (_ || _) eqn:E; [by apply IH|]. apply orb_false_iff in E as [Hd%Z.eqb_neq Hid%bool_decide_eq_false].
  apply wp_bind. eapply wp_conseq; [by apply (wp_valid (claimed first ids))|]. intros r m1 (H1 & b & -> & Hb).
  destruct b; [|by apply IH]. cbn [negb]. apply wp_bind. unfold set_default. apply wp_modify.
  apply IH, claimed_insert; auto.
Qed.

(** When the service starts, every display that has an account to start with has one
    of its own, whatever the configuration says, and the first display always has one. *)
Theorem each_account_starts_on_one_display (m : Manager W) :
  defaultActivatedIds_ m = ∅ →
  let '(r, m') := ParseAllDefaultActivateIds m in
  r = Ok tt ∧ is_Some (defaultActivatedIds_ m' !! DEFAULT_DISPLAY_ID) ∧
  ∀ d id, defaultActivatedIds_ m' !! d = Some id →
    START_USER_ID ≤ id ∧ ∀ d', defaultActivatedIds_ m' !! d' = Some id → d' = d.
Proof using Type.
  intros Hm. assert (H : wp ParseAllDefaultActivateIds (λ r m', r = Ok tt ∧ ∃ first ids, claimed first ids m') m).
  { set (P m := defaultActivatedIds_ m = (∅ : gmap Z Z)). assert (HP : Quiet P) by (unfold P; split; by intros []).
    unfold ParseAllDefaultActivateIds. eapply (wp_calm P); [calmly|exact Hm|]. intros raw m1 H1. cbv zeta.
    set (rawIds := match raw with Ok _ => _ | Err _ => _ end).
    apply wp_bind. eapply (wp_conseq _ (λ r m', P m' ∧ ∃ first, r = Ok first ∧ START_USER_ID ≤ first)).
    { destruct (rawIds !! DEFAULT_DISPLAY_ID) as [account|]; [|apply wp_ret; split; [done|by eexists]].
      apply wp_bind. eapply wp_conseq; [by apply (wp_valid P)|]. intros r m2 (H2 & b & -> & Hb). apply wp_ret.
      split; [done|]. destruct b; eexists; split; auto; done. }
    intros r m2 (H2 & first & -> & Hfirst). apply wp_bind. unfold set_default. apply wp_modify.
    eapply wp_conseq; [apply (wp_claim_displays first)|].
    - unfold claimed; cbn. rewrite H2. split_and!; [apply lookup_insert_eq| |].
      + intros d id [<- <-]%lookup_singleton_Some. set_solver.
      + intros d d' id [<- <-]%lookup_singleton_Some [<- _]%lookup_singleton_Some. done.
    - intros r m3 [-> (ids & H3)]. split; [done|]. by exists first, ids. }
  unfold wp in H. destruct (ParseAllDefaultActivateIds m) as [r m']. cbn [fst snd] in H.
  destruct H as [-> (first & ids & Hfirst & Hin & Hinj)]. split; [done|]. split; [by exists first|].
  intros d id Hd. split; [by apply (Hin d)|]. intros d' Hd'. by apply (Hinj d' d id).
Qed.
End Answers.
