(* ===== verification/OsAccountLifecycleWorld.v ===== *)
(** A concrete world for the theorems about the manager of operating system accounts:
    services that accept every request, two displays, and the files of two accounts.  The
    witnesses run on it. *)
From Stdlib Require Import ZArith Lia Ascii String.
From stdpp Require Import base list gmap sets strings pretty sorting relations.
From S2P Require Import Prelude ErrorCodes Json FileStore FileOperator FileTheorems OsAccountInfo OsAccountEnv OsAccountFiles OsAccountConstraints OsAccountWorld OsAccountServices OsAccountInterface OsAccountManager OsAccountFrame OsAccountCreation OsAccountQueries OsAccountMarks OsAccountForeground OsAccountActivation OsAccountLifecycle OsAccountAnswers.
Import Concrete.

Module Services.
Abbreviation W := FileWorld.

(** A build with several accounts, several active and several in the foreground. *)
#[export] Instance build : OsSwitches := {|
  HAS_STORAGE_PART := true; HAS_USER_IDM_PART := true; HAS_CES_PART := true; SUPPORT_DOMAIN_ACCOUNTS := true;
  SUPPORT_SAMGR_USER_STATE := true; SUPPORT_STOP_MAIN_OS_ACCOUNT := false; SUPPORT_BACKUP_RESTORE := true;
  ENABLE_MULTIPLE_OS_ACCOUNTS := true; ENABLE_MULTIPLE_ACTIVE_ACCOUNTS := true;
  ENABLE_MULTI_FOREGROUND_OS_ACCOUNTS := true; ENABLE_ACCOUNT_NAME_PRIVACY_CONTROL := false;
  ENABLE_DEFAULT_ADMIN_NAME := true; ACTIVATE_LAST_LOGGED_IN_ACCOUNT := true; IS_EMULATOR := false |}.

#[export] Instance ability : AbilityManager W := {|
  StartUser := λ id _ _, mret (id, ERR_OK); StopUser := λ _, mret ERR_OK; LogoutUser := λ _, mret ERR_OK;
  IsAllAppDied := λ _ w, (true, w) |}.

#[export] Instance bundles : BundleManager W := {|
  CreateNewUser := λ _ _ _, mret tt; BMS_RemoveUser := λ _, mret tt; BMS_IsBundleInstalled := λ _ _, mret true;
  CreateNewBundleDir := λ _, mret tt |}.

#[export] Instance storage : StorageManager W := {|
  storage_check := λ w, (true, w); storage_get := λ w, (true, w); PrepareAddUser_call := λ _, mret tt;
  Storage_RemoveUser := λ _, mret tt; ActiveUserKey := λ _, mret tt; PrepareStartUser := λ _, mret tt;
  GetFileEncryptStatus := λ _, mret true; Storage_StopUser := λ _, mret tt; InactiveUserKey := λ _, mret tt;
  CompleteAddUser := λ _, mret tt; NotifyUserChangedEvent := λ _ _, mret tt |}.

#[export] Instance user_auth : UserIdm W := {|
  iam_service := λ w, (true, w); EraseUser := λ _ w, ((ERR_OK, Some ERR_OK), w);
  GetPINCredential := λ _ w, ((ERR_OK, None), w) |}.

#[export] Instance trusted : TeeAdapter W := {|
  Tee_GetOsAccountType := λ _, merr ERR_ACCOUNT_COMMON_TEE_ACCOUNT_NOT_EXIST;
  Tee_SetOsAccountType := λ _ _ _, mret tt; Tee_DelOsAccountType := λ _, mret tt;
  MigrateOsAccountTypesToTee := λ _ _, mret tt |}.

(** Displays 0 and 1, each the primary one of its zone. *)
#[export] Instance screens : Displays W := {|
  GetAllDisplayIds := λ w, ([0; 1], w); IsDisplayPrimary := λ _, mret true; GetPrimaryDisplayId := λ d, mret d;
  GetDisplayIdsByLogicalId := λ d, mret [d] |}.

#[export] Instance other_parts : AccountParts W := {|
  samgr := λ w, (true, w); OnUserStateChanged := λ _ _, mret tt; OnAccountUnBound := λ _ _, mret tt;
  RemoveTokenFromMap := λ _ w, (tt, w); NotifyDomainLogout := λ _ _ w, (tt, w); GetDomainAccountInfo := λ i, mret i;
  GetUnlockDeviceConfig := λ _, mret false; CheckAndRecoverBindDomainForUncomplete := λ _, mret tt;
  SendLogoutEventOnDelOsAccount := λ _ w, (tt, w); SwitchOsAccountSubspace := λ _ _, mret 0;
  GetOsAccountForegroundSubProfileId := λ _, mret 0; CreateSubProfile := λ _, mret 0;
  RollbackFromBackupUnlocked := λ _, mret tt; IsCreationAllowed := λ w, (true, w);
  IsLockPluginAvailable := λ w, (true, w); LockOsAccountPlugin := λ _, mret tt; CheckSaCall := λ _, false;
  CheckSystemApp := λ _, true; system_clock := λ w, (1700000000, w); SetAccountReady := mret tt;
  LaunchDeactivationAnimation := λ _ _ w, (tt, w) |}.

(** Accounts 100 and 101. *)
Definition account (id : Z) : OsAccountInfo :=
  {| OsAccountInfo_new with localId_ := id; isCreateCompleted_ := true; constraints_ := ["constraint.wifi"] |}.
Definition account_of (id : Z) (info : OsAccountInfo) : result unit * OsAccountInfo :=
  if (id =? 100) || (id =? 101) then (Ok tt, account id)
  else (Err ERR_ACCOUNT_COMMON_ACCOUNT_NOT_EXIST_ERROR, info).

#[export] Instance files : OsAccountControl W := {|
  GetOsAccountList := mret [account 100; account 101]; GetOsAccountIdList := mret [100; 101];
  OsAccountServices.GetOsAccountInfoById := λ id info w, (account_of id info, w);
  GetConstraintsByType := λ _, mret []; InsertOsAccount := λ _, mret tt; DelOsAccount := λ _, mret tt;
  UpdateOsAccount := λ _, mret tt; GetSerialNumber := λ _ w, ((Ok tt, 7), w); GetAllowCreateId := mret 102;
  SetNextLocalId := λ _, mret tt; OsAccountServices.IsOsAccountExists := λ id, mret ((id =? 100) || (id =? 101));
  GetPhotoById := λ _ photo, mret photo; SetPhotoById := λ _ _, mret tt; GetIsMultiOsAccountEnable := mret true;
  IsAllowedCreateAdmin := mret true; CheckConstraints := λ _ w, (true, w); RemoveOAConstraintsInfo := λ _, mret tt;
  IsFromBaseOAConstraintsList := λ _ _, mret false; IsFromGlobalOAConstraintsList := λ _ _ _, mret [];
  IsFromSpecificOAConstraintsList := λ _ _ _, mret []; GetGlobalOAConstraintsList := mret ["constraint.print"];
  GetSpecificOAConstraintsList := λ _, mret ["constraint.wifi"]; UpdateBaseOAConstraints := λ _ _ _, mret tt;
  UpdateGlobalOAConstraints := λ _ _ _, mret tt; UpdateSpecificOAConstraints := λ _ _ _ _, mret tt;
  UpdateDeviceOwnerId := λ _, mret tt; SetDefaultActivatedOsAccount_control := λ _ _, mret tt;
  GetAllDefaultActivatedOsAccounts_control := mret {[ 0 := 100; 1 := 100 ]};
  WriteSubProfileContext := λ _ _, mret tt; ReadSubProfileContext := λ _, merr 1;
  DeleteSubProfileContextFile := λ _, mret tt |}.

#[export] Instance switch_laws : SwitchesLaws.
Proof. split. done. Qed.
#[export] Instance ability_laws : AbilityManagerLaws W.
Proof. split. intros id d r w u w' [= ->]. done. Qed.
#[export] Instance screen_laws : DisplaysLaws W.
Proof. split. intros d w e w' [=]. Qed.
#[export] Instance file_laws : OsAccountControlLaws W.
Proof.
  split. intros id info w info' w' [= H _]. unfold account_of in H. destruct (_ || _); [|done]. by injection H as <-.
Qed.

(** The manager at the start of the service, and with 100 on the first display. *)
Definition m0 : Manager W := mkManager (world ∅) [] [] ∅ ∅ ∅ ∅ ∅ ∅ (-1) ∅ OsAccountConfig_new false [].
Definition m1 : Manager W := (ActivateOsAccount 100 true 0 false m0).2.

Lemma agrees_m0 : agrees m0.
Proof. split; intros; by repeat match goal with H : _ !! _ = Some _ |- _ => by rewrite lookup_empty in H end. Qed.
Lemma agrees_m1 : agrees m1.
Proof. apply (agrees_Activate 100 true 0 false m0); [by left|apply agrees_m0]. Qed.
End Services.
Import Services.

Lemma marked_account_is_left_alone_witness :
  run (Deactivate 100 true) {| m0 with operatingId_ := [100] |}
  = (Err ERR_OSACCOUNT_SERVICE_INNER_ACCOUNT_OPERATING_ERROR, {| m0 with operatingId_ := [100] |}).
Proof. apply (marked_account_is_left_alone (Deactivate 100 true) 100); [reflexivity|]. by left. Defined.

Lemma foreground_accounts_are_active_witness :
  101 ∈ activeAccountId_
    (run_all [Activate 100 true 0 false; Create "guest" 1 OsAccountInfo_new; Activate 101 true 1 false; Deactivate 100 true] m0).
Proof.
  apply (foreground_accounts_are_active
    [Activate 100 true 0 false; Create "guest" 1 OsAccountInfo_new; Activate 101 true 1 false; Deactivate 100 true] m0)
    with (displayId := 1); [reflexivity|reflexivity| |by vm_compute].
  split; [by left|]. split; [done|]. split; [by left|]. done.
Defined.

Lemma activated_account_is_shown_witness :
  101 ∈ activeAccountId_ (ActivateOsAccount 101 true 1 false m1).2.
Proof.
  apply (activated_account_is_shown 101 true 1 false m1); [apply agrees_m1|by left|].
  apply run_result. by vm_compute.
Defined.

Lemma subscribers_hear_who_is_shown_witness :
  ∃ announced, switches (ActivateOsAccount 101 true 0 false m1).2 = switches m1 ++ announced ∧
    hears 0 100 announced = Some 101.
Proof.
  pose proof (subscribers_hear_who_is_shown 101 true 0 false m1 agrees_m1 ltac:(done)) as H. cbv beta zeta in H.
  assert (E : default (-1) (foregroundAccountMap_ m1 !! 0) = 100) by (by vm_compute).
  assert (E' : default (-1) (foregroundAccountMap_ (ActivateOsAccount 101 true 0 false m1).2 !! 0) = 101) by (by vm_compute).
  rewrite E, E' in H. exact H.
Defined.

Lemma deactivation_outcomes_witness :
  100 ∉ activeAccountId_ (DeactivateOsAccount 100 true m1).2.
Proof.
  pose proof (deactivation_outcomes 100 true m1 agrees_m1) as H.
  destruct (DeactivateOsAccount 100 true m1) as [r m'] eqn:E.
  assert (Hr : r = Ok tt). { change r with (r, m').1. rewrite <-E. by vm_compute. }
  apply (proj1 H Hr).
Defined.

Lemma removed_account_is_inactive_witness :
  100 ∉ activeAccountId_ (RemoveOsAccount 100 m1).2.
Proof.
  apply (removed_account_is_inactive 100 m1); [apply agrees_m1|]. apply run_result. by vm_compute.
Defined.

Lemma foreground_queries_agree_witness :
  ∃ foreground, GetForegroundOsAccounts m1 = (Ok foreground, m1).
Proof. destruct (foreground_queries_agree m1 100 agrees_m1) as (l & _ & H & _). by exists l. Defined.

Lemma constraint_is_enabled_when_listed_witness :
  (IsOsAccountConstraintEnable 100 "constraint.print" m1).1
  = Ok (bool_decide ("constraint.print"%string ∈ ["constraint.wifi"; "constraint.print"]%string)).
Proof. apply constraint_is_enabled_when_listed; [reflexivity|by vm_compute]. Defined.

Lemma each_account_starts_on_one_display_witness :
  (ParseAllDefaultActivateIds m0).1 = Ok tt.
Proof.
  pose proof (each_account_starts_on_one_display m0 eq_refl) as H.
  destruct (ParseAllDefaultActivateIds m0) as [r m']. exact (proj1 H).
Defined.

(** A creation that is given the id of an account another request is on takes its mark. *)
Lemma creation_takes_a_mark :
  let '(r, m') := CreateOsAccount "guest" 1 OsAccountInfo_new {| m0 with operatingId_ := [102] |} in
  r = Err ERR_OSACCOUNT_SERVICE_INNER_ACCOUNT_OPERATING_ERROR ∧ operatingId_ m' = [].
Proof. by vm_compute. Qed.

(** Created anew over an account that is to be removed and is in the foreground, the
    account stays in the foreground without being active: the object of the caller is
    used to remove the old account. *)
Definition leaving_account (id : Z) (info : OsAccountInfo) (w : W) : (result unit * OsAccountInfo) * W :=
  ((Ok tt, {| (account id) with toBeRemoved_ := true |}), w).
Definition leaving : OsAccountControl W := {| files with OsAccountServices.GetOsAccountInfoById := leaving_account |}.

Lemma created_over_account_stays_shown :
  let '(r, m') := CreateOsAccountWithFullInfo (control := leaving) (account 100) CreateOsAccountOptions_new m1 in
  r = Ok tt ∧ foregroundAccountMap_ m' !! 0 = Some 100 ∧ activeAccountId_ m' = [].
Proof. by vm_compute. Qed.

(** Where one account is active at a time, one that is started in the background takes the
    place of the account that is shown. *)
Definition single_build : OsSwitches := 
  {| build with ENABLE_MULTIPLE_ACTIVE_ACCOUNTS := false; ENABLE_MULTI_FOREGROUND_OS_ACCOUNTS := false |}.

Lemma background_start_leaves_shown :
  let m' := (ActivateOsAccountInBackground (sw := single_build) 101 m1).2 in
  foregroundAccountMap_ m' !! 0 = Some 100 ∧ activeAccountId_ m' = [101].
Proof. by vm_compute. Qed.
