(* ===== verification/OsAccountSubscribe.v ===== *)
(** The subscription to the states of operating system accounts
    (os_account_subscribe_manager.cpp, os_account_subscribe_info.h) and the replies a
    publisher waits for (os_account_state_reply_callback_service.cpp).

    Module [Replies] is the hand-shake: the publisher puts one entry into a queue for each
    call-back it hands out, a call-back takes one entry away when its subscriber reports
    that it is done or when the subscriber cannot be reached, and the publisher waits for
    the queue to be empty.  Module [Subscriptions] is the manager: the set of records, the
    queues of switches by uid, and publishing as the list of the calls its threads make.

    Listeners are remote objects; the model has their identity.  The set of records is a
    set of pointers, kept as a map from addresses to records, and is gone through in the
    order of that map: no theorem depends on the order. *)
From Stdlib Require Import ZArith Lia Ascii String.
From stdpp Require Import base list gmap sets strings sorting.
From S2P Require Import Prelude ErrorCodes OsAccountServices.

#[export] Instance OS_ACCOUNT_SUBSCRIBE_TYPE_countable : Countable OS_ACCOUNT_SUBSCRIBE_TYPE.
Proof.
  set (all := [INVALID_TYPE; ACTIVATED; ACTIVATING; UNLOCKED; CREATED; REMOVED; STOPPING; STOPPED;
    SWITCHING; SWITCHED; CREATING; LOCKING; LOCKED]).
  refine (inj_countable (λ s, match s with
    | INVALID_TYPE => 0 | ACTIVATED => 1 | ACTIVATING => 2 | UNLOCKED => 3 | CREATED => 4
    | REMOVED => 5 | STOPPING => 6 | STOPPED => 7 | SWITCHING => 8 | SWITCHED => 9
    | CREATING => 10 | LOCKING => 11 | LOCKED => 12 end)%nat (λ n, all !! n) _).
  by intros [].
Defined.

(** A remote object that listens. *)
Definition Listener : Type := Z.

(** ** Replies *)

Module Replies.

(** [OsAccountStateReplyCallbackService], os_account_state_reply_callback_service.cpp:59-63 *)
Record ReplyCallback := {
  accountId_ : Z;
  state_ : OS_ACCOUNT_SUBSCRIBE_TYPE;
  subscriberUid_ : Z;
  isCompleted_ : bool;
}.

(** One round of publishing: the number of entries of the queue, and the call-backs handed
    out, each with a reference to the queue. *)
Record Round := { queued : nat; callbacks : list ReplyCallback }.

Definition new_round : Round := {| queued := 0; callbacks := [] |}.

(** A call-back is handed out with an entry in the queue.

    [OsAccountSubscribeManager::PublishToAllSubscribers], os_account_subscribe_manager.cpp:418-420 *)
Definition hand_out (accountId : Z) (state : OS_ACCOUNT_SUBSCRIBE_TYPE) (uid : Z) (r : Round) : Round :=
  {| queued := S (queued r);
     callbacks := callbacks r ++ [{| accountId_ := accountId; state_ := state; subscriberUid_ := uid;
                                     isCompleted_ := false |}] |}.

(** A pop of an empty queue does nothing.

    [OsAccountStateReplyCallbackService::CompleteInner], os_account_state_reply_callback_service.cpp *)
Definition CompleteInner (r : Round) : Round := {| queued := Nat.pred (queued r); callbacks := callbacks r |}.

Definition set_completed (i : nat) (r : Round) : Round :=
  {| queued := queued r;
     callbacks := alter (λ c, {| accountId_ := accountId_ c; state_ := state_ c;
                                 subscriberUid_ := subscriberUid_ c; isCompleted_ := true |})
                        i (callbacks r) |}.

(** [OsAccountStateReplyCallbackService::OnComplete], os_account_state_reply_callback_service.cpp *)
Definition OnComplete (callerUid : Z) (i : nat) (r : Round) : Round :=
  match callbacks r !! i with
  | Some c =>
      if isCompleted_ c then r
      else if negb (callerUid =? subscriberUid_ c) then r
      else CompleteInner (set_completed i r)
  | None => r
  end.

(** [OsAccountStateReplyCallbackService::ForceComplete], os_account_state_reply_callback_service.cpp *)
Definition ForceComplete (i : nat) (r : Round) : Round :=
  match callbacks r !! i with
  | Some c => if isCompleted_ c then r else CompleteInner (set_completed i r)
  | None => r
  end.

(** What other threads do with a round. *)
Inductive Step :=
  | Reply (callerUid : Z) (i : nat)
  | Force (i : nat).

Definition step (s : Step) (r : Round) : Round :=
  match s with Reply uid i => OnComplete uid i r | Force i => ForceComplete i r end.

Definition steps (l : list Step) (r : Round) : Round := foldl (flip step) r l.

(** A step at a time, in milliseconds; [woken] tells whether the publisher that waits sees
    it.  It need not, because what it waits with is not locked by those that notify it. *)
Record TimedStep := At { step_time : Z; taken : Step; woken : bool }.

Definition DEACTIVATION_WAIT : Z := 5000.

(** The wait on the condition: whenever the publisher wakes up it looks at the queue, and at
    the end of the time it looks once more.  It gives the time at which it ends. *)
Fixpoint wait_for (deadline : Z) (l : list TimedStep) (r : Round) : Z * Round :=
  match l with
  | [] => (deadline, r)
  | x :: l =>
      if deadline <? step_time x then (deadline, r)
      else
        let r := step (taken x) r in
        if woken x && (queued r =? 0)%nat then (step_time x, r) else wait_for deadline l r
  end.

(** The wait that starts at the time [now]: when it ends, what it returns, and the round then.

    [OsAccountSubscribeManager::WaitForAllReplies], os_account_subscribe_manager.cpp *)
Definition WaitForAllReplies (now : Z) (l : list TimedStep) (r : Round) : Z * Z * Round :=
  if (queued r =? 0)%nat then (now, ERR_OK, r)
  else
    let '(t, r) := wait_for (now + DEACTIVATION_WAIT) l r in
    (t, if (queued r =? 0)%nat then ERR_OK else ERR_ACCOUNT_COMMON_OPERATION_TIMEOUT, r).

(** The number of call-backs that are still to report. *)
Definition missing (r : Round) : nat := length (filter (λ c, isCompleted_ c = false) (callbacks r)).

(** The queue holds one entry for each call-back that is still to report. *)
Definition balanced (r : Round) : Prop := queued r = missing r.

(** A step ends the wait for a call-back: its subscriber reports, or it is given up. *)
Definition ends (s : Step) (i : nat) (c : ReplyCallback) : Prop :=
  s = Reply (subscriberUid_ c) i ∨ s = Force i.

#[global] Instance ends_dec s i c : Decision (ends s i c).
Proof.
  unfold ends. destruct s as [u j|j].
  - destruct (decide (u = subscriberUid_ c ∧ j = i)) as [[-> ->]|N]; [left; by left|right; naive_solver].
  - destruct (decide (j = i)) as [->|N]; [left; by right|right; naive_solver].
Defined.

Lemma balanced_new : balanced new_round.
Proof. done. Qed.

Lemma missing_hand_out a s u r : missing (hand_out a s u r) = S (missing r).
Proof. unfold missing, hand_out; simpl. rewrite filter_app, length_app. simpl. lia. Qed.

Lemma balanced_hand_out a s u r : balanced r → balanced (hand_out a s u r).
Proof. unfold balanced. by rewrite missing_hand_out; simpl; intros ->. Qed.

Lemma missing_alter (l : list ReplyCallback) i c f :
  l !! i = Some c → isCompleted_ c = false → isCompleted_ (f c) = true →
  length (filter (λ c, isCompleted_ c = false) l)
  = S (length (filter (λ c, isCompleted_ c = false) (alter f i l))).
Proof.
  revert i. induction l as [|d l IH]; intros [|i] E H F; simplify_eq/=.
  - rewrite filter_cons_True by done. by rewrite filter_cons_False by (by rewrite F).
  - rewrite !filter_cons. case_decide; simpl; by rewrite (IH i).
Qed.

(** The two ways a call-back completes come to the same. *)
Definition complete (i : nat) (r : Round) : Round := ForceComplete i r.

Lemma OnComplete_complete u i r c :
  callbacks r !! i = Some c → OnComplete u i r = if u =? subscriberUid_ c then complete i r else r.
Proof.
  intros E. unfold complete, OnComplete, ForceComplete. rewrite E.
  destruct (isCompleted_ c), (u =? subscriberUid_ c); by simpl.
Qed.

Lemma balanced_complete i r : balanced r → balanced (complete i r).
Proof.
  intros B. unfold complete, ForceComplete. destruct (callbacks r !! i) as [c|] eqn:E; [|done].
  destruct (isCompleted_ c) eqn:C; [done|]. unfold balanced, CompleteInner in *; simpl. rewrite B.
  unfold missing; simpl.
  by rewrite (missing_alter (callbacks r) i c (λ c, {| accountId_ := accountId_ c; state_ := state_ c;
    subscriberUid_ := subscriberUid_ c; isCompleted_ := true |}) E C).
Qed.

Lemma step_complete s r : (∃ i, step s r = complete i r) ∨ step s r = r.
Proof.
  destruct s as [u i|i]; simpl; [|by left; exists i].
  destruct (callbacks r !! i) as [c|] eqn:E.
  - rewrite (OnComplete_complete _ _ _ _ E). case_match; [left; by exists i|by right].
  - right. unfold OnComplete. by rewrite E.
Qed.

Lemma balanced_step s r : balanced r → balanced (step s r).
Proof. destruct (step_complete s r) as [[i ->]| ->]; [apply balanced_complete|done]. Qed.

(** What a step does to each call-back. *)
Lemma step_lookup s r i c :
  callbacks r !! i = Some c →
  callbacks (step s r) !! i
  = Some {| accountId_ := accountId_ c; state_ := state_ c; subscriberUid_ := subscriberUid_ c;
            isCompleted_ := isCompleted_ c || bool_decide (ends s i c) |}.
Proof.
  intros E.
  assert (Hc : ∀ j, callbacks (complete j r) !! i
    = Some {| accountId_ := accountId_ c; state_ := state_ c; subscriberUid_ := subscriberUid_ c;
              isCompleted_ := isCompleted_ c || bool_decide (j = i) |}).
  { intros j. unfold complete, ForceComplete. destruct (decide (j = i)) as [->|N].
    - rewrite E, bool_decide_true, orb_true_r by done. destruct (isCompleted_ c) eqn:C.
      + rewrite E. destruct c; simpl in *; by subst.
      + simpl. by rewrite list_lookup_alter_eq, E.
    - rewrite bool_decide_false, orb_false_r by done.
      assert (Hs : callbacks r !! i = Some {| accountId_ := accountId_ c; state_ := state_ c;
        subscriberUid_ := subscriberUid_ c; isCompleted_ := isCompleted_ c |}) by (by destruct c).
      destruct (callbacks r !! j) as [d|]; [|done]. destruct (isCompleted_ d); [done|].
      simpl. by rewrite list_lookup_alter_ne. }
  destruct s as [u j|j]; simpl.
  - destruct (callbacks r !! j) as [d|] eqn:D.
    + rewrite (OnComplete_complete _ _ _ _ D). destruct (Z.eqb_spec u (subscriberUid_ d)) as [->|N].
      * rewrite Hc. do 3 f_equal. apply bool_decide_ext. unfold ends.
        split; [intros ->; rewrite E in D; simplify_eq; by left|intros [?|?]; by simplify_eq].
      * rewrite E. rewrite bool_decide_false, orb_false_r; [by destruct c|].
        unfold ends. intros [?|?]; simplify_eq.
    + unfold OnComplete. rewrite D, E. rewrite bool_decide_false, orb_false_r; [by destruct c|].
      unfold ends. intros [?|?]; simplify_eq.
  - rewrite Hc. do 3 f_equal. apply bool_decide_ext. unfold ends.
    split; [intros ->; by right|intros [?|?]; by simplify_eq].
Qed.

Lemma step_length s r : length (callbacks (step s r)) = length (callbacks r).
Proof.
  destruct (step_complete s r) as [[i ->]| ->]; [|done]. unfold complete, ForceComplete.
  destruct (callbacks r !! i) as [c|]; [|done]. destruct (isCompleted_ c); [done|]. simpl. by rewrite length_alter.
Qed.

Lemma steps_app l1 l2 r : steps (l1 ++ l2) r = steps l2 (steps l1 r).
Proof. apply foldl_app. Qed.

Lemma balanced_steps l r : balanced r → balanced (steps l r).
Proof. revert r. induction l as [|s l IH]; intros r B; [done|]. apply IH, balanced_step, B. Qed.

Lemma steps_length l r : length (callbacks (steps l r)) = length (callbacks r).
Proof.
  revert r. induction l as [|s l IH]; intros r; [done|]. cbn. etransitivity; [apply IH|]. apply step_length.
Qed.

Lemma steps_lookup l r i c :
  callbacks r !! i = Some c →
  ∃ c', callbacks (steps l r) !! i = Some c' ∧ subscriberUid_ c' = subscriberUid_ c ∧
    (isCompleted_ c' = true ↔ isCompleted_ c = true ∨ Exists (λ s, ends s i c) l).
Proof.
  revert r c. induction l as [|s l IH]; intros r c E.
  - exists c. split_and!; [done..|]. split; [by left|intros [?|H]; [done|by inversion H]].
  - destruct (IH (step s r) _ (step_lookup s r i c E)) as (c' & E' & U & C). exists c'. simpl in *.
    split_and!; [done..|]. rewrite C, orb_true_iff, bool_decide_eq_true, Exists_cons. unfold ends. simpl. tauto.
Qed.

Lemma missing_none r : missing r = 0%nat ↔ ∀ i c, callbacks r !! i = Some c → isCompleted_ c = true.
Proof.
  unfold missing. rewrite length_zero_iff_nil. split.
  - intros E i c H. destruct (isCompleted_ c) eqn:C; [done|].
    assert (c ∈ filter (λ c, isCompleted_ c = false) (callbacks r)) as Hin
      by (apply list_elem_of_filter; split; [done|by eapply list_elem_of_lookup_2]).
    rewrite E in Hin. by apply not_elem_of_nil in Hin.
  - intros H. destruct (filter _ _) as [|c l] eqn:E; [done|].
    assert (c ∈ filter (λ c, isCompleted_ c = false) (callbacks r)) as [Hf Hin]%list_elem_of_filter by (rewrite E; set_solver).
    apply list_elem_of_lookup in Hin as [i Hi]. by rewrite (H i c Hi) in Hf.
Qed.

(** When the queue is empty. *)
Lemma queue_steps l r :
  balanced r →
  queued (steps l r) = 0%nat ↔
  ∀ i c, callbacks r !! i = Some c → isCompleted_ c = true ∨ Exists (λ s, ends s i c) l.
Proof.
  intros B. rewrite (balanced_steps l r B), missing_none. split.
  - intros H i c E. destruct (steps_lookup l r i c E) as (c' & E' & _ & C). apply C, (H i _ E').
  - intros H i c' E'. assert (Hi : (i < length (callbacks r))%nat)
      by (rewrite <- (steps_length l); by eapply lookup_lt_Some).
    apply lookup_lt_is_Some_2 in Hi as [c E].
    destruct (steps_lookup l r i c E) as (c'' & E'' & _ & C). simplify_eq. apply C, (H i c E).
Qed.

Lemma empty_stays l r : queued r = 0%nat → queued (steps l r) = 0%nat.
Proof.
  revert r. induction l as [|s l IH]; intros r E; [done|]. apply IH. destruct (step_complete s r) as [[i Hs]|Hs];
    cbn [flip]; rewrite Hs; [|done]. unfold complete, ForceComplete. destruct (callbacks r !! i) as [c|]; [|done].
  destruct (isCompleted_ c); [done|]. simpl. by rewrite E.
Qed.

(** The steps that are taken in time. *)
Definition in_time (deadline : Z) (l : list TimedStep) : list Step :=
  taken <$> filter (λ x, step_time x ≤ deadline) l.

Definition in_order (l : list TimedStep) : Prop := StronglySorted (λ x y, step_time x ≤ step_time y) l.

(** The wait ends in time, and well when the steps that are taken in time empty the queue. *)
Lemma wait_for_ends now deadline l r :
  now ≤ deadline → in_order l → Forall (λ x, now ≤ step_time x) l →
  let '(t, r') := wait_for deadline l r in
  now ≤ t ≤ deadline ∧ (queued r' = 0%nat ∨ t = deadline) ∧
  (queued r' = 0%nat ↔ queued (steps (in_time deadline l) r) = 0%nat).
Proof.
  intros Hd. revert r. induction l as [|x l IH]; intros r Hs Hn; cbn [wait_for].
  { split_and!; [lia|lia|by right|done]. }
  apply StronglySorted_inv in Hs as [Hs Hx]. apply Forall_cons in Hn as [Hnx Hn].
  assert (Hlate : deadline < step_time x → in_time deadline (x :: l) = []).
  { intros Hlt. unfold in_time. rewrite filter_cons_False by lia.
    assert (E : filter (λ y, step_time y ≤ deadline) l = []); [|by rewrite E].
    rewrite Forall_forall in Hx. apply elem_of_nil_inv. intros y [Hy Hin]%list_elem_of_filter. specialize (Hx y Hin). lia. }
  assert (Hin : step_time x ≤ deadline → in_time deadline (x :: l) = taken x :: in_time deadline l).
  { intros Hle. unfold in_time. by rewrite filter_cons_True. }
  destruct (Z.ltb_spec deadline (step_time x)) as [Hlt|Hle].
  { rewrite Hlate by done. split_and!; [lia|lia|by right|done]. }
  rewrite Hin by done. cbv zeta. specialize (IH (step (taken x) r) Hs Hn).
  destruct (woken x && (queued (step (taken x) r) =? 0)%nat) eqn:E; [|exact IH].
  apply andb_true_iff in E as [_ E%Nat.eqb_eq]. split_and!; [lia|lia|by left|].
  split; [intros _; by apply (empty_stays (in_time deadline l))|done].
Qed.

(** What the wait returns, and when. *)
Lemma wait_ends now l r :
  in_order l → Forall (λ x, now ≤ step_time x) l →
  let '(t, e, r') := WaitForAllReplies now l r in
  now ≤ t ≤ now + DEACTIVATION_WAIT ∧
  (e = ERR_OK ∨ e = ERR_ACCOUNT_COMMON_OPERATION_TIMEOUT ∧ t = now + DEACTIVATION_WAIT) ∧
  (e = ERR_OK ↔ queued (steps (in_time (now + DEACTIVATION_WAIT) l) r) = 0%nat).
Proof.
  intros Hs Hn. unfold WaitForAllReplies, DEACTIVATION_WAIT. destruct (Nat.eqb_spec (queued r) 0) as [E|E].
  { split_and!; [lia|lia|by left|]. split; [intros _; by apply empty_stays|done]. }
  assert (H := wait_for_ends now (now + 5000) l r ltac:(lia) Hs Hn).
  destruct (wait_for (now + 5000) l r) as [t r']. destruct H as (Ht & Hq & Hi).
  destruct (Nat.eqb_spec (queued r') 0) as [E'|E']; (split_and!; [lia|lia| |]).
  - by left.
  - split; [intros _; by apply Hi|done].
  - right. split; [done|]. by destruct Hq.
  - split; [done|]. intros H. by apply Hi in H.
Qed.

End Replies.

(** ** Subscriptions *)

Module Subscriptions.

(** [OsAccountSubscribeInfo], os_account_subscribe_info.h:82-85 *)
Record OsAccountSubscribeInfo := {
  osAccountSubscribeType_ : OS_ACCOUNT_SUBSCRIBE_TYPE;
  name_ : string;
  states_ : gset OS_ACCOUNT_SUBSCRIBE_TYPE;
  withHandshake_ : bool;
}.

(** A subscription by states.

    [OsAccountSubscribeInfo::OsAccountSubscribeInfo]#2, os_account_subscribe_info.cpp *)
Definition info_of_states (states : gset OS_ACCOUNT_SUBSCRIBE_TYPE) (withHandshake : bool) : OsAccountSubscribeInfo :=
  {| osAccountSubscribeType_ := INVALID_TYPE; name_ := ""; states_ := states; withHandshake_ := withHandshake |}.

(** A subscription of the old version.

    [OsAccountSubscribeInfo::OsAccountSubscribeInfo]#3, os_account_subscribe_info.cpp *)
Definition info_of_type (t : OS_ACCOUNT_SUBSCRIBE_TYPE) (name : string) : OsAccountSubscribeInfo :=
  {| osAccountSubscribeType_ := t; name_ := name; states_ := ∅; withHandshake_ := false |}.

(** [OsSubscribeRecord], ios_account_subscribe.h:27-39 *)
Record OsSubscribeRecord := {
  subscribeInfoPtr_ : OsAccountSubscribeInfo;
  eventListener_ : Listener;
  callingUid_ : Z;
}.

(** [OsAccountStateParcel], os_account_state_parcel.h:26-31 *)
Record OsAccountStateParcel := {
  state : OS_ACCOUNT_SUBSCRIBE_TYPE;
  fromId : Z;
  toId : Z;
  displayId : option Z;
  callback : option nat;      (* the place of the call-back in its round *)
}.

(** [SwitchSubscribeInfo], os_account_subscribe_manager.h:43-60 *)
Record SwitchSubscribeInfo := {
  workDeque_ : list (Listener * OsAccountStateParcel);
  workThread_ : bool;
  count_ : Z;
}.

Definition new_switch_info : SwitchSubscribeInfo := {| workDeque_ := []; workThread_ := false; count_ := 0 |}.

(** The counter has eight bits.

    [SwitchSubscribeInfo::AddSubscribeInfo], os_account_subscribe_manager.cpp *)
Definition AddSubscribeInfo (s : SwitchSubscribeInfo) : SwitchSubscribeInfo :=
  {| workDeque_ := workDeque_ s; workThread_ := workThread_ s; count_ := (count_ s + 1) `mod` 256 |}.

(** [SwitchSubscribeInfo::SubSubscribeInfo], os_account_subscribe_manager.cpp *)
Definition SubSubscribeInfo (s : SwitchSubscribeInfo) : SwitchSubscribeInfo :=
  if count_ s =? 0 then s
  else {| workDeque_ := workDeque_ s; workThread_ := workThread_ s; count_ := count_ s - 1 |}.

(** [SwitchSubscribeInfo::IsEmpty], os_account_subscribe_manager.cpp *)
Definition IsEmpty (s : SwitchSubscribeInfo) : bool := count_ s =? 0.

(** [SwitchSubscribeInfo::ProductTask], os_account_subscribe_manager.cpp *)
Definition ProductTask (l : Listener) (p : OsAccountStateParcel) (s : SwitchSubscribeInfo) : SwitchSubscribeInfo :=
  {| workDeque_ := workDeque_ s ++ [(l, p)]; workThread_ := true; count_ := count_ s |}.

(** One turn of the thread of a queue: the work it takes, if any; it ends when there is none.

    [ConsumerTask], os_account_subscribe_manager.cpp *)
Definition ConsumerTask (s : SwitchSubscribeInfo) : option (Listener * OsAccountStateParcel) * SwitchSubscribeInfo :=
  match workDeque_ s with
  | [] => (None, {| workDeque_ := []; workThread_ := false; count_ := count_ s |})
  | w :: ws => (Some w, {| workDeque_ := ws; workThread_ := workThread_ s; count_ := count_ s |})
  end.

(** [OsAccountSubscribeManager], os_account_subscribe_manager.h:95-96 *)
Record Manager := {
  subscribeRecords_ : gmap nat OsSubscribeRecord;
  switchRecordMap_ : gmap Z SwitchSubscribeInfo;
}.

Definition new_manager : Manager := {| subscribeRecords_ := ∅; switchRecordMap_ := ∅ |}.

Definition with_records (f : gmap nat OsSubscribeRecord → gmap nat OsSubscribeRecord) (m : Manager) : Manager :=
  {| subscribeRecords_ := f (subscribeRecords_ m); switchRecordMap_ := switchRecordMap_ m |}.

Definition with_switches (f : gmap Z SwitchSubscribeInfo → gmap Z SwitchSubscribeInfo) (m : Manager) : Manager :=
  {| subscribeRecords_ := subscribeRecords_ m; switchRecordMap_ := f (switchRecordMap_ m) |}.

(** The records of a listener, with their addresses. *)
Definition records_of (l : Listener) (rs : gmap nat OsSubscribeRecord) : gmap nat OsSubscribeRecord :=
  filter (λ e : nat * OsSubscribeRecord, eventListener_ e.2 = l) rs.

(** The first record of a listener. *)
Definition find_record (l : Listener) (m : Manager) : option (nat * OsSubscribeRecord) :=
  head (map_to_list (records_of l (subscribeRecords_ m))).

Definition is_switch (s : OS_ACCOUNT_SUBSCRIBE_TYPE) : bool :=
  match s with SWITCHING | SWITCHED => true | _ => false end.

(** A set of states with a switch in it. *)
Definition has_switch (states : gset OS_ACCOUNT_SUBSCRIBE_TYPE) : bool :=
  bool_decide (SWITCHING ∈ states) || bool_decide (SWITCHED ∈ states).

(** The record of the subscriber: the one it has is given the new information when the
    states differ, and is added otherwise. *)
Definition subscribe_record (callingUid : Z) (info : OsAccountSubscribeInfo) (l : Listener) (m : Manager) : Manager :=
  match find_record l m with
  | Some (p, r) =>
      if bool_decide (states_ info = states_ (subscribeInfoPtr_ r)) then m
      else with_records (insert p {| subscribeInfoPtr_ := info; eventListener_ := eventListener_ r;
                                     callingUid_ := callingUid_ r |}) m
  | None =>
      with_records (λ rs, insert (fresh (dom rs)) {| subscribeInfoPtr_ := info; eventListener_ := l;
                                                     callingUid_ := callingUid |} rs) m
  end.

(** The place of the subscriber among those that are told of switches: an entry that is
    there is counted up, a new one starts from zero. *)
Definition subscribe_switch (callingUid : Z) (m : Manager) : Manager :=
  match switchRecordMap_ m !! callingUid with
  | Some s => with_switches (insert callingUid (AddSubscribeInfo s)) m
  | None => with_switches (insert callingUid new_switch_info) m
  end.

(** [OsAccountSubscribeManager::SubscribeOsAccount], os_account_subscribe_manager.cpp *)
Definition SubscribeOsAccount (callingUid : Z) (info : option OsAccountSubscribeInfo) (l : option Listener)
    (m : Manager) : Z * Manager :=
  match info, l with
  | Some info, Some l =>
      let m := subscribe_record callingUid info l m in
      (ERR_OK, if has_switch (states_ info) then subscribe_switch callingUid m else m)
  | _, _ => (ERR_ACCOUNT_COMMON_NULL_PTR_ERROR, m)
  end.

(** The entry of a uid is counted down, and removed when it counts none.

    [OsAccountSubscribeManager::RemoveSubscribeRecord], os_account_subscribe_manager.cpp:216-222 *)
Definition unsubscribe_switch (uid : Z) (m : Manager) : Manager :=
  match switchRecordMap_ m !! uid with
  | Some s =>
      let s := SubSubscribeInfo s in
      if IsEmpty s then with_switches (delete uid) m else with_switches (insert uid s) m
  | None => m
  end.

(** [OsAccountSubscribeManager::RemoveSubscribeRecord], os_account_subscribe_manager.cpp *)
Definition RemoveSubscribeRecord (l : Listener) (m : Manager) : Z * Manager :=
  match find_record l m with
  | Some (p, r) =>
      let m := with_records (delete p) m in
      (ERR_OK, if has_switch (states_ (subscribeInfoPtr_ r)) then unsubscribe_switch (callingUid_ r) m else m)
  | None => (ERR_OK, m)
  end.

(** [OsAccountSubscribeManager::UnsubscribeOsAccount], os_account_subscribe_manager.cpp *)
Definition UnsubscribeOsAccount (l : option Listener) (m : Manager) : Z * Manager :=
  match l with
  | Some l => RemoveSubscribeRecord l m
  | None => (ERR_ACCOUNT_COMMON_NULL_PTR_ERROR, m)
  end.

(** The subscription of a remote object that died is removed.

    [OsAccountSubscribeDeathRecipient::OnRemoteDied], os_account_subscribe_death_recipient.cpp *)
Definition OnRemoteDied (remote : option (option Listener)) (m : Manager) : Manager :=
  match remote with
  | Some (Some l) => (UnsubscribeOsAccount (Some l) m).2
  | _ => m
  end.

(** [OsAccountSubscribeManager::GetSubscribeRecordInfo], os_account_subscribe_manager.cpp *)
Definition GetSubscribeRecordInfo (l : option Listener) (m : Manager) : option OsAccountSubscribeInfo :=
  match l with
  | Some l => (λ e : nat * OsSubscribeRecord, subscribeInfoPtr_ e.2) <$> find_record l m
  | None => None
  end.

(** *** Publishing *)

(** The calls that the threads of one publication make. *)
Inductive Call :=
  | StateChanged (l : Listener) (p : OsAccountStateParcel) (uid : Z)
  | AccountsChanged (l : Listener) (id : Z).

Definition call_listener (c : Call) : Listener :=
  match c with StateChanged l _ _ | AccountsChanged l _ => l end.

(** A publication under way: the manager, the round of replies and the calls so far. *)
Record Publication := {
  manager : Manager;
  round : Replies.Round;
  calls : list Call;
}.

(** A task for the queue of a uid; a uid without a queue gets none. *)
Definition produce (uid : Z) (l : Listener) (p : OsAccountStateParcel) (m : Manager) : Manager :=
  match switchRecordMap_ m !! uid with
  | Some s => with_switches (insert uid (ProductTask l p s)) m
  | None => m
  end.

(** The task of a call: the other account is the account itself where there is none.

    [OsAccountSubscribeManager::OnStateChanged], os_account_subscribe_manager.cpp:282-285 *)
Definition fill_toId (p : OsAccountStateParcel) : OsAccountStateParcel :=
  if (toId p =? -1) && negb (is_switch (state p))
  then {| state := state p; fromId := fromId p; toId := fromId p; displayId := displayId p; callback := callback p |}
  else p.

(** [OsAccountSubscribeManager::OnStateChanged], os_account_subscribe_manager.cpp *)
Definition OnStateChanged (l : Listener) (p : OsAccountStateParcel) (uid : Z) (b : Publication) : Publication :=
  if is_switch (state p) then {| manager := produce uid l p (manager b); round := round b; calls := calls b |}
  else {| manager := manager b; round := round b; calls := calls b ++ [StateChanged l (fill_toId p) uid] |}.

(** [OsAccountSubscribeManager::OnAccountsChanged], os_account_subscribe_manager.cpp *)
Definition OnAccountsChanged (l : Listener) (id : Z) (b : Publication) : Publication :=
  {| manager := manager b; round := round b; calls := calls b ++ [AccountsChanged l id] |}.

(** [OsAccountSubscribeManager::OnStateChangedV0], os_account_subscribe_manager.cpp *)
Definition OnStateChangedV0 (l : Listener) (s : OS_ACCOUNT_SUBSCRIBE_TYPE) (from to uid : Z) (d : option Z)
    (b : Publication) : Publication :=
  if is_switch s then
    {| manager := produce uid l {| state := s; fromId := from; toId := to; displayId := d; callback := None |} (manager b);
       round := round b; calls := calls b |}
  else OnAccountsChanged l from b.

(** [IsStateNeedHandShake], os_account_subscribe_manager.cpp *)
Definition IsStateNeedHandShake (s : OS_ACCOUNT_SUBSCRIBE_TYPE) : bool :=
  match s with STOPPING | LOCKING => true | _ => false end.

(** What a publication is about. *)
Record Notice := { n_from : Z; n_state : OS_ACCOUNT_SUBSCRIBE_TYPE; n_to : Z; n_display : option Z }.

(** The subscribers of the old version to the state, and those with the state among theirs. *)
Definition old_version (s : OS_ACCOUNT_SUBSCRIBE_TYPE) (r : OsSubscribeRecord) : bool :=
  bool_decide (osAccountSubscribeType_ (subscribeInfoPtr_ r) = s).

Definition wants (s : OS_ACCOUNT_SUBSCRIBE_TYPE) (r : OsSubscribeRecord) : bool :=
  old_version s r || bool_decide (s ∈ states_ (subscribeInfoPtr_ r)).

Definition shakes (s : OS_ACCOUNT_SUBSCRIBE_TYPE) (r : OsSubscribeRecord) : bool :=
  IsStateNeedHandShake s && withHandshake_ (subscribeInfoPtr_ r).

(** The parcel of a subscriber by states. *)
Definition parcel (n : Notice) (cb : option nat) : OsAccountStateParcel :=
  {| state := n_state n; fromId := n_from n; toId := n_to n;
     displayId := if is_switch (n_state n) then n_display n else None; callback := cb |}.

(** One subscriber of a publication.

    [OsAccountSubscribeManager::PublishToAllSubscribers], os_account_subscribe_manager.cpp:389-422 *)
Definition publish_record (n : Notice) (b : Publication) (r : OsSubscribeRecord) : Publication :=
  if old_version (n_state n) r then
    OnStateChangedV0 (eventListener_ r) (n_state n) (n_from n) (n_to n) (callingUid_ r) (n_display n) b
  else if negb (bool_decide (n_state n ∈ states_ (subscribeInfoPtr_ r))) then b
  else if shakes (n_state n) r then
    OnStateChanged (eventListener_ r) (parcel n (Some (length (Replies.callbacks (round b))))) (callingUid_ r)
      {| manager := manager b;
         round := Replies.hand_out (n_from n) (n_state n) (callingUid_ r) (round b); calls := calls b |}
  else OnStateChanged (eventListener_ r) (parcel n None) (callingUid_ r) b.

(** [OsAccountSubscribeManager::PublishToAllSubscribers], os_account_subscribe_manager.cpp *)
Definition PublishToAllSubscribers (n : Notice) (m : Manager) : Publication :=
  foldl (publish_record n) {| manager := m; round := Replies.new_round; calls := [] |}
    (map_to_list (subscribeRecords_ m)).*2.

(** The thread of a call, with the code the call returns: a call-back of a call that failed
    is given up.

    [OsAccountSubscribeManager::OnStateChanged], os_account_subscribe_manager.cpp:288-302 *)
Definition finish_call (errCode : Z) (c : Call) (r : Replies.Round) : Replies.Round :=
  match c with
  | StateChanged _ p _ =>
      match callback p with
      | Some i => if errCode =? ERR_OK then r else Replies.ForceComplete i r
      | None => r
      end
  | AccountsChanged _ _ => r
  end.

(** Some steps are taken while the notice is still being sent; when it is sent, at the time
    [now], the publisher waits.

    [OsAccountSubscribeManager::Publish], os_account_subscribe_manager.cpp *)
Definition Publish (n : Notice) (early : list Replies.Step) (now : Z) (during : list Replies.TimedStep) (m : Manager)
  : Z * Z * Publication :=
  let b := PublishToAllSubscribers n m in
  let '(t, e, r) := Replies.WaitForAllReplies now during (Replies.steps early (round b)) in
  (t, e, {| manager := manager b; round := r; calls := calls b |}).

(** One turn of the thread of a uid. *)
Definition consume (uid : Z) (m : Manager) : option (Listener * OsAccountStateParcel) * Manager :=
  match switchRecordMap_ m !! uid with
  | Some s => let '(w, s') := ConsumerTask s in (w, with_switches (insert uid s') m)
  | None => (None, m)
  end.

End Subscriptions.
