(* ===== verification/OsAccountNotices.v ===== *)
(** What subscribers of account states are told: the manager of OsAccountSubscribe as a
    refinement of a map from listeners to what they asked for, the calls of a publication,
    the order of the queues of switches, and the waits for replies. *)
From Stdlib Require Import ZArith Lia Ascii String.
From stdpp Require Import base list gmap sets strings sorting.
From S2P Require Import Prelude ErrorCodes OsAccountServices OsAccountSubscribe.
Import Subscriptions.

(** ** Requests and the abstract state *)

Inductive Request :=
  | Subscribe (callingUid : Z) (info : option OsAccountSubscribeInfo) (l : option Listener)
  | Unsubscribe (l : option Listener)
  | Died (remote : option (option Listener))
  | Announce (n : Notice)
  | Turn (uid : Z).

Definition serve (q : Request) (m : Manager) : Manager :=
  match q with
  | Subscribe uid i l => (SubscribeOsAccount uid i l m).2
  | Unsubscribe l => (UnsubscribeOsAccount l m).2
  | Died o => OnRemoteDied o m
  | Announce n => manager (PublishToAllSubscribers n m)
  | Turn uid => (consume uid m).2
  end.

Definition serve_all (qs : list Request) (m : Manager) : Manager := foldl (flip serve) m qs.

(** What a listener asked for, and the uid it called with. *)
Abbreviation Wishes := (gmap Listener (OsAccountSubscribeInfo * Z)).

(** A listener that subscribes again has its wish changed when the states differ. *)
Definition wish (uid : Z) (i : OsAccountSubscribeInfo) (l : Listener) (s : Wishes) : Wishes :=
  match s !! l with
  | None => <[l := (i, uid)]> s
  | Some (j, uid') => if bool_decide (states_ i = states_ j) then s else <[l := (i, uid')]> s
  end.

Definition spec_serve (q : Request) (s : Wishes) : Wishes :=
  match q with
  | Subscribe uid (Some i) (Some l) => wish uid i l s
  | Unsubscribe (Some l) | Died (Some (Some l)) => delete l s
  | _ => s
  end.

Definition spec_serve_all (qs : list Request) (s : Wishes) : Wishes := foldl (flip spec_serve) s qs.

(** A listener has one record. *)
Definition one_each (rs : gmap nat OsSubscribeRecord) : Prop :=
  ∀ p q r s, rs !! p = Some r → rs !! q = Some s → eventListener_ r = eventListener_ s → p = q.

(** The records are those of the wishes. *)
Definition keeps (m : Manager) (s : Wishes) : Prop :=
  one_each (subscribeRecords_ m) ∧
  ∀ l i uid, s !! l = Some (i, uid) ↔
    ∃ p, subscribeRecords_ m !! p = Some {| subscribeInfoPtr_ := i; eventListener_ := l; callingUid_ := uid |}.

(** ** Records *)

Lemma find_record_Some m l p r :
  find_record l m = Some (p, r) → subscribeRecords_ m !! p = Some r ∧ eventListener_ r = l.
Proof.
  unfold find_record. intros H%head_Some_elem_of%elem_of_map_to_list.
  by apply map_lookup_filter_Some in H as [? ?].
Qed.

Lemma find_record_None m l p r :
  find_record l m = None → subscribeRecords_ m !! p = Some r → eventListener_ r ≠ l.
Proof.
  unfold find_record. intros H E <-. apply head_None in H.
  assert (records_of (eventListener_ r) (subscribeRecords_ m) = ∅) as Z0 by (by apply map_to_list_empty_iff).
  assert (records_of (eventListener_ r) (subscribeRecords_ m) !! p = Some r) as E'
    by (by apply map_lookup_filter_Some).
  by rewrite Z0 in E'.
Qed.

Lemma keeps_find m s l :
  keeps m s →
  (∃ p i uid, find_record l m = Some (p, {| subscribeInfoPtr_ := i; eventListener_ := l; callingUid_ := uid |}) ∧
              s !! l = Some (i, uid)) ∨ (find_record l m = None ∧ s !! l = None).
Proof.
  intros [U K]. destruct (find_record l m) as [[p r]|] eqn:F.
  - left. pose proof (find_record_Some _ _ _ _ F) as [E L]. destruct r as [i l' uid]; simpl in *; subst l'.
    exists p, i, uid. split; [done|]. apply K. by exists p.
  - right. split; [done|]. destruct (s !! l) as [[i uid]|] eqn:E; [|done]. apply K in E as [p E].
    by apply (find_record_None _ _ _ _ F) in E.
Qed.

Lemma keeps_records m m' s : subscribeRecords_ m' = subscribeRecords_ m → keeps m s → keeps m' s.
Proof. unfold keeps. by intros ->. Qed.

Lemma keeps_new : keeps new_manager ∅.
Proof.
  unfold keeps, one_each, new_manager; cbn [subscribeRecords_].
  split; [by intros p q r s H%lookup_empty_Some|]. intros l i uid. rewrite lookup_empty.
  split; [done|]. by intros [p H%lookup_empty_Some].
Qed.

(** A record at an address where none, or one of the same listener, is. *)
Lemma keeps_insert m s p i l uid :
  keeps m s → (∀ q r, subscribeRecords_ m !! q = Some r → (q = p ↔ eventListener_ r = l)) →
  keeps (with_records (insert p {| subscribeInfoPtr_ := i; eventListener_ := l; callingUid_ := uid |}) m)
        (<[l := (i, uid)]> s).
Proof.
  intros [U K] A. split; simpl.
  - intros a b r0 t0 [[<- <-]|[Na Ha]]%lookup_insert_Some [[<- <-]|[Nb Hb]]%lookup_insert_Some E; simpl in E.
    + done.
    + symmetry. by apply (A b t0 Hb).
    + by apply (A a r0 Ha).
    + by eapply U.
  - intros l' i' uid'. destruct (decide (l = l')) as [<-|N].
    + rewrite lookup_insert_eq. split; [intros [= <- <-]; exists p; by rewrite lookup_insert_eq|].
      intros [q [[<- [= <- <-]]|[Nq E]]%lookup_insert_Some]; [done|]. destruct Nq. symmetry. by apply (A _ _ E).
    + rewrite lookup_insert_ne, K by done. split; intros [q E]; exists q.
      * rewrite lookup_insert_ne; [done|]. intros ->. destruct N. symmetry. by apply (A _ _ E).
      * by apply lookup_insert_Some in E as [[_ [= ? ?]]|[_ E]].
Qed.

Lemma keeps_delete m s p l :
  keeps m s → (∀ q r, subscribeRecords_ m !! q = Some r → (q = p ↔ eventListener_ r = l)) →
  keeps (with_records (delete p) m) (delete l s).
Proof.
  intros [U K] A. split; simpl.
  - intros a b r t [_ Ha]%lookup_delete_Some [_ Hb]%lookup_delete_Some. by eapply U.
  - intros l' i' uid'. rewrite lookup_delete_Some, K. split.
    + intros [N [q E]]. exists q. rewrite lookup_delete_ne; [done|]. intros ->. destruct N. symmetry. by apply (A _ _ E).
    + intros [q [N E]%lookup_delete_Some]. split; [|by exists q]. intros ->. destruct N. symmetry. by apply (A _ _ E).
Qed.

(** The address of a record that was found is the one of its listener. *)
Lemma found_at m s p r l :
  keeps m s → find_record l m = Some (p, r) →
  ∀ q t, subscribeRecords_ m !! q = Some t → (q = p ↔ eventListener_ t = l).
Proof.
  intros [U _] [E L]%find_record_Some q t H. split; [intros ->; by simplify_eq|].
  intros Ht. eapply U; [done..|congruence].
Qed.

Lemma fresh_at m l :
  find_record l m = None →
  ∀ q t, subscribeRecords_ m !! q = Some t → (q = fresh (dom (subscribeRecords_ m)) ↔ eventListener_ t = l).
Proof.
  intros F q t H. split.
  - intros ->. exfalso. apply (is_fresh (dom (subscribeRecords_ m))). by apply elem_of_dom_2 in H.
  - intros L. by apply (find_record_None _ _ _ _ F) in H.
Qed.

Lemma keeps_subscribe_record m s uid i l :
  keeps m s → keeps (subscribe_record uid i l m) (wish uid i l s).
Proof.
  intros K. unfold subscribe_record, wish.
  destruct (keeps_find m s l K) as [(p & j & uid' & F & ->)|[F ->]]; rewrite F; simpl.
  - case_bool_decide; [done|]. apply keeps_insert; [done|]. by eapply found_at.
  - by apply keeps_insert; [|apply fresh_at].
Qed.

Lemma subscribe_switch_records uid m : subscribeRecords_ (subscribe_switch uid m) = subscribeRecords_ m.
Proof. unfold subscribe_switch. by case_match. Qed.

Lemma unsubscribe_switch_records uid m : subscribeRecords_ (unsubscribe_switch uid m) = subscribeRecords_ m.
Proof. unfold unsubscribe_switch. case_match; [|done]. simpl. by case_match. Qed.

Lemma keeps_subscribe m s uid i l :
  keeps m s → keeps (SubscribeOsAccount uid i l m).2 (spec_serve (Subscribe uid i l) s).
Proof.
  intros K. destruct i as [i|], l as [l|]; simpl; [|done..].
  eapply keeps_records; [|apply keeps_subscribe_record, K]. case_match; [apply subscribe_switch_records|done].
Qed.

Lemma keeps_remove m s l : keeps m s → keeps (RemoveSubscribeRecord l m).2 (delete l s).
Proof.
  intros K. unfold RemoveSubscribeRecord. destruct (keeps_find m s l K) as [(p & j & uid & F & E)|[F E]]; rewrite F; simpl.
  - eapply keeps_records; [|by eapply keeps_delete, found_at]. case_match; [apply unsubscribe_switch_records|done].
  - by rewrite delete_id.
Qed.

(** ** A publication *)

Lemma produce_records uid l p m : subscribeRecords_ (produce uid l p m) = subscribeRecords_ m.
Proof. unfold produce. by case_match. Qed.

Lemma publish_record_records n b r :
  subscribeRecords_ (manager (publish_record n b r)) = subscribeRecords_ (manager b).
Proof.
  unfold publish_record, OnStateChangedV0, OnStateChanged, OnAccountsChanged.
  repeat case_match; simpl; rewrite ?produce_records; done.
Qed.

Lemma publish_records n m : subscribeRecords_ (manager (PublishToAllSubscribers n m)) = subscribeRecords_ m.
Proof.
  unfold PublishToAllSubscribers. generalize (map_to_list (subscribeRecords_ m)).*2 as rs. intros rs.
  change m with (manager {| manager := m; round := Replies.new_round; calls := [] |}) at 2.
  generalize {| manager := m; round := Replies.new_round; calls := [] |} as b.
  induction rs as [|r rs IH]; intros b; [done|]. simpl. by rewrite IH, publish_record_records.
Qed.

Lemma consume_records uid m : subscribeRecords_ (consume uid m).2 = subscribeRecords_ m.
Proof. unfold consume. case_match; [|done]. by destruct (ConsumerTask _). Qed.

Lemma keeps_serve q m s : keeps m s → keeps (serve q m) (spec_serve q s).
Proof.
  intros K. destruct q as [uid i l|l|o|n|uid]; simpl.
  - by apply keeps_subscribe.
  - destruct l; [by apply keeps_remove|done].
  - destruct o as [[l|]|]; [by apply keeps_remove|done..].
  - eapply keeps_records; [apply publish_records|done].
  - eapply keeps_records; [apply consume_records|done].
Qed.

Lemma keeps_serve_all qs m s : keeps m s → keeps (serve_all qs m) (spec_serve_all qs s).
Proof. revert m s. induction qs as [|q qs IH]; intros m s K; [done|]. by apply IH, keeps_serve. Qed.

(** The call-back a record is handed, and the records that are. *)
Definition callback_of (n : Notice) (r : OsSubscribeRecord) : Replies.ReplyCallback :=
  {| Replies.accountId_ := n_from n; Replies.state_ := n_state n;
     Replies.subscriberUid_ := callingUid_ r; Replies.isCompleted_ := false |}.

Definition shaken (n : Notice) (r : OsSubscribeRecord) : bool :=
  negb (old_version (n_state n) r) && bool_decide (n_state n ∈ states_ (subscribeInfoPtr_ r)) && shakes (n_state n) r.

(** The call made for a record that wants the state, with the call-backs of the round. *)
Definition call_for (n : Notice) (cbs : list Replies.ReplyCallback) (r : OsSubscribeRecord) (c : Call) : Prop :=
  if old_version (n_state n) r then c = AccountsChanged (eventListener_ r) (n_from n)
  else ∃ cb, c = StateChanged (eventListener_ r) (fill_toId (parcel n cb)) (callingUid_ r) ∧
         if shakes (n_state n) r then ∃ j, cb = Some j ∧ cbs !! j = Some (callback_of n r) else cb = None.

Definition Wants (n : Notice) (r : OsSubscribeRecord) : Prop := wants (n_state n) r = true.
Definition Shaken (n : Notice) (r : OsSubscribeRecord) : Prop := shaken n r = true.
#[export] Instance Wants_dec n r : Decision (Wants n r).
Proof. unfold Wants. apply _. Defined.
#[export] Instance Shaken_dec n r : Decision (Shaken n r).
Proof. unfold Shaken. apply _. Defined.

Lemma call_for_app n cbs cbs' r c : call_for n cbs r c → call_for n (cbs ++ cbs') r c.
Proof.
  unfold call_for. case_match; [done|]. intros (cb & -> & Hc). exists cb. split; [done|].
  case_match; [|done]. destruct Hc as (j & -> & Hj). exists j. split; [done|]. by apply lookup_app_l_Some.
Qed.

(** The round of replies of a publication, record by record. *)
Lemma publish_record_round n b r :
  Replies.callbacks (round (publish_record n b r))
  = Replies.callbacks (round b) ++ (if decide (Shaken n r) then [callback_of n r] else []) ∧
  (Replies.balanced (round b) → Replies.balanced (round (publish_record n b r))).
Proof.
  case_decide as D; unfold Shaken, shaken in D;
    unfold publish_record, OnStateChangedV0, OnAccountsChanged, OnStateChanged;
    destruct (old_version (n_state n) r); try done;
    destruct (bool_decide (n_state n ∈ states_ (subscribeInfoPtr_ r))); try done;
    destruct (shakes (n_state n) r); try done; simpl; repeat case_match; simpl; rewrite ?app_nil_r;
    split; try done; apply Replies.balanced_hand_out.
Qed.

Lemma publish_round n rs b :
  Replies.callbacks (round (foldl (publish_record n) b rs))
  = Replies.callbacks (round b) ++ (callback_of n <$> filter (Shaken n) rs) ∧
  (Replies.balanced (round b) → Replies.balanced (round (foldl (publish_record n) b rs))).
Proof.
  revert b. induction rs as [|r rs IH]; intros b; simpl; [by rewrite app_nil_r|].
  destruct (publish_record_round n b r) as [E B]. destruct (IH (publish_record n b r)) as [E' B'].
  rewrite E', E, filter_cons. split; [|tauto]. rewrite <- app_assoc. f_equal. by case_decide.
Qed.

(** A state that is no switch changes no queue and makes one call for each record that wants it. *)
Lemma publish_record_call n b r :
  is_switch (n_state n) = false →
  manager (publish_record n b r) = manager b ∧
  ∃ cs, calls (publish_record n b r) = calls b ++ cs ∧
    Forall2 (call_for n (Replies.callbacks (round (publish_record n b r))))
      (if decide (Wants n r) then [r] else []) cs.
Proof.
  intros S. case_decide as D; unfold Wants, wants in D;
    unfold publish_record, call_for, OnStateChangedV0, OnAccountsChanged, OnStateChanged;
    destruct (old_version (n_state n) r) eqn:O; simpl in D; try done; try rewrite S;
    destruct (bool_decide (n_state n ∈ states_ (subscribeInfoPtr_ r))) eqn:M; try done; simpl;
    try destruct (shakes (n_state n) r) eqn:K; simpl; rewrite ?S; simpl; (split; [done|]).
  all: first [exists []; by rewrite app_nil_r|eexists; split; [done|]; constructor; [|done]; rewrite O; try done].
  all: rewrite K; eexists; split; [done|]; try done.
  eexists; split; [done|]. unfold callback_of. by rewrite list_lookup_middle.
Qed.

Lemma publish_calls n rs b :
  is_switch (n_state n) = false →
  let b' := foldl (publish_record n) b rs in
  manager b' = manager b ∧
  ∃ cs, calls b' = calls b ++ cs ∧ Forall2 (call_for n (Replies.callbacks (round b'))) (filter (Wants n) rs) cs.
Proof.
  intros S. revert b. induction rs as [|r rs IH]; intros b; simpl; [split; [done|exists []; by rewrite app_nil_r]|].
  destruct (publish_record_call n b r S) as (M & cs & E & F).
  destruct (IH (publish_record n b r)) as (M' & cs' & E' & F'). split; [by rewrite M'|].
  exists (cs ++ cs'). split; [by rewrite E', E, app_assoc|].
  rewrite filter_cons. replace (if decide (Wants n r) then r :: filter (Wants n) rs else filter (Wants n) rs)
    with ((if decide (Wants n r) then [r] else []) ++ filter (Wants n) rs) by (by case_decide).
  apply Forall2_app; [|done]. destruct (publish_round n rs (publish_record n b r)) as [-> _].
  eapply Forall2_impl; [exact F|]. intros. by apply call_for_app.
Qed.

(** The work of a switch for a record. *)
Definition work_of (n : Notice) (r : OsSubscribeRecord) : Listener * OsAccountStateParcel :=
  (eventListener_ r, parcel n None).

Definition WantsAs (n : Notice) (uid : Z) (r : OsSubscribeRecord) : Prop := Wants n r ∧ callingUid_ r = uid.
#[export] Instance WantsAs_dec n uid r : Decision (WantsAs n uid r).
Proof. unfold WantsAs. apply _. Defined.

(** Work put into a queue, which has a thread then. *)
Definition enqueue (ws : list (Listener * OsAccountStateParcel)) (s : SwitchSubscribeInfo) : SwitchSubscribeInfo :=
  {| workDeque_ := workDeque_ s ++ ws; workThread_ := workThread_ s || negb (bool_decide (ws = [])); count_ := count_ s |}.

Lemma enqueue_nil s : enqueue [] s = s.
Proof. destruct s. unfold enqueue; simpl. by rewrite app_nil_r, orb_false_r. Qed.

Lemma enqueue_app ws ws' s : enqueue ws' (enqueue ws s) = enqueue (ws ++ ws') s.
Proof.
  unfold enqueue; simpl. rewrite <- app_assoc, <- orb_assoc. do 2 f_equal.
  destruct ws, ws'; by rewrite ?app_nil_r.
Qed.

Lemma produce_lookup uid l p m uid' :
  switchRecordMap_ (produce uid l p m) !! uid'
  = enqueue (if decide (uid = uid') then [(l, p)] else []) <$> switchRecordMap_ m !! uid'.
Proof.
  unfold produce. case_decide as D.
  - subst uid'. destruct (switchRecordMap_ m !! uid) as [s|] eqn:E; simpl; [|by rewrite E].
    rewrite lookup_insert_eq. unfold ProductTask, enqueue; simpl. by rewrite orb_true_r.
  - destruct (switchRecordMap_ m !! uid) as [s|] eqn:E; simpl; rewrite ?lookup_insert_ne by done;
      destruct (switchRecordMap_ m !! uid'); simpl; by rewrite ?enqueue_nil.
Qed.

Lemma publish_record_switch n b r uid :
  is_switch (n_state n) = true →
  calls (publish_record n b r) = calls b ∧
  switchRecordMap_ (manager (publish_record n b r)) !! uid
  = enqueue (if decide (WantsAs n uid r) then [work_of n r] else []) <$> switchRecordMap_ (manager b) !! uid.
Proof.
  intros S. assert (H : shakes (n_state n) r = false)
    by (unfold shakes; destruct (n_state n); simpl in *; done).
  case_decide as D; unfold WantsAs, Wants, wants in D;
    unfold publish_record, work_of, OnStateChangedV0, OnStateChanged; rewrite H; simpl; rewrite S;
    destruct (old_version (n_state n) r), (bool_decide (n_state n ∈ states_ (subscribeInfoPtr_ r))); simpl in *;
    (split; [done|]); rewrite ?produce_lookup; try naive_solver; unfold parcel; rewrite ?S.
  all: repeat case_decide; try naive_solver; destruct (switchRecordMap_ (manager b) !! uid); simpl; by rewrite ?enqueue_nil.
Qed.

(** A switch makes no call of its own and puts one piece of work for each record that
    wants it into the queue of the record's uid, where there is a queue. *)
Lemma publish_switch_work n rs b uid :
  is_switch (n_state n) = true →
  calls (foldl (publish_record n) b rs) = calls b ∧
  switchRecordMap_ (manager (foldl (publish_record n) b rs)) !! uid
  = enqueue (work_of n <$> filter (WantsAs n uid) rs) <$> switchRecordMap_ (manager b) !! uid.
Proof.
  intros S. revert b. induction rs as [|r rs IH]; intros b; simpl.
  - split; [done|]. destruct (switchRecordMap_ (manager b) !! uid); simpl; by rewrite ?enqueue_nil.
  - destruct (publish_record_switch n b r uid S) as [C M]. destruct (IH (publish_record n b r)) as [-> ->].
    split; [done|]. rewrite M, filter_cons. destruct (switchRecordMap_ (manager b) !! uid); simpl; [|done].
    rewrite enqueue_app. do 2 f_equal. by case_decide.
Qed.

(** ** What a listener is told *)

(** The only member of a list with a property. *)
Lemma filter_only {A} (P : A → Prop) `{!∀ x, Decision (P x)} (l : list A) (x : A) :
  NoDup l → x ∈ l → (∀ y, y ∈ l → (P y ↔ y = x)) → filter P l = [x].
Proof.
  induction l as [|a l IH]; intros N I U; [by apply not_elem_of_nil in I|].
  apply NoDup_cons in N as [Na N]. rewrite filter_cons. case_decide as D.
  - apply U in D as ->; [|by left]. f_equal.
    destruct (filter P l) as [|b k] eqn:E; [done|].
    assert (b ∈ filter P l) as [Pb Ib]%list_elem_of_filter by (rewrite E; by left).
    apply U in Pb as ->; [done|by right].
  - apply IH; [done| |set_solver]. apply elem_of_cons in I as [->|I]; [|done]. exfalso. apply D, U; [by left|done].
Qed.

Lemma filter_none {A} (P : A → Prop) `{!∀ x, Decision (P x)} (l : list A) :
  (∀ y, y ∈ l → ¬ P y) → filter P l = [].
Proof.
  intros HP. destruct (filter P l) as [|b k] eqn:E; [done|].
  assert (b ∈ filter P l) as [Pb Ib]%list_elem_of_filter by (rewrite E; by left). by apply HP in Pb.
Qed.

Lemma filter_swap {A} (P Q : A → Prop) `{!∀ x, Decision (P x), !∀ x, Decision (Q x)} (l : list A) :
  filter P (filter Q l) = filter Q (filter P l).
Proof. induction l as [|a l IH]; [done|]. rewrite !filter_cons. repeat (case_decide; rewrite ?filter_cons); congruence. Qed.

(** The records of a listener that wishes something, and of one that does not. *)
Definition Of (l : Listener) (r : OsSubscribeRecord) : Prop := eventListener_ r = l.
#[export] Instance Of_dec l r : Decision (Of l r).
Proof. unfold Of. apply _. Defined.

Lemma keeps_NoDup m s : keeps m s → NoDup (map_to_list (subscribeRecords_ m)).*2.
Proof.
  intros [U _]. apply NoDup_fmap_2_strong; [|apply NoDup_map_to_list].
  intros [p r] [q t] Hp%elem_of_map_to_list Hq%elem_of_map_to_list E. simpl in E. subst t. f_equal. by eapply U.
Qed.

Lemma keeps_of m s l :
  keeps m s →
  filter (Of l) (map_to_list (subscribeRecords_ m)).*2
  = match s !! l with
    | Some (i, uid) => [{| subscribeInfoPtr_ := i; eventListener_ := l; callingUid_ := uid |}]
    | None => []
    end.
Proof.
  intros K. pose proof K as [U V]. destruct (s !! l) as [[i uid]|] eqn:E.
  - apply V in E as [p E]. apply filter_only; [by eapply keeps_NoDup|..].
    + apply list_elem_of_fmap. exists (p, {| subscribeInfoPtr_ := i; eventListener_ := l; callingUid_ := uid |}).
      split; [done|by apply elem_of_map_to_list].
    + intros r ([q t] & -> & Hq%elem_of_map_to_list)%list_elem_of_fmap. simpl in *. unfold Of. split; [|by intros ->].
      intros L. assert (q = p) as -> by (by eapply U). by simplify_eq.
  - apply filter_none. intros r ([q t] & -> & Hq%elem_of_map_to_list)%list_elem_of_fmap L. simpl in *.
    destruct t as [i l' uid]; unfold Of in L; simpl in L; subst l'.
    assert (s !! l = Some (i, uid)) by (apply V; by exists q). congruence.
Qed.

Lemma call_for_listener n cbs r c : call_for n cbs r c → call_listener c = eventListener_ r.
Proof. unfold call_for. case_match; [by intros ->|]. by intros (cb & -> & _). Qed.

Definition to (l : Listener) (c : Call) : Prop := call_listener c = l.
#[export] Instance to_dec l c : Decision (to l c).
Proof. unfold to. apply _. Defined.

(** What a listener with a wish is to be told of a state that is no switch. *)
Definition spec_told (n : Notice) (cbs : list Replies.ReplyCallback) (l : Listener) (s : Wishes) (cs : list Call) : Prop :=
  match s !! l with
  | Some (i, uid) =>
      let r := {| subscribeInfoPtr_ := i; eventListener_ := l; callingUid_ := uid |} in
      if wants (n_state n) r then ∃ c, cs = [c] ∧ call_for n cbs r c else cs = []
  | None => cs = []
  end.

(** C9. Subscribers are told what they asked for: after any requests, the manager is a map
    from listeners to wishes (the first subscription of a listener, with the states of the
    last one that had others, until it unsubscribes or dies), and a state that is not a
    switch is sent once to each listener whose wish includes it, in the form of its version
    and with a call-back of its own exactly when it shakes hands over the state; nobody
    else is sent anything. *)
Theorem notices_reach_the_subscribers (qs : list Request) (n : Notice) :
  let m := serve_all qs new_manager in
  let b := PublishToAllSubscribers n m in
  keeps m (spec_serve_all qs ∅) ∧
  (is_switch (n_state n) = false → ∀ l,
     spec_told n (Replies.callbacks (round b)) l (spec_serve_all qs ∅) (filter (to l) (calls b))).
Proof.
  intros m b. assert (K : keeps m (spec_serve_all qs ∅)) by apply keeps_serve_all, keeps_new.
  split; [done|]. intros S l.
  destruct (publish_calls n (map_to_list (subscribeRecords_ m)).*2
              {| manager := m; round := Replies.new_round; calls := [] |} S) as (_ & cs & E & F).
  fold (PublishToAllSubscribers n m) in E, F. fold b in E, F. rewrite E, app_nil_l.
  apply (Forall2_filter _ (Of l) (to l)) in F;
    [|intros r c Hc; unfold Of, to; by rewrite (call_for_listener _ _ _ _ Hc)].
  rewrite filter_swap, (keeps_of _ _ l K) in F.
  unfold spec_told. destruct (spec_serve_all qs ∅ !! l) as [[i uid]|]; [|by apply Forall2_nil_inv_l in F].
  rewrite filter_cons in F. case_decide as D; unfold Wants in D.
  - rewrite D. apply Forall2_cons_inv_l in F as (c & k & Hc & ->%Forall2_nil_inv_l & ->). by exists c.
  - apply not_true_is_false in D. rewrite D. by apply Forall2_nil_inv_l in F.
Qed.

(** ** The wait of a publication *)

Definition handshakes (n : Notice) (m : Manager) : list OsSubscribeRecord :=
  filter (Shaken n) (map_to_list (subscribeRecords_ m)).*2.

Lemma publication_round n m :
  Replies.callbacks (round (PublishToAllSubscribers n m)) = callback_of n <$> handshakes n m ∧
  Replies.balanced (round (PublishToAllSubscribers n m)).
Proof.
  destruct (publish_round n (map_to_list (subscribeRecords_ m)).*2
    {| manager := m; round := Replies.new_round; calls := [] |}) as [E B].
  split; [exact E|]. apply B, Replies.balanced_new.
Qed.

(** C10. Publishing ends within five seconds, and ends well when the subscribers reply in time.
    Whatever the subscribers and the system do while a state is published and afterwards, in
    whatever order and at whatever times, and whether or not the publisher notices it at once:
    it ends at the latest five seconds after it began to wait; it returns ERR_OK exactly when
    by then each subscriber that the state was sent to with a call-back has reported with its
    own uid or was found unreachable; otherwise it returns, after the five seconds, that the
    time is over.  A state without hand-shakes is published without a wait. *)
Theorem replies_end_the_wait (n : Notice) (m : Manager) (early : list Replies.Step) (now : Z)
    (during : list Replies.TimedStep) :
  Replies.in_order during → Forall (λ x, now ≤ Replies.step_time x) during →
  let '(t, e, _) := Publish n early now during m in
  let deadline := now + 5000 in
  now ≤ t ≤ deadline ∧
  (e = ERR_OK ∨ e = ERR_ACCOUNT_COMMON_OPERATION_TIMEOUT ∧ t = deadline) ∧
  (e = ERR_OK ↔
   ∀ i r, handshakes n m !! i = Some r →
     Exists (λ s, Replies.ends s i (callback_of n r)) (early ++ Replies.in_time deadline during)) ∧
  (IsStateNeedHandShake (n_state n) = false → t = now ∧ e = ERR_OK).
Proof.
  intros Hs Hn. destruct (publication_round n m) as [E B]. unfold Publish.
  assert (Q : ∀ l, Replies.queued (Replies.steps l (round (PublishToAllSubscribers n m))) = 0%nat ↔
    ∀ i r, handshakes n m !! i = Some r → Exists (λ s, Replies.ends s i (callback_of n r)) l).
  { intros l. rewrite (Replies.queue_steps l _ B), E. split.
    - intros H i r Hr. destruct (H i (callback_of n r)) as [?|?]; [by rewrite list_lookup_fmap, Hr|done..].
    - intros H i c Hc. rewrite list_lookup_fmap in Hc. apply fmap_Some in Hc as (r & Hr & ->). right. by apply H. }
  assert (H := Replies.wait_ends now during (Replies.steps early (round (PublishToAllSubscribers n m))) Hs Hn).
  assert (H0 : IsStateNeedHandShake (n_state n) = false →
    Replies.WaitForAllReplies now during (Replies.steps early (round (PublishToAllSubscribers n m)))
    = (now, ERR_OK, Replies.steps early (round (PublishToAllSubscribers n m)))).
  { intros S. unfold Replies.WaitForAllReplies. rewrite (proj2 (Q early)); [done|].
    intros i r Hr%list_elem_of_lookup_2. apply list_elem_of_filter in Hr as [Hs' _].
    unfold Shaken, shaken, shakes in Hs'. rewrite S in Hs'. by destruct (old_version _ _), (bool_decide _). }
  destruct (Replies.WaitForAllReplies _ _ _) as [[t e] r']. destruct H as (Ht & He & Hi). split_and!; [apply Ht|apply Ht|done| |].
  - rewrite Hi, <-Replies.steps_app. apply Q.
  - intros S. specialize (H0 S). by simplify_eq.
Qed.

(** ** Switches *)

(** The work a uid's queue hands to its thread during requests, and the work that the
    announcements among them are for the uid. *)
Fixpoint heard (uid : Z) (qs : list Request) (m : Manager) : list (Listener * OsAccountStateParcel) :=
  match qs with
  | [] => []
  | q :: qs =>
      match q with
      | Turn u => if u =? uid then option_list (consume u m).1 else []
      | _ => []
      end ++ heard uid qs (serve q m)
  end.

Definition work_for (uid : Z) (n : Notice) (m : Manager) : list (Listener * OsAccountStateParcel) :=
  if is_switch (n_state n)
  then work_of n <$> filter (WantsAs n uid) (map_to_list (subscribeRecords_ m)).*2 else [].

Fixpoint announced (uid : Z) (qs : list Request) (m : Manager) : list (Listener * OsAccountStateParcel) :=
  match qs with
  | [] => []
  | q :: qs => match q with Announce n => work_for uid n m | _ => [] end ++ announced uid qs (serve q m)
  end.

(** Announcements and turns of the threads. *)
Definition quiet (q : Request) : Prop := match q with Announce _ | Turn _ => True | _ => False end.

Lemma announce_queue uid n m :
  ∃ t, ∀ s, switchRecordMap_ m !! uid = Some s →
    ∃ s', switchRecordMap_ (serve (Announce n) m) !! uid = Some s' ∧
      workDeque_ s' = workDeque_ s ++ work_for uid n m ∧ (workThread_ s' = workThread_ s || t).
Proof.
  simpl. unfold work_for. destruct (is_switch (n_state n)) eqn:S.
  - destruct (publish_switch_work n (map_to_list (subscribeRecords_ m)).*2
      {| manager := m; round := Replies.new_round; calls := [] |} uid S) as [_ E].
    eexists. intros s Hs. unfold PublishToAllSubscribers. rewrite E. simpl. rewrite Hs. eexists; split; [done|]. by split.
  - destruct (publish_calls n (map_to_list (subscribeRecords_ m)).*2
      {| manager := m; round := Replies.new_round; calls := [] |} S) as [E _].
    exists false. intros s Hs. unfold PublishToAllSubscribers. rewrite E. exists s. by rewrite app_nil_r, orb_false_r.
Qed.

Lemma turn_queue uid u m s :
  switchRecordMap_ m !! uid = Some s →
  ∃ s', switchRecordMap_ (serve (Turn u) m) !! uid = Some s' ∧
    (if u =? uid then option_list (consume u m).1 else []) ++ workDeque_ s' = workDeque_ s.
Proof.
  intros E. simpl. unfold consume. destruct (Z.eqb_spec u uid) as [->|N].
  - rewrite E. unfold ConsumerTask. destruct (workDeque_ s) as [|w ws] eqn:D; simpl; rewrite lookup_insert_eq; by eexists.
  - destruct (switchRecordMap_ m !! u) as [t|]; [|by exists s]. destruct (ConsumerTask t) as [w t']; simpl.
    rewrite lookup_insert_ne by done. by exists s.
Qed.

(** C17. Switches are heard in order: while nobody subscribes or unsubscribes, what the thread
    of a uid has delivered, followed by what is still in its queue, is what was in the
    queue before followed by one piece of work for each switch announced and each record
    of the uid that wants it, in the order of the announcements; so nothing is lost,
    repeated or overtaken. *)
Theorem switches_are_heard_in_order (uid : Z) (qs : list Request) (m : Manager) (s : SwitchSubscribeInfo) :
  switchRecordMap_ m !! uid = Some s → Forall quiet qs →
  ∃ s', switchRecordMap_ (serve_all qs m) !! uid = Some s' ∧
    heard uid qs m ++ workDeque_ s' = workDeque_ s ++ announced uid qs m.
Proof.
  intros E Q. revert m s E. induction Q as [|q qs Hq _ IH]; intros m s E; cbn [heard announced].
  - exists s. by rewrite app_nil_r.
  - destruct q as [| | |n|u]; try done.
    + destruct (announce_queue uid n m) as (t & H). destruct (H s E) as (s1 & E1 & D1 & _).
      destruct (IH _ _ E1) as (s' & E' & D'). exists s'. split; [done|].
      rewrite app_nil_l, D', D1. by rewrite <- app_assoc.
    + destruct (turn_queue uid u m s E) as (s1 & E1 & D1). destruct (IH _ _ E1) as (s' & E' & D').
      exists s'. split; [done|]. rewrite <- app_assoc, D', app_assoc, D1. done.
Qed.

(** The entry of a uid that subscribes to switches, and of one that unsubscribes last. *)
Lemma subscribe_entry uid i l m :
  has_switch (states_ i) = true →
  switchRecordMap_ (serve (Subscribe uid (Some i) (Some l)) m) !! uid
  = Some (match switchRecordMap_ m !! uid with Some s => AddSubscribeInfo s | None => new_switch_info end).
Proof.
  intros HS. simpl. rewrite HS.
  assert (E : switchRecordMap_ (subscribe_record uid i l m) = switchRecordMap_ m)
    by (unfold subscribe_record; repeat case_match; done).
  unfold subscribe_switch. rewrite E. case_match; simpl; by rewrite lookup_insert_eq.
Qed.

Lemma remove_entry m w l i uid s :
  keeps m w → w !! l = Some (i, uid) → has_switch (states_ i) = true →
  switchRecordMap_ m !! uid = Some s → IsEmpty (SubSubscribeInfo s) = true →
  switchRecordMap_ (serve (Unsubscribe (Some l)) m) !! uid = None.
Proof.
  intros K W HS E Z0. simpl. unfold RemoveSubscribeRecord.
  destruct (keeps_find m w l K) as [(p & j & uid' & F & W')|[_ W']]; [|congruence].
  rewrite W in W'. simplify_eq. rewrite F. simpl. rewrite HS. unfold unsubscribe_switch. simpl. rewrite E, Z0. simpl.
  apply lookup_delete_eq.
Qed.

(** A uid is told of switches only until the first of its listeners leaves: when two
    listeners of one uid that had none before have subscribed to switches and one of them
    unsubscribes, the other is still recorded with its wish, but no switch announced from
    then on reaches any queue of the uid.  (The entry of the uid starts from a count of
    zero where it stands for one subscriber.) *)
Theorem second_switch_subscriber_is_forgotten (m : Manager) (w : Wishes) (uid : Z) (l1 l2 : Listener)
    (i1 i2 : OsAccountSubscribeInfo) :
  keeps m w → w !! l1 = None → w !! l2 = None → l1 ≠ l2 → switchRecordMap_ m !! uid = None →
  has_switch (states_ i1) = true → has_switch (states_ i2) = true →
  let m' := serve_all [Subscribe uid (Some i1) (Some l1); Subscribe uid (Some i2) (Some l2); Unsubscribe (Some l1)] m in
  keeps m' (<[l2 := (i2, uid)]> w) ∧ switchRecordMap_ m' !! uid = None ∧
  ∀ n, is_switch (n_state n) = true →
    switchRecordMap_ (serve (Announce n) m') !! uid = None ∧ calls (PublishToAllSubscribers n m') = [].
Proof.
  intros K W1 W2 N S0 H1 H2 m'.
  pose proof (keeps_serve (Subscribe uid (Some i1) (Some l1)) m w K) as K1.
  pose proof (keeps_serve (Subscribe uid (Some i2) (Some l2)) _ _ K1) as K2.
  pose proof (keeps_serve (Unsubscribe (Some l1)) _ _ K2) as K3.
  assert (Ew : spec_serve (Subscribe uid (Some i2) (Some l2)) (spec_serve (Subscribe uid (Some i1) (Some l1)) w)
    = <[l2 := (i2, uid)]> (<[l1 := (i1, uid)]> w)).
  { cbn [spec_serve]. unfold wish. rewrite W1. by rewrite lookup_insert_ne, W2. }
  assert (S3 : switchRecordMap_ m' !! uid = None).
  { assert (E1 : switchRecordMap_ (serve (Subscribe uid (Some i1) (Some l1)) m) !! uid = Some new_switch_info)
      by (by rewrite subscribe_entry, S0).
    assert (E2 : switchRecordMap_ (serve (Subscribe uid (Some i2) (Some l2)) (serve (Subscribe uid (Some i1) (Some l1)) m)) !! uid
      = Some (AddSubscribeInfo new_switch_info)) by (by rewrite subscribe_entry, E1).
    apply (remove_entry _ _ l1 i1 uid (AddSubscribeInfo new_switch_info) K2); [|done..].
    by rewrite Ew, lookup_insert_ne, lookup_insert_eq. }
  rewrite Ew in K3. cbn [spec_serve] in K3. rewrite delete_insert_ne, delete_insert_id in K3 by done.
  split_and!; [exact K3|done|]. intros n Hn.
  destruct (publish_switch_work n (map_to_list (subscribeRecords_ m')).*2
    {| manager := m'; round := Replies.new_round; calls := [] |} uid Hn) as [C M].
  split; [|exact C]. simpl. unfold PublishToAllSubscribers. rewrite M. simpl. by rewrite S3.
Qed.

(** ** The theorems at work *)

Definition two_subscribers : list Request :=
  [Subscribe 1000 (Some (info_of_states {[STOPPING; SWITCHED]} true)) (Some 5);
   Subscribe 1000 (Some (info_of_type STOPPING "old")) (Some 6)].

Definition stopping : Notice := {| n_from := 100; n_state := STOPPING; n_to := -1; n_display := None |}.
Definition switched : Notice := {| n_from := 100; n_state := SWITCHED; n_to := 101; n_display := Some 0 |}.

Lemma notices_reach_the_subscribers_witness :
  is_switch STOPPING = false ∧
  spec_told stopping (Replies.callbacks (round (PublishToAllSubscribers stopping (serve_all two_subscribers new_manager)))) 5
    (spec_serve_all two_subscribers ∅)
    (filter (to 5) (calls (PublishToAllSubscribers stopping (serve_all two_subscribers new_manager)))) ∧
  length (calls (PublishToAllSubscribers stopping (serve_all two_subscribers new_manager))) = 2%nat.
Proof.
  split_and!; [done| |by vm_compute].
  by apply (proj2 (notices_reach_the_subscribers two_subscribers stopping)).
Defined.

(** The subscriber replies after three seconds, and a stranger before it; or not before six. *)
Lemma replies_end_the_wait_witness :
  let run t := [Replies.At 1000 (Replies.Reply 1 0) true; Replies.At t (Replies.Reply 1000 0) true] in
  length (handshakes stopping (serve_all two_subscribers new_manager)) = 1%nat ∧
  (Publish stopping [] 0 (run 3000) (serve_all two_subscribers new_manager)).1 = (3000, ERR_OK) ∧
  let '(t, e, _) := Publish stopping [] 0 (run 6000) (serve_all two_subscribers new_manager) in
  e = ERR_ACCOUNT_COMMON_OPERATION_TIMEOUT ∧ 0 ≤ t ≤ 5000.
Proof.
  cbv zeta. split_and!; [by vm_compute..|].
  pose proof (replies_end_the_wait stopping (serve_all two_subscribers new_manager) [] 0
    [Replies.At 1000 (Replies.Reply 1 0) true; Replies.At 6000 (Replies.Reply 1000 0) true]
    ltac:(repeat constructor; vm_compute; discriminate) ltac:(repeat constructor; vm_compute; discriminate)) as H.
  assert (E : (Publish stopping [] 0 [Replies.At 1000 (Replies.Reply 1 0) true; Replies.At 6000 (Replies.Reply 1000 0) true]
    (serve_all two_subscribers new_manager)).1.2 = ERR_ACCOUNT_COMMON_OPERATION_TIMEOUT) by (by vm_compute).
  destruct (Publish _ _ _ _ _) as [[t e] p]. destruct H as (Ht & _). split; [exact E|exact Ht].
Defined.

Lemma switches_are_heard_in_order_witness :
  ∃ s, switchRecordMap_ (serve_all two_subscribers new_manager) !! 1000 = Some s ∧
  ∃ s', switchRecordMap_ (serve_all [Announce switched; Announce switched; Turn 1000]
           (serve_all two_subscribers new_manager)) !! 1000 = Some s' ∧
    heard 1000 [Announce switched; Announce switched; Turn 1000] (serve_all two_subscribers new_manager) ++ workDeque_ s'
    = workDeque_ s ++ announced 1000 [Announce switched; Announce switched; Turn 1000] (serve_all two_subscribers new_manager) ∧
    length (workDeque_ s') = 1%nat.
Proof.
  exists new_switch_info. split; [by vm_compute|].
  destruct (switches_are_heard_in_order 1000 [Announce switched; Announce switched; Turn 1000]
    (serve_all two_subscribers new_manager) new_switch_info) as (s' & E & H); [by vm_compute|by repeat constructor|].
  exists s'. split_and!; [done..|].
  assert (L : (λ s, length (workDeque_ s)) <$> switchRecordMap_ (serve_all [Announce switched; Announce switched; Turn 1000]
    (serve_all two_subscribers new_manager)) !! 1000 = Some 1%nat) by (by vm_compute).
  rewrite E in L. by injection L.
Defined.

Lemma second_switch_subscriber_is_forgotten_witness :
  keeps new_manager ∅ ∧ has_switch {[SWITCHED]} = true ∧
  keeps (serve_all [Subscribe 1000 (Some (info_of_states {[SWITCHED]} false)) (Some 5);
                    Subscribe 1000 (Some (info_of_states {[SWITCHED]} false)) (Some 6);
                    Unsubscribe (Some 5)] new_manager)
    (<[6 := (info_of_states {[SWITCHED]} false, 1000)]> ∅).
Proof.
  split_and!; [apply keeps_new|by vm_compute|].
  apply (second_switch_subscriber_is_forgotten new_manager ∅ 1000 5 6); try by vm_compute. apply keeps_new.
Defined.
