(* ===== verification/OsAccountConstraintSubscribe.v ===== *)
(** The subscription to changes of constraints (os_account_constraint_subscribe_manager.cpp)
    and its front (os_account_constraint_manager.cpp).

    Records are shared objects: the set of records and the index by constraint hold
    pointers to them, so an index entry that is left behind still reaches the record, with
    the set and the listener the record has by then.  The model keeps the objects in a
    store by address. *)
From Stdlib Require Import ZArith Lia Ascii String.
From stdpp Require Import base list gmap sets strings sorting.
From S2P Require Import Prelude ErrorCodes AppIndex OsAccountServices OsAccountSubscribe.

(** [OsAccountConstraintSubscribeRecord], ios_account_subscribe.h:41-52 *)
Record OsAccountConstraintSubscribeRecord := {
  constraintSet_ : gset string;
  eventListener_ : Listener;
  callingUid_ : Z;
}.

(** [OsAccountConstraintSubscribeManager], os_account_constraint_subscribe_manager.h:52-54 *)
Record SubscribeManager := {
  objects : gmap nat OsAccountConstraintSubscribeRecord;      (* the records, by address *)
  constraintRecords_ : gset nat;
  userListenerMap_ : gmap Listener Z;
  constraint2RecordMap_ : gmap string (gset nat);
}.

Definition new_manager : SubscribeManager :=
  {| objects := ∅; constraintRecords_ := ∅; userListenerMap_ := ∅; constraint2RecordMap_ := ∅ |}.

Definition with_index (f : gmap string (gset nat) → gmap string (gset nat)) (m : SubscribeManager) : SubscribeManager :=
  {| objects := objects m; constraintRecords_ := constraintRecords_ m; userListenerMap_ := userListenerMap_ m;
     constraint2RecordMap_ := f (constraint2RecordMap_ m) |}.

Definition with_records (f : gset nat → gset nat) (m : SubscribeManager) : SubscribeManager :=
  {| objects := objects m; constraintRecords_ := f (constraintRecords_ m); userListenerMap_ := userListenerMap_ m;
     constraint2RecordMap_ := constraint2RecordMap_ m |}.

Definition with_users (f : gmap Listener Z → gmap Listener Z) (m : SubscribeManager) : SubscribeManager :=
  {| objects := objects m; constraintRecords_ := constraintRecords_ m; userListenerMap_ := f (userListenerMap_ m);
     constraint2RecordMap_ := constraint2RecordMap_ m |}.

Definition with_objects (f : gmap nat OsAccountConstraintSubscribeRecord → gmap nat OsAccountConstraintSubscribeRecord)
    (m : SubscribeManager) : SubscribeManager :=
  {| objects := f (objects m); constraintRecords_ := constraintRecords_ m; userListenerMap_ := userListenerMap_ m;
     constraint2RecordMap_ := constraint2RecordMap_ m |}.

(** An assignment to the set of a record. *)
Definition set_constraints (p : nat) (f : gset string → gset string) : SubscribeManager → SubscribeManager :=
  with_objects (alter (λ r, {| constraintSet_ := f (constraintSet_ r); eventListener_ := eventListener_ r;
                               callingUid_ := callingUid_ r |}) p).

(** The set of a record that is in the store. *)
Definition set_of (p : nat) (m : SubscribeManager) : gset string :=
  match objects m !! p with Some r => constraintSet_ r | None => ∅ end.

(** A record leaves the entry of a constraint, which is removed when it is empty.

    [OsAccountConstraintSubscribeManager::RemoveConstraintFromSubscribeRecord], os_account_constraint_subscribe_manager.cpp:52-56 *)
Definition remove_constraint (p : nat) (m : SubscribeManager) (c : string) : SubscribeManager :=
  let entry := default ∅ (constraint2RecordMap_ m !! c) ∖ {[p]} in
  set_constraints p (λ s, s ∖ {[c]})
    (with_index (if decide (entry = ∅) then delete c else insert c entry) m).

(** [OsAccountConstraintSubscribeManager::RemoveConstraintFromSubscribeRecord], os_account_constraint_subscribe_manager.cpp *)
Definition RemoveConstraintFromSubscribeRecord (p : nat) (constraints : gset string) (m : SubscribeManager) : SubscribeManager :=
  let m := foldl (remove_constraint p) m (elements constraints) in
  if decide (set_of p m = ∅) then with_records (λ rs, rs ∖ {[p]}) m else m.

(** [OsAccountConstraintSubscribeManager::InsertSubscribeRecord], os_account_constraint_subscribe_manager.cpp *)
Definition InsertSubscribeRecord (p : nat) (m : SubscribeManager) : SubscribeManager :=
  let m := with_records (λ rs, rs ∪ {[p]}) m in
  foldl (λ m c, with_index (λ i, <[c := default ∅ (i !! c) ∪ {[p]}]> i) m) m (elements (set_of p m)).

(** The first record of a listener.

    [OsAccountConstraintSubscribeManager::SubscribeOsAccountConstraints], os_account_constraint_subscribe_manager.cpp:81-84 *)
Definition find_record (l : Listener) (m : SubscribeManager) : option nat :=
  head (filter (λ p, eventListener_ <$> objects m !! p = Some l) (elements (constraintRecords_ m))).

(** A new record at an address of its own. *)
Definition new_record (uid : Z) (constraints : gset string) (l : Listener) (m : SubscribeManager) : SubscribeManager :=
  let p := fresh (dom (objects m)) in
  InsertSubscribeRecord p
    (with_objects (insert p {| constraintSet_ := constraints; eventListener_ := l; callingUid_ := uid |}) m).

(** [OsAccountConstraintSubscribeManager::SubscribeOsAccountConstraints], os_account_constraint_subscribe_manager.cpp *)
Definition SubscribeOsAccountConstraints (callingUid : Z) (constraints : gset string) (l : option Listener)
    (m : SubscribeManager) : Z * SubscribeManager :=
  match l with
  | None => (ERR_ACCOUNT_COMMON_NULL_PTR_ERROR, m)
  | Some l =>
      match find_record l m with
      | Some p => (ERR_OK, InsertSubscribeRecord p (set_constraints p (λ _, constraints) m))
      | None => (ERR_OK, new_record callingUid constraints l m)
      end
  end.

(** The overload for the accounts of one user.

    [OsAccountConstraintSubscribeManager::SubscribeOsAccountConstraints]#2, os_account_constraint_subscribe_manager.cpp *)
Definition SubscribeOsAccountConstraints_user (callingUid localId : Z) (constraints : gset string) (l : option Listener)
    (m : SubscribeManager) : Z * SubscribeManager :=
  match l with
  | None => (ERR_ACCOUNT_COMMON_NULL_PTR_ERROR, m)
  | Some l =>
      match find_record l m with
      | Some p => (ERR_OK, InsertSubscribeRecord p (set_constraints p (λ _, constraints) m))
      | None => (ERR_OK, new_record callingUid constraints l (with_users (insert l localId) m))
      end
  end.

(** The overload that ends every subscription of a listener.

    [OsAccountConstraintSubscribeManager::UnsubscribeOsAccountConstraints], os_account_constraint_subscribe_manager.cpp *)
Definition UnsubscribeOsAccountConstraints_all (l : option Listener) (m : SubscribeManager) : Z * SubscribeManager :=
  match l with
  | None => (ERR_ACCOUNT_COMMON_NULL_PTR_ERROR, m)
  | Some l =>
      let m := with_users (delete l) m in
      match find_record l m with
      | Some p => (ERR_OK, RemoveConstraintFromSubscribeRecord p (set_of p m) m)
      | None => (ERR_ACCOUNT_COMMON_ACCOUNT_SUBSCRIBE_NOT_FOUND_ERROR, m)
      end
  end.

(** [OsAccountConstraintSubscribeManager::UnsubscribeOsAccountConstraints]#2, os_account_constraint_subscribe_manager.cpp *)
Definition UnsubscribeOsAccountConstraints (constraints : gset string) (l : option Listener) (m : SubscribeManager) :
    Z * SubscribeManager :=
  match l with
  | None => (ERR_ACCOUNT_COMMON_NULL_PTR_ERROR, m)
  | Some l =>
      match find_record l m with
      | Some p =>
          if decide (constraints ⊆ set_of p m)
          then (ERR_OK, RemoveConstraintFromSubscribeRecord p constraints m)
          else (ERR_ACCOUNT_COMMON_ACCOUNT_SUBSCRIBE_NOT_FOUND_ERROR, m)
      | None => (ERR_ACCOUNT_COMMON_ACCOUNT_SUBSCRIBE_NOT_FOUND_ERROR, m)
      end
  end.

(** The overload for the accounts of one user: the restriction to the user is dropped first,
    whatever comes of the rest, and the user is not looked at.

    [OsAccountConstraintSubscribeManager::UnsubscribeOsAccountConstraints]#3, os_account_constraint_subscribe_manager.cpp *)
Definition UnsubscribeOsAccountConstraints_user (localId : Z) (constraints : gset string) (l : option Listener)
    (m : SubscribeManager) : Z * SubscribeManager :=
  match l with
  | None => (ERR_ACCOUNT_COMMON_NULL_PTR_ERROR, m)
  | Some l =>
      let m := with_users (delete l) m in
      match find_record l m with
      | Some p =>
          if decide (constraints ⊆ set_of p m)
          then (ERR_OK, RemoveConstraintFromSubscribeRecord p constraints m)
          else (ERR_ACCOUNT_COMMON_ACCOUNT_SUBSCRIBE_NOT_FOUND_ERROR, m)
      | None => (ERR_ACCOUNT_COMMON_ACCOUNT_SUBSCRIBE_NOT_FOUND_ERROR, m)
      end
  end.

(** [OsAccountConstraintSubscribeDeathRecipient::OnRemoteDied], os_account_constraint_subscribe_death_recipient.cpp *)
Definition OnRemoteDied (remote : option Listener) (m : SubscribeManager) : SubscribeManager :=
  match remote with
  | Some l => (UnsubscribeOsAccountConstraints_all (Some l) m).2
  | None => m
  end.

Definition MAX_RETRY_TIMES : nat := 10.

(** [retry n answer k]: the call is made again while it cannot be delivered, at most [n]
    times; [answer] gives the result of each call from the [k]th on.  The number of calls
    and the last result. *)
Fixpoint retry (n : nat) (answer : nat → Z) (k : nat) (result : Z) : nat * Z :=
  match n with
  | O => (k, result)
  | S n =>
      let result := answer k in
      if (result =? ERR_OK) || (negb (result =? E_IPC_ERROR) && negb (result =? E_IPC_SA_DIED))
      then (S k, result) else retry n answer (S k) result
  end.

(** [OsAccountConstraintSubscribeManager::PublishToSubscriber], os_account_constraint_subscribe_manager.cpp *)
Definition PublishToSubscriber (answer : nat → Z) : nat * Z := retry MAX_RETRY_TIMES answer 0 ERR_OK.

(** The records a publication is for. *)
Definition records_for (constraints : gset string) (m : SubscribeManager) : gset nat :=
  foldl (λ ps c, match constraint2RecordMap_ m !! c with Some qs => ps ∪ qs | None => ps end) ∅ (elements constraints).

(** The restriction of a listener to one user. *)
Definition may_hear (localId : Z) (l : Listener) (users : gmap Listener Z) : bool :=
  match users !! l with Some u => u =? localId | None => true end.

(** The listeners that threads are started for, one for each record.

    [OsAccountConstraintSubscribeManager::Publish], os_account_constraint_subscribe_manager.cpp *)
Definition Publish (localId : Z) (constraints : gset string) (m : SubscribeManager) : list Listener :=
  omap (λ p, match objects m !! p with
             | Some r => if may_hear localId (eventListener_ r) (userListenerMap_ m) then Some (eventListener_ r) else None
             | None => None
             end) (elements (records_for constraints m)).

(** ** The front *)

(** [OsAccountConstraintSubscribeInfo], os_account_constraint_subscribe_info.h:33-38 *)
Record OsAccountConstraintSubscribeInfo := { info_constraintSet_ : gset string; needAcross : bool }.

Section Front.
(** What [OsAccountControlFileManager::CheckConstraints] answers for these constraints
    (OsAccountConstraints.v has the function). *)
Context (CheckConstraints : gset string → bool).

(** [OsAccountConstraintManager::SubscribeOsAccountConstraints], os_account_constraint_manager.cpp *)
Definition SubscribeConstraints (callingUid : Z) (info : OsAccountConstraintSubscribeInfo) (l : option Listener)
    (m : SubscribeManager) : Z * SubscribeManager :=
  let constraints := info_constraintSet_ info in
  if decide (constraints = ∅) then (ERR_ACCOUNT_COMMON_INVALID_PARAMETER, m)
  else if negb (CheckConstraints constraints) then (ERR_ACCOUNT_COMMON_INVALID_PARAMETER, m)
  else if negb (needAcross info)
  then SubscribeOsAccountConstraints_user callingUid (Z.quot callingUid UID_TRANSFORM_DIVISOR) constraints l m
  else SubscribeOsAccountConstraints callingUid constraints l m.

(** [OsAccountConstraintManager::UnsubscribeOsAccountConstraints], os_account_constraint_manager.cpp *)
Definition UnsubscribeConstraints (callingUid : Z) (info : OsAccountConstraintSubscribeInfo) (l : option Listener)
    (m : SubscribeManager) : Z * SubscribeManager :=
  let constraints := info_constraintSet_ info in
  if decide (constraints = ∅) then (ERR_ACCOUNT_COMMON_INVALID_PARAMETER, m)
  else if negb (CheckConstraints constraints) then (ERR_ACCOUNT_COMMON_INVALID_PARAMETER, m)
  else if negb (needAcross info)
  then UnsubscribeOsAccountConstraints_user (Z.quot callingUid UID_TRANSFORM_DIVISOR) constraints l m
  else UnsubscribeOsAccountConstraints constraints l m.
End Front.
