(* ===== verification/OsAccountConstraintNotices.v ===== *)
(** What subscribers of constraints are told: the manager of OsAccountConstraintSubscribe
    as a refinement of a map from listeners to constraints, where the index by constraint
    serves it well, and where it does not. *)
From Stdlib Require Import ZArith Lia Ascii String.
From stdpp Require Import base list gmap sets strings sorting.
From S2P Require Import Prelude ErrorCodes AppIndex OsAccountServices OsAccountSubscribe OsAccountConstraintSubscribe.

(** ** Requests and the abstract state *)

Inductive Request :=
  | Subscribe (callingUid : Z) (constraints : gset string) (l : Listener)
  | SubscribeUser (callingUid localId : Z) (constraints : gset string) (l : Listener)
  | Unsubscribe (constraints : gset string) (l : Listener)
  | UnsubscribeUser (localId : Z) (constraints : gset string) (l : Listener)
  | UnsubscribeAll (l : Listener).

Definition serve (q : Request) (m : SubscribeManager) : SubscribeManager :=
  match q with
  | Subscribe uid cs l => (SubscribeOsAccountConstraints uid cs (Some l) m).2
  | SubscribeUser uid u cs l => (SubscribeOsAccountConstraints_user uid u cs (Some l) m).2
  | Unsubscribe cs l => (UnsubscribeOsAccountConstraints cs (Some l) m).2
  | UnsubscribeUser u cs l => (UnsubscribeOsAccountConstraints_user u cs (Some l) m).2
  | UnsubscribeAll l => (UnsubscribeOsAccountConstraints_all (Some l) m).2
  end.

Definition serve_all (qs : list Request) (m : SubscribeManager) : SubscribeManager := foldl (flip serve) m qs.

(** What each listener wishes to hear of, with the uid it called with, and the listeners
    that are restricted to a user. *)
Record Wishes := { wishes : gmap Listener (gset string * Z); users : gmap Listener Z }.

Definition no_wishes : Wishes := {| wishes := ∅; users := ∅ |}.

(** A listener that subscribes again keeps its uid and its restriction. *)
Definition wish (uid : Z) (cs : gset string) (l : Listener) (w : gmap Listener (gset string * Z)) :=
  <[l := (cs, match w !! l with Some (_, uid') => uid' | None => uid end)]> w.

(** Constraints of which one is not wished for are not taken back at all. *)
Definition take_back (cs : gset string) (l : Listener) (w : gmap Listener (gset string * Z)) :=
  match w !! l with
  | Some (old, uid) =>
      if decide (cs ⊆ old) then if decide (old ∖ cs = ∅) then delete l w else <[l := (old ∖ cs, uid)]> w else w
  | None => w
  end.

Definition spec_serve (q : Request) (s : Wishes) : Wishes :=
  match q with
  | Subscribe uid cs l => {| wishes := wish uid cs l (wishes s); users := users s |}
  | SubscribeUser uid u cs l =>
      {| wishes := wish uid cs l (wishes s);
         users := match wishes s !! l with Some _ => users s | None => <[l := u]> (users s) end |}
  | Unsubscribe cs l => {| wishes := take_back cs l (wishes s); users := users s |}
  | UnsubscribeUser _ cs l => {| wishes := take_back cs l (wishes s); users := delete l (users s) |}
  | UnsubscribeAll l => {| wishes := delete l (wishes s); users := delete l (users s) |}
  end.

Definition spec_serve_all (qs : list Request) (s : Wishes) : Wishes := foldl (flip spec_serve) s qs.

(** The listeners that wish to hear of a change of the constraints for a user. *)
Definition hears (localId : Z) (cs : gset string) (l : Listener) (s : Wishes) : Prop :=
  ∃ set uid, wishes s !! l = Some (set, uid) ∧ (∃ c, c ∈ set ∧ c ∈ cs) ∧ may_hear localId l (users s) = true.

(** A listener that subscribes again asks for what it has and more. *)
Definition growing (q : Request) (s : Wishes) : Prop :=
  match q with
  | Subscribe _ cs l | SubscribeUser _ _ cs l => ∀ old uid, wishes s !! l = Some (old, uid) → old ⊆ cs
  | _ => True
  end.

Fixpoint all_growing (qs : list Request) (s : Wishes) : Prop :=
  match qs with [] => True | q :: qs => growing q s ∧ all_growing qs (spec_serve q s) end.

(** ** The index *)

Definition index (m : SubscribeManager) (c : string) : gset nat := default ∅ (constraint2RecordMap_ m !! c).

(** The record at an address that is in the set of records. *)
Definition record_at (m : SubscribeManager) (p : nat) (r : OsAccountConstraintSubscribeRecord) : Prop :=
  p ∈ constraintRecords_ m ∧ objects m !! p = Some r.

(** The records are objects, the index holds objects, a listener has one record, and each
    record is in the index under the constraints of its set. *)
Record indexed (m : SubscribeManager) : Prop := {
  records_exist p : p ∈ constraintRecords_ m → is_Some (objects m !! p);
  index_exists c p : p ∈ index m c → is_Some (objects m !! p);
  one_each p q r t : record_at m p r → record_at m q t → eventListener_ r = eventListener_ t → p = q;
  covered p r c : record_at m p r → c ∈ constraintSet_ r → p ∈ index m c;
}.

(** The index holds nothing else. *)
Definition exact (m : SubscribeManager) : Prop :=
  ∀ c p, p ∈ index m c → ∃ r, record_at m p r ∧ c ∈ constraintSet_ r.

Definition keeps (m : SubscribeManager) (s : Wishes) : Prop :=
  userListenerMap_ m = users s ∧
  ∀ l cs uid, wishes s !! l = Some (cs, uid) ↔
    ∃ p, record_at m p {| constraintSet_ := cs; eventListener_ := l; callingUid_ := uid |}.

(** What removing constraints of a record changes. *)
Definition set_minus (cs : list string) (r : OsAccountConstraintSubscribeRecord) : OsAccountConstraintSubscribeRecord :=
  {| constraintSet_ := constraintSet_ r ∖ list_to_set cs; eventListener_ := eventListener_ r; callingUid_ := callingUid_ r |}.

Lemma remove_constraints p cs m :
  let m' := foldl (remove_constraint p) m cs in
  constraintRecords_ m' = constraintRecords_ m ∧ userListenerMap_ m' = userListenerMap_ m ∧
  objects m' = alter (set_minus cs) p (objects m) ∧
  ∀ c, index m' c = if decide (c ∈ cs) then index m c ∖ {[p]} else index m c.
Proof.
  revert m. induction cs as [|c cs IH]; intros m; simpl.
  - split_and!; [done..| |done]. symmetry. apply map_eq. intros q. destruct (decide (q = p)) as [->|N].
    + rewrite lookup_alter_eq. destruct (objects m !! p) as [[cs l u]|]; [|done]. unfold set_minus; simpl.
      do 2 f_equal. set_solver.
    + by rewrite lookup_alter_ne.
  - destruct (IH (remove_constraint p m c)) as (-> & -> & -> & I). split_and!; [done..| |].
    + apply map_eq. intros q. simpl. destruct (decide (q = p)) as [->|N]; [|by rewrite !lookup_alter_ne].
      rewrite !lookup_alter_eq. destruct (objects m !! p) as [[cs' l u]|]; [|done]. unfold set_minus; simpl.
      do 2 f_equal. set_solver.
    + intros d. rewrite I. assert (E : ∀ d, index (remove_constraint p m c) d
        = if decide (d = c) then index m d ∖ {[p]} else index m d).
      { intros e. unfold index, remove_constraint; simpl. case_decide as D.
        - destruct (decide (e = c)) as [->|N]; [rewrite lookup_delete_eq; simpl; by rewrite D|by rewrite lookup_delete_ne].
        - destruct (decide (e = c)) as [->|N]; [by rewrite lookup_insert_eq|by rewrite lookup_insert_ne]. }
      rewrite E. repeat case_decide; set_solver.
Qed.

(** What putting a record into the index changes. *)
Lemma insert_record p m :
  let m' := InsertSubscribeRecord p m in
  constraintRecords_ m' = constraintRecords_ m ∪ {[p]} ∧ userListenerMap_ m' = userListenerMap_ m ∧
  objects m' = objects m ∧
  ∀ c, index m' c = if decide (c ∈ set_of p m) then index m c ∪ {[p]} else index m c.
Proof.
  unfold InsertSubscribeRecord. set (m0 := with_records (λ rs, rs ∪ {[p]}) m).
  change (set_of p m0) with (set_of p m).
  assert (G : ∀ cs m, let m' := foldl (λ m c, with_index (λ i, <[c := default ∅ (i !! c) ∪ {[p]}]> i) m) m cs in
    constraintRecords_ m' = constraintRecords_ m ∧ userListenerMap_ m' = userListenerMap_ m ∧ objects m' = objects m ∧
    ∀ c, index m' c = if decide (c ∈ cs) then index m c ∪ {[p]} else index m c).
  { clear. intros cs. induction cs as [|c cs IH]; intros m; simpl; [done|].
    destruct (IH (with_index (λ i, <[c := default ∅ (i !! c) ∪ {[p]}]> i) m)) as (-> & -> & -> & I).
    split_and!; [done..|]. intros d. rewrite I.
    assert (E : index (with_index (λ i, <[c := default ∅ (i !! c) ∪ {[p]}]> i) m) d
      = if decide (d = c) then index m d ∪ {[p]} else index m d).
    { unfold index; simpl. destruct (decide (d = c)) as [->|N]; [by rewrite lookup_insert_eq|by rewrite lookup_insert_ne]. }
    rewrite E. repeat case_decide; set_solver. }
  destruct (G (elements (set_of p m)) m0) as (-> & -> & -> & I). split_and!; [done..|].
  intros c. rewrite I. change (index m0 c) with (index m c). repeat case_decide; set_solver.
Qed.

(** ** Finding records *)

Lemma find_constraint_record_Some m l p :
  find_record l m = Some p → p ∈ constraintRecords_ m ∧ ∃ r, objects m !! p = Some r ∧ eventListener_ r = l.
Proof.
  unfold find_record. intros H%head_Some_elem_of%list_elem_of_filter. destruct H as [H I%elem_of_elements].
  apply fmap_Some in H as (r & ? & ->). split; [done|by exists r].
Qed.

Lemma find_constraint_record_None m l p r : find_record l m = None → record_at m p r → eventListener_ r ≠ l.
Proof.
  unfold find_record. intros H [I E] <-. apply head_None in H.
  assert (p ∈ filter (λ p, eventListener_ <$> objects m !! p = Some (eventListener_ r)) (elements (constraintRecords_ m))) as X
    by (apply list_elem_of_filter; rewrite E; split; [done|by apply elem_of_elements]).
  rewrite H in X. by apply not_elem_of_nil in X.
Qed.

Lemma keeps_find_constraint m s l :
  keeps m s →
  (∃ p cs uid, find_record l m = Some p ∧ wishes s !! l = Some (cs, uid) ∧
     record_at m p {| constraintSet_ := cs; eventListener_ := l; callingUid_ := uid |} ∧ set_of p m = cs) ∨
  (find_record l m = None ∧ wishes s !! l = None).
Proof.
  intros [_ K]. destruct (find_record l m) as [p|] eqn:F.
  - left. destruct (find_constraint_record_Some _ _ _ F) as (I & [cs l' uid] & E & L). simpl in L; subst l'.
    exists p, cs, uid. split_and!; [done|apply K; by exists p|done|]. unfold set_of. by rewrite E.
  - right. split; [done|]. destruct (wishes s !! l) as [[cs uid]|] eqn:E; [|done]. apply K in E as [p E].
    by apply (find_constraint_record_None _ _ _ _ F) in E.
Qed.

(** The address of the record of a listener, or one for it. *)
Definition place (m : SubscribeManager) (l : Listener) (p : nat) : Prop :=
  ∀ q r, record_at m q r → (q = p ↔ eventListener_ r = l).

Lemma found_place m l p r : indexed m → record_at m p r → eventListener_ r = l → place m l p.
Proof.
  intros X R L q t T. split; [intros ->; destruct R, T; by simplify_eq|].
  intros L'. eapply (one_each m X); [done..|congruence].
Qed.

Lemma fresh_place m l : find_record l m = None → place m l (fresh (dom (objects m))).
Proof.
  intros F q t T. split.
  - intros ->. exfalso. apply (is_fresh (dom (objects m))), elem_of_dom. destruct T as [_ E]. by exists t.
  - intros L. by apply (find_constraint_record_None _ _ _ _ F) in T.
Qed.

(** A record is put at an address: [m'] is the manager with the object written. *)
Lemma put_record m m' s p l cs uid :
  indexed m → keeps m s → place m l p →
  objects m' = <[p := {| constraintSet_ := cs; eventListener_ := l; callingUid_ := uid |}]> (objects m) →
  constraintRecords_ m' = constraintRecords_ m → constraint2RecordMap_ m' = constraint2RecordMap_ m →
  indexed (InsertSubscribeRecord p m') ∧
  keeps (InsertSubscribeRecord p m') {| wishes := <[l := (cs, uid)]> (wishes s); users := userListenerMap_ m' |} ∧
  (exact m → (∀ c, p ∈ index m c → c ∈ cs) → exact (InsertSubscribeRecord p m')).
Proof.
  intros X [_ K] P O R I. destruct (insert_record p m') as (R' & U' & O' & I').
  assert (S : set_of p m' = cs) by (unfold set_of; by rewrite O, lookup_insert_eq).
  assert (J : ∀ c, index m' c = index m c) by (intros c; unfold index; by rewrite I).
  assert (A : ∀ q r, record_at (InsertSubscribeRecord p m') q r ↔
    (q = p ∧ r = {| constraintSet_ := cs; eventListener_ := l; callingUid_ := uid |}) ∨ (q ≠ p ∧ record_at m q r)).
  { intros q r. unfold record_at. rewrite R', O', O, R, lookup_insert_Some. set_solver. }
  split_and!.
  - split.
    + intros q. rewrite R', O', O, R. intros Q. destruct (decide (q = p)) as [->|N]; [by rewrite lookup_insert_eq|].
      rewrite lookup_insert_ne by done. apply (records_exist m X). set_solver.
    + intros c q Q. rewrite O', O. destruct (decide (q = p)) as [->|N]; [by rewrite lookup_insert_eq|].
      rewrite lookup_insert_ne by done. apply (index_exists m X c). rewrite I', J in Q. case_decide; set_solver.
    + intros q1 q2 r1 r2 [[-> ->]|[N1 H1]]%A [[-> ->]|[N2 H2]]%A L; simpl in *; [done|..].
      * symmetry. by apply (P _ _ H2).
      * by apply (P _ _ H1).
      * by eapply (one_each m X).
    + intros q r c [[-> ->]|[N H]]%A C; rewrite I', S, J; simpl in *.
      * rewrite decide_True by done. set_solver.
      * assert (q ∈ index m c) by (by eapply (covered m X)). case_decide; set_solver.
  - split; [by rewrite U'|]. intros l' cs' uid'. cbn [wishes]. rewrite lookup_insert_Some. split.
    + intros [[<- [= <- <-]]|[N W]]; [exists p; apply A; by left|]. apply K in W as [q Q]. exists q. apply A. right.
      split; [|done]. intros ->. destruct N. symmetry. by apply (P _ _ Q).
    + intros [q [[-> [= <- <- <-]]|[N Q]]%A]; [by left|]. right. split; [|apply K; by exists q].
      intros ->. apply N. by apply (P _ _ Q).
  - intros E H c q Q. rewrite I', S, J in Q.
    destruct (decide (q = p)) as [->|N].
    + exists {| constraintSet_ := cs; eventListener_ := l; callingUid_ := uid |}. split; [apply A; by left|]. simpl.
      case_decide; [done|by apply H].
    + destruct (E c q) as (r & Hr & C); [case_decide; set_solver|]. exists r. split; [apply A; by right|done].
Qed.

(** Constraints of a record are removed. *)
Lemma drop_constraints m s p l old uid cs :
  indexed m → keeps m s → record_at m p {| constraintSet_ := old; eventListener_ := l; callingUid_ := uid |} →
  let m' := RemoveConstraintFromSubscribeRecord p cs m in
  indexed m' ∧
  keeps m' {| wishes := if decide (old ∖ cs = ∅) then delete l (wishes s) else <[l := (old ∖ cs, uid)]> (wishes s);
              users := users s |} ∧
  (exact m → exact m').
Proof.
  intros X [U K] R m'. pose proof (found_place _ _ _ _ X R eq_refl) as P. simpl in P.
  set (r' := {| constraintSet_ := old ∖ cs; eventListener_ := l; callingUid_ := uid |}).
  destruct (remove_constraints p (elements cs) m) as (R1 & U1 & O1 & I1).
  assert (S1 : set_of p (foldl (remove_constraint p) m (elements cs)) = old ∖ cs).
  { unfold set_of. rewrite O1, lookup_alter_eq. destruct R as [_ ->]. simpl. by rewrite list_to_set_elements_L. }
  set (m1 := foldl (remove_constraint p) m (elements cs)) in *.
  assert (M : m' = if decide (old ∖ cs = ∅) then with_records (λ rs, rs ∖ {[p]}) m1 else m1)
    by (unfold m', RemoveConstraintFromSubscribeRecord; fold m1; by rewrite S1).
  assert (O' : ∀ q, objects m' !! q = if decide (q = p) then Some r' else objects m !! q).
  { intros q. transitivity (objects m1 !! q); [rewrite M; by destruct (decide (old ∖ cs = ∅))|].
    rewrite O1. destruct (decide (q = p)) as [->|N]; [|by rewrite lookup_alter_ne]. rewrite lookup_alter_eq.
    destruct R as [_ ->]. unfold set_minus; simpl. by rewrite list_to_set_elements_L. }
  assert (I' : ∀ c, index m' c = if decide (c ∈ cs) then index m c ∖ {[p]} else index m c).
  { intros c. rewrite <- (decide_ext (c ∈ elements cs) (c ∈ cs)) by set_solver.
    rewrite <- I1, M. by destruct (decide (old ∖ cs = ∅)). }
  assert (R' : constraintRecords_ m' = if decide (old ∖ cs = ∅) then constraintRecords_ m ∖ {[p]} else constraintRecords_ m)
    by (rewrite M, <- R1; by destruct (decide (old ∖ cs = ∅))).
  assert (U' : userListenerMap_ m' = users s) by (rewrite M, <- U, <- U1; by destruct (decide (old ∖ cs = ∅))).
  clear M O1 I1 R1 U1 S1.
  assert (A : ∀ q r, record_at m' q r ↔ (q = p ∧ r = r' ∧ old ∖ cs ≠ ∅) ∨ (q ≠ p ∧ record_at m q r)).
  { intros q r. unfold record_at. rewrite R', O'. destruct R as [Rp _].
    destruct (decide (old ∖ cs = ∅)), (decide (q = p)); split; intros; destruct_and?; destruct_or?; destruct_and?; simplify_eq;
      try (by left); try (right; set_solver); set_solver. }
  split_and!.
  - split.
    + intros q Q. rewrite O'. destruct (decide (q = p)); [by exists r'|]. apply (records_exist m X). rewrite R' in Q. destruct (decide (old ∖ cs = ∅)); set_solver.
    + intros c q Q. rewrite O'. destruct (decide (q = p)); [by exists r'|]. apply (index_exists m X c). rewrite I' in Q. destruct (decide (c ∈ cs)); set_solver.
    + intros q1 q2 r1 r2 [(-> & -> & _)|[N1 H1]]%A [(-> & -> & _)|[N2 H2]]%A L; simpl in *; [done|..].
      * symmetry. by apply (P _ _ H2).
      * by apply (P _ _ H1).
      * by eapply (one_each m X).
    + intros q r c [(-> & -> & _)|[N H]]%A C; rewrite I'; simpl in *.
      * rewrite decide_False by set_solver. apply (covered m X _ _ _ R). set_solver.
      * assert (q ∈ index m c) by (by eapply (covered m X)). destruct (decide (c ∈ cs)); set_solver.
  - split; [done|]. intros l' cs' uid'. cbn [wishes]. split.
    + intros W. destruct (decide (l = l')) as [<-|N].
      * exists p. apply A. left. destruct (decide (old ∖ cs = ∅)) as [D|D]; [by rewrite lookup_delete_eq in W|].
        rewrite lookup_insert_eq in W. by simplify_eq.
      * assert (wishes s !! l' = Some (cs', uid')) as [q Q]%K
          by (destruct (decide (old ∖ cs = ∅)); [by rewrite lookup_delete_ne in W|by rewrite lookup_insert_ne in W]).
        exists q. apply A. right. split; [|done]. intros ->. destruct N. symmetry. by apply (P _ _ Q).
    + intros [q [(-> & [= -> -> ->] & D)|[N Q]]%A].
      * rewrite decide_False by done. by rewrite lookup_insert_eq.
      * assert (wishes s !! l' = Some (cs', uid')) as W by (apply K; by exists q).
        assert (l ≠ l') by (intros ->; apply N; by apply (P _ _ Q)).
        destruct (decide (old ∖ cs = ∅)); [by rewrite lookup_delete_ne|by rewrite lookup_insert_ne].
  - intros E c q Q. rewrite I' in Q. destruct (decide (q = p)) as [->|N].
    + destruct (E c p) as (r & [_ Hr] & C); [destruct (decide (c ∈ cs)); set_solver|]. destruct R as [_ Rp]. simplify_eq. simpl in C.
      destruct (decide (c ∈ cs)) as [D|D]; [set_solver|]. exists r'. split; [apply A; left; set_solver|]. simpl. set_solver.
    + destruct (E c q) as (r & Hr & C); [destruct (decide (c ∈ cs)); set_solver|]. exists r. split; [apply A; by right|done].
Qed.

(** ** Requests *)

Definition good (m : SubscribeManager) (s : Wishes) : Prop := indexed m ∧ keeps m s.

Lemma good_users m s f :
  good m s → good (with_users f m) {| wishes := wishes s; users := f (users s) |} ∧ (exact m → exact (with_users f m)).
Proof.
  intros [[X1 X2 X3 X4] [U K]]. split; [|done]. split; [by split|]. split; [simpl; by rewrite U|done].
Qed.

Lemma eta_wishes s : {| wishes := wishes s; users := users s |} = s.
Proof. by destruct s. Qed.

(** A listener subscribes, with the users as they are by then. *)
Lemma good_subscribe m s uid cs l f :
  good m s →
  let m' := match find_record l m with
            | Some p => InsertSubscribeRecord p (set_constraints p (λ _, cs) m)
            | None => new_record uid cs l (with_users f m)
            end in
  let u' := match wishes s !! l with Some _ => users s | None => f (users s) end in
  good m' {| wishes := wish uid cs l (wishes s); users := u' |} ∧
  (exact m → (∀ old uid, wishes s !! l = Some (old, uid) → old ⊆ cs) → exact m').
Proof.
  intros [X K]. pose proof K as [U _]. unfold wish.
  destruct (keeps_find_constraint m s l K) as [(p & old & uid' & F & W & R & _)|[F W]]; rewrite F, W; cbv zeta.
  - destruct (put_record m (set_constraints p (λ _, cs) m) s p l cs uid' X K) as (X' & K' & E');
      [by apply (found_place _ _ _ _ X R)| |done..|].
    + apply map_eq. intros q. simpl. destruct (decide (q = p)) as [->|N].
      * rewrite lookup_alter_eq, lookup_insert_eq. by destruct R as [_ ->].
      * by rewrite lookup_alter_ne, lookup_insert_ne.
    + simpl in K'. rewrite U in K'. split; [done|]. intros E G. apply E'; [done|]. intros c C.
      destruct (E c p C) as (r & [_ Hr] & Cr). destruct R as [_ Rp]. simplify_eq. simpl in Cr. by apply (G old uid').
  - pose proof (fresh_place m l F) as P. set (p := fresh (dom (objects m))) in *.
    set (m1 := with_objects (insert p {| constraintSet_ := cs; eventListener_ := l; callingUid_ := uid |}) (with_users f m)).
    destruct (put_record m m1 s p l cs uid X K P) as (X' & K' & E'); [done..|].
    simpl in K'. rewrite U in K'. split; [done|]. intros E _. apply E'; [done|]. intros c C. exfalso.
    apply (is_fresh (dom (objects m))), elem_of_dom. by apply (index_exists m X c).
Qed.

(** A listener takes constraints back. *)
Lemma good_take_back m s cs l :
  good m s →
  let m' := (UnsubscribeOsAccountConstraints cs (Some l) m).2 in
  good m' {| wishes := take_back cs l (wishes s); users := users s |} ∧ (exact m → exact m').
Proof.
  intros [X K]. simpl. unfold take_back.
  destruct (keeps_find_constraint m s l K) as [(p & old & uid & F & W & R & S)|[F W]]; rewrite F, W; [|by rewrite eta_wishes].
  rewrite S. destruct (decide (cs ⊆ old)); [|by rewrite eta_wishes].
  destruct (drop_constraints m s p l old uid cs X K R) as (X' & K' & E'). done.
Qed.

Lemma good_serve q m s :
  good m s → good (serve q m) (spec_serve q s) ∧ (exact m → growing q s → exact (serve q m)).
Proof.
  intros G. destruct q as [uid cs l|uid u cs l|cs l|u cs l|l]; simpl.
  - pose proof (good_subscribe m s uid cs l id G) as [G' E']. destruct G as [X K].
    destruct (keeps_find_constraint m s l K) as [(p & old & uid' & F & W & _)|[F W]]; rewrite F, W in *; [done|].
    replace (with_users id m) with m in * by (by destruct m). done.
  - pose proof (good_subscribe m s uid cs l (insert l u) G) as [G' E']. destruct G as [X K].
    destruct (keeps_find_constraint m s l K) as [(p & old & uid' & F & W & _)|[F W]]; rewrite F, W in *; done.
  - destruct (good_take_back m s cs l G) as [G' E']. split; [done|by intros E _; apply E'].
  - destruct (good_users m s (delete l) G) as [G1 E1]. destruct (good_take_back _ _ cs l G1) as [G' E'].
    split; [done|by intros E _; apply E', E1].
  - destruct (good_users m s (delete l) G) as [[X1 K1] E1].
    destruct (keeps_find_constraint _ _ l K1) as [(p & old & uid & F & W & R & S)|[F W]]; rewrite F; simpl in *.
    + rewrite S. destruct (drop_constraints _ _ p l old uid old X1 K1 R) as (X' & K' & E').
      rewrite decide_True in K' by set_solver. simpl in K'. split; [done|by intros E _; apply E', E1].
    + rewrite delete_id by done. split; [done|by intros E _; apply E1].
Qed.

Lemma good_new : good new_manager no_wishes ∧ exact new_manager.
Proof.
  assert (I : ∀ c, index new_manager c = ∅) by (by intros c; unfold index, new_manager; cbn [constraint2RecordMap_]; rewrite lookup_empty).
  assert (R : ∀ p r, ¬ record_at new_manager p r) by (by intros p r [H%elem_of_empty _]).
  split_and!; [split; [split|split]|].
  - by intros p H%elem_of_empty.
  - intros c p. rewrite I. set_solver.
  - intros p q r t H. by apply R in H.
  - intros p r c H. by apply R in H.
  - done.
  - intros l cs uid. unfold no_wishes; cbn [wishes]. split; [by intros H%lookup_empty_Some|intros [p H]; by apply R in H].
  - intros c p. rewrite I. set_solver.
Qed.

Lemma good_serve_all qs m s :
  good m s → good (serve_all qs m) (spec_serve_all qs s) ∧ (exact m → all_growing qs s → exact (serve_all qs m)).
Proof.
  revert m s. induction qs as [|q qs IH]; intros m s G; [done|]. simpl.
  destruct (good_serve q m s G) as [G1 E1]. destruct (IH _ _ G1) as [G' E']. split; [done|].
  intros E [H1 H2]. apply E'; [by apply E1|done].
Qed.

(** ** Publications *)

Lemma records_for_elem cs m p : p ∈ records_for cs m ↔ ∃ c, c ∈ cs ∧ p ∈ index m c.
Proof.
  unfold records_for.
  assert (G : ∀ l (ps : gset nat), p ∈ foldl (λ ps c, match constraint2RecordMap_ m !! c with Some qs => ps ∪ qs | None => ps end) ps l
    ↔ p ∈ ps ∨ ∃ c, c ∈ l ∧ p ∈ index m c).
  { intros l. induction l as [|c l IH]; intros ps; simpl; [set_solver|]. rewrite IH. unfold index.
    destruct (constraint2RecordMap_ m !! c) as [qs|] eqn:E.
    - rewrite elem_of_union. split.
      + intros [[?|?]|(d & ? & ?)]; [by left|right; exists c; rewrite E; set_solver|right; exists d; set_solver].
      + intros [?|(d & [->|?]%elem_of_cons & ?)]; [tauto| |right; by exists d]. rewrite E in *. tauto.
    - split; [intros [?|(d & ? & ?)]; [by left|right; exists d; set_solver]|].
      intros [?|(d & [->|?]%elem_of_cons & ?)]; [tauto| |right; by exists d]. rewrite E in *. set_solver. }
  rewrite G. set_solver.
Qed.

Lemma Publish_elem u cs m l :
  l ∈ Publish u cs m ↔
  may_hear u l (userListenerMap_ m) = true ∧ ∃ p c r, c ∈ cs ∧ p ∈ index m c ∧ objects m !! p = Some r ∧ eventListener_ r = l.
Proof.
  unfold Publish. rewrite list_elem_of_omap. split.
  - intros (p & (c & C & P)%elem_of_elements%records_for_elem & H). destruct (objects m !! p) as [r|] eqn:E; [|done].
    destruct (may_hear _ _ _) eqn:M; [|done]. simplify_eq. split; [done|]. by exists p, c, r.
  - intros (M & p & c & r & C & P & E & <-). exists p. split; [|by rewrite E, M].
    apply elem_of_elements, records_for_elem. by exists c.
Qed.

Lemma NoDup_omap_inj {A B} (f : A → option B) (l : list A) :
  NoDup l → (∀ x y z, x ∈ l → y ∈ l → f x = Some z → f y = Some z → x = y) → NoDup (omap f l).
Proof.
  induction l as [|a l IH]; intros N I; [constructor|]. apply NoDup_cons in N as [Na N]. simpl.
  destruct (f a) as [b|] eqn:E; [|apply IH; [done|set_solver]]. apply NoDup_cons. split; [|apply IH; [done|set_solver]].
  intros (x & Hx & E')%list_elem_of_omap. apply Na. by rewrite (I a x b) by set_solver.
Qed.

(** Who wishes to hear is called. *)
Lemma hears_called m s u cs l : good m s → hears u cs l s → l ∈ Publish u cs m.
Proof.
  intros [X [U V]] (set & uid & [p R]%V & (c & C1 & C2) & M). apply Publish_elem. rewrite U. split; [done|].
  exists p, c, {| constraintSet_ := set; eventListener_ := l; callingUid_ := uid |}.
  split_and!; [done|by apply (covered m X _ _ _ R)|apply R|done].
Qed.

(** C14. Subscribers of constraints are told what they wish to hear: after any requests the
    manager is a map from listeners to constraints, and a change of constraints for a user
    starts a call to each listener that wishes to hear of one of them and is not
    restricted to another user; and, when no listener subscribed again for fewer
    constraints than it had, it starts one call to each of these and none to anybody else. *)
Theorem constraint_changes_reach_the_subscribers (qs : list Request) (u : Z) (cs : gset string) :
  let m := serve_all qs new_manager in
  let s := spec_serve_all qs no_wishes in
  keeps m s ∧
  (∀ l, hears u cs l s → l ∈ Publish u cs m) ∧
  (all_growing qs no_wishes → NoDup (Publish u cs m) ∧ ∀ l, l ∈ Publish u cs m ↔ hears u cs l s).
Proof.
  intros m s. destruct good_new as [G0 E0]. destruct (good_serve_all qs _ _ G0) as [G E]. fold m s in G, E.
  assert (C : ∀ l, hears u cs l s → l ∈ Publish u cs m) by (intros l; by apply hears_called).
  destruct G as [X K]. destruct K as [U V].
  split_and!; [done..|]. intros Gr. specialize (E E0 Gr). split.
  - apply NoDup_omap_inj; [apply NoDup_elements|].
    intros p q z (c & _ & (r & Hr & _)%E)%elem_of_elements%records_for_elem
      (d & _ & (t & Ht & _)%E)%elem_of_elements%records_for_elem Fp Fq.
    pose proof (one_each m X p q r t Hr Ht) as O. destruct Hr as [_ Hr], Ht as [_ Ht].
    rewrite Hr in Fp. rewrite Ht in Fq. repeat case_match; simplify_eq. by apply O.
  - intros l. split; [|apply C]. intros (M & p & c & r & C1 & P & Hr & L)%Publish_elem.
    destruct (E c p P) as (t & Ht & Ct). pose proof Ht as [_ Ht']. rewrite Hr in Ht'. simplify_eq.
    destruct t as [set l uid]; simpl in *. exists set, uid. rewrite <- U. split_and!; [apply V; by exists p| |done].
    by exists c.
Qed.

(** Removing constraints of a record does not keep others in the index from reaching it. *)
Lemma still_told p dropped m u cs c l r :
  c ∈ cs → c ∉ dropped → p ∈ index m c → objects m !! p = Some r → eventListener_ r = l →
  may_hear u l (userListenerMap_ m) = true → l ∈ Publish u cs (RemoveConstraintFromSubscribeRecord p dropped m).
Proof.
  intros C D P E L M. destruct (remove_constraints p (elements dropped) m) as (R1 & U1 & O1 & I1).
  apply Publish_elem. unfold RemoveConstraintFromSubscribeRecord.
  set (m1 := foldl (remove_constraint p) m (elements dropped)) in *.
  assert (A : may_hear u l (userListenerMap_ m1) = true ∧
    ∃ p c r, c ∈ cs ∧ p ∈ index m1 c ∧ objects m1 !! p = Some r ∧ eventListener_ r = l).
  { rewrite U1. split; [done|]. exists p, c, (set_minus (elements dropped) r). split_and!; [done| |by rewrite O1, lookup_alter_eq, E|done].
    rewrite I1. by rewrite decide_False by set_solver. }
  by destruct (decide (set_of p m1 = ∅)).
Qed.

(** A subscription can outlive its end: a listener that had none subscribes to some
    constraints, subscribes again to others and then ends its subscription; it is no longer
    recorded, and yet it is told of every change of the constraints it asked for the first
    time only, of any user, since their entries in the index still hold its record. *)
Theorem dropped_constraints_are_still_told (m : SubscribeManager) (s : Wishes) (uid uid' : Z)
    (cs1 cs2 : gset string) (l : Listener) :
  good m s → wishes s !! l = None →
  let m' := serve_all [Subscribe uid cs1 l; Subscribe uid' cs2 l; UnsubscribeAll l] m in
  (∃ s', good m' s' ∧ wishes s' !! l = None) ∧
  ∀ u cs c, c ∈ cs → c ∈ cs1 → c ∉ cs2 → l ∈ Publish u cs m'.
Proof.
  intros G W m'.
  destruct (good_serve (Subscribe uid cs1 l) m s G) as [G1 _].
  destruct (good_serve (Subscribe uid' cs2 l) _ _ G1) as [G2 _].
  destruct (good_serve (UnsubscribeAll l) _ _ G2) as [G3 _].
  split; [eexists; split; [exact G3|]; apply lookup_delete_eq|].
  assert (W1 : wishes (spec_serve (Subscribe uid cs1 l) s) !! l = Some (cs1, uid))
    by (cbn [spec_serve wishes]; unfold wish; by rewrite lookup_insert_eq, W).
  assert (W2 : wishes (spec_serve (Subscribe uid' cs2 l) (spec_serve (Subscribe uid cs1 l) s)) !! l = Some (cs2, uid))
    by (cbn [spec_serve wishes] in *; unfold wish at 1; by rewrite lookup_insert_eq, W1).
  set (m1 := serve (Subscribe uid cs1 l) m) in *. set (m2 := serve (Subscribe uid' cs2 l) m1) in *.
  destruct G1 as [X1 K1]. destruct G2 as [X2 K2].
  destruct (keeps_find_constraint m1 _ l K1) as [(p & ? & ? & F1 & W1' & R1 & _)|[_ ?]]; [|congruence].
  rewrite W1 in W1'. simplify_eq.
  intros u cs c C C1 C2.
  assert (I1 : p ∈ index m1 c) by (by apply (covered m1 X1 _ _ _ R1)).
  assert (E2 : m2 = InsertSubscribeRecord p (set_constraints p (λ _, cs2) m1)) by (unfold m2; simpl; by rewrite F1).
  destruct (insert_record p (set_constraints p (λ _, cs2) m1)) as (Rs2 & _ & O2 & I2). rewrite <- E2 in Rs2, O2, I2.
  assert (P2 : p ∈ index m2 c) by (rewrite I2; change (index (set_constraints p _ m1) c) with (index m1 c); case_decide; set_solver).
  destruct (keeps_find_constraint m2 _ l K2) as [(p2 & cs' & u' & F2 & W2' & R2 & S2)|[_ ?]]; [|congruence].
  rewrite W2 in W2'. injection W2' as <- <-.
  assert (p2 = p) as ->.
  { eapply (one_each m2 X2); [exact R2| |]; [split; [rewrite Rs2; set_solver|]|].
    - rewrite O2. simpl. rewrite lookup_alter_eq. destruct R1 as [_ ->]. done.
    - done. }
  assert (E3 : m' = RemoveConstraintFromSubscribeRecord p cs2 (with_users (delete l) m2)).
  { change m' with (UnsubscribeOsAccountConstraints_all (Some l) m2).2. unfold UnsubscribeOsAccountConstraints_all. cbv beta iota zeta. change (find_record l (with_users (delete l) m2)) with (find_record l m2). rewrite F2.
    change (set_of p (with_users (delete l) m2)) with (set_of p m2). by rewrite S2. }
  rewrite E3. apply (still_told p cs2 (with_users (delete l) m2) u cs c l
    {| constraintSet_ := cs2; eventListener_ := l; callingUid_ := _ |} C C2 P2 (proj2 R2) eq_refl).
  unfold may_hear; simpl. by rewrite lookup_delete_eq.
Qed.

(** A refused request lifts a restriction: a listener that subscribed for one user only
    hears of that user only; a request of it to take back constraints it never asked for is
    refused with an error, and from then on it hears of every user. *)
Theorem refused_unsubscription_lifts_restriction (m : SubscribeManager) (s : Wishes) (uid u u' : Z)
    (cs bad : gset string) (l : Listener) (c : string) :
  good m s → wishes s !! l = None → c ∈ cs → ¬ bad ⊆ cs →
  let m1 := serve (SubscribeUser uid u cs l) m in
  let '(code, m2) := UnsubscribeOsAccountConstraints_user u bad (Some l) m1 in
  code = ERR_ACCOUNT_COMMON_ACCOUNT_SUBSCRIBE_NOT_FOUND_ERROR ∧
  (l ∈ Publish u' {[c]} m1 ↔ u' = u) ∧ l ∈ Publish u' {[c]} m2.
Proof.
  intros G W C B m1. destruct (good_serve (SubscribeUser uid u cs l) m s G) as [[X K] _].
  fold m1 in X, K. cbn [spec_serve] in K. unfold wish in K. rewrite W in K.
  destruct (keeps_find_constraint m1 _ l K) as [(p & old & uid' & F & W' & R & S)|[_ W']]; cbn [wishes] in W';
    rewrite lookup_insert_eq in W'; [|done]. injection W' as <- <-.
  assert (P : p ∈ index m1 c) by (by apply (covered m1 X _ _ _ R)).
  simpl. change (find_record l (with_users (delete l) m1)) with (find_record l m1). rewrite F.
  change (set_of p (with_users (delete l) m1)) with (set_of p m1). rewrite S, decide_False by done.
  assert (H : ∀ f v, may_hear v l (f (userListenerMap_ m1)) = true → l ∈ Publish v {[c]} (with_users f m1)).
  { intros f v M. apply Publish_elem. split; [done|]. eexists p, c, _. split_and!; [set_solver|exact P|apply R|done]. }
  split_and!; [done|split|].
  - intros [M _]%Publish_elem. destruct K as [U _]. rewrite U in M. cbn [users] in M. unfold may_hear in M.
    rewrite lookup_insert_eq in M. lia.
  - intros ->. replace m1 with (with_users id m1) by (by destruct m1). apply H. destruct K as [U _]. rewrite U.
    cbn [users]. unfold may_hear, id. rewrite lookup_insert_eq. lia.
  - apply H. unfold may_hear. by rewrite lookup_delete_eq.
Qed.

(** ** Retries *)

Definition delivered (code : Z) : bool := (code =? ERR_OK) || (negb (code =? E_IPC_ERROR) && negb (code =? E_IPC_SA_DIED)).

Lemma retry_spec n answer k result :
  let '(k', result') := retry (S n) answer k result in
  (k < k' ≤ k + S n)%nat ∧ (∀ j, (k ≤ j)%nat → (S j < k')%nat → delivered (answer j) = false) ∧
  result' = answer (Nat.pred k') ∧ (delivered result' = true ∨ k' = (k + S n)%nat).
Proof.
  revert k result. induction n as [|n IH]; intros k result.
  - simpl. fold (delivered (answer k)). destruct (delivered (answer k)) eqn:D; split_and!; try lia; try done; try (right; lia); by left.
  - specialize (IH (S k) (answer k)). remember (S n) as n'. simpl. fold (delivered (answer k)).
    destruct (delivered (answer k)) eqn:D; [split_and!; [lia..|done|by left]|].
    destruct (retry n' answer (S k) (answer k)) as [k' r']. destruct IH as (B & F & L1 & L2).
    split_and!; [lia..| |done|destruct L2; [by left|right; lia]].
    intros j J1 J2. destruct (decide (j = k)) as [->|N]; [done|]. apply F; lia.
Qed.

(** A call to a subscriber is repeated only while the subscriber cannot be reached, and at
    most ten times: the calls before the last one could not be delivered, the result is
    the one of the last call, and the tenth call ends the attempt in any case. *)
Theorem calls_to_subscribers_are_bounded (answer : nat → Z) :
  let '(calls, result) := PublishToSubscriber answer in
  (1 ≤ calls ≤ 10)%nat ∧ (∀ j, (S j < calls)%nat → delivered (answer j) = false) ∧
  result = answer (Nat.pred calls) ∧ (delivered result = true ∨ calls = 10%nat).
Proof.
  unfold PublishToSubscriber, MAX_RETRY_TIMES. pose proof (retry_spec 9 answer 0 ERR_OK) as H.
  destruct (retry 10 answer 0 ERR_OK) as [k r]. destruct H as (B & F & L1 & L2).
  split_and!; [lia..| |done|destruct L2; [by left|right; lia]]. intros j J. apply F; lia.
Qed.

(** ** The theorems at work *)

Definition wifi : string := "constraint.wifi".
Definition sms : string := "constraint.sms.use".

Lemma constraint_changes_reach_the_subscribers_witness :
  let qs := [SubscribeUser 20000010 100 {[wifi]} 5; Subscribe 1000 {[wifi]} 6; Subscribe 1000 {[wifi; sms]} 6] in
  all_growing qs no_wishes ∧ NoDup (Publish 101 {[wifi]} (serve_all qs new_manager)) ∧
  Publish 101 {[wifi]} (serve_all qs new_manager) = [6].
Proof.
  intros qs. assert (G : all_growing qs no_wishes).
  { cbn [all_growing growing qs]. split_and!; [intros old uid H; by vm_compute in H| | |done].
    - intros old uid H. by vm_compute in H.
    - intros old uid H. assert (E : wishes (spec_serve (Subscribe 1000 {[wifi]} 6) (spec_serve (SubscribeUser 20000010 100 {[wifi]} 5) no_wishes)) !! (6 : Listener)
        = Some ({[wifi]}, 1000)) by (by vm_compute). rewrite E in H. simplify_eq. set_solver. }
  split_and!; [done| |by vm_compute].
  by apply (proj2 (proj2 (constraint_changes_reach_the_subscribers qs 101 {[wifi]})) G).
Defined.

Lemma dropped_constraints_are_still_told_witness :
  good new_manager no_wishes ∧
  (5 : Listener) ∈ Publish 100 {[wifi]} (serve_all [Subscribe 1000 {[wifi]} 5; Subscribe 1000 {[sms]} 5; UnsubscribeAll 5] new_manager).
Proof.
  split; [apply good_new|].
  apply (proj2 (dropped_constraints_are_still_told new_manager no_wishes 1000 1000 {[wifi]} {[sms]} 5
    (proj1 good_new) eq_refl) 100 {[wifi]} wifi); [set_solver..|]. by vm_compute.
Defined.

Lemma refused_unsubscription_lifts_restriction_witness :
  good new_manager no_wishes ∧
  let '(code, m2) := UnsubscribeOsAccountConstraints_user 100 {[sms]} (Some 5)
    (serve (SubscribeUser 20000010 100 {[wifi]} 5) new_manager) in
  code = ERR_ACCOUNT_COMMON_ACCOUNT_SUBSCRIBE_NOT_FOUND_ERROR ∧
  ((5 : Listener) ∈ Publish 101 {[wifi]} (serve (SubscribeUser 20000010 100 {[wifi]} 5) new_manager) ↔ 101 = 100) ∧
  (5 : Listener) ∈ Publish 101 {[wifi]} m2.
Proof.
  split; [apply good_new|].
  apply (refused_unsubscription_lifts_restriction new_manager no_wishes 20000010 100 101 {[wifi]} {[sms]} 5 wifi
    (proj1 good_new) eq_refl); [set_solver|]. intros H.
  by assert (sms ∈ ({[wifi]} : gset string)) as [=]%elem_of_singleton by set_solver.
Defined.
