(* ===== verification/AccountPermission.v ===== *)
(** Who calls: the checks of account_permission_manager.cpp on the caller of a request.

    The identity of the caller and the answers about its tokens come from the system's
    interprocess and access token libraries; one instance of [Ipc] is one caller, whose
    identity and permissions do not change while its request is served. *)
From Stdlib Require Import ZArith Lia Ascii String.
From stdpp Require Import base list strings.
From S2P Require Import Prelude ErrorCodes AppIndex.

(** The kinds of tokens of the access token library. *)
Inductive ATokenTypeEnum := TOKEN_TYPE_INVALID | TOKEN_TYPE_HAP | TOKEN_TYPE_NATIVE | TOKEN_TYPE_SHELL.

#[export] Instance ATokenTypeEnum_eq_dec : EqDecision ATokenTypeEnum.
Proof. solve_decision. Defined.

(** [IPCSkeleton], [AccessTokenKit] and [TokenIdKit]; [VerifyAccessToken] says whether the
    answer is another one than [PERMISSION_DENIED]. *)
Class Ipc := {
  GetCallingUid : Z;
  GetCallingPid : Z;
  GetCallingTokenID : Z;
  GetCallingFullTokenID : Z;
  GetSelfTokenID : Z;
  VerifyAccessToken : Z → string → bool;
  GetTokenTypeFlag : Z → ATokenTypeEnum;
  IsSystemAppByFullTokenID : Z → bool;
  (** an error code of the interprocess library *)
  IPC_STUB_WRITE_PARCEL_ERR : Z;
}.

Definition TOKEN_ID_LOWMASK : Z := 4294967295.

Section Permission.
Context {ipc : Ipc}.

(** [AccountPermissionManager::VerifyPermission], account_permission_manager.cpp *)
Definition VerifyPermission (permissionName : string) : Z :=
  if VerifyAccessToken GetCallingTokenID permissionName then ERR_OK else ERR_ACCOUNT_COMMON_PERMISSION_DENIED.

(** [AccountPermissionManager::VerifyPermission]#2, account_permission_manager.cpp *)
Definition VerifyPermission_token (tokenId : Z) (permissionName : string) : Z :=
  if VerifyAccessToken tokenId permissionName then ERR_OK else ERR_ACCOUNT_COMMON_PERMISSION_DENIED.

(** [AccountPermissionManager::CheckSystemApp], account_permission_manager.cpp *)
Definition CheckSystemApp (isCallStub : bool) : Z :=
  let fullTokenId := if isCallStub then GetCallingFullTokenID else GetSelfTokenID in
  let tokenId := Z.land fullTokenId TOKEN_ID_LOWMASK in
  if bool_decide (GetTokenTypeFlag tokenId = TOKEN_TYPE_HAP) && negb (IsSystemAppByFullTokenID fullTokenId)
  then ERR_ACCOUNT_COMMON_NOT_SYSTEM_APP_ERROR else ERR_OK.

(** [AccountPermissionManager::CheckSaCall], account_permission_manager.cpp *)
Definition CheckSaCall : bool := bool_decide (GetTokenTypeFlag GetCallingTokenID = TOKEN_TYPE_NATIVE).

(** [AccountPermissionManager::CheckShellCall], account_permission_manager.cpp *)
Definition CheckShellCall : bool := bool_decide (GetTokenTypeFlag GetCallingTokenID = TOKEN_TYPE_SHELL).

(** [AccountPermissionManager::IsHapCall], account_permission_manager.cpp *)
Definition IsHapCall : bool := bool_decide (GetTokenTypeFlag GetCallingTokenID = TOKEN_TYPE_HAP).

(** The account of the caller: [IPCSkeleton::GetCallingUid() / UID_TRANSFORM_DIVISOR]. *)
Definition callerUserId : Z := Z.quot GetCallingUid UID_TRANSFORM_DIVISOR.

Lemma VerifyPermission_ok p : VerifyPermission p = ERR_OK ↔ VerifyAccessToken GetCallingTokenID p = true.
Proof. unfold VerifyPermission. by destruct (VerifyAccessToken _ _). Qed.

(** Only an application that is not a system application fails the check. *)
Lemma CheckSystemApp_ok b :
  CheckSystemApp b = ERR_OK ∨ CheckSystemApp b = ERR_ACCOUNT_COMMON_NOT_SYSTEM_APP_ERROR ∧
    GetTokenTypeFlag (Z.land (if b then GetCallingFullTokenID else GetSelfTokenID) TOKEN_ID_LOWMASK) = TOKEN_TYPE_HAP.
Proof. unfold CheckSystemApp. case_bool_decide; [|by left]. simpl.
  destruct (negb _); [by right|by left]. Qed.
End Permission.
