(* ===== verification/OsAccountService.v ===== *)
(** The front end of the service of operating system accounts
    (os_account_manager_service.cpp): what each request checks of its caller and of its
    arguments before it reaches the manager, and the two managers of subscriptions.

    A request is served for one caller, an instance of [Ipc].  The state is the manager of
    accounts, the two managers of subscriptions, and the calls made to subscribers: what
    the manager announces is published to the subscribers of states, and changes of
    constraints are published here.  Functions are named as in the code; the variants of an
    overloaded one by what they take or give.  Those that only put the answer of another one
    into a raw parcel give the text they write. *)
From Stdlib Require Import ZArith Lia Ascii String.
From stdpp Require Import base list gmap sets strings pretty sorting.
From S2P Require Import Prelude ErrorCodes Json FileStore OsAccountInfo OsAccountEnv OsAccountFiles OsAccountConstraints AppIndex OsAccountServices OsAccountInterface OsAccountManager OsAccountCreation OsAccountQueries OsAccountSubscribe OsAccountConstraintSubscribe AccountPermission.

Definition MANAGE_LOCAL_ACCOUNTS : string := "ohos.permission.MANAGE_LOCAL_ACCOUNTS".
Definition GET_LOCAL_ACCOUNTS : string := "ohos.permission.GET_LOCAL_ACCOUNTS".
Definition GET_LOCAL_ACCOUNTS_IDENTIFIERS : string := "ohos.permission.GET_LOCAL_ACCOUNT_IDENTIFIERS".
Definition INTERACT_ACROSS_LOCAL_ACCOUNTS_EXTENSION : string := "ohos.permission.INTERACT_ACROSS_LOCAL_ACCOUNTS_EXTENSION".
Definition INTERACT_ACROSS_LOCAL_ACCOUNTS : string := "ohos.permission.INTERACT_ACROSS_LOCAL_ACCOUNTS".
Definition GET_LOCAL_ACCOUNT_IDENTIFIERS : string := "ohos.permission.GET_LOCAL_ACCOUNT_IDENTIFIERS".
Definition GET_DOMAIN_ACCOUNTS : string := "ohos.permission.GET_DOMAIN_ACCOUNTS".
Definition MANAGE_EDM_POLICY : string := "ohos.permission.MANAGE_EDM_POLICY".
Definition CONSTANT_CREATE : string := "constraint.os.account.create".
Definition CONSTANT_CREATE_DIRECTLY : string := "constraint.os.account.create.directly".
Definition CONSTANT_REMOVE : string := "constraint.os.account.remove".
Definition CONSTANT_ACTIVATE : string := "constraint.os.account.activate".
Definition CONSTANT_SET_ICON : string := "constraint.os.account.set.icon".
Definition CONSTANT_SET_TYPE : string := "constraint.os.account.set.type".
Definition MANAGE_LOCAL_ACCOUNT_PRIVILEGE_NAME : string := "ohos.privilege.manage_local_accounts".
Definition ROOT_UID : Z := 0.
Definition EDM_UID : Z := 3057.
Definition MAINTENANCE_UID : Z := 4444.
Definition SPACE_MGR_UID : Z := 7013.
Definition SPECIAL_CHARACTER_ARRAY : list ascii := ["<"; ">"; "|"; "034"; ":"; "*"; "?"; "/"; "\"]%char.
Definition SHORT_NAME_CANNOT_BE_NAME_ARRAY : list string := ["."; ".."].
Definition SHORT_NAME_MAX_SIZE : Z := 255.
Definition LOCAL_PHOTO_MAX_SIZE : Z := 1048576.
Definition CONSTRAINT_MAX_SIZE : Z := 128.
Definition MAX_TOKEN_SIZE : Z := 1148.
Definition IPC_WRITE_RAW_DATA_MAX_SIZE : Z := 134217728.
Definition MAIN_OS_ACCOUNT_LOCAL_ID : Z := 100.

(** The preprocessor switches of the front end. *)
Class ServiceSwitches := {
  IS_RELEASE_VERSION : bool;
  ENABLE_ACCOUNT_SHORT_NAME : bool;
}.

(** The other parts of the repository the front end calls: the tokens of
    inner_authorization_manager.cpp, for a token, a privilege and a process; and of
    inner_domain_account_manager.cpp the name of a domain and the identity of its server for
    an account name and a configuration, and the start of the thread that binds an
    account. *)
Class ServiceParts (W : Type) := {
  VerifyToken : list Z → string → Z → M W unit;
  GetAccountServerConfig : string → string → M W (string * string);
  StartBindDomainAccount : Z → DomainAccountInfo → W → unit * W;
}.

Definition size_of (s : string) : Z := Z.of_nat (String.length s).

(** [std::string::find_first_of] finds one of the characters. *)
Fixpoint has_one_of (chars : list ascii) (s : string) : bool :=
  match s with
  | EmptyString => false
  | String a s' => existsb (Ascii.eqb a) chars || has_one_of chars s'
  end.

(** The state behind the front end. *)
Record Service (W : Type) := mkService {
  inner : Manager W;
  subscribers : Subscriptions.Manager;
  constraint_subscribers : SubscribeManager;
  state_calls : list Subscriptions.Call;                              (* calls to subscribers of states *)
  constraint_calls : list (Z * gset string * bool * list Listener);   (* publications of constraints *)
}.
#[global] Arguments mkService {W}.
#[global] Arguments inner {W}.
#[global] Arguments subscribers {W}.
#[global] Arguments constraint_subscribers {W}.
#[global] Arguments state_calls {W}.
#[global] Arguments constraint_calls {W}.

(** What the manager announced to subscribers, published to them one after the other. *)
Fixpoint publish_events (es : list Event) (m : Subscriptions.Manager) : list Subscriptions.Call * Subscriptions.Manager :=
  match es with
  | [] => ([], m)
  | OsAccountServices.Publish from state to display :: es =>
      let b := Subscriptions.PublishToAllSubscribers
        {| Subscriptions.n_from := from; Subscriptions.n_state := state; Subscriptions.n_to := to;
           Subscriptions.n_display := display |} m in
      let '(cs, m) := publish_events es (Subscriptions.manager b) in
      (Subscriptions.calls b ++ cs, m)
  | _ :: es => publish_events es m
  end.

Section Lift.
Context {W : Type}.
Local Abbreviation S := (Service W).

(** A call of the manager of accounts: what it adds to its log is published. *)
Definition innerManager_ {A} (f : M (Manager W) A) : M S A :=
  λ s, let '(r, m) := f (inner s) in
       let '(cs, subs) := publish_events (drop (length (events (inner s))) (events m)) (subscribers s) in
       (r, {| inner := m; subscribers := subs; constraint_subscribers := constraint_subscribers s;
              state_calls := state_calls s ++ cs; constraint_calls := constraint_calls s |}).

(** A call of the manager of subscriptions to states. *)
Definition subscribeManager_ (f : Subscriptions.Manager → Z * Subscriptions.Manager) : M S unit :=
  λ s, let '(e, subs) := f (subscribers s) in
       (if e =? ERR_OK then Ok tt else Err e,
        {| inner := inner s; subscribers := subs; constraint_subscribers := constraint_subscribers s;
           state_calls := state_calls s; constraint_calls := constraint_calls s |}).

(** A call of the manager of subscriptions to constraints. *)
Definition constraintManger_ (f : SubscribeManager → Z * SubscribeManager) : M S unit :=
  λ s, let '(e, subs) := f (constraint_subscribers s) in
       (if e =? ERR_OK then Ok tt else Err e,
        {| inner := inner s; subscribers := subscribers s; constraint_subscribers := subs;
           state_calls := state_calls s; constraint_calls := constraint_calls s |}).

(** A change of constraints is published.

    [OsAccountConstraintManager::Publish], os_account_constraint_manager.cpp *)
Definition publish_constraints (localId : Z) (constraints : gset string) (enable : bool) : M S unit :=
  mmodify (λ s, {| inner := inner s; subscribers := subscribers s; constraint_subscribers := constraint_subscribers s;
                   state_calls := state_calls s;
                   constraint_calls := constraint_calls s ++
                     [(localId, constraints, enable,
                       OsAccountConstraintSubscribe.Publish localId constraints (constraint_subscribers s))] |}).

(** [a || b] and [a && b] of checks. *)
Definition either (a b : M S bool) : M S bool := x ← a; if x : bool then mret true else b.
Definition both (a b : M S bool) : M S bool := x ← a; if x : bool then b else mret false.

(** A check whose failure ends the request with an error. *)
Definition require (a : M S bool) (e : Z) : M S unit := x ← a; if x : bool then mret tt else merr e.

(** An error code. *)
Definition expect_ok (e : Z) : M S unit := if e =? ERR_OK then mret tt else merr e.
End Lift.

(** ** Checks of arguments *)

(** [CheckLocalId], os_account_manager_service.cpp *)
Definition CheckLocalId (localId : Z) : Z :=
  if localId <? 0 then ERR_ACCOUNT_COMMON_ACCOUNT_NOT_EXIST_ERROR else ERR_OK.

(** [CheckOsAccountConstraint], os_account_manager_service.cpp *)
Definition CheckOsAccountConstraint (constraint : string) : Z :=
  if string_empty constraint || (CONSTRAINT_MAX_SIZE <? size_of constraint)
  then ERR_ACCOUNT_COMMON_INVALID_PARAMETER else ERR_OK.

(** [OsAccountManagerService::ValidateShortName], os_account_manager_service.cpp *)
Definition ValidateShortName (shortName : string) : Z :=
  if (size_of shortName =? 0) || (SHORT_NAME_MAX_SIZE <? size_of shortName) then ERR_ACCOUNT_COMMON_INVALID_PARAMETER
  else if has_one_of SPECIAL_CHARACTER_ARRAY shortName then ERR_ACCOUNT_COMMON_INVALID_PARAMETER
  else if bool_decide (shortName ∈ SHORT_NAME_CANNOT_BE_NAME_ARRAY) then ERR_ACCOUNT_COMMON_INVALID_PARAMETER
  else ERR_OK.

(** [OsAccountManagerService::ValidateLocalIdRange], os_account_manager_service.cpp *)
Definition ValidateLocalIdRange (localId : option Z) : Z :=
  match localId with
  | None => ERR_OK
  | Some specifiedId =>
      if (specifiedId <? START_USER_ID) || (MAX_CREATABLE_USER_ID <? specifiedId)
      then ERR_ACCOUNT_COMMON_INVALID_PARAMETER else ERR_OK
  end.

(** [AnonymizeNameStr], os_account_manager_service.cpp *)
Definition AnonymizeNameStr (nameStr : string) : string :=
  if string_empty nameStr then nameStr else substr 0 1 nameStr +:+ "**********".

(** ** The service *)

Module OsAccountManagerService.
Section Operations.
Context {W : Type} {sw : OsSwitches} {ssw : ServiceSwitches} {cfg : Config} {oscfg : OsConfig} {sysconf : Sysconf}.
Context {cjson : CJsonLib} {fs : FileStore W}.
Context {ams : AbilityManager W} {bms : BundleManager W} {storage : StorageManager W} {idm : UserIdm W}.
Context {tee : TeeAdapter W} {displays : Displays W} {parts : AccountParts W} {control : OsAccountControl W}.
Context {sparts : ServiceParts W} {ipc : Ipc}.
Local Abbreviation S := (Service W).

(** [IsTypeOutOfRange], os_account_manager_service.cpp:122-142 *)
Definition IsTypeOutOfRange (type : Z) : bool :=
  let type := u32 type in
  if type =? MAINTENANCE then
    if IS_RELEASE_VERSION then negb CheckSaCall else negb CheckSaCall && negb CheckShellCall
  else if (type <? ADMIN) || (END <=? type) then true
  else if (GUEST <? type) && (type <? PRIVATE) then true
  else false.

(** *** Checks of the caller *)

(** [CheckSystemApp] at the start of a request. *)
Definition system_app : M S unit := expect_ok (CheckSystemApp true).

(** Root may do anything outside of release versions.  A constraint that cannot be read
    counts as not enabled.

    [OsAccountManagerService::PermissionCheck], os_account_manager_service.cpp *)
Definition PermissionCheck (permissionName constraintName : string) : M S bool :=
  if negb IS_RELEASE_VERSION && (GetCallingUid =? ROOT_UID) then mret true
  else
    isEnable ← (if string_empty constraintName then mret false
                else
                  r ← mtry (innerManager_ (IsOsAccountConstraintEnable callerUserId constraintName));
                  mret (match r with Ok b => b | Err _ => false end));
    if isEnable : bool then mret false
    else mret (string_empty permissionName || (VerifyPermission permissionName =? ERR_OK)).

(** A request needs the permission. *)
Definition permission (permissionName constraintName : string) : M S unit :=
  require (PermissionCheck permissionName constraintName) ERR_ACCOUNT_COMMON_PERMISSION_DENIED.

(** A request needs one of two permissions. *)
Definition permission_either (p q : string) : M S unit :=
  require (either (PermissionCheck p "") (PermissionCheck q "")) ERR_ACCOUNT_COMMON_PERMISSION_DENIED.

(** [OsAccountManagerService::CheckCreateOsAccountWhiteList], os_account_manager_service.cpp *)
Definition CheckCreateOsAccountWhiteList : bool := u32 GetCallingUid =? EDM_UID.

(** A caller without a token passes only by its uid; what it gives says whether the
    request is one of device management.

    [OsAccountManagerService::PrivilegeCheck], os_account_manager_service.cpp *)
Definition PrivilegeCheck (token : option (list Z)) (privilegeName : string) (bypassStrategy : list (Z * result bool)) : M S bool :=
  match token with
  | None =>
      match init_list_find GetCallingUid bypassStrategy with
      | Some (Ok isEdmCalling) => mret isEdmCalling
      | Some (Err e) => merr e
      | None => merr ERR_JS_AUTHORIZATION_DENIED
      end
  | Some token => _ ← innerManager_ (call (VerifyToken token privilegeName GetCallingPid)); mret false
  end.

(** [GenerateEdmStrategy], os_account_manager_service.cpp *)
Definition GenerateEdmStrategy : result bool := Ok true.

(** [GenMaintenaceStrategy], os_account_manager_service.cpp *)
Definition GenMaintenaceStrategy (localId : Z) : result bool :=
  if negb (localId =? MAINTENANCE_MODE_ID) then Err ERR_JS_AUTHORIZATION_DENIED else Ok false.

(** [ValidateToken], os_account_manager_service.cpp *)
Definition ValidateToken (token : option (list Z)) : M S unit :=
  if SUPPORT_AUTHORIZATION then
    match token with
    | None => merr ERR_AUTHORIZATION_PRIVILEGE_DENIED
    | Some token =>
        if (Z.of_nat (length token) =? 0) || (MAX_TOKEN_SIZE <? Z.of_nat (length token))
        then merr ERR_ACCOUNT_COMMON_INVALID_PARAMETER
        else innerManager_ (call (VerifyToken token MANAGE_LOCAL_ACCOUNT_PRIVILEGE_NAME GetCallingPid))
    end
  else match token with Some _ => merr ERR_ACCOUNT_COMMON_INVALID_PARAMETER | None => mret tt end.

(** [OsAccountManagerService::CheckLocalIdRestricted], os_account_manager_service.cpp *)
Definition CheckLocalIdRestricted (localId : Z) : M S unit :=
  if localId =? ADMIN_LOCAL_ID then merr ERR_OSACCOUNT_SERVICE_MANAGER_ID_ERROR
  else if START_USER_ID <=? localId then mret tt
  else
    hasAccount ← innerManager_ (IsOsAccountExists localId);
    if hasAccount : bool then merr ERR_OSACCOUNT_SERVICE_MANAGER_ID_ERROR
    else merr ERR_ACCOUNT_COMMON_ACCOUNT_NOT_EXIST_ERROR.

(** A request changes an account of the users. *)
Definition user_account (id : Z) : M S unit := _ ← expect_ok (CheckLocalId id); CheckLocalIdRestricted id.

(** *** Domain information *)

(** The object of the caller is changed only when everything was found.

    [OsAccountManagerService::GetDomainInfo], os_account_manager_service.cpp *)
Definition GetDomainInfo (osAccountInfo : OsAccountInfo) (isQueryAdditionalInfo : bool) : M S OsAccountInfo :=
  if negb (isCreateCompleted_ osAccountInfo) || toBeRemoved_ osAccountInfo then mret osAccountInfo
  else
    let info := domainInfo_ osAccountInfo in
    if string_empty (accountName_ info) || string_empty (serverConfigId_ info) then mret osAccountInfo
    else
      '(domain, id) ← innerManager_ (call (GetAccountServerConfig (accountName_ info) (serverConfigId_ info)));
      let info := {| info with domain_ := domain; serverConfigId_ := id |} in
      info ← (if isQueryAdditionalInfo then
                additionalInfo ← innerManager_ (call (GetDomainAccountInfo info));
                mret {| info with additionInfo_ := additionInfo_ additionalInfo |}
              else mret info);
      mret {| osAccountInfo with domainInfo_ := info |}.

(** A failure is only reported. *)
Definition with_domain_info (osAccountInfo : OsAccountInfo) (isQueryAdditionalInfo : bool) : M S OsAccountInfo :=
  if SUPPORT_DOMAIN_ACCOUNTS then
    r ← mtry (GetDomainInfo osAccountInfo isQueryAdditionalInfo);
    mret (match r with Ok info => info | Err _ => osAccountInfo end)
  else mret osAccountInfo.

(** *** Creation *)

(** [OsAccountManagerService::IsMultiOsAccountEnable], os_account_manager_service.cpp *)
Definition IsMultiOsAccountEnable : M S bool := innerManager_ OsAccountQueries.IsMultiOsAccountEnable.

(** A query that fails counts as "not enabled". *)
Definition multi_enabled : M S unit :=
  r ← mtry IsMultiOsAccountEnable;
  match r with
  | Ok true => mret tt
  | _ => merr ERR_OSACCOUNT_SERVICE_MANAGER_NOT_ENABLE_MULTI_ERROR
  end.

(** Where the device does not allow it, no administrator is made. *)
Definition admin_allowed (type : Z) : M S unit :=
  isAllowedCreateAdmin ← innerManager_ (call IsAllowedCreateAdmin);
  if negb isAllowedCreateAdmin && (type =? ADMIN)
  then merr ERR_OSACCOUNT_SERVICE_MANAGER_CREATE_OSACCOUNT_TYPE_ERROR else mret tt.

(** The device management service may create accounts without the permission.

    [OsAccountManagerService::ValidateAccountCreateParamAndPermission], os_account_manager_service.cpp *)
Definition ValidateAccountCreateParamAndPermission (localName : string) (type : Z) : M S unit :=
  _ ← (if CheckCreateOsAccountWhiteList then mret tt
       else require (both (PermissionCheck "" CONSTANT_CREATE_DIRECTLY) (PermissionCheck MANAGE_LOCAL_ACCOUNTS CONSTANT_CREATE))
              ERR_ACCOUNT_COMMON_PERMISSION_DENIED);
  _ ← multi_enabled;
  if (size_of localName =? 0) || (LOCAL_NAME_MAX_SIZE <=? size_of localName) then merr ERR_ACCOUNT_COMMON_INVALID_PARAMETER
  else if IsTypeOutOfRange type then merr ERR_ACCOUNT_COMMON_INVALID_PARAMETER
  else admin_allowed type.

(** A token is only known to builds with authorization. *)
Definition no_token (token : option (list Z)) : M S unit :=
  match token with Some _ => merr ERR_ACCOUNT_COMMON_INVALID_PARAMETER | None => mret tt end.

(** The callers that may create or remove accounts without a token. *)
Definition edm_callers : list (Z * result bool) := [(EDM_UID, GenerateEdmStrategy); (SPACE_MGR_UID, GenerateEdmStrategy)].

(** [OsAccountManagerService::CreateOsAccount]#1, os_account_manager_service.cpp *)
Definition CreateOsAccount (name : string) (type : Z) : M S unit :=
  _ ← ValidateAccountCreateParamAndPermission name type;
  if SUPPORT_AUTHORIZATION then
    edm ← PrivilegeCheck None MANAGE_LOCAL_ACCOUNT_PRIVILEGE_NAME edm_callers;
    innerManager_ (CreateOsAccountWithOptions name "" type OsAccountInfo_new
      {| CreateOsAccountOptions_new with isEdmCalling := edm |})
  else innerManager_ (OsAccountCreation.CreateOsAccount name type OsAccountInfo_new).

(** [OsAccountManagerService::CreateOsAccount]#2, os_account_manager_service.cpp *)
Definition CreateOsAccount_raw (name : string) (typeValue : Z) : M S unit :=
  _ ← system_app; CreateOsAccount name typeValue.

(** The first account is given its names by the first creation, where it has none.

    [OsAccountManagerService::CreateOsAccount]#3, os_account_manager_service.cpp:305-325 *)
Definition name_first_account (localName shortName : string) (type : Z) : M S bool :=
  r ← mtry (innerManager_ (real_account START_USER_ID ERR_ACCOUNT_COMMON_ACCOUNT_NOT_EXIST_ERROR));
  match r with
  | Err _ => merr ERR_ACCOUNT_COMMON_ACCOUNT_NOT_EXIST_ERROR
  | Ok accountInfoOld =>
      if string_empty (shortName_ accountInfoOld) && string_empty (accountName_ (domainInfo_ accountInfoOld)) then
        _ ← permission MANAGE_LOCAL_ACCOUNTS "";
        _ ← innerManager_ (call (UpdateOsAccount
              {| accountInfoOld with type_ := type; localName_ := localName; shortName_ := shortName |}));
        mret true
      else mret false
  end.

(** [hasShortName] is the field of the options that only this file reads.

    [OsAccountManagerService::CreateOsAccount]#3, os_account_manager_service.cpp *)
Definition CreateOsAccount_options (localName shortName : string) (type : Z) (options : CreateOsAccountOptions)
    (hasShortName : bool) : M S unit :=
  named ← (if ENABLE_ACCOUNT_SHORT_NAME then name_first_account localName shortName type else mret false);
  if named : bool then mret tt
  else
    _ ← ValidateAccountCreateParamAndPermission localName type;
    _ ← expect_ok (ValidateLocalIdRange (option_localId options));
    _ ← (if hasShortName then expect_ok (ValidateShortName shortName) else mret tt);
    if SUPPORT_AUTHORIZATION then
      edm ← PrivilegeCheck (token options) MANAGE_LOCAL_ACCOUNT_PRIVILEGE_NAME edm_callers;
      innerManager_ (CreateOsAccountWithOptions localName shortName type OsAccountInfo_new
        (if edm : bool then {| options with isEdmCalling := true |} else options))
    else
      _ ← no_token (token options);
      innerManager_ (CreateOsAccountWithOptions localName shortName type OsAccountInfo_new options).

(** [OsAccountManagerService::CreateOsAccount]#5, os_account_manager_service.cpp *)
Definition CreateOsAccount_options_raw (localName shortName : string) (typeValue : Z) (options : CreateOsAccountOptions)
    (hasShortName : bool) : M S unit :=
  _ ← system_app; CreateOsAccount_options localName shortName typeValue options hasShortName.

(** [OsAccountManagerService::CreateOsAccount]#4, os_account_manager_service.cpp *)
Definition CreateOsAccount_names (localName shortName : string) (typeValue : Z) : M S unit :=
  CreateOsAccount_options_raw localName shortName typeValue CreateOsAccountOptions_new false.

(** [OsAccountManagerService::CreateOsAccountWithFullInfo]#2, os_account_manager_service.cpp *)
Definition CreateOsAccountWithFullInfo (osAccountInfo : OsAccountInfo) (options : CreateOsAccountOptions) : M S unit :=
  match ParamCheck osAccountInfo with
  | Err e => merr e
  | Ok _ =>
      _ ← system_app;
      _ ← multi_enabled;
      _ ← require (both (PermissionCheck MANAGE_LOCAL_ACCOUNTS CONSTANT_CREATE) (PermissionCheck "" CONSTANT_CREATE_DIRECTLY))
            ERR_ACCOUNT_COMMON_PERMISSION_DENIED;
      _ ← admin_allowed (type_ osAccountInfo);
      _ ← (if SUPPORT_AUTHORIZATION then
             _ ← PrivilegeCheck (token options) MANAGE_LOCAL_ACCOUNT_PRIVILEGE_NAME
                   [(MAINTENANCE_UID, GenMaintenaceStrategy (localId_ osAccountInfo))]; mret tt
           else no_token (token options));
      innerManager_ (OsAccountCreation.CreateOsAccountWithFullInfo osAccountInfo options)
  end.

(** [OsAccountManagerService::UpdateOsAccountWithFullInfo], os_account_manager_service.cpp *)
Definition UpdateOsAccountWithFullInfo (osAccountInfo : OsAccountInfo) : M S unit :=
  match ParamCheck osAccountInfo with
  | Err e => merr e
  | Ok _ =>
      _ ← system_app;
      _ ← permission MANAGE_LOCAL_ACCOUNTS "";
      _ ← admin_allowed (type_ osAccountInfo);
      if SUPPORT_AUTHORIZATION then merr ERR_AUTHORIZATION_PRIVILEGE_DENIED
      else innerManager_ (OsAccountQueries.UpdateOsAccountWithFullInfo osAccountInfo)
  end.

(** *** Removal *)

(** [OsAccountManagerService::RemoveOsAccountCommon], os_account_manager_service.cpp *)
Definition RemoveOsAccountCommon (id : Z) : M S unit :=
  _ ← system_app;
  _ ← expect_ok (CheckLocalId id);
  if id =? START_USER_ID then merr ERR_OSACCOUNT_SERVICE_MANAGER_ID_ERROR
  else
    _ ← CheckLocalIdRestricted id;
    permission MANAGE_LOCAL_ACCOUNTS CONSTANT_REMOVE.

Definition removal_callers (id : Z) : list (Z * result bool) :=
  [(SPACE_MGR_UID, GenerateEdmStrategy); (MAINTENANCE_UID, GenMaintenaceStrategy id)].

(** [OsAccountManagerService::RemoveOsAccount]#2, os_account_manager_service.cpp *)
Definition RemoveOsAccount (id : Z) (token : option (list Z)) : M S unit :=
  _ ← RemoveOsAccountCommon id;
  _ ← (if SUPPORT_AUTHORIZATION
       then _ ← PrivilegeCheck token MANAGE_LOCAL_ACCOUNT_PRIVILEGE_NAME (removal_callers id); mret tt
       else no_token token);
  innerManager_ (OsAccountManager.RemoveOsAccount id).

(** [OsAccountManagerService::RemoveOsAccount]#1, os_account_manager_service.cpp *)
Definition RemoveOsAccount_plain (id : Z) : M S unit :=
  _ ← RemoveOsAccountCommon id;
  _ ← (if SUPPORT_AUTHORIZATION
       then _ ← PrivilegeCheck None MANAGE_LOCAL_ACCOUNT_PRIVILEGE_NAME (removal_callers id); mret tt
       else mret tt);
  innerManager_ (OsAccountManager.RemoveOsAccount id).

(** [OsAccountManagerService::SetOsAccountToBeRemoved], os_account_manager_service.cpp *)
Definition SetOsAccountToBeRemoved (localId : Z) (toBeRemoved : bool) : M S unit :=
  _ ← system_app;
  _ ← expect_ok (CheckLocalId localId);
  if localId =? START_USER_ID then merr ERR_OSACCOUNT_SERVICE_MANAGER_ID_ERROR
  else
    _ ← CheckLocalIdRestricted localId;
    _ ← permission MANAGE_LOCAL_ACCOUNTS "";
    _ ← (if SUPPORT_AUTHORIZATION
         then _ ← PrivilegeCheck None MANAGE_LOCAL_ACCOUNT_PRIVILEGE_NAME [(MAINTENANCE_UID, GenMaintenaceStrategy localId)]; mret tt
         else mret tt);
    innerManager_ (OsAccountManager.SetOsAccountToBeRemoved localId toBeRemoved).

(** *** Texts for raw parcels *)

(** [WriteOsAccountInfo], os_account_manager_service.cpp *)
Definition WriteOsAccountInfo (osAccountInfo : OsAccountInfo) : string := OsAccountInfo.ToString osAccountInfo.

(** [WriteOsAccountInfoVector], os_account_manager_service.cpp *)
Definition WriteOsAccountInfoVector (osAccountInfos : list OsAccountInfo) : option string :=
  let accountJsons :=
    foldl (λ arr i, match OsAccountInfo.ToJson i with
                    | Some j => changed_or (AddObjToArray arr (Some j)) arr
                    | None => arr
                    end) CreateJsonArray osAccountInfos in
  let accountStr := PackJsonToString accountJsons in
  if IPC_WRITE_RAW_DATA_MAX_SIZE <=? size_of accountStr then None else Some accountStr.

(** *** Questions about an account *)

(** What anyone may ask about its own account, and about others with a permission. *)
Definition own_or_permitted {A} (id : Z) (allowed : M S unit) (question : M S A) : M S A :=
  if callerUserId =? id then question else _ ← allowed; question.

(** [OsAccountManagerService::IsOsAccountExists], os_account_manager_service.cpp *)
Definition IsOsAccountExists (id : Z) : M S bool := innerManager_ (OsAccountQueries.IsOsAccountExists id).

(** [OsAccountManagerService::IsOsAccountActived], os_account_manager_service.cpp *)
Definition IsOsAccountActived (id : Z) : M S bool :=
  own_or_permitted id (permission_either MANAGE_LOCAL_ACCOUNTS INTERACT_ACROSS_LOCAL_ACCOUNTS)
    (innerManager_ (OsAccountQueries.IsOsAccountActived id)).

(** [OsAccountManagerService::IsOsAccountConstraintEnable], os_account_manager_service.cpp *)
Definition IsOsAccountConstraintEnable (id : Z) (constraint : string) : M S bool :=
  _ ← expect_ok (CheckOsAccountConstraint constraint);
  _ ← expect_ok (CheckLocalId id);
  _ ← permission MANAGE_LOCAL_ACCOUNTS "";
  innerManager_ (OsAccountQueries.IsOsAccountConstraintEnable id constraint).

(** [OsAccountManagerService::CheckOsAccountConstraintEnabled], os_account_manager_service.cpp *)
Definition CheckOsAccountConstraintEnabled (id : Z) (constraint : string) : M S bool :=
  _ ← expect_ok (CheckOsAccountConstraint constraint);
  _ ← expect_ok (CheckLocalId id);
  own_or_permitted id (permission_either MANAGE_LOCAL_ACCOUNTS INTERACT_ACROSS_LOCAL_ACCOUNTS)
    (innerManager_ (OsAccountQueries.IsOsAccountConstraintEnable id constraint)).

(** [OsAccountManagerService::IsOsAccountVerified], os_account_manager_service.cpp *)
Definition IsOsAccountVerified (id : Z) : M S bool :=
  _ ← expect_ok (CheckLocalId id);
  own_or_permitted id (permission_either MANAGE_LOCAL_ACCOUNTS INTERACT_ACROSS_LOCAL_ACCOUNTS)
    (innerManager_ (OsAccountQueries.IsOsAccountVerified id)).

(** [OsAccountManagerService::IsOsAccountDeactivating], os_account_manager_service.cpp *)
Definition IsOsAccountDeactivating (id : Z) : M S bool :=
  _ ← expect_ok (CheckLocalId id);
  own_or_permitted id (permission_either MANAGE_LOCAL_ACCOUNTS INTERACT_ACROSS_LOCAL_ACCOUNTS)
    (innerManager_ (OsAccountQueries.IsOsAccountDeactivating id)).

(** [OsAccountManagerService::GetCreatedOsAccountsCount], os_account_manager_service.cpp *)
Definition GetCreatedOsAccountsCount : M S Z :=
  _ ← permission MANAGE_LOCAL_ACCOUNTS ""; innerManager_ OsAccountQueries.GetCreatedOsAccountsCount.

(** [OsAccountManagerService::GetOsAccountLocalIdFromProcess], os_account_manager_service.cpp *)
Definition GetOsAccountLocalIdFromProcess : M S Z := mret callerUserId.

(** [OsAccountManagerService::IsMainOsAccount], os_account_manager_service.cpp *)
Definition IsMainOsAccount : M S bool :=
  _ ← system_app;
  _ ← permission MANAGE_LOCAL_ACCOUNTS "";
  mret (callerUserId =? MAIN_OS_ACCOUNT_LOCAL_ID).

(** [OsAccountManagerService::GetOsAccountLocalIdFromDomain], os_account_manager_service.cpp *)
Definition GetOsAccountLocalIdFromDomain (domainInfo : DomainAccountInfo) : M S Z :=
  if string_empty (domain_ domainInfo) || (DOMAIN_NAME_MAX_SIZE <? size_of (domain_ domainInfo))
  then merr ERR_ACCOUNT_COMMON_INVALID_PARAMETER
  else if string_empty (accountName_ domainInfo) || (LOCAL_NAME_MAX_SIZE <=? size_of (accountName_ domainInfo))
  then merr ERR_ACCOUNT_COMMON_INVALID_PARAMETER
  else
    _ ← permission MANAGE_LOCAL_ACCOUNTS "";
    innerManager_ (OsAccountQueries.GetOsAccountLocalIdFromDomain domainInfo).

(** [OsAccountManagerService::QueryMaxOsAccountNumber], os_account_manager_service.cpp *)
Definition QueryMaxOsAccountNumber : M S Z := _ ← system_app; innerManager_ OsAccountQueries.QueryMaxOsAccountNumber.

(** [OsAccountManagerService::QueryMaxLoggedInOsAccountNumber], os_account_manager_service.cpp *)
Definition QueryMaxLoggedInOsAccountNumber : M S Z :=
  _ ← system_app; innerManager_ OsAccountQueries.QueryMaxLoggedInOsAccountNumber.

(** [OsAccountManagerService::GetOsAccountAllConstraints], os_account_manager_service.cpp *)
Definition GetOsAccountAllConstraints (id : Z) : M S (list string) :=
  _ ← permission MANAGE_LOCAL_ACCOUNTS ""; innerManager_ (OsAccountQueries.GetOsAccountAllConstraints id).

Fixpoint with_domain_infos (osAccountInfos : list OsAccountInfo) : M S (list OsAccountInfo) :=
  match osAccountInfos with
  | [] => mret []
  | info :: rest => info ← with_domain_info info true; rest ← with_domain_infos rest; mret (info :: rest)
  end.

(** [OsAccountManagerService::QueryAllCreatedOsAccounts], os_account_manager_service.cpp *)
Definition QueryAllCreatedOsAccounts : M S (list OsAccountInfo) :=
  _ ← permission MANAGE_LOCAL_ACCOUNTS "";
  osAccountInfos ← innerManager_ OsAccountCreation.QueryAllCreatedOsAccounts;
  with_domain_infos osAccountInfos.

(** [OsAccountManagerService::QueryAllCreatedOsAccounts]#2, os_account_manager_service.cpp *)
Definition QueryAllCreatedOsAccounts_raw : M S string :=
  _ ← system_app;
  osAccountVec ← QueryAllCreatedOsAccounts;
  match WriteOsAccountInfoVector osAccountVec with
  | None => merr IPC_STUB_WRITE_PARCEL_ERR
  | Some text => mret text
  end.

(** [OsAccountManagerService::GetOsAccountLocalIds], os_account_manager_service.cpp *)
Definition GetOsAccountLocalIds : M S (list Z) :=
  _ ← permission GET_LOCAL_ACCOUNTS_IDENTIFIERS ""; innerManager_ OsAccountQueries.GetOsAccountLocalIds.

(** [OsAccountManagerService::QueryCurrentOsAccount], os_account_manager_service.cpp *)
Definition QueryCurrentOsAccount : M S OsAccountInfo :=
  _ ← permission_either MANAGE_LOCAL_ACCOUNTS GET_LOCAL_ACCOUNTS;
  osAccountInfo ← innerManager_ (OsAccountQueries.QueryOsAccountById callerUserId);
  with_domain_info osAccountInfo false.

(** [OsAccountManagerService::QueryCurrentOsAccount]#2, os_account_manager_service.cpp *)
Definition QueryCurrentOsAccount_raw : M S string := i ← QueryCurrentOsAccount; mret (WriteOsAccountInfo i).

(** [OsAccountManagerService::QueryOsAccountById], os_account_manager_service.cpp *)
Definition QueryOsAccountById (id : Z) : M S OsAccountInfo :=
  _ ← expect_ok (CheckLocalId id);
  _ ← permission_either MANAGE_LOCAL_ACCOUNTS INTERACT_ACROSS_LOCAL_ACCOUNTS_EXTENSION;
  osAccountInfo ← innerManager_ (OsAccountQueries.QueryOsAccountById id);
  with_domain_info osAccountInfo false.

(** [OsAccountManagerService::QueryOsAccountById]#2, os_account_manager_service.cpp *)
Definition QueryOsAccountById_raw (id : Z) : M S string :=
  _ ← system_app; i ← QueryOsAccountById id; mret (WriteOsAccountInfo i).

(** [OsAccountManagerService::GetOsAccountTypeFromProcess], os_account_manager_service.cpp *)
Definition GetOsAccountTypeFromProcess : M S Z := innerManager_ (OsAccountCreation.GetOsAccountType callerUserId).

(** [OsAccountManagerService::GetOsAccountType], os_account_manager_service.cpp *)
Definition GetOsAccountType (id : Z) : M S Z :=
  _ ← system_app;
  _ ← permission_either MANAGE_LOCAL_ACCOUNTS INTERACT_ACROSS_LOCAL_ACCOUNTS;
  innerManager_ (OsAccountCreation.GetOsAccountType id).

(** *** Changes of an account *)

(** A failure of the query counts as "not enabled".

    [OsAccountManagerService::SetOsAccountType], os_account_manager_service.cpp *)
Definition SetOsAccountType (id typeValue : Z) (token : option (list Z)) : M S unit :=
  _ ← system_app;
  _ ← permission MANAGE_LOCAL_ACCOUNTS "";
  isConstraintEnable ← mtry (innerManager_ (OsAccountQueries.IsOsAccountConstraintEnable id CONSTANT_SET_TYPE));
  match isConstraintEnable with
  | Ok true => merr ERR_AUTHORIZATION_PRIVILEGE_DENIED
  | _ =>
      _ ← user_account id;
      if (id =? START_USER_ID) || (id =? MAINTENANCE_MODE_ID) then merr ERR_ACCOUNT_COMMON_ACCOUNT_IS_RESTRICTED
      else
        _ ← ValidateToken token;
        if IsTypeOutOfRange typeValue then merr ERR_ACCOUNT_COMMON_INVALID_PARAMETER
        else innerManager_ (OsAccountCreation.SetOsAccountType id typeValue (default [] token))
  end.

(** [OsAccountManagerService::GetOsAccountProfilePhoto], os_account_manager_service.cpp *)
Definition GetOsAccountProfilePhoto (id : Z) : M S string :=
  _ ← expect_ok (CheckLocalId id);
  own_or_permitted id (permission MANAGE_LOCAL_ACCOUNTS "") (innerManager_ (OsAccountQueries.GetOsAccountProfilePhoto id)).

(** [OsAccountManagerService::GetOsAccountProfilePhoto]#2, os_account_manager_service.cpp *)
Definition GetOsAccountProfilePhoto_raw (id : Z) : M S string := _ ← system_app; GetOsAccountProfilePhoto id.

(** [OsAccountManagerService::SetOsAccountName], os_account_manager_service.cpp *)
Definition SetOsAccountName (id : Z) (name : string) : M S unit :=
  _ ← system_app;
  _ ← user_account id;
  if (LOCAL_NAME_MAX_SIZE <=? size_of name) || (size_of name <=? 0) then merr ERR_ACCOUNT_COMMON_INVALID_PARAMETER
  else
    _ ← permission MANAGE_LOCAL_ACCOUNTS "";
    innerManager_ (OsAccountQueries.SetOsAccountName id name).

(** [OsAccountManagerService::SetOsAccountProfilePhoto], os_account_manager_service.cpp *)
Definition SetOsAccountProfilePhoto (id : Z) (photo : string) : M S unit :=
  _ ← user_account id;
  if (LOCAL_PHOTO_MAX_SIZE <? size_of photo) || string_empty photo then merr ERR_ACCOUNT_COMMON_INVALID_PARAMETER
  else
    _ ← permission MANAGE_LOCAL_ACCOUNTS CONSTANT_SET_ICON;
    innerManager_ (OsAccountQueries.SetOsAccountProfilePhoto id photo).

(** [OsAccountManagerService::SetOsAccountProfilePhoto]#2, os_account_manager_service.cpp *)
Definition SetOsAccountProfilePhoto_raw (id : Z) (photo : string) : M S unit :=
  _ ← system_app; SetOsAccountProfilePhoto id photo.

(** *** Constraints *)

(** The constraints whose state has become the one asked for. *)
Definition changed_constraints (oldConstraints newConstraints constraints : list string) (isEnabled : bool) : gset string :=
  list_to_set (filter (λ c, bool_decide (c ∈ newConstraints) = isEnabled ∧ bool_decide (c ∈ oldConstraints) ≠ isEnabled)
                      constraints).

(** [OsAccountManagerService::ConstraintPublish], os_account_manager_service.cpp *)
Definition ConstraintPublish (oldConstraints constraints : list string) (localId : Z) (isEnabled : bool) : M S unit :=
  newConstraints ← mtry (innerManager_ (OsAccountQueries.GetOsAccountAllConstraints localId));
  match newConstraints with
  | Err _ => mret tt
  | Ok newConstraints =>
      publish_constraints localId (changed_constraints oldConstraints newConstraints constraints isEnabled) isEnabled
  end.

(** [OsAccountManagerService::SetOsAccountConstraints], os_account_manager_service.cpp *)
Definition SetOsAccountConstraints (id : Z) (constraints : list string) (enable : bool) : M S unit :=
  _ ← system_app;
  _ ← user_account id;
  _ ← permission MANAGE_LOCAL_ACCOUNTS "";
  oldConstraints ← innerManager_ (OsAccountQueries.GetOsAccountAllConstraints id);
  _ ← innerManager_ (OsAccountQueries.SetBaseOsAccountConstraints id constraints enable);
  ConstraintPublish oldConstraints constraints id enable.

(** [OsAccountManagerService::QueryOsAccountConstraintSourceTypes], os_account_manager_service.cpp *)
Definition QueryOsAccountConstraintSourceTypes (id : Z) (constraint : string) : M S (list ConstraintSourceTypeInfo) :=
  _ ← system_app;
  _ ← expect_ok (CheckLocalId id);
  if string_empty constraint || (CONSTRAINT_MAX_SIZE <? size_of constraint) then merr ERR_ACCOUNT_COMMON_INVALID_PARAMETER
  else
    _ ← permission MANAGE_LOCAL_ACCOUNTS "";
    innerManager_ (OsAccountQueries.QueryOsAccountConstraintSourceTypes id constraint).

(** Device management needs both permissions. *)
Definition edm_permission : M S unit :=
  _ ← permission MANAGE_LOCAL_ACCOUNTS ""; permission MANAGE_EDM_POLICY "".

(** The constraints of every account, as they are before a change. *)
Fixpoint all_constraints (ids : list Z) (oldConstraintsMap : gmap Z (list string)) : M S (gmap Z (list string)) :=
  match ids with
  | [] => mret oldConstraintsMap
  | id :: ids =>
      oldConstraints ← innerManager_ (OsAccountQueries.GetOsAccountAllConstraints id);
      all_constraints ids (match oldConstraintsMap !! id with
                           | Some _ => oldConstraintsMap
                           | None => <[id := oldConstraints]> oldConstraintsMap
                           end)
  end.

Fixpoint publish_all (olds : list (Z * list string)) (constraints : list string) (enable : bool) : M S unit :=
  match olds with
  | [] => mret tt
  | (id, oldConstraints) :: olds =>
      _ ← ConstraintPublish oldConstraints constraints id enable; publish_all olds constraints enable
  end.

(** [OsAccountManagerService::SetGlobalOsAccountConstraints], os_account_manager_service.cpp *)
Definition SetGlobalOsAccountConstraints (constraints : list string) (enable : bool) (enforcerId : Z)
    (isDeviceOwner : bool) : M S unit :=
  if enforcerId <? 0 then merr ERR_OSACCOUNT_KIT_READ_IN_LOCAL_ID_ERROR
  else
    _ ← edm_permission;
    osAccountInfos ← innerManager_ OsAccountCreation.QueryAllCreatedOsAccounts;
    oldConstraintsMap ← all_constraints (localId_ <$> osAccountInfos) ∅;
    _ ← innerManager_ (OsAccountQueries.SetGlobalOsAccountConstraints constraints enable enforcerId isDeviceOwner);
    publish_all (ordered_list Z.le oldConstraintsMap) constraints enable.

(** [OsAccountManagerService::SetSpecificOsAccountConstraints], os_account_manager_service.cpp *)
Definition SetSpecificOsAccountConstraints (constraints : list string) (enable : bool) (targetId enforcerId : Z)
    (isDeviceOwner : bool) : M S unit :=
  if (targetId <? 0) || (enforcerId <? 0) then merr ERR_OSACCOUNT_KIT_READ_IN_LOCAL_ID_ERROR
  else
    _ ← edm_permission;
    if (targetId <? START_USER_ID) || (enforcerId <? START_USER_ID) then merr ERR_OSACCOUNT_SERVICE_MANAGER_ID_ERROR
    else
      oldConstraints ← innerManager_ (OsAccountQueries.GetOsAccountAllConstraints targetId);
      _ ← innerManager_
            (OsAccountQueries.SetSpecificOsAccountConstraints constraints enable targetId enforcerId isDeviceOwner);
      ConstraintPublish oldConstraints constraints targetId enable.

(** *** Activation *)

(** [OsAccountManagerService::ActivateOsAccountCommon], os_account_manager_service.cpp *)
Definition ActivateOsAccountCommon (id displayId : Z) : M S unit :=
  _ ← system_app;
  _ ← user_account id;
  _ ← permission INTERACT_ACROSS_LOCAL_ACCOUNTS_EXTENSION CONSTANT_ACTIVATE;
  innerManager_ (OsAccountManager.ActivateOsAccount id true displayId false).

(** [OsAccountManagerService::ActivateOsAccount], os_account_manager_service.cpp *)
Definition ActivateOsAccount (id : Z) : M S unit := ActivateOsAccountCommon id DEFAULT_DISPLAY_ID.

(** [OsAccountManagerService::ActivateOsAccount]#2, os_account_manager_service.cpp *)
Definition ActivateOsAccount_display (id displayId : Z) : M S unit := ActivateOsAccountCommon id displayId.

(** [OsAccountManagerService::GetCurrentLocalId], os_account_manager_service.cpp *)
Definition GetCurrentLocalId (userId : Z) : M S Z :=
  userIds ← mtry (innerManager_ OsAccountQueries.QueryActiveOsAccountIds);
  mret (match userIds with Ok (first :: _) => first | _ => userId end).

(** After the current account was stopped another one is activated, or the same one again;
    how that ends does not count.

    [OsAccountManagerService::DeactivateOsAccount], os_account_manager_service.cpp *)
Definition DeactivateOsAccount (id : Z) : M S unit :=
  _ ← system_app;
  _ ← user_account id;
  _ ← permission INTERACT_ACROSS_LOCAL_ACCOUNTS_EXTENSION "";
  currentId ← GetCurrentLocalId START_USER_ID;
  if negb SUPPORT_STOP_MAIN_OS_ACCOUNT && (id =? START_USER_ID)
  then merr ERR_OSACCOUNT_SERVICE_INNER_ACCOUNT_STOP_ACTIVE_ERROR
  else
    res ← mtry (innerManager_ (OsAccountManager.DeactivateOsAccount id true));
    _ ← (if (currentId =? id) && negb ENABLE_MULTI_FOREGROUND_OS_ACCOUNTS then
           if SUPPORT_STOP_MAIN_OS_ACCOUNT
           then innerManager_ (ignore (OsAccountManager.ActivateOsAccount id false DEFAULT_DISPLAY_ID true))
           else innerManager_ (ignore (OsAccountManager.ActivateOsAccount START_USER_ID false DEFAULT_DISPLAY_ID false))
         else mret tt);
    match res with Ok _ => mret tt | Err e => merr e end.

(** The result is the last failure. *)
Fixpoint deactivate_all (userIds : list Z) (result : Z) : M S Z :=
  match userIds with
  | [] => mret result
  | osAccountId :: userIds =>
      if ENABLE_U1_ACCOUNT && (osAccountId =? U1_ID) then deactivate_all userIds result
      else
        res ← mtry (innerManager_ (OsAccountManager.DeactivateOsAccount osAccountId true));
        deactivate_all userIds (match res with Ok _ => result | Err e => e end)
  end.

(** [OsAccountManagerService::DeactivateAllOsAccounts], os_account_manager_service.cpp *)
Definition DeactivateAllOsAccounts : M S unit :=
  _ ← system_app;
  _ ← permission INTERACT_ACROSS_LOCAL_ACCOUNTS_EXTENSION "";
  userIds ← innerManager_ OsAccountQueries.QueryActiveOsAccountIds;
  result ← deactivate_all userIds ERR_OK;
  expect_ok result.

(** *** Subscriptions *)

(** One of three permissions. *)
Definition subscriber_permission : M S unit :=
  require (either (PermissionCheck MANAGE_LOCAL_ACCOUNTS "")
             (either (PermissionCheck INTERACT_ACROSS_LOCAL_ACCOUNTS_EXTENSION "")
                     (PermissionCheck INTERACT_ACROSS_LOCAL_ACCOUNTS ""))) ERR_ACCOUNT_COMMON_PERMISSION_DENIED.

(** [OsAccountManagerService::SubscribeOsAccount], os_account_manager_service.cpp *)
Definition SubscribeOsAccount (subscribeInfo : Subscriptions.OsAccountSubscribeInfo) (eventListener : option Listener) :
    M S unit :=
  _ ← system_app;
  if bool_decide (Subscriptions.osAccountSubscribeType_ subscribeInfo = INVALID_TYPE) &&
     bool_decide (Subscriptions.states_ subscribeInfo = ∅)
  then merr ERR_ACCOUNT_COMMON_INVALID_PARAMETER
  else
    _ ← subscriber_permission;
    subscribeManager_ (Subscriptions.SubscribeOsAccount GetCallingUid (Some subscribeInfo) eventListener).

(** [OsAccountManagerService::UnsubscribeOsAccount], os_account_manager_service.cpp *)
Definition UnsubscribeOsAccount (eventListener : option Listener) : M S unit :=
  _ ← system_app;
  _ ← subscriber_permission;
  subscribeManager_ (Subscriptions.UnsubscribeOsAccount eventListener).

(** Everyone may follow its own user when it is a system application, and who may interact
    across accounts any user. *)
Definition constraint_subscriber (subscribeInfo : OsAccountConstraintSubscribeInfo) : M S unit :=
  if needAcross subscribeInfo then permission INTERACT_ACROSS_LOCAL_ACCOUNTS "" else system_app.

(** Whether the constraints are known is asked of the files only when there are some. *)
Definition with_constraints (subscribeInfo : OsAccountConstraintSubscribeInfo)
    (f : (gset string → bool) → SubscribeManager → Z * SubscribeManager) : M S unit :=
  let constraints := info_constraintSet_ subscribeInfo in
  valid ← (if decide (constraints = ∅) then mret false
           else innerManager_ (ask (CheckConstraints (set_list constraints))));
  constraintManger_ (f (λ _, valid)).

(** [OsAccountManagerService::SubscribeOsAccountConstraints], os_account_manager_service.cpp *)
Definition SubscribeOsAccountConstraints (subscribeInfo : OsAccountConstraintSubscribeInfo)
    (eventListener : option Listener) : M S unit :=
  _ ← constraint_subscriber subscribeInfo;
  with_constraints subscribeInfo (λ known, SubscribeConstraints known GetCallingUid subscribeInfo eventListener).

(** [OsAccountManagerService::UnsubscribeOsAccountConstraints], os_account_manager_service.cpp *)
Definition UnsubscribeOsAccountConstraints (subscribeInfo : OsAccountConstraintSubscribeInfo)
    (eventListener : option Listener) : M S unit :=
  _ ← constraint_subscriber subscribeInfo;
  with_constraints subscribeInfo (λ known, UnsubscribeConstraints known GetCallingUid subscribeInfo eventListener).

(** *** Serial numbers, marks *)

(** [OsAccountManagerService::GetOsAccountLocalIdBySerialNumber], os_account_manager_service.cpp *)
Definition GetOsAccountLocalIdBySerialNumber (serialNumber : Z) : M S Z :=
  innerManager_ (OsAccountQueries.GetOsAccountLocalIdBySerialNumber serialNumber).

(** [OsAccountManagerService::GetSerialNumberByOsAccountLocalId], os_account_manager_service.cpp *)
Definition GetSerialNumberByOsAccountLocalId (id : Z) : M S Z :=
  innerManager_ (OsAccountQueries.GetSerialNumberByOsAccountLocalId id).

(** [HOT_SWITCH].

    [OsAccountManagerService::GetOsAccountSwitchMod], os_account_manager_service.cpp *)
Definition GetOsAccountSwitchMod : M S Z := mret 1.

(** [OsAccountManagerService::IsCurrentOsAccountVerified], os_account_manager_service.cpp *)
Definition IsCurrentOsAccountVerified : M S bool := innerManager_ (OsAccountQueries.IsOsAccountVerified callerUserId).

(** [OsAccountManagerService::IsOsAccountCompleted], os_account_manager_service.cpp *)
Definition IsOsAccountCompleted (id : Z) : M S bool :=
  if negb ENABLE_U1_ACCOUNT && (id =? U1_ID) then merr ERR_ACCOUNT_COMMON_ACCOUNT_NOT_EXIST_ERROR
  else innerManager_ (OsAccountQueries.IsOsAccountCompleted id).

(** [OsAccountManagerService::SetCurrentOsAccountIsVerified], os_account_manager_service.cpp *)
Definition SetCurrentOsAccountIsVerified (isVerified : bool) : M S unit :=
  _ ← permission MANAGE_LOCAL_ACCOUNTS "";
  _ ← user_account callerUserId;
  innerManager_ (OsAccountManager.SetOsAccountIsVerified callerUserId isVerified).

(** [OsAccountManagerService::SetOsAccountIsVerified], os_account_manager_service.cpp *)
Definition SetOsAccountIsVerified (id : Z) (isVerified : bool) : M S unit :=
  _ ← user_account id;
  _ ← permission MANAGE_LOCAL_ACCOUNTS "";
  innerManager_ (OsAccountManager.SetOsAccountIsVerified id isVerified).

(** *** Dumps *)

Definition DUMP_TAB_CHARACTER : string := String "009" "".
Definition newline : string := String "010" "".

Definition type_name (type : Z) : string :=
  if type =? ADMIN then "admin" else if type =? NORMAL then "normal" else if type =? GUEST then "guest"
  else if type =? PRIVATE then "private" else if type =? MAINTENANCE then "maintenance" else "unknown".

Definition true_false (b : bool) : string := if b then "true" else "false".

(** The lines of one account.

    [OsAccountManagerService::DumpStateByAccounts], os_account_manager_service.cpp:1816-1859 *)
Definition dump_account (dumpSensitiveInfo : bool) (i : OsAccountInfo) : list string :=
  let line s := (DUMP_TAB_CHARACTER +:+ s)%string in
  [("ID: " +:+ to_string (localId_ i))%string;
   line ("Name: " +:+ AnonymizeNameStr (localName_ i))%string;
   line ("Type: " +:+ type_name (type_ i))%string;
   line ("Status: " +:+ (if isActivated_ i then "active" else "inactive"))%string;
   line ("isForeground: " +:+ to_string (if isForeground_ i then 1 else 0))%string;
   line ("dispalyId: " +:+ to_string (displayId_ i))%string] ++
  (if dumpSensitiveInfo
   then line "Constraints:" :: ((λ c, line (line c)) <$> constraints_ i)
   else [line "Constraints: *"]) ++
  [line ("Verified: " +:+ true_false (isVerified_ i))%string;
   line ("Serial Number: " +:+ (if dumpSensitiveInfo then to_string (serialNumber_ i) else "*"))%string;
   line ("Create Completed: " +:+ true_false (isCreateCompleted_ i))%string;
   line ("To Be Removed: " +:+ true_false (toBeRemoved_ i))%string;
   newline].

(** [OsAccountManagerService::DumpStateByAccounts], os_account_manager_service.cpp *)
Definition DumpStateByAccounts (osAccountInfos : list OsAccountInfo) (dumpSensitiveInfo : bool) : list string :=
  concat (dump_account dumpSensitiveInfo <$> osAccountInfos).

(** [OsAccountManagerService::DumpState], os_account_manager_service.cpp *)
Definition DumpState (id : Z) : M S (list string) :=
  _ ← permission MANAGE_LOCAL_ACCOUNTS "";
  osAccountInfos ←
    (if id =? -1 then
       osAccountInfos ← innerManager_ OsAccountCreation.QueryAllCreatedOsAccounts;
       if ENABLE_U1_ACCOUNT then
         '(result, osAccountInfo) ← innerManager_ (GetRealOsAccountInfoById U1_ID OsAccountInfo_new);
         mret (match result with Ok _ => osAccountInfo :: osAccountInfos | Err _ => osAccountInfos end)
       else mret osAccountInfos
     else
       osAccountInfo ← innerManager_ (real_account id ERR_ACCOUNT_COMMON_ACCOUNT_NOT_EXIST_ERROR);
       mret [osAccountInfo]);
  mret (DumpStateByAccounts osAccountInfos true).

(** [OsAccountManagerService::DumpOsAccountInfo], os_account_manager_service.cpp *)
Definition DumpOsAccountInfo : M S (list string) :=
  osAccountInfos ← innerManager_ OsAccountCreation.QueryAllCreatedOsAccounts;
  mret (DumpStateByAccounts osAccountInfos false).

(** *** Active accounts, accounts of displays *)

(** [OsAccountManagerService::QueryActiveOsAccountIds], os_account_manager_service.cpp *)
Definition QueryActiveOsAccountIds : M S (list Z) := innerManager_ OsAccountQueries.QueryActiveOsAccountIds.

(** [OsAccountManagerService::GetUnlockedOsAccountLocalIds], os_account_manager_service.cpp *)
Definition GetUnlockedOsAccountLocalIds : M S (list Z) := innerManager_ OsAccountQueries.GetUnlockedOsAccountLocalIds.

(** [OsAccountManagerService::SetDefaultActivatedOsAccount]#2, os_account_manager_service.cpp *)
Definition SetDefaultActivatedOsAccount_display (displayId id : Z) : M S unit :=
  _ ← expect_ok (CheckLocalId id);
  _ ← permission MANAGE_LOCAL_ACCOUNTS "";
  if id <? START_USER_ID then merr ERR_OSACCOUNT_SERVICE_MANAGER_ID_ERROR
  else innerManager_ (OsAccountManager.SetDefaultActivatedOsAccount displayId id).

(** [OsAccountManagerService::SetDefaultActivatedOsAccount], os_account_manager_service.cpp *)
Definition SetDefaultActivatedOsAccount (id : Z) : M S unit :=
  _ ← expect_ok (CheckLocalId id);
  _ ← permission MANAGE_LOCAL_ACCOUNTS "";
  if id <? START_USER_ID then merr ERR_OSACCOUNT_SERVICE_MANAGER_ID_ERROR
  else innerManager_ (OsAccountManager.SetDefaultActivatedOsAccount DEFAULT_DISPLAY_ID id).

(** [OsAccountManagerService::GetDefaultActivatedOsAccount], os_account_manager_service.cpp *)
Definition GetDefaultActivatedOsAccount : M S Z :=
  innerManager_ (OsAccountQueries.GetDefaultActivatedOsAccount DEFAULT_DISPLAY_ID).

(** [OsAccountManagerService::GetDefaultActivatedOsAccount]#2, os_account_manager_service.cpp *)
Definition GetDefaultActivatedOsAccount_display (displayId : Z) : M S Z :=
  innerManager_ (OsAccountQueries.GetDefaultActivatedOsAccount displayId).

(** [OsAccountManagerService::GetAllDefaultActivatedOsAccounts], os_account_manager_service.cpp *)
Definition GetAllDefaultActivatedOsAccounts : M S (gmap Z Z) :=
  innerManager_ OsAccountQueries.GetAllDefaultActivatedOsAccounts.

(** *** Names *)

(** [OsAccountManagerService::GetOsAccountShortNameCommon], os_account_manager_service.cpp *)
Definition GetOsAccountShortNameCommon (id : Z) : M S string := innerManager_ (OsAccountQueries.GetOsAccountShortName id).

(** [OsAccountManagerService::GetOsAccountShortName], os_account_manager_service.cpp *)
Definition GetOsAccountShortName : M S string := _ ← system_app; GetOsAccountShortNameCommon callerUserId.

(** [OsAccountManagerService::GetOsAccountName], os_account_manager_service.cpp *)
Definition GetOsAccountName (name : string) : M S string :=
  innerManager_ (OsAccountQueries.GetOsAccountName callerUserId name).

(** [OsAccountManagerService::GetOsAccountNameById], os_account_manager_service.cpp *)
Definition GetOsAccountNameById (id : Z) (name : string) : M S string :=
  _ ← require (either (PermissionCheck MANAGE_LOCAL_ACCOUNTS "")
                 (either (PermissionCheck INTERACT_ACROSS_LOCAL_ACCOUNTS "")
                         (PermissionCheck GET_LOCAL_ACCOUNT_IDENTIFIERS ""))) ERR_ACCOUNT_COMMON_PERMISSION_DENIED;
  _ ← user_account id;
  innerManager_ (OsAccountQueries.GetOsAccountName id name).

(** [OsAccountManagerService::GetOsAccountShortNameById], os_account_manager_service.cpp *)
Definition GetOsAccountShortNameById (id : Z) : M S string :=
  _ ← system_app;
  _ ← permission INTERACT_ACROSS_LOCAL_ACCOUNTS "";
  GetOsAccountShortNameCommon id.

(** Where the constraint forbids it, the first account may still get its name.

    [OsAccountManagerService::CheckCreateOsAccountForDomainPermission], os_account_manager_service.cpp *)
Definition CheckCreateOsAccountForDomainPermission : M S bool :=
  allowed ← PermissionCheck MANAGE_LOCAL_ACCOUNTS "";
  if negb allowed then mret false
  else
    allowed ← PermissionCheck "" CONSTANT_CREATE;
    if allowed : bool then mret true
    else if ENABLE_ACCOUNT_SHORT_NAME then
      osAccountInfos ← mtry QueryAllCreatedOsAccounts;
      mret (match osAccountInfos with
            | Ok [i] => (localId_ i =? START_USER_ID) && (string_empty (shortName_ i) || string_empty (localName_ i))
            | _ => false
            end)
    else mret false.

(** *** The foreground *)

(** [-1] stands for the account of the caller. *)
Definition or_caller (localId : Z) : Z := if localId =? -1 then callerUserId else localId.

Definition existing_id (id : Z) : M S unit :=
  if id <? ADMIN_LOCAL_ID then merr ERR_ACCOUNT_COMMON_INVALID_PARAMETER
  else require (IsOsAccountExists id) ERR_ACCOUNT_COMMON_ACCOUNT_NOT_EXIST_ERROR.

(** [OsAccountManagerService::IsOsAccountForeground], os_account_manager_service.cpp *)
Definition IsOsAccountForeground (localId displayId : Z) : M S bool :=
  _ ← system_app;
  let id := or_caller localId in
  _ ← existing_id id;
  if (ADMIN_LOCAL_ID <=? id) && (id <? START_USER_ID) then mret false
  else innerManager_ (OsAccountQueries.IsOsAccountForeground id displayId).

(** [OsAccountManagerService::GetForegroundOsAccountLocalId], os_account_manager_service.cpp *)
Definition GetForegroundOsAccountLocalId : M S Z :=
  shown ← mtry (innerManager_ (OsAccountQueries.GetForegroundOsAccountDisplayId callerUserId));
  match shown with
  | Ok _ => mret callerUserId
  | Err _ =>
      result ← mtry (innerManager_ (OsAccountQueries.GetForegroundOsAccountLocalId DEFAULT_DISPLAY_ID));
      match result with
      | Ok localId => mret localId
      | Err e =>
          merr (if e =? ERR_ACCOUNT_COMMON_ACCOUNT_IN_DISPLAY_ID_NOT_FOUND_ERROR
                then ERR_ACCOUNT_COMMON_EXCEPTION_ERROR else e)
      end
  end.

(** [OsAccountManagerService::GetForegroundOsAccountLocalId]#2, os_account_manager_service.cpp *)
Definition GetForegroundOsAccountLocalId_display (displayId : Z) : M S Z :=
  _ ← system_app;
  _ ← permission INTERACT_ACROSS_LOCAL_ACCOUNTS "";
  innerManager_ (OsAccountQueries.GetForegroundOsAccountLocalId displayId).

(** The account that is looked up is the one that was given, also where the checks were
    made on the caller's.

    [OsAccountManagerService::GetForegroundOsAccountDisplayId], os_account_manager_service.cpp *)
Definition GetForegroundOsAccountDisplayId (localId : Z) : M S Z :=
  _ ← system_app;
  _ ← permission INTERACT_ACROSS_LOCAL_ACCOUNTS "";
  _ ← existing_id (or_caller localId);
  innerManager_ (OsAccountQueries.GetForegroundOsAccountDisplayId localId).

(** [OsAccountManagerService::GetForegroundOsAccountDisplayIds], os_account_manager_service.cpp *)
Definition GetForegroundOsAccountDisplayIds (localId : Z) : M S (list Z) :=
  _ ← system_app;
  _ ← permission INTERACT_ACROSS_LOCAL_ACCOUNTS "";
  innerManager_ (OsAccountQueries.GetForegroundOsAccountDisplayIds localId).

(** [OsAccountManagerService::GetForegroundOsAccounts], os_account_manager_service.cpp *)
Definition GetForegroundOsAccounts : M S (list ForegroundOsAccount) :=
  _ ← system_app; innerManager_ OsAccountQueries.GetForegroundOsAccounts.

(** [OsAccountManagerService::GetBackgroundOsAccountLocalIds], os_account_manager_service.cpp *)
Definition GetBackgroundOsAccountLocalIds : M S (list Z) := innerManager_ OsAccountQueries.GetBackgroundOsAccountLocalIds.

(** *** Locking and bindings *)

(** [OsAccountManagerService::GetOsAccountDomainInfo], os_account_manager_service.cpp *)
Definition GetOsAccountDomainInfo (localId : Z) : M S DomainAccountInfo :=
  _ ← require (both (PermissionCheck GET_DOMAIN_ACCOUNTS "") (PermissionCheck INTERACT_ACROSS_LOCAL_ACCOUNTS ""))
        ERR_ACCOUNT_COMMON_PERMISSION_DENIED;
  _ ← expect_ok (CheckLocalId localId);
  innerManager_ (OsAccountQueries.GetOsAccountDomainInfo localId).

(** An account of the system is not locked. *)
Definition lockable (localId : Z) : M S unit :=
  _ ← system_app;
  _ ← expect_ok (CheckLocalId localId);
  if localId <? START_USER_ID then merr ERR_OSACCOUNT_SERVICE_MANAGER_ID_ERROR
  else permission INTERACT_ACROSS_LOCAL_ACCOUNTS_EXTENSION "".

(** [OsAccountManagerService::PublishOsAccountLockEvent], os_account_manager_service.cpp *)
Definition PublishOsAccountLockEvent (localId : Z) (isLocking : bool) : M S unit :=
  _ ← lockable localId; innerManager_ (OsAccountManager.PublishOsAccountLockEvent localId isLocking).

(** [OsAccountManagerService::LockOsAccount], os_account_manager_service.cpp *)
Definition LockOsAccount (localId : Z) : M S unit :=
  _ ← lockable localId; innerManager_ (OsAccountManager.LockOsAccount localId).

(** [callback] says whether there is one.

    [OsAccountManagerService::BindDomainAccount], os_account_manager_service.cpp *)
Definition BindDomainAccount (localId : Z) (domainInfo : DomainAccountInfo) (callback : bool) : M S unit :=
  _ ← system_app;
  _ ← permission MANAGE_LOCAL_ACCOUNTS "";
  _ ← user_account localId;
  if string_empty (accountName_ domainInfo) || string_empty (domain_ domainInfo) ||
     (LOCAL_NAME_MAX_SIZE <=? size_of (accountName_ domainInfo)) || (DOMAIN_NAME_MAX_SIZE <? size_of (domain_ domainInfo)) ||
     negb callback
  then merr ERR_ACCOUNT_COMMON_INVALID_PARAMETER
  else if SUPPORT_DOMAIN_ACCOUNTS then innerManager_ (ask (StartBindDomainAccount localId domainInfo))
  else merr ERR_DOMAIN_ACCOUNT_NOT_SUPPORT.

End Operations.
End OsAccountManagerService.
