(* ===== verification/OsAccountServiceTheorems.v ===== *)
(** What the front end of the service of accounts promises: a request that its caller may
    not make leaves no trace. *)
From Stdlib Require Import ZArith Lia Ascii String.
From stdpp Require Import base list gmap sets strings pretty sorting.
From S2P Require Import Prelude ErrorCodes Json FileStore OsAccountInfo OsAccountEnv OsAccountFiles OsAccountConstraints AppIndex OsAccountServices OsAccountInterface OsAccountManager OsAccountCreation OsAccountQueries OsAccountSubscribe OsAccountConstraintSubscribe AccountPermission OsAccountService.
Import OsAccountManagerService.

(** ** Requests *)

(** The requests that change something. *)
Inductive Request :=
  | Create (name : string) (type : Z)
  | CreateNamed (localName shortName : string) (type : Z) (options : CreateOsAccountOptions) (hasShortName : bool)
  | CreateFull (info : OsAccountInfo) (options : CreateOsAccountOptions)
  | UpdateFull (info : OsAccountInfo)
  | Remove (id : Z) (token : option (list Z))
  | RemovePlain (id : Z)
  | ToBeRemoved (id : Z) (toBeRemoved : bool)
  | SetName (id : Z) (name : string)
  | SetPhoto (id : Z) (photo : string)
  | SetType (id type : Z) (token : option (list Z))
  | SetConstraints (id : Z) (constraints : list string) (enable : bool)
  | SetGlobal (constraints : list string) (enable : bool) (enforcerId : Z) (isDeviceOwner : bool)
  | SetSpecific (constraints : list string) (enable : bool) (targetId enforcerId : Z) (isDeviceOwner : bool)
  | Activate (id displayId : Z)
  | Deactivate (id : Z)
  | DeactivateAll
  | Verified (id : Z) (isVerified : bool)
  | CurrentVerified (isVerified : bool)
  | StartWith (displayId id : Z)
  | LockEvent (id : Z) (isLocking : bool)
  | Lock (id : Z)
  | Bind (id : Z) (domainInfo : DomainAccountInfo) (callback : bool)
  | Subscribe (info : Subscriptions.OsAccountSubscribeInfo) (l : option Listener)
  | Unsubscribe (l : option Listener)
  | SubscribeConstraints (info : OsAccountConstraintSubscribeInfo) (l : option Listener)
  | UnsubscribeConstraints (info : OsAccountConstraintSubscribeInfo) (l : option Listener).

Create HintDb requests.
#[export] Hint Unfold CreateOsAccount_raw CreateOsAccount CreateOsAccount_options_raw CreateOsAccount_options
  CreateOsAccountWithFullInfo UpdateOsAccountWithFullInfo RemoveOsAccount RemoveOsAccount_plain RemoveOsAccountCommon
  SetOsAccountToBeRemoved SetOsAccountName SetOsAccountProfilePhoto_raw SetOsAccountProfilePhoto SetOsAccountType
  SetOsAccountConstraints SetGlobalOsAccountConstraints SetSpecificOsAccountConstraints edm_permission
  ActivateOsAccount_display ActivateOsAccountCommon DeactivateOsAccount DeactivateAllOsAccounts SetOsAccountIsVerified
  SetCurrentOsAccountIsVerified SetDefaultActivatedOsAccount_display PublishOsAccountLockEvent LockOsAccount lockable
  BindDomainAccount SubscribeOsAccount UnsubscribeOsAccount SubscribeOsAccountConstraints
  UnsubscribeOsAccountConstraints : requests.

Section Requests.
Context {W : Type} {sw : OsSwitches} {ssw : ServiceSwitches} {cfg : Config} {oscfg : OsConfig} {sysconf : Sysconf}.
Context {cjson : CJsonLib} {fs : FileStore W}.
Context {ams : AbilityManager W} {bms : BundleManager W} {storage : StorageManager W} {idm : UserIdm W}.
Context {tee : TeeAdapter W} {displays : Displays W} {parts : AccountParts W} {control : OsAccountControl W}.
Context {sparts : ServiceParts W} {ipc : Ipc}.
Local Abbreviation S := (Service W).

Definition serve (q : Request) : M S unit :=
  match q with
  | Create name type => CreateOsAccount_raw name type
  | CreateNamed localName shortName type options h => CreateOsAccount_options_raw localName shortName type options h
  | CreateFull info options => CreateOsAccountWithFullInfo info options
  | UpdateFull info => UpdateOsAccountWithFullInfo info
  | Remove id token => RemoveOsAccount id token
  | RemovePlain id => RemoveOsAccount_plain id
  | ToBeRemoved id b => SetOsAccountToBeRemoved id b
  | SetName id name => SetOsAccountName id name
  | SetPhoto id photo => SetOsAccountProfilePhoto_raw id photo
  | SetType id type token => SetOsAccountType id type token
  | SetConstraints id constraints enable => SetOsAccountConstraints id constraints enable
  | SetGlobal constraints enable enforcerId owner => SetGlobalOsAccountConstraints constraints enable enforcerId owner
  | SetSpecific constraints enable targetId enforcerId owner =>
      SetSpecificOsAccountConstraints constraints enable targetId enforcerId owner
  | Activate id displayId => ActivateOsAccount_display id displayId
  | Deactivate id => DeactivateOsAccount id
  | DeactivateAll => DeactivateAllOsAccounts
  | Verified id b => SetOsAccountIsVerified id b
  | CurrentVerified b => SetCurrentOsAccountIsVerified b
  | StartWith displayId id => SetDefaultActivatedOsAccount_display displayId id
  | LockEvent id b => PublishOsAccountLockEvent id b
  | Lock id => LockOsAccount id
  | Bind id domainInfo callback => BindDomainAccount id domainInfo callback
  | Subscribe info l => SubscribeOsAccount info l
  | Unsubscribe l => UnsubscribeOsAccount l
  | SubscribeConstraints info l => SubscribeOsAccountConstraints info l
  | UnsubscribeConstraints info l => UnsubscribeOsAccountConstraints info l
  end.

(** *** Who may make a request *)

(** Root outside of release versions, or a holder of the permission. *)
Definition is_root : bool := negb IS_RELEASE_VERSION && (GetCallingUid =? ROOT_UID).
Definition may (permissionName : string) : bool :=
  is_root || string_empty permissionName || VerifyAccessToken GetCallingTokenID permissionName.
Definition is_system_app : bool := CheckSystemApp true =? ERR_OK.

(** Accounts below the first one of a user belong to the system. *)
Definition of_user (id : Z) : bool := START_USER_ID <=? id.

(** With authorization there is a token, or the uid is one of those that need none. *)
Definition has_privilege (token : option (list Z)) (bypassStrategy : list (Z * result bool)) : bool :=
  negb SUPPORT_AUTHORIZATION ||
  match token with
  | Some _ => true
  | None => match init_list_find GetCallingUid bypassStrategy with Some (Ok _) => true | _ => false end
  end.

Definition is_subscriber : bool :=
  may MANAGE_LOCAL_ACCOUNTS || (may INTERACT_ACROSS_LOCAL_ACCOUNTS_EXTENSION || may INTERACT_ACROSS_LOCAL_ACCOUNTS).

Definition authorized (q : Request) : bool :=
  match q with
  | Create _ _ =>
      is_system_app && (CheckCreateOsAccountWhiteList || may MANAGE_LOCAL_ACCOUNTS) && has_privilege None edm_callers
  | CreateNamed _ _ _ options _ =>
      is_system_app && (CheckCreateOsAccountWhiteList || may MANAGE_LOCAL_ACCOUNTS) &&
      (ENABLE_ACCOUNT_SHORT_NAME || has_privilege (token options) edm_callers)
  | CreateFull info options =>
      is_system_app && may MANAGE_LOCAL_ACCOUNTS &&
      has_privilege (token options) [(MAINTENANCE_UID, GenMaintenaceStrategy (localId_ info))]
  | UpdateFull _ => is_system_app && may MANAGE_LOCAL_ACCOUNTS && negb SUPPORT_AUTHORIZATION
  | Remove id token =>
      is_system_app && of_user id && negb (id =? START_USER_ID) && may MANAGE_LOCAL_ACCOUNTS &&
      has_privilege token (removal_callers id)
  | RemovePlain id =>
      is_system_app && of_user id && negb (id =? START_USER_ID) && may MANAGE_LOCAL_ACCOUNTS &&
      has_privilege None (removal_callers id)
  | ToBeRemoved id _ =>
      is_system_app && of_user id && negb (id =? START_USER_ID) && may MANAGE_LOCAL_ACCOUNTS &&
      has_privilege None [(MAINTENANCE_UID, GenMaintenaceStrategy id)]
  | SetName id _ | SetPhoto id _ | SetConstraints id _ _ =>
      is_system_app && of_user id && may MANAGE_LOCAL_ACCOUNTS
  | SetType id _ token =>
      is_system_app && may MANAGE_LOCAL_ACCOUNTS && of_user id && negb (id =? START_USER_ID) &&
      negb (id =? MAINTENANCE_MODE_ID) && has_privilege token []
  | SetGlobal _ _ enforcerId _ => may MANAGE_LOCAL_ACCOUNTS && may MANAGE_EDM_POLICY
  | SetSpecific _ _ targetId enforcerId _ =>
      may MANAGE_LOCAL_ACCOUNTS && may MANAGE_EDM_POLICY && of_user targetId && of_user enforcerId
  | Activate id _ | Deactivate id => is_system_app && of_user id && may INTERACT_ACROSS_LOCAL_ACCOUNTS_EXTENSION
  | DeactivateAll => is_system_app && may INTERACT_ACROSS_LOCAL_ACCOUNTS_EXTENSION
  | Verified id _ => of_user id && may MANAGE_LOCAL_ACCOUNTS
  | CurrentVerified _ => may MANAGE_LOCAL_ACCOUNTS && of_user callerUserId
  | StartWith _ id => may MANAGE_LOCAL_ACCOUNTS && of_user id
  | LockEvent id _ | Lock id => is_system_app && of_user id && may INTERACT_ACROSS_LOCAL_ACCOUNTS_EXTENSION
  | Bind id _ _ => is_system_app && may MANAGE_LOCAL_ACCOUNTS && of_user id
  | Subscribe _ _ | Unsubscribe _ => is_system_app && is_subscriber
  | SubscribeConstraints info _ | UnsubscribeConstraints info _ =>
      if needAcross info then may INTERACT_ACROSS_LOCAL_ACCOUNTS else is_system_app
  end.

(** *** No trace *)

(** Questions: calls to other parts of the service and of the system that read. *)
Inductive question : (W → W) → Prop :=
  | asks_account id info : question (λ w, (OsAccountServices.GetOsAccountInfoById id info w).2)
  | asks_exists id : question (λ w, (OsAccountServices.IsOsAccountExists id w).2)
  | asks_multi : question (λ w, (OsAccountServices.GetIsMultiOsAccountEnable w).2)
  | asks_admin : question (λ w, (OsAccountServices.IsAllowedCreateAdmin w).2)
  | asks_global_constraints : question (λ w, (GetGlobalOAConstraintsList w).2)
  | asks_specific_constraints id : question (λ w, (GetSpecificOAConstraintsList id w).2)
  | asks_type id : question (λ w, (OsAccountServices.Tee_GetOsAccountType id w).2)
  | asks_token token name pid : question (λ w, (VerifyToken token name pid w).2).

(** What asking does to the manager: a question changes the world as it may, and an answer
    of the trusted environment on the type of an account is kept. *)
Inductive only_asked (m0 : Manager W) : Manager W → Prop :=
  | asked_nothing : only_asked m0 m0
  | asked_question q m : question q → only_asked m0 m → only_asked m0 {| m with world := q (world m) |}
  | asked_type id type m :
      only_asked m0 m → (Tee_GetOsAccountType id (world m)).1 = Ok type →
      only_asked m0 {| m with world := (Tee_GetOsAccountType id (world m)).2;
                              accountTypeCache_ := <[id := (type, false)]> (accountTypeCache_ m) |}
  | asked_unknown_type id localType m :
      only_asked m0 m → (Tee_GetOsAccountType id (world m)).1 = Err ERR_ACCOUNT_COMMON_TEE_ACCOUNT_NOT_EXIST →
      only_asked m0 {| m with world := (Tee_GetOsAccountType id (world m)).2;
                              accountTypeCache_ := <[id := (localType, true)]> (accountTypeCache_ m) |}.

Definition untouched (s s' : S) : Prop :=
  only_asked (inner s) (inner s') ∧ subscribers s' = subscribers s ∧
  constraint_subscribers s' = constraint_subscribers s ∧
  state_calls s' = state_calls s ∧ constraint_calls s' = constraint_calls s.

(** Nothing of the manager changes but what it knows of the world and the types. *)
Lemma only_asked_frame m m' : only_asked m m' → ∃ w c, m' = {| m with world := w; accountTypeCache_ := c |}.
Proof.
  induction 1 as [|q m' _ _ (w & c & ->)|id type m' _ (w & c & ->) _|id type m' _ (w & c & ->) _]; cbn; [|by eexists _, _..].
  exists (world m), (accountTypeCache_ m). by destruct m.
Qed.

Lemma only_asked_trans m1 m2 m3 : only_asked m1 m2 → only_asked m2 m3 → only_asked m1 m3.
Proof. intros H. induction 1; [done|by apply asked_question|by apply asked_type|by apply asked_unknown_type]. Qed.

(** What questions keep of the world stays. *)
Lemma only_asked_world (P : W → Prop) m m' :
  (∀ q w, question q → P w → P (q w)) → only_asked m m' → P (world m) → P (world m').
Proof.
  intros HP H Hm. induction H as [|q m' Hq _ IH|id type m' _ IH _|id type m' _ IH _]; cbn; auto;
    by apply (HP (λ w, (Tee_GetOsAccountType id w).2)); [constructor|].
Qed.

Lemma only_asked_refl m : only_asked m m.
Proof. constructor. Qed.
Lemma untouched_refl s : untouched s s.
Proof. split; [apply only_asked_refl|done]. Qed.
Lemma untouched_trans s s1 s2 : untouched s s1 → untouched s1 s2 → untouched s s2.
Proof.
  intros [A (A1 & A2 & A3 & A4)] [B (B1 & B2 & B3 & B4)]. split; [by eapply only_asked_trans|].
  by rewrite B1, B2, B3, B4.
Qed.
Lemma untouched_frame s s' : untouched s s' → ∃ w c, let m := inner s in inner s' = {| m with world := w; accountTypeCache_ := c |}.
Proof. intros [H _]. by apply only_asked_frame. Qed.

Section Asked.
Context (m0 : Manager W).

Lemma asked_call {A} (f : M W A) : question (λ w, (f w).2) → preserves (only_asked m0) (call f).
Proof.
  intros Hq m Hm. pose proof (asked_question m0 _ m Hq Hm) as H. unfold call. cbn in *. by destruct (f (world m)) as [r w'].
Qed.
Lemma asked_ask {A} (f : W → A * W) : question (λ w, (f w).2) → preserves (only_asked m0) (ask f).
Proof.
  intros Hq m Hm. pose proof (asked_question m0 _ m Hq Hm) as H. unfold ask. cbn in *. by destruct (f (world m)) as [r w'].
Qed.
Hint Resolve asked_call asked_ask : mpres.
Hint Extern 1 (question _) => constructor : mpres.

Lemma asked_exists id : preserves (only_asked m0) (OsAccountQueries.IsOsAccountExists id).
Proof. unfold OsAccountQueries.IsOsAccountExists. preserve. Qed.
Lemma asked_refresh id type : preserves (only_asked m0) (RefreshAccountTypeInCache id type).
Proof.
  intros m Hm. unfold RefreshAccountTypeInCache, GetAccountTypeFromCache, SetAccountTypeInCache.
  rewrite mbind_assoc, run_get, run_ret.
  destruct (accountTypeCache_ m !! id); [done|]. rewrite run_try. unfold call.
  pose proof (λ t, asked_type m0 id t m Hm) as H1. pose proof (λ t, asked_unknown_type m0 id t m Hm) as H2.
  pose proof (asked_question m0 _ m (asks_type id) Hm) as H3. cbn beta in H3.
  destruct (Tee_GetOsAccountType id (world m)) as [[t|e] w'].
  - rewrite run_modify. by apply H1.
  - destruct (Z.eqb_spec e ERR_ACCOUNT_COMMON_TEE_ACCOUNT_NOT_EXIST) as [->|]; [|done]. rewrite run_modify. by apply H2.
Qed.
Hint Resolve asked_refresh : mpres.
Lemma asked_real id info : preserves (only_asked m0) (GetRealOsAccountInfoById id info).
Proof. unfold GetRealOsAccountInfoById, real_type, GetAccountTypeFromCache. preserve. Qed.
Hint Resolve asked_real : mpres.
Lemma asked_real_account id e : preserves (only_asked m0) (real_account id e).
Proof. unfold real_account. preserve. Qed.
Hint Resolve asked_real_account : mpres.
Lemma asked_constraint id c : preserves (only_asked m0) (OsAccountQueries.IsOsAccountConstraintEnable id c).
Proof. unfold OsAccountQueries.IsOsAccountConstraintEnable. preserve. Qed.
Lemma asked_multi : preserves (only_asked m0) OsAccountQueries.IsMultiOsAccountEnable.
Proof. unfold OsAccountQueries.IsMultiOsAccountEnable. preserve. Qed.
Lemma asked_active : preserves (only_asked m0) OsAccountQueries.QueryActiveOsAccountIds.
Proof. unfold OsAccountQueries.QueryActiveOsAccountIds, CopyFromActiveList. preserve. Qed.
End Asked.
Hint Resolve asked_call asked_ask asked_exists asked_real asked_real_account asked_constraint asked_multi asked_active : mpres.
Hint Extern 1 (question _) => constructor : mpres.

(** *** Checks *)

Create HintDb gates.
Section Gates.
Context (s0 : S).
Local Abbreviation harmless := (preserves (untouched s0)).

Lemma harmless_inner {A} (f : M (Manager W) A) : (∀ m, preserves (only_asked m) f) → harmless (innerManager_ f).
Proof.
  intros Hf s (Hi & Hs & Hc & H1 & H2). unfold innerManager_.
  specialize (Hf _ _ Hi). destruct (f (inner s)) as [r m] eqn:E. cbn [snd] in Hf.
  destruct (only_asked_frame _ _ Hi) as (w & c & Ei). destruct (only_asked_frame _ _ Hf) as (w' & c' & Ef).
  assert (He : drop (length (events (inner s))) (events m) = []).
  { rewrite Ei, Ef. cbn. apply drop_all. }
  rewrite He. cbn. unfold untouched; cbn. by rewrite app_nil_r.
Qed.

(** Whoever passes a check has [b]; whoever does not, does not get any further. *)
Definition checks {A} (b : bool) (m : M S A) : Prop :=
  ∀ s, untouched s0 s → untouched s0 (m s).2 ∧ (is_Ok (m s).1 = true → b = true).
Definition gated {A} (b : bool) (m : M S A) : Prop :=
  b = false → ∀ s, untouched s0 s → is_Ok (m s).1 = false ∧ untouched s0 (m s).2.

Lemma checks_harmless {A} b (m : M S A) : checks b m → harmless m.
Proof. intros Hm s Hs. by apply Hm. Qed.
Lemma harmless_checks {A} (m : M S A) : harmless m → checks true m.
Proof. intros Hm s Hs. split; [by apply Hm|done]. Qed.

Lemma gated_here {A B} b (m : M S A) (k : A → M S B) : checks b m → gated b (m ≫= k).
Proof.
  intros Hm Hb s Hs. rewrite mbind_unfold. destruct (Hm s Hs) as [H1 H2]. destruct (m s) as [[a|e] s']; cbn in *; [|done].
  by rewrite H2 in Hb.
Qed.
Lemma gated_later {A B} b (m : M S A) (k : A → M S B) : harmless m → (∀ a, gated b (k a)) → gated b (m ≫= k).
Proof.
  intros Hm Hk Hb s Hs. rewrite mbind_unfold. specialize (Hm s Hs). destruct (m s) as [[a|e] s']; cbn in *; [|done].
  by apply Hk.
Qed.
Lemma checks_later {A B} b (m : M S A) (k : A → M S B) : harmless m → (∀ a, checks b (k a)) → checks b (m ≫= k).
Proof.
  intros Hm Hk s Hs. rewrite mbind_unfold. specialize (Hm s Hs). destruct (m s) as [[a|e] s']; cbn in *; [|done].
  by apply Hk.
Qed.
Lemma checks_here {A B} b (m : M S A) (k : A → M S B) : checks b m → (∀ a, harmless (k a)) → checks b (m ≫= k).
Proof.
  intros Hm Hk s Hs. rewrite mbind_unfold. destruct (Hm s Hs) as [H1 H2]. destruct (m s) as [[a|e] s']; cbn in *; [|done].
  split; [by apply Hk|auto].
Qed.
Lemma checks_weaken {A} (b b' : bool) (m : M S A) : (b = true → b' = true) → checks b m → checks b' m.
Proof. intros H Hm s Hs. destruct (Hm s Hs). split; auto. Qed.
Lemma gated_both {A} b b' (m : M S A) : gated b m → gated b' m → gated (b && b') m.
Proof. intros H H' E. apply andb_false_iff in E as [E|E]; [by apply H|by apply H']. Qed.
Lemma gated_either {A} b b' (m : M S A) : gated b m → gated (b || b') m.
Proof. intros H E. apply orb_false_iff in E as [E _]. by apply H. Qed.
Lemma gated_assoc {A B C} b (m : M S A) (k : A → M S B) (l : B → M S C) :
  gated b (m ≫= λ a, k a ≫= l) → gated b ((m ≫= k) ≫= l).
Proof.
  intros H Hb s Hs. specialize (H Hb s Hs). rewrite !mbind_unfold in *. by destruct (m s) as [[a|e] s'].
Qed.
Lemma gated_bind_if {A B} b (c : bool) (m m' : M S A) (k : A → M S B) :
  gated b (if c then m ≫= k else m' ≫= k) → gated b ((if c then m else m') ≫= k).
Proof. by destruct c. Qed.
Lemma gated_err_bind {A B} b e (k : A → M S B) : gated b (merr e ≫= k).
Proof. by intros Hb s Hs. Qed.
Lemma gated_ret_bind {A B} b (a : A) (k : A → M S B) : gated b (k a) → gated b (mret a ≫= k).
Proof. intros H Hb s Hs. rewrite run_ret. by apply H. Qed.
Lemma gated_passed {A} b (m : M S A) : b = true → gated b m.
Proof. by intros ->. Qed.
Lemma gated_err {A} b e : gated b (merr e : M S A).
Proof. by intros Hb s Hs. Qed.
Lemma gated_true {A} (m : M S A) : gated true m.
Proof. done. Qed.
Lemma gated_if {A} b (c : bool) (m m' : M S A) : (c = true → gated b m) → (c = false → gated b m') → gated b (if c then m else m').
Proof. destruct c; auto. Qed.

Lemma checks_expect b e : (e = ERR_OK → b = true) → checks b (expect_ok (W := W) e).
Proof. intros H s Hs. unfold expect_ok. destruct (Z.eqb_spec e ERR_OK) as [E|]; split; auto; done. Qed.
Lemma checks_system : checks is_system_app (system_app (W := W)).
Proof. apply checks_expect. unfold is_system_app. by intros ->. Qed.

(** The same for a check that answers. *)
Definition passes (b : bool) (m : M S bool) : Prop :=
  ∀ s, untouched s0 s → untouched s0 (m s).2 ∧ ((m s).1 = Ok true → b = true).

Lemma checks_require b (m : M S bool) e : passes b m → checks b (require m e).
Proof.
  intros H s Hs. unfold require. rewrite mbind_unfold. destruct (H s Hs) as [H1 H2].
  destruct (m s) as [[[]|e'] s']; cbn in *; split; auto; done.
Qed.
Lemma passes_either b b' (m m' : M S bool) : passes b m → passes b' m' → passes (b || b') (either m m').
Proof.
  intros H H' s Hs. unfold either. rewrite mbind_unfold. destruct (H s Hs) as [H1 H2].
  destruct (m s) as [[[]|e] s1]; cbn in *; [split; [done|intros _; by rewrite H2]| |done].
  destruct (H' s1 H1) as [H3 H4]. split; [done|]. intros E. by rewrite H4, orb_true_r.
Qed.
Lemma passes_both b b' (m m' : M S bool) : passes b m → passes b' m' → passes (b && b') (both m m').
Proof.
  intros H H' s Hs. unfold both. rewrite mbind_unfold. destruct (H s Hs) as [H1 H2].
  destruct (m s) as [[[]|e] s1]; cbn in *; [|done..].
  destruct (H' s1 H1) as [H3 H4]. split; [done|]. intros E. by rewrite H2, H4.
Qed.

Lemma harmless_check p c : harmless (PermissionCheck (W := W) p c).
Proof. unfold PermissionCheck. pose proof (λ m, asked_constraint m callerUserId c). preserve. by apply harmless_inner. Qed.
Lemma passed_check p c s s' : PermissionCheck p c s = (Ok true, s') → may p = true.
Proof.
  unfold PermissionCheck, may. fold is_root. destruct is_root; [done|]. intros H. cbn [orb].
  rewrite mbind_unfold in H.
  match type of H with (let (_, _) := ?x in _) = _ => destruct x as [[[]|e] s1] end; try done.
  injection H as H _. destruct (string_empty p); [done|]. cbn [orb] in *. unfold VerifyPermission in H.
  by destruct (VerifyAccessToken _ _).
Qed.
Lemma passes_check p c : passes (may p) (PermissionCheck p c).
Proof. intros s Hs. split; [by apply harmless_check|]. intros H%run_result. by apply passed_check in H. Qed.
Lemma checks_permission p c : checks (may p) (permission p c).
Proof. apply checks_require, passes_check. Qed.

(** An account of a user. *)
Lemma checks_restricted id : checks (of_user id) (CheckLocalIdRestricted id).
Proof.
  intros s Hs. unfold CheckLocalIdRestricted, of_user. destruct (_ =? _); [done|]. destruct (START_USER_ID <=? id); [done|].
  rewrite mbind_unfold. pose proof (harmless_inner _ (λ m, asked_exists m id) s Hs) as H.
  destruct (innerManager_ _ s) as [[[]|e] s1]; cbn in *; by split.
Qed.
Lemma checks_user id : checks (of_user id) (user_account id).
Proof.
  apply checks_later; [|intros; apply checks_restricted].
  eapply checks_harmless, (checks_expect true). done.
Qed.

Lemma checks_privilege t name l :
  SUPPORT_AUTHORIZATION = true → checks (has_privilege t l) (PrivilegeCheck t name l).
Proof.
  intros E s Hs. unfold PrivilegeCheck, has_privilege. rewrite E. cbn [negb orb]. destruct t as [t|].
  - split; [|done]. revert s Hs. change (harmless (_ ← innerManager_ (call (VerifyToken t name GetCallingPid)); mret false)).
    preserve. apply harmless_inner. intros m. apply asked_call. constructor.
  - destruct (init_list_find GetCallingUid l) as [[b|e]|]; done.
Qed.

Lemma harmless_expect e : harmless (expect_ok (W := W) e).
Proof. eapply checks_harmless, (checks_expect true). done. Qed.
Lemma harmless_system : harmless (system_app (W := W)).
Proof. apply harmless_expect. Qed.
Lemma harmless_permission p c : harmless (permission (W := W) p c).
Proof. eapply checks_harmless, checks_permission. Qed.
Lemma harmless_user id : harmless (user_account (W := W) id).
Proof. eapply checks_harmless, checks_user. Qed.
Lemma harmless_restricted id : harmless (CheckLocalIdRestricted (W := W) id).
Proof. eapply checks_harmless, checks_restricted. Qed.
Hint Resolve harmless_inner harmless_check harmless_expect harmless_system harmless_permission harmless_user
  harmless_restricted : mpres.
Lemma harmless_multi : harmless (multi_enabled (W := W)).
Proof. unfold multi_enabled, IsMultiOsAccountEnable. pose proof asked_multi. preserve. Qed.
Lemma harmless_admin type : harmless (admin_allowed (W := W) type).
Proof. unfold admin_allowed. preserve. Qed.
Hint Resolve harmless_multi harmless_admin : mpres.

Lemma harmless_privilege t name l : harmless (PrivilegeCheck (W := W) t name l).
Proof.
  unfold PrivilegeCheck. destruct t as [t|]; [preserve|].
  destruct (init_list_find GetCallingUid l) as [[b|e]|]; preserve.
Qed.
Lemma harmless_validate t : harmless (ValidateToken (W := W) t).
Proof. unfold ValidateToken. preserve. Qed.
Hint Resolve harmless_privilege harmless_validate : mpres.

(** Creation. *)
Lemma checks_create name type :
  checks (CheckCreateOsAccountWhiteList || may MANAGE_LOCAL_ACCOUNTS) (ValidateAccountCreateParamAndPermission name type).
Proof.
  unfold ValidateAccountCreateParamAndPermission. apply checks_here; [|intros; preserve].
  destruct CheckCreateOsAccountWhiteList; [apply harmless_checks; preserve|].
  eapply checks_weaken; [|apply checks_require, passes_both; apply passes_check]. by intros [_ ?]%andb_true_iff.
Qed.

(** The first account gets its names only from a caller with the permission. *)
Lemma gated_first_account {A} b name short type (k : bool → M S A) :
  (b = false → may MANAGE_LOCAL_ACCOUNTS = false) → gated b (k false) → gated b (name_first_account name short type ≫= k).
Proof.
  intros Hmay Hk Hb s Hs. unfold name_first_account. rewrite !mbind_unfold. unfold mtry.
  pose proof (harmless_inner _ (λ m, asked_real_account m START_USER_ID ERR_ACCOUNT_COMMON_ACCOUNT_NOT_EXIST_ERROR) s Hs) as H.
  destruct (innerManager_ _ s) as [[info|e] s1]; cbn in *; [|done].
  destruct (_ && _); [|by apply Hk].
  rewrite mbind_unfold. destruct (checks_permission MANAGE_LOCAL_ACCOUNTS "" s1 H) as [H1 H2].
  destruct (permission MANAGE_LOCAL_ACCOUNTS "" s1) as [[u|e] s2]; cbn [fst snd] in *; [|done].
  specialize (Hmay Hb). specialize (H2 eq_refl). congruence.
Qed.

Lemma passes_subscriber : checks is_subscriber (subscriber_permission (W := W)).
Proof. apply checks_require, passes_either; [apply passes_check|]. apply passes_either; apply passes_check. Qed.
Lemma harmless_subscriber : harmless (subscriber_permission (W := W)).
Proof. eapply checks_harmless, passes_subscriber. Qed.
Hint Resolve checks_system checks_permission checks_restricted checks_user checks_privilege checks_create
  passes_subscriber : gates.

Lemma harmless_create name type : harmless (ValidateAccountCreateParamAndPermission name type).
Proof. eapply checks_harmless, checks_create. Qed.
Lemma harmless_require b m e : passes b m → harmless (require m e).
Proof. intros H. by eapply checks_harmless, checks_require. Qed.
Lemma harmless_both p c p' c' e : harmless (require (both (PermissionCheck p c) (PermissionCheck p' c')) e).
Proof. eapply harmless_require, passes_both; apply passes_check. Qed.
Lemma checks_both p c c' e : checks (may p) (require (both (PermissionCheck p c) (PermissionCheck "" c')) e).
Proof. eapply checks_weaken; [|apply checks_require, passes_both; apply passes_check]. by intros [? _]%andb_true_iff. Qed.
Lemma harmless_no_token t : harmless (no_token (W := W) t).
Proof. unfold no_token. preserve. Qed.
Hint Resolve harmless_create harmless_both harmless_no_token : mpres.
Hint Resolve checks_both : gates.
Lemma checks_if_privilege t name l (m : M S unit) :
  harmless m →
  checks (has_privilege t l) (if SUPPORT_AUTHORIZATION then _ ← PrivilegeCheck t name l; mret tt else m).
Proof.
  intros Hm. destruct SUPPORT_AUTHORIZATION eqn:E.
  - apply checks_here; [by apply checks_privilege|intros; preserve].
  - intros s Hs. split; [by apply Hm|]. unfold has_privilege. by rewrite E.
Qed.
Lemma checks_token t : checks (has_privilege t []) (ValidateToken t).
Proof.
  intros s Hs. split; [by apply harmless_validate|]. unfold ValidateToken, has_privilege.
  destruct SUPPORT_AUTHORIZATION; [|done]. by destruct t.
Qed.
Hint Resolve checks_if_privilege harmless_no_token preserves_ret checks_token : gates.

(** Follows a request to each of its checks. *)
Ltac gate_here := apply gated_here; solve [eauto with gates].
Ltac gate_small := by intros [_ ?]%orb_false_iff.
Ltac gate_step :=
  lazymatch goal with
  | |- gated (_ && _) _ => apply gated_both
  | |- gated true _ => apply gated_true
  | |- gated _ (merr _) => apply gated_err
  | |- gated _ (merr _ ≫= _) => apply gated_err_bind
  | |- gated _ (if _ then _ else _) => apply gated_if; intros ?
  | |- gated _ (match ?x with _ => _ end) => destruct x
  | |- gated _ (let x := _ in _) => cbv zeta
  | |- gated _ (mret _ ≫= _) => apply gated_ret_bind
  | |- gated _ ((_ ≫= _) ≫= _) => first [gate_here | apply gated_assoc]
  | |- gated _ ((if _ then _ else _) ≫= _) => first [gate_here | apply gated_bind_if]
  | |- gated _ (name_first_account _ _ _ ≫= _) => apply gated_first_account; [gate_small|]
  | |- gated _ _ => first [gate_here | apply gated_later; [solve [preserve] | intros ?]]
  end.
Ltac gate :=
  repeat gate_step;
  try (apply gated_passed; unfold of_user, has_privilege;
       repeat match goal with H : ?b = _ |- context [?b] => rewrite H end; cbn [negb orb andb]; first [reflexivity | lia]).

Lemma gated_request q : gated (authorized q) (serve q).
Proof.
  destruct q; cbn [authorized serve].
  2: unfold CreateOsAccount_options_raw, CreateOsAccount_options; destruct ENABLE_ACCOUNT_SHORT_NAME; cbn [orb].
  all: autounfold with requests.
  all: try (destruct (needAcross info) eqn:Ea; unfold constraint_subscriber; rewrite Ea).
  all: gate.
Qed.

(** *** Constraints *)

(** The account has the constraint whenever it is asked while nothing else happens. *)
Definition constrained (id : Z) (c : string) (s : S) : Prop :=
  ∀ s', untouched s s' → (OsAccountQueries.IsOsAccountConstraintEnable id c (inner s')).1 = Ok true.

Lemma run_constrained id c s :
  untouched s0 s → constrained id c s0 →
  ∃ s', innerManager_ (OsAccountQueries.IsOsAccountConstraintEnable id c) s = (Ok true, s') ∧ untouched s0 s'.
Proof.
  intros Hs Hc. pose proof (harmless_inner _ (λ m, asked_constraint m id c) s Hs) as H. specialize (Hc s Hs).
  unfold innerManager_ in *. destruct (OsAccountQueries.IsOsAccountConstraintEnable id c (inner s)) as [r m].
  cbn in Hc. subst r. destruct (publish_events _ _) as [cs subs]. eexists. by split.
Qed.

Lemma passes_constrained p c :
  is_root = false → string_empty c = false → constrained callerUserId c s0 → passes false (PermissionCheck p c).
Proof.
  intros Hr He Hc s Hs. split; [by apply harmless_check|]. unfold PermissionCheck. fold is_root. rewrite Hr, He.
  destruct (run_constrained _ _ s Hs Hc) as (s1 & E & _). rewrite !mbind_unfold. unfold mtry. by rewrite E.
Qed.
Lemma checks_constrained p c :
  is_root = false → string_empty c = false → constrained callerUserId c s0 → checks false (permission p c).
Proof. intros Hr He Hc. apply checks_require. by apply passes_constrained. Qed.
Lemma checks_both_constrained p c p' c' e :
  is_root = false → string_empty c = false → string_empty c' = false →
  constrained callerUserId c s0 ∨ constrained callerUserId c' s0 →
  checks false (require (both (PermissionCheck p c) (PermissionCheck p' c')) e).
Proof.
  intros Hr He He' [Hc|Hc]; (eapply checks_weaken; [|apply checks_require, passes_both];
    [|by eapply passes_constrained|apply passes_check]) || (eapply checks_weaken; [|apply checks_require, passes_both];
    [|apply passes_check|by eapply passes_constrained]); [done|by rewrite andb_false_r].
Qed.
Lemma checks_create_constrained name type :
  is_root = false → CheckCreateOsAccountWhiteList = false →
  constrained callerUserId CONSTANT_CREATE_DIRECTLY s0 ∨ constrained callerUserId CONSTANT_CREATE s0 →
  checks false (ValidateAccountCreateParamAndPermission name type).
Proof.
  intros Hr Hw Hc. unfold ValidateAccountCreateParamAndPermission. rewrite Hw. apply checks_here; [|intros; preserve].
  by apply checks_both_constrained.
Qed.
Hint Resolve checks_constrained checks_both_constrained checks_create_constrained : gates.

(** The accounts and constraints that forbid a request.  Root is excused from those on the
    caller, the device management service from those on creation. *)
Definition forbidden_by (q : Request) : list (Z * string) :=
  let on_caller cs := if is_root then [] else (pair callerUserId) <$> cs in
  match q with
  | Create _ _ => if CheckCreateOsAccountWhiteList then [] else on_caller [CONSTANT_CREATE_DIRECTLY; CONSTANT_CREATE]
  | CreateNamed _ _ _ _ _ =>
      if CheckCreateOsAccountWhiteList then []
      else on_caller [CONSTANT_CREATE_DIRECTLY; CONSTANT_CREATE]
  | CreateFull _ _ => on_caller [CONSTANT_CREATE; CONSTANT_CREATE_DIRECTLY]
  | Remove _ _ | RemovePlain _ => on_caller [CONSTANT_REMOVE]
  | SetPhoto _ _ => on_caller [CONSTANT_SET_ICON]
  | Activate _ _ => on_caller [CONSTANT_ACTIVATE]
  | SetType id _ _ => [(id, CONSTANT_SET_TYPE)]
  | _ => []
  end.

Lemma gated_type id type token : constrained id CONSTANT_SET_TYPE s0 → gated false (SetOsAccountType id type token).
Proof.
  intros Hc. unfold SetOsAccountType. apply gated_later; [preserve|]. intros _. apply gated_later; [preserve|]. intros _ _ s Hs.
  destruct (run_constrained _ _ s Hs Hc) as (s1 & E & H1). rewrite mbind_unfold. unfold mtry. rewrite E. by split.
Qed.

(** The first account has names, whenever it is asked for while nothing else happens. *)
Definition first_account_named (s : S) : Prop :=
  ∀ s', untouched s s' →
    match (real_account START_USER_ID ERR_ACCOUNT_COMMON_ACCOUNT_NOT_EXIST_ERROR (inner s')).1 with
    | Ok info => string_empty (shortName_ info) && string_empty (accountName_ (domainInfo_ info)) = false
    | Err _ => True
    end.

(** In builds with short names a creation with names may be the naming of the first account
    instead, for which no constraint is looked up (OsAccountServiceWorld.v has the theorem). *)
Definition is_creation (q : Request) (s : S) : Prop :=
  match q with CreateNamed _ _ _ _ _ => ENABLE_ACCOUNT_SHORT_NAME = true → first_account_named s | _ => True end.

Lemma gated_named {A} b name short type (k : bool → M S A) :
  first_account_named s0 → gated b (k false) → gated b (name_first_account name short type ≫= k).
Proof.
  intros Hn Hk Hb s Hs. unfold name_first_account. rewrite !mbind_unfold. unfold mtry.
  pose proof (harmless_inner _ (λ m, asked_real_account m START_USER_ID ERR_ACCOUNT_COMMON_ACCOUNT_NOT_EXIST_ERROR) s Hs) as H.
  specialize (Hn s Hs). unfold innerManager_ in *.
  destruct (real_account START_USER_ID ERR_ACCOUNT_COMMON_ACCOUNT_NOT_EXIST_ERROR (inner s)) as [[info|e] m]; cbn [fst] in Hn;
    destruct (publish_events _ _) as [cs subs]; cbn [snd] in H; [|done].
  rewrite Hn. by apply Hk.
Qed.

Lemma gated_forbidden q id c : is_creation q s0 → (id, c) ∈ forbidden_by q → constrained id c s0 → gated false (serve q).
Proof.
  intros Hfirst Hq Hc. destruct q; cbn [forbidden_by serve is_creation] in *; try by apply not_elem_of_nil in Hq.
  all: try (apply list_elem_of_singleton in Hq as [= -> ->]; by apply gated_type).
  all: destruct CheckCreateOsAccountWhiteList eqn:Ew; try by apply not_elem_of_nil in Hq.
  all: destruct is_root eqn:Er; try by apply not_elem_of_nil in Hq.
  all: cbn in Hq.
  all: repeat match type of Hq with
       | _ ∈ [_] => apply list_elem_of_singleton in Hq as [= -> ->]
       | _ ∈ _ :: _ => apply elem_of_cons in Hq as [[= -> ->]|Hq]
       end.
  all: try (autounfold with requests; gate; fail).
  all: unfold CreateOsAccount_options_raw, CreateOsAccount_options; (apply gated_later; [preserve|]); intros _;
    destruct ENABLE_ACCOUNT_SHORT_NAME; [apply gated_named; [by apply Hfirst|]|]; gate.
Qed.
End Gates.

(** C3. A request that its caller may not make leaves no trace: when the caller is not a
    system application where one is needed, has not the permissions (or is root where root
    may do anything), gives no token and is not excused from giving one, or means an
    account of the system, then the request is refused, the rest of the system (files,
    trusted environment, other services) is asked questions and nothing else, nothing is
    announced or published, and of the service nothing changes but the types of accounts
    that it keeps after it has asked the trusted environment.  (With names for the first account,
    a creation may pass without a token.) *)
Theorem unauthorized_requests_leave_no_trace (q : Request) (s : S) :
  authorized q = false → is_Ok (serve q s).1 = false ∧ untouched s (serve q s).2.
Proof. intros H. apply (gated_request s q H), untouched_refl. Qed.

(** C11. A constraint on an account forbids what it names: while the account of the caller is
    under the constraint on creating, removing or activating accounts or on photos, or the
    account meant under the one on types, such a request is refused and leaves no trace:
    the rest of the system is asked questions and nothing else, and of the service nothing
    changes but the types of accounts that it keeps.  Root is excused outside of release
    versions, and the device management service from the constraints on creation; in a build
    with short names a request to create an account with names counts as one when the first
    account has names, because it gives them to the first account otherwise. *)
Theorem constrained_requests_leave_no_trace (q : Request) (id : Z) (c : string) (s : S) :
  is_creation q s → (id, c) ∈ forbidden_by q → constrained id c s →
  is_Ok (serve q s).1 = false ∧ untouched s (serve q s).2.
Proof. intros Hn Hq Hc. apply (gated_forbidden s q id c Hn Hq Hc eq_refl), untouched_refl. Qed.
End Requests.

#[export] Hint Resolve asked_call asked_ask asked_exists asked_real asked_real_account asked_constraint asked_multi
  asked_active harmless_inner harmless_check harmless_expect harmless_system harmless_permission harmless_user
  harmless_restricted harmless_multi harmless_admin harmless_privilege harmless_validate harmless_create harmless_both
  harmless_no_token harmless_subscriber : mpres.
#[export] Hint Extern 1 (question _) => constructor : mpres.
