(* ===== verification/OsAccountServiceState.v ===== *)
(** The state behind the front end of the service of accounts: whatever requests callers
    make, the displays agree with the accounts that are active, and the two managers of
    subscriptions hold what the requests that were served asked for. *)
From Stdlib Require Import ZArith Lia Ascii String.
From stdpp Require Import base list gmap sets strings pretty sorting relations.
From S2P Require Import Prelude ErrorCodes Json FileStore OsAccountInfo OsAccountEnv OsAccountFiles OsAccountConstraints AppIndex OsAccountServices OsAccountInterface OsAccountManager OsAccountFrame OsAccountCreation OsAccountQueries OsAccountMarks OsAccountForeground OsAccountActivation OsAccountLifecycle OsAccountSubscribe OsAccountConstraintSubscribe OsAccountNotices OsAccountConstraintNotices AccountPermission OsAccountService OsAccountServiceTheorems.
Import OsAccountManagerService.

(** ** Displays *)

(** ** What a check keeps *)

Section Kept.
Context {W : Type} {tee : TeeAdapter W} {control : OsAccountControl W} {sparts : ServiceParts W} (P : Service W → Prop).

Lemma kept_harmless {A} (f : M (Service W) A) :
  (∀ s s', untouched s s' → P s → P s') → (∀ s0, preserves (untouched s0) f) → preserves P f.
Proof. intros HP Hf s Hs. by eapply HP, Hs; apply Hf, untouched_refl. Qed.
Lemma wp_kept {A} (f : M (Service W) A) (Q : result A → Service W → Prop) s :
  preserves P f → P s → (∀ r s', P s' → Q r s') → wp f Q s.
Proof. intros Hf Hs HQ. apply HQ, Hf, Hs. Qed.
End Kept.

(** Follows a request; [HP] says that what is kept does not depend on what was only asked. *)
Ltac kept HP := repeat first [preserve_step | apply (kept_harmless _ _ HP); intros ?; solve [preserve]].

Section Displays.
Context {W : Type} {sw : OsSwitches} {ssw : ServiceSwitches} {cfg : Config} {oscfg : OsConfig} {sysconf : Sysconf}.
Context {cjson : CJsonLib} {fs : FileStore W}.
Context {ams : AbilityManager W} {bms : BundleManager W} {storage : StorageManager W} {idm : UserIdm W}.
Context {tee : TeeAdapter W} {displays : Displays W} {parts : AccountParts W} {control : OsAccountControl W}.
Context {sparts : ServiceParts W}.
Context {switch_laws : SwitchesLaws} {ams_laws : AbilityManagerLaws W} {display_laws : DisplaysLaws W}.
Context {control_laws : OsAccountControlLaws W}.
Local Abbreviation S := (Service W).
Local Abbreviation agrees := (OsAccountActivation.agrees (W := W)).

Hint Resolve agrees_mark agrees_remove_mark agrees_unmark agrees_CleanGarbage agrees_Recover agrees_Deactivate
  agrees_SetToBeRemoved agrees_Lock agrees_Verified agrees_StartWith agrees_ChangeType agrees_UpdateInfo agrees_Remove
  agrees_recover_first agrees_prepare agrees_create_token agrees_owner agrees_create agrees_create_options agrees_name
  agrees_photo agrees_all_constraints agrees_base agrees_global agrees_specific agrees_event agrees_query : mpres.

(** *** The requests *)

Section Requests.
Context {ipc : Ipc}.
Local Abbreviation in_step := (λ s : S, agrees (inner s)).

Lemma step_inner {A} (f : M (Manager W) A) : preserves agrees f → preserves in_step (innerManager_ f).
Proof.
  intros Hf s Hs. unfold innerManager_. specialize (Hf _ Hs). destruct (f (inner s)) as [r m].
  by destruct (publish_events _ _).
Qed.
Lemma step_states f : preserves in_step (subscribeManager_ f).
Proof. intros s Hs. unfold subscribeManager_. by destruct (f (subscribers s)). Qed.
Lemma step_constraints f : preserves in_step (constraintManger_ f).
Proof. intros s Hs. unfold constraintManger_. by destruct (f (constraint_subscribers s)). Qed.
Lemma step_publish id cs b : preserves in_step (publish_constraints id cs b).
Proof. by intros s Hs. Qed.
Hint Resolve step_inner step_states step_constraints step_publish : mpres.
Lemma step_harmless s s' : untouched s s' → in_step s → in_step s'.
Proof. intros (w & c & E)%untouched_frame. rewrite E. by destruct (inner s). Qed.
Ltac steps := kept step_harmless.

Lemma step_constraint_publish olds cs id b : preserves in_step (ConstraintPublish olds cs id b).
Proof. unfold ConstraintPublish. steps. Qed.
Hint Resolve step_constraint_publish : mpres.
Lemma step_all_constraints ids m : preserves in_step (all_constraints ids m).
Proof. revert m. induction ids as [|id ids IH]; intros m; cbn [all_constraints]; steps. Qed.
Lemma step_publish_all olds cs b : preserves in_step (publish_all olds cs b).
Proof. induction olds as [|[id old] olds IH]; cbn [publish_all]; steps. Qed.
Lemma step_deactivate_all ids e : preserves in_step (deactivate_all ids e).
Proof. revert e. induction ids as [|id ids IH]; intros e; cbn [deactivate_all]; steps. Qed.
Lemma step_current id : preserves in_step (GetCurrentLocalId id).
Proof. unfold GetCurrentLocalId. steps. Qed.
Lemma step_with_constraints info f : preserves in_step (with_constraints info f).
Proof. unfold with_constraints. steps. Qed.
Lemma step_first name short type : preserves in_step (name_first_account name short type).
Proof. unfold name_first_account. steps. Qed.
Lemma step_activate id start recovery : preserves in_step (innerManager_ (ignore (OsAccountManager.ActivateOsAccount id start DEFAULT_DISPLAY_ID recovery))).
Proof. apply step_inner, preserves_ignore. intros m Hm. apply agrees_Activate; [by left|done]. Qed.
Hint Resolve step_all_constraints step_publish_all step_deactivate_all step_current step_with_constraints step_first
  step_activate : mpres.

(** A request that may come in a state: where several accounts cannot be active, no account
    is activated without a display; and [CreateOsAccountWithFullInfo] is not asked for an
    account that is shown, nor with an object that says it is in the foreground. *)
Definition admissible (q : Request) (s : S) : Prop :=
  match q with
  | Activate _ displayId => displayId ≠ INVALID_DISPLAY_ID ∨ ENABLE_MULTIPLE_ACTIVE_ACCOUNTS = true
  | CreateFull info _ => isForeground_ info = false ∧ ∀ d, foregroundAccountMap_ (inner s) !! d ≠ Some (localId_ info)
  | _ => True
  end.

Lemma step_serve q :
  match q with Activate _ _ | CreateFull _ _ => False | _ => True end → preserves in_step (serve q).
Proof.
  destruct q; intros Hq; try done; cbn [serve]; autounfold with requests; unfold constraint_subscriber; steps.
Qed.

Lemma step_activate_on id d : keeps_others d → preserves in_step (serve (Activate id d)).
Proof.
  intros Hd. cbn [serve]. autounfold with requests. steps. apply step_inner. intros m Hm. by apply agrees_Activate.
Qed.

(** Checks, and then the request itself. *)
Lemma leads {A B} (I P : S → Prop) (m : M S A) (k : A → M S B) s :
  (∀ s0, preserves (untouched s0) m) → (∀ s s', untouched s s' → I s → I s') → (∀ s, I s → P s) →
  (∀ a s, I s → P (k a s).2) → I s → P ((m ≫= k) s).2.
Proof using Type.
  intros Hm HI HP Hk Hs. rewrite mbind_unfold. specialize (Hm s s (untouched_refl s)).
  apply HI in Hm; [|done]. destruct (m s) as [[a|e] s']; [by apply Hk|by apply HP].
Qed.

Lemma step_create_full info options s : admissible (CreateFull info options) s → in_step s → in_step (serve (CreateFull info options) s).2.
Proof.
  intros [Hfg Hn] Hs. set (I := λ s : S, in_step s ∧ ∀ d, foregroundAccountMap_ (inner s) !! d ≠ Some (localId_ info)).
  assert (HI : ∀ s s', untouched s s' → I s → I s').
  { intros t t' (w & c & E)%untouched_frame. unfold I. rewrite E. by destruct (inner t). }
  assert (HP : ∀ s, I s → in_step s) by (by intros t [? _]).
  assert (HC : ∀ s, I s → in_step (innerManager_ (OsAccountCreation.CreateOsAccountWithFullInfo info options) s).2).
  { intros t [Ht Hnt]. pose proof (agrees_CreateFull info options (inner t) Hfg Hnt Ht) as H. unfold innerManager_.
    destruct (OsAccountCreation.CreateOsAccountWithFullInfo info options (inner t)) as [r m]. by destruct (publish_events _ _). }
  assert (H0 : I s) by done. clearbody I. cbn [serve]. unfold CreateOsAccountWithFullInfo.
  destruct (ParamCheck info); [|by apply HP].
  repeat (apply (leads I); [intros; solve [preserve]|done|done| |done]; let t := fresh "t" in intros _ t ?).
  by apply HC.
Qed.

Lemma step_request q s : admissible q s → in_step s → in_step (serve q s).2.
Proof.
  intros Hq Hs. destruct q; try by apply step_serve.
  - by apply step_create_full.
  - by apply step_activate_on.
Qed.
End Requests.

(** The requests of callers, one after the other, however each of them ends. *)
Fixpoint serve_callers (l : list (Ipc * Request)) (s : S) : S :=
  match l with
  | [] => s
  | (ipc, q) :: l => serve_callers l (serve q s).2
  end.

(** Each of them may come when it does. *)
Fixpoint admissible_calls (l : list (Ipc * Request)) (s : S) : Prop :=
  match l with
  | [] => True
  | (ipc, q) :: l => admissible q s ∧ admissible_calls l (serve q s).2
  end.

Lemma step_calls l s : admissible_calls l s → agrees (inner s) → agrees (inner (serve_callers l s)).
Proof.
  revert s. induction l as [|[ipc q] l IH]; intros s; cbn [serve_callers admissible_calls]; [done|].
  intros [Hq Hl] Hs. by apply IH, step_request.
Qed.

(** C15. An account in the foreground is active, on one display only, and on one that is a
    display, whoever asks for what: this holds after any requests of any callers to the
    front end of the service, one after the other, from the start of the service on and
    however each of them ends, if each of them is [admissible] when it comes.  That leaves
    out two things.  In a build where only one account can be active, none is activated
    without a display; and [CreateOsAccountWithFullInfo] is not asked for an account that
    is in the foreground, nor with an object that says so. *)
Theorem front_end_keeps_displays (l : list (Ipc * Request)) (s : S) :
  activeAccountId_ (inner s) = [] → foregroundAccountMap_ (inner s) = ∅ → admissible_calls l s →
  ∀ displayId id, foregroundAccountMap_ (inner (serve_callers l s)) !! displayId = Some id →
    id ∈ activeAccountId_ (inner (serve_callers l s)) ∧ displayId ≠ INVALID_DISPLAY_ID ∧
    (∀ displayId', foregroundAccountMap_ (inner (serve_callers l s)) !! displayId' = Some id → displayId' = displayId).
Proof. intros Ha Hf Hl. by apply agrees_shown, step_calls, agrees_start. Qed.
End Displays.

(** ** Subscriptions *)

Section Subscriptions.
Context {W : Type} {sw : OsSwitches} {ssw : ServiceSwitches} {cfg : Config} {oscfg : OsConfig} {sysconf : Sysconf}.
Context {cjson : CJsonLib} {fs : FileStore W}.
Context {ams : AbilityManager W} {bms : BundleManager W} {storage : StorageManager W} {idm : UserIdm W}.
Context {tee : TeeAdapter W} {displays : Displays W} {parts : AccountParts W} {control : OsAccountControl W}.
Context {sparts : ServiceParts W}.
Local Abbreviation S := (Service W).
Local Abbreviation Wishes := (gmap Listener (Subscriptions.OsAccountSubscribeInfo * Z)).

Lemma keeps_published es m (w : Wishes) :
  OsAccountNotices.keeps m w → OsAccountNotices.keeps (publish_events es m).2 w.
Proof.
  revert m. induction es as [|e es IH]; intros m Hm; [done|]. destruct e; cbn [publish_events]; try by apply IH.
  match goal with |- context [Subscriptions.PublishToAllSubscribers ?n m] => pose proof (OsAccountNotices.keeps_serve (OsAccountNotices.Announce n) m w Hm) as H end.
  cbn in H. specialize (IH _ H). by destruct (publish_events _ _).
Qed.

Section Requests.
Context {ipc : Ipc} (w : Wishes).
Local Abbreviation kept_wishes := (λ s : S, OsAccountNotices.keeps (subscribers s) w).

Lemma wishes_inner {A} (f : M (Manager W) A) : preserves kept_wishes (innerManager_ f).
Proof.
  intros s Hs. unfold innerManager_. destruct (f (inner s)) as [r m].
  pose proof (keeps_published (drop (length (events (inner s))) (events m)) _ _ Hs) as H.
  by destruct (publish_events _ _).
Qed.
Lemma wishes_constraints f : preserves kept_wishes (constraintManger_ f).
Proof. intros s Hs. unfold constraintManger_. by destruct (f (constraint_subscribers s)). Qed.
Lemma wishes_publish id cs b : preserves kept_wishes (publish_constraints id cs b).
Proof. by intros s Hs. Qed.
Hint Resolve wishes_inner wishes_constraints wishes_publish : mpres.
Lemma wishes_harmless (s s' : S) : untouched s s' → kept_wishes s → kept_wishes s'.
Proof. by intros (_ & -> & _). Qed.
Ltac same := kept wishes_harmless.

Lemma wishes_constraint_publish olds cs id b : preserves kept_wishes (ConstraintPublish olds cs id b).
Proof. unfold ConstraintPublish. same. Qed.
Hint Resolve wishes_constraint_publish : mpres.
Lemma wishes_all_constraints ids m : preserves kept_wishes (all_constraints ids m).
Proof. revert m. induction ids as [|id ids IH]; intros m; cbn [all_constraints]; same. Qed.
Lemma wishes_publish_all olds cs b : preserves kept_wishes (publish_all olds cs b).
Proof. induction olds as [|[id old] olds IH]; cbn [publish_all]; same. Qed.
Lemma wishes_deactivate_all ids e : preserves kept_wishes (deactivate_all ids e).
Proof. revert e. induction ids as [|id ids IH]; intros e; cbn [deactivate_all]; same. Qed.
Hint Resolve wishes_all_constraints wishes_publish_all wishes_deactivate_all : mpres.

(** What a request that was served asks for. *)
Definition wishes_after (q : Request) (r : result unit) : Wishes :=
  match q, r with
  | Subscribe info l, Ok _ => OsAccountNotices.spec_serve (OsAccountNotices.Subscribe GetCallingUid (Some info) l) w
  | Unsubscribe l, Ok _ => OsAccountNotices.spec_serve (OsAccountNotices.Unsubscribe l) w
  | _, _ => w
  end.

Lemma wishes_serve q :
  match q with Subscribe _ _ | Unsubscribe _ => False | _ => True end → preserves kept_wishes (serve q).
Proof.
  destruct q; intros Hq; try done; cbn [serve]; autounfold with requests;
    unfold constraint_subscriber, with_constraints, GetCurrentLocalId, name_first_account; same.
Qed.

Lemma wishes_request q s :
  kept_wishes s → wp (serve q) (λ r s', OsAccountNotices.keeps (subscribers s') (wishes_after q r)) s.
Proof.
  intros Hs. destruct q; try (unfold wp; apply wishes_serve; [done|exact Hs]); cbn [serve];
    autounfold with requests; apply wp_bind.
  all: eapply (wp_kept kept_wishes); [same|exact Hs|]; intros [_|e] s1 H1; [|done].
  1: destruct (_ && _); [by apply wp_err|].
  all: apply wp_bind; eapply (wp_kept kept_wishes); [same|exact H1|]; intros [_|e] s2 H2; [|done].
  - unfold wp, subscribeManager_.
    pose proof (OsAccountNotices.keeps_serve (OsAccountNotices.Subscribe GetCallingUid (Some info) l) _ _ H2) as K.
    destruct l as [l|]; cbn in K |- *; [|done]. exact K.
  - unfold wp, subscribeManager_.
    pose proof (OsAccountNotices.keeps_serve (OsAccountNotices.Unsubscribe l) _ _ H2) as K. destruct l as [l|]; [|done].
    cbn in K |- *. unfold Subscriptions.RemoveSubscribeRecord in *.
    destruct (Subscriptions.find_record l (subscribers s2)) as [[p r]|]; exact K.
Qed.
End Requests.

(** What the requests of callers that were served, one after the other, asked for. *)
Fixpoint wishes_of (l : list (Ipc * Request)) (s : S) (w : Wishes) : Wishes :=
  match l with
  | [] => w
  | (ipc, q) :: l => let '(r, s') := serve q s in wishes_of l s' (wishes_after w q r)
  end.

(** C16. The manager of subscriptions holds what was asked for and nothing else: after any
    requests of any callers it is the map from listeners to wishes that the subscriptions
    and unsubscriptions that were served make, each with the uid of its caller; those that
    were refused, and all other requests, with everything they announce, change no wish. *)
Theorem subscriptions_follow_requests (l : list (Ipc * Request)) (s : S) (w : Wishes) :
  OsAccountNotices.keeps (subscribers s) w →
  OsAccountNotices.keeps (subscribers (serve_callers l s)) (wishes_of l s w).
Proof.
  revert s w. induction l as [|[ipc q] l IH]; intros s w Hs; [done|]. cbn [serve_callers wishes_of].
  pose proof (wishes_request w q s Hs) as H. unfold wp in H. destruct (serve q s) as [r s']. by apply IH.
Qed.
End Subscriptions.
