(* ===== verification/OsAccountServiceWorld.v ===== *)
(** What some requests to the service of accounts come to, with the two faults in the front
    end that modelling it showed; and the theorems about it at work on a concrete
    service. *)
From Stdlib Require Import ZArith Lia Ascii String.
From stdpp Require Import base list gmap sets strings pretty sorting relations.
From S2P Require Import Prelude ErrorCodes Json FileStore OsAccountInfo OsAccountEnv OsAccountFiles OsAccountConstraints AppIndex OsAccountServices OsAccountInterface OsAccountManager OsAccountFrame OsAccountCreation OsAccountQueries OsAccountMarks OsAccountForeground OsAccountActivation OsAccountLifecycle OsAccountLifecycleWorld FileOperator FileTheorems OsAccountWorld OsAccountSubscribe OsAccountConstraintSubscribe OsAccountNotices OsAccountConstraintNotices AccountPermission OsAccountService OsAccountServiceTheorems OsAccountServiceState.
Import OsAccountManagerService.

Section Outcomes.
Context {W : Type} {sw : OsSwitches} {ssw : ServiceSwitches} {cfg : Config} {oscfg : OsConfig} {sysconf : Sysconf}.
Context {cjson : CJsonLib} {fs : FileStore W}.
Context {ams : AbilityManager W} {bms : BundleManager W} {storage : StorageManager W} {idm : UserIdm W}.
Context {tee : TeeAdapter W} {displays : Displays W} {parts : AccountParts W} {control : OsAccountControl W}.
Context {sparts : ServiceParts W} {ipc : Ipc}.
Local Abbreviation S := (Service W).
Local Abbreviation Request := OsAccountServiceTheorems.Request.
Local Abbreviation serve := OsAccountServiceTheorems.serve.

(** A request that was served passed its checks. *)
Lemma passed_bind {A B} (m : M S A) (k : A → M S B) s b s' :
  (∀ s0, preserves (untouched s0) m) → (m ≫= k) s = (Ok b, s') →
  ∃ a s1, untouched s s1 ∧ k a s1 = (Ok b, s').
Proof.
  intros Hm H. rewrite mbind_unfold in H. specialize (Hm s s (untouched_refl s)).
  destruct (m s) as [[a|e] s1]; [by exists a, s1|done].
Qed.
Lemma passed_user {A} id (k : M S A) s a s' :
  (_ ← system_app; _ ← user_account id; _ ← permission MANAGE_LOCAL_ACCOUNTS ""; k) s = (Ok a, s') →
  ∃ s1, untouched s s1 ∧ k s1 = (Ok a, s').
Proof.
  intros H.
  apply passed_bind in H as (_ & s1 & H1 & H); [|intros; preserve].
  apply passed_bind in H as (_ & s2 & H2 & H); [|intros; preserve].
  apply passed_bind in H as (_ & s3 & H3 & H); [|intros; preserve].
  exists s3. split; [|done]. by eapply untouched_trans, untouched_trans.
Qed.

(** What a call of the manager of accounts leaves of the front end. *)
Lemma inner_run {A} (f : M (Manager W) A) s r m :
  f (inner s) = (r, m) →
  ∃ s', innerManager_ f s = (r, s') ∧ inner s' = m ∧ constraint_subscribers s' = constraint_subscribers s ∧
    constraint_calls s' = constraint_calls s.
Proof. intros E. unfold innerManager_. rewrite E. destruct (publish_events _ _). by eexists. Qed.

Lemma elem_of_changed olds news cs b c :
  c ∈ changed_constraints olds news cs b ↔ c ∈ cs ∧ (c ∈ news ↔ b = true) ∧ (c ∈ olds ↔ b = false).
Proof.
  unfold changed_constraints. rewrite elem_of_list_to_set, list_elem_of_filter.
  destruct b; repeat case_bool_decide; naive_solver.
Qed.

(** C18. A change of constraints is made known exactly where it changed something: after
    constraints were set or lifted on an account, those of them that are in force now and
    were not before (or the other way round) are published for the account, every
    subscriber that wishes to hear of one of them is called, and nothing else is published;
    only when the constraints cannot be read again nothing is. *)
Theorem changed_constraints_are_published (id : Z) (cs : list string) (enable : bool) (s s' : S) (w : Wishes) :
  good (constraint_subscribers s) w → serve (SetConstraints id cs enable) s = (Ok tt, s') →
  ∃ s1 olds m1 m2, untouched s s1 ∧
    OsAccountQueries.GetOsAccountAllConstraints id (inner s1) = (Ok olds, m1) ∧
    SetBaseOsAccountConstraints id cs enable m1 = (Ok tt, m2) ∧
    let '(r, m3) := OsAccountQueries.GetOsAccountAllConstraints id m2 in
    inner s' = m3 ∧
    match r with
    | Ok news => ∃ changed called,
        constraint_calls s' = constraint_calls s ++ [(id, changed, enable, called)] ∧
        (∀ c, c ∈ changed ↔ c ∈ cs ∧ (c ∈ news ↔ enable = true) ∧ (c ∈ olds ↔ enable = false)) ∧
        (∀ l, hears id changed l w → l ∈ called)
    | Err _ => constraint_calls s' = constraint_calls s
    end.
Proof.
  intros Hg H. cbn [OsAccountServiceTheorems.serve] in H. unfold SetOsAccountConstraints in H.
  apply passed_user in H as (s1 & H1 & H). destruct (H1) as (_ & _ & Hc & _ & Hcalls).
  rewrite mbind_unfold in H. destruct (OsAccountQueries.GetOsAccountAllConstraints id (inner s1)) as [ro m1] eqn:E1.
  destruct (inner_run _ s1 _ _ E1) as (t1 & R1 & I1 & C1 & K1). rewrite R1 in H. destruct ro as [olds|e]; [|done].
  rewrite mbind_unfold in H. destruct (SetBaseOsAccountConstraints id cs enable m1) as [rs m2] eqn:E2.
  rewrite <-I1 in E2. destruct (inner_run _ t1 _ _ E2) as (t2 & R2 & I2 & C2 & K2). rewrite R2 in H.
  destruct rs as [[]|e]; [|done]. exists s1, olds, m1, m2. rewrite I1 in E2. split_and!; [done..|].
  destruct (OsAccountQueries.GetOsAccountAllConstraints id m2) as [rn m3] eqn:E3.
  rewrite <-I2 in E3. destruct (inner_run _ t2 _ _ E3) as (t3 & R3 & I3 & C3 & K3).
  unfold ConstraintPublish in H. rewrite mbind_unfold in H. unfold mtry in H. rewrite R3 in H.
  destruct rn as [news|e]; [|injection H as <-; split; [done|]; congruence].
  unfold publish_constraints in H. injection H as <-. cbn [inner constraint_calls]. split; [done|].
  eexists _, _. split_and!; [by rewrite K3, K2, K1, Hcalls|intros c; apply elem_of_changed|].
  intros l Hl. apply (hears_called _ w); [|done]. by rewrite C3, C2, C1, Hc.
Qed.

(** *** Faults *)

(** The display of the caller's own account is never found: -1 stands for it, and the
    checks are made on it, but then the account -1 is looked up. *)
Theorem own_display_is_never_found (s : S) :
  (∀ d, foregroundAccountMap_ (inner s) !! d ≠ Some (-1)) → is_Ok (GetForegroundOsAccountDisplayId (-1) s).1 = false.
Proof.
  intros Hn. destruct (GetForegroundOsAccountDisplayId (-1) s) as [[d|e] s'] eqn:H; [|done].
  unfold GetForegroundOsAccountDisplayId, existing_id, IsOsAccountExists, require in H.
  apply passed_bind in H as (_ & s1 & H1 & H); [|intros; preserve].
  apply passed_bind in H as (_ & s2 & H2 & H); [|intros; preserve].
  apply passed_bind in H as (_ & s3 & H3 & H); [|intros; preserve].
  assert (Hs : untouched s s3) by eauto using untouched_trans. apply untouched_frame in Hs as (w & c & E).
  unfold innerManager_, OsAccountQueries.GetForegroundOsAccountDisplayId in H. rewrite run_get in H.
  destruct (display_of_spec (-1) (foregroundAccountMap_ (inner s3))) as [(d' & _ & Hd)|[Ed _]].
  - exfalso. apply (Hn d'). by rewrite E in Hd.
  - rewrite Ed in H. cbn in H. by destruct (publish_events _ _) in H.
Qed.

Lemma may_verify p : is_root = false → may p = true → string_empty p || (VerifyPermission p =? ERR_OK) = true.
Proof. unfold may. intros ->. cbn [orb]. unfold VerifyPermission. destruct (string_empty p); cbn [orb]; [done|]. by intros ->. Qed.
Lemma may_pass p (s : S) : may p = true → PermissionCheck p "" s = (Ok true, s).
Proof.
  intros Hp. unfold PermissionCheck. fold is_root. destruct is_root eqn:Er; [done|].
  pose proof (may_verify p Er Hp) as H. rewrite H. done.
Qed.

(** The creation that names the first account is not checked: in a build with short
    names, while the first account has none, a creation by a caller with the permission
    gives the first account the names and the type of the request and nothing else happens,
    whatever the type, the names, the id and the token are: none of the checks of a creation
    is made. *)
Theorem first_creation_is_unchecked localName shortName type (options : CreateOsAccountOptions) (h : bool) (s s1 : S)
    (info : OsAccountInfo) :
  ENABLE_ACCOUNT_SHORT_NAME = true → is_system_app = true → may MANAGE_LOCAL_ACCOUNTS = true →
  innerManager_ (real_account START_USER_ID ERR_ACCOUNT_COMMON_ACCOUNT_NOT_EXIST_ERROR) s = (Ok info, s1) →
  shortName_ info = "" → accountName_ (domainInfo_ info) = "" →
  serve (CreateNamed localName shortName type options h) s
  = innerManager_ (call (UpdateOsAccount
      {| info with type_ := type; localName_ := localName; shortName_ := shortName |})) s1.
Proof.
  intros He Hsys Hmay Hr Hshort Hdomain. cbn [OsAccountServiceTheorems.serve].
  unfold CreateOsAccount_options_raw, CreateOsAccount_options, system_app, expect_ok.
  unfold is_system_app in Hsys. rewrite Hsys, run_ret, He. unfold name_first_account.
  rewrite !mbind_unfold. unfold mtry. rewrite Hr. cbv iota. rewrite Hshort, Hdomain. cbn [string_empty andb].
  assert (Hp : permission MANAGE_LOCAL_ACCOUNTS "" s1 = (Ok tt, s1)).
  { unfold permission, require. by rewrite mbind_unfold, may_pass. }
  rewrite mbind_unfold, Hp. cbv beta iota. rewrite mbind_unfold.
  match goal with |- context [innerManager_ ?f s1] => by destruct (innerManager_ f s1) as [[[]|e] s2] end.
Qed.

(** A constraint that cannot be read does not hold anybody up. *)
Lemma unread_constraint_is_none p c (s : S) e :
  (OsAccountQueries.IsOsAccountConstraintEnable callerUserId c (inner s)).1 = Err e → may p = true →
  (PermissionCheck p c s).1 = Ok true.
Proof.
  intros He Hp. unfold PermissionCheck. fold is_root. destruct is_root eqn:Er; [done|].
  pose proof (may_verify p Er Hp) as Hb.
  rewrite Hb, mbind_unfold. destruct (string_empty c); [done|]. rewrite mbind_unfold. unfold mtry, innerManager_.
  destruct (OsAccountQueries.IsOsAccountConstraintEnable callerUserId c (inner s)) as [r m]. cbn in He. subst r.
  by destruct (publish_events _ _).
Qed.
End Outcomes.

(** ** The theorems at work *)

Import Concrete OsAccountLifecycleWorld.Services.

Module Callers.
(** A test build whose first account is still to be named. *)
#[export] Instance service_build : ServiceSwitches := {| IS_RELEASE_VERSION := true; ENABLE_ACCOUNT_SHORT_NAME := true |}.
Definition plain_build : ServiceSwitches := {| IS_RELEASE_VERSION := true; ENABLE_ACCOUNT_SHORT_NAME := false |}.

#[export] Instance service_parts : ServiceParts W := {|
  VerifyToken := λ _ _ _, merr ERR_AUTHORIZATION_PRIVILEGE_DENIED;
  GetAccountServerConfig := λ name id, mret ("domain"%string, id);
  StartBindDomainAccount := λ _ _ w, (tt, w) |}.

(** A caller with permissions, a part of the system or an application. *)
Definition caller (uid : Z) (kind : ATokenTypeEnum) (granted : list string) : Ipc := {|
  GetCallingUid := uid; GetCallingPid := 2000; GetCallingTokenID := 1; GetCallingFullTokenID := 1; GetSelfTokenID := 2;
  VerifyAccessToken := λ _ p, bool_decide (p ∈ granted); GetTokenTypeFlag := λ _, kind;
  IsSystemAppByFullTokenID := λ _, false; IPC_STUB_WRITE_PARCEL_ERR := 1 |}.

(** The settings of the system, of account 100; and an application without rights. *)
Definition settings : Ipc := caller 20001000 TOKEN_TYPE_NATIVE
  [MANAGE_LOCAL_ACCOUNTS; INTERACT_ACROSS_LOCAL_ACCOUNTS; INTERACT_ACROSS_LOCAL_ACCOUNTS_EXTENSION].
Definition app : Ipc := caller 20010001 TOKEN_TYPE_HAP [].

Definition service (m : Manager W) : Service W :=
  mkService m Subscriptions.new_manager OsAccountConstraintSubscribe.new_manager [] [].

(** Accounts may not be activated, and no constraint is on one account alone. *)
Definition no_activation : OsAccountControl W := {| files with GetGlobalOAConstraintsList := mret [CONSTANT_ACTIVATE] |}.

(** Files that remember that an account was written: then it has one more constraint. *)
Definition written (w : W) : bool := bool_decide (is_Some ((os w : RamDisk.disk).1 !! "written"%string)).
Definition remembered_account (id : Z) (info : OsAccountInfo) (w : W) : (result unit * OsAccountInfo) * W :=
  let '(r, i) := account_of id info in
  ((r, if written w then {| i with constraints_ := constraints_ i ++ ["constraint.sms.use"] |} else i), w).
Definition remember (_ : OsAccountInfo) (_ : W) : result unit * W := (Ok tt, world {[ "written"%string := ""%string ]}).
Definition remembering : OsAccountControl W :=
  {| files with OsAccountServices.GetOsAccountInfoById := remembered_account; UpdateOsAccount := remember |}.
End Callers.
Import Callers.

Lemma unauthorized_requests_leave_no_trace_witness :
  authorized (ipc := app) (Activate 101 0) = false ∧
  untouched (service m1) (serve (ipc := app) (Activate 101 0) (service m1)).2.
Proof.
  assert (H : authorized (ipc := app) (Activate 101 0) = false) by (by vm_compute).
  split; [exact H|]. exact (proj2 (unauthorized_requests_leave_no_trace (ipc := app) (Activate 101 0) (service m1) H)).
Defined.

Lemma always_constrained (s : Service W) : constrained (control := no_activation) 100 CONSTANT_ACTIVATE s.
Proof. intros s' _. by destruct s' as [[] ? ? ? ?]. Qed.

Lemma constrained_requests_leave_no_trace_witness :
  is_Ok (serve (control := no_activation) (ipc := settings) (Activate 101 0) (service m1)).1 = false ∧
  untouched (control := no_activation) (service m1)
    (serve (control := no_activation) (ipc := settings) (Activate 101 0) (service m1)).2.
Proof.
  apply (constrained_requests_leave_no_trace (control := no_activation) (ipc := settings) (Activate 101 0) 100 CONSTANT_ACTIVATE);
    [exact I| |apply always_constrained]. vm_compute. by left.
Defined.

Lemma front_end_keeps_displays_witness :
  101 ∈ activeAccountId_ (inner (serve_callers [(settings, Activate 101 1); (app, Activate 100 1)] (service m0))).
Proof.
  apply (front_end_keeps_displays [(settings, Activate 101 1); (app, Activate 100 1)] (service m0)) with (displayId := 1);
    [reflexivity|reflexivity| |by vm_compute].
  split; [by left|]. split; [by left|done].
Defined.

Definition follow : Subscriptions.OsAccountSubscribeInfo := Subscriptions.info_of_states {[ACTIVATED]} false.

Lemma subscriptions_follow_requests_witness :
  OsAccountNotices.keeps (subscribers (serve_callers
      [(settings, Subscribe follow (Some 5)); (app, Subscribe follow (Some 6)); (settings, Activate 101 1)] (service m0)))
    {[ (5 : Listener) := (follow, 20001000) ]}.
Proof.
  pose proof (subscriptions_follow_requests
    [(settings, Subscribe follow (Some 5)); (app, Subscribe follow (Some 6)); (settings, Activate 101 1)]
    (service m0) ∅ OsAccountNotices.keeps_new) as H.
  assert (E : wishes_of [(settings, Subscribe follow (Some 5)); (app, Subscribe follow (Some 6)); (settings, Activate 101 1)]
    (service m0) ∅ = {[ (5 : Listener) := (follow, 20001000) ]}) by (by vm_compute).
  rewrite E in H. exact H.
Defined.

(** Listener 6 follows the constraint on messages. *)
Definition listening : Service W :=
  let m := OsAccountConstraintNotices.serve (OsAccountConstraintNotices.Subscribe 1000 {["constraint.sms.use"%string]} 6)
             OsAccountConstraintSubscribe.new_manager in
  {| (service m0) with constraint_subscribers := m |}.
Definition sms_wish : OsAccountConstraintNotices.Wishes :=
  OsAccountConstraintNotices.spec_serve (OsAccountConstraintNotices.Subscribe 1000 {["constraint.sms.use"%string]} 6)
    OsAccountConstraintNotices.no_wishes.

Definition lift_or_set : Request := SetConstraints 100 ["constraint.wifi"; "constraint.sms.use"]%string true.

Lemma set_constraints_served :
  (serve (control := remembering) (ipc := settings) lift_or_set listening).1 = Ok tt.
Proof. by vm_compute. Qed.
Lemma listening_good : good (constraint_subscribers listening) sms_wish.
Proof. apply (proj1 (good_serve _ _ _ (proj1 good_new))). Qed.

Lemma changed_constraints_are_published_witness :
  constraint_calls (serve (control := remembering) (ipc := settings) lift_or_set listening).2
    = [(100, {["constraint.sms.use"%string]}, true, [6])] ∧
  ∃ s1 : Service W, untouched (control := remembering) listening s1.
Proof.
  split; [by vm_compute|].
  pose proof (changed_constraints_are_published (control := remembering) (ipc := settings) 100
    ["constraint.wifi"; "constraint.sms.use"]%string true listening _ sms_wish listening_good
    (run_result _ _ _ set_constraints_served)) as (s1 & _ & _ & _ & H & _).
  by exists s1.
Defined.

Lemma own_display_is_never_found_witness :
  foregroundAccountMap_ m1 !! 0 = Some 100 ∧
  is_Ok (GetForegroundOsAccountDisplayId (ipc := settings) (-1) (service m1)).1 = false.
Proof.
  split; [by vm_compute|]. apply (own_display_is_never_found (ipc := settings) (service m1)).
  assert (E : foregroundAccountMap_ (inner (service m1)) = {[ 0 := 100 ]}) by (by vm_compute).
  intros d. rewrite E. by intros [_ [=]]%lookup_singleton_Some.
Defined.

(** Type 77 is no type, and the account has no name afterwards. *)
Lemma first_creation_is_unchecked_witness :
  IsTypeOutOfRange (ipc := settings) 77 = true ∧
  is_Ok (serve (control := remembering) (ipc := settings) (CreateNamed "" "" 77 CreateOsAccountOptions_new true) (service m0)).1 = true.
Proof.
  split; [by vm_compute|].
  rewrite (first_creation_is_unchecked (control := remembering) (ipc := settings) "" "" 77 CreateOsAccountOptions_new true
    (service m0) (innerManager_ (real_account (control := remembering) START_USER_ID ERR_ACCOUNT_COMMON_ACCOUNT_NOT_EXIST_ERROR) (service m0)).2
    (account 100)); [by vm_compute|done..| |done|done]. apply run_result. by vm_compute.
Defined.
