(* ===== verification/DistributedSubscribe.v ===== *)
(** Who follows distributed accounts and the subspaces they live in:
    distributed_account_subscribe_manager.cpp and os_account_sub_profile_subscribe_manager.cpp.

    Both keep a list of records, one per listener, with the types of events it asked for.
    Listeners are remote objects; the model has their identity.  An enumeration that a
    caller gives is a number, since nothing keeps it to the values of the type.  A
    publication starts a thread for each listener it is for; [notify] is such a thread. *)
From Stdlib Require Import ZArith Lia.
From stdpp Require Import base list gmap sets.
From S2P Require Import Prelude ErrorCodes AppIndex OsAccountServices OsAccountSubscribe OsAccountConstraintSubscribe.

(** A call-back is made again while it cannot be delivered, at most [MAX_RETRY_TIMES] times;
    [answer] gives the result of each call.  The number of calls and the last result.

    [SendDistributedAccountEventNotify], distributed_account_subscribe_manager.cpp
    [SendSubProfileEventNotify], os_account_sub_profile_subscribe_manager.cpp *)
Definition notify (answer : nat → Z) : nat * Z := retry MAX_RETRY_TIMES answer 0 ERR_OK.

(** The first record with a property, with what becomes of it; [None] takes it out. *)
Fixpoint update_first {A} (found : A → bool) (f : A → option A) (l : list A) : option (list A) :=
  match l with
  | [] => None
  | x :: l => if found x then Some (match f x with Some y => y :: l | None => l end)
              else cons x <$> update_first found f l
  end.

(** ** Events of distributed accounts *)

Module DistributedAccounts.

(** [LOGIN], distributed_account_subscribe_callback.h:26-26 *)
Definition LOGIN : Z := 0.
(** [LOGOUT], distributed_account_subscribe_callback.h:27-27 *)
Definition LOGOUT : Z := 1.
(** [LOGOFF], distributed_account_subscribe_callback.h:28-28 *)
Definition LOGOFF : Z := 2.
(** [TOKEN_INVALID], distributed_account_subscribe_callback.h:29-29 *)
Definition TOKEN_INVALID : Z := 3.
(** [BOUND], distributed_account_subscribe_callback.h:30-30 *)
Definition BOUND : Z := 4.
(** [UNBOUND], distributed_account_subscribe_callback.h:31-31 *)
Definition UNBOUND : Z := 5.

(** [DistributedSubscribeRecord], idistributed_account_subscribe.h *)
Record SubscribeRecord := { eventListener_ : Listener; types_ : gset Z }.

Definition is_of (l : Listener) (r : SubscribeRecord) : bool := bool_decide (eventListener_ r = l).

(** [DistributedAccountSubscribeManager::SubscribeDistributedAccountEvent], distributed_account_subscribe_manager.cpp *)
Definition Subscribe (type : Z) (l : option Listener) (subscribeRecords_ : list SubscribeRecord) :
    Z * list SubscribeRecord :=
  match l with
  | None => (ERR_ACCOUNT_COMMON_NULL_PTR_ERROR, subscribeRecords_)
  | Some l =>
      match update_first (is_of l)
              (λ r, Some {| eventListener_ := eventListener_ r; types_ := {[type]} ∪ types_ r |}) subscribeRecords_ with
      | Some subscribeRecords_ => (ERR_OK, subscribeRecords_)
      | None => (ERR_OK, subscribeRecords_ ++ [{| eventListener_ := l; types_ := {[type]} |}])
      end
  end.

(** [DistributedAccountSubscribeManager::UnsubscribeDistributedAccountEvent], distributed_account_subscribe_manager.cpp *)
Definition Unsubscribe (type : Z) (l : option Listener) (subscribeRecords_ : list SubscribeRecord) :
    Z * list SubscribeRecord :=
  match l with
  | None => (ERR_ACCOUNT_COMMON_NULL_PTR_ERROR, subscribeRecords_)
  | Some l =>
      match update_first (is_of l)
              (λ r, let types := types_ r ∖ {[type]} in
                    if decide (types = ∅) then None
                    else Some {| eventListener_ := eventListener_ r; types_ := types |}) subscribeRecords_ with
      | Some subscribeRecords_ => (ERR_OK, subscribeRecords_)
      | None => (ERR_OHOSACCOUNT_KIT_NO_SPECIFIED_CALLBACK_HAS_BEEN_REGISTERED, subscribeRecords_)
      end
  end.

(** [DistributedAccountSubscribeManager::UnsubscribeDistributedAccountEvent]#2, distributed_account_subscribe_manager.cpp *)
Definition Unsubscribe_all (l : option Listener) (subscribeRecords_ : list SubscribeRecord) : Z * list SubscribeRecord :=
  match l with
  | None => (ERR_ACCOUNT_COMMON_NULL_PTR_ERROR, subscribeRecords_)
  | Some l => (ERR_OK, default subscribeRecords_ (update_first (is_of l) (λ _, None) subscribeRecords_))
  end.

(** [DistributedAccountSubscribeDeathRecipient::OnRemoteDied], distributed_account_subscribe_death_recipient.cpp *)
Definition OnRemoteDied (remote : option Listener) (subscribeRecords_ : list SubscribeRecord) : list SubscribeRecord :=
  match remote with
  | None => subscribeRecords_
  | Some l => (Unsubscribe_all (Some l) subscribeRecords_).2
  end.

(** The listeners that threads are started for.

    [DistributedAccountSubscribeManager::Publish], distributed_account_subscribe_manager.cpp *)
Definition listeners (subscribeType : Z) (subscribeRecords_ : list SubscribeRecord) : list Listener :=
  eventListener_ <$> filter (λ r, subscribeType ∈ types_ r) subscribeRecords_.
End DistributedAccounts.

(** ** Events of subspaces *)

Module SubProfiles.

(** [CREATED], os_account_sub_profile_subscribe_callback.h:26-26 *)
Definition CREATED : Z := 0.
(** [DELETED], os_account_sub_profile_subscribe_callback.h:27-27 *)
Definition DELETED : Z := 1.
(** [SWITCHING], os_account_sub_profile_subscribe_callback.h:28-28 *)
Definition SWITCHING : Z := 2.
(** [SWITCHED], os_account_sub_profile_subscribe_callback.h:29-29 *)
Definition SWITCHED : Z := 3.
(** [INVALID_TYPE], os_account_sub_profile_subscribe_callback.h:30-30 *)
Definition INVALID_TYPE : Z := 4.

(** [IsValidOsAccountSubProfileEventType], os_account_sub_profile_subscribe_callback.cpp *)
Definition IsValidOsAccountSubProfileEventType (value : Z) : bool := (CREATED <=? value) && (value <? INVALID_TYPE).

(** [OsAccountSubProfileSubscribeRecord], os_account_sub_profile_subscribe_manager.h:30-43 *)
Record SubscribeRecord := {
  eventListener_ : Listener;
  types_ : gset Z;
  localId_ : Z;
  isNotifyAllUsers_ : bool;
}.

Definition is_of (l : Listener) (r : SubscribeRecord) : bool := bool_decide (eventListener_ r = l).

(** [OsAccountSubProfileSubscribeRecord::AddTypes], os_account_sub_profile_subscribe_manager.cpp *)
Definition AddTypes (newTypes : gset Z) (r : SubscribeRecord) : SubscribeRecord :=
  {| eventListener_ := eventListener_ r; types_ := types_ r ∪ newTypes; localId_ := localId_ r;
     isNotifyAllUsers_ := isNotifyAllUsers_ r |}.

(** [OsAccountSubProfileSubscribeRecord::RemoveTypes], os_account_sub_profile_subscribe_manager.cpp *)
Definition RemoveTypes (types : gset Z) (r : SubscribeRecord) : SubscribeRecord :=
  {| eventListener_ := eventListener_ r; types_ := types_ r ∖ types; localId_ := localId_ r;
     isNotifyAllUsers_ := isNotifyAllUsers_ r |}.

Definition set_localId (localId : Z) (r : SubscribeRecord) : SubscribeRecord :=
  {| eventListener_ := eventListener_ r; types_ := types_ r; localId_ := localId;
     isNotifyAllUsers_ := isNotifyAllUsers_ r |}.

(** The user of a listener is the one of its last subscription; that it hears of all users
    is decided by the first.

    [OsAccountSubProfileSubscribeManager::SubscribeOsAccountSubProfileEvents], os_account_sub_profile_subscribe_manager.cpp *)
Definition Subscribe (callingUid : Z) (types : gset Z) (l : option Listener) (subscribeRecords_ : list SubscribeRecord) :
    Z * list SubscribeRecord :=
  let localId := Z.quot callingUid UID_TRANSFORM_DIVISOR in
  match l with
  | None => (ERR_ACCOUNT_COMMON_INVALID_PARAMETER, subscribeRecords_)
  | Some l =>
      if decide (types = ∅) then (ERR_ACCOUNT_COMMON_INVALID_PARAMETER, subscribeRecords_)
      else
        match update_first (is_of l) (λ r, Some (set_localId localId (AddTypes types r))) subscribeRecords_ with
        | Some subscribeRecords_ => (ERR_OK, subscribeRecords_)
        | None =>
            (ERR_OK, subscribeRecords_ ++
               [AddTypes types {| eventListener_ := l; types_ := ∅; localId_ := localId; isNotifyAllUsers_ := localId =? 0 |}])
        end
  end.

(** [OsAccountSubProfileSubscribeManager::UnsubscribeOsAccountSubProfileEvents]#1, os_account_sub_profile_subscribe_manager.cpp *)
Definition Unsubscribe_all (l : option Listener) (subscribeRecords_ : list SubscribeRecord) : Z * list SubscribeRecord :=
  match l with
  | None => (ERR_ACCOUNT_COMMON_INVALID_PARAMETER, subscribeRecords_)
  | Some l => (ERR_OK, filter (λ r, negb (is_of l r)) subscribeRecords_)
  end.

(** [OsAccountSubProfileSubscribeManager::UnsubscribeOsAccountSubProfileEvents]#2, os_account_sub_profile_subscribe_manager.cpp *)
Definition Unsubscribe (types : gset Z) (l : option Listener) (subscribeRecords_ : list SubscribeRecord) :
    Z * list SubscribeRecord :=
  match l with
  | None => (ERR_ACCOUNT_COMMON_INVALID_PARAMETER, subscribeRecords_)
  | Some l =>
      if decide (types = ∅) then (ERR_ACCOUNT_COMMON_INVALID_PARAMETER, subscribeRecords_)
      else
        match find (is_of l) subscribeRecords_ with
        | None => (ERR_OHOSACCOUNT_KIT_NO_SPECIFIED_CALLBACK_HAS_BEEN_REGISTERED, subscribeRecords_)
        | Some r =>
            if decide (types_ (RemoveTypes types r) = ∅)
            then (ERR_OK, filter (λ r, negb (is_of l r)) subscribeRecords_)
            else (ERR_OK, default subscribeRecords_
                            (update_first (is_of l) (λ r, Some (RemoveTypes types r)) subscribeRecords_))
        end
  end.

(** [OsAccountSubProfileSubscribeDeathRecipient::OnRemoteDied], os_account_sub_profile_subscribe_death_recipient.cpp *)
Definition OnRemoteDied (remote : option Listener) (subscribeRecords_ : list SubscribeRecord) : list SubscribeRecord :=
  match remote with
  | None => subscribeRecords_
  | Some l => (Unsubscribe_all (Some l) subscribeRecords_).2
  end.

(** [OsAccountSubProfileSubscribeManager::GetSubscribersToNotify], os_account_sub_profile_subscribe_manager.cpp *)
Definition GetSubscribersToNotify (eventType eventLocalId : Z) (subscribeRecords_ : list SubscribeRecord) : list Listener :=
  omap (λ r, if negb (bool_decide (eventType ∈ types_ r)) then None
             else if isNotifyAllUsers_ r then Some (eventListener_ r)
             else if localId_ r =? eventLocalId then Some (eventListener_ r)
             else None) subscribeRecords_.
End SubProfiles.
