(* ===== verification/OhosAccountInfo.v ===== *)
(** Distributed accounts (account_info.h) and the subspaces they live in, and the documents
    of ohos_account_data_deal.cpp and os_account_subspace_data_deal.cpp that keep them.

    The avatar is not in a document but in a file of its own. *)
From Stdlib Require Import ZArith Lia Ascii String.
From stdpp Require Import base list gmap sets strings pretty sorting.
From S2P Require Import Prelude ErrorCodes Json AccountStateMachine OsAccountInfo.

(** [OHOS_ACCOUNT_EVENT_LOGIN], account_info.h:50-50 *)
Definition OHOS_ACCOUNT_EVENT_LOGIN : string := "Ohos.account.event.LOGIN".
Definition OHOS_ACCOUNT_EVENT_LOGOUT : string := "Ohos.account.event.LOGOUT".
Definition OHOS_ACCOUNT_EVENT_TOKEN_INVALID : string := "Ohos.account.event.TOKEN_INVALID".
Definition OHOS_ACCOUNT_EVENT_LOGOFF : string := "Ohos.account.event.LOGOFF".

(** [DEFAULT_OHOS_ACCOUNT_NAME], account_info.h:78-78 *)
Definition DEFAULT_OHOS_ACCOUNT_NAME : string := "ohosAnonymousName".
Definition DEFAULT_OHOS_ACCOUNT_UID : string := "ohosAnonymousUid".
Definition DEFAULT_CALLING_UID : Z := -1.
Definition ACCOUNT_VERSION_DEFAULT : Z := 0.
Definition ACCOUNT_VERSION_ANON : Z := 1.

(** ohos_account_constants.h *)
Definition NICKNAME_MAX_SIZE : Z := 1024.
Definition AVATAR_MAX_SIZE : Z := 10 * 1024 * 1024.
Definition SCALABLEDATA_MAX_SIZE : Z := 1024.

Module Ohos.

(** [OhosAccountInfo], account_info.h:85-140 *)
Record OhosAccountInfo := mkOhosAccountInfo {
  name_ : string;
  uid_ : string;
  status_ : Z;
  callingUid_ : Z;
  nickname_ : string;
  avatar_ : string;
  scalableData_ : string;
  rawUid_ : string;
}.

#[export] Instance OhosAccountInfo_eq_dec : EqDecision OhosAccountInfo.
Proof. solve_decision. Defined.

(** [OhosAccountInfo], account_info.h:103-111 *)
Definition OhosAccountInfo_new : OhosAccountInfo :=
  mkOhosAccountInfo "" "" ACCOUNT_STATE_UNBOUND DEFAULT_CALLING_UID "" "" "" "".

(** [IsValid], account_info.h *)
Definition IsValid (i : OhosAccountInfo) : bool :=
  (Z.of_nat (String.length (nickname_ i)) <=? NICKNAME_MAX_SIZE) &&
  (Z.of_nat (String.length (avatar_ i)) <=? AVATAR_MAX_SIZE) &&
  (Z.of_nat (String.length (scalableData_ i)) <=? SCALABLEDATA_MAX_SIZE).

(** [AccountInfo], account_info.h:159-207 *)
Record AccountInfo := mkAccountInfo {
  ohosAccountInfo_ : OhosAccountInfo;
  bindTime_ : Z;
  userId_ : Z;
  digest_ : string;
  version_ : Z;
  createTime_ : Z;
}.

#[export] Instance AccountInfo_eq_dec : EqDecision AccountInfo.
Proof. solve_decision. Defined.

(** [AccountInfo], account_info.h:170-176 *)
Definition AccountInfo_new : AccountInfo := mkAccountInfo OhosAccountInfo_new 0 0 "" ACCOUNT_VERSION_DEFAULT 0.

(** [clear], account_info.h *)
Definition clear (clrStatus : Z) (i : AccountInfo) : AccountInfo :=
  {| i with
     ohosAccountInfo_ :=
       {| name_ := DEFAULT_OHOS_ACCOUNT_NAME; uid_ := DEFAULT_OHOS_ACCOUNT_UID; status_ := clrStatus;
          nickname_ := ""; avatar_ := ""; scalableData_ := ""; callingUid_ := DEFAULT_CALLING_UID; rawUid_ := "" |};
     digest_ := ""; bindTime_ := 0 |}.

(** A subspace is a distributed account with a place.

    [OsAccountSubspaceInfo], account_info.h:210-233 *)
Record OsAccountSubspaceInfo := mkOsAccountSubspaceInfo {
  account_of : AccountInfo;
  subspaceId : Z;
  index : Z;
  subspaceOffset : Z;
  isCreateCompleted : bool;
  toBeRemoved : bool;
  createTime : Z;
}.

#[export] Instance OsAccountSubspaceInfo_eq_dec : EqDecision OsAccountSubspaceInfo.
Proof. solve_decision. Defined.

Definition OsAccountSubspaceInfo_default : OsAccountSubspaceInfo :=
  mkOsAccountSubspaceInfo AccountInfo_new 0 0 0 false false 0.

(** [OsAccountSubspaceInfo], account_info.h:220-232 *)
Definition OsAccountSubspaceInfo_new (osAccountId subId idx offset : Z) : OsAccountSubspaceInfo :=
  {| account_of :=
       {| AccountInfo_new with
          userId_ := osAccountId; version_ := ACCOUNT_VERSION_ANON; bindTime_ := 0;
          ohosAccountInfo_ :=
            {| OhosAccountInfo_new with
               name_ := DEFAULT_OHOS_ACCOUNT_NAME; uid_ := DEFAULT_OHOS_ACCOUNT_UID;
               rawUid_ := DEFAULT_OHOS_ACCOUNT_UID; status_ := ACCOUNT_STATE_UNBOUND;
               callingUid_ := DEFAULT_CALLING_UID |} |};
     subspaceId := subId; index := idx; subspaceOffset := offset; isCreateCompleted := false;
     toBeRemoved := false; createTime := 0 |}.

(** The distributed account of a subspace, and one that is put in its place. *)
Definition ohos_of (s : OsAccountSubspaceInfo) : OhosAccountInfo := ohosAccountInfo_ (account_of s).
Definition with_account (a : AccountInfo) (s : OsAccountSubspaceInfo) : OsAccountSubspaceInfo :=
  {| s with account_of := a |}.
Definition with_ohos (o : OhosAccountInfo) (a : AccountInfo) : AccountInfo := {| a with ohosAccountInfo_ := o |}.
Definition with_avatar (avatar : string) (o : OhosAccountInfo) : OhosAccountInfo := {| o with avatar_ := avatar |}.
Definition with_status (status : Z) (o : OhosAccountInfo) : OhosAccountInfo := {| o with status_ := status |}.
End Ohos.
Import Ohos.

(** ** The documents *)

(** [DATADEAL_JSON_KEY_OHOSACCOUNT_NAME], ohos_account_data_deal.cpp:37-37 *)
Definition KEY_NAME : string := "account_name".
Definition KEY_RAW_UID : string := "raw_uid".
Definition KEY_UID : string := "open_id".
Definition KEY_STATUS : string := "bind_status".
Definition KEY_CALLINGUID : string := "calling_uid".
Definition KEY_NICKNAME : string := "account_nickname".
Definition KEY_AVATAR : string := "account_avatar".
Definition KEY_SCALABLEDATA : string := "account_scalableData".
Definition KEY_VERSION : string := "version".
Definition KEY_USERID : string := "user_id".
Definition KEY_BIND_TIME : string := "bind_time".
Definition KEY_CREATE_TIME : string := "createTime".

(** [JSON_KEY_SUBSPACE_ID], os_account_subspace_data_deal.cpp:34-34 *)
Definition KEY_SUBSPACE_ID : string := "subspaceId".
Definition KEY_OS_ACCOUNT_ID : string := "osAccountId".
Definition KEY_IS_CREATE_COMPLETED : string := "is_create_completed".
Definition KEY_TO_BE_REMOVED : string := "to_be_removed".
Definition KEY_SUBSPACE_INDEX : string := "subspaceIndex".
Definition KEY_SUBSPACE_OFFSET : string := "subspaceOffset".

Section Documents.
Context {cjson : CJsonLib} {target : Target}.

(** A document from its fields, or none when one of them cannot be added. *)
Definition build (fields : list (option CJson → option CJson)) : option CJson :=
  match CreateJson with
  | None => None
  | Some jsonData => let '(success, jsonData) := add_fields fields (true, Some jsonData) in
                     if success : bool then jsonData else None
  end.

(** The time of the binding is handed to [AddIntToJson] as an [int].

    [SerializeAccountInfoToJson], ohos_account_data_deal.cpp *)
Definition SerializeAccountInfoToJson (accountInfo : AccountInfo) : option CJson :=
  let o := ohosAccountInfo_ accountInfo in
  build
    [λ j, AddIntToJson j KEY_VERSION (version_ accountInfo);
     λ j, AddIntToJson j KEY_BIND_TIME (i32 (bindTime_ accountInfo));
     λ j, AddInt64ToJson j KEY_CREATE_TIME (createTime_ accountInfo);
     λ j, AddIntToJson j KEY_USERID (userId_ accountInfo);
     λ j, AddStringToJson j KEY_NAME (name_ o);
     λ j, AddStringToJson j KEY_RAW_UID (rawUid_ o);
     λ j, AddStringToJson j KEY_UID (uid_ o);
     λ j, AddIntToJson j KEY_STATUS (status_ o);
     λ j, AddIntToJson j KEY_CALLINGUID (callingUid_ o);
     λ j, AddStringToJson j KEY_NICKNAME (nickname_ o);
     λ j, AddStringToJson j KEY_SCALABLEDATA (scalableData_ o)].

(** [GetJsonField] at [int], at [std::time_t] and at [std::string].

    [GetJsonField], ohos_account_data_deal.cpp:364-388 *)
Definition GetJsonField_int (jsonData : option CJson) (key : string) : option Z :=
  if negb (IsKeyExist jsonData key) then None
  else match GetItemFromJson jsonData key with
       | Some (JNumber d) => Some (double_to_int INT32_MIN INT32_MAX d)
       | _ => None
       end.

Definition GetJsonField_time (jsonData : option CJson) (key : string) : option Z :=
  if negb (IsKeyExist jsonData key) then None
  else match GetItemFromJson jsonData key with
       | Some (JNumber d) => Some (double_to_int INT64_MIN INT64_MAX d)
       | _ => None
       end.

Definition GetJsonField_string (jsonData : option CJson) (key : string) : option string :=
  if negb (IsKeyExist jsonData key) then None
  else match GetItemFromJson jsonData key with
       | Some (JString s) => Some s
       | _ => None
       end.

(** A field that is not in the document stays as it is in the object.

    [OhosAccountDataDeal::GetAccountInfoFromJson], ohos_account_data_deal.cpp *)
Definition GetAccountInfoFromJson (jsonData : option CJson) (accountInfo : AccountInfo) (userId : Z) : AccountInfo :=
  let o := ohosAccountInfo_ accountInfo in
  {| version_ := default (version_ accountInfo) (GetJsonField_int jsonData KEY_VERSION);
     bindTime_ := default (bindTime_ accountInfo) (GetJsonField_time jsonData KEY_BIND_TIME);
     createTime_ := default (createTime_ accountInfo) (GetInt64FromJson jsonData KEY_CREATE_TIME);
     ohosAccountInfo_ :=
       {| name_ := default (name_ o) (GetJsonField_string jsonData KEY_NAME);
          rawUid_ := default (rawUid_ o) (GetJsonField_string jsonData KEY_RAW_UID);
          uid_ := default (uid_ o) (GetJsonField_string jsonData KEY_UID);
          status_ := default (status_ o) (GetJsonField_int jsonData KEY_STATUS);
          callingUid_ := default (callingUid_ o) (GetJsonField_int jsonData KEY_CALLINGUID);
          nickname_ := default (nickname_ o) (GetJsonField_string jsonData KEY_NICKNAME);
          avatar_ := default (avatar_ o) (GetJsonField_string jsonData KEY_AVATAR);
          scalableData_ := default (scalableData_ o) (GetJsonField_string jsonData KEY_SCALABLEDATA) |};
     digest_ := digest_ accountInfo;
     userId_ := userId |}.

(** [OsAccountSubProfileDataDeal::SerializeSubProfileInfoToJson], os_account_subspace_data_deal.cpp *)
Definition SerializeSubProfileInfoToJson (info : OsAccountSubspaceInfo) : string :=
  let a := account_of info in
  let o := ohos_of info in
  match build
    [λ j, AddIntToJson j KEY_SUBSPACE_ID (subspaceId info);
     λ j, AddIntToJson j KEY_OS_ACCOUNT_ID (userId_ a);
     λ j, AddBoolToJson j KEY_IS_CREATE_COMPLETED (isCreateCompleted info);
     λ j, AddBoolToJson j KEY_TO_BE_REMOVED (toBeRemoved info);
     λ j, AddIntToJson j KEY_BIND_TIME (i32 (bindTime_ a));
     λ j, AddIntToJson j KEY_VERSION (version_ a);
     λ j, AddStringToJson j KEY_NAME (name_ o);
     λ j, AddStringToJson j KEY_RAW_UID (rawUid_ o);
     λ j, AddStringToJson j KEY_UID (uid_ o);
     λ j, AddIntToJson j KEY_STATUS (status_ o);
     λ j, AddIntToJson j KEY_CALLINGUID (callingUid_ o);
     λ j, AddStringToJson j KEY_NICKNAME (nickname_ o);
     λ j, AddStringToJson j KEY_SCALABLEDATA (scalableData_ o);
     λ j, AddIntToJson j KEY_SUBSPACE_INDEX (index info);
     λ j, AddIntToJson j KEY_SUBSPACE_OFFSET (subspaceOffset info);
     λ j, AddInt64ToJson j KEY_CREATE_TIME (createTime info)]
  with
  | None => ""
  | Some jsonObj => PackJsonToString (Some jsonObj)
  end.

(** [OsAccountSubProfileDataDeal::ParseSubProfileInfoFromJson], os_account_subspace_data_deal.cpp *)
Definition ParseSubProfileInfoFromJson (jsonStr : string) (info : OsAccountSubspaceInfo) : result OsAccountSubspaceInfo :=
  match CreateJsonFromString jsonStr with
  | None => Err ERR_ACCOUNT_DATADEAL_JSON_FILE_CORRUPTION
  | Some jsonObj =>
      let j := Some jsonObj in
      let a := account_of info in
      let o := ohos_of info in
      Ok {| subspaceId := default (subspaceId info) (GetIntFromJson j KEY_SUBSPACE_ID);
            isCreateCompleted := default (isCreateCompleted info) (GetBoolFromJson j KEY_IS_CREATE_COMPLETED);
            toBeRemoved := default (toBeRemoved info) (GetBoolFromJson j KEY_TO_BE_REMOVED);
            index := default (index info) (GetIntFromJson j KEY_SUBSPACE_INDEX);
            subspaceOffset := default (subspaceOffset info) (GetIntFromJson j KEY_SUBSPACE_OFFSET);
            createTime := default (createTime info) (GetInt64FromJson j KEY_CREATE_TIME);
            account_of :=
              {| userId_ := default (userId_ a) (GetIntFromJson j KEY_OS_ACCOUNT_ID);
                 bindTime_ := default 0 (GetIntFromJson j KEY_BIND_TIME);
                 version_ := default (version_ a) (GetIntFromJson j KEY_VERSION);
                 digest_ := digest_ a;
                 createTime_ := createTime_ a;
                 ohosAccountInfo_ :=
                   {| name_ := default (name_ o) (GetStringFromJson j KEY_NAME);
                      rawUid_ := default (rawUid_ o) (GetStringFromJson j KEY_RAW_UID);
                      uid_ := default (uid_ o) (GetStringFromJson j KEY_UID);
                      status_ := default (status_ o) (GetIntFromJson j KEY_STATUS);
                      callingUid_ := default (callingUid_ o) (GetIntFromJson j KEY_CALLINGUID);
                      nickname_ := default (nickname_ o) (GetStringFromJson j KEY_NICKNAME);
                      avatar_ := avatar_ o;
                      scalableData_ := default (scalableData_ o) (GetStringFromJson j KEY_SCALABLEDATA) |} |} |}
  end.
End Documents.
