(* ===== verification/OhosAccountFiles.v ===== *)
(** Where distributed accounts are kept: ohos_account_data_deal.cpp, one file per account of
    the operating system with its avatar next to it, and os_account_subspace_data_deal.cpp,
    the same in a directory per subspace.

    The files are those of the manager of operating system accounts: the state is its world,
    a [FileStore].  [StreamStore] is what is used of files besides, the rest of
    [AccountFileOperator] and the streams of the standard library; FileOperator.v has the
    code of the former.  [Platform] is the clock, the hashes of OpenSSL and the parameter of
    the number of clones of an application. *)
From Stdlib Require Import ZArith Lia Ascii String.
From stdpp Require Import base list gmap sets strings pretty sorting.
From S2P Require Import Prelude ErrorCodes Json FileStore AccountStateMachine OsAccountInfo OsAccountEnv OhosAccountInfo.
Import Ohos.

Class StreamStore (S : Type) `{FileStore S} := {
  IsFileSizeExceedsLimit : string → Z → M S bool;
  RemoveFile : string → M S bool;
  (** [std::ifstream], and all it has to read *)
  ifstream : string → M S (option string);
  CreateDir : string → M S unit;
  DeleteDir : string → M S unit;
  size_spec p n s : idle s → is_temp p = false →
    wp (IsFileSizeExceedsLimit p n) (λ r s', idle s' ∧ texts s' = texts s ∧ is_Ok r = true) s;
  remove_spec p s : idle s → is_temp p = false →
    wp (RemoveFile p) (λ r s', idle s' ∧
      ∃ b : bool, r = Ok b ∧ texts s' = if b then delete p (texts s) else texts s) s;
  stream_spec p s : idle s → is_temp p = false →
    wp (ifstream p) (λ r s', idle s' ∧ texts s' = texts s ∧ is_Ok r = true ∧
      (∀ t, r = Ok (Some t) → is_Some (texts s !! p))) s;
  create_dir_spec d s : idle s → wp (CreateDir d) (λ r s', idle s' ∧ texts s' = texts s) s;
  delete_dir_spec d s : idle s → wp (DeleteDir d) (λ r s', idle s' ∧
    ∀ q, (below d q → r = Ok tt → texts s' !! q = None) ∧
         (texts s' !! q = texts s !! q ∨ below d q ∧ texts s' !! q = None)) s;
}.

(** A store on which these calls do not fail either, and what is small enough is read. *)
Class ReliableStreams (S : Type) `{ReliableStore S, !StreamStore S} := {
  check_reliable p s : idle s → reliable s → is_temp p = false → string_empty p = false → is_Some (texts s !! p) →
    wp (CheckFileExistence p) (λ r s', reliable s' ∧ r = Ok tt) s;
  transaction_reliable p c s : idle s → reliable s → is_temp p = false → fits c →
    wp (InputFileByPathAndContentWithTransaction p c) (λ r s', reliable s' ∧ r = Ok tt) s;
  size_reliable p n s t : idle s → reliable s → is_temp p = false → string_empty p = false → texts s !! p = Some t →
    wp (IsFileSizeExceedsLimit p n) (λ r s', reliable s' ∧ r = Ok (n <? Z.of_nat (String.length t))) s;
  remove_reliable p s : idle s → reliable s → is_temp p = false → is_Some (texts s !! p) →
    wp (RemoveFile p) (λ r s', reliable s' ∧ r = Ok true) s;
  stream_reliable p s : idle s → reliable s → is_temp p = false → is_Some (texts s !! p) →
    wp (ifstream p) (λ r s', reliable s' ∧ r = Ok (texts s !! p)) s;
  read_keeps p s : idle s → reliable s → is_temp p = false → reliable (GetFileContentByPath p s).2;
  write_keeps p c s : idle s → reliable s → is_temp p = false → reliable (InputFileByPathAndContent p c s).2;
}.

(** What the service asks of the platform: [std::time], [system_clock] in milliseconds,
    SHA-256 and PBKDF2, whose library may be missing, and the parameter. *)
Class Platform (S : Type) := {
  std_time : S → Z * S;
  system_clock_ms : S → Z * S;
  SHA256 : string → option (list Z);
  PBKDF2_HMAC : string → string → option (list Z);
  appCloneMaxCount : Z;
}.

(** The platform answers, and the clock does not touch files. *)
Class PlatformLaws (S : Type) `{FileStore S, !Platform S} : Prop := {
  std_time_leaves s : idle s → idle (std_time s).2 ∧ texts (std_time s).2 = texts s;
  clock_leaves s : idle s → idle (system_clock_ms s).2 ∧ texts (system_clock_ms s).2 = texts s;
  sha_bytes t bs : SHA256 t = Some bs → length bs = 32%nat ∧ Forall (λ b, 0 ≤ b < 256) bs;
  pbkdf2_bytes t u bs : PBKDF2_HMAC t u = Some bs → length bs = 32%nat ∧ Forall (λ b, 0 ≤ b < 256) bs;
}.

(** A platform whose calls do not make a store fail, and the times that its clock tells. *)
Class ReliablePlatform (S : Type) `{ReliableStore S, !Surroundings S, !Platform S} := {
  times : Z → Prop;
  watcher_keeps id p s : idle s → reliable s → reliable (AddFileWatcher id p s).2;
  clock_reliable s : idle s → reliable s → reliable (system_clock_ms s).2 ∧ times (system_clock_ms s).1;
  time_reliable s : idle s → reliable s → reliable (std_time s).2 ∧ times (std_time s).1;
}.

Definition ACCOUNT_CFG_DIR_ROOT_PATH : string := "/data/service/el1/public/account/".
Definition ACCOUNT_CFG_FILE_NAME : string := "/account.json".
Definition ACCOUNT_AVATAR_NAME : string := "/account_avatar".
Definition MAX_ACCOUNT_JSON_FILE_SIZE : Z := 16 * 1024 * 1024.

(** [configFileDir_ + std::to_string(userId) + ACCOUNT_CFG_FILE_NAME], and the avatar. *)
Definition config_file (userId : Z) : string := ACCOUNT_CFG_DIR_ROOT_PATH +:+ to_string userId +:+ ACCOUNT_CFG_FILE_NAME.
Definition avatar_file (userId : Z) : string := ACCOUNT_CFG_DIR_ROOT_PATH +:+ to_string userId +:+ ACCOUNT_AVATAR_NAME.

Section DataDeal.
Context {W : Type} {os_cfg : OsConfig} {cjson : CJsonLib} {target : Target} {fs : FileStore W} {streams : StreamStore W}.
Context {huks : Huks} {env : Surroundings W} {platform : Platform W}.

(** Asks the platform. *)
Definition platform_ {A} (f : W → A * W) : M W A := λ w, let '(a, w) := f w in (Ok a, w).

(** *** ohos_account_data_deal.cpp *)

(** [OhosAccountDataDeal::AddFileWatcher], ohos_account_data_deal.cpp *)
Definition AddFileWatcher (id : Z) : M W unit := OsAccountEnv.AddFileWatcher id (config_file id).

(** The result of the document is returned; a change of mode that failed is reported only,
    but returned as well.

    [OhosAccountDataDeal::SaveAccountInfo], ohos_account_data_deal.cpp *)
Definition SaveAccountInfo (accountInfo : AccountInfo) : M W unit :=
  match SerializeAccountInfoToJson accountInfo with
  | None => merr ERR_ACCOUNT_COMMON_DUMP_JSON_ERROR
  | Some jsonData =>
      _ ← InputFileByPathAndContentWithTransaction (avatar_file (userId_ accountInfo))
            (avatar_ (ohosAccountInfo_ accountInfo));
      let accountInfoValue := PackJsonToString (Some jsonData) in
      let configFile := config_file (userId_ accountInfo) in
      ret ← mtry (InputFileByPathAndContent configFile accountInfoValue);
      _ ← (if ENABLE_FILE_WATCHER then mtry (AddAccountInfoDigest accountInfoValue configFile) else mret (Ok tt));
      match ret with Ok _ => mret tt | Err e => merr e end
  end.

(** The account before anybody has logged in.

    [OhosAccountDataDeal::BuildJsonFileFromScratch], ohos_account_data_deal.cpp:468-478 *)
Definition account_from_scratch (userId now : Z) : AccountInfo :=
  {| AccountInfo_new with
     userId_ := userId; bindTime_ := 0; createTime_ := now; digest_ := "";
     ohosAccountInfo_ :=
       {| OhosAccountInfo_new with
          uid_ := DEFAULT_OHOS_ACCOUNT_UID; name_ := DEFAULT_OHOS_ACCOUNT_NAME; status_ := ACCOUNT_STATE_UNBOUND;
          callingUid_ := DEFAULT_CALLING_UID; rawUid_ := DEFAULT_OHOS_ACCOUNT_UID |} |}.

(** [OhosAccountDataDeal::BuildJsonFileFromScratch], ohos_account_data_deal.cpp *)
Definition BuildJsonFileFromScratch (userId : Z) : M W unit :=
  now ← platform_ system_clock_ms;
  _ ← mtry (SaveAccountInfo (account_from_scratch userId now));
  if ENABLE_FILE_WATCHER then AddFileWatcher userId else mret tt.

(** [FillAvatarIntoJson], ohos_account_data_deal.cpp *)
Definition FillAvatarIntoJson (jsonData : option CJson) (userId : Z) : M W (option CJson) :=
  let add_avatar (avatarData : string) : M W (option CJson) :=
    match AddStringToJson jsonData KEY_AVATAR avatarData with
    | None => merr ERR_ACCOUNT_COMMON_DUMP_JSON_ERROR
    | Some jsonData => mret (Some jsonData)
    end in
  if IsKeyExist jsonData KEY_AVATAR then
    match GetItemFromJson jsonData KEY_AVATAR with
    | Some (JString valuestring) => add_avatar valuestring
    | _ => mret jsonData
    end
  else
    avatarData ← mtry (GetFileContentByPath (avatar_file userId));
    match avatarData with
    | Ok avatarData => add_avatar avatarData
    | Err _ => mret jsonData
    end.

(** [OhosAccountDataDeal::ParseJsonFromFile], ohos_account_data_deal.cpp *)
Definition ParseJsonFromFile (filePath : string) (userId : Z) : M W (option CJson) :=
  tooLarge ← IsFileSizeExceedsLimit filePath MAX_ACCOUNT_JSON_FILE_SIZE;
  _ ← (if tooLarge : bool then
         removed ← RemoveFile filePath;
         if negb removed then merr ERR_ACCOUNT_DATADEAL_INPUT_FILE_ERROR else BuildJsonFileFromScratch userId
       else mret tt);
  fin ← ifstream filePath;
  match fin with
  | None => merr ERR_ACCOUNT_DATADEAL_INPUT_FILE_ERROR
  | Some fileContent =>
      let jsonData := CreateJsonFromString fileContent in
      if negb (IsObject jsonData) then merr ERR_ACCOUNT_DATADEAL_JSON_FILE_CORRUPTION
      else FillAvatarIntoJson jsonData userId
  end.

(** [OhosAccountDataDeal::GetAccountInfo], ohos_account_data_deal.cpp *)
Definition GetAccountInfo (userId : Z) : M W AccountInfo :=
  if userId <? 0 then merr ERR_OSACCOUNT_SERVICE_MANAGER_ID_ERROR
  else
    let configFile := config_file userId in
    ret ← mtry (CheckFileExistence configFile);
    _ ← match ret with
        | Ok _ => mret tt
        | Err e => if negb (e =? ERR_ACCOUNT_COMMON_FILE_NOT_EXIST) then merr ERR_ACCOUNT_DATADEAL_INPUT_FILE_ERROR
                   else BuildJsonFileFromScratch userId
        end;
    jsonData ← ParseJsonFromFile configFile userId;
    mret (GetAccountInfoFromJson jsonData AccountInfo_new userId).

(** A document that is too large is written anew, one that is no document is removed.

    [OhosAccountDataDeal::Init], ohos_account_data_deal.cpp:167-204 *)
Definition check_document (userId : Z) : M W unit :=
  let configFile := config_file userId in
  tooLarge ← IsFileSizeExceedsLimit configFile MAX_ACCOUNT_JSON_FILE_SIZE;
  _ ← (if tooLarge : bool then _ ← RemoveFile configFile; BuildJsonFileFromScratch userId else mret tt);
  fin ← ifstream configFile;
  match fin with
  | None => merr ERR_ACCOUNT_DATADEAL_INPUT_FILE_ERROR
  | Some fileContent =>
      let jsonData := CreateJsonFromString fileContent in
      if negb (IsObject jsonData) then _ ← RemoveFile configFile; merr ERR_ACCOUNT_DATADEAL_JSON_FILE_CORRUPTION
      else mret tt
  end.

(** The part of the start that is about the file of the device.

    [OhosAccountDataDeal::Init], ohos_account_data_deal.cpp:161-204 *)
Definition InitFile (userId : Z) : M W unit :=
  exist ← IsExistFile (config_file userId);
  _ ← (if negb exist then BuildJsonFileFromScratch userId else mret tt);
  check_document userId.

(** *** os_account_subspace_data_deal.cpp *)

Definition OS_ACCOUNT_SUB_PROFILE_ID_MIN : Z := 1.
Definition OS_ACCOUNT_SUB_PROFILE_ID_MAX : Z := 999.
Definition REMOVE_RETRY_TIMES : nat := 3.

(** [OHOS::system::GetIntParameter] keeps the parameter between 1 and 999.

    [MAX_OS_ACCOUNT_SUB_PROFILE_COUNT], os_account_subspace_data_deal.cpp:55-56 *)
Definition MAX_OS_ACCOUNT_SUB_PROFILE_COUNT : Z :=
  if (1 <=? appCloneMaxCount) && (appCloneMaxCount <=? 999) then appCloneMaxCount else 999.

(** The first free number from [candidate] on, around from [maxId] to [minId], among the
    [fuel] numbers that are looked at.

    [OsAccountSubProfileDataDeal::AllocateSubProfileIndex], os_account_subspace_data_deal.cpp:73-84 *)
Fixpoint first_free (minId maxId : Z) (used : Z → bool) (fuel : nat) (candidate : Z) : option Z :=
  match fuel with
  | O => None
  | S fuel =>
      if negb (used candidate) then Some candidate
      else let next := candidate + 1 in
           first_free minId maxId used fuel (if maxId <? next then minId else next)
  end.

(** [OsAccountSubProfileDataDeal::AllocateSubProfileIndex], os_account_subspace_data_deal.cpp *)
Definition AllocateSubProfileIndex (nextSubProfileIndex : Z) (subProfileIndexMap : gmap Z Z) : result Z :=
  let minIndex := HEADLESS_SUBPROFILE_INDEX + 1 in
  let maxIndex := MAX_OS_ACCOUNT_SUB_PROFILE_COUNT in
  let totalRange := maxIndex - minIndex + 1 in
  let startIndex := if (nextSubProfileIndex <? minIndex) || (maxIndex <? nextSubProfileIndex) then minIndex
                    else nextSubProfileIndex in
  match first_free minIndex maxIndex (λ candidate, bool_decide (is_Some (subProfileIndexMap !! candidate)))
          (Z.to_nat totalRange) startIndex with
  | Some outIndex => Ok outIndex
  | None => Err ERR_OS_ACCOUNT_SUBPROFILE_LIMIT
  end.

(** The loop ends when it has looked at each number of the range once.

    [OsAccountSubProfileDataDeal::AllocateOsAccountSubProfileId], os_account_subspace_data_deal.cpp *)
Definition AllocateOsAccountSubProfileId (osAccountId nextSubProfileId : Z) (subProfileIdList : list Z) : result Z :=
  let base := i32 (osAccountId * OS_ACCOUNT_SUBSPACE_ID_MULTIPLIER) in
  let minId := i32 (base + OS_ACCOUNT_SUB_PROFILE_ID_MIN) in
  let maxId := i32 (base + OS_ACCOUNT_SUB_PROFILE_ID_MAX) in
  let startId := if (nextSubProfileId <? minId) || (maxId <? nextSubProfileId) then minId else nextSubProfileId in
  let totalRange := OS_ACCOUNT_SUB_PROFILE_ID_MAX - OS_ACCOUNT_SUB_PROFILE_ID_MIN + 1 in
  match first_free minId maxId (λ id, bool_decide (id ∈ subProfileIdList)) (Z.to_nat totalRange) startId with
  | Some outId => Ok outId
  | None => Err ERR_OS_ACCOUNT_SUBPROFILE_LIMIT
  end.

(** [OsAccountSubProfileDataDeal::GetSubProfileDir], os_account_subspace_data_deal.cpp *)
Definition GetSubProfileDir (osAccountId subspaceId : Z) : string :=
  ACCOUNT_CFG_DIR_ROOT_PATH +:+ to_string osAccountId +:+ "/" +:+ to_string subspaceId.

(** [OsAccountSubProfileDataDeal::GetSubProfileFilePath], os_account_subspace_data_deal.cpp *)
Definition GetSubProfileFilePath (osAccountId subspaceId : Z) : string :=
  GetSubProfileDir osAccountId subspaceId +:+ ACCOUNT_CFG_FILE_NAME.

Definition GetSubProfileAvatarPath (osAccountId subspaceId : Z) : string :=
  GetSubProfileDir osAccountId subspaceId +:+ ACCOUNT_AVATAR_NAME.

(** All characters are digits, and there is one. *)
Definition all_digits (s : string) : bool := negb (string_empty s) && forallb is_digit (String.list_ascii_of_string s).

(** An entry of a directory is its name with whether it is a directory; -1 is none.

    [OsAccountSubProfileDataDeal::ParseDirEntryAsSubProfileId], os_account_subspace_data_deal.cpp *)
Definition ParseDirEntryAsSubProfileId (entry : string * bool) (base : Z) : Z :=
  let '(name, d_type) := entry in
  if negb d_type then -1
  else if bool_decide (name = ".") || bool_decide (name = "..") then -1
  else if negb (all_digits name) then -1
  else match strtol_whole name with
       | None => -1
       | Some val =>
           if (val <? INT32_MIN) || (INT32_MAX <? val) then -1
           else let offset := i32 (val - base) in
                if (offset <? 0) || (OS_ACCOUNT_SUB_PROFILE_ID_MAX <? offset) then -1 else val
       end.

(** [OsAccountSubProfileDataDeal::SaveSubProfileFiles], os_account_subspace_data_deal.cpp *)
Definition SaveSubProfileFiles (info : OsAccountSubspaceInfo) (serializedContent : string) : M W unit :=
  let userId := userId_ (account_of info) in
  let subspaceDir := GetSubProfileDir userId (subspaceId info) in
  exist ← IsExistDir subspaceDir;
  _ ← (if negb exist then CreateDir subspaceDir else mret tt);
  _ ← InputFileByPathAndContentWithTransaction (GetSubProfileAvatarPath userId (subspaceId info)) (avatar_ (ohos_of info));
  InputFileByPathAndContentWithTransaction (GetSubProfileFilePath userId (subspaceId info)) serializedContent.

(** [OsAccountSubProfileDataDeal::SaveSubProfileInfo], os_account_subspace_data_deal.cpp
    [OsAccountSubProfileManager::SaveSubProfileInfo], os_account_subspace_manager.cpp *)
Definition SaveSubProfileInfo (info : OsAccountSubspaceInfo) : M W unit :=
  let content := SerializeSubProfileInfoToJson info in
  if string_empty content then merr ERR_ACCOUNT_DATADEAL_JSON_FILE_CORRUPTION
  else SaveSubProfileFiles info content.

(** [OsAccountSubProfileDataDeal::LoadSubProfileInfo], os_account_subspace_data_deal.cpp
    [OsAccountSubProfileManager::LoadSubProfileInfo], os_account_subspace_manager.cpp *)
Definition LoadSubProfileInfo (osAccountId subspaceId : Z) (info : OsAccountSubspaceInfo) : M W OsAccountSubspaceInfo :=
  let filePath := GetSubProfileFilePath osAccountId subspaceId in
  exist ← IsExistFile filePath;
  if negb exist then merr ERR_ACCOUNT_COMMON_ACCOUNT_NOT_EXIST_ERROR
  else
    content ← GetFileContentByPath filePath;
    match ParseSubProfileInfoFromJson content info with
    | Err ret => merr ret
    | Ok info =>
        avatarData ← mtry (GetFileContentByPath (GetSubProfileAvatarPath osAccountId subspaceId));
        match avatarData with
        | Ok avatarData =>
            mret (with_account (with_ohos (with_avatar avatarData (ohos_of info)) (account_of info)) info)
        | Err _ => mret info
        end
    end.

(** The subspaces of a directory listing, and of those with a filter the ones that can be
    loaded and pass it. *)
Fixpoint scan_entries (osAccountId : Z) (filter : option (OsAccountSubspaceInfo → bool)) (entries : list (string * bool))
    (resultIds : gset Z) : M W (gset Z) :=
  match entries with
  | [] => mret resultIds
  | entry :: entries =>
      let subspaceId := ParseDirEntryAsSubProfileId entry (i32 (osAccountId * OS_ACCOUNT_SUBSPACE_ID_MULTIPLIER)) in
      if subspaceId <? 0 then scan_entries osAccountId filter entries resultIds
      else
        match filter with
        | None => scan_entries osAccountId filter entries ({[subspaceId]} ∪ resultIds)
        | Some f =>
            ret ← mtry (LoadSubProfileInfo osAccountId subspaceId OsAccountSubspaceInfo_default);
            match ret with
            | Err _ => scan_entries osAccountId filter entries resultIds
            | Ok info => scan_entries osAccountId filter entries (if f info then {[subspaceId]} ∪ resultIds else resultIds)
            end
        end
  end.

(** [OsAccountSubProfileDataDeal::ScanSubProfileIds], os_account_subspace_data_deal.cpp *)
Definition ScanSubProfileIds (osAccountId : Z) (filter : option (OsAccountSubspaceInfo → bool)) : M W (gset Z) :=
  dir ← ListDirectory (ACCOUNT_CFG_DIR_ROOT_PATH +:+ to_string osAccountId +:+ "/");
  match dir with
  | None => mret ∅
  | Some entries => scan_entries osAccountId filter entries ∅
  end.

Definition is_valid (info : OsAccountSubspaceInfo) : bool := isCreateCompleted info && negb (toBeRemoved info).

(** [OsAccountSubProfileDataDeal::ScanOrphanedSubProfileIds], os_account_subspace_data_deal.cpp *)
Definition ScanOrphanedSubProfileIds (osAccountId : Z) : M W (gset Z) :=
  ScanSubProfileIds osAccountId (Some (λ info, negb (isCreateCompleted info))).

(** [OsAccountSubProfileDataDeal::ScanPendingRemovalSubProfileIds], os_account_subspace_data_deal.cpp *)
Definition ScanPendingRemovalSubProfileIds (osAccountId : Z) : M W (gset Z) :=
  ScanSubProfileIds osAccountId (Some toBeRemoved).

(** [OsAccountSubProfileDataDeal::ScanRawSubProfileIds], os_account_subspace_data_deal.cpp *)
Definition ScanRawSubProfileIds (osAccountId : Z) : M W (gset Z) := ScanSubProfileIds osAccountId None.

(** [OsAccountSubProfileDataDeal::RemoveSubProfileDir], os_account_subspace_data_deal.cpp *)
Definition RemoveSubProfileDir (osAccountId subspaceId : Z) : M W unit :=
  let subspaceDir := GetSubProfileDir osAccountId subspaceId in
  exist ← IsExistDir subspaceDir;
  if negb exist then mret tt
  else
    (fix attempt (retryCount : nat) (ret : result unit) : M W unit :=
       match retryCount with
       | O => match ret with Ok _ => mret tt | Err e => merr e end
       | S retryCount =>
           ret ← mtry (DeleteDir subspaceDir);
           match ret with Ok _ => mret tt | Err _ => attempt retryCount ret end
       end) REMOVE_RETRY_TIMES (Ok tt).

(** [OsAccountSubProfileDataDeal::IsValidSubProfileExists], os_account_subspace_data_deal.cpp *)
Definition IsValidSubProfileExists (osAccountId subspaceId : Z) : M W bool :=
  ret ← mtry (LoadSubProfileInfo osAccountId subspaceId OsAccountSubspaceInfo_default);
  mret (match ret with Ok info => is_valid info | Err _ => false end).
End DataDeal.
