(* ===== verification/OhosAccountStorage.v ===== *)
(** What distributed accounts become in files: an account survives its document, a change is
    stored and read back on a device that does not fail, and the start of the service copes
    with any content of the file. *)
From Stdlib Require Import ZArith Lia Ascii String.
From stdpp Require Import base list gmap sets strings pretty.
From S2P Require Import Prelude ErrorCodes Json FileStore AccountStateMachine OsAccountInfo OsAccountEnv OsAccountDocs OhosAccountInfo OhosAccountFiles.
Import Ohos.

(** ** The document *)

(** The numbers are in the ranges of their types and no text has a null character. *)
Record storable_account (a : AccountInfo) : Prop := {
  account_ints : Forall is_i32 [version_ a; userId_ a; status_ (ohosAccountInfo_ a); callingUid_ (ohosAccountInfo_ a)];
  account_created : is_i64 (createTime_ a);
  account_texts : Forall nul_free
    [name_ (ohosAccountInfo_ a); rawUid_ (ohosAccountInfo_ a); uid_ (ohosAccountInfo_ a); nickname_ (ohosAccountInfo_ a);
     scalableData_ (ohosAccountInfo_ a); avatar_ (ohosAccountInfo_ a)];
}.

Section RoundTrip.
Context {cjson : CJsonLib} {laws : CJsonLaws} {alloc : CJsonAlloc} {target : Target}.

Definition account_fields (a : AccountInfo) : list (string * CJson) :=
  let o := ohosAccountInfo_ a in
  [(KEY_VERSION, num (version_ a)); (KEY_BIND_TIME, num (i32 (bindTime_ a)));
   (KEY_CREATE_TIME, JString (to_string (createTime_ a))); (KEY_USERID, num (userId_ a)); (KEY_NAME, JString (name_ o));
   (KEY_RAW_UID, JString (rawUid_ o)); (KEY_UID, JString (uid_ o)); (KEY_STATUS, num (status_ o));
   (KEY_CALLINGUID, num (callingUid_ o)); (KEY_NICKNAME, JString (nickname_ o)); (KEY_SCALABLEDATA, JString (scalableData_ o))].

Definition account_doc (a : AccountInfo) : CJson := JObject (account_fields a).

(** The text of the document of an account. *)
Definition account_text (a : AccountInfo) : string := PackJsonToString (Some (account_doc a)).

(** The account that is read back: the time of the binding is the one an [int] holds, and
    nothing keeps the digest. *)
Definition account_read (a : AccountInfo) : AccountInfo := {| a with bindTime_ := i32 (bindTime_ a); digest_ := "" |}.

Lemma SerializeAccount_eq a : storable_account a → SerializeAccountInfoToJson a = Some (account_doc a).
Proof.
  intros Ha. pose proof (account_texts a Ha) as Ht. unfold nul_free in Ht. rewrite !Forall_cons in Ht.
  destruct Ht as (H1&H2&H3&H4&H5&_). unfold SerializeAccountInfoToJson, build. rewrite CreateJson_eq.
  cbv zeta. add_fields_tac. unfold account_doc, account_fields, num. cbn -[double_of_Z].
  by rewrite H1, H2, H3, H4, H5, to_string_nul_free.
Qed.

Lemma distributed_doc_ok a : storable_account a → json_ok (account_doc a) = true.
Proof.
  intros Ha. pose proof (account_texts a Ha) as Ht. pose proof (account_ints a Ha) as Hn.
  rewrite !Forall_cons in Ht. rewrite !Forall_cons in Hn. destruct Ht as (?&?&?&?&?&_), Hn as (?&?&?&?&_).
  unfold json_ok, account_doc. apply andb_true_iff. split; [|done].
  cbn [json_plain]. apply forallb_Forall_true. unfold account_fields. rewrite !Forall_cons. cbn [fst snd].
  split_and!; try apply Forall_nil; try done; (apply andb_true_iff; split; [done|]);
    first [by apply text_plain | by apply num_plain | apply num_plain, i32_range | apply text_plain, to_string_nul_free].
Qed.

Lemma account_text_parses a :
  storable_account a → string_empty (account_text a) = false ∧ CreateJsonFromString (account_text a) = Some (account_doc a).
Proof. intros Ha. unfold account_text. by destruct (pack_create _ (distributed_doc_ok a Ha)) as [-> ->]. Qed.

(** The document together with the avatar, as the getters see it. *)
Definition account_doc_avatar (a : AccountInfo) : CJson :=
  JObject (account_fields a ++ [(KEY_AVATAR, JString (avatar_ (ohosAccountInfo_ a)))]).

Lemma account_doc_add_avatar a :
  storable_account a →
  AddStringToJson (Some (account_doc a)) KEY_AVATAR (avatar_ (ohosAccountInfo_ a)) = Some (account_doc_avatar a).
Proof.
  intros Ha. pose proof (account_texts a Ha) as Ht. unfold nul_free in Ht. rewrite !Forall_cons in Ht.
  destruct Ht as (_&_&_&_&_&H&_). unfold account_doc. erewrite AddStringToJson_eq by done. rewrite H.
  unfold account_doc_avatar, account_fields, num. cbn -[double_of_Z]. done.
Qed.

Lemma GetAccountInfo_doc a userId :
  storable_account a → userId_ a = userId →
  GetAccountInfoFromJson (Some (account_doc_avatar a)) AccountInfo_new userId = account_read a.
Proof.
  intros Ha <-. pose proof (account_ints a Ha) as Hn. rewrite !Forall_cons in Hn. destruct Hn as (?&?&?&?&_).
  pose proof (account_created a Ha) as Hc.
  set (l := account_fields a ++ [(KEY_AVATAR, JString (avatar_ (ohosAccountInfo_ a)))]).
  change (account_doc_avatar a) with (JObject l).
  unfold GetAccountInfoFromJson, GetJsonField_int, GetJsonField_time, GetJsonField_string, GetInt64FromJson, GetItemFromJson.
  rewrite !key_exists_fields, !obj_find_fields. unfold l, account_fields. cbn [app]. find_fields.
  cbn -[double_to_int num to_string strtol_whole]. unfold num.
  rewrite !to_i32, to_string_not_empty, to_i64 by done.
  rewrite double_to_int_of_Z by (pose proof (i32_range (bindTime_ a)) as Hr; unfold is_i32, INT32_MIN, INT32_MAX, INT64_MIN, INT64_MAX in *; lia).
  by destruct a as [[]].
Qed.
End RoundTrip.

(** ** The files *)

Lemma config_file_document id : is_document (config_file id).
Proof.
  change (config_file id) with (account_file (to_string id) "account.json").
  apply account_file_document; [cbn; lia|by vm_compute].
Qed.

Lemma avatar_file_document id : is_document (avatar_file id).
Proof.
  change (avatar_file id) with (account_file (to_string id) "account_avatar").
  apply account_file_document; [cbn; lia|by vm_compute].
Qed.

Lemma account_file_inj id id' name name' :
  0 ≤ id → 0 ≤ id' → account_file (to_string id) name = account_file (to_string id') name' → id = id' ∧ name = name'.
Proof.
  intros Hid Hid' E. unfold account_file, account_dir in E. rewrite !string_app_assoc in E.
  do 2 apply string_app_inj_l in E. apply app_sep_inj in E as [E1 E2]; [|by apply to_string_char_free..].
  split; [by apply to_string_inj|done].
Qed.

Lemma config_ne_avatar id id' : 0 ≤ id → 0 ≤ id' → config_file id ≠ avatar_file id'.
Proof. intros Hid Hid' E. apply (account_file_inj id id' "account.json" "account_avatar") in E as [_ E]; done. Qed.
Lemma config_file_inj id id' : 0 ≤ id → 0 ≤ id' → config_file id = config_file id' → id = id'.
Proof. intros Hid Hid' E. by apply (account_file_inj id id' "account.json" "account.json") in E as [E _]. Qed.
Lemma avatar_file_inj id id' : 0 ≤ id → 0 ≤ id' → avatar_file id = avatar_file id' → id = id'.
Proof. intros Hid Hid' E. by apply (account_file_inj id id' "account_avatar" "account_avatar") in E as [E _]. Qed.

Section Device.
Context {W : Type} {os_cfg : OsConfig} {cjson : CJsonLib} {laws : CJsonLaws} {alloc : CJsonAlloc} {target : Target}.
Context {fs : FileStore W} {rel : ReliableStore W} {streams : StreamStore W} {rstreams : ReliableStreams W}.
Context {huks : Huks} {env : Surroundings W} {platform : Platform W} {plaws : PlatformLaws W} {rplatform : ReliablePlatform W}.

(** The device has the documents [d] and does not fail. *)
Definition on_device (d : gmap string string) (w : W) : Prop := at_docs d w ∧ reliable w.

(** An account whose document and avatar are small enough to be read again. *)
Definition readable (a : AccountInfo) : Prop :=
  storable_account a ∧ fits (account_text a) ∧ fits (avatar_ (ohosAccountInfo_ a)) ∧
  Z.of_nat (String.length (account_text a)) ≤ MAX_ACCOUNT_JSON_FILE_SIZE.

(** The files of an account of the operating system hold the distributed account. *)
Definition stored (id : Z) (a : AccountInfo) (d : gmap string string) : Prop :=
  d !! config_file id = Some (account_text a) ∧ d !! avatar_file id = Some (avatar_ (ohosAccountInfo_ a)).

Definition store (id : Z) (a : AccountInfo) (d : gmap string string) : gmap string string :=
  <[config_file id := account_text a]> (<[avatar_file id := avatar_ (ohosAccountInfo_ a)]> d).

Lemma stored_store id a d : 0 ≤ id → stored id a (store id a d).
Proof.
  intros Hid. split; unfold store; [by rewrite lookup_insert_eq|].
  rewrite lookup_insert_ne by (by apply config_ne_avatar). by rewrite lookup_insert_eq.
Qed.

Lemma stored_other id id' a a' d :
  0 ≤ id → 0 ≤ id' → id ≠ id' → stored id' a' d → stored id' a' (store id a d).
Proof.
  intros Hid Hid' Hne [Hc Ha]. unfold stored, store.
  rewrite !lookup_insert_ne; [done|..]; intros E.
  - by apply avatar_file_inj in E.
  - by apply config_ne_avatar in E.
  - symmetry in E. by apply config_ne_avatar in E.
  - by apply config_file_inj in E.
Qed.

Lemma wp_write_device p c d (Q : result unit → W → Prop) w :
  is_document p → fits c → on_device d w → (∀ w', on_device (<[p := c]> d) w' → Q (Ok tt) w') →
  wp (InputFileByPathAndContent p c) Q w.
Proof.
  intros Hp Hc [[Hi Hd] Hr] HQ. pose proof (write_spec p c w Hi (proj1 Hp)) as [Hi' Ht].
  pose proof (write_reliable p c w Hi Hr (proj1 Hp) Hc) as [Hr' Ho]. unfold wp. rewrite Ho in Ht |- *. apply HQ.
  split; [|done]. split; [done|]. unfold docs in *. rewrite Ht, delete_insert_ne by (symmetry; apply Hp). by rewrite Hd.
Qed.

Lemma wp_transaction_device p c d (Q : result unit → W → Prop) w :
  is_document p → fits c → on_device d w → (∀ w', on_device (<[p := c]> d) w' → Q (Ok tt) w') →
  wp (InputFileByPathAndContentWithTransaction p c) Q w.
Proof.
  intros Hp Hc [[Hi Hd] Hr] HQ. pose proof (transaction_spec p c w Hi (proj1 Hp)) as [Hi' Ht].
  pose proof (transaction_reliable p c w Hi Hr (proj1 Hp) Hc) as [Hr' Ho]. unfold wp. rewrite Ho in Ht |- *. apply HQ.
  split; [|done]. split; [done|]. unfold docs in *. rewrite Ht, delete_insert_ne by (symmetry; apply Hp). by rewrite Hd.
Qed.

(** Calls that only look: what they answer, and that they leave the device as it is. *)
Lemma looks {A} (m : M W A) (r : result A) d (Q : result A → W → Prop) w :
  on_device d w → idle (m w).2 → texts (m w).2 = texts w → reliable (m w).2 → (m w).1 = r →
  (∀ w', on_device d w' → Q r w') → wp m Q w.
Proof.
  intros [[Hi Hd] Hr] Hi' Ht Hr' Ho HQ. unfold wp. rewrite Ho. apply HQ. split; [|done]. split; [done|].
  unfold docs in *. by rewrite Ht.
Qed.

Lemma wp_read_device p t d (Q : result string → W → Prop) w :
  is_document p → string_empty p = false → d !! p = Some t → fits t → on_device d w →
  (∀ w', on_device d w' → Q (Ok t) w') → wp (GetFileContentByPath p) Q w.
Proof.
  intros Hp Hne Ht Hf [[Hi Hd] Hr]. pose proof (read_spec p w Hi (proj1 Hp)) as (Hi' & Hts & _).
  assert (Hl : texts w !! p = Some t) by (rewrite <-docs_lookup by done; by rewrite Hd).
  pose proof (read_reliable p w t Hi Hr (proj1 Hp) Hne Hl Hf) as [Hr' Ho]. by apply looks.
Qed.

Lemma wp_check_device p d (Q : result unit → W → Prop) w :
  is_document p → string_empty p = false → is_Some (d !! p) → on_device d w →
  (∀ w', on_device d w' → Q (Ok tt) w') → wp (CheckFileExistence p) Q w.
Proof.
  intros Hp Hne Hsome [[Hi Hd] Hr]. pose proof (check_spec p w Hi (proj1 Hp)) as (Hi' & Hts & _).
  rewrite <-Hd, docs_lookup in Hsome by done. pose proof (check_reliable p w Hi Hr (proj1 Hp) Hne Hsome) as [Hr' Ho].
  by apply looks.
Qed.

Lemma wp_exists_device p d (Q : result bool → W → Prop) w :
  is_document p → string_empty p = false → on_device d w →
  (∀ w', on_device d w' → Q (Ok (bool_decide (is_Some (d !! p)))) w') → wp (IsExistFile p) Q w.
Proof.
  intros Hp Hne [[Hi Hd] Hr]. pose proof (exists_spec p w Hi (proj1 Hp)) as (Hi' & Hts & _).
  pose proof (exists_reliable p w Hi Hr (proj1 Hp) Hne) as [Hr' Ho]. rewrite <-docs_lookup, Hd in Ho by done.
  by apply looks.
Qed.

Lemma wp_size_device p n t d (Q : result bool → W → Prop) w :
  is_document p → string_empty p = false → d !! p = Some t → on_device d w →
  (∀ w', on_device d w' → Q (Ok (n <? Z.of_nat (String.length t))) w') → wp (IsFileSizeExceedsLimit p n) Q w.
Proof.
  intros Hp Hne Ht [[Hi Hd] Hr]. pose proof (size_spec p n w Hi (proj1 Hp)) as (Hi' & Hts & _).
  assert (Hl : texts w !! p = Some t) by (rewrite <-docs_lookup by done; by rewrite Hd).
  pose proof (size_reliable p n w t Hi Hr (proj1 Hp) Hne Hl) as [Hr' Ho]. by apply looks.
Qed.

Lemma wp_stream_device p t d (Q : result (option string) → W → Prop) w :
  is_document p → d !! p = Some t → on_device d w →
  (∀ w', on_device d w' → Q (Ok (Some t)) w') → wp (ifstream p) Q w.
Proof.
  intros Hp Ht [[Hi Hd] Hr]. pose proof (stream_spec p w Hi (proj1 Hp)) as (Hi' & Hts & _).
  assert (Hl : texts w !! p = Some t) by (rewrite <-docs_lookup by done; by rewrite Hd).
  assert (Hs : is_Some (texts w !! p)) by by eexists.
  pose proof (stream_reliable p w Hi Hr (proj1 Hp) Hs) as [Hr' Ho]. rewrite Hl in Ho. by apply looks.
Qed.

Lemma wp_remove_device p t d (Q : result bool → W → Prop) w :
  is_document p → d !! p = Some t → on_device d w →
  (∀ w', on_device (delete p d) w' → Q (Ok true) w') → wp (RemoveFile p) Q w.
Proof.
  intros Hp Ht [[Hi Hd] Hr] HQ.
  assert (Hs : is_Some (texts w !! p)) by (eexists; rewrite <-docs_lookup by done; by rewrite Hd).
  pose proof (remove_spec p w Hi (proj1 Hp)) as (Hi' & b & Hb & Hts).
  pose proof (remove_reliable p w Hi Hr (proj1 Hp) Hs) as [Hr' Ho]. rewrite Ho in Hb. simplify_eq.
  unfold wp. rewrite Ho. apply HQ. split; [|done]. split; [done|]. unfold docs in *. by rewrite Hts, delete_delete.
Qed.

(** The digest file is none of the documents. *)
Lemma digest_device t p d w : on_device d w → on_device d (AddAccountInfoDigest t p w).2.
Proof.
  intros [Hd Hr]. split; [by apply AddAccountInfoDigest_quiet|]. destruct Hd as [Hi _].
  unfold AddAccountInfoDigest. rewrite run_try. unfold GenerateAccountInfoDigestStr. rewrite mbind_unfold.
  pose proof (read_spec _ w Hi digest_is_temp) as (Hi' & _ & _). pose proof (read_keeps _ w Hi Hr digest_is_temp) as Hr'.
  destruct (GetFileContentByPath _ w) as [[t'|e] w']; cbn [snd] in *; [|done].
  destruct (CreateJsonFromString t') as [j|]; [|done]. destruct (AddVectorUint8ToJson _ _ _) as [j'|]; [|done].
  cbv zeta. destruct (string_empty _); [done|]. by apply write_keeps.
Qed.

Lemma wp_digest_device t p d (Q : result (result unit) → W → Prop) w :
  on_device d w → (∀ r w', on_device d w' → Q (Ok r) w') →
  wp (if ENABLE_FILE_WATCHER then mtry (AddAccountInfoDigest t p) else mret (Ok tt)) Q w.
Proof.
  intros Hw HQ. destruct ENABLE_FILE_WATCHER; [|by apply wp_ret, HQ]. apply wp_try. unfold wp.
  pose proof (digest_device t p d w Hw). apply HQ. done.
Qed.

Lemma wp_save a d (Q : result unit → W → Prop) w :
  readable a → on_device d w →
  (∀ w', on_device (store (userId_ a) a d) w' → Q (Ok tt) w') → wp (SaveAccountInfo a) Q w.
Proof.
  intros (Ha & Hf & Hav & _) Hw HQ. unfold SaveAccountInfo. rewrite SerializeAccount_eq by done.
  apply wp_bind, (wp_transaction_device _ _ d); [apply avatar_file_document|done..|]. intros w1 Hw1. cbv zeta.
  apply wp_bind, wp_try. eapply wp_write_device; [apply config_file_document|done..|]. intros w2 Hw2.
  apply wp_bind. eapply wp_digest_device; [done|]. intros r w3 Hw3. apply wp_ret. by apply HQ.
Qed.

Lemma wp_time d (Q : result Z → W → Prop) w :
  on_device d w → (∀ now w', times now → on_device d w' → Q (Ok now) w') → wp (platform_ std_time) Q w.
Proof.
  intros [[Hi Hd] Hr] HQ. unfold wp, platform_. pose proof (std_time_leaves w Hi) as [Hi' Ht].
  pose proof (time_reliable w Hi Hr) as [Hr' Hn]. destruct (std_time w) as [now w']. cbn [fst snd] in *. apply HQ; [done|].
  split; [|done]. split; [done|]. unfold docs in *. by rewrite Ht.
Qed.

(** What is stored is what is loaded. *)
Lemma wp_GetAccountInfo id a d (Q : result AccountInfo → W → Prop) w :
  0 ≤ id → userId_ a = id → readable a → stored id a d → on_device d w →
  (∀ w', on_device d w' → Q (Ok (account_read a)) w') → wp (GetAccountInfo id) Q w.
Proof.
  intros Hid Hu (Ha & Hf & Hav & Hlen) [Hc Hs] Hw HQ. unfold GetAccountInfo.
  destruct (Z.ltb_spec id 0); [lia|]. cbv zeta.
  apply wp_bind, wp_try. apply (wp_check_device _ d); [apply config_file_document|done|by eexists|done|]. intros w1 Hw1.
  apply wp_bind, wp_ret, wp_bind. unfold ParseJsonFromFile.
  apply wp_bind. eapply wp_size_device; [apply config_file_document|done..|]. intros w2 Hw2.
  destruct (Z.ltb_spec MAX_ACCOUNT_JSON_FILE_SIZE (Z.of_nat (String.length (account_text a)))); [lia|].
  apply wp_bind, wp_ret, wp_bind. eapply wp_stream_device; [apply config_file_document|done..|]. intros w3 Hw3.
  destruct (account_text_parses a Ha) as [_ ->]. cbn [negb IsObject account_doc]. change (JObject (account_fields a)) with (account_doc a).
  unfold FillAvatarIntoJson. cbv zeta.
  assert (Hk : IsKeyExist (Some (account_doc a)) KEY_AVATAR = false).
  { unfold account_doc. rewrite key_exists_fields. reflexivity. }
  rewrite Hk. apply wp_bind, wp_try. eapply wp_read_device; [apply avatar_file_document|done..|]. intros w4 Hw4.
  rewrite account_doc_add_avatar by done. apply wp_ret, wp_ret. rewrite GetAccountInfo_doc by done. by apply HQ.
Qed.

(** *** The start *)

(** The account that nobody has logged in to can be stored at any time. *)
Definition starting (id : Z) : Prop := ∀ now, times now → readable (account_from_scratch id now).

Lemma wp_build id d (Q : result unit → W → Prop) w :
  starting id → on_device d w →
  (∀ w' now, times now → on_device (store id (account_from_scratch id now) d) w' → Q (Ok tt) w') →
  wp (BuildJsonFileFromScratch id) Q w.
Proof.
  intros Hs [[Hi Hd] Hr] HQ. unfold BuildJsonFileFromScratch, platform_. apply wp_bind. unfold wp at 1.
  pose proof (clock_leaves w Hi) as [Hi' Ht]. pose proof (clock_reliable w Hi Hr) as [Hr' Hn].
  destruct (system_clock_ms w) as [now w1]. cbn [fst snd] in *.
  apply wp_bind, wp_try, (wp_save _ d); [by apply Hs|split; [split; [done|]|done]; unfold docs in *; by rewrite Ht|].
  intros w2 Hw2. destruct ENABLE_FILE_WATCHER; [|by apply wp_ret; eapply (HQ w2 now)].
  destruct Hw2 as [[Hi2 Hd2] Hr2]. unfold AddFileWatcher.
  pose proof (AddFileWatcher_leaves id (config_file id) w2 Hi2) as [Hi3 Ht3].
  pose proof (AddFileWatcher_void id (config_file id) w2) as Hv.
  pose proof (watcher_keeps id (config_file id) w2 Hi2 Hr2) as Hr3.
  unfold wp. destruct (OsAccountEnv.AddFileWatcher id (config_file id) w2) as [[[]|e] w3]; [|done].
  cbn [fst snd] in *. apply (HQ w3 now); [done|]. split; [|done]. split; [done|]. unfold docs in *. by rewrite Ht3.
Qed.

Definition check_content (id : Z) (fin : option string) : M W unit :=
  match fin with
  | None => merr ERR_ACCOUNT_DATADEAL_INPUT_FILE_ERROR
  | Some fileContent =>
      if negb (IsObject (CreateJsonFromString fileContent))
      then _ ← RemoveFile (config_file id); merr ERR_ACCOUNT_DATADEAL_JSON_FILE_CORRUPTION else mret tt
  end.

(** The outcomes of the check of a document: it is fine, or it was none and is gone. *)
Definition checked (id : Z) (d : gmap string string) (r : result unit) (w : W) : Prop :=
  r = Ok tt ∨ r = Err ERR_ACCOUNT_DATADEAL_JSON_FILE_CORRUPTION ∧ on_device (delete (config_file id) d) w.

Lemma wp_content id t d w :
  d !! config_file id = Some t → on_device d w →
  wp (ifstream (config_file id) ≫= check_content id)
     (λ r w', checked id d r w' ∧ (IsObject (CreateJsonFromString t) = true → r = Ok tt)) w.
Proof.
  intros Ht Hw. apply wp_bind. eapply wp_stream_device; [apply config_file_document|done..|]. intros w2 Hw2.
  unfold check_content. destruct (IsObject (CreateJsonFromString t)) eqn:E; cbn [negb]; [by apply wp_ret; split; [left|]|].
  apply wp_bind. eapply wp_remove_device; [apply config_file_document|done..|]. intros w3 Hw3. apply wp_err.
  split; [by right|done].
Qed.

(** A document that is written anew is a document. *)
Lemma wp_built id d w :
  0 ≤ id → starting id → on_device d w →
  wp (_ ← BuildJsonFileFromScratch id; ifstream (config_file id) ≫= check_content id) (λ r _, r = Ok tt) w.
Proof.
  intros Hid Hs Hw. apply wp_bind. eapply wp_build; [done..|]. intros w1 now Hn Hw1.
  destruct (stored_store id (account_from_scratch id now) d Hid) as [Hc _]. destruct (Hs now Hn) as (Ha & _).
  eapply wp_conseq; [by eapply wp_content|]. intros r w2 [_ Hr]. apply Hr.
  by destruct (account_text_parses _ Ha) as [_ ->].
Qed.

Lemma wp_same {A} (m m' : M W A) (Q : result A → W → Prop) w : m w = m' w → wp m' Q w → wp m Q w.
Proof. unfold wp. by intros ->. Qed.

Lemma check_document_eq id w :
  check_document id w =
  (tooLarge ← IsFileSizeExceedsLimit (config_file id) MAX_ACCOUNT_JSON_FILE_SIZE;
   if tooLarge : bool then _ ← RemoveFile (config_file id); _ ← BuildJsonFileFromScratch id; ifstream (config_file id) ≫= check_content id
   else ifstream (config_file id) ≫= check_content id) w.
Proof.
  unfold check_document. cbv zeta. rewrite !(mbind_unfold (IsFileSizeExceedsLimit _ _)).
  destruct (IsFileSizeExceedsLimit _ _ w) as [[[]|e] w1]; [|done..]. by rewrite mbind_assoc.
Qed.

Lemma wp_check_document id t d w :
  0 ≤ id → starting id → d !! config_file id = Some t → on_device d w →
  wp (check_document id) (λ r w', checked id d r w' ∧ (IsObject (CreateJsonFromString t) = true → r = Ok tt)) w.
Proof.
  intros Hid Hs Ht Hw. apply (wp_same _ _ _ _ (check_document_eq id w)).
  apply wp_bind. eapply wp_size_device; [apply config_file_document|done..|]. intros w1 Hw1.
  destruct (_ <? _); [|by eapply wp_content].
  apply wp_bind. eapply wp_remove_device; [apply config_file_document|done..|]. intros w2 Hw2.
  eapply wp_conseq; [by eapply wp_built|]. intros r w3 ->. split; [by left|done].
Qed.

(** The first round of the start. *)
Lemma wp_init id d w :
  0 ≤ id → starting id → on_device d w →
  wp (InitFile id) (λ r w', checked id d r w' ∧ (d !! config_file id = None → r = Ok tt)) w.
Proof.
  intros Hid Hs Hw. unfold InitFile. apply wp_bind, (wp_exists_device _ d); [apply config_file_document|done..|].
  intros w1 Hw1. destruct (d !! config_file id) as [t|] eqn:E.
  - rewrite bool_decide_true by done. apply wp_bind, wp_ret. eapply wp_conseq; [by eapply wp_check_document|].
    intros r w2 [Hr _]. by split.
  - rewrite bool_decide_false by (by intros []). cbn [negb]. apply wp_bind. eapply wp_build; [done..|]. intros w2 now Hn Hw2.
    destruct (stored_store id (account_from_scratch id now) d Hid) as [Hc _]. destruct (Hs now Hn) as (Ha & _).
    eapply wp_conseq; [by eapply wp_check_document|]. intros r w3 [_ Hr].
    destruct (account_text_parses _ Ha) as [_ Hp]. rewrite Hp in Hr. specialize (Hr eq_refl). split; [by left|done].
Qed.
End Device.
