(* ===== verification/OhosAccountState.v ===== *)
(** The state around distributed accounts: the manager of operating system accounts with the
    world below it, what ohos_account_manager.cpp and os_account_subspace_manager.cpp keep
    in memory, the two managers of subscriptions, and the log of what is announced. *)
From Stdlib Require Import ZArith Lia Ascii String.
From stdpp Require Import base list gmap sets strings pretty sorting.
From S2P Require Import Prelude ErrorCodes Json FileStore AccountStateMachine OsAccountInfo OsAccountEnv OsAccountServices OsAccountSubscribe DistributedSubscribe OhosAccountInfo OhosAccountFiles.

(** What is announced, in the order it is: an event of a distributed account and an event
    of a subspace, each with the listeners it is sent to; and a common event of a user, of
    a subspace, of a switch of subspaces, and of all users. *)
Inductive Announcement :=
  | AccountEvent (id type subProfileId : Z) (called : list Listener)
  | ProfileEvent (type id subProfileId previous : Z) (called : list Listener)
  | AsUser (action : string) (userId : Z)
  | AsUserProfile (action : string) (userId subProfileId : Z)
  | AsUserSwitch (action : string) (userId toSubProfileId fromSubProfileId : Z)
  | ToAll (action : string) (userId : Z).

#[export] Instance Announcement_eq_dec : EqDecision Announcement.
Proof. solve_decision. Defined.

(** [COMMON_EVENT_OS_ACCOUNT_SUB_PROFILE_CREATED], account_event_provider.h:26-26 *)
Definition COMMON_EVENT_OS_ACCOUNT_SUB_PROFILE_CREATED : string := "usual.event.OS_ACCOUNT_SUB_PROFILE_CREATED".
Definition COMMON_EVENT_OS_ACCOUNT_SUB_PROFILE_DELETED : string := "usual.event.OS_ACCOUNT_SUB_PROFILE_DELETED".
Definition COMMON_EVENT_OS_ACCOUNT_SUB_PROFILE_SWITCHING : string := "usual.event.OS_ACCOUNT_SUB_PROFILE_SWITCHING".
Definition COMMON_EVENT_OS_ACCOUNT_SUB_PROFILE_SWITCHED : string := "usual.event.OS_ACCOUNT_SUB_PROFILE_SWITCHED".
Definition COMMON_EVENT_DISTRIBUTED_ACCOUNT_BOUND : string := "usual.event.DISTRIBUTED_ACCOUNT_BOUND".
Definition COMMON_EVENT_DISTRIBUTED_ACCOUNT_UNBOUND : string := "usual.event.DISTRIBUTED_ACCOUNT_UNBOUND".
Definition COMMON_EVENT_DISTRIBUTED_ACCOUNT_LOGIN : string := "common.event.DISTRIBUTED_ACCOUNT_LOGIN".
Definition COMMON_EVENT_DISTRIBUTED_ACCOUNT_LOGOUT : string := "common.event.DISTRIBUTED_ACCOUNT_LOGOUT".
Definition COMMON_EVENT_DISTRIBUTED_ACCOUNT_TOKEN_INVALID : string := "common.event.DISTRIBUTED_ACCOUNT_TOKEN_INVALID".
Definition COMMON_EVENT_DISTRIBUTED_ACCOUNT_LOGOFF : string := "common.event.DISTRIBUTED_ACCOUNT_LOGOFF".
Definition COMMON_EVENT_HWID_LOGIN : string := "common.event.HWID_LOGIN".
Definition COMMON_EVENT_HWID_LOGOUT : string := "common.event.HWID_LOGOUT".
Definition COMMON_EVENT_HWID_TOKEN_INVALID : string := "common.event.HWID_TOKEN_INVALID".
Definition COMMON_EVENT_HWID_LOGOFF : string := "common.event.HWID_LOGOFF".

(** [OhosAccountManager], ohos_account_manager.h:234-247
    [OsAccountSubProfileManager], os_account_subspace_manager.h *)
Record OhosManager (W : Type) := mkOhosManager {
  accounts : Manager W;
  initOk_ : bool;
  isInit_ : bool;
  accountState_ : AccountStateMachine;
  accountEventSubscribe_ : bool;
  accountSubscribers_ : list DistributedAccounts.SubscribeRecord;
  profileSubscribers_ : list SubProfiles.SubscribeRecord;
  foregroundSubProfileRuntimeMap_ : gmap Z Z;
  switchingAccounts_ : gset Z;
  announced : list Announcement;
}.
#[global] Arguments mkOhosManager {W}.
#[global] Arguments accounts {W}.
#[global] Arguments initOk_ {W}.
#[global] Arguments isInit_ {W}.
#[global] Arguments accountState_ {W}.
#[global] Arguments accountEventSubscribe_ {W}.
#[global] Arguments accountSubscribers_ {W}.
#[global] Arguments profileSubscribers_ {W}.
#[global] Arguments foregroundSubProfileRuntimeMap_ {W}.
#[global] Arguments switchingAccounts_ {W}.
#[global] Arguments announced {W}.

Section Lift.
Context {W : Type} {sw : OsSwitches}.
Local Abbreviation S := (OhosManager W).

(** [IInnerOsAccountManager::GetInstance()] *)
Definition osAccounts_ {A} (f : M (Manager W) A) : M S A :=
  λ s, let '(r, m) := f (accounts s) in (r, {| s with accounts := m |}).

(** The files and the platform. *)
Definition files_ {A} (f : M W A) : M S A := osAccounts_ (call f).

(** [(void)f();] *)
Definition void_ {A} (m : M S A) : M S unit := _ ← mtry m; mret tt.

Definition announce_ (a : Announcement) : M S unit := mmodify (λ s, {| s with announced := announced s ++ [a] |}).

(** [DistributedAccountSubscribeManager::Publish], distributed_account_subscribe_manager.cpp *)
Definition publish_account (id subscribeType subProfileId : Z) : M S unit :=
  s ← mget; announce_ (AccountEvent id subscribeType subProfileId
                         (DistributedAccounts.listeners subscribeType (accountSubscribers_ s))).

(** [OsAccountSubProfileSubscribeManager::Publish], os_account_sub_profile_subscribe_manager.cpp *)
Definition publish_profile (eventType localId subProfileId previousSubProfileId : Z) : M S unit :=
  s ← mget; announce_ (ProfileEvent eventType localId subProfileId previousSubProfileId
                         (SubProfiles.GetSubscribersToNotify eventType localId (profileSubscribers_ s))).

(** The user that [EventPublishAsUser] takes for none. *)
Definition UNDEFINED_USER : Z := -1.

(** [AccountEventProvider::EventPublish], account_event_provider.cpp *)
Definition EventPublish (event : string) (userId : Z) : M S unit :=
  if HAS_CES_PART then announce_ (ToAll event userId) else mret tt.

(** [AccountEventProvider::EventPublishAsUser]#1, account_event_provider.cpp *)
Definition EventPublishAsUser (event : string) (userId : Z) : M S unit :=
  if userId =? UNDEFINED_USER then EventPublish event userId
  else if HAS_CES_PART then announce_ (AsUser event userId) else mret tt.

(** A common event with parameters of its own.

    [AccountEventProvider::EventPublishAsUser]#2, account_event_provider.cpp *)
Definition publish_want (a : Announcement) (userId : Z) : M S unit :=
  if userId =? UNDEFINED_USER then mret tt
  else if HAS_CES_PART then announce_ a else mret tt.

(** [OhosAccountManager::SendSubProfileCES], ohos_account_manager.cpp *)
Definition SendSubProfileCES (userId subprofileId : Z) (eventStr : string) : M S unit :=
  publish_want (AsUserProfile eventStr userId subprofileId) userId.

(** [OhosAccountManager::SendSubProfileSwitchCES], ohos_account_manager.cpp *)
Definition SendSubProfileSwitchCES (userId subprofileId fromSubprofileId : Z) (isSwitching : bool) : M S unit :=
  publish_want (AsUserSwitch (if isSwitching then COMMON_EVENT_OS_ACCOUNT_SUB_PROFILE_SWITCHING
                              else COMMON_EVENT_OS_ACCOUNT_SUB_PROFILE_SWITCHED) userId subprofileId fromSubprofileId) userId.
End Lift.
