(* ===== verification/OsAccountSubProfiles.v ===== *)
(** The subspaces of an account of the operating system, os_account_subspace_manager.cpp: a
    subspace is a directory with a document of its own and an entry in the context of the
    account, and one of them is in the foreground.

    The bundle manager, which enables the applications of one subspace and disables those of
    another, and the deletion of credentials are the class [SubProfileServices]. *)
From Stdlib Require Import ZArith Lia Ascii String.
From stdpp Require Import base list gmap sets strings pretty sorting.
From S2P Require Import Prelude ErrorCodes Json FileStore AccountStateMachine OsAccountInfo OsAccountEnv OsAccountServices OsAccountInterface OsAccountManager OsAccountCreation OsAccountQueries OsAccountSubscribe DistributedSubscribe OhosAccountInfo OhosAccountFiles OhosAccountState.
Import Ohos.

(** [BatchSetApplicationEnabled] with the account, the index of the applications to enable and
    of those to disable, and the two flags; [DeleteSubProfile] with the result its call-back
    is given. *)
Class SubProfileServices (W : Type) := {
  HAS_USER_AUTH_PART : bool;
  BatchSetApplicationEnabled : Z → Z → Z → bool → bool → M W unit;
  DeleteSubProfile : Z → Z → W → Z * W;
}.

(** The result codes of the authentication service. *)
Definition IAM_SUCCESS : Z := 0.
Definition IAM_NOT_ENROLLED : Z := 10.
Definition BMS_MAX_RETRY : nat := 3.

(** [OsAccountSubspaceResult], account_info.h:142-157 *)
Record OsAccountSubspaceResult := {
  result_id : Z;
  result_osAccountId : Z;
  result_index : Z;
  result_createTime : Z;
}.

(** The subspace 0 of an account. *)
Definition base_of (osAccountId : Z) : Z := i32 (osAccountId * OS_ACCOUNT_SUBSPACE_ID_MULTIPLIER).

(** [erase(std::find(...))] *)
Fixpoint erase_first (x : Z) (l : list Z) : list Z :=
  match l with
  | [] => []
  | y :: l => if x =? y then l else y :: erase_first x l
  end.

(** The first index of a subspace, in the order of the indices. *)
Definition index_of (subProfileId : Z) (m : gmap Z Z) : option Z :=
  fst <$> find (λ kv, kv.2 =? subProfileId) (index_list m).

Definition erase_index (subProfileId : Z) (m : gmap Z Z) : gmap Z Z :=
  match index_of subProfileId m with Some index => delete index m | None => m end.

Section Operations.
Context {W : Type} {sw : OsSwitches} {cfg : Config} {os_cfg : OsConfig} {sysconf : Sysconf}.
Context {cjson : CJsonLib} {target : Target} {fs : FileStore W} {streams : StreamStore W}.
Context {huks : Huks} {env : Surroundings W} {platform : Platform W}.
Context {tee : TeeAdapter W} {parts : AccountParts W} {control : OsAccountControl W} {services : SubProfileServices W}.
Local Abbreviation S := (OhosManager W).

(** [IInnerOsAccountManager::ReadSubProfileContext], inner_os_account_manager.cpp *)
Definition ReadSubProfileContext (localId : Z) : M S SubProfileContext :=
  files_ (OsAccountServices.ReadSubProfileContext localId).

(** [IInnerOsAccountManager::UpdateOsAccountSubspaceInfo], inner_os_account_manager.cpp *)
Definition UpdateOsAccountSubspaceInfo (localId : Z) (data : SubProfileContext) : M S unit :=
  files_ (WriteSubProfileContext localId data).

Definition GetOsAccountInfo (id : Z) : M S OsAccountInfo := osAccounts_ (OsAccountQueries.GetOsAccountInfoById id).

(** [DeleteSubProfileCred], os_account_subspace_manager.cpp *)
Definition DeleteSubProfileCred (osAccountId subProfileId : Z) : M S unit :=
  result ← files_ (platform_ (DeleteSubProfile osAccountId subProfileId));
  if result =? IAM_NOT_ENROLLED then mret tt
  else if negb (result =? IAM_SUCCESS) then merr result
  else mret tt.

(** Each directory is removed, whether the last one could be or not. *)
Definition remove_dirs (osAccountId : Z) (ids : gset Z) : M S unit :=
  mfor (elements ids) (λ distId, void_ (files_ (RemoveSubProfileDir osAccountId distId))).

(** A failed scan gives no subspaces. *)
Definition scanned (scan : M W (gset Z)) : M S (gset Z) :=
  ids ← mtry (files_ scan); mret (match ids with Ok ids => ids | Err _ => ∅ end).

(** [OsAccountSubProfileManager::CleanupOrphanedSubProfiles], os_account_subspace_manager.cpp *)
Definition CleanupOrphanedSubProfiles : M S unit :=
  osAccountInfos ← mtry (osAccounts_ QueryAllCreatedOsAccounts);
  match osAccountInfos with
  | Err _ => mret tt
  | Ok osAccountInfos =>
      mfor osAccountInfos (λ info,
        let localId := OsAccountInfo.localId_ info in
        orphanIds ← scanned (ScanOrphanedSubProfileIds localId);
        _ ← remove_dirs localId orphanIds;
        pendingRemoveIds ← scanned (ScanPendingRemovalSubProfileIds localId);
        remove_dirs localId pendingRemoveIds)
  end.

(** *** Removal *)

(** [OsAccountSubProfileManager::RemoveOsAccountSubProfileInfo], os_account_subspace_manager.cpp *)
Definition RemoveOsAccountSubProfileInfo (osAccountId subspaceId : Z) (subprofileCtx : SubProfileContext) : M S unit :=
  if negb (bool_decide (subspaceId ∈ subProfileIdList subprofileCtx)) then mret tt
  else
    void_ (UpdateOsAccountSubspaceInfo osAccountId
      {| nextSubProfileId := nextSubProfileId subprofileCtx;
         subProfileIdList := erase_first subspaceId (subProfileIdList subprofileCtx);
         nextSubProfileIndex := nextSubProfileIndex subprofileCtx;
         subProfileIndexMap := erase_index subspaceId (subProfileIndexMap subprofileCtx) |}).

(** [OsAccountSubProfileManager::UpdateContextAfterRemove], os_account_subspace_manager.cpp *)
Definition UpdateContextAfterRemove (osAccountId subspaceId : Z) : M S unit :=
  ctx ← mtry (ReadSubProfileContext osAccountId);
  match ctx with
  | Ok subprofileCtx => RemoveOsAccountSubProfileInfo osAccountId subspaceId subprofileCtx
  | Err _ => mret tt
  end.

(** [OsAccountSubProfileManager::RemoveSubProfileLocked], os_account_subspace_manager.cpp *)
Definition RemoveSubProfile (osAccountId subspaceId : Z) : M S unit :=
  if subspaceId =? base_of osAccountId then merr ERR_OS_ACCOUNT_SUBPROFILE_RESTRICTED
  else
    valid ← files_ (IsValidSubProfileExists osAccountId subspaceId);
    if negb valid then merr ERR_OS_ACCOUNT_SUBPROFILE_NOT_FOUND
    else
      osAccountInfo ← mtry (GetOsAccountInfo osAccountId);
      if (match osAccountInfo with
          | Ok osAccountInfo => foregroundSubProfileId_ osAccountInfo =? subspaceId
          | Err _ => false
          end) then merr ERR_OS_ACCOUNT_SUBPROFILE_IS_FOREGROUND
      else
        _ ← (if HAS_USER_AUTH_PART then DeleteSubProfileCred osAccountId subspaceId else mret tt);
        info ← mtry (files_ (LoadSubProfileInfo osAccountId subspaceId OsAccountSubspaceInfo_default));
        let info := match info with Ok info => info | Err _ => OsAccountSubspaceInfo_default end in
        _ ← files_ (SaveSubProfileInfo {| info with toBeRemoved := true |});
        _ ← files_ (RemoveSubProfileDir osAccountId subspaceId);
        UpdateContextAfterRemove osAccountId subspaceId.

(** *** Creation *)

(** [PurgeGarbageIdFromAccountInfo], os_account_subspace_manager.cpp *)
Definition PurgeGarbageIdFromAccountInfo (c : list Z * gmap Z Z) (garbageId : Z) : list Z * gmap Z Z :=
  (erase_first garbageId c.1, erase_index garbageId c.2).

(** [OsAccountSubProfileManager::PurgeGarbageIdsFromContext], os_account_subspace_manager.cpp *)
Definition PurgeGarbageIdsFromContext (osAccountId : Z) (garbageIds : list Z) : M S unit :=
  ctx ← mtry (ReadSubProfileContext osAccountId);
  match ctx with
  | Err _ => mret tt
  | Ok subprofileCtx =>
      let '(idList, indexMap) :=
        foldl PurgeGarbageIdFromAccountInfo (subProfileIdList subprofileCtx, subProfileIndexMap subprofileCtx) garbageIds in
      void_ (UpdateOsAccountSubspaceInfo osAccountId
        {| nextSubProfileId := nextSubProfileId subprofileCtx; subProfileIdList := idList;
           nextSubProfileIndex := nextSubProfileIndex subprofileCtx; subProfileIndexMap := indexMap |})
  end.

(** How many of the directories were removed. *)
Fixpoint remove_counted (osAccountId : Z) (ids : list Z) : M S Z :=
  match ids with
  | [] => mret 0
  | subId :: ids =>
      ret ← mtry (files_ (RemoveSubProfileDir osAccountId subId));
      removeNum ← remove_counted osAccountId ids;
      mret (match ret with Ok _ => removeNum + 1 | Err _ => removeNum end)
  end.

(** Both scans are given the same set, and each starts by emptying it.

    [OsAccountSubProfileManager::RemoveGarbageSubProfiles], os_account_subspace_manager.cpp *)
Definition RemoveGarbageSubProfiles (osAccountId : Z) : M S Z :=
  _ ← scanned (ScanOrphanedSubProfileIds osAccountId);
  garbageIds ← scanned (ScanPendingRemovalSubProfileIds osAccountId);
  if decide (garbageIds = ∅) then mret 0
  else
    let garbageIds := merge_sort Z.le (elements garbageIds) in
    removeNum ← remove_counted osAccountId garbageIds;
    if removeNum <=? 0 then mret removeNum
    else _ ← PurgeGarbageIdsFromContext osAccountId garbageIds; mret removeNum.

(** The number of subspaces besides the base is at the limit. *)
Definition at_limit (c : SubProfileContext) : bool :=
  MAX_OS_ACCOUNT_SUB_PROFILE_COUNT <=? i32 (Z.of_nat (length (subProfileIdList c))) - 1.

(** A context that is not there yet is the one with the base only. *)
Definition read_or_default (osAccountId : Z) (onError : Z → Z) : M S SubProfileContext :=
  ctx ← mtry (ReadSubProfileContext osAccountId);
  match ctx with
  | Ok c => mret c
  | Err ret => if ret =? ERR_ACCOUNT_COMMON_FILE_NOT_EXIST then mret (CreateWithHeadlessDefault osAccountId)
               else merr (onError ret)
  end.

(** [OsAccountSubProfileManager::TryReclaimSubProfileSlots], os_account_subspace_manager.cpp *)
Definition TryReclaimSubProfileSlots (osAccountId : Z) : M S SubProfileContext :=
  cleaned ← RemoveGarbageSubProfiles osAccountId;
  if cleaned <=? 0 then merr ERR_OS_ACCOUNT_SUBPROFILE_LIMIT
  else
    subprofileCtx ← read_or_default osAccountId (λ _, ERR_OS_ACCOUNT_SUBPROFILE_LIMIT);
    if at_limit subprofileCtx then merr ERR_OS_ACCOUNT_SUBPROFILE_LIMIT else mret subprofileCtx.

(** The context that was read is written back.

    [OsAccountSubProfileManager::RollbackSubProfileCreation], os_account_subspace_manager.cpp *)
Definition RollbackSubProfileCreation (osAccountId newSubspaceId allocatedIndex : Z) (subprofileCtx : SubProfileContext) : M S unit :=
  _ ← void_ (files_ (RemoveSubProfileDir osAccountId newSubspaceId));
  void_ (UpdateOsAccountSubspaceInfo osAccountId
    {| nextSubProfileId := nextSubProfileId subprofileCtx;
       subProfileIdList := removelast (subProfileIdList subprofileCtx);
       nextSubProfileIndex := nextSubProfileIndex subprofileCtx;
       subProfileIndexMap := delete allocatedIndex (subProfileIndexMap subprofileCtx) |}).

(** [OsAccountSubProfileManager::AllocateAndPersistSubProfile], os_account_subspace_manager.cpp *)
Definition AllocateAndPersistSubProfile (osAccountId : Z) (subprofileCtx : SubProfileContext) (newSubspaceId : Z) :
    M S OsAccountSubspaceInfo :=
  match AllocateSubProfileIndex (nextSubProfileIndex subprofileCtx) (subProfileIndexMap subprofileCtx) with
  | Err indexRet => merr indexRet
  | Ok allocatedIndex =>
      let subspaceOffset := i32 (newSubspaceId - base_of osAccountId) in
      let idList := subProfileIdList subprofileCtx ++ [newSubspaceId] in
      let indexMap := <[allocatedIndex := newSubspaceId]> (subProfileIndexMap subprofileCtx) in
      let subprofileCtx := {| nextSubProfileId := nextSubProfileId subprofileCtx; subProfileIdList := idList;
                              nextSubProfileIndex := nextSubProfileIndex subprofileCtx; subProfileIndexMap := indexMap |} in
      _ ← UpdateOsAccountSubspaceInfo osAccountId
            {| nextSubProfileId := i32 (newSubspaceId + 1); subProfileIdList := idList;
               nextSubProfileIndex := i32 (allocatedIndex + 1); subProfileIndexMap := indexMap |};
      now ← files_ (platform_ system_clock_ms);
      let info := OsAccountSubspaceInfo_new osAccountId newSubspaceId allocatedIndex subspaceOffset in
      let info := {| info with isCreateCompleted := true; createTime := now |} in
      ret ← mtry (files_ (SaveSubProfileInfo info));
      match ret with
      | Err ret => _ ← RollbackSubProfileCreation osAccountId newSubspaceId allocatedIndex subprofileCtx; merr ret
      | Ok _ => mret info
      end
  end.

(** [OsAccountSubProfileManager::CreateSubProfileLocked], os_account_subspace_manager.cpp *)
Definition CreateSubProfile (osAccountId : Z) : M S OsAccountSubspaceInfo :=
  subprofileCtx ← read_or_default osAccountId (λ ret, ret);
  subprofileCtx ← (if at_limit subprofileCtx then TryReclaimSubProfileSlots osAccountId else mret subprofileCtx);
  match AllocateOsAccountSubProfileId osAccountId (nextSubProfileId subprofileCtx) (subProfileIdList subprofileCtx) with
  | Err allocRet => merr allocRet
  | Ok newSubspaceId => AllocateAndPersistSubProfile osAccountId subprofileCtx newSubspaceId
  end.

(** *** Queries *)

(** The subspaces of a list that can be loaded and are neither incomplete nor to be removed. *)
Fixpoint valid_of (osAccountId : Z) (ids : list Z) : M S (list Z) :=
  match ids with
  | [] => mret []
  | id :: ids =>
      info ← mtry (files_ (LoadSubProfileInfo osAccountId id OsAccountSubspaceInfo_default));
      rest ← valid_of osAccountId ids;
      mret (match info with Ok info => if is_valid info then id :: rest else rest | Err _ => rest end)
  end.

(** [OsAccountSubProfileManager::ScanOsAccountSubProfileIds], os_account_subspace_manager.cpp *)
Definition ScanOsAccountSubProfileIds (osAccountId : Z) : M S (list Z) :=
  rawIds ← files_ (ScanRawSubProfileIds osAccountId);
  valid_of osAccountId (merge_sort Z.le (elements rawIds)).

(** The base is always there.

    [OsAccountSubProfileManager::GetSubProfileIds], os_account_subspace_manager.cpp
    [OsAccountSubProfileManager::FilterValidSubProfileIdsLocked], os_account_subspace_manager.cpp *)
Definition GetSubProfileIds (osAccountId : Z) : M S (list Z) :=
  let base := base_of osAccountId in
  ctx ← mtry (ReadSubProfileContext osAccountId);
  match ctx with
  | Err ctxRet => if ctxRet =? ERR_ACCOUNT_COMMON_FILE_NOT_EXIST then mret [base] else merr ctxRet
  | Ok subprofileCtx =>
      valid ← valid_of osAccountId (filter (λ id, id ≠ base) (subProfileIdList subprofileCtx));
      mret (base :: valid)
  end.

(** [OsAccountSubProfileManager::GetLocalIdForSubProfile], os_account_subspace_manager.cpp *)
Definition GetLocalIdForSubProfile (subProfileId : Z) : M S Z :=
  let osAccountId := Z.quot subProfileId OS_ACCOUNT_SUBSPACE_ID_MULTIPLIER in
  if subProfileId =? base_of osAccountId then mret osAccountId
  else
    valid ← files_ (IsValidSubProfileExists osAccountId subProfileId);
    if negb valid then merr ERR_OS_ACCOUNT_SUBPROFILE_NOT_FOUND else mret osAccountId.

(** [OsAccountSubProfileManager::ResolveSubProfileIndexFromContext], os_account_subspace_manager.cpp *)
Definition ResolveSubProfileIndexFromContext (osAccountId subProfileId : Z) : M S Z :=
  ctx ← mtry (ReadSubProfileContext osAccountId);
  match ctx with
  | Err ctxRet => merr (if ctxRet =? ERR_ACCOUNT_COMMON_FILE_NOT_EXIST then ERR_OS_ACCOUNT_SUBPROFILE_NOT_FOUND else ctxRet)
  | Ok subprofileCtx =>
      match index_of subProfileId (subProfileIndexMap subprofileCtx) with
      | Some index => mret index
      | None => merr ERR_OS_ACCOUNT_SUBPROFILE_NOT_FOUND
      end
  end.

(** [OsAccountSubProfileManager::GetHeadlessSubProfile], os_account_subspace_manager.cpp *)
Definition GetHeadlessSubProfile (osAccountId subProfileId : Z) : M S Z :=
  ret ← mtry (ResolveSubProfileIndexFromContext osAccountId subProfileId);
  match ret with
  | Ok index => mret index
  | Err ret => if ret =? ERR_OS_ACCOUNT_SUBPROFILE_NOT_FOUND then mret HEADLESS_SUBPROFILE_INDEX else merr ret
  end.

(** The base has no document here: its account is empty and its time of creation 0.

    [OsAccountSubProfileManager::GetSubProfile], os_account_subspace_manager.cpp *)
Definition GetSubProfile (osAccountId subProfileId : Z) : M S (OsAccountSubspaceResult * OhosAccountInfo) :=
  let answer index createTime := {| result_id := subProfileId; result_osAccountId := osAccountId;
                                    result_index := index; result_createTime := createTime |} in
  if subProfileId =? base_of osAccountId then
    index ← GetHeadlessSubProfile osAccountId subProfileId;
    mret (answer index 0, OhosAccountInfo_new)
  else
    valid ← files_ (IsValidSubProfileExists osAccountId subProfileId);
    if negb valid then merr ERR_OS_ACCOUNT_SUBPROFILE_NOT_FOUND
    else
      index ← ResolveSubProfileIndexFromContext osAccountId subProfileId;
      subspaceInfo ← files_ (LoadSubProfileInfo osAccountId subProfileId OsAccountSubspaceInfo_default);
      mret (answer index (createTime subspaceInfo), ohos_of subspaceInfo).

(** [OsAccountSubProfileManager::GetSubProfileIdByLocalIdAndAppIndex], os_account_subspace_manager.cpp *)
Definition GetSubProfileIdByLocalIdAndAppIndex (osAccountId appIndex : Z) : M S Z :=
  ret ← mtry (ReadSubProfileContext osAccountId);
  match ret with
  | Err ret => merr (if ret =? ERR_ACCOUNT_COMMON_FILE_NOT_EXIST then ERR_OS_ACCOUNT_SUBPROFILE_NOT_FOUND else ret)
  | Ok subprofileCtx =>
      match subProfileIndexMap subprofileCtx !! appIndex with
      | Some subProfileId => mret subProfileId
      | None => merr ERR_OS_ACCOUNT_SUBPROFILE_NOT_FOUND
      end
  end.

(** *** The foreground *)

(** [OsAccountSubProfileManager::SetRuntimeForegroundSubProfileId], os_account_subspace_manager.cpp *)
Definition SetRuntimeForegroundSubProfileId (osAccountId subProfileId : Z) : M S unit :=
  mmodify (λ s, {| s with foregroundSubProfileRuntimeMap_ := <[osAccountId := subProfileId]> (foregroundSubProfileRuntimeMap_ s) |}).

(** [OsAccountSubProfileManager::GetRuntimeForegroundSubProfileId], os_account_subspace_manager.cpp *)
Definition GetRuntimeForegroundSubProfileId (osAccountId : Z) : M S Z :=
  osAccountInfo ← mtry (GetOsAccountInfo osAccountId);
  match osAccountInfo with
  | Err _ => mret (-1)
  | Ok osAccountInfo =>
      s ← mget;
      match foregroundSubProfileRuntimeMap_ s !! osAccountId with
      | Some subProfileId => mret subProfileId
      | None =>
          let fgId := foregroundSubProfileId_ osAccountInfo in
          _ ← SetRuntimeForegroundSubProfileId osAccountId fgId;
          mret fgId
      end
  end.

(** [OsAccountSubProfileManager::CheckActiveSessionStatus], os_account_subspace_manager.cpp *)
Definition CheckActiveSessionStatus (osAccountId fromSubspaceId : Z) : M S bool :=
  if fromSubspaceId =? -1 then mret false
  else
    spaceInfo ← mtry (files_ (LoadSubProfileInfo osAccountId fromSubspaceId OsAccountSubspaceInfo_default));
    mret (match spaceInfo with Ok spaceInfo => status_ (ohos_of spaceInfo) =? ACCOUNT_STATE_LOGIN | Err _ => false end).

(** The announcements of a change of the foreground, as it starts and when it is done. *)
Definition announce_switching (osAccountId toId fromId : Z) : M S unit :=
  _ ← SendSubProfileSwitchCES osAccountId toId fromId true;
  publish_profile SubProfiles.SWITCHING osAccountId toId fromId.

(** The switch is announced as done, and then the switch back.

    [OsAccountSubProfileManager::RollbackSubProfileSwitch], os_account_subspace_manager.cpp *)
Definition RollbackSubProfileSwitch (osAccountId toSubspaceId fromSubspaceId : Z) : M S unit :=
  _ ← SetRuntimeForegroundSubProfileId osAccountId fromSubspaceId;
  _ ← SendSubProfileSwitchCES osAccountId toSubspaceId fromSubspaceId false;
  _ ← publish_profile SubProfiles.SWITCHED osAccountId toSubspaceId fromSubspaceId;
  _ ← announce_switching osAccountId fromSubspaceId toSubspaceId;
  _ ← SendSubProfileSwitchCES osAccountId fromSubspaceId toSubspaceId false;
  publish_profile SubProfiles.SWITCHED osAccountId fromSubspaceId toSubspaceId.

(** The index to disable is -1 when there is none.

    [OsAccountSubProfileManager::ResolveSwitchAppIndices], os_account_subspace_manager.cpp *)
Definition ResolveSwitchAppIndices (osAccountId enableSubprofileId disableSubprofileId : Z) : M S (Z * Z) :=
  enableAppIndex ← ResolveSubProfileIndexFromContext osAccountId enableSubprofileId;
  disableAppIndex ← mtry (ResolveSubProfileIndexFromContext osAccountId disableSubprofileId);
  mret (enableAppIndex, match disableAppIndex with Ok index => index | Err _ => -1 end).

(** The call is made up to [n] times more while it cannot be delivered; the applications of
    the subspace that is left are disabled by the first call only. *)
Fixpoint sync_retry (osAccountId enableAppIndex : Z) (n : nat) (curDisable : Z) (ret : result unit) : M S unit :=
  match n with
  | O => match ret with Ok _ => mret tt | Err e => merr e end
  | Datatypes.S n =>
      ret ← mtry (files_ (BatchSetApplicationEnabled osAccountId enableAppIndex curDisable true false));
      match ret with
      | Err e => if (e =? E_IPC_ERROR) || (e =? E_IPC_SA_DIED) then sync_retry osAccountId enableAppIndex n (-1) ret else merr e
      | Ok _ => mret tt
      end
  end.

(** [OsAccountSubProfileManager::SyncBMSApplicationState], os_account_subspace_manager.cpp *)
Definition SyncBMSApplicationState (osAccountId enableAppIndex disableAppIndex : Z) : M S unit :=
  sync_retry osAccountId enableAppIndex BMS_MAX_RETRY disableAppIndex (Ok tt).

(** [OsAccountSubProfileManager::InnerSwitchSubProfile], os_account_subspace_manager.cpp *)
Definition InnerSwitchSubProfile (osAccountId subspaceId fromSubspaceId : Z) : M S unit :=
  idxRet ← mtry (ResolveSwitchAppIndices osAccountId subspaceId fromSubspaceId);
  match idxRet with
  | Err idxRet => _ ← RollbackSubProfileSwitch osAccountId subspaceId fromSubspaceId; merr idxRet
  | Ok (enableAppIndex, disableAppIndex) =>
      bmsRet ← mtry (SyncBMSApplicationState osAccountId enableAppIndex disableAppIndex);
      match bmsRet with
      | Err bmsRet => _ ← RollbackSubProfileSwitch osAccountId subspaceId fromSubspaceId; merr bmsRet
      | Ok _ =>
          _ ← SetRuntimeForegroundSubProfileId osAccountId subspaceId;
          void_ (osAccounts_ (SetOsAccountForegroundSubspaceId osAccountId subspaceId))
      end
  end.

Definition set_switching (f : gset Z → gset Z) : M S unit :=
  mmodify (λ s, {| s with switchingAccounts_ := f (switchingAccounts_ s) |}).

(** The subspace that is left is given back with the result, since the caller announces it.

    [OsAccountSubProfileManager::SwitchSubProfile], os_account_subspace_manager.cpp *)
Definition SwitchSubProfile (osAccountId subspaceId : Z) (isActivate : bool) : M S Z :=
  if subspaceId =? base_of osAccountId then merr ERR_OS_ACCOUNT_SUBPROFILE_RESTRICTED
  else
    valid ← files_ (IsValidSubProfileExists osAccountId subspaceId);
    if negb valid then merr ERR_OS_ACCOUNT_SUBPROFILE_NOT_FOUND
    else
      osAccountInfo ← mtry (GetOsAccountInfo osAccountId);
      match osAccountInfo with
      | Err _ => merr ERR_OS_ACCOUNT_SUBPROFILE_NOT_FOUND
      | Ok _ =>
          fromSubspaceId ← (if isActivate : bool then mret (-1) else GetRuntimeForegroundSubProfileId osAccountId);
          if negb isActivate && (fromSubspaceId =? subspaceId) && negb (fromSubspaceId =? -1) then mret fromSubspaceId
          else
            active ← CheckActiveSessionStatus osAccountId fromSubspaceId;
            if active : bool then merr ERR_OS_ACCOUNT_SUBPROFILE_HAS_ACTIVE_SESSION
            else
              s ← mget;
              if bool_decide (osAccountId ∈ switchingAccounts_ s)
              then merr ERR_OSACCOUNT_SERVICE_INNER_ACCOUNT_OPERATING_ERROR
              else
                _ ← set_switching (λ ids, {[osAccountId]} ∪ ids);
                ret ← mtry (InnerSwitchSubProfile osAccountId subspaceId fromSubspaceId);
                _ ← set_switching (λ ids, ids ∖ {[osAccountId]});
                match ret with Ok _ => mret fromSubspaceId | Err ret => merr ret end
      end.
End Operations.
