(* ===== verification/OhosAccountManager.v ===== *)
(** The manager of distributed accounts, ohos_account_manager.cpp: who is logged in on an
    account of the operating system or, in a build with subspaces, in one of its subspaces.

    A request is served for one caller, an instance of [Ipc]; [HapTokens] is what the access
    token library tells of the token of an application.  Functions of one build have their
    part in a section of its own; those of both ask the switch. *)
From Stdlib Require Import ZArith Lia Ascii String.
From stdpp Require Import base list gmap sets strings pretty sorting.
From S2P Require Import Prelude ErrorCodes Json FileStore AppIndex AccountStateMachine OsAccountInfo OsAccountEnv OsAccountServices OsAccountInterface OsAccountManager OsAccountCreation OsAccountQueries OsAccountSubscribe DistributedSubscribe AccountPermission OhosAccountInfo OhosAccountFiles OhosAccountState OsAccountSubProfiles.
Import Ohos.

(** [HapTokenInfo] *)
Record HapTokenInfo := { hap_bundleName : string; hap_userID : Z; hap_instIndex : Z }.

(** The access token library; the hash of an id in the form of [DexToHexString] of c_utils. *)
Class HapTokens := {
  GetHapTokenInfo : Z → option HapTokenInfo;
  DexToHexString : Z → string;
}.

(** The common event service: a subscription to the removal of applications. *)
Class CommonEvents (W : Type) := { SubscribeCommonEvent : W → bool * W }.

Definition MAX_NAME_LENGTH : Z := 256.
Definition MAX_UID_LENGTH : Z := 512.
Definition OHOS_ACCOUNT_UDID_LENGTH : Z := 64.
Definition DEFAULT_ANON_STR : string := "**********".
Definition DEVICE_ACCOUNT_OWNER : Z := 0.
Definition INIT_RETRY_TIMES : nat := 2.

(** *** Hashes *)

(** A digit and a byte in hexadecimal, upper case. *)
Definition hex_digit (d : Z) : ascii := ascii_of_nat (Z.to_nat (if d <? 10 then 48 + d else 55 + d)).
Definition hex_byte (b : Z) : string := String (hex_digit (b / 16)) (String (hex_digit (b `mod` 16)) EmptyString).

(** [c_utils]: without leading zeros. *)
Definition dex_to_hex (b : Z) : string := if b <? 16 then String (hex_digit b) EmptyString else hex_byte b.

Class HapLaws `{HapTokens} : Prop := {
  dex_byte b : 0 ≤ b < 256 → DexToHexString b = dex_to_hex b;
}.

Section Hashes.
Context {W : Type} {platform : Platform W} {haps : HapTokens}.

(** [ReturnOhosUdidWithSha256], ohos_account_manager.cpp *)
Definition ReturnOhosUdidWithSha256 (uid : string) : string :=
  match SHA256 (S := W) uid with
  | None => ""
  | Some hash => String.concat "" (hex_byte <$> hash)
  end.

(** [GenerateDVID], ohos_account_manager.cpp *)
Definition GenerateDVID (bundleName uid : string) : string :=
  match PBKDF2_HMAC (S := W) uid bundleName with
  | None => ""
  | Some newId =>
      String.concat "" ((λ b, (if Z.land b 240 =? 0 then "0" else "") +:+ DexToHexString b) <$> newId)
  end.

(** [GenerateOhosUdidWithSha256], ohos_account_manager.cpp *)
Definition GenerateOhosUdidWithSha256 (name uid : string) : string :=
  if string_empty name || (MAX_NAME_LENGTH <? Z.of_nat (String.length name)) then ""
  else if string_empty uid || (MAX_UID_LENGTH <? Z.of_nat (String.length uid)) then ""
  else ReturnOhosUdidWithSha256 uid.
End Hashes.

(** *** What others are shown *)

(** [OhosAccountManager::ExtractFirstUtf8Char], ohos_account_manager.cpp *)
Definition ExtractFirstUtf8Char (str : string) : string :=
  match str with
  | EmptyString => ""
  | String c _ =>
      let firstByte := Z.of_nat (nat_of_ascii c) in
      let charLength :=
        if Z.land firstByte 128 =? 0 then Some 1%nat
        else if Z.land firstByte 224 =? 192 then Some 2%nat
        else if Z.land firstByte 240 =? 224 then Some 3%nat
        else if Z.land firstByte 248 =? 240 then Some 4%nat
        else None in
      match charLength with
      | None => ""
      | Some charLength => String.substring 0 (Nat.min charLength (String.length str)) str
      end
  end.

Section Anonymous.
Context {W : Type} {platform : Platform W} {haps : HapTokens}.

(** [OhosAccountManager::AnonymizeOhosAccountInfo], ohos_account_manager.cpp *)
Definition AnonymizeOhosAccountInfo (i : OhosAccountInfo) (bundleName : string) : OhosAccountInfo :=
  {| uid_ := if negb (bool_decide (uid_ i = DEFAULT_OHOS_ACCOUNT_UID) || string_empty (uid_ i))
             then GenerateDVID (W := W) bundleName (rawUid_ i) else uid_ i;
     name_ := if negb (bool_decide (name_ i = DEFAULT_OHOS_ACCOUNT_NAME) || string_empty (name_ i))
              then ExtractFirstUtf8Char (name_ i) +:+ DEFAULT_ANON_STR else name_ i;
     nickname_ := if negb (string_empty (nickname_ i))
                  then ExtractFirstUtf8Char (nickname_ i) +:+ DEFAULT_ANON_STR else nickname_ i;
     avatar_ := if negb (string_empty (avatar_ i)) then DEFAULT_ANON_STR else avatar_ i;
     scalableData_ := "";
     status_ := status_ i;
     callingUid_ := callingUid_ i;
     rawUid_ := rawUid_ i |}.
End Anonymous.

Section Manager.
Context {W : Type} {sw : OsSwitches} {cfg : Config} {os_cfg : OsConfig} {sysconf : Sysconf}.
Context {cjson : CJsonLib} {target : Target} {fs : FileStore W} {streams : StreamStore W}.
Context {huks : Huks} {env : Surroundings W} {platform : Platform W} {haps : HapTokens} {ipc : Ipc}.
Context {tee : TeeAdapter W} {parts : AccountParts W} {control : OsAccountControl W} {services : SubProfileServices W} {ces : CommonEvents W}.
Local Abbreviation S := (OhosManager W).

(** [GetCallerBundleName], ohos_account_manager.cpp *)
Definition GetCallerBundleName : string * bool :=
  let tokenId := Z.land GetCallingFullTokenID TOKEN_ID_LOWMASK in
  let isSystemApp := IsSystemAppByFullTokenID GetCallingFullTokenID in
  if bool_decide (GetTokenTypeFlag tokenId = TOKEN_TYPE_HAP) then
    match GetHapTokenInfo tokenId with
    | None => ("", isSystemApp)
    | Some hapTokenInfo => (hap_bundleName hapTokenInfo, isSystemApp)
    end
  else ("", isSystemApp).

(** The caller's user, or the first active one for a caller of none.

    [AccountMgrService::GetCallingUserID], account_mgr_service.cpp *)
Definition GetCallingUserID : M S Z :=
  let userId := Z.quot GetCallingUid UID_TRANSFORM_DIVISOR in
  if userId <=? 0 then
    userIds ← mtry (osAccounts_ OsAccountQueries.QueryActiveOsAccountIds);
    mret (match userIds with Ok (userId :: _) => userId | _ => -1 end)
  else mret userId.

(** *** The stored account *)

(** [OhosAccountDataDeal::AccountInfoFromJson], ohos_account_data_deal.cpp *)
Definition AccountInfoFromJson (userId : Z) : M S AccountInfo :=
  s ← mget; if negb (initOk_ s) then merr ERR_ACCOUNT_DATADEAL_NOT_READY else files_ (GetAccountInfo userId).

(** [OhosAccountDataDeal::AccountInfoToJson], ohos_account_data_deal.cpp *)
Definition AccountInfoToJson (accountInfo : AccountInfo) : M S unit :=
  s ← mget; if negb (initOk_ s) then merr ERR_ACCOUNT_DATADEAL_NOT_READY else files_ (SaveAccountInfo accountInfo).

(** [OhosAccountDataDeal::Init], ohos_account_data_deal.cpp *)
Definition Init (userId : Z) : M S unit :=
  _ ← files_ (InitFile userId);
  osAccountInfos ← mtry (osAccounts_ QueryAllCreatedOsAccounts);
  let osAccountInfos := match osAccountInfos with Ok infos => infos | Err _ => [] end in
  _ ← (if ENABLE_FILE_WATCHER
       then mfor osAccountInfos (λ info, files_ (AddFileWatcher (OsAccountInfo.localId_ info))) else mret tt);
  mmodify (λ s, {| s with initOk_ := true |}).

(** The rounds of the start: another one only after a document that was no document.

    [OhosAccountManager::OnInitialize], ohos_account_manager.cpp:1193-1208 *)
Fixpoint init_rounds (n : nat) : M S bool :=
  match n with
  | O => mret true
  | Datatypes.S n =>
      errCode ← mtry (Init DEVICE_ACCOUNT_OWNER);
      match errCode with
      | Ok _ => mret true
      | Err errCode =>
          if (n =? 0)%nat || negb (errCode =? ERR_ACCOUNT_DATADEAL_JSON_FILE_CORRUPTION) then mret false
          else init_rounds n
      end
  end.

(** [OhosAccountManager::OnInitialize], ohos_account_manager.cpp *)
Definition OnInitialize : M S bool :=
  s ← mget;
  if isInit_ s then mret true
  else
    ok ← init_rounds INIT_RETRY_TIMES;
    if ok : bool then _ ← mmodify (λ s, {| s with isInit_ := true |}); mret true else mret false.

(** [OhosAccountManager::ClearOhosAccount], ohos_account_manager.cpp *)
Definition ClearOhosAccount (curOhosAccountInfo : AccountInfo) (clrStatus : Z) : M S unit :=
  AccountInfoToJson (clear clrStatus curOhosAccountInfo).

(** [OhosAccountManager::SaveOhosAccountInfo], ohos_account_manager.cpp *)
Definition SaveOhosAccountInfo (ohosAccountInfo : AccountInfo) : M S unit := AccountInfoToJson ohosAccountInfo.

(** *** The state machine *)

(** [CheckEventValid], ohos_account_manager.cpp *)
Definition CheckEventValid (eventStr : string) : option Z :=
  if bool_decide (eventStr = OHOS_ACCOUNT_EVENT_LOGIN) then Some ACCOUNT_BIND_SUCCESS_EVT
  else if bool_decide (eventStr = OHOS_ACCOUNT_EVENT_LOGOUT)
  then Some (if ENABLE_MULTIPLE_OS_ACCOUNT_SUBSPACE then ACCOUNT_MANUAL_LOGOUT_EVT else ACCOUNT_MANUAL_UNBOUND_EVT)
  else if bool_decide (eventStr = OHOS_ACCOUNT_EVENT_TOKEN_INVALID) then Some ACCOUNT_TOKEN_EXPIRED_EVT
  else if bool_decide (eventStr = OHOS_ACCOUNT_EVENT_LOGOFF) then Some ACCOUNT_MANUAL_LOGOFF_EVT
  else None.

(** The machine is set to the state of the account and given the event; the state it is in
    afterwards, when it accepted the event. *)
Definition state_after (event status : Z) : M S (option Z) :=
  s ← mget;
  let '(ret, accountState) := StateChangeProcess event (SetAccountState status (accountState_ s)) in
  _ ← mput {| s with accountState_ := accountState |};
  mret (if ret : bool then Some (GetAccountState accountState) else None).

(** [OhosAccountManager::HandleEvent], ohos_account_manager.cpp *)
Definition HandleEvent (curOhosAccount : AccountInfo) (eventStr : string) : M S (option AccountInfo) :=
  match CheckEventValid eventStr with
  | None => mret None
  | Some event =>
      newState ← state_after event (status_ (ohosAccountInfo_ curOhosAccount));
      mret (match newState with
            | Some newState => Some (with_ohos (with_status newState (ohosAccountInfo_ curOhosAccount)) curOhosAccount)
            | None => None
            end)
  end.

(** *** Whose account it is *)

(** [OhosAccountManager::CheckOhosAccountCanBind], ohos_account_manager.cpp *)
Definition CheckOhosAccountCanBind (currAccountInfo : AccountInfo) (newOhosAccountInfo : OhosAccountInfo) (newOhosUid : string) : Z :=
  let curr := ohosAccountInfo_ currAccountInfo in
  if negb (Z.of_nat (String.length newOhosUid) =? OHOS_ACCOUNT_UDID_LENGTH) then ERR_ACCOUNT_COMMON_INVALID_PARAMETER
  else if (status_ curr =? ACCOUNT_STATE_LOGIN) &&
          (negb (bool_decide (uid_ curr = newOhosUid)) || negb (bool_decide (name_ curr = name_ newOhosAccountInfo)))
  then ERR_ACCOUNT_COMMON_ACCOUNT_NOT_EXIST_ERROR
  else ERR_OK.

(** [OhosAccountManager::CheckSameDistributedAccount], ohos_account_manager.cpp *)
Definition CheckSameDistributedAccount (currAccountInfo newOhosAccountInfo : OhosAccountInfo) : bool :=
  let ohosAccountUid := GenerateOhosUdidWithSha256 (W := W) (name_ newOhosAccountInfo) (uid_ newOhosAccountInfo) in
  negb (negb (bool_decide (name_ newOhosAccountInfo = name_ currAccountInfo)) ||
        negb (bool_decide (ohosAccountUid = uid_ currAccountInfo))).

(** [OhosAccountManager::GetCurOhosAccountAndCheckMatch], ohos_account_manager.cpp *)
Definition GetCurOhosAccountAndCheckMatch (inputName inputUid : string) (callingUserId : Z) : M S AccountInfo :=
  curAccountInfo ← AccountInfoFromJson callingUserId;
  if negb (CheckSameDistributedAccount (ohosAccountInfo_ curAccountInfo)
             {| OhosAccountInfo_new with name_ := inputName; uid_ := inputUid |})
  then merr ERR_ACCOUNT_COMMON_ACCOUNT_NOT_EXIST_ERROR
  else mret curAccountInfo.

(** The answer to a request that is refused for any reason. *)
Definition or_else {A} (m : M S A) (e : Z) : M S A :=
  r ← mtry m; match r with Ok a => mret a | Err _ => merr e end.

(** *** The first login waits for the removal of applications *)

(** An object that is there already is not subscribed again.

    [OhosAccountManager::CreateCommonEventSubscribe]#1, ohos_account_manager.cpp *)
Definition CreateCommonEventSubscribe : M S bool :=
  if HAS_CES_PART then
    s ← mget;
    if accountEventSubscribe_ s then mret true
    else
      _ ← mput {| s with accountEventSubscribe_ := true |};
      files_ (platform_ SubscribeCommonEvent)
  else mret true.

(** *** Builds without subspaces *)

(** [UpdateOhosAccountInfo], ohos_account_manager.cpp *)
Definition UpdateOhosAccountInfo (ohosAccountInfo : OhosAccountInfo) (ohosAccountUid : string) (now : Z)
    (currAccountInfo : AccountInfo) : AccountInfo :=
  {| currAccountInfo with
     ohosAccountInfo_ :=
       {| ohosAccountInfo with
          rawUid_ := uid_ ohosAccountInfo; uid_ := ohosAccountUid; status_ := ACCOUNT_STATE_LOGIN;
          callingUid_ := GetCallingUid |};
     bindTime_ := now; version_ := ACCOUNT_VERSION_ANON |}.

(** [OhosAccountManager::PublishLoginEvents], ohos_account_manager.cpp *)
Definition PublishLoginEvents (userId originalStatus : Z) : M S unit :=
  _ ← (if originalStatus =? ACCOUNT_STATE_UNBOUND then
         _ ← publish_account userId DistributedAccounts.BOUND (-1);
         EventPublishAsUser COMMON_EVENT_DISTRIBUTED_ACCOUNT_BOUND userId
       else mret tt);
  _ ← publish_account userId DistributedAccounts.LOGIN (-1);
  let isPubLoginEvent := negb (originalStatus =? ACCOUNT_STATE_LOGIN) in
  if negb isPubLoginEvent then
    _ ← EventPublish COMMON_EVENT_USER_INFO_UPDATED userId;
    void_ CreateCommonEventSubscribe
  else
    _ ← EventPublishAsUser COMMON_EVENT_HWID_LOGIN userId;
    _ ← EventPublishAsUser COMMON_EVENT_DISTRIBUTED_ACCOUNT_LOGIN userId;
    void_ CreateCommonEventSubscribe.

(** [OhosAccountManager::LoginOhosAccount], ohos_account_manager.cpp *)
Definition LoginOhosAccount (userId : Z) (ohosAccountInfo : OhosAccountInfo) (eventStr : string) : M S unit :=
  currAccountInfo ← AccountInfoFromJson userId;
  let ohosAccountUid := GenerateOhosUdidWithSha256 (W := W) (name_ ohosAccountInfo) (uid_ ohosAccountInfo) in
  let bindErr := CheckOhosAccountCanBind currAccountInfo ohosAccountInfo ohosAccountUid in
  if negb (bindErr =? ERR_OK) then merr ERR_ACCOUNT_COMMON_ACCOUNT_NOT_EXIST_ERROR
  else
    let originalStatus := status_ (ohosAccountInfo_ currAccountInfo) in
    handled ← HandleEvent currAccountInfo eventStr;
    match handled with
    | None => merr ERR_ACCOUNT_ZIDL_ACCOUNT_SERVICE_ERROR
    | Some currAccountInfo =>
        now ← files_ (platform_ std_time);
        _ ← or_else (SaveOhosAccountInfo (UpdateOhosAccountInfo ohosAccountInfo ohosAccountUid now currAccountInfo))
              ERR_ACCOUNT_ZIDL_ACCOUNT_SERVICE_ERROR;
        PublishLoginEvents userId originalStatus
    end.

(** What a logout and a logoff do before they announce it.

    [OhosAccountManager::LogoutOhosAccount], ohos_account_manager.cpp:1044-1069 *)
Definition leave (userId : Z) (ohosAccountInfo : OhosAccountInfo) (eventStr : string) : M S unit :=
  currentAccount ← or_else (GetCurOhosAccountAndCheckMatch (name_ ohosAccountInfo) (uid_ ohosAccountInfo) userId)
                     ERR_ACCOUNT_COMMON_ACCOUNT_NOT_EXIST_ERROR;
  handled ← HandleEvent currentAccount eventStr;
  match handled with
  | None => merr ERR_ACCOUNT_ZIDL_ACCOUNT_SERVICE_ERROR
  | Some currentAccount =>
      or_else (ClearOhosAccount currentAccount ACCOUNT_STATE_UNBOUND) ERR_ACCOUNT_ZIDL_ACCOUNT_SERVICE_ERROR
  end.

(** The announcements of the end of a binding, in the order of the code. *)
Definition announce_end (userId type : Z) (hwid action : string) : M S unit :=
  _ ← publish_account userId type (-1);
  _ ← publish_account userId DistributedAccounts.UNBOUND (-1);
  _ ← EventPublishAsUser hwid userId;
  _ ← EventPublishAsUser action userId;
  EventPublishAsUser COMMON_EVENT_DISTRIBUTED_ACCOUNT_UNBOUND userId.

(** [OhosAccountManager::LogoutOhosAccount], ohos_account_manager.cpp *)
Definition LogoutOhosAccount (userId : Z) (ohosAccountInfo : OhosAccountInfo) (eventStr : string) : M S unit :=
  _ ← leave userId ohosAccountInfo eventStr;
  announce_end userId DistributedAccounts.LOGOUT COMMON_EVENT_HWID_LOGOUT COMMON_EVENT_DISTRIBUTED_ACCOUNT_LOGOUT.

(** [OhosAccountManager::LogoffOhosAccount], ohos_account_manager.cpp *)
Definition LogoffOhosAccount (userId : Z) (ohosAccountInfo : OhosAccountInfo) (eventStr : string) : M S unit :=
  _ ← leave userId ohosAccountInfo eventStr;
  announce_end userId DistributedAccounts.LOGOFF COMMON_EVENT_HWID_LOGOFF COMMON_EVENT_DISTRIBUTED_ACCOUNT_LOGOFF.

(** That the account could not be stored is reported only.

    [OhosAccountManager::HandleOhosAccountTokenInvalidEvent], ohos_account_manager.cpp *)
Definition HandleOhosAccountTokenInvalidEvent (userId : Z) (ohosAccountInfo : OhosAccountInfo) (eventStr : string) : M S unit :=
  currentOhosAccount ← or_else (GetCurOhosAccountAndCheckMatch (name_ ohosAccountInfo) (uid_ ohosAccountInfo) userId)
                         ERR_ACCOUNT_COMMON_ACCOUNT_NOT_EXIST_ERROR;
  handled ← HandleEvent currentOhosAccount eventStr;
  match handled with
  | None => merr ERR_ACCOUNT_ZIDL_ACCOUNT_SERVICE_ERROR
  | Some currentOhosAccount =>
      _ ← void_ (SaveOhosAccountInfo currentOhosAccount);
      _ ← publish_account userId DistributedAccounts.TOKEN_INVALID (-1);
      _ ← EventPublishAsUser COMMON_EVENT_HWID_TOKEN_INVALID userId;
      EventPublishAsUser COMMON_EVENT_DISTRIBUTED_ACCOUNT_TOKEN_INVALID userId
  end.

(** [ProcDistributedAccountStateChange], ohos_account_manager.cpp *)
Definition ProcDistributedAccountStateChange (userId : Z) (info : OhosAccountInfo) (eventStr : string) : M S unit :=
  if bool_decide (eventStr = OHOS_ACCOUNT_EVENT_LOGIN) then LoginOhosAccount userId info eventStr
  else if bool_decide (eventStr = OHOS_ACCOUNT_EVENT_LOGOUT) then LogoutOhosAccount userId info eventStr
  else if bool_decide (eventStr = OHOS_ACCOUNT_EVENT_LOGOFF) then LogoffOhosAccount userId info eventStr
  else if bool_decide (eventStr = OHOS_ACCOUNT_EVENT_TOKEN_INVALID)
  then HandleOhosAccountTokenInvalidEvent userId info eventStr
  else merr ERR_ACCOUNT_COMMON_INVALID_PARAMETER.

(** *** Builds with subspaces *)

(** The base subspace is kept in the file of the account, the others in files of their own.

    [OhosAccountManager::GetDistributedAccountSpaceInfo], ohos_account_manager.cpp *)
Definition GetDistributedAccountSpaceInfo (localId subspaceId : Z) (spaceInfo : OsAccountSubspaceInfo) : M S OsAccountSubspaceInfo :=
  if subspaceId =? base_of localId then
    curInfo ← AccountInfoFromJson localId;
    let a := account_of spaceInfo in
    mret {| spaceInfo with
            account_of := {| a with ohosAccountInfo_ := ohosAccountInfo_ curInfo; userId_ := localId;
                                    bindTime_ := bindTime_ curInfo; version_ := version_ curInfo |};
            subspaceId := subspaceId; isCreateCompleted := true; toBeRemoved := false |}
  else files_ (LoadSubProfileInfo localId subspaceId spaceInfo).

(** A new object is stored for the base: its time of creation is 0.

    [OhosAccountManager::SetDistributedAccountSpaceInfo], ohos_account_manager.cpp *)
Definition SetDistributedAccountSpaceInfo (spaceInfo : OsAccountSubspaceInfo) : M S unit :=
  let a := account_of spaceInfo in
  if subspaceId spaceInfo =? base_of (userId_ a) then
    AccountInfoToJson
      {| AccountInfo_new with ohosAccountInfo_ := ohosAccountInfo_ a; bindTime_ := bindTime_ a; userId_ := userId_ a;
                              version_ := ACCOUNT_VERSION_ANON; digest_ := "" |}
  else files_ (SaveSubProfileInfo spaceInfo).

Definition get_space (localId subspaceId : Z) : M S OsAccountSubspaceInfo :=
  GetDistributedAccountSpaceInfo localId subspaceId OsAccountSubspaceInfo_default.

(** [OhosAccountManager::HandleSpaceStateChange], ohos_account_manager.cpp *)
Definition HandleSpaceStateChange (spaceInfo : OsAccountSubspaceInfo) (eventStr : string) : M S OsAccountSubspaceInfo :=
  match CheckEventValid eventStr with
  | None => merr ERR_ACCOUNT_COMMON_INVALID_PARAMETER
  | Some event =>
      newState ← state_after event (status_ (ohos_of spaceInfo));
      match newState with
      | None => merr ERR_ACCOUNT_ZIDL_ACCOUNT_SERVICE_ERROR
      | Some newState =>
          mret (with_account (with_ohos (with_status newState (ohos_of spaceInfo)) (account_of spaceInfo)) spaceInfo)
      end
  end.

(** [UpdateOhosAccountSpaceInfo], ohos_account_manager.cpp *)
Definition UpdateOhosAccountSpaceInfo (ohosAccountInfo : OhosAccountInfo) (ohosAccountUid : string) (now : Z)
    (spaceInfo : OsAccountSubspaceInfo) : OsAccountSubspaceInfo :=
  with_account (UpdateOhosAccountInfo ohosAccountInfo ohosAccountUid now (account_of spaceInfo)) spaceInfo.

(** The other subspaces of an account, as long as none of them has the distributed account. *)
Fixpoint bound_nowhere (localId subspaceId : Z) (accountInfo : OhosAccountInfo) (ids : list Z) : M S unit :=
  match ids with
  | [] => mret tt
  | curId :: ids =>
      if curId =? subspaceId then bound_nowhere localId subspaceId accountInfo ids
      else
        targetInfo ← get_space localId curId;
        if CheckSameDistributedAccount (ohos_of targetInfo) accountInfo
        then merr ERR_OS_ACCOUNT_SUBPROFILE_DISTRIBUTE_ACC_ALREADY_BOUND
        else bound_nowhere localId subspaceId accountInfo ids
  end.

(** [OhosAccountManager::VerifySpaceAccountBinding], ohos_account_manager.cpp *)
Definition VerifySpaceAccountBinding (localId subspaceId : Z) (accountInfo : OhosAccountInfo) (spaceInfo : OsAccountSubspaceInfo) :
    M S unit :=
  subSpaceIds ← ScanOsAccountSubProfileIds localId;
  if negb (status_ (ohos_of spaceInfo) =? ACCOUNT_STATE_UNBOUND) then
    if CheckSameDistributedAccount (ohos_of spaceInfo) accountInfo then mret tt
    else merr ERR_ACCOUNT_COMMON_ACCOUNT_NOT_EXIST_ERROR
  else bound_nowhere localId subspaceId accountInfo subSpaceIds.

(** [OhosAccountManager::PublishLoginSpaceEvents], ohos_account_manager.cpp *)
Definition PublishLoginSpaceEvents (localId subspaceId originalStatus : Z) : M S unit :=
  _ ← (if originalStatus =? ACCOUNT_STATE_UNBOUND then
         _ ← publish_account localId DistributedAccounts.BOUND subspaceId;
         SendSubProfileCES localId subspaceId COMMON_EVENT_DISTRIBUTED_ACCOUNT_BOUND
       else mret tt);
  let isPubLoginEvent := negb (originalStatus =? ACCOUNT_STATE_LOGIN) in
  if negb isPubLoginEvent then EventPublish COMMON_EVENT_USER_INFO_UPDATED localId
  else
    _ ← publish_account localId DistributedAccounts.LOGIN subspaceId;
    _ ← SendSubProfileCES localId subspaceId COMMON_EVENT_HWID_LOGIN;
    SendSubProfileCES localId subspaceId COMMON_EVENT_DISTRIBUTED_ACCOUNT_LOGIN.

(** [OhosAccountManager::LoginOhosAccountSpace], ohos_account_manager.cpp *)
Definition LoginOhosAccountSpace (userId subspaceId : Z) (ohosAccountInfo : OhosAccountInfo) (eventStr : string) : M S unit :=
  spaceInfo ← get_space userId subspaceId;
  let ohosAccountUid := GenerateOhosUdidWithSha256 (W := W) (name_ ohosAccountInfo) (uid_ ohosAccountInfo) in
  if negb (Z.of_nat (String.length ohosAccountUid) =? OHOS_ACCOUNT_UDID_LENGTH) then merr ERR_ACCOUNT_ZIDL_ACCOUNT_SERVICE_ERROR
  else
    let originalStatus := status_ (ohos_of spaceInfo) in
    _ ← VerifySpaceAccountBinding userId subspaceId ohosAccountInfo spaceInfo;
    spaceInfo ← HandleSpaceStateChange spaceInfo eventStr;
    now ← files_ (platform_ std_time);
    _ ← SetDistributedAccountSpaceInfo (UpdateOhosAccountSpaceInfo ohosAccountInfo ohosAccountUid now spaceInfo);
    PublishLoginSpaceEvents userId subspaceId originalStatus.

(** [OhosAccountManager::PublishLogoutSpaceEvents], ohos_account_manager.cpp *)
Definition PublishLogoutSpaceEvents (localId subspaceId : Z) (isUnbound : bool) : M S unit :=
  _ ← publish_account localId DistributedAccounts.LOGOUT subspaceId;
  _ ← SendSubProfileCES localId subspaceId COMMON_EVENT_HWID_LOGOUT;
  _ ← SendSubProfileCES localId subspaceId COMMON_EVENT_DISTRIBUTED_ACCOUNT_LOGOUT;
  if isUnbound then
    _ ← publish_account localId DistributedAccounts.UNBOUND subspaceId;
    SendSubProfileCES localId subspaceId COMMON_EVENT_DISTRIBUTED_ACCOUNT_UNBOUND
  else mret tt.

(** What a logout, a logoff and an invalid token do before they announce it.

    [OhosAccountManager::LogoutOhosAccountSpace], ohos_account_manager.cpp:1453-1485 *)
Definition change_space (userId subspaceId : Z) (ohosAccountInfo : OhosAccountInfo) (eventStr : string) : M S unit :=
  spaceInfo ← get_space userId subspaceId;
  if negb (CheckSameDistributedAccount (ohos_of spaceInfo) ohosAccountInfo) then merr ERR_ACCOUNT_COMMON_ACCOUNT_NOT_EXIST_ERROR
  else
    spaceInfo ← HandleSpaceStateChange spaceInfo eventStr;
    SetDistributedAccountSpaceInfo spaceInfo.

(** [OhosAccountManager::LogoutOhosAccountSpace], ohos_account_manager.cpp *)
Definition LogoutOhosAccountSpace (userId subspaceId : Z) (ohosAccountInfo : OhosAccountInfo) (eventStr : string) : M S unit :=
  _ ← change_space userId subspaceId ohosAccountInfo eventStr;
  PublishLogoutSpaceEvents userId subspaceId false.

(** [OhosAccountManager::HandleOhosAccountSpaceTokenInvalidEvent], ohos_account_manager.cpp *)
Definition HandleOhosAccountSpaceTokenInvalidEvent (userId subspaceId : Z) (ohosAccountInfo : OhosAccountInfo) (eventStr : string) :
    M S unit :=
  _ ← change_space userId subspaceId ohosAccountInfo eventStr;
  _ ← publish_account userId DistributedAccounts.TOKEN_INVALID subspaceId;
  _ ← SendSubProfileCES userId subspaceId COMMON_EVENT_HWID_TOKEN_INVALID;
  SendSubProfileCES userId subspaceId COMMON_EVENT_DISTRIBUTED_ACCOUNT_TOKEN_INVALID.

(** [OhosAccountManager::LogoffOhosAccountSpace], ohos_account_manager.cpp *)
Definition LogoffOhosAccountSpace (userId subspaceId : Z) (ohosAccountInfo : OhosAccountInfo) (eventStr : string) : M S unit :=
  _ ← change_space userId subspaceId ohosAccountInfo eventStr;
  _ ← publish_account userId DistributedAccounts.LOGOFF subspaceId;
  _ ← SendSubProfileCES userId subspaceId COMMON_EVENT_HWID_LOGOFF;
  SendSubProfileCES userId subspaceId COMMON_EVENT_DISTRIBUTED_ACCOUNT_LOGOFF.

(** [ProcDistributedAccountSpaceStateChange], ohos_account_manager.cpp *)
Definition ProcDistributedAccountSpaceStateChange (userId : Z) (info : OhosAccountInfo) (eventStr : string) : M S unit :=
  osAccountInfo ← GetOsAccountInfo userId;
  let subspaceId := foregroundSubProfileId_ osAccountInfo in
  if bool_decide (eventStr = OHOS_ACCOUNT_EVENT_LOGIN) then LoginOhosAccountSpace userId subspaceId info eventStr
  else if bool_decide (eventStr = OHOS_ACCOUNT_EVENT_LOGOUT) then LogoutOhosAccountSpace userId subspaceId info eventStr
  else if bool_decide (eventStr = OHOS_ACCOUNT_EVENT_LOGOFF) then LogoffOhosAccountSpace userId subspaceId info eventStr
  else if bool_decide (eventStr = OHOS_ACCOUNT_EVENT_TOKEN_INVALID)
  then HandleOhosAccountSpaceTokenInvalidEvent userId subspaceId info eventStr
  else merr ERR_ACCOUNT_COMMON_INVALID_PARAMETER.

(** *** Requests of both builds *)

(** [OhosAccountManager::OhosAccountStateChange]#2, ohos_account_manager.cpp *)
Definition OhosAccountStateChange (userId : Z) (ohosAccountInfo : OhosAccountInfo) (eventStr : string) : M S unit :=
  if ENABLE_MULTIPLE_OS_ACCOUNT_SUBSPACE then ProcDistributedAccountSpaceStateChange userId ohosAccountInfo eventStr
  else ProcDistributedAccountStateChange userId ohosAccountInfo eventStr.

(** [OhosAccountManager::OhosAccountStateChange]#1, ohos_account_manager.cpp *)
Definition OhosAccountStateChange_caller (name uid eventStr : string) : M S unit :=
  userId ← GetCallingUserID;
  OhosAccountStateChange userId {| OhosAccountInfo_new with name_ := name; uid_ := uid |} eventStr.

(** [OhosAccountManager::GetCurrentOhosAccountInfo], ohos_account_manager.cpp *)
Definition GetCurrentOhosAccountInfo : M S AccountInfo :=
  callingUserId ← GetCallingUserID;
  r ← mtry (AccountInfoFromJson callingUserId);
  mret (match r with Ok currOhosAccountInfo => currOhosAccountInfo
                   | Err _ => clear ACCOUNT_STATE_UNBOUND AccountInfo_new end).

(** [OhosAccountManager::GetCurrentOhosAccountState], ohos_account_manager.cpp *)
Definition GetCurrentOhosAccountState : M S Z :=
  currOhosAccountInfo ← GetCurrentOhosAccountInfo; mret (status_ (ohosAccountInfo_ currOhosAccountInfo)).

(** The subspace in the foreground, when there is one that can be loaded. *)
Definition foreground_space (userId : Z) : M S (option AccountInfo) :=
  osAccountInfo ← mtry (GetOsAccountInfo userId);
  match osAccountInfo with
  | Err _ => mret None
  | Ok osAccountInfo =>
      if foregroundSubProfileId_ osAccountInfo =? -1 then mret None
      else
        subspaceInfo ← mtry (get_space userId (foregroundSubProfileId_ osAccountInfo));
        mret (match subspaceInfo with Ok subspaceInfo => Some (account_of subspaceInfo) | Err _ => None end)
  end.

(** [OhosAccountManager::GetAccountInfoByUserId], ohos_account_manager.cpp *)
Definition GetAccountInfoByUserId (userId : Z) : M S AccountInfo :=
  userId ← (if userId =? 0 then GetCallingUserID else mret userId);
  space ← (if ENABLE_MULTIPLE_OS_ACCOUNT_SUBSPACE then foreground_space userId else mret None);
  match space with
  | Some info => mret info
  | None => AccountInfoFromJson userId
  end.

(** [OhosAccountManager::QueryDistributedVirtualDeviceId]#2, ohos_account_manager.cpp *)
Definition QueryDistributedVirtualDeviceId (bundleName : string) (localId : Z) : M S string :=
  accountInfo ← GetAccountInfoByUserId localId;
  let ohosAccountInfo := ohosAccountInfo_ accountInfo in
  if bool_decide (uid_ ohosAccountInfo = DEFAULT_OHOS_ACCOUNT_UID) then mret ""
  else mret (GenerateDVID (W := W) bundleName (rawUid_ ohosAccountInfo)).

(** The caller's text [dvid] stays as it is when nobody is logged in.

    [OhosAccountManager::QueryDistributedVirtualDeviceId]#1, ohos_account_manager.cpp *)
Definition QueryDistributedVirtualDeviceId_caller (dvid : string) : M S string :=
  localId ← GetCallingUserID;
  accountInfo ← GetAccountInfoByUserId localId;
  let ohosAccountInfo := ohosAccountInfo_ accountInfo in
  if bool_decide (uid_ ohosAccountInfo = DEFAULT_OHOS_ACCOUNT_UID) then mret dvid
  else mret (GenerateDVID (W := W) GetCallerBundleName.1 (rawUid_ ohosAccountInfo)).

(** [OhosAccountManager::GetOhosAccountDistributedInfo], ohos_account_manager.cpp *)
Definition GetOhosAccountDistributedInfo (userId : Z) : M S OhosAccountInfo :=
  osAccountInfo ← GetAccountInfoByUserId userId;
  let ohosAccountInfo := ohosAccountInfo_ osAccountInfo in
  if bool_decide (rawUid_ ohosAccountInfo = DEFAULT_OHOS_ACCOUNT_UID) || (version_ osAccountInfo =? ACCOUNT_VERSION_DEFAULT)
  then mret ohosAccountInfo
  else
    let '(bundleName, isSystemApp) := GetCallerBundleName in
    if isSystemApp || string_empty bundleName then mret ohosAccountInfo
    else mret (AnonymizeOhosAccountInfo (W := W) ohosAccountInfo bundleName).

(** *** Subspaces *)

(** A subspace of a build without them: the only one of an account has the number 1 in its
    range. *)
Definition only_subprofile (osAccountId : Z) : Z := i32 (i32 (osAccountId * OS_ACCOUNT_SUBSPACE_ID_MULTIPLIER) + 1).

(** [OhosAccountManager::CreateOsAccountSubspace], ohos_account_manager.cpp *)
Definition CreateOsAccountSubspace (osAccountId : Z) : M S OsAccountSubspaceResult :=
  createdInfo ← CreateSubProfile osAccountId;
  _ ← publish_profile SubProfiles.CREATED osAccountId (subspaceId createdInfo) (-1);
  _ ← SendSubProfileCES osAccountId (subspaceId createdInfo) COMMON_EVENT_OS_ACCOUNT_SUB_PROFILE_CREATED;
  mret {| result_id := subspaceId createdInfo; result_osAccountId := osAccountId;
          result_index := index createdInfo; result_createTime := createTime createdInfo |}.

(** [OhosAccountManager::DeleteOsAccountSubspace], ohos_account_manager.cpp *)
Definition DeleteOsAccountSubspace (osAccountId subspaceId : Z) : M S unit :=
  if subspaceId =? base_of osAccountId then merr ERR_OS_ACCOUNT_SUBPROFILE_RESTRICTED
  else
    ret ← mtry (get_space osAccountId subspaceId);
    match ret with
    | Err ret => merr (if ret =? ERR_ACCOUNT_COMMON_ACCOUNT_NOT_EXIST_ERROR then ERR_OS_ACCOUNT_SUBPROFILE_NOT_FOUND else ret)
    | Ok profileInfo =>
        _ ← RemoveSubProfile osAccountId subspaceId;
        _ ← (if negb (status_ (ohos_of profileInfo) =? ACCOUNT_STATE_UNBOUND) then
               _ ← publish_account osAccountId DistributedAccounts.UNBOUND subspaceId;
               SendSubProfileCES osAccountId subspaceId COMMON_EVENT_DISTRIBUTED_ACCOUNT_UNBOUND
             else mret tt);
        _ ← publish_profile SubProfiles.DELETED osAccountId subspaceId (-1);
        SendSubProfileCES osAccountId subspaceId COMMON_EVENT_OS_ACCOUNT_SUB_PROFILE_DELETED
    end.

(** The subspace that is left is the stored one at first; the switch gives the one that is
    really in the foreground.

    [OhosAccountManager::SwitchOsAccountSubspace], ohos_account_manager.cpp *)
Definition SwitchOsAccountSubspace (osAccountId subspaceId : Z) (isActivate : bool) : M S Z :=
  err ← mtry (GetOsAccountInfo osAccountId);
  let foreground := foregroundSubProfileId_ (match err with Ok osAccountInfo => osAccountInfo | Err _ => OsAccountInfo_new end) in
  if is_Ok err && (foreground =? subspaceId) && negb isActivate then mret subspaceId
  else
    let fromSubspaceId := if isActivate then -1 else foreground in
    _ ← announce_switching osAccountId subspaceId fromSubspaceId;
    fromSubspaceId ← SwitchSubProfile osAccountId subspaceId isActivate;
    _ ← publish_profile SubProfiles.SWITCHED osAccountId subspaceId fromSubspaceId;
    _ ← SendSubProfileSwitchCES osAccountId subspaceId fromSubspaceId false;
    mret fromSubspaceId.

(** [OhosAccountManager::GetOsAccountForegroundSubProfileId], ohos_account_manager.cpp *)
Definition GetOsAccountForegroundSubProfileId (osAccountId : Z) : M S Z :=
  if ENABLE_MULTIPLE_OS_ACCOUNT_SUBSPACE then
    osAccountInfo ← or_else (GetOsAccountInfo osAccountId) ERR_ACCOUNT_COMMON_ACCOUNT_NOT_EXIST_ERROR;
    mret (foregroundSubProfileId_ osAccountInfo)
  else mret (only_subprofile osAccountId).

(** [OhosAccountManager::GetOsAccountSubProfileIds], ohos_account_manager.cpp *)
Definition GetOsAccountSubProfileIds (osAccountId : Z) : M S (list Z) :=
  if ENABLE_MULTIPLE_OS_ACCOUNT_SUBSPACE then GetSubProfileIds osAccountId else mret [only_subprofile osAccountId].

(** [OhosAccountManager::GetOsAccountLocalIdForSubProfile], ohos_account_manager.cpp *)
Definition GetOsAccountLocalIdForSubProfile (subProfileId : Z) : M S Z :=
  if ENABLE_MULTIPLE_OS_ACCOUNT_SUBSPACE then GetLocalIdForSubProfile subProfileId
  else
    let id := Z.quot subProfileId OS_ACCOUNT_SUBSPACE_ID_MULTIPLIER in
    if negb (subProfileId =? only_subprofile id) then merr ERR_OS_ACCOUNT_SUBPROFILE_NOT_FOUND else mret id.

(** The account of the base is the one of the file of the account.

    [OhosAccountManager::GetOsAccountSubProfile], ohos_account_manager.cpp *)
Definition GetOsAccountSubProfile (osAccountId subProfileId : Z) : M S (OsAccountSubspaceResult * OhosAccountInfo) :=
  let from_account_file (r : OsAccountSubspaceResult) : M S (OsAccountSubspaceResult * OhosAccountInfo) :=
    accountInfo ← AccountInfoFromJson osAccountId;
    mret ({| result_id := result_id r; result_osAccountId := result_osAccountId r; result_index := result_index r;
             result_createTime := createTime_ accountInfo |}, ohosAccountInfo_ accountInfo) in
  if ENABLE_MULTIPLE_OS_ACCOUNT_SUBSPACE then
    '(subspaceResult, distributedInfo) ← GetSubProfile osAccountId subProfileId;
    if subProfileId =? base_of osAccountId then from_account_file subspaceResult
    else mret (subspaceResult, distributedInfo)
  else if negb (subProfileId =? only_subprofile osAccountId) then merr ERR_OS_ACCOUNT_SUBPROFILE_NOT_FOUND
  else from_account_file {| result_id := subProfileId; result_osAccountId := osAccountId; result_index := 0; result_createTime := 0 |}.

(** [OhosAccountManager::GetOsAccountSubProfileId], ohos_account_manager.cpp *)
Definition GetOsAccountSubProfileId (osAccountLocalId appIndex : Z) : M S Z :=
  if ENABLE_MULTIPLE_OS_ACCOUNT_SUBSPACE then GetSubProfileIdByLocalIdAndAppIndex osAccountLocalId appIndex
  else if appIndex =? 0 then mret (only_subprofile osAccountLocalId)
  else merr ERR_OS_ACCOUNT_SUBPROFILE_NOT_FOUND.

(** [OhosAccountManager::GetOsAccountSubProfileIndex], ohos_account_manager.cpp
    [OsAccountSubProfileManager::GetSubProfileIndexByLocalIdAndSubProfileId], os_account_subspace_manager.cpp *)
Definition GetOsAccountSubProfileIndex (osAccountId subProfileId : Z) : M S Z :=
  if ENABLE_MULTIPLE_OS_ACCOUNT_SUBSPACE then ResolveSubProfileIndexFromContext osAccountId subProfileId
  else if subProfileId =? only_subprofile osAccountId then mret 0
  else merr ERR_OS_ACCOUNT_SUBPROFILE_NOT_FOUND.

(** *** The application that logged in is removed *)

(** A change of the list of subscribers with its answer. *)
Definition account_subscribers_ (f : list DistributedAccounts.SubscribeRecord → Z * list DistributedAccounts.SubscribeRecord) : M S unit :=
  λ s, let '(e, records) := f (accountSubscribers_ s) in
       (if e =? ERR_OK then Ok tt else Err e, {| s with accountSubscribers_ := records |}).

Definition profile_subscribers_ (f : list SubProfiles.SubscribeRecord → Z * list SubProfiles.SubscribeRecord) : M S unit :=
  λ s, let '(e, records) := f (profileSubscribers_ s) in
       (if e =? ERR_OK then Ok tt else Err e, {| s with profileSubscribers_ := records |}).

(** [OhosAccountManager::SubscribeDistributedAccountEvent], ohos_account_manager.cpp *)
Definition SubscribeDistributedAccountEvent (type : Z) (eventListener : option Listener) : M S unit :=
  account_subscribers_ (DistributedAccounts.Subscribe type eventListener).

(** [OhosAccountManager::UnsubscribeDistributedAccountEvent], ohos_account_manager.cpp *)
Definition UnsubscribeDistributedAccountEvent (type : Z) (eventListener : option Listener) : M S unit :=
  account_subscribers_ (DistributedAccounts.Unsubscribe type eventListener).

(** That the account could not be cleared is not looked at.

    [OhosAccountManager::ClearMainAccountIfMatch], ohos_account_manager.cpp *)
Definition ClearMainAccountIfMatch (localId bundleUid : Z) : M S unit :=
  ret ← mtry (AccountInfoFromJson localId);
  match ret with
  | Err _ => mret tt
  | Ok accountInfo =>
      if negb (callingUid_ (ohosAccountInfo_ accountInfo) =? bundleUid)
         || (status_ (ohosAccountInfo_ accountInfo) =? ACCOUNT_STATE_UNBOUND) then mret tt
      else
        _ ← void_ (ClearOhosAccount accountInfo ACCOUNT_STATE_UNBOUND);
        if negb ENABLE_MULTIPLE_OS_ACCOUNT_SUBSPACE
        then announce_end localId DistributedAccounts.LOGOUT COMMON_EVENT_HWID_LOGOUT COMMON_EVENT_DISTRIBUTED_ACCOUNT_LOGOUT
        else PublishLogoutSpaceEvents localId (base_of localId) true
  end.

(** [OhosAccountManager::ClearDistributedAccountSpaceIfMatch], ohos_account_manager.cpp *)
Definition ClearDistributedAccountSpaceIfMatch (localId spaceId bundleUid : Z) : M S unit :=
  ret ← mtry (get_space localId spaceId);
  match ret with
  | Err _ => mret tt
  | Ok spaceInfo =>
      if negb (callingUid_ (ohos_of spaceInfo) =? bundleUid) || (status_ (ohos_of spaceInfo) =? ACCOUNT_STATE_UNBOUND)
      then mret tt
      else
        _ ← void_ (SetDistributedAccountSpaceInfo (with_account (clear ACCOUNT_STATE_UNBOUND (account_of spaceInfo)) spaceInfo));
        PublishLogoutSpaceEvents localId spaceId true
  end.

(** [OhosAccountManager::ClearDistributedAccountSpacesIfMatch], ohos_account_manager.cpp *)
Definition ClearDistributedAccountSpacesIfMatch (localId bundleUid : Z) : M S unit :=
  spaceIds ← mtry (ScanOsAccountSubProfileIds localId);
  match spaceIds with
  | Err _ => mret tt
  | Ok spaceIds => mfor spaceIds (λ spaceId, ClearDistributedAccountSpaceIfMatch localId spaceId bundleUid)
  end.

(** [OhosAccountManager::OnPackageRemoved], ohos_account_manager.cpp *)
Definition OnPackageRemoved (callingUid : Z) : M S unit :=
  osAccountInfos ← mtry (osAccounts_ QueryAllCreatedOsAccounts);
  match osAccountInfos with
  | Err _ => mret tt
  | Ok osAccountInfos =>
      mfor osAccountInfos (λ info,
        let localId := OsAccountInfo.localId_ info in
        _ ← ClearMainAccountIfMatch localId callingUid;
        if ENABLE_MULTIPLE_OS_ACCOUNT_SUBSPACE then ClearDistributedAccountSpacesIfMatch localId callingUid else mret tt)
  end.

(** *** An account of the operating system is removed *)

(** What is announced of a subspace that goes with its account. *)
Definition announce_deleted (localId spaceId : Z) : M S unit :=
  _ ← publish_profile SubProfiles.DELETED localId spaceId (-1);
  SendSubProfileCES localId spaceId COMMON_EVENT_OS_ACCOUNT_SUB_PROFILE_DELETED.

(** [OhosAccountManager::SendMultiSpaceLogoutOnDelOsAccount], ohos_account_manager.cpp *)
Definition SendMultiSpaceLogoutOnDelOsAccount (localId : Z) : M S unit :=
  subSpaceIds ← ScanOsAccountSubProfileIds localId;
  mfor subSpaceIds (λ spaceId,
    ret ← mtry (get_space localId spaceId);
    match ret with
    | Err _ => mret tt
    | Ok spaceInfo =>
        let status := status_ (ohos_of spaceInfo) in
        if status =? ACCOUNT_STATE_UNBOUND then announce_deleted localId spaceId
        else
          _ ← (if status =? ACCOUNT_STATE_LOGIN then PublishLogoutSpaceEvents localId spaceId false else mret tt);
          _ ← publish_account localId DistributedAccounts.UNBOUND spaceId;
          _ ← SendSubProfileCES localId spaceId COMMON_EVENT_DISTRIBUTED_ACCOUNT_UNBOUND;
          announce_deleted localId spaceId
    end).

(** [OhosAccountManager::SendLogoutEventOnDelOsAccount], ohos_account_manager.cpp *)
Definition SendLogoutEventOnDelOsAccount (localId : Z) : M S unit :=
  if ENABLE_MULTIPLE_OS_ACCOUNT_SUBSPACE then SendMultiSpaceLogoutOnDelOsAccount localId
  else
    ohosInfo ← GetAccountInfoByUserId localId;
    defaultSubProfileId ← GetOsAccountForegroundSubProfileId localId;
    let status := status_ (ohosAccountInfo_ ohosInfo) in
    if status =? ACCOUNT_STATE_UNBOUND then announce_deleted localId defaultSubProfileId
    else
      _ ← (if status =? ACCOUNT_STATE_LOGIN then
             _ ← publish_account localId DistributedAccounts.LOGOUT (-1);
             _ ← EventPublishAsUser COMMON_EVENT_HWID_LOGOUT localId;
             EventPublishAsUser COMMON_EVENT_DISTRIBUTED_ACCOUNT_LOGOUT localId
           else mret tt);
      _ ← publish_account localId DistributedAccounts.UNBOUND (-1);
      _ ← EventPublishAsUser COMMON_EVENT_DISTRIBUTED_ACCOUNT_UNBOUND localId;
      announce_deleted localId defaultSubProfileId.
End Manager.
