(* ===== verification/OhosAccountService.v ===== *)
(** The front end of distributed accounts and of subspaces: the requests of
    account_mgr_service.cpp about them, and os_account_subspace_manager_service.cpp. *)
From Stdlib Require Import ZArith Lia Ascii String.
From stdpp Require Import base list gmap sets strings.
From S2P Require Import Prelude ErrorCodes Json FileStore AppIndex AccountStateMachine OsAccountInfo OsAccountEnv OsAccountServices OsAccountInterface OsAccountManager OsAccountCreation OsAccountQueries OsAccountSubscribe DistributedSubscribe AccountPermission OhosAccountInfo OhosAccountFiles OhosAccountState OsAccountSubProfiles OhosAccountManager.
Import Ohos.

(** Two switches of the build. *)
Class FrontSwitches := { IS_RELEASE_VERSION : bool; USE_MUSL : bool }.

Definition PERMISSION_MANAGE_USERS : string := "ohos.permission.MANAGE_LOCAL_ACCOUNTS".
Definition PERMISSION_GET_LOCAL_ACCOUNTS : string := "ohos.permission.GET_LOCAL_ACCOUNTS".
Definition PERMISSION_MANAGE_DISTRIBUTED_ACCOUNTS : string := "ohos.permission.MANAGE_DISTRIBUTED_ACCOUNTS".
Definition PERMISSION_GET_DISTRIBUTED_ACCOUNTS : string := "ohos.permission.GET_DISTRIBUTED_ACCOUNTS".
Definition PERMISSION_DISTRIBUTED_DATASYNC : string := "ohos.permission.DISTRIBUTED_DATASYNC".
Definition INTERACT_ACROSS_LOCAL_ACCOUNTS : string := "ohos.permission.INTERACT_ACROSS_LOCAL_ACCOUNTS".
Definition INTERACT_ACROSS_LOCAL_ACCOUNTS_EXTENSION : string := "ohos.permission.INTERACT_ACROSS_LOCAL_ACCOUNTS_EXTENSION".
Definition GET_LOCAL_ACCOUNT_IDENTIFIERS : string := "ohos.permission.GET_LOCAL_ACCOUNT_IDENTIFIERS".

(** [WHITE_LIST], account_mgr_service.cpp:81-85 *)
Definition WHITE_LIST : list Z := [3012; 3019; 3553].
Definition ROOT_UID : Z := 0.

Section Service.
Context {W : Type} {sw : OsSwitches} {front : FrontSwitches} {cfg : Config} {os_cfg : OsConfig} {sysconf : Sysconf}.
Context {cjson : CJsonLib} {target : Target} {fs : FileStore W} {streams : StreamStore W}.
Context {huks : Huks} {env : Surroundings W} {platform : Platform W} {haps : HapTokens} {ipc : Ipc}.
Context {tee : TeeAdapter W} {parts : AccountParts W} {control : OsAccountControl W} {services : SubProfileServices W} {ces : CommonEvents W}.
Local Abbreviation S := (OhosManager W).

Definition DSOFTBUS_UID : Z := if USE_MUSL then 1024 else 5533.

(** Root passes in a build that is not a release; the library's answers are that a
    permission is granted and that it is denied.

    [AccountMgrService::HasAccountRequestPermission], account_mgr_service.cpp *)
Definition HasAccountRequestPermission (permissionName : string) : bool :=
  (negb IS_RELEASE_VERSION && (GetCallingUid =? ROOT_UID)) || VerifyAccessToken GetCallingTokenID permissionName.

(** A request goes on when a check gives [ERR_OK], and ends with its code otherwise. *)
Definition checked (ret : Z) : M S unit := if ret =? ERR_OK then mret tt else merr ret.
Definition permitted (b : bool) : M S unit := if b then mret tt else merr ERR_ACCOUNT_COMMON_PERMISSION_DENIED.
Definition system_app : M S unit := checked (CheckSystemApp true).

(** [AccountMgrService::CheckUserIdValid], account_mgr_service.cpp *)
Definition CheckUserIdValid (userId : Z) : M S unit :=
  if (0 <=? userId) && (userId <? START_USER_ID) then merr ERR_OSACCOUNT_SERVICE_MANAGER_ID_ERROR
  else
    isOsAccountExist ← mtry (osAccounts_ (OsAccountQueries.IsOsAccountExists userId));
    match isOsAccountExist with
    | Ok true => mret tt
    | _ => merr ERR_ACCOUNT_COMMON_ACCOUNT_NOT_EXIST_ERROR
    end.

(** *** Changes *)

(** [AccountMgrService::UpdateOhosAccountInfo], account_mgr_service.cpp *)
Definition UpdateOhosAccountInfo (accountName uid eventStr : string) : M S unit :=
  _ ← permitted (HasAccountRequestPermission PERMISSION_MANAGE_USERS);
  if string_empty accountName then merr ERR_ACCOUNT_COMMON_INVALID_PARAMETER
  else if string_empty uid then merr ERR_ACCOUNT_COMMON_INVALID_PARAMETER
  else OhosAccountStateChange_caller accountName uid eventStr.

(** [AccountMgrService::SetOhosAccountInfo], account_mgr_service.cpp *)
Definition SetOhosAccountInfo (ohosAccountInfo : OhosAccountInfo) (eventStr : string) : M S unit :=
  _ ← permitted (HasAccountRequestPermission PERMISSION_MANAGE_DISTRIBUTED_ACCOUNTS);
  if negb (IsValid ohosAccountInfo) then merr ERR_ACCOUNT_COMMON_INVALID_PARAMETER
  else userId ← GetCallingUserID; OhosAccountStateChange userId ohosAccountInfo eventStr.

(** [AccountMgrService::SetOsAccountDistributedInfo], account_mgr_service.cpp *)
Definition SetOsAccountDistributedInfo (localId : Z) (ohosAccountInfo : OhosAccountInfo) (eventStr : string) : M S unit :=
  _ ← system_app;
  _ ← permitted (HasAccountRequestPermission PERMISSION_MANAGE_DISTRIBUTED_ACCOUNTS);
  _ ← CheckUserIdValid localId;
  if negb (IsValid ohosAccountInfo) then merr ERR_ACCOUNT_COMMON_INVALID_PARAMETER
  else OhosAccountStateChange localId ohosAccountInfo eventStr.

(** *** Queries *)

(** [AccountMgrService::QueryDistributedVirtualDeviceId]#1, account_mgr_service.cpp *)
Definition QueryDistributedVirtualDeviceId_caller (dvid : string) : M S string :=
  _ ← permitted (HasAccountRequestPermission PERMISSION_MANAGE_USERS || HasAccountRequestPermission PERMISSION_DISTRIBUTED_DATASYNC);
  OhosAccountManager.QueryDistributedVirtualDeviceId_caller dvid.

(** [AccountMgrService::QueryDistributedVirtualDeviceId]#2, account_mgr_service.cpp *)
Definition QueryDistributedVirtualDeviceId (bundleName : string) (localId : Z) : M S string :=
  _ ← system_app;
  _ ← permitted (HasAccountRequestPermission PERMISSION_MANAGE_DISTRIBUTED_ACCOUNTS ||
                 HasAccountRequestPermission PERMISSION_MANAGE_USERS ||
                 HasAccountRequestPermission PERMISSION_GET_DISTRIBUTED_ACCOUNTS);
  OhosAccountManager.QueryDistributedVirtualDeviceId bundleName localId.

(** [AccountMgrService::GetOsAccountDistributedInfoInner], account_mgr_service.cpp *)
Definition GetOsAccountDistributedInfoInner (localId : Z) : M S OhosAccountInfo :=
  if localId <? 0 then merr ERR_OSACCOUNT_SERVICE_MANAGER_ID_ERROR else GetOhosAccountDistributedInfo localId.

(** The name, the id and the status.

    [AccountMgrService::InnerQueryOsAccountDistributedInfo], account_mgr_service.cpp *)
Definition InnerQueryOsAccountDistributedInfo (localId : Z) : M S (string * string * Z) :=
  ohosAccountInfo ← GetOsAccountDistributedInfoInner localId;
  mret (name_ ohosAccountInfo, uid_ ohosAccountInfo, status_ ohosAccountInfo).

(** [AccountMgrService::QueryOhosAccountInfo], account_mgr_service.cpp *)
Definition QueryOhosAccountInfo : M S (string * string * Z) :=
  _ ← permitted (HasAccountRequestPermission PERMISSION_MANAGE_USERS ||
                 HasAccountRequestPermission PERMISSION_DISTRIBUTED_DATASYNC ||
                 HasAccountRequestPermission PERMISSION_GET_LOCAL_ACCOUNTS);
  userId ← GetCallingUserID;
  InnerQueryOsAccountDistributedInfo userId.

Definition without_raw_uid (i : OhosAccountInfo) : OhosAccountInfo := {| i with rawUid_ := "" |}.

(** [AccountMgrService::GetOhosAccountInfo], account_mgr_service.cpp *)
Definition GetOhosAccountInfo : M S OhosAccountInfo :=
  _ ← permitted (HasAccountRequestPermission PERMISSION_MANAGE_DISTRIBUTED_ACCOUNTS ||
                 HasAccountRequestPermission PERMISSION_DISTRIBUTED_DATASYNC ||
                 HasAccountRequestPermission PERMISSION_GET_DISTRIBUTED_ACCOUNTS);
  userId ← GetCallingUserID;
  info ← GetOsAccountDistributedInfoInner userId;
  mret (without_raw_uid info).

(** [AccountMgrService::GetOsAccountDistributedInfo], account_mgr_service.cpp *)
Definition GetOsAccountDistributedInfo (localId : Z) : M S OhosAccountInfo :=
  _ ← system_app;
  _ ← permitted
        (if CheckSaCall then
           HasAccountRequestPermission PERMISSION_MANAGE_DISTRIBUTED_ACCOUNTS ||
           HasAccountRequestPermission INTERACT_ACROSS_LOCAL_ACCOUNTS ||
           HasAccountRequestPermission PERMISSION_DISTRIBUTED_DATASYNC ||
           HasAccountRequestPermission PERMISSION_GET_DISTRIBUTED_ACCOUNTS
         else
           HasAccountRequestPermission PERMISSION_MANAGE_DISTRIBUTED_ACCOUNTS ||
           (HasAccountRequestPermission INTERACT_ACROSS_LOCAL_ACCOUNTS &&
            HasAccountRequestPermission PERMISSION_GET_DISTRIBUTED_ACCOUNTS));
  isOsAccountExits ← osAccounts_ (OsAccountQueries.IsOsAccountExists localId);
  if negb isOsAccountExits then merr ERR_ACCOUNT_COMMON_ACCOUNT_NOT_EXIST_ERROR
  else
    info ← GetOsAccountDistributedInfoInner localId;
    mret (if bool_decide (GetCallingUid ∈ WHITE_LIST) then info else without_raw_uid info).

(** [AccountMgrService::QueryOsAccountDistributedInfo], account_mgr_service.cpp *)
Definition QueryOsAccountDistributedInfo (localId : Z) : M S (string * string * Z) :=
  _ ← (if negb (HasAccountRequestPermission PERMISSION_MANAGE_USERS)
          && negb (GetCallingUid =? DSOFTBUS_UID)
          && negb (HasAccountRequestPermission INTERACT_ACROSS_LOCAL_ACCOUNTS &&
                   HasAccountRequestPermission PERMISSION_GET_DISTRIBUTED_ACCOUNTS)
       then
         _ ← permitted (HasAccountRequestPermission PERMISSION_DISTRIBUTED_DATASYNC);
         let isQueryingOwnAccount := localId =? Z.quot GetCallingUid UID_TRANSFORM_DIVISOR in
         permitted (negb (negb (HasAccountRequestPermission INTERACT_ACROSS_LOCAL_ACCOUNTS_EXTENSION) &&
                          negb (isQueryingOwnAccount && HasAccountRequestPermission PERMISSION_GET_LOCAL_ACCOUNTS)))
       else mret tt);
  if localId <? 0 then merr ERR_ACCOUNT_ZIDL_ACCOUNT_STUB_USERID_ERROR
  else InnerQueryOsAccountDistributedInfo localId.

(** [AccountMgrService::QueryDeviceAccountId], account_mgr_service.cpp *)
Definition QueryDeviceAccountId : M S Z := mret (Z.quot GetCallingUid UID_TRANSFORM_DIVISOR).

(** *** Subscriptions *)

(** [AccountMgrService::SubscribeDistributedAccountEvent], account_mgr_service.cpp *)
Definition SubscribeDistributedAccountEvent (typeInt : Z) (eventListener : option Listener) : M S unit :=
  if negb (bool_decide (is_Some eventListener)) then merr ERR_ACCOUNT_COMMON_NULL_PTR_ERROR
  else _ ← system_app; OhosAccountManager.SubscribeDistributedAccountEvent typeInt eventListener.

(** [AccountMgrService::UnsubscribeDistributedAccountEvent], account_mgr_service.cpp *)
Definition UnsubscribeDistributedAccountEvent (typeInt : Z) (eventListener : option Listener) : M S unit :=
  if negb (bool_decide (is_Some eventListener)) then merr ERR_ACCOUNT_COMMON_NULL_PTR_ERROR
  else _ ← system_app; OhosAccountManager.UnsubscribeDistributedAccountEvent typeInt eventListener.

(** The types of a request about events of subspaces, or none. *)
Definition event_types (typeInts : list Z) (eventListener : option Listener) : option (gset Z) :=
  if negb (bool_decide (is_Some eventListener)) || bool_decide (typeInts = []) then None
  else if SubProfiles.INVALID_TYPE <? Z.of_nat (length typeInts) then None
  else if forallb SubProfiles.IsValidOsAccountSubProfileEventType typeInts then Some (list_to_set typeInts)
  else None.

(** [OsAccountSubProfileManagerService::SubscribeOsAccountSubProfileEvents], os_account_subspace_manager_service.cpp *)
Definition SubscribeOsAccountSubProfileEvents (typeInts : list Z) (eventListener : option Listener) : M S unit :=
  _ ← system_app;
  match event_types typeInts eventListener with
  | None => merr ERR_ACCOUNT_COMMON_INVALID_PARAMETER
  | Some types => profile_subscribers_ (SubProfiles.Subscribe GetCallingUid types eventListener)
  end.

(** [OsAccountSubProfileManagerService::UnsubscribeOsAccountSubProfileEvents], os_account_subspace_manager_service.cpp *)
Definition UnsubscribeOsAccountSubProfileEvents (typeInts : list Z) (eventListener : option Listener) : M S unit :=
  _ ← system_app;
  match event_types typeInts eventListener with
  | None => merr ERR_ACCOUNT_COMMON_INVALID_PARAMETER
  | Some types => profile_subscribers_ (SubProfiles.Unsubscribe types eventListener)
  end.

(** *** Subspaces *)

(** A request is refused with one code whatever the check says. *)
Definition expect {A} (e : Z) (m : M S A) : M S unit := _ ← or_else m e; mret tt.
Definition unrestricted (id : Z) : M S unit := osAccounts_ (OsAccountQueries.CheckLocalIdRestricted id).

(** [AccountMgrService::GetOsAccountForegroundSubProfileId]#1, account_mgr_service.cpp *)
Definition GetOsAccountForegroundSubProfileId_caller : M S Z :=
  _ ← system_app;
  let osAccountId := Z.quot GetCallingUid UID_TRANSFORM_DIVISOR in
  _ ← expect ERR_OS_ACCOUNT_SUBPROFILE_NOT_FOUND (unrestricted osAccountId);
  GetOsAccountForegroundSubProfileId osAccountId.

(** [AccountMgrService::GetOsAccountForegroundSubProfileId]#2, account_mgr_service.cpp *)
Definition GetOsAccountForegroundSubProfileId (osAccountId : Z) : M S Z :=
  _ ← system_app;
  _ ← expect ERR_ACCOUNT_COMMON_ACCOUNT_NOT_EXIST_ERROR (GetOsAccountInfo osAccountId);
  _ ← expect ERR_OS_ACCOUNT_SUBPROFILE_NOT_FOUND (unrestricted osAccountId);
  OhosAccountManager.GetOsAccountForegroundSubProfileId osAccountId.

(** The subspaces of an account that must not be asked about are none. *)
Definition ids_of (osAccountId : Z) : M S (list Z) :=
  ret ← mtry (unrestricted osAccountId);
  match ret with Err _ => mret [] | Ok _ => GetOsAccountSubProfileIds osAccountId end.

(** [AccountMgrService::GetOsAccountSubProfileIds]#1, account_mgr_service.cpp *)
Definition GetOsAccountSubProfileIds_caller : M S (list Z) :=
  _ ← system_app;
  _ ← permitted (VerifyPermission GET_LOCAL_ACCOUNT_IDENTIFIERS =? ERR_OK);
  ids_of (Z.quot GetCallingUid UID_TRANSFORM_DIVISOR).

(** [AccountMgrService::GetOsAccountSubProfileIds]#2, account_mgr_service.cpp *)
Definition GetOsAccountSubProfileIds (osAccountId : Z) : M S (list Z) :=
  _ ← system_app;
  _ ← permitted (VerifyPermission GET_LOCAL_ACCOUNT_IDENTIFIERS =? ERR_OK);
  _ ← expect ERR_ACCOUNT_COMMON_ACCOUNT_NOT_EXIST_ERROR (GetOsAccountInfo osAccountId);
  ids_of osAccountId.

(** [AccountMgrService::GetOsAccountLocalIdForSubProfile], account_mgr_service.cpp *)
Definition GetOsAccountLocalIdForSubProfile (subProfileId : Z) : M S Z :=
  _ ← system_app;
  let id := Z.quot subProfileId OS_ACCOUNT_SUBSPACE_ID_MULTIPLIER in
  _ ← expect ERR_OS_ACCOUNT_SUBPROFILE_NOT_FOUND (GetOsAccountInfo id);
  _ ← expect ERR_OS_ACCOUNT_SUBPROFILE_NOT_FOUND (unrestricted id);
  OhosAccountManager.GetOsAccountLocalIdForSubProfile subProfileId.

(** The number of a subspace is in the range of its account. *)
Definition belongs (subProfileId osAccountId : Z) : M S unit :=
  if negb (Z.quot subProfileId OS_ACCOUNT_SUBSPACE_ID_MULTIPLIER =? osAccountId)
  then merr ERR_OS_ACCOUNT_SUBPROFILE_NOT_FOUND else mret tt.

(** [AccountMgrService::GetOsAccountSubProfile]#1, account_mgr_service.cpp *)
Definition GetOsAccountSubProfile_caller (subProfileId : Z) : M S (OsAccountSubspaceResult * OhosAccountInfo) :=
  _ ← system_app;
  _ ← permitted (VerifyPermission PERMISSION_GET_LOCAL_ACCOUNTS =? ERR_OK);
  let osAccountId := Z.quot GetCallingUid UID_TRANSFORM_DIVISOR in
  _ ← belongs subProfileId osAccountId;
  _ ← expect ERR_OS_ACCOUNT_SUBPROFILE_NOT_FOUND (unrestricted osAccountId);
  GetOsAccountSubProfile osAccountId subProfileId.

(** [AccountMgrService::GetOsAccountSubProfile]#2, account_mgr_service.cpp *)
Definition GetOsAccountSubProfile (osAccountId subProfileId : Z) : M S (OsAccountSubspaceResult * OhosAccountInfo) :=
  _ ← system_app;
  _ ← permitted (VerifyPermission PERMISSION_GET_LOCAL_ACCOUNTS =? ERR_OK);
  _ ← permitted (VerifyPermission INTERACT_ACROSS_LOCAL_ACCOUNTS =? ERR_OK);
  _ ← belongs subProfileId osAccountId;
  _ ← expect ERR_OS_ACCOUNT_SUBPROFILE_NOT_FOUND (GetOsAccountInfo osAccountId);
  _ ← expect ERR_OS_ACCOUNT_SUBPROFILE_NOT_FOUND (unrestricted osAccountId);
  OhosAccountManager.GetOsAccountSubProfile osAccountId subProfileId.

(** [AccountMgrService::GetOsAccountSubProfileId]#1, account_mgr_service.cpp *)
Definition GetOsAccountSubProfileId (osAccountId appIndex : Z) : M S Z :=
  _ ← system_app;
  if appIndex <? 0 then merr ERR_ACCOUNT_COMMON_INVALID_PARAMETER
  else
    _ ← expect ERR_ACCOUNT_COMMON_ACCOUNT_NOT_EXIST_ERROR (GetOsAccountInfo osAccountId);
    _ ← expect ERR_OS_ACCOUNT_SUBPROFILE_NOT_FOUND (unrestricted osAccountId);
    OhosAccountManager.GetOsAccountSubProfileId osAccountId appIndex.

(** [AccountMgrService::GetOsAccountSubProfileId]#2, account_mgr_service.cpp *)
Definition GetOsAccountSubProfileId_token (tokenId : Z) : M S Z :=
  _ ← system_app;
  match GetHapTokenInfo tokenId with
  | None => merr ERR_ACCOUNT_COMMON_INVALID_PARAMETER
  | Some hapTokenInfo =>
      if hap_instIndex hapTokenInfo <? 0 then merr ERR_ACCOUNT_COMMON_INVALID_PARAMETER
      else
        _ ← expect ERR_ACCOUNT_COMMON_ACCOUNT_NOT_EXIST_ERROR (GetOsAccountInfo (hap_userID hapTokenInfo));
        _ ← expect ERR_OS_ACCOUNT_SUBPROFILE_NOT_FOUND (unrestricted (hap_userID hapTokenInfo));
        OhosAccountManager.GetOsAccountSubProfileId (hap_userID hapTokenInfo) (hap_instIndex hapTokenInfo)
  end.

(** [AccountMgrService::GetOsAccountSubProfileIndex], account_mgr_service.cpp *)
Definition GetOsAccountSubProfileIndex (osAccountId subProfileId : Z) : M S Z :=
  _ ← system_app;
  _ ← belongs subProfileId osAccountId;
  _ ← expect ERR_OS_ACCOUNT_SUBPROFILE_NOT_FOUND (GetOsAccountInfo osAccountId);
  _ ← expect ERR_OS_ACCOUNT_SUBPROFILE_NOT_FOUND (unrestricted osAccountId);
  OhosAccountManager.GetOsAccountSubProfileIndex osAccountId subProfileId.

(** [CheckSubspacePermission], os_account_subspace_manager_service.cpp *)
Definition CheckSubspacePermission : M S unit :=
  _ ← system_app; permitted (VerifyPermission PERMISSION_MANAGE_USERS =? ERR_OK).

(** [OsAccountSubProfileManagerService::CreateOsAccountSubProfile]#1, os_account_subspace_manager_service.cpp
    [OsAccountSubProfileManagerService::CreateOsAccountSubProfile]#2, os_account_subspace_manager_service.cpp *)
Definition CreateOsAccountSubProfile (osAccountId : Z) : M S OsAccountSubspaceResult :=
  if ENABLE_MULTIPLE_OS_ACCOUNT_SUBSPACE then
    _ ← CheckSubspacePermission;
    _ ← unrestricted osAccountId;
    _ ← expect ERR_ACCOUNT_COMMON_ACCOUNT_NOT_EXIST_ERROR (GetOsAccountInfo osAccountId);
    CreateOsAccountSubspace osAccountId
  else merr ERR_OS_ACCOUNT_SUBPROFILE_LIMIT.

(** [OsAccountSubProfileManagerService::DeleteOsAccountSubProfile]#1, os_account_subspace_manager_service.cpp
    [OsAccountSubProfileManagerService::DeleteOsAccountSubProfile]#2, os_account_subspace_manager_service.cpp *)
Definition DeleteOsAccountSubProfile (osAccountId subspaceId : Z) : M S unit :=
  if ENABLE_MULTIPLE_OS_ACCOUNT_SUBSPACE then
    _ ← CheckSubspacePermission;
    _ ← expect ERR_OS_ACCOUNT_SUBPROFILE_NOT_FOUND (unrestricted osAccountId);
    _ ← belongs subspaceId osAccountId;
    if Z.rem subspaceId OS_ACCOUNT_SUBSPACE_ID_MULTIPLIER =? 0 then merr ERR_OS_ACCOUNT_SUBPROFILE_RESTRICTED
    else DeleteOsAccountSubspace osAccountId subspaceId
  else merr ERR_OS_ACCOUNT_SUBPROFILE_RESTRICTED.

(** [OsAccountSubProfileManagerService::SwitchOsAccountSubProfile]#1, os_account_subspace_manager_service.cpp
    [OsAccountSubProfileManagerService::SwitchOsAccountSubProfile]#2, os_account_subspace_manager_service.cpp *)
Definition SwitchOsAccountSubProfile (osAccountId subspaceId : Z) : M S unit :=
  if ENABLE_MULTIPLE_OS_ACCOUNT_SUBSPACE then
    _ ← CheckSubspacePermission;
    _ ← expect ERR_OS_ACCOUNT_SUBPROFILE_NOT_FOUND (unrestricted osAccountId);
    _ ← belongs subspaceId osAccountId;
    _ ← SwitchOsAccountSubspace osAccountId subspaceId false;
    mret tt
  else if negb (subspaceId =? i32 (osAccountId * 1000)) then merr ERR_OS_ACCOUNT_SUBPROFILE_NOT_FOUND
  else mret tt.
End Service.
