(* ===== verification/OhosAccountAnnouncements.v ===== *)
(** What is announced of distributed accounts and of subspaces: a request that fails announces
    nothing, and the subspace in the foreground is the one whose switch was announced last,
    whatever the devices and the other services do. *)
From Stdlib Require Import ZArith Lia Ascii String.
From stdpp Require Import base list gmap sets strings pretty sorting.
From S2P Require Import Prelude ErrorCodes Json FileStore AppIndex AccountStateMachine OsAccountInfo OsAccountEnv OsAccountServices OsAccountInterface OsAccountManager OsAccountCreation OsAccountQueries OsAccountSubscribe DistributedSubscribe AccountPermission OhosAccountInfo OhosAccountFiles OhosAccountState OsAccountSubProfiles OhosAccountManager OhosAccountService.
Import Ohos.

Section Announcements.
Context {W : Type} {sw : OsSwitches} {front : FrontSwitches} {cfg : Config} {os_cfg : OsConfig} {sysconf : Sysconf}.
Context {cjson : CJsonLib} {target : Target} {fs : FileStore W} {streams : StreamStore W}.
Context {huks : Huks} {env : Surroundings W} {platform : Platform W} {haps : HapTokens} {ipc : Ipc}.
Context {tee : TeeAdapter W} {parts : AccountParts W} {control : OsAccountControl W} {services : SubProfileServices W} {ces : CommonEvents W}.
Local Abbreviation S := (OhosManager W).

(** What the theorems look at: the log, the subspaces in the foreground, the switches under way. *)
Definition view (s : S) : list Announcement * gmap Z Z * gset Z :=
  (announced s, foregroundSubProfileRuntimeMap_ s, switchingAccounts_ s).
Definition at_view (v : list Announcement * gmap Z Z * gset Z) (s : S) : Prop := view s = v.

(** Code that announces nothing and leaves the foreground alone. *)
Definition calm {A} (m : M S A) : Prop := ∀ v, preserves (at_view v) m.

Lemma calm_use {A} v (m : M S A) : calm m → preserves (at_view v) m.
Proof. intros H. apply H. Qed.

Lemma calm_osAccounts {A} (f : M (Manager W) A) : calm (osAccounts_ f).
Proof. intros v s Hs. unfold osAccounts_. destruct (f (accounts s)) as [r m]. exact Hs. Qed.
End Announcements.

#[export] Hint Resolve calm_osAccounts calm_use : mpres.

(** Goes along the structure of code; what has no lemma is unfolded. *)
Ltac calm_head m := lazymatch m with ?f _ => calm_head f | _ => m end.
Ltac calm_step :=
  lazymatch goal with
  | |- calm _ => intros ?
  | |- preserves _ (mret _) => apply preserves_ret
  | |- preserves _ (merr _) => apply preserves_err
  | |- preserves _ (mget ≫= _) => apply preserves_get_bind; intros ? ?
  | |- preserves _ (mput _) => apply preserves_put; first [assumption|exact eq_refl]
  | |- preserves _ (mmodify _) => apply preserves_modify; intros ? ?; assumption
  | |- preserves _ (_ ≫= _) => apply preserves_bind
  | |- preserves _ (mtry _) => apply preserves_try
  | |- preserves _ (mfor _ _) => apply preserves_for
  | |- preserves _ (match ?x with _ => _ end) => destruct x
  | |- preserves _ (let x := ?v in _) => cbv zeta
  | |- preserves _ ?m =>
      first [assumption | solve [eauto with mpres] | let h := calm_head m in unfold h]
  | |- ∀ _, _ => intro
  end.
Ltac calm := repeat calm_step.

Section Calm.
Context {W : Type} {sw : OsSwitches} {front : FrontSwitches} {cfg : Config} {os_cfg : OsConfig} {sysconf : Sysconf}.
Context {cjson : CJsonLib} {target : Target} {fs : FileStore W} {streams : StreamStore W}.
Context {huks : Huks} {env : Surroundings W} {platform : Platform W} {haps : HapTokens} {ipc : Ipc}.
Context {tee : TeeAdapter W} {parts : AccountParts W} {control : OsAccountControl W} {services : SubProfileServices W} {ces : CommonEvents W}.
Local Abbreviation S := (OhosManager W).

Lemma calm_valid_of id ids : calm (valid_of (W := W) id ids).
Proof. intros v. induction ids as [|i ids IH]; cbn [valid_of]; calm. Qed.
Lemma calm_remove_counted id ids : calm (remove_counted (W := W) id ids).
Proof. intros v. induction ids as [|i ids IH]; cbn [remove_counted]; calm. Qed.
Lemma calm_bound_nowhere id sub info ids : calm (bound_nowhere (W := W) id sub info ids).
Proof. intros v. induction ids as [|i ids IH]; cbn [bound_nowhere]; calm. Qed.
Lemma calm_sync id i n d r : calm (sync_retry (W := W) id i n d r).
Proof. intros v. revert d r. induction n as [|n IH]; intros d r; cbn [sync_retry]; calm. Qed.
End Calm.

#[export] Hint Resolve calm_valid_of calm_remove_counted calm_bound_nowhere calm_sync : mpres.

Section Calm2.
Context {W : Type} {sw : OsSwitches} {front : FrontSwitches} {cfg : Config} {os_cfg : OsConfig} {sysconf : Sysconf}.
Context {cjson : CJsonLib} {target : Target} {fs : FileStore W} {streams : StreamStore W}.
Context {huks : Huks} {env : Surroundings W} {platform : Platform W} {haps : HapTokens} {ipc : Ipc}.
Context {tee : TeeAdapter W} {parts : AccountParts W} {control : OsAccountControl W} {services : SubProfileServices W} {ces : CommonEvents W}.
Local Abbreviation S := (OhosManager W).

Lemma calm_create id : calm (CreateSubProfile (W := W) id).
Proof. calm. Qed.
Lemma calm_remove id sub : calm (RemoveSubProfile (W := W) id sub).
Proof. calm. Qed.
Lemma calm_scan id : calm (ScanOsAccountSubProfileIds (W := W) id).
Proof. calm. Qed.
Lemma calm_get_space id sub : calm (get_space (W := W) id sub).
Proof. calm. Qed.
Lemma calm_set_space i : calm (SetDistributedAccountSpaceInfo (W := W) i).
Proof. calm. Qed.
Lemma calm_verify id sub i sp : calm (VerifySpaceAccountBinding (W := W) id sub i sp).
Proof. calm. Qed.
Lemma calm_leave id i ev : calm (leave (W := W) id i ev).
Proof. calm. Qed.
Lemma calm_change_space id sub i ev : calm (change_space (W := W) id sub i ev).
Proof. calm. Qed.
Lemma calm_account id : calm (GetAccountInfoByUserId (W := W) id).
Proof. calm. Qed.
End Calm2.

#[export] Hint Resolve calm_create calm_remove calm_scan calm_get_space calm_set_space calm_verify calm_leave
  calm_change_space calm_account : mpres.

(** ** A request that fails announces nothing *)

Section Silence.
Context {W : Type} {sw : OsSwitches} {front : FrontSwitches} {cfg : Config} {os_cfg : OsConfig} {sysconf : Sysconf}.
Context {cjson : CJsonLib} {target : Target} {fs : FileStore W} {streams : StreamStore W}.
Context {huks : Huks} {env : Surroundings W} {platform : Platform W} {haps : HapTokens} {ipc : Ipc}.
Context {tee : TeeAdapter W} {parts : AccountParts W} {control : OsAccountControl W} {services : SubProfileServices W} {ces : CommonEvents W}.
Local Abbreviation S := (OhosManager W).

(** When it fails it has announced nothing, and has switched nothing. *)
Definition silent {A} (m : M S A) : Prop := ∀ s e s', m s = (Err e, s') → view s' = view s.

Lemma silent_calm {A} (m : M S A) : calm m → silent m.
Proof. intros Hm s e s' E. pose proof (Hm (view s) s eq_refl) as H. rewrite E in H. exact H. Qed.

Lemma silent_void {A} (m : M S A) : is_void m → silent m.
Proof. intros Hm s e s' E. specialize (Hm s). by rewrite E in Hm. Qed.

Lemma silent_bind {A B} (m : M S A) (k : A → M S B) : calm m → (∀ a, silent (k a)) → silent (m ≫= k).
Proof.
  intros Hm Hk s e s' E. pose proof (Hm (view s) s eq_refl) as H. rewrite mbind_unfold in E.
  destruct (m s) as [[a|e'] s1]; cbn [snd] in H; [|simplify_eq; exact H]. rewrite <-H. by eapply Hk.
Qed.

Lemma void_bind {A B} (m : M S A) (k : A → M S B) : is_void m → (∀ a, is_void (k a)) → is_void (m ≫= k).
Proof.
  intros Hm Hk s. rewrite mbind_unfold. specialize (Hm s). destruct (m s) as [[a|e] s1]; [apply Hk|done].
Qed.
Lemma void_try {A} (m : M S A) : is_void (mtry m).
Proof. intros s. unfold mtry. by destruct (m s). Qed.
Lemma void_return {A} (a : A) : is_void (mret a : M S A).
Proof. by intros s. Qed.
Lemma void_get : is_void (mget : M S S).
Proof. by intros s. Qed.
Lemma void_modify (f : S → S) : is_void (mmodify f).
Proof. by intros s. Qed.
End Silence.

Ltac void_step :=
  lazymatch goal with
  | |- is_void (mret _) => apply void_return
  | |- is_void mget => apply void_get
  | |- is_void (mmodify _) => apply void_modify
  | |- is_void (mtry _) => apply void_try
  | |- is_void (_ ≫= _) => apply void_bind; [|intros ?]
  | |- is_void (match ?x with _ => _ end) => destruct x
  | |- is_void (let x := ?v in _) => cbv zeta
  | |- is_void ?m => let h := calm_head m in unfold h
  end.

(** Code that fails before it announces, and announces without failing. *)
Ltac silent_step :=
  lazymatch goal with
  | |- silent (match ?x with _ => _ end) => destruct x
  | |- silent (let x := ?v in _) => cbv zeta
  | |- silent (_ ≫= _) =>
      first [ apply silent_void; solve [repeat void_step]
            | apply silent_bind; [solve [calm]|intros ?] ]
  | |- silent ?m =>
      first [ apply silent_calm; solve [calm]
            | let h := calm_head m in unfold h ]
  end.

Section Failures.
Context {W : Type} {sw : OsSwitches} {front : FrontSwitches} {cfg : Config} {os_cfg : OsConfig} {sysconf : Sysconf}.
Context {cjson : CJsonLib} {target : Target} {fs : FileStore W} {streams : StreamStore W}.
Context {huks : Huks} {env : Surroundings W} {platform : Platform W} {haps : HapTokens} {ipc : Ipc}.
Context {tee : TeeAdapter W} {parts : AccountParts W} {control : OsAccountControl W} {services : SubProfileServices W} {ces : CommonEvents W}.

Lemma silent_state_change id i ev : silent (OhosAccountStateChange (W := W) id i ev).
Proof. repeat silent_step. Qed.
Lemma silent_create id : silent (CreateOsAccountSubspace (W := W) id).
Proof. repeat silent_step. Qed.
Lemma silent_delete id sub : silent (DeleteOsAccountSubspace (W := W) id sub).
Proof. repeat silent_step. Qed.
End Failures.

(** ** The foreground is the last switch that was announced *)

(** The subspace that an announcement says account [id] has switched to. *)
Definition switched_to (id : Z) (a : Announcement) : option Z :=
  match a with
  | ProfileEvent type localId subProfileId _ _ =>
      if (type =? SubProfiles.SWITCHED) && (localId =? id) then Some subProfileId else None
  | _ => None
  end.

Definition last_switch (id : Z) (l : list Announcement) : option Z := last (omap (switched_to id) l).

Lemma last_switch_snoc id l a :
  last_switch id (l ++ [a]) = match switched_to id a with Some sub => Some sub | None => last_switch id l end.
Proof.
  unfold last_switch. rewrite omap_app. cbn [omap list_omap]. destruct (switched_to id a) as [sub|].
  - by rewrite last_snoc.
  - by rewrite app_nil_r.
Qed.

Section Foreground.
Context {W : Type} {sw : OsSwitches} {front : FrontSwitches} {cfg : Config} {os_cfg : OsConfig} {sysconf : Sysconf}.
Context {cjson : CJsonLib} {target : Target} {fs : FileStore W} {streams : StreamStore W}.
Context {huks : Huks} {env : Surroundings W} {platform : Platform W} {haps : HapTokens} {ipc : Ipc}.
Context {tee : TeeAdapter W} {parts : AccountParts W} {control : OsAccountControl W} {services : SubProfileServices W} {ces : CommonEvents W}.
Local Abbreviation S := (OhosManager W).

(** The announced switches of the accounts [ids] are the ones that took place; [g] are the
    switches under way. *)
Definition follows_for (ids : Z → Prop) (g : gset Z) (s : S) : Prop :=
  switchingAccounts_ s = g ∧
  ∀ id sub, ids id → last_switch id (announced s) = Some sub → foregroundSubProfileRuntimeMap_ s !! id = Some sub.
Definition follows (g : gset Z) : S → Prop := follows_for (λ _, True) g.
Definition others (id : Z) : Z → Prop := λ i, i ≠ id.

Lemma follows_calm {A} ids g (m : M S A) : calm m → preserves (follows_for ids g) m.
Proof.
  intros Hm s [Hg Hs]. pose proof (Hm (view s) s eq_refl) as Hv. unfold at_view, view in Hv. injection Hv as Ha Hf Hw.
  split; [by rewrite Hw|]. intros id sub. rewrite Ha, Hf. apply Hs.
Qed.

Lemma follows_announce ids g a : (∀ id, ids id → switched_to id a = None) → preserves (follows_for ids g) (announce_ (W := W) a).
Proof.
  intros Ha s [Hg Hs]. split; [done|]. intros id sub Hid. cbn [announced announce_ mmodify snd]. rewrite last_switch_snoc, Ha by done.
  by apply Hs.
Qed.

Lemma switched_other type id sub prev called i : type ≠ SubProfiles.SWITCHED → switched_to i (ProfileEvent type id sub prev called) = None.
Proof. intros Ht. cbn. by apply Z.eqb_neq in Ht as ->. Qed.
Lemma switched_elsewhere type id sub prev called i : others id i → switched_to i (ProfileEvent type id sub prev called) = None.
Proof. intros Hi. cbn. destruct (Z.eqb_spec id i) as [->|]; [done|]. by rewrite andb_false_r. Qed.

(** The announcement of a switch that took place. *)
Lemma follows_switched g id sub prev s :
  follows_for (others id) g s → foregroundSubProfileRuntimeMap_ s !! id = Some sub →
  wp (publish_profile SubProfiles.SWITCHED id sub prev) (λ r s', r = Ok tt ∧ follows g s') s.
Proof.
  intros [Hg Hs] Hsub. unfold publish_profile. apply wp_bind, wp_get, wp_modify. split; [done|]. split; [done|].
  intros i x _. cbn [announced]. rewrite last_switch_snoc. cbn [switched_to]. rewrite Z.eqb_refl. cbn [andb].
  destruct (Z.eqb_spec id i) as [<-|Hi]; [by intros [= <-]|]. by apply Hs.
Qed.

Lemma follows_weaken (ids ids' : Z → Prop) g s : (∀ i, ids' i → ids i) → follows_for ids g s → follows_for ids' g s.
Proof. intros Hi [Hg Hs]. split; [done|]. intros i x Hx. by apply Hs, Hi. Qed.
End Foreground.

Ltac follow_step :=
  lazymatch goal with
  | |- preserves _ (mret _) => apply preserves_ret
  | |- preserves _ (merr _) => apply preserves_err
  | |- preserves _ mget => apply preserves_get
  | |- preserves _ (mtry _) => apply preserves_try
  | |- preserves _ (mfor _ _) => apply preserves_for
  | |- preserves _ (announce_ _) =>
      apply follows_announce; intros ? ?; first [done | by apply switched_other | by apply switched_elsewhere]
  | |- preserves _ (match ?x with _ => _ end) => destruct x
  | |- preserves _ (let x := ?v in _) => cbv zeta
  | |- preserves _ ?m =>
      first [ assumption
            | apply follows_calm; solve [calm]
            | lazymatch m with _ ≫= _ => apply preserves_bind | _ => let h := calm_head m in unfold h end ]
  | |- ∀ _, _ => intro
  end.
Ltac follow := repeat follow_step.

Section Switches.
Context {W : Type} {sw : OsSwitches} {front : FrontSwitches} {cfg : Config} {os_cfg : OsConfig} {sysconf : Sysconf}.
Context {cjson : CJsonLib} {target : Target} {fs : FileStore W} {streams : StreamStore W}.
Context {huks : Huks} {env : Surroundings W} {platform : Platform W} {haps : HapTokens} {ipc : Ipc}.
Context {tee : TeeAdapter W} {parts : AccountParts W} {control : OsAccountControl W} {services : SubProfileServices W} {ces : CommonEvents W}.
Local Abbreviation S := (OhosManager W).

Lemma follows_state_change ids g id i ev : preserves (follows_for ids g) (OhosAccountStateChange (W := W) id i ev).
Proof. follow. Qed.
Lemma follows_create ids g id : preserves (follows_for ids g) (CreateOsAccountSubspace (W := W) id).
Proof. follow. Qed.
Lemma follows_delete ids g id sub : preserves (follows_for ids g) (DeleteOsAccountSubspace (W := W) id sub).
Proof. follow. Qed.
Lemma follows_package ids g uid : preserves (follows_for ids g) (OnPackageRemoved (W := W) uid).
Proof. follow. Qed.
Lemma follows_removed ids g id : preserves (follows_for ids g) (SendLogoutEventOnDelOsAccount (W := W) id).
Proof. follow. Qed.

(** The subspace [sub] of account [id] is recorded as the one in the foreground; the
    announcements of the other accounts are true. *)
Definition recorded (id sub : Z) (g : gset Z) (s : S) : Prop :=
  follows_for (others id) g s ∧ foregroundSubProfileRuntimeMap_ s !! id = Some sub.

Lemma recorded_announce id sub g a :
  (∀ i, others id i → switched_to i a = None) → preserves (recorded id sub g) (announce_ (W := W) a).
Proof. intros Ha s [Hs Hsub]. split; [|done]. by apply (follows_announce (others id) g a Ha). Qed.

Lemma wp_preserved {A} (P : S → Prop) (m : M S A) (Q : result A → S → Prop) s :
  is_void m → preserves P m → P s → (∀ a s', P s' → Q (Ok a) s') → wp m Q s.
Proof.
  intros Hv Hp Hs HQ. unfold wp. specialize (Hv s). specialize (Hp s Hs). destruct (m s) as [[a|e] s']; [by apply HQ|done].
Qed.

Lemma recorded_ces id sub g a userId :
  (∀ i, switched_to i a = None) → preserves (recorded id sub g) (publish_want (W := W) a userId).
Proof.
  intros Ha. unfold publish_want. destruct (_ =? _); [apply preserves_ret|]. destruct HAS_CES_PART; [|apply preserves_ret].
  by apply recorded_announce.
Qed.

Lemma recorded_publish id sub g type to from : preserves (recorded id sub g) (publish_profile (W := W) type id to from).
Proof.
  unfold publish_profile. apply preserves_get_bind. intros s _. apply recorded_announce. intros i Hi.
  by apply switched_elsewhere.
Qed.

Lemma recorded_switching id sub g to from : preserves (recorded id sub g) (announce_switching (W := W) id to from).
Proof. unfold announce_switching. apply preserves_bind; [by apply recorded_ces|]. intros _. apply recorded_publish. Qed.

Lemma follows_switching g id to from : preserves (follows g) (announce_switching (W := W) id to from).
Proof.
  unfold announce_switching, SendSubProfileSwitchCES, publish_want, publish_profile. follow.
Qed.

Lemma switch_void id to from : is_void (announce_switching (W := W) id to from).
Proof. repeat void_step. Qed.
Lemma switch_ces_void id to from b : is_void (SendSubProfileSwitchCES (W := W) id to from b).
Proof. repeat void_step. Qed.
Lemma publish_void type id to from : is_void (publish_profile (W := W) type id to from).
Proof. repeat void_step. Qed.

Lemma set_runtime_spec g id sub (s : S) :
  follows g s → wp (SetRuntimeForegroundSubProfileId id sub) (λ r s', r = Ok tt ∧ recorded id sub g s') s.
Proof.
  intros [Hg Hs]. unfold SetRuntimeForegroundSubProfileId. apply wp_modify. split; [done|]. split; [|apply lookup_insert_eq].
  split; [done|]. intros i x Hi Hx. cbn. rewrite lookup_insert_ne by (by symmetry). by apply Hs.
Qed.

(** A switch that is taken back is announced as such. *)
Lemma RollbackSubProfileSwitch_spec g id to from (s : S) :
  follows g s → wp (RollbackSubProfileSwitch id to from) (λ r s', r = Ok tt ∧ follows g s') s.
Proof.
  intros Hs. unfold RollbackSubProfileSwitch. apply wp_bind. eapply wp_conseq; [by apply set_runtime_spec|].
  intros r s1 (-> & Hs1). apply wp_bind.
  eapply (wp_preserved (recorded id from g)); [apply switch_ces_void|by apply recorded_ces|done|]. intros _ s2 Hs2. apply wp_bind.
  eapply (wp_preserved (recorded id from g)); [apply publish_void|by apply recorded_publish|done|]. intros _ s3 Hs3. apply wp_bind.
  eapply (wp_preserved (recorded id from g)); [apply switch_void|by apply recorded_switching|done|]. intros _ s4 Hs4. apply wp_bind.
  eapply (wp_preserved (recorded id from g)); [apply switch_ces_void|by apply recorded_ces|done|]. intros _ s5 [Hs5 Hf5].
  by apply follows_switched.
Qed.

(** The subspace that is asked for is the recorded one, which is recorded if none was. *)
Lemma GetRuntime_spec g id (s : S) :
  follows g s →
  wp (GetRuntimeForegroundSubProfileId id)
     (λ r s', follows g s' ∧ ∀ sub, r = Ok sub → sub = -1 ∨ foregroundSubProfileRuntimeMap_ s' !! id = Some sub) s.
Proof.
  intros Hs. unfold GetRuntimeForegroundSubProfileId. apply wp_bind, wp_try. unfold wp at 1.
  pose proof (follows_calm (λ _, True) g (OsAccountSubProfiles.GetOsAccountInfo id) ltac:(calm) s Hs) as Hs1.
  destruct (OsAccountSubProfiles.GetOsAccountInfo id s) as [[i|e] s1]; cbn [fst snd] in *.
  2: { apply wp_ret. split; [done|]. intros sub [= <-]. by left. }
  apply wp_bind, wp_get. destruct (foregroundSubProfileRuntimeMap_ s1 !! id) as [sub|] eqn:E.
  { apply wp_ret. split; [done|]. intros sub' [= <-]. by right. }
  cbv zeta. apply wp_bind. unfold SetRuntimeForegroundSubProfileId. apply wp_modify, wp_ret. split.
  - destruct Hs1 as [Hg Hs1]. split; [done|]. intros j x _ Hx. cbn in *. specialize (Hs1 j x I Hx).
    rewrite lookup_insert_ne; [done|]. intros ->. by rewrite E in Hs1.
  - intros sub [= <-]. right. apply lookup_insert_eq.
Qed.

(** A switch that succeeds is recorded; one that fails is taken back. *)
Definition switch_outcome (id sub : Z) (g : gset Z) {A} (r : result A) (s : S) : Prop :=
  match r with Ok _ => recorded id sub g s | Err _ => follows g s end.

Lemma InnerSwitch_spec g id sub from (s : S) :
  follows g s → wp (InnerSwitchSubProfile id sub from) (switch_outcome id sub g) s.
Proof.
  intros Hs. unfold InnerSwitchSubProfile.
  assert (Hback : ∀ e s, follows g s →
    wp (_ ← RollbackSubProfileSwitch id sub from; merr e) (switch_outcome id sub g (A := unit)) s).
  { intros e s1 Hs1. apply wp_bind. eapply wp_conseq; [by apply RollbackSubProfileSwitch_spec|]. intros r s2 [-> Hs2].
    by apply wp_err. }
  apply wp_bind, wp_try. unfold wp at 1.
  pose proof (follows_calm (λ _, True) g (ResolveSwitchAppIndices id sub from) ltac:(calm) s Hs) as Hs1.
  destruct (ResolveSwitchAppIndices id sub from s) as [[[e d]|c] s1]; cbn [fst snd] in *; [|by apply Hback].
  apply wp_bind, wp_try. unfold wp at 1.
  pose proof (follows_calm (λ _, True) g (SyncBMSApplicationState id e d) ltac:(calm) s1 Hs1) as Hs2.
  destruct (SyncBMSApplicationState id e d s1) as [[[]|c] s2]; cbn [fst snd] in *; [|by apply Hback].
  apply wp_bind. eapply wp_conseq; [by apply set_runtime_spec|]. intros r s3 (-> & Hs3 & Hf3).
  unfold void_. apply wp_bind, wp_try. unfold wp at 1.
  pose proof (calm_osAccounts (SetOsAccountForegroundSubspaceId id sub) (view s3) s3 eq_refl) as Hv.
  destruct (osAccounts_ _ s3) as [r s4]. cbn [fst snd] in *. apply wp_ret. unfold at_view, view in Hv. injection Hv as Ha Hf Hw.
  split; [|by rewrite Hf]. destruct Hs3 as [Hg Hs3]. split; [by rewrite Hw|]. intros i x. rewrite Ha, Hf. apply Hs3.
Qed.

Lemma SwitchSubProfile_spec g id sub act (s : S) :
  follows g s → wp (SwitchSubProfile id sub act) (switch_outcome id sub g) s.
Proof.
  intros Hs. unfold SwitchSubProfile. destruct (_ =? _); [by apply wp_err|].
  apply wp_bind. unfold wp at 1.
  pose proof (follows_calm (λ _, True) g (files_ (IsValidSubProfileExists id sub)) ltac:(calm) s Hs) as Hs1.
  destruct (files_ _ s) as [[[]|e] s1]; cbn [fst snd negb] in *; [|by apply wp_err|done].
  apply wp_bind, wp_try. unfold wp at 1.
  pose proof (follows_calm (λ _, True) g (OsAccountSubProfiles.GetOsAccountInfo id) ltac:(calm) s1 Hs1) as Hs2.
  destruct (OsAccountSubProfiles.GetOsAccountInfo id s1) as [[i|e] s2]; cbn [fst snd] in *; [|by apply wp_err].
  apply wp_bind. eapply (wp_conseq _ (λ r s', follows g s' ∧ ∀ from, r = Ok from → from = -1 ∨
     act = false ∧ foregroundSubProfileRuntimeMap_ s' !! id = Some from)).
  { destruct act; [by apply wp_ret; split; [|intros ? [= <-]; left]|].
    eapply wp_conseq; [by apply GetRuntime_spec|]. intros r s' [Hs' Hr]. split; [done|]. intros from E.
    destruct (Hr from E); [by left|by right]. }
  intros [from|e] s3 [Hs3 Hfrom]; [|done]. specialize (Hfrom from eq_refl).
  destruct (_ && _ && _) eqn:E.
  { apply andb_true_iff in E as [[_ E]%andb_true_iff E1]. apply Z.eqb_eq in E as ->. apply negb_true_iff, Z.eqb_neq in E1.
    destruct Hfrom as [->|[_ Hf]]; [done|]. apply wp_ret. split; [|done]. by eapply follows_weaken; [|exact Hs3]. }
  apply wp_bind. unfold wp at 1.
  pose proof (follows_calm (λ _, True) g (CheckActiveSessionStatus id from) ltac:(calm) s3 Hs3) as Hs4.
  destruct (CheckActiveSessionStatus id from s3) as [[[]|e] s4]; cbn [fst snd] in *; [by apply wp_err| |done].
  apply wp_bind, wp_get. case_bool_decide as Hin; [by apply wp_err|].
  apply wp_bind. unfold set_switching at 1. apply wp_modify, wp_bind, wp_try.
  set (s5 := {| s4 with switchingAccounts_ := _ |}).
  assert (Hs5 : follows ({[id]} ∪ g) s5) by (destruct Hs4 as [<- Hs4]; by split).
  assert (Hback : ({[id]} ∪ g) ∖ {[id]} = g) by (destruct Hs4 as [<- _]; set_solver).
  eapply wp_conseq; [by apply InnerSwitch_spec|]. intros [[]|e] s6; cbn [switch_outcome].
  - intros [[Hg6 Hs6] Hf6]. apply wp_bind, wp_modify, wp_ret. split; [|done]. split; [|done]. cbn. by rewrite Hg6.
  - intros [Hg6 Hs6]. apply wp_bind, wp_modify, wp_err. split; [|done]. cbn. by rewrite Hg6.
Qed.

Lemma follows_switch g id sub act : preserves (follows g) (SwitchOsAccountSubspace (W := W) id sub act).
Proof.
  intros s Hs. change (wp (SwitchOsAccountSubspace id sub act) (λ _ s', follows g s') s).
  unfold SwitchOsAccountSubspace. apply wp_bind, wp_try. unfold wp at 1.
  pose proof (follows_calm (λ _, True) g (OsAccountSubProfiles.GetOsAccountInfo id) ltac:(calm) s Hs) as Hs1.
  destruct (OsAccountSubProfiles.GetOsAccountInfo id s) as [r s1]; cbn [fst snd] in *. cbv zeta.
  destruct (_ && _ && _); [by apply wp_ret|].
  apply wp_bind. eapply (wp_preserved (follows g)); [apply switch_void|apply follows_switching|done|]. intros _ s2 Hs2.
  apply wp_bind. eapply wp_conseq; [by apply SwitchSubProfile_spec|]. intros [from|e] s3; cbn [switch_outcome]; [|done].
  intros [Hs3 Hf3]. apply wp_bind. eapply wp_conseq; [by apply follows_switched|]. intros r' s4 [-> Hs4].
  apply wp_bind. eapply (wp_preserved (follows g)); [apply switch_ces_void| |done|]; [|intros _ s5 Hs5; by apply wp_ret].
  unfold SendSubProfileSwitchCES, publish_want. follow.
Qed.
End Switches.

(** ** Requests *)

(** The requests that change an account, as the front end is asked for them. *)
Inductive Change :=
  | UpdateInfo (accountName uid event : string)
  | SetInfo (info : OhosAccountInfo) (event : string)
  | SetInfoOf (localId : Z) (info : OhosAccountInfo) (event : string)
  | Create (osAccountId : Z)
  | Delete (osAccountId subspaceId : Z).

(** What the manager is asked for, by the front end, by other managers and by the system. *)
Inductive Request :=
  | StateChange (userId : Z) (info : OhosAccountInfo) (event : string)
  | CreateSubspace (osAccountId : Z)
  | DeleteSubspace (osAccountId subspaceId : Z)
  | SwitchSubspace (osAccountId subspaceId : Z) (isActivate : bool)
  | PackageRemoved (uid : Z)
  | AccountRemoved (localId : Z)
  | Subscribe (type : Z) (l : option Listener)
  | Unsubscribe (type : Z) (l : option Listener)
  | Start
  | Cleanup.

Section Requests.
Context {W : Type} {sw : OsSwitches} {front : FrontSwitches} {cfg : Config} {os_cfg : OsConfig} {sysconf : Sysconf}.
Context {cjson : CJsonLib} {target : Target} {fs : FileStore W} {streams : StreamStore W}.
Context {huks : Huks} {env : Surroundings W} {platform : Platform W} {haps : HapTokens} {ipc : Ipc}.
Context {tee : TeeAdapter W} {parts : AccountParts W} {control : OsAccountControl W} {services : SubProfileServices W} {ces : CommonEvents W}.
Local Abbreviation S := (OhosManager W).

Definition change (r : Change) : M S unit :=
  match r with
  | UpdateInfo name uid event => OhosAccountService.UpdateOhosAccountInfo name uid event
  | SetInfo info event => SetOhosAccountInfo info event
  | SetInfoOf localId info event => SetOsAccountDistributedInfo localId info event
  | Create id => _ ← CreateOsAccountSubProfile id; mret tt
  | Delete id sub => DeleteOsAccountSubProfile id sub
  end.

Definition serve (r : Request) : M S unit :=
  match r with
  | StateChange userId info event => OhosAccountStateChange userId info event
  | CreateSubspace id => _ ← CreateOsAccountSubspace id; mret tt
  | DeleteSubspace id sub => DeleteOsAccountSubspace id sub
  | SwitchSubspace id sub act => _ ← SwitchOsAccountSubspace id sub act; mret tt
  | PackageRemoved uid => OnPackageRemoved uid
  | AccountRemoved id => SendLogoutEventOnDelOsAccount id
  | Subscribe type l => OhosAccountManager.SubscribeDistributedAccountEvent type l
  | Unsubscribe type l => OhosAccountManager.UnsubscribeDistributedAccountEvent type l
  | Start => _ ← OnInitialize; mret tt
  | Cleanup => CleanupOrphanedSubProfiles
  end.

(** One request after the other, whatever their results. *)
Definition serve_all (rs : list Request) (s : S) : S := foldl (λ s r, (serve r s).2) s rs.

Lemma silent_then {A B} (m : M S A) (k : A → M S B) : silent m → (∀ a, is_void (k a)) → silent (m ≫= k).
Proof.
  intros Hm Hk s e s' E. rewrite mbind_unfold in E. destruct (m s) as [[a|e'] s1] eqn:E1; [|simplify_eq; by eapply Hm].
  specialize (Hk a s1). by rewrite E in Hk.
Qed.

Lemma silent_change r : silent (change r).
Proof.
  destruct r; cbn [change]; [repeat silent_step..| |repeat silent_step].
  apply silent_then; [|intros ?; apply void_return]. repeat silent_step.
Qed.

Lemma calm_init n : calm (init_rounds (W := W) n).
Proof. intros v. induction n as [|n IH]; cbn [init_rounds]; [calm|]. apply preserves_bind; [|intros [|]; calm]. calm. Qed.

Lemma follows_serve g r : preserves (follows g) (serve r).
Proof.
  destruct r; cbn [serve].
  - apply follows_state_change.
  - apply preserves_bind; [apply follows_create|]. intros ?. apply preserves_ret.
  - apply follows_delete.
  - apply preserves_bind; [apply follows_switch|]. intros ?. apply preserves_ret.
  - apply follows_package.
  - apply follows_removed.
  - intros s Hs. unfold OhosAccountManager.SubscribeDistributedAccountEvent, account_subscribers_.
    destruct (DistributedAccounts.Subscribe _ _ _). exact Hs.
  - intros s Hs. unfold OhosAccountManager.UnsubscribeDistributedAccountEvent, account_subscribers_.
    destruct (DistributedAccounts.Unsubscribe _ _ _). exact Hs.
  - apply preserves_bind; [|intros ?; apply preserves_ret]. unfold OnInitialize. apply preserves_get_bind. intros s _.
    destruct (isInit_ s); [apply preserves_ret|]. apply preserves_bind; [apply follows_calm, calm_init|]. intros []; follow.
  - follow.
Qed.

Lemma follows_serve_all g rs s : follows g s → follows g (serve_all rs s).
Proof.
  revert s. induction rs as [|r rs IH]; intros s Hs; cbn [serve_all foldl]; [done|]. apply IH. by apply follows_serve.
Qed.

(** C13. A request to the front end that changes a distributed account or creates or deletes a
    subspace, and that fails for any reason, has told nobody anything: no event is published
    and no common event sent; and the subspaces in the foreground and the switches under way
    are what they were. *)
Theorem failed_changes_are_silent r s e s' :
  change r s = (Err e, s') →
  announced s' = announced s ∧ foregroundSubProfileRuntimeMap_ s' = foregroundSubProfileRuntimeMap_ s ∧
  switchingAccounts_ s' = switchingAccounts_ s.
Proof. intros E. apply silent_change in E. unfold view in E. by injection E as ? ? ?. Qed.

(** C8. After any requests, whatever files, account store, bundle manager and credential
    service answered, the subspace the manager has in the foreground of an account is the one
    that was last announced as switched to, rollbacks of failed switches included; and every
    request has taken back its mark that a switch is under way. *)
Theorem foreground_follows_switches rs s id sub :
  announced s = [] →
  switchingAccounts_ (serve_all rs s) = switchingAccounts_ s ∧
  (last_switch id (announced (serve_all rs s)) = Some sub →
   foregroundSubProfileRuntimeMap_ (serve_all rs s) !! id = Some sub).
Proof.
  intros Hs. destruct (follows_serve_all (switchingAccounts_ s) rs s) as [Hg Hf].
  { split; [done|]. intros i x _. by rewrite Hs. }
  split; [done|]. by apply Hf.
Qed.
End Requests.
