(* ===== verification/OhosAccountBindings.v ===== *)
(** Logins and logouts in a build without subspaces, on a device that does not fail: what
    subscribers have been told of an account is what is stored of it; and the start of the
    manager succeeds whatever the file of the device holds. *)
From Stdlib Require Import ZArith Lia Ascii String.
From stdpp Require Import base list gmap sets strings pretty sorting.
From S2P Require Import Prelude ErrorCodes Json FileStore AppIndex AccountStateMachine OsAccountInfo OsAccountEnv OsAccountDocs OsAccountServices OsAccountInterface OsAccountManager OsAccountCreation OsAccountQueries OsAccountSubscribe DistributedSubscribe AccountPermission OhosAccountInfo OhosAccountFiles OhosAccountStorage OhosAccountState OsAccountSubProfiles OhosAccountManager OhosAccountAnnouncements.
Import Ohos.

(** The status an event says an account has, for who knew the status before. *)
Definition heard (id st : Z) (a : Announcement) : Z :=
  match a with
  | AccountEvent localId type _ _ =>
      if negb (localId =? id) then st
      else if type =? DistributedAccounts.LOGIN then ACCOUNT_STATE_LOGIN
      else if type =? DistributedAccounts.TOKEN_INVALID then ACCOUNT_STATE_TOKEN_EXPIRED
      else if (type =? DistributedAccounts.LOGOUT) || (type =? DistributedAccounts.LOGOFF) || (type =? DistributedAccounts.UNBOUND)
      then ACCOUNT_STATE_UNBOUND
      else st
  | _ => st
  end.

Definition told (id st : Z) (l : list Announcement) : Z := foldl (heard id) st l.

(** A subscription to the removal of applications is none of the store's business. *)
Class ReliableEvents (W : Type) `{ReliableStore W, !CommonEvents W} : Prop := {
  subscribe_leaves w : idle w → reliable w →
    idle (SubscribeCommonEvent w).2 ∧ texts (SubscribeCommonEvent w).2 = texts w ∧ reliable (SubscribeCommonEvent w).2;
}.

Section Bindings.
Context {W : Type} {sw : OsSwitches} {cfg : Config} {os_cfg : OsConfig} {sysconf : Sysconf}.
Context {cjson : CJsonLib} {laws : CJsonLaws} {alloc : CJsonAlloc} {target : Target}.
Context {fs : FileStore W} {rel : ReliableStore W} {streams : StreamStore W} {rstreams : ReliableStreams W}.
Context {huks : Huks} {env : Surroundings W} {platform : Platform W} {plaws : PlatformLaws W} {rplatform : ReliablePlatform W}.
Context {haps : HapTokens} {ipc : Ipc}.
Context {tee : TeeAdapter W} {parts : AccountParts W} {control : OsAccountControl W} {services : SubProfileServices W}.
Context {ces : CommonEvents W} {rces : ReliableEvents W}.
Local Abbreviation S := (OhosManager W).

(** *** The device under the manager *)

Definition disk (s : S) : W := world (accounts s).

Definition set_disk (w : W) (s : S) : S := {| s with accounts := set_world w (accounts s) |}.

Lemma wp_files {A} (f : M W A) (Q : result A → S → Prop) s :
  wp f (λ r w, Q r (set_disk w s)) (disk s) → wp (files_ f) Q s.
Proof. unfold wp, files_, osAccounts_, call, disk. intros H. destruct (f (world (accounts s))) as [r w]. exact H. Qed.

(** The manager has started, its device has the documents [d], and [st] is what has been told
    of every account when it started with [st0]. *)
Definition running (st0 : Z → Z) (d : gmap string string) (st : Z → Z) (s : S) : Prop :=
  on_device d (disk s) ∧ initOk_ s = true ∧ stateMachineMap_ (accountState_ s) = AccountStateMachine.OnInitialize ∧
  ∀ id, told id (st0 id) (announced s) = st id.

Implicit Types (st : Z → Z).

Lemma running_disk st0 d d' st w s : running st0 d st s → on_device d' w → running st0 d' st (set_disk w s).
Proof. by intros (_ & Hi & Hm & Ht) Hw. Qed.

Lemma wp_load st0 id a d st (Q : result AccountInfo → S → Prop) s :
  0 ≤ id → userId_ a = id → readable (W := W) a → stored id a d → running st0 d st s →
  (∀ s', running st0 d st s' → Q (Ok (account_read a)) s') → wp (AccountInfoFromJson id) Q s.
Proof.
  intros Hid Hu Ha Hd Hs HQ. unfold AccountInfoFromJson. apply wp_bind, wp_get. rewrite (proj1 (proj2 Hs)). cbn [negb].
  apply wp_files. eapply wp_GetAccountInfo; [done..|apply Hs|]. intros w Hw. apply HQ. by eapply running_disk.
Qed.

Lemma wp_store st0 a d st (Q : result unit → S → Prop) s :
  readable (W := W) a → running st0 d st s →
  (∀ s', running st0 (store (userId_ a) a d) st s' → Q (Ok tt) s') → wp (AccountInfoToJson a) Q s.
Proof.
  intros Ha Hs HQ. unfold AccountInfoToJson. apply wp_bind, wp_get. rewrite (proj1 (proj2 Hs)). cbn [negb].
  apply wp_files. eapply wp_save; [done|apply Hs|]. intros w Hw. apply HQ. by eapply running_disk.
Qed.

(** *** What is told *)

Lemma running_announce st0 d st a s :
  running st0 d st s → running st0 d (λ id, heard id (st id) a) {| s with announced := announced s ++ [a] |}.
Proof.
  intros (Hd & Hi & Hm & Ht). split_and!; [done..|]. intros id. unfold told. cbn [announced]. rewrite foldl_snoc.
  f_equal. apply Ht.
Qed.

Lemma running_ext st0 d st st' s : (∀ id, st id = st' id) → running st0 d st s → running st0 d st' s.
Proof. intros He (Hd & Hi & Hm & Ht). split_and!; [done..|]. intros id. by rewrite <-He. Qed.

(** What has been told of [id] is now [z]. *)
Definition set_status (id z : Z) st : Z → Z := λ i, if i =? id then z else st i.

Lemma heard_event id type sub called st z :
  (∀ i, heard i (st i) (AccountEvent id type sub called) = set_status id z st i) ↔
  heard id (st id) (AccountEvent id type sub called) = z.
Proof.
  split; [intros H; specialize (H id); unfold set_status in H; by rewrite Z.eqb_refl in H|].
  intros H i. unfold set_status. destruct (Z.eqb_spec i id) as [->|Hi]; [done|]. cbn.
  destruct (Z.eqb_spec id i); [by subst|done].
Qed.

Lemma wp_publish st0 d st id type z (Q : result unit → S → Prop) s :
  running st0 d st s → (∀ called, heard id (st id) (AccountEvent id type (-1) called) = z) →
  (∀ s', running st0 d (set_status id z st) s' → Q (Ok tt) s') → wp (publish_account id type (-1)) Q s.
Proof.
  intros Hs Hz HQ. unfold publish_account. apply wp_bind, wp_get, wp_modify, HQ.
  eapply running_ext; [by apply heard_event|]. by apply running_announce.
Qed.

(** Common events tell nothing about the status. *)
Lemma wp_common st0 d st event id (Q : result unit → S → Prop) s :
  running st0 d st s → (∀ s', running st0 d st s' → Q (Ok tt) s') → wp (EventPublishAsUser event id) Q s.
Proof.
  intros Hs HQ. assert (Hone : ∀ a, (∀ i z, heard i z a = z) → wp (announce_ (W := W) a) Q s).
  { intros a Ha. apply wp_modify, HQ. eapply running_ext; [|by apply running_announce]. intros i. apply Ha. }
  unfold EventPublishAsUser, EventPublish. destruct (_ =? _), HAS_CES_PART;
    first [by apply Hone | by apply wp_ret, HQ].
Qed.

Lemma wp_subscribe_package st0 d st (Q : result unit → S → Prop) s :
  running st0 d st s → (∀ s', running st0 d st s' → Q (Ok tt) s') → wp (void_ CreateCommonEventSubscribe) Q s.
Proof.
  intros Hs HQ. unfold void_, CreateCommonEventSubscribe. apply wp_bind, wp_try.
  destruct HAS_CES_PART; [|by apply wp_ret, wp_ret, HQ]. apply wp_bind, wp_get.
  destruct (accountEventSubscribe_ s); [by apply wp_ret, wp_ret, HQ|].
  apply wp_bind, wp_put, wp_files. unfold wp, platform_. destruct Hs as ([[Hi Hd] Hr] & Hrest).
  unfold disk in *. pose proof (subscribe_leaves _ Hi Hr) as (Hi' & Ht & Hr'). cbn [accounts].
  destruct (SubscribeCommonEvent (world (accounts s))) as [b w]. cbn [fst snd] in *. apply HQ. split; [|exact Hrest].
  split; [|exact Hr']. split; [exact Hi'|]. unfold docs in *. rewrite <-Hd, <-Ht. reflexivity.
Qed.

(** *** The state machine *)

Lemma wp_HandleEvent st0 d st a ev e (Q : result (option AccountInfo) → S → Prop) s :
  running st0 d st s → CheckEventValid ev = Some e →
  (∀ s', running st0 d st s' →
     Q (Ok (match next_state AccountStateMachine.OnInitialize (status_ (ohosAccountInfo_ a)) e with
            | Some z => Some (with_ohos (with_status z (ohosAccountInfo_ a)) a)
            | None => None
            end)) s') → wp (HandleEvent a ev) Q s.
Proof.
  intros Hs He HQ. unfold HandleEvent. rewrite He. unfold state_after. apply wp_bind, wp_bind, wp_get.
  unfold SetAccountState. destruct Hs as (Hd & Hi & Hm & Ht). rewrite Hm, StateChangeProcess_next.
  destruct (next_state _ _ e) as [z|]; apply wp_bind, wp_put, wp_ret, wp_ret, HQ; by split_and!.
Qed.

(** The events and the rows of the plain build. *)
Lemma plain_events :
  ENABLE_MULTIPLE_OS_ACCOUNT_SUBSPACE = false →
  CheckEventValid OHOS_ACCOUNT_EVENT_LOGIN = Some ACCOUNT_BIND_SUCCESS_EVT ∧
  CheckEventValid OHOS_ACCOUNT_EVENT_LOGOUT = Some ACCOUNT_MANUAL_UNBOUND_EVT ∧
  CheckEventValid OHOS_ACCOUNT_EVENT_LOGOFF = Some ACCOUNT_MANUAL_LOGOFF_EVT ∧
  CheckEventValid OHOS_ACCOUNT_EVENT_TOKEN_INVALID = Some ACCOUNT_TOKEN_EXPIRED_EVT.
Proof. intros Hb. unfold CheckEventValid. rewrite Hb. by vm_compute. Qed.

Definition plain_states : list Z := [ACCOUNT_STATE_UNBOUND; ACCOUNT_STATE_LOGIN; ACCOUNT_STATE_TOKEN_EXPIRED].

Lemma plain_login z :
  ENABLE_MULTIPLE_OS_ACCOUNT_SUBSPACE = false → z ∈ plain_states →
  next_state AccountStateMachine.OnInitialize z ACCOUNT_BIND_SUCCESS_EVT = Some ACCOUNT_STATE_LOGIN.
Proof.
  intros Hb Hz. destruct cfg as [? b ? ?]. cbn in Hb. subst b. unfold plain_states in Hz.
  rewrite !elem_of_cons in Hz. destruct Hz as [->|[->|[->|Hz]]]; [by vm_compute..|by apply not_elem_of_nil in Hz].
Qed.

Lemma plain_expired z :
  ENABLE_MULTIPLE_OS_ACCOUNT_SUBSPACE = false → z ∈ plain_states → z ≠ ACCOUNT_STATE_UNBOUND →
  next_state AccountStateMachine.OnInitialize z ACCOUNT_TOKEN_EXPIRED_EVT = Some ACCOUNT_STATE_TOKEN_EXPIRED.
Proof.
  intros Hb Hz Hne. destruct cfg as [? b ? ?]. cbn in Hb. subst b. unfold plain_states in Hz.
  rewrite !elem_of_cons in Hz. destruct Hz as [->|[->|[->|Hz]]]; [done|by vm_compute..|by apply not_elem_of_nil in Hz].
Qed.

(** *** Whose account it is *)

Lemma concat_hex_length bs : String.length (String.concat "" (hex_byte <$> bs)) = (2 * length bs)%nat.
Proof.
  induction bs as [|b [|b' bs] IH]; [done..|]. rewrite fmap_cons. cbn [String.concat]. rewrite fmap_cons in IH |- *.
  rewrite !length_string_app, IH. cbn. lia.
Qed.

(** No id hashes to the text for nobody. *)
Lemma hash_not_default name uid : GenerateOhosUdidWithSha256 (W := W) name uid ≠ DEFAULT_OHOS_ACCOUNT_UID.
Proof.
  unfold GenerateOhosUdidWithSha256, ReturnOhosUdidWithSha256. destruct (_ || _); [done|]. destruct (_ || _); [done|].
  destruct (SHA256 uid) as [bs|] eqn:E; [|done]. apply sha_bytes in E as [Hl _]. intros H.
  apply (f_equal String.length) in H. rewrite concat_hex_length, Hl in H. by vm_compute in H.
Qed.

(** The account is in one of the states of the build; in none when it is nobody's. *)
Definition proper (a : AccountInfo) : Prop :=
  status_ (ohosAccountInfo_ a) ∈ plain_states ∧
  (status_ (ohosAccountInfo_ a) = ACCOUNT_STATE_UNBOUND → uid_ (ohosAccountInfo_ a) = DEFAULT_OHOS_ACCOUNT_UID).

Lemma same_account_bound a name uid :
  proper a → CheckSameDistributedAccount (W := W) (ohosAccountInfo_ (account_read a)) {| OhosAccountInfo_new with name_ := name; uid_ := uid |} = true →
  status_ (ohosAccountInfo_ a) ≠ ACCOUNT_STATE_UNBOUND.
Proof.
  intros [_ Ha] H Hu. specialize (Ha Hu). unfold CheckSameDistributedAccount in H.
  apply negb_true_iff, orb_false_iff in H as [_ H]. apply negb_false_iff, bool_decide_eq_true in H. cbn in H.
  rewrite Ha in H. by eapply hash_not_default.
Qed.

(** *** Requests *)

(** The account after a login. *)
Definition login_account (i : OhosAccountInfo) (now : Z) (a : AccountInfo) : AccountInfo :=
  UpdateOhosAccountInfo i (GenerateOhosUdidWithSha256 (W := W) (name_ i) (uid_ i)) now (account_read a).
Definition cleared_account (a : AccountInfo) : AccountInfo := clear ACCOUNT_STATE_UNBOUND (account_read a).
Definition expired_account (a : AccountInfo) : AccountInfo :=
  with_ohos (with_status ACCOUNT_STATE_TOKEN_EXPIRED (ohosAccountInfo_ (account_read a))) (account_read a).

(** Accounts that can be stored, which the logins that are [asked] for do not leave. *)
Record stays_storable (P : Z → AccountInfo → Prop) (asked : Z → OhosAccountInfo → Prop) : Prop := {
  storable_ok id a : P id a → 0 ≤ id ∧ userId_ a = id ∧ readable (W := W) a;
  storable_login id a i now : P id a → asked id i → times (S := W) now → P id (login_account i now a);
  storable_cleared id a : P id a → P id (cleared_account a);
  storable_expired id a : P id a → P id (expired_account a);
}.

Section Requests.
Context (P : Z → AccountInfo → Prop) (asked : Z → OhosAccountInfo → Prop) (HP : stays_storable P asked).
Context (plain : ENABLE_MULTIPLE_OS_ACCOUNT_SUBSPACE = false).

(** The accounts [σ] are stored and what has been told of each is its status. *)
Definition agrees st0 (σ : gmap Z AccountInfo) (s : S) : Prop :=
  ∃ d st, running st0 d st s ∧
    ∀ id a, σ !! id = Some a → P id a ∧ stored id a d ∧ proper a ∧ status_ (ohosAccountInfo_ a) = st id.

(** A request about account [id] may change that account. *)
Definition changes st0 (σ : gmap Z AccountInfo) (id : Z) (s : S) : Prop := ∃ a, agrees st0 (<[id := a]> σ) s.

Lemma changes_not st0 σ id a d st s :
  running st0 d st s → σ !! id = Some a →
  (∀ id a, σ !! id = Some a → P id a ∧ stored id a d ∧ proper a ∧ status_ (ohosAccountInfo_ a) = st id) → changes st0 σ id s.
Proof. intros Hs Ha Hσ. exists a. rewrite insert_id by done. by exists d, st. Qed.

Lemma changes_stored st0 σ id a a' d st s :
  σ !! id = Some a → P id a' → proper a' →
  (∀ id a, σ !! id = Some a → P id a ∧ stored id a d ∧ proper a ∧ status_ (ohosAccountInfo_ a) = st id) →
  running st0 (store (userId_ a') a' d) (set_status id (status_ (ohosAccountInfo_ a')) st) s → changes st0 σ id s.
Proof.
  intros Ha HPa Hpr Hσ Hs. destruct (storable_ok _ _ HP id a' HPa) as (Hid & Hu & _). rewrite Hu in Hs.
  exists a', (store id a' d), (set_status id (status_ (ohosAccountInfo_ a')) st). split; [done|].
  intros i b Hb. destruct (decide (i = id)) as [->|Hi].
  - rewrite lookup_insert_eq in Hb. simplify_eq. split_and!; [done|by apply stored_store|done|].
    unfold set_status. by rewrite Z.eqb_refl.
  - rewrite lookup_insert_ne in Hb by done. destruct (Hσ i b Hb) as (HPb & Hsb & Hprb & Hst).
    destruct (storable_ok _ _ HP i b HPb) as (Hi0 & _ & _). split_and!; [done|by apply stored_other|done|].
    unfold set_status. by apply Z.eqb_neq in Hi as ->.
Qed.

(** A state in which [σ] is stored, with what is known of account [id]. *)
Ltac take Hσ Ha :=
  destruct (Hσ _ _ Ha) as (HPa & Hst & Hpr & Hz);
  destruct (storable_ok _ _ HP _ _ HPa) as (Hid & Hu & Hread).

Lemma login_agrees st0 σ id a i s :
  agrees st0 σ s → σ !! id = Some a → asked id i →
  wp (LoginOhosAccount id i OHOS_ACCOUNT_EVENT_LOGIN) (λ _ s', changes st0 σ id s') s.
Proof.
  intros (d & st & Hs & Hσ) Ha Hi. take Hσ Ha. unfold LoginOhosAccount.
  apply wp_bind. eapply wp_load; [done..|]. intros s1 Hs1. cbv zeta.
  destruct (negb _); [apply wp_err; by eapply changes_not|].
  apply wp_bind. eapply wp_HandleEvent; [done|by apply plain_events|]. intros s2 Hs2.
  change (status_ (ohosAccountInfo_ (account_read a))) with (status_ (ohosAccountInfo_ a)).
  rewrite plain_login by (done || apply Hpr). apply wp_bind, wp_files. eapply wp_time; [apply Hs2|]. intros now w Hnow Hw.
  change (UpdateOhosAccountInfo i _ now _) with (login_account i now a).
  pose proof (storable_login _ _ HP id a i now HPa Hi Hnow) as HPl. destruct (storable_ok _ _ HP _ _ HPl) as (_ & Hul & Hrl).
  unfold or_else. apply wp_bind, wp_bind, wp_try. eapply wp_store; [done|by eapply running_disk|]. intros s3 Hs3.
  apply wp_ret. rewrite Hul in Hs3. unfold PublishLoginEvents.
  assert (Hlogin : ∀ s, running st0 (store id (login_account i now a) d) (set_status id ACCOUNT_STATE_LOGIN st) s → changes st0 σ id s).
  { intros s' Hs'. eapply (changes_stored _ _ _ _ (login_account i now a)); [done|done| |done|by rewrite Hul].
    split; [cbn; unfold plain_states; set_solver|done]. }
  assert (Hend : ∀ st1 s, running st0 (store id (login_account i now a) d) st1 s → (∀ j, j ≠ id → st1 j = st j) →
    wp (_ ← publish_account id DistributedAccounts.LOGIN (-1);
        if negb (negb (status_ (ohosAccountInfo_ a) =? ACCOUNT_STATE_LOGIN))
        then _ ← EventPublish COMMON_EVENT_USER_INFO_UPDATED id; void_ CreateCommonEventSubscribe
        else _ ← EventPublishAsUser COMMON_EVENT_HWID_LOGIN id; _ ← EventPublishAsUser COMMON_EVENT_DISTRIBUTED_ACCOUNT_LOGIN id;
             void_ CreateCommonEventSubscribe) (λ _ s', changes st0 σ id s') s).
  { intros st1 s' Hs' Hoth. apply wp_bind. eapply (wp_publish _ _ _ _ _ ACCOUNT_STATE_LOGIN); [done| |].
    { intros called. cbn. by rewrite Z.eqb_refl. }
    intros s4 Hs4. apply (running_ext _ _ _ (set_status id ACCOUNT_STATE_LOGIN st)) in Hs4.
    2: { intros j. unfold set_status. destruct (Z.eqb_spec j id); [done|by apply Hoth]. }
    destruct (negb (negb _)).
    - apply wp_bind. unfold EventPublish. destruct HAS_CES_PART.
      + apply wp_modify. eapply wp_subscribe_package; [by apply running_announce|]. intros s5 Hs5. apply Hlogin.
        by eapply running_ext; [|exact Hs5].
      + apply wp_ret. eapply wp_subscribe_package; [done|]. intros s5 Hs5. by apply Hlogin.
    - apply wp_bind. eapply wp_common; [done|]. intros s5 Hs5. apply wp_bind. eapply wp_common; [done|]. intros s6 Hs6.
      eapply wp_subscribe_package; [done|]. intros s7 Hs7. by apply Hlogin. }
  apply wp_bind. destruct (_ =? ACCOUNT_STATE_UNBOUND); [|apply wp_ret; by apply (Hend st)].
  apply wp_bind. eapply (wp_publish _ _ _ _ _ (st id)); [done| |].
  { intros called. cbn. by rewrite Z.eqb_refl. }
  intros s4 Hs4. eapply wp_common; [done|]. intros s5 Hs5. eapply Hend; [done|].
  intros j Hj. unfold set_status. by apply Z.eqb_neq in Hj as ->.
Qed.

(** The end of a binding, for a logout and for a logoff. *)
Lemma leave_agrees st0 σ id a i ev e s (k : unit → M S unit) :
  agrees st0 σ s → σ !! id = Some a → CheckEventValid ev = Some e →
  (∀ d st s', running st0 d st s' →
     wp (k tt) (λ _ s', running st0 d (set_status id ACCOUNT_STATE_UNBOUND st) s') s') →
  wp (leave id i ev ≫= k) (λ _ s', changes st0 σ id s') s.
Proof.
  intros (d & st & Hs & Hσ) Ha He Hk. take Hσ Ha. unfold leave, GetCurOhosAccountAndCheckMatch, or_else.
  apply wp_bind, wp_bind, wp_bind, wp_try, wp_bind. eapply wp_load; [done..|]. intros s1 Hs1.
  destruct (negb _); [apply wp_err, wp_err; by eapply changes_not|]. apply wp_ret, wp_ret.
  apply wp_bind. eapply wp_HandleEvent; [done..|]. intros s2 Hs2.
  destruct (next_state _ _ e) as [z|]; [|apply wp_err; by eapply changes_not].
  apply wp_bind, wp_try. unfold ClearOhosAccount.
  change (clear ACCOUNT_STATE_UNBOUND _) with (cleared_account a).
  pose proof (storable_cleared _ _ HP id a HPa) as HPc. destruct (storable_ok _ _ HP _ _ HPc) as (_ & Huc & Hrc).
  eapply wp_store; [done|done|]. intros s3 Hs3. apply wp_ret. eapply wp_conseq; [by apply Hk|]. intros r s4 Hs4.
  eapply (changes_stored _ _ _ _ (cleared_account a)); [done|done| |done|done].
  split; [cbn; unfold plain_states; set_solver|done].
Qed.

Lemma announce_end_running st0 id type hwid action d st s :
  type = DistributedAccounts.LOGOUT ∨ type = DistributedAccounts.LOGOFF → running st0 d st s →
  wp (announce_end id type hwid action) (λ _ s', running st0 d (set_status id ACCOUNT_STATE_UNBOUND st) s') s.
Proof.
  intros Ht Hs. unfold announce_end.
  apply wp_bind. eapply (wp_publish _ _ _ _ _ ACCOUNT_STATE_UNBOUND); [done| |].
  { intros called. cbn. rewrite Z.eqb_refl. by destruct Ht as [-> | ->]. }
  intros s1 Hs1. apply wp_bind. eapply (wp_publish _ _ _ _ _ ACCOUNT_STATE_UNBOUND); [done| |].
  { intros called. cbn. by rewrite Z.eqb_refl. }
  intros s2 Hs2. apply wp_bind. eapply wp_common; [done|]. intros s3 Hs3.
  apply wp_bind. eapply wp_common; [done|]. intros s4 Hs4. eapply wp_common; [done|]. intros s5 Hs5.
  eapply running_ext; [|exact Hs5]. intros j. unfold set_status. by destruct (j =? id).
Qed.

Lemma token_agrees st0 σ id a i s :
  agrees st0 σ s → σ !! id = Some a →
  wp (HandleOhosAccountTokenInvalidEvent id i OHOS_ACCOUNT_EVENT_TOKEN_INVALID) (λ _ s', changes st0 σ id s') s.
Proof.
  intros (d & st & Hs & Hσ) Ha. take Hσ Ha. unfold HandleOhosAccountTokenInvalidEvent, GetCurOhosAccountAndCheckMatch, or_else.
  apply wp_bind, wp_bind, wp_try, wp_bind. eapply wp_load; [done..|]. intros s1 Hs1.
  destruct (negb _) eqn:E; [apply wp_err, wp_err; by eapply changes_not|]. apply wp_ret, wp_ret.
  apply negb_false_iff, same_account_bound in E; [|done].
  apply wp_bind. eapply wp_HandleEvent; [done|by apply plain_events|]. intros s2 Hs2.
  change (status_ (ohosAccountInfo_ (account_read a))) with (status_ (ohosAccountInfo_ a)).
  rewrite plain_expired by (done || apply Hpr). unfold void_, SaveOhosAccountInfo. apply wp_bind, wp_bind, wp_try.
  change (with_ohos _ _) with (expired_account a).
  pose proof (storable_expired _ _ HP id a HPa) as HPc. destruct (storable_ok _ _ HP _ _ HPc) as (_ & Huc & Hrc).
  eapply wp_store; [done|done|]. intros s3 Hs3. apply wp_ret.
  apply wp_bind. eapply (wp_publish _ _ _ _ _ ACCOUNT_STATE_TOKEN_EXPIRED); [done| |].
  { intros called. cbn. by rewrite Z.eqb_refl. }
  intros s4 Hs4. apply wp_bind. eapply wp_common; [done|]. intros s5 Hs5. eapply wp_common; [done|]. intros s6 Hs6.
  eapply (changes_stored _ _ _ _ (expired_account a)); [done|done| |done|done].
  split; [cbn; unfold plain_states; set_solver|done].
Qed.

Lemma state_change_agrees st0 σ id a i ev s :
  agrees st0 σ s → σ !! id = Some a → asked id i → wp (OhosAccountStateChange id i ev) (λ _ s', changes st0 σ id s') s.
Proof.
  intros Hs Ha Hi. unfold OhosAccountStateChange. rewrite plain. unfold ProcDistributedAccountStateChange.
  destruct (plain_events plain) as (_ & Hout & Hoff & _).
  case_bool_decide as E; [subst ev; by eapply login_agrees|].
  case_bool_decide as E1; [subst ev|].
  { unfold LogoutOhosAccount. eapply leave_agrees; [done..|]. intros d st s' Hs'. apply announce_end_running; [by left|done]. }
  case_bool_decide as E2; [subst ev|].
  { unfold LogoffOhosAccount. eapply leave_agrees; [done..|]. intros d st s' Hs'. apply announce_end_running; [by right|done]. }
  case_bool_decide as E3; [subst ev; by eapply token_agrees|].
  apply wp_err. exists a. by rewrite insert_id.
Qed.

(** Requests to change the state of accounts, one after the other, whatever their results. *)
Definition state_changes (rs : list (Z * OhosAccountInfo * string)) (s : S) : S :=
  foldl (λ s r, let '(id, i, ev) := r in (OhosAccountStateChange id i ev s).2) s rs.

Lemma state_changes_agree st0 rs σ s :
  agrees st0 σ s → Forall (λ r, is_Some (σ !! r.1.1) ∧ asked r.1.1 r.1.2) rs →
  ∃ σ', agrees st0 σ' (state_changes rs s) ∧ ∀ id, is_Some (σ !! id) → is_Some (σ' !! id).
Proof.
  intros Hs Hrs. revert σ s Hs Hrs. induction rs as [|[[id i] ev] rs IH]; intros σ s Hs Hrs; [by exists σ|].
  apply Forall_cons in Hrs as [[[a Ha] Hi] Hrs]. cbn [fst snd] in *.
  destruct (state_change_agrees st0 σ id a i ev s Hs Ha Hi) as [a' Hs']. cbn [state_changes foldl].
  assert (Hdom : ∀ j, is_Some (σ !! j) → is_Some (<[id := a']> σ !! j)).
  { intros j Hj. destruct (decide (j = id)) as [->|]; [by rewrite lookup_insert_eq|by rewrite lookup_insert_ne]. }
  destruct (IH (<[id := a']> σ) _ Hs') as (σ' & Hσ' & Hd).
  - eapply Forall_impl; [exact Hrs|]. intros r [Hr1 Hr2]. split; [by apply Hdom|done].
  - exists σ'. split; [exact Hσ'|]. intros j Hj. by apply Hd, Hdom.
Qed.
End Requests.

(** *** The start *)

Lemma void_for {A} (l : list A) (f : A → M S unit) : (∀ x, is_void (f x)) → is_void (mfor l f).
Proof. intros Hf. induction l as [|x l IH]; cbn [mfor]; [apply void_return|]. by apply void_bind. Qed.

Lemma void_files {A} (f : M W A) : is_void f → is_void (files_ f).
Proof. intros Hf s. unfold files_, osAccounts_, call. specialize (Hf (world (accounts s))). by destruct (f (world (accounts s))). Qed.

(** A file that is a document, whatever becomes of the list of accounts. *)
Lemma void_rest : is_void
  (osAccountInfos ← mtry (osAccounts_ QueryAllCreatedOsAccounts);
   let osAccountInfos := match osAccountInfos with Ok infos => infos | Err _ => [] end in
   _ ← (if ENABLE_FILE_WATCHER
        then mfor osAccountInfos (λ info, files_ (AddFileWatcher (OsAccountInfo.localId_ info))) else mret tt);
   mmodify (λ s : S, {| s with initOk_ := true |})).
Proof.
  apply void_bind; [apply void_try|]. intros r. cbv zeta. apply void_bind; [|intros ?; apply void_modify].
  destruct ENABLE_FILE_WATCHER; [|apply void_return]. apply void_for. intros info. apply void_files, AddFileWatcher_void.
Qed.

Lemma round_spec id d s :
  0 ≤ id → starting (W := W) id → on_device d (disk s) →
  wp (Init id) (λ r s', r = Ok tt ∨ d !! config_file id ≠ None ∧ r = Err ERR_ACCOUNT_DATADEAL_JSON_FILE_CORRUPTION ∧
    on_device (delete (config_file id) d) (disk s')) s.
Proof.
  intros Hid Hst Hd. unfold Init. apply wp_bind, wp_files. eapply wp_conseq; [by apply wp_init|].
  intros r w [[->|[-> Hw]] Hnone].
  - left. pose proof (void_rest (set_disk w s)) as Hv. set (rest := (_ ≫= _)) in *.
    destruct (rest (set_disk w s)) as [[[]|e] s']; [done|done].
  - right. split_and!; [|done..]. intros E. by specialize (Hnone E).
Qed.

(** C20. The manager of distributed accounts starts whatever the file of the device holds: on
    a device that does not fail, with any text in the file or none, too large or no document,
    [OnInitialize] reports success, in at most its two rounds, and whatever the list of
    accounts answers; only a store that fails keeps it from starting. *)
Theorem start_recovers d s :
  on_device d (disk s) → starting (W := W) DEVICE_ACCOUNT_OWNER →
  ∃ s', OnInitialize s = (Ok true, s') ∧ isInit_ s' = true.
Proof.
  intros Hd Hst. unfold OnInitialize. rewrite run_get. destruct (isInit_ s) eqn:Ei; [by eexists|].
  assert (Hdone : (init_rounds INIT_RETRY_TIMES s).1 = Ok true).
  { cbn [INIT_RETRY_TIMES init_rounds]. rewrite run_try.
    pose proof (round_spec DEVICE_ACCOUNT_OWNER d s ltac:(done) Hst Hd) as H1. unfold wp in H1.
    destruct (Init DEVICE_ACCOUNT_OWNER s) as [r1 s1]. cbn [fst snd] in H1. destruct H1 as [->|(_ & -> & Hd1)]; [done|].
    cbn [Nat.eqb orb]. rewrite Z.eqb_refl. cbn [negb]. rewrite run_try.
    pose proof (round_spec DEVICE_ACCOUNT_OWNER _ s1 ltac:(done) Hst Hd1) as H2. unfold wp in H2.
    destruct (Init DEVICE_ACCOUNT_OWNER s1) as [r2 s2]. cbn [fst snd] in H2. destruct H2 as [->|(Hne & _)]; [done|].
    by rewrite lookup_delete_eq in Hne. }
  rewrite mbind_unfold. destruct (init_rounds INIT_RETRY_TIMES s) as [r s1]. cbn [fst] in Hdone. subst r.
  by eexists.
Qed.

(** An account whose token has expired cannot be logged out: its row of the table has no event
    for that. *)
Theorem expired_account_cannot_log_out st0 d st id i a s :
  ENABLE_MULTIPLE_OS_ACCOUNT_SUBSPACE = false →
  0 ≤ id → userId_ a = id → readable (W := W) a → stored id a d → running st0 d st s →
  status_ (ohosAccountInfo_ a) = ACCOUNT_STATE_TOKEN_EXPIRED →
  ∃ e s', OhosAccountStateChange id i OHOS_ACCOUNT_EVENT_LOGOUT s = (Err e, s') ∧ running st0 d st s'.
Proof.
  intros plain Hid Hu Ha Hd Hs Hexp.
  assert (H : wp (OhosAccountStateChange id i OHOS_ACCOUNT_EVENT_LOGOUT) (λ r s', (∃ e, r = Err e) ∧ running st0 d st s') s).
  { unfold OhosAccountStateChange. rewrite plain. unfold ProcDistributedAccountStateChange.
    rewrite bool_decide_false, bool_decide_true by done. unfold LogoutOhosAccount, leave, GetCurOhosAccountAndCheckMatch, or_else.
    apply wp_bind, wp_bind, wp_bind, wp_try, wp_bind. eapply wp_load; [done..|]. intros s1 Hs1.
    destruct (negb _); [apply wp_err, wp_err; split; [by eexists|done]|]. apply wp_ret, wp_ret.
    apply wp_bind. eapply wp_HandleEvent; [done|by apply plain_events|]. intros s2 Hs2.
    change (status_ (ohosAccountInfo_ (account_read a))) with (status_ (ohosAccountInfo_ a)). rewrite Hexp.
    assert (Hrow : next_state AccountStateMachine.OnInitialize ACCOUNT_STATE_TOKEN_EXPIRED ACCOUNT_MANUAL_UNBOUND_EVT = None).
    { clear -plain. destruct cfg as [? b ? ?]. cbn in plain. subst b. by vm_compute. }
    rewrite Hrow. apply wp_err. split; [by eexists|done]. }
  unfold wp in H. destruct (OhosAccountStateChange id i OHOS_ACCOUNT_EVENT_LOGOUT s) as [r s'].
  cbn [fst snd] in H. destruct H as [[e ->] Hr]. by exists e, s'.
Qed.

(** C7. Whoever follows the events of an account knows its status: in a build without
    subspaces, on a device that does not fail, after any logins, logouts, logoffs and invalid
    tokens of any accounts with any ids, refused ones included, the status that is loaded for
    an account is the one that the events about it tell, from the status it had at first. *)
Theorem events_tell_the_status P asked rs d (σ : gmap Z AccountInfo) s id a :
  ENABLE_MULTIPLE_OS_ACCOUNT_SUBSPACE = false →
  stays_storable P asked →
  on_device d (disk s) → initOk_ s = true → accountState_ s = new_AccountStateMachine → announced s = [] →
  (∀ id a, σ !! id = Some a → P id a ∧ stored id a d ∧ proper a) →
  Forall (λ r, is_Some (σ !! r.1.1) ∧ asked r.1.1 r.1.2) rs →
  σ !! id = Some a →
  ∃ a', (AccountInfoFromJson id (state_changes rs s)).1 = Ok a' ∧
    status_ (ohosAccountInfo_ a') = told id (status_ (ohosAccountInfo_ a)) (announced (state_changes rs s)).
Proof.
  intros plain HP Hd Hi Hm Hl Hσ Hrs Ha.
  set (st0 := λ i, from_option (λ a, status_ (ohosAccountInfo_ a)) 0 (σ !! i)).
  assert (Hs : agrees P st0 σ s).
  { exists d, st0. split.
    - split_and!; [done..|by rewrite Hm|]. intros i. by rewrite Hl.
    - intros i b Hb. destruct (Hσ i b Hb) as (?&?&?). split_and!; [done..|]. unfold st0. by rewrite Hb. }
  destruct (state_changes_agree P asked HP plain st0 rs σ s Hs Hrs) as (σ' & (d' & st & Hr & Hσ') & Hdom).
  destruct (Hdom id ltac:(by eexists)) as [b Hb]. destruct (Hσ' id b Hb) as (HPb & Hst & Hpr & Hz).
  destruct (storable_ok _ _ HP id b HPb) as (Hid & Hu & Hread). exists (account_read b). split.
  - by eapply (wp_load st0 id b d' st (λ r _, r = Ok (account_read b))).
  - change (status_ (ohosAccountInfo_ (account_read b))) with (status_ (ohosAccountInfo_ b)). rewrite Hz.
    destruct Hr as (_ & _ & _ & Ht). rewrite <-Ht. unfold st0. by rewrite Ha.
Qed.
End Bindings.
