(* ===== verification/OhosAccountQueries.v ===== *)
(** What the queries of distributed accounts tell an ordinary application, and which numbers
    new subspaces get. *)
From Stdlib Require Import ZArith Lia Ascii String.
From stdpp Require Import base list gmap sets strings pretty sorting.
From S2P Require Import Prelude ErrorCodes Json FileStore AppIndex AccountStateMachine OsAccountInfo OsAccountEnv OsAccountServices OsAccountInterface OsAccountManager OsAccountCreation OsAccountQueries OsAccountSubscribe DistributedSubscribe AccountPermission OhosAccountInfo OhosAccountFiles OhosAccountState OsAccountSubProfiles OhosAccountManager OhosAccountService.
Import Ohos.

(** ** The first character of a name *)

Lemma substring_length_le n s : (String.length (String.substring 0 n s) ≤ n)%nat.
Proof. revert n. induction s as [|a s IH]; intros [|n]; cbn; try lia. specialize (IH n). lia. Qed.

(** At most four bytes of a name are shown. *)
Lemma first_char_length s : (String.length (ExtractFirstUtf8Char s) ≤ 4)%nat.
Proof.
  unfold ExtractFirstUtf8Char. destruct s as [|c s]; [cbn; lia|]. cbv zeta.
  repeat match goal with |- context [if ?b then _ else _] => destruct b end; cbn [String.length]; try lia;
    etransitivity; try apply substring_length_le; lia.
Qed.

Section Anonymity.
Context {W : Type} {sw : OsSwitches} {front : FrontSwitches} {cfg : Config} {os_cfg : OsConfig} {sysconf : Sysconf}.
Context {cjson : CJsonLib} {target : Target} {fs : FileStore W} {streams : StreamStore W}.
Context {huks : Huks} {env : Surroundings W} {platform : Platform W} {haps : HapTokens} {ipc : Ipc}.
Context {tee : TeeAdapter W} {parts : AccountParts W} {control : OsAccountControl W} {services : SubProfileServices W} {ces : CommonEvents W}.
Local Abbreviation S := (OhosManager W).

(** The caller is an application [bundle] that is no system application. *)
Definition ordinary (bundle : string) : Prop := GetCallerBundleName = (bundle, false) ∧ string_empty bundle = false.

(** Somebody is logged in, with an id and a name, in a document of a version after the
    default one. *)
Definition protected (a : AccountInfo) : Prop :=
  let o := ohosAccountInfo_ a in
  version_ a ≠ ACCOUNT_VERSION_DEFAULT ∧ rawUid_ o ≠ DEFAULT_OHOS_ACCOUNT_UID ∧
  uid_ o ≠ DEFAULT_OHOS_ACCOUNT_UID ∧ string_empty (uid_ o) = false ∧
  name_ o ≠ DEFAULT_OHOS_ACCOUNT_NAME ∧ string_empty (name_ o) = false.

(** Two accounts that an application [bundle] may not tell apart: it may know the status, who
    logged in, the id made for it, the first characters of the names, and whether there is a
    nickname and an avatar; not the id, the rest of the names, the avatar, or the data. *)
Record alike (bundle : string) (o o' : OhosAccountInfo) : Prop := {
  alike_status : status_ o = status_ o';
  alike_caller : callingUid_ o = callingUid_ o';
  alike_id : GenerateDVID (W := W) bundle (rawUid_ o) = GenerateDVID (W := W) bundle (rawUid_ o');
  alike_name : ExtractFirstUtf8Char (name_ o) = ExtractFirstUtf8Char (name_ o');
  alike_nickname : ExtractFirstUtf8Char (nickname_ o) = ExtractFirstUtf8Char (nickname_ o');
  alike_no_nickname : string_empty (nickname_ o) = string_empty (nickname_ o');
  alike_no_avatar : string_empty (avatar_ o) = string_empty (avatar_ o');
}.

(** What is shown of a protected account. *)
Lemma shown_protected bundle o :
  uid_ o ≠ DEFAULT_OHOS_ACCOUNT_UID → string_empty (uid_ o) = false →
  name_ o ≠ DEFAULT_OHOS_ACCOUNT_NAME → string_empty (name_ o) = false →
  AnonymizeOhosAccountInfo (W := W) o bundle =
  {| uid_ := GenerateDVID (W := W) bundle (rawUid_ o); name_ := ExtractFirstUtf8Char (name_ o) +:+ DEFAULT_ANON_STR;
     nickname_ := if negb (string_empty (nickname_ o)) then ExtractFirstUtf8Char (nickname_ o) +:+ DEFAULT_ANON_STR else nickname_ o;
     avatar_ := if negb (string_empty (avatar_ o)) then DEFAULT_ANON_STR else avatar_ o;
     scalableData_ := ""; status_ := status_ o; callingUid_ := callingUid_ o; rawUid_ := rawUid_ o |}.
Proof.
  intros Hu Hue Hn Hne. unfold AnonymizeOhosAccountInfo.
  rewrite (bool_decide_false (uid_ o = _)), Hue, (bool_decide_false (name_ o = _)), Hne by done. done.
Qed.

Lemma shown_alike bundle o o' :
  alike bundle o o' → uid_ o ≠ DEFAULT_OHOS_ACCOUNT_UID → string_empty (uid_ o) = false →
  name_ o ≠ DEFAULT_OHOS_ACCOUNT_NAME → string_empty (name_ o) = false →
  uid_ o' ≠ DEFAULT_OHOS_ACCOUNT_UID → string_empty (uid_ o') = false →
  name_ o' ≠ DEFAULT_OHOS_ACCOUNT_NAME → string_empty (name_ o') = false →
  without_raw_uid (AnonymizeOhosAccountInfo (W := W) o bundle) = without_raw_uid (AnonymizeOhosAccountInfo (W := W) o' bundle).
Proof.
  intros [Hst Hc Hi Hn Hnn Hne Ha] ????????. rewrite !shown_protected by done. unfold without_raw_uid. cbn.
  rewrite Hi, Hn, Hnn, Hst, Hc. f_equal.
  - rewrite Hne. destruct (string_empty (nickname_ o')) eqn:E; [|done]. cbn.
    rewrite (proj1 (string_empty_true _) E). apply string_empty_true; by rewrite Hne.
  - rewrite Ha. destruct (string_empty (avatar_ o')) eqn:E; [|done]. cbn.
    rewrite (proj1 (string_empty_true _) E). apply string_empty_true; by rewrite Ha.
Qed.

Lemma distributed_info bundle id a s s1 :
  ordinary bundle → protected a → GetAccountInfoByUserId id s = (Ok a, s1) →
  GetOhosAccountDistributedInfo id s = (Ok (AnonymizeOhosAccountInfo (W := W) (ohosAccountInfo_ a) bundle), s1).
Proof.
  intros [Hb Hne] (Hv & Hr & _) E. unfold GetOhosAccountDistributedInfo. rewrite mbind_unfold, E. cbv zeta.
  rewrite bool_decide_false by done. apply Z.eqb_neq in Hv as ->. cbn [orb]. by rewrite Hb, Hne.
Qed.

(** An ordinary application is none of the system's. *)
Lemma ordinary_not_system bundle : ordinary bundle → CheckSystemApp true = ERR_ACCOUNT_COMMON_NOT_SYSTEM_APP_ERROR.
Proof.
  unfold ordinary, GetCallerBundleName, CheckSystemApp. intros [H Hne]. case_bool_decide.
  - destruct (GetHapTokenInfo _); injection H as _ ->; done.
  - by injection H as <- _.
Qed.

Lemma system_app_refuses bundle {A} (k : unit → M S A) s :
  ordinary bundle → (system_app ≫= k) s = (Err ERR_ACCOUNT_COMMON_NOT_SYSTEM_APP_ERROR, s).
Proof. intros Hb. unfold system_app. by rewrite (ordinary_not_system _ Hb). Qed.

Lemma calling_user s : 0 < Z.quot GetCallingUid UID_TRANSFORM_DIVISOR →
  GetCallingUserID s = (Ok (Z.quot GetCallingUid UID_TRANSFORM_DIVISOR), s : S).
Proof. intros Hu. unfold GetCallingUserID. cbv zeta. by destruct (Z.leb_spec (Z.quot GetCallingUid UID_TRANSFORM_DIVISOR) 0); [lia|]. Qed.

(** The queries behind the checks of the front end. *)
Lemma inner_info bundle id a s s1 :
  ordinary bundle → protected a → 0 < id → GetAccountInfoByUserId id s = (Ok a, s1) →
  GetOsAccountDistributedInfoInner id s = (Ok (AnonymizeOhosAccountInfo (W := W) (ohosAccountInfo_ a) bundle), s1).
Proof.
  intros Hb Ha Hid E. unfold GetOsAccountDistributedInfoInner. destruct (Z.ltb_spec id 0); [lia|]. by apply distributed_info.
Qed.

Lemma inner_query bundle id a s s1 :
  ordinary bundle → protected a → 0 < id → GetAccountInfoByUserId id s = (Ok a, s1) →
  InnerQueryOsAccountDistributedInfo id s =
    let o := without_raw_uid (AnonymizeOhosAccountInfo (W := W) (ohosAccountInfo_ a) bundle) in (Ok (name_ o, uid_ o, status_ o), s1).
Proof.
  intros Hb Ha Hid E. unfold InnerQueryOsAccountDistributedInfo. by rewrite mbind_unfold, (inner_info bundle id a s s1).
Qed.

(** What is shown has neither the id nor the data, and little of the names. *)
Lemma shown_little bundle a :
  protected a →
  let o := without_raw_uid (AnonymizeOhosAccountInfo (W := W) (ohosAccountInfo_ a) bundle) in
  rawUid_ o = "" ∧ scalableData_ o = "" ∧ (String.length (name_ o) ≤ 14)%nat ∧ (String.length (nickname_ o) ≤ 14)%nat.
Proof.
  intros (_ & _ & ? & ? & ? & ?). cbv zeta. rewrite shown_protected by done.
  cbn -[String.length String.append]. split_and!; [done|done| |].
  - rewrite length_string_app. pose proof (first_char_length (name_ (ohosAccountInfo_ a))). cbn [String.length DEFAULT_ANON_STR]. lia.
  - destruct (string_empty (nickname_ (ohosAccountInfo_ a))) eqn:E; cbn [negb].
    + rewrite (proj1 (string_empty_true _) E). cbn. lia.
    + rewrite length_string_app. pose proof (first_char_length (nickname_ (ohosAccountInfo_ a))). cbn [String.length DEFAULT_ANON_STR]. lia.
Qed.

Lemma protected_alike bundle a a' :
  protected a → protected a' → alike bundle (ohosAccountInfo_ a) (ohosAccountInfo_ a') →
  without_raw_uid (AnonymizeOhosAccountInfo (W := W) (ohosAccountInfo_ a) bundle) =
  without_raw_uid (AnonymizeOhosAccountInfo (W := W) (ohosAccountInfo_ a') bundle).
Proof. intros (_ & _ & ? & ? & ? & ?) (_ & _ & ? & ? & ? & ?) ?. by apply shown_alike. Qed.

(** C12. What an ordinary application learns of the account that is logged in for its user,
    once the document of the account is of a version after the default one, the account has
    an id and a name, and neither is the one of nobody ([protected]; a document of the
    default version is given out as it is).  It is at most: the status; the uid of the
    process that logged in; an id made for this application; the first character of the name
    and of the nickname; whether there is a nickname; and whether there is an avatar.  If one
    manager has an account and another manager one that is alike in these, all queries of the
    front end give the application the same answers.  The id the account has and its data
    are in no answer, and names are at most fourteen bytes.  Requests for the whole account of any user
    and for the id that is made for another application are refused. *)
Theorem ordinary_apps_learn_no_more bundle s t a a' s1 t1 :
  let id := Z.quot GetCallingUid UID_TRANSFORM_DIVISOR in
  ordinary bundle → 0 < id →
  GetAccountInfoByUserId id s = (Ok a, s1) → GetAccountInfoByUserId id t = (Ok a', t1) →
  protected a → protected a' → alike bundle (ohosAccountInfo_ a) (ohosAccountInfo_ a') →
  (GetOhosAccountInfo s).1 = (GetOhosAccountInfo t).1 ∧
  (QueryOhosAccountInfo s).1 = (QueryOhosAccountInfo t).1 ∧
  (QueryOsAccountDistributedInfo id s).1 = (QueryOsAccountDistributedInfo id t).1 ∧
  (∀ dvid, (OhosAccountService.QueryDistributedVirtualDeviceId_caller dvid s).1 =
           (OhosAccountService.QueryDistributedVirtualDeviceId_caller dvid t).1) ∧
  (∀ o, (GetOhosAccountInfo s).1 = Ok o →
     rawUid_ o = "" ∧ scalableData_ o = "" ∧ (String.length (name_ o) ≤ 14)%nat ∧ (String.length (nickname_ o) ≤ 14)%nat) ∧
  (∀ localId, GetOsAccountDistributedInfo localId s = (Err ERR_ACCOUNT_COMMON_NOT_SYSTEM_APP_ERROR, s)) ∧
  (∀ name localId, OhosAccountService.QueryDistributedVirtualDeviceId name localId s =
     (Err ERR_ACCOUNT_COMMON_NOT_SYSTEM_APP_ERROR, s)).
Proof.
  intros id Hb Hid Hs Ht Ha Ha' Hal. pose proof (protected_alike bundle a a' Ha Ha' Hal) as Hshow.
  pose proof (inner_info bundle id a s s1 Hb Ha Hid Hs) as Is. pose proof (inner_info bundle id a' t t1 Hb Ha' Hid Ht) as It.
  pose proof (inner_query bundle id a s s1 Hb Ha Hid Hs) as Qs. pose proof (inner_query bundle id a' t t1 Hb Ha' Hid Ht) as Qt.
  split_and!.
  - unfold GetOhosAccountInfo, permitted. destruct (_ || _); [|done]. rewrite !run_ret, !mbind_unfold, !calling_user, !mbind_unfold by done.
    fold id. rewrite Is, It. cbn [fst]. by rewrite Hshow.
  - unfold QueryOhosAccountInfo, permitted. destruct (_ || _); [|done]. rewrite !run_ret, !mbind_unfold, !calling_user by done.
    fold id. rewrite Qs, Qt. cbv zeta. by rewrite Hshow.
  - unfold QueryOsAccountDistributedInfo, permitted. destruct (Z.ltb_spec id 0); [lia|].
    destruct (_ && _ && _); [|rewrite !run_ret, Qs, Qt; cbv zeta; by rewrite Hshow].
    destruct (HasAccountRequestPermission PERMISSION_DISTRIBUTED_DATASYNC); [|done]. cbv zeta.
    destruct (negb (negb _ && _)); [|done]. rewrite !mbind_unfold. cbn.
    rewrite Qs, Qt. cbv zeta. by rewrite Hshow.
  - intros dvid. unfold OhosAccountService.QueryDistributedVirtualDeviceId_caller, permitted. destruct (_ || _); [|done].
    rewrite !run_ret. unfold OhosAccountManager.QueryDistributedVirtualDeviceId_caller.
    rewrite !mbind_unfold, !calling_user, !mbind_unfold by done. fold id. rewrite Hs, Ht. cbv zeta.
    destruct Ha as (_ & _ & ? & _), Ha' as (_ & _ & ? & _). rewrite !bool_decide_false by done. cbn.
    destruct Hb as [-> _]. cbn [fst]. by rewrite (alike_id _ _ _ Hal).
  - intros o. unfold GetOhosAccountInfo, permitted. destruct (_ || _); [|done]. rewrite !run_ret, !mbind_unfold, !calling_user, !mbind_unfold by done.
    fold id. rewrite Is. cbn [fst mret M_ret]. intros [= <-]. by apply shown_little.
  - intros localId. by eapply system_app_refuses.
  - intros name localId. by eapply system_app_refuses.
Qed.
End Anonymity.

(** ** Numbers of subspaces *)

(** The number [k] places after [c], around from [hi] to [lo]. *)
Definition cyclic (lo hi c : Z) (k : nat) : Z := lo + ((c - lo + Z.of_nat k) `mod` (hi - lo + 1)).

Lemma cyclic_0 lo hi c : lo ≤ c ≤ hi → cyclic lo hi c 0 = c.
Proof. intros Hc. unfold cyclic. rewrite Z.add_0_r, Z.mod_small by lia. lia. Qed.

Lemma cyclic_next lo hi c k : lo ≤ c ≤ hi →
  cyclic lo hi (if hi <? c + 1 then lo else c + 1) k = cyclic lo hi c (S k).
Proof.
  intros Hc. unfold cyclic. f_equal. destruct (Z.ltb_spec hi (c + 1)).
  - replace c with hi by lia. replace (lo - lo + Z.of_nat k) with (Z.of_nat k) by lia.
    replace (hi - lo + Z.of_nat (S k)) with (Z.of_nat k + 1 * (hi - lo + 1)) by lia. by rewrite Z.mod_add by lia.
  - f_equal. lia.
Qed.

Lemma cyclic_range lo hi c k : lo ≤ hi → lo ≤ cyclic lo hi c k ≤ hi.
Proof. intros Hh. unfold cyclic. pose proof (Z.mod_pos_bound (c - lo + Z.of_nat k) (hi - lo + 1)). lia. Qed.

(** All numbers are met in as many steps as there are. *)
Lemma cyclic_onto lo hi c x : lo ≤ c ≤ hi → lo ≤ x ≤ hi → ∃ k, (k < Z.to_nat (hi - lo + 1))%nat ∧ cyclic lo hi c k = x.
Proof.
  intros Hc Hx. exists (Z.to_nat (((x - c) `mod` (hi - lo + 1)))).
  pose proof (Z.mod_pos_bound (x - c) (hi - lo + 1)) as Hb. split; [lia|].
  unfold cyclic. rewrite Z2Nat.id by lia. rewrite Z.add_mod_idemp_r by lia.
  replace (c - lo + (x - c)) with (x - lo) by lia. rewrite Z.mod_small by lia. lia.
Qed.

Lemma first_free_spec lo hi used n c :
  lo ≤ c ≤ hi →
  match first_free lo hi used n c with
  | Some x => ∃ k, (k < n)%nat ∧ x = cyclic lo hi c k ∧ used x = false ∧ ∀ j, (j < k)%nat → used (cyclic lo hi c j) = true
  | None => ∀ j, (j < n)%nat → used (cyclic lo hi c j) = true
  end.
Proof.
  revert c. induction n as [|n IH]; intros c Hc; cbn [first_free]; [lia|].
  destruct (used c) eqn:E; cbn [negb].
  - cbv zeta. specialize (IH (if hi <? c + 1 then lo else c + 1) ltac:(destruct (Z.ltb_spec hi (c + 1)); lia)).
    destruct (first_free _ _ _ _ _) as [x|].
    + destruct IH as (k & Hk & -> & Hx & Hj). exists (S k). rewrite cyclic_next by done.
      split_and!; [lia|done|by rewrite <-cyclic_next|]. intros [|j] Hlt; [by rewrite cyclic_0|].
      rewrite <-cyclic_next by done. apply Hj. lia.
    + intros [|j] Hlt; [by rewrite cyclic_0|]. rewrite <-cyclic_next by done. apply IH. lia.
  - exists 0%nat. rewrite cyclic_0 by done. split_and!; [lia|done|done|lia].
Qed.

Lemma first_free_whole lo hi used c :
  lo ≤ c ≤ hi →
  match first_free lo hi used (Z.to_nat (hi - lo + 1)) c with
  | Some x => lo ≤ x ≤ hi ∧ used x = false ∧
      ∃ k, x = cyclic lo hi c k ∧ ∀ j, (j < k)%nat → used (cyclic lo hi c j) = true
  | None => ∀ x, lo ≤ x ≤ hi → used x = true
  end.
Proof.
  intros Hc. pose proof (first_free_spec lo hi used (Z.to_nat (hi - lo + 1)) c Hc) as H.
  destruct (first_free _ _ _ _ _) as [x|].
  - destruct H as (k & Hk & -> & Hx & Hj). split_and!; [by apply cyclic_range; lia..|done|]. by exists k.
  - intros x Hx. destruct (cyclic_onto lo hi c x Hc Hx) as (k & Hk & <-). by apply H.
Qed.

Section Numbers.
Context {W : Type} {platform : Platform W}.

(** Where a search starts: at the number that is next, if it is in the range. *)
Definition start_at (lo hi next : Z) : Z := if (next <? lo) || (hi <? next) then lo else next.

Lemma start_range lo hi next : lo ≤ hi → lo ≤ start_at lo hi next ≤ hi.
Proof. intros Hh. unfold start_at. destruct (Z.ltb_spec next lo), (Z.ltb_spec hi next); cbn [orb]; lia. Qed.

Lemma clone_limit : 1 ≤ MAX_OS_ACCOUNT_SUB_PROFILE_COUNT (W := W) ≤ 999.
Proof.
  unfold MAX_OS_ACCOUNT_SUB_PROFILE_COUNT. destruct (Z.leb_spec 1 (appCloneMaxCount (S := W))), (Z.leb_spec (appCloneMaxCount (S := W)) 999);
    cbn [andb]; lia.
Qed.

(** C38. The search for the number and for the index of a new subspace ends: each finds the
    first free one from the next one on (from the first of the range, when the next one is
    not in the range), around the range, and reports the limit exactly when none
    is free. Numbers are those between 1 and 999 above a thousand times the account, for
    accounts whose numbers fit into an [int], and indices those from 1 to the limit of the
    device; a number is never the base, an index never 0. *)
Theorem free_numbers_are_found id next ids nextIndex (m : gmap Z Z) :
  0 ≤ id ≤ 2147482 →
  let lo := id * 1000 + 1 in let hi := id * 1000 + 999 in
  let limit := MAX_OS_ACCOUNT_SUB_PROFILE_COUNT (W := W) in
  match AllocateOsAccountSubProfileId id next ids with
  | Ok n => lo ≤ n ≤ hi ∧ (n ∉ ids) ∧
      ∃ k, n = cyclic lo hi (start_at lo hi next) k ∧ ∀ j, (j < k)%nat → cyclic lo hi (start_at lo hi next) j ∈ ids
  | Err e => e = ERR_OS_ACCOUNT_SUBPROFILE_LIMIT ∧ ∀ n, lo ≤ n ≤ hi → n ∈ ids
  end ∧
  match AllocateSubProfileIndex (W := W) nextIndex m with
  | Ok i => 1 ≤ i ≤ limit ∧ m !! i = None ∧
      ∃ k, i = cyclic 1 limit (start_at 1 limit nextIndex) k ∧
        ∀ j, (j < k)%nat → is_Some (m !! cyclic 1 limit (start_at 1 limit nextIndex) j)
  | Err e => e = ERR_OS_ACCOUNT_SUBPROFILE_LIMIT ∧
      ∀ i, 1 ≤ i ≤ limit → is_Some (m !! i)
  end.
Proof.
  intros Hid lo hi limit. split.
  - unfold AllocateOsAccountSubProfileId, OS_ACCOUNT_SUBSPACE_ID_MULTIPLIER, OS_ACCOUNT_SUB_PROFILE_ID_MIN, OS_ACCOUNT_SUB_PROFILE_ID_MAX. cbv zeta.
    rewrite (i32_id (id * 1000)), (i32_id (id * 1000 + 1)), (i32_id (id * 1000 + 999)) by (unfold is_i32; lia).
    fold lo hi. fold (start_at lo hi next). replace (999 - 1 + 1) with (hi - lo + 1) by (unfold hi, lo; lia).
    pose proof (first_free_whole lo hi (λ n, bool_decide (n ∈ ids)) (start_at lo hi next) ltac:(apply start_range; lia)) as H.
    destruct (first_free _ _ _ _ _) as [n|].
    + destruct H as (Hr & Hn & k & Hk & Hj). split_and!; [lia..|by apply bool_decide_eq_false in Hn|]. exists k. split; [done|].
      intros j Hlt. specialize (Hj j Hlt). by apply bool_decide_eq_true in Hj.
    + split; [done|]. intros n Hn. specialize (H n Hn). by apply bool_decide_eq_true in H.
  - unfold AllocateSubProfileIndex, HEADLESS_SUBPROFILE_INDEX. cbv zeta. pose proof clone_limit as Hl. change (0 + 1) with 1.
    fold (start_at 1 (MAX_OS_ACCOUNT_SUB_PROFILE_COUNT (W := W)) nextIndex).
    set (used := λ candidate, bool_decide (is_Some (m !! candidate))).
    pose proof (first_free_whole 1 (MAX_OS_ACCOUNT_SUB_PROFILE_COUNT (W := W)) used _ (start_range _ _ nextIndex (proj1 Hl))) as H.
    destruct (first_free _ _ _ _ _) as [i|].
    + destruct H as (Hr & Hi & k & Hk & Hj). unfold used in Hi. apply bool_decide_eq_false in Hi.
      split; [exact Hr|]. split; [by apply eq_None_not_Some|]. exists k. split; [exact Hk|].
      intros j Hlt. specialize (Hj j Hlt). by apply bool_decide_eq_true in Hj.
    + split; [done|]. intros i Hi. specialize (H i Hi). by apply bool_decide_eq_true in H.
Qed.
End Numbers.
