(* ===== verification/OhosAccountStreams.v ===== *)
(** The rest of the file operations for distributed accounts: account_file_operator.cpp
    discharges [StreamStore] on any device, and on the device in memory the calls do not
    fail.  A stream of the standard library is opened, and read to its end. *)
From Stdlib Require Import ZArith Lia Ascii String.
From stdpp Require Import base list gmap sets strings pretty.
From S2P Require Import Prelude ErrorCodes Json FileStore FileOperator FileTheorems OhosAccountFiles.

Section Streams.
Context {cfg : OsConfig} {cjson : CJsonLib} {posix : Posix} {posixlaws : PosixLaws}.

(** [std::ifstream fin(path)] and [std::getline]s or [istreambuf_iterator]s to the end. *)
Definition read_stream (p : string) : M FileWorld (option string) :=
  fp ← on_os (fopen_read p);
  match fp with
  | inl _ => mret None
  | inr _ => n ← on_os (ftell_end p); t ← on_os (fread p n); mret (Some t)
  end.

Lemma size_limit_keeps p n : keeps_files (FileOperator.IsFileSizeExceedsLimit p n).
Proof.
  unfold FileOperator.IsFileSizeExceedsLimit. destruct (string_empty p); [intros c l; apply preserves_ret|].
  intros c l. apply preserves_bind; [|intros ?; apply preserves_ret]. apply on_os_keeps, stat_size_keeps.
Qed.
Lemma size_limit_total p n w : is_Ok (FileOperator.IsFileSizeExceedsLimit p n w).1 = true.
Proof.
  unfold FileOperator.IsFileSizeExceedsLimit. destruct (string_empty p); [done|]. rewrite mbind_unfold. unfold on_os.
  by destruct (stat_size p (os w)).
Qed.

Lemma read_stream_keeps p : keeps_files (read_stream p).
Proof.
  intros c l. unfold read_stream. apply preserves_bind; [apply on_os_keeps, open_read_keeps|].
  intros [e|[]]; [apply preserves_ret|]. apply preserves_bind; [apply on_os_keeps, size_keeps|]. intros n.
  apply preserves_bind; [apply on_os_keeps; intros; apply FileOperator.read_keeps|]. intros t. apply preserves_ret.
Qed.
Lemma read_stream_sound p w : wp (read_stream p) (λ r _, is_Ok r = true ∧ ∀ t, r = Ok (Some t) → is_Some (contents (os w) !! p)) w.
Proof.
  unfold read_stream. apply wp_bind, wp_on_os. intros [e|[]] s E; [by apply wp_ret|].
  pose proof (open_read_ok _ _ _ E) as Hp. apply wp_bind, wp_on_os. intros n s' _. apply wp_bind, wp_on_os. intros t s'' _.
  by apply wp_ret.
Qed.

Lemma DeleteDir_texts d w : world_idle w → wp (FileOperator.DeleteDir d) (λ r w', world_idle w' ∧
  ∀ q, (below d q → r = Ok tt → world_texts w' !! q = None) ∧
       (world_texts w' !! q = world_texts w !! q ∨ below d q ∧ world_texts w' !! q = None)) w.
Proof.
  intros Hw. unfold FileOperator.DeleteDir. apply wp_bind, wp_on_os. intros b s E. pose proof (remove_dir_effect _ _ _ _ E) as Hs.
  assert (Hend : ∀ (r : result unit) w', (r = Ok tt → b = true) → os w' = s → ∀ q,
    (below d q → r = Ok tt → world_texts w' !! q = None) ∧
    (world_texts w' !! q = world_texts w !! q ∨ below d q ∧ world_texts w' !! q = None)).
  { intros r w' Hr Ho q. unfold world_texts. rewrite Ho. destruct (Hs q) as [Hd Hq]. split.
    - intros Hb Hok. apply map_lookup_filter_None. left. auto.
    - destruct Hq as [Hq|[Hb Hq]]; [left; by apply filter_lookup_same|right].
      split; [done|]. apply map_lookup_filter_None. by left. }
  destruct b; cbn [negb].
  - apply wp_delete_flag. intros w' Ho Hl. cbn in Ho, Hl. split; [unfold world_idle in *; congruence|by apply Hend].
  - apply wp_err. split; [done|by apply Hend].
Qed.

#[export] Instance FileWorld_streams : StreamStore FileWorld.
Proof.
  refine {| IsFileSizeExceedsLimit := FileOperator.IsFileSizeExceedsLimit;
    RemoveFile := λ p, on_os (FileOperator.RemoveFile p); ifstream := read_stream;
    CreateDir := λ p, FileOperator.CreateDir p DIR_MODE; DeleteDir := FileOperator.DeleteDir |}.
  - intros p n w Hw Hp. apply wp_store_keeps; [apply size_limit_keeps|done|apply size_limit_total].
  - intros p w Hw Hp. apply wp_on_os. intros b s E. pose proof (remove_effect _ _ _ _ E) as Hs. split; [done|]. exists b.
    split; [done|]. cbn. unfold world_texts. cbn. rewrite Hs. destruct b; [apply map_filter_delete|done].
  - intros p w Hw Hp. apply wp_store_keeps; [apply read_stream_keeps|done|].
    pose proof (read_stream_sound p w) as [Ho Ht]. split; [done|]. intros t E. cbn. rewrite world_texts_lookup by done. by eapply Ht.
  - intros d w Hw. eapply wp_conseq; [apply (wp_store_keeps _ (λ _, True)); [apply CreateDir_keeps|done|done]|].
    by intros r w' (? & ? & _).
  - intros d w Hw. by apply DeleteDir_texts.
Defined.
End Streams.

(** On the device in memory no call fails. *)
Section InMemory.
Context {cfg : OsConfig} {cjson : CJsonLib}.
#[local] Existing Instances RamDisk.ram RamDisk.laws RamDisk.reliable.

(** Everything about the device in memory but its answers is immediate. *)
#[export] Instance ram_streams : ReliableStreams FileWorld.
Proof.
  split.
  - intros p w Hi _ Hp Hne [t Ht]. split; [exact I|]. change (texts w) with (world_texts w) in Ht.
    rewrite world_texts_lookup in Ht by done. cbn in Ht. cbn. unfold CheckFileExistence. rewrite Hne. cbn.
    rewrite !mbind_unfold. unfold on_os. cbn. by rewrite Ht.
  - intros p c w Hi _ Hp Hc. cbn -[InputFileByPathAndContentWithTransaction]. unfold InputFileByPathAndContentWithTransaction.
    apply wp_bind. eapply wp_conseq; [apply IsDataStorageSufficient_ok; [cbn in Hc; lia|exact I]|].
    intros r w' [_ ->]. cbn [negb]. exact (WriteFileWithTransaction_ok p c FILE_MODE w' I).
  - intros p n w t Hi _ Hp Hne Ht. change (texts w) with (world_texts w) in Ht.
    rewrite world_texts_lookup in Ht by done. split; [exact I|]. cbn. unfold FileOperator.IsFileSizeExceedsLimit. rewrite Hne, !mbind_unfold. unfold on_os. cbn.
    cbn in Ht. by rewrite Ht.
  - intros p w Hi _ Hp _. split; [exact I|done].
  - intros p w Hi _ Hp Ht. split; [exact I|]. change (texts w) with (world_texts w) in *.
    rewrite world_texts_lookup in * by done. cbn in *.
    destruct Ht as [t Ht]. unfold read_stream, on_os. rewrite mbind_unfold. cbn. rewrite Ht. rewrite mbind_unfold. cbn. rewrite mbind_unfold. cbn.
    rewrite Ht. cbn. rewrite Nat2Z.id. do 2 f_equal. apply RamDisk.substring_whole.
  - intros p w _ _ _. exact I.
  - intros p c w _ _ _. exact I.
Defined.
End InMemory.
