(* ===== verification/OhosAccountWorld.v ===== *)
(** The theorems about distributed accounts at work, on the concrete service of the manager
    of operating system accounts with the device in memory below it. *)
From Stdlib Require Import ZArith Lia Ascii String.
From stdpp Require Import base list gmap sets strings pretty sorting relations.
From S2P Require Import Prelude ErrorCodes Json FileStore AppIndex AccountStateMachine OsAccountInfo OsAccountEnv OsAccountDocs OsAccountServices OsAccountInterface OsAccountManager OsAccountLifecycleWorld FileOperator FileTheorems OsAccountWorld OsAccountSubscribe DistributedSubscribe AccountPermission OhosAccountInfo OhosAccountFiles OhosAccountStorage OhosAccountState OsAccountSubProfiles OhosAccountManager OhosAccountService OhosAccountAnnouncements OhosAccountBindings OhosAccountQueries OhosAccountStreams.
Import Concrete Services Ohos.

Module Distributed.
#[export] Existing Instance ram_streams.

(** The device is of 2023 for ever, and its hashes are bytes of the text. *)
Definition NOW : Z := 1700000000.
Definition bytes_of (t : string) : list Z :=
  take 32 ((λ c, Z.of_nat (nat_of_ascii c)) <$> String.list_ascii_of_string t) ++
  replicate (32 - length (String.list_ascii_of_string t)) 0.

#[export] Instance platform : Platform W := {|
  std_time := λ w, (NOW, w); system_clock_ms := λ w, (NOW * 1000, w);
  SHA256 := λ t, Some (bytes_of t); PBKDF2_HMAC := λ uid bundle, Some (bytes_of (bundle +:+ String.substring 0 1 uid));
  appCloneMaxCount := 2 |}.

Lemma bytes_of_ok t bs : Some (bytes_of t) = Some bs → length bs = 32%nat ∧ Forall (λ b, 0 ≤ b < 256) bs.
Proof.
  intros [= <-]. unfold bytes_of. split.
  - rewrite length_app, length_take, length_fmap, length_replicate. lia.
  - apply Forall_app. split; [|apply Forall_replicate; lia].
    apply Forall_take, Forall_fmap, Forall_true. intros c. cbn. pose proof (nat_ascii_bounded c). lia.
Qed.

#[export] Instance platform_laws : PlatformLaws W.
Proof. split; [done|done|intros t bs; apply bytes_of_ok|intros t u bs; apply bytes_of_ok]. Qed.

#[export] Instance platform_reliable : ReliablePlatform W.
Proof. refine {| times := λ t, t = NOW ∨ t = NOW * 1000 |}; intros; cbn; auto. Defined.

#[export] Instance haps : HapTokens :=
  {| GetHapTokenInfo := λ _, Some {| hap_bundleName := "com.example.notes"; hap_userID := 100; hap_instIndex := 0 |};
     DexToHexString := dex_to_hex |}.
#[export] Instance removals : CommonEvents W := {| SubscribeCommonEvent := λ w, (true, w) |}.
#[export] Instance removals_reliable : ReliableEvents W.
Proof. by split. Qed.
#[export] Instance profile_services : SubProfileServices W :=
  {| HAS_USER_AUTH_PART := true; BatchSetApplicationEnabled := λ _ _ _ _ _, mret tt; DeleteSubProfile := λ _ _ w, (IAM_SUCCESS, w) |}.
#[export] Instance front : FrontSwitches := {| IS_RELEASE_VERSION := true; USE_MUSL := true |}.

(** A system service with every permission, and an application of user 100 with one. *)
Definition caller (uid : Z) (kind : ATokenTypeEnum) (isSystem : bool) (granted : list string) : Ipc := {|
  GetCallingUid := uid; GetCallingPid := 7; GetCallingTokenID := 5; GetCallingFullTokenID := 5; GetSelfTokenID := 1;
  VerifyAccessToken := λ _ p, bool_decide (p ∈ granted); GetTokenTypeFlag := λ _, kind; IsSystemAppByFullTokenID := λ _, isSystem;
  IPC_STUB_WRITE_PARCEL_ERR := -1 |}.
#[export] Instance settings : Ipc := caller 20001000 TOKEN_TYPE_NATIVE true
  [PERMISSION_MANAGE_DISTRIBUTED_ACCOUNTS; PERMISSION_MANAGE_USERS; PERMISSION_GET_LOCAL_ACCOUNTS].
Definition notes : Ipc := caller 20010001 TOKEN_TYPE_HAP false [PERMISSION_GET_DISTRIBUTED_ACCOUNTS].

(** The manager before it is started, on a device with some files. *)
Definition manager {cfg : Config} (texts : gmap string string) : OhosManager W :=
  mkOhosManager {| m0 with OsAccountServices.world := Concrete.world texts |} false false new_AccountStateMachine false [] [] ∅ ∅ [].

Definition alice : OhosAccountInfo :=
  {| OhosAccountInfo_new with name_ := "alice"; uid_ := "4711"; nickname_ := "Al"; avatar_ := "a"; callingUid_ := 1000 |}.
End Distributed.
Import Distributed.

(** A build without subspaces, and two people who log in. *)
Module Plain.
#[export] Instance plain_build : Config := {|
  HAS_ASSET_PART := false; ENABLE_MULTIPLE_OS_ACCOUNT_SUBSPACE := false; DISTRIBUTED_FEATURE_ENABLED := false;
  SQLITE_DLCLOSE_ENABLE := false |}.

Definition started : OhosManager W := (OnInitialize (manager ∅)).2.
Definition alan : OhosAccountInfo :=
  {| OhosAccountInfo_new with name_ := "alan"; uid_ := "4242"; nickname_ := "A."; avatar_ := "b"; callingUid_ := 1000 |}.
Definition login (i : OhosAccountInfo) : OhosManager W :=
  (SetOsAccountDistributedInfo 100 i OHOS_ACCOUNT_EVENT_LOGIN started).2.

(** The accounts that there can be: nobody's and theirs, after logouts and with tokens that
    are no longer valid. *)
Definition after (a : AccountInfo) : list AccountInfo :=
  cleared_account a :: expired_account a ::
  (i ← [alice; alan]; now ← [NOW; NOW * 1000]; [login_account i now a]).
Definition grow (l : list AccountInfo) : list AccountInfo := remove_dups (l ++ (l ≫= after)).
Definition nobody : AccountInfo := account_from_scratch 100 (NOW * 1000).
Definition possible : list AccountInfo := Eval vm_compute in Nat.iter 3 grow [nobody].

Definition known (id : Z) (a : AccountInfo) : Prop := id = 100 ∧ a ∈ possible.
Definition asked (id : Z) (i : OhosAccountInfo) : Prop := id = 100 ∧ i ∈ [alice; alan].

Lemma possible_after a b : a ∈ possible → b ∈ after a → b ∈ possible.
Proof.
  assert (H : Forall (λ a, Forall (λ b, b ∈ possible) (after a)) possible).
  { apply (bool_decide_unpack _). by vm_compute. }
  rewrite Forall_forall in H. intros Ha. specialize (H a Ha). rewrite Forall_forall in H. apply H.
Qed.

(** The ranges and the sizes of a document, to be computed. *)
Definition readable_at (a : AccountInfo) : Prop :=
  let o := ohosAccountInfo_ a in
  Forall (λ z, -2147483648 ≤ z ≤ 2147483647) [version_ a; userId_ a; status_ o; callingUid_ o] ∧
  (-9223372036854775808 ≤ createTime_ a ≤ 9223372036854775807) ∧
  Forall nul_free [name_ o; rawUid_ o; uid_ o; nickname_ o; scalableData_ o; avatar_ o] ∧
  Z.of_nat (String.length (account_text a)) ≤ MAX_FILE_SIZE ∧ Z.of_nat (String.length (avatar_ o)) ≤ MAX_FILE_SIZE ∧
  Z.of_nat (String.length (account_text a)) ≤ MAX_ACCOUNT_JSON_FILE_SIZE.

Lemma readable_at_ok a : readable_at a → readable (W := W) a.
Proof. intros (Hn & Hc & Ht & H1 & H2 & H3). split_and!; [by split|done..]. Qed.

Lemma possible_readable a : a ∈ possible → 0 ≤ 100 ∧ userId_ a = 100 ∧ readable (W := W) a.
Proof.
  assert (H : Forall (λ a, userId_ a = 100 ∧ readable_at a) possible) by (apply (bool_decide_unpack _); by vm_compute).
  rewrite Forall_forall in H. intros Ha. destruct (H a Ha) as [Hu Hr].
  split_and!; [done|done|by apply readable_at_ok].
Qed.

Lemma known_stays : stays_storable known asked.
Proof.
  split.
  - intros id a [-> Ha]. by apply possible_readable.
  - intros id a i now [-> Ha] [_ Hi] Hnow. split; [done|]. apply (possible_after a); [done|].
    unfold after. do 2 right. cbn. destruct Hnow as [->| ->]; set_solver.
  - intros id a [-> Ha]. split; [done|]. apply (possible_after a); [done|]. by left.
  - intros id a [-> Ha]. split; [done|]. apply (possible_after a); [done|]. right. by left.
Qed.

(** Nobody is logged in on the device. *)
Definition files_of (a : AccountInfo) : gmap string string :=
  {[ config_file 100 := account_text a; avatar_file 100 := avatar_ (ohosAccountInfo_ a) ]}.
Definition ready : OhosManager W := {| (manager (files_of nobody)) with initOk_ := true |}.
Lemma ready_holds : docs (disk ready) = files_of nobody.
Proof. apply (bool_decide_unpack _). by vm_compute. Qed.
Definition day : list (Z * OhosAccountInfo * string) :=
  [(100, alice, OHOS_ACCOUNT_EVENT_LOGIN); (100, alan, OHOS_ACCOUNT_EVENT_LOGIN);
   (100, alice, OHOS_ACCOUNT_EVENT_LOGOUT); (100, alan, OHOS_ACCOUNT_EVENT_LOGIN)].
End Plain.

Section PlainBuild.
Import Plain.

Lemma events_tell_the_status_witness :
  ∃ a', (AccountInfoFromJson 100 (state_changes day ready)).1 = Ok a' ∧
    status_ (ohosAccountInfo_ a') = told 100 ACCOUNT_STATE_UNBOUND (announced (state_changes day ready)).
Proof.
  apply (events_tell_the_status known asked day (files_of nobody) {[ 100 := nobody ]} ready 100 nobody).
  - reflexivity.
  - apply known_stays.
  - split; [|exact I]. split; [reflexivity|apply ready_holds].
  - reflexivity.
  - reflexivity.
  - reflexivity.
  - intros id a Ha. apply lookup_singleton_Some in Ha as [<- <-]. split_and!.
    + split; [done|]. apply (bool_decide_unpack _). by vm_compute.
    + split; by vm_compute.
    + split; [set_solver|]. done.
  - apply (bool_decide_unpack _). by vm_compute.
  - reflexivity.
Defined.

(** The file of the device holds no document. *)
Lemma start_recovers_witness :
  ∃ s', OnInitialize (manager {[ config_file 0 := "garbage" ]}) = (Ok true, s') ∧ isInit_ s' = true.
Proof.
  apply (start_recovers {[ config_file 0 := "garbage"%string ]} (manager {[ config_file 0 := "garbage"%string ]})).
  - split; [|exact I]. split; [reflexivity|]. apply (bool_decide_unpack _). by vm_compute.
  - intros now Hnow. assert (H : Forall (λ t, readable_at (account_from_scratch DEVICE_ACCOUNT_OWNER t)) [NOW; NOW * 1000])
      by (apply (bool_decide_unpack _); by vm_compute).
    rewrite Forall_forall in H. apply readable_at_ok, H. cbn in Hnow. set_solver.
Defined.

Lemma failed_changes_are_silent_witness :
  let s := login alice in
  let '(r, s') := change (SetInfoOf 100 alan OHOS_ACCOUNT_EVENT_LOGIN) s in
  is_Ok r = false ∧ announced s' = announced s.
Proof.
  cbv zeta. destruct (change (SetInfoOf 100 alan OHOS_ACCOUNT_EVENT_LOGIN) (login alice)) as [r s'] eqn:E.
  assert (Hr : r = Err ERR_ACCOUNT_COMMON_ACCOUNT_NOT_EXIST_ERROR).
  { change r with (r, s').1. rewrite <-E. by vm_compute. }
  split; [by rewrite Hr|]. rewrite Hr in E. exact (proj1 (failed_changes_are_silent _ _ _ _ E)).
Defined.

(** What is loaded of an account, and the state after that. *)
Definition loaded (i : OhosAccountInfo) : AccountInfo * OhosManager W :=
  let '(r, s) := GetAccountInfoByUserId (ipc := notes) 100 (login i) in (match r with Ok a => a | Err _ => AccountInfo_new end, s).

Lemma loaded_ok i : is_Ok (GetAccountInfoByUserId (ipc := notes) 100 (login i)).1 = true →
  GetAccountInfoByUserId (ipc := notes) 100 (login i) = (Ok (loaded i).1, (loaded i).2).
Proof. unfold loaded. by destruct (GetAccountInfoByUserId 100 (login i)) as [[a|e] s]. Qed.

Lemma ordinary_apps_learn_no_more_witness :
  (GetOhosAccountInfo (ipc := notes) (login alice)).1 = (GetOhosAccountInfo (ipc := notes) (login alan)).1.
Proof.
  apply (ordinary_apps_learn_no_more (ipc := notes) "com.example.notes" (login alice) (login alan)
           (loaded alice).1 (loaded alan).1 (loaded alice).2 (loaded alan).2).
  - by vm_compute.
  - reflexivity.
  - apply loaded_ok. by vm_compute.
  - apply loaded_ok. by vm_compute.
  - split_and!; by vm_compute.
  - split_and!; by vm_compute.
  - split; by vm_compute.
Defined.

(** Once the token of an account is no longer valid somebody else logs in over it: nobody is
    told that the first account is not bound any more. *)
Lemma another_account_takes_over :
  let s := state_changes [(100, alice, OHOS_ACCOUNT_EVENT_LOGIN); (100, alice, OHOS_ACCOUNT_EVENT_TOKEN_INVALID);
                          (100, alan, OHOS_ACCOUNT_EVENT_LOGIN)] ready in
  match (AccountInfoFromJson 100 s).1 with Ok a => name_ (ohosAccountInfo_ a) = "alan" | Err _ => False end ∧
  (λ a, match a with AccountEvent _ type _ _ => type | _ => -1 end) <$> announced s =
    [DistributedAccounts.BOUND; -1; DistributedAccounts.LOGIN; -1; -1; DistributedAccounts.TOKEN_INVALID; -1; -1;
     DistributedAccounts.LOGIN; -1; -1].
Proof. cbv zeta. split; by vm_compute. Qed.
End PlainBuild.

(** A build with subspaces, of which an account has two; the applications of the second
    cannot be enabled. *)
Module Subspaces.
Definition space (id index : Z) : OsAccountSubspaceInfo :=
  let info := OsAccountSubspaceInfo_new 100 id index index in {| info with isCreateCompleted := true |}.
#[export] Instance with_spaces : OsAccountControl W :=
  {| files with OsAccountServices.ReadSubProfileContext := λ _, mret
       {| nextSubProfileId := 100003; subProfileIdList := [100000; 100001; 100002]; nextSubProfileIndex := 3;
          subProfileIndexMap := {[ 0 := 100000; 1 := 100001; 2 := 100002 ]} |} |}.
#[export] Instance picky : SubProfileServices W :=
  {| profile_services with BatchSetApplicationEnabled := λ _ index _ _ _, if index =? 2 then merr ERR_ACCOUNT_COMMON_INVALID_PARAMETER else mret tt |}.
Definition spaces : OhosManager W :=
  manager {[ GetSubProfileFilePath 100 100001 := SerializeSubProfileInfoToJson (space 100001 1);
             GetSubProfileFilePath 100 100002 := SerializeSubProfileInfoToJson (space 100002 2) ]}.
Definition switches : list OhosAccountAnnouncements.Request :=
  [Start; SwitchSubspace 100 100001 false; SwitchSubspace 100 100002 false].
End Subspaces.

Section SubspaceBuild.
Import Subspaces.

Lemma foreground_follows_switches_witness :
  foregroundSubProfileRuntimeMap_ (serve_all switches spaces) !! 100 = Some 100001.
Proof. apply (foreground_follows_switches switches spaces 100 100001); [reflexivity|by vm_compute]. Defined.

(** Two of three numbers are taken, and the search begins at the end. *)
Lemma free_numbers_are_found_witness :
  match AllocateOsAccountSubProfileId 100 100999 [100999; 100001; 100000] with
  | Ok n => 100001 ≤ n ≤ 100999 ∧ n ∉ [100999; 100001; 100000]
  | Err e => e = ERR_OS_ACCOUNT_SUBPROFILE_LIMIT
  end ∧
  match AllocateSubProfileIndex (W := W) 2 {[ 2 := 100001 ]} with
  | Ok i => ({[ 2 := 100001 ]} : gmap Z Z) !! i = None
  | Err e => e = ERR_OS_ACCOUNT_SUBPROFILE_LIMIT
  end.
Proof.
  pose proof (free_numbers_are_found (W := W) 100 100999 [100999; 100001; 100000] 2 {[ 2 := 100001 ]} ltac:(lia)) as [H H'].
  cbv zeta in H, H'. split.
  - destruct (AllocateOsAccountSubProfileId 100 100999 _); [split; apply H|apply H].
  - destruct (AllocateSubProfileIndex 2 _); [apply H'|apply H'].
Defined.

(** A subspace whose creation was cut off. *)
Definition cut_off : OsAccountSubspaceInfo := OsAccountSubspaceInfo_new 100 100001 1 1.
Definition with_orphan : OhosManager W :=
  manager {[ GetSubProfileFilePath 100 100001 := SerializeSubProfileInfoToJson cut_off ]}.
Definition orphan_listed : Surroundings W.
Proof.
  refine {| OsAccountEnv.AddFileWatcher := λ _ _, mret tt; RemoveFileWatcher := λ _ _, mret tt;
    ListDirectory := λ _, mret (Some [("100001"%string, true)]); GetOneCfgFile := λ _, None; GetBoolParameter := λ _ d, d |};
    intros; first [apply leaves_ret | apply void_ret].
Defined.

(** The search for garbage finds it and forgets it. *)
Lemma orphans_are_not_reclaimed :
  (files_ (ScanOrphanedSubProfileIds (env := orphan_listed) 100) with_orphan).1 = Ok {[100001]} ∧
  (RemoveGarbageSubProfiles (env := orphan_listed) 100 with_orphan).1 = Ok 0.
Proof. split; by vm_compute. Qed.
End SubspaceBuild.
